(* ===== verification/_CoqProject ===== *)
-Q . S2P
Prelude.v
Err.v
Def.v
IpAddr.v
NetifDefs.v
Ip4Addr.v
Ip6Addr.v
Ip6AddrSpec.v
Chksum.v
Pbuf.v
PbufSpec.v
Packet.v
Nd6Defs.v
IpHdr.v
Ip6Hdr.v
Icmp6Hdr.v
Ip4Frag.v
Ip4FragSpec.v
Ip4FragOut.v
Ip6Frag.v
Net.v
Nd6Cache.v
Netif.v
Ip6.v
Ip6FragSpec.v
Ip6FragOut.v
Ip4.v
Icmp.v
Nd6.v
Icmp6.v
Ip4In.v
Ip6In.v
NetExamples.v
NetifLoop.v
Ip6Layer.v
Ip4Spec.v
Nd6Spec.v
Nd6Safe.v
Nd6Runs.v
Nd6Timer.v
NetifSpec.v
Ip4InSpec.v
IcmpSpec.v
Ip6Spec.v
Udp.v
UdpSpec.v
UdpPath.v
Raw.v
RawSpec.v
Ip4Stack.v
Timeouts.v
TcpDefs.v
TcpIn.v
TcpExamples.v
TcpProcess.v
TcpReassembly.v
TcpAck.v
TcpOptions.v
TcpStates.v
TcpOut.v
TcpControl.v
TcpTimers.v
TcpPcbs.v
TcpControlSpec.v
TcpChksum.v
TcpWrite.v
TcpWriteSpec.v
TcpOutSpec.v
TcpSplit.v
TcpStream.v
TcpTimersSpec.v
TcpRto.v
