(* ===== verification/Prelude.v ===== *)
(** * The lwIP core of go-tun2simple

    go-tun2simple turns a tunnel interface into proxied connections: the Go
    programs under src/core and src/stack read IP packets from the tunnel and
    hand them to lwIP (src/core/c/core), patched so that one listening TCP pcb
    accepts every connection whatever its destination, and bound to Go callbacks.
    This library models the C core, as src/core/custom/lwipopts.h configures it
    (TUN2SOCKS, NO_SYS, IPv4 and IPv6, TCP, UDP, ICMP; C library allocator;
    TCP_MSS 1460, TCP_WND and TCP_SND_BUF 32768; out-of-sequence queueing; no
    window scaling, timestamps or SACK), and proves what makes it correct.

    ** How a packet travels

    core/input.go allocates a pbuf chain, copies the packet into it (pbuf.c),
    and passes it to [ip_input] (ip.c).  IPv4 input (ip4.c) checks the header,
    collects fragments (ip4_frag.c), offers the packet to the raw pcbs (raw.c)
    and calls [tcp_input] (tcp_in.c), [udp_input] (udp.c) or [icmp_input]
    (icmp.c); IPv6 does the same with its extension headers (ip6.c, ip6_frag.c,
    icmp6.c).  TCP reads its header and options, finds the connection, runs its
    state machine, takes acknowledged segments off the send queues, reassembles
    the octet stream of the peer and hands it to the application.  On the way out
    each layer moves the start of the packet forward into the room in front of
    it, writes its header and its checksum (inet_chksum.c), and IP output cuts
    what is too long for the interface; the driver is Go code again.  Neighbor
    discovery (nd6.c) learns routers, prefixes and addresses from their messages.
    What is sent to an address of this host comes back through a queue of its
    interface (netif.c).  The timers of TCP, of reassembly
    and of neighbor discovery hang in one sorted list (timeouts.c).

    ** Conventions

    A C integer is a [Z] with the wrap-around of its type written out (Prelude:
    [u8], [u16], [u32], [s16], [s32]).  [option] is the outcome of an execution:
    [None] is a process that stops, by [LWIP_ASSERT] or [LWIP_ERROR] (both abort
    in this build) or by using freed memory.  Structs are records with
    assignment [r <| field := v |>] (Prelude).  Static variables of a C file are
    a record passed along ([TcpIn.input] for tcp_in.c).  Results of
    [malloc] are streams of answers or functions of the model's state, so
    every theorem covers allocation failure.

    ** Files

    - Prelude: machine integers, record assignment, arithmetic lemmas.
    - Err: the error codes of err.h.
    - Def: def.c (byte order, string helpers).
    - IpAddr: address records, comparison macros, scopes and zones of ip_addr.h,
      ip4_addr.h, ip6_addr.h, ip6_zone.h.
    - NetifDefs: [struct netif].
    - Ip4Addr: ip4_addr.c; printing and parsing an address are inverse.
    - Ip6Addr, Ip6AddrSpec: classes of IPv6 addresses, ip6_addr.c; the reader takes
      back what the printer writes, with the compression of zeros.
    - Chksum: inet_chksum.c.  All three variants of the checksum routine are the
      RFC 1071 sum, whatever the alignment; chain checksums do not depend on how
      the data is cut; a packet checked by the receiver sums to zero.
    - Pbuf, PbufSpec: pbuf.c on a heap of pbuf structs and payload blocks with
      reference counts.  [Pbuf.packet] relates a chain to the octets it
      carries; the theorems say what each operation does to those octets,
      to the counts and to the memory around.
    - Packet: a chain of pbufs as the protocols above pbuf.c use it.
    - IpHdr: the IPv4 header overlaid on octets.  Ip6Hdr: the IPv6 headers.
      Icmp6Hdr: the messages and options of neighbor discovery.
    - Ip4Frag, Ip4FragSpec, Ip4FragOut: ip4_frag.c.  Reassembly never fails, keeps
      its queue within its limit and accounts for every pbuf; the pieces of a
      datagram in any order give the datagram; a datagram nobody completes is
      dropped in time; what fragmentation cuts, reassembly puts together.
    - Net: what the IP layers share: the list of interfaces and assignment
      through a pointer to one of them ([netif_at], [netif_update]), the tables
      of nd6.c, the description of the current packet (ip.c), choice of the
      interface.  The driver is a class, and IPv6 for the layers above
      ([ip6_layer]), which Ip6Layer discharges.
    - Nd6Defs: the tables of nd6.c: neighbors, destinations, prefixes, routers.
      Nd6Cache: looking them up, taking an entry away for another, routers,
      path MTU, cleaning up behind an interface.
    - Netif: netif.c: adding, removing and naming interfaces, their addresses,
      state and flags.  Whom a change of address concerns is the class
      [address_users].
    - Nd6: the messages of nd6.c, [nd6_input], [nd6_tmr], the next hop and the
      queue of packets that wait for a neighbor.
    - Ip4, Ip4In: ip4.c, output and input; raw IP, UDP and TCP above are the class
      [upper_layers].
    - Icmp: icmp.c.
    - Ip6, Ip6Frag: ip6.c and ip6_frag.c: source address selection, output,
      fragmentation; reassembly.  Icmp6: icmp6.c.  Ip6In: [ip6_input], extension
      headers, reassembly in place, delivery.
    - NetExamples: a network of one interface to evaluate the models on.
      NetifLoop: the loopback queue of netif.c and [netif_poll].
    - Ip6Layer: IPv6 in the place of its interfaces, with a network of its own;
      the driver and [address_users] are what is left open.
    - Nd6Spec, Nd6Safe: the invariant [nd6_ok] of the tables, kept by every call
      this build makes of nd6.c and by the timer.  (The next hop is asked for by
      ethip6.c alone, which is not built: no destination is cached and no packet
      waits for a neighbor.)  Nd6Runs: any run of those calls returns and keeps
      it, under conditions that exclude what breaks the tables (an interface
      removed while it is down); a network of one link.  Nd6Timer: a neighbor that
      never answers and is no router is given up.
    - NetifSpec: numbers of interfaces differ, name and number are inverse; with
      255 interfaces [netif_add] never returns.
    - Ip6Spec: source selection takes the best address in the order of the rules of
      RFC 6724, which the file states on their own ([preferred_to]); what IPv6
      sends IPv6 receives.
    - Ip6FragSpec, Ip6FragOut: fragments in order give the datagram; what
      fragmentation cuts reassembly puts together; where both fail.
    - Ip4Spec: what IPv4 sends IPv4 receives.  Ip4InSpec: what becomes of a packet
      in [ip4_input], through reassembly and ICMP, for any layers above that keep
      [layers_promise].  Ip4Stack: raw.c and udp.c keep it; input returns on
      every packet that TCP takes.  IcmpSpec: an echo reply carries the octets
      of the request and verifies; an error message quotes 28 octets, also of
      a packet that has only 20.
    - Udp, UdpSpec, UdpPath: udp.c; bindings exclude each other, ephemeral ports
      are free, a datagram arrives as it was sent, through IPv4 on both sides.
    - Raw, RawSpec: raw.c; who is offered a packet, and in which order.
    - Timeouts: timeouts.c.  The list stays sorted on a clock that wraps; what
      is due runs once and in order.
    - TcpDefs: sequence numbers, segments, the pcb.  A sequence number is the
      remainder of a position; comparisons agree with those of positions less
      than 2^31 apart.
    - TcpIn: [tcp_receive] and what it calls, piece by piece.
    - TcpProcess: [tcp_input], [tcp_process], passive open, TIME-WAIT, refused
      data, closing, over two interfaces: [tcp_env] for the callbacks of the
      application, and [tcp_world] for what it calls of tcp_out.c and tcp.c.
    - TcpExamples: concrete connections and segments.
    - TcpReassembly: the receive path implements an ordered octet stream.
      The abstract state is the next position expected, the right edge of
      the window and a sorted queue of disjoint pieces; any segments of the
      peer inside the window, in any order, deliver a prefix of the stream.
      Outside the window the code can abort: that is shown too.
    - TcpAck: an acknowledgement takes exactly the acknowledged segments off the
      queues; fast recovery, congestion window, round-trip estimation, the
      announced window.
    - TcpOptions: options and header against the wire format.
    - TcpStates: the transitions of RFC 793 for synchronized connections, the
      treatment of unexpected RST and SYN, the choice of the connection,
      passive open.
    - TcpOut: tcp_out.c.  [tcp_write] queues data in three phases,
      [tcp_output] sends what the windows and Nagle's algorithm allow, the other
      functions split the head of the queue, queue SYN and FIN, and send
      control segments, keepalives and window probes.  Data is a list of
      octets with the pbufs ([part]) that hold it.
    - TcpChksum: the checksum a segment gathers while data is copied into it is
      the one the slow computation gives, and the receiver accepts it.
    - TcpWrite, TcpWriteSpec: the phases of [tcp_write] one by one, and its
      invariant [writable]: well-formed segments, where the stream ends, how
      much room is behind it.  [tcp_write] appends exactly its data or changes
      nothing; with memory and room it succeeds.
    - TcpOutSpec: [tcp_output] loses, repeats and reorders nothing, stays inside
      both windows, sends what may go; every packet carries one segment and
      verifies.
    - TcpSplit: [tcp_split_unsent_seg] keeps the octets and the accounts, but a FIN
      of the whole ends up on both halves.
    - TcpControl: the calls of tcp.c: new, bind, listen, connect, recved,
      shutdown, close, abort, the allocation of pcbs and whom it kills, local
      ports, what a change of address does.  It discharges [tcp_world].  The list of
      bound pcbs is a list and the [next] of its last element
      ([tcp_bound_next]): [tcp_bind] does not look whether the pcb is bound, and
      a second call closes the list to a circle, in which a search for what is
      not there has no result ([find_end], [bound_walk], [bound_rmv]).
    - TcpTimers: [tcp_slowtmr], [tcp_fasttmr], [tcp_tmr], [tcp_txnow].
    - TcpPcbs: the axioms of tcp_priv.h about the lists of pcbs are an invariant
      of every call and of the timers, as long as no pcb is bound twice; what
      happens when one is ([tcp_bind_twice]).
    - TcpControlSpec: a local port is found if there is one, except after the
      start that [tcp_init] can make.
    - TcpTimersSpec: the timers end; no handshake, FIN or retransmission waits for
      ever.  TcpRto: what a retransmission time-out does, with and without a
      segment the driver still holds.
    - TcpStream: sender and receiver together: what [tcp_write] was given is
      what the receive path of the other end hands on, whatever subset of the
      packets arrives, in whatever order.

    ** Bounds and fuel

    Loops over C lists follow the list.  Pbuf chains are walked with fuel one
    more than the number of pbufs in the heap, enough for any acyclic chain (the
    theorems about well-formed packets show a result is always returned).
    [check_timeouts_loop] takes fuel; the theorem gives the number of rounds
    that suffices.  [tcp_parseopt_loop] has one round more than there are option
    octets; more changes nothing, as proved.  [udp_new_port_loop] has one round
    more than there are active pcbs, [frag_loop] and the loops of reassembly
    one more than there are octets or entries: the theorems show these suffice.
    [tcp_new_port] turns 16384 times, once more than there are ports; the walk of
    [tcp_netif_ip_addr_changed_pcblist] has a round per pcb of the list, which only
    a circular list exceeds; the timers start their loop again whenever a callback changes the list, and
    [tcp_tmr_terminates] gives fuel that is enough.  Phase 3 of [tcp_write] has
    [TCP_SND_QUEUELEN] + 1 rounds: each adds a pbuf, and the code gives up when there
    are more than that.

    IPv6: the walk over the extension headers has one round more than the
    packet has octets behind the IPv6 header (every header removes at least eight),
    the options of a header as many as it has octets, [frag6_loop] one more than
    the allocator has answers (every round takes one), timer and eviction of
    reassembly one per entry (every round frees or passes one).

    Neighbor discovery follows its tables, whose sizes are fixed; the options of
    an advertisement have one round per octet (each takes at least eight; one
    without length ends the walk); room in a queue is made one round per packet
    that waits.  The search of [netif_add] for a number has 256 turns, more than
    there are numbers, so a search without a result is one that never ends.  The
    fuel of [netif_poll] bounds the packets it takes from the queue, since a packet
    received may queue another: more fuel does not change a result.

    ** Not modelled

    Code the build leaves out: ARP, DHCP, DNS, IGMP, MLD, RDNSS, altcp, UDP-Lite,
    forwarding, the callbacks of netif.c on link and status, statistics, debug
    output and the rest that lwipopts.h switches off.  An
    operation on a struct netif that is not in the list of interfaces has no
    result, since interfaces live in that list; [netif_add] takes the contents of
    a fresh one.  A pcb of a circular list of bound pcbs that the list leads back
    to is not removed: the code frees or moves it and leaves the list dangling, and
    the model has no result.  The allocators, which are wrappers of malloc: their answers are
    a parameter.  The Go programs. *)

From Stdlib Require Export ZArith Lia Bool.
From stdpp Require Export base numbers option gmap list.
Export list.

#[global] Open Scope Z_scope.

(** ** Machine integers

    A C unsigned integer of width [w] is a [Z] in [[0, 2^w)]; every C operation
    that can leave the range is followed by the conversion the C type implies. *)

Definition u8 (z : Z) : Z := z mod 256.
Definition u16 (z : Z) : Z := z mod 65536.
Definition u32 (z : Z) : Z := z mod 4294967296.

(** Conversion to a signed type of the same width (two's complement). *)
Definition s16 (z : Z) : Z := (z + 32768) mod 65536 - 32768.
Definition s32 (z : Z) : Z := (z + 2147483648) mod 4294967296 - 2147483648.

(** Truth value of a C flag test: [x & mask]. *)
Definition flagset (x mask : Z) : bool := negb (Z.land x mask =? 0).

Definition is_u8 (z : Z) : Prop := 0 <= z < 256.
Definition is_u16 (z : Z) : Prop := 0 <= z < 65536.
Definition is_u32 (z : Z) : Prop := 0 <= z < 4294967296.

(** A byte buffer: every element is an octet. *)
Abbreviation bytes_ok := (Forall is_u8).

Ltac unfold_widths :=
  unfold is_u8, is_u16, is_u32, u8, u16, u32, s16, s32 in *.

(** Arithmetic on fixed-width integers: expose the moduli and let [lia] work
    on the Euclidean equations. *)
Ltac word_lia := unfold_widths; Z.div_mod_to_equations; lia.

(** ** Failure of a platform assertion

    [LWIP_ASSERT] and [LWIP_ERROR] both end in [LWIP_PLATFORM_ASSERT], that is
    [abort()] (core/custom/arch/cc_others.h), and a dereference of [NULL] or of
    freed memory has no result either: such an execution is [None]. *)
Notation "'lwip_assert' b ; k" := (if b then k else None)
  (at level 100, b at level 99, k at level 200, right associativity,
   format "'lwip_assert'  b ;  '//' k").

(** ** Assignment to a field of a struct

    For a record with a registered eta-expansion, [r <| f := v |>] is [r] with
    the field [f] replaced; the updater is derived from the eta-expansion. *)
Class EtaRecord (R : Type) := eta_record : R -> R.
Class Setter {R T : Type} (proj : R -> T) := setter : T -> R -> R.

Ltac derive_setter :=
  lazymatch goal with
  | |- @Setter ?R ?T ?proj =>
      let v := fresh "v" in let r := fresh "r" in
      refine (fun (v : T) (r : R) => _);
      let e := eval hnf in (eta_record r) in
      lazymatch eval pattern (proj r) in e with
      | ?g _ => let b := eval cbv beta in (g v) in exact b
      end
  end.
#[export] Hint Extern 1 (@Setter _ _ _) => derive_setter : typeclass_instances.

Notation "r <| proj := v |>" := (setter (proj:=proj) v r)
  (at level 1, left associativity, proj at level 10, v at level 99, only parsing).

(** ** Lemmas shared by the components *)

Create HintDb lwip.
Create Rewrite HintDb lwip.

Lemma u8_bound z : is_u8 (u8 z).
Proof. unfold is_u8, u8. apply Z.mod_pos_bound. lia. Qed.

Lemma u16_bound z : is_u16 (u16 z).
Proof. unfold is_u16, u16. apply Z.mod_pos_bound. lia. Qed.

Lemma u32_bound z : is_u32 (u32 z).
Proof. unfold is_u32, u32. apply Z.mod_pos_bound. lia. Qed.

Lemma u8_id z : is_u8 z -> u8 z = z.
Proof. unfold is_u8, u8. intros. apply Z.mod_small. lia. Qed.

Lemma u16_id z : is_u16 z -> u16 z = z.
Proof. unfold is_u16, u16. intros. apply Z.mod_small. lia. Qed.

Lemma u32_id z : is_u32 z -> u32 z = z.
Proof. unfold is_u32, u32. intros. apply Z.mod_small. lia. Qed.

#[export] Hint Resolve u8_bound u16_bound u32_bound : lwip.
#[export] Hint Rewrite u8_id u16_id u32_id using (unfold_widths; lia) : lwip.

(** Masks and shifts of the shapes the code uses, as division and remainder. *)
Lemma land_ff z : Z.land z 255 = z mod 256.
Proof. change 255 with (Z.ones 8). by rewrite Z.land_ones. Qed.

Lemma land_ffff z : Z.land z 65535 = z mod 65536.
Proof. change 65535 with (Z.ones 16). by rewrite Z.land_ones. Qed.

Lemma shiftr_div z n : 0 <= n -> Z.shiftr z n = z / 2 ^ n.
Proof. apply Z.shiftr_div_pow2. Qed.

(** An octet mask at bit [k]. *)
Lemma land_octet z k :
  0 <= k -> Z.land z (255 * 2 ^ k) = ((z / 2 ^ k) mod 256) * 2 ^ k.
Proof.
  intros Hk. rewrite <- !Z.shiftl_mul_pow2 by lia.
  change 255 with (Z.ones 8). change 256 with (2 ^ 8).
  rewrite <- Z.shiftr_div_pow2, <- Z.land_ones by lia.
  apply Z.bits_inj'. intros n Hn. rewrite Z.land_spec.
  destruct (Z.lt_ge_cases n k).
  - by rewrite !Z.shiftl_spec_low, andb_false_r by lia.
  - rewrite !Z.shiftl_spec_high, Z.land_spec, Z.shiftr_spec by lia.
    by replace (n - k + k) with n by lia.
Qed.

Lemma land_ff00 z : Z.land z 65280 = ((z / 256) mod 256) * 256.
Proof. exact (land_octet z 8 ltac:(lia)). Qed.

Lemma land_ff0000 z : Z.land z 16711680 = ((z / 65536) mod 256) * 65536.
Proof. exact (land_octet z 16 ltac:(lia)). Qed.

Lemma land_ff000000 z : Z.land z 4278190080 = ((z / 16777216) mod 256) * 16777216.
Proof. exact (land_octet z 24 ltac:(lia)). Qed.

(** No bit above the low 16 of a 32-bit word. *)
Lemma land_zero_high z : Z.land z 4294901760 = 0 -> is_u32 z -> z mod 65536 = z.
Proof.
  intros Hz Hu. replace 4294901760 with (Z.lor (255 * 2 ^ 16) (255 * 2 ^ 24)) in Hz by done.
  rewrite Z.land_lor_distr_r in Hz. apply Z.lor_eq_0_iff in Hz as [H1 H2].
  rewrite land_octet in H1, H2 by lia.
  change (2 ^ 16) with 65536 in *. change (2 ^ 24) with 16777216 in *.
  word_lia.
Qed.

(** Disjoint bits: [lor] is addition. *)
Lemma lor_shift_add hi lo k :
  0 <= k -> 0 <= lo < 2 ^ k -> Z.lor (hi * 2 ^ k) lo = hi * 2 ^ k + lo.
Proof.
  intros Hk Hlo. rewrite <- (Z.add_lor_land (hi * 2 ^ k) lo).
  enough (Z.land (hi * 2 ^ k) lo = 0) by lia.
  rewrite <- (Z.mod_small lo (2 ^ k)), <- Z.land_ones by lia.
  rewrite Z.land_assoc, (Z.land_comm _ lo), <- Z.land_assoc, Z.land_ones by lia.
  rewrite Z.mod_mul by lia. apply Z.land_0_r.
Qed.

Lemma drop_0_when {A} n (l : list A) : n = 0%nat -> drop n l = l.
Proof. by intros ->. Qed.

#[export] Instance is_u8_dec z : Decision (is_u8 z).
Proof. unfold is_u8. apply _. Defined.
#[export] Instance is_u16_dec z : Decision (is_u16 z).
Proof. unfold is_u16. apply _. Defined.
#[export] Instance is_u32_dec z : Decision (is_u32 z).
Proof. unfold is_u32. apply _. Defined.

(** A decidable fact about concrete values, by computation. *)
Ltac decide_now :=
  match goal with |- ?P => apply (bool_decide_unpack P); vm_compute; exact I end.

(** Sums over a list. *)
Definition sum_with {A} (f : A -> Z) (l : list A) : Z := foldr (fun x a => f x + a) 0 l.
Arguments sum_with : simpl never.

Lemma sum_with_nil {A} (f : A -> Z) : sum_with f [] = 0.
Proof. done. Qed.

Lemma sum_with_cons {A} (f : A -> Z) x l : sum_with f (x :: l) = f x + sum_with f l.
Proof. done. Qed.

Lemma sum_with_app {A} (f : A -> Z) l1 l2 :
  sum_with f (l1 ++ l2) = sum_with f l1 + sum_with f l2.
Proof. induction l1 as [|x l1 IH]; [done|]. cbn [app]. rewrite !sum_with_cons, IH. lia. Qed.

Lemma sum_with_nonneg {A} (f : A -> Z) l : Forall (fun x => 0 <= f x) l -> 0 <= sum_with f l.
Proof. induction 1; [done|]. rewrite sum_with_cons. lia. Qed.

Lemma sum_with_delete {A} (f : A -> Z) l i x :
  l !! i = Some x -> sum_with f (delete i l) = sum_with f l - f x.
Proof.
  intros H. rewrite <- (take_drop_middle l i x H) at 2.
  rewrite delete_take_drop, !sum_with_app, sum_with_cons. lia.
Qed.

Lemma sum_with_insert {A} (f : A -> Z) l i x y :
  l !! i = Some x -> sum_with f (<[i := y]> l) = sum_with f l - f x + f y.
Proof.
  intros H. rewrite <- (take_drop_middle l i x H) at 2.
  rewrite insert_take_drop by (by eapply lookup_lt_Some).
  rewrite !sum_with_app, !sum_with_cons. lia.
Qed.

(** The order of the summands does not matter. *)
#[export] Instance sum_with_perm {A} (f : A -> Z) : Proper ((≡ₚ) ==> eq) (sum_with f).
Proof.
  intros l1 l2. induction 1; [done|rewrite !sum_with_cons; lia..|congruence].
Qed.

#[export] Hint Rewrite @sum_with_nil @sum_with_app @sum_with_cons : lwip.

(** A decidable fact about all 16-bit values, by computation. *)
Definition u16_forallb (P : Z -> bool) : bool :=
  forallb (fun b => forallb (fun a => P (Z.of_nat a + 256 * Z.of_nat b)) (seq 0 256)) (seq 0 256).

Lemma u16_forall (P : Z -> bool) x : u16_forallb P = true -> is_u16 x -> P x = true.
Proof.
  unfold u16_forallb. rewrite forallb_forall. intros H Hx. unfold is_u16 in Hx.
  assert (Hb : In (Z.to_nat (x / 256)) (seq 0 256)) by (apply in_seq; Z.div_mod_to_equations; lia).
  specialize (H _ Hb). rewrite forallb_forall in H.
  assert (Ha : In (Z.to_nat (x mod 256)) (seq 0 256)) by (apply in_seq; Z.div_mod_to_equations; lia).
  specialize (H _ Ha). rewrite !Z2Nat.id in H by (Z.div_mod_to_equations; lia).
  by rewrite Z.add_comm, <- Z.div_mod in H by lia.
Qed.
