(* ===== verification/Err.v ===== *)
(** * Error codes (core/c/include/lwip/err.h) *)

From S2P Require Import Prelude.

Definition ERR_OK : Z := 0.
Definition ERR_MEM : Z := -1.
Definition ERR_BUF : Z := -2.
Definition ERR_TIMEOUT : Z := -3.
Definition ERR_RTE : Z := -4.
Definition ERR_INPROGRESS : Z := -5.
Definition ERR_VAL : Z := -6.
Definition ERR_WOULDBLOCK : Z := -7.
Definition ERR_USE : Z := -8.
Definition ERR_ALREADY : Z := -9.
Definition ERR_ISCONN : Z := -10.
Definition ERR_CONN : Z := -11.
Definition ERR_IF : Z := -12.
Definition ERR_ABRT : Z := -13.
Definition ERR_RST : Z := -14.
Definition ERR_CLSD : Z := -15.
Definition ERR_ARG : Z := -16.
