(* ===== verification/Def.v ===== *)
(** * Byte order and string helpers (core/c/core/def.c, core/c/include/lwip/def.h)

    The byte-order conversions of a little-endian port and lwIP's own
    [strnstr], [stricmp], [strnicmp] and [itoa].  A C string is a list of
    character codes in [0, 256); reading past the end of the memory that holds
    it is [None]. *)

From S2P Require Import Prelude.

(** ** Byte order *)

(** [PP_HTONS]; [lwip_ntohs] is the same function. *)
Definition lwip_htons (x : Z) : Z :=
  u16 (Z.lor (Z.shiftl (Z.land x 255) 8) (Z.shiftr (Z.land x 65280) 8)).

(** [PP_HTONL]; [lwip_ntohl] is the same function. *)
Definition lwip_htonl (x : Z) : Z :=
  Z.lor (Z.lor (Z.lor (u32 (Z.shiftl (Z.land x 255) 24))
                      (u32 (Z.shiftl (Z.land x 65280) 8)))
               (Z.shiftr (Z.land x 16711680) 8))
        (Z.shiftr (Z.land x 4278190080) 24).

(** ** Strings *)

(** [strlen]: index of the first NUL. *)
Fixpoint strlen (s : list Z) : option Z :=
  match s with
  | [] => None
  | c :: r => if c =? 0 then Some 0 else n ← strlen r; Some (n + 1)
  end.

(** [strncmp(p, token, n) == 0]: compare at most [n] characters, stopping at a
    difference or at a common NUL. *)
Fixpoint strncmp_eq (p token : list Z) (n : nat) : option bool :=
  match n with
  | O => Some true
  | S n' =>
      match p, token with
      | a :: p', b :: t' =>
          if negb (a =? b) then Some false
          else if a =? 0 then Some true else strncmp_eq p' t' n'
      | _, _ => None
      end
  end.

(** The [for] loop of [lwip_strnstr]: [off] is [p - buffer]. *)
Fixpoint strnstr_loop (p token : list Z) (tokenlen n off : Z) : option (option Z) :=
  match p with
  | [] => None
  | c :: p' =>
      if negb (c =? 0) && (off + tokenlen <=? n) then
        match token with
        | [] => None
        | t0 :: _ =>
            eq ← (if c =? t0 then strncmp_eq p token (Z.to_nat tokenlen) else Some false);
            if (eq : bool) then Some (Some off)
            else strnstr_loop p' token tokenlen n (off + 1)
        end
      else Some None
  end.

(** [lwip_strnstr]: the result is the offset of the returned pointer in
    [buffer], [Some None] for [NULL]. *)
Definition lwip_strnstr (buffer token : list Z) (n : Z) : option (option Z) :=
  tokenlen ← strlen token;
  if tokenlen =? 0 then Some (Some 0)
  else strnstr_loop buffer token tokenlen n 0.

(** The comparison of one character pair in [lwip_stricmp] and
    [lwip_strnicmp]: [true] when the loop goes on. *)
Definition icmp_chars (c1 c2 : Z) : bool :=
  if negb (c1 =? c2) then
    let c1_upc := Z.lor c1 32 in
    if (97 <=? c1_upc) && (c1_upc <=? 122) then
      let c2_upc := Z.lor c2 32 in
      if negb (c1_upc =? c2_upc) then false else true
    else false
  else true.

Fixpoint lwip_stricmp (str1 str2 : list Z) : option Z :=
  match str1, str2 with
  | c1 :: r1, c2 :: r2 =>
      if icmp_chars c1 c2 then
        if negb (c1 =? 0) then lwip_stricmp r1 r2 else Some 0
      else Some 1
  | _, _ => None
  end.

(** [len] is a [size_t]: 64 bits on the platforms of the port. *)
Definition size_t (z : Z) : Z := z mod 18446744073709551616.

Fixpoint lwip_strnicmp (str1 str2 : list Z) (len : Z) : option Z :=
  match str1, str2 with
  | c1 :: r1, c2 :: r2 =>
      if icmp_chars c1 c2 then
        let len' := size_t (len - 1) in
        if negb (len' =? 0) && negb (c1 =? 0) then lwip_strnicmp r1 r2 len'
        else Some 0
      else Some 1
  | _, _ => None
  end.

(** The digit loop of [lwip_itoa]: [tmp] and [res] are offsets in [result].
    [fuel] bounds the digits of an [int]; ten are enough. *)
Fixpoint itoa_loop (fuel : nat) (buf : list Z) (n tmp res : Z) : list Z * Z * Z :=
  match fuel with
  | O => (buf, n, tmp)
  | S f =>
      if negb (n =? 0) && (res <? tmp) then
        let val := 48 + Z.rem n 10 in
        let tmp' := tmp - 1 in
        itoa_loop f (<[Z.to_nat tmp' := val]> buf) (Z.quot n 10) tmp' res
      else (buf, n, tmp)
  end.

(** [memmove(res, tmp, (result + bufsize) - tmp)] inside [result]. *)
Definition memmove_down (buf : list Z) (res tmp bufsize : Z) : list Z :=
  let n := Z.to_nat (bufsize - tmp) in
  take (Z.to_nat res) buf ++ take n (drop (Z.to_nat tmp) buf)
    ++ drop (Z.to_nat res + n) buf.

(** [lwip_itoa]: [result] is the caller's buffer of [bufsize] characters and
    the value is its new contents.  [-number] overflows for [INT_MIN]. *)
Definition lwip_itoa (result : list Z) (bufsize number : Z) : option (list Z) :=
  if number =? -2147483648 then None
  else
    let n := if 0 <=? number then number else - number in
    if bufsize <? 2 then
      if bufsize =? 1 then Some (<[0%nat := 0]> result) else Some result
    else
      let tmp := bufsize - 1 in
      let '(result, res) :=
        if number <? 0 then (<[0%nat := 45]> result, 1) else (result, 0) in
      let result := <[Z.to_nat tmp := 0]> result in
      let '(result, n, tmp) := itoa_loop 11 result n tmp res in
      if negb (n =? 0) then Some (<[0%nat := 0]> result)
      else if default 0 (result !! Z.to_nat tmp) =? 0 then
        Some (<[Z.to_nat (res + 1) := 0]> (<[Z.to_nat res := 48]> result))
      else Some (memmove_down result res tmp bufsize).

(** ** Lemmas *)

(** An unsigned value is the sum of its octets. *)
Lemma lwip_htons_octets b0 b1 :
  is_u8 b0 -> is_u8 b1 -> lwip_htons (b0 + 256 * b1) = b1 + 256 * b0.
Proof.
  intros H0 H1. unfold lwip_htons.
  rewrite land_ff, land_ff00, Z.shiftl_mul_pow2, Z.shiftr_div_pow2 by lia.
  rewrite Z.div_mul by lia.
  rewrite lor_shift_add by word_lia. change (2 ^ 8) with 256. word_lia.
Qed.

Lemma octet_mod b r : is_u8 b -> (b + 256 * r) mod 256 = b.
Proof. intros. word_lia. Qed.

Lemma octet_div b r : is_u8 b -> (b + 256 * r) / 256 = r.
Proof. intros. word_lia. Qed.

Lemma lwip_htonl_octets b0 b1 b2 b3 :
  is_u8 b0 -> is_u8 b1 -> is_u8 b2 -> is_u8 b3 ->
  lwip_htonl (b0 + 256 * b1 + 65536 * b2 + 16777216 * b3) =
  b3 + 256 * b2 + 65536 * b1 + 16777216 * b0.
Proof.
  intros H0 H1 H2 H3. unfold lwip_htonl.
  set (x := b0 + 256 * b1 + 65536 * b2 + 16777216 * b3).
  rewrite land_ff, land_ff00.
  rewrite land_ff0000, land_ff000000.
  assert (Hx : x = b0 + 256 * (b1 + 256 * (b2 + 256 * b3))) by (subst x; lia).
  replace (x / 16777216) with (x / 256 / 256 / 256) by (rewrite !Z.div_div by lia; reflexivity).
  replace (x / 65536) with (x / 256 / 256) by (rewrite !Z.div_div by lia; reflexivity).
  rewrite Hx, !octet_div, !octet_mod by done.
  replace (b3 mod 256) with b3 by word_lia.
  rewrite !Z.shiftl_mul_pow2, !Z.shiftr_div_pow2 by lia.
  change (2 ^ 24) with 16777216. change (2 ^ 8) with 256.
  replace (u32 (b0 * 16777216)) with (b0 * 2 ^ 24) by word_lia.
  replace (u32 (b1 * 256 * 256)) with (b1 * 2 ^ 16) by word_lia.
  replace (b2 * 65536 / 256) with (b2 * 2 ^ 8) by word_lia.
  replace (b3 * 16777216 / 16777216) with b3 by word_lia.
  rewrite lor_shift_add by word_lia.
  replace (b0 * 2 ^ 24 + b1 * 2 ^ 16) with ((b0 * 256 + b1) * 2 ^ 16) by lia.
  rewrite lor_shift_add by word_lia.
  replace ((b0 * 256 + b1) * 2 ^ 16 + b2 * 2 ^ 8)
    with ((b0 * 65536 + b1 * 256 + b2) * 2 ^ 8) by lia.
  rewrite lor_shift_add by word_lia. lia.
Qed.

Lemma u16_octets x : is_u16 x -> x = x mod 256 + 256 * (x / 256) /\ is_u8 (x / 256).
Proof. intros. word_lia. Qed.

Lemma u32_octets x :
  is_u32 x ->
  x = x mod 256 + 256 * (x / 256 mod 256) + 65536 * (x / 65536 mod 256)
      + 16777216 * (x / 16777216) /\ is_u8 (x / 16777216).
Proof. intros. word_lia. Qed.
