(* ===== verification/IpAddr.v ===== *)
(** * IP addresses (core/c/include/lwip/ip_addr.h, ip4_addr.h, ip6_addr.h)

    [ip_addr_t] of a dual-stack build: a union of the two address types and a
    type tag.  The IPv4 address shares its storage with the first word of the
    IPv6 address, and all words are in network byte order. *)

From S2P Require Import Prelude Def.

Definition IPADDR_TYPE_V4 : Z := 0.
Definition IPADDR_TYPE_V6 : Z := 6.
Definition IPADDR_TYPE_ANY : Z := 46.

Definition IPADDR_ANY : Z := 0.
Definition IPADDR_BROADCAST : Z := 4294967295.
Definition IPADDR_NONE : Z := 4294967295.

(** [ip6_addr_t]: four words and the scope zone. *)
Record ip6_addr := Ip6Addr { ip6_words : list Z; zone : Z }.

Record ip_addr := IpAddr { u_ip6 : ip6_addr; ip_type : Z }.

Definition ip6_word (a : ip6_addr) (i : nat) : Z := nth i (ip6_words a) 0.

Definition ip_2_ip6 (a : ip_addr) : ip6_addr := u_ip6 a.
Definition ip_2_ip4 (a : ip_addr) : Z := ip6_word (u_ip6 a) 0.

Definition IP_IS_V4_VAL (a : ip_addr) : bool := ip_type a =? IPADDR_TYPE_V4.
Definition IP_IS_V6_VAL (a : ip_addr) : bool := ip_type a =? IPADDR_TYPE_V6.

(** [IPADDR4_INIT] and [IPADDR6_INIT]. *)
Definition IPADDR4_INIT (u32val : Z) : ip_addr :=
  IpAddr (Ip6Addr [u32val; 0; 0; 0] 0) IPADDR_TYPE_V4.
Definition IPADDR6_INIT (a b c d : Z) : ip_addr :=
  IpAddr (Ip6Addr [a; b; c; d] 0) IPADDR_TYPE_V6.

Definition ip4_addr_cmp (a b : Z) : bool := a =? b.
Definition ip4_addr_netcmp (a b mask : Z) : bool := Z.land a mask =? Z.land b mask.
Definition ip4_addr_ismulticast (a : Z) : bool :=
  Z.land a (lwip_htonl 4026531840) =? lwip_htonl 3758096384.

Definition ip6_addr_cmp_zoneless (a b : ip6_addr) : bool :=
  (ip6_word a 0 =? ip6_word b 0) && (ip6_word a 1 =? ip6_word b 1)
  && (ip6_word a 2 =? ip6_word b 2) && (ip6_word a 3 =? ip6_word b 3).
Definition ip6_addr_cmp (a b : ip6_addr) : bool :=
  ip6_addr_cmp_zoneless a b && (zone a =? zone b).
Definition ip6_addr_isany (a : ip6_addr) : bool :=
  (ip6_word a 0 =? 0) && (ip6_word a 1 =? 0) && (ip6_word a 2 =? 0) && (ip6_word a 3 =? 0).
Definition ip6_addr_ismulticast (a : ip6_addr) : bool :=
  Z.land (ip6_word a 0) (lwip_htonl 4278190080) =? lwip_htonl 4278190080.
Definition ip6_addr_islinklocal (a : ip6_addr) : bool :=
  Z.land (ip6_word a 0) (lwip_htonl 4290772992) =? lwip_htonl 4269801472.
Definition ip6_addr_isloopback (a : ip6_addr) : bool :=
  (ip6_word a 0 =? 0) && (ip6_word a 1 =? 0) && (ip6_word a 2 =? 0)
  && (ip6_word a 3 =? lwip_htonl 1).

Definition ip_addr_cmp (a b : ip_addr) : bool :=
  if negb (ip_type a =? ip_type b) then false
  else if IP_IS_V6_VAL a then ip6_addr_cmp (ip_2_ip6 a) (ip_2_ip6 b)
  else ip4_addr_cmp (ip_2_ip4 a) (ip_2_ip4 b).

Definition ip_addr_isany_val (a : ip_addr) : bool :=
  if IP_IS_V6_VAL a then ip6_addr_isany (ip_2_ip6 a) else ip_2_ip4 a =? IPADDR_ANY.

Definition ip_addr_ismulticast (a : ip_addr) : bool :=
  if IP_IS_V6_VAL a then ip6_addr_ismulticast (ip_2_ip6 a)
  else ip4_addr_ismulticast (ip_2_ip4 a).

Definition IP_IS_ANY_TYPE_VAL (a : ip_addr) : bool := ip_type a =? IPADDR_TYPE_ANY.

(** Whether a pcb bound to [local_ip] can talk to [a]; with [_EXACT] the wildcard
    type of a dual-stack pcb does not count. *)
Definition IP_ADDR_PCB_VERSION_MATCH_EXACT (local_ip a : ip_addr) : bool := ip_type local_ip =? ip_type a.
Definition IP_ADDR_PCB_VERSION_MATCH (local_ip a : ip_addr) : bool :=
  IP_IS_ANY_TYPE_VAL local_ip || IP_ADDR_PCB_VERSION_MATCH_EXACT local_ip a.

(** The constant addresses behind [IP_ANY_TYPE] and [IP4_ADDR_ANY]. *)
Definition ip_addr_any_type : ip_addr := IpAddr (Ip6Addr [0; 0; 0; 0] 0) IPADDR_TYPE_ANY.
Definition ip_addr_any : ip_addr := IPADDR4_INIT IPADDR_ANY.

(** [ip_addr_set] and [ip_addr_copy]: what the destination holds afterwards. *)
Definition ip_addr_set (src : ip_addr) : ip_addr :=
  if IP_IS_V6_VAL src then src
  else IpAddr (Ip6Addr [ip_2_ip4 src; 0; 0; 0] 0) (ip_type src).

Definition ip_addr_set_any (is_ipv6 : bool) : ip_addr :=
  IpAddr (Ip6Addr [0; 0; 0; 0] 0) (if is_ipv6 then IPADDR_TYPE_V6 else IPADDR_TYPE_V4).

(** [ip4_addr_set_any] on the IPv4 part of the union: the other words stay. *)
Definition ip4_part_set_any (a : ip_addr) : ip_addr :=
  IpAddr (Ip6Addr (<[0%nat := IPADDR_ANY]> (ip6_words (u_ip6 a))) (zone (u_ip6 a))) (ip_type a).

(** Scopes (ip6_zone.h, the policy of RFC 4007). *)
Definition IP6_NO_ZONE : Z := 0.
Inductive scope_type := IP6_UNKNOWN | IP6_UNICAST | IP6_MULTICAST.

Definition ip6_addr_ismulticast_iflocal (a : ip6_addr) : bool :=
  Z.land (ip6_word a 0) (lwip_htonl 4287561728) =? lwip_htonl 4278255616.
Definition ip6_addr_ismulticast_linklocal (a : ip6_addr) : bool :=
  Z.land (ip6_word a 0) (lwip_htonl 4287561728) =? lwip_htonl 4278321152.

Definition ip6_addr_has_zone (a : ip6_addr) : bool := negb (zone a =? IP6_NO_ZONE).
Definition ip6_addr_has_scope (a : ip6_addr) (type : scope_type) : bool :=
  ip6_addr_islinklocal a
  || (match type with IP6_UNICAST => false | _ => true end
      && (ip6_addr_ismulticast_iflocal a || ip6_addr_ismulticast_linklocal a)).
Definition ip6_addr_lacks_zone (a : ip6_addr) (type : scope_type) : bool :=
  negb (ip6_addr_has_zone a) && ip6_addr_has_scope a type.
Definition ip6_addr_assign_zone (a : ip6_addr) (type : scope_type) (netif_index : Z) : ip6_addr :=
  Ip6Addr (ip6_words a) (if ip6_addr_has_scope a type then netif_index else 0).

(** A well-formed address: four 32-bit words. *)
Definition ip6_ok (a : ip6_addr) : Prop :=
  length (ip6_words a) = 4%nat /\ Forall is_u32 (ip6_words a).
Definition ip_ok (a : ip_addr) : Prop := ip6_ok (u_ip6 a).

(** ** Lemmas *)

Lemma ip6_ok_words a :
  ip6_ok a -> exists a0 a1 a2 a3,
    ip6_words a = [a0; a1; a2; a3] /\ is_u32 a0 /\ is_u32 a1 /\ is_u32 a2 /\ is_u32 a3.
Proof.
  intros [Hl Ha].
  destruct (ip6_words a) as [|a0 [|a1 [|a2 [|a3 [|]]]]]; try done.
  rewrite !Forall_cons in Ha. destruct Ha as (?&?&?&?&_). by exists a0, a1, a2, a3.
Qed.

Lemma ip_2_ip4_u32 a : ip_ok a -> is_u32 (ip_2_ip4 a).
Proof.
  intros H. destruct (ip6_ok_words _ H) as (a0 & a1 & a2 & a3 & E & ? & _).
  unfold ip_2_ip4, ip6_word. by rewrite E.
Qed.

Lemma ip4_addr_cmp_eq a b : ip4_addr_cmp a b = true <-> a = b.
Proof. apply Z.eqb_eq. Qed.

(** Comparison is an equivalence on addresses of one type. *)
Lemma ip_addr_cmp_refl a : ip_addr_cmp a a = true.
Proof.
  unfold ip_addr_cmp, ip6_addr_cmp, ip6_addr_cmp_zoneless, ip4_addr_cmp.
  rewrite !Z.eqb_refl. simpl. by destruct (IP_IS_V6_VAL a).
Qed.
