(* ===== verification/NetifDefs.v ===== *)
(** * Network interfaces: the data (core/c/include/lwip/netif.h)

    [struct netif] as the build compiles it: two address families, address
    lifetimes, router solicitation, and the loopback queue.  The function
    pointers ([input], [output], [output_ip6]) are not data: the models that
    call them take the driver as a parameter. *)

From S2P Require Import Prelude Def IpAddr.

Definition NETIF_FLAG_UP : Z := 1.
Definition NETIF_FLAG_BROADCAST : Z := 2.
Definition NETIF_FLAG_LINK_UP : Z := 4.
Definition NETIF_FLAG_ETHARP : Z := 8.
Definition NETIF_FLAG_ETHERNET : Z := 16.
Definition NETIF_FLAG_IGMP : Z := 32.
Definition NETIF_FLAG_MLD6 : Z := 64.

Record netif := Netif {
  nif_ptr : Z;                             (* the address of the struct *)
  nif_ip_addr : ip_addr;
  nif_netmask : ip_addr;
  nif_gw : ip_addr;
  nif_ip6_addr : list ip_addr;             (* LWIP_IPV6_NUM_ADDRESSES of them *)
  nif_ip6_addr_state : list Z;
  nif_ip6_addr_valid_life : list Z;
  nif_ip6_addr_pref_life : list Z;
  nif_mtu : Z;
  nif_mtu6 : Z;
  nif_hwaddr : list Z;
  nif_hwaddr_len : Z;
  nif_flags : Z;
  nif_name : list Z;
  nif_num : Z;
  nif_ip6_autoconfig_enabled : bool;
  nif_rs_count : Z
}.

#[export] Instance eta_netif : EtaRecord netif := fun n =>
  Netif (nif_ptr n) (nif_ip_addr n) (nif_netmask n) (nif_gw n) (nif_ip6_addr n) (nif_ip6_addr_state n)
    (nif_ip6_addr_valid_life n) (nif_ip6_addr_pref_life n) (nif_mtu n) (nif_mtu6 n)
    (nif_hwaddr n) (nif_hwaddr_len n) (nif_flags n) (nif_name n) (nif_num n)
    (nif_ip6_autoconfig_enabled n) (nif_rs_count n).

Definition netif_ip4_addr (n : netif) : Z := ip_2_ip4 (nif_ip_addr n).
Definition netif_ip4_netmask (n : netif) : Z := ip_2_ip4 (nif_netmask n).
Definition netif_ip4_gw (n : netif) : Z := ip_2_ip4 (nif_gw n).
Definition netif_is_up (n : netif) : bool := flagset (nif_flags n) NETIF_FLAG_UP.
Definition netif_is_link_up (n : netif) : bool := flagset (nif_flags n) NETIF_FLAG_LINK_UP.

(** [netif_get_index]: the number plus one, in an [u8_t]. *)
Definition netif_get_index (n : netif) : Z := u8 (nif_num n + 1).
