(* ===== verification/Ip4Addr.v ===== *)
(** * IPv4 addresses (core/c/core/ipv4/ip4_addr.c)

    Broadcast addresses of an interface, netmasks, and the dotted notation.  An
    address is the 32-bit word of the struct, in network byte order on a
    little-endian machine: its low octet is the first one written.  A C string is
    a list of character codes up to and including its NUL; reading past the
    memory that holds it, or writing past the end of a buffer, is [None]. *)

From S2P Require Import Prelude Def IpAddr NetifDefs.

(** Bitwise complement of a [u32_t]. *)
Definition u32_not (x : Z) : Z := u32 (Z.lnot x).

Definition ip4_addr_isbroadcast_u32 (addr : Z) (nif : netif) : bool :=
  if (u32_not addr =? IPADDR_ANY) || (addr =? IPADDR_ANY) then true
  else if Z.land (nif_flags nif) NETIF_FLAG_BROADCAST =? 0 then false
  else if addr =? netif_ip4_addr nif then false
  else if ip4_addr_netcmp addr (netif_ip4_addr nif) (netif_ip4_netmask nif)
          && (Z.land addr (u32_not (netif_ip4_netmask nif)) =?
              Z.land IPADDR_BROADCAST (u32_not (netif_ip4_netmask nif))) then true
  else false.

Definition ip_addr_isbroadcast (a : ip_addr) (n : netif) : bool :=
  if IP_IS_V6_VAL a then false else ip4_addr_isbroadcast_u32 (ip_2_ip4 a) n.

(** ** Netmasks *)

(** [for (; mask != 0; mask >>= 1) if (stop (nm & mask)) break;] with the
    final value of [mask]. *)
Fixpoint netmask_scan (fuel : nat) (stop : bool -> bool) (nm mask : Z) : Z :=
  match fuel with
  | O => mask
  | S f =>
      if mask =? 0 then mask
      else if stop (Z.land nm mask =? 0) then mask
      else netmask_scan f stop nm (Z.shiftr mask 1)
  end.

(** [mask] has one bit, at most 33 positions. *)
Definition ip4_addr_netmask_valid (netmask : Z) : bool :=
  let nm_hostorder := lwip_htonl netmask in
  let mask := netmask_scan 33 id nm_hostorder (Z.shiftl 1 31) in
  let mask := netmask_scan 33 negb nm_hostorder mask in
  mask =? 0.

(** ** Reading the dotted notation *)

Definition in_range (c lo up : Z) : bool := (lo <=? c) && (c <=? up).
Definition lwip_isdigit (c : Z) : bool := in_range c 48 57.
Definition lwip_isxdigit (c : Z) : bool :=
  lwip_isdigit c || in_range c 97 102 || in_range c 65 70.
Definition lwip_islower (c : Z) : bool := in_range c 97 122.
Definition lwip_isspace (c : Z) : bool := (c =? 32) || in_range c 9 13.

(** The inner loop: the digits of one number in [base]. *)
Fixpoint aton_digits (base val : Z) (cp : list Z) : option (Z * list Z) :=
  match cp with
  | [] => None
  | c :: r =>
      if lwip_isdigit c then aton_digits base (u32 (u32 (val * base) + (c - 48))) r
      else if (base =? 16) && lwip_isxdigit c then
        aton_digits base
          (Z.lor (u32 (Z.shiftl val 4)) (c + 10 - (if lwip_islower c then 97 else 65))) r
      else Some (val, cp)
  end.

(** One number with its prefix; [Some None] is [return 0]. *)
Definition aton_number (cp : list Z) : option (option (Z * list Z)) :=
  match cp with
  | [] => None
  | c :: r =>
      if negb (lwip_isdigit c) then Some None
      else if c =? 48 then
        match r with
        | [] => None
        | c :: r' =>
            if (c =? 120) || (c =? 88) then res ← aton_digits 16 0 r'; Some (Some res)
            else res ← aton_digits 8 0 r; Some (Some res)
        end
      else res ← aton_digits 10 0 cp; Some (Some res)
  end.

(** The outer loop: [parts] filled so far, [val], the rest of the string. *)
Fixpoint aton_parts (free : nat) (parts : list Z) (cp : list Z)
  : option (option (list Z * Z * list Z)) :=
  num ← aton_number cp;
  match num with
  | None => Some None
  | Some (val, cp) =>
      match cp with
      | [] => None
      | c :: r =>
          if c =? 46 then
            match free with
            | O => Some None
            | S free' => aton_parts free' (parts ++ [val]) r
            end
          else Some (Some (parts, val, cp))
      end
  end.

(** The [switch] on the number of parts. *)
Definition aton_concoct (parts : list Z) (val : Z) : option Z :=
  match parts with
  | [] => Some val
  | [p0] =>
      if 16777215 <? val then None else if 255 <? p0 then None
      else Some (Z.lor val (u32 (Z.shiftl p0 24)))
  | [p0; p1] =>
      if 65535 <? val then None
      else if (255 <? p0) || (255 <? p1) then None
      else Some (Z.lor val (Z.lor (u32 (Z.shiftl p0 24)) (u32 (Z.shiftl p1 16))))
  | p0 :: p1 :: p2 :: _ =>
      if 255 <? val then None
      else if (255 <? p0) || (255 <? p1) || (255 <? p2) then None
      else Some (Z.lor val (Z.lor (Z.lor (u32 (Z.shiftl p0 24)) (u32 (Z.shiftl p1 16)))
                                  (u32 (Z.shiftl p2 8))))
  end.

(** [ip4addr_aton]: [Some None] is 0, [Some (Some a)] is 1 with [a] stored. *)
Definition ip4addr_aton (cp : list Z) : option (option Z) :=
  res ← aton_parts 3 [] cp;
  match res with
  | None => Some None
  | Some (parts, val, cp) =>
      match cp with
      | [] => None
      | c :: _ =>
          if negb (c =? 0) && negb (lwip_isspace c) then Some None
          else match aton_concoct parts val with
               | None => Some None
               | Some val => Some (Some (lwip_htonl val))
               end
      end
  end.

Definition ipaddr_addr (cp : list Z) : option Z :=
  res ← ip4addr_aton cp;
  match res with Some val => Some val | None => Some IPADDR_NONE end.

(** ** Writing the dotted notation *)

(** The [do ... while] that writes the digits of an octet to [inv], lowest
    first; three are enough. *)
Fixpoint inv_digits (fuel : nat) (ap : Z) : list Z :=
  match fuel with
  | O => []
  | S f =>
      let rem := ap mod 10 in
      let ap := ap / 10 in
      (48 + rem) :: (if ap =? 0 then [] else inv_digits f ap)
  end.

(** [if (len++ >= buflen) return NULL; *rp++ = c;] for the characters [cs]:
    [rp] is the offset in [buf].  [Some None] is [NULL]. *)
Fixpoint put_chars (cs : list Z) (buflen : Z) (buf : list Z) (len : Z)
  : option (option (list Z * Z)) :=
  match cs with
  | [] => Some (Some (buf, len))
  | c :: r =>
      if buflen <=? len then Some None
      else if (length buf <=? Z.to_nat len)%nat then None
      else put_chars r buflen (<[Z.to_nat len := c]> buf) (len + 1)
  end.

(** The [for] loop over the octets [aps] of the address. *)
Fixpoint ntoa_octets (aps : list Z) (buflen : Z) (buf : list Z) (len : Z)
  : option (option (list Z * Z)) :=
  match aps with
  | [] => Some (Some (buf, len))
  | ap :: r =>
      res ← put_chars (rev (inv_digits 3 ap) ++ [46]) buflen buf len;
      match res with
      | None => Some None
      | Some (buf, len) => ntoa_octets r buflen buf len
      end
  end.

(** The octets of [s_addr] in memory. *)
Definition addr_octets (a : Z) : list Z :=
  [a mod 256; a / 256 mod 256; a / 65536 mod 256; a / 16777216 mod 256].

(** [ip4addr_ntoa_r]: the contents of [buf] afterwards, or [Some None] for [NULL]. *)
Definition ip4addr_ntoa_r (addr : Z) (buf : list Z) (buflen : Z) : option (option (list Z)) :=
  res ← ntoa_octets (addr_octets addr) buflen buf 0;
  match res with
  | None => Some None
  | Some (buf, rp) => Some (Some (<[Z.to_nat (rp - 1) := 0]> buf))
  end.

Definition IP4ADDR_STRLEN_MAX : Z := 16.

Definition ip4addr_ntoa (addr : Z) (str : list Z) : option (option (list Z)) :=
  ip4addr_ntoa_r addr str IP4ADDR_STRLEN_MAX.

(** The C string at the start of a buffer, with its NUL. *)
Fixpoint c_string (buf : list Z) : list Z :=
  match buf with
  | [] => []
  | c :: r => if c =? 0 then [0] else c :: c_string r
  end.

Example aton_loopback :
  ip4addr_aton [49; 50; 55; 46; 49; 0] = Some (Some (127 + 16777216 * 1)).
Proof. by vm_compute. Qed.

Example ntoa_loopback :
  ip4addr_ntoa (127 + 16777216) (repeat 1 16)
  = Some (Some [49; 50; 55; 46; 48; 46; 48; 46; 49; 0; 1; 1; 1; 1; 1; 1]).
Proof. by vm_compute. Qed.

(** ** Lemmas *)

(** The decimal notation of an octet. *)
Definition dec (b : Z) : list Z := rev (inv_digits 3 b).

(** What [inv_digits] yields: one to three digits without a leading zero. *)
Lemma dec_cases b :
  is_u8 b ->
  (dec b = [48 + b] /\ b < 10) \/
  (exists d1 d0, dec b = [48 + d1; 48 + d0] /\ b = 10 * d1 + d0 /\ 1 <= d1 < 10 /\ 0 <= d0 < 10) \/
  (exists d2 d1 d0, dec b = [48 + d2; 48 + d1; 48 + d0] /\ b = 100 * d2 + 10 * d1 + d0 /\
                    1 <= d2 < 10 /\ 0 <= d1 < 10 /\ 0 <= d0 < 10).
Proof.
  intros Hb. unfold is_u8 in Hb. unfold dec. cbn [inv_digits].
  destruct (Z.eqb_spec (b / 10) 0) as [E1|E1].
  { left. split; [simpl; repeat f_equal|]; Z.div_mod_to_equations; lia. }
  destruct (Z.eqb_spec (b / 10 / 10) 0) as [E2|E2]; right; [left|right].
  - exists (b / 10 mod 10), (b mod 10). simpl. split; [done|]. Z.div_mod_to_equations. lia.
  - exists (b / 10 / 10 mod 10), (b / 10 mod 10), (b mod 10). simpl.
    replace (b / 10 / 10 / 10 =? 0) with true
      by (symmetry; apply Z.eqb_eq; Z.div_mod_to_equations; lia).
    split; [done|]. Z.div_mod_to_equations. lia.
Qed.

Lemma isdigit_code d : 0 <= d < 10 -> lwip_isdigit (48 + d) = true.
Proof. intros. unfold lwip_isdigit, in_range. lia. Qed.

Lemma aton_digits_step base val d r :
  0 <= d < 10 -> 0 <= val * base + d < 4294967296 -> 0 <= val * base ->
  aton_digits base val (48 + d :: r) = aton_digits base (val * base + d) r.
Proof.
  intros Hd Hv Hb. cbn [aton_digits]. rewrite isdigit_code by done.
  f_equal. rewrite (u32_id (val * base)) by (unfold is_u32; lia).
  rewrite u32_id by (unfold is_u32; lia). lia.
Qed.

Lemma aton_digits_stop base val c r :
  lwip_isdigit c = false -> base <> 16 -> aton_digits base val (c :: r) = Some (val, c :: r).
Proof.
  intros Hc Hb. cbn [aton_digits]. rewrite Hc. by destruct (Z.eqb_spec base 16).
Qed.

(** Reading back a printed octet. *)
Lemma aton_number_dec b c r :
  is_u8 b -> lwip_isdigit c = false -> c <> 120 -> c <> 88 ->
  aton_number (dec b ++ c :: r) = Some (Some (b, c :: r)).
Proof.
  intros Hb Hc Hx HX. unfold is_u8 in Hb.
  destruct (dec_cases b Hb) as [[-> Hlt]|[(d1 & d0 & -> & E & ? & ?)|(d2 & d1 & d0 & -> & E & ? & ? & ?)]];
    unfold aton_number; rewrite <- ?app_comm_cons, ?app_nil_l, isdigit_code by lia; cbn [negb];
    match goal with |- context [48 + ?d =? 48] => destruct (Z.eqb_spec (48 + d) 48); [try lia|] end.
  - assert (b = 0) as -> by lia. rewrite (proj2 (Z.eqb_neq c 120)), (proj2 (Z.eqb_neq c 88)) by done.
    cbn [orb]. by rewrite aton_digits_stop.
  - rewrite aton_digits_step, aton_digits_stop by (done || lia). cbn [mbind option_bind].
    by do 3 f_equal.
  - rewrite !aton_digits_step, aton_digits_stop by (done || lia). cbn [mbind option_bind].
    do 3 f_equal. lia.
  - rewrite !aton_digits_step, aton_digits_stop by (done || lia). cbn [mbind option_bind].
    do 3 f_equal. lia.
Qed.

Lemma put_chars_spec cs : forall buflen buf len,
  0 <= len -> buflen <= Z.of_nat (length buf) ->
  put_chars cs buflen buf len =
  Some (if decide (cs = [] \/ len + Z.of_nat (length cs) <= buflen)
        then Some (take (Z.to_nat len) buf ++ cs ++ drop (Z.to_nat len + length cs) buf,
                   len + Z.of_nat (length cs))
        else None).
Proof.
  induction cs as [|c cs IH]; intros buflen buf len Hl Hb.
  { cbn. rewrite Nat.add_0_r, take_drop, Z.add_0_r. done. }
  cbn [put_chars]. destruct (Z.leb_spec buflen len).
  { case_decide as D; [|done]. destruct D as [?|D]; [done|]. simpl in D. lia. }
  destruct (Nat.leb_spec (length buf) (Z.to_nat len)); [lia|].
  rewrite IH by (rewrite ?length_insert; lia). simpl length.
  assert (Hi : <[Z.to_nat len:=c]> buf
               = take (Z.to_nat len) buf ++ c :: drop (S (Z.to_nat len)) buf).
  { apply insert_take_drop. lia. }
  replace (Z.to_nat (len + 1)) with (S (Z.to_nat len)) by lia.
  case_decide as D; case_decide as D'; try done.
  - do 2 f_equal. apply f_equal2; [|lia]. rewrite Hi.
    rewrite take_app_ge, drop_app_ge by (rewrite length_take; lia).
    rewrite length_take, Nat.min_l by lia.
    replace (S (Z.to_nat len) - Z.to_nat len)%nat with 1%nat by lia.
    replace (S (Z.to_nat len) + length cs - Z.to_nat len)%nat with (S (length cs)) by lia.
    cbn [take drop]. rewrite take_0, drop_drop, <- app_assoc. cbn [app].
    do 3 f_equal. apply (f_equal (fun n => drop n buf)). lia.
  - destruct D as [->|D]; [|destruct D'; right; lia]. simpl in *. destruct D'. right. lia.
  - destruct D. destruct D' as [?|D']; [done|]. right. lia.
Qed.

(** The characters [ip4addr_ntoa_r] writes before it replaces the last one. *)
Definition dotted (aps : list Z) : list Z := concat (map (fun ap => dec ap ++ [46]) aps).

Lemma ntoa_octets_spec aps : forall buflen buf len,
  0 <= len <= buflen -> buflen <= Z.of_nat (length buf) ->
  ntoa_octets aps buflen buf len =
  Some (if decide (len + Z.of_nat (length (dotted aps)) <= buflen)
        then Some (take (Z.to_nat len) buf ++ dotted aps
                   ++ drop (Z.to_nat len + length (dotted aps)) buf,
                   len + Z.of_nat (length (dotted aps)))
        else None).
Proof.
  induction aps as [|ap aps IH]; intros buflen buf len Hl Hb.
  { cbn. rewrite Nat.add_0_r, take_drop, Z.add_0_r. case_decide; [done|lia]. }
  cbn [ntoa_octets]. fold (dec ap). change (dotted (ap :: aps)) with ((dec ap ++ [46]) ++ dotted aps).
  rewrite put_chars_spec by lia. cbn [mbind option_bind].
  set (cs := dec ap ++ [46]). rewrite length_app.
  case_decide as D.
  - assert (len + Z.of_nat (length cs) <= buflen) as D'
      by (destruct D as [->|]; [simpl|]; lia).
    rewrite IH by (rewrite ?length_app, ?length_take, ?length_drop; lia).
    case_decide; case_decide; try lia; [|done].
    do 2 f_equal. apply f_equal2; [|lia].
    rewrite (app_assoc (take _ buf)).
    rewrite take_app_length', drop_app_ge
      by (rewrite ?length_app, ?length_take; lia).
    rewrite drop_drop, <- !app_assoc, length_app, length_take. do 3 f_equal.
    apply (f_equal (fun n => drop n buf)). lia.
  - case_decide; [|done]. destruct D. right. lia.
Qed.

Lemma dotted_length aps : Forall is_u8 aps -> (length (dotted aps) <= 4 * length aps)%nat.
Proof.
  induction 1 as [|ap aps Ha _ IH]; [done|].
  change (dotted (ap :: aps)) with ((dec ap ++ [46]) ++ dotted aps). rewrite !length_app.
  destruct (dec_cases ap Ha) as [[-> _]|[(? & ? & -> & _)|(? & ? & ? & -> & _)]]; simpl; lia.
Qed.

Lemma addr_octets_ok a : is_u32 a -> Forall is_u8 (addr_octets a).
Proof. intros. unfold addr_octets. repeat constructor; word_lia. Qed.

(** Reading back four printed octets. *)
Lemma aton_dotted b0 b1 b2 b3 rest :
  is_u8 b0 -> is_u8 b1 -> is_u8 b2 -> is_u8 b3 ->
  ip4addr_aton (dec b0 ++ 46 :: dec b1 ++ 46 :: dec b2 ++ 46 :: dec b3 ++ 0 :: rest)
  = Some (Some (b0 + 256 * b1 + 65536 * b2 + 16777216 * b3)).
Proof.
  intros H0 H1 H2 H3. unfold ip4addr_aton. cbn [aton_parts].
  do 3 (rewrite aton_number_dec by done; cbn [mbind option_bind Z.eqb Pos.eqb app]).
  rewrite aton_number_dec by done. cbn [mbind option_bind Z.eqb Pos.eqb app negb andb orb].
  unfold aton_concoct. unfold is_u8 in *.
  rewrite (proj2 (Z.ltb_ge 255 b0)), (proj2 (Z.ltb_ge 255 b1)), (proj2 (Z.ltb_ge 255 b2)),
    (proj2 (Z.ltb_ge 255 b3)) by lia. cbn [orb].
  rewrite !Z.shiftl_mul_pow2, !u32_id by (unfold is_u32; lia).
  rewrite Z.lor_comm.
  rewrite (lor_shift_add b0 _ 24) by lia.
  replace (b0 * 2 ^ 24 + b1 * 2 ^ 16) with ((b0 * 256 + b1) * 2 ^ 16) by lia.
  rewrite (lor_shift_add _ _ 16) by lia.
  replace ((b0 * 256 + b1) * 2 ^ 16 + b2 * 2 ^ 8)
    with ((b0 * 65536 + b1 * 256 + b2) * 2 ^ 8) by lia.
  rewrite (lor_shift_add _ _ 8) by lia.
  replace ((b0 * 65536 + b1 * 256 + b2) * 2 ^ 8 + b3)
    with (b3 + 256 * b2 + 65536 * b1 + 16777216 * b0) by lia.
  rewrite lwip_htonl_octets by done. done.
Qed.

Lemma insert_last_app (pre : list Z) x y tl :
  <[Z.to_nat (Z.of_nat (length (pre ++ [x])) - 1) := y]> ((pre ++ [x]) ++ tl) = pre ++ y :: tl.
Proof.
  rewrite <- app_assoc, length_app. simpl.
  replace (Z.to_nat _) with (length pre + 0)%nat by lia. by rewrite insert_app_r.
Qed.

(** The text of an address, behind it [rest]. *)
Definition ip4_text (a : Z) (rest : list Z) : list Z :=
  dec (a mod 256) ++ 46 :: dec (a / 256 mod 256) ++ 46 :: dec (a / 65536 mod 256) ++ 46 ::
  dec (a / 16777216 mod 256) ++ 0 :: rest.

Lemma aton_ip4_text a rest : is_u32 a -> ip4addr_aton (ip4_text a rest) = Some (Some a).
Proof.
  intros Ha. pose proof (addr_octets_ok a Ha) as Ho. unfold addr_octets in Ho.
  rewrite !Forall_cons in Ho. destruct Ho as (H0 & H1 & H2 & H3 & _). unfold ip4_text.
  rewrite aton_dotted by done. do 2 f_equal.
  destruct (u32_octets a Ha) as [E _]. unfold is_u32 in Ha. Z.div_mod_to_equations. lia.
Qed.

Lemma ip4addr_ntoa_text a buf buflen : is_u32 a -> 0 <= buflen <= Z.of_nat (length buf) ->
  exists r, ip4addr_ntoa_r a buf buflen = Some r /\ (r = None -> buflen < IP4ADDR_STRLEN_MAX) /\
    (forall buf', r = Some buf' -> length buf' = length buf /\ exists rest, buf' = ip4_text a rest).
Proof.
  intros Ha Hb. unfold ip4addr_ntoa_r. rewrite ntoa_octets_spec by lia.
  pose proof (addr_octets_ok a Ha) as Ho. pose proof (dotted_length _ Ho) as Hd.
  cbn [mbind option_bind]. rewrite take_0. cbn [app Z.add Nat.add Z.to_nat].
  case_decide as D; (eexists; split; [done|]); (split; [done || (intros _; simpl in *; unfold IP4ADDR_STRLEN_MAX; lia)|]);
    intros buf' E; simplify_eq.
  split; [rewrite length_insert, length_app, length_drop; lia|].
  set (tl := drop _ buf). exists tl.
  set (pre := dec (a mod 256) ++ 46 :: dec (a / 256 mod 256) ++ 46 ::
              dec (a / 65536 mod 256) ++ 46 :: dec (a / 16777216 mod 256)).
  match goal with |- context [dotted ?l] =>
    assert (Hs : dotted l = pre ++ [46])
      by (unfold dotted, pre, addr_octets; cbn [map concat]; repeat (rewrite <- app_assoc; cbn [app]); done)
  end.
  rewrite Hs, Z.add_0_l, insert_last_app. unfold pre, ip4_text. repeat (rewrite <- app_assoc; cbn [app]). done.
Qed.

(** ** Properties *)

(** printing an IPv4 address never writes past the buffer; it fails only if
    the buffer has fewer than 16 octets, and what it printed is read back as the
    same address, whatever was in the buffer. *)
Theorem ip4addr_text_round_trip a buf buflen :
  is_u32 a -> 0 <= buflen <= Z.of_nat (length buf) ->
  exists r, ip4addr_ntoa_r a buf buflen = Some r /\
    (r = None -> buflen < IP4ADDR_STRLEN_MAX) /\
    (forall buf', r = Some buf' ->
       length buf' = length buf /\ ip4addr_aton buf' = Some (Some a)).
Proof.
  intros Ha Hb. destruct (ip4addr_ntoa_text a buf buflen Ha Hb) as (r & E & Hn & Hr). exists r.
  split_and!; [done|done|]. intros buf' ->. destruct (Hr buf' eq_refl) as (Hl & rest & ->). split; [done|]. by apply aton_ip4_text.
Qed.

Lemma ip4addr_text_round_trip_witness :
  exists r, ip4addr_ntoa_r 4294967295 (repeat 7 16) 16 = Some r /\
    (r = None -> 16 < IP4ADDR_STRLEN_MAX) /\
    (forall buf', r = Some buf' ->
       length buf' = 16%nat /\ ip4addr_aton buf' = Some (Some 4294967295)).
Proof. apply (ip4addr_text_round_trip 4294967295 (repeat 7 16) 16); [split; done|split; done]. Defined.
