(* ===== verification/Ip6Addr.v ===== *)
(** * IPv6 addresses (core/c/core/ipv6/ip6_addr.c, core/c/include/lwip/ip6_addr.h)

    The classes and states of addresses, and their text form.  [ip6addr_ntoa_r]
    writes the blocks in hexadecimal with the first run of zero blocks as [::],
    [ip6addr_aton] reads that back, also with an IPv4 address at the end. *)

From S2P Require Import Prelude Def IpAddr NetifDefs Ip4Addr.

(** ** Classes of addresses *)

Definition ip6_addr_isglobal (a : ip6_addr) : bool :=
  Z.land (ip6_word a 0) (lwip_htonl 3758096384) =? lwip_htonl 536870912.
Definition ip6_addr_issitelocal (a : ip6_addr) : bool :=
  Z.land (ip6_word a 0) (lwip_htonl 4290772992) =? lwip_htonl 4273995776.
Definition ip6_addr_isuniquelocal (a : ip6_addr) : bool :=
  Z.land (ip6_word a 0) (lwip_htonl 4261412864) =? lwip_htonl 4227858432.
Definition ip6_addr_isipv4mappedipv6 (a : ip6_addr) : bool :=
  (ip6_word a 0 =? 0) && (ip6_word a 1 =? 0) && (ip6_word a 2 =? lwip_htonl 65535).
Definition ip6_addr_multicast_scope (a : ip6_addr) : Z :=
  Z.land (Z.shiftr (lwip_htonl (ip6_word a 0)) 16) 15.

Definition IP6_MULTICAST_SCOPE_RESERVED : Z := 0.
Definition IP6_MULTICAST_SCOPE_LINK_LOCAL : Z := 2.
Definition IP6_MULTICAST_SCOPE_SITE_LOCAL : Z := 5.
Definition IP6_MULTICAST_SCOPE_ORGANIZATION_LOCAL : Z := 8.
Definition IP6_MULTICAST_SCOPE_GLOBAL : Z := 14.
Definition IP6_MULTICAST_SCOPE_RESERVEDF : Z := 15.

Definition ip6_addr_netcmp_zoneless (a b : ip6_addr) : bool :=
  (ip6_word a 0 =? ip6_word b 0) && (ip6_word a 1 =? ip6_word b 1).
Definition ip6_addr_netcmp (a b : ip6_addr) : bool := ip6_addr_netcmp_zoneless a b && (zone a =? zone b).
Definition ip6_addr_nethostcmp (a b : ip6_addr) : bool :=
  (ip6_word a 2 =? ip6_word b 2) && (ip6_word a 3 =? ip6_word b 3).

(** The words of an address, given in host order. *)
Definition is_words (a : ip6_addr) (w0 w1 w2 w3 : Z) : bool :=
  (ip6_word a 0 =? lwip_htonl w0) && (ip6_word a 1 =? lwip_htonl w1) &&
  (ip6_word a 2 =? lwip_htonl w2) && (ip6_word a 3 =? lwip_htonl w3).
Definition ip6_addr_isallnodes_iflocal (a : ip6_addr) : bool := is_words a 4278255616 0 0 1.
Definition ip6_addr_isallnodes_linklocal (a : ip6_addr) : bool := is_words a 4278321152 0 0 1.
Definition ip6_addr_issolicitednode (a : ip6_addr) : bool :=
  (ip6_word a 0 =? lwip_htonl 4278321152) && (ip6_word a 2 =? lwip_htonl 1) &&
  (Z.land (ip6_word a 3) (lwip_htonl 4278190080) =? lwip_htonl 4278190080).
Definition ip6_addr_cmp_solicitednode (a sn_addr : ip6_addr) : bool :=
  (ip6_word a 0 =? lwip_htonl 4278321152) && (ip6_word a 1 =? 0) && (ip6_word a 2 =? lwip_htonl 1) &&
  (ip6_word a 3 =? Z.lor (lwip_htonl 4278190080) (ip6_word sn_addr 3)).

(** [ip6_addr_set_zero], [ip6_addr_set_allnodes_linklocal] and so on: the address
    that is stored. *)
Definition ip6_addr_zero : ip6_addr := Ip6Addr [0; 0; 0; 0] 0.
Definition ip6_addr_allnodes_linklocal : ip6_addr := Ip6Addr [lwip_htonl 4278321152; 0; 0; lwip_htonl 1] 0.
Definition ip6_addr_allrouters_linklocal : ip6_addr := Ip6Addr [lwip_htonl 4278321152; 0; 0; lwip_htonl 2] 0.
Definition ip6_addr_solicitednode (if_id : Z) : ip6_addr :=
  Ip6Addr [lwip_htonl 4278321152; 0; lwip_htonl 1; Z.lor (lwip_htonl 4278190080) if_id] 0.

(** ** States of the addresses of an interface *)

Definition IP6_ADDR_INVALID : Z := 0.
Definition IP6_ADDR_TENTATIVE : Z := 8.
Definition IP6_ADDR_VALID : Z := 16.
Definition IP6_ADDR_PREFERRED : Z := 48.
Definition IP6_ADDR_DEPRECATED : Z := 16.
Definition IP6_ADDR_DUPLICATED : Z := 64.
Definition IP6_ADDR_TENTATIVE_COUNT_MASK : Z := 7.
Definition ip6_addr_isinvalid (addr_state : Z) : bool := addr_state =? IP6_ADDR_INVALID.
Definition ip6_addr_istentative (addr_state : Z) : bool := flagset addr_state IP6_ADDR_TENTATIVE.
Definition ip6_addr_isvalid (addr_state : Z) : bool := flagset addr_state IP6_ADDR_VALID.
Definition ip6_addr_ispreferred (addr_state : Z) : bool := addr_state =? IP6_ADDR_PREFERRED.
Definition IP6_ADDR_LIFE_STATIC : Z := 0.
Definition IP6_ADDR_LIFE_INFINITE : Z := 4294967295.

(** ** Reading an address *)

(** The first loop: [zero_blocks] and [check_ipv4_mapped]; [None] inside is
    [return 0]. *)
Fixpoint count_blocks (zero_blocks : Z) (cp : list Z) : option (option (Z * bool)) :=
  match cp with
  | [] => None
  | c :: r =>
      if c =? 0 then Some (Some (zero_blocks, false))
      else if c =? 58 then count_blocks (u32 (zero_blocks - 1)) r
      else if c =? 46 then
        if (zero_blocks =? 5) || (zero_blocks =? 2) then Some (Some (u32 (zero_blocks - 1), true)) else Some None
      else if negb (lwip_isxdigit c) then Some (Some (zero_blocks, false))
      else count_blocks zero_blocks r
  end.

(** What the second loop has: [addr], [addr_index], [current_block_index] and
    [current_block_value]. *)
Record blocks := Blocks { b_words : list Z; b_addr : nat; b_index : Z; b_value : Z }.
#[export] Instance eta_blocks : EtaRecord blocks := fun b => Blocks (b_words b) (b_addr b) (b_index b) (b_value b).

(** The value of the block is stored.  Behind the last word: no result. *)
Definition store_block (b : blocks) : option blocks :=
  w ← b_words b !! b_addr b;
  Some (if Z.odd (b_index b)
        then b <| b_words := <[b_addr b := Z.lor w (b_value b)]> (b_words b) |> <| b_addr := S (b_addr b) |>
        else b <| b_words := <[b_addr b := u32 (Z.shiftl (b_value b) 16)]> (b_words b) |>).

(** [while (zero_blocks > 0)] behind a [::]; [None] inside: too long. *)
Fixpoint zero_fill (fuel : nat) (zero_blocks : Z) (b : blocks) : option (option blocks) :=
  if zero_blocks <=? 0 then Some (Some b)
  else
    match fuel with
    | O => None
    | S fuel =>
        b ← (if Z.odd (b_index b) then Some (b <| b_addr := S (b_addr b) |>)
             else lwip_assert (b_addr b <? length (b_words b))%nat;
                  Some (b <| b_words := <[b_addr b := 0]> (b_words b) |>));
        let b := b <| b_index := b_index b + 1 |> in
        if 7 <? b_index b then Some None else zero_fill fuel (zero_blocks - 1) b
    end.

Definition digit_value (c : Z) : Z :=
  if lwip_isdigit c then c - 48 else 10 + (if lwip_islower c then c - 97 else c - 65).

(** The label [fix_byte_order_and_return]. *)
Definition aton_return (b : blocks) : option (option ip6_addr) :=
  Some (if b_index b =? 7 then Some (Ip6Addr (map lwip_htonl (b_words b)) IP6_NO_ZONE) else None).

Fixpoint aton_loop (mapped : bool) (zero_blocks : Z) (cp : list Z) (b : blocks) : option (option ip6_addr) :=
  match cp with
  | [] => None
  | c :: r =>
      if c =? 58 then
        b ← store_block b;
        let b := b <| b_index := b_index b + 1 |> in
        ip4 ← (if mapped && (b_index b =? 6) then ip4addr_aton r else Some None);
        match ip4 with
        | Some ip4 =>
            aton_return (b <| b_words := <[3%nat := lwip_htonl ip4]> (b_words b) |> <| b_index := b_index b + 1 |>)
        | None =>
            let b := b <| b_value := 0 |> in
            if 7 <? b_index b then Some None
            else
              match r with
              | [] => None
              | c1 :: r1 =>
                  if c1 =? 58 then
                    match r1 with
                    | [] => None
                    | c2 :: _ =>
                        if c2 =? 58 then Some None
                        else
                          b ← zero_fill 8 zero_blocks b;
                          match b with
                          | None => Some None
                          | Some b => aton_loop mapped 0 r1 b
                          end
                    end
                  else aton_loop mapped zero_blocks r b
              end
        end
      else if negb (c =? 0) && lwip_isxdigit c then
        aton_loop mapped zero_blocks r (b <| b_value := u32 (u32 (Z.shiftl (b_value b) 4) + digit_value c) |>)
      else b ← store_block b; aton_return b
  end.

(** [ip6addr_aton(cp, addr)] with [addr] not NULL; [words]: what it held. *)
Definition ip6addr_aton (cp words : list Z) : option (option ip6_addr) :=
  n ← count_blocks 8 cp;
  match n with
  | None => Some None
  | Some (zero_blocks, mapped) => aton_loop mapped zero_blocks cp (Blocks words 0 0 0)
  end.

(** ** Printing an address *)

Definition lwip_xchar (i : Z) : Z := if i <? 10 then 48 + i else 65 + i - 10.

(** A block of the address.  The test for a run of zeros reads the word behind the
    four of the address, [tail]: the zone and the padding of the struct. *)
Definition block_value (words : list Z) (tail : Z) (index : Z) : Z :=
  let w := lwip_htonl (nth (Z.to_nat (Z.shiftr index 1)) (words ++ [tail]) 0) in
  Z.land (if Z.odd index then w else Z.shiftr w 16) 65535.

(** The digits of a block, without leading zeros. *)
Definition hex_block (v : Z) : list Z :=
  let d3 := Z.shiftr (Z.land v 61440) 12 in
  let d2 := Z.shiftr (Z.land v 3840) 8 in
  let d1 := Z.shiftr (Z.land v 240) 4 in
  (if d3 =? 0 then [] else [lwip_xchar d3]) ++
  (if (d2 =? 0) && (d3 =? 0) then [] else [lwip_xchar d2]) ++
  (if (d1 =? 0) && (d2 =? 0) && (d3 =? 0) then [] else [lwip_xchar d1]) ++
  [lwip_xchar (Z.land v 15)].

(** [buf[i++] = c; if (i >= buflen) return NULL;] for each of [cs]. *)
Fixpoint put_chars6 (cs : list Z) (buflen : Z) (buf : list Z) (i : Z) : option (option (list Z * Z)) :=
  match cs with
  | [] => Some (Some (buf, i))
  | c :: cs =>
      lwip_assert (Z.to_nat i <? length buf)%nat;
      if buflen <=? i + 1 then Some None else put_chars6 cs buflen (<[Z.to_nat i := c]> buf) (i + 1)
  end.

(** One block: what is written, the flag afterwards, and whether the loop ends. *)
Definition render_block (index value next : Z) (flag : Z) : list Z * Z * bool :=
  let colon := if 0 <? index then [58] else [] in
  if value =? 0 then
    if (index =? 7) && (flag =? 1) then ([58], flag, true)
    else if (flag =? 0) && (next =? 0) then ([58], 1, false)
    else if flag =? 1 then ([], flag, false)
    else (colon ++ hex_block value, flag, false)
  else (colon ++ hex_block value, (if flag =? 1 then 2 else flag), false).

Fixpoint ntoa_loop (words : list Z) (tail : Z) (idxs : list Z) (flag buflen : Z) (buf : list Z) (i : Z)
  : option (option (list Z * Z)) :=
  match idxs with
  | [] => Some (Some (buf, i))
  | index :: idxs =>
      let '(cs, flag, break) :=
        render_block index (block_value words tail index) (block_value words tail (index + 1)) flag in
      r ← put_chars6 cs buflen buf i;
      match r with
      | None => Some None
      | Some (buf, i) => if break : bool then Some (Some (buf, i)) else ntoa_loop words tail idxs flag buflen buf i
      end
  end.

Definition IP4MAPPED_HEADER : list Z := [58; 58; 70; 70; 70; 70; 58; 0].

(** [ip6addr_ntoa_r]: [Some None] is NULL; [padding]: the octets of the struct
    behind the zone. *)
Definition ip6addr_ntoa_r (padding : Z) (addr : ip6_addr) (buf : list Z) (buflen : Z)
  : option (option (list Z)) :=
  if ip6_addr_isipv4mappedipv6 addr then
    if buflen <? 8 then Some None
    else
      lwip_assert (8 <=? length buf)%nat;
      let buf := IP4MAPPED_HEADER ++ drop 8 buf in
      r ← ip4addr_ntoa_r (ip6_word addr 3) (drop 7 buf) (buflen - 8 + 1);
      match r with Some b => Some (Some (take 7 buf ++ b)) | None => Some None end
  else
    r ← ntoa_loop (ip6_words addr) (zone addr + 256 * padding) (seqZ 0 8) 0 buflen buf 0;
    match r with
    | None => Some None
    | Some (buf, i) => lwip_assert (Z.to_nat i <? length buf)%nat; Some (Some (<[Z.to_nat i := 0]> buf))
    end.

Definition ip6addr_ntoa (padding : Z) (addr : ip6_addr) (str : list Z) : option (option (list Z)) :=
  ip6addr_ntoa_r padding addr str 40.

Definition chars (s : list Z) (r : option (option (list Z))) : Prop :=
  match r with Some (Some buf) => c_string buf = s ++ [0] | _ => False end.

Example ntoa_any : chars [58; 58] (ip6addr_ntoa 0 ip6_addr_zero (repeat 1 40)).
Proof. by vm_compute. Qed.
Example ntoa_link_local :     (* FE80::1:0:0:2 *)
  chars [70; 69; 56; 48; 58; 58; 49; 58; 48; 58; 48; 58; 50]
    (ip6addr_ntoa 0 (Ip6Addr [lwip_htonl 4269801472; 0; lwip_htonl 65536; lwip_htonl 2] 1) (repeat 1 40)).
Proof. by vm_compute. Qed.
Example aton_loopback6 : ip6addr_aton [58; 58; 49; 0] [7; 7; 7; 7] = Some (Some (Ip6Addr [0; 0; 0; lwip_htonl 1] 0)).
Proof. by vm_compute. Qed.
