(* ===== verification/Ip6AddrSpec.v ===== *)
(** * Text of IPv6 addresses: printing and reading are inverse

    The printer is first shown to write [emit], a function of the eight blocks;
    then the reader is run over [emit], for the three values of the flag of the
    printer: no run of zeros yet (0), inside of the run (1), behind it (2). *)

From S2P Require Import Prelude Def IpAddr NetifDefs Ip4Addr Ip6Addr.

(** ** Digits *)

Definition add_digit (v c : Z) : Z := u32 (u32 (Z.shiftl v 4) + digit_value c).
Definition is_digit6 (c : Z) : bool := lwip_isxdigit c && negb (c =? 0) && negb (c =? 58) && negb (c =? 46).

Lemma hex_block_check :
  u16_forallb (fun b => (fold_left add_digit (hex_block b) 0 =? b) && forallb is_digit6 (hex_block b) &&
                        (length (hex_block b) <=? 4)%nat) = true.
Proof. by vm_compute. Qed.

Lemma hex_block_ok b : is_u16 b ->
  fold_left add_digit (hex_block b) 0 = b /\ Forall (fun c => is_digit6 c = true) (hex_block b) /\
  (length (hex_block b) <= 4)%nat.
Proof.
  intros Hb. pose proof (u16_forall _ b hex_block_check Hb) as H. cbn beta in H.
  apply andb_true_iff in H as [H H3]. apply andb_true_iff in H as [H1 H2].
  split; [by apply Z.eqb_eq|]. split; [|by apply Nat.leb_le]. apply Forall_forall. intros c Hc.
  apply (proj1 (forallb_forall _ _) H2). by apply list_elem_of_In.
Qed.

Lemma hex_block_head b r : is_u16 b -> exists c t, hex_block b ++ r = c :: t /\ is_digit6 c = true.
Proof.
  intros Hb. destruct (hex_block_ok b Hb) as (_ & Hf & _). destruct (hex_block b) as [|c t] eqn:E.
  - unfold hex_block in E. by repeat (apply app_eq_nil in E as [_ E]).
  - apply Forall_cons in Hf as [Hc _]. by exists c, (t ++ r).
Qed.

Lemma digit6_cases c : is_digit6 c = true -> lwip_isxdigit c = true /\ c <> 0 /\ c <> 58 /\ c <> 46.
Proof. unfold is_digit6. rewrite !andb_true_iff, !negb_true_iff, !Z.eqb_neq. naive_solver. Qed.

(** ** The reader on digits and colons *)

(** The reader in front of the value [v] of block [k]. *)
Definition at_block (ws : list Z) (k : nat) (v : Z) : blocks := Blocks ws (Nat.div2 k) (Z.of_nat k) v.

Definition put_block (ws : list Z) (k : nat) (v : Z) : list Z :=
  if Nat.odd k then <[Nat.div2 k := Z.lor (nth (Nat.div2 k) ws 0) v]> ws
  else <[Nat.div2 k := u32 (Z.shiftl v 16)]> ws.

Fixpoint put_blocks (ws : list Z) (k : nat) (vs : list Z) : list Z :=
  match vs with [] => ws | v :: vs => put_blocks (put_block ws k v) (S k) vs end.

Lemma put_block_length ws k v : length (put_block ws k v) = length ws.
Proof. unfold put_block. destruct (Nat.odd k); apply length_insert. Qed.

Lemma put_blocks_length vs : forall ws k, length (put_blocks ws k vs) = length ws.
Proof. induction vs as [|v vs IH]; intros; [done|]. cbn. by rewrite IH, put_block_length. Qed.

Lemma put_blocks_app l1 : forall l2 ws k,
  put_blocks ws k (l1 ++ l2) = put_blocks (put_blocks ws k l1) (k + length l1) l2.
Proof.
  induction l1 as [|v l1 IH]; intros; cbn [app put_blocks length]; [by rewrite Nat.add_0_r|].
  rewrite IH. by replace (S k + length l1)%nat with (k + S (length l1))%nat by lia.
Qed.

Lemma Zodd_of_nat k : Z.odd (Z.of_nat k) = Nat.odd k.
Proof.
  destruct (Nat.odd k) eqn:E.
  - apply Nat.odd_spec in E as [m ->]. apply Z.odd_spec. exists (Z.of_nat m). lia.
  - apply not_true_iff_false. intros H. apply Z.odd_spec in H as [m Hm].
    assert (Nat.Odd k) as H by (exists (Z.to_nat m); lia). apply Nat.odd_spec in H. congruence.
Qed.

Lemma div2_S k : Nat.div2 (S k) = if Nat.odd k then S (Nat.div2 k) else Nat.div2 k.
Proof.
  destruct (Nat.odd k) eqn:E.
  - apply Nat.odd_spec in E as [m ->]. replace (S (2 * m + 1)) with (2 * S m)%nat by lia.
    rewrite Nat.div2_double. replace (2 * m + 1)%nat with (S (2 * m)) by lia. by rewrite Nat.div2_succ_double.
  - rewrite <- Nat.negb_even in E. apply negb_false_iff, Nat.even_spec in E as [m ->].
    by rewrite Nat.div2_succ_double, Nat.div2_double.
Qed.

Lemma div2_bound k : (k <= 7)%nat -> (Nat.div2 k < 4)%nat.
Proof. intros. do 8 (destruct k as [|k]; [cbn; lia|]). lia. Qed.

Lemma store_at_block ws k v : length ws = 4%nat -> (k <= 7)%nat ->
  exists b, store_block (at_block ws k v) = Some b /\ b_words b = put_block ws k v /\ b_index b = Z.of_nat k /\
            b_addr b = Nat.div2 (S k) /\ b_value b = v.
Proof.
  intros Hl Hk. unfold store_block, at_block, put_block. cbn [b_words b_addr b_index b_value].
  destruct (lookup_lt_is_Some_2 ws (Nat.div2 k)) as [w Ew]; [pose proof (div2_bound k Hk); lia|].
  rewrite Ew, (nth_lookup_Some _ _ 0 _ Ew). cbn [mbind option_bind]. rewrite Zodd_of_nat, div2_S.
  destruct (Nat.odd k); eexists; (split; [reflexivity|]); by split_and!.
Qed.

Lemma aton_digits6 m zb cs : forall r b, Forall (fun c => is_digit6 c = true) cs ->
  aton_loop m zb (cs ++ r) b = aton_loop m zb r (b <| b_value := fold_left add_digit cs (b_value b) |>).
Proof.
  induction cs as [|c cs IH]; intros r b Hc; [by destruct b|]. apply Forall_cons in Hc as [Hc Hcs].
  destruct (digit6_cases c Hc) as (Hx & H0 & H58 & _). cbn [app aton_loop].
  rewrite (proj2 (Z.eqb_neq c 58)), (proj2 (Z.eqb_neq c 0)), Hx by done. cbn [negb andb].
  rewrite IH by done. by destruct b.
Qed.

Lemma aton_hex m zb b r ws k : is_u16 b ->
  aton_loop m zb (hex_block b ++ r) (at_block ws k 0) = aton_loop m zb r (at_block ws k b).
Proof. intros Hb. destruct (hex_block_ok b Hb) as (E & Hf & _). rewrite aton_digits6 by done. cbn [at_block b_value]. by rewrite E. Qed.

(** A single colon. *)
Lemma aton_colon zb c r ws k v : length ws = 4%nat -> (k < 7)%nat -> c <> 58 ->
  aton_loop false zb (58 :: c :: r) (at_block ws k v) = aton_loop false zb (c :: r) (at_block (put_block ws k v) (S k) 0).
Proof.
  intros Hl Hk Hc. destruct (store_at_block ws k v Hl ltac:(lia)) as (b & E & E1 & E2 & E3 & E4).
  cbn [aton_loop]. change (58 =? 58) with true. cbn iota. rewrite E. cbn [mbind option_bind andb b_index].
  destruct b as [ws' a i v']. cbn in *. subst. rewrite (proj2 (Z.ltb_ge 7 _)) by lia.
  rewrite (proj2 (Z.eqb_neq c 58)) by done. replace (Z.of_nat k + 1) with (Z.of_nat (S k)) by lia. done.
Qed.

Lemma zero_fill_spec z : forall fuel ws k, length ws = 4%nat -> (z <= fuel)%nat -> (k + z <= 7)%nat ->
  zero_fill fuel (Z.of_nat z) (at_block ws k 0) = Some (Some (at_block (put_blocks ws k (replicate z 0)) (k + z) 0)).
Proof.
  induction z as [|z IH]; intros fuel ws k Hl Hz Hk; [destruct fuel; cbn; by rewrite Nat.add_0_r|].
  destruct fuel as [|fuel]; [lia|]. cbn [zero_fill replicate put_blocks].
  rewrite (proj2 (Z.leb_gt (Z.of_nat (S z)) 0)) by lia. cbn [at_block b_index b_addr b_words].
  assert (Hd : (Nat.div2 k < 4)%nat) by (apply div2_bound; lia). rewrite Hl, (proj2 (Nat.ltb_lt _ 4)) by done.
  rewrite Zodd_of_nat. replace (Z.of_nat (S z) - 1) with (Z.of_nat z) by lia.
  specialize (IH fuel (put_block ws k 0) (S k)). rewrite put_block_length in IH.
  replace (k + S z)%nat with (S k + z)%nat by lia. rewrite <- IH by lia.
  unfold put_block. unfold at_block. rewrite div2_S.
  destruct (Nat.odd k) eqn:E; cbn -[zero_fill Z.of_nat Nat.div2 Z.ltb Z.add put_blocks insert Z.shiftl u32].
  - rewrite (proj2 (Z.ltb_ge 7 _)) by lia. replace (Z.of_nat k + 1) with (Z.of_nat (S k)) by lia.
    rewrite Z.lor_0_r. destruct (lookup_lt_is_Some_2 ws (Nat.div2 k)) as [w Ew]; [lia|].
    rewrite (nth_lookup_Some _ _ 0 _ Ew), list_insert_id by done. done.
  - rewrite (proj2 (Z.ltb_ge 7 _)) by lia. replace (Z.of_nat k + 1) with (Z.of_nat (S k)) by lia. done.
Qed.

(** Two colons: [z] blocks of zeros. *)
Lemma aton_colons z c r ws k v : length ws = 4%nat -> (k + 1 + z <= 7)%nat -> c <> 58 ->
  aton_loop false (Z.of_nat z) (58 :: 58 :: c :: r) (at_block ws k v) =
  aton_loop false 0 (c :: r) (at_block (put_blocks ws k (v :: replicate z 0)) (k + 1 + z) 0).
Proof.
  intros Hl Hk Hc. destruct (store_at_block ws k v Hl ltac:(lia)) as (b & E & E1 & E2 & E3 & E4).
  cbn [aton_loop]. change (58 =? 58) with true. cbn iota. rewrite E. cbn [mbind option_bind andb b_index].
  destruct b as [ws' a i v']. cbn [b_words b_index b_addr b_value] in E1, E2, E3, E4. subst.
  cbn -[zero_fill Z.of_nat Nat.div2 Z.ltb Z.add put_block insert Z.shiftl u32 aton_loop Z.eqb]. rewrite (proj2 (Z.ltb_ge 7 _)) by lia.
  rewrite (proj2 (Z.eqb_neq c 58)) by done.
  pose proof (zero_fill_spec z 8 (put_block ws k v) (S k)) as Hf. rewrite put_block_length in Hf.
  specialize (Hf Hl ltac:(lia) ltac:(lia)). unfold at_block in Hf at 1.
  replace (Z.of_nat k + 1) with (Z.of_nat (S k)) by lia. change (Nat.div2 (S k)) with (Nat.div2 (S k)) in Hf.
  unfold at_block in Hf.
  match goal with |- mbind _ ?x = _ =>
    change x with (zero_fill 8 (Z.of_nat z) (Blocks (put_block ws k v) (Nat.div2 (S k)) (Z.of_nat (S k)) 0)) end.
  rewrite Hf. by replace (k + 1 + z)%nat with (S k + z)%nat by lia.
Qed.

(** The end of the string. *)
Lemma aton_end zb r ws v : length ws = 4%nat ->
  aton_loop false zb (0 :: r) (at_block ws 7 v) = Some (Some (Ip6Addr (map lwip_htonl (put_block ws 7 v)) 0)).
Proof.
  intros Hl. destruct (store_at_block ws 7 v Hl ltac:(lia)) as (b & E & E1 & E2 & _).
  cbn [aton_loop]. change (0 =? 58) with false. change (negb (0 =? 0) && lwip_isxdigit 0) with false. cbn iota.
  rewrite E. cbn [mbind option_bind]. unfold aton_return. by rewrite E2, E1.
Qed.

(** ** What the printer writes *)

(** The blocks [bs] from index [k] on; [nb]: what the test for zeros sees behind
    the last one. *)
Fixpoint emit (flag : Z) (k : nat) (bs : list Z) (nb : Z) : list Z :=
  match bs with
  | [] => []
  | b :: r =>
      let '(cs, flag, break) := render_block (Z.of_nat k) b (hd nb r) flag in
      cs ++ if break : bool then [] else emit flag (S k) r nb
  end.

Lemma emit_block flag k b r nb : flag <> 1 -> (0 < k)%nat -> (b = 0 -> flag = 2 \/ hd nb r <> 0) ->
  emit flag k (b :: r) nb = 58 :: hex_block b ++ emit flag (S k) r nb.
Proof.
  intros Hf Hk Hb. cbn [emit]. unfold render_block. rewrite (proj2 (Z.ltb_lt 0 _)), (proj2 (Z.eqb_neq flag 1)) by lia.
  rewrite andb_false_r. destruct (Z.eqb_spec b 0) as [->|]; [|done].
  destruct (Z.eqb_spec flag 0) as [->|]; [|done]. destruct Hb as [?|Hn]; [done|done|].
  by rewrite (proj2 (Z.eqb_neq (hd nb r) 0)).
Qed.

Lemma emit_zeros k r nb : hd nb r = 0 -> emit 0 k (0 :: r) nb = 58 :: emit 1 (S k) r nb.
Proof. intros Hn. cbn [emit]. unfold render_block. rewrite Hn. by rewrite andb_false_r. Qed.

Lemma emit_first b r nb : b <> 0 \/ hd nb r <> 0 -> emit 0 0 (b :: r) nb = hex_block b ++ emit 0 1 r nb.
Proof.
  intros Hb. cbn [emit]. unfold render_block. rewrite andb_false_r.
  destruct (Z.eqb_spec b 0) as [->|]; [|done]. destruct Hb as [?|Hn]; [done|]. by rewrite (proj2 (Z.eqb_neq (hd nb r) 0)).
Qed.

Lemma u16_0 : is_u16 0.
Proof. by vm_compute. Qed.

(** Inside of a run of zeros: it goes to the end, or up to a block. *)
Lemma emit_run bs : forall k nb, (0 < k)%nat -> (k + length bs = 8)%nat -> bs <> [] ->
  (bs = replicate (length bs) 0 /\ emit 1 k bs nb = [58]) \/
  (exists m b r, bs = replicate m 0 ++ b :: r /\ emit 1 k bs nb = 58 :: hex_block b ++ emit 2 (k + m + 1) r nb).
Proof.
  induction bs as [|b r IH]; intros k nb Hk Hl Hne; [done|]. cbn [length] in Hl.
  destruct (decide (b = 0)) as [->|Hb].
  - destruct (decide (r = [])) as [->|Hr].
    + left. split; [done|]. cbn [length] in Hl. by replace k with 7%nat by lia.
    + assert (E : emit 1 k (0 :: r) nb = emit 1 (S k) r nb).
      { cbn [emit]. unfold render_block. change (1 =? 1) with true. change (1 =? 0) with false. change (0 =? 0) with true.
        rewrite (proj2 (Z.eqb_neq (Z.of_nat k) 7)); [done|]. destruct r; [done|]. cbn [length] in Hl. lia. }
      rewrite E. destruct (IH (S k) nb) as [[E1 E2]|(m & b' & r' & E1 & E2)]; [lia|lia|done| |].
      * left. split; [|done]. cbn [length replicate]. by rewrite <- E1.
      * right. exists (S m), b', r'. split; [by rewrite E1|]. rewrite E2. by replace (S k + m + 1)%nat with (k + S m + 1)%nat by lia.
  - right. exists 0%nat, b, r. split; [done|]. cbn [emit]. unfold render_block.
    rewrite (proj2 (Z.eqb_neq b 0)), (proj2 (Z.ltb_lt 0 _)) by (done || lia).
    change (1 =? 1) with true. by replace (k + 0 + 1)%nat with (S k) by lia.
Qed.

(** ** Reading what was printed *)

Definition read_as (ws bs : list Z) (k : nat) : option (option ip6_addr) :=
  Some (Some (Ip6Addr (map lwip_htonl (put_blocks ws k bs)) 0)).

Lemma hex_cons b r : is_u16 b -> exists c t, hex_block b ++ r = c :: t /\ c <> 58.
Proof. intros Hb. destruct (hex_block_head b r Hb) as (c & t & E & Hc%digit6_cases). exists c, t. naive_solver. Qed.

(** A block behind its colon. *)
Lemma read_block zb b r ws k v : length ws = 4%nat -> (k < 7)%nat -> is_u16 b ->
  aton_loop false zb (58 :: hex_block b ++ r) (at_block ws k v) =
  aton_loop false zb r (at_block (put_block ws k v) (S k) b).
Proof.
  intros Hl Hk Hb. destruct (hex_cons b r Hb) as (c & t & E & Hc).
  rewrite E, aton_colon by done. by rewrite <- E, aton_hex.
Qed.

(** A [::] before a block. *)
Lemma read_zeros z b r ws k v : length ws = 4%nat -> (k + 1 + z <= 7)%nat -> is_u16 b ->
  aton_loop false (Z.of_nat z) (58 :: 58 :: hex_block b ++ r) (at_block ws k v) =
  aton_loop false 0 r (at_block (put_blocks ws k (v :: replicate z 0)) (k + 1 + z) b).
Proof.
  intros Hl Hk Hb. destruct (hex_cons b r Hb) as (c & t & E & Hc).
  rewrite E, aton_colons by done. by rewrite <- E, aton_hex.
Qed.

Lemma read_rest bs : forall zb ws k v nb rest, length ws = 4%nat -> (k + length bs = 7)%nat -> Forall is_u16 bs ->
  aton_loop false zb (emit 2 (S k) bs nb ++ 0 :: rest) (at_block ws k v) = read_as ws (v :: bs) k.
Proof.
  induction bs as [|b r IH]; intros zb ws k v nb rest Hl Hk Hb.
  - cbn [length] in Hk. replace k with 7%nat by lia. cbn [emit app]. by rewrite aton_end.
  - apply Forall_cons in Hb as [Hb Hr]. cbn [length] in Hk. rewrite emit_block by (try done; try lia; by left).
    rewrite <- app_comm_cons, <- app_assoc, read_block by (done || lia).
    by rewrite IH by (rewrite ?put_block_length; done || lia).
Qed.

Definition colons (l : list Z) : nat := length (filter (fun c => c = 58) l).

Lemma colons_hex b r : is_u16 b -> colons (hex_block b ++ r) = colons r.
Proof.
  intros Hb. destruct (hex_block_ok b Hb) as (_ & Hf & _). induction Hf as [|c cs Hc _ IH]; [done|].
  destruct (digit6_cases c Hc) as (_ & _ & H & _). unfold colons in *. cbn [app]. by rewrite filter_cons_False.
Qed.

Lemma colons_cons r : colons (58 :: r) = S (colons r).
Proof. unfold colons. by rewrite filter_cons_True. Qed.

Lemma colons_rest bs : forall k nb, (0 < k)%nat -> Forall is_u16 bs -> colons (emit 2 k bs nb) = length bs.
Proof.
  induction bs as [|b r IH]; intros k nb Hk Hb; [done|]. apply Forall_cons in Hb as [Hb Hr].
  rewrite emit_block by (try done; by left). rewrite colons_cons, colons_hex by done. by rewrite IH by (done || lia).
Qed.

(** A run of zeros: the [e] blocks behind [v], and those at the start of [bs]. *)
Lemma read_run e bs zb ws k v nb rest : length ws = 4%nat -> (k + 1 + e + length bs = 8)%nat -> bs <> [] -> Forall is_u16 bs ->
  zb + Z.of_nat k + Z.of_nat (colons (58 :: emit 1 (S k + e) bs nb)) = 8 ->
  aton_loop false zb (58 :: emit 1 (S k + e) bs nb ++ 0 :: rest) (at_block ws k v) =
  read_as ws (v :: replicate e 0 ++ bs) k.
Proof.
  intros Hl Hk Hn Hb. destruct (emit_run bs (S k + e) nb ltac:(lia) ltac:(lia) Hn) as [[E1 E2]|(m & b & r & E1 & E2)].
  - rewrite E2, !colons_cons. intros Hz. destruct bs as [|b bs]; [done|]. cbn [length] in *.
    replace zb with (Z.of_nat (6 - k)) by (cbn in Hz; lia). cbn [app]. rewrite aton_colons by (done || lia).
    replace (k + 1 + (6 - k))%nat with 7%nat by lia. rewrite aton_end by (by rewrite put_blocks_length).
    unfold read_as. rewrite E1, <- replicate_add. cbn [put_blocks]. do 4 f_equal.
    replace (e + S (length bs))%nat with ((6 - k) + 1)%nat by lia. rewrite replicate_add, put_blocks_app, length_replicate.
    replace (S k + (6 - k))%nat with 7%nat by lia. done.
  - rewrite E1 in Hb, Hk. apply Forall_app in Hb as [_ [Hb Hr]%Forall_cons]. rewrite length_app, length_replicate in Hk. cbn [length] in Hk.
    rewrite E2, !colons_cons, colons_hex, colons_rest by (done || lia). intros Hz. replace zb with (Z.of_nat (e + m)) by lia.
    rewrite <- app_comm_cons, <- app_assoc, read_zeros by (done || lia).
    replace (S k + e + m + 1)%nat with (S (k + 1 + (e + m))) by lia. rewrite read_rest by (rewrite ?put_blocks_length; done || lia).
    unfold read_as. rewrite E1, app_assoc, <- replicate_add. cbn [put_blocks]. rewrite put_blocks_app, length_replicate.
    by replace (S k + (e + m))%nat with (k + 1 + (e + m))%nat by lia.
Qed.

Lemma read_blocks bs : forall zb ws k v nb rest, length ws = 4%nat -> (k + length bs = 7)%nat -> Forall is_u16 bs ->
  zb + Z.of_nat k + Z.of_nat (colons (emit 0 (S k) bs nb)) = 8 ->
  aton_loop false zb (emit 0 (S k) bs nb ++ 0 :: rest) (at_block ws k v) = read_as ws (v :: bs) k.
Proof.
  induction bs as [|b r IH]; intros zb ws k v nb rest Hl Hk Hb Hz.
  - cbn [length] in Hk. replace k with 7%nat by lia. cbn [emit app]. by rewrite aton_end.
  - apply Forall_cons in Hb as [Hb Hr]. cbn [length] in Hk.
    destruct (decide (b = 0 /\ hd nb r = 0)) as [[-> Hn]|Hn].
    + rewrite emit_zeros in Hz |- * by done. destruct (decide (r = [])) as [->|Hrn].
      * cbn [emit app length] in *. rewrite aton_colon by (done || lia).
        replace (S k) with 7%nat by lia. rewrite aton_end by (by rewrite put_block_length).
        unfold read_as. cbn [put_blocks]. by replace (S k) with 7%nat by lia.
      * assert (Ek : S (S k) = (S k + 1)%nat) by lia. rewrite Ek in Hz |- *.
        rewrite <- app_comm_cons. by rewrite (read_run 1 r) by (done || lia).
    + rewrite emit_block in Hz |- * by (try done; try lia; intros ->; right; naive_solver).
      rewrite colons_cons, colons_hex in Hz by done.
      rewrite <- app_comm_cons, <- app_assoc, read_block by (done || lia).
      by rewrite IH by (rewrite ?put_block_length; done || lia).
Qed.

(** ** The first loop of the reader *)

Definition is_text (c : Z) : Prop := c = 58 \/ is_digit6 c = true.

Lemma count_text text : forall zb rest, Forall is_text text -> 0 <= zb - Z.of_nat (colons text) -> zb <= 8 ->
  count_blocks zb (text ++ 0 :: rest) = Some (Some (zb - Z.of_nat (colons text), false)).
Proof.
  induction text as [|c text IH]; intros zb rest Ht H0 H8; [cbn; by rewrite Z.sub_0_r|].
  apply Forall_cons in Ht as [[->|Hc] Ht]; cbn [app count_blocks].
  - rewrite colons_cons in *. change (58 =? 0) with false. change (58 =? 58) with true. cbn iota.
    rewrite u32_id by (unfold is_u32; lia). rewrite IH by (done || lia). do 3 f_equal. lia.
  - destruct (digit6_cases c Hc) as (Hx & Hc0 & Hc58 & Hc46).
    rewrite (proj2 (Z.eqb_neq c 0)), (proj2 (Z.eqb_neq c 58)), (proj2 (Z.eqb_neq c 46)), Hx by done. cbn [negb].
    unfold colons in *. rewrite filter_cons_False in * by done. by apply IH.
Qed.

(** ** The printer writes [emit] *)

Definition block_room (k : Z) : nat := if 0 <? k then 5 else 4.

Lemma render_block_ok k b nb flag cs flag' break : is_u16 b ->
  render_block k b nb flag = (cs, flag', break) -> Forall is_text cs /\ (length cs <= block_room k)%nat.
Proof.
  intros Hb. destruct (hex_block_ok b Hb) as (_ & Hf & Hl). unfold render_block.
  assert (Hh : Forall is_text ((if 0 <? k then [58] else []) ++ hex_block b) /\
               (length ((if 0 <? k then [58] else [])%Z ++ hex_block b) <= block_room k)%nat).
  { unfold block_room. split; [|destruct (0 <? k); cbn; lia]. apply Forall_app. split; [destruct (0 <? k); [|done]; apply Forall_singleton; by left|].
    eapply Forall_impl; [exact Hf|]. by right. }
  assert (H1 : Forall is_text [58] /\ (1 <= block_room k)%nat).
  { unfold block_room. split; [apply Forall_singleton; by left|destruct (0 <? k); lia]. }
  destruct (b =? 0); [destruct (_ && _); [|destruct (_ && _); [|destruct (flag =? 1)]]|]; intros [= <- _ _];
    first [exact H1|exact Hh|split; [done|cbn; lia]].
Qed.

Lemma emit_ok bs : forall flag k nb, Forall is_u16 bs ->
  Forall is_text (emit flag k bs nb) /\ (length (emit flag k bs nb) <= match k, bs with O, _ :: r => 4 + 5 * length r | _, _ => 5 * length bs end)%nat.
Proof.
  induction bs as [|b r IH]; intros flag k nb Hb; [by destruct k|]. apply Forall_cons in Hb as [Hb Hr].
  cbn [emit]. destruct (render_block _ _ _ _) as [[cs flag'] break] eqn:E.
  destruct (render_block_ok _ _ _ _ _ _ _ Hb E) as [H1 H2]. destruct (IH flag' (S k) nb Hr) as [I1 I2].
  assert (Hlen : (length (if break then [] else emit flag' (S k) r nb) <= 5 * length r)%nat) by (destruct break; cbn; lia).
  split; [apply Forall_app; split; [done|by destruct break]|]. rewrite length_app.
  destruct k; [change (length cs <= 4)%nat in H2|change (length cs <= 5)%nat in H2]; cbn [length]; lia.
Qed.

Lemma put_chars6_spec cs : forall buflen buf i, 0 <= i < buflen -> buflen <= Z.of_nat (length buf) ->
  put_chars6 cs buflen buf i =
  Some (if i + Z.of_nat (length cs) <? buflen
        then Some (take (Z.to_nat i) buf ++ cs ++ drop (Z.to_nat i + length cs) buf, i + Z.of_nat (length cs)) else None).
Proof.
  induction cs as [|c cs IH]; intros buflen buf i Hi Hb; cbn [put_chars6].
  - cbn [length]. rewrite Z.add_0_r, Nat.add_0_r, (proj2 (Z.ltb_lt i buflen)) by lia. cbn [app]. by rewrite take_drop.
  - rewrite (proj2 (Nat.ltb_lt _ _)) by lia. cbn [length].
    destruct (Z.leb_spec buflen (i + 1)).
    + by rewrite (proj2 (Z.ltb_ge _ _)) by lia.
    + rewrite IH by (rewrite ?length_insert; lia). replace (i + 1 + Z.of_nat (length cs)) with (i + Z.of_nat (S (length cs))) by lia.
      destruct (_ <? _); [|done]. do 3 f_equal. rewrite insert_take_drop by lia.
      replace (Z.to_nat (i + 1)) with (S (Z.to_nat i)) by lia.
      rewrite take_app_ge by (rewrite length_take; lia). rewrite length_take, Nat.min_l by lia.
      replace (S (Z.to_nat i) - Z.to_nat i)%nat with 1%nat by lia. cbn [take firstn].
      rewrite drop_app_ge by (rewrite length_take; lia). rewrite length_take, Nat.min_l by lia.
      replace (S (Z.to_nat i) + length cs - Z.to_nat i)%nat with (S (length cs)) by lia. cbn [skipn].
      change (take 0 ?x) with (@nil Z). rewrite drop_drop, <- app_assoc. cbn [app take]. do 4 f_equal. lia.
Qed.

Lemma ntoa_loop_spec words tail n : forall k flag buflen buf i,
  (k + n = 8)%nat -> 0 <= i < buflen -> buflen <= Z.of_nat (length buf) ->
  let text := emit flag k (map (block_value words tail) (seqZ (Z.of_nat k) (Z.of_nat n))) (block_value words tail 8) in
  ntoa_loop words tail (seqZ (Z.of_nat k) (Z.of_nat n)) flag buflen buf i =
  Some (if i + Z.of_nat (length text) <? buflen
        then Some (take (Z.to_nat i) buf ++ text ++ drop (Z.to_nat i + length text) buf, i + Z.of_nat (length text)) else None).
Proof.
  induction n as [|n IH]; intros k flag buflen buf i Hk Hi Hb text.
  - change text with (@nil Z). cbn [length app]. change (ntoa_loop _ _ _ _ _ _ _) with (Some (Some (buf, i))).
    by rewrite Z.add_0_r, Nat.add_0_r, (proj2 (Z.ltb_lt i buflen)), take_drop by lia.
  - unfold text. clear text. rewrite seqZ_cons by lia.
    replace (Z.succ (Z.of_nat k)) with (Z.of_nat (S k)) by lia. replace (Z.pred (Z.of_nat (S n))) with (Z.of_nat n) by lia.
    cbn [map emit ntoa_loop].
    assert (Hnext : hd (block_value words tail 8) (map (block_value words tail) (seqZ (Z.of_nat (S k)) (Z.of_nat n))) =
                    block_value words tail (Z.of_nat k + 1)).
    { destruct n as [|n]; [change (hd _ _) with (block_value words tail 8)|rewrite seqZ_cons by lia; cbn [map hd]];
        f_equal; lia. }
    rewrite Hnext. destruct (render_block _ _ _ _) as [[cs flag'] break].
    rewrite put_chars6_spec by lia. cbn [mbind option_bind].
    set (text := if break then [] else _). rewrite length_app.
    destruct (Z.ltb_spec (i + Z.of_nat (length cs)) buflen).
    2:{ by rewrite (proj2 (Z.ltb_ge _ _)) by lia. }
    destruct break.
    + unfold text. cbn [length]. rewrite Nat.add_0_r, (proj2 (Z.ltb_lt _ _)), app_nil_r by lia. done.
    + set (buf' := take _ _ ++ _). assert (Hl' : length buf' = length buf).
      { unfold buf'. rewrite !length_app, length_take, length_drop. lia. }
      pose proof (IH (S k) flag' buflen buf' (i + Z.of_nat (length cs)) ltac:(lia) ltac:(lia) ltac:(lia)) as E.
      cbv zeta in E. fold text in E. rewrite E. replace (i + Z.of_nat (length cs + length text)) with (i + Z.of_nat (length cs) + Z.of_nat (length text)) by lia.
      destruct (_ <? _); [|done]. do 3 f_equal. unfold buf'.
      replace (Z.to_nat (i + Z.of_nat (length cs))) with (Z.to_nat i + length cs)%nat by lia.
      assert (Hlt : length (take (Z.to_nat i) buf ++ cs) = (Z.to_nat i + length cs)%nat) by (rewrite length_app, length_take; lia).
      rewrite (app_assoc (take _ buf)). rewrite take_app_length' by done.
      rewrite drop_app_ge by lia. rewrite Hlt, drop_drop, <- !app_assoc. do 4 f_equal. lia.
Qed.

(** ** The blocks of the words *)

Lemma block_value_u16 words tail i : is_u16 (block_value words tail i).
Proof. unfold block_value. rewrite land_ffff. apply u16_bound. Qed.

Lemma htonl_octets w : is_u32 w -> exists a b c d, is_u8 a /\ is_u8 b /\ is_u8 c /\ is_u8 d /\
  w = a + 256 * b + 65536 * c + 16777216 * d /\ lwip_htonl w = d + 256 * c + 65536 * b + 16777216 * a.
Proof.
  intros Hw. destruct (u32_octets w Hw) as [E Hd].
  exists (w mod 256), (w / 256 mod 256), (w / 65536 mod 256), (w / 16777216).
  split_and!; try (word_lia || done). rewrite E at 1. by rewrite lwip_htonl_octets by word_lia.
Qed.

Lemma htonl_twice w : is_u32 w -> lwip_htonl (lwip_htonl w) = w.
Proof.
  intros Hw. destruct (htonl_octets w Hw) as (a & b & c & d & Ha & Hb & Hc & Hd & -> & ->). by rewrite lwip_htonl_octets.
Qed.

Lemma word_of_blocks w : is_u32 w ->
  lwip_htonl (Z.lor (u32 (Z.shiftl (Z.land (Z.shiftr (lwip_htonl w) 16) 65535) 16)) (Z.land (lwip_htonl w) 65535)) = w.
Proof.
  intros Hw. destruct (htonl_octets w Hw) as (a & b & c & d & Ha & Hb & Hc & Hd & Ew & Eh).
  rewrite Eh, !land_ffff, Z.shiftr_div_pow2, Z.shiftl_mul_pow2 by lia. change (2 ^ 16) with 65536.
  assert (E1 : (d + 256 * c + 65536 * b + 16777216 * a) / 65536 mod 65536 = b + 256 * a) by word_lia.
  assert (E2 : (d + 256 * c + 65536 * b + 16777216 * a) mod 65536 = d + 256 * c) by word_lia.
  rewrite E1, E2, u32_id by word_lia. change 65536 with (2 ^ 16) at 1. rewrite lor_shift_add by word_lia.
  change (2 ^ 16) with 65536. replace ((b + 256 * a) * 65536 + (d + 256 * c)) with (d + 256 * c + 65536 * b + 16777216 * a) by lia.
  by rewrite lwip_htonl_octets by done.
Qed.

Lemma blocks_words w0 w1 w2 w3 tail ws : Forall is_u32 [w0; w1; w2; w3] -> length ws = 4%nat ->
  map lwip_htonl (put_blocks ws 0 (map (block_value [w0; w1; w2; w3] tail) (seqZ 0 8))) = [w0; w1; w2; w3].
Proof.
  intros Hw Hl. destruct ws as [|x0 [|x1 [|x2 [|x3 [|]]]]]; try done.
  rewrite !Forall_cons in Hw. destruct Hw as (H0 & H1 & H2 & H3 & _).
  transitivity (map (fun w => lwip_htonl (Z.lor (u32 (Z.shiftl (Z.land (Z.shiftr (lwip_htonl w) 16) 65535) 16))
                                                (Z.land (lwip_htonl w) 65535))) [w0; w1; w2; w3]).
  - reflexivity.
  - cbn [map]. by rewrite !word_of_blocks.
Qed.

(** ** Properties *)

Lemma emit_colons bs : forall flag k nb, Forall is_u16 bs -> (colons (emit flag k bs nb) <= length bs)%nat.
Proof.
  induction bs as [|b r IH]; intros flag k nb Hb; [cbn; lia|]. apply Forall_cons in Hb as [Hb Hr].
  cbn [emit length]. destruct (render_block _ _ _ _) as [[cs flag'] break] eqn:E.
  assert (Hcs : forall r, (colons (cs ++ r) <= S (colons r))%nat).
  { intros t. unfold render_block in E. destruct (b =? 0); [destruct (_ && _); [|destruct (_ && _); [|destruct (flag =? 1)]]|];
      injection E as <- _ _; try destruct (0 <? _); cbn [app]; rewrite ?colons_cons, ?colons_hex by done; lia. }
  destruct break; [specialize (Hcs [])|specialize (Hcs (emit flag' (S k) r nb)); specialize (IH flag' (S k) nb Hr); lia].
  cbn in Hcs |- *. lia.
Qed.

Lemma read_first bs nb ws rest : length bs = 8%nat -> Forall is_u16 bs -> length ws = 4%nat ->
  aton_loop false (8 - Z.of_nat (colons (emit 0 0 bs nb))) (emit 0 0 bs nb ++ 0 :: rest) (at_block ws 0 0) = read_as ws bs 0.
Proof.
  intros Hl Hb Hw. destruct bs as [|b r]; [done|]. cbn [length] in Hl. apply Forall_cons in Hb as [Hb Hr].
  destruct (decide (b = 0 /\ hd nb r = 0)) as [[-> Hn]|Hn].
  - rewrite emit_zeros by done. rewrite <- app_comm_cons.
    apply (read_run 0 r _ ws 0 0); [done|cbn; lia|by destruct r|done|].
    change (S 0 + 0)%nat with 1%nat. pose proof (emit_colons r 1 1 nb Hr). rewrite colons_cons. lia.
  - rewrite emit_first by (destruct (decide (b = 0)); naive_solver).
    rewrite colons_hex, <- app_assoc, aton_hex by done. by rewrite read_blocks by (done || lia).
Qed.

(** The text of an address is read back. *)
Lemma read_emit words tail ws rest : length words = 4%nat -> Forall is_u32 words -> length ws = 4%nat ->
  ip6addr_aton (emit 0 0 (map (block_value words tail) (seqZ 0 8)) (block_value words tail 8) ++ 0 :: rest) ws =
  Some (Some (Ip6Addr words 0)).
Proof.
  intros Hlw Hw Hl. destruct words as [|w0 [|w1 [|w2 [|w3 [|]]]]]; try done.
  set (bs := map _ _). set (nb := block_value _ _ 8).
  assert (Hb : Forall is_u16 bs).
  { unfold bs. apply Forall_forall. intros x (i & -> & _)%list_elem_of_fmap. apply block_value_u16. }
  assert (Hbl : length bs = 8%nat) by done.
  assert (Hres : read_as ws bs 0 = Some (Some (Ip6Addr [w0; w1; w2; w3] 0))) by (unfold read_as, bs; by rewrite blocks_words).
  clearbody bs nb. rewrite <- Hres. clear Hres. destruct (emit_ok bs 0 0 nb Hb) as [Ht _].
  pose proof (emit_colons bs 0 0 nb Hb) as Hc. unfold ip6addr_aton. rewrite count_text by (done || lia).
  cbn [mbind option_bind]. by apply read_first.
Qed.

(** ** Mapped addresses *)

Lemma dec_digit b : is_u8 b -> Forall (fun c => is_digit6 c = true) (dec b).
Proof.
  intros Hb. assert (Hd : forall d, 0 <= d < 10 -> is_digit6 (48 + d) = true).
  { intros d Hd. unfold is_digit6, lwip_isxdigit. rewrite isdigit_code by done. cbn [orb andb].
    by rewrite (proj2 (Z.eqb_neq (48 + d) 0)), (proj2 (Z.eqb_neq (48 + d) 58)), (proj2 (Z.eqb_neq (48 + d) 46)) by lia. }
  destruct (dec_cases b Hb) as [[-> ?]|[(? & ? & -> & ? & ? & ?)|(? & ? & ? & -> & ? & ? & ? & ?)]];
    unfold is_u8 in Hb; repeat (apply Forall_cons_2; [apply Hd; lia|]); apply Forall_nil_2.
Qed.

Lemma count_digits cs : forall zb r, Forall (fun c => is_digit6 c = true) cs -> count_blocks zb (cs ++ r) = count_blocks zb r.
Proof.
  induction cs as [|c cs IH]; intros zb r Hc; [done|]. apply Forall_cons in Hc as [Hc Hcs].
  destruct (digit6_cases c Hc) as (Hx & H0 & H58 & H46). cbn [app count_blocks].
  rewrite (proj2 (Z.eqb_neq c 0)), (proj2 (Z.eqb_neq c 58)), (proj2 (Z.eqb_neq c 46)), Hx by done. by apply IH.
Qed.

Lemma read_mapped a ws rest : is_u32 a -> length ws = 4%nat ->
  ip6addr_aton (take 7 IP4MAPPED_HEADER ++ ip4_text a rest) ws =
  Some (Some (Ip6Addr [0; 0; lwip_htonl 65535; lwip_htonl (lwip_htonl a)] 0)).
Proof.
  intros Ha Hl. destruct ws as [|x0 [|x1 [|x2 [|x3 [|]]]]]; try done.
  assert (Hc : count_blocks 8 (take 7 IP4MAPPED_HEADER ++ ip4_text a rest) = Some (Some (4, true))).
  { change (count_blocks 5 (ip4_text a rest) = Some (Some (4, true))). unfold ip4_text.
    rewrite count_digits; [done|]. apply dec_digit. word_lia. }
  unfold ip6addr_aton. rewrite Hc. cbn [mbind option_bind]. pose proof (aton_ip4_text a rest Ha) as E.
  revert E. generalize (ip4_text a rest). intros t E. change (take 7 IP4MAPPED_HEADER ++ t) with (58 :: 58 :: 70 :: 70 :: 70 :: 70 :: 58 :: t).
  transitivity (ip4 ← ip4addr_aton t;
                match ip4 with
                | Some ip4 => aton_return (Blocks [0; 0; 65535; lwip_htonl ip4] 3 7 65535)
                | None => @None (option ip6_addr)
                end).
  2:{ by rewrite E. }
  cbn -[ip4addr_aton lwip_htonl]. rewrite E. reflexivity.
Qed.

Lemma insert_behind (t : list Z) x y tl : <[length t := y]> (t ++ x :: tl) = t ++ y :: tl.
Proof. replace (length t) with (length t + 0)%nat by lia. by rewrite insert_app_r. Qed.

Lemma mapped_words words z : length words = 4%nat -> ip6_addr_isipv4mappedipv6 (Ip6Addr words z) = true ->
  words = [0; 0; lwip_htonl 65535; ip6_word (Ip6Addr words z) 3].
Proof.
  intros Hl H. destruct words as [|w0 [|w1 [|w2 [|w3 [|]]]]]; try done. unfold ip6_addr_isipv4mappedipv6, ip6_word in *.
  cbn [ip6_words nth] in *. apply andb_true_iff in H as [H H2]. apply andb_true_iff in H as [H0 H1].
  apply Z.eqb_eq in H0, H1, H2. by subst.
Qed.

Lemma render_words words tail buflen buf :
  0 < buflen <= Z.of_nat (length buf) ->
  let text := emit 0 0 (map (block_value words tail) (seqZ 0 8)) (block_value words tail 8) in
  ntoa_loop words tail (seqZ 0 8) 0 buflen buf 0 =
  Some (if Z.of_nat (length text) <? buflen
        then Some (text ++ drop (length text) buf, Z.of_nat (length text)) else None).
Proof. intros Hb. exact (ntoa_loop_spec words tail 8 0 0 buflen buf 0 eq_refl ltac:(lia) ltac:(lia)). Qed.

(** ** Properties *)

(** C30: printing an IPv6 address into a buffer of at least one octet never writes past
    it; it fails only if the buffer has fewer than 40 octets; and what it printed,
    whatever run of zero blocks it left out and also in the form with an IPv4
    address at its end, is read back as the same address (without its zone). *)
Theorem ip6addr_text_round_trip padding words z buf buflen old :
  length words = 4%nat -> Forall is_u32 words -> 0 < buflen <= Z.of_nat (length buf) -> length old = 4%nat ->
  exists r, ip6addr_ntoa_r padding (Ip6Addr words z) buf buflen = Some r /\
    (r = None -> buflen < 40) /\
    (forall buf', r = Some buf' ->
       length buf' = length buf /\ ip6addr_aton buf' old = Some (Some (Ip6Addr words IP6_NO_ZONE))).
Proof.
  intros Hl Hw Hb Ho. unfold ip6addr_ntoa_r. cbn [ip6_words zone].
  destruct (ip6_addr_isipv4mappedipv6 _) eqn:Em.
  - destruct (Z.ltb_spec buflen 8); [exists None; naive_solver lia|].
    rewrite (proj2 (Nat.leb_le 8 _)) by lia. pose proof (mapped_words _ _ Hl Em) as E.
    set (a := ip6_word _ 3) in *. assert (Ha : is_u32 a).
    { rewrite E, !Forall_cons in Hw. naive_solver. }
    destruct (ip4addr_ntoa_text a (drop 7 (IP4MAPPED_HEADER ++ drop 8 buf)) (buflen - 8 + 1)) as (r & Er & Hn & Hr); [done| |].
    { rewrite length_drop, length_app, length_drop. cbn [length IP4MAPPED_HEADER]. lia. }
    rewrite Er. cbn [mbind option_bind]. destruct r as [b|]; eexists; (split; [reflexivity|]).
    2:{ split; [|done]. intros _. specialize (Hn eq_refl). unfold IP4ADDR_STRLEN_MAX in Hn. lia. }
    split; [done|]. intros buf' Eb. assert (buf' = take 7 IP4MAPPED_HEADER ++ b) as -> by by injection Eb.
    destruct (Hr b eq_refl) as (Hlb & rest & ->). split.
    + rewrite length_app, Hlb. cbn. rewrite !length_drop. lia.
    + rewrite read_mapped by done. rewrite E at 1. by rewrite htonl_twice.
  - rewrite render_words by done. cbv zeta. set (bs := map _ _). set (nb := block_value _ _ 8).
    assert (Hlen : (length (emit 0 0 bs nb) <= 39)%nat).
    { apply (emit_ok bs 0 0 nb). unfold bs. apply Forall_forall. intros x (i & -> & _)%list_elem_of_fmap. apply block_value_u16. }
    cbn [mbind option_bind]. destruct (Z.ltb_spec (Z.of_nat (length (emit 0 0 bs nb))) buflen).
    2:{ exists None. split_and!; [done|lia|done]. }
    rewrite Nat2Z.id. pose proof (read_emit words (z + 256 * padding) old) as Hread. fold bs nb in Hread.
    revert Hread Hlen H. generalize (emit 0 0 bs nb). intros text Hread Hlen H.
    rewrite (proj2 (Nat.ltb_lt _ _)) by (rewrite length_app, length_drop; lia).
    eexists. split; [reflexivity|]. split; [done|]. intros buf' Eb. apply (inj Some) in Eb. subst buf'. split.
    { rewrite length_insert, length_app, length_drop. lia. }
    destruct (drop (length text) buf) as [|x tl] eqn:Ed.
    { apply (f_equal length) in Ed. rewrite length_drop in Ed. cbn in Ed. lia. }
    rewrite insert_behind. by apply Hread.
Qed.

Lemma ip6addr_text_round_trip_witness :
  exists r, ip6addr_ntoa_r 0 (Ip6Addr [lwip_htonl 4269801472; 0; 0; lwip_htonl 2] 1) (repeat 7 40) 40 = Some r /\
    (r = None -> 40 < 40) /\
    (forall buf', r = Some buf' ->
       length buf' = 40%nat /\
       ip6addr_aton buf' [1; 2; 3; 4] = Some (Some (Ip6Addr [lwip_htonl 4269801472; 0; 0; lwip_htonl 2] IP6_NO_ZONE))).
Proof.
  apply (ip6addr_text_round_trip 0 [lwip_htonl 4269801472; 0; 0; lwip_htonl 2] 1 (repeat 7 40) 40 [1; 2; 3; 4]);
    [done|repeat constructor; done|by split|done].
Defined.

(** With one zero block at the end, the test for a run of zeros reads the zone: the
    text ends with a colon. *)
Example lone_zero_block :     (* 1:1:1:1:1:1:1: *)
  chars [49; 58; 49; 58; 49; 58; 49; 58; 49; 58; 49; 58; 49; 58]
    (ip6addr_ntoa 0 (Ip6Addr [lwip_htonl 65537; lwip_htonl 65537; lwip_htonl 65537; lwip_htonl 65536] 0) (repeat 1 40)).
Proof. by vm_compute. Qed.

(** A buffer of no octets: the first one is written before the length is tested. *)
Example no_room : ip6addr_ntoa_r 0 ip6_addr_zero [] 0 = None.
Proof. reflexivity. Qed.
