(* ===== verification/Chksum.v ===== *)
(** * The Internet checksum (core/c/core/inet_chksum.c)

    The three variants of [lwip_standard_chksum] (the port is built with
    variant 2, which works two octets at a time from an address of any parity;
    variant 3 works eight octets at a time), the checksum of a pbuf chain, and
    the TCP/UDP checksums over the IPv4 and IPv6 pseudo headers.

    A memory area is a list of octets.  [wsum] is its sum as little-endian
    16-bit words and [norm] the end-around-carry reduction of a sum to 16 bits;
    every routine below is shown to compute [norm] of a [wsum]. *)

From S2P Require Import Prelude Def IpAddr.

(** ** Macros of core/c/include/lwip/inet_chksum.h *)

Definition SWAP_BYTES_IN_WORD (w : Z) : Z :=
  Z.lor (Z.shiftl (Z.land w 255) 8) (Z.shiftr (Z.land w 65280) 8).

Definition FOLD_U32T (u : Z) : Z := u32 (Z.shiftr u 16 + Z.land u 65535).

Module Standard1.

(** [while (len > 1)] of variant 1: the first octet is the most significant. *)
Fixpoint sum_loop (acc : Z) (l : list Z) : Z * list Z :=
  match l with
  | b0 :: b1 :: r =>
      let src := Z.lor (u16 (Z.shiftl b0 8)) b1 in
      sum_loop (u32 (acc + src)) r
  | _ => (acc, l)
  end.

Definition lwip_standard_chksum (data : list Z) : Z :=
  let '(acc, rest) := sum_loop 0 data in
  let acc := match rest with
             | b :: _ => u32 (acc + u16 (Z.shiftl b 8))
             | [] => acc
             end in
  let acc := u32 (Z.shiftr acc 16 + Z.land acc 65535) in
  let acc := if negb (Z.land acc 4294901760 =? 0)
             then u32 (Z.shiftr acc 16 + Z.land acc 65535) else acc in
  lwip_htons (u16 acc).

End Standard1.

Module Standard2.

(** [sum += *ps++] over the 16-bit words of the buffer. *)
Fixpoint sum_loop (sum : Z) (l : list Z) : Z * list Z :=
  match l with
  | b0 :: b1 :: r => sum_loop (u32 (sum + (b0 + 256 * b1))) r
  | _ => (sum, l)
  end.

(** [odd] is [(mem_ptr_t)pb & 1]; [t] holds the octets that belong to no
    aligned word: [((u8_t * )&t)[1]] is its high octet, [[0]] its low one. *)
Definition lwip_standard_chksum (odd : bool) (data : list Z) : Z :=
  let '(t, data) :=
    match data with
    | b :: r => if odd then (256 * b, r) else (0, data)
    | [] => (0, data)
    end in
  let '(sum, rest) := sum_loop 0 data in
  let t := match rest with
           | b :: _ => Z.land t 65280 + b
           | [] => t
           end in
  let sum := u32 (sum + t) in
  let sum := FOLD_U32T sum in
  let sum := FOLD_U32T sum in
  let sum := if odd then SWAP_BYTES_IN_WORD sum else sum in
  u16 sum.

End Standard2.

Module Standard3.

(** A 32-bit load from a little-endian machine. *)
Definition load32 (b0 b1 b2 b3 : Z) : Z :=
  b0 + 256 * b1 + 65536 * b2 + 16777216 * b3.

(** [while (len > 7)]: two 32-bit words per round, each with its carry. *)
Fixpoint pingpong_loop (sum : Z) (l : list Z) : Z * list Z :=
  match l with
  | a0 :: a1 :: a2 :: a3 :: b0 :: b1 :: b2 :: b3 :: r =>
      let tmp := u32 (sum + load32 a0 a1 a2 a3) in
      let tmp := if tmp <? sum then u32 (tmp + 1) else tmp in
      let sum := u32 (tmp + load32 b0 b1 b2 b3) in
      let sum := if sum <? tmp then u32 (sum + 1) else sum in
      pingpong_loop sum r
  | _ => (sum, l)
  end.

(** [addr] is the address of the buffer. *)
Definition lwip_standard_chksum (addr : Z) (data : list Z) : Z :=
  let odd := Z.odd addr in
  let '(t, data, addr) :=
    match data with
    | b :: r => if odd then (256 * b, r, addr + 1) else (0, data, addr)
    | [] => (0, data, addr)
    end in
  let '(sum, data) :=
    match data with
    | b0 :: b1 :: r =>
        if negb (Z.land addr 3 =? 0) then (u32 (b0 + 256 * b1), r) else (0, data)
    | _ => (0, data)
    end in
  let '(sum, data) := pingpong_loop sum data in
  let sum := FOLD_U32T sum in
  let '(sum, rest) := Standard2.sum_loop sum data in
  let t := match rest with
           | b :: _ => Z.land t 65280 + b
           | [] => t
           end in
  let sum := u32 (sum + t) in
  let sum := FOLD_U32T sum in
  let sum := FOLD_U32T sum in
  let sum := if odd then SWAP_BYTES_IN_WORD sum else sum in
  u16 sum.

End Standard3.

(** [LWIP_CHKSUM] is variant 2 in this build. *)
Definition LWIP_CHKSUM := Standard2.lwip_standard_chksum.

(** ** Checksums over pbuf chains *)

(** What the checksum code sees of one pbuf: the parity of its [payload]
    address and its [len] octets. *)
Record chunk := Chunk { odd_addr : bool; octets : list Z }.

Definition chunk_len (q : chunk) : Z := Z.of_nat (length (octets q)).

Definition chain_octets (p : list chunk) : list Z := concat (map octets p).

(** One round of the loops over a chain: add the checksum of [len] octets of
    [q], fold, and swap when the next pbuf starts at an odd offset. *)
Definition chain_step (q : chunk) (data : list Z) (acc : Z) (swapped : bool)
  : Z * bool :=
  let acc := u32 (acc + LWIP_CHKSUM (odd_addr q) data) in
  let acc := FOLD_U32T acc in
  if negb (chunk_len q mod 2 =? 0)
  then (SWAP_BYTES_IN_WORD acc, negb swapped) else (acc, swapped).

Fixpoint chain_loop (p : list chunk) (acc : Z) (swapped : bool) : Z * bool :=
  match p with
  | [] => (acc, swapped)
  | q :: next =>
      let '(acc, swapped) := chain_step q (octets q) acc swapped in
      chain_loop next acc swapped
  end.

(** The common tail: undo the swap, add protocol and length, fold, invert. *)
Definition pseudo_tail (acc : Z) (swapped : bool) (proto proto_len : Z) : Z :=
  let acc := if swapped then SWAP_BYTES_IN_WORD acc else acc in
  let acc := u32 (acc + lwip_htons (u16 proto)) in
  let acc := u32 (acc + lwip_htons proto_len) in
  let acc := FOLD_U32T acc in
  let acc := FOLD_U32T acc in
  u16 (Z.lnot (Z.land acc 65535)).

Definition inet_cksum_pseudo_base (p : list chunk) (proto proto_len acc : Z) : Z :=
  let '(acc, swapped) := chain_loop p acc false in
  pseudo_tail acc swapped proto proto_len.

(** Both halves of one address word. *)
Definition add_addr (acc addr : Z) : Z :=
  let acc := u32 (acc + Z.land addr 65535) in
  u32 (acc + Z.land (Z.shiftr addr 16) 65535).

Definition inet_chksum_pseudo (p : list chunk) (proto proto_len src dest : Z) : Z :=
  let acc := add_addr 0 src in
  let acc := add_addr acc dest in
  let acc := FOLD_U32T acc in
  let acc := FOLD_U32T acc in
  inet_cksum_pseudo_base p proto proto_len acc.

(** The [addr_part] loop: [src->addr[i]] then [dest->addr[i]]. *)
Fixpoint add_addr6 (acc : Z) (src dest : list Z) : Z :=
  match src, dest with
  | s :: src', d :: dest' => add_addr6 (add_addr (add_addr acc s) d) src' dest'
  | _, _ => acc
  end.

Definition ip6_chksum_pseudo (p : list chunk) (proto proto_len : Z) (src dest : list Z) : Z :=
  let acc := add_addr6 0 src dest in
  let acc := FOLD_U32T acc in
  let acc := FOLD_U32T acc in
  inet_cksum_pseudo_base p proto proto_len acc.

Definition ip_chksum_pseudo (p : list chunk) (proto proto_len : Z) (src dest : ip_addr) : Z :=
  if IP_IS_V6_VAL dest
  then ip6_chksum_pseudo p proto proto_len (ip6_words (ip_2_ip6 src)) (ip6_words (ip_2_ip6 dest))
  else inet_chksum_pseudo p proto proto_len (ip_2_ip4 src) (ip_2_ip4 dest).

(** The loop of [inet_cksum_pseudo_partial_base]; its assertion ("delete me")
    aborts when 0x7fff or more octets are left after a pbuf. *)
Fixpoint chain_loop_partial (p : list chunk) (chksum_len acc : Z) (swapped : bool)
  : option (Z * bool) :=
  match p with
  | [] => Some (acc, swapped)
  | q :: next =>
      if 0 <? chksum_len then
        let chklen := if chksum_len <? chunk_len q then chksum_len else chunk_len q in
        let '(acc, swapped) :=
          chain_step q (take (Z.to_nat chklen) (octets q)) acc swapped in
        let chksum_len := u16 (chksum_len - chklen) in
        lwip_assert (chksum_len <? 32767);
        chain_loop_partial next chksum_len acc swapped
      else Some (acc, swapped)
  end.

Definition inet_cksum_pseudo_partial_base (p : list chunk)
    (proto proto_len chksum_len acc : Z) : option Z :=
  '(acc, swapped) ← chain_loop_partial p chksum_len acc false;
  Some (pseudo_tail acc swapped proto proto_len).

Definition inet_chksum_pseudo_partial (p : list chunk)
    (proto proto_len chksum_len src dest : Z) : option Z :=
  let acc := add_addr 0 src in
  let acc := add_addr acc dest in
  let acc := FOLD_U32T acc in
  let acc := FOLD_U32T acc in
  inet_cksum_pseudo_partial_base p proto proto_len chksum_len acc.

Definition ip6_chksum_pseudo_partial (p : list chunk)
    (proto proto_len chksum_len : Z) (src dest : list Z) : option Z :=
  let acc := add_addr6 0 src dest in
  let acc := FOLD_U32T acc in
  let acc := FOLD_U32T acc in
  inet_cksum_pseudo_partial_base p proto proto_len chksum_len acc.

Definition ip_chksum_pseudo_partial (p : list chunk)
    (proto proto_len chksum_len : Z) (src dest : ip_addr) : option Z :=
  if IP_IS_V6_VAL dest
  then ip6_chksum_pseudo_partial p proto proto_len chksum_len
         (ip6_words (ip_2_ip6 src)) (ip6_words (ip_2_ip6 dest))
  else inet_chksum_pseudo_partial p proto proto_len chksum_len (ip_2_ip4 src) (ip_2_ip4 dest).

Definition inet_chksum (odd : bool) (data : list Z) : Z :=
  u16 (Z.lnot (LWIP_CHKSUM odd data)).

Definition inet_chksum_pbuf (p : list chunk) : Z :=
  let '(acc, swapped) := chain_loop p 0 false in
  let acc := if swapped then SWAP_BYTES_IN_WORD acc else acc in
  u16 (Z.lnot (Z.land acc 65535)).

(** [lwip_chksum_copy] (version 1): copy, then checksum the destination, whose
    address has parity [odd_dst]. *)
Definition lwip_chksum_copy (odd_dst : bool) (src : list Z) : list Z * Z :=
  (src, LWIP_CHKSUM odd_dst src).

(** ** Specification: ones' complement sums *)

(** Sum of the little-endian 16-bit words, the last one padded with zero. *)
Fixpoint wsum (l : list Z) : Z :=
  match l with
  | [] => 0
  | [b0] => b0
  | b0 :: b1 :: r => b0 + 256 * b1 + wsum r
  end.

(** Reduction with end-around carry: 0 only for 0, else in [1, 65535]. *)
Definition norm (s : Z) : Z := if s =? 0 then 0 else 1 + (s - 1) mod 65535.

(** Ones' complement addition of 16-bit words. *)
Definition oc_add (a b : Z) : Z := if 65535 <? a + b then a + b - 65535 else a + b.

(** RFC 1071: the ones' complement sum of the words of a buffer. *)
Fixpoint rfc1071_sum (l : list Z) : Z :=
  match l with
  | [] => 0
  | [b0] => b0
  | b0 :: b1 :: r => oc_add (b0 + 256 * b1) (rfc1071_sum r)
  end.

(** The octets of a 32-bit word as it lies in memory. *)
Definition word_octets (w : Z) : list Z :=
  [w mod 256; w / 256 mod 256; w / 65536 mod 256; w / 16777216 mod 256].

(** The pseudo headers of RFC 793 and RFC 8200, octet by octet. *)
Definition pseudo_header4 (proto proto_len src dest : Z) : list Z :=
  word_octets src ++ word_octets dest
    ++ [0; proto; proto_len / 256; proto_len mod 256].

Definition pseudo_header6 (proto proto_len : Z) (src dest : list Z) : list Z :=
  concat (map word_octets src) ++ concat (map word_octets dest)
    ++ [0; 0; proto_len / 256; proto_len mod 256; 0; 0; 0; proto].

Definition pseudo_header (proto proto_len : Z) (src dest : ip_addr) : list Z :=
  if IP_IS_V6_VAL dest
  then pseudo_header6 proto proto_len (ip6_words (ip_2_ip6 src)) (ip6_words (ip_2_ip6 dest))
  else pseudo_header4 proto proto_len (ip_2_ip4 src) (ip_2_ip4 dest).

(** ** Lemmas *)

(** *** Ones' complement reduction *)

Lemma norm_unique v s :
  0 <= v <= 65535 -> 0 <= s -> v mod 65535 = s mod 65535 -> (v = 0 <-> s = 0) ->
  v = norm s.
Proof.
  intros Hv Hs Hm Hz. unfold norm. destruct (Z.eqb_spec s 0); [tauto|].
  Z.div_mod_to_equations. lia.
Qed.

Lemma norm_spec s :
  0 <= s -> 0 <= norm s <= 65535 /\ norm s mod 65535 = s mod 65535 /\ (norm s = 0 <-> s = 0).
Proof.
  intros Hs. unfold norm. destruct (Z.eqb_spec s 0) as [->|]; [done|].
  Z.div_mod_to_equations. lia.
Qed.

Lemma norm_bound s : 0 <= s -> 0 <= norm s <= 65535.
Proof. intros. by apply norm_spec. Qed.

Lemma norm_small s : 0 <= s <= 65535 -> norm s = s.
Proof. intros. symmetry. by apply norm_unique; [| lia | |]. Qed.

Lemma norm_congr s s' :
  0 <= s -> 0 <= s' -> s mod 65535 = s' mod 65535 -> (s = 0 <-> s' = 0) -> norm s = norm s'.
Proof.
  intros Hs Hs' Hm Hz. destruct (norm_spec s Hs) as (? & ? & ?).
  apply norm_unique; [done..|congruence|tauto].
Qed.

Lemma norm_add_l a b : 0 <= a -> 0 <= b -> norm (norm a + b) = norm (a + b).
Proof.
  intros Ha Hb. destruct (norm_spec a Ha) as (? & Hm & ?).
  apply norm_congr; [lia..| |lia].
  by rewrite <- Zplus_mod_idemp_l, Hm, Zplus_mod_idemp_l.
Qed.

Lemma norm_add_r a b : 0 <= a -> 0 <= b -> norm (a + norm b) = norm (a + b).
Proof. intros. rewrite Z.add_comm, norm_add_l, Z.add_comm; done. Qed.

Lemma norm_mul a k : 0 < k -> 0 <= a -> norm (k * norm a) = norm (k * a).
Proof.
  intros Hk Ha. destruct (norm_spec a Ha) as (? & Hm & ?).
  apply norm_congr; [nia..| |nia].
  by rewrite <- Zmult_mod_idemp_r, Hm, Zmult_mod_idemp_r.
Qed.

(** 65536 is 1 modulo 65535: two swaps cancel. *)
Lemma norm_65536 a b : 0 <= a -> 0 <= b -> norm (b + 65536 * a) = norm (b + a).
Proof.
  intros. apply norm_congr; [lia..| |lia].
  replace (b + 65536 * a) with (b + a + a * 65535) by lia. apply Z_mod_plus_full.
Qed.

Lemma oc_add_norm a b : 0 <= a <= 65535 -> 0 <= b <= 65535 -> oc_add a b = norm (a + b).
Proof.
  intros. unfold oc_add. apply norm_unique; [| lia | |];
    destruct (Z.ltb_spec 65535 (a + b)); try lia.
  replace (a + b) with (a + b - 65535 + 1 * 65535) at 2 by lia.
  by rewrite Z_mod_plus_full.
Qed.

(** *** Folding and swapping *)

Lemma FOLD_U32T_eq u : is_u32 u -> FOLD_U32T u = u / 65536 + u mod 65536.
Proof.
  intros. unfold FOLD_U32T. rewrite land_ffff, shiftr_div by lia.
  change (2 ^ 16) with 65536. word_lia.
Qed.

Lemma fold1 u : 0 <= u <= 131070 -> FOLD_U32T u = norm u.
Proof.
  intros. rewrite FOLD_U32T_eq by word_lia.
  apply norm_unique; Z.div_mod_to_equations; lia.
Qed.

Lemma fold2 u : is_u32 u -> FOLD_U32T (FOLD_U32T u) = norm u.
Proof.
  intros Hu. rewrite (FOLD_U32T_eq u) by done.
  rewrite fold1 by word_lia. unfold is_u32 in Hu.
  apply norm_congr; Z.div_mod_to_equations; lia.
Qed.

Lemma SWAP_eq v : is_u16 v -> SWAP_BYTES_IN_WORD v = 256 * (v mod 256) + v / 256.
Proof.
  intros. unfold SWAP_BYTES_IN_WORD.
  rewrite land_ff, land_ff00, Z.shiftl_mul_pow2, Z.shiftr_div_pow2 by lia.
  rewrite Z.div_mul by lia. rewrite lor_shift_add by word_lia.
  change (2 ^ 8) with 256. word_lia.
Qed.

Lemma htons_SWAP v : is_u16 v -> lwip_htons v = 256 * (v mod 256) + v / 256.
Proof.
  intros H. destruct (u16_octets v H) as [E ?]. rewrite E at 1.
  rewrite lwip_htons_octets by (done || apply u8_bound). lia.
Qed.

Lemma swap_norm_aux v s :
  0 <= s -> v = norm s -> 256 * (v mod 256) + v / 256 = norm (256 * s).
Proof.
  intros Hs ->. rewrite <- norm_mul by lia.
  pose proof (norm_bound s Hs). generalize dependent (norm s). intros v Hv.
  apply norm_unique; Z.div_mod_to_equations; lia.
Qed.

Lemma SWAP_norm s : 0 <= s -> SWAP_BYTES_IN_WORD (norm s) = norm (256 * s).
Proof.
  intros Hs. rewrite SWAP_eq by (pose proof (norm_bound s Hs); word_lia).
  by apply swap_norm_aux.
Qed.

Lemma htons_norm s : 0 <= s -> lwip_htons (norm s) = norm (256 * s).
Proof.
  intros Hs. rewrite htons_SWAP by (pose proof (norm_bound s Hs); word_lia).
  by apply swap_norm_aux.
Qed.

(** *** Word sums *)

Lemma list_pair_ind (P : list Z -> Prop) :
  P [] -> (forall b, P [b]) -> (forall a b l, P l -> P (a :: b :: l)) -> forall l, P l.
Proof.
  intros H0 H1 H2 l. enough (P l /\ forall b, P (b :: l)) by tauto.
  induction l as [|a l [IH1 IH2]]; split; auto.
Qed.

Lemma wsum_bound l :
  bytes_ok l -> 0 <= wsum l <= 65535 * ((Z.of_nat (length l) + 1) / 2).
Proof.
  induction l as [|b|a b l IH] using list_pair_ind; simpl wsum.
  - done.
  - intros [Hb _]%Forall_cons. simpl. word_lia.
  - rewrite !Forall_cons. intros (Ha & Hb & Hl). specialize (IH Hl).
    replace ((Z.of_nat (length (a :: b :: l)) + 1) / 2)
      with ((Z.of_nat (length l) + 1) / 2 + 1)
      by (simpl length; rewrite !Nat2Z.inj_succ; Z.div_mod_to_equations; lia).
    unfold is_u8 in *. lia.
Qed.

Lemma wsum_nonneg l : bytes_ok l -> 0 <= wsum l.
Proof. intros H. apply (wsum_bound l H). Qed.

Lemma wsum_zero l : bytes_ok l -> wsum l = 0 <-> Forall (eq 0) l.
Proof.
  induction l as [|b|a b l IH] using list_pair_ind; simpl wsum; rewrite ?Forall_cons.
  - done.
  - split; [intros ->; by repeat constructor | by intros [-> _]].
  - intros (Ha & Hb & Hl). specialize (IH Hl). pose proof (wsum_nonneg l Hl).
    unfold is_u8 in *. rewrite <- IH. lia.
Qed.

(** Prepending an octet shifts the alignment: the old sum counts 256-fold. *)
Lemma wsum_cons b l :
  is_u8 b -> bytes_ok l ->
  exists k, 0 <= k /\ b + 256 * wsum l = wsum (b :: l) + 65535 * k.
Proof.
  intros Hb. revert b Hb.
  induction l as [|c|c d l IH] using list_pair_ind; intros b Hb Hl.
  - exists 0. simpl. lia.
  - exists 0. simpl. lia.
  - rewrite !Forall_cons in Hl. destruct Hl as (Hc & Hd & Hl).
    destruct (IH d Hd Hl) as (k & Hk & E).
    change (wsum (b :: c :: d :: l)) with (b + 256 * c + wsum (d :: l)).
    change (wsum (c :: d :: l)) with (c + 256 * d + wsum l).
    exists (k + d). unfold is_u8 in *. lia.
Qed.

Lemma norm_wsum_cons b l :
  is_u8 b -> bytes_ok l -> norm (wsum (b :: l)) = norm (b + 256 * wsum l).
Proof.
  intros Hb Hl. destruct (wsum_cons b l Hb Hl) as (k & Hk & E).
  assert (bytes_ok (b :: l)) by by constructor.
  pose proof (wsum_nonneg _ H). pose proof (wsum_nonneg _ Hl).
  assert (0 <= b) by apply Hb.
  apply norm_congr; [lia..| |].
  - rewrite E. rewrite (Z.mul_comm 65535). by rewrite Z_mod_plus_full.
  - split; [|lia]. intros Hz. apply wsum_zero in Hz; [|done].
    apply Forall_cons in Hz as [<- Hz]. apply wsum_zero in Hz; [lia|done].
Qed.

(** The phase of an octet offset: an odd offset multiplies by 256. *)
Definition phase (odd : bool) (s : Z) : Z := if odd then 256 * s else s.

Definition odd_length (l : list Z) : bool := negb (Z.of_nat (length l) mod 2 =? 0).

Lemma odd_length_cons2 a b l : odd_length (a :: b :: l) = odd_length l.
Proof.
  unfold odd_length. simpl length. rewrite !Nat2Z.inj_succ. f_equal.
  apply eq_true_iff_eq. rewrite !Z.eqb_eq. Z.div_mod_to_equations. lia.
Qed.

Lemma norm_wsum_app l1 l2 :
  bytes_ok l1 -> bytes_ok l2 ->
  norm (wsum (l1 ++ l2)) = norm (wsum l1 + phase (odd_length l1) (wsum l2)).
Proof.
  intros H1 H2. pose proof (wsum_nonneg l2 H2).
  induction l1 as [|b|a b l1 IH] using list_pair_ind.
  - reflexivity.
  - apply Forall_cons in H1 as [Hb _]. change ([b] ++ l2) with (b :: l2).
    by rewrite norm_wsum_cons.
  - rewrite !Forall_cons in H1. destruct H1 as (Ha & Hb & H1).
    rewrite odd_length_cons2.
    change (wsum ((a :: b :: l1) ++ l2)) with (a + 256 * b + wsum (l1 ++ l2)).
    change (wsum (a :: b :: l1)) with (a + 256 * b + wsum l1).
    unfold is_u8 in *.
    rewrite <- norm_add_r, IH, norm_add_r; [f_equal; lia|..]; auto; [lia| |lia|].
    + pose proof (wsum_nonneg l1 H1). unfold phase. destruct odd_length; lia.
    + apply wsum_nonneg. by apply Forall_app.
Qed.

Lemma odd_length_app l1 l2 : odd_length (l1 ++ l2) = xorb (odd_length l1) (odd_length l2).
Proof.
  unfold odd_length. rewrite length_app, Nat2Z.inj_add.
  destruct (Z.eqb_spec (Z.of_nat (length l1) mod 2) 0),
    (Z.eqb_spec (Z.of_nat (length l2) mod 2) 0),
    (Z.eqb_spec ((Z.of_nat (length l1) + Z.of_nat (length l2)) mod 2) 0); simpl;
    try reflexivity; Z.div_mod_to_equations; lia.
Qed.

(** *** The word loops *)

Lemma sum_loop_spec l : forall sum,
  bytes_ok l -> 0 <= sum -> sum + wsum l < 4294967296 ->
  exists s r, Standard2.sum_loop sum l = (s, r) /\ 0 <= s /\ bytes_ok r /\
    s + wsum r = sum + wsum l /\ (r = [] \/ exists b, r = [b]).
Proof.
  induction l as [|b|a b l IH] using list_pair_ind; intros sum Hl Hs Hb; simpl.
  - exists sum, []. naive_solver lia.
  - exists sum, [b]. naive_solver lia.
  - rewrite !Forall_cons in Hl. destruct Hl as (Ha & Hb' & Hl).
    simpl wsum in Hb. pose proof (wsum_nonneg l Hl).
    unfold is_u8 in *. rewrite u32_id by (unfold is_u32; lia).
    destruct (IH (sum + (a + 256 * b))) as (s & r & -> & ? & ? & ? & ?); [done|lia..|].
    exists s, r. split_and!; try done. lia.
Qed.

(** Both optimised variants end the same way. *)
Lemma chksum_tail_spec t l sum :
  bytes_ok l -> (t = 0 \/ exists b, is_u8 b /\ t = 256 * b) -> 0 <= sum ->
  sum + t + wsum l < 4294967296 ->
  (let '(sum, rest) := Standard2.sum_loop sum l in
   let t := match rest with b :: _ => Z.land t 65280 + b | [] => t end in
   FOLD_U32T (FOLD_U32T (u32 (sum + t)))) = norm (sum + t + wsum l).
Proof.
  intros Hl Ht Hs Hb. pose proof (wsum_nonneg l Hl).
  assert (0 <= t) by (destruct Ht as [->|(b & ? & ->)]; unfold is_u8 in *; lia).
  assert (Z.land t 65280 = t) as E.
  { destruct Ht as [->|(b & ? & ->)]; [done|]. rewrite land_ff00. word_lia. }
  destruct (sum_loop_spec l sum Hl Hs) as (s & r & -> & ? & Hr & Heq & Hr'); [lia|].
  cbv beta iota zeta.
  assert (s + match r with b :: _ => Z.land t 65280 + b | [] => t end = sum + t + wsum l) as ->.
  { rewrite E. destruct Hr' as [->|[b ->]]; simpl in Heq; lia. }
  rewrite u32_id by (unfold is_u32; lia). apply fold2. unfold is_u32. lia.
Qed.

Lemma chksum_swap_spec b l :
  is_u8 b -> bytes_ok l -> norm (256 * (256 * b + wsum l)) = norm (wsum (b :: l)).
Proof.
  intros Hb Hl. rewrite norm_wsum_cons by done.
  pose proof (wsum_nonneg l Hl). unfold is_u8 in Hb.
  replace (256 * (256 * b + wsum l)) with (256 * wsum l + 65536 * b) by lia.
  rewrite norm_65536 by lia. f_equal. lia.
Qed.

(** Longest buffer for which the 32-bit accumulator cannot overflow. *)
Abbreviation max_chksum_len := 131072.

Lemma wsum_lt l k :
  bytes_ok l -> Z.of_nat (length l) <= 2 * k -> wsum l <= 65535 * k.
Proof.
  intros Hl Hk. pose proof (wsum_bound l Hl).
  enough ((Z.of_nat (length l) + 1) / 2 <= k) by lia.
  Z.div_mod_to_equations. lia.
Qed.

Lemma standard2_norm odd data :
  bytes_ok data -> Z.of_nat (length data) <= max_chksum_len ->
  Standard2.lwip_standard_chksum odd data = norm (wsum data).
Proof.
  intros Hd Hlen. unfold Standard2.lwip_standard_chksum.
  assert (forall s, 0 <= s -> u16 (norm s) = norm s) as Hu.
  { intros s Hs. apply u16_id. pose proof (norm_bound s Hs). unfold is_u16. lia. }
  destruct odd, data as [|b r]; try done.
  - apply Forall_cons in Hd as [Hb Hr]. pose proof Hb as Hb'.
    assert (Z.of_nat (length r) <= 2 * 65536 - 1)
      by (simpl in Hlen; rewrite Nat2Z.inj_succ in Hlen; lia).
    pose proof (wsum_lt r 65536 Hr ltac:(lia)). pose proof (wsum_nonneg r Hr).
    unfold is_u8 in Hb'.
    pose proof (chksum_tail_spec (256 * b) r 0 Hr) as E. destruct Standard2.sum_loop.
    cbv beta iota zeta in E. rewrite Z.add_0_l in E. rewrite E by (try lia; eauto).
    rewrite SWAP_norm, chksum_swap_spec by (done || lia).
    apply Hu. by apply wsum_nonneg, Forall_cons.
  - pose proof (wsum_lt _ 65536 Hd ltac:(lia)). pose proof (wsum_nonneg _ Hd).
    pose proof (chksum_tail_spec 0 (b :: r) 0 Hd) as E. destruct Standard2.sum_loop.
    cbv beta iota zeta in E. rewrite Z.add_0_l in E. rewrite E by (try lia; eauto). by apply Hu.
Qed.

Lemma rfc1071_norm l : bytes_ok l -> rfc1071_sum l = norm (wsum l).
Proof.
  induction l as [|b|a b l IH] using list_pair_ind; simpl; intros Hl.
  - done.
  - apply Forall_cons in Hl as [Hb _]. symmetry. apply norm_small. unfold is_u8 in Hb. lia.
  - rewrite !Forall_cons in Hl. destruct Hl as (Ha & Hb & Hl).
    pose proof (wsum_nonneg l Hl) as Hn. pose proof (norm_bound _ Hn).
    unfold is_u8 in *. rewrite IH, oc_add_norm, norm_add_r by (done || lia). done.
Qed.

(** Variant 1 sums the words in network byte order. *)
Fixpoint wsum_be (l : list Z) : Z :=
  match l with
  | [] => 0
  | [b0] => 256 * b0
  | b0 :: b1 :: r => 256 * b0 + b1 + wsum_be r
  end.

Lemma wsum_be_spec l :
  bytes_ok l ->
  0 <= wsum_be l <= 65535 * ((Z.of_nat (length l) + 1) / 2) /\
  norm (256 * wsum_be l) = norm (wsum l).
Proof.
  induction l as [|b|a b l IH] using list_pair_ind; simpl wsum_be; intros Hl.
  - done.
  - apply Forall_cons in Hl as [Hb _]. unfold is_u8 in Hb. simpl. split; [word_lia|].
    replace (256 * (256 * b)) with (0 + 65536 * b) by lia. by rewrite norm_65536 by lia.
  - rewrite !Forall_cons in Hl. destruct Hl as (Ha & Hb & Hl).
    destruct (IH Hl) as [HB HN]. pose proof (wsum_nonneg l Hl).
    replace ((Z.of_nat (length (a :: b :: l)) + 1) / 2)
      with ((Z.of_nat (length l) + 1) / 2 + 1)
      by (simpl length; rewrite !Nat2Z.inj_succ; Z.div_mod_to_equations; lia).
    unfold is_u8 in *. split; [lia|].
    change (wsum (a :: b :: l)) with (a + 256 * b + wsum l).
    rewrite <- (norm_add_r (a + 256 * b)), <- HN, norm_add_r by lia.
    replace (256 * (256 * a + b + wsum_be l))
      with (256 * b + 256 * wsum_be l + 65536 * a) by lia.
    rewrite norm_65536 by lia. f_equal. lia.
Qed.

Lemma sum_loop1_spec l : forall acc,
  bytes_ok l -> 0 <= acc -> acc + wsum_be l < 4294967296 ->
  exists a r, Standard1.sum_loop acc l = (a, r) /\ 0 <= a /\ bytes_ok r /\
    a + wsum_be r = acc + wsum_be l /\ (r = [] \/ exists b, r = [b]).
Proof.
  induction l as [|b|a b l IH] using list_pair_ind; intros acc Hl Hs Hb; simpl.
  - exists acc, []. naive_solver lia.
  - exists acc, [b]. naive_solver lia.
  - rewrite !Forall_cons in Hl. destruct Hl as (Ha & Hb' & Hl).
    simpl wsum_be in Hb. destruct (wsum_be_spec l Hl) as [? _].
    rewrite Z.shiftl_mul_pow2, u16_id by word_lia.
    rewrite lor_shift_add by (unfold is_u8 in *; lia). change (2 ^ 8) with 256.
    unfold is_u8 in *. rewrite u32_id by (unfold is_u32; lia).
    destruct (IH (acc + (a * 256 + b))) as (s & r & -> & ? & ? & ? & ?); [done|lia..|].
    exists s, r. split_and!; try done. lia.
Qed.

Lemma standard1_norm data :
  bytes_ok data -> Z.of_nat (length data) <= max_chksum_len ->
  Standard1.lwip_standard_chksum data = norm (wsum data).
Proof.
  intros Hd Hlen. unfold Standard1.lwip_standard_chksum. cbv zeta.
  destruct (wsum_be_spec data Hd) as [HB HN].
  assert ((Z.of_nat (length data) + 1) / 2 <= 65536) by (Z.div_mod_to_equations; lia).
  destruct (sum_loop1_spec data 0) as (a & r & -> & ? & Hr & Heq & Hr'); [done|lia..|].
  assert ((match r with b :: _ => u32 (a + u16 (Z.shiftl b 8)) | [] => a end)
          = wsum_be data) as ->.
  { destruct Hr' as [->|[b ->]]; simpl in Heq; [lia|].
    apply Forall_cons in Hr as [Hb _].
    rewrite Z.shiftl_mul_pow2, u16_id by word_lia. change (2 ^ 8) with 256.
    rewrite u32_id by (unfold is_u32; lia). lia. }
  set (s := wsum_be data) in *.
  change (lwip_htons (u16 (if negb (Z.land (FOLD_U32T s) 4294901760 =? 0)
           then FOLD_U32T (FOLD_U32T s) else FOLD_U32T s)) = norm (wsum data)).
  assert (is_u32 s) by (unfold is_u32; lia).
  pose proof (FOLD_U32T_eq s ltac:(done)) as E.
  assert (0 <= FOLD_U32T s <= 131070) by word_lia.
  assert ((if negb (Z.land (FOLD_U32T s) 4294901760 =? 0)
           then FOLD_U32T (FOLD_U32T s) else FOLD_U32T s) = norm s) as ->.
  { destruct (negb _) eqn:Hc; [by apply fold2|].
    apply negb_false_iff, Z.eqb_eq in Hc.
    rewrite <- (fold2 s) by done. rewrite (fold1 (FOLD_U32T s)), norm_small; try done.
    pose proof (land_zero_high _ Hc ltac:(word_lia)).
    pose proof (Z.mod_pos_bound (FOLD_U32T s) 65536). lia. }
  pose proof (norm_bound s ltac:(lia)).
  rewrite u16_id by (unfold is_u16; lia). rewrite htons_norm by lia. done.
Qed.

(** *** Variant 3 *)

Lemma carry_add s w :
  is_u32 s -> is_u32 w ->
  let tmp := u32 (s + w) in
  let sum := if tmp <? s then u32 (tmp + 1) else tmp in
  is_u32 sum /\ norm sum = norm (s + w).
Proof.
  intros Hs Hw. unfold is_u32, u32 in *. cbv zeta.
  destruct (Z.lt_ge_cases (s + w) 4294967296).
  - rewrite (Z.mod_small (s + w)) by lia. destruct (Z.ltb_spec (s + w) s); [lia|]. lia.
  - replace ((s + w) mod 4294967296) with (s + w - 4294967296) by word_lia.
    destruct (Z.ltb_spec (s + w - 4294967296) s); [|lia].
    rewrite Z.mod_small by lia. split; [lia|].
    apply norm_congr; [lia..| |lia]. Z.div_mod_to_equations. lia.
Qed.

Lemma load32_norm x a0 a1 a2 a3 :
  0 <= x -> is_u8 a0 -> is_u8 a1 -> is_u8 a2 -> is_u8 a3 ->
  is_u32 (Standard3.load32 a0 a1 a2 a3) /\
  norm (x + Standard3.load32 a0 a1 a2 a3) = norm (x + (a0 + 256 * a1 + (a2 + 256 * a3))).
Proof.
  unfold is_u8, is_u32, Standard3.load32. intros. split; [lia|].
  replace (x + (a0 + 256 * a1 + 65536 * a2 + 16777216 * a3))
    with (x + a0 + 256 * a1 + 65536 * (a2 + 256 * a3)) by lia.
  rewrite norm_65536 by lia. f_equal. lia.
Qed.

Lemma pingpong_round s a0 a1 a2 a3 :
  is_u32 s -> is_u8 a0 -> is_u8 a1 -> is_u8 a2 -> is_u8 a3 ->
  let tmp := u32 (s + Standard3.load32 a0 a1 a2 a3) in
  let sum := if tmp <? s then u32 (tmp + 1) else tmp in
  is_u32 sum /\ norm sum = norm (s + (a0 + 256 * a1 + (a2 + 256 * a3))).
Proof.
  intros Hs H0 H1 H2 H3.
  destruct (load32_norm s a0 a1 a2 a3 (proj1 Hs) H0 H1 H2 H3) as [? E].
  destruct (carry_add s (Standard3.load32 a0 a1 a2 a3)) as [? E']; [done..|].
  cbv zeta in *. split; [done|congruence].
Qed.

Lemma pingpong_spec n : forall l sum,
  (length l < n)%nat -> bytes_ok l -> is_u32 sum ->
  exists s r, Standard3.pingpong_loop sum l = (s, r) /\ is_u32 s /\ bytes_ok r /\
    (length r < 8)%nat /\ norm (s + wsum r) = norm (sum + wsum l).
Proof.
  induction n as [|n IH]; [lia|].
  intros [|a0 [|a1 [|a2 [|a3 [|b0 [|b1 [|b2 [|b3 l]]]]]]]] sum Hn Hl Hs;
    try (eexists _, _; split; [reflexivity|]; simpl; split_and!; (done || lia)).
  rewrite !Forall_cons in Hl. destruct Hl as (?&?&?&?&?&?&?&?&Hl).
  cbn [Standard3.pingpong_loop].
  destruct (pingpong_round sum a0 a1 a2 a3) as [Hu1 E1]; [done..|]. cbv zeta in Hu1, E1.
  set (tmp := if u32 (sum + _) <? sum then _ else _) in *.
  destruct (pingpong_round tmp b0 b1 b2 b3) as [Hu2 E2]; [done..|]. cbv zeta in Hu2, E2.
  set (sum2 := if u32 (tmp + _) <? tmp then _ else _) in *. cbv zeta.
  destruct (IH l sum2) as (s & r & -> & ? & ? & ? & E); [simpl in Hn; lia|done..|].
  exists s, r. split_and!; try done. rewrite E.
  pose proof (wsum_nonneg l Hl). unfold is_u8, is_u32 in *.
  rewrite <- norm_add_l, E2, norm_add_l by lia.
  rewrite <- Z.add_assoc, <- norm_add_l, E1, norm_add_l by lia.
  f_equal. simpl wsum. lia.
Qed.

(** Everything of variant 3 after the octet at an odd address. *)
Lemma standard3_even addr t data :
  bytes_ok data -> (t = 0 \/ exists b, is_u8 b /\ t = 256 * b) ->
  (let '(sum, data) :=
     match data with
     | b0 :: b1 :: r =>
         if negb (Z.land addr 3 =? 0) then (u32 (b0 + 256 * b1), r) else (0, data)
     | _ => (0, data)
     end in
   let '(sum, data) := Standard3.pingpong_loop sum data in
   let '(sum, rest) := Standard2.sum_loop (FOLD_U32T sum) data in
   let t := match rest with b :: _ => Z.land t 65280 + b | [] => t end in
   FOLD_U32T (FOLD_U32T (u32 (sum + t)))) = norm (t + wsum data).
Proof.
  intros Hd Ht.
  assert (0 <= t <= 65280) by (destruct Ht as [->|(b & ? & ->)]; unfold is_u8 in *; lia).
  assert (exists s0 d0,
    match data with
    | b0 :: b1 :: r =>
        if negb (Z.land addr 3 =? 0) then (u32 (b0 + 256 * b1), r) else (0, data)
    | _ => (0, data)
    end = (s0, d0) /\ is_u32 s0 /\ bytes_ok d0 /\ s0 + wsum d0 = wsum data)
    as (s0 & d0 & -> & Hs0 & Hd0 & <-).
  { destruct data as [|b0 [|b1 r]].
    - by exists 0, [].
    - by exists 0, [b0].
    - destruct (negb _); [|by exists 0, (b0 :: b1 :: r)].
      exists (u32 (b0 + 256 * b1)), r. rewrite !Forall_cons in Hd.
      destruct Hd as (?&?&?). unfold is_u8 in *.
      rewrite u32_id by (unfold is_u32; lia). unfold is_u32. simpl. split_and!; done || lia. }
  cbv beta iota zeta.
  destruct (pingpong_spec (S (length d0)) d0 s0) as (s & r & -> & Hs & Hr & Hlen & E);
    [lia|done..|]. cbv beta iota zeta.
  pose proof (wsum_lt r 4 Hr ltac:(lia)). pose proof (wsum_nonneg r Hr).
  pose proof (wsum_nonneg d0 Hd0).
  pose proof (FOLD_U32T_eq s Hs) as Ef. assert (0 <= FOLD_U32T s <= 131070) by word_lia.
  pose proof (chksum_tail_spec t r (FOLD_U32T s) Hr Ht) as Et.
  destruct Standard2.sum_loop. cbv beta iota zeta in Et. rewrite Et by lia.
  unfold is_u32 in *.
  transitivity (norm (t + norm (s + wsum r))); [|rewrite E, norm_add_r; done || lia].
  rewrite norm_add_r by lia. rewrite Ef.
  apply norm_congr; Z.div_mod_to_equations; lia.
Qed.

Lemma standard3_norm addr data :
  bytes_ok data -> Standard3.lwip_standard_chksum addr data = norm (wsum data).
Proof.
  intros Hd. pose proof (wsum_nonneg _ Hd) as Hn.
  assert (forall s, 0 <= s -> u16 (norm s) = norm s) as Hu.
  { intros s Hs. apply u16_id. pose proof (norm_bound s Hs). unfold is_u16. lia. }
  unfold Standard3.lwip_standard_chksum.
  destruct (Z.odd addr) eqn:Ho.
  - destruct data as [|b r].
    + simpl. done.
    + apply Forall_cons in Hd as [Hb Hr]. pose proof (wsum_nonneg r Hr).
      cbv beta iota zeta.
      pose proof (standard3_even (addr + 1) (256 * b) r Hr ltac:(eauto)) as E.
      cbv beta iota zeta in E.
      destruct (match r with b0 :: b1 :: _ => _ | _ => _ end) as [s0 d0].
      destruct Standard3.pingpong_loop. destruct Standard2.sum_loop. rewrite E.
      pose proof Hb as Hb'. unfold is_u8 in Hb'.
      rewrite SWAP_norm, chksum_swap_spec by (done || lia). by apply Hu.
  - assert (match data with [] => (0, data, addr) | b :: r => (0, data, addr) end
            = (0, data, addr)) as -> by by destruct data.
    cbv beta iota zeta. pose proof (standard3_even addr 0 data Hd ltac:(eauto)) as E.
    cbv beta iota zeta in E.
    destruct (match data with b0 :: b1 :: _ => _ | _ => _ end) as [s0 d0].
    destruct Standard3.pingpong_loop. destruct Standard2.sum_loop. rewrite E. by apply Hu.
Qed.

(** *** Chains of pbufs *)

Definition chunk_ok (q : chunk) : Prop := bytes_ok (octets q) /\ is_u16 (chunk_len q).

Lemma chain_octets_cons q p : chain_octets (q :: p) = octets q ++ chain_octets p.
Proof. reflexivity. Qed.

Lemma chain_octets_ok p : Forall chunk_ok p -> bytes_ok (chain_octets p).
Proof.
  induction 1 as [|q p [Hq _] _ IH]; [constructor|].
  rewrite chain_octets_cons. by apply Forall_app.
Qed.

Lemma phase_norm o s : 0 <= s -> norm (phase o (norm s)) = norm (phase o s).
Proof.
  intros. destruct o; simpl; [by apply norm_mul|].
  by apply norm_small, norm_bound.
Qed.

Lemma phase_nonneg o s : 0 <= s -> 0 <= phase o s.
Proof. destruct o; simpl; lia. Qed.

Lemma phase_norm_add o x w : 0 <= x -> 0 <= w ->
  norm (phase o (norm x + w)) = norm (phase o (x + w)).
Proof.
  intros. pose proof (norm_bound x ltac:(done)).
  rewrite <- phase_norm, norm_add_l, phase_norm by lia. done.
Qed.

Lemma phase_wsum_app o a l1 l2 : 0 <= a -> bytes_ok l1 -> bytes_ok l2 ->
  norm (phase o (a + wsum (l1 ++ l2))) =
  norm (phase o (a + (wsum l1 + phase (odd_length l1) (wsum l2)))).
Proof.
  intros Ha H1 H2. pose proof (wsum_nonneg _ H1). pose proof (wsum_nonneg _ H2).
  assert (bytes_ok (l1 ++ l2)) as H12 by by apply Forall_app.
  pose proof (wsum_nonneg _ H12). pose proof (phase_nonneg (odd_length l1) (wsum l2)).
  rewrite (Z.add_comm a), <- phase_norm_add, norm_wsum_app, phase_norm_add by (done || lia).
  do 2 f_equal. lia.
Qed.

(** Two phase changes compose as parities do. *)
Lemma phase_compose e1 e2 a x w : 0 <= a -> 0 <= x -> 0 <= w ->
  norm (phase e2 (phase e1 (a + x) + w)) = norm (phase (xorb e1 e2) (a + (x + phase e1 w))).
Proof.
  intros. destruct e1, e2; simpl; try (f_equal; lia).
  - replace (256 * (256 * (a + x) + w)) with (256 * w + 65536 * (a + x)) by lia.
    rewrite norm_65536 by lia. f_equal. lia.
  - replace (256 * (a + (x + 256 * w))) with (256 * (a + x) + 65536 * w) by lia.
    by rewrite norm_65536 by lia.
Qed.

Lemma chain_step_spec q data acc swapped :
  bytes_ok data -> Z.of_nat (length data) <= max_chksum_len -> 0 <= acc <= 65535 ->
  chain_step q data acc swapped =
    (norm (phase (odd_length (octets q)) (acc + wsum data)),
     xorb swapped (odd_length (octets q))).
Proof.
  intros Hd Hl Ha. unfold chain_step, LWIP_CHKSUM.
  rewrite standard2_norm by done.
  pose proof (wsum_nonneg _ Hd) as Hn. pose proof (norm_bound _ Hn).
  rewrite u32_id, fold1, norm_add_r by (unfold is_u32; lia).
  unfold odd_length, chunk_len.
  destruct (negb _); simpl; [|by rewrite xorb_false_r].
  rewrite SWAP_norm, xorb_true_r by lia. done.
Qed.

Lemma chain_loop_spec p : forall acc swapped,
  Forall chunk_ok p -> 0 <= acc <= 65535 ->
  chain_loop p acc swapped =
    (norm (phase (odd_length (chain_octets p)) (acc + wsum (chain_octets p))),
     xorb swapped (odd_length (chain_octets p))).
Proof.
  induction p as [|q p IH]; intros acc swapped Hp Ha.
  - simpl. rewrite xorb_false_r, Z.add_0_r. by rewrite norm_small.
  - apply Forall_cons in Hp as [[Hq Hql] Hp]. cbn [chain_loop].
    unfold chunk_len, is_u16 in Hql. rewrite chain_step_spec by (done || lia).
    pose proof (wsum_nonneg _ Hq). pose proof (chain_octets_ok _ Hp) as Hc.
    pose proof (wsum_nonneg _ Hc).
    set (eq := odd_length (octets q)). set (ec := odd_length (chain_octets p)) in *.
    pose proof (phase_nonneg eq (acc + wsum (octets q)) ltac:(lia)).
    rewrite IH by (done || by apply norm_bound).
    rewrite chain_octets_cons, odd_length_app. fold eq ec.
    f_equal; [|by rewrite xorb_assoc].
    rewrite phase_norm_add, phase_wsum_app by (done || lia).
    apply phase_compose; lia.
Qed.

Lemma lnot16 v : 0 <= v <= 65535 -> u16 (Z.lnot v) = 65535 - v.
Proof. intros. unfold Z.lnot. word_lia. Qed.

Lemma land_ffff_small v : 0 <= v <= 65535 -> Z.land v 65535 = v.
Proof. intros. rewrite land_ffff. apply Z.mod_small. lia. Qed.

Lemma unswap e s : 0 <= s ->
  (if e : bool then SWAP_BYTES_IN_WORD (norm (phase e s)) else norm (phase e s)) = norm s.
Proof.
  intros. destruct e; [|done]. simpl. rewrite SWAP_norm by lia.
  replace (256 * (256 * s)) with (0 + 65536 * s) by lia. by rewrite norm_65536 by lia.
Qed.

Lemma inet_chksum_pbuf_norm p :
  Forall chunk_ok p -> inet_chksum_pbuf p = 65535 - norm (wsum (chain_octets p)).
Proof.
  intros Hp. unfold inet_chksum_pbuf. rewrite chain_loop_spec by (done || lia).
  rewrite xorb_false_l, Z.add_0_l.
  pose proof (wsum_nonneg _ (chain_octets_ok p Hp)) as Hn.
  rewrite unswap by done. pose proof (norm_bound _ Hn).
  by rewrite land_ffff_small, lnot16.
Qed.

Lemma inet_chksum_norm odd data :
  bytes_ok data -> Z.of_nat (length data) <= max_chksum_len ->
  inet_chksum odd data = 65535 - norm (wsum data).
Proof.
  intros. unfold inet_chksum, LWIP_CHKSUM. rewrite standard2_norm by done.
  apply lnot16, norm_bound. by apply wsum_nonneg.
Qed.

(** *** Pseudo headers *)

Lemma word_octets_ok w : bytes_ok (word_octets w).
Proof. repeat constructor; unfold is_u8; Z.div_mod_to_equations; lia. Qed.

Lemma wsum_word_octets w : is_u32 w -> wsum (word_octets w) = w mod 65536 + w / 65536.
Proof. intros. unfold word_octets, wsum. word_lia. Qed.

Lemma wsum_app_even l1 l2 : odd_length l1 = false -> wsum (l1 ++ l2) = wsum l1 + wsum l2.
Proof.
  induction l1 as [|b|a b l1 IH] using list_pair_ind; [done..|].
  rewrite odd_length_cons2. intros H. specialize (IH H).
  change (wsum ((a :: b :: l1) ++ l2)) with (a + 256 * b + wsum (l1 ++ l2)).
  change (wsum (a :: b :: l1)) with (a + 256 * b + wsum l1). lia.
Qed.

Lemma add_addr_eq acc a :
  is_u32 a -> 0 <= acc -> acc + 131070 < 4294967296 ->
  add_addr acc a = acc + wsum (word_octets a) /\ wsum (word_octets a) <= 131070.
Proof.
  intros Ha H0 H1. rewrite wsum_word_octets by done. unfold add_addr.
  rewrite !land_ffff, shiftr_div by lia. change (2 ^ 16) with 65536.
  rewrite (Z.mod_small (a / 65536)) by word_lia.
  assert (0 <= a mod 65536 <= 65535 /\ 0 <= a / 65536 <= 65535) by word_lia.
  rewrite (u32_id (acc + a mod 65536)), u32_id by (unfold is_u32; lia). lia.
Qed.

Lemma add_addr6_eq src : forall dest acc,
  length src = length dest -> Forall is_u32 src -> Forall is_u32 dest -> 0 <= acc ->
  acc + 262140 * Z.of_nat (length src) < 4294967296 ->
  add_addr6 acc src dest =
    acc + wsum (concat (map word_octets src)) + wsum (concat (map word_octets dest)) /\
  add_addr6 acc src dest <= acc + 262140 * Z.of_nat (length src).
Proof.
  induction src as [|s src IH]; intros [|d dest] acc Hl Hs Hd H0 H1; try done.
  - simpl. lia.
  - apply Forall_cons in Hs as [Hs Hss], Hd as [Hd Hds].
    simpl length in *. rewrite Nat2Z.inj_succ in *. injection Hl as Hl.
    cbn [add_addr6 map concat].
    rewrite !(wsum_app_even (word_octets _)) by done.
    pose proof (wsum_nonneg _ (word_octets_ok s)). pose proof (wsum_nonneg _ (word_octets_ok d)).
    destruct (add_addr_eq acc s) as [-> ?]; [done|lia..|].
    destruct (add_addr_eq (acc + wsum (word_octets s)) d) as [-> ?]; [done|lia..|].
    destruct (IH dest (acc + wsum (word_octets s) + wsum (word_octets d))) as [-> ?];
      try done; lia.
Qed.

Lemma pseudo_tail_spec x e proto proto_len :
  0 <= x -> is_u8 proto -> is_u16 proto_len ->
  pseudo_tail (norm (phase e x)) e proto proto_len =
    65535 - norm (x + (256 * proto + (256 * (proto_len mod 256) + proto_len / 256))).
Proof.
  intros Hx Hp Hl. unfold pseudo_tail. rewrite unswap by done.
  rewrite (u16_id proto), !htons_SWAP by (done || word_lia).
  rewrite (Z.mod_small proto 256), (Z.div_small proto 256) by done.
  pose proof (norm_bound x Hx). unfold is_u8 in Hp.
  assert (0 <= 256 * (proto_len mod 256) + proto_len / 256 <= 65535) by word_lia.
  rewrite (u32_id (norm x + _)), u32_id by (unfold is_u32; lia).
  rewrite fold2 by (unfold is_u32; lia).
  rewrite land_ffff_small, lnot16 by (apply norm_bound; lia).
  f_equal. rewrite <- !Z.add_assoc, norm_add_l by lia. done.
Qed.

Lemma pseudo_base_spec p proto proto_len acc :
  Forall chunk_ok p -> is_u8 proto -> is_u16 proto_len -> is_u32 acc ->
  inet_cksum_pseudo_base p proto proto_len (FOLD_U32T (FOLD_U32T acc)) =
    65535 - norm (acc + (256 * proto + (256 * (proto_len mod 256) + proto_len / 256))
                  + wsum (chain_octets p)).
Proof.
  intros Hp Hpr Hl Ha. rewrite fold2 by done. unfold inet_cksum_pseudo_base.
  pose proof (norm_bound acc (proj1 Ha)). pose proof (wsum_nonneg _ (chain_octets_ok p Hp)).
  rewrite chain_loop_spec by done. rewrite xorb_false_l.
  rewrite phase_norm_add by (done || apply Ha).
  rewrite pseudo_tail_spec by (done || (unfold is_u32 in Ha; lia)). do 2 f_equal. lia.
Qed.

Lemma wsum_pseudo_header4 proto proto_len src dest :
  is_u8 proto -> is_u16 proto_len ->
  wsum (pseudo_header4 proto proto_len src dest) =
    wsum (word_octets src) + wsum (word_octets dest)
    + (256 * proto + (256 * (proto_len mod 256) + proto_len / 256)).
Proof.
  intros. unfold pseudo_header4. rewrite !wsum_app_even by done. simpl wsum. lia.
Qed.

Lemma odd_length_words l : odd_length (concat (map word_octets l)) = false.
Proof. induction l as [|w l IH]; [done|]. cbn [map concat]. by rewrite odd_length_app, IH. Qed.

Lemma words_octets_ok l : bytes_ok (concat (map word_octets l)).
Proof.
  induction l; [constructor|]. apply Forall_app. split; [apply word_octets_ok|done].
Qed.

Lemma wsum_pseudo_header6 proto proto_len src dest :
  is_u8 proto -> is_u16 proto_len ->
  wsum (pseudo_header6 proto proto_len src dest) =
    wsum (concat (map word_octets src)) + wsum (concat (map word_octets dest))
    + (256 * proto + (256 * (proto_len mod 256) + proto_len / 256)).
Proof.
  intros. unfold pseudo_header6. rewrite !wsum_app_even by apply odd_length_words.
  simpl wsum. lia.
Qed.

Lemma pseudo_header_ok proto proto_len src dest :
  is_u8 proto -> is_u16 proto_len -> bytes_ok (pseudo_header proto proto_len src dest).
Proof.
  intros Hp Hl. unfold pseudo_header, pseudo_header4, pseudo_header6.
  destruct IP_IS_V6_VAL; rewrite !Forall_app; split_and!;
    try apply word_octets_ok; try apply words_octets_ok;
    repeat constructor; try done; word_lia.
Qed.

Lemma odd_length_pseudo_header proto proto_len src dest :
  odd_length (pseudo_header proto proto_len src dest) = false.
Proof.
  unfold pseudo_header, pseudo_header4, pseudo_header6.
  destruct IP_IS_V6_VAL; rewrite !odd_length_app, ?odd_length_words; done.
Qed.

(** *** Partial sums *)

Lemma chain_octets_take q p n :
  chunk_len q <= n ->
  take (Z.to_nat n) (chain_octets (q :: p)) =
    octets q ++ take (Z.to_nat (n - chunk_len q)) (chain_octets p).
Proof.
  intros Hn. unfold chunk_len in *. rewrite chain_octets_cons, take_app_ge by lia.
  do 2 f_equal. lia.
Qed.

Lemma bytes_ok_take n l : bytes_ok l -> bytes_ok (take n l).
Proof. intros. by apply Forall_take. Qed.

(** The loop sums exactly the first [n] octets, whatever the boundaries.  The
    parity flag follows whole pbufs, so it is also toggled by the octets of the
    last pbuf that are not summed; that swap is undone at the end. *)
Lemma chain_loop_partial_spec p : forall n acc swapped,
  Forall chunk_ok p -> 0 <= acc <= 65535 -> 0 <= n < 32767 ->
  exists e, chain_loop_partial p n acc swapped =
    Some (norm (phase e (acc + wsum (take (Z.to_nat n) (chain_octets p)))), xorb swapped e).
Proof.
  induction p as [|q p IH]; intros n acc swapped Hp Ha Hn.
  - exists false. change (chain_octets []) with (@nil Z). rewrite take_nil, xorb_false_r.
    simpl. by rewrite Z.add_0_r, norm_small.
  - apply Forall_cons in Hp as [[Hq Hql] Hp]. cbn [chain_loop_partial].
    unfold chunk_len, is_u16 in Hql.
    destruct (Z.ltb_spec 0 n).
    2: { exists false. replace n with 0 by lia. simpl.
         by rewrite xorb_false_r, Z.add_0_r, norm_small. }
    destruct (Z.ltb_spec n (chunk_len q)) as [Hlt|Hge].
    + (* the last pbuf is cut: nothing is left *)
      unfold chunk_len in Hlt. rewrite chain_step_spec
        by (done || (by apply bytes_ok_take) || (rewrite length_take; lia)).
      rewrite Z.sub_diag. change (u16 0) with 0. cbv beta iota zeta.
      exists (odd_length (octets q)). rewrite chain_octets_cons, take_app_le by lia.
      destruct p; reflexivity.
    + rewrite (take_ge (octets q)) by (unfold chunk_len in *; lia).
      rewrite chain_step_spec by (done || lia). cbv beta iota zeta.
      unfold chunk_len in Hge. rewrite u16_id by (unfold chunk_len, is_u16; lia).
      destruct (Z.ltb_spec (n - chunk_len q) 32767); [|unfold chunk_len in *; lia].
      rewrite chain_octets_take by done.
      set (m := n - chunk_len q).
      assert (bytes_ok (take (Z.to_nat m) (chain_octets p))) as Hc
        by by apply bytes_ok_take, chain_octets_ok.
      pose proof (wsum_nonneg _ Hq). pose proof (wsum_nonneg _ Hc).
      set (eq := odd_length (octets q)).
      pose proof (phase_nonneg eq (acc + wsum (octets q)) ltac:(lia)).
      destruct (IH m (norm (phase eq (acc + wsum (octets q)))) (xorb swapped eq))
        as [e ->]; [done|by apply norm_bound|unfold m, chunk_len; lia|].
      exists (xorb eq e). rewrite xorb_assoc. do 2 f_equal.
      rewrite phase_norm_add, phase_wsum_app by (done || lia). apply phase_compose; lia.
Qed.

Lemma pseudo_partial_base_spec p proto proto_len n acc :
  Forall chunk_ok p -> is_u8 proto -> is_u16 proto_len -> is_u32 acc -> 0 <= n < 32767 ->
  inet_cksum_pseudo_partial_base p proto proto_len n (FOLD_U32T (FOLD_U32T acc)) =
    Some (65535 - norm (acc + (256 * proto + (256 * (proto_len mod 256) + proto_len / 256))
                        + wsum (take (Z.to_nat n) (chain_octets p)))).
Proof.
  intros Hp Hpr Hl Ha Hn. rewrite fold2 by done. unfold inet_cksum_pseudo_partial_base.
  pose proof (norm_bound acc (proj1 Ha)).
  pose proof (wsum_nonneg _ (bytes_ok_take (Z.to_nat n) _ (chain_octets_ok p Hp))).
  destruct (chain_loop_partial_spec p n (norm acc) false) as [e ->]; [done..|].
  rewrite xorb_false_l. simpl.
  rewrite phase_norm_add by (done || apply Ha).
  rewrite pseudo_tail_spec by (done || (unfold is_u32 in Ha; lia)). do 3 f_equal. lia.
Qed.

(** The address words, summed. *)
Lemma pseudo_addrs src dest :
  ip_ok src -> ip_ok dest ->
  let acc6 := add_addr6 0 (ip6_words (ip_2_ip6 src)) (ip6_words (ip_2_ip6 dest)) in
  let acc4 := add_addr (add_addr 0 (ip_2_ip4 src)) (ip_2_ip4 dest) in
  is_u32 acc6 /\ is_u32 acc4 /\
  forall proto proto_len, is_u8 proto -> is_u16 proto_len ->
    wsum (pseudo_header proto proto_len src dest) =
      (if IP_IS_V6_VAL dest then acc6 else acc4)
      + (256 * proto + (256 * (proto_len mod 256) + proto_len / 256)).
Proof.
  intros Hs Hd.
  pose proof (ip_2_ip4_u32 _ Hs) as H4s. pose proof (ip_2_ip4_u32 _ Hd) as H4d.
  pose proof (wsum_nonneg _ (word_octets_ok (ip_2_ip4 src))).
  pose proof (wsum_nonneg _ (word_octets_ok (ip_2_ip4 dest))).
  pose proof (wsum_nonneg _ (words_octets_ok (ip6_words (u_ip6 src)))).
  pose proof (wsum_nonneg _ (words_octets_ok (ip6_words (u_ip6 dest)))).
  destruct (add_addr_eq 0 (ip_2_ip4 src)) as [E1 ?]; [done|lia..|].
  destruct (add_addr_eq (0 + wsum (word_octets (ip_2_ip4 src))) (ip_2_ip4 dest))
    as [E2 ?]; [done|lia..|].
  destruct Hs as [Hsl Hs], Hd as [Hdl Hd]. unfold ip_2_ip6.
  destruct (add_addr6_eq (ip6_words (u_ip6 src)) (ip6_words (u_ip6 dest)) 0) as [E ?];
    [congruence|done..|rewrite Hsl; lia|].
  cbv zeta. rewrite Hsl in *. rewrite E1, E2, E in *.
  split_and!; [unfold is_u32; lia..|]. intros.
  unfold pseudo_header. destruct IP_IS_V6_VAL;
    rewrite ?wsum_pseudo_header6, ?wsum_pseudo_header4 by done; unfold ip_2_ip6; lia.
Qed.

Lemma ip_chksum_pseudo_norm p proto proto_len src dest :
  Forall chunk_ok p -> is_u8 proto -> is_u16 proto_len -> ip_ok src -> ip_ok dest ->
  ip_chksum_pseudo p proto proto_len src dest =
    65535 - norm (wsum (pseudo_header proto proto_len src dest ++ chain_octets p)).
Proof.
  intros Hp Hpr Hl Hs Hd. destruct (pseudo_addrs src dest Hs Hd) as (H6 & H4 & E).
  rewrite wsum_app_even, E by (done || apply odd_length_pseudo_header).
  unfold ip_chksum_pseudo. destruct IP_IS_V6_VAL; by apply pseudo_base_spec.
Qed.

Lemma ip_chksum_pseudo_partial_norm p proto proto_len n src dest :
  Forall chunk_ok p -> is_u8 proto -> is_u16 proto_len -> ip_ok src -> ip_ok dest ->
  0 <= n < 32767 ->
  ip_chksum_pseudo_partial p proto proto_len n src dest =
    Some (65535 - norm (wsum (pseudo_header proto proto_len src dest
                              ++ take (Z.to_nat n) (chain_octets p)))).
Proof.
  intros Hp Hpr Hl Hs Hd Hn. destruct (pseudo_addrs src dest Hs Hd) as (H6 & H4 & E).
  rewrite wsum_app_even, E by (done || apply odd_length_pseudo_header).
  unfold ip_chksum_pseudo_partial. destruct IP_IS_V6_VAL; by apply pseudo_partial_base_spec.
Qed.

(** *** Changing one octet *)

Lemma wsum_octet l1 : forall b l2,
  wsum (l1 ++ b :: l2) = wsum (l1 ++ 0 :: l2) + phase (odd_length l1) b.
Proof.
  induction l1 as [|c|c d l1 IH] using list_pair_ind; intros b l2.
  - destruct l2; simpl; lia.
  - destruct l2; simpl; lia.
  - rewrite odd_length_cons2.
    change (wsum ((c :: d :: l1) ++ ?l)) with (c + 256 * d + wsum (l1 ++ l)).
    rewrite IH. lia.
Qed.

(** The complement of the sum, stored in the zeroed field, completes it. *)
Lemma norm_complement s : 0 <= s -> norm (s + (65535 - norm s)) = 65535.
Proof.
  intros Hs. destruct (norm_spec s Hs) as (? & Hm & Hz).
  destruct (Z.eq_dec s 0) as [->|]; [done|].
  rewrite <- norm_add_l by lia. replace (norm s + (65535 - norm s)) with 65535 by lia. done.
Qed.

Lemma app_chain_ok p proto proto_len src dest :
  Forall chunk_ok p -> is_u8 proto -> is_u16 proto_len ->
  bytes_ok (pseudo_header proto proto_len src dest ++ chain_octets p).
Proof.
  intros. apply Forall_app. split; [by apply pseudo_header_ok | by apply chain_octets_ok].
Qed.

(** The checksum computed with a zeroed field, stored in that field, makes the
    checksum of the packet 0. *)
Lemma stored_chksum_verifies proto proto_len src dest p p' pre post :
  Forall chunk_ok p -> Forall chunk_ok p' ->
  is_u8 proto -> is_u16 proto_len -> ip_ok src -> ip_ok dest ->
  let c := ip_chksum_pseudo p proto proto_len src dest in
  chain_octets p = pre ++ [0; 0] ++ post -> odd_length pre = false ->
  chain_octets p' = pre ++ [c mod 256; c / 256] ++ post ->
  ip_chksum_pseudo p' proto proto_len src dest = 0.
Proof.
  intros Hp Hp' Hpr Hl Hs Hd c E Hodd E'.
  pose proof (wsum_nonneg _ (app_chain_ok p proto proto_len src dest Hp Hpr Hl)) as HW.
  pose proof (ip_chksum_pseudo_norm p proto proto_len src dest Hp Hpr Hl Hs Hd) as Ec.
  rewrite (ip_chksum_pseudo_norm p' proto proto_len src dest Hp' Hpr Hl Hs Hd).
  fold c in Ec. rewrite wsum_app_even in Ec, HW |- * by apply odd_length_pseudo_header.
  set (h := wsum (pseudo_header _ _ _ _)) in *.
  rewrite E, !wsum_app_even in Ec, HW by done. rewrite E', !wsum_app_even by done.
  change (wsum [0; 0]) with 0 in *.
  replace (wsum [c mod 256; c / 256]) with c by (simpl; Z.div_mod_to_equations; lia).
  replace (h + (wsum pre + (c + wsum post)))
    with (h + (wsum pre + (0 + wsum post)) + (65535 - norm (h + (wsum pre + (0 + wsum post))))) by lia.
  rewrite norm_complement by done. lia.
Qed.

(** ** Properties *)

(** C14: The checksum routine of the build, its unrolled variant and its simple
    variant all compute the RFC 1071 ones' complement sum of the buffer,
    whatever the alignment of its address; with the documented bound of 0x20000
    octets no accumulator overflows. *)
Theorem lwip_standard_chksum_rfc1071 odd addr data :
  bytes_ok data -> Z.of_nat (length data) <= 131072 ->
  Standard2.lwip_standard_chksum odd data = rfc1071_sum data /\
  Standard3.lwip_standard_chksum addr data = rfc1071_sum data /\
  Standard1.lwip_standard_chksum data = rfc1071_sum data.
Proof.
  intros. by rewrite rfc1071_norm, standard2_norm, standard3_norm, standard1_norm.
Qed.

Lemma lwip_standard_chksum_rfc1071_witness :
  Standard2.lwip_standard_chksum true [69; 0; 255; 17; 3] = rfc1071_sum [69; 0; 255; 17; 3] /\
  Standard3.lwip_standard_chksum 7 [69; 0; 255; 17; 3] = rfc1071_sum [69; 0; 255; 17; 3] /\
  Standard1.lwip_standard_chksum [69; 0; 255; 17; 3] = rfc1071_sum [69; 0; 255; 17; 3].
Proof.
  apply (lwip_standard_chksum_rfc1071 true 7 [69; 0; 255; 17; 3]).
  - repeat constructor; unfold is_u8; lia.
  - simpl. lia.
Defined.

(** C15: The checksums over a pbuf chain do not depend on how the data is split
    into pbufs or on the addresses of the payloads: they are the complement of
    the RFC 1071 sum of the flat octets, preceded by the pseudo header for TCP
    and UDP over IPv4 and IPv6; the partial variant stops after exactly
    [chksum_len] octets, also inside a pbuf, for a [chksum_len] below 0x7fff, which
    the code asserts. *)
Theorem chain_checksums_are_flat p proto proto_len chksum_len src dest :
  Forall chunk_ok p -> is_u8 proto -> is_u16 proto_len -> ip_ok src -> ip_ok dest ->
  0 <= chksum_len < 32767 ->
  let hdr := pseudo_header proto proto_len src dest in
  inet_chksum_pbuf p = u16 (Z.lnot (rfc1071_sum (chain_octets p))) /\
  ip_chksum_pseudo p proto proto_len src dest =
    u16 (Z.lnot (rfc1071_sum (hdr ++ chain_octets p))) /\
  ip_chksum_pseudo_partial p proto proto_len chksum_len src dest =
    Some (u16 (Z.lnot (rfc1071_sum (hdr ++ take (Z.to_nat chksum_len) (chain_octets p))))).
Proof.
  intros Hp Hpr Hl Hs Hd Hn hdr.
  pose proof (chain_octets_ok p Hp) as Hc.
  pose proof (app_chain_ok p proto proto_len src dest Hp Hpr Hl) as Ha.
  assert (bytes_ok (hdr ++ take (Z.to_nat chksum_len) (chain_octets p))) as Ht.
  { apply Forall_app in Ha as [? _]. apply Forall_app. split; [done|by apply bytes_ok_take]. }
  rewrite !rfc1071_norm, !lnot16 by (done || (apply norm_bound, wsum_nonneg; done)).
  split; [by apply inet_chksum_pbuf_norm|].
  split; [by apply ip_chksum_pseudo_norm|].
  by apply ip_chksum_pseudo_partial_norm.
Qed.

Lemma chain_checksums_are_flat_witness :
  let p := [Chunk true [1; 2; 3]; Chunk false [4]] in
  let src := IPADDR4_INIT 16777343 in
  ip_chksum_pseudo_partial p 6 4 3 src src =
    Some (u16 (Z.lnot (rfc1071_sum (pseudo_header 6 4 src src ++ [1; 2; 3])))).
Proof.
  refine (proj2 (proj2 (chain_checksums_are_flat
    [Chunk true [1; 2; 3]; Chunk false [4]] 6 4 3
    (IPADDR4_INIT 16777343) (IPADDR4_INIT 16777343) _ _ _ _ _ _)));
    repeat constructor; unfold is_u8, is_u16, is_u32, chunk_len; simpl; lia.
Defined.

(** Send and verify: when the checksum computed with a zeroed field is
    stored in that (even) field, in memory order, the receiver's computation
    over any other chain that carries the same octets yields 0, which is the
    value that [tcp_input] and [udp_input] accept; and changing any single
    octet of a packet changes its checksum. *)
Theorem ip_chksum_pseudo_verifies proto proto_len src dest p p' pre post b b' :
  Forall chunk_ok p -> Forall chunk_ok p' ->
  is_u8 proto -> is_u16 proto_len -> ip_ok src -> ip_ok dest ->
  let c := ip_chksum_pseudo p proto proto_len src dest in
  let c' := ip_chksum_pseudo p' proto proto_len src dest in
  (chain_octets p = pre ++ [0; 0] ++ post -> odd_length pre = false ->
   chain_octets p' = pre ++ [c mod 256; c / 256] ++ post -> c' = 0) /\
  (chain_octets p = pre ++ b :: post -> chain_octets p' = pre ++ b' :: post ->
   b <> b' -> c <> c').
Proof.
  intros Hp Hp' Hpr Hl Hs Hd c c'.
  split; [intros; by apply (stored_chksum_verifies proto proto_len src dest p p' pre post)|].
  pose proof (wsum_nonneg _ (app_chain_ok p proto proto_len src dest Hp Hpr Hl)) as HW.
  pose proof (wsum_nonneg _ (app_chain_ok p' proto proto_len src dest Hp' Hpr Hl)) as HW'.
  pose proof (ip_chksum_pseudo_norm p proto proto_len src dest Hp Hpr Hl Hs Hd) as Ec.
  pose proof (ip_chksum_pseudo_norm p' proto proto_len src dest Hp' Hpr Hl Hs Hd) as Ec'.
  fold c in Ec. fold c' in Ec'.
  rewrite wsum_app_even in Ec, Ec', HW, HW' by apply odd_length_pseudo_header.
  intros E E' Hb Hcc. rewrite E in *. rewrite E' in *.
    pose proof (chain_octets_ok p Hp) as Ho. pose proof (chain_octets_ok p' Hp') as Ho'.
    rewrite E, Forall_app, Forall_cons in Ho. rewrite E', Forall_app, Forall_cons in Ho'.
    destruct Ho as (_ & Hb0 & _), Ho' as (_ & Hb0' & _).
    assert (norm (wsum (pseudo_header proto proto_len src dest) + wsum (pre ++ b :: post))
            = norm (wsum (pseudo_header proto proto_len src dest) + wsum (pre ++ b' :: post)))
      as En by lia.
    destruct (norm_spec _ HW) as (_ & Hm & _), (norm_spec _ HW') as (_ & Hm' & _).
    rewrite En, Hm' in Hm. rewrite (wsum_octet pre b), (wsum_octet pre b') in Hm.
    unfold is_u8, phase in *. destruct (odd_length pre); Z.div_mod_to_equations; lia.
Qed.

Lemma ip_chksum_pseudo_verifies_witness :
  let a := IPADDR4_INIT 16777343 in
  ip_chksum_pseudo [Chunk false [1; 2; 0; 0; 7]] 17 5 a a = 58617 /\
  ip_chksum_pseudo [Chunk true [1; 2]; Chunk true [249; 228; 7]] 17 5 a a = 0.
Proof.
  split; [vm_compute; reflexivity|].
  pose proof (ip_chksum_pseudo_verifies 17 5 (IPADDR4_INIT 16777343) (IPADDR4_INIT 16777343)
     [Chunk false [1; 2; 0; 0; 7]] [Chunk true [1; 2]; Chunk true [249; 228; 7]]
     [1; 2] [7] 0 0) as H.
  cbv zeta in H. destruct H as [H _].
  1-6: repeat constructor; unfold is_u8, is_u16, is_u32, chunk_len; simpl; lia.
  apply H; clear H; vm_compute; reflexivity.
Defined.
