(* ===== verification/Pbuf.v ===== *)
(** * Packet buffers (core/c/core/pbuf.c, core/c/include/lwip/pbuf.h)

    Pbufs live in a heap of structs linked by [next] pointers; payloads point
    into separate blocks of octets, so that aliasing (two pointers to one pbuf,
    a [PBUF_REF] payload shared with its owner) is explicit.  The memory manager
    of the build is libc's [malloc] ([MEM_LIBC_MALLOC], [MEMP_MEM_MALLOC]): the
    heap carries the answers it will give, [None] for [NULL], and the unknown
    contents of a fresh block otherwise.

    [PBUF_RAM] and [PBUF_POOL] pbufs are allocated in one piece with their
    payload area: the area of the pbuf at [l] is block [l], whose offset 0 is
    the first octet after the struct.  [None] as a result is an abort. *)

From S2P Require Import Prelude Err Def IpAddr Chksum.

(** ** Data *)

Abbreviation loc := positive.

(** A data pointer: a block and an offset in it. *)
Definition ptr : Type := loc * Z.

(** [struct pbuf]. *)
Record pbuf := Pbuf {
  next : option loc;
  payload : option ptr;
  tot_len : Z;
  len : Z;
  type_internal : Z;
  flags : Z;
  ref : Z;
  if_idx : Z
}.

Record heap := Heap {
  h_pbufs : gmap loc pbuf;
  h_mem : gmap loc (list Z);
  h_next : loc;                          (* next address [malloc] hands out *)
  h_malloc : list (option (nat -> Z));   (* its answers *)
  h_ooseq_pending : Z                    (* [pbuf_free_ooseq_pending] *)
}.

(** [pbuf_type]; the type field of the struct is a [u8_t]. *)
Definition PBUF_RAM : Z := 640.   (* 0x0200 | 0x80 | 0x00 *)
Definition PBUF_ROM : Z := 1.
Definition PBUF_REF : Z := 65.    (* 0x40 | 0x01 *)
Definition PBUF_POOL : Z := 386.  (* 0x0100 | 0x80 | 0x02 *)

Definition PBUF_TYPE_FLAG_STRUCT_DATA_CONTIGUOUS : Z := 128.
Definition PBUF_TYPE_ALLOC_SRC_MASK : Z := 15.

Definition PBUF_FLAG_PUSH : Z := 1.
Definition PBUF_FLAG_IS_CUSTOM : Z := 2.
Definition PBUF_FLAG_TCP_FIN : Z := 32.

(** [pbuf_layer]: room for the headers in front of the payload. *)
Definition PBUF_TRANSPORT : Z := 74.
Definition PBUF_IP : Z := 54.
Definition PBUF_LINK : Z := 14.
Definition PBUF_RAW : Z := 0.

(** [sizeof(struct pbuf)] on a 64-bit machine, and [PBUF_POOL_BUFSIZE] with
    [TCP_MSS] 1460; [MEM_ALIGNMENT] is 1, so no size is rounded up. *)
Definition SIZEOF_STRUCT_PBUF : Z := 24.
Definition PBUF_POOL_BUFSIZE : Z := 1514.


(** ** Memory *)

Definition set_pbufs (f : gmap loc pbuf -> gmap loc pbuf) (h : heap) : heap :=
  Heap (f (h_pbufs h)) (h_mem h) (h_next h) (h_malloc h) (h_ooseq_pending h).
Definition set_mem (f : gmap loc (list Z) -> gmap loc (list Z)) (h : heap) : heap :=
  Heap (h_pbufs h) (f (h_mem h)) (h_next h) (h_malloc h) (h_ooseq_pending h).

Definition store (p : loc) (b : pbuf) : heap -> heap := set_pbufs (insert p b).

(** Updates of single fields of a pbuf. *)
Definition set_next (n : option loc) (b : pbuf) : pbuf :=
  Pbuf n (payload b) (tot_len b) (len b) (type_internal b) (flags b) (ref b) (if_idx b).
Definition set_payload (d : option ptr) (b : pbuf) : pbuf :=
  Pbuf (next b) d (tot_len b) (len b) (type_internal b) (flags b) (ref b) (if_idx b).
Definition set_tot_len (n : Z) (b : pbuf) : pbuf :=
  Pbuf (next b) (payload b) n (len b) (type_internal b) (flags b) (ref b) (if_idx b).
Definition set_len (n : Z) (b : pbuf) : pbuf :=
  Pbuf (next b) (payload b) (tot_len b) n (type_internal b) (flags b) (ref b) (if_idx b).
Definition set_flags (n : Z) (b : pbuf) : pbuf :=
  Pbuf (next b) (payload b) (tot_len b) (len b) (type_internal b) n (ref b) (if_idx b).
Definition set_ref (n : Z) (b : pbuf) : pbuf :=
  Pbuf (next b) (payload b) (tot_len b) (len b) (type_internal b) (flags b) n (if_idx b).

(** [malloc]: an answer is consumed; on success a fresh address and the
    contents the new memory happens to have. *)
Definition mem_malloc (h : heap) : heap * option (loc * (nat -> Z)) :=
  match h_malloc h with
  | Some junk :: r =>
      (Heap (h_pbufs h) (h_mem h) (Pos.succ (h_next h)) r (h_ooseq_pending h),
       Some (h_next h, junk))
  | None :: r => (Heap (h_pbufs h) (h_mem h) (h_next h) r (h_ooseq_pending h), None)
  | [] => (h, None)
  end.

Definition junk_block (junk : nat -> Z) (size : Z) : list Z :=
  map (fun i => u8 (junk i)) (seq 0 (Z.to_nat size)).

(** [MEMCPY] out of and into a block. *)
Definition mem_read (h : heap) (d : option ptr) (n : Z) : option (list Z) :=
  if n =? 0 then Some [] else
  '(blk, off) ← d;
  data ← h_mem h !! blk;
  if (0 <=? off) && (0 <=? n) && (off + n <=? Z.of_nat (length data))
  then Some (take (Z.to_nat n) (drop (Z.to_nat off) data)) else None.

Definition splice (data : list Z) (off : Z) (src : list Z) : list Z :=
  take (Z.to_nat off) data ++ src ++ drop (Z.to_nat off + length src) data.

Definition mem_write (h : heap) (d : option ptr) (src : list Z) : option heap :=
  if (length src =? 0)%nat then Some h else
  '(blk, off) ← d;
  data ← h_mem h !! blk;
  if (0 <=? off) && (off + Z.of_nat (length src) <=? Z.of_nat (length data))
  then Some (set_mem (insert blk (splice data off src)) h) else None.

Definition ptr_add (d : option ptr) (n : Z) : option ptr :=
  '(blk, off) ← d; Some (blk, off + n).

(** Loops over a chain run at most once per pbuf of the heap, plus once. *)
Definition chain_fuel (h : heap) : nat := S (size (h_pbufs h)).

(** ** Releasing and referencing *)

Definition pbuf_get_allocsrc (b : pbuf) : Z :=
  Z.land (type_internal b) PBUF_TYPE_ALLOC_SRC_MASK.

(** [memp_free]/[mem_free] of a pbuf: the struct and, if it was allocated with
    it, the payload area. *)
Definition release (p : loc) (h : heap) : heap :=
  set_mem (delete p) (set_pbufs (delete p) h).

Section with_custom_free.

(** [custom_free_function] of a custom pbuf: code of the pbuf's owner. *)
Context (custom_free : loc -> heap -> option heap).

(** The [while] loop of [pbuf_free]; [count] is a [u8_t]. *)
Fixpoint pbuf_free_loop (fuel : nat) (p : option loc) (count : Z) (h : heap)
  : option (heap * Z) :=
  match p with
  | None => Some (h, count)
  | Some l =>
      match fuel with
      | O => None
      | S f =>
          b ← h_pbufs h !! l;
          lwip_assert (0 <? ref b);
          let r := u8 (ref b - 1) in
          let h := store l (set_ref r b) h in
          if r =? 0 then
            let q := next b in
            let alloc_src := pbuf_get_allocsrc b in
            h ← (if flagset (flags b) PBUF_FLAG_IS_CUSTOM then custom_free l h
                 else if (alloc_src =? 2) || (alloc_src =? 1) || (alloc_src =? 0)
                 then Some (release l h)
                 else None);
            pbuf_free_loop f q (u8 (count + 1)) h
          else Some (h, count)
      end
  end.

Definition pbuf_free (p : option loc) (h : heap) : option (heap * Z) :=
  match p with
  | None => None
  | Some _ => pbuf_free_loop (chain_fuel h) p 0 h
  end.

Definition pbuf_ref (p : option loc) (h : heap) : option heap :=
  match p with
  | None => Some h
  | Some l =>
      b ← h_pbufs h !! l;
      let r := u8 (ref b + 1) in
      lwip_assert (0 <? r);
      Some (store l (set_ref r b) h)
  end.

Fixpoint pbuf_clen_loop (fuel : nat) (p : option loc) (n : Z) (h : heap) : option Z :=
  match p with
  | None => Some n
  | Some l =>
      match fuel with
      | O => None
      | S f => b ← h_pbufs h !! l; pbuf_clen_loop f (next b) (u16 (n + 1)) h
      end
  end.

Definition pbuf_clen (p : option loc) (h : heap) : option Z :=
  pbuf_clen_loop (chain_fuel h) p 0 h.

(** ** Allocation *)

(** [pbuf_init_alloced_pbuf]: [type] is truncated to the [u8_t] field. *)
Definition pbuf_init_alloced_pbuf (d : option ptr) (tot_len len type flags : Z) : pbuf :=
  Pbuf None d tot_len len (u8 type) flags 1 0.

(** The [do ... while (rem_len > 0)] of the [PBUF_POOL] case: [p] is the head
    of the chain so far and [last] its last pbuf. *)
Fixpoint pbuf_alloc_pool (fuel : nat) (offset rem_len : Z) (p last : option loc) (h : heap)
  : option (heap * option loc) :=
  match fuel with
  | O => None
  | S f =>
      match mem_malloc h with
      | (h, None) =>
          let h := Heap (h_pbufs h) (h_mem h) (h_next h) (h_malloc h) 1 in
          match p with
          | Some _ => '(h, _) ← pbuf_free p h; Some (h, None)
          | None => Some (h, None)
          end
      | (h, Some (q, junk)) =>
          let qlen := Z.min rem_len (u16 (PBUF_POOL_BUFSIZE - offset)) in
          let h := set_mem (insert q (junk_block junk PBUF_POOL_BUFSIZE)) h in
          let h := store q (pbuf_init_alloced_pbuf (Some (q, offset)) rem_len qlen PBUF_POOL 0) h in
          lwip_assert (0 <? PBUF_POOL_BUFSIZE - offset);
          '(h, p) ← (match p, last with
                     | Some _, Some l =>
                         b ← h_pbufs h !! l; Some (store l (set_next (Some q) b) h, p)
                     | _, _ => Some (h, Some q)
                     end);
          let rem_len := u16 (rem_len - qlen) in
          if 0 <? rem_len then pbuf_alloc_pool f 0 rem_len p (Some q) h
          else Some (h, p)
      end
  end.

Definition pbuf_alloc_reference (d : option ptr) (length type : Z) (h : heap)
  : option (heap * option loc) :=
  lwip_assert (type =? PBUF_REF) || (type =? PBUF_ROM);
  match mem_malloc h with
  | (h, None) => Some (h, None)
  | (h, Some (p, _)) =>
      Some (store p (pbuf_init_alloced_pbuf d length length type 0) h, Some p)
  end.

Definition pbuf_alloc (layer length type : Z) (h : heap) : option (heap * option loc) :=
  let offset := u16 layer in
  if (type =? PBUF_REF) || (type =? PBUF_ROM) then pbuf_alloc_reference None length type h
  else if type =? PBUF_POOL then
    pbuf_alloc_pool (S (Z.to_nat length)) offset length None None h
  else if type =? PBUF_RAM then
    let payload_len := u16 (offset + length) in
    let alloc_len := size_t (SIZEOF_STRUCT_PBUF + payload_len) in
    if (payload_len <? length) || (alloc_len <? length) then Some (h, None)
    else
      match mem_malloc h with
      | (h, None) => Some (h, None)
      | (h, Some (p, junk)) =>
          let h := set_mem (insert p (junk_block junk payload_len)) h in
          Some (store p (pbuf_init_alloced_pbuf (Some (p, offset)) length length type 0) h, Some p)
      end
  else None.

(** [pbuf_alloced_custom]: [p] is the [pbuf] member of the caller's struct. *)
Definition pbuf_alloced_custom (l length type : Z) (p : loc)
    (payload_mem : option ptr) (payload_mem_len : Z) (h : heap) : heap * option loc :=
  let offset := u16 l in
  if payload_mem_len <? offset + length then (h, None)
  else
    let d := ptr_add payload_mem offset in
    (store p (pbuf_init_alloced_pbuf d length length type PBUF_FLAG_IS_CUSTOM) h, Some p).

(** ** Changing the length of a chain *)

(** The loop of [pbuf_realloc] over the pbufs that stay whole. *)
Fixpoint pbuf_realloc_loop (fuel : nat) (q : loc) (rem_len shrink : Z) (h : heap)
  : option (heap * loc * Z) :=
  match fuel with
  | O => None
  | S f =>
      b ← h_pbufs h !! q;
      if len b <? rem_len then
        let rem_len := u16 (rem_len - len b) in
        let h := store q (set_tot_len (u16 (tot_len b - shrink)) b) h in
        q' ← next b;
        pbuf_realloc_loop f q' rem_len shrink h
      else Some (h, q, rem_len)
  end.

(** [mem_trim] is the identity with [MEM_LIBC_MALLOC]. *)
Definition pbuf_realloc (p : loc) (new_len : Z) (h : heap) : option heap :=
  b ← h_pbufs h !! p;
  if tot_len b <=? new_len then Some h
  else
    let shrink := u16 (tot_len b - new_len) in
    '(h, q, rem_len) ← pbuf_realloc_loop (chain_fuel h) p new_len shrink h;
    b ← h_pbufs h !! q;
    let h := store q (set_tot_len rem_len (set_len rem_len b)) h in
    h ← (match next b with
         | Some _ => '(h, _) ← pbuf_free (next b) h; Some h
         | None => Some h
         end);
    b ← h_pbufs h !! q;
    Some (store q (set_next None b) h).

(** ** Headers *)

(** [pbuf_add_header_impl]: the result is 0 on success. *)
Definition pbuf_add_header_impl (p : loc) (header_size_increment : Z) (force : bool) (h : heap)
  : option (heap * Z) :=
  b ← h_pbufs h !! p;
  if 65535 <? header_size_increment then Some (h, 1)
  else if header_size_increment =? 0 then Some (h, 0)
  else
    let increment_magnitude := u16 header_size_increment in
    if u16 (increment_magnitude + tot_len b) <? increment_magnitude then Some (h, 1)
    else
      let d := ptr_add (payload b) (- header_size_increment) in
      let set_fields :=
        store p (set_tot_len (u16 (tot_len b + increment_magnitude))
                (set_len (u16 (len b + increment_magnitude)) (set_payload d b))) h in
      if flagset (type_internal b) PBUF_TYPE_FLAG_STRUCT_DATA_CONTIGUOUS then
        (* payload < (u8_t * )p + SIZEOF_STRUCT_PBUF *)
        match d with
        | Some (_, off) => if off <? 0 then Some (h, 1) else Some (set_fields, 0)
        | None => None
        end
      else if force then Some (set_fields, 0)
      else Some (h, 1).

Definition pbuf_add_header (p : loc) (n : Z) (h : heap) := pbuf_add_header_impl p n false h.
Definition pbuf_add_header_force (p : loc) (n : Z) (h : heap) := pbuf_add_header_impl p n true h.

Definition pbuf_remove_header (p : loc) (header_size_decrement : Z) (h : heap)
  : option (heap * Z) :=
  b ← h_pbufs h !! p;
  if 65535 <? header_size_decrement then Some (h, 1)
  else if header_size_decrement =? 0 then Some (h, 0)
  else
    let increment_magnitude := u16 header_size_decrement in
    lwip_assert (increment_magnitude <=? len b);
    let b := set_payload (ptr_add (payload b) header_size_decrement) b in
    let b := set_len (u16 (len b - increment_magnitude)) b in
    let b := set_tot_len (u16 (tot_len b - increment_magnitude)) b in
    Some (store p b h, 0).

(** [header_size_increment] is an [s16_t]; its negation is converted to
    [size_t] after the promotion to [int]. *)
Definition pbuf_header_impl (p : loc) (header_size_increment : Z) (force : bool) (h : heap)
  : option (heap * Z) :=
  if header_size_increment <? 0 then pbuf_remove_header p (- header_size_increment) h
  else pbuf_add_header_impl p header_size_increment force h.

Definition pbuf_header (p : loc) (n : Z) (h : heap) := pbuf_header_impl p n false h.
Definition pbuf_header_force (p : loc) (n : Z) (h : heap) := pbuf_header_impl p n true h.

Fixpoint pbuf_free_header_loop (fuel : nat) (p : option loc) (free_left : Z) (h : heap)
  : option (heap * option loc) :=
  if free_left =? 0 then Some (h, p) else
  match p with
  | None => Some (h, None)
  | Some l =>
      match fuel with
      | O => None
      | S f =>
          b ← h_pbufs h !! l;
          if len b <=? free_left then
            let free_left := u16 (free_left - len b) in
            let h := store l (set_next None b) h in
            '(h, _) ← pbuf_free (Some l) h;
            pbuf_free_header_loop f (next b) free_left h
          else
            '(h, _) ← pbuf_remove_header l free_left h;
            Some (h, p)
      end
  end.

Definition pbuf_free_header (q : option loc) (size : Z) (h : heap) : option (heap * option loc) :=
  pbuf_free_header_loop (chain_fuel h) q size h.

(** ** Linking chains *)

(** The [for] loop of [pbuf_cat]: add [t]'s length to every pbuf before the
    last; the result is the last pbuf. *)
Fixpoint pbuf_cat_loop (fuel : nat) (p : loc) (t_tot_len : Z) (h : heap) : option (heap * loc) :=
  match fuel with
  | O => None
  | S f =>
      b ← h_pbufs h !! p;
      match next b with
      | None => Some (h, p)
      | Some n =>
          pbuf_cat_loop f n t_tot_len (store p (set_tot_len (u16 (tot_len b + t_tot_len)) b) h)
      end
  end.

Definition pbuf_cat (hd t : option loc) (h : heap) : option heap :=
  match hd, t with
  | Some p, Some tl =>
      tb ← h_pbufs h !! tl;
      '(h, p) ← pbuf_cat_loop (chain_fuel h) p (tot_len tb) h;
      b ← h_pbufs h !! p;
      lwip_assert (tot_len b =? len b);
      Some (store p (set_next (Some tl) (set_tot_len (u16 (tot_len b + tot_len tb)) b)) h)
  | _, _ => None
  end.

Definition pbuf_chain (hd t : option loc) (h : heap) : option heap :=
  h ← pbuf_cat hd t h;
  pbuf_ref t h.

Definition pbuf_dechain (p : loc) (h : heap) : option (heap * option loc) :=
  b ← h_pbufs h !! p;
  match next b with
  | Some q =>
      qb ← h_pbufs h !! q;
      lwip_assert (tot_len qb =? tot_len b - len b);
      let h := store q (set_tot_len (u16 (tot_len b - len b)) qb) h in
      let h := store p (set_tot_len (len b) (set_next None b)) h in
      '(h, tail_gone) ← pbuf_free (Some q) h;
      Some (h, if 0 <? tail_gone then None else Some q)
  | None => lwip_assert (tot_len b =? len b); Some (h, None)
  end.

(** ** Reading and writing data *)

(** The loop of [pbuf_copy_partial]: the octets stored to [dataptr]. *)
Fixpoint pbuf_copy_partial_loop (fuel : nat) (p : option loc) (n offset : Z) (h : heap)
  : option (list Z) :=
  if n =? 0 then Some [] else
  match p with
  | None => Some []
  | Some l =>
      match fuel with
      | O => None
      | S f =>
          b ← h_pbufs h !! l;
          if negb (offset =? 0) && (len b <=? offset) then
            pbuf_copy_partial_loop f (next b) n (u16 (offset - len b)) h
          else
            let buf_copy_len := u16 (len b - offset) in
            let buf_copy_len := if n <? buf_copy_len then n else buf_copy_len in
            data ← mem_read h (ptr_add (payload b) offset) buf_copy_len;
            rest ← pbuf_copy_partial_loop f (next b) (u16 (n - buf_copy_len)) 0 h;
            Some (data ++ rest)
      end
  end.

(** [pbuf_copy_partial]: the octets copied; their number is the result. *)
Definition pbuf_copy_partial (buf : option loc) (n offset : Z) (h : heap) : option (list Z) :=
  match buf with
  | None => None
  | Some _ => pbuf_copy_partial_loop (chain_fuel h) buf n offset h
  end.

(** [pbuf_skip_const]: the pbuf that holds an offset, and the offset in it. *)
Fixpoint pbuf_skip_loop (fuel : nat) (q : option loc) (offset_left : Z) (h : heap)
  : option (option loc * Z) :=
  match q with
  | None => Some (None, offset_left)
  | Some l =>
      match fuel with
      | O => None
      | S f =>
          b ← h_pbufs h !! l;
          if len b <=? offset_left
          then pbuf_skip_loop f (next b) (u16 (offset_left - len b)) h
          else Some (q, offset_left)
      end
  end.

Definition pbuf_skip (p : option loc) (in_offset : Z) (h : heap) : option (option loc * Z) :=
  pbuf_skip_loop (chain_fuel h) p in_offset h.

(** [pbuf_get_contiguous]: [Some None] is [NULL]; otherwise the octets that
    the returned memory holds and whether it is the payload itself. *)
Definition pbuf_get_contiguous (p : option loc) (bufsize n offset : Z) (h : heap)
  : option (option (bool * list Z)) :=
  match p with
  | None => None
  | Some _ =>
      lwip_assert (n <=? bufsize);
      '(q, out_offset) ← pbuf_skip p offset h;
      match q with
      | None => Some None
      | Some l =>
          b ← h_pbufs h !! l;
          if out_offset + n <=? len b then
            data ← mem_read h (ptr_add (payload b) out_offset) n;
            Some (Some (true, data))
          else
            data ← pbuf_copy_partial q n out_offset h;
            if negb (Z.of_nat (length data) =? n) then Some None
            else Some (Some (false, data))
      end
  end.

(** The loop of [pbuf_take]: [data] is what is left to copy. *)
Fixpoint pbuf_take_loop (fuel : nat) (p : option loc) (data : list Z) (h : heap) : option heap :=
  match data with
  | [] => Some h
  | _ =>
      match p, fuel with
      | Some l, S f =>
          b ← h_pbufs h !! l;
          let buf_copy_len :=
            if len b <? Z.of_nat (length data) then len b else Z.of_nat (length data) in
          h ← mem_write h (payload b) (take (Z.to_nat buf_copy_len) data);
          pbuf_take_loop f (next b) (drop (Z.to_nat buf_copy_len) data) h
      | _, _ => None
      end
  end.

(** [pbuf_take]: a [buf] that is too small aborts ([LWIP_ERROR]). *)
Definition pbuf_take (buf : option loc) (data : list Z) (h : heap) : option (heap * Z) :=
  l ← buf;
  b ← h_pbufs h !! l;
  lwip_assert (Z.of_nat (length data) <=? tot_len b);
  h ← pbuf_take_loop (chain_fuel h) buf data h;
  Some (h, ERR_OK).

Definition pbuf_take_at (buf : option loc) (data : list Z) (offset : Z) (h : heap)
  : option (heap * Z) :=
  '(q, target_offset) ← pbuf_skip buf offset h;
  match q with
  | None => Some (h, ERR_MEM)
  | Some l =>
      b ← h_pbufs h !! l;
      let n := Z.of_nat (length data) in
      if target_offset + n <=? tot_len b then
        lwip_assert (target_offset <? len b);
        let first_copy_len := u16 (Z.min (len b - target_offset) n) in
        h ← mem_write h (ptr_add (payload b) target_offset) (take (Z.to_nat first_copy_len) data);
        let remaining_len := u16 (n - first_copy_len) in
        if 0 <? remaining_len
        then pbuf_take (next b) (drop (Z.to_nat first_copy_len) data) h
        else Some (h, ERR_OK)
      else Some (h, ERR_MEM)
  end.

(** [pbuf_copy]: positions in both chains advance together.  One round copies
    at least one octet or leaves a pbuf of one of the chains. *)
Fixpoint pbuf_copy_loop (fuel : nat) (p_to p_from : option loc) (offset_to offset_from : Z)
    (h : heap) : option (heap * Z) :=
  match fuel, p_to, p_from with
  | S f, Some t, Some s =>
      tb ← h_pbufs h !! t;
      sb ← h_pbufs h !! s;
      let n := if len sb - offset_from <=? len tb - offset_to
               then len sb - offset_from else len tb - offset_to in
      data ← mem_read h (ptr_add (payload sb) offset_from) n;
      h ← mem_write h (ptr_add (payload tb) offset_to) data;
      let offset_to := offset_to + n in
      let offset_from := offset_from + n in
      lwip_assert (offset_to <=? len tb);
      lwip_assert (offset_from <=? len sb);
      let '(p_from, offset_from) :=
        if len sb <=? offset_from then (next sb, 0) else (p_from, offset_from) in
      let '(p_to, offset_to) :=
        if offset_to =? len tb then (next tb, 0) else (p_to, offset_to) in
      lwip_assert (match p_to, p_from with None, Some _ => false | _, _ => true end);
      (* "pbuf_copy() does not allow packet queues!" *)
      let queue p :=
        match p with
        | None => Some false
        | Some l => b ← h_pbufs h !! l;
                    Some ((len b =? tot_len b) && match next b with Some _ => true | None => false end)
        end in
      qf ← queue p_from;
      lwip_assert (negb qf);
      qt ← queue p_to;
      lwip_assert (negb qt);
      match p_from with
      | None => Some (h, ERR_OK)
      | Some _ => pbuf_copy_loop f p_to p_from offset_to offset_from h
      end
  | _, _, _ => None
  end.

Definition pbuf_copy (p_to p_from : option loc) (h : heap) : option (heap * Z) :=
  t ← p_to; s ← p_from;
  tb ← h_pbufs h !! t;
  sb ← h_pbufs h !! s;
  lwip_assert (tot_len sb <=? tot_len tb);
  pbuf_copy_loop (chain_fuel h + chain_fuel h) p_to p_from 0 0 h.

Definition pbuf_clone (layer type : Z) (p : loc) (h : heap) : option (heap * option loc) :=
  b ← h_pbufs h !! p;
  '(h, q) ← pbuf_alloc layer (tot_len b) type h;
  match q with
  | None => Some (h, None)
  | Some _ =>
      '(h, err) ← pbuf_copy q (Some p) h;
      lwip_assert (err =? ERR_OK);
      Some (h, q)
  end.

Definition pbuf_coalesce (p : loc) (layer : Z) (h : heap) : option (heap * option loc) :=
  b ← h_pbufs h !! p;
  match next b with
  | None => Some (h, Some p)
  | Some _ =>
      '(h, q) ← pbuf_clone layer PBUF_RAM p h;
      match q with
      | None => Some (h, Some p)
      | Some _ => '(h, _) ← pbuf_free (Some p) h; Some (h, q)
      end
  end.

(** [pbuf_fill_chksum]: [odd_dst] is the parity of [dst_ptr]. *)
Definition pbuf_fill_chksum (odd_dst : bool) (p : loc) (start_offset : Z) (data : list Z)
    (chksum : Z) (h : heap) : option (heap * Z * Z) :=
  b ← h_pbufs h !! p;
  let n := Z.of_nat (length data) in
  lwip_assert (negb (n =? 0));
  if (len b <=? start_offset) || (len b <? start_offset + n) then Some (h, chksum, ERR_ARG)
  else
    let '(src, copy_chksum) := lwip_chksum_copy odd_dst data in
    h ← mem_write h (ptr_add (payload b) start_offset) src;
    let copy_chksum := if negb (Z.land start_offset 1 =? 0)
                       then u16 (SWAP_BYTES_IN_WORD copy_chksum) else copy_chksum in
    let acc := u32 (chksum + copy_chksum) in
    Some (h, u16 (FOLD_U32T acc), ERR_OK).

(** ** Single octets and searching *)

Definition pbuf_try_get_at (p : option loc) (offset : Z) (h : heap) : option Z :=
  '(q, q_idx) ← pbuf_skip p offset h;
  match q with
  | Some l =>
      b ← h_pbufs h !! l;
      if q_idx <? len b then
        data ← mem_read h (ptr_add (payload b) q_idx) 1;
        data !! 0%nat
      else Some (-1)
  | None => Some (-1)
  end.

Definition pbuf_get_at (p : option loc) (offset : Z) (h : heap) : option Z :=
  ret ← pbuf_try_get_at p offset h;
  Some (if 0 <=? ret then ret else 0).

Definition pbuf_put_at (p : option loc) (offset data : Z) (h : heap) : option heap :=
  '(q, q_idx) ← pbuf_skip p offset h;
  match q with
  | Some l =>
      b ← h_pbufs h !! l;
      if q_idx <? len b then mem_write h (ptr_add (payload b) q_idx) [data] else Some h
  | None => Some h
  end.

(** The comparison loop of [pbuf_memcmp]; [i] counts up from 0. *)
Fixpoint pbuf_memcmp_loop (q : option loc) (start i : Z) (s2 : list Z) (h : heap) : option Z :=
  match s2 with
  | [] => Some 0
  | b :: s2' =>
      a ← pbuf_get_at q (u16 (start + i)) h;
      if negb (a =? b) then Some (u16 (Z.min (i + 1) 65535))
      else pbuf_memcmp_loop q start (u16 (i + 1)) s2' h
  end.

Definition pbuf_memcmp (p : loc) (offset : Z) (s2 : list Z) (h : heap) : option Z :=
  b ← h_pbufs h !! p;
  if tot_len b <? offset + Z.of_nat (length s2) then Some 65535
  else
    '(q, start) ← pbuf_skip (Some p) offset h;
    pbuf_memcmp_loop q start 0 s2 h.

(** The search loop of [pbuf_memfind].  [i] is a [u16_t]: it runs up to
    [max_cmp_start], which is below 0xffff unless the pbuf is 0xffff octets
    long and the pattern is empty. *)
Fixpoint pbuf_memfind_loop (fuel : nat) (p : loc) (mem : list Z) (i max_cmp_start : Z) (h : heap)
  : option Z :=
  match fuel with
  | O => None
  | S f =>
      if i <=? max_cmp_start then
        plus ← pbuf_memcmp p i mem h;
        if plus =? 0 then Some i
        else pbuf_memfind_loop f p mem (u16 (i + 1)) max_cmp_start h
      else Some 65535
  end.

Definition pbuf_memfind (p : loc) (mem : list Z) (start_offset : Z) (h : heap) : option Z :=
  b ← h_pbufs h !! p;
  let mem_len := Z.of_nat (length mem) in
  let max_cmp_start := u16 (tot_len b - mem_len) in
  if mem_len + start_offset <=? tot_len b
  then pbuf_memfind_loop (S (S (Z.to_nat max_cmp_start))) p mem start_offset max_cmp_start h
  else Some 65535.

(** [pbuf_strstr]: [substr] is a C string, [None] for [NULL]. *)
Definition pbuf_strstr (p : loc) (substr : option (list Z)) (h : heap) : option Z :=
  match substr with
  | None => Some 65535
  | Some s =>
      c0 ← s !! 0%nat;
      b ← h_pbufs h !! p;
      if (c0 =? 0) || (tot_len b =? 65535) then Some 65535
      else
        substr_len ← strlen s;
        if 65535 <=? substr_len then Some 65535
        else pbuf_memfind p (take (Z.to_nat substr_len) s) 0 h
  end.

End with_custom_free.

(** ** Representation

    [packet h p bs ds]: from [p] hangs the acyclic chain of the structs [bs]
    (with their addresses), whose payloads hold [ds], and every [tot_len] is
    the number of octets from there to the end of the chain. *)

Fixpoint chain (h : heap) (p : option loc) (bs : list (loc * pbuf)) (ds : list (list Z)) : Prop :=
  match bs, ds with
  | [], [] => p = None
  | (l, b) :: bs', d :: ds' =>
      p = Some l /\ h_pbufs h !! l = Some b /\
      mem_read h (payload b) (len b) = Some d /\ 0 <= len b /\
      tot_len b = Z.of_nat (length (d ++ concat ds')) /\
      chain h (next b) bs' ds'
  | _, _ => False
  end.

Definition packet (h : heap) (p : option loc) (bs : list (loc * pbuf)) (ds : list (list Z)) : Prop :=
  chain h p bs ds /\ NoDup bs.*1 /\ is_u16 (Z.of_nat (length (concat ds))).

(** The block a payload lies in. *)
Definition block_of (b : pbuf) : option loc := fst <$> payload b.

(** ** Lemmas *)

(** *** Memory *)

Lemma mem_read_length h d n r : 0 <= n -> mem_read h d n = Some r -> Z.of_nat (length r) = n.
Proof.
  unfold mem_read. intros Hn. destruct (Z.eqb_spec n 0); [intros; simplify_eq; simpl; lia|].
  destruct d as [[blk off]|]; simpl; [|done].
  destruct (h_mem h !! blk) as [data|]; simpl; [|done].
  destruct (_ && _) eqn:E; [|done]. intros [= <-].
  rewrite length_take, length_drop. lia.
Qed.

Lemma mem_read_sub h d n r off k :
  mem_read h d n = Some r -> 0 <= off -> 0 <= k -> off + k <= n ->
  mem_read h (ptr_add d off) k = Some (take (Z.to_nat k) (drop (Z.to_nat off) r)).
Proof.
  unfold mem_read. intros H Ho Hk Hn.
  destruct (Z.eqb_spec k 0) as [->|]; [by rewrite take_0|].
  destruct (Z.eqb_spec n 0); [lia|].
  destruct d as [[blk o]|]; simpl in *; [|done].
  destruct (h_mem h !! blk) as [data|]; simpl in *; [|done].
  destruct ((0 <=? o) && (0 <=? n) && (o + n <=? Z.of_nat (length data))) eqn:E; [|done].
  injection H as <-.
  assert ((0 <=? o + off) && (0 <=? k) && (o + off + k <=? Z.of_nat (length data)) = true)
    as -> by lia.
  f_equal. rewrite Z2Nat.inj_add, <- drop_drop by lia.
  rewrite !(take_drop_commute _ (Z.to_nat k)), take_take. do 2 f_equal. lia.
Qed.

Lemma mem_read_all h d n r : mem_read h d n = Some r -> ptr_add d 0 = d.
Proof. destruct d as [[blk o]|]; simpl; [|done]. by rewrite Z.add_0_r. Qed.

Lemma ptr_add_0 d : ptr_add d 0 = d.
Proof. destruct d as [[blk o]|]; simpl; [|done]. by rewrite Z.add_0_r. Qed.

(** Only the addressed block matters to a read. *)
Lemma mem_read_frame h h' d n :
  (forall blk, fst <$> d = Some blk -> h_mem h' !! blk = h_mem h !! blk) ->
  mem_read h' d n = mem_read h d n.
Proof.
  intros H. unfold mem_read. destruct (n =? 0); [done|].
  destruct d as [[blk off]|]; simpl; [|done]. by rewrite H.
Qed.

(** *** Chains *)

Lemma chain_ds_length h p bs ds : chain h p bs ds -> length ds = length bs.
Proof.
  revert p ds. induction bs as [|[l b] bs IH]; intros p [|d ds]; simpl; try done.
  intros (_ & _ & _ & _ & _ & H). f_equal. eauto.
Qed.

Lemma chain_lookup h p bs ds l b : chain h p bs ds -> (l, b) ∈ bs -> h_pbufs h !! l = Some b.
Proof.
  revert p ds. induction bs as [|[l' b'] bs IH]; intros p [|d ds]; simpl; try done; intros H Hin.
  - by apply not_elem_of_nil in Hin.
  - destruct H as (_ & Hl & _ & _ & _ & H). apply elem_of_cons in Hin as [[= -> ->]|?]; eauto.
Qed.

(** A chain of distinct pbufs is not longer than the heap: the fuel suffices. *)
Lemma chain_fuel_enough h p bs ds :
  chain h p bs ds -> NoDup bs.*1 -> (length bs < chain_fuel h)%nat.
Proof.
  intros Hc Hnd. unfold chain_fuel. apply Nat.lt_succ_r.
  rewrite <- (length_fmap fst), <- (size_list_to_set (C:=gset loc)) by done.
  rewrite <- size_dom. apply subseteq_size. intros l Hl.
  apply elem_of_list_to_set, list_elem_of_fmap in Hl as ([l' b] & -> & Hin).
  apply elem_of_dom. exists b. by eapply chain_lookup.
Qed.

Lemma packet_fuel h p bs ds : packet h p bs ds -> (length bs < chain_fuel h)%nat.
Proof. intros (? & ? & _). by eapply chain_fuel_enough. Qed.

(** The length of a whole payload. *)
Lemma chain_cons h p l b bs d ds :
  chain h p ((l, b) :: bs) (d :: ds) ->
  p = Some l /\ h_pbufs h !! l = Some b /\ mem_read h (payload b) (len b) = Some d /\
  0 <= len b /\ len b = Z.of_nat (length d) /\
  tot_len b = len b + Z.of_nat (length (concat ds)) /\ chain h (next b) bs ds.
Proof.
  simpl. intros (? & ? & Hr & ? & Ht & ?). pose proof (mem_read_length _ _ _ _ ltac:(done) Hr).
  rewrite length_app in Ht. split_and!; try done; lia.
Qed.

Lemma chain_nil h p ds : chain h p [] ds -> p = None /\ ds = [].
Proof. by destruct ds. Qed.

(** The same structs and the same payload blocks give the same chain. *)
Lemma chain_frame h h' p bs ds :
  chain h p bs ds ->
  (forall l b, (l, b) ∈ bs -> h_pbufs h' !! l = Some b) ->
  (forall l b, (l, b) ∈ bs -> forall blk, block_of b = Some blk ->
     h_mem h' !! blk = h_mem h !! blk) ->
  chain h' p bs ds.
Proof.
  revert p ds. induction bs as [|[l b] bs IH]; intros p [|d ds] H Hp Hm; try done.
  simpl in *. destruct H as (? & ? & Hr & ? & ? & H). split_and!; try done.
  - apply Hp. by left.
  - rewrite (mem_read_frame h h'); [done|]. intros. eapply Hm; [by left|done].
  - apply IH; [done|..]; intros; [apply Hp|eapply Hm]; try done; by right.
Qed.

(** *** Reading *)

Lemma copy_partial_spec h bs : forall p ds fuel n offset,
  chain h p bs ds -> (length bs <= fuel)%nat ->
  is_u16 (Z.of_nat (length (concat ds))) -> is_u16 n -> is_u16 offset ->
  pbuf_copy_partial_loop fuel p n offset h =
    Some (take (Z.to_nat n) (drop (Z.to_nat offset) (concat ds))).
Proof.
  unfold is_u16.
  induction bs as [|[l b] bs IH]; intros p ds fuel n offset Hc Hf Hu Hn Ho.
  - apply chain_nil in Hc as [-> ->]. destruct fuel; simpl; rewrite drop_nil, take_nil;
      by destruct (n =? 0).
  - destruct ds as [|d ds]; [done|]. destruct fuel as [|fuel]; simpl in Hf; [lia|].
    apply chain_cons in Hc as (-> & Hl & Hr & Hlen & Hd & _ & Hc).
    cbn [concat] in *. rewrite length_app in Hu.
    cbn [pbuf_copy_partial_loop]. destruct (Z.eqb_spec n 0) as [->|]; [by rewrite take_0|].
    rewrite Hl. simpl.
    destruct (negb (offset =? 0) && (len b <=? offset)) eqn:E.
    + rewrite u16_id by (unfold is_u16; lia). rewrite (IH _ ds) by (done || lia).
      rewrite drop_app_ge by lia. do 3 f_equal. lia.
    + rewrite (u16_id (len b - offset)) by (unfold is_u16; lia).
      set (k := if n <? len b - offset then n else len b - offset).
      assert (Hk : k = Z.min n (len b - offset)) 
        by (unfold k; destruct (Z.ltb_spec n (len b - offset)); lia).
      rewrite (mem_read_sub _ _ _ _ offset k Hr) by lia. simpl.
      rewrite u16_id by (unfold is_u16; lia). rewrite (IH _ ds) by (done || lia). simpl.
      f_equal. change (Z.to_nat 0) with 0%nat. rewrite drop_0.
      apply andb_false_iff in E. rewrite (drop_app_le _ _ (Z.to_nat offset)) by lia.
      destruct (Z.le_gt_cases n (len b - offset)).
      * replace k with n by lia. rewrite Z.sub_diag, take_0, app_nil_r.
        rewrite take_app_le by (rewrite length_drop; lia). done.
      * rewrite (take_app_ge _ _ (Z.to_nat n)) by (rewrite length_drop; lia).
        rewrite take_ge by (rewrite length_drop; lia).
        rewrite length_drop. do 2 f_equal. lia.
Qed.

Lemma skip_spec h bs : forall p ds fuel offset,
  chain h p bs ds -> (length bs <= fuel)%nat ->
  is_u16 (Z.of_nat (length (concat ds))) -> is_u16 offset ->
  exists q off bs' ds', pbuf_skip_loop fuel p offset h = Some (q, off) /\
    chain h q bs' ds' /\ is_u16 off /\ (exists pre dpre, bs = pre ++ bs' /\ ds = dpre ++ ds') /\
    drop (Z.to_nat offset) (concat ds) = drop (Z.to_nat off) (concat ds') /\
    match bs' with
    | [] => Z.of_nat (length (concat ds)) <= offset
    | (_, b) :: _ => off < len b /\ offset < Z.of_nat (length (concat ds))
    end.
Proof.
  unfold is_u16.
  induction bs as [|[l b] bs IH]; intros p ds fuel offset Hc Hf Hu Ho.
  - apply chain_nil in Hc as [-> ->].
    exists None, offset, [], []. 
      destruct fuel; simpl; rewrite ?drop_nil; split_and!; try done; try (by exists [], []); lia.
  - destruct ds as [|d ds]; [done|]. destruct fuel as [|fuel]; simpl in Hf; [lia|].
    pose proof Hc as Hc0.
    apply chain_cons in Hc as (-> & Hl & Hr & Hlen & Hd & _ & Hc).
    cbn [concat] in *. rewrite length_app in *.
    cbn [pbuf_skip_loop]. rewrite Hl. simpl.
    destruct (Z.leb_spec (len b) offset).
    + rewrite u16_id by (unfold is_u16; lia).
      destruct (IH (next b) ds fuel (offset - len b))
        as (q & off & bs' & ds' & -> & ? & ? & (pre & dpre & -> & Edpre) & E & Hm); [done|lia..|].
      exists q, off, bs', ds'. split_and!; try done; try lia; [by exists ((l, b) :: pre), (d :: dpre); rewrite Edpre| |].
      * rewrite drop_app_ge by lia. rewrite <- E. f_equal. lia.
      * destruct bs' as [|[??]?]; lia.
    + exists (Some l), offset, ((l, b) :: bs), (d :: ds).
      split_and!; try done; try lia. by exists [], [].
Qed.

(** *** Writing *)

Lemma splice_length r off src :
  0 <= off -> off + Z.of_nat (length src) <= Z.of_nat (length r) ->
  length (splice r off src) = length r.
Proof. intros. unfold splice. rewrite !length_app, length_take, length_drop. lia. Qed.

Lemma splice_lookup r off src i :
  0 <= off -> off + Z.of_nat (length src) <= Z.of_nat (length r) ->
  splice r off src !! i =
    if decide (Z.of_nat i < off) then r !! i
    else if decide (Z.of_nat i < off + Z.of_nat (length src))
    then src !! (i - Z.to_nat off)%nat else r !! i.
Proof.
  intros. unfold splice. repeat case_decide.
  - rewrite lookup_app_l by (rewrite length_take; lia). apply lookup_take_lt. lia.
  - rewrite lookup_app_r by (rewrite length_take; lia).
    rewrite length_take, lookup_app_l by lia. f_equal. lia.
  - rewrite lookup_app_r by (rewrite length_take; lia).
    rewrite length_take, lookup_app_r by lia. rewrite lookup_drop. f_equal. lia.
Qed.

Lemma sub_lookup (data : list Z) o n i :
  (take n (drop o data)) !! i = if decide (i < n)%nat then data !! (o + i)%nat else None.
Proof.
  case_decide; [by rewrite lookup_take_lt, lookup_drop by done|].
  apply lookup_ge_None. rewrite length_take. lia.
Qed.

Lemma splice_inside data o n off src :
  0 <= o -> 0 <= off -> o + n <= Z.of_nat (length data) -> off + Z.of_nat (length src) <= n ->
  take (Z.to_nat n) (drop (Z.to_nat o) (splice data (o + off) src)) =
  splice (take (Z.to_nat n) (drop (Z.to_nat o) data)) off src.
Proof.
  intros. apply list_eq. intros i.
  rewrite sub_lookup, splice_lookup, splice_lookup, sub_lookup
    by (rewrite ?length_take, ?length_drop; lia).
  repeat case_decide; try lia; try done; try (f_equal; lia).
Qed.

Lemma mem_write_spec h d n r src off :
  mem_read h d n = Some r -> 0 <= n -> 0 <= off -> off + Z.of_nat (length src) <= n ->
  exists m, mem_write h (ptr_add d off) src = Some (set_mem (fun _ => m) h) /\
    mem_read (set_mem (fun _ => m) h) d n = Some (splice r off src) /\
    (forall blk, fst <$> d <> Some blk -> m !! blk = h_mem h !! blk).
Proof.
  intros Hr Hn Ho Hs. unfold mem_write. destruct (Nat.eqb_spec (length src) 0) as [E|E].
  { apply nil_length_inv in E as ->. exists (h_mem h).
    replace (set_mem (fun _ => h_mem h) h) with h by by destruct h.
    split_and!; [done| |done]. rewrite Hr. f_equal. unfold splice. simpl.
    by rewrite Nat.add_0_r, take_drop. }
  unfold mem_read in Hr |- *. destruct (Z.eqb_spec n 0); [lia|].
  destruct d as [[blk o]|]; simpl in *; [|done].
  destruct (h_mem h !! blk) as [data|] eqn:Hb; simpl in *; [|done].
  destruct ((0 <=? o) && (0 <=? n) && (o + n <=? Z.of_nat (length data))) eqn:Hc; [|done].
  injection Hr as <-.
  assert ((0 <=? o + off) && (o + off + Z.of_nat (length src) <=? Z.of_nat (length data)) = true)
    as -> by lia.
  exists (<[blk:=splice data (o + off) src]> (h_mem h)). split_and!.
  - by destruct h.
  - rewrite lookup_insert_eq. simpl. rewrite splice_length, Hc by lia.
    f_equal. apply splice_inside; lia.
  - intros blk' Hne. apply lookup_insert_ne. congruence.
Qed.

(** A chain whose payloads lie in pairwise different blocks can be written. *)
Definition separate (bs : list (loc * pbuf)) : Prop := NoDup (omap (fun x => block_of x.2) bs).

Lemma separate_cons l b bs :
  separate ((l, b) :: bs) ->
  separate bs /\ (forall l' b' blk, block_of b = Some blk -> (l', b') ∈ bs -> block_of b' <> Some blk).
Proof.
  unfold separate. simpl. destruct (block_of b) as [blk|] eqn:E; [|naive_solver].
  intros [Hni Hnd]%NoDup_cons. split; [done|]. intros l' b' blk' [= <-] Hin Hb'.
  apply Hni, list_elem_of_omap. exists (l', b'). done.
Qed.

(** Filling the first area as far as it goes, then the rest. *)
Lemma splice_cat d src c (k : Z) :
  k = Z.min (Z.of_nat (length d)) (Z.of_nat (length src)) ->
  splice d 0 (take (Z.to_nat k) src)
    ++ drop (Z.to_nat k) src ++ drop (length (drop (Z.to_nat k) src)) c =
  src ++ drop (length src) (d ++ c).
Proof.
  intros Hk. unfold splice. rewrite take_0, length_take, length_drop. simpl.
  destruct (Nat.le_gt_cases (length src) (length d)).
  - rewrite (take_ge src), (drop_ge src) by lia. rewrite drop_app_le by lia.
    rewrite <- !app_assoc. simpl. do 2 f_equal; [f_equal; lia|apply drop_0_when; lia].
  - rewrite (drop_ge d), app_nil_r, drop_app_ge by lia.
    rewrite app_assoc, take_drop. do 2 f_equal. lia.
Qed.

(** The payloads [ds'] of a chain whose first octets are replaced by [src]. *)
Lemma take_spec bs : forall h p ds fuel src,
  chain h p bs ds -> separate bs -> (length bs < fuel)%nat ->
  (length src <= length (concat ds))%nat ->
  exists m ds', pbuf_take_loop fuel p src h = Some (set_mem (fun _ => m) h) /\
    chain (set_mem (fun _ => m) h) p bs ds' /\
    concat ds' = src ++ drop (length src) (concat ds) /\
    (forall blk, (forall l b, (l, b) ∈ bs -> block_of b <> Some blk) -> m !! blk = h_mem h !! blk).
Proof.
  induction bs as [|[l b] bs IH]; intros h p ds fuel src Hc Hsep Hf Hs.
  - destruct (chain_nil _ _ _ Hc) as [-> ->]. simpl in Hs. destruct src; [|simpl in Hs; lia].
    exists (h_mem h), []. replace (set_mem (fun _ => h_mem h) h) with h by by destruct h.
    destruct fuel; done.
  - destruct src as [|x src0].
    { exists (h_mem h), ds. replace (set_mem (fun _ => h_mem h) h) with h by by destruct h.
      destruct fuel; done. }
    set (src := x :: src0) in *.
    destruct ds as [|d ds]; [done|]. destruct fuel as [|fuel]; simpl in Hf; [lia|].
    apply separate_cons in Hsep as [Hsep Hother].
    apply chain_cons in Hc as (-> & Hl & Hr & Hlen & Hd & Ht & Hc).
    cbn [concat] in *. rewrite length_app in Hs.
    change (pbuf_take_loop (S fuel) (Some l) src h) with
      (b ← h_pbufs h !! l;
       let k := if len b <? Z.of_nat (length src) then len b else Z.of_nat (length src) in
       h ← mem_write h (payload b) (take (Z.to_nat k) src);
       pbuf_take_loop fuel (next b) (drop (Z.to_nat k) src) h).
    rewrite Hl. cbn [mbind option_bind]. cbv zeta.
    set (k := if len b <? _ then _ else _).
    assert (Hk : k = Z.min (len b) (Z.of_nat (length src)))
      by (unfold k; destruct (Z.ltb_spec (len b) (Z.of_nat (length src))); lia).
    clearbody k.
    destruct (mem_write_spec h (payload b) (len b) d (take (Z.to_nat k) src) 0)
      as (m & Hw & Hr' & Hm); [done|lia|lia|rewrite length_take; lia|].
    rewrite ptr_add_0 in Hw. rewrite Hw. simpl.
    set (h1 := set_mem (fun _ => m) h) in *.
    assert (Hc1 : chain h1 (next b) bs ds).
    { apply (chain_frame h); [done|..].
      - intros l' b' Hin. by apply (chain_lookup _ _ _ _ _ _ Hc).
      - intros l' b' Hin blk Hblk. apply Hm. intros Hb. by eapply Hother. }
    destruct (IH h1 (next b) ds fuel (drop (Z.to_nat k) src))
      as (m2 & ds2 & -> & Hc2 & Hcat & Hm2); [done|done|lia|rewrite length_drop; lia|].
    exists m2, (splice d 0 (take (Z.to_nat k) src) :: ds2).
    assert (Hb2 : mem_read (set_mem (fun _ => m2) h1) (payload b) (len b)
                  = Some (splice d 0 (take (Z.to_nat k) src))).
    { rewrite (mem_read_frame h1); [done|]. intros blk Hblk. apply Hm2.
      intros l' b' Hin Hb. by eapply Hother. }
    assert (Hsl : length (splice d 0 (take (Z.to_nat k) src)) = length d)
      by (apply splice_length; [lia|rewrite length_take; lia]).
    split; [done|]. split; [|split].
    + simpl. split_and!; try done. rewrite length_app, Hsl, Hcat, length_app, !length_drop. lia.
    + cbn [concat]. rewrite Hcat. apply splice_cat. lia.
    + intros blk Hblk. rewrite Hm2 by (intros; eapply Hblk; by right).
      apply Hm. intros Hb. by eapply (Hblk l b); [left|].
Qed.

(** *** Freeing *)

(** The structs alone: [bs] are linked from [p]. *)
Fixpoint linked (m : gmap loc pbuf) (p : option loc) (bs : list (loc * pbuf)) : Prop :=
  match bs with
  | [] => p = None
  | (l, b) :: bs' => p = Some l /\ m !! l = Some b /\ linked m (next b) bs'
  end.

(** A pbuf allocated by [pbuf_alloc] (not custom), with live references. *)
Definition plain (b : pbuf) : Prop :=
  flagset (flags b) PBUF_FLAG_IS_CUSTOM = false /\
  (pbuf_get_allocsrc b = 0 \/ pbuf_get_allocsrc b = 1 \/ pbuf_get_allocsrc b = 2) /\
  1 <= ref b < 256.

Abbreviation delete_all ls m := (foldr delete m ls).

Lemma lookup_delete_all {A} (m : gmap loc A) ls l :
  delete_all ls m !! l = if decide (l ∈ ls) then None else m !! l.
Proof.
  induction ls as [|l' ls IH]; simpl; [done|].
  destruct (decide (l = l')) as [->|].
  - rewrite lookup_delete_eq, decide_True; [done|]. by left.
  - rewrite lookup_delete_ne by done. rewrite IH. apply decide_ext. split; [by right|].
    by intros [?|?]%elem_of_cons.
Qed.

Lemma delete_all_delete {A} (m : gmap loc A) ls l :
  delete_all ls (delete l m) = delete l (delete_all ls m).
Proof. induction ls as [|l' ls IH]; simpl; [done|]. by rewrite IH, delete_delete. Qed.

Lemma chain_linked h p bs ds : chain h p bs ds -> linked (h_pbufs h) p bs.
Proof.
  revert p ds. induction bs as [|[l b] bs IH]; intros p [|d ds]; simpl; try done.
  intros (? & ? & _ & _ & _ & ?). eauto.
Qed.

Lemma linked_frame m m' p bs :
  linked m p bs -> (forall l, l ∈ bs.*1 -> m' !! l = m !! l) -> linked m' p bs.
Proof.
  revert p. induction bs as [|[l b] bs IH]; intros p; simpl; [done|].
  intros (-> & Hl & H) Hm. split_and!; [done| |].
  - rewrite Hm; [done|]. by left.
  - apply IH; [done|]. intros l' ?. apply Hm. by right.
Qed.

Lemma linked_fuel m p bs : linked m p bs -> NoDup bs.*1 -> (length bs <= size m)%nat.
Proof.
  intros Hc Hnd. rewrite <- (length_fmap fst), <- (size_list_to_set (C:=gset loc)) by done.
  rewrite <- size_dom. apply subseteq_size. intros l Hl.
  apply elem_of_list_to_set in Hl. clear Hnd. revert p Hc.
  induction bs as [|[l' b] bs IH]; simpl in *; intros p; [by apply not_elem_of_nil in Hl|].
  intros (_ & ? & ?). apply elem_of_cons in Hl as [->|?]; [|eauto].
  apply elem_of_dom. eauto.
Qed.

(** The heap after the pbufs [dead] are gone and the next one, if any, has lost
    a reference. *)
Definition freed (dead rest : list (loc * pbuf)) (h : heap) : heap :=
  set_mem (fun m => delete_all dead.*1 m)
    (set_pbufs (fun m =>
       let m := delete_all dead.*1 m in
       match rest with
       | [] => m
       | (l, b) :: _ => <[l := set_ref (ref b - 1) b]> m
       end) h).

Definition free_stops (rest : list (loc * pbuf)) : Prop :=
  match rest with [] => True | (_, b) :: _ => 1 < ref b end.

Lemma free_loop_spec cf bs : forall h p fuel count,
  linked (h_pbufs h) p bs -> NoDup bs.*1 -> Forall (fun x => plain x.2) bs ->
  (length bs <= fuel)%nat ->
  exists dead rest, bs = dead ++ rest /\ Forall (fun x => ref x.2 = 1) dead /\
    free_stops rest /\
    pbuf_free_loop cf fuel p count h =
      Some (freed dead rest h, if decide (dead = []) then count else u8 (count + Z.of_nat (length dead))).
Proof.
  induction bs as [|[l b] bs IH]; intros h p fuel count Hlk Hnd Hpl Hf.
  - simpl in Hlk. subst p. exists [], []. split_and!; try done. by destruct fuel, h.
  - destruct Hlk as (-> & Hl & Hlk). simpl in Hnd, Hf.
    apply NoDup_cons in Hnd as [Hni Hnd]. apply Forall_cons in Hpl as [Hb Hpl].
    destruct fuel as [|fuel]; [lia|]. cbn [pbuf_free_loop]. rewrite Hl. cbn [mbind option_bind].
    destruct Hb as (Hcu & Hsrc & Href). simpl in Hcu, Hsrc, Href.
    destruct (Z.ltb_spec 0 (ref b)); [|lia].
    rewrite (u8_id (ref b - 1)) by (unfold is_u8; lia). cbv zeta.
    destruct (Z.eqb_spec (ref b - 1) 0).
    + rewrite Hcu.
      assert ((pbuf_get_allocsrc b =? 2) || (pbuf_get_allocsrc b =? 1)
              || (pbuf_get_allocsrc b =? 0) = true) as -> by lia.
      cbn [mbind option_bind].
      assert (E : release l (store l (set_ref (ref b - 1) b) h) = release l h).
      { unfold release, store, set_mem, set_pbufs. simpl. by rewrite delete_insert_eq. }
      rewrite E.
      destruct (IH (release l h) (next b) fuel (u8 (count + 1)))
        as (dead & rest & -> & Hd & Hs & ->).
      * simpl. eapply linked_frame; [done|]. intros l' ?. apply lookup_delete_ne. by intros ->.
      * done.
      * done.
      * lia.
      * exists ((l, b) :: dead), rest. split_and!; [done| |done|].
        { constructor; [simpl; lia|done]. }
        destruct (decide ((l, b) :: dead = [])); [done|].
        f_equal. f_equal.
        -- unfold freed, release, set_mem, set_pbufs. simpl.
           by rewrite !delete_all_delete.
        -- destruct (decide (dead = [])) as [->|]; [done|]. simpl length. word_lia.
    + exists [], ((l, b) :: bs). split_and!; try done. simpl. lia.
Qed.

Lemma pbuf_free_spec cf h p bs :
  linked (h_pbufs h) p bs -> bs <> [] -> NoDup bs.*1 -> Forall (fun x => plain x.2) bs ->
  exists dead rest, bs = dead ++ rest /\ Forall (fun x => ref x.2 = 1) dead /\
    free_stops rest /\
    pbuf_free cf p h = Some (freed dead rest h, u8 (Z.of_nat (length dead))).
Proof.
  intros Hlk Hne Hnd Hpl. pose proof (linked_fuel _ _ _ Hlk Hnd).
  destruct (free_loop_spec cf bs h p (chain_fuel h) 0 Hlk Hnd Hpl)
    as (dead & rest & ? & ? & ? & E); [unfold chain_fuel; lia|].
  exists dead, rest. split_and!; try done.
  destruct bs as [|[l b] bs]; [done|]. destruct Hlk as [-> _]. unfold pbuf_free. rewrite E.
  case_decide; [by subst|]. done.
Qed.

(** *** Allocation *)

(** [malloc] hands out addresses that are not in use. *)
Definition heap_ok (h : heap) : Prop :=
  forall l, (h_next h <= l)%positive -> h_pbufs h !! l = None /\ h_mem h !! l = None.

(** [h'] has the contents of [h], apart from the addresses in [ls]. *)
Definition same_outside (ls : list loc) (h h' : heap) : Prop :=
  forall l, l ∉ ls -> h_pbufs h' !! l = h_pbufs h !! l /\ h_mem h' !! l = h_mem h !! l.

Fixpoint lens (bs : list (loc * pbuf)) : Z :=
  match bs with [] => 0 | (_, b) :: r => len b + lens r end.

(** [tot_len] fields of a chain of which [rem] octets are still missing. *)
Fixpoint tots (rem : Z) (bs : list (loc * pbuf)) : Prop :=
  match bs with [] => True | (_, b) :: r => tot_len b = len b + lens r + rem /\ tots rem r end.

(** A pbuf fresh from the pool. *)
Definition pool_pbuf (h : heap) (x : loc * pbuf) : Prop :=
  ref x.2 = 1 /\ flags x.2 = 0 /\ type_internal x.2 = 130 /\
  exists off d, payload x.2 = Some (x.1, off) /\ 0 <= off /\ 0 <= len x.2 /\
    off + len x.2 <= 1514 /\ h_mem h !! x.1 = Some d /\ length d = 1514%nat.

Record pool_inv (h0 h : heap) (bs : list (loc * pbuf)) (rem : Z) : Prop := {
  pi_linked : linked (h_pbufs h) (fst <$> head bs) bs;
  pi_nodup : NoDup bs.*1;
  pi_pbufs : Forall (pool_pbuf h) bs;
  pi_tots : tots rem bs;
  pi_fresh : forall l, l ∈ bs.*1 -> (h_next h0 <= l < h_next h)%positive;
  pi_same : same_outside bs.*1 h0 h;
  pi_next : (h_next h0 <= h_next h)%positive
}.

Lemma lens_app bs1 bs2 : lens (bs1 ++ bs2) = lens bs1 + lens bs2.
Proof. induction bs1 as [|[l b] bs1 IH]; simpl; lia. Qed.

Lemma pool_pbuf_plain h x : pool_pbuf h x -> plain x.2.
Proof.
  intros (Hr & Hf & Ht & _). unfold plain, pbuf_get_allocsrc. rewrite Hf, Ht, Hr.
  split_and!; try done. by right; right.
Qed.

Lemma pool_pbuf_mono h h' x :
  h_mem h' !! x.1 = h_mem h !! x.1 -> pool_pbuf h x -> pool_pbuf h' x.
Proof. unfold pool_pbuf. by intros ->. Qed.

Lemma linked_snoc m p bs l lb q nb :
  linked m p (bs ++ [(l, lb)]) -> NoDup (bs ++ [(l, lb)]).*1 ->
  q ∉ (bs ++ [(l, lb)]).*1 -> next nb = None ->
  linked (<[l := set_next (Some q) lb]> (<[q := nb]> m)) p
         (bs ++ [(l, set_next (Some q) lb); (q, nb)]).
Proof.
  intros Hl Hnd Hq Hn. rewrite fmap_app in Hnd, Hq.
  apply NoDup_app in Hnd as (_ & Hd & _). rewrite not_elem_of_app in Hq. destruct Hq as [Hq Hql].
  assert (q <> l) by set_solver.
  revert p Hl. induction bs as [|[l' b'] bs IH]; intros p; simpl.
  - intros (-> & Hl & _). rewrite lookup_insert_eq, lookup_insert_ne, lookup_insert_eq by done. done.
  - intros (-> & Hl & Hr). simpl in *.
    assert (l <> l') by set_solver. assert (q <> l') by set_solver.
    rewrite !lookup_insert_ne by done. split_and!; [done..|].
    apply IH; [set_solver..|done].
Qed.

Lemma tots_snoc rem rem' bs l lb lb' q nb :
  tots rem (bs ++ [(l, lb)]) -> len lb' = len lb -> tot_len lb' = tot_len lb ->
  tot_len nb = rem -> rem = len nb + rem' ->
  tots rem' (bs ++ [(l, lb'); (q, nb)]).
Proof.
  intros Ht H1 H2 H3 ->. induction bs as [|[l' b'] bs IH]; simpl in *.
  - lia.
  - destruct Ht as [Ht Hts]. rewrite lens_app in *. simpl in *. split; [lia|auto].
Qed.

Lemma linked_last m p bs l lb : linked m p (bs ++ [(l, lb)]) -> m !! l = Some lb /\ next lb = None.
Proof.
  revert p. induction bs as [|[l' b'] bs IH]; intros p; simpl; [naive_solver|].
  intros (_ & _ & H). eauto.
Qed.

(** On failure everything allocated so far is given back. *)
Lemma pool_inv_free cf h0 h bs rem :
  pool_inv h0 h bs rem -> bs <> [] -> heap_ok h0 ->
  exists h' c, pbuf_free cf (fst <$> head bs) h = Some (h', c) /\
    h_pbufs h' = h_pbufs h0 /\ h_mem h' = h_mem h0.
Proof.
  intros Hi Hne Hok.
  destruct (pbuf_free_spec cf h (fst <$> head bs) bs) as (dead & rest & E & Hd & Hs & ->).
  - apply Hi.
  - done.
  - apply Hi.
  - eapply Forall_impl; [apply Hi|]. apply pool_pbuf_plain.
  - assert (rest = []) as ->.
    { destruct rest as [|[l b] rest]; [done|]. simpl in Hs.
      pose proof (pi_pbufs _ _ _ _ Hi) as Hp. rewrite E, Forall_app, Forall_cons in Hp.
      destruct Hp as (_ & (Hr & _) & _). simpl in Hr. lia. }
    rewrite app_nil_r in E. subst dead. eexists _, _. split; [done|]. simpl.
    assert (forall l, l ∈ bs.*1 -> h_pbufs h0 !! l = None /\ h_mem h0 !! l = None) as Hfr
      by (intros l Hl; apply Hok; by apply (pi_fresh _ _ _ _ Hi)).
    split; apply map_eq; intros l; rewrite lookup_delete_all; case_decide as Hin;
      try (symmetry; by apply Hfr); by apply (pi_same _ _ _ _ Hi).
Qed.

(** One more pbuf from the pool. *)
Lemma pool_inv_snoc h0 h bs rem junk r offset :
  pool_inv h0 h bs rem -> heap_ok h0 -> h_malloc h = Some junk :: r ->
  0 <= offset -> 0 <= rem < 65536 -> offset < 1514 ->
  let q := h_next h in
  let qlen := Z.min rem (1514 - offset) in
  let nb := pbuf_init_alloced_pbuf (Some (q, offset)) rem qlen PBUF_POOL 0 in
  let h1 := store q nb (set_mem (insert q (junk_block junk PBUF_POOL_BUFSIZE))
              (Heap (h_pbufs h) (h_mem h) (Pos.succ q) r (h_ooseq_pending h))) in
  exists h2 bs2,
    (match last bs with
     | Some (l, _) => b ← h_pbufs h1 !! l; Some (store l (set_next (Some q) b) h1)
     | None => Some h1
     end = Some h2) /\
    fst <$> last bs2 = Some q /\ fst <$> head bs2 = (match bs with [] => Some q | _ => fst <$> head bs end) /\
    bs2 <> [] /\ lens bs2 = lens bs + qlen /\ h_malloc h2 = r /\ pool_inv h0 h2 bs2 (rem - qlen).
Proof.
  intros [Hlk Hnd Hpb Ht Hfr Hsm Hnx] Hok Hm Ho Hrem Ho2 q qlen nb h1.
  assert (Hq : q ∉ bs.*1) by (intros Hin; apply Hfr in Hin; subst q; lia).
  assert (Hnew : pool_pbuf h1 (q, nb)).
  { unfold pool_pbuf. simpl. split_and!; [done..|].
    exists offset, (junk_block junk PBUF_POOL_BUFSIZE). rewrite lookup_insert_eq.
    unfold junk_block. rewrite length_map, length_seq. unfold qlen. split_and!; try done; lia. }
  assert (Hold : Forall (pool_pbuf h1) bs).
  { eapply Forall_impl; [apply Forall_and; split; [exact Hpb|apply Forall_forall; intros x Hx; exact Hx]|].
    intros x [Hx Hin]. eapply pool_pbuf_mono; [|exact Hx]. simpl. apply lookup_insert_ne.
    intros E. apply Hq. rewrite E. apply list_elem_of_fmap. eauto. }
  destruct bs as [|[l lb] bs0 _] using rev_ind.
  - exists h1, [(q, nb)]. simpl. split_and!; try done.
    + unfold qlen. lia.
    + split; simpl.
      * by rewrite lookup_insert_eq.
      * repeat constructor. by apply not_elem_of_nil.
      * by constructor.
      * unfold qlen. lia.
      * intros l ->%list_elem_of_singleton. subst q. lia.
      * intros l Hl. simpl. rewrite !lookup_insert_ne by (intros <-; apply Hl; by left).
        apply Hsm. by apply not_elem_of_nil.
      * lia.
  - rewrite last_snoc. destruct (linked_last _ _ _ _ _ Hlk) as [Hl Hln].
    assert (Hql : q <> l) by (intros E; apply Hq; rewrite E, fmap_app; apply elem_of_app; right; by left).
    assert (h_pbufs h1 !! l = Some lb) as -> by (simpl; by rewrite lookup_insert_ne).
    cbn [mbind option_bind].
    set (lb' := set_next (Some q) lb).
    exists (store l lb' h1), (bs0 ++ [(l, lb'); (q, nb)]).
    assert (Hfst : (bs0 ++ [(l, lb'); (q, nb)]).*1 = (bs0 ++ [(l, lb)]).*1 ++ [q])
      by (rewrite !fmap_app, <- app_assoc; done).
    split_and!; try done.
    + rewrite (app_assoc bs0 [(l, lb')] [(q, nb)] : bs0 ++ [(l, lb'); (q, nb)] = _), last_snoc. done.
    + by destruct bs0 as [|[??]?].
    + by destruct bs0.
    + rewrite !lens_app. simpl. lia.
    + split.
      * replace (fst <$> head (bs0 ++ [(l, lb'); (q, nb)])) with (fst <$> head (bs0 ++ [(l, lb)]))
          by by destruct bs0 as [|[??]?].
        apply linked_snoc; done.
      * rewrite Hfst. apply NoDup_app. split_and!; [done| |apply NoDup_singleton].
        intros x Hx ->%list_elem_of_singleton. done.
      * rewrite Forall_app in Hold |- *. destruct Hold as [H1 H2]. split; [done|].
        apply Forall_cons in H2 as [H2 _]. by rewrite Forall_cons, Forall_singleton.
      * eapply tots_snoc; [exact Ht|done..|simpl; unfold qlen; lia].
      * intros x. rewrite Hfst, elem_of_app. intros [Hx| ->%list_elem_of_singleton].
        -- apply Hfr in Hx. simpl. fold q. lia.
        -- simpl. subst q. lia.
      * intros x. rewrite Hfst, not_elem_of_app. intros [Hx Hxq]. simpl.
        assert (x <> q) by set_solver.
        assert (x <> l) by (intros ->; apply Hx; rewrite fmap_app; apply elem_of_app; right; by left).
        rewrite !lookup_insert_ne by done. by apply Hsm.
      * simpl. fold q. lia.
Qed.

Lemma pool_loop_spec cf h0 : heap_ok h0 -> forall fuel bs h offset rem,
  pool_inv h0 h bs rem -> 0 <= offset < 1514 -> (bs <> [] -> offset = 0) ->
  0 <= rem < 65536 -> (bs <> [] -> 0 < rem) -> (Z.to_nat rem < fuel)%nat ->
  exists h' p', pbuf_alloc_pool cf fuel offset rem (fst <$> head bs) (fst <$> last bs) h = Some (h', p') /\
    match p' with
    | Some _ => exists bs', p' = fst <$> head bs' /\ bs' <> [] /\ pool_inv h0 h' bs' 0 /\
                  lens bs' = lens bs + rem
    | None => h_pbufs h' = h_pbufs h0 /\ h_mem h' = h_mem h0
    end.
Proof.
  intros Hok fuel. induction fuel as [|fuel IH]; intros bs h offset rem Hi Ho Hbs Hrem Hpos Hf; [lia|].
  cbn [pbuf_alloc_pool]. unfold mem_malloc.
  assert (Hnull : forall h1, h_pbufs h1 = h_pbufs h -> h_mem h1 = h_mem h -> h_next h1 = h_next h ->
    exists h' p', (match fst <$> head bs with
      | Some _ => '(h, _) ← pbuf_free cf (fst <$> head bs) h1; Some (h, None)
      | None => Some (h1, None) end) = Some (h', p') /\
      match p' : option loc with
      | Some _ => exists bs', p' = fst <$> head bs' /\ bs' <> [] /\ pool_inv h0 h' bs' 0 /\
                  lens bs' = lens bs + rem
      | None => h_pbufs h' = h_pbufs h0 /\ h_mem h' = h_mem h0
      end).
  { intros h1 E1 E2 E3. assert (Hi1 : pool_inv h0 h1 bs rem).
    { destruct Hi as [H1 H2 Hp H4 H5 Hs H7]. split; try done; try congruence.
      - eapply Forall_impl; [exact Hp|]. intros x Hx. eapply pool_pbuf_mono; [|exact Hx]. by rewrite E2.
      - intros l Hl. rewrite E3. by apply H5.
      - intros l Hl. rewrite E1, E2. by apply Hs. }
    destruct bs as [|x bs'].
    - exists h1, None. split; [done|]. rewrite E1, E2. split; apply map_eq; intros l;
        apply (pi_same _ _ _ _ Hi); apply not_elem_of_nil.
    - destruct (pool_inv_free cf h0 h1 (x :: bs') rem Hi1) as (h' & c & E & ? & ?); [done..|].
      exists h', None. rewrite E. done. }
  destruct (h_malloc h) as [|[junk|] r] eqn:Hm.
  - by apply Hnull.
  - replace (u16 (PBUF_POOL_BUFSIZE - offset)) with (1514 - offset)
      by (unfold PBUF_POOL_BUFSIZE; word_lia).
    destruct (pool_inv_snoc h0 h bs rem junk r offset) as
      (h2 & bs2 & Hlink & Hlast & Hhead & Hne & Hlens & Hmal & Hi2); [done|done|done|lia..|].
    set (q := h_next h) in *.
    set (nb := pbuf_init_alloced_pbuf _ _ _ _ _) in *.
    set (h1 := store q nb _) in *.
    destruct (Z.ltb_spec 0 (PBUF_POOL_BUFSIZE - offset)); [|unfold PBUF_POOL_BUFSIZE in *; lia].
    assert ((match fst <$> head bs, fst <$> last bs with
             | Some _, Some l => b ← h_pbufs h1 !! l; Some (store l (set_next (Some q) b) h1, fst <$> head bs)
             | _, _ => Some (h1, Some q)
             end) = Some (h2, fst <$> head bs2)) as ->.
    { rewrite Hhead. destruct bs as [|x bs']; [by injection Hlink as ->|].
      destruct (last (x :: bs')) as [[l lb]|] eqn:El; [|by apply last_None in El]. cbn [fmap option_fmap option_map fst head].
      destruct (h_pbufs h1 !! l) as [b|]; cbn [mbind option_bind] in *; congruence. }
    cbn [mbind option_bind].
    assert (0 <= Z.min rem (1514 - offset) <= rem) by lia.
    rewrite u16_id by (unfold is_u16; lia).
    destruct (Z.ltb_spec 0 (rem - Z.min rem (1514 - offset))).
    + rewrite <- Hlast.
      destruct (IH bs2 h2 0 (rem - Z.min rem (1514 - offset))) as (h' & p' & -> & Hp');
        [done|lia|done|lia|done|lia|].
      exists h', p'. split; [done|]. destruct p' as [p'|]; [|done].
      destruct Hp' as (bs' & ? & ? & ? & ?). exists bs'. split_and!; try done. lia.
    + exists h2, (fst <$> head bs2). split; [done|].
      destruct bs2 as [|x bs2]; [done|]. simpl. exists (x :: bs2). split_and!; try done.
      * replace 0 with (rem - Z.min rem (1514 - offset)) by lia. done.
      * lia.
  - by apply Hnull.
Qed.

(** The finished chain is a packet of pool pbufs, each with its own block. *)
Lemma pool_inv_chain h bs : forall p,
  linked (h_pbufs h) p bs -> Forall (pool_pbuf h) bs -> tots 0 bs ->
  exists ds, chain h p bs ds /\ Z.of_nat (length (concat ds)) = lens bs /\
    omap (fun x => block_of x.2) bs = bs.*1.
Proof.
  induction bs as [|[l b] bs IH]; intros p Hl Hp Ht; simpl in *.
  - by exists [].
  - destruct Hl as (-> & Hl & Hlk). destruct Ht as [Ht Hts].
    apply Forall_cons in Hp as [Hb Hp].
    destruct (IH _ Hlk Hp Hts) as (ds & Hc & Hlen & Hom).
    destruct Hb as (_ & _ & _ & off & d & Epl & ? & ? & ? & Ed & Hd). simpl in *.
    assert (exists d', mem_read h (payload b) (len b) = Some d') as [d' Hr].
    { unfold mem_read. destruct (Z.eqb_spec (len b) 0); [by exists []|]. rewrite Epl. simpl.
      rewrite Ed. simpl.
      assert ((0 <=? off) && (0 <=? len b) && (off + len b <=? Z.of_nat (length d)) = true)
        as -> by lia. by eexists. }
    pose proof (mem_read_length _ _ _ _ ltac:(done) Hr).
    exists (d' :: ds). cbn [concat]. rewrite length_app. split_and!; try done; try lia.
    simpl. unfold block_of at 1. rewrite Epl. simpl. f_equal. exact Hom.
Qed.

Lemma pbuf_alloc_pool_spec cf layer n h :
  heap_ok h -> is_u16 n -> 0 <= layer < 1514 ->
  exists h' p', pbuf_alloc cf layer n PBUF_POOL h = Some (h', p') /\
    match p' with
    | Some _ => exists bs ds, packet h' p' bs ds /\ separate bs /\
        Z.of_nat (length (concat ds)) = n /\ Forall (fun x => plain x.2 /\ ref x.2 = 1 /\ block_of x.2 = Some x.1) bs /\
        (forall l, l ∈ bs.*1 -> h_pbufs h !! l = None /\ h_mem h !! l = None) /\
        same_outside bs.*1 h h'
    | None => h_pbufs h' = h_pbufs h /\ h_mem h' = h_mem h
    end.
Proof.
  intros Hok Hn Hl. unfold pbuf_alloc. simpl.
  rewrite u16_id by (unfold is_u16; lia).
  assert (Hi : pool_inv h h [] n).
  { split; simpl; try done; try lia.
    - by apply NoDup_nil_2.
    - by intros ? ?%elem_of_nil. }
  destruct (pool_loop_spec cf h Hok (S (Z.to_nat n)) [] h layer n Hi) as (h' & p' & E & Hp');
    [done|done|done|done|lia|].
  simpl in E. exists h', p'. split; [done|]. destruct p' as [p'|]; [|done].
  destruct Hp' as (bs & Hp & Hne & Hi' & Hlen). simpl in Hlen.
  destruct (pool_inv_chain h' bs (Some p')) as (ds & Hc & Hd & Hom);
    [rewrite Hp; apply Hi'|apply Hi'|apply Hi'|].
  exists bs, ds. split_and!; try done.
  - split; [done|]. split; [apply Hi'|]. by rewrite Hd, Hlen.
  - unfold separate. rewrite Hom. apply Hi'.
  - lia.
  - eapply Forall_impl; [apply Hi'|]. intros x Hx.
    split_and!; [by eapply pool_pbuf_plain|apply Hx|].
    destruct Hx as (_ & _ & _ & off & d & Epl & _). unfold block_of. by rewrite Epl.
  - intros l Hin. apply Hok. apply (pi_fresh _ _ _ _ Hi') in Hin. lia.
  - apply Hi'.
Qed.
