(* ===== verification/PbufSpec.v ===== *)
(** * What the packet-buffer operations promise

    The properties of core/c/core/pbuf.c that its callers rely on, stated over
    the representation of Pbuf.v: a packet is an octet string cut into pbufs,
    and every operation acts on that string. *)

From S2P Require Import Prelude Err Pbuf.

(** ** Single octets and searching *)

Lemma get_at_spec h p bs ds off :
  chain h p bs ds -> NoDup bs.*1 -> is_u16 (Z.of_nat (length (concat ds))) -> is_u16 off ->
  bytes_ok (concat ds) ->
  pbuf_get_at p off h = Some (default 0 (concat ds !! Z.to_nat off)).
Proof.
  intros Hc Hnd Hu Ho Hb. unfold pbuf_get_at, pbuf_try_get_at, pbuf_skip.
  destruct (skip_spec h bs p ds (chain_fuel h) off) as (q & o & bs' & ds' & -> & Hc' & Ho' & _ & Hd & Hm);
    [done|by apply Nat.lt_le_incl; eapply chain_fuel_enough|done..|].
  cbn [mbind option_bind].
  assert (concat ds !! Z.to_nat off = concat ds' !! Z.to_nat o) as El.
  { rewrite <- (Nat.add_0_r (Z.to_nat off)), <- (Nat.add_0_r (Z.to_nat o)), <- !lookup_drop.
    by rewrite Hd. }
  destruct bs' as [|[l b] bs'].
  - apply chain_nil in Hc' as [-> ->]. simpl. rewrite lookup_ge_None_2; [done|lia].
  - destruct ds' as [|d ds']; [done|].
    apply chain_cons in Hc' as (-> & Hl & Hr & Hlen & Hdl & _ & _).
    rewrite Hl. cbn [mbind option_bind]. destruct (Z.ltb_spec o (len b)); [|lia].
    rewrite (mem_read_sub _ _ _ _ o 1 Hr) by (unfold is_u16 in *; lia).
    cbn [mbind option_bind]. change (Z.to_nat 1) with 1%nat.
    rewrite El. cbn [concat]. rewrite lookup_app_l by (unfold is_u16 in *; lia).
    rewrite lookup_take_lt, lookup_drop, Nat.add_0_r by lia.
    destruct (d !! Z.to_nat o) as [x|] eqn:Ex.
    + simpl. assert (is_u8 x) as Hx.
      { rewrite Forall_lookup in Hb. apply (Hb (Z.to_nat off)). rewrite El. cbn [concat].
        rewrite lookup_app_l by (unfold is_u16 in *; lia). done. }
      destruct (Z.leb_spec 0 x); [done|unfold is_u8 in Hx; lia].
    + apply lookup_ge_None in Ex. unfold is_u16 in *. lia.
Qed.

(** [pbuf_memcmp_loop] compares position by position. *)
Lemma memcmp_loop_spec h q bs ds start s2 : forall i,
  chain h q bs ds -> NoDup bs.*1 -> is_u16 (Z.of_nat (length (concat ds))) ->
  bytes_ok (concat ds) -> 0 <= start -> 0 <= i ->
  start + i + Z.of_nat (length s2) <= Z.of_nat (length (concat ds)) ->
  exists r, pbuf_memcmp_loop q start i s2 h = Some r /\
    (r = 0 <-> take (length s2) (drop (Z.to_nat (start + i)) (concat ds)) = s2).
Proof.
  unfold is_u16. induction s2 as [|x s2 IH]; intros i Hc Hnd Hu Hb Hs Hi Hlen.
  - exists 0. rewrite take_0. done.
  - cbn [pbuf_memcmp_loop length] in *.
    rewrite (u16_id (start + i)) by (unfold is_u16; lia).
    rewrite (get_at_spec h q bs ds) by (try done; unfold is_u16; lia).
    cbn [mbind option_bind].
    destruct (lookup_lt_is_Some_2 (concat ds) (Z.to_nat (start + i))) as [y Hy]; [lia|].
    rewrite Hy, (drop_S _ _ _ Hy). cbn [take from_option id].
    destruct (Z.eqb_spec y x) as [->|]; simpl.
    + rewrite (u16_id (i + 1)) by (unfold is_u16; lia).
      destruct (IH (i + 1)) as (r & -> & Hr); try done; try lia.
      exists r. split; [done|]. rewrite Hr.
      replace (Z.to_nat (start + (i + 1))) with (S (Z.to_nat (start + i))) by lia.
      split; congruence.
    + eexists. split; [done|]. split; [word_lia|congruence].
Qed.

Lemma memcmp_spec h p bs ds l off s2 :
  packet h p bs ds -> p = Some l -> bytes_ok (concat ds) -> is_u16 off ->
  exists r, pbuf_memcmp l off s2 h = Some r /\
    (r = 0 <-> take (length s2) (drop (Z.to_nat off) (concat ds)) = s2 /\
       off + Z.of_nat (length s2) <= Z.of_nat (length (concat ds))).
Proof.
  intros (Hc & Hnd & Hu) -> Hb Ho. unfold pbuf_memcmp.
  destruct bs as [|[l' b] bs]; [by destruct ds|]. destruct ds as [|d ds]; [done|].
  pose proof (chain_cons _ _ _ _ _ _ _ Hc) as ([= <-] & Hl & _ & _ & Hdl & Ht & _).
  rewrite Hl. cbn [mbind option_bind].
  assert (tot_len b = Z.of_nat (length (concat (d :: ds)))) as ->
    by (cbn [concat]; rewrite length_app; lia).
  destruct (Z.ltb_spec (Z.of_nat (length (concat (d :: ds)))) (off + Z.of_nat (length s2))).
  - exists 65535. split; [done|]. split; [done|lia].
  - unfold pbuf_skip.
    destruct (skip_spec h ((l, b) :: bs) (Some l) (d :: ds) (chain_fuel h) off)
      as (q & o & bs' & ds' & -> & Hc' & Ho' & (pre & dpre & Epre & Edpre) & Hd & Hm);
      [done|by apply Nat.lt_le_incl; eapply chain_fuel_enough|done..|].
    cbn [mbind option_bind].
    assert (length (concat (d :: ds)) - Z.to_nat off = length (concat ds') - Z.to_nat o)%nat as El
      by (rewrite <- !length_drop; by f_equal).
    assert (o <= Z.of_nat (length (concat ds')) \/ s2 = []) as Hor.
    { destruct bs' as [|[l' b'] bs'].
      - right. apply nil_length_inv. unfold is_u16 in *. lia.
      - left. destruct ds' as [|d' ds']; [done|]. apply chain_cons in Hc' as (_ & _ & _ & _ & ? & _).
        cbn [concat]. rewrite length_app. lia. }
    destruct Hor as [Hor| ->].
    + destruct (memcmp_loop_spec h q bs' ds' o s2 0) as (r & Er & Hr).
      * done.
      * rewrite Epre, fmap_app in Hnd. by apply NoDup_app in Hnd as (_ & _ & ?).
      * rewrite Edpre, concat_app, length_app in Hu. unfold is_u16 in *. lia.
      * rewrite Edpre, concat_app, Forall_app in Hb. apply Hb.
      * unfold is_u16 in *. lia.
      * lia.
      * unfold is_u16 in *. lia.
      * exists r. split; [done|]. rewrite Hr, Z.add_0_r, <- Hd. split; [split; [done|lia]|intros []; done].
    + exists 0. split; [done|]. rewrite take_0. split; [split; [done|lia]|done].
Qed.

(** ** Chains *)

Lemma chain_cons_intro h l b bs d ds :
  h_pbufs h !! l = Some b -> mem_read h (payload b) (len b) = Some d -> 0 <= len b ->
  tot_len b = Z.of_nat (length (d ++ concat ds)) -> chain h (next b) bs ds ->
  chain h (Some l) ((l, b) :: bs) (d :: ds).
Proof. done. Qed.

(** A struct outside a chain may be updated. *)
Lemma chain_store h q b p bs ds :
  chain h p bs ds -> q ∉ bs.*1 -> chain (store q b h) p bs ds.
Proof.
  intros Hc Hq. eapply chain_frame; [exact Hc| |done]. intros l lb Hin. simpl.
  rewrite lookup_insert_ne; [by eapply chain_lookup|].
  intros ->. apply Hq. apply list_elem_of_fmap. by eexists (_, _).
Qed.

(** [pbuf_cat]: [t] is appended, every [tot_len] of the head is corrected. *)
Lemma cat_loop_spec tl tb bs2 ds2 bs1 : forall h p ds1 fuel,
  chain h (Some p) bs1 ds1 -> chain h (Some tl) ((tl, tb) :: bs2) ds2 ->
  NoDup (bs1 ++ (tl, tb) :: bs2).*1 -> (length bs1 <= fuel)%nat ->
  is_u16 (Z.of_nat (length (concat (ds1 ++ ds2)))) ->
  exists h1 l b bs', pbuf_cat_loop fuel p (tot_len tb) h = Some (h1, l) /\
    h_pbufs h1 !! l = Some b /\ tot_len b = len b /\
    let h2 := store l (set_next (Some tl) (set_tot_len (u16 (tot_len b + tot_len tb)) b)) h1 in
    chain h2 (Some p) (bs' ++ (tl, tb) :: bs2) (ds1 ++ ds2) /\ bs'.*1 = bs1.*1 /\
    h_mem h2 = h_mem h /\ (forall k, k ∉ bs1.*1 -> h_pbufs h2 !! k = h_pbufs h !! k).
Proof.
  unfold is_u16.
  induction bs1 as [|[l b] bs1 IH]; intros h p ds1 fuel Hc Hc2 Hnd Hf Hu; [by destruct ds1|].
  destruct ds1 as [|d ds1]; [done|]. destruct fuel as [|fuel]; simpl in Hf; [lia|].
  apply chain_cons in Hc as ([= <-] & Hl & Hr & Hlen & Hd & Ht & Hc).
  destruct ds2 as [|d2 ds2]; [done|].
  pose proof (chain_cons _ _ _ _ _ _ _ Hc2) as (_ & Htl & _ & Hlen2 & Hd2 & Ht2 & _).
  assert (tot_len tb = Z.of_nat (length (concat (d2 :: ds2)))) as Etb
    by (cbn [concat]; rewrite length_app; lia).
  cbn [fmap list_fmap app fst] in Hnd. apply NoDup_cons in Hnd as [Hni Hnd].
  rewrite <- app_comm_cons in Hu. cbn [concat] in Hu. rewrite length_app, concat_app, length_app in Hu.
  cbn [pbuf_cat_loop]. rewrite Hl. cbn [mbind option_bind].
  assert (Hfr : forall b' k, k <> p -> h_pbufs (store p b' h) !! k = h_pbufs h !! k)
    by (intros; simpl; by rewrite lookup_insert_ne).
  destruct bs1 as [|[n nb] bs1].
  - apply chain_nil in Hc as [Hn ->]. rewrite Hn. exists h, p, b, [(p, set_next (Some tl)
      (set_tot_len (u16 (tot_len b + tot_len tb)) b))].
    simpl in Ht. split_and!; try done; [lia| |].
    + apply chain_cons_intro; try done.
      * simpl. by rewrite lookup_insert_eq.
      * cbn [tot_len set_next set_tot_len concat app]. rewrite !length_app, u16_id
          by (unfold is_u16; simpl in *; rewrite ?length_app in *; lia).
        rewrite Etb. simpl. rewrite length_app. lia.
      * by apply chain_store.
    + intros k Hk. apply Hfr. intros ->. apply Hk. by left.
  - pose proof Hc as Hc'. destruct ds1 as [|d1 ds1]; [done|].
    apply chain_cons in Hc' as (En & _). rewrite En.
    set (b1 := set_tot_len (u16 (tot_len b + tot_len tb)) b).
    destruct (IH (store p b1 h) n (d1 :: ds1) fuel)
      as (h1 & l & lb & bs' & E & Hlb & Elb & Hc' & Ebs & Em & Efr).
    + rewrite <- En. apply chain_store; [done|].
      intros Hin. apply Hni. rewrite fmap_app. apply elem_of_app. by left.
    + apply chain_store; [done|].
      intros Hin. apply Hni. rewrite fmap_app. apply elem_of_app. by right.
    + done.
    + simpl in *. lia.
    + rewrite concat_app, length_app. lia.
    + exists h1, l, lb, ((p, b1) :: bs'). split_and!; try done.
      assert (p ∉ ((n, nb) :: bs1).*1) as Hp
        by (intros Hin; apply Hni; rewrite fmap_app; apply elem_of_app; by left).
      cbn zeta in *. split_and!; try done.
      * rewrite Efr by done. simpl. by rewrite lookup_insert_eq.
      * rewrite (mem_read_frame h); [done|]. intros. by rewrite Em.
      * simpl tot_len. rewrite length_app, concat_app, length_app, u16_id
          by (unfold is_u16; lia). lia.
      * simpl next. by rewrite En.
      * rewrite !fmap_cons. simpl fst. by f_equal.
      * intros k Hk. rewrite fmap_cons in Hk. apply not_elem_of_cons in Hk as [Hk1 Hk2].
        rewrite Efr by done. by apply Hfr.
Qed.

(** No payload lies in the block of another pbuf of the chain (as for pbufs
    allocated with their payload area). *)
Definition own_blocks (bs : list (loc * pbuf)) : Prop :=
  forall l b blk, (l, b) ∈ bs -> block_of b = Some blk -> blk ∈ bs.*1 -> blk = l.

(** The end of [pbuf_realloc]: cut the chain at the pbuf found. *)
Definition realloc_cut (cf : loc -> heap -> option heap) (x : heap * loc * Z) : option heap :=
  let '(h, q, rem_len) := x in
  b ← h_pbufs h !! q;
  let h := store q (set_tot_len rem_len (set_len rem_len b)) h in
  h ← (match next b with
       | Some _ => '(h, _) ← pbuf_free cf (next b) h; Some h
       | None => Some h
       end);
  b ← h_pbufs h !! q;
  Some (store q (set_next None b) h).

Lemma lookup_delete_notin {A} (m : gmap loc A) ls l :
  l ∉ ls -> delete_all ls m !! l = m !! l.
Proof. intros Hl. rewrite lookup_delete_all. by case_decide. Qed.

Lemma realloc_cut_spec cf h q b bs d ds rem :
  chain h (Some q) ((q, b) :: bs) (d :: ds) -> NoDup (q :: bs.*1) ->
  Forall (fun x => plain x.2) bs -> (forall blk, block_of b = Some blk -> blk ∉ bs.*1) ->
  0 <= rem <= len b ->
  exists h' b', realloc_cut cf (h, q, rem) = Some h' /\
    chain h' (Some q) [(q, b')] [take (Z.to_nat rem) d] /\ payload b' = payload b /\
    (forall k, k ∉ q :: bs.*1 -> h_pbufs h' !! k = h_pbufs h !! k) /\
    (forall k, k ∉ bs.*1 -> h_mem h' !! k = h_mem h !! k).
Proof.
  intros Hc Hnd Hpl Hown Hrem.
  apply chain_cons in Hc as (_ & Hl & Hr & Hlen & Hd & _ & Hc).
  apply NoDup_cons in Hnd as [Hq Hnd].
  set (b1 := set_tot_len rem (set_len rem b)).
  assert (exists h2, (match next b with
      | Some _ => '(h, _) ← pbuf_free cf (next b) (store q b1 h); Some h
      | None => Some (store q b1 h) end) = Some h2 /\ h_pbufs h2 !! q = Some b1 /\
      (forall k, k ∉ q :: bs.*1 -> h_pbufs h2 !! k = h_pbufs h !! k) /\
      (forall k, k ∉ bs.*1 -> h_mem h2 !! k = h_mem h !! k)) as (h2 & E & Eb & Hp & Hm).
  { destruct bs as [|x bs'] eqn:Ebs.
    - apply chain_nil in Hc as [-> _]. eexists. split; [done|].
      split_and!; [by simpl; rewrite lookup_insert_eq| |done].
      intros k Hk. simpl. rewrite lookup_insert_ne; [done|]. intros ->. apply Hk. by left.
    - rewrite <- Ebs in *.
      assert (exists n, next b = Some n) as [n En] by (subst bs; destruct x; simpl in Hc; destruct ds; [done|]; destruct Hc; eauto).
      rewrite En.
      destruct (pbuf_free_spec cf (store q b1 h) (Some n) bs) as (dead & rest & Ed & _ & _ & ->).
      + rewrite <- En. eapply linked_frame; [by eapply chain_linked|].
        intros l Hin. simpl. rewrite lookup_insert_ne; [done|]. by intros ->.
      + by subst bs.
      + done.
      + done.
      + eexists. split; [done|]. rewrite Ed, fmap_app in Hq. rewrite Ed, fmap_app.
        unfold freed. simpl. split_and!.
        * assert (q ∉ dead.*1) by set_solver.
          destruct rest as [|[l lb] rest]; [|rewrite lookup_insert_ne by set_solver];
            rewrite lookup_delete_notin by done; by rewrite lookup_insert_eq.
        * intros k Hk. assert (k ∉ dead.*1 /\ k <> q) as [? ?] by set_solver.
          destruct rest as [|[l lb] rest]; [|rewrite lookup_insert_ne by set_solver];
            rewrite lookup_delete_notin by done; by rewrite lookup_insert_ne.
        * intros k Hk. rewrite lookup_delete_notin by set_solver. done. }
  unfold realloc_cut. rewrite Hl. cbn [mbind option_bind]. fold b1. rewrite E.
  cbn [mbind option_bind]. rewrite Eb. cbn [mbind option_bind].
  eexists _, (set_next None b1). split; [done|]. split_and!; try done.
  - apply chain_cons_intro; try done.
    + simpl. by rewrite lookup_insert_eq.
    + simpl payload. simpl len. rewrite (mem_read_frame h).
      * rewrite <- (ptr_add_0 (payload b)).
        rewrite (mem_read_sub _ _ _ _ 0 rem Hr) by lia. by rewrite drop_0.
      * intros blk Hblk. simpl. apply Hm. by apply Hown.
    + simpl. lia.
    + simpl. rewrite app_nil_r, length_take. lia.
  - intros k Hk. simpl. rewrite lookup_insert_ne by (intros ->; apply Hk; by left). by apply Hp.
Qed.

Lemma realloc_spec cf bs : forall h p ds fuel rem shrink,
  chain h (Some p) bs ds -> NoDup bs.*1 -> Forall (fun x => plain x.2) bs -> own_blocks bs ->
  (length bs <= fuel)%nat -> is_u16 (Z.of_nat (length (concat ds))) ->
  0 <= rem -> 0 < shrink -> Z.of_nat (length (concat ds)) = rem + shrink ->
  exists h' bs' ds', (pbuf_realloc_loop fuel p rem shrink h ≫= realloc_cut cf) = Some h' /\
    chain h' (Some p) bs' ds' /\ bs'.*1 `prefix_of` bs.*1 /\
    concat ds' = take (Z.to_nat rem) (concat ds) /\
    (forall k, k ∉ bs.*1 -> h_pbufs h' !! k = h_pbufs h !! k) /\
    (forall k, k ∉ (tail bs).*1 -> h_mem h' !! k = h_mem h !! k).
Proof.
  unfold is_u16.
  induction bs as [|[l b] bs IH]; intros h p ds fuel rem shrink Hc Hnd Hpl Hown Hf Hu Hrem Hs Hsum;
    [by destruct ds|].
  destruct ds as [|d ds]; [done|]. destruct fuel as [|fuel]; simpl in Hf; [lia|].
  pose proof Hc as Hc0.
  apply chain_cons in Hc as ([= <-] & Hl & Hr & Hlen & Hd & Ht & Hc).
  pose proof Hnd as Hnd0. cbn [fmap list_fmap fst] in Hnd. apply NoDup_cons in Hnd as [Hni Hnd].
  apply Forall_cons in Hpl as [_ Hpl].
  assert (forall blk, block_of b = Some blk -> blk ∉ bs.*1) as Hob.
  { intros blk Hblk Hin. apply Hni. enough (blk = p) as <- by done.
    eapply Hown; [by left|done|]. by right. }
  cbn [concat] in *. rewrite length_app in *.
  cbn [pbuf_realloc_loop]. rewrite Hl. cbn [mbind option_bind].
  destruct (Z.ltb_spec (len b) rem).
  - destruct bs as [|[n nb] bs0] eqn:Ebs; [apply chain_nil in Hc as [_ ->]; simpl in *; lia|].
    rewrite <- Ebs in *.
    assert (next b = Some n) as En by (subst bs; by destruct ds; [|apply chain_cons in Hc as (? & _)]).
    rewrite En. cbn [mbind option_bind].
    set (b1 := set_tot_len (u16 (tot_len b - shrink)) b).
    rewrite u16_id by (unfold is_u16; lia).
    destruct (IH (store p b1 h) n ds fuel (rem - len b) shrink)
      as (h' & bs' & ds' & E & Hc' & Hpre & Ecat & Hfp & Hfm); try done; try lia.
    + rewrite <- En. by apply chain_store.
    + intros l' b' blk ? ? ?. eapply Hown; [by right|done|by right].
    + exists h', ((p, b1) :: bs'), (d :: ds'). cbn [fmap list_fmap fst tail]. split_and!; try done.
      * apply chain_cons_intro; try done.
        -- simpl. rewrite Hfp by done. simpl. by rewrite lookup_insert_eq.
        -- simpl. rewrite (mem_read_frame h); [done|]. intros blk Hblk. rewrite Hfm; [done|].
        intros Hin. eapply Hob; [done|]. subst bs. by right.
        -- simpl. rewrite length_app, Ecat, length_take, u16_id by (unfold is_u16; lia). lia.
        -- simpl. by rewrite En.
      * by apply prefix_cons.
      * cbn [concat]. rewrite Ecat, take_app_ge by lia. do 2 f_equal. lia.
      * intros k Hk. apply not_elem_of_cons in Hk as [Hk1 Hk2]. rewrite Hfp by done.
        simpl. by rewrite lookup_insert_ne.
      * intros k Hk. rewrite Hfm; [done|]. intros Hin. apply Hk. subst bs. by right.
  - destruct (realloc_cut_spec cf h p b bs d ds rem) as (h' & b' & E & Hc' & _ & Hfp & Hfm); try done; try lia.
    exists h', [(p, b')], [take (Z.to_nat rem) d]. split; [exact E|].
    split; [exact Hc'|]. split_and!; try done.
    + cbn [fmap list_fmap fst]. by apply prefix_cons, prefix_nil.
    + cbn [concat]. rewrite app_nil_r, take_app_le by lia. done.
Qed.

(** ** Properties *)

(** A chain of two pbufs for the concrete runs: five octets cut 3 + 2, the
    second pbuf referenced twice and preceded by four octets of headroom. *)
Definition example_bs : list (loc * pbuf) :=
  [(1%positive, Pbuf (Some 2%positive) (Some (1%positive, 0)) 5 3 130 0 1 0);
   (2%positive, Pbuf None (Some (2%positive, 4)) 2 2 130 0 2 0)].
Definition example_heap : heap :=
  Heap (list_to_map example_bs)
       (list_to_map [(1%positive, [10; 11; 12]); (2%positive, [0; 0; 0; 0; 13; 10])]) 3
       [Some (fun _ => 165); Some (fun _ => 90); Some (fun _ => 7)] 0.
Definition example_ds : list (list Z) := [[10; 11; 12]; [13; 10]].

Lemma example_packet : packet example_heap (Some 1%positive) example_bs example_ds.
Proof.
  split; [vm_compute; repeat split; congruence|]. split; [|vm_compute; repeat split; congruence].
  cbn. apply NoDup_cons. split; [|apply NoDup_singleton]. rewrite list_elem_of_singleton. lia.
Defined.

(** [pbuf_copy_partial] returns exactly the octets [offset ..
    offset + len) of the packet's content, clipped at the end of the packet,
    however the content is cut into pbufs: it neither fails nor reads outside
    a payload. *)
Theorem pbuf_copy_partial_reads h p bs ds n offset :
  packet h p bs ds -> p <> None -> is_u16 n -> is_u16 offset ->
  pbuf_copy_partial p n offset h =
    Some (take (Z.to_nat n) (drop (Z.to_nat offset) (concat ds))).
Proof.
  intros Hp Hne Hn Ho. unfold pbuf_copy_partial. destruct p as [l|]; [|done].
  pose proof Hp as (Hc & Hnd & Hu).
  apply (copy_partial_spec _ bs); try done. apply Nat.lt_le_incl. by eapply packet_fuel.
Qed.

Lemma pbuf_copy_partial_reads_witness :
  pbuf_copy_partial (Some 1%positive) 3 2 example_heap = Some [12; 13; 10].
Proof.
  pose proof (pbuf_copy_partial_reads example_heap (Some 1%positive) example_bs example_ds 3 2
    example_packet) as H. apply H; vm_compute; repeat split; congruence.
Defined.

(** the input path (core/input.go: allocate a packet of [n] octets from
    the pool, copy the received octets into it, hand it up, free it).  The
    allocation either succeeds or reports [NULL] with every earlier pbuf
    untouched (a partly built chain is released); after [pbuf_take] the packet
    reads back exactly the received octets at any offset; and [pbuf_free]
    releases the whole chain and leaves the structs and payloads of the heap
    as they were before. *)
Theorem pbuf_input_round_trip cf h data :
  heap_ok h -> is_u16 (Z.of_nat (length data)) ->
  exists h1 p, pbuf_alloc cf PBUF_RAW (Z.of_nat (length data)) PBUF_POOL h = Some (h1, p) /\
    match p with
    | None => h_pbufs h1 = h_pbufs h /\ h_mem h1 = h_mem h
    | Some _ => exists h2 h3 c, pbuf_take p data h1 = Some (h2, ERR_OK) /\
        (forall n off, is_u16 n -> is_u16 off ->
           pbuf_copy_partial p n off h2 = Some (take (Z.to_nat n) (drop (Z.to_nat off) data))) /\
        pbuf_free cf p h2 = Some (h3, c) /\ h_pbufs h3 = h_pbufs h /\ h_mem h3 = h_mem h
    end.
Proof.
  intros Hok Hlen. unfold is_u16 in Hlen.
  destruct (pbuf_alloc_pool_spec cf PBUF_RAW (Z.of_nat (length data)) h)
    as (h1 & [l|] & E & Hp); [done|unfold is_u16; lia|unfold PBUF_RAW; lia| |by exists h1, None].
  exists h1, (Some l). split; [done|].
  destruct Hp as (bs & ds & Hp & Hsep & Htot & Hpl & Hfr & Hsame).
  pose proof Hp as (Hc & Hnd & Hu). pose proof (packet_fuel _ _ _ _ Hp) as Hfuel.
  destruct bs as [|[l' b] bs0] eqn:Ebs; [by destruct ds|]. rewrite <- Ebs in *.
  assert (l' = l /\ h_pbufs h1 !! l = Some b /\ tot_len b = Z.of_nat (length data)) as (-> & Hl & Ht).
  { subst bs. destruct ds as [|d ds]; [done|].
    apply chain_cons in Hc as ([= ->] & ? & _ & _ & ? & ? & _).
    split_and!; try done. cbn [concat] in Htot. rewrite length_app in Htot. lia. }
  destruct (take_spec bs h1 (Some l) ds (chain_fuel h1) data) as (m & ds' & Et & Hc' & Ecat & Hm);
    [done..|lia|].
  rewrite drop_ge, app_nil_r in Ecat by lia.
  set (h2 := set_mem (fun _ => m) h1) in *.
  destruct (pbuf_free_spec cf h2 (Some l) bs) as (dead & rest & Ed & _ & Hst & Ef).
  { by eapply chain_linked. }
  { by subst bs. }
  { done. }
  { eapply Forall_impl; [exact Hpl|]. by intros ? []. }
  assert (rest = []) as ->.
  { destruct rest as [|[lr br] rest]; [done|]. simpl in Hst.
    rewrite Ed, Forall_app, Forall_cons in Hpl. destruct Hpl as (_ & (_ & Hr & _) & _). simpl in Hr. lia. }
  rewrite app_nil_r in Ed. subst dead.
  exists h2, (freed bs [] h2), (u8 (Z.of_nat (length bs))).
  split; [|split].
  - unfold pbuf_take. cbn [mbind option_bind]. rewrite Hl. cbn [mbind option_bind].
    destruct (Z.leb_spec (Z.of_nat (length data)) (tot_len b)); [|lia]. by rewrite Et.
  - intros n off Hn Ho. unfold pbuf_copy_partial.
    rewrite <- Ecat. apply (copy_partial_spec h2 bs); try done.
    + change (chain_fuel h2) with (chain_fuel h1). lia.
    + rewrite Ecat. unfold is_u16. lia.
  - split; [exact Ef|]. simpl.
    split; apply map_eq; intros k; rewrite lookup_delete_all; case_decide as Hin;
      try (symmetry; by apply Hfr); [by apply Hsame|].
    rewrite Hm; [by apply Hsame|]. intros l' b' Hin' Hblk. apply Hin.
    rewrite Forall_forall in Hpl. apply Hpl in Hin' as Hb. simpl in Hb.
    destruct Hb as (_ & _ & Hb). rewrite Hblk in Hb. injection Hb as ->.
    apply list_elem_of_fmap. by eexists (_, _).
Qed.

Definition no_custom (l : loc) (h : heap) : option heap := None.

Lemma pbuf_input_round_trip_witness :
  exists h1 p, pbuf_alloc no_custom PBUF_RAW 3 PBUF_POOL example_heap = Some (h1, Some p) /\
    exists h2 h3 c, pbuf_take (Some p) [7; 8; 9] h1 = Some (h2, ERR_OK) /\
      pbuf_copy_partial (Some p) 2 1 h2 = Some [8; 9] /\
      pbuf_free no_custom (Some p) h2 = Some (h3, c) /\ h_pbufs h3 = h_pbufs example_heap.
Proof.
  destruct (pbuf_input_round_trip no_custom example_heap [7; 8; 9]) as (h1 & p & E & H).
  - intros l Hl. unfold example_heap in *. simpl in *.
    rewrite !lookup_insert_ne by lia. done.
  - vm_compute. repeat split; congruence.
  - change (Z.of_nat (length [7; 8; 9])) with 3 in E.
    destruct p as [p|]; [|exfalso; vm_compute in E; discriminate].
    destruct H as (h2 & h3 & c & Et & Er & Ef & Ep & _).
    exists h1, p. split; [exact E|]. exists h2, h3, c. split; [exact Et|]. split; [|split; assumption].
    apply (Er 2 1); vm_compute; repeat split; congruence.
Defined.

(** The documented effect of [pbuf_free] on the reference counts of a chain:
    pbufs are freed up to the first that stays referenced. *)
Fixpoint free_refs (refs : list Z) : list Z :=
  match refs with
  | [] => []
  | r :: rs => if r =? 1 then free_refs rs else r - 1 :: rs
  end.

Lemma free_refs_split dead rest :
  Forall (fun x => ref x.2 = 1) dead -> free_stops rest ->
  free_refs (map (fun x : loc * pbuf => ref x.2) (dead ++ rest)) =
    match rest with [] => [] | (_, b) :: r => ref b - 1 :: map (fun x => ref x.2) r end.
Proof.
  intros Hd Hs. induction dead as [|x dead IH]; simpl.
  - destruct rest as [|[l b] r]; [done|]. simpl in *. by destruct (Z.eqb_spec (ref b) 1); [lia|].
  - apply Forall_cons in Hd as [-> Hd]. simpl. by apply IH.
Qed.

(** C36: [pbuf_free] on a chain of pbufs none of which is custom frees exactly the pbufs of its longest prefix
    with a single reference, takes one reference from the pbuf after it, and
    leaves the rest of the chain linked as it was; no memory outside the freed
    prefix changes, and the result is the number of freed pbufs (modulo 256,
    its type is [u8_t]). *)
Theorem pbuf_free_refcounts cf h p bs :
  linked (h_pbufs h) p bs -> bs <> [] -> NoDup bs.*1 -> Forall (fun x => plain x.2) bs ->
  exists h' p' bs', let gone := take (length bs - length bs') bs.*1 in
    pbuf_free cf p h = Some (h', u8 (Z.of_nat (length gone))) /\
    bs.*1 = gone ++ bs'.*1 /\ linked (h_pbufs h') p' bs' /\
    map (fun x => ref x.2) bs' = free_refs (map (fun x => ref x.2) bs) /\
    (forall l, l ∈ gone -> h_pbufs h' !! l = None /\ h_mem h' !! l = None) /\
    (forall l, l ∉ bs.*1 -> h_pbufs h' !! l = h_pbufs h !! l) /\
    (forall l, l ∉ gone -> h_mem h' !! l = h_mem h !! l).
Proof.
  intros Hlk Hne Hnd Hpl.
  destruct (pbuf_free_spec cf h p bs) as (dead & rest & -> & Hd & Hs & E); [done..|].
  set (bs' := match rest with [] => [] | (l, b) :: r => (l, set_ref (ref b - 1) b) :: r end).
  assert (bs'.*1 = rest.*1) as Ebs by (unfold bs'; by destruct rest as [|[??]?]).
  assert (length bs' = length rest) as Elen by (rewrite <- (length_fmap fst), Ebs; apply length_fmap).
  exists (freed dead rest h), (fst <$> head rest), bs'. cbn zeta.
  rewrite Elen, length_app, Nat.add_sub, fmap_app, take_app_length' by by rewrite length_fmap.
  rewrite fmap_app in Hnd. apply NoDup_app in Hnd as (Hnd1 & Hnd2 & Hnd3).
  split_and!.
  - by rewrite length_fmap.
  - by rewrite Ebs.
  - assert (forall q, linked (h_pbufs h) q (dead ++ rest) -> exists q', linked (h_pbufs h) q' rest)
      as Hsuf.
    { clear. induction dead as [|[l b] dead IH]; simpl; [eauto|]. intros q (_ & _ & H). eauto. }
    destruct (Hsuf p Hlk) as [q Hq]. unfold bs', freed.
    destruct rest as [|[l b] r]; simpl; [done|]. simpl in Hq. destruct Hq as (_ & Hl & Hq).
    split_and!; [done|by rewrite lookup_insert_eq|].
    eapply linked_frame; [exact Hq|]. intros k Hk. simpl.
    rewrite fmap_cons in Hnd3. apply NoDup_cons in Hnd3 as [Hl3 _].
    rewrite lookup_insert_ne by (intros <-; done).
    apply lookup_delete_notin. intros Hin. apply (Hnd2 k Hin). by right.
  - rewrite free_refs_split by done. unfold bs'. by destruct rest as [|[??]?].
  - intros l Hl. unfold freed. simpl. split; [|rewrite lookup_delete_all; by case_decide].
    destruct rest as [|[k b] r]; [|rewrite lookup_insert_ne by (intros ->; apply (Hnd2 l Hl); by left)];
      rewrite lookup_delete_all; by case_decide.
  - intros l Hl. apply not_elem_of_app in Hl as [H1 H2]. unfold freed. simpl.
    destruct rest as [|[k b] r]; [|rewrite lookup_insert_ne by (intros ->; apply H2; by left)];
      by rewrite lookup_delete_notin.
  - intros l Hl. unfold freed. simpl. by rewrite lookup_delete_notin.
Qed.

(** The first documented case: 1->2->3 becomes ...1->3. *)
Lemma pbuf_free_refcounts_witness :
  let mk n r := Pbuf n None 0 0 130 0 r 0 in
  let bs := [(1%positive, mk (Some 2%positive) 1); (2%positive, mk (Some 3%positive) 2);
             (3%positive, mk None 3)] in
  exists h' c p' bs', pbuf_free no_custom (Some 1%positive) (Heap (list_to_map bs) ∅ 4 [] 0) = Some (h', c) /\
    linked (h_pbufs h') p' bs' /\ map (fun x => ref x.2) bs' = [1; 3].
Proof.
  intros mk bs.
  destruct (pbuf_free_refcounts no_custom (Heap (list_to_map bs) ∅ 4 [] 0) (Some 1%positive) bs)
    as (h' & p' & bs' & E & _ & Hl & Hr & _).
  - vm_compute. repeat split; congruence.
  - discriminate.
  - apply (bool_decide_eq_true_1 (NoDup bs.*1)). vm_compute. reflexivity.
  - repeat constructor; vm_compute; naive_solver congruence.
  - eexists h', _, p', bs'. split; [exact E|]. split; [exact Hl|]. exact Hr.
Defined.

(** [pbuf_realloc] cuts a packet to its first [new_len] octets: the chain
    that remains is well formed (every [tot_len] is right again), consists of
    a prefix of the same pbufs, and its content is that prefix of the old one. *)
Theorem pbuf_realloc_truncates cf h l bs ds new_len :
  packet h (Some l) bs ds -> Forall (fun x => plain x.2) bs -> own_blocks bs ->
  0 <= new_len <= Z.of_nat (length (concat ds)) ->
  exists h' bs' ds', pbuf_realloc cf l new_len h = Some h' /\
    packet h' (Some l) bs' ds' /\ bs'.*1 `prefix_of` bs.*1 /\
    concat ds' = take (Z.to_nat new_len) (concat ds) /\
    (forall k, k ∉ bs.*1 -> h_pbufs h' !! k = h_pbufs h !! k /\ h_mem h' !! k = h_mem h !! k).
Proof.
  intros Hp Hpl Hown Hn. pose proof Hp as (Hc & Hnd & Hu).
  destruct bs as [|[k b] bs]; [by destruct ds|]. destruct ds as [|d ds]; [done|].
  pose proof (chain_cons _ _ _ _ _ _ _ Hc) as ([= <-] & Hl & _ & _ & Hd & Ht & _).
  assert (tot_len b = Z.of_nat (length (concat (d :: ds)))) as Etot
    by (cbn [concat]; rewrite length_app; lia).
  unfold pbuf_realloc. rewrite Hl. cbn [mbind option_bind].
  destruct (Z.leb_spec (tot_len b) new_len).
  - exists h, ((l, b) :: bs), (d :: ds). split_and!; try done. rewrite take_ge; [done|lia].
  - rewrite u16_id by (unfold is_u16 in *; lia).
    destruct (realloc_spec cf ((l, b) :: bs) h l (d :: ds) (chain_fuel h) new_len (tot_len b - new_len))
      as (h' & bs' & ds' & E & Hc' & Hpre & Ecat & Hfp & Hfm);
      try done; try lia; [apply Nat.lt_le_incl; by eapply packet_fuel|].
    exists h', bs', ds'. split_and!; try done.
    + split; [done|]. split.
      * destruct Hpre as [r Er]. rewrite Er in Hnd. by apply NoDup_app in Hnd as [? _].
      * rewrite Ecat, length_take. unfold is_u16 in *. lia.
    + intros k Hk. split; [by apply Hfp|]. apply Hfm. cbn [tail]. intros Hin. apply Hk. by right.
Qed.

Lemma pbuf_realloc_truncates_witness :
  exists h' bs' ds', pbuf_realloc no_custom 1%positive 4 example_heap = Some h' /\
    packet h' (Some 1%positive) bs' ds' /\ concat ds' = [10; 11; 12; 13].
Proof.
  destruct (pbuf_realloc_truncates no_custom example_heap 1%positive example_bs example_ds 4
    example_packet) as (h' & bs' & ds' & E & Hp & _ & Hd & _).
  - repeat constructor; vm_compute; naive_solver congruence.
  - intros l b blk Hin Hb _. apply elem_of_cons in Hin as [Hin|Hin%list_elem_of_singleton];
      injection Hin as -> ->; vm_compute in Hb; congruence.
  - vm_compute. split; congruence.
  - exists h', bs', ds'. split; [exact E|]. split; [exact Hp|exact Hd].
Defined.

(** [pbuf_cat] appends one packet to another: the result is one
    well-formed packet over the pbufs of both, in order, with the contents
    concatenated, and no payload octet moves. *)
Theorem pbuf_cat_appends h p t bs1 ds1 bs2 ds2 :
  packet h (Some p) bs1 ds1 -> packet h (Some t) bs2 ds2 -> NoDup (bs1 ++ bs2).*1 ->
  is_u16 (Z.of_nat (length (concat (ds1 ++ ds2)))) ->
  exists h' bs', pbuf_cat (Some p) (Some t) h = Some h' /\
    packet h' (Some p) bs' (ds1 ++ ds2) /\ bs'.*1 = (bs1 ++ bs2).*1 /\ h_mem h' = h_mem h.
Proof.
  intros (Hc1 & Hnd1 & Hu1) (Hc2 & Hnd2 & Hu2) Hnd Hu.
  destruct bs2 as [|[t' tb] bs2]; [by destruct ds2|].
  assert (t' = t /\ h_pbufs h !! t = Some tb) as [-> Ht].
  { destruct ds2 as [|d2 ds2]; [done|]. apply chain_cons in Hc2 as ([= ->] & ? & _). done. }
  unfold pbuf_cat. rewrite Ht. cbn [mbind option_bind].
  destruct (cat_loop_spec t tb bs2 ds2 bs1 h p ds1 (chain_fuel h))
    as (h1 & l & b & bs' & -> & Hl & Eb & Hc' & Ebs & Em & _);
    [done..|apply Nat.lt_le_incl; by eapply chain_fuel_enough|done|].
  cbn [mbind option_bind]. rewrite Hl. cbn [mbind option_bind].
  rewrite Eb, Z.eqb_refl. rewrite Eb in Hc', Em. eexists _, _. split; [done|].
  assert ((bs' ++ (t, tb) :: bs2).*1 = (bs1 ++ (t, tb) :: bs2).*1) as E
    by (rewrite !fmap_app; by rewrite Ebs).
  split_and!; [|exact E|exact Em]. split; [exact Hc'|]. split; [by rewrite E|done].
Qed.

Lemma pbuf_cat_appends_witness :
  let single n d := Pbuf None (Some d) n n 130 0 1 0 in
  let b1 := single 2 (1%positive, 0) in let b2 := single 1 (2%positive, 3) in
  let h := Heap {[1%positive := b1; 2%positive := b2]}
                {[1%positive := [5; 6]; 2%positive := [0; 0; 0; 7]]} 3 [] 0 in
  exists h' bs', pbuf_cat (Some 1%positive) (Some 2%positive) h = Some h' /\
    packet h' (Some 1%positive) bs' [[5; 6]; [7]].
Proof.
  intros single b1 b2 h.
  destruct (pbuf_cat_appends h 1 2 [(1%positive, b1)] [[5; 6]] [(2%positive, b2)] [[7]])
    as (h' & bs' & E & Hp & _).
  - split; [vm_compute; repeat split; congruence|].
    split; [apply NoDup_singleton|vm_compute; split; congruence].
  - split; [vm_compute; repeat split; congruence|].
    split; [apply NoDup_singleton|vm_compute; split; congruence].
  - apply (bool_decide_eq_true_1 (NoDup _)). vm_compute. reflexivity.
  - vm_compute. split; congruence.
  - exists h', bs'. split; [exact E|exact Hp].
Defined.

(** hiding a header and revealing it again: [pbuf_remove_header] drops the
    first [n] octets of the packet without moving any octet, and
    [pbuf_add_header] (for a contiguous pbuf) or its forced variant then
    restores the very same state. *)
Theorem pbuf_header_round_trip h l b bs d ds n force :
  packet h (Some l) ((l, b) :: bs) (d :: ds) -> 0 <= n <= len b ->
  flagset (type_internal b) PBUF_TYPE_FLAG_STRUCT_DATA_CONTIGUOUS = true \/ force = true ->
  exists h' b', pbuf_remove_header l n h = Some (h', 0) /\
    packet h' (Some l) ((l, b') :: bs) (drop (Z.to_nat n) d :: ds) /\ h_mem h' = h_mem h /\
    pbuf_add_header_impl l n force h' = Some (h, 0).
Proof.
  intros Hpk Hn Hforce. pose proof Hpk as (Hc & Hnd & Hu). unfold is_u16 in Hu.
  pose proof (chain_cons _ _ _ _ _ _ _ Hc) as (_ & Hl & Hr & Hlen & Hd & Ht & Hcr).
  cbn [concat] in Hu. rewrite length_app in Hu.
  unfold pbuf_remove_header. rewrite Hl. cbn [mbind option_bind].
  destruct (Z.ltb_spec 65535 n); [lia|]. destruct (Z.eqb_spec n 0) as [->|].
  { exists h, b. split; [done|]. split; [exact Hpk|]. split; [done|].
    unfold pbuf_add_header_impl. by rewrite Hl. }
  rewrite (u16_id n) by (unfold is_u16; lia).
  destruct (Z.leb_spec n (len b)); [|lia].
  assert (exists blk off, payload b = Some (blk, off) /\ 0 <= off) as (blk & off & Epl & Hoff).
  { unfold mem_read in Hr. destruct (Z.eqb_spec (len b) 0); [lia|].
    destruct (payload b) as [[blk off]|]; [|done]. exists blk, off. split; [done|].
    simpl in Hr. destruct (h_mem h !! blk) as [x|]; [|done]. simpl in Hr.
    destruct (Z.leb_spec 0 off); [done|]. by simpl in Hr. }
  cbn [set_tot_len set_len set_payload payload len tot_len].
  rewrite (u16_id (tot_len b - n)), (u16_id (len b - n)) by (unfold is_u16; lia).
  eexists _, (set_tot_len (tot_len b - n) (set_len (len b - n)
    (set_payload (ptr_add (payload b) n) b))).
  split; [done|]. split_and!; [|done|].
  - split; [|split; [done|]].
    + apply chain_cons_intro.
      * simpl. by rewrite lookup_insert_eq.
      * cbn [set_tot_len set_len set_payload payload len].
        rewrite (mem_read_frame h) by done.
        rewrite (mem_read_sub h _ _ _ n (len b - n) Hr) by lia.
        rewrite take_ge; [done|]. rewrite length_drop. lia.
      * cbn. lia.
      * cbn [set_tot_len set_len set_payload tot_len len]. rewrite length_app, length_drop. lia.
      * apply chain_store; [done|]. cbn [fmap list_fmap fst] in Hnd. by apply NoDup_cons in Hnd as [? _].
    + cbn [concat]. rewrite length_app, length_drop. unfold is_u16. lia.
  - unfold pbuf_add_header_impl. cbn [h_pbufs store set_pbufs]. rewrite lookup_insert_eq.
    cbn [mbind option_bind set_tot_len set_len set_payload tot_len len payload type_internal].
    destruct (Z.ltb_spec 65535 n); [lia|]. destruct (Z.eqb_spec n 0); [lia|].
    rewrite !(u16_id n) by (unfold is_u16; lia).
    rewrite (u16_id (n + _)) by (unfold is_u16; lia).
    destruct (Z.ltb_spec (n + (tot_len b - n)) n); [lia|].
    rewrite Epl. cbn [ptr_add mbind option_bind].
    assert (store l (set_tot_len (u16 (tot_len b - n + n)) (set_len (u16 (len b - n + n))
      (set_payload (Some (blk, off + n + - n)) (set_tot_len (tot_len b - n)
        (set_len (len b - n) (set_payload (Some (blk, off + n)) b))))))
      (store l (set_tot_len (tot_len b - n)
        (set_len (len b - n) (set_payload (Some (blk, off + n)) b))) h) = h) as Hback.
    { unfold store, set_pbufs. simpl. rewrite insert_insert_eq, insert_id; [by destruct h|].
      rewrite !u16_id by (unfold is_u16; lia). rewrite Hl. f_equal. destruct b.
      unfold set_tot_len, set_len, set_payload. cbn in *. subst. f_equal; [do 2 f_equal; lia|lia..]. }
    destruct (Z.ltb_spec (off + n + - n) 0); [lia|].
    cbn in Hback |- *. destruct Hforce as [-> | ->]; [|destruct (flagset _ _)]; by rewrite Hback.
Qed.

Lemma pbuf_header_round_trip_witness :
  exists h' b', pbuf_remove_header 1 2 example_heap = Some (h', 0) /\
    packet h' (Some 1%positive) ((1%positive, b') :: tail example_bs) [[12]; [13; 10]] /\
    pbuf_add_header 1 2 h' = Some (example_heap, 0).
Proof.
  destruct (pbuf_header_round_trip example_heap 1
    (Pbuf (Some 2%positive) (Some (1%positive, 0)) 5 3 130 0 1 0) (tail example_bs)
    [10; 11; 12] [[13; 10]] 2 false example_packet) as (h' & b' & E & Hp & _ & Ea).
  - vm_compute. split; congruence.
  - left. vm_compute. reflexivity.
  - exists h', b'. split; [exact E|]. split; [exact Hp|exact Ea].
Defined.

Definition match_at (data pat : list Z) (i : Z) : Prop :=
  take (length pat) (drop (Z.to_nat i) data) = pat.

Lemma memfind_loop_spec h l bs ds pat M : forall fuel i,
  packet h (Some l) bs ds -> bytes_ok (concat ds) ->
  Z.of_nat (length pat) + M = Z.of_nat (length (concat ds)) -> M < 65535 ->
  0 <= i -> i <= M + 1 -> (Z.to_nat (M + 1 - i) < fuel)%nat ->
  exists r, pbuf_memfind_loop fuel l pat i M h = Some r /\
    (r = 65535 /\ (forall k, i <= k <= M -> ~ match_at (concat ds) pat k) \/
     i <= r <= M /\ match_at (concat ds) pat r /\
       forall k, i <= k < r -> ~ match_at (concat ds) pat k).
Proof.
  induction fuel as [|fuel IH]; intros i Hp Hb HM HM2 Hi Hi2 Hf; [lia|].
  cbn [pbuf_memfind_loop]. destruct (Z.leb_spec i M).
  - destruct (memcmp_spec h (Some l) bs ds l i pat) as (c & -> & Hc); [done..|unfold is_u16; lia|].
    cbn [mbind option_bind]. destruct (Z.eqb_spec c 0) as [->|Hne].
    + exists i. split; [done|]. right. split; [lia|]. split; [by apply Hc|]. intros; lia.
    + rewrite u16_id by (unfold is_u16; lia).
      assert (~ match_at (concat ds) pat i) as Hno by (intros Hm; apply Hne, Hc; split; [done|lia]).
      destruct (IH (i + 1)) as (r & -> & Hr); [done|done|done|lia..|].
      exists r. split; [done|].
      destruct Hr as [[-> Hr]|(H1 & H2 & H3)]; [left|right]; split_and!; try done; try lia;
        intros k Hk; destruct (decide (k = i)) as [->|]; try done; [apply Hr|apply H3]; lia.
  - exists 65535. split; [done|]. left. split; [done|]. intros; lia.
Qed.

(** [pbuf_memfind] returns the first position at or after [start_offset]
    where the (non-empty) pattern occurs in the packet, across pbuf
    boundaries, and 0xFFFF exactly when there is none. *)
Theorem pbuf_memfind_first h l bs ds pat start :
  packet h (Some l) bs ds -> bytes_ok (concat ds) -> pat <> [] -> 0 <= start ->
  exists r, pbuf_memfind l pat start h = Some r /\
    (r = 65535 /\ (forall k, start <= k -> ~ match_at (concat ds) pat k) \/
     start <= r < 65535 /\ match_at (concat ds) pat r /\
       forall k, start <= k < r -> ~ match_at (concat ds) pat k).
Proof.
  intros Hp Hb Hne Hs. pose proof Hp as (Hc & Hnd & Hu). unfold is_u16 in Hu.
  destruct bs as [|[k b] bs]; [by destruct ds|]. destruct ds as [|d ds]; [done|].
  pose proof (chain_cons _ _ _ _ _ _ _ Hc) as ([= <-] & Hl & _ & _ & Hd & Ht & _).
  assert (tot_len b = Z.of_nat (length (concat (d :: ds)))) as Etot
    by (cbn [concat]; rewrite length_app; lia).
  assert (0 < length pat)%nat by (destruct pat; simpl; [done|lia]).
  assert (forall k, Z.of_nat (length (concat (d :: ds))) < k + Z.of_nat (length pat) -> 0 <= k ->
    ~ match_at (concat (d :: ds)) pat k) as Hover.
  { intros k Hk Hk0 Hm. apply (f_equal length) in Hm.
    rewrite length_take, length_drop in Hm. lia. }
  unfold pbuf_memfind. rewrite Hl. cbn [mbind option_bind]. rewrite Etot.
  destruct (Z.leb_spec (Z.of_nat (length pat) + start) (Z.of_nat (length (concat (d :: ds))))).
  - rewrite u16_id by (unfold is_u16; lia). set (M := _ - _).
    destruct (memfind_loop_spec h l _ _ pat M (S (S (Z.to_nat M))) start Hp Hb) as (r & -> & Hr);
      [lia..|].
    exists r. split; [done|]. destruct Hr as [[-> Hr]|(H1 & H2 & H3)]; [left|right].
    + split; [done|]. intros k Hk. destruct (Z.le_gt_cases k M); [by apply Hr; lia|].
      apply Hover; lia.
    + split_and!; try done; lia.
  - exists 65535. split; [done|]. left. split; [done|]. intros k Hk. apply Hover; lia.
Qed.

Lemma pbuf_memfind_first_witness : pbuf_memfind 1 [12; 13] 1 example_heap = Some 2.
Proof.
  destruct (pbuf_memfind_first example_heap 1 example_bs example_ds [12; 13] 1 example_packet)
    as (r & E & H).
  - repeat constructor; vm_compute; congruence.
  - discriminate.
  - vm_compute. congruence.
  - rewrite E. f_equal. vm_compute in E. congruence.
Defined.
