(* ===== verification/Packet.v ===== *)
(** * Packets above the buffer layer

    The protocols above pbuf.c use a pbuf chain as a sequence of octets cut into
    pieces.  A [pkt] is what they see of a chain they own alone: the octets in
    front of the payload of the first pbuf (the room for headers, or headers that
    were hidden), the octets of each pbuf, and whether the first pbuf is allocated
    together with its payload ([PBUF_RAM], [PBUF_POOL]) so that
    [pbuf_add_header] may move into that room.  PbufSpec shows that the functions
    of pbuf.c act on the heap the way these act on a [pkt]; [represents] is
    the relation between the two. *)

From S2P Require Import Prelude Def Pbuf.

Record pkt := Pkt { pk_room : list Z; pk_chunks : list (list Z); pk_contig : bool }.

#[export] Instance eta_pkt : EtaRecord pkt := fun k =>
  Pkt (pk_room k) (pk_chunks k) (pk_contig k).

Definition pk_octets (k : pkt) : list Z := concat (pk_chunks k).

(** [p->len], [p->tot_len] and [pbuf_clen(p)]. *)
Definition pk_len (k : pkt) : Z := Z.of_nat (length (hd [] (pk_chunks k))).
Definition pk_tot_len (k : pkt) : Z := u16 (Z.of_nat (length (pk_octets k))).
Definition pk_clen (k : pkt) : Z := u16 (Z.of_nat (length (pk_chunks k))).

(** [pbuf_remove_header] with [n] at most 65535: hide the first [n] octets. *)
Definition pk_remove_header (n : Z) (k : pkt) : option pkt :=
  match pk_chunks k with
  | c :: r =>
      lwip_assert (n <=? Z.of_nat (length c));
      Some (Pkt (pk_room k ++ take (Z.to_nat n) c) (drop (Z.to_nat n) c :: r) (pk_contig k))
  | [] => None
  end.

(** [pbuf_add_header] and [pbuf_header_force]: [None] is failure, the pbuf
    is left alone. *)
Definition pk_add_header_impl (force : bool) (n : Z) (k : pkt) : option pkt :=
  match pk_chunks k with
  | c :: r =>
      if (pk_contig k || force) && (Z.to_nat n <=? length (pk_room k))%nat
      then let m := (length (pk_room k) - Z.to_nat n)%nat in
           Some (Pkt (take m (pk_room k)) ((drop m (pk_room k) ++ c) :: r) (pk_contig k))
      else None
  | [] => None
  end.
Definition pk_add_header := pk_add_header_impl false.
Definition pk_header_force := pk_add_header_impl true.

(** [pbuf_realloc]: pbufs that stay whole, then one that is cut. *)
Fixpoint trunc_chunks (rem : Z) (cs : list (list Z)) : list (list Z) :=
  match cs with
  | [] => []
  | c :: r =>
      if Z.of_nat (length c) <? rem then c :: trunc_chunks (rem - Z.of_nat (length c)) r
      else [take (Z.to_nat rem) c]
  end.

Definition pk_realloc (n : Z) (k : pkt) : pkt :=
  if pk_tot_len k <=? n then k
  else Pkt (pk_room k) (trunc_chunks n (pk_chunks k)) (pk_contig k).

(** [pbuf_cat]: the room in front of the tail is out of reach afterwards. *)
Definition pk_cat (h t : pkt) : pkt :=
  Pkt (pk_room h) (pk_chunks h ++ pk_chunks t) (pk_contig h).

(** [pbuf_copy]: the octets of the source over the first ones of the target. *)
Fixpoint fill_chunks (cs : list (list Z)) (l : list Z) : list (list Z) :=
  match cs with
  | [] => []
  | c :: r => (take (length c) l ++ drop (length l) c) :: fill_chunks r (drop (length c) l)
  end.

Definition pk_copy (to from : pkt) : option pkt :=
  lwip_assert (pk_tot_len from <=? pk_tot_len to);
  Some (Pkt (pk_room to) (fill_chunks (pk_chunks to) (pk_octets from)) (pk_contig to)).

(** Stores of [l] at offset [off] of the first pbuf's payload. *)
Definition pk_write (off : nat) (l : list Z) (k : pkt) : option pkt :=
  match pk_chunks k with
  | c :: r =>
      lwip_assert (off + length l <=? length c)%nat;
      Some (Pkt (pk_room k) ((take off c ++ l ++ drop (off + length l) c) :: r) (pk_contig k))
  | [] => None
  end.

(** Loads of octets and of 16- and 32-bit words of a structure overlaid on
    memory, on a little-endian machine. *)
Definition ld8 (l : list Z) (o : nat) : Z := nth o l 0.
Definition ld16 (l : list Z) (o : nat) : Z := ld8 l o + 256 * ld8 l (o + 1).
Definition ld32 (l : list Z) (o : nat) : Z := ld16 l o + 65536 * ld16 l (o + 2).

(** The octets a store of such a word writes. *)
Definition st16 (v : Z) : list Z := [v mod 256; v / 256 mod 256].
Definition st32 (v : Z) : list Z := st16 (v mod 65536) ++ st16 (v / 65536).

(** The chain at [p] on the heap holds the octets of [k]. *)
Definition represents (h : heap) (p : loc) (k : pkt) : Prop :=
  exists bs, packet h (Some p) bs (pk_chunks k).

(** ** Lemmas *)

Lemma concat_trunc cs : forall rem,
  0 <= rem -> rem <= Z.of_nat (length (concat cs)) ->
  concat (trunc_chunks rem cs) = take (Z.to_nat rem) (concat cs).
Proof.
  induction cs as [|c cs IH]; intros rem H0 H; [by destruct (Z.to_nat rem)|].
  cbn [trunc_chunks concat] in *. rewrite length_app in H.
  destruct (Z.ltb_spec (Z.of_nat (length c)) rem).
  - cbn [concat]. rewrite IH by lia. rewrite take_app_ge by lia. do 2 f_equal. lia.
  - cbn [concat]. rewrite app_nil_r, take_app_le by lia. done.
Qed.

Lemma pk_octets_cat h t : pk_octets (pk_cat h t) = pk_octets h ++ pk_octets t.
Proof. unfold pk_octets, pk_cat. simpl. by rewrite concat_app. Qed.

Lemma pk_remove_header_octets n k k' :
  pk_remove_header n k = Some k' ->
  pk_octets k' = drop (Z.to_nat n) (pk_octets k) /\ length (pk_chunks k') = length (pk_chunks k).
Proof.
  unfold pk_remove_header, pk_octets. destruct (pk_chunks k) as [|c r]; [done|].
  destruct (Z.leb_spec n (Z.of_nat (length c))); [|done]. intros [= <-]. simpl.
  rewrite drop_app_le by lia. done.
Qed.

Lemma pk_remove_header_total n k :
  pk_chunks k <> [] -> n <= pk_len k -> exists k', pk_remove_header n k = Some k'.
Proof.
  unfold pk_remove_header, pk_len. destruct (pk_chunks k) as [|c r]; [done|]. simpl.
  intros _ H. rewrite (proj2 (Z.leb_le _ _)) by lia. eauto.
Qed.

(** Hiding a header and moving back to it. *)
Lemma pk_header_round_trip n k k' :
  0 <= n -> pk_remove_header n k = Some k' -> pk_header_force n k' = Some k.
Proof.
  intros Hn. unfold pk_remove_header, pk_header_force, pk_add_header_impl.
  destruct k as [room [|c r] ct]; [done|]. simpl.
  destruct (Z.leb_spec n (Z.of_nat (length c))); [|done]. intros [= <-]. simpl.
  rewrite orb_true_r, length_app, length_take. cbn [andb].
  destruct (Nat.leb_spec (Z.to_nat n) (length room + Nat.min (Z.to_nat n) (length c))); [|lia].
  replace (length room + Nat.min (Z.to_nat n) (length c) - Z.to_nat n)%nat with (length room) by lia.
  by rewrite take_app_length, drop_app_length, take_drop.
Qed.

Lemma st16_ok v : bytes_ok (st16 v).
Proof. unfold st16. repeat constructor; word_lia. Qed.

Lemma st32_ok v : bytes_ok (st32 v).
Proof. apply Forall_app; split; apply st16_ok. Qed.

Lemma ld16_app l1 l2 o : (o + 2 <= length l1)%nat -> ld16 (l1 ++ l2) o = ld16 l1 o.
Proof. intros. unfold ld16, ld8. by rewrite !app_nth1 by lia. Qed.

#[export] Hint Resolve st16_ok st32_ok : lwip.

(** A packet as it lies in memory: at least one pbuf, and lengths that fit the
    [u16_t] fields of the pbufs, with the room in front counted. *)
Definition pk_fits (k : pkt) : Prop :=
  pk_chunks k <> [] /\ Z.of_nat (length (pk_room k) + length (hd [] (pk_chunks k))) < 65536 /\
  Forall (fun c => Z.of_nat (length c) < 65536) (pk_chunks k).

Ltac fits_cases k :=
  let room := fresh "room" in let c := fresh "c" in let r := fresh "r" in let ct := fresh "ct" in
  destruct k as [room [|c r] ct]; [done|]; cbn [pk_room pk_chunks pk_contig hd] in *.

Lemma pk_remove_header_fits n k k' : pk_fits k -> pk_remove_header n k = Some k' -> pk_fits k'.
Proof.
  intros (Hn & Hr & Hc). unfold pk_remove_header. fits_cases k.
  destruct (Z.leb_spec n (Z.of_nat (length c))); [|done]. intros [= <-].
  apply Forall_cons in Hc as [? ?]. split; [done|]. cbn [pk_room pk_chunks hd].
  rewrite length_app, length_take, length_drop. split; [lia|].
  constructor; [rewrite length_drop; lia|done].
Qed.

Lemma pk_write_fits o l k k' : pk_fits k -> pk_write o l k = Some k' -> pk_fits k'.
Proof.
  intros (Hn & Hr & Hc). unfold pk_write. fits_cases k.
  destruct (Nat.leb_spec (o + length l) (length c)); [|done]. intros [= <-].
  apply Forall_cons in Hc as [? ?].
  assert (Hl : length (take o c ++ l ++ drop (o + length l) c) = length c)
    by (rewrite !length_app, length_take, length_drop; lia).
  split; [done|]. cbn [pk_room pk_chunks hd]. rewrite Hl. split; [done|].
  by constructor; [rewrite Hl|].
Qed.

Lemma pk_add_header_fits f n k k' : pk_fits k -> pk_add_header_impl f n k = Some k' -> pk_fits k'.
Proof.
  intros (Hn & Hr & Hc). unfold pk_add_header_impl. fits_cases k.
  destruct (_ && _) eqn:E; [|done]. apply andb_true_iff in E as [_ E%Nat.leb_le]. intros [= <-].
  apply Forall_cons in Hc as [? ?]. split; [done|]. cbn [pk_room pk_chunks hd].
  rewrite length_app, length_take, length_drop. split; [lia|].
  constructor; [rewrite length_app, length_drop; lia|done].
Qed.

Lemma pk_cat_fits h t : pk_fits h -> pk_fits t -> pk_fits (pk_cat h t).
Proof.
  intros (Hn & Hr & Hc) (_ & _ & Ht). unfold pk_cat. fits_cases h.
  split; [done|]. split; [done|]. by apply Forall_app.
Qed.

Lemma trunc_chunks_small cs : forall n, Forall (fun c => Z.of_nat (length c) < 65536) cs ->
  Forall (fun c => Z.of_nat (length c) < 65536) (trunc_chunks n cs).
Proof.
  induction cs as [|c cs IH]; intros n H; [done|]. apply Forall_cons in H as [? ?].
  cbn [trunc_chunks]. destruct (_ <? _); constructor; [done|auto| |done].
  rewrite length_take. lia.
Qed.

Lemma pk_realloc_fits n k : pk_fits k -> pk_fits (pk_realloc n k).
Proof.
  intros Hk. unfold pk_realloc. destruct (_ <=? _); [done|]. destruct Hk as (Hn & Hr & Hc).
  pose proof (trunc_chunks_small _ n Hc) as Ht. fits_cases k. split.
  - cbn [pk_chunks trunc_chunks]. by destruct (_ <? _).
  - split; [|done]. cbn [pk_room pk_chunks trunc_chunks]. destruct (_ <? _); cbn [hd]; [done|].
    rewrite length_take. lia.
Qed.

#[export] Hint Resolve pk_remove_header_fits pk_write_fits pk_add_header_fits pk_cat_fits
  pk_realloc_fits : lwip.
