(* ===== verification/Nd6Defs.v ===== *)
(** * Neighbor discovery: the data (core/c/include/lwip/priv/nd6_priv.h, prot/nd6.h, nd6.h)

    The tables of nd6.c.  A pointer to an interface is the address of its struct, a
    pointer to an entry of the neighbor cache is its index. *)

From S2P Require Import Prelude Def IpAddr NetifDefs Ip6Addr Packet.

Definition LWIP_ND6_NUM_NEIGHBORS : nat := 10.
Definition LWIP_ND6_NUM_DESTINATIONS : nat := 10.
Definition LWIP_ND6_NUM_PREFIXES : nat := 5.
Definition LWIP_ND6_NUM_ROUTERS : nat := 3.
Definition LWIP_ND6_MAX_MULTICAST_SOLICIT : Z := 3.
Definition LWIP_ND6_REACHABLE_TIME : Z := 30000.
Definition LWIP_ND6_RETRANS_TIMER : Z := 1000.
Definition LWIP_ND6_DELAY_FIRST_PROBE_TIME : Z := 5000.
Definition LWIP_IPV6_DUP_DETECT_ATTEMPTS : Z := 1.
Definition ND6_TMR_INTERVAL : Z := 1000.
Definition ND6_RTR_SOLICITATION_INTERVAL : Z := 4000.
Definition ND6_HOPLIM : Z := 255.
Definition ND6_2HRS : Z := 7200.
Definition NETIF_MAX_HWADDR_LEN : Z := 6.

(** ** The tables *)

Inductive nd6_neighbor_cache_entry_state :=
  ND6_NO_ENTRY | ND6_INCOMPLETE | ND6_REACHABLE | ND6_STALE | ND6_DELAY | ND6_PROBE.

#[export] Instance nd6_neighbor_cache_entry_state_eq_dec : EqDecision nd6_neighbor_cache_entry_state.
Proof. solve_decision. Defined.

(** [counter] is a union of words: one word. *)
Record nd6_neighbor_cache_entry := Neighbor {
  nc_next_hop_address : ip6_addr;
  nc_netif : option Z;
  nc_lladdr : list Z;
  nc_q : list pkt;
  nc_state : nd6_neighbor_cache_entry_state;
  nc_isrouter : bool;
  nc_counter : Z
}.
#[export] Instance eta_neighbor : EtaRecord nd6_neighbor_cache_entry := fun e =>
  Neighbor (nc_next_hop_address e) (nc_netif e) (nc_lladdr e) (nc_q e) (nc_state e) (nc_isrouter e) (nc_counter e).

Record nd6_destination_cache_entry := Destination {
  dc_destination_addr : ip6_addr;
  dc_next_hop_addr : ip6_addr;
  dc_pmtu : Z;
  dc_age : Z
}.
#[export] Instance eta_destination : EtaRecord nd6_destination_cache_entry := fun e =>
  Destination (dc_destination_addr e) (dc_next_hop_addr e) (dc_pmtu e) (dc_age e).

Record nd6_prefix_list_entry := Prefix {
  pl_prefix : ip6_addr;
  pl_netif : option Z;
  pl_invalidation_timer : Z
}.
#[export] Instance eta_prefix : EtaRecord nd6_prefix_list_entry := fun e =>
  Prefix (pl_prefix e) (pl_netif e) (pl_invalidation_timer e).

Record nd6_router_list_entry := Router {
  dr_neighbor_entry : option nat;
  dr_invalidation_timer : Z;
  dr_flags : Z
}.
#[export] Instance eta_router : EtaRecord nd6_router_list_entry := fun e =>
  Router (dr_neighbor_entry e) (dr_invalidation_timer e) (dr_flags e).

(** The variables of nd6.c. *)
Record nd6_data := Nd6Data {
  neighbor_cache : list nd6_neighbor_cache_entry;
  destination_cache : list nd6_destination_cache_entry;
  prefix_list : list nd6_prefix_list_entry;
  default_router_list : list nd6_router_list_entry;
  reachable_time : Z;
  retrans_timer : Z;
  nd6_cached_neighbor_index : nat;
  nd6_cached_destination_index : nat;
  nd6_tmr_rs_reduction : Z;
  last_router : nat
}.
#[export] Instance eta_nd6_data : EtaRecord nd6_data := fun d =>
  Nd6Data (neighbor_cache d) (destination_cache d) (prefix_list d) (default_router_list d) (reachable_time d)
    (retrans_timer d) (nd6_cached_neighbor_index d) (nd6_cached_destination_index d) (nd6_tmr_rs_reduction d)
    (last_router d).

(** Static storage is zero. *)
Definition no_neighbor : nd6_neighbor_cache_entry :=
  Neighbor ip6_addr_zero None (repeat 0 6) [] ND6_NO_ENTRY false 0.
Definition nd6_initial : nd6_data :=
  Nd6Data (repeat no_neighbor LWIP_ND6_NUM_NEIGHBORS)
    (repeat (Destination ip6_addr_zero ip6_addr_zero 0 0) LWIP_ND6_NUM_DESTINATIONS)
    (repeat (Prefix ip6_addr_zero None 0) LWIP_ND6_NUM_PREFIXES)
    (repeat (Router None 0 0) LWIP_ND6_NUM_ROUTERS)
    LWIP_ND6_REACHABLE_TIME LWIP_ND6_RETRANS_TIMER 0 0 0 0.

(** ** Messages *)

Definition ND6_FLAG_SOLICITED : Z := 64.
Definition ND6_FLAG_OVERRIDE : Z := 32.
Definition ND6_SEND_FLAG_MULTICAST_DEST : Z := 1.
Definition ND6_SEND_FLAG_ALLNODES_DEST : Z := 2.
Definition ND6_SEND_FLAG_ANY_SRC : Z := 4.
Definition ND6_OPTION_TYPE_SOURCE_LLADDR : Z := 1.
Definition ND6_OPTION_TYPE_TARGET_LLADDR : Z := 2.
Definition ND6_OPTION_TYPE_PREFIX_INFO : Z := 3.
Definition ND6_OPTION_TYPE_MTU : Z := 5.
Definition ND6_OPTION_TYPE_ROUTE_INFO : Z := 24.
Definition ND6_OPTION_TYPE_RDNSS : Z := 25.
Definition ND6_PREFIX_FLAG_ON_LINK : Z := 128.
Definition ND6_PREFIX_FLAG_AUTONOMOUS : Z := 64.

(** The sizes of the structs. *)
Definition NA_HLEN : Z := 24.                   (* struct na_header *)
Definition NS_HLEN : Z := 24.                   (* struct ns_header *)
Definition RS_HLEN : Z := 8.                    (* struct rs_header *)
Definition RA_HLEN : Z := 16.                   (* struct ra_header *)
Definition RD_HLEN : Z := 40.                   (* struct redirect_header *)
Definition LLADDR_OPTION_LEN : Z := 8.          (* struct lladdr_option *)
Definition MTU_OPTION_LEN : Z := 8.             (* struct mtu_option *)
Definition PREFIX_OPTION_LEN : Z := 32.         (* struct prefix_option *)
Definition RA_BUFFER_LEN : Z := 32.             (* union ra_options *)
