(* ===== verification/IpHdr.v ===== *)
(** * The IPv4 header (core/c/include/lwip/prot/ip4.h)

    [struct ip_hdr] as the code uses it: overlaid on the first octets of a
    packet, with multi-octet fields in network byte order, so that the value of a
    field is the byte-swapped number on the little-endian machines of the
    port. *)

From S2P Require Import Prelude Def IpAddr Packet.

Definition IP_HLEN : Z := 20.
Definition IP_HLEN_MAX : Z := 60.
Definition IP_RF : Z := 32768.
Definition IP_DF : Z := 16384.
Definition IP_MF : Z := 8192.
Definition IP_OFFMASK : Z := 8191.

Definition IP_PROTO_ICMP : Z := 1.
Definition IP_PROTO_UDP : Z := 17.
Definition IP_PROTO_TCP : Z := 6.

Record ip_hdr := IpHdr {
  _v_hl : Z; _tos : Z; _len : Z; _id : Z; _offset : Z; _ttl : Z; _proto : Z; _chksum : Z;
  iph_src : Z; iph_dest : Z
}.

#[export] Instance eta_ip_hdr : EtaRecord ip_hdr := fun h =>
  IpHdr (_v_hl h) (_tos h) (_len h) (_id h) (_offset h) (_ttl h) (_proto h) (_chksum h)
    (iph_src h) (iph_dest h).

(** The overlay: reading the structure from memory, and its octets. *)
Definition ip_hdr_of (l : list Z) : ip_hdr :=
  IpHdr (ld8 l 0) (ld8 l 1) (ld16 l 2) (ld16 l 4) (ld16 l 6) (ld8 l 8) (ld8 l 9) (ld16 l 10)
    (ld32 l 12) (ld32 l 16).

Definition ip_hdr_octets (h : ip_hdr) : list Z :=
  [_v_hl h; _tos h] ++ st16 (_len h) ++ st16 (_id h) ++ st16 (_offset h) ++ [_ttl h; _proto h]
  ++ st16 (_chksum h) ++ st32 (iph_src h) ++ st32 (iph_dest h).

Definition IPH_V (h : ip_hdr) : Z := Z.shiftr (_v_hl h) 4.
Definition IPH_HL (h : ip_hdr) : Z := Z.land (_v_hl h) 15.
Definition IPH_HL_BYTES (h : ip_hdr) : Z := u8 (IPH_HL h * 4).
Definition IPH_OFFSET_BYTES (h : ip_hdr) : Z :=
  u16 (Z.land (lwip_htons (_offset h)) IP_OFFMASK * 8).
Definition IPH_VHL (v hl : Z) : Z := u8 (Z.lor (Z.shiftl v 4) hl).

(** Fields in range. *)
Definition ip_hdr_ok (h : ip_hdr) : Prop :=
  is_u8 (_v_hl h) /\ is_u8 (_tos h) /\ is_u16 (_len h) /\ is_u16 (_id h) /\ is_u16 (_offset h) /\
  is_u8 (_ttl h) /\ is_u8 (_proto h) /\ is_u16 (_chksum h) /\ is_u32 (iph_src h) /\
  is_u32 (iph_dest h).

(** ** Lemmas *)

Lemma ip_hdr_octets_length h : length (ip_hdr_octets h) = 20%nat.
Proof. done. Qed.

Lemma ip_hdr_octets_ok h : ip_hdr_ok h -> bytes_ok (ip_hdr_octets h).
Proof.
  intros (?&?&?&?&?&?&?&?&?&?). unfold ip_hdr_octets, st32, st16. cbn [app].
  repeat constructor; word_lia.
Qed.

(** Storing a header and loading it again. *)
Lemma ip_hdr_of_octets h r : ip_hdr_ok h -> ip_hdr_of (ip_hdr_octets h ++ r) = h.
Proof.
  intros (?&?&?&?&?&?&?&?&?&?). destruct h. unfold ip_hdr_of, ip_hdr_octets, st32, st16, ld32, ld16, ld8.
  cbn [app nth Nat.add] in *. cbn [_v_hl _tos _len _id _offset _ttl _proto _chksum iph_src iph_dest] in *.
  f_equal; word_lia.
Qed.

Lemma ip_hdr_of_ok l : bytes_ok l -> ip_hdr_ok (ip_hdr_of l).
Proof.
  intros Hl. assert (forall o, is_u8 (ld8 l o)) as H8.
  { intros o. unfold ld8. destruct (nth_in_or_default o l 0) as [Hi| ->]; [|done].
    rewrite Forall_forall in Hl. apply Hl. by apply list_elem_of_In. }
  assert (forall o, is_u16 (ld16 l o)) as H16.
  { intros o. unfold ld16. pose proof (H8 o). pose proof (H8 (o + 1)%nat). word_lia. }
  assert (forall o, is_u32 (ld32 l o)) as H32.
  { intros o. unfold ld32. pose proof (H16 o). pose proof (H16 (o + 2)%nat). word_lia. }
  repeat split; try apply H8; try apply H16; apply H32.
Qed.

Lemma ip_hdr_of_app l r : (20 <= length l)%nat -> ip_hdr_of (l ++ r) = ip_hdr_of l.
Proof.
  intros H. unfold ip_hdr_of, ld32, ld16, ld8. by rewrite !app_nth1 by lia.
Qed.
