(* ===== verification/Ip6Hdr.v ===== *)
(** * The IPv6 headers (core/c/include/lwip/prot/ip6.h)

    [struct ip6_hdr] and [struct ip6_frag_hdr], overlaid on the octets of a packet,
    and the values of the fields of the other extension headers. *)

From S2P Require Import Prelude Def IpAddr Packet.

Definition IP6_HLEN : Z := 40.

Definition IP6_NEXTH_HOPBYHOP : Z := 0.
Definition IP6_NEXTH_TCP : Z := 6.
Definition IP6_NEXTH_UDP : Z := 17.
Definition IP6_NEXTH_ROUTING : Z := 43.
Definition IP6_NEXTH_FRAGMENT : Z := 44.
Definition IP6_NEXTH_ICMP6 : Z := 58.
Definition IP6_NEXTH_NONE : Z := 59.
Definition IP6_NEXTH_DESTOPTS : Z := 60.

(** The addresses are the packed [ip6_addr_p_t]: four words, no zone. *)
Record ip6_hdr := Ip6Hdr {
  _v_tc_fl : Z; _plen : Z; _nexth : Z; _hoplim : Z; ip6h_src : list Z; ip6h_dest : list Z
}.

#[export] Instance eta_ip6_hdr : EtaRecord ip6_hdr := fun h =>
  Ip6Hdr (_v_tc_fl h) (_plen h) (_nexth h) (_hoplim h) (ip6h_src h) (ip6h_dest h).

Definition ld_words (l : list Z) (o : nat) : list Z :=
  [ld32 l o; ld32 l (o + 4); ld32 l (o + 8); ld32 l (o + 12)].
Definition words_octets (ws : list Z) : list Z := concat (map st32 ws).

Definition ip6_hdr_of (l : list Z) : ip6_hdr :=
  Ip6Hdr (ld32 l 0) (ld16 l 4) (ld8 l 6) (ld8 l 7) (ld_words l 8) (ld_words l 24).

Definition ip6_hdr_octets (h : ip6_hdr) : list Z :=
  st32 (_v_tc_fl h) ++ st16 (_plen h) ++ [_nexth h; _hoplim h] ++
  words_octets (ip6h_src h) ++ words_octets (ip6h_dest h).

Definition IP6H_V (h : ip6_hdr) : Z := Z.land (Z.shiftr (lwip_htonl (_v_tc_fl h)) 28) 15.
Definition IP6H_TC (h : ip6_hdr) : Z := Z.land (Z.shiftr (lwip_htonl (_v_tc_fl h)) 20) 255.
Definition IP6H_FL (h : ip6_hdr) : Z := Z.land (lwip_htonl (_v_tc_fl h)) 1048575.
Definition IP6H_PLEN (h : ip6_hdr) : Z := lwip_htons (_plen h).

(** [IP6H_VTCFL_SET]: what is stored. *)
Definition IP6H_VTCFL (v tc fl : Z) : Z :=
  lwip_htonl (Z.lor (Z.lor (u32 (Z.shiftl v 28)) (Z.shiftl tc 20)) fl).

(** [ip6_addr_copy_from_packed]: no zone. *)
Definition from_packed (ws : list Z) : ip6_addr := Ip6Addr ws IP6_NO_ZONE.

(** ** Extension headers *)

Definition IP6_PAD1_OPTION : Z := 0.
Definition IP6_PADN_OPTION : Z := 1.
Definition IP6_ROUTER_ALERT_OPTION : Z := 5.
Definition IP6_JUMBO_OPTION : Z := 194.
Definition IP6_HOME_ADDRESS_OPTION : Z := 201.
Definition IP6_OPT_HLEN : Z := 2.
Definition IP6_OPT_TYPE_ACTION (type : Z) : Z := Z.land (Z.shiftr type 6) 3.
Definition IP6_HBH_HLEN : Z := 2.
Definition IP6_DEST_HLEN : Z := 2.
Definition IP6_ROUT_TYPE2 : Z := 2.
Definition IP6_ROUT_RPL : Z := 3.
Definition IP6_FRAG_HLEN : Z := 8.
Definition IP6_FRAG_OFFSET_MASK : Z := 65528.
Definition IP6_FRAG_MORE_FLAG : Z := 1.

Record ip6_frag_hdr := Ip6FragHdr {
  fh_nexth : Z; fh_reserved : Z; _fragment_offset : Z; _identification : Z
}.

Definition ip6_frag_hdr_of (l : list Z) : ip6_frag_hdr :=
  Ip6FragHdr (ld8 l 0) (ld8 l 1) (ld16 l 2) (ld32 l 4).
Definition ip6_frag_hdr_octets (h : ip6_frag_hdr) : list Z :=
  [fh_nexth h; fh_reserved h] ++ st16 (_fragment_offset h) ++ st32 (_identification h).
Definition IP6_FRAG_MBIT (h : ip6_frag_hdr) : Z := Z.land (lwip_htons (_fragment_offset h)) 1.

(** ** Lemmas *)

Definition words_ok (ws : list Z) : Prop := length ws = 4%nat /\ Forall is_u32 ws.

Definition ip6_hdr_ok (h : ip6_hdr) : Prop :=
  is_u32 (_v_tc_fl h) /\ is_u16 (_plen h) /\ is_u8 (_nexth h) /\ is_u8 (_hoplim h) /\
  words_ok (ip6h_src h) /\ words_ok (ip6h_dest h).

Definition ip6_frag_hdr_ok (h : ip6_frag_hdr) : Prop :=
  is_u8 (fh_nexth h) /\ is_u8 (fh_reserved h) /\ is_u16 (_fragment_offset h) /\ is_u32 (_identification h).

Lemma words_ok_cases ws : words_ok ws -> exists a b c d, ws = [a; b; c; d] /\ is_u32 a /\ is_u32 b /\ is_u32 c /\ is_u32 d.
Proof.
  intros [Hl Hw]. destruct ws as [|a [|b [|c [|d [|]]]]]; try done. rewrite !Forall_cons in Hw.
  exists a, b, c, d. naive_solver.
Qed.

Lemma packed_octets_ok ws : bytes_ok (words_octets ws).
Proof. unfold words_octets. induction ws as [|w ws IH]; [done|]. cbn [map concat]. apply Forall_app. split; [apply st32_ok|done]. Qed.

Lemma words_octets_length ws : length (words_octets ws) = (4 * length ws)%nat.
Proof. unfold words_octets. induction ws as [|w ws IH]; [done|]. cbn [map concat length]. rewrite length_app, IH. cbn. lia. Qed.

Lemma ip6_hdr_octets_length h : ip6_hdr_ok h -> length (ip6_hdr_octets h) = 40%nat.
Proof.
  intros (_ & _ & _ & _ & [Hs _] & [Hd _]). unfold ip6_hdr_octets. rewrite !length_app, !words_octets_length, Hs, Hd. done.
Qed.

Lemma ip6_hdr_octets_ok h : ip6_hdr_ok h -> bytes_ok (ip6_hdr_octets h).
Proof.
  intros (?&?&?&?&_&_). unfold ip6_hdr_octets. repeat (apply Forall_app; split); auto using packed_octets_ok, st32_ok, st16_ok.
Qed.

Lemma ld8_octet l o : bytes_ok l -> is_u8 (ld8 l o).
Proof.
  intros Hl. unfold ld8. destruct (nth_in_or_default o l 0) as [Hi| ->]; [|done].
  rewrite Forall_forall in Hl. apply Hl. by apply list_elem_of_In.
Qed.

Lemma ld16_word l o : bytes_ok l -> is_u16 (ld16 l o).
Proof. intros Hl. unfold ld16. pose proof (ld8_octet l o Hl). pose proof (ld8_octet l (o + 1) Hl). word_lia. Qed.

Lemma ld32_word l o : bytes_ok l -> is_u32 (ld32 l o).
Proof. intros Hl. unfold ld32. pose proof (ld16_word l o Hl). pose proof (ld16_word l (o + 2) Hl). word_lia. Qed.

Lemma ld_words_ok l o : bytes_ok l -> words_ok (ld_words l o).
Proof. intros Hl. split; [done|]. repeat constructor; try apply ld32_word; done. Qed.

Lemma ip6_hdr_of_ok l : bytes_ok l -> ip6_hdr_ok (ip6_hdr_of l).
Proof. intros Hl. unfold ip6_hdr_ok. cbn. split_and!; auto using ld32_word, ld16_word, ld8_octet, ld_words_ok. Qed.

(** Storing a header and loading it again. *)
Lemma ld32_st32 a r : is_u32 a -> ld32 (st32 a ++ r) 0 = a.
Proof. intros Ha. unfold ld32, ld16, ld8, st32, st16. cbn [app nth Nat.add]. word_lia. Qed.

Lemma ld32_behind a r o : ld32 (st32 a ++ r) (4 + o) = ld32 r o.
Proof. done. Qed.

Lemma ld16_st16 a r : is_u16 a -> ld16 (st16 a ++ r) 0 = a.
Proof. intros Ha. unfold ld16, ld8, st16. cbn [app nth Nat.add]. word_lia. Qed.

Lemma ld_words_octets ws r : words_ok ws -> ld_words (words_octets ws ++ r) 0 = ws.
Proof.
  intros Hw. destruct (words_ok_cases ws Hw) as (a & b & c & d & -> & Ha & Hb & Hc & Hd).
  unfold ld_words, words_octets. cbn [map concat]. rewrite <- !app_assoc.
  rewrite (ld32_st32 a _ Ha). rewrite (ld32_behind a _ 0), (ld32_st32 b _ Hb).
  rewrite (ld32_behind a _ 4), (ld32_behind b _ 0), (ld32_st32 c _ Hc).
  rewrite (ld32_behind a _ 8), (ld32_behind b _ 4), (ld32_behind c _ 0), (ld32_st32 d _ Hd).
  done.
Qed.

Lemma ip6_hdr_of_octets h r : ip6_hdr_ok h -> ip6_hdr_of (ip6_hdr_octets h ++ r) = h.
Proof.
  intros (Hv & Hp & Hn & Hh & Hs & Hd). destruct h as [v p n hl s d]. cbn [_v_tc_fl _plen _nexth _hoplim ip6h_src ip6h_dest] in *.
  unfold ip6_hdr_of, ip6_hdr_octets. cbn [_v_tc_fl _plen _nexth _hoplim ip6h_src ip6h_dest]. rewrite <- !app_assoc.
  pose proof (ld_words_octets s (words_octets d ++ r) Hs) as E1. pose proof (ld_words_octets d r Hd) as E2.
  destruct (words_ok_cases s Hs) as (a & b & c & e & -> & _).
  f_equal; [exact (ld32_st32 v _ Hv)|exact (ld16_st16 p ([n; hl] ++ words_octets [a; b; c; e] ++ words_octets d ++ r) Hp)|exact E1|exact E2].
Qed.

Lemma ip6_frag_hdr_of_octets h r : ip6_frag_hdr_ok h -> ip6_frag_hdr_of (ip6_frag_hdr_octets h ++ r) = h.
Proof.
  intros (Hn & Hr & Ho & Hi). destruct h as [n re o i]. cbn in *. unfold ip6_frag_hdr_of, ip6_frag_hdr_octets.
  cbn [fh_nexth fh_reserved _fragment_offset _identification].
  f_equal; [exact (ld16_st16 o (st32 i ++ r) Ho)|exact (ld32_st32 i r Hi)].
Qed.

(** The fields of the first word. *)
Lemma IP6H_VTCFL_fields p n hl s d tc fl : is_u8 tc -> 0 <= fl < 1048576 ->
  let h := Ip6Hdr (IP6H_VTCFL 6 tc fl) p n hl s d in
  IP6H_V h = 6 /\ IP6H_TC h = tc /\ IP6H_FL h = fl /\ is_u32 (_v_tc_fl h).
Proof.
  intros Htc Hfl h. unfold h, IP6H_V, IP6H_TC, IP6H_FL, IP6H_VTCFL. cbn [_v_tc_fl].
  change (u32 (Z.shiftl 6 28)) with (6 * 2 ^ 28). rewrite (Z.shiftl_mul_pow2 tc) by lia.
  rewrite lor_shift_add by word_lia. replace (6 * 2 ^ 28 + tc * 2 ^ 20) with ((6 * 256 + tc) * 2 ^ 20) by lia.
  rewrite lor_shift_add by word_lia. set (x := (6 * 256 + tc) * 2 ^ 20 + fl).
  assert (Hx : is_u32 x) by (unfold x; word_lia).
  destruct (u32_octets x Hx) as [E Ho].
  assert (Hh : lwip_htonl (lwip_htonl x) = x /\ is_u32 (lwip_htonl x)).
  { rewrite E. rewrite lwip_htonl_octets by word_lia. rewrite lwip_htonl_octets by word_lia. split; [done|word_lia]. }
  destruct Hh as [-> Hh]. split_and!; [| | |done].
  - change 15 with (Z.ones 4). rewrite Z.land_ones, Z.shiftr_div_pow2 by lia. unfold x. change (2 ^ 28) with 268435456. change (2 ^ 20) with 1048576. change (2 ^ 4) with 16. word_lia.
  - rewrite land_ff, Z.shiftr_div_pow2 by lia. unfold x. change (2 ^ 20) with 1048576. word_lia.
  - change 1048575 with (Z.ones 20). rewrite Z.land_ones by lia. unfold x. change (2 ^ 20) with 1048576. word_lia.
Qed.
