(* ===== verification/Icmp6Hdr.v ===== *)
(** * The ICMPv6 header (core/c/include/lwip/prot/icmp6.h) *)

From S2P Require Import Prelude Packet.

Definition ICMP6_TYPE_DUR : Z := 1.
Definition ICMP6_TYPE_PTB : Z := 2.
Definition ICMP6_TYPE_TE : Z := 3.
Definition ICMP6_TYPE_PP : Z := 4.
Definition ICMP6_TYPE_EREQ : Z := 128.
Definition ICMP6_TYPE_EREP : Z := 129.
Definition ICMP6_TYPE_RS : Z := 133.
Definition ICMP6_TYPE_RA : Z := 134.
Definition ICMP6_TYPE_NS : Z := 135.
Definition ICMP6_TYPE_NA : Z := 136.
Definition ICMP6_TYPE_RD : Z := 137.
Definition ICMP6_DUR_PORT : Z := 4.
Definition ICMP6_TE_FRAG : Z := 1.
Definition ICMP6_PP_FIELD : Z := 0.
Definition ICMP6_PP_HEADER : Z := 1.
Definition ICMP6_PP_OPTION : Z := 2.

Definition LWIP_ICMP6_DATASIZE : Z := 8.
Definition LWIP_ICMP6_HL : Z := 255.
Definition ICMP6_HLEN : Z := 8.                (* sizeof(struct icmp6_hdr) *)

Record icmp6_hdr := Icmp6Hdr { i6_type : Z; i6_code : Z; i6_chksum : Z; i6_data : Z }.

Definition icmp6_hdr_of (l : list Z) : icmp6_hdr := Icmp6Hdr (ld8 l 0) (ld8 l 1) (ld16 l 2) (ld32 l 4).
Definition icmp6_hdr_octets (h : icmp6_hdr) : list Z :=
  [i6_type h; i6_code h] ++ st16 (i6_chksum h) ++ st32 (i6_data h).
