(* ===== verification/Ip4Frag.v ===== *)
(** * IPv4 reassembly and fragmentation (core/c/core/ipv4/ip4_frag.c)

    Incomplete datagrams wait in a list, each with the fragments that arrived,
    ordered by offset and never overlapping.  In memory the list of fragments is
    threaded through a [struct ip_reass_helper] that overwrites the IP header at
    the start of each fragment; here a [frag] is the helper's [start] and [end]
    together with the packet, and the order of the Rocq list is the chain of
    [next_pbuf] pointers.  The overwritten octets are not read again: the header
    of the first fragment is stored back from [iphdr], those of the others are
    hidden.

    The record [reass] holds the static variables of the file and the
    answers [memp_malloc] will give; the events are the calls that leave the
    file: packets freed and ICMP messages requested. *)

From S2P Require Import Prelude Err Def IpAddr Chksum Packet IpHdr.

Definition IP_REASS_MAX_PBUFS : Z := 10.
Definition IP_REASS_MAXAGE : Z := 15.
Definition IP_REASS_FLAG_LASTFRAG : Z := 1.
Definition ICMP_TE_FRAG : Z := 1.

(** A queued fragment: [struct ip_reass_helper] and the pbuf it lies in. *)
Record frag := Frag { fr_start : Z; fr_end : Z; fr_pbuf : pkt }.

Record ip_reassdata := IpReassdata {
  rd_p : list frag;
  rd_iphdr : ip_hdr;
  rd_datagram_len : Z;
  rd_flags : Z;
  rd_timer : Z
}.

#[export] Instance eta_ip_reassdata : EtaRecord ip_reassdata := fun d =>
  IpReassdata (rd_p d) (rd_iphdr d) (rd_datagram_len d) (rd_flags d) (rd_timer d).

Inductive event :=
| Free (p : pkt)                       (* pbuf_free *)
| Time_exceeded (p : pkt) (code : Z).  (* icmp_time_exceeded *)

Record reass := Reass {
  reassdatagrams : list ip_reassdata;
  ip_reass_pbufcount : Z;
  reass_malloc : list bool;
  reass_events : list event            (* in order of time *)
}.

#[export] Instance eta_reass : EtaRecord reass := fun s =>
  Reass (reassdatagrams s) (ip_reass_pbufcount s) (reass_malloc s) (reass_events s).

Definition emit (es : list event) (s : reass) : reass :=
  s <| reass_events := reass_events s ++ es |>.

(** [memp_malloc]: the next answer. *)
Definition memp_malloc (s : reass) : bool * reass :=
  match reass_malloc s with
  | a :: r => (a, s <| reass_malloc := r |>)
  | [] => (false, s)
  end.

Definition IP_ADDRESSES_AND_ID_MATCH (a b : ip_hdr) : bool :=
  ip4_addr_cmp (iph_src a) (iph_src b) && ip4_addr_cmp (iph_dest a) (iph_dest b)
  && (_id a =? _id b).

(** [SMEMCPY(p->payload, &iphdr, IP_HLEN)]: the header goes back into the packet. *)
Definition put_header (h : ip_hdr) (p : pkt) : option pkt := pk_write 0 (ip_hdr_octets h) p.

(** ** Giving up on a datagram *)

(** The [while] loop that frees the fragments of the list. *)
Fixpoint free_frags (fs : list frag) (pbufs_freed : Z) : option (list event * Z) :=
  match fs with
  | [] => Some ([], pbufs_freed)
  | f :: r =>
      let clen := pk_clen (fr_pbuf f) in
      lwip_assert (pbufs_freed + clen <=? 65535);
      '(es, n) ← free_frags r (u16 (pbufs_freed + clen));
      Some (Free (fr_pbuf f) :: es, n)
  end.

(** [ip_reass_free_complete_datagram] on the entry at position [i] of the list
    ([ipr] and [prev] name that position): the result is the number of pbufs
    freed. *)
Definition ip_reass_free_complete_datagram (i : nat) (s : reass) : option (reass * Z) :=
  ipr ← reassdatagrams s !! i;
  match rd_p ipr with
  | [] => None                                    (* ipr->p->payload *)
  | f :: fs =>
      '(es, pbufs_freed, q) ←
        (if fr_start f =? 0 then
           p ← put_header (rd_iphdr ipr) (fr_pbuf f);
           let clen := pk_clen p in
           lwip_assert (0 + clen <=? 65535);
           Some ([Time_exceeded p ICMP_TE_FRAG; Free p], u16 (0 + clen), fs)
         else Some ([], 0, f :: fs));
      '(es', pbufs_freed) ← free_frags q pbufs_freed;
      let s := emit (es ++ es') s in
      let s := s <| reassdatagrams := delete i (reassdatagrams s) |> in
      lwip_assert (pbufs_freed <=? ip_reass_pbufcount s);
      Some (s <| ip_reass_pbufcount := u16 (ip_reass_pbufcount s - pbufs_freed) |>, pbufs_freed)
  end.

(** The [while] loop of [ip_reass_tmr]: [r] is the entry at position [i]. *)
Fixpoint ip_reass_tmr_loop (fuel : nat) (i : nat) (s : reass) : option reass :=
  match reassdatagrams s !! i with
  | None => Some s
  | Some r =>
      match fuel with
      | O => None
      | S f =>
          if 0 <? rd_timer r then
            ip_reass_tmr_loop f (S i)
              (s <| reassdatagrams := <[i := r <| rd_timer := rd_timer r - 1 |>]> (reassdatagrams s) |>)
          else
            '(s, _) ← ip_reass_free_complete_datagram i s;
            ip_reass_tmr_loop f i s
      end
  end.

Definition ip_reass_tmr (s : reass) : option reass :=
  ip_reass_tmr_loop (length (reassdatagrams s)) 0 s.

(** The scan of [ip_reass_remove_oldest_datagram]: the position of the oldest
    entry of another datagram, its timer, and how many others there are. *)
Fixpoint find_oldest (fraghdr : ip_hdr) (l : list ip_reassdata) (i : nat)
    (oldest : option (nat * Z)) (other_datagrams : Z) : option (nat * Z) * Z :=
  match l with
  | [] => (oldest, other_datagrams)
  | r :: l' =>
      if negb (IP_ADDRESSES_AND_ID_MATCH (rd_iphdr r) fraghdr) then
        let oldest :=
          match oldest with
          | None => Some (i, rd_timer r)
          | Some (_, t) => if rd_timer r <=? t then Some (i, rd_timer r) else oldest
          end in
        find_oldest fraghdr l' (S i) oldest (other_datagrams + 1)
      else find_oldest fraghdr l' (S i) oldest other_datagrams
  end.

(** The [do ... while]: every further round follows one that freed an entry. *)
Fixpoint remove_oldest_loop (fuel : nat) (fraghdr : ip_hdr) (pbufs_needed pbufs_freed : Z)
    (s : reass) : option (reass * Z) :=
  match fuel with
  | O => None
  | S f =>
      let '(oldest, other_datagrams) := find_oldest fraghdr (reassdatagrams s) 0 None 0 in
      '(s, pbufs_freed) ←
        (match oldest with
         | Some (i, _) =>
             '(s, n) ← ip_reass_free_complete_datagram i s; Some (s, pbufs_freed + n)
         | None => Some (s, pbufs_freed)
         end);
      if (pbufs_freed <? pbufs_needed) && (1 <? other_datagrams)
      then remove_oldest_loop f fraghdr pbufs_needed pbufs_freed s
      else Some (s, pbufs_freed)
  end.

Definition ip_reass_remove_oldest_datagram (fraghdr : ip_hdr) (pbufs_needed : Z) (s : reass)
  : option (reass * Z) :=
  remove_oldest_loop (S (length (reassdatagrams s))) fraghdr pbufs_needed 0 s.

(** [ip_reass_enqueue_new_datagram]: [false] is [NULL]; the new entry is the
    first of the list. *)
Definition ip_reass_enqueue_new_datagram (fraghdr : ip_hdr) (clen : Z) (s : reass)
  : option (reass * bool) :=
  let '(ipr, s) := memp_malloc s in
  '(s, ipr) ←
    (if (ipr : bool) then Some (s, true)
     else
       '(s, freed) ← ip_reass_remove_oldest_datagram fraghdr clen s;
       if clen <=? freed then let '(ipr, s) := memp_malloc s in Some (s, ipr)
       else Some (s, false));
  if (ipr : bool) then
    Some (s <| reassdatagrams := IpReassdata [] fraghdr 0 0 IP_REASS_MAXAGE :: reassdatagrams s |>,
          true)
  else Some (s, false).

(** ** Queueing a fragment *)

(** The result of looking for a place: dropped, or the fragments in front and
    behind and whether there is no hole so far. *)
Inductive place := Dropped | Placed (pre post : list frag) (valid : bool).

(** The [for] loop and the case after it: [pre] are the fragments passed, the
    last of them is [iprh_prev]. *)
Fixpoint find_place (new : frag) (pre q : list frag) (valid : bool) : option place :=
  match q with
  | [] =>
      match last pre with
      | Some pv =>
          lwip_assert (fr_end pv <=? fr_start new);
          Some (Placed pre [] (if negb (fr_end pv =? fr_start new) then false else valid))
      | None => Some (Placed pre [] valid)
      end
  | f :: q' =>
      if fr_start new <? fr_start f then
        match last pre with
        | Some pv =>
            if (fr_start new <? fr_end pv) || (fr_start f <? fr_end new) then Some Dropped
            else Some (Placed pre q (if negb (fr_end pv =? fr_start new) then false else valid))
        | None =>
            if fr_start f <? fr_end new then Some Dropped else Some (Placed pre q valid)
        end
      else if fr_start new =? fr_start f then Some Dropped
      else if fr_start new <? fr_end f then Some Dropped
      else
        let valid :=
          match last pre with
          | Some pv => if negb (fr_end pv =? fr_start f) then false else valid
          | None => valid
          end in
        find_place new (pre ++ [f]) q' valid
  end.

(** The [while] loop of the validation: no hole behind [prev]. *)
Fixpoint no_holes (prev : frag) (q : list frag) : bool :=
  match q with
  | [] => true
  | f :: q' => if negb (fr_end prev =? fr_start f) then false else no_holes f q'
  end.

Inductive verdict := TELEGRAM_FINISHED | PBUF_QUEUED | PBUF_DROPPED.

(** [ip_reass_chain_frag_into_datagram_and_validate] *)
Definition chain_frag_and_validate (ipr : ip_reassdata) (new_p : pkt) (is_last : bool)
  : option (ip_reassdata * verdict) :=
  let fraghdr := ip_hdr_of (hd [] (pk_chunks new_p)) in
  let len := lwip_htons (_len fraghdr) in
  let hlen := IPH_HL_BYTES fraghdr in
  if len <? hlen then Some (ipr, PBUF_DROPPED)
  else
    let len := u16 (len - hlen) in
    let offset := IPH_OFFSET_BYTES fraghdr in
    let new := Frag offset (u16 (offset + len)) new_p in
    if fr_end new <? offset then Some (ipr, PBUF_DROPPED)
    else
      pl ← find_place new [] (rd_p ipr) true;
      match pl with
      | Dropped => Some (ipr, PBUF_DROPPED)
      | Placed pre post valid =>
          let p := pre ++ new :: post in
          let ipr := ipr <| rd_p := p |> in
          if is_last || flagset (rd_flags ipr) IP_REASS_FLAG_LASTFRAG then
            if valid then
              if negb (fr_start (hd new p) =? 0) then Some (ipr, PBUF_QUEUED)
              else if no_holes new post then
                (* "sanity check": ipr->p is not the last fragment *)
                lwip_assert (1 <? length p)%nat;
                Some (ipr, TELEGRAM_FINISHED)
              else Some (ipr, PBUF_QUEUED)
            else Some (ipr, PBUF_QUEUED)
          else Some (ipr, PBUF_QUEUED)
      end.

(** The loop that chains the fragments behind the first. *)
Fixpoint chain_frags (p : pkt) (r : list frag) : option pkt :=
  match r with
  | [] => Some p
  | f :: r' =>
      q ← pk_remove_header IP_HLEN (fr_pbuf f);
      chain_frags (pk_cat p q) r'
  end.

(** The first position whose header matches. *)
Fixpoint find_datagram (fraghdr : ip_hdr) (l : list ip_reassdata) : option nat :=
  match l with
  | [] => None
  | r :: l' =>
      if IP_ADDRESSES_AND_ID_MATCH (rd_iphdr r) fraghdr then Some O
      else i ← find_datagram fraghdr l'; Some (S i)
  end.

Definition nullreturn (p : pkt) (s : reass) : option (reass * option pkt) :=
  Some (emit [Free p] s, None).

(** [nullreturn_ipr]: an entry without a fragment is removed, too. *)
Definition nullreturn_ipr (i : nat) (p : pkt) (s : reass) : option (reass * option pkt) :=
  ipr ← reassdatagrams s !! i;
  match rd_p ipr with
  | [] =>
      lwip_assert (i =? 0)%nat;   (* "not firstalthough just enqueued" *)
      nullreturn p (s <| reassdatagrams := delete i (reassdatagrams s) |>)
  | _ => nullreturn p s
  end.

(** The datagram at position [i] is complete. *)
Definition finish_datagram (i : nat) (s : reass) : option (reass * option pkt) :=
  ipr ← reassdatagrams s !! i;
  match rd_p ipr with
  | [] => None
  | f :: r =>
      let datagram_len := u16 (rd_datagram_len ipr + IP_HLEN) in
      let fraghdr := (rd_iphdr ipr) <| _len := lwip_htons datagram_len |>
                                  <| _offset := 0 |> <| _chksum := 0 |> in
      let fraghdr := fraghdr <| _chksum := inet_chksum false (ip_hdr_octets fraghdr) |> in
      p ← put_header fraghdr (fr_pbuf f);
      p ← chain_frags p r;
      let s := s <| reassdatagrams := delete i (reassdatagrams s) |> in
      let clen := pk_clen p in
      lwip_assert (clen <=? ip_reass_pbufcount s);
      Some (s <| ip_reass_pbufcount := u16 (ip_reass_pbufcount s - clen) |>, Some p)
  end.

(** The part of [ip4_reass] behind the lookup: the entry is at position [i]. *)
Definition reass_into (i : nat) (p : pkt) (fraghdr : ip_hdr) (offset len clen : Z) (s : reass)
  : option (reass * option pkt) :=
  let is_last := Z.land (_offset fraghdr) (lwip_htons IP_MF) =? 0 in
  let datagram_len := u16 (offset + len) in
  if is_last && ((datagram_len <? offset) || (65535 - IP_HLEN <? datagram_len))
  then nullreturn_ipr i p s
  else
    ipr ← reassdatagrams s !! i;
    '(ipr, valid) ← chain_frag_and_validate ipr p is_last;
    match valid with
    | PBUF_DROPPED => nullreturn_ipr i p s
    | _ =>
        let s := s <| ip_reass_pbufcount := u16 (ip_reass_pbufcount s + clen) |> in
        let ipr :=
          if is_last then
            ipr <| rd_datagram_len := datagram_len |>
                <| rd_flags := Z.lor (rd_flags ipr) IP_REASS_FLAG_LASTFRAG |>
          else ipr in
        let s := s <| reassdatagrams := <[i := ipr]> (reassdatagrams s) |> in
        match valid with
        | TELEGRAM_FINISHED => finish_datagram i s
        | _ => Some (s, None)
        end
    end.

(** [ip4_reass]: the result is the complete datagram, if there is one. *)
Definition ip4_reass (p : pkt) (s : reass) : option (reass * option pkt) :=
  let fraghdr := ip_hdr_of (hd [] (pk_chunks p)) in
  if negb (IPH_HL_BYTES fraghdr =? IP_HLEN) then nullreturn p s
  else
    let offset := IPH_OFFSET_BYTES fraghdr in
    let len := lwip_htons (_len fraghdr) in
    let hlen := IPH_HL_BYTES fraghdr in
    if len <? hlen then nullreturn p s
    else
      let len := u16 (len - hlen) in
      let clen := pk_clen p in
      '(s, room) ←
        (if IP_REASS_MAX_PBUFS <? ip_reass_pbufcount s + clen then
           '(s, freed) ← ip_reass_remove_oldest_datagram fraghdr clen s;
           Some (s, negb ((freed =? 0) || (IP_REASS_MAX_PBUFS <? ip_reass_pbufcount s + clen)))
         else Some (s, true));
      if negb room then nullreturn p s
      else
        match find_datagram fraghdr (reassdatagrams s) with
        | None =>
            '(s, ok) ← ip_reass_enqueue_new_datagram fraghdr clen s;
            if (ok : bool) then reass_into 0 p fraghdr offset len clen s
            else nullreturn p s
        | Some i =>
            ipr ← reassdatagrams s !! i;
            let ipr :=
              if (Z.land (lwip_htons (_offset fraghdr)) IP_OFFMASK =? 0)
                 && negb (Z.land (lwip_htons (_offset (rd_iphdr ipr))) IP_OFFMASK =? 0)
              then ipr <| rd_iphdr := fraghdr |> else ipr in
            reass_into i p fraghdr offset len clen
              (s <| reassdatagrams := <[i := ipr]> (reassdatagrams s) |>)
        end.

(** ** Fragmenting

    [ip4_frag] walks the chain with a pointer [p] and an offset [poff] in it:
    here the chunks from [p] on.  Each fragment is a header pbuf followed by
    [PBUF_REF]s into the chunks; [ans] are the answers of the allocator. *)


Definition next_answer (ans : list bool) : bool * list bool :=
  match ans with [] => (false, []) | a :: r => (a, r) end.

(** The inner [while (left_to_copy)]: the pieces, and where it stopped;
    [Some None] is a failed allocation. *)
Fixpoint frag_pieces (p : list (list Z)) (poff left_to_copy : Z) (ans : list bool)
  : option (option (list (list Z) * list (list Z) * Z) * list bool) :=
  match p with
  | [] => None
  | c :: r =>
      let plen := u16 (Z.of_nat (length c) - poff) in
      lwip_assert (poff <=? Z.of_nat (length c));
      let newpbuflen := Z.min left_to_copy plen in
      if newpbuflen =? 0 then frag_pieces r 0 left_to_copy ans
      else
        let '(pcr, ans) := next_answer ans in
        if (pcr : bool) then
          let piece := take (Z.to_nat newpbuflen) (drop (Z.to_nat poff) c) in
          let left_to_copy := u16 (left_to_copy - newpbuflen) in
          if left_to_copy =? 0
          then Some (Some ([piece], p, u16 (poff + newpbuflen)), ans)
          else
            '(res, ans) ← frag_pieces r 0 left_to_copy ans;
            match res with
            | Some (l, p', poff') => Some (Some (piece :: l, p', poff'), ans)
            | None => Some (None, ans)
            end
        else Some (None, ans)
  end.

(** The header of one fragment. *)
Definition frag_header (original_iphdr : ip_hdr) (last mf_set : bool) (ofo fragsize : Z) : ip_hdr :=
  let tmp := Z.land IP_OFFMASK ofo in
  let tmp := if negb last || mf_set then Z.lor tmp IP_MF else tmp in
  let iphdr := original_iphdr <| _offset := lwip_htons tmp |>
                 <| _len := lwip_htons (u16 (fragsize + IP_HLEN)) |> <| _chksum := 0 |> in
  iphdr <| _chksum := inet_chksum false (ip_hdr_octets iphdr) |>.

(** The outer [while (left)]: the packets passed to [netif->output], in order. *)
Fixpoint frag_loop (fuel : nat) (original_iphdr : ip_hdr) (mtu nfb : Z) (mf_set : bool)
    (p : list (list Z)) (poff left ofo : Z) (ans : list bool)
  : option (Z * list pkt * list bool) :=
  if left =? 0 then Some (ERR_OK, [], ans)
  else
    match fuel with
    | O => None
    | S f =>
        let fragsize := Z.min left (u16 (nfb * 8)) in
        let '(rambuf, ans) := next_answer ans in
        if negb rambuf then Some (ERR_MEM, [], ans)
        else
          '(res, ans) ← (if fragsize =? 0 then Some (Some ([], p, poff), ans)
                         else frag_pieces p poff fragsize ans);
          match res with
          | None => Some (ERR_MEM, [], ans)
          | Some (pieces, p, poff) =>
              let last := left <=? mtu - IP_HLEN in
              let iphdr := frag_header original_iphdr last mf_set ofo fragsize in
              let out := Pkt (repeat 0 14) (ip_hdr_octets iphdr :: pieces) true in
              '(err, outs, ans) ← frag_loop f original_iphdr mtu nfb mf_set p poff
                                    (u16 (left - fragsize)) (u16 (ofo + nfb)) ans;
              Some (err, out :: outs, ans)
          end
    end.

Definition ip4_frag (p : pkt) (mtu : Z) (ans : list bool) : option (Z * list pkt * list bool) :=
  let nfb := u16 (Z.quot (mtu - IP_HLEN) 8) in
  let original_iphdr := ip_hdr_of (hd [] (pk_chunks p)) in
  if negb (IPH_HL_BYTES original_iphdr =? IP_HLEN) then Some (ERR_VAL, [], ans)
  else
    lwip_assert (IP_HLEN <=? pk_len p);
    let tmp := lwip_htons (_offset original_iphdr) in
    let ofo := Z.land tmp IP_OFFMASK in
    let mf_set := flagset tmp IP_MF in
    let left := u16 (pk_tot_len p - IP_HLEN) in
    frag_loop (S (Z.to_nat left)) original_iphdr mtu nfb mf_set (pk_chunks p) IP_HLEN left ofo ans.
