(* ===== verification/Ip4FragSpec.v ===== *)
(** * Properties of IPv4 reassembly and fragmentation

    The queue of fragments of a datagram is sorted and free of overlaps; the
    number of queued pbufs is what the code counts, and never more than the
    limit; no input stops the process.  The fragments of a datagram, in any
    order, yield the datagram, exactly when the last missing one arrives; what
    [ip4_frag] sends is such a set of fragments.  Incomplete datagrams are given
    up by the timer. *)

From stdpp Require Import sorting.
From S2P Require Import Prelude Err Def IpAddr Chksum Packet IpHdr Ip4Frag.

(** ** Invariants *)

(** [f] lies in front of [g]. *)
Definition before (f g : frag) : Prop := fr_start f < fr_start g /\ fr_end f <= fr_start g.

#[export] Instance before_trans : Transitive before.
Proof. intros f g h [? ?] [? ?]. split; lia. Qed.

(** The memory of a queued fragment can hold the IP header. *)
Definition frag_ok (f : frag) : Prop :=
  0 <= fr_start f <= fr_end f /\ pk_chunks (fr_pbuf f) <> [] /\
  IP_HLEN <= pk_len (fr_pbuf f) /\ Z.of_nat (length (pk_chunks (fr_pbuf f))) < 65536.

Definition frag_clen (f : frag) : Z := pk_clen (fr_pbuf f).
Definition queued (d : ip_reassdata) : Z := sum_with frag_clen (rd_p d).

Definition datagram_ok (d : ip_reassdata) : Prop :=
  rd_p d <> [] /\ Forall frag_ok (rd_p d) /\ StronglySorted before (rd_p d) /\
  0 <= rd_timer d <= IP_REASS_MAXAGE.

Definition reass_ok (s : reass) : Prop :=
  Forall datagram_ok (reassdatagrams s) /\
  ip_reass_pbufcount s = sum_with queued (reassdatagrams s) /\
  ip_reass_pbufcount s <= IP_REASS_MAX_PBUFS.

(** pbufs given back by the events. *)
Definition event_clen (e : event) : Z :=
  match e with Free p => pk_clen p | Time_exceeded _ _ => 0 end.
Definition freed (es : list event) : Z := sum_with event_clen es.

(** ** Freeing *)

Lemma frag_clen_pos f : frag_ok f -> 1 <= frag_clen f.
Proof.
  intros (_ & Hc & _ & Hl). unfold frag_clen, pk_clen. rewrite u16_id by (unfold is_u16; lia).
  destruct (pk_chunks (fr_pbuf f)); [done|]. simpl. lia.
Qed.

Lemma frags_clen_nonneg fs : Forall frag_ok fs -> 0 <= sum_with frag_clen fs.
Proof.
  intros H. apply sum_with_nonneg. eapply Forall_impl; [exact H|].
  intros f Hf. apply frag_clen_pos in Hf. cbn. lia.
Qed.

Lemma queued_pos d : datagram_ok d -> 1 <= queued d.
Proof.
  intros (Hn & Hf & _). unfold queued. destruct (rd_p d) as [|f fs]; [done|].
  rewrite Forall_cons in Hf. destruct Hf as [Hf Hfs].
  rewrite sum_with_cons. apply frag_clen_pos in Hf. apply frags_clen_nonneg in Hfs. lia.
Qed.

Lemma all_queued_nonneg l : Forall datagram_ok l -> 0 <= sum_with queued l.
Proof.
  intros H. apply sum_with_nonneg. eapply Forall_impl; [exact H|].
  intros d Hd. apply queued_pos in Hd. cbn. lia.
Qed.

Lemma queued_le l i d :
  Forall datagram_ok l -> l !! i = Some d -> queued d <= sum_with queued l.
Proof.
  intros H E. pose proof (sum_with_delete queued l i d E).
  pose proof (all_queued_nonneg (delete i l) ltac:(by apply Forall_delete)). lia.
Qed.

Lemma free_frags_spec fs : forall n,
  Forall frag_ok fs -> 0 <= n -> n + sum_with frag_clen fs <= 65535 ->
  free_frags fs n = Some (map (fun f => Free (fr_pbuf f)) fs, n + sum_with frag_clen fs).
Proof.
  induction fs as [|f fs IH]; intros n Hok H0 Hn.
  { rewrite sum_with_nil, Z.add_0_r. done. }
  rewrite Forall_cons in Hok. destruct Hok as [Hf Hfs]. rewrite sum_with_cons in *.
  pose proof (frags_clen_nonneg fs Hfs). pose proof (frag_clen_pos f Hf).
  cbn [free_frags]. fold (frag_clen f). rewrite (proj2 (Z.leb_le _ _)) by lia.
  rewrite u16_id by (unfold is_u16; lia).
  rewrite IH by (done || lia). cbn [mbind option_bind map]. do 2 f_equal. lia.
Qed.

Lemma freed_frags fs : freed (map (fun f => Free (fr_pbuf f)) fs) = sum_with frag_clen fs.
Proof.
  unfold freed. induction fs as [|f fs IH]; [done|]. cbn [map]. by rewrite !sum_with_cons, IH.
Qed.

(** What happens to the fragments of a datagram that is given up: an ICMP message
    with the original header if the first one is there, and all are freed. *)
Definition free_events (d : ip_reassdata) : list event :=
  match rd_p d with
  | [] => []
  | f :: fs =>
      (if fr_start f =? 0 then
         match put_header (rd_iphdr d) (fr_pbuf f) with
         | Some p => [Time_exceeded p ICMP_TE_FRAG; Free p]
         | None => []
         end
       else [Free (fr_pbuf f)]) ++ map (fun f => Free (fr_pbuf f)) fs
  end.

Lemma put_header_spec h p :
  pk_chunks p <> [] -> IP_HLEN <= pk_len p ->
  exists p', put_header h p = Some p' /\ pk_clen p' = pk_clen p /\
    pk_octets p' = ip_hdr_octets h ++ drop 20 (pk_octets p) /\
    pk_chunks p' <> [] /\ pk_len p' = pk_len p /\
    length (pk_chunks p') = length (pk_chunks p).
Proof.
  unfold put_header, pk_write, pk_len, pk_clen, pk_octets, IP_HLEN.
  destruct (pk_chunks p) as [|c r] eqn:E; [done|]. cbn [hd concat]. intros _ Hl.
  rewrite ip_hdr_octets_length. destruct (Nat.leb_spec (0 + 20) (length c)); [|lia].
  eexists; split; [reflexivity|]. cbn [pk_chunks hd concat length].
  rewrite take_0. cbn [app]. rewrite length_app, length_drop, ip_hdr_octets_length.
  rewrite <- app_assoc, (drop_app_le c) by lia. repeat split; try done; lia.
Qed.

Lemma free_complete_spec s i d :
  reass_ok s -> reassdatagrams s !! i = Some d ->
  let s' := emit (free_events d) s <| reassdatagrams := delete i (reassdatagrams s) |>
              <| ip_reass_pbufcount := ip_reass_pbufcount s - queued d |> in
  ip_reass_free_complete_datagram i s = Some (s', queued d) /\ reass_ok s' /\
  freed (free_events d) = queued d.
Proof.
  intros (Hd & Hc & Hm) E s'.
  assert (datagram_ok d) as Hdok by (rewrite Forall_forall in Hd; apply Hd; by eapply list_elem_of_lookup_2).
  pose proof (queued_le _ _ _ Hd E) as Hle. pose proof (queued_pos _ Hdok) as Hpos.
  destruct Hdok as (Hn & Hf & _). unfold IP_REASS_MAX_PBUFS in Hm.
  assert (ip_reass_free_complete_datagram i s = Some (s', queued d) /\
          freed (free_events d) = queued d) as [Hres Hes].
  { unfold ip_reass_free_complete_datagram, s', free_events. rewrite E. cbn [mbind option_bind].
    unfold queued in *. destruct (rd_p d) as [|f fs]; [done|].
    rewrite Forall_cons in Hf. destruct Hf as [Hf Hfs].
    pose proof (frags_clen_nonneg fs Hfs). pose proof (frag_clen_pos f Hf).
    rewrite sum_with_cons in *.
    destruct (Z.eqb_spec (fr_start f) 0) as [E0|E0].
    - destruct Hf as (_ & Hch & Hlen & _).
      destruct (put_header_spec (rd_iphdr d) (fr_pbuf f) Hch Hlen) as (p' & -> & Hcl & _).
      cbn [mbind option_bind]. rewrite Hcl. fold (frag_clen f).
      rewrite (proj2 (Z.leb_le (0 + frag_clen f) 65535)) by lia. cbn [mbind option_bind].
      rewrite u16_id by (unfold is_u16; lia).
      rewrite free_frags_spec by (done || lia). cbn [mbind option_bind].
      rewrite (proj2 (Z.leb_le _ _)) by (cbn; lia). split.
      + do 2 f_equal. cbn. rewrite u16_id by (unfold is_u16; lia). f_equal; try lia.
      + unfold freed. rewrite sum_with_app. fold (freed (map (fun f => Free (fr_pbuf f)) fs)).
        rewrite freed_frags, !sum_with_cons, sum_with_nil. cbn [event_clen].
        rewrite Hcl. unfold frag_clen. lia.
    - cbn [mbind option_bind].
      rewrite free_frags_spec by (by constructor || (rewrite ?sum_with_cons; lia)).
      rewrite sum_with_cons. cbn [mbind option_bind app].
      rewrite (proj2 (Z.leb_le _ _)) by (cbn; lia). split.
      + do 2 f_equal. cbn. rewrite u16_id by (unfold is_u16; lia). f_equal.
      + unfold freed. rewrite sum_with_cons. fold (freed (map (fun f => Free (fr_pbuf f)) fs)).
        by rewrite freed_frags. }
  split; [exact Hres|]. split; [|done].
  subst s'. repeat split; cbn; [by apply Forall_delete| |unfold IP_REASS_MAX_PBUFS; lia].
  rewrite (sum_with_delete _ _ _ _ E). lia.
Qed.

Definition pbufs (o : option pkt) : Z := match o with Some p => pk_clen p | None => 0 end.

(** What every operation keeps: the invariant, and the pbufs it was given. *)
Definition balanced (s s' : reass) (n : Z) : Prop :=
  reass_ok s' /\ exists es, reass_events s' = reass_events s ++ es /\
  ip_reass_pbufcount s' + freed es = ip_reass_pbufcount s + n.

Lemma balanced_refl s : reass_ok s -> balanced s s 0.
Proof. intros. split; [done|]. exists []. rewrite app_nil_r. split; [done|]. unfold freed. rewrite sum_with_nil. lia. Qed.

Lemma balanced_trans s1 s2 s3 n m : balanced s1 s2 n -> balanced s2 s3 m -> balanced s1 s3 (n + m).
Proof.
  intros [_ (es1 & E1 & C1)] [H3 (es2 & E2 & C2)]. split; [done|].
  exists (es1 ++ es2). rewrite E2, E1, app_assoc. split; [done|].
  unfold freed in *. rewrite sum_with_app. lia.
Qed.

Lemma free_complete_balanced s i d :
  reass_ok s -> reassdatagrams s !! i = Some d ->
  exists s', ip_reass_free_complete_datagram i s = Some (s', queued d) /\ balanced s s' 0 /\
    reassdatagrams s' = delete i (reassdatagrams s) /\
    ip_reass_pbufcount s' = ip_reass_pbufcount s - queued d.
Proof.
  intros Hs E. destruct (free_complete_spec s i d Hs E) as (H & Hok & Hf).
  eexists. split; [exact H|]. split; [|done]. split; [exact Hok|].
  exists (free_events d). split; [done|]. rewrite Hf. cbn. lia.
Qed.

Lemma find_oldest_spec h l : forall i o n,
  0 <= n -> (o = None -> n = 0) -> (forall k t, o = Some (k, t) -> (k < i)%nat) ->
  let '(o', n') := find_oldest h l i o n in
  n <= n' /\ (o' = None -> n' = 0) /\ (forall k t, o' = Some (k, t) -> (k < i + length l)%nat).
Proof.
  induction l as [|r l IH]; intros i o n Hn Ho Hk.
  { cbn. split; [lia|]. split; [done|]. intros k t E. apply Hk in E. lia. }
  cbn [find_oldest]. destruct (negb _).
  - specialize (IH (S i) (match o with
      | Some (_, t) => if rd_timer r <=? t then Some (i, rd_timer r) else o
      | None => Some (i, rd_timer r) end) (n + 1)).
    destruct (find_oldest _ _ _ _ _) as [o' n'].
    destruct IH as (? & ? & Hk');
      [lia|intros E; exfalso; destruct o as [[? ?]|]; [case_match|]; done| |].
    + intros k t E. destruct o as [[k0 t0]|].
      * case_match; simplify_eq; [lia|]. assert (k < i)%nat by (eapply Hk; done). lia.
      * simplify_eq. lia.
    + split; [lia|]. split; [done|]. intros k t E. apply Hk' in E. simpl. lia.
  - specialize (IH (S i) o n). destruct (find_oldest _ _ _ _ _) as [o' n'].
    destruct IH as (? & ? & Hk'); [done|done|intros k t E; apply Hk in E; lia|].
    split; [lia|]. split; [done|]. intros k t E. apply Hk' in E. simpl. lia.
Qed.

(** Every round but the last frees an entry: the loop ends. *)
Lemma remove_oldest_loop_spec h need fuel : forall s n,
  reass_ok s -> (length (reassdatagrams s) < fuel)%nat ->
  exists s' n', remove_oldest_loop fuel h need n s = Some (s', n') /\ balanced s s' 0.
Proof.
  induction fuel as [|fuel IH]; intros s n Hs Hf; [lia|]. cbn [remove_oldest_loop].
  pose proof (find_oldest_spec h (reassdatagrams s) 0 None 0) as Ho.
  destruct (find_oldest _ _ _ _ _) as [[[i t]|] others].
  - destruct Ho as (_ & _ & Hi); [lia|done|done|].
    specialize (Hi i t eq_refl). simpl in Hi.
    destruct (lookup_lt_is_Some_2 _ _ Hi) as [d Hd].
    destruct (free_complete_balanced s i d Hs Hd) as (s1 & -> & Hb & Hl & _).
    cbn [mbind option_bind]. case_match; [|eexists _, _; split; done].
    destruct (IH s1 (n + queued d)) as (s' & n' & -> & Hb'); [apply Hb| |].
    { rewrite Hl, length_delete by eauto. lia. }
    eexists _, _. split; [done|]. by apply (balanced_trans _ s1 _ 0 0).
  - destruct Ho as (_ & Hz & _); [lia|done|done|]. rewrite Hz by done.
    cbn [mbind option_bind]. rewrite andb_false_r.
    eexists _, _. split; [done|]. by apply balanced_refl.
Qed.

Lemma remove_oldest_spec h need s :
  reass_ok s ->
  exists s' n', ip_reass_remove_oldest_datagram h need s = Some (s', n') /\ balanced s s' 0.
Proof. intros. by apply remove_oldest_loop_spec; [|lia]. Qed.

(** ** The place of a new fragment *)

(** No hole between consecutive fragments. *)
Fixpoint contiguous (fs : list frag) : bool :=
  match fs with
  | [] => true
  | f :: fs' => no_holes f fs'
  end.

Lemma no_holes_snoc pre : forall g f,
  no_holes g (pre ++ [f]) =
  no_holes g pre && (fr_end (default g (last pre)) =? fr_start f).
Proof.
  induction pre as [|k pre IH]; intros g f; cbn [app no_holes].
  - cbn. by destruct (_ =? _).
  - destruct (_ =? _); cbn [negb andb]; [|done]. rewrite IH. f_equal.
    rewrite last_cons. by destruct (last pre).
Qed.

Lemma contiguous_snoc pre f :
  contiguous (pre ++ [f]) =
  match last pre with
  | Some pv => contiguous pre && (fr_end pv =? fr_start f)
  | None => true
  end.
Proof.
  destruct pre as [|g pre]; [done|]. cbn [app contiguous].
  rewrite no_holes_snoc, last_cons. by destruct (last pre).
Qed.

Lemma contiguous_app pre f post :
  contiguous (pre ++ f :: post) = contiguous (pre ++ [f]) && no_holes f post.
Proof.
  destruct pre as [|g pre]; cbn [app contiguous]; [done|].
  revert g. induction pre as [|k pre IH]; intros g; cbn [app no_holes].
  - by destruct (_ =? _).
  - destruct (_ =? _); cbn [negb andb]; [apply IH|done].
Qed.

Lemma if_negb_andb (b c : bool) : (if negb b then false else c) = c && b.
Proof. by destruct b, c. Qed.

(** The search never fails an assertion.  A fragment is dropped only if it
    overlaps a queued one; otherwise its place keeps the order, and [valid] says
    whether there is a hole up to it. *)
Lemma find_place_spec new q : forall pre,
  StronglySorted before (pre ++ q) -> Forall (fun g => before g new) pre ->
  exists pl, find_place new pre q (contiguous pre) = Some pl /\
  match pl with
  | Dropped => exists g, g ∈ q /\ ~ before g new /\ ~ before new g
  | Placed pre' post v =>
      pre ++ q = pre' ++ post /\ Forall (fun g => before g new) pre' /\
      Forall (before new) post /\ v = contiguous (pre' ++ [new])
  end.
Proof.
  induction q as [|f q IH]; intros pre Hs Hpre; cbn [find_place].
  - destruct (last pre) as [pv|] eqn:El.
    + apply last_Some in El as E. destruct E as [l' E].
      assert (before pv new) as [_ Hb] by (rewrite E, Forall_app, Forall_singleton in Hpre; tauto).
      rewrite (proj2 (Z.leb_le _ _)) by done.
      eexists; split; [done|]. repeat split; [done|by constructor|].
      by rewrite if_negb_andb, contiguous_snoc, El.
    + eexists; split; [done|]. repeat split; [done|by constructor|].
      apply last_None in El. subst. done.
  - assert (StronglySorted before ((pre ++ [f]) ++ q)) as Hs' by (by rewrite <- app_assoc).
    apply StronglySorted_app_1_r in Hs as Hq. inversion Hq as [|? ? Hq' Hfq]; subst.
    assert (Hnext : forall pv, last pre = Some pv -> before pv new).
    { intros pv E. apply last_Some in E as [l' ->]. rewrite Forall_app, Forall_singleton in Hpre. tauto. }
    destruct (Z.ltb_spec (fr_start new) (fr_start f)) as [Hlt|Hge].
    + assert (~ before f new) by (intros [? ?]; lia).
      assert (Hpost : fr_end new <= fr_start f -> Forall (before new) (f :: q)).
      { intros ?. assert (before new f) by (split; lia). constructor; [done|].
        eapply Forall_impl; [exact Hfq|]. intros g ?. by transitivity f. }
      destruct (last pre) as [pv|] eqn:El.
      * destruct (Hnext pv eq_refl) as [_ Hb].
        rewrite (proj2 (Z.ltb_ge (fr_start new) _)) by done. cbn [orb].
        destruct (Z.ltb_spec (fr_start f) (fr_end new)); (eexists; split; [done|]).
        -- exists f. split; [by left|]. split; [done|]. intros [? ?]. lia.
        -- repeat split; [done|by apply Hpost|]. by rewrite if_negb_andb, contiguous_snoc, El.
      * destruct (Z.ltb_spec (fr_start f) (fr_end new)); (eexists; split; [done|]).
        -- exists f. split; [by left|]. split; [done|]. intros [? ?]. lia.
        -- repeat split; [done|by apply Hpost|]. apply last_None in El. by subst.
    + destruct (Z.eqb_spec (fr_start new) (fr_start f)).
      { eexists; split; [done|]. exists f. split; [by left|]. split; intros [? ?]; lia. }
      destruct (Z.ltb_spec (fr_start new) (fr_end f)).
      { eexists; split; [done|]. exists f. split; [by left|]. split; intros [? ?]; lia. }
      assert (Hfn : before f new) by (split; lia).
      destruct (IH (pre ++ [f])) as (pl & Hpl & Hsp); [done| |].
      { apply Forall_app. split; [done|]. by constructor. }
      rewrite contiguous_snoc in Hpl.
      exists pl. split.
      { rewrite <- Hpl. f_equal. destruct (last pre) eqn:El; [by rewrite if_negb_andb|].
        apply last_None in El. by subst. }
      destruct pl as [|pre' post v]; [|by rewrite <- app_assoc in Hsp].
      destruct Hsp as (g & ? & ?). exists g. split; [by right|done].
Qed.

Lemma sorted_insert pre post new :
  StronglySorted before (pre ++ post) -> Forall (fun g => before g new) pre ->
  Forall (before new) post -> StronglySorted before (pre ++ new :: post).
Proof.
  intros (H12 & H1 & H2)%StronglySorted_app Hpre Hpost.
  apply StronglySorted_app. split_and!; [|done|by constructor].
  intros x y Hx [-> | Hy]%elem_of_cons; [|by apply H12].
  rewrite Forall_forall in Hpre. by apply Hpre.
Qed.

(** ** Fragments as ip4_input passes them *)

(** The first pbuf holds a header; the packet is marked as a fragment. *)
Definition pkt_hdr (p : pkt) : ip_hdr := ip_hdr_of (hd [] (pk_chunks p)).

Definition pkt_ok (p : pkt) : Prop :=
  pk_chunks p <> [] /\ IP_HLEN <= pk_len p /\ Z.of_nat (length (pk_chunks p)) < 65536 /\
  bytes_ok (hd [] (pk_chunks p)).

Definition is_fragment (h : ip_hdr) : bool :=
  negb (Z.land (_offset h) (lwip_htons (Z.lor IP_OFFMASK IP_MF)) =? 0).

(** No MF flag. *)
Definition last_fragment (h : ip_hdr) : bool := Z.land (_offset h) (lwip_htons IP_MF) =? 0.

Lemma offset_bits x :
  is_u16 x ->
  (if Z.land x (lwip_htons (Z.lor IP_OFFMASK IP_MF)) =? 0 then true
   else if Z.land x (lwip_htons IP_MF) =? 0
        then negb (Z.land (lwip_htons x) IP_OFFMASK =? 0) else true)
  && (0 <=? Z.land (lwip_htons x) IP_OFFMASK) && (Z.land (lwip_htons x) IP_OFFMASK <=? 8191) = true.
Proof.
  intros Hx. pattern x. match goal with |- (fun x => @?P x = true) _ => apply (u16_forall P) end;
    [by vm_compute|done].
Qed.

Lemma offset_bytes_eq h :
  ip_hdr_ok h ->
  IPH_OFFSET_BYTES h = Z.land (lwip_htons (_offset h)) IP_OFFMASK * 8 /\
  0 <= IPH_OFFSET_BYTES h <= 65528.
Proof.
  intros (_&_&_&_&Ho&_). apply offset_bits in Ho.
  apply andb_true_iff in Ho as [[_ H1]%andb_true_iff H2]. unfold IPH_OFFSET_BYTES.
  rewrite u16_id by (unfold is_u16; lia). lia.
Qed.

Lemma last_fragment_offset h :
  ip_hdr_ok h -> is_fragment h = true -> last_fragment h = true -> IPH_OFFSET_BYTES h <> 0.
Proof.
  intros Hh. destruct (offset_bytes_eq h Hh) as [-> _]. destruct Hh as (_&_&_&_&Ho&_).
  apply offset_bits in Ho. unfold is_fragment, last_fragment. intros H1 H2. rewrite H2 in Ho.
  destruct (_ =? 0) eqn:E in H1; [done|]. rewrite E in Ho. lia.
Qed.

Lemma pkt_hdr_ok p : pkt_ok p -> ip_hdr_ok (pkt_hdr p).
Proof. intros (_ & _ & _ & ?). by apply ip_hdr_of_ok. Qed.

(** The helper structure of a new fragment. *)
Definition new_frag (p : pkt) : frag :=
  let offset := IPH_OFFSET_BYTES (pkt_hdr p) in
  Frag offset (u16 (offset + u16 (lwip_htons (_len (pkt_hdr p)) - IP_HLEN))) p.

(** ** Queueing *)

Definition entry_ok (i : nat) (d : ip_reassdata) : Prop :=
  Forall frag_ok (rd_p d) /\ StronglySorted before (rd_p d) /\
  0 <= rd_timer d <= IP_REASS_MAXAGE /\
  (rd_p d = [] -> i = 0%nat /\ flagset (rd_flags d) IP_REASS_FLAG_LASTFRAG = false).

Lemma entry_ok_datagram i d : datagram_ok d -> entry_ok i d.
Proof. by intros (? & ? & ? & ?). Qed.

(** The fragments of the entry with the new one, when it is not dropped. *)
Definition complete (fs : list frag) (lastfrag : bool) : bool :=
  lastfrag && contiguous fs && (match fs with f :: _ => fr_start f =? 0 | [] => false end).

Lemma chain_frag_spec i d p is_last :
  entry_ok i d -> pkt_ok p -> is_fragment (pkt_hdr p) = true ->
  IPH_HL_BYTES (pkt_hdr p) = IP_HLEN -> is_last = last_fragment (pkt_hdr p) ->
  exists d' v, chain_frag_and_validate d p is_last = Some (d', v) /\
  match v with
  | PBUF_DROPPED =>
      d' = d /\
      (lwip_htons (_len (pkt_hdr p)) < IP_HLEN \/ fr_end (new_frag p) < fr_start (new_frag p) \/
       exists g, g ∈ rd_p d /\ ~ before g (new_frag p) /\ ~ before (new_frag p) g)
  | _ =>
      exists pre post, rd_p d = pre ++ post /\
        d' = d <| rd_p := pre ++ new_frag p :: post |> /\ frag_ok (new_frag p) /\
        StronglySorted before (rd_p d') /\
        (v = TELEGRAM_FINISHED <->
         complete (rd_p d') (is_last || flagset (rd_flags d) IP_REASS_FLAG_LASTFRAG) = true)
  end.
Proof.
  intros (Hf & Hs & _ & Hnil) Hp Hfr Hhl Hlast.
  unfold chain_frag_and_validate. fold (pkt_hdr p). rewrite Hhl.
  destruct (Z.ltb_spec (lwip_htons (_len (pkt_hdr p))) IP_HLEN).
  { eexists _, PBUF_DROPPED. split; [done|]. split; [done|]. by left. }
  fold (new_frag p). cbn zeta.
  destruct (Z.ltb_spec (fr_end (new_frag p)) (IPH_OFFSET_BYTES (pkt_hdr p))) as [|Hse].
  { eexists _, PBUF_DROPPED. split; [done|]. split; [done|]. right. by left. }
  destruct (find_place_spec (new_frag p) (rd_p d) []) as (pl & Hpl & Hsp); [done|constructor|].
  cbn [contiguous] in Hpl. rewrite Hpl. cbn [mbind option_bind].
  destruct pl as [|pre post v].
  { eexists _, PBUF_DROPPED. split; [done|]. split; [done|]. right. right. exact Hsp. }
  destruct Hsp as (Hd & Hpre & Hpost & Hv). cbn [app] in Hd.
  assert (Hok : frag_ok (new_frag p)).
  { pose proof (proj2 (offset_bytes_eq _ (pkt_hdr_ok p Hp))).
    destruct Hp as (? & ? & ? & _). split; [cbn [new_frag fr_start]; lia|done]. }
  assert (Hso : StronglySorted before (pre ++ new_frag p :: post)).
  { apply sorted_insert; [by rewrite <- Hd|done|done]. }
  cbn [rd_flags setter].
  set (lf := is_last || flagset (rd_flags d) IP_REASS_FLAG_LASTFRAG).
  assert (Hst : fr_start (hd (new_frag p) (pre ++ new_frag p :: post)) =? 0
                = match pre ++ new_frag p :: post with f :: _ => fr_start f =? 0 | [] => false end).
  { by destruct pre. }
  assert (Hc : contiguous (pre ++ new_frag p :: post) = v && no_holes (new_frag p) post).
  { by rewrite contiguous_app, Hv. }
  assert (forall w, (w = TELEGRAM_FINISHED <-> complete (pre ++ new_frag p :: post) lf = true) ->
    (w = PBUF_QUEUED \/ w = TELEGRAM_FINISHED) ->
    exists d' v0, Some (d <| rd_p := pre ++ new_frag p :: post |>, w) = Some (d', v0) /\
      match v0 with
      | PBUF_DROPPED => d' = d /\ (lwip_htons (_len (pkt_hdr p)) < IP_HLEN \/
          fr_end (new_frag p) < fr_start (new_frag p) \/
          exists g, g ∈ rd_p d /\ ~ before g (new_frag p) /\ ~ before (new_frag p) g)
      | _ => exists pre0 post0, rd_p d = pre0 ++ post0 /\
        d' = d <| rd_p := pre0 ++ new_frag p :: post0 |> /\ frag_ok (new_frag p) /\
        StronglySorted before (rd_p d') /\ (v0 = TELEGRAM_FINISHED <-> complete (rd_p d') lf = true)
      end) as Hgo.
  { intros w Hw Hq. eexists _, w. split; [done|].
    destruct Hq as [-> | ->]; exists pre, post; do 4 (split; [done|]); exact Hw. }
  unfold complete in Hgo. rewrite Hc, <- Hst in Hgo.
  destruct lf eqn:Elf; [|apply Hgo; [by split|by left]].
  destruct v; [|apply Hgo; [by split|by left]].
  destruct (fr_start (hd _ _) =? 0) eqn:E0; cbn [negb];
    [|apply Hgo; [rewrite andb_false_r; by split|by left]].
  destruct (no_holes (new_frag p) post); [|apply Hgo; [by split|by left]].
  (* not the only fragment *)
  destruct (Nat.ltb_spec 1 (length (pre ++ new_frag p :: post))) as [|Hlen];
    [apply Hgo; [by split|by right]|].
  exfalso. rewrite length_app in Hlen. cbn [length] in Hlen.
  destruct pre; [|simpl in Hlen; lia]. destruct post; [|simpl in Hlen; lia].
  cbn [app hd] in E0. destruct Hnil as [_ Hfl]; [done|]. subst lf. rewrite Hfl, orb_false_r in Elf.
  subst is_last. apply (last_fragment_offset _ (pkt_hdr_ok p Hp) Hfr Elf).
  apply Z.eqb_eq in E0. exact E0.
Qed.

Lemma chain_frags_spec fs : forall p,
  Forall frag_ok fs ->
  exists p', chain_frags p fs = Some p' /\
    pk_octets p' = pk_octets p ++ concat (map (fun f => drop 20 (pk_octets (fr_pbuf f))) fs) /\
    Z.of_nat (length (pk_chunks p')) =
      Z.of_nat (length (pk_chunks p)) + sum_with (fun f => Z.of_nat (length (pk_chunks (fr_pbuf f)))) fs.
Proof.
  induction fs as [|f fs IH]; intros p Hf; cbn [chain_frags map concat].
  { exists p. rewrite app_nil_r, sum_with_nil. split; [done|]. split; [done|lia]. }
  rewrite Forall_cons in Hf. destruct Hf as [(_ & Hc & Hl & _) Hf].
  destruct (pk_remove_header_total IP_HLEN (fr_pbuf f) Hc Hl) as [q Hq].
  rewrite Hq. cbn [mbind option_bind].
  apply pk_remove_header_octets in Hq as [Hq Hql].
  destruct (IH (pk_cat p q) Hf) as (p' & -> & Ho & Hn). exists p'. split; [done|].
  rewrite Ho, pk_octets_cat, Hq, <- app_assoc. split; [done|].
  rewrite Hn, sum_with_cons, <- Hql. unfold pk_cat. cbn [pk_chunks]. rewrite length_app. lia.
Qed.

(** The header of a reassembled datagram. *)
Definition whole_header (h : ip_hdr) (datagram_len : Z) : ip_hdr :=
  let h := h <| _len := lwip_htons (u16 (datagram_len + IP_HLEN)) |>
             <| _offset := 0 |> <| _chksum := 0 |> in
  h <| _chksum := inet_chksum false (ip_hdr_octets h) |>.

Lemma finish_spec i d s :
  reassdatagrams s !! i = Some d -> Forall frag_ok (rd_p d) -> rd_p d <> [] ->
  queued d <= ip_reass_pbufcount s -> ip_reass_pbufcount s <= IP_REASS_MAX_PBUFS ->
  exists p, finish_datagram i s =
    Some (s <| reassdatagrams := delete i (reassdatagrams s) |>
            <| ip_reass_pbufcount := ip_reass_pbufcount s - queued d |>, Some p) /\
    pk_clen p = queued d /\
    pk_octets p = ip_hdr_octets (whole_header (rd_iphdr d) (rd_datagram_len d)) ++
                  concat (map (fun f => drop 20 (pk_octets (fr_pbuf f))) (rd_p d)).
Proof.
  intros E Hf Hn Hq Hm. unfold finish_datagram. rewrite E. cbn [mbind option_bind].
  unfold queued in *. destruct (rd_p d) as [|f fs]; [done|].
  rewrite Forall_cons in Hf. destruct Hf as [Hf1 Hfs].
  pose proof Hf1 as (_ & Hc & Hl & Hsm).
  fold (whole_header (rd_iphdr d) (rd_datagram_len d)).
  destruct (put_header_spec (whole_header (rd_iphdr d) (rd_datagram_len d)) (fr_pbuf f) Hc Hl)
    as (p1 & -> & _ & Ho1 & _ & _ & Hn1).
  cbn [mbind option_bind].
  destruct (chain_frags_spec fs p1 Hfs) as (p2 & -> & Ho2 & Hn2). cbn [mbind option_bind].
  assert (Hcl : pk_clen p2 = sum_with frag_clen (f :: fs)).
  { assert (Forall frag_ok (f :: fs)) as Hall by by constructor.
    unfold pk_clen. rewrite Hn2, Hn1, sum_with_cons. rewrite sum_with_cons in Hq.
    assert (sum_with (fun f => Z.of_nat (length (pk_chunks (fr_pbuf f)))) fs = sum_with frag_clen fs) as ->.
    { clear -Hfs. induction Hfs as [|g gs (_ & _ & _ & Hg) _ IH]; [done|].
      rewrite !sum_with_cons, IH. unfold frag_clen, pk_clen.
      rewrite u16_id by (unfold is_u16; lia). done. }
    pose proof (frags_clen_nonneg fs Hfs). unfold IP_REASS_MAX_PBUFS in Hm.
    unfold frag_clen, pk_clen in *.
    rewrite (u16_id (Z.of_nat (length (pk_chunks (fr_pbuf f))))) in * by (unfold is_u16; lia).
    apply u16_id. unfold is_u16. lia. }
  exists p2. cbn [reassdatagrams ip_reass_pbufcount setter]. rewrite Hcl.
  rewrite (proj2 (Z.leb_le _ _)) by done. split; [|split; [done|]].
  - rewrite u16_id; [done|]. pose proof (frags_clen_nonneg (f :: fs) ltac:(by constructor)).
    unfold IP_REASS_MAX_PBUFS in *. unfold is_u16. lia.
  - rewrite Ho2, Ho1. cbn [map concat]. by rewrite <- app_assoc.
Qed.

(** The state in which a fragment is put into entry [i]. *)
Definition ready (i : nat) (d : ip_reassdata) (clen : Z) (s : reass) : Prop :=
  reassdatagrams s !! i = Some d /\ entry_ok i d /\
  Forall datagram_ok (delete i (reassdatagrams s)) /\
  ip_reass_pbufcount s = sum_with queued (reassdatagrams s) /\
  ip_reass_pbufcount s + clen <= IP_REASS_MAX_PBUFS.

Definition balanced_out (s : reass) (n : Z) (res : reass * option pkt) : Prop :=
  reass_ok (fst res) /\ exists es, reass_events (fst res) = reass_events s ++ es /\
  ip_reass_pbufcount (fst res) + freed es + pbufs (snd res) = ip_reass_pbufcount s + n.

Lemma nullreturn_balanced p s :
  reass_ok s -> exists res, nullreturn p s = Some res /\ balanced_out s (pk_clen p) res.
Proof.
  intros Hs. eexists; split; [done|]. split; [exact Hs|]. exists [Free p].
  split; [done|]. unfold freed. rewrite sum_with_cons, sum_with_nil. cbn. lia.
Qed.

Lemma pkt_clen_pos p : pkt_ok p -> 1 <= pk_clen p.
Proof.
  intros (Hc & _ & Hl & _). unfold pk_clen. rewrite u16_id by (unfold is_u16; lia).
  destruct (pk_chunks p); [done|]. simpl. lia.
Qed.

Lemma nullreturn_ipr_balanced i d p s :
  ready i d (pk_clen p) s -> pkt_ok p ->
  exists res, nullreturn_ipr i p s = Some res /\ balanced_out s (pk_clen p) res.
Proof.
  intros (E & (Hf & Hso & Ht & Hnil) & Hoth & Hc & Hm) Hp. apply pkt_clen_pos in Hp.
  unfold nullreturn_ipr. rewrite E. cbn [mbind option_bind].
  pose proof (sum_with_delete queued _ _ _ E) as Hdel.
  destruct (rd_p d) as [|f fs] eqn:Ed.
  - destruct (Hnil eq_refl) as [-> _]. cbn [Nat.eqb].
    assert (queued d = 0) as Hq by (unfold queued; by rewrite Ed).
    destruct (nullreturn_balanced p (s <| reassdatagrams := delete 0%nat (reassdatagrams s) |>))
      as (res & -> & Hb).
    + split; [done|]. cbn [reassdatagrams ip_reass_pbufcount setter]. lia.
    + by exists res.
  - apply nullreturn_balanced. split; [|lia].
    rewrite delete_take_drop, Forall_app in Hoth. destruct Hoth as [H1 H2].
    rewrite <- (take_drop_middle _ _ _ E). apply Forall_app. split; [done|]. constructor; [|done].
    split; [by rewrite Ed|]. rewrite Ed. tauto.
Qed.

Lemma queued_insert pre post new :
  sum_with frag_clen (pre ++ new :: post) = sum_with frag_clen (pre ++ post) + frag_clen new.
Proof. rewrite !sum_with_app, sum_with_cons. lia. Qed.

(** The state of entry [i] after a fragment was queued in it. *)
Definition queue_frag (i : nat) (d : ip_reassdata) (fs : list frag) (p : pkt) (s : reass) : reass :=
  let h := pkt_hdr p in
  let d := d <| rd_p := fs |> in
  let d := if last_fragment h
           then d <| rd_datagram_len :=
                     u16 (IPH_OFFSET_BYTES h + u16 (lwip_htons (_len h) - IP_HLEN)) |>
                  <| rd_flags := Z.lor (rd_flags d) IP_REASS_FLAG_LASTFRAG |> else d in
  s <| ip_reass_pbufcount := ip_reass_pbufcount s + pk_clen p |>
    <| reassdatagrams := <[i := d]> (reassdatagrams s) |>.

Lemma delete_insert_same {A} (l : list A) i x : delete i (<[i := x]> l) = delete i l.
Proof.
  destruct (decide (i < length l)%nat); [|by rewrite list_insert_ge by lia].
  rewrite !delete_take_drop, take_insert_ge by lia. by rewrite drop_insert_lt by lia.
Qed.

Lemma queued_entry_bounds i d n s :
  ready i d n s -> 0 <= queued d /\ 0 <= ip_reass_pbufcount s.
Proof.
  intros (E & (Hf & _) & Hoth & Hc & _).
  pose proof (sum_with_delete queued _ _ _ E). pose proof (all_queued_nonneg _ Hoth).
  pose proof (frags_clen_nonneg _ Hf). unfold queued in *. lia.
Qed.

Lemma queue_frag_ok i d pre post p s :
  ready i d (pk_clen p) s -> pkt_ok p -> rd_p d = pre ++ post -> frag_ok (new_frag p) ->
  StronglySorted before (pre ++ new_frag p :: post) ->
  let fs := pre ++ new_frag p :: post in
  reass_ok (queue_frag i d fs p s) /\
  ip_reass_pbufcount (queue_frag i d fs p s) = ip_reass_pbufcount s + pk_clen p /\
  exists d', reassdatagrams (queue_frag i d fs p s) !! i = Some d' /\ rd_p d' = fs /\ Forall frag_ok fs.
Proof.
  intros (E & (Hf & Hs & Ht & _) & Hoth & Hc & Hm) Hp Hd Hnew Hso fs.
  assert (Hfs : Forall frag_ok fs).
  { subst fs. rewrite Hd, Forall_app in Hf. apply Forall_app. split; [tauto|]. constructor; tauto. }
  unfold queue_frag. cbn [reassdatagrams ip_reass_pbufcount setter].
  set (d1 := if last_fragment (pkt_hdr p) then _ else _).
  assert (rd_p d1 = fs /\ rd_timer d1 = rd_timer d) as [Hd1 Ht1] by (subst d1; by destruct (last_fragment _)).
  assert (Hlen : (i < length (reassdatagrams s))%nat) by (by eapply lookup_lt_Some).
  split; [|split; [done|]].
  - repeat split; cbn [reassdatagrams ip_reass_pbufcount setter].
    + rewrite insert_take_drop by done. rewrite delete_take_drop, Forall_app in Hoth.
      apply Forall_app. split; [tauto|]. constructor; [|tauto].
      split; [rewrite Hd1; by destruct pre|]. rewrite Hd1, Ht1. done.
    + rewrite (sum_with_insert _ _ _ _ _ E), Hc. unfold queued. rewrite Hd1, Hd. subst fs.
      rewrite queued_insert. unfold frag_clen, new_frag. cbn [fr_pbuf]. lia.
    + done.
  - exists d1. rewrite list_lookup_insert_eq by done. done.
Qed.

(** [reass_into]: the fragment is dropped, queued, or completes the datagram. *)
Lemma reass_into_spec i d p s :
  ready i d (pk_clen p) s -> pkt_ok p -> is_fragment (pkt_hdr p) = true ->
  IPH_HL_BYTES (pkt_hdr p) = IP_HLEN ->
  let h := pkt_hdr p in
  let offset := IPH_OFFSET_BYTES h in
  let len := u16 (lwip_htons (_len h) - IP_HLEN) in
  exists res, reass_into i p h offset len (pk_clen p) s = Some res /\
    balanced_out s (pk_clen p) res /\
    (nullreturn_ipr i p s = Some res /\
       (u16 (offset + len) < offset \/ 65535 - IP_HLEN < u16 (offset + len) \/
        lwip_htons (_len h) < IP_HLEN \/
        exists g, g ∈ rd_p d /\ ~ before g (new_frag p) /\ ~ before (new_frag p) g) \/
     exists pre post, rd_p d = pre ++ post /\
       StronglySorted before (pre ++ new_frag p :: post) /\
       let fs := pre ++ new_frag p :: post in
       let s' := queue_frag i d fs p s in
       if complete fs (last_fragment h || flagset (rd_flags d) IP_REASS_FLAG_LASTFRAG)
       then finish_datagram i s' = Some res else res = (s', None)).
Proof.
  intros Hr Hp Hfr Hhl h offset len.
  destruct (nullreturn_ipr_balanced i d p s Hr Hp) as (res0 & Hres0 & Hb0).
  unfold reass_into. fold (last_fragment h).
  destruct (last_fragment h && _) eqn:E1.
  { exists res0. split; [done|]. split; [done|]. left. split; [done|].
    apply andb_true_iff in E1 as [_ [E1|E1]%orb_true_iff]; apply Z.ltb_lt in E1; tauto. }
  pose proof Hr as (E & He & Hoth & Hc & Hm). rewrite E. cbn [mbind option_bind].
  destruct (chain_frag_spec i d p (last_fragment h) He Hp Hfr Hhl eq_refl) as (d' & v & -> & Hv).
  cbn [mbind option_bind].
  destruct (queued_entry_bounds i d (pk_clen p) s Hr) as [Hq0 Hc0].
  pose proof (pkt_clen_pos p Hp) as Hpos. unfold IP_REASS_MAX_PBUFS in Hm.
  destruct v; cycle 2.
  { destruct Hv as [_ Hv]. exists res0. split; [done|]. split; [done|]. left. tauto. }
  all: destruct Hv as (pre & post & Hd & -> & Hnew & Hso & Hfin).
  all: cbn [rd_p setter] in Hso, Hfin.
  all: set (fs := pre ++ new_frag p :: post) in *.
  all: rewrite (u16_id (ip_reass_pbufcount s + pk_clen p)) by (unfold is_u16; lia).
  all: destruct (queue_frag_ok i d pre post p s Hr Hp Hd Hnew Hso) as (Hok & Hq & Hlk).
  all: fold fs in Hok, Hq, Hlk.
  - destruct Hlk as (d1 & Hlk & Hfs & Hfok).
    destruct (finish_spec i d1 (queue_frag i d fs p s) Hlk) as (q & Hfq & Hcl & _);
      [by rewrite Hfs|rewrite Hfs; by destruct pre|rewrite (proj1 (proj2 Hok));
       exact (queued_le _ _ _ (proj1 Hok) Hlk)|apply Hok|].
    eexists. split; [exact Hfq|]. split.
    + destruct Hok as (Hok1 & Hok2 & Hok3). repeat split; cbn [fst snd reassdatagrams ip_reass_pbufcount setter reass_events].
      * by apply Forall_delete.
      * rewrite (sum_with_delete _ _ _ _ Hlk). cbn [reassdatagrams ip_reass_pbufcount setter queue_frag] in *. lia.
      * pose proof (frags_clen_nonneg (rd_p d1) ltac:(by rewrite Hfs)). unfold queued. lia.
      * exists []. rewrite app_nil_r. split; [done|]. unfold freed. rewrite sum_with_nil.
        cbn [pbufs]. rewrite Hcl. cbn [ip_reass_pbufcount setter queue_frag]. lia.
    + right. exists pre, post. split; [done|]. split; [done|]. fold fs. cbn zeta.
      rewrite (proj1 Hfin) by done. done.
  - eexists. split; [reflexivity|]. split.
    + split; [exact Hok|]. exists []. rewrite app_nil_r. split; [done|]. unfold freed.
      rewrite sum_with_nil. cbn. lia.
    + right. exists pre, post. split; [done|]. split; [done|]. fold fs. cbn zeta.
      destruct (complete fs _); [|done]. by destruct Hfin as [_ Hfin]; specialize (Hfin eq_refl).
Qed.

(** ** [ip4_reass] as a whole *)

Definition new_entry (h : ip_hdr) : ip_reassdata := IpReassdata [] h 0 0 IP_REASS_MAXAGE.

Lemma new_entry_ok h : entry_ok 0 (new_entry h).
Proof. repeat split; constructor || done. Qed.

(** The state with an empty entry in front. *)
Definition with_entry (h : ip_hdr) (s : reass) : reass :=
  s <| reassdatagrams := new_entry h :: reassdatagrams s |>.

Lemma with_entry_ready h n s :
  reass_ok s -> ip_reass_pbufcount s + n <= IP_REASS_MAX_PBUFS ->
  ready 0 (new_entry h) n (with_entry h s).
Proof.
  intros (Hd & Hc & _) Hm. unfold ready, with_entry. cbn [reassdatagrams ip_reass_pbufcount setter].
  split; [done|]. split; [apply new_entry_ok|]. split; [exact Hd|]. split; [|done].
  rewrite sum_with_cons, Hc. done.
Qed.

Lemma memp_malloc_balanced s : reass_ok s -> balanced s (snd (memp_malloc s)) 0.
Proof.
  intros Hs. unfold memp_malloc. destruct (reass_malloc s); [by apply balanced_refl|].
  split; [exact Hs|]. exists []. rewrite app_nil_r. split; [done|]. unfold freed.
  rewrite sum_with_nil. cbn. lia.
Qed.

Lemma event_clen_nonneg es : 0 <= freed es.
Proof.
  unfold freed. apply sum_with_nonneg, Forall_forall. intros e _. destruct e; [|done].
  cbn. unfold pk_clen. pose proof (u16_bound (Z.of_nat (length (pk_chunks p)))). word_lia.
Qed.

Lemma balanced_count_le s s' :
  balanced s s' 0 -> ip_reass_pbufcount s' <= ip_reass_pbufcount s.
Proof. intros [_ (es & _ & ?)]. pose proof (event_clen_nonneg es). lia. Qed.

Lemma enqueue_new_spec h clen s :
  reass_ok s ->
  exists s0 ok, balanced s s0 0 /\
    ip_reass_enqueue_new_datagram h clen s = Some (if (ok : bool) then with_entry h s0 else s0, ok).
Proof.
  intros Hs. unfold ip_reass_enqueue_new_datagram.
  pose proof (memp_malloc_balanced s Hs) as Hb.
  destruct (memp_malloc s) as [[] s1]; cbn [snd] in Hb.
  { cbn [mbind option_bind]. exists s1, true. split; done. }
  destruct (remove_oldest_spec h clen s1) as (s2 & n & -> & Hb2); [apply Hb|].
  cbn [mbind option_bind]. pose proof (balanced_trans _ _ _ 0 0 Hb Hb2) as Hb12.
  destruct (clen <=? n).
  - pose proof (memp_malloc_balanced s2 (proj1 Hb2)) as Hb3.
    pose proof (balanced_trans _ _ _ 0 0 Hb12 Hb3) as Hb13.
    destruct (memp_malloc s2) as [[] s3]; cbn [mbind option_bind snd] in *.
    + by exists s3, true.
    + by exists s3, false.
  - cbn [mbind option_bind]. by exists s2, false.
Qed.

Lemma find_datagram_lookup h l i :
  find_datagram h l = Some i ->
  exists d, l !! i = Some d /\ IP_ADDRESSES_AND_ID_MATCH (rd_iphdr d) h = true.
Proof.
  revert i. induction l as [|d l IH]; intros i; [done|]. cbn [find_datagram].
  destruct (IP_ADDRESSES_AND_ID_MATCH _ _) eqn:E; [intros [= <-]; by exists d|].
  destruct (find_datagram h l); [|done]. cbn. intros [= <-]. by apply IH.
Qed.

Lemma balanced_out_trans s s1 n res :
  balanced s s1 0 -> balanced_out s1 n res -> balanced_out s n res.
Proof.
  intros [_ (es1 & E1 & C1)] [H (es2 & E2 & C2)]. split; [done|].
  exists (es1 ++ es2). rewrite E2, E1, app_assoc. split; [done|].
  unfold freed in *. rewrite sum_with_app. lia.
Qed.

(** Keeping the first fragment's header. *)
Definition update_header (h : ip_hdr) (ipr : ip_reassdata) : ip_reassdata :=
  if (Z.land (lwip_htons (_offset h)) IP_OFFMASK =? 0)
     && negb (Z.land (lwip_htons (_offset (rd_iphdr ipr))) IP_OFFMASK =? 0)
  then ipr <| rd_iphdr := h |> else ipr.

Lemma update_header_ready h i d n s :
  reass_ok s -> reassdatagrams s !! i = Some d ->
  ip_reass_pbufcount s + n <= IP_REASS_MAX_PBUFS ->
  ready i (update_header h d) n (s <| reassdatagrams := <[i := update_header h d]> (reassdatagrams s) |>).
Proof.
  intros (Hd & Hc & _) E Hm. unfold ready. cbn [reassdatagrams ip_reass_pbufcount setter].
  assert (Hlen : (i < length (reassdatagrams s))%nat) by (by eapply lookup_lt_Some).
  assert (datagram_ok d) as Hok by (rewrite Forall_forall in Hd; apply Hd; by eapply list_elem_of_lookup_2).
  assert (rd_p (update_header h d) = rd_p d /\ rd_timer (update_header h d) = rd_timer d) as [H1 H2]
    by (unfold update_header; by destruct (_ && _)).
  split; [by rewrite list_lookup_insert_eq|].
  split; [apply entry_ok_datagram; unfold datagram_ok; by rewrite H1, H2|].
  rewrite delete_insert_same. split; [by apply Forall_delete|]. split; [|done].
  rewrite (sum_with_insert _ _ _ _ _ E), Hc. unfold queued. rewrite H1. lia.
Qed.

Lemma ip4_reass_safe_lemma s p :
  reass_ok s -> pkt_ok p -> is_fragment (ip_hdr_of (hd [] (pk_chunks p))) = true ->
  exists s' r es, ip4_reass p s = Some (s', r) /\ reass_ok s' /\
    reass_events s' = reass_events s ++ es /\
    ip_reass_pbufcount s' + freed es + pbufs r = ip_reass_pbufcount s + pk_clen p.
Proof.
  intros Hs Hp Hfr. fold (pkt_hdr p) in Hfr.
  enough (exists res, ip4_reass p s = Some res /\ balanced_out s (pk_clen p) res) as H.
  { destruct H as ([s' r] & H & Hok & es & He & Hc). by exists s', r, es. }
  unfold ip4_reass. fold (pkt_hdr p). pose proof (nullreturn_balanced p s Hs) as Hnull.
  destruct (Z.eqb_spec (IPH_HL_BYTES (pkt_hdr p)) IP_HLEN) as [Hhl|]; [|exact Hnull].
  cbn [negb]. rewrite Hhl. destruct (_ <? IP_HLEN); [exact Hnull|].
  set (room := if IP_REASS_MAX_PBUFS <? ip_reass_pbufcount s + pk_clen p then _ else _).
  assert (exists s1 ok, room = Some (s1, ok) /\ balanced s s1 0 /\
    (ok = true -> ip_reass_pbufcount s1 + pk_clen p <= IP_REASS_MAX_PBUFS)) as (s1 & ok & -> & Hb1 & Hm).
  { subst room. destruct (Z.ltb_spec IP_REASS_MAX_PBUFS (ip_reass_pbufcount s + pk_clen p)).
    - destruct (remove_oldest_spec (pkt_hdr p) (pk_clen p) s Hs) as (s1 & n & -> & Hb).
      cbn [mbind option_bind]. eexists _, _. split; [done|]. split; [done|].
      intros [_ ?%Z.ltb_ge]%negb_true_iff%orb_false_iff. done.
    - exists s, true. split; [done|]. split; [by apply balanced_refl|done]. }
  cbn [mbind option_bind].
  enough (exists res, (if negb ok then nullreturn p s1 else
    match find_datagram (pkt_hdr p) (reassdatagrams s1) with
    | None => '(s, ok) ← ip_reass_enqueue_new_datagram (pkt_hdr p) (pk_clen p) s1;
        if (ok : bool) then reass_into 0 p (pkt_hdr p) (IPH_OFFSET_BYTES (pkt_hdr p))
                              (u16 (lwip_htons (_len (pkt_hdr p)) - IP_HLEN)) (pk_clen p) s
        else nullreturn p s
    | Some i => ipr ← reassdatagrams s1 !! i;
        reass_into i p (pkt_hdr p) (IPH_OFFSET_BYTES (pkt_hdr p))
          (u16 (lwip_htons (_len (pkt_hdr p)) - IP_HLEN)) (pk_clen p)
          (s1 <| reassdatagrams := <[i := update_header (pkt_hdr p) ipr]> (reassdatagrams s1) |>)
    end) = Some res /\ balanced_out s1 (pk_clen p) res) as (res & Hres & Hbo).
  { exists res. split; [exact Hres|]. by eapply balanced_out_trans. }
  destruct ok; cbn [negb]; [|apply nullreturn_balanced, Hb1]. specialize (Hm eq_refl).
  destruct (find_datagram _ _) as [i|] eqn:Ei.
  - apply find_datagram_lookup in Ei as (d & Ed & _). rewrite Ed. cbn [mbind option_bind].
    pose proof (update_header_ready (pkt_hdr p) i d _ s1 (proj1 Hb1) Ed Hm) as Hr.
    destruct (reass_into_spec i _ p _ Hr Hp Hfr Hhl) as (res & -> & Hb & _). by exists res.
  - destruct (enqueue_new_spec (pkt_hdr p) (pk_clen p) s1 (proj1 Hb1)) as (s2 & ok & Hb2 & ->).
    cbn [mbind option_bind]. destruct ok.
    + assert (Hm2 : ip_reass_pbufcount s2 + pk_clen p <= IP_REASS_MAX_PBUFS)
        by (apply balanced_count_le in Hb2; lia).
      pose proof (with_entry_ready (pkt_hdr p) (pk_clen p) s2 (proj1 Hb2) Hm2) as Hr.
      destruct (reass_into_spec 0 _ p _ Hr Hp Hfr Hhl) as (res & -> & Hb & _).
      exists res. split; [done|]. by eapply balanced_out_trans.
    + destruct (nullreturn_balanced p s2 (proj1 Hb2)) as (res & -> & Hb).
      exists res. split; [done|]. by eapply balanced_out_trans.
Qed.

(** C17: No sequence of fragments can stop the reassembly code or make it hold
    more than [IP_REASS_MAX_PBUFS] pbufs: every call returns, keeps the queues
    sorted and free of overlaps, and accounts for every pbuf (queued, freed or
    handed up), whether or not memory is short. *)
Theorem ip4_reass_safe s p :
  reass_ok s -> pkt_ok p -> is_fragment (ip_hdr_of (hd [] (pk_chunks p))) = true ->
  exists s' r es, ip4_reass p s = Some (s', r) /\ reass_ok s' /\
    reass_events s' = reass_events s ++ es /\
    ip_reass_pbufcount s' + freed es + pbufs r = ip_reass_pbufcount s + pk_clen p.
Proof. apply ip4_reass_safe_lemma. Qed.

(** ** Reassembling one datagram *)

Section datagram.

(** The payload of the datagram and what its fragments have in common. *)
Context (D : list Z) (K : ip_hdr).
Let L : Z := Z.of_nat (length D).

Definition slice (a b : Z) : list Z := take (Z.to_nat (b - a)) (drop (Z.to_nat a) D).

Definition piece_start (p : pkt) : Z := IPH_OFFSET_BYTES (pkt_hdr p).
Definition piece_len (p : pkt) : Z := lwip_htons (_len (pkt_hdr p)) - IP_HLEN.
Definition piece_end (p : pkt) : Z := piece_start p + piece_len p.

(** [p] is a fragment that carries a non-empty part of [D]. *)
Definition is_piece (p : pkt) : Prop :=
  pkt_ok p /\ is_fragment (pkt_hdr p) = true /\ IPH_HL_BYTES (pkt_hdr p) = IP_HLEN /\
  IP_ADDRESSES_AND_ID_MATCH K (pkt_hdr p) = true /\
  0 < piece_len p /\ piece_end p <= L /\
  last_fragment (pkt_hdr p) = (piece_end p =? L) /\
  drop 20 (pk_octets p) = slice (piece_start p) (piece_end p).

Definition disjoint_pieces (p q : pkt) : Prop :=
  piece_end p <= piece_start q \/ piece_end q <= piece_start p.

Context (HL : L <= 65535 - IP_HLEN).

Lemma piece_bounds p :
  is_piece p ->
  0 <= piece_start p < piece_end p /\ piece_end p <= L /\
  u16 (lwip_htons (_len (pkt_hdr p)) - IP_HLEN) = piece_len p /\
  new_frag p = Frag (piece_start p) (piece_end p) p.
Proof.
  intros (Hp & _ & _ & _ & Hl & He & _). pose proof (pkt_hdr_ok p Hp) as Hh.
  destruct (offset_bytes_eq _ Hh) as [_ Ho]. unfold piece_end, piece_len in *.
  unfold piece_start in *. unfold IP_HLEN in *.
  assert (E : u16 (lwip_htons (_len (pkt_hdr p)) - 20) = lwip_htons (_len (pkt_hdr p)) - 20)
    by (apply u16_id; unfold is_u16; lia).
  split; [lia|]. split; [done|]. split; [done|]. unfold new_frag, IP_HLEN. rewrite E.
  f_equal. apply u16_id. unfold is_u16. lia.
Qed.

(** The fragments [fs] fill [D] from [lo] on. *)
Fixpoint covers (lo : Z) (fs : list frag) : bool :=
  match fs with
  | [] => lo =? L
  | f :: r => (fr_start f =? lo) && covers (fr_end f) r
  end.

Definition frag_size (f : frag) : Z := fr_end f - fr_start f.

Lemma covers_sum fs : forall lo,
  StronglySorted before fs -> lo <= L ->
  Forall (fun f => lo <= fr_start f /\ fr_start f < fr_end f /\ fr_end f <= L) fs ->
  sum_with frag_size fs <= L - lo /\
  (covers lo fs = true <-> sum_with frag_size fs = L - lo).
Proof.
  induction fs as [|f fs IH]; intros lo Hs Hlo Hf; cbn [covers].
  { rewrite sum_with_nil. split; [lia|]. rewrite Z.eqb_eq. lia. }
  inversion Hs as [|? ? Hs' Hall]; subst. rewrite Forall_cons in Hf. destruct Hf as [Hf Hfs].
  destruct (IH (fr_end f)) as [IH1 IH2]; [done|lia| |].
  { rewrite Forall_forall in *. intros g Hg. specialize (Hfs g Hg). specialize (Hall g Hg).
    destruct Hall. lia. }
  rewrite sum_with_cons. unfold frag_size at 1 3. split; [lia|].
  rewrite andb_true_iff, Z.eqb_eq, IH2. lia.
Qed.

Lemma covers_complete fs lf :
  StronglySorted before fs -> Forall (fun f => fr_start f < fr_end f /\ fr_end f <= L) fs ->
  fs <> [] -> (lf = true <-> exists f, f ∈ fs /\ fr_end f = L) ->
  complete fs lf = covers 0 fs.
Proof.
  intros Hs Hf Hn Hlf. unfold complete.
  assert (Hc : forall g gs, StronglySorted before (g :: gs) ->
            Forall (fun f => fr_start f < fr_end f /\ fr_end f <= L) (g :: gs) ->
            covers (fr_start g) (g :: gs) = true <->
            no_holes g gs = true /\ exists f, f ∈ g :: gs /\ fr_end f = L).
  { clear. intros g gs. revert g. induction gs as [|k gs IH]; intros g Hs Hf.
    - cbn [covers no_holes]. rewrite Z.eqb_refl. cbn [andb]. rewrite Z.eqb_eq. split.
      + intros E. split; [done|]. exists g. split; [by left|done].
      + intros [_ (f & [-> |Hin]%elem_of_cons & E)]; [done|inversion Hin].
    - inversion Hs as [|? ? Hs' Hall]; subst. rewrite Forall_cons in Hf. destruct Hf as [Hg Hf].
      specialize (IH k Hs' Hf). cbn [covers no_holes] in *. rewrite Z.eqb_refl in *. cbn [andb] in *.
      rewrite andb_true_iff, IH, Z.eqb_eq. clear IH.
      destruct (Z.eqb_spec (fr_end g) (fr_start k)) as [E|E]; cbn [negb].
      + split.
        * intros [_ [H (f & Hin & Ef)]]. split; [done|]. exists f. split; [by right|done].
        * intros [H (f & Hin & Ef)]. split; [done|]. split; [done|].
          apply elem_of_cons in Hin as [-> |Hin]; [|by exists f].
          rewrite Forall_cons in Hf. lia.
      + split; [intros [? _]; lia|intros [? _]; done]. }
  destruct fs as [|f fs]; [done|]. specialize (Hc f fs Hs Hf).
  apply eq_true_iff_eq. rewrite !andb_true_iff, Z.eqb_eq, Hlf. cbn [contiguous].
  split.
  - intros [[H1 H2] H3]. rewrite H3 in Hc. by apply Hc.
  - intros H. assert (H3 : fr_start f = 0) by (cbn in H; lia). rewrite H3 in Hc. tauto.
Qed.

Lemma covers_last fs : forall lo,
  covers lo fs = true -> fs = [] \/ exists f, f ∈ fs /\ fr_end f = L.
Proof.
  induction fs as [|f fs IH]; intros lo Hc; [by left|]. right. cbn [covers] in Hc.
  apply andb_true_iff in Hc as [_ Hc]. destruct (IH _ Hc) as [-> |(g & Hg & E)].
  - cbn in Hc. exists f. split; [by left|lia].
  - exists g. split; [by right|done].
Qed.

Lemma covers_head fs lo :
  covers lo fs = true -> lo < L -> exists f, f ∈ fs /\ fr_start f = lo.
Proof.
  destruct fs as [|f fs]; cbn [covers]; [lia|]. intros [? _]%andb_true_iff _.
  exists f. split; [by left|lia].
Qed.

(** What the fragments carry is [D]. *)
Lemma covers_octets fs : forall lo,
  covers lo fs = true -> 0 <= lo ->
  Forall (fun f => fr_start f < fr_end f /\ fr_end f <= L /\
                   drop 20 (pk_octets (fr_pbuf f)) = slice (fr_start f) (fr_end f)) fs ->
  concat (map (fun f => drop 20 (pk_octets (fr_pbuf f))) fs) = drop (Z.to_nat lo) D.
Proof.
  induction fs as [|f fs IH]; intros lo Hc Hlo Hf; cbn [covers map concat] in *.
  { apply Z.eqb_eq in Hc. rewrite drop_ge; [done|]. lia. }
  apply andb_true_iff in Hc as [<-%Z.eqb_eq Hc]. rewrite Forall_cons in Hf.
  destruct Hf as [(H1 & H2 & ->) Hf]. rewrite (IH _ Hc) by (done || lia).
  unfold slice. rewrite <- (take_drop (Z.to_nat (fr_end f - fr_start f)) (drop (Z.to_nat (fr_start f)) D)) at 2.
  rewrite drop_drop. do 2 f_equal. lia.
Qed.

(** An entry that holds pieces of [D] only. *)
Definition collecting (d : ip_reassdata) : Prop :=
  Forall (fun f => is_piece (fr_pbuf f) /\ f = new_frag (fr_pbuf f)) (rd_p d) /\
  IP_ADDRESSES_AND_ID_MATCH (rd_iphdr d) K = true /\
  (flagset (rd_flags d) IP_REASS_FLAG_LASTFRAG = true <-> exists f, f ∈ rd_p d /\ fr_end f = L) /\
  (flagset (rd_flags d) IP_REASS_FLAG_LASTFRAG = true -> rd_datagram_len d = L) /\
  Forall (fun f => fr_start f = 0 -> rd_iphdr d = pkt_hdr (fr_pbuf f)) (rd_p d).

Lemma new_entry_collecting h :
  IP_ADDRESSES_AND_ID_MATCH h K = true -> collecting (new_entry h).
Proof.
  intros Hk. unfold collecting, new_entry. cbn [rd_p rd_iphdr rd_flags rd_datagram_len].
  split; [constructor|]. split; [done|]. split; [|split; [done|constructor]].
  split; [done|]. intros (f & Hf & _). inversion Hf.
Qed.

Lemma lor_lastfrag fl : flagset (Z.lor fl IP_REASS_FLAG_LASTFRAG) IP_REASS_FLAG_LASTFRAG = true.
Proof.
  unfold flagset, IP_REASS_FLAG_LASTFRAG. rewrite Z.land_lor_distr_l.
  destruct (Z.eqb_spec (Z.lor (Z.land fl 1) (Z.land 1 1)) 0) as [E|]; [|done].
  apply Z.lor_eq_0_iff in E as [_ E]. done.
Qed.

Lemma piece_frags_bounds fs :
  Forall (fun f => is_piece (fr_pbuf f) /\ f = new_frag (fr_pbuf f)) fs ->
  Forall (fun f => fr_start f < fr_end f /\ fr_end f <= L /\
                   drop 20 (pk_octets (fr_pbuf f)) = slice (fr_start f) (fr_end f)) fs.
Proof.
  intros H. eapply Forall_impl; [exact H|]. intros f [Hp Hf]. cbn.
  destruct (piece_bounds _ Hp) as (H1 & H2 & _ & H4). rewrite Hf, H4. cbn [fr_start fr_end fr_pbuf].
  split; [lia|]. split; [done|]. apply Hp.
Qed.

Lemma frag_sizes_nonneg fs :
  Forall (fun f => is_piece (fr_pbuf f) /\ f = new_frag (fr_pbuf f)) fs ->
  0 <= sum_with frag_size fs.
Proof.
  intros H. apply sum_with_nonneg. eapply Forall_impl; [by apply piece_frags_bounds|].
  intros f (? & _ & _). cbn. unfold frag_size. lia.
Qed.

(** Disjoint pieces are ordered. *)
Lemma disjoint_before p g :
  is_piece p -> is_piece (fr_pbuf g) -> g = new_frag (fr_pbuf g) -> disjoint_pieces p (fr_pbuf g) ->
  before g (new_frag p) \/ before (new_frag p) g.
Proof.
  intros Hp Hg E Hd. destruct (piece_bounds _ Hp) as (? & _ & _ & ->).
  destruct (piece_bounds _ Hg) as (? & _ & _ & E'). rewrite E, E'.
  unfold before. cbn [fr_start fr_end]. destruct Hd; [right|left]; lia.
Qed.

(** The entry after a piece was queued still holds pieces only. *)
Lemma queue_collecting i d pre post p s :
  collecting d -> is_piece p -> rd_p d = pre ++ post ->
  (piece_start p = 0 -> rd_iphdr d = pkt_hdr p) ->
  reassdatagrams s !! i = Some d ->
  exists d', reassdatagrams (queue_frag i d (pre ++ new_frag p :: post) p s)
             = <[i := d']> (reassdatagrams s) /\
    rd_p d' = pre ++ new_frag p :: post /\ rd_iphdr d' = rd_iphdr d /\ collecting d' /\
    flagset (rd_flags d') IP_REASS_FLAG_LASTFRAG =
      last_fragment (pkt_hdr p) || flagset (rd_flags d) IP_REASS_FLAG_LASTFRAG.
Proof.
  intros (Hf & Hk & Hlf & Hdl & Hh) Hp Hd Hst E.
  destruct (piece_bounds _ Hp) as (Hb1 & Hb2 & Hb3 & Hb4).
  pose proof Hp as (_ & _ & _ & _ & _ & _ & Hlast & _).
  unfold queue_frag. cbn [reassdatagrams setter].
  set (d1 := if last_fragment (pkt_hdr p) then _ else _).
  assert (rd_p d1 = pre ++ new_frag p :: post /\ rd_iphdr d1 = rd_iphdr d) as [Hd1 Hi1]
    by (subst d1; by destruct (last_fragment _)).
  assert (Hall : forall P, (forall f, f ∈ rd_p d -> P f) -> P (new_frag p) ->
                 Forall P (pre ++ new_frag p :: post)).
  { intros P H1 H2. rewrite Hd in H1. apply Forall_app. rewrite Forall_cons, !Forall_forall.
    repeat split; [|done|]; intros f Hin; apply H1, elem_of_app; tauto. }
  assert (Hlf1 : flagset (rd_flags d1) IP_REASS_FLAG_LASTFRAG
                 = last_fragment (pkt_hdr p) || flagset (rd_flags d) IP_REASS_FLAG_LASTFRAG).
  { subst d1. destruct (last_fragment _); cbn [rd_flags setter orb]; [apply lor_lastfrag|done]. }
  exists d1. split; [done|]. split; [done|]. split; [done|]. split; [|done].
  unfold collecting. rewrite Hd1, Hi1, Hlf1. rewrite Forall_forall in Hf, Hh.
  split; [|split; [done|split; [|split]]].
  - apply Hall; [exact Hf|]. cbn. by rewrite Hb4.
  - rewrite orb_true_iff, Hlf, Hlast, Z.eqb_eq. split.
    + intros [H|(f & Hin & He)].
      * exists (new_frag p). split; [apply elem_of_app; right; by left|by rewrite Hb4].
      * exists f. rewrite Hd, elem_of_app in Hin. split; [|done]. rewrite elem_of_app, elem_of_cons. tauto.
    + intros (f & Hin & He). rewrite elem_of_app, elem_of_cons in Hin.
      destruct Hin as [?|[-> |?]]; [right; exists f; rewrite Hd, elem_of_app; tauto|left; by rewrite Hb4 in He|
        right; exists f; rewrite Hd, elem_of_app; tauto].
  - subst d1. rewrite Hlast. destruct (Z.eqb_spec (piece_end p) L) as [El|];
      cbn [rd_datagram_len setter orb]; [intros _|exact Hdl].
    rewrite Hb3. fold (piece_start p). fold (piece_end p). rewrite El.
    apply u16_id. unfold is_u16, IP_HLEN in *. lia.
  - apply Hall; [exact Hh|]. rewrite Hb4. cbn [fr_start fr_pbuf]. exact Hst.
Qed.

(** None of the reasons to drop a fragment holds of a piece. *)
Lemma piece_not_dropped d p :
  collecting d -> is_piece p -> Forall (fun f => disjoint_pieces p (fr_pbuf f)) (rd_p d) ->
  let offset := IPH_OFFSET_BYTES (pkt_hdr p) in
  let len := u16 (lwip_htons (_len (pkt_hdr p)) - IP_HLEN) in
  ~ (u16 (offset + len) < offset \/ 65535 - IP_HLEN < u16 (offset + len) \/
     lwip_htons (_len (pkt_hdr p)) < IP_HLEN \/
     exists g, g ∈ rd_p d /\ ~ before g (new_frag p) /\ ~ before (new_frag p) g).
Proof.
  intros (Hf & _) Hp Hdis offset len Hdrop. subst offset len. pose proof Hp as (_ & _ & _ & _ & Hlen & _).
  destruct (piece_bounds _ Hp) as (Hb1 & Hb2 & Hb3 & _).
  fold (piece_start p) in Hdrop. rewrite Hb3 in Hdrop. fold (piece_end p) in Hdrop.
  rewrite u16_id in Hdrop by (unfold is_u16, IP_HLEN in *; lia).
  unfold piece_len, IP_HLEN in *.
  destruct Hdrop as [?|[?|[?|(g & Hg & H1 & H2)]]]; [lia..|].
  rewrite Forall_forall in Hf, Hdis.
  destruct (Hf g Hg) as [Hgp Hge]. specialize (Hdis g Hg).
  destruct (disjoint_before p g Hp Hgp Hge Hdis); tauto.
Qed.

(** One piece: queued, unless it completes the datagram. *)
Lemma reass_into_piece d l p s :
  reassdatagrams s = d :: l -> ready 0 d (pk_clen p) s -> collecting d -> is_piece p ->
  Forall (fun f => disjoint_pieces p (fr_pbuf f)) (rd_p d) ->
  (piece_start p = 0 -> rd_iphdr d = pkt_hdr p) ->
  let total := piece_len p + sum_with frag_size (rd_p d) in
  exists s' r, reass_into 0 p (pkt_hdr p) (IPH_OFFSET_BYTES (pkt_hdr p))
      (u16 (lwip_htons (_len (pkt_hdr p)) - IP_HLEN)) (pk_clen p) s = Some (s', r) /\
    reass_ok s' /\ total <= L /\ reass_malloc s' = reass_malloc s /\
    if total =? L then
      reassdatagrams s' = l /\ ip_reass_pbufcount s' = ip_reass_pbufcount s - queued d /\
      exists q f, r = Some q /\ f ∈ new_frag p :: rd_p d /\ fr_start f = 0 /\
        pk_octets q = ip_hdr_octets (whole_header (pkt_hdr (fr_pbuf f)) L) ++ D
    else
      r = None /\ ip_reass_pbufcount s' = ip_reass_pbufcount s + pk_clen p /\
      exists d', reassdatagrams s' = d' :: l /\ collecting d' /\ rd_iphdr d' = rd_iphdr d /\
                 rd_p d' ≡ₚ new_frag p :: rd_p d.
Proof.
  intros El Hr Hcol Hp Hdis Hst total.
  pose proof Hp as (Hpk & Hfr & Hhl & _ & Hlen & _).
  destruct (piece_bounds _ Hp) as (Hb1 & Hb2 & Hb3 & Hb4).
  destruct (reass_into_spec 0 d p s Hr Hpk Hfr Hhl) as ([s' r] & Hres & [Hok (es & _ & Hbal)] & Hcase).
  cbn [fst snd] in Hok, Hbal. exists s', r. split; [exact Hres|]. split; [done|].
  destruct Hcase as [[_ Hdrop]|(pre & post & Hd & Hso & Hcase)].
  { exfalso. by apply (piece_not_dropped d p). }
  pose proof Hr as Hr'. destruct Hr as (E & _ & _ & _ & Hm).
  destruct (queue_collecting 0 d pre post p s Hcol Hp Hd Hst E)
    as (d' & Hl' & Hd' & Hi' & Hcol' & Hlf').
  cbv zeta in Hcase.
  set (fs := pre ++ new_frag p :: post) in *. rewrite El in Hl'. cbn [insert list_insert] in Hl'.
  rewrite <- Hlf' in Hcase.
  pose proof Hcol' as (Hf' & _ & Hlast' & Hdl' & _). rewrite Hd' in Hf', Hlast'.
  pose proof (piece_frags_bounds fs Hf') as Hbnd.
  assert (Hbnd2 : Forall (fun f => fr_start f < fr_end f /\ fr_end f <= L) fs)
    by (eapply Forall_impl; [exact Hbnd|]; cbn; tauto).
  assert (Hsum : sum_with frag_size fs = total).
  { subst fs total. rewrite Hd, !sum_with_app, sum_with_cons, Hb4. unfold frag_size at 2.
    cbn [fr_start fr_end]. unfold piece_end. lia. }
  assert (Hpos : Forall (fun f => 0 <= fr_start f /\ fr_start f < fr_end f /\ fr_end f <= L) fs).
  { eapply Forall_impl; [exact Hf'|]. intros f [Hfp Hfe]. cbn.
    destruct (piece_bounds _ Hfp) as (? & ? & _ & Hfb). rewrite Hfe, Hfb. cbn. lia. }
  destruct (covers_sum fs 0 Hso ltac:(unfold L; lia) Hpos) as [Hle Hcov].
  rewrite (covers_complete fs _ Hso Hbnd2 ltac:(by destruct pre) Hlast') in Hcase.
  rewrite Hsum, Z.sub_0_r in Hle, Hcov. split; [done|].
  assert (Hq : reassdatagrams (queue_frag 0 d fs p s) !! 0%nat = Some d') by by rewrite Hl'.
  destruct (Z.eqb_spec total L) as [Et|Et].
  - rewrite (proj2 Hcov Et) in Hcase.
    assert (Hqn : queued d' = queued d + pk_clen p).
    { unfold queued. rewrite Hd', Hd. subst fs. rewrite queued_insert. done. }
    destruct (queued_entry_bounds 0 d (pk_clen p) s Hr') as [Hq0 Hc0].
    assert (Hqs : queued d <= ip_reass_pbufcount s).
    { destruct Hr' as (_ & _ & Hoth & Hc & _). rewrite Hc, El. cbn [delete list_delete] in Hoth.
      rewrite El in Hoth. apply all_queued_nonneg in Hoth. rewrite sum_with_cons.
      cbn [delete list_delete] in Hoth. lia. }
    assert (Hnew : frag_ok (new_frag p)).
    { destruct Hpk as (? & ? & ? & _). rewrite Hb4. repeat split; cbn; try done; lia. }
    destruct (queue_frag_ok 0 d pre post p s Hr' Hpk Hd Hnew Hso) as (_ & _ & _ & _ & _ & Hfok).
    destruct (finish_spec 0 d' (queue_frag 0 d fs p s) Hq) as (q & Hfq & _ & Ho);
      [by rewrite Hd'|rewrite Hd'; by destruct pre|
       cbn [queue_frag ip_reass_pbufcount setter]; lia|
       cbn [queue_frag ip_reass_pbufcount setter]; lia|].
    rewrite Hfq in Hcase. injection Hcase as <- <-.
    cbn [reass_malloc reassdatagrams ip_reass_pbufcount setter queue_frag].
    split; [done|]. split; [by rewrite El|]. split; [lia|].
    destruct (covers_head fs 0 (proj2 Hcov Et)) as (f & Hin & Hf0);
      [unfold L; subst total; pose proof (frag_sizes_nonneg (rd_p d) (proj1 Hcol)); lia|].
    pose proof Hcol' as (_ & _ & _ & _ & Hh'). rewrite Hd', Forall_forall in Hh'.
    exists q, f. split; [done|].
    split; [subst fs; rewrite Hd; by rewrite <- Permutation_middle in Hin|]. split; [done|].
    rewrite Ho, Hd', <- (Hh' f Hin Hf0). f_equal.
    + f_equal. f_equal. apply Hdl'. apply Hlast'.
      destruct (covers_last fs 0 (proj2 Hcov Et)) as [?|?]; [by destruct pre|done].
    + rewrite (covers_octets fs 0 (proj2 Hcov Et)) by done. done.
  - destruct (covers 0 fs) eqn:Ec; [by rewrite (proj1 Hcov eq_refl) in Et|].
    injection Hcase as -> ->. split; [done|]. split; [done|]. split; [done|].
    exists d'. split; [exact Hl'|]. split; [done|]. split; [done|].
    rewrite Hd', Hd. subst fs. by rewrite Permutation_middle.
Qed.

(** The entry's header is that of the first fragment only if that one is queued. *)
Definition header_queued (d : ip_reassdata) : Prop :=
  IPH_OFFSET_BYTES (rd_iphdr d) = 0 -> exists f, f ∈ rd_p d /\ fr_start f = 0.

Lemma match_key a b :
  IP_ADDRESSES_AND_ID_MATCH a b = true <->
  iph_src a = iph_src b /\ iph_dest a = iph_dest b /\ _id a = _id b.
Proof.
  unfold IP_ADDRESSES_AND_ID_MATCH, ip4_addr_cmp. rewrite !andb_true_iff, !Z.eqb_eq. tauto.
Qed.

Lemma piece_key p h :
  is_piece p -> IP_ADDRESSES_AND_ID_MATCH h (pkt_hdr p) = IP_ADDRESSES_AND_ID_MATCH h K.
Proof.
  intros (_ & _ & _ & Hk & _). apply eq_true_iff_eq. rewrite !match_key in *.
  destruct Hk as (-> & -> & ->). done.
Qed.

Lemma find_datagram_key p l : is_piece p -> find_datagram (pkt_hdr p) l = find_datagram K l.
Proof.
  intros Hp. induction l as [|d l IH]; [done|]. cbn [find_datagram]. by rewrite piece_key, IH.
Qed.

(** Updating the header for the first fragment. *)
Lemma update_header_collecting p d :
  is_piece p -> collecting d -> header_queued d ->
  Forall (fun f => disjoint_pieces p (fr_pbuf f)) (rd_p d) ->
  collecting (update_header (pkt_hdr p) d) /\ rd_p (update_header (pkt_hdr p) d) = rd_p d /\
  (piece_start p = 0 -> rd_iphdr (update_header (pkt_hdr p) d) = pkt_hdr p) /\
  (piece_start p <> 0 -> rd_iphdr (update_header (pkt_hdr p) d) = rd_iphdr d).
Proof.
  intros Hp Hcol Hq Hdis. pose proof Hcol as (Hf & Hk & Hlf & Hdl & Hh).
  destruct (piece_bounds _ Hp) as (Hb & _).
  assert (Hp0 : piece_start p = 0 -> forall f, f ∈ rd_p d -> fr_start f <> 0).
  { intros E f Hin E'. rewrite Forall_forall in Hf, Hdis. destruct (Hf f Hin) as [Hfp Hfe].
    specialize (Hdis f Hin). destruct (piece_bounds _ Hfp) as (? & _ & _ & Hfb).
    rewrite Hfe, Hfb in E'. cbn in E'. destruct Hdis; lia. }
  assert (Hoff : piece_start p = 0 <-> Z.land (lwip_htons (_offset (pkt_hdr p))) IP_OFFMASK = 0).
  { unfold piece_start. destruct (offset_bytes_eq _ (pkt_hdr_ok p (proj1 Hp))) as [-> _]. lia. }
  unfold update_header.
  destruct (Z.eqb_spec (Z.land (lwip_htons (_offset (pkt_hdr p))) IP_OFFMASK) 0) as [E|E];
    cbn [andb]; [|by repeat split; tauto || intros].
  destruct (Z.eqb_spec (Z.land (lwip_htons (_offset (rd_iphdr d))) IP_OFFMASK) 0) as [E'|E']; cbn [negb].
  - destruct Hq as (f & Hin & Hf0); [unfold IPH_OFFSET_BYTES; by rewrite E'|].
    exfalso. apply (Hp0 (proj2 Hoff E) f Hin Hf0).
  - repeat split; try done; cbn [rd_p rd_iphdr rd_flags rd_datagram_len setter]; try tauto.
    + apply match_key. destruct Hp as (_ & _ & _ & Hkp & _). apply match_key in Hkp.
      destruct Hkp as (-> & -> & ->). done.
    + rewrite Forall_forall in *. intros f Hin Hf0. exfalso. by apply (Hp0 (proj2 Hoff E) f Hin).
Qed.

End datagram.

(** Passing a sequence of fragments; the results. *)
Fixpoint reass_run (ps : list pkt) (s : reass) : option (reass * list (option pkt)) :=
  match ps with
  | [] => Some (s, [])
  | p :: ps' =>
      '(s, r) ← ip4_reass p s;
      '(s, rs) ← reass_run ps' s;
      Some (s, r :: rs)
  end.

Section run.
Context (D : list Z) (K : ip_hdr) (all : list pkt).
Let L : Z := Z.of_nat (length D).
Context (HL : L <= 65535 - IP_HLEN).

(** The state after some pieces of [D]: the entry is the first of the list. *)
Definition in_progress (l : list ip_reassdata) (d : ip_reassdata) (s : reass) : Prop :=
  reassdatagrams s = d :: l /\ reass_ok s /\ collecting D K d /\ header_queued d /\
  Forall (fun f => fr_pbuf f ∈ all) (rd_p d).

Definition finished (l : list ip_reassdata) (s' : reass) (q : pkt) : Prop :=
  reass_ok s' /\ reassdatagrams s' = l /\
  exists p0, p0 ∈ all /\ piece_start p0 = 0 /\
    pk_octets q = ip_hdr_octets (whole_header (pkt_hdr p0) L) ++ D.

Lemma piece_branch p s :
  is_piece D K p -> ip_reass_pbufcount s + pk_clen p <= IP_REASS_MAX_PBUFS ->
  ip4_reass p s =
  match find_datagram K (reassdatagrams s) with
  | None =>
      '(s, ok) ← ip_reass_enqueue_new_datagram (pkt_hdr p) (pk_clen p) s;
      if (ok : bool)
      then reass_into 0 p (pkt_hdr p) (IPH_OFFSET_BYTES (pkt_hdr p))
             (u16 (lwip_htons (_len (pkt_hdr p)) - IP_HLEN)) (pk_clen p) s
      else nullreturn p s
  | Some i =>
      ipr ← reassdatagrams s !! i;
      reass_into i p (pkt_hdr p) (IPH_OFFSET_BYTES (pkt_hdr p))
        (u16 (lwip_htons (_len (pkt_hdr p)) - IP_HLEN)) (pk_clen p)
        (s <| reassdatagrams := <[i := update_header (pkt_hdr p) ipr]> (reassdatagrams s) |>)
  end.
Proof.
  intros Hp Hm. pose proof Hp as (_ & _ & Hhl & _ & Hlen & _).
  unfold ip4_reass. fold (pkt_hdr p). rewrite Hhl, Z.eqb_refl. cbn [negb].
  unfold piece_len in Hlen. rewrite (proj2 (Z.ltb_ge _ IP_HLEN)) by lia.
  rewrite (proj2 (Z.ltb_ge IP_REASS_MAX_PBUFS _)) by lia. cbn [mbind option_bind negb].
  rewrite (find_datagram_key D K) by done. done.
Qed.

(** What is left after a piece: nothing, or an entry with that piece. *)
Definition piece_result (l : list ip_reassdata) (got : list frag) (p : pkt) (n : Z)
    (s' : reass) (r : option pkt) : Prop :=
  if piece_len p + sum_with frag_size got =? L then exists q, r = Some q /\ finished l s' q
  else r = None /\ ip_reass_pbufcount s' = n + pk_clen p /\
       exists d', in_progress l d' s' /\ rd_p d' ≡ₚ new_frag p :: got.

Lemma piece_into l d p s :
  reassdatagrams s = d :: l -> ready 0 d (pk_clen p) s -> collecting D K d -> is_piece D K p ->
  Forall (fun f => disjoint_pieces p (fr_pbuf f)) (rd_p d) ->
  (piece_start p = 0 -> rd_iphdr d = pkt_hdr p) ->
  (header_queued d \/ rd_iphdr d = pkt_hdr p) ->
  Forall (fun f => fr_pbuf f ∈ all) (rd_p d) -> p ∈ all ->
  exists s' r, reass_into 0 p (pkt_hdr p) (IPH_OFFSET_BYTES (pkt_hdr p))
      (u16 (lwip_htons (_len (pkt_hdr p)) - IP_HLEN)) (pk_clen p) s = Some (s', r) /\
    reass_malloc s' = reass_malloc s /\
    piece_result l (rd_p d) p (ip_reass_pbufcount s) s' r.
Proof.
  intros Hl Hr Hcol Hp Hdis Hst Hq Hall Hin.
  destruct (reass_into_piece D K HL d l p s Hl Hr Hcol Hp Hdis Hst)
    as (s' & r & Hres & Hok & _ & Hmal & H).
  exists s', r. split; [done|]. split; [done|]. unfold piece_result. fold L in H.
  destruct (piece_bounds D K HL p Hp) as (_ & _ & _ & Hnf).
  destruct (_ =? L).
  - destruct H as (Hl' & _ & q & f & -> & Hf & Hf0 & Ho). exists q. split; [done|].
    split; [done|]. split; [done|]. exists (fr_pbuf f).
    apply elem_of_cons in Hf as [-> |Hf].
    + rewrite Hnf in *. cbn [fr_start fr_pbuf] in *. done.
    + rewrite Forall_forall in Hall. split; [by apply Hall|]. split; [|done].
      destruct Hcol as (Hfs & _). rewrite Forall_forall in Hfs. destruct (Hfs f Hf) as [Hfp Hfe].
      destruct (piece_bounds D K HL _ Hfp) as (_ & _ & _ & Hfb).
      rewrite Hfe, Hfb in Hf0. exact Hf0.
  - destruct H as (-> & Hc & d' & Hl' & Hcol' & Hi' & Hperm).
    split; [done|]. split; [done|]. exists d'. split; [|done].
    split; [done|]. split; [done|]. split; [done|]. split.
    + intros H0. rewrite Hi' in H0. setoid_rewrite Hperm. destruct Hq as [Hq|Hq].
      * destruct (Hq H0) as (f & ? & ?). exists f. split; [by right|done].
      * exists (new_frag p). split; [by left|]. rewrite Hnf. cbn. unfold piece_start. by rewrite <- Hq.
    + rewrite Hperm. constructor; [by rewrite Hnf|done].
Qed.

(** A later piece. *)
Lemma next_piece l d p s :
  in_progress l d s -> is_piece D K p -> p ∈ all ->
  Forall (fun f => disjoint_pieces p (fr_pbuf f)) (rd_p d) ->
  ip_reass_pbufcount s + pk_clen p <= IP_REASS_MAX_PBUFS ->
  exists s' r, ip4_reass p s = Some (s', r) /\ reass_malloc s' = reass_malloc s /\
    piece_result l (rd_p d) p (ip_reass_pbufcount s) s' r.
Proof.
  intros (Hl & Hok & Hcol & Hhq & Hall) Hp Hin Hdp Hm.
  rewrite piece_branch by done. rewrite Hl. cbn [find_datagram].
  rewrite (proj1 (proj2 Hcol)). cbn [lookup list_lookup mbind option_bind].
  destruct (update_header_collecting D K HL p d Hp Hcol Hhq Hdp) as (Hcol1 & Hrd & H0 & H1).
  pose proof (update_header_ready (pkt_hdr p) 0 d (pk_clen p) s Hok ltac:(by rewrite Hl) Hm) as Hr.
  rewrite Hl in Hr. cbn [insert list_insert] in Hr |- *.
  set (s1 := s <| reassdatagrams := update_header (pkt_hdr p) d :: l |>) in *.
  rewrite <- Hrd. apply (piece_into l (update_header (pkt_hdr p) d) p s1); try done;
    [by rewrite Hrd| |by rewrite Hrd].
  destruct (Z.eq_dec (piece_start p) 0) as [E0|E0]; [right; auto|left].
  intros Hz. rewrite Hrd. apply Hhq. by rewrite <- H1.
Qed.

(** The first piece to arrive. *)
Lemma first_piece p s m :
  reass_ok s -> find_datagram K (reassdatagrams s) = None -> reass_malloc s = true :: m ->
  is_piece D K p -> p ∈ all -> ip_reass_pbufcount s + pk_clen p <= IP_REASS_MAX_PBUFS ->
  exists s' r, ip4_reass p s = Some (s', r) /\ reass_malloc s' = m /\
    piece_result (reassdatagrams s) [] p (ip_reass_pbufcount s) s' r.
Proof.
  intros Hok Hnone Hmal Hp Hin Hm. rewrite piece_branch, Hnone by done.
  unfold ip_reass_enqueue_new_datagram, memp_malloc. rewrite Hmal. cbn [mbind option_bind].
  fold (new_entry (pkt_hdr p)). set (s0 := s <| reass_malloc := m |>).
  pose proof (with_entry_ready (pkt_hdr p) (pk_clen p) s0 Hok Hm) as Hr.
  apply (piece_into (reassdatagrams s) (new_entry (pkt_hdr p)) p (with_entry (pkt_hdr p) s0));
    try done; [|by right].
  apply new_entry_collecting. apply match_key. destruct Hp as (_ & _ & _ & Hk & _).
  apply match_key in Hk. destruct Hk as (-> & -> & ->). done.
Qed.

Lemma pieces_nonneg ps :
  Forall (is_piece D K) ps ->
  0 <= sum_with pk_clen ps /\ 0 <= sum_with piece_len ps /\ (sum_with piece_len ps = 0 -> ps = []).
Proof.
  induction 1 as [|p ps Hp _ (IH1 & IH2 & _)]; [done|]. rewrite !sum_with_cons.
  pose proof (pkt_clen_pos p (proj1 Hp)). destruct Hp as (_&_&_&_&?&_). lia.
Qed.

Lemma disjoint_pieces_sym p q : disjoint_pieces p q -> disjoint_pieces q p.
Proof. intros [?|?]; [by right|by left]. Qed.

(** The pieces [ps] after one more: what is still missing shrinks, and the
    datagram is complete exactly when nothing is missing. *)
Lemma run_rest ps : forall l got p n s s' r,
  ip4_reass p s = Some (s', r) -> piece_result l got p n s' r ->
  is_piece D K p -> Forall (is_piece D K) ps -> Forall (fun q => q ∈ all) ps ->
  ForallOrdPairs disjoint_pieces (p :: ps) ->
  Forall (fun q => Forall (fun f => disjoint_pieces q (fr_pbuf f)) got) ps ->
  piece_len p + sum_with piece_len ps + sum_with frag_size got = L ->
  n + pk_clen p + sum_with pk_clen ps <= IP_REASS_MAX_PBUFS ->
  exists s2 q, reass_run (p :: ps) s = Some (s2, repeat None (length ps) ++ [Some q]) /\
    finished l s2 q.
Proof.
  induction ps as [|p2 ps IH]; intros l got p n s s' r Hrun Hres Hp Hps Hin Hdis Hgot Hsum Hm;
    cbn [reass_run]; rewrite Hrun; cbn [mbind option_bind]; unfold piece_result in Hres.
  - rewrite sum_with_nil in Hsum. rewrite (proj2 (Z.eqb_eq _ L)) in Hres by lia.
    destruct Hres as (q & -> & Hfin). by exists s', q.
  - inversion Hdis as [|? ? Hdp Hdis']; subst. rewrite Forall_cons in Hps, Hin, Hgot, Hdp.
    destruct Hps as [Hp2 Hps], Hin as [Hin2 Hin], Hgot as [Hgot2 Hgot], Hdp as [Hdp2 Hdp].
    pose proof (pieces_nonneg ps Hps) as (Hc0 & Hl0 & _). rewrite !sum_with_cons in Hsum, Hm.
    destruct (piece_bounds D K HL p Hp) as (_ & _ & _ & Hnf).
    rewrite (proj2 (Z.eqb_neq _ L)) in Hres by (destruct Hp2 as (_&_&_&_&?&_); lia).
    destruct Hres as (-> & Hc & d' & Hprog & Hperm).
    assert (Hfold : forall q, disjoint_pieces p q -> Forall (fun f => disjoint_pieces q (fr_pbuf f)) got ->
              Forall (fun f => disjoint_pieces q (fr_pbuf f)) (rd_p d')).
    { intros q H1 H2. rewrite Hperm. constructor; [rewrite Hnf; by apply disjoint_pieces_sym|done]. }
    destruct (next_piece l d' p2 s' Hprog Hp2 Hin2 (Hfold p2 Hdp2 Hgot2) ltac:(lia))
      as (s3 & r2 & Hrun2 & _ & Hres2).
    destruct (IH l (rd_p d') p2 (ip_reass_pbufcount s') s' s3 r2) as (s4 & q & Hrun4 & Hfin); try done.
    + rewrite Forall_forall in *. intros q Hq. apply Hfold; auto.
    + rewrite Hperm, sum_with_cons, Hnf. unfold frag_size at 1. cbn [fr_start fr_end].
      unfold piece_end. lia.
    + lia.
    + exists s4, q. change (reass_run (p2 :: ps) s') with
        ('(s, r) ← ip4_reass p2 s'; '(s, rs) ← reass_run ps s; Some (s, r :: rs)).
      cbn [reass_run] in Hrun4. rewrite Hrun4. done.
Qed.

End run.

(** Order does not matter. *)
Lemma reassembles D K s ps m :
  Z.of_nat (length D) <= 65535 - IP_HLEN ->
  reass_ok s -> find_datagram K (reassdatagrams s) = None -> reass_malloc s = true :: m ->
  ps <> [] -> Forall (is_piece D K) ps -> ForallOrdPairs disjoint_pieces ps ->
  sum_with piece_len ps = Z.of_nat (length D) ->
  ip_reass_pbufcount s + sum_with pk_clen ps <= IP_REASS_MAX_PBUFS ->
  exists s' q p0,
    reass_run ps s = Some (s', repeat None (length ps - 1) ++ [Some q]) /\
    p0 ∈ ps /\ IPH_OFFSET_BYTES (ip_hdr_of (hd [] (pk_chunks p0))) = 0 /\
    pk_octets q = ip_hdr_octets (whole_header (ip_hdr_of (hd [] (pk_chunks p0)))
                                   (Z.of_nat (length D))) ++ D /\
    reassdatagrams s' = reassdatagrams s /\ ip_reass_pbufcount s' = ip_reass_pbufcount s.
Proof.
  intros HL Hok Hnone Hmal Hn Hps Hdis Hsum Hm. destruct ps as [|p ps]; [done|]. clear Hn.
  assert (Hin : Forall (fun q => q ∈ p :: ps) (p :: ps)) by (by apply Forall_forall).
  pose proof Hps as [Hp Hps']%Forall_cons. pose proof Hin as [Hpin Hin']%Forall_cons.
  pose proof (pieces_nonneg D K ps Hps') as (Hc0 & _ & _).
  rewrite !sum_with_cons in *.
  destruct (first_piece D K (p :: ps) HL p s m Hok Hnone Hmal Hp Hpin ltac:(lia))
    as (s1 & r & Hrun & _ & Hres).
  destruct (run_rest D K (p :: ps) HL ps _ [] p _ s s1 r Hrun Hres Hp Hps' Hin' Hdis)
    as (s' & q & Hall & Hok' & Hl' & p0 & Hp0 & Hst & Ho).
  - by apply Forall_forall.
  - rewrite sum_with_nil. lia.
  - lia.
  - exists s', q, p0. cbn [length]. rewrite Nat.sub_succ, Nat.sub_0_r.
    split; [done|]. split; [done|]. split; [done|]. split; [done|]. split; [done|].
    destruct Hok' as (_ & -> & _). destruct Hok as (_ & -> & _). by rewrite Hl'.
Qed.

(** C16: The fragments of a datagram, arriving in any order, give nothing until
    the last missing one arrives, which returns the datagram: the header of the
    first fragment with length, offset and checksum set for the whole, followed
    by the payload.  The queue is as before, other datagrams in it are not
    disturbed. *)
Theorem ip4_reass_reassembles D K s ps m :
  Z.of_nat (length D) <= 65535 - IP_HLEN ->
  reass_ok s -> find_datagram K (reassdatagrams s) = None -> reass_malloc s = true :: m ->
  ps <> [] -> Forall (is_piece D K) ps -> ForallOrdPairs disjoint_pieces ps ->
  sum_with piece_len ps = Z.of_nat (length D) ->
  ip_reass_pbufcount s + sum_with pk_clen ps <= IP_REASS_MAX_PBUFS ->
  exists s' q p0,
    reass_run ps s = Some (s', repeat None (length ps - 1) ++ [Some q]) /\
    p0 ∈ ps /\ IPH_OFFSET_BYTES (ip_hdr_of (hd [] (pk_chunks p0))) = 0 /\
    pk_octets q = ip_hdr_octets (whole_header (ip_hdr_of (hd [] (pk_chunks p0)))
                                   (Z.of_nat (length D))) ++ D /\
    reassdatagrams s' = reassdatagrams s /\ ip_reass_pbufcount s' = ip_reass_pbufcount s.
Proof. apply reassembles. Qed.

(** ** The timer *)

Definition alive (d : ip_reassdata) : bool := 0 <? rd_timer d.
Definition tick (d : ip_reassdata) : ip_reassdata := d <| rd_timer := rd_timer d - 1 |>.

Lemma tick_ok d : datagram_ok d -> alive d = true -> datagram_ok (tick d).
Proof.
  intros (H1 & H2 & H3 & H4) Ha%Z.ltb_lt. split; [done|]. split; [done|]. split; [done|].
  cbn. lia.
Qed.

Lemma datagrams_ok_insert s i d d' :
  reass_ok s -> reassdatagrams s !! i = Some d -> datagram_ok d' -> queued d' = queued d ->
  reass_ok (s <| reassdatagrams := <[i := d']> (reassdatagrams s) |>).
Proof.
  intros (Hd & Hc & Hm) E Hok Hq. repeat split; cbn [reassdatagrams ip_reass_pbufcount setter]; [|
    rewrite (sum_with_insert _ _ _ _ _ E); lia|done].
  rewrite insert_take_drop by (by eapply lookup_lt_Some).
  rewrite <- (take_drop_middle _ _ _ E), Forall_app, Forall_cons in Hd.
  apply Forall_app. split; [tauto|]. constructor; tauto.
Qed.

Lemma tmr_loop_spec rest : forall fuel pre s,
  reass_ok s -> reassdatagrams s = pre ++ rest -> (length rest <= fuel)%nat ->
  exists s', ip_reass_tmr_loop fuel (length pre) s = Some s' /\ reass_ok s' /\
    reassdatagrams s' = pre ++ map tick (List.filter alive rest) /\
    reass_events s' = reass_events s ++
      concat (map free_events (List.filter (fun d => negb (alive d)) rest)) /\
    ip_reass_pbufcount s' = ip_reass_pbufcount s -
      sum_with queued (List.filter (fun d => negb (alive d)) rest).
Proof.
  induction rest as [|d rest IH]; intros fuel pre s Hs El Hf.
  { exists s. rewrite app_nil_r in El.
    assert (reassdatagrams s !! length pre = None) as Hnone by (rewrite El; by apply lookup_ge_None_2).
    split; [destruct fuel; cbn [ip_reass_tmr_loop]; by rewrite Hnone|]. split; [done|].
    cbn [List.filter map concat]. rewrite sum_with_nil, !app_nil_r. split; [done|]. split; [done|lia]. }
  assert (Ed : reassdatagrams s !! length pre = Some d) by (rewrite El; by apply list_lookup_middle).
  assert (Hdok : datagram_ok d).
  { destruct Hs as (Hd & _). rewrite Forall_forall in Hd. apply Hd. by eapply list_elem_of_lookup_2. }
  destruct fuel as [|fuel]; [simpl in Hf; lia|]. cbn [ip_reass_tmr_loop]. rewrite Ed.
  cbn [List.filter]. fold (alive d).
  destruct (alive d) eqn:Ea; cbn [negb map].
  - fold (tick d). set (s1 := s <| reassdatagrams := _ |>).
    destruct (IH fuel (pre ++ [tick d]) s1) as (s' & Hrun & Hok & Hl & He & Hc).
    + apply (datagrams_ok_insert s _ d); [done|done|by apply tick_ok|done].
    + unfold s1. cbn [reassdatagrams setter]. rewrite El.
      rewrite insert_app_r_alt, Nat.sub_diag by lia. cbn. by rewrite <- app_assoc.
    + simpl in Hf. lia.
    + rewrite length_app, Nat.add_1_r in Hrun. exists s'. rewrite Hl, <- app_assoc. done.
  - destruct (free_complete_spec s (length pre) d Hs Ed) as (-> & Hok1 & Hfr).
    cbn [mbind option_bind]. set (s1 := emit _ s <| reassdatagrams := _ |> <| ip_reass_pbufcount := _ |>) in *.
    destruct (IH fuel pre s1) as (s' & Hrun & Hok & Hl & He & Hc); [done| |simpl in Hf; lia|].
    + unfold s1. cbn [reassdatagrams setter]. rewrite El, delete_take_drop.
      rewrite take_app_length, drop_app_ge by lia.
      replace (S (length pre) - length pre)%nat with 1%nat by lia. done.
    + exists s'. split; [done|]. split; [done|]. split; [done|].
      cbn [concat]. rewrite sum_with_cons, He, Hc, app_assoc. split; [done|].
      unfold s1. cbn. lia.
Qed.

Lemma ip_reass_tmr_spec s :
  reass_ok s ->
  exists s', ip_reass_tmr s = Some s' /\ reass_ok s' /\
    reassdatagrams s' = map tick (List.filter alive (reassdatagrams s)) /\
    reass_events s' = reass_events s ++
      concat (map free_events (List.filter (fun d => negb (alive d)) (reassdatagrams s))).
Proof.
  intros Hs. unfold ip_reass_tmr.
  destruct (tmr_loop_spec (reassdatagrams s) (length (reassdatagrams s)) [] s Hs eq_refl (le_n _))
    as (s' & ? & ? & ? & ? & _). by exists s'.
Qed.

(** Only the first fragment of the list can have offset 0. *)
Lemma free_events_frag d f :
  Forall frag_ok (rd_p d) -> StronglySorted before (rd_p d) -> f ∈ rd_p d ->
  exists p, Free p ∈ free_events d /\ pk_clen p = pk_clen (fr_pbuf f) /\
    (fr_start f = 0 -> Time_exceeded p ICMP_TE_FRAG ∈ free_events d /\
       pk_octets p = ip_hdr_octets (rd_iphdr d) ++ drop 20 (pk_octets (fr_pbuf f))).
Proof.
  unfold free_events. destruct (rd_p d) as [|g gs]; [intros _ _ Hf; inversion Hf|].
  intros [Hg Hgs]%Forall_cons Hs Hf. inversion Hs as [|? ? _ Hall]; subst.
  destruct Hg as (H0g & Hch & Hlen & _).
  apply elem_of_cons in Hf as [-> |Hf].
  - destruct (put_header_spec (rd_iphdr d) (fr_pbuf g) Hch Hlen) as (p & -> & Hcl & Ho & _).
    destruct (Z.eqb_spec (fr_start g) 0) as [E|E].
    + exists p. cbn [app]. rewrite !elem_of_cons. split; [tauto|]. split; [done|]. intros _.
      split; [tauto|done].
    + exists (fr_pbuf g). cbn [app]. rewrite elem_of_cons. split; [tauto|]. split; [done|lia].
  - exists (fr_pbuf f). split.
    + apply elem_of_app. right. apply list_elem_of_In, in_map_iff. exists f.
      split; [done|by apply list_elem_of_In].
    + split; [done|]. intros H0. exfalso. rewrite Forall_forall in Hall.
      destruct (Hall f Hf). lia.
Qed.

Fixpoint ticks (n : nat) (s : reass) : option reass :=
  match n with
  | O => Some s
  | S n' => s ← ip_reass_tmr s; ticks n' s
  end.

Lemma ticks_spec n : forall s,
  reass_ok s -> Forall (fun d => rd_timer d < Z.of_nat n) (reassdatagrams s) ->
  exists s' es, ticks n s = Some s' /\ reass_ok s' /\ reassdatagrams s' = [] /\
    reass_events s' = reass_events s ++ es /\
    forall d e, d ∈ reassdatagrams s -> e ∈ free_events d -> e ∈ es.
Proof.
  induction n as [|n IH]; intros s Hs Ht; cbn [ticks].
  { exists s, []. rewrite app_nil_r. split; [done|]. split; [done|].
    assert (reassdatagrams s = []) as ->; [|split; [done|]; split; [done|];
      intros d e Hd; inversion Hd].
    destruct Hs as (Hd & _). destruct (reassdatagrams s) as [|d l]; [done|].
    rewrite Forall_cons in Hd, Ht. destruct Hd as [(_ & _ & _ & ?) _]. lia. }
  destruct (ip_reass_tmr_spec s Hs) as (s1 & -> & Hok & Hl & He). cbn [mbind option_bind].
  destruct (IH s1 Hok) as (s' & es & Hrun & Hok' & Hl' & He' & Hin).
  { rewrite Hl. apply Forall_forall. intros d Hd. apply list_elem_of_In, in_map_iff in Hd.
    destruct Hd as (d0 & <- & [Hd0 _]%filter_In). rewrite Forall_forall in Ht.
    specialize (Ht d0 ltac:(by apply list_elem_of_In)). cbn. lia. }
  eexists s', _. split; [done|]. split; [done|]. split; [done|].
  rewrite He', He, <- app_assoc. split; [done|].
  intros d e Hd Hde. apply elem_of_app. destruct (alive d) eqn:Ea.
  - right. apply (Hin (tick d)); [|done]. rewrite Hl.
    apply list_elem_of_In, in_map, filter_In. split; [by apply list_elem_of_In|done].
  - left. apply list_elem_of_In, in_concat. exists (free_events d).
    split; [apply in_map, filter_In; split; [by apply list_elem_of_In|by rewrite Ea]|by apply list_elem_of_In].
Qed.

(** Incomplete datagrams do not wait forever: after [IP_REASS_MAXAGE] + 1
    runs of the timer without input every datagram that was queued has been
    given up, its pbufs are freed (and if its first fragment had arrived, an
    ICMP time exceeded message was requested), and none is left. *)
Theorem ip_reass_tmr_expires s :
  reass_ok s ->
  exists s' es, ticks (S (Z.to_nat IP_REASS_MAXAGE)) s = Some s' /\
    reassdatagrams s' = [] /\ ip_reass_pbufcount s' = 0 /\
    reass_events s' = reass_events s ++ es /\
    forall d f, d ∈ reassdatagrams s -> f ∈ rd_p d ->
      exists p, Free p ∈ es /\ pk_clen p = pk_clen (fr_pbuf f) /\
        (fr_start f = 0 -> Time_exceeded p ICMP_TE_FRAG ∈ es /\
           pk_octets p = ip_hdr_octets (rd_iphdr d) ++ drop 20 (pk_octets (fr_pbuf f))).
Proof.
  intros Hs. pose proof Hs as (Hd & _).
  destruct (ticks_spec (S (Z.to_nat IP_REASS_MAXAGE)) s Hs) as (s' & es & Hrun & Hok & Hl & He & Hin).
  { eapply Forall_impl; [exact Hd|]. intros d (_ & _ & _ & ?). cbn. unfold IP_REASS_MAXAGE in *. lia. }
  exists s', es. split; [done|]. split; [done|]. split.
  { destruct Hok as (_ & -> & _). by rewrite Hl. }
  split; [done|]. intros d f Hdin Hf. specialize (Hin d).
  rewrite Forall_forall in Hd. destruct (Hd d Hdin) as (_ & Hfs & Hso & _).
  destruct (free_events_frag d f Hfs Hso Hf) as (p & H1 & H2 & H3).
  exists p. split; [by apply Hin|]. split; [done|]. intros H0. destruct (H3 H0). split; [by apply Hin|done].
Qed.

(** ** Examples *)

#[export] Instance pkt_ok_dec p : Decision (pkt_ok p).
Proof. unfold pkt_ok. apply _. Defined.
#[export] Instance is_piece_dec D K p : Decision (is_piece D K p).
Proof. unfold is_piece. apply _. Defined.
#[export] Instance disjoint_pieces_dec p q : Decision (disjoint_pieces p q).
Proof. unfold disjoint_pieces. apply _. Defined.

Definition example_hdr (len : Z) : ip_hdr :=
  IpHdr 69 0 (lwip_htons len) (lwip_htons 7) 0 64 IP_PROTO_UDP 0 16777226 33554442.

(** A datagram of [n] octets of payload in one pbuf. *)
Definition example_data (n : nat) : list Z := map (fun i => Z.of_nat i mod 256) (seq 1 n).
Definition example_datagram (n : nat) : pkt :=
  Pkt [] [ip_hdr_octets (example_hdr (20 + Z.of_nat n)) ++ example_data n] true.

(** Its fragments for an MTU of 28: eight octets each. *)
Definition example_frags (n : nat) : list pkt :=
  match ip4_frag (example_datagram n) 28 (repeat true (4 * n)) with
  | Some (_, outs, _) => outs
  | None => []
  end.
Definition example_frag (i : nat) : pkt := nth i (example_frags 24) (Pkt [] [] true).

Definition empty_reass : reass := Reass [] 0 (repeat true 5) [].

Lemma empty_reass_ok : reass_ok empty_reass.
Proof. split; [constructor|]. split; [done|]. unfold IP_REASS_MAX_PBUFS. cbn. lia. Qed.

Lemma ip4_reass_safe_witness :
  exists s' r es, ip4_reass (example_frag 1) empty_reass = Some (s', r) /\ reass_ok s' /\
    reass_events s' = [] ++ es /\
    ip_reass_pbufcount s' + freed es + pbufs r = 0 + pk_clen (example_frag 1).
Proof.
  apply (ip4_reass_safe empty_reass (example_frag 1)); [apply empty_reass_ok|decide_now|by vm_compute].
Defined.

Lemma ip4_reass_reassembles_witness :
  let D := example_data 24 in
  let ps := [example_frag 2; example_frag 0; example_frag 1] in
  exists s' q p0,
    reass_run ps empty_reass = Some (s', repeat None (length ps - 1) ++ [Some q]) /\
    p0 ∈ ps /\ IPH_OFFSET_BYTES (ip_hdr_of (hd [] (pk_chunks p0))) = 0 /\
    pk_octets q = ip_hdr_octets (whole_header (ip_hdr_of (hd [] (pk_chunks p0)))
                                   (Z.of_nat (length D))) ++ D /\
    reassdatagrams s' = reassdatagrams empty_reass /\
    ip_reass_pbufcount s' = ip_reass_pbufcount empty_reass.
Proof.
  intros D ps.
  apply (ip4_reass_reassembles D (example_hdr 44) empty_reass ps (repeat true 4));
    [by vm_compute|apply empty_reass_ok|done|done|done|decide_now| |by vm_compute|by vm_compute].
  repeat (constructor; [decide_now|]). constructor.
Defined.

Lemma ip_reass_tmr_expires_witness :
  exists s, ip4_reass (example_frag 0) empty_reass = Some (s, None) /\
  exists s' es, ticks (S (Z.to_nat IP_REASS_MAXAGE)) s = Some s' /\
    reassdatagrams s' = [] /\ ip_reass_pbufcount s' = 0 /\
    reass_events s' = reass_events s ++ es /\
    forall d f, d ∈ reassdatagrams s -> f ∈ rd_p d ->
      exists p, Free p ∈ es /\ pk_clen p = pk_clen (fr_pbuf f) /\
        (fr_start f = 0 -> Time_exceeded p ICMP_TE_FRAG ∈ es /\
           pk_octets p = ip_hdr_octets (rd_iphdr d) ++ drop 20 (pk_octets (fr_pbuf f))).
Proof.
  destruct (ip4_reass_safe_lemma empty_reass (example_frag 0) empty_reass_ok) as (s & r & es & H & Hok & _);
    [decide_now|by vm_compute|].
  assert (r = None) as ->.
  { destruct (ip4_reass (example_frag 0) empty_reass) as [[s0 r0]|] eqn:E; [|done].
    assert (r0 = None) by (vm_compute in E; congruence). congruence. }
  exists s. split; [exact H|]. apply (ip_reass_tmr_expires s Hok).
Defined.
