(* ===== verification/Ip4FragOut.v ===== *)
(** * Properties of IPv4 fragmentation

    What [ip4_frag] passes to the driver is a sequence of fragments that fit the
    MTU, are disjoint and cover the payload: in the terms of Ip4FragSpec, pieces
    of the datagram.  So the reassembly code gets the datagram back from them.
    That needs an MTU that is 20 plus a multiple of 8: otherwise the header of
    the last but one fragment can be wrong, which is shown too. *)

From S2P Require Import Prelude Err Def IpAddr Chksum Packet IpHdr Ip4Frag Ip4FragSpec.

(** ** Header fields *)

Lemma offset_field x :
  is_u16 x ->
  (if 8191 <? x then true else
   (Z.land IP_OFFMASK x =? x) && (Z.land (lwip_htons (lwip_htons x)) IP_OFFMASK =? x)
   && (Z.land (lwip_htons x) (lwip_htons IP_MF) =? 0)
   && (Z.land (lwip_htons (lwip_htons (Z.lor x IP_MF))) IP_OFFMASK =? x)
   && negb (Z.land (lwip_htons (Z.lor x IP_MF)) (lwip_htons IP_MF) =? 0)
   && negb (Z.land (lwip_htons (Z.lor x IP_MF)) (lwip_htons (Z.lor IP_OFFMASK IP_MF)) =? 0)
   && ((x =? 0) || negb (Z.land (lwip_htons x) (lwip_htons (Z.lor IP_OFFMASK IP_MF)) =? 0))) = true.
Proof.
  intros Hx. pattern x. match goal with |- (fun x => @?P x = true) _ => apply (u16_forall P) end;
    [by vm_compute|done].
Qed.

Lemma unfragmented_field x :
  is_u16 x ->
  (if Z.land x (lwip_htons (Z.lor IP_OFFMASK IP_MF)) =? 0
   then (Z.land (lwip_htons x) IP_OFFMASK =? 0) && negb (flagset (lwip_htons x) IP_MF)
   else true) = true.
Proof.
  intros Hx. pattern x. match goal with |- (fun x => @?P x = true) _ => apply (u16_forall P) end;
    [by vm_compute|done].
Qed.

Lemma lwip_htons_invol x : is_u16 x -> lwip_htons (lwip_htons x) = x.
Proof.
  intros Hx. assert (exists a b, is_u8 a /\ is_u8 b /\ x = a + 256 * b) as (a & b & Ha & Hb & ->).
  { exists (x mod 256), (x / 256). word_lia. }
  by rewrite !lwip_htons_octets.
Qed.

Lemma lwip_htons_u16 x : is_u16 (lwip_htons x).
Proof. unfold lwip_htons. apply u16_bound. Qed.

Lemma inet_chksum_u16 o l : is_u16 (inet_chksum o l).
Proof. unfold inet_chksum. apply u16_bound. Qed.

(** The header of the fragment for octets [8 * ofo] to [8 * ofo + size]. *)
Lemma frag_header_spec h last ofo size :
  ip_hdr_ok h -> 0 <= ofo <= 8191 -> 0 <= size <= 65535 - IP_HLEN ->
  let f := frag_header h last false ofo size in
  ip_hdr_ok f /\ iph_src f = iph_src h /\ iph_dest f = iph_dest h /\ _id f = _id h /\
  _v_hl f = _v_hl h /\ lwip_htons (_len f) = size + IP_HLEN /\
  IPH_OFFSET_BYTES f = 8 * ofo /\ last_fragment f = last /\
  (last = false \/ 0 < ofo -> is_fragment f = true).
Proof.
  intros Hh Ho Hs f. pose proof (offset_field ofo ltac:(unfold is_u16; lia)) as Hf.
  rewrite (proj2 (Z.ltb_ge 8191 ofo)) in Hf by lia. repeat (apply andb_true_iff in Hf as [Hf ?]).
  subst f. unfold frag_header. rewrite orb_false_r. apply Z.eqb_eq in Hf as ->.
  rename H into Hz, H0 into Hmf3, H1 into Hmf2, H2 into Hmf1, H3 into Hn2, H4 into Hn1.
  apply Z.eqb_eq in Hmf1, Hn2, Hn1.
  unfold ip_hdr_ok, last_fragment, is_fragment, IPH_OFFSET_BYTES, IP_HLEN in *.
  cbn [iph_src iph_dest _id _v_hl _len _offset _chksum _tos _ttl _proto setter].
  destruct Hh as (?&?&?&?&?&?&?&?&?&?).
  split; [repeat match goal with |- _ /\ _ => split end;
          first [assumption|apply lwip_htons_u16|apply inet_chksum_u16]|].
  do 4 (split; [done|]).
  split; [rewrite u16_id, lwip_htons_invol by (unfold is_u16; lia); lia|].
  destruct last; cbn [negb].
  - rewrite Hn1, Hn2, u16_id by (unfold is_u16; lia). split; [lia|]. split; [done|].
    intros [?|?]; [done|]. apply orb_true_iff in Hz as [?%Z.eqb_eq|?]; [lia|done].
  - rewrite Hmf1, u16_id by (unfold is_u16; lia). split; [lia|].
    by rewrite (proj1 (negb_true_iff _) Hmf2).
Qed.

(** ** The pieces of one fragment *)

(** The allocator has at least [n] successful answers ready. *)
Definition enough (ans : list bool) (n : Z) : Prop :=
  Forall (eq true) ans /\ n <= Z.of_nat (length ans).

Lemma enough_drop ans n k : enough ans n -> enough (drop k ans) (n - Z.of_nat k).
Proof. intros [H Hn]. split; [by apply Forall_drop|]. rewrite length_drop. lia. Qed.

Definition small (c : list Z) : Prop := Z.of_nat (length c) < 65536.

Lemma frag_pieces_spec p : forall poff left ans,
  0 <= poff <= Z.of_nat (length (hd [] p)) ->
  0 < left < 65536 -> left <= Z.of_nat (length (concat p)) - poff -> Forall small p ->
  exists res ans', frag_pieces p poff left ans = Some (res, ans') /\
  (exists k, ans' = drop k ans /\ Z.of_nat k <= left) /\
  match res with
  | None => ~ enough ans left
  | Some (pieces, p', poff') =>
      concat pieces = take (Z.to_nat left) (drop (Z.to_nat poff) (concat p)) /\
      Z.of_nat (length pieces) <= left /\ Forall small p' /\
      0 <= poff' <= Z.of_nat (length (hd [] p')) /\
      drop (Z.to_nat poff') (concat p') = drop (Z.to_nat left) (drop (Z.to_nat poff) (concat p))
  end.
Proof.
  induction p as [|c r IH]; intros poff left ans Hpo Hl Hlen Hsm; [simpl in *; lia|].
  rewrite Forall_cons in Hsm. destruct Hsm as [Hc Hr]. cbn [hd concat frag_pieces] in *.
  rewrite length_app in Hlen. unfold small in Hc.
  rewrite u16_id by (unfold is_u16; lia). rewrite (proj2 (Z.leb_le _ _)) by lia.
  destruct (Z.eqb_spec (Z.min left (Z.of_nat (length c) - poff)) 0) as [E|E].
  { (* this pbuf is exhausted *)
    assert (poff = Z.of_nat (length c)) as -> by lia.
    destruct (IH 0 left ans) as (res & ans' & Hrun & Hk & Hres); [lia|done|lia|done|].
    exists res, ans'. split; [done|]. split; [done|].
    by rewrite drop_app_length' by lia. }
  destruct ans as [|a ans]; cbn [next_answer].
  { exists None, []. split; [done|]. split; [exists 0%nat; split; [done|lia]|].
    intros [_ Hn]. simpl in Hn. lia. }
  destruct a.
  2:{ exists None, ans. split; [done|]. split; [exists 1%nat; split; [done|lia]|].
      intros [Hn _]. inversion Hn. done. }
  set (n := Z.min left (Z.of_nat (length c) - poff)) in *.
  rewrite u16_id by (unfold is_u16; lia).
  assert (Hdrop : drop (Z.to_nat poff) (c ++ concat r) = drop (Z.to_nat poff) c ++ concat r)
    by (rewrite drop_app_le by lia; done).
  destruct (Z.eqb_spec (left - n) 0) as [E0|E0].
  - (* the fragment ends in this pbuf *)
    assert (n = left) as Hn by lia. rewrite Hn in *. rewrite u16_id by (unfold is_u16; lia).
    exists (Some ([take (Z.to_nat left) (drop (Z.to_nat poff) c)], c :: r, poff + left)), ans.
    split; [done|]. split; [exists 1%nat; split; [done|lia]|].
    cbn [concat hd length]. rewrite app_nil_r, Hdrop.
    split; [by rewrite take_app_le by (rewrite length_drop; lia)|].
    split; [lia|]. split; [by constructor|]. split; [lia|].
    rewrite <- Hdrop, drop_drop. f_equal. lia.
  - (* it goes on in the next *)
    assert (n = Z.of_nat (length c) - poff) as Hn by lia.
    destruct (IH 0 (left - n) ans) as (res & ans' & Hrun & (k & -> & Hk) & Hres); [lia|lia|lia|done|].
    rewrite Hrun. cbn [mbind option_bind].
    assert (Hpiece : take (Z.to_nat n) (drop (Z.to_nat poff) c) = drop (Z.to_nat poff) c)
      by (apply take_ge; rewrite length_drop; lia).
    destruct res as [[[pieces p'] poff']|].
    + destruct Hres as (H1 & H2 & H3 & H4 & H5). rewrite Z2Nat.inj_0, drop_0 in *.
      exists (Some (take (Z.to_nat n) (drop (Z.to_nat poff) c) :: pieces, p', poff')), (drop k ans).
      split; [done|]. split; [exists (S k); split; [done|lia]|].
      cbn [concat length]. rewrite Hpiece, H1, Hdrop, H5.
      rewrite take_app_ge, drop_app_ge by (rewrite length_drop; lia). rewrite length_drop.
      replace (Z.to_nat left - (length c - Z.to_nat poff))%nat with (Z.to_nat (left - n)) by lia.
      split; [done|]. split; [lia|]. done.
    + exists None, (drop k ans). split; [done|]. split; [exists (S k); split; [done|lia]|].
      intros [Ha Hn']. apply Hres. inversion Ha; subst. split; [done|]. simpl in Hn'. lia.
Qed.

(** ** The whole packet *)

Section fragment.

Context (D : list Z) (h : ip_hdr) (mtu : Z).
Let L : Z := Z.of_nat (length D).
Context (HL : L <= 65535 - IP_HLEN) (Hh : ip_hdr_ok h) (Hhl : IPH_HL_BYTES h = IP_HLEN).
Context (Hmtu : 28 <= mtu <= 65535) (H8 : (mtu - IP_HLEN) mod 8 = 0) (Hbig : mtu - IP_HLEN < L).

(** Fragments that carry [D] from [a] to [b], in order. *)
Fixpoint carry (a : Z) (outs : list pkt) (b : Z) : Prop :=
  match outs with
  | [] => a = b
  | o :: r => is_piece D h o /\ piece_start o = a /\ pk_tot_len o <= mtu /\ carry (piece_end o) r b
  end.

Lemma fragment_piece a (last : bool) pieces size :
  0 <= a -> a mod 8 = 0 -> a + size <= L -> 0 < size <= mtu - IP_HLEN ->
  last = (a + size =? L) -> concat pieces = slice D a (a + size) ->
  Z.of_nat (length pieces) <= size ->
  let o := Pkt (repeat 0 14) (ip_hdr_octets (frag_header h last false (a / 8) size) :: pieces) true in
  is_piece D h o /\ piece_start o = a /\ pk_tot_len o <= mtu /\ piece_end o = a + size.
Proof.
  intros Ha Ha8 Hsz Hs Hlast Hp Hn o. unfold IP_HLEN in *.
  destruct (frag_header_spec h last (a / 8) size Hh) as (Hok & E1 & E2 & E3 & E4 & E5 & E6 & E7 & E8);
    [Z.div_mod_to_equations; lia|unfold IP_HLEN; lia|].
  set (f := frag_header h last false (a / 8) size) in *.
  assert (Hhd : pkt_hdr o = f).
  { unfold pkt_hdr, o. cbn [pk_chunks hd]. rewrite <- (app_nil_r (ip_hdr_octets f)).
    by apply ip_hdr_of_octets. }
  assert (Hst : piece_start o = a) by (unfold piece_start; rewrite Hhd, E6; Z.div_mod_to_equations; lia).
  assert (Hle : piece_len o = size) by (unfold piece_len, IP_HLEN in *; rewrite Hhd, E5; lia).
  assert (Hoct : pk_octets o = ip_hdr_octets f ++ slice D a (a + size))
    by (unfold pk_octets, o; cbn [pk_chunks concat]; by rewrite Hp).
  assert (Hsl : Z.of_nat (length (slice D a (a + size))) = size).
  { unfold slice. rewrite length_take, length_drop. lia. }
  assert (Hend : piece_end o = a + size) by (unfold piece_end; lia).
  split; [|split; [done|split; [|done]]].
  - unfold is_piece. rewrite Hhd, Hend, Hle, Hst.
    split; [|split; [|split; [|split; [|split; [|split; [|split]]]]]].
    + split; [done|]. split; [done|]. split; [cbn [pk_chunks length o]; lia|by apply ip_hdr_octets_ok].
    + apply E8. destruct (Z.eqb_spec (a + size) L); [right|by left].
      destruct (Z.eq_dec a 0) as [->|]; [lia|]. Z.div_mod_to_equations. lia.
    + unfold IPH_HL_BYTES, IPH_HL in *. by rewrite E4.
    + by apply match_key.
    + lia.
    + done.
    + by rewrite E7, Hlast.
    + rewrite Hoct. by rewrite drop_app_length' by done.
  - unfold pk_tot_len. rewrite Hoct, length_app, ip_hdr_octets_length.
    rewrite u16_id by (unfold is_u16; lia). lia.
Qed.

Lemma frag_loop_spec fuel : forall p poff a ans,
  0 <= a <= L -> (a = L \/ a mod (mtu - IP_HLEN) = 0) -> L - a <= Z.of_nat fuel ->
  0 <= poff <= Z.of_nat (length (hd [] p)) -> Forall small p ->
  drop (Z.to_nat poff) (concat p) = drop (Z.to_nat a) D ->
  exists err outs ans',
    frag_loop fuel h mtu ((mtu - IP_HLEN) / 8) false p poff (L - a) (a / 8) ans
      = Some (err, outs, ans') /\
    (err = ERR_OK /\ carry a outs L \/
     err = ERR_MEM /\ (exists b, carry a outs b /\ b < L) /\ ~ enough ans (2 * (L - a))).
Proof.
  unfold IP_HLEN in *.
  induction fuel as [|fuel IH]; intros p poff a ans Ha Hm Hf Hpo Hsm Hd; cbn [frag_loop].
  { assert (a = L) as -> by lia. rewrite Z.sub_diag. exists ERR_OK, [], ans. split; [done|]. by left. }
  destruct (Z.eqb_spec (L - a) 0) as [E|E].
  { assert (a = L) as -> by lia. exists ERR_OK, [], ans. split; [done|]. by left. }
  destruct Hm as [Hm|Hm]; [lia|].
  assert (Ha8 : a mod 8 = 0).
  { apply Z.mod_divide in Hm as [k ->]; [|lia]. apply Z.mod_divide in H8 as [j ->]; [|lia].
    apply Z.mod_divide; [lia|]. exists (k * j). lia. }
  rewrite (u16_id (_ / 8 * 8)) by (unfold is_u16; Z.div_mod_to_equations; lia).
  replace ((mtu - 20) / 8 * 8) with (mtu - 20) by (Z.div_mod_to_equations; lia).
  set (size := Z.min (L - a) (mtu - 20)) in *.
  destruct ans as [|r ans]; cbn [next_answer].
  { exists ERR_MEM, [], []. split; [done|]. right. split; [done|].
    split; [exists a; split; [done|lia]|]. intros [_ Hn]. simpl in Hn. lia. }
  destruct r; cbn [negb].
  2:{ exists ERR_MEM, [], ans. split; [done|]. right. split; [done|].
      split; [exists a; split; [done|lia]|]. intros [Hn _]. inversion Hn. done. }
  rewrite (proj2 (Z.eqb_neq size 0)) by lia.
  assert (Hrest : Z.of_nat (length (concat p)) - poff = L - a).
  { apply (f_equal (fun l => Z.of_nat (length l))) in Hd. rewrite !length_drop in Hd.
    assert (poff <= Z.of_nat (length (concat p))).
    { destruct p as [|c p]; cbn [hd concat] in *; [simpl in Hpo; lia|]. rewrite length_app. lia. }
    unfold L in *. lia. }
  destruct (frag_pieces_spec p poff size ans Hpo) as (res & ans1 & -> & (k & -> & Hk) & Hres);
    [lia|lia|done|].
  cbn [mbind option_bind].
  destruct res as [[[pieces p'] poff']|].
  2:{ exists ERR_MEM, [], (drop k ans). split; [done|]. right. split; [done|].
      split; [exists a; split; [done|lia]|]. intros [Hn1 Hn2]. apply Hres.
      inversion Hn1; subst. split; [done|]. simpl in Hn2. lia. }
  destruct Hres as (Hp1 & Hp2 & Hp3 & Hp4 & Hp5). rewrite Hd in Hp1, Hp5.
  replace (u16 (L - a - size)) with (L - (a + size)) by (rewrite u16_id by (unfold is_u16; lia); lia).
  assert (Hofo : a + size = L \/ u16 (a / 8 + (mtu - 20) / 8) = (a + size) / 8).
  { destruct (Z.le_gt_cases (L - a) (mtu - 20)); [left; lia|right].
    rewrite u16_id by (unfold is_u16; Z.div_mod_to_equations; lia).
    replace size with (mtu - 20) by lia. Z.div_mod_to_equations. lia. }
  set (last := (L - a <=? mtu - 20)) in *.
  assert (Hlast : last = (a + size =? L)) by (subst last size; lia).
  destruct (fragment_piece a last pieces size) as (Hi & Hs1 & Hs2 & Hs3);
    try (done || (unfold IP_HLEN; lia)).
  { rewrite Hp1. unfold slice. by replace (a + size - a) with size by lia. }
  set (o := Pkt _ _ _) in *.
  assert (exists err outs ans',
    frag_loop fuel h mtu ((mtu - 20) / 8) false p' poff' (L - (a + size))
      (u16 (a / 8 + (mtu - 20) / 8)) (drop k ans) = Some (err, outs, ans') /\
    (err = ERR_OK /\ carry (a + size) outs L \/
     err = ERR_MEM /\ (exists b, carry (a + size) outs b /\ b < L) /\
     ~ enough (drop k ans) (2 * (L - (a + size))))) as (err & outs & ans' & -> & Hc).
  { destruct Hofo as [El|El].
    - rewrite El, Z.sub_diag. exists ERR_OK, [], (drop k ans).
      split; [by destruct fuel|]. by left.
    - rewrite El. apply IH; [lia| |lia|done|done|].
      + destruct (Z.le_gt_cases (L - a) (mtu - 20)); [left; lia|right].
        replace (a + size) with (a + 1 * (mtu - 20)) by lia. by rewrite Z.mod_add by lia.
      + rewrite Hp5, drop_drop. f_equal. lia. }
  cbn [mbind option_bind]. exists err, (o :: outs), ans'. split; [done|].
  cbn [carry]. rewrite Hs3. destruct Hc as [[-> Hc]|(-> & (b & Hb & Hbl) & Hne)]; [by left|right].
  split; [done|]. split; [by exists b|]. intros He. apply Hne.
  destruct He as [[_ He1]%Forall_cons He2].
  split; [by apply Forall_drop|]. rewrite length_drop. simpl in He2. lia.
Qed.

End fragment.

Lemma carry_pieces D h mtu outs : forall a b,
  Z.of_nat (length D) <= 65535 - IP_HLEN ->
  carry D h mtu a outs b ->
  Forall (is_piece D h) outs /\ Forall (fun o => pk_tot_len o <= mtu) outs /\
  Forall (fun o => a <= piece_start o) outs /\
  ForallOrdPairs disjoint_pieces outs /\ sum_with piece_len outs = b - a /\ a <= b.
Proof.
  induction outs as [|o outs IH]; intros a b HL; cbn [carry].
  { intros ->. rewrite sum_with_nil. repeat split; try constructor; lia. }
  intros (Hp & <- & Hfit & Hr). apply IH in Hr as (H1 & H2 & H3 & H4 & H5 & H6); [|done].
  destruct (piece_bounds D h HL o Hp) as (Hb & _). rewrite sum_with_cons, H5.
  split; [by constructor|]. split; [by constructor|]. split.
  { constructor; [lia|]. eapply Forall_impl; [exact H3|]. cbn. lia. }
  split; [|unfold piece_end in *; lia]. constructor; [|done].
  eapply Forall_impl; [exact H3|]. intros q Hq. left. exact Hq.
Qed.

(** A packet that is too large for the MTU, as [ip4_output_if] passes it. *)
Definition oversized (p : pkt) (mtu : Z) : Prop :=
  pkt_ok p /\ Forall small (pk_chunks p) /\ IPH_HL_BYTES (pkt_hdr p) = IP_HLEN /\
  is_fragment (pkt_hdr p) = false /\ mtu < Z.of_nat (length (pk_octets p)) <= 65535.

Lemma ip4_frag_spec p mtu ans :
  oversized p mtu -> 28 <= mtu -> (mtu - IP_HLEN) mod 8 = 0 ->
  let D := drop 20 (pk_octets p) in
  exists err outs ans', ip4_frag p mtu ans = Some (err, outs, ans') /\
    (err = ERR_OK /\ carry D (pkt_hdr p) mtu 0 outs (Z.of_nat (length D)) \/
     err = ERR_MEM /\ (exists b, carry D (pkt_hdr p) mtu 0 outs b /\ b < Z.of_nat (length D)) /\
     ~ enough ans (2 * Z.of_nat (length D))).
Proof.
  intros (Hp & Hsm & Hhl & Hnf & Hlen) Hmtu H8 D. unfold ip4_frag. fold (pkt_hdr p).
  rewrite Hhl. cbn [negb Z.eqb Pos.eqb IP_HLEN].
  pose proof (pkt_hdr_ok p Hp) as Hh. destruct Hp as (Hc & H20 & _).
  unfold IP_HLEN in *. rewrite (proj2 (Z.leb_le _ _)) by done.
  pose proof Hh as (_&_&_&_&Hoff&_). apply unfragmented_field in Hoff.
  unfold is_fragment in Hnf. apply negb_false_iff in Hnf. rewrite Hnf in Hoff.
  apply andb_true_iff in Hoff as [->%Z.eqb_eq ->%negb_true_iff].
  assert (HDl : Z.of_nat (length D) = Z.of_nat (length (pk_octets p)) - 20).
  { unfold D. rewrite length_drop. unfold pk_octets, pk_len in *.
    destruct (pk_chunks p); [done|]. cbn [hd concat] in *. rewrite length_app. lia. }
  assert (Htot : u16 (pk_tot_len p - 20) = Z.of_nat (length D) - 0).
  { unfold pk_tot_len. rewrite (u16_id (Z.of_nat _)) by (unfold is_u16; lia).
    rewrite u16_id by (unfold is_u16; lia). lia. }
  rewrite Htot. rewrite Z.quot_div_nonneg by lia.
  rewrite (u16_id (_ / 8)) by (unfold is_u16; Z.div_mod_to_equations; lia).
  destruct (frag_loop_spec D (pkt_hdr p) mtu ltac:(unfold IP_HLEN; lia) Hh Hhl ltac:(lia) H8
              ltac:(unfold IP_HLEN; lia) (S (Z.to_nat (Z.of_nat (length D) - 0)))
              (pk_chunks p) 20 0 ans) as (err & outs & ans' & Hrun & Hres);
    [lia|by right|lia|unfold pk_len in H20; lia|done|done|].
  unfold IP_HLEN in Hrun. rewrite Z.div_0_l in Hrun by lia.
  exists err, outs, ans'. split; [exact Hrun|]. by rewrite Z.sub_0_r in Hres.
Qed.

Lemma disjoint_perm outs arrived :
  ForallOrdPairs disjoint_pieces outs -> arrived ≡ₚ outs -> ForallOrdPairs disjoint_pieces arrived.
Proof.
  intros H Hp. symmetry in Hp. revert H. induction Hp as [|x l l' Hp IH|x y l|l l' l'' _ IH1 _ IH2]; intros H.
  - done.
  - inversion H; subst. constructor; [by rewrite <- Hp|auto].
  - inversion H as [|? ? Hy H']; subst. inversion H' as [|? ? Hx H'']; subst.
    rewrite Forall_cons in Hy. destruct Hy. constructor; [constructor; [by apply disjoint_pieces_sym|done]|by constructor].
  - auto.
Qed.

Lemma whole_header_ok h n : ip_hdr_ok h -> ip_hdr_ok (whole_header h n).
Proof.
  intros (?&?&?&?&?&?&?&?&?&?). unfold whole_header, ip_hdr_ok.
  cbn [iph_src iph_dest _id _v_hl _len _offset _chksum _tos _ttl _proto setter].
  repeat match goal with |- _ /\ _ => split end;
    first [assumption|apply lwip_htons_u16|apply inet_chksum_u16|done].
Qed.

Lemma pkt_hdr_octets p : pkt_ok p -> ip_hdr_of (pk_octets p) = pkt_hdr p.
Proof.
  intros (Hc & Hl & _). unfold pk_octets, pkt_hdr, pk_len, IP_HLEN in *.
  destruct (pk_chunks p); [done|]. cbn [hd concat] in *. apply ip_hdr_of_app. lia.
Qed.

(** C18: A packet that is too large for the MTU (20 plus a multiple of 8) is sent
    as fragments that fit, and a receiver that runs the reassembly code gets its
    payload back, with addresses and identification of the original, whatever
    the order in which the fragments arrive. *)
Theorem ip4_frag_round_trip p mtu ans s m :
  oversized p mtu -> 28 <= mtu -> (mtu - IP_HLEN) mod 8 = 0 ->
  enough ans (2 * Z.of_nat (length (pk_octets p))) ->
  reass_ok s -> find_datagram (ip_hdr_of (hd [] (pk_chunks p))) (reassdatagrams s) = None ->
  reass_malloc s = true :: m ->
  exists outs ans', ip4_frag p mtu ans = Some (ERR_OK, outs, ans') /\
    Forall (fun o => pk_tot_len o <= mtu) outs /\
    forall arrived, arrived ≡ₚ outs ->
      ip_reass_pbufcount s + sum_with pk_clen arrived <= IP_REASS_MAX_PBUFS ->
      exists s' q, reass_run arrived s = Some (s', repeat None (length arrived - 1) ++ [Some q]) /\
        drop 20 (pk_octets q) = drop 20 (pk_octets p) /\
        IP_ADDRESSES_AND_ID_MATCH (ip_hdr_of (pk_octets q)) (ip_hdr_of (pk_octets p)) = true /\
        reassdatagrams s' = reassdatagrams s.
Proof.
  intros Hov Hmtu H8 Hen Hok Hnone Hmal.
  destruct (ip4_frag_spec p mtu ans Hov Hmtu H8) as (err & outs & ans' & Hrun & Hres).
  set (D := drop 20 (pk_octets p)) in *. pose proof Hov as (Hp & _ & _ & _ & Hlen).
  assert (HDl : Z.of_nat (length D) <= 65535 - IP_HLEN).
  { unfold D, IP_HLEN. rewrite length_drop. lia. }
  destruct Hres as [[-> Hc]|(_ & _ & Hne)].
  2:{ exfalso. apply Hne. destruct Hen as [H1 H2]. split; [done|].
      unfold D. rewrite length_drop. lia. }
  destruct (carry_pieces D _ mtu outs 0 _ HDl Hc) as (Hps & Hfit & _ & Hdis & Hsum & _).
  exists outs, ans'. split; [done|]. split; [done|]. intros arrived Hperm Hm.
  rewrite Z.sub_0_r in Hsum.
  destruct (reassembles D (pkt_hdr p) s arrived m HDl Hok Hnone Hmal) as (s' & q & p0 & H1 & H2 & _ & Ho & Hl & _).
  - intros ->. apply Permutation_nil in Hperm. subst outs. rewrite sum_with_nil in Hsum.
    unfold D in Hsum. rewrite length_drop in Hsum. lia.
  - by rewrite Hperm.
  - by apply (disjoint_perm outs).
  - by rewrite Hperm.
  - done.
  - exists s', q. split; [done|]. fold (pkt_hdr p0) in Ho. rewrite Ho.
    split; [by rewrite drop_app_length' by done|]. split; [|done].
    rewrite ip_hdr_of_octets by (apply whole_header_ok, pkt_hdr_ok;
      rewrite Hperm in H2; rewrite Forall_forall in Hps; apply (Hps p0 H2)).
    rewrite pkt_hdr_octets by done. apply match_key.
    rewrite Hperm in H2. rewrite Forall_forall in Hps.
    destruct (Hps p0 H2) as (_ & _ & _ & Hk & _). apply match_key in Hk.
    destruct Hk as (-> & -> & ->). done.
Qed.


#[export] Instance oversized_dec p mtu : Decision (oversized p mtu).
Proof. unfold oversized, small. apply _. Defined.

Lemma ip4_frag_round_trip_witness :
  let p := example_datagram 24 in
  exists outs ans', ip4_frag p 28 (repeat true 88) = Some (ERR_OK, outs, ans') /\
    Forall (fun o => pk_tot_len o <= 28) outs /\
    forall arrived, arrived ≡ₚ outs ->
      ip_reass_pbufcount empty_reass + sum_with pk_clen arrived <= IP_REASS_MAX_PBUFS ->
      exists s' q, reass_run arrived empty_reass = Some (s', repeat None (length arrived - 1) ++ [Some q]) /\
        drop 20 (pk_octets q) = drop 20 (pk_octets p) /\
        IP_ADDRESSES_AND_ID_MATCH (ip_hdr_of (pk_octets q)) (ip_hdr_of (pk_octets p)) = true /\
        reassdatagrams s' = reassdatagrams empty_reass.
Proof.
  intros p. apply (ip4_frag_round_trip p 28 (repeat true 88) empty_reass (repeat true 4));
    [decide_now|done|done| |apply empty_reass_ok|done|done].
  split; [decide_now|by vm_compute].
Defined.

(** With an MTU of 30 a payload of 18 octets goes out as fragments of 8, 8 and 2
    octets, and already the second one has no MF flag: no receiver can put the
    datagram together. *)
Lemma ip4_frag_early_last :
  match ip4_frag (example_datagram 18) 30 (repeat true 40) with
  | Some (_, outs, _) =>
      map (fun o => (piece_start o, piece_len o, last_fragment (pkt_hdr o))) outs
  | None => []
  end = [(0, 8, false); (8, 8, true); (16, 2, true)].
Proof. by vm_compute. Qed.
