(* ===== verification/Ip6Frag.v ===== *)
(** * IPv6 reassembly (core/c/core/ipv6/ip6_frag.c)

    Incomplete datagrams wait in a list, each with the fragments that arrived.
    In memory the fragments are chained through a [struct ip6_reass_helper] of
    twelve octets (pointer, start, end) that overwrites the fragment header and,
    since a pointer has eight octets, four octets in front of it
    ([IPV6_FRAG_COPYHEADER]).  A [frag6] is the [start] and [end] of the helper with
    the packet as it arrived: the payload is at the fragment header, the headers in
    front are in the room.  What was overwritten is read again in two places, where
    the model says what memory holds.

    [iphdr] of an entry is used once its first fragment is there: it is then
    [f6_hdrlen] octets in front of the fragment header of the first fragment. *)

From S2P Require Import Prelude Err Def IpAddr NetifDefs Ip6Addr Packet Ip6Hdr Ip4Frag.

Definition IPV6_REASS_MAXAGE : Z := 60.
Definition IPV6_FRAG_REQROOM : Z := 4.

Record frag6 := Frag6 { f6_start : Z; f6_end : Z; f6_pbuf : pkt; f6_hdrlen : Z }.

Record ip6_reassdata := Ip6Reassdata {
  r6_p : list frag6;
  r6_src : list Z;
  r6_dest : list Z;
  r6_identification : Z;
  r6_datagram_len : Z;
  r6_nexth : Z;
  r6_timer : Z;
  r6_src_zone : Z;
  r6_dest_zone : Z
}.

#[export] Instance eta_ip6_reassdata : EtaRecord ip6_reassdata := fun d =>
  Ip6Reassdata (r6_p d) (r6_src d) (r6_dest d) (r6_identification d) (r6_datagram_len d) (r6_nexth d)
    (r6_timer d) (r6_src_zone d) (r6_dest_zone d).

(** The calls that leave the file. *)
Inductive event6 :=
| Free6 (p : pkt)
| Time_exceeded6 (p : pkt) (src dest : ip6_addr).   (* icmp6_time_exceeded_with_addrs, ICMP6_TE_FRAG *)

(** The static variables, the answers [memp_malloc] will give, and the calls. *)
Record reass6 := Reass6 {
  reassdatagrams6 : list ip6_reassdata;
  ip6_reass_pbufcount : Z;
  reass6_malloc : list bool;
  reass6_events : list event6
}.

#[export] Instance eta_reass6 : EtaRecord reass6 := fun s =>
  Reass6 (reassdatagrams6 s) (ip6_reass_pbufcount s) (reass6_malloc s) (reass6_events s).

Definition emit6 (es : list event6) (s : reass6) : reass6 := s <| reass6_events := reass6_events s ++ es |>.

Definition memp_malloc6 (s : reass6) : bool * reass6 :=
  match reass6_malloc s with
  | a :: r => (a, s <| reass6_malloc := r |>)
  | [] => (false, s)
  end.

(** ** Giving up on a datagram *)

Fixpoint free_frags6 (fs : list frag6) (pbufs_freed : Z) : option (list event6 * Z) :=
  match fs with
  | [] => Some ([], pbufs_freed)
  | f :: r =>
      let clen := pk_clen (f6_pbuf f) in
      lwip_assert (pbufs_freed + clen <=? 65535);
      '(es, n) ← free_frags6 r (u16 (pbufs_freed + clen));
      Some (Free6 (f6_pbuf f) :: es, n)
  end.

(** The packet an ICMP message quotes: [sizeof(iprh)] octets of the helper, the size
    of a pointer, were restored, its [start] and [end] stay in the place of the
    identification.  [pbuf_header_force] takes an [s16_t]. *)
Definition expired_packet (f : frag6) : option pkt :=
  p ← pk_write 4 (st16 (f6_start f) ++ st16 (f6_end f)) (f6_pbuf f);
  lwip_assert (f6_hdrlen f - IPV6_FRAG_REQROOM <? 32768);
  pk_header_force (f6_hdrlen f) p.

(** [ip6_reass_free_complete_datagram] on the entry at position [i]. *)
Definition ip6_reass_free_complete_datagram (i : nat) (s : reass6) : option reass6 :=
  ipr ← reassdatagrams6 s !! i;
  match r6_p ipr with
  | [] => None                                    (* ipr->p->payload *)
  | f :: fs =>
      '(es, pbufs_freed, q) ←
        (if f6_start f =? 0 then
           p ← expired_packet f;
           let clen := pk_clen p in
           lwip_assert (0 + clen <=? 65535);
           Some ([Time_exceeded6 p (Ip6Addr (r6_src ipr) (r6_src_zone ipr)) (Ip6Addr (r6_dest ipr) (r6_dest_zone ipr));
                  Free6 p], u16 (0 + clen), fs)
         else Some ([], 0, f :: fs));
      '(es', pbufs_freed) ← free_frags6 q pbufs_freed;
      let s := emit6 (es ++ es') s in
      let s := s <| reassdatagrams6 := delete i (reassdatagrams6 s) |> in
      lwip_assert (pbufs_freed <=? ip6_reass_pbufcount s);
      Some (s <| ip6_reass_pbufcount := u16 (ip6_reass_pbufcount s - pbufs_freed) |>)
  end.

(** The [while] loop of [ip6_reass_tmr]: [r] is the entry at position [i]. *)
Fixpoint ip6_reass_tmr_loop (fuel : nat) (i : nat) (s : reass6) : option reass6 :=
  match reassdatagrams6 s !! i with
  | None => Some s
  | Some r =>
      match fuel with
      | O => None
      | S f =>
          if 0 <? r6_timer r then
            ip6_reass_tmr_loop f (S i)
              (s <| reassdatagrams6 := <[i := r <| r6_timer := r6_timer r - 1 |>]> (reassdatagrams6 s) |>)
          else
            s ← ip6_reass_free_complete_datagram i s;
            ip6_reass_tmr_loop f i s
      end
  end.

Definition ip6_reass_tmr (s : reass6) : option reass6 :=
  ip6_reass_tmr_loop (length (reassdatagrams6 s)) 0 s.

(** The scan of [ip6_reass_remove_oldest_datagram]: [oldest] and its timer. *)
Fixpoint find_oldest6 (ipr : option nat) (l : list ip6_reassdata) (i : nat) (oldest : nat) (t : Z) : nat :=
  match l with
  | [] => oldest
  | r :: l =>
      if negb (bool_decide (ipr = Some i)) && (r6_timer r <=? t)
      then find_oldest6 ipr l (S i) i (r6_timer r)
      else find_oldest6 ipr l (S i) oldest t
  end.

(** The [do ... while]; the entry [ipr] moves when one in front of it is freed. *)
Fixpoint remove_oldest6_loop (fuel : nat) (ipr : option nat) (pbufs_needed : Z) (s : reass6)
  : option (reass6 * option nat) :=
  match fuel with
  | O => None
  | S fuel =>
      match reassdatagrams6 s with
      | [] => Some (s, ipr)
      | r :: _ =>
          let oldest := find_oldest6 ipr (reassdatagrams6 s) 0 0 (r6_timer r) in
          if bool_decide (ipr = Some oldest) then Some (s, ipr)
          else
            s ← ip6_reass_free_complete_datagram oldest s;
            let ipr := option_map (fun i => if (oldest <? i)%nat then pred i else i) ipr in
            if (IP_REASS_MAX_PBUFS <? ip6_reass_pbufcount s + pbufs_needed)
               && match reassdatagrams6 s with [] => false | _ => true end
            then remove_oldest6_loop fuel ipr pbufs_needed s
            else Some (s, ipr)
      end
  end.

Definition ip6_reass_remove_oldest_datagram (ipr : option nat) (pbufs_needed : Z) (s : reass6)
  : option (reass6 * option nat) :=
  remove_oldest6_loop (S (length (reassdatagrams6 s))) ipr pbufs_needed s.

(** ** Queueing a fragment *)

Inductive place6 := Dropped6 | Placed6 (pre post : list frag6) (valid : bool).

(** The [for] loop and the case after it: [pre] are the fragments passed, the last
    of them is [iprh_prev].  In front of a fragment the new one is only compared
    with the end of the previous one for overlap, not for a gap. *)
Fixpoint find_place6 (start end_ : Z) (pre q : list frag6) (valid : bool) : option place6 :=
  match q with
  | [] =>
      match last pre with
      | Some pv =>
          lwip_assert (f6_end pv <=? start);
          Some (Placed6 pre [] (if negb (f6_end pv =? start) then false else valid))
      | None => Some (Placed6 pre [] valid)
      end
  | f :: q' =>
      if start <? f6_start f then
        if f6_start f <? end_ then Some Dropped6
        else
          match last pre with
          | Some pv => if start <? f6_end pv then Some Dropped6 else Some (Placed6 pre q valid)
          | None => Some (Placed6 pre q valid)
          end
      else if start =? f6_start f then Some Dropped6
      else if start <? f6_end f then Some Dropped6
      else
        let valid :=
          match last pre with
          | Some pv => if negb (f6_end pv =? f6_start f) then false else valid
          | None => valid
          end in
        find_place6 start end_ (pre ++ [f]) q' valid
  end.

(** [while ((q != NULL) && valid)]: no gap behind [prev]. *)
Fixpoint no_holes6 (prev : frag6) (q : list frag6) : bool :=
  match q with
  | [] => true
  | f :: q' => if negb (f6_end prev =? f6_start f) then false else no_holes6 f q'
  end.

(** ** The complete datagram *)

(** The fragments behind the first lose their fragment header and are chained. *)
Fixpoint chain_frags6 (p : pkt) (r : list frag6) : option pkt :=
  match r with
  | [] => Some p
  | f :: r' => q ← pk_remove_header IP6_FRAG_HLEN (f6_pbuf f); chain_frags6 (pk_cat p q) r'
  end.

(** The walk over the extension headers to the one in front of the fragment header, on
    what memory holds from the IPv6 header on; [ptr] is an offset. *)
Fixpoint fix_nexth (fuel : nat) (mem : list Z) (ptr : nat) (nexth : Z) : option (list Z) :=
  match fuel with
  | O => None
  | S fuel =>
      v ← mem !! ptr;
      if v =? IP6_NEXTH_FRAGMENT then Some (<[ptr := nexth]> mem)
      else
        l ← mem !! S ptr;
        fix_nexth fuel mem (ptr + 8 * (1 + Z.to_nat l)) nexth
  end.

(** The first fragment without its fragment header: the headers in front move up by
    eight octets, get the new length and the next header of the datagram, and the
    payload goes back to the IPv6 header.  [datagram_len] is adjusted by the
    distance between the new place of the header and the old place of the
    fragment header.  [pbuf_header_force] takes an [s16_t]. *)
Definition unfragment (f : frag6) (datagram_len nexth : Z) (p : pkt) : option pkt :=
  match pk_chunks p with
  | [] => None
  | c :: r =>
      let hdrlen := Z.to_nat (f6_hdrlen f) in
      lwip_assert (hdrlen <=? length (pk_room p))%nat;
      lwip_assert (IP6_FRAG_HLEN <=? Z.of_nat (length c));
      lwip_assert (f6_hdrlen f - IP6_FRAG_HLEN <? 32768);
      let front := take (length (pk_room p) - hdrlen) (pk_room p) in
      let hdr := drop (length (pk_room p) - hdrlen) (pk_room p) in
      let datagram_len := u16 (datagram_len + (f6_hdrlen f - IP6_FRAG_HLEN) - IP6_HLEN) in
      let plen := lwip_htons datagram_len in
      let mem := (take 4 hdr ++ st16 plen ++ drop 6 hdr) ++ drop (Z.to_nat IP6_FRAG_HLEN) c in
      mem ← (if ld8 mem 6 =? IP6_NEXTH_FRAGMENT then Some (<[6%nat := nexth]> mem)
             else fix_nexth (length mem) mem (Z.to_nat IP6_HLEN) nexth);
      Some (Pkt (front ++ take (Z.to_nat IP6_FRAG_HLEN) hdr) (mem :: r) (pk_contig p))
  end.

(** The datagram at position [i] is complete. *)
Definition finish_datagram6 (i : nat) (s : reass6) : option (reass6 * option pkt) :=
  ipr ← reassdatagrams6 s !! i;
  match r6_p ipr with
  | [] => None
  | f :: r =>
      p ← chain_frags6 (f6_pbuf f) r;
      let clen := pk_clen p in
      p ← unfragment f (r6_datagram_len ipr) (r6_nexth ipr) p;
      let s := s <| reassdatagrams6 := delete i (reassdatagrams6 s) |> in
      lwip_assert (clen <=? ip6_reass_pbufcount s);
      Some (s <| ip6_reass_pbufcount := u16 (ip6_reass_pbufcount s - clen) |>, Some p)
  end.

(** ** Reassembly *)

Definition nullreturn6 (p : pkt) (s : reass6) : option (reass6 * option pkt) :=
  Some (emit6 [Free6 p] s, None).

Definition ip6_addr_cmp_packed (a : ip6_addr) (ws : list Z) (z : Z) : bool :=
  ip6_addr_cmp_zoneless a (Ip6Addr ws 0) && (zone a =? z).

Fixpoint find_datagram6 (identification : Z) (src dest : ip6_addr) (l : list ip6_reassdata) : option nat :=
  match l with
  | [] => None
  | r :: l' =>
      if (identification =? r6_identification r) && ip6_addr_cmp_packed src (r6_src r) (r6_src_zone r)
         && ip6_addr_cmp_packed dest (r6_dest r) (r6_dest_zone r)
      then Some O
      else i ← find_datagram6 identification src dest l'; Some (S i)
  end.

(** The entry of a new datagram; [false]: no memory, also after making room. *)
Definition enqueue_new_datagram6 (iphdr : ip6_hdr) (fh : ip6_frag_hdr) (src dest : ip6_addr) (clen : Z)
    (s : reass6) : option (reass6 * bool) :=
  let '(ok, s) := memp_malloc6 s in
  '(s, ok) ←
    (if (ok : bool) then Some (s, true)
     else
       '(s, _) ← ip6_reass_remove_oldest_datagram None clen s;
       let '(ok, s) := memp_malloc6 s in Some (s, ok));
  if (ok : bool) then
    Some (s <| reassdatagrams6 :=
                 Ip6Reassdata [] (ip6h_src iphdr) (ip6h_dest iphdr) (_identification fh) 0 (fh_nexth fh)
                   IPV6_REASS_MAXAGE (zone src) (zone dest) :: reassdatagrams6 s |>, true)
  else Some (s, false).

(** The part of [ip6_reass] behind the lookup: the entry is at position [i].  An
    entry without a fragment stays when the fragment is dropped. *)
Definition reass6_into (i : nat) (p : pkt) (hdrlen start len offset clen : Z) (s : reass6)
  : option (reass6 * option pkt) :=
  '(s, i, room) ←
    (if IP_REASS_MAX_PBUFS <? ip6_reass_pbufcount s + clen then
       '(s, ipr) ← ip6_reass_remove_oldest_datagram (Some i) clen s;
       i ← ipr;
       Some (s, i, ip6_reass_pbufcount s + clen <=? IP_REASS_MAX_PBUFS)
     else Some (s, i, true));
  if negb room then nullreturn6 p s
  else
    _ ← pk_header_force IPV6_FRAG_REQROOM p;         (* "no room for struct ip6_reass_helper" *)
    let new := Frag6 start (u16 (start + len)) p hdrlen in
    ipr ← reassdatagrams6 s !! i;
    pl ← find_place6 start (f6_end new) [] (r6_p ipr) true;
    match pl with
    | Dropped6 => nullreturn6 p s
    | Placed6 pre post valid =>
        let s := s <| ip6_reass_pbufcount := u16 (ip6_reass_pbufcount s + clen) |> in
        let ps := pre ++ new :: post in
        let ipr := ipr <| r6_p := ps |> in
        let ipr := if Z.land offset IP6_FRAG_MORE_FLAG =? 0 then ipr <| r6_datagram_len := f6_end new |> else ipr in
        let s := s <| reassdatagrams6 := <[i := ipr]> (reassdatagrams6 s) |> in
        if valid && (f6_start (hd new ps) =? 0) && negb (r6_datagram_len ipr =? 0) && no_holes6 new post
        then finish_datagram6 i s
        else Some (s, None)
    end.

(** [ip6_reass]: [iphdr] is the header [ip6_current_header()] points to, [hdrdiff]
    how far it is in front of [p->payload], and [src], [dest] are the current
    addresses with their zones. *)
Definition ip6_reass (iphdr : ip6_hdr) (hdrdiff : Z) (src dest : ip6_addr) (p : pkt) (s : reass6)
  : option (reass6 * option pkt) :=
  lwip_assert (IP6_FRAG_HLEN <=? pk_len p);
  let fh := ip6_frag_hdr_of (hd [] (pk_chunks p)) in
  let clen := pk_clen p in
  let offset := lwip_htons (_fragment_offset fh) in
  let len := lwip_htons (_plen iphdr) in
  lwip_assert (hdrdiff <=? 65535);
  lwip_assert (IP6_HLEN <=? hdrdiff);
  let hdrlen := hdrdiff in
  let hdrdiff := hdrdiff - IP6_HLEN + IP6_FRAG_HLEN in
  if len <? hdrdiff then nullreturn6 p s
  else
    let len := u16 (len - hdrdiff) in
    let start := Z.land offset IP6_FRAG_OFFSET_MASK in
    if 65535 - len <? start then nullreturn6 p s
    else
      match find_datagram6 (_identification fh) src dest (reassdatagrams6 s) with
      | Some i => reass6_into i p hdrlen start len offset clen s
      | None =>
          '(s, ok) ← enqueue_new_datagram6 iphdr fh src dest clen s;
          if (ok : bool) then reass6_into 0 p hdrlen start len offset clen s
          else nullreturn6 p s
      end.
