(* ===== verification/Net.v ===== *)
(** * What the IP layers share

    The interfaces, the counters of identifications, the description of the
    packet being received ([ip_data] of ip.c), the answers the allocator will
    give, and a log of everything that leaves the stack: packets handed to a
    driver, packets queued for loopback, packets freed.  [ip_route] and the
    lookups among the interfaces are here too, as is the loopback queue
    ([netif_loop_output] of netif.c).

    The driver behind [netif->output] and the IPv6 output path are interfaces:
    the former is Go code, the latter is discharged by Ip6Layer. *)

From S2P Require Import Prelude Err Def IpAddr NetifDefs Ip6Addr Chksum Pbuf Packet Nd6Defs.

Inductive net_event :=
| Netif_output (n : netif) (p : pkt) (dest : Z)      (* netif->output *)
| Netif_output_ip6 (n : netif) (p : pkt) (dest : ip6_addr)  (* netif->output_ip6 *)
| Loop_queued (n : netif) (r : pkt)                  (* appended to netif->loop_first *)
| Pbuf_free (p : pkt).                               (* the last reference is given up *)

(** [struct ip_globals]; a header pointer is the octets it points to, up to
    the transport header. *)
Record ip_globals := IpGlobals {
  current_netif : option netif;
  current_input_netif : option netif;
  current_ip4_header : option (list Z);
  current_ip6_header : option (list Z);
  current_ip_header_tot_len : Z;
  current_iphdr_src : ip_addr;
  current_iphdr_dest : ip_addr
}.

#[export] Instance eta_ip_globals : EtaRecord ip_globals := fun g =>
  IpGlobals (current_netif g) (current_input_netif g) (current_ip4_header g)
    (current_ip6_header g) (current_ip_header_tot_len g) (current_iphdr_src g)
    (current_iphdr_dest g).

(** [ip_current_is_v6] *)
Definition ip_current_is_v6 (g : ip_globals) : bool :=
  match current_ip6_header g with Some _ => true | None => false end.

Record net := Net {
  netif_list : list netif;
  netif_default : option Z;                (* the address of its struct *)
  netif_num : Z;
  ip_id : Z;
  ip6_frag_id : Z;                          (* identification of ip6_frag *)
  nd6 : nd6_data;
  ip_data : ip_globals;
  net_malloc : list (option (nat -> Z));   (* answers: the junk in the block, or NULL *)
  net_log : list net_event                 (* in order of time *)
}.

#[export] Instance eta_net : EtaRecord net := fun s =>
  Net (netif_list s) (netif_default s) (netif_num s) (ip_id s) (ip6_frag_id s) (nd6 s) (ip_data s) (net_malloc s) (net_log s).

Definition log (es : list net_event) (s : net) : net := s <| net_log := net_log s ++ es |>.

(** The struct at an address, if it is in the list, and an assignment to it. *)
Definition netif_at (ptr : Z) (s : net) : option netif := List.find (fun n => nif_ptr n =? ptr) (netif_list s).
Definition netif_update (ptr : Z) (f : netif -> netif) (s : net) : net :=
  s <| netif_list := map (fun n => if nif_ptr n =? ptr then f n else n) (netif_list s) |>.

(** [pbuf_free] of a packet nobody else holds. *)
Definition free_packet (p : pkt) (s : net) : net := log [Pbuf_free p] s.

(** What checksums see of a packet: how payloads are aligned does not matter
    ([Chksum]). *)
Definition pk_view (p : pkt) : list chunk := map (Chunk false) (pk_chunks p).

(** [pbuf_alloc(layer, length, PBUF_RAM)]: one pbuf, its room and its octets
    as [malloc] left them. *)
Definition pbuf_alloc_ram (layer length : Z) (s : net) : option pkt * net :=
  let payload_len := u16 (layer + length) in
  if payload_len <? length then (None, s)
  else
    match net_malloc s with
    | [] => (None, s)
    | None :: r => (None, s <| net_malloc := r |>)
    | Some junk :: r =>
        let mem := junk_block junk payload_len in
        (Some (Pkt (take (Z.to_nat layer) mem) [drop (Z.to_nat layer) mem] true),
         s <| net_malloc := r |>)
    end.

(** ** Interfaces to code outside the model *)

(** [netif->output] and [netif->output_ip6] of a driver, up to what they return. *)
Class netif_driver := driver_output : netif -> pkt -> Z -> Z.
Class netif_driver6 := driver_output_ip6 : netif -> pkt -> ip6_addr -> Z.

(** What UDP, raw IP and IPv4 input call of IPv6. *)
Class ip6_layer := {
  ip6_output_if_src : pkt -> ip6_addr -> option ip6_addr -> Z -> Z -> Z -> netif ->
                      net -> option (net * pkt * Z);
  ip6_output_if : pkt -> ip6_addr -> option ip6_addr -> Z -> Z -> Z -> netif ->
                  net -> option (net * pkt * Z);
  icmp6_dest_unreach : pkt -> Z -> net -> option net;
  ip6_select_source_address : netif -> ip6_addr -> net -> option ip_addr;
  nd6_get_destination_mtu : ip6_addr -> option netif -> net -> Z
}.

(** [ip_netif_get_local_ip] *)
Definition ip_netif_get_local_ip `{ip6_layer} (n : netif) (dest : ip_addr) (s : net) : option ip_addr :=
  if IP_IS_V6_VAL dest then ip6_select_source_address n (ip_2_ip6 dest) s else Some (nif_ip_addr n).

(** ** Choice of the interface *)

(** [ip4_route] and [ip6_route] with [TUN2SOCKS]: the first of the list. *)
Definition ip4_route (dest : Z) (s : net) : option netif := head (netif_list s).
Definition ip6_route (src dest : ip6_addr) (s : net) : option netif := head (netif_list s).
Definition ip4_route_src (src dest : Z) (s : net) : option netif := ip4_route dest s.

Definition ip_route (src dest : ip_addr) (s : net) : option netif :=
  if IP_IS_V6_VAL dest then ip6_route (ip_2_ip6 src) (ip_2_ip6 dest) s
  else ip4_route_src (ip_2_ip4 src) (ip_2_ip4 dest) s.

Definition NETIF_NO_INDEX : Z := 0.

Fixpoint find_index (idx : Z) (l : list netif) : option netif :=
  match l with
  | [] => None
  | n :: r => if idx =? netif_get_index n then Some n else find_index idx r
  end.

Definition netif_get_by_index (idx : Z) (s : net) : option netif :=
  if negb (idx =? NETIF_NO_INDEX) then find_index idx (netif_list s) else None.


(** The loop of [netif_get_ip6_addr_match]: slot [i] on. *)
Fixpoint ip6_addr_match_loop (ip6addr : ip6_addr) (addrs : list ip_addr) (states : list Z)
    (i : Z) : Z :=
  match addrs, states with
  | a :: addrs', st :: states' =>
      if negb (ip6_addr_isinvalid st) && ip6_addr_cmp_zoneless (ip_2_ip6 a) ip6addr then i
      else ip6_addr_match_loop ip6addr addrs' states' (i + 1)
  | _, _ => -1
  end.

Definition netif_get_ip6_addr_match (n : netif) (ip6addr : ip6_addr) : Z :=
  if ip6_addr_has_zone ip6addr && negb (zone ip6addr =? netif_get_index n) then -1
  else ip6_addr_match_loop ip6addr (nif_ip6_addr n) (nif_ip6_addr_state n) 0.

(** [ip6_addr_select_zone(dest, src)], and the test in front of it that the bind
    and connect functions share. *)
Definition ip6_addr_select_zone (dest src : ip6_addr) (s : net) : ip6_addr :=
  match ip6_route src dest s with
  | Some n => ip6_addr_assign_zone dest IP6_UNKNOWN (netif_get_index n)
  | None => dest
  end.

Definition give_zone (a : ip_addr) (src : ip6_addr) (s : net) : ip_addr :=
  if IP_IS_V6_VAL a && ip6_addr_lacks_zone (ip_2_ip6 a) IP6_UNKNOWN
  then IpAddr (ip6_addr_select_zone (ip_2_ip6 a) src s) (ip_type a)
  else a.

(** ** Loopback *)

(** [netif_loop_output]: a copy of the packet joins the queue of the interface. *)
Definition netif_loop_output (n : netif) (p : pkt) (s : net) : option (net * Z) :=
  let '(r, s) := pbuf_alloc_ram PBUF_LINK (pk_tot_len p) s in
  match r with
  | None => Some (s, ERR_MEM)
  | Some r =>
      r ← pk_copy r p;
      Some (log [Loop_queued n r] s, ERR_OK)
  end.

(** ** Lemmas *)

Lemma junk_block_length junk n : 0 <= n -> length (junk_block junk n) = Z.to_nat n.
Proof. intros. unfold junk_block. by rewrite length_map, length_seq. Qed.

Lemma junk_block_ok junk n : bytes_ok (junk_block junk n).
Proof. unfold junk_block. apply Forall_map, Forall_forall. intros. apply u8_bound. Qed.

(** A fresh pbuf has the room and the length asked for. *)
Lemma pbuf_alloc_ram_spec layer n s r s' :
  0 <= layer -> 0 <= n -> layer + n <= 65535 ->
  pbuf_alloc_ram layer n s = (Some r, s') ->
  exists room c, r = Pkt room [c] true /\ length room = Z.to_nat layer /\
    length c = Z.to_nat n /\ bytes_ok room /\ bytes_ok c /\
    exists a, net_malloc s = a :: net_malloc s' /\ s' = s <| net_malloc := net_malloc s' |>.
Proof.
  intros Hl Hn Hle. unfold pbuf_alloc_ram. rewrite u16_id by (unfold is_u16; lia).
  rewrite (proj2 (Z.ltb_ge _ _)) by lia.
  destruct (net_malloc s) as [|[junk|] m] eqn:E; [done| |done]. intros [= <- <-].
  exists (take (Z.to_nat layer) (junk_block junk (layer + n))),
    (drop (Z.to_nat layer) (junk_block junk (layer + n))).
  pose proof (junk_block_ok junk (layer + n)).
  rewrite length_take, length_drop, junk_block_length by lia.
  split_and!; try done; try lia; [by apply Forall_take|by apply Forall_drop|].
  exists (Some junk). destruct s. by rewrite <- E.
Qed.
