(* ===== verification/Nd6Cache.v ===== *)
(** * Neighbor discovery: the caches (core/c/core/ipv6/nd6.c)

    Lookup, allocation and eviction in the four tables, the choice of a router, the
    path MTU, and what happens to the tables when an interface goes.  Functions
    that return an index return [None] for -1. *)

From S2P Require Import Prelude Err Def IpAddr NetifDefs Ip6Addr Chksum Pbuf Packet Nd6Defs Net.

(** The first entry a test holds of. *)
Fixpoint find_entry {A} (f : A -> bool) (l : list A) : option nat :=
  match l with
  | [] => None
  | e :: l => if f e then Some O else i ← find_entry f l; Some (S i)
  end.

Definition set_neighbor (i : nat) (f : nd6_neighbor_cache_entry -> nd6_neighbor_cache_entry) (s : net) : net :=
  s <| nd6 := (nd6 s) <| neighbor_cache := alter f i (neighbor_cache (nd6 s)) |> |>.
Definition set_destination (i : nat) (f : nd6_destination_cache_entry -> nd6_destination_cache_entry) (s : net) : net :=
  s <| nd6 := (nd6 s) <| destination_cache := alter f i (destination_cache (nd6 s)) |> |>.
Definition set_prefix (i : nat) (f : nd6_prefix_list_entry -> nd6_prefix_list_entry) (s : net) : net :=
  s <| nd6 := (nd6 s) <| prefix_list := alter f i (prefix_list (nd6 s)) |> |>.
Definition set_router (i : nat) (f : nd6_router_list_entry -> nd6_router_list_entry) (s : net) : net :=
  s <| nd6 := (nd6 s) <| default_router_list := alter f i (default_router_list (nd6 s)) |> |>.

(** ** The neighbor cache *)

Definition nd6_find_neighbor_cache_entry (ip6addr : ip6_addr) (s : net) : option nat :=
  find_entry (fun e => ip6_addr_cmp ip6addr (nc_next_hop_address e)) (neighbor_cache (nd6 s)).

(** [nd6_free_q]: the packets that wait are freed. *)
Definition nd6_free_q (q : list pkt) (s : net) : net := log (map Pbuf_free q) s.

Definition nd6_free_neighbor_cache_entry (i : nat) (s : net) : net :=
  match neighbor_cache (nd6 s) !! i with
  | None => s
  | Some e =>
      if nc_isrouter e then s
      else
        let s := nd6_free_q (nc_q e) s in
        set_neighbor i (fun e => e <| nc_q := [] |> <| nc_state := ND6_NO_ENTRY |> <| nc_isrouter := false |>
                                   <| nc_netif := None |> <| nc_counter := 0 |>
                                   <| nc_next_hop_address := ip6_addr_zero |>) s
  end.

Definition in_state (st : nd6_neighbor_cache_entry_state) (e : nd6_neighbor_cache_entry) : bool :=
  bool_decide (nc_state e = st).

(** An entry in the given state that may be given up: a router's may not. *)
Definition evictable (st : nd6_neighbor_cache_entry_state) (e : nd6_neighbor_cache_entry) : bool :=
  in_state st e && negb (nc_isrouter e).

(** The loops that look for an extreme counter: [j] and [time]. *)
Fixpoint pick_entry (ok : nd6_neighbor_cache_entry -> bool) (beats : Z -> Z -> bool)
    (l : list nd6_neighbor_cache_entry) (i : nat) (time : Z) (j : option nat) : option nat :=
  match l with
  | [] => j
  | e :: l =>
      if ok e && beats (nc_counter e) time then pick_entry ok beats l (S i) (nc_counter e) (Some i)
      else pick_entry ok beats l (S i) time j
  end.

(** The entry [nd6_new_neighbor_cache_entry] takes when none is free. *)
Definition victim (l : list nd6_neighbor_cache_entry) : option nat :=
  match find_entry (evictable ND6_STALE) l with
  | Some i => Some i
  | None =>
      match find_entry (evictable ND6_PROBE) l with
      | Some i => Some i
      | None =>
          match find_entry (evictable ND6_DELAY) l with
          | Some i => Some i
          | None =>
              match pick_entry (evictable ND6_REACHABLE) Z.ltb l 0 4294967295 None with
              | Some j => Some j
              | None =>
                  match pick_entry (fun e => match nc_q e with [] => evictable ND6_INCOMPLETE e | _ => false end)
                          Z.geb l 0 0 None with
                  | Some j => Some j
                  | None => pick_entry (evictable ND6_INCOMPLETE) Z.geb l 0 0 None
                  end
              end
          end
      end
  end.

Definition nd6_new_neighbor_cache_entry (s : net) : option nat * net :=
  match find_entry (in_state ND6_NO_ENTRY) (neighbor_cache (nd6 s)) with
  | Some i => (Some i, s)
  | None =>
      match victim (neighbor_cache (nd6 s)) with
      | Some i => (Some i, nd6_free_neighbor_cache_entry i s)
      | None => (None, s)
      end
  end.

(** ** The destination cache *)

Definition nd6_find_destination_cache_entry (ip6addr : ip6_addr) (s : net) : option nat :=
  find_entry (fun e => ip6_addr_cmp ip6addr (dc_destination_addr e)) (destination_cache (nd6 s)).

(** The loop that looks for the oldest entry; [age] stays 0. *)
Fixpoint oldest_destination (l : list nd6_destination_cache_entry) (i j : nat) : nat :=
  match l with
  | [] => j
  | e :: l => oldest_destination l (S i) (if 0 <? dc_age e then i else j)
  end.

Definition nd6_new_destination_cache_entry (s : net) : nat :=
  match find_entry (fun e => ip6_addr_isany (dc_destination_addr e)) (destination_cache (nd6 s)) with
  | Some i => i
  | None => oldest_destination (destination_cache (nd6 s)) 0 (LWIP_ND6_NUM_DESTINATIONS - 1)
  end.

Definition nd6_clear_destination_cache (s : net) : net :=
  s <| nd6 := (nd6 s) <| destination_cache :=
         map (fun e => e <| dc_destination_addr := ip6_addr_zero |>) (destination_cache (nd6 s)) |> |>.

(** [nd6_get_destination_mtu] *)
Definition nd6_get_destination_mtu (ip6addr : ip6_addr) (n : option netif) (s : net) : Z :=
  let known :=
    i ← nd6_find_destination_cache_entry ip6addr s;
    e ← destination_cache (nd6 s) !! i;
    if 0 <? dc_pmtu e then Some (dc_pmtu e) else None in
  match known with
  | Some pmtu => pmtu
  | None => match n with Some n => nif_mtu6 n | None => 1280 end
  end.

(** ** Prefixes *)

Definition netif_ip6_addr_isstatic (n : netif) (i : nat) : bool :=
  nth i (nif_ip6_addr_valid_life n) 0 =? IP6_ADDR_LIFE_STATIC.

Definition ptr_eqb (a : option Z) (ptr : Z) : bool :=
  match a with Some a => a =? ptr | None => false end.

(** The addresses of an interface with their index and state. *)
Definition ip6_slots (n : netif) : list (nat * (ip_addr * Z)) :=
  combine (seq 0 (length (nif_ip6_addr n))) (combine (nif_ip6_addr n) (nif_ip6_addr_state n)).

Definition nd6_is_prefix_in_netif (ip6addr : ip6_addr) (n : netif) (s : net) : bool :=
  existsb (fun e => ptr_eqb (pl_netif e) (nif_ptr n) && (0 <? pl_invalidation_timer e)
                    && ip6_addr_netcmp ip6addr (pl_prefix e)) (prefix_list (nd6 s))
  || existsb (fun '(i, (a, st)) => ip6_addr_isvalid st && netif_ip6_addr_isstatic n i
                                   && ip6_addr_netcmp ip6addr (ip_2_ip6 a)) (ip6_slots n).

Definition nd6_get_onlink_prefix (prefix : ip6_addr) (ptr : Z) (s : net) : option nat :=
  find_entry (fun e => ip6_addr_netcmp (pl_prefix e) prefix && ptr_eqb (pl_netif e) ptr) (prefix_list (nd6 s)).

Definition nd6_new_onlink_prefix (prefix : ip6_addr) (ptr : Z) (s : net) : option nat * net :=
  match find_entry (fun e => match pl_netif e with None => true | Some _ => pl_invalidation_timer e =? 0 end)
          (prefix_list (nd6 s)) with
  | Some i => (Some i, set_prefix i (fun e => e <| pl_netif := Some ptr |> <| pl_prefix := prefix |>) s)
  | None => (None, s)
  end.

(** ** Routers *)

Definition nd6_get_router (router_addr : ip6_addr) (ptr : Z) (s : net) : option nat :=
  find_entry (fun r =>
    match dr_neighbor_entry r with
    | None => false
    | Some k =>
        match neighbor_cache (nd6 s) !! k with
        | None => false
        | Some e => ptr_eqb (nc_netif e) ptr && ip6_addr_cmp router_addr (nc_next_hop_address e)
        end
    end) (default_router_list (nd6 s)).

(** Whether a router can be used for the interface, or for any that is up; the entry
    of the neighbor cache if it can.  The struct of an interface that is not
    in the list any more may be gone: no result. *)
Definition usable_router (ptr : option Z) (r : nd6_router_list_entry) (s : net)
  : option (option nd6_neighbor_cache_entry) :=
  match dr_neighbor_entry r with
  | None => Some None
  | Some k =>
      e ← neighbor_cache (nd6 s) !! k;
      match nc_netif e with
      | None => Some None
      | Some router_netif =>
          ok ← match ptr with
               | Some ptr => Some (ptr =? router_netif)
               | None => n ← netif_at router_netif s; Some (netif_is_up n && netif_is_link_up n)
               end;
          Some (if ok : bool then Some e else None)
      end
  end.

(** The first loop of [nd6_select_router]: [inl]: return it; [inr valid_router]. *)
Fixpoint reachable_router (ptr : option Z) (l : list nd6_router_list_entry) (i : nat) (valid_router : option nat)
    (s : net) : option (nat + option nat) :=
  match l with
  | [] => Some (inr valid_router)
  | r :: l =>
      u ← usable_router ptr r s;
      match u with
      | None => reachable_router ptr l (S i) valid_router s
      | Some e =>
          if in_state ND6_INCOMPLETE e then reachable_router ptr l (S i) valid_router s
          else if in_state ND6_REACHABLE e then Some (inl i)
          else reachable_router ptr l (S i) (match valid_router with None => Some i | v => v end) s
      end
  end.

(** The round robin over the routers: [j] turns from router [i] on. *)
Fixpoint any_router (ptr : option Z) (j i : nat) (s : net) : option (option nat) :=
  match j with
  | O => Some None
  | S j =>
      r ← default_router_list (nd6 s) !! i;
      u ← usable_router ptr r s;
      match u with
      | Some _ => Some (Some i)
      | None => any_router ptr j (if (LWIP_ND6_NUM_ROUTERS <=? S i)%nat then O else S i) s
      end
  end.

Definition nd6_select_router (ptr : option Z) (s : net) : option (option nat * net) :=
  r ← reachable_router ptr (default_router_list (nd6 s)) 0 None s;
  match r with
  | inl i => Some (Some i, s)
  | inr (Some i) => Some (Some i, s)
  | inr None =>
      let last := last_router (nd6 s) in
      let last := match ptr with
                  | Some _ => last
                  | None => if (LWIP_ND6_NUM_ROUTERS <=? S last)%nat then O else S last
                  end in
      let s := s <| nd6 := (nd6 s) <| last_router := last |> |> in
      i ← any_router ptr LWIP_ND6_NUM_ROUTERS last s;
      Some (i, s)
  end.

(** The loop of [nd6_find_route] over the prefixes. *)
Fixpoint prefix_route (ip6addr : ip6_addr) (l : list nd6_prefix_list_entry) (s : net) : option (option Z) :=
  match l with
  | [] => Some None
  | e :: l =>
      match pl_netif e with
      | None => prefix_route ip6addr l s
      | Some ptr =>
          if ip6_addr_netcmp (pl_prefix e) ip6addr then
            n ← netif_at ptr s;
            if netif_is_up n && netif_is_link_up n then Some (Some ptr) else prefix_route ip6addr l s
          else prefix_route ip6addr l s
      end
  end.

Definition nd6_find_route (ip6addr : ip6_addr) (s : net) : option (option Z * net) :=
  p ← prefix_route ip6addr (prefix_list (nd6 s)) s;
  match p with
  | Some ptr => Some (Some ptr, s)
  | None =>
      '(i, s) ← nd6_select_router None s;
      match i with
      | None => Some (None, s)
      | Some i =>
          r ← default_router_list (nd6 s) !! i;
          k ← dr_neighbor_entry r;
          e ← neighbor_cache (nd6 s) !! k;
          Some (nc_netif e, s)
      end
  end.

(** ** Hints and interfaces *)

Definition nd6_reachability_hint (ip6addr : ip6_addr) (s : net) : option net :=
  let d := nd6 s in
  c ← destination_cache d !! nd6_cached_destination_index d;
  match (if ip6_addr_cmp ip6addr (dc_destination_addr c) then Some (nd6_cached_destination_index d)
         else nd6_find_destination_cache_entry ip6addr s) with
  | None => Some s
  | Some dst =>
      c ← destination_cache d !! dst;
      m ← neighbor_cache d !! nd6_cached_neighbor_index d;
      match (if ip6_addr_cmp (dc_next_hop_addr c) (nc_next_hop_address m) then Some (nd6_cached_neighbor_index d)
             else nd6_find_neighbor_cache_entry (dc_next_hop_addr c) s) with
      | None => Some s
      | Some i =>
          e ← neighbor_cache d !! i;
          if in_state ND6_INCOMPLETE e || in_state ND6_NO_ENTRY e then Some s
          else Some (set_neighbor i (fun e => e <| nc_state := ND6_REACHABLE |> <| nc_counter := reachable_time d |>) s)
      end
  end.

(** The turn of the loop of [nd6_cleanup_netif] for neighbor [i]. *)
Definition cleanup_neighbor (ptr : Z) (s : net) (i : nat) : net :=
  match neighbor_cache (nd6 s) !! i with
  | None => s
  | Some e =>
      if ptr_eqb (nc_netif e) ptr then
        let s := s <| nd6 := (nd6 s) <| default_router_list :=
                   map (fun r => if bool_decide (dr_neighbor_entry r = Some i)
                                 then r <| dr_neighbor_entry := None |> <| dr_flags := 0 |> else r)
                     (default_router_list (nd6 s)) |> |> in
        nd6_free_neighbor_cache_entry i (set_neighbor i (fun e => e <| nc_isrouter := false |>) s)
      else s
  end.

Definition nd6_cleanup_netif (ptr : Z) (s : net) : net :=
  let s := s <| nd6 := (nd6 s) <| prefix_list :=
             map (fun e => if ptr_eqb (pl_netif e) ptr then e <| pl_netif := None |> else e)
               (prefix_list (nd6 s)) |> |> in
  let s := foldl (cleanup_neighbor ptr) s (seq 0 LWIP_ND6_NUM_NEIGHBORS) in
  nd6_clear_destination_cache s.

Definition nd6_restart_netif (ptr : Z) (s : net) : net :=
  netif_update ptr (fun n => n <| nif_rs_count := LWIP_ND6_MAX_MULTICAST_SOLICIT |>) s.
