(* ===== verification/Netif.v ===== *)
(** * Network interfaces: administration (core/c/core/netif.c)

    Adding and removing interfaces, their addresses, states and names.  The list of
    interfaces is [netif_list] of [net]; an interface is named by the
    address of its struct, and a function on one that is not in the list has no
    result here.  Report and status callbacks are not compiled in; the users of
    an address that changes (tcp.c, udp.c, raw.c) are the interface
    [address_users].  The loopback queue is in NetifLoop. *)

From S2P Require Import Prelude Err Def IpAddr NetifDefs Ip4Addr Ip6Addr Chksum Pbuf Packet Nd6Defs Net Nd6Cache.

(** [netif_do_ip_addr_changed]: the new address is [None] when the old one goes. *)
Class address_users := netif_do_ip_addr_changed : ip_addr -> option ip_addr -> net -> option net.

Definition NETIF_NAMESIZE : Z := 6.
Definition netif_index_to_num (index : Z) : Z := index - 1.

Definition netif_set_flags (set_flags : Z) (n : netif) : netif := n <| nif_flags := u8 (Z.lor (nif_flags n) set_flags) |>.
Definition netif_clear_flags (clr_flags : Z) (n : netif) : netif :=
  n <| nif_flags := u8 (Z.land (nif_flags n) (255 - clr_flags)) |>.

(** ** State *)

Definition netif_set_default (ptr : option Z) (s : net) : net := s <| netif_default := ptr |>.

Definition netif_set_up (ptr : Z) (s : net) : option net :=
  n ← netif_at ptr s;
  Some (if netif_is_up n then s
        else nd6_restart_netif ptr (netif_update ptr (netif_set_flags NETIF_FLAG_UP) s)).

Definition netif_set_down (ptr : Z) (s : net) : option net :=
  n ← netif_at ptr s;
  Some (if netif_is_up n then nd6_cleanup_netif ptr (netif_update ptr (netif_clear_flags NETIF_FLAG_UP) s) else s).

Definition netif_set_link_up (ptr : Z) (s : net) : option net :=
  n ← netif_at ptr s;
  Some (if netif_is_link_up n then s
        else nd6_restart_netif ptr (netif_update ptr (netif_set_flags NETIF_FLAG_LINK_UP) s)).

Definition netif_set_link_down (ptr : Z) (s : net) : option net :=
  n ← netif_at ptr s;
  Some (if netif_is_link_up n then netif_update ptr (netif_clear_flags NETIF_FLAG_LINK_UP) s else s).

(** ** Names and indices *)

Definition isspace (c : Z) : bool := (c =? 32) || ((9 <=? c) && (c <=? 13)).

(** [atoi] of the C library, on a string; an overflow has no result. *)
Fixpoint atoi_digits (v : Z) (s : list Z) : option Z :=
  match s with
  | [] => None
  | c :: r => if lwip_isdigit c then lwip_assert (10 * v + (c - 48) <? 2147483648); atoi_digits (10 * v + (c - 48)) r
              else Some v
  end.
Fixpoint atoi (s : list Z) : option Z :=
  match s with
  | [] => None
  | c :: r =>
      if isspace c then atoi r
      else if c =? 45 then v ← atoi_digits 0 r; Some (- v)
      else if c =? 43 then atoi_digits 0 r
      else atoi_digits 0 s
  end.

(** The loop of [netif_find]. *)
Fixpoint find_named (num c0 c1 : Z) (l : list netif) : option netif :=
  match l with
  | [] => None
  | n :: l =>
      if (num =? nif_num n) && (c0 =? nth 0 (nif_name n) 0) && (c1 =? nth 1 (nif_name n) 0) then Some n
      else find_named num c0 c1 l
  end.

(** [netif_find(name)] with [name] not NULL; [None] inside: not found. *)
Definition netif_find (name : list Z) (s : net) : option (option netif) :=
  match name with
  | c0 :: c1 :: r => v ← atoi r; Some (find_named (u8 v) c0 c1 (netif_list s))
  | _ => None
  end.

Definition netif_name_to_index (name : list Z) (s : net) : option Z :=
  r ← netif_find name s;
  Some (match r with Some n => netif_get_index n | None => NETIF_NO_INDEX end).

(** [netif_index_to_name(idx, name)]: what [name] holds afterwards. *)
Definition netif_index_to_name (idx : Z) (name : list Z) (s : net) : option (option (list Z)) :=
  match netif_get_by_index idx s with
  | None => Some None
  | Some n =>
      lwip_assert (2 <=? length name)%nat;
      r ← lwip_itoa (drop 2 name) (NETIF_NAMESIZE - 2) (netif_index_to_num idx);
      Some (Some (nth 0 (nif_name n) 0 :: nth 1 (nif_name n) 0 :: r))
  end.

Section admin.
Context `{users : address_users}.

(** ** IPv4 addresses

    On a struct that need not be in the list yet: the struct afterwards. *)

Definition netif_do_set_ipaddr (ipaddr : Z) (n : netif) (s : net) : option (netif * net) :=
  if ip4_addr_cmp ipaddr (netif_ip4_addr n) then Some (n, s)
  else
    s ← netif_do_ip_addr_changed (nif_ip_addr n) (Some (IPADDR4_INIT ipaddr)) s;
    Some (n <| nif_ip_addr := IPADDR4_INIT ipaddr |>, s).

Definition netif_do_set_netmask (netmask : Z) (n : netif) : netif :=
  if ip4_addr_cmp netmask (netif_ip4_netmask n) then n else n <| nif_netmask := IPADDR4_INIT netmask |>.
Definition netif_do_set_gw (gw : Z) (n : netif) : netif :=
  if ip4_addr_cmp gw (netif_ip4_gw n) then n else n <| nif_gw := IPADDR4_INIT gw |>.

Definition netif_do_set_addr (ipaddr netmask gw : option Z) (n : netif) (s : net) : option (netif * net) :=
  let ipaddr := default IPADDR_ANY ipaddr in
  let netmask := default IPADDR_ANY netmask in
  let gw := default IPADDR_ANY gw in
  let remove := ipaddr =? IPADDR_ANY in
  '(n, s) ← (if remove then netif_do_set_ipaddr ipaddr n s else Some (n, s));
  let n := netif_do_set_gw gw (netif_do_set_netmask netmask n) in
  if remove then Some (n, s) else netif_do_set_ipaddr ipaddr n s.

(** For one in the list. *)
Definition in_list (ptr : Z) (f : netif -> net -> option (netif * net)) (s : net) : option net :=
  n ← netif_at ptr s;
  '(n, s) ← f n s;
  Some (netif_update ptr (fun _ => n) s).

Definition netif_set_addr (ptr : Z) (ipaddr netmask gw : option Z) (s : net) : option net :=
  in_list ptr (netif_do_set_addr ipaddr netmask gw) s.
Definition netif_set_ipaddr (ptr : Z) (ipaddr : option Z) (s : net) : option net :=
  in_list ptr (netif_do_set_ipaddr (default IPADDR_ANY ipaddr)) s.
Definition netif_set_netmask (ptr : Z) (netmask : option Z) (s : net) : option net :=
  in_list ptr (fun n s => Some (netif_do_set_netmask (default IPADDR_ANY netmask) n, s)) s.
Definition netif_set_gw (ptr : Z) (gw : option Z) (s : net) : option net :=
  in_list ptr (fun n s => Some (netif_do_set_gw (default IPADDR_ANY gw) n, s)) s.

(** ** IPv6 addresses *)

Definition set_ip6_addr (ptr : Z) (i : nat) (a : ip_addr) (s : net) : net :=
  netif_update ptr (fun n => n <| nif_ip6_addr := <[i := a]> (nif_ip6_addr n) |>) s.

Definition netif_ip6_addr_set_state (ptr : Z) (addr_idx : nat) (state : Z) (s : net) : option net :=
  n ← netif_at ptr s;
  old_state ← nif_ip6_addr_state n !! addr_idx;           (* "invalid index" *)
  if old_state =? state then Some s
  else
    s ← (if ip6_addr_isvalid old_state && negb (ip6_addr_isvalid state)
         then a ← nif_ip6_addr n !! addr_idx; netif_do_ip_addr_changed a None s
         else Some s);
    Some (netif_update ptr (fun n => n <| nif_ip6_addr_state := <[addr_idx := state]> (nif_ip6_addr_state n) |>) s).

Definition netif_ip6_addr_set_parts (ptr : Z) (addr_idx : nat) (i0 i1 i2 i3 : Z) (s : net) : option net :=
  n ← netif_at ptr s;
  old_addr ← nif_ip6_addr n !! addr_idx;                  (* "invalid index" *)
  state ← nif_ip6_addr_state n !! addr_idx;
  if ip6_addr_cmp_zoneless (ip_2_ip6 old_addr) (Ip6Addr [i0; i1; i2; i3] 0) then Some s
  else
    let new_ipaddr := IpAddr (ip6_addr_assign_zone (Ip6Addr [i0; i1; i2; i3] 0) IP6_UNICAST (netif_get_index n)) IPADDR_TYPE_V6 in
    s ← (if ip6_addr_isvalid state then netif_do_ip_addr_changed old_addr (Some new_ipaddr) s else Some s);
    Some (set_ip6_addr ptr addr_idx new_ipaddr s).

Definition netif_ip6_addr_set (ptr : Z) (addr_idx : nat) (addr6 : ip6_addr) (s : net) : option net :=
  netif_ip6_addr_set_parts ptr addr_idx (ip6_word addr6 0) (ip6_word addr6 1) (ip6_word addr6 2) (ip6_word addr6 3) s.

(** The interface identifier: from a 48-bit address, or the octets of the hardware
    address, the last one lowest. *)
Definition eui64 (hw : list Z) : Z * Z :=
  let h i := nth i hw 0 in
  (lwip_htonl (Z.lor (Z.lor (Z.lor (u32 (Z.shiftl (Z.lxor (h 0%nat) 2) 24)) (Z.shiftl (h 1%nat) 16)) (Z.shiftl (h 2%nat) 8)) 255),
   lwip_htonl (Z.lor (Z.lor (Z.lor (u32 (Z.shiftl 254 24)) (Z.shiftl (h 3%nat) 16)) (Z.shiftl (h 4%nat) 8)) (h 5%nat))).

Fixpoint hwaddr_words (fuel i : nat) (n : netif) (w2 w3 : Z) : option (Z * Z) :=
  match fuel with
  | O => Some (w2, w3)
  | S fuel =>
      if (Z.of_nat i <? nif_hwaddr_len n) then
        c ← nif_hwaddr n !! Z.to_nat (nif_hwaddr_len n - Z.of_nat i - 1);
        let v := lwip_htonl (u32 (Z.shiftl c (8 * Z.land (Z.of_nat i) 3))) in
        if (i <? 4)%nat then hwaddr_words fuel (S i) n w2 (Z.lor w3 v) else hwaddr_words fuel (S i) n (Z.lor w2 v) w3
      else Some (w2, w3)
  end.

Definition netif_create_ip6_linklocal_address (ptr : Z) (from_mac_48bit : bool) (s : net) : option net :=
  n ← netif_at ptr s;
  '(w2, w3) ← (if from_mac_48bit then lwip_assert (6 <=? length (nif_hwaddr n))%nat; Some (eui64 (nif_hwaddr n))
               else hwaddr_words 8 0 n 0 0);
  a ← nif_ip6_addr n !! 0%nat;
  let addr := ip6_addr_assign_zone (Ip6Addr [lwip_htonl 4269801472; 0; w2; w3] IP6_NO_ZONE) IP6_UNICAST (netif_get_index n) in
  netif_ip6_addr_set_state ptr 0 IP6_ADDR_TENTATIVE (set_ip6_addr ptr 0 (IpAddr addr (ip_type a)) s).

(** The slot [netif_add_ip6_address] finds. *)
Definition free_slot (n : netif) (ip6addr : ip6_addr) : option nat :=
  let first := if ip6_addr_islinklocal ip6addr then 0%nat else 1%nat in
  i ← find_entry ip6_addr_isinvalid (drop first (nif_ip6_addr_state n));
  Some (first + i)%nat.

(** [chosen_idx], -1 on failure, and the error code. *)
Definition netif_add_ip6_address (ptr : Z) (ip6addr : ip6_addr) (s : net) : option (net * Z * Z) :=
  n ← netif_at ptr s;
  let i := netif_get_ip6_addr_match n ip6addr in
  if 0 <=? i then Some (s, i, ERR_OK)
  else
    match free_slot n ip6addr with
    | None => Some (s, -1, ERR_VAL)
    | Some i =>
        let a := IpAddr (ip6_addr_assign_zone ip6addr IP6_UNICAST (netif_get_index n)) IPADDR_TYPE_V6 in
        s ← netif_ip6_addr_set_state ptr i IP6_ADDR_TENTATIVE (set_ip6_addr ptr i a s);
        Some (s, Z.of_nat i, ERR_OK)
    end.

(** ** Adding and removing *)

(** One turn of the [do] loop that looks for a number: [inl]: the next number to
    try, [inr]: the number is free. *)
Fixpoint num_scan (num num_netifs : Z) (l : list netif) : option (Z + Z) :=
  match l with
  | [] => Some (inr num)
  | n :: l =>
      lwip_assert (num_netifs + 1 <=? 255);
      if nif_num n =? num then Some (inl (u8 (num + 1))) else num_scan num (num_netifs + 1) l
  end.
Definition num_turn (num : Z) (l : list netif) : option (Z + Z) := num_scan (if num =? 255 then 0 else num) 0 l.

Fixpoint pick_num (fuel : nat) (num : Z) (l : list netif) : option Z :=
  match fuel with
  | O => None
  | S fuel =>
      r ← num_turn num l;
      match r with inl num => pick_num fuel num l | inr num => Some num end
  end.

(** What [netif_add] stores before the addresses are set. *)
Definition netif_reset (n : netif) (num : Z) : netif :=
  n <| nif_ip_addr := IPADDR4_INIT 0 |> <| nif_netmask := IPADDR4_INIT 0 |> <| nif_gw := IPADDR4_INIT 0 |>
    <| nif_ip6_addr := repeat (IpAddr ip6_addr_zero IPADDR_TYPE_V6) 3 |>
    <| nif_ip6_addr_state := repeat IP6_ADDR_INVALID 3 |>
    <| nif_ip6_addr_valid_life := repeat IP6_ADDR_LIFE_STATIC 3 |>
    <| nif_ip6_addr_pref_life := repeat IP6_ADDR_LIFE_STATIC 3 |>
    <| nif_mtu := 0 |> <| nif_flags := 0 |> <| nif_ip6_autoconfig_enabled := false |>
    <| nif_rs_count := LWIP_ND6_MAX_MULTICAST_SOLICIT |> <| nif_num := num |>.

(** [netif_add]: the struct [n] as it is in memory, the init function of the
    interface; [false]: NULL is returned. *)
Definition netif_add (n : netif) (ipaddr netmask gw : option Z) (init : netif -> netif * Z) (s : net)
  : option (net * netif * bool) :=
  '(n, s) ← netif_do_set_addr ipaddr netmask gw (netif_reset n (netif_num s)) s;
  let '(n, err) := init n in
  if negb (err =? ERR_OK) then Some (s, n, false)
  else
    let n := n <| nif_mtu6 := nif_mtu n |> in
    lwip_assert (forallb (fun m => negb (nif_ptr m =? nif_ptr n)) (netif_list s));   (* "netif already added" *)
    num ← pick_num 256 (nif_num n) (netif_list s);
    let n := n <| nif_num := num |> in
    Some (s <| netif_num := (if num =? 254 then 0 else u8 (num + 1)) |> <| netif_list := n :: netif_list s |>, n, true).

Definition netif_add_noaddr (n : netif) (init : netif -> netif * Z) (s : net) : option (net * netif * bool) :=
  netif_add n None None None init s.

(** The valid IPv6 addresses are reported one by one. *)
Fixpoint addresses_gone (l : list (ip_addr * Z)) (s : net) : option net :=
  match l with
  | [] => Some s
  | (a, st) :: l =>
      s ← (if ip6_addr_isvalid st then netif_do_ip_addr_changed a None s else Some s);
      addresses_gone l s
  end.

Definition netif_remove (ptr : Z) (s : net) : option net :=
  n ← netif_at ptr s;
  s ← (if negb (netif_ip4_addr n =? IPADDR_ANY) then netif_do_ip_addr_changed (nif_ip_addr n) None s else Some s);
  s ← addresses_gone (combine (nif_ip6_addr n) (nif_ip6_addr_state n)) s;
  s ← (if netif_is_up n then netif_set_down ptr s else Some s);
  let s := if ptr_eqb (netif_default s) ptr then netif_set_default None s else s in
  Some (s <| netif_list := List.filter (fun m => negb (nif_ptr m =? ptr)) (netif_list s) |>).

(** ** The loopback interface *)

Definition netif_loopif_init (n : netif) : netif * Z := (n <| nif_name := [108; 111] |>, ERR_OK).

(** [netif_init], for [loop_netif] at the given address: static storage is zero. *)
Definition netif_init (ptr : Z) (s : net) : option net :=
  let zero := Netif ptr (IPADDR4_INIT 0) (IPADDR4_INIT 0) (IPADDR4_INIT 0) [] [] [] [] 0 0 (repeat 0 6) 0 0 [0; 0] 0 false 0 in
  '(s, _, _) ← netif_add zero (Some (lwip_htonl 2130706433)) (Some (lwip_htonl 4278190080)) (Some (lwip_htonl 2130706433))
                 netif_loopif_init s;
  let s := netif_update ptr (fun n =>
             n <| nif_ip6_addr := <[0%nat := IpAddr (Ip6Addr [0; 0; 0; lwip_htonl 1] 0) IPADDR_TYPE_V6]> (nif_ip6_addr n) |>
               <| nif_ip6_addr_state := <[0%nat := IP6_ADDR_VALID]> (nif_ip6_addr_state n) |>) s in
  s ← netif_set_link_up ptr s;
  netif_set_up ptr s.

End admin.
