(* ===== verification/Ip6.v ===== *)
(** * IPv6 output (core/c/core/ipv6/ip6.c, ip6_frag.c)

    Choice of the source address, [ip6_output], [ip6_output_if],
    [ip6_output_if_src], and [ip6_frag].  The destination [LWIP_IP_HDRINCL] and the
    source [NULL] are [None].

    [ip6_frag] moves the payload pointers of the packet it cuts up along the
    chain, and leaves them there: the packet is part of the result.  (Its field
    [tot_len] is then no longer the sum of the lengths of the chain when the
    chain has several pbufs; the callers give it up.) *)

From S2P Require Import Prelude Err Def IpAddr NetifDefs Ip6Addr Pbuf Packet Ip6Hdr Ip4Frag Nd6Defs Net Nd6Cache.

(** ** Choice of the source address *)

Definition dest_scope (dest : ip6_addr) : Z :=
  if ip6_addr_isglobal dest then IP6_MULTICAST_SCOPE_GLOBAL
  else if ip6_addr_islinklocal dest || ip6_addr_isloopback dest then IP6_MULTICAST_SCOPE_LINK_LOCAL
  else if ip6_addr_isuniquelocal dest then IP6_MULTICAST_SCOPE_ORGANIZATION_LOCAL
  else if ip6_addr_ismulticast dest then ip6_addr_multicast_scope dest
  else if ip6_addr_issitelocal dest then IP6_MULTICAST_SCOPE_SITE_LOCAL
  else IP6_MULTICAST_SCOPE_GLOBAL.

Definition cand_scope (cand : ip6_addr) : Z :=
  if ip6_addr_isglobal cand then IP6_MULTICAST_SCOPE_GLOBAL
  else if ip6_addr_islinklocal cand then IP6_MULTICAST_SCOPE_LINK_LOCAL
  else if ip6_addr_isuniquelocal cand then IP6_MULTICAST_SCOPE_ORGANIZATION_LOCAL
  else if ip6_addr_issitelocal cand then IP6_MULTICAST_SCOPE_SITE_LOCAL
  else IP6_MULTICAST_SCOPE_RESERVEDF.

(** [best_addr], not NULL, with [best_scope], [best_pref] and [best_bits]. *)
Record candidate := Candidate { c_addr : ip_addr; c_scope : Z; c_pref : bool; c_bits : bool }.

Definition candidate_of (dest : ip6_addr) (a : ip_addr) (state : Z) : candidate :=
  Candidate a (cand_scope (ip_2_ip6 a)) (ip6_addr_ispreferred state) (ip6_addr_netcmp_zoneless (ip_2_ip6 a) dest).

Definition b2z (b : bool) : Z := if b then 1 else 0.

Definition better (dscope : Z) (cand best : candidate) : bool :=
  ((c_scope cand <? c_scope best) && (dscope <=? c_scope cand))
  || ((c_scope best <? c_scope cand) && (c_scope best <? dscope))
  || ((c_scope cand =? c_scope best)
      && ((b2z (c_pref best) <? b2z (c_pref cand))
          || ((b2z (c_pref cand) =? b2z (c_pref best)) && (b2z (c_bits best) <? b2z (c_bits cand))))).

Fixpoint select_loop (dest : ip6_addr) (l : list (ip_addr * Z)) (best : option candidate) : option ip_addr :=
  match l with
  | [] => option_map c_addr best
  | (a, state) :: l =>
      if negb (ip6_addr_isvalid state) then select_loop dest l best
      else
        let cand := candidate_of dest a state in
        if c_bits cand && ip6_addr_nethostcmp (ip_2_ip6 a) dest then Some a
        else
          select_loop dest l
            (match best with
             | None => Some cand
             | Some b => if better (dest_scope dest) cand b then Some cand else Some b
             end)
  end.

Definition ip6_select_source_address (n : netif) (dest : ip6_addr) : option ip_addr :=
  select_loop dest (combine (nif_ip6_addr n) (nif_ip6_addr_state n)) None.

(** ** Fragmenting *)

(** [p->payload += n; p->len -= n] of the [i]-th pbuf of the chain. *)
Definition pbuf_advance (i : nat) (n : Z) (p : pkt) : option pkt :=
  c ← pk_chunks p !! i;
  lwip_assert (n <=? Z.of_nat (length c));
  Some (Pkt (match i with O => pk_room p ++ take (Z.to_nat n) c | _ => pk_room p end)
          (<[i := drop (Z.to_nat n) c]> (pk_chunks p)) (pk_contig p)).

(** [while (left_to_copy)]: the chain from the [i]-th pbuf on is mirrored.  The
    result: the pieces, the pbuf the last one is from and [newpbuflen].
    [Some None]: a failed allocation. *)
Fixpoint frag6_pieces (cs : list (list Z)) (i : nat) (left_to_copy : Z) (ans : list bool)
  : option (option (list (list Z) * nat * Z) * list bool) :=
  match cs with
  | [] => None
  | c :: r =>
      let newpbuflen := if left_to_copy <? Z.of_nat (length c) then left_to_copy else Z.of_nat (length c) in
      if newpbuflen =? 0 then frag6_pieces r (S i) left_to_copy ans
      else
        let '(pcr, ans) := next_answer ans in
        if (pcr : bool) then
          let piece := take (Z.to_nat newpbuflen) c in
          let left_to_copy := u16 (left_to_copy - newpbuflen) in
          if left_to_copy =? 0 then Some (Some ([piece], i, newpbuflen), ans)
          else
            '(res, ans) ← frag6_pieces r (S i) left_to_copy ans;
            match res with
            | Some (l, i', n) => Some (Some (piece :: l, i', n), ans)
            | None => Some (None, ans)
            end
        else Some (None, ans)
  end.

(** The headers of one fragment. *)
Definition frag6_header (original : ip6_hdr) (last : bool) (fragment_offset cop identification : Z) : list Z :=
  ip6_hdr_octets (original <| _nexth := IP6_NEXTH_FRAGMENT |>
                           <| _plen := lwip_htons (u16 (cop + IP6_FRAG_HLEN)) |>) ++
  ip6_frag_hdr_octets
    (Ip6FragHdr (_nexth original) 0
       (lwip_htons (u16 (Z.lor (Z.land fragment_offset IP6_FRAG_OFFSET_MASK) (if last then 0 else IP6_FRAG_MORE_FLAG))))
       (lwip_htonl identification)).

(** [while (left)]: the error code, the packets for [netif->output_ip6], and the
    packet afterwards.  Every round takes an answer of the allocator. *)
Fixpoint frag6_loop (fuel : nat) (original : ip6_hdr) (identification nfb : Z) (p : pkt) (i : nat)
    (poff newpbuflen left fragment_offset : Z) (ans : list bool) : option (Z * list pkt * list bool * pkt) :=
  if left =? 0 then Some (ERR_OK, [], ans, p)
  else
    match fuel with
    | O => None
    | S fuel =>
        let last := left <=? nfb in
        let cop := if last then left else nfb in
        let '(rambuf, ans) := next_answer ans in
        if negb rambuf then Some (ERR_MEM, [], ans, p)
        else
          c ← pk_chunks p !! i;
          lwip_assert (IP6_HLEN <=? Z.of_nat (length c));
          p ← pbuf_advance i poff p;
          '(res, ans) ← (if cop =? 0 then Some (Some ([], i, newpbuflen), ans)
                         else frag6_pieces (drop i (pk_chunks p)) i cop ans);
          match res with
          | None => Some (ERR_MEM, [], ans, p)
          | Some (pieces, i, newpbuflen) =>
              let out := Pkt (repeat 0 14) (frag6_header original last fragment_offset cop identification :: pieces) true in
              '(err, outs, ans, p) ← frag6_loop fuel original identification nfb p i newpbuflen newpbuflen
                                       (u16 (left - cop)) (u16 (fragment_offset + cop)) ans;
              Some (err, out :: outs, ans, p)
          end
    end.

Definition frag6_nfb (mtu : Z) : Z := u16 (Z.land (u16 mtu - (IP6_HLEN + IP6_FRAG_HLEN)) IP6_FRAG_OFFSET_MASK).

Definition frag6_packets (p : pkt) (mtu identification : Z) (ans : list bool)
  : option (Z * list pkt * list bool * pkt) :=
  let original := ip6_hdr_of (hd [] (pk_chunks p)) in
  lwip_assert (IP6_HLEN <=? pk_tot_len p);
  frag6_loop (S (length ans)) original identification (frag6_nfb mtu) p 0 IP6_HLEN 0
    (u16 (pk_tot_len p - IP6_HLEN)) 0 ans.

Section output.
Context `{driver : netif_driver6}.

Definition ip6_frag (p : pkt) (n : netif) (dest : ip6_addr) (s : net) : option (net * pkt * Z) :=
  let s := s <| ip6_frag_id := u32 (ip6_frag_id s + 1) |> in
  let answers := map (fun a : option (nat -> Z) => if a then true else false) (net_malloc s) in
  '(err, outs, rest, p) ← frag6_packets p (nd6_get_destination_mtu dest (Some n) s) (ip6_frag_id s) answers;
  let s := s <| net_malloc := drop (length answers - length rest) (net_malloc s) |> in
  Some (log (map (fun q => Netif_output_ip6 n q dest) outs) s, p, err).

(** ** Output *)

(** The test in front of [netif_loop_output]: a valid address of the interface. *)
Definition is_own_addr (n : netif) (dest : ip6_addr) : bool :=
  existsb (fun '(a, state) => ip6_addr_isvalid state && ip6_addr_cmp dest (ip_2_ip6 a))
    (combine (nif_ip6_addr n) (nif_ip6_addr_state n)).

Definition ip6_transmit (p : pkt) (dest : ip6_addr) (n : netif) (s : net) : option (net * pkt * Z) :=
  if is_own_addr n dest then '(s, err) ← netif_loop_output n p s; Some (s, p, err)
  else if negb (nif_mtu6 n =? 0) && (nd6_get_destination_mtu dest (Some n) s <? pk_tot_len p) then ip6_frag p n dest s
  else Some (log [Netif_output_ip6 n p dest] s, p, driver_output_ip6 n p dest).

(** The header [ip6_output_if_src] writes. *)
Definition ip6_header (src dest : ip6_addr) (hl tc nexth plen : Z) : ip6_hdr :=
  Ip6Hdr (IP6H_VTCFL 6 tc 0) (lwip_htons plen) nexth (u8 hl) (ip6_words src) (ip6_words dest).

Definition ip6_addr_any : ip6_addr := Ip6Addr [0; 0; 0; 0] 0.

Definition ip6_output_if_src (p : pkt) (src dest : option ip6_addr) (hl tc nexth : Z) (n : netif) (s : net)
  : option (net * pkt * Z) :=
  match dest with
  | Some dest =>
      let dest := if ip6_addr_lacks_zone dest IP6_UNKNOWN
                  then ip6_addr_assign_zone dest IP6_UNKNOWN (netif_get_index n) else dest in
      match pk_add_header IP6_HLEN p with
      | None => Some (s, p, ERR_BUF)
      | Some p =>
          lwip_assert (IP6_HLEN <=? pk_len p);
          let src := default ip6_addr_any src in
          p ← pk_write 0 (ip6_hdr_octets (ip6_header src dest hl tc nexth (u16 (pk_tot_len p - IP6_HLEN)))) p;
          ip6_transmit p dest n s
      end
  | None =>
      lwip_assert (IP6_HLEN <=? pk_len p);              (* the header is read from the packet *)
      let dest := from_packed (ip6h_dest (ip6_hdr_of (hd [] (pk_chunks p)))) in
      ip6_transmit p (ip6_addr_assign_zone dest IP6_UNKNOWN (netif_get_index n)) n s
  end.

Definition ip6_output_if (p : pkt) (src dest : option ip6_addr) (hl tc nexth : Z) (n : netif) (s : net)
  : option (net * pkt * Z) :=
  match dest, src with
  | Some d, Some sr =>
      if ip6_addr_isany sr then
        match ip6_select_source_address n d with
        | None => Some (s, p, ERR_RTE)
        | Some a =>
            if ip6_addr_isany (ip_2_ip6 a) then Some (s, p, ERR_RTE)
            else ip6_output_if_src p (Some (ip_2_ip6 a)) dest hl tc nexth n s
        end
      else ip6_output_if_src p src dest hl tc nexth n s
  | _, _ => ip6_output_if_src p src dest hl tc nexth n s
  end.

Definition ip6_output (p : pkt) (src dest : option ip6_addr) (hl tc nexth : Z) (s : net)
  : option (net * pkt * Z) :=
  '(rsrc, rdest) ←
    (match dest with
     | Some d => Some (default ip6_addr_any src, d)
     | None =>
         lwip_assert (IP6_HLEN <=? pk_len p);
         let h := ip6_hdr_of (hd [] (pk_chunks p)) in
         Some (from_packed (ip6h_src h), from_packed (ip6h_dest h))
     end);
  match ip6_route rsrc rdest s with
  | None => Some (s, p, ERR_RTE)
  | Some n => ip6_output_if p src dest hl tc nexth n s
  end.

End output.
