(* ===== verification/Ip6FragSpec.v ===== *)
(** * Properties of IPv6 reassembly and fragmentation

    Fragments that arrive in order yield the datagram, exactly when the last one
    arrives; what [ip6_frag] sends is such a sequence.  Fragments out of order
    can yield a datagram with a hole; the length field of the result is eight too
    small; what is quoted after a time-out is not what arrived; and a packet in
    too many pbufs leaves an entry that the timer cannot free. *)

From S2P Require Import Prelude Err Def IpAddr NetifDefs Ip6Addr Packet IpHdr Ip6Hdr Ip4Frag Ip4FragSpec Ip4FragOut Ip6Frag Net Ip6.

(** ** A fragment as it arrives *)

(** What is in front of the IPv6 header, the two headers, and the data: in the
    pbuf of the headers and in those behind. *)
Record piece6 := Piece6 {
  g_front : list Z; g_hdr : ip6_hdr; g_frag : ip6_frag_hdr; g_data : list Z; g_rest : list (list Z); g_contig : bool
}.

Definition pkt_of (g : piece6) : pkt :=
  Pkt (g_front g ++ ip6_hdr_octets (g_hdr g)) ((ip6_frag_hdr_octets (g_frag g) ++ g_data g) :: g_rest g) (g_contig g).

Definition g_octets (g : piece6) : list Z := g_data g ++ concat (g_rest g).
Definition g_len (g : piece6) : Z := Z.of_nat (length (g_octets g)).
Definition g_clen (g : piece6) : Z := Z.of_nat (S (length (g_rest g))).

(** [g] is the fragment of the datagram [id] that starts at [start]. *)
Definition piece_at (id start : Z) (last : bool) (g : piece6) : Prop :=
  ip6_hdr_ok (g_hdr g) /\ ip6_frag_hdr_ok (g_frag g) /\ _identification (g_frag g) = id /\
  _nexth (g_hdr g) = IP6_NEXTH_FRAGMENT /\ 0 < g_len g /\ lwip_htons (_plen (g_hdr g)) = g_len g + 8 /\
  lwip_htons (_fragment_offset (g_frag g)) = start + (if last then 0 else 1).

(** A datagram in pieces, in order, from [start] on. *)
Fixpoint in_order (id start : Z) (gs : list piece6) : Prop :=
  match gs with
  | [] => False
  | [g] => start mod 8 = 0 /\ 0 <= start /\ start + g_len g <= 65535 /\ piece_at id start true g
  | g :: gs => start mod 8 = 0 /\ 0 <= start /\ start + g_len g <= 65535 /\ piece_at id start false g /\ in_order id (start + g_len g) gs
  end.

(** The fragments one after the other: what [ip6_reass] returned for each. *)
Fixpoint reass_run (src dest : ip6_addr) (gs : list piece6) (s : reass6) : option (reass6 * list (option pkt)) :=
  match gs with
  | [] => Some (s, [])
  | g :: gs =>
      '(s, r) ← ip6_reass (g_hdr g) IP6_HLEN src dest (pkt_of g) s;
      '(s, rs) ← reass_run src dest gs s;
      Some (s, r :: rs)
  end.

(** ** The queue of a datagram *)

Fixpoint queue_of (start : Z) (gs : list piece6) : list frag6 :=
  match gs with
  | [] => []
  | g :: gs => Frag6 start (start + g_len g) (pkt_of g) IP6_HLEN :: queue_of (start + g_len g) gs
  end.

Definition total_len (gs : list piece6) : Z := sum_with g_len gs.
Definition total_clen (gs : list piece6) : Z := sum_with g_clen gs.

Lemma queue_of_app gs1 : forall start gs2, queue_of start (gs1 ++ gs2) = queue_of start gs1 ++ queue_of (start + total_len gs1) gs2.
Proof.
  induction gs1 as [|g gs1 IH]; intros; cbn [app queue_of]; [by rewrite Z.add_0_r|].
  rewrite IH. unfold total_len. rewrite sum_with_cons. by rewrite Z.add_assoc.
Qed.

(** A place behind everything that is there. *)
Lemma find_place6_append gs : forall start e pre,
  Forall (fun g => 0 < g_len g) gs ->
  match last pre with Some pv => f6_end pv = start | None => True end ->
  find_place6 (start + total_len gs) e pre (queue_of start gs) true =
  Some (Placed6 (pre ++ queue_of start gs) [] true).
Proof.
  induction gs as [|g gs IH]; intros start e pre Hg Hp.
  - cbn [queue_of find_place6]. rewrite app_nil_r. change (total_len []) with 0. rewrite Z.add_0_r.
    destruct (last pre) as [pv|]; [|done]. by rewrite Hp, Z.leb_refl, Z.eqb_refl.
  - apply Forall_cons in Hg as [Hg Hgs]. cbn [queue_of find_place6 f6_start f6_end].
    unfold total_len. rewrite sum_with_cons. fold (total_len gs).
    assert (0 <= total_len gs) by (apply sum_with_nonneg; eapply Forall_impl; [exact Hgs|]; cbn; lia).
    rewrite (proj2 (Z.ltb_ge _ start)), (proj2 (Z.eqb_neq _ start)) by lia.
    rewrite (proj2 (Z.ltb_ge _ (start + g_len g))) by lia.
    assert (match last pre with Some pv => if negb (f6_end pv =? start) then false else true | None => true end = true) as ->.
    { destruct (last pre) as [pv|]; [|done]. by rewrite Hp, Z.eqb_refl. }
    replace (start + (g_len g + total_len gs)) with (start + g_len g + total_len gs) by lia.
    rewrite IH; [by rewrite <- app_assoc|done|by rewrite last_snoc].
Qed.

Lemma chain_frags6_spec gs : forall start p,
  chain_frags6 p (queue_of start gs) =
  Some (Pkt (pk_room p) (pk_chunks p ++ concat (map (fun g => g_data g :: g_rest g) gs)) (pk_contig p)).
Proof.
  induction gs as [|g gs IH]; intros start p; cbn [queue_of chain_frags6 map concat]; [rewrite app_nil_r; by destruct p|].
  cbn [f6_pbuf]. unfold pk_remove_header, pkt_of. cbn [pk_chunks pk_room pk_contig].
  rewrite (proj2 (Z.leb_le _ _)) by (rewrite length_app; cbn; unfold IP6_FRAG_HLEN; lia).
  cbn [mbind option_bind]. rewrite IH. unfold pk_cat. cbn [pk_room pk_chunks pk_contig].
  rewrite (drop_app_length' (ip6_frag_hdr_octets (g_frag g))) by done. by rewrite <- app_assoc.
Qed.

(** ** The header of the datagram *)

(** The header of the first fragment, with the length the code computes. *)
Definition reassembled_header (g : piece6) (len : Z) : ip6_hdr :=
  (g_hdr g) <| _plen := lwip_htons (u16 (len - 8)) |> <| _nexth := fh_nexth (g_frag g) |>.

Lemma header_patched h plen nexth r : ip6_hdr_ok h ->
  let hdr := ip6_hdr_octets h in
  <[6%nat := nexth]> ((take 4 hdr ++ st16 plen ++ drop 6 hdr) ++ r) =
  ip6_hdr_octets (h <| _plen := plen |> <| _nexth := nexth |>) ++ r.
Proof. intros _ hdr. reflexivity. Qed.

Lemma unfragment_spec g start len p :
  ip6_hdr_ok (g_hdr g) -> _nexth (g_hdr g) = IP6_NEXTH_FRAGMENT ->
  pk_room p = g_front g ++ ip6_hdr_octets (g_hdr g) ->
  forall r, pk_chunks p = (ip6_frag_hdr_octets (g_frag g) ++ g_data g) :: r ->
  unfragment (Frag6 start (start + g_len g) (pkt_of g) IP6_HLEN) len (fh_nexth (g_frag g)) p =
  Some (Pkt (g_front g ++ take 8 (ip6_hdr_octets (g_hdr g)))
         ((ip6_hdr_octets (reassembled_header g len) ++ g_data g) :: r) (pk_contig p)).
Proof.
  intros Hh Hn Hr r Hc. unfold unfragment. rewrite Hc, Hr. cbn [f6_hdrlen].
  pose proof (ip6_hdr_octets_length _ Hh) as H40. change (Z.to_nat IP6_HLEN) with 40%nat.
  rewrite length_app, H40. rewrite (proj2 (Nat.leb_le _ _)) by lia.
  rewrite (proj2 (Z.leb_le _ _)) by (rewrite length_app; cbn; unfold IP6_FRAG_HLEN; lia).
  change (IP6_HLEN - IP6_FRAG_HLEN <? 32768) with true. cbn iota.
  rewrite take_app_length' by lia. rewrite drop_app_length' by lia.
  change (Z.to_nat IP6_FRAG_HLEN) with 8%nat. rewrite (drop_app_length' (ip6_frag_hdr_octets _)) by done.
  replace (len + (IP6_HLEN - IP6_FRAG_HLEN) - IP6_HLEN) with (len - 8) by (unfold IP6_HLEN, IP6_FRAG_HLEN; lia).
  assert (ld8 ((take 4 (ip6_hdr_octets (g_hdr g)) ++ st16 (lwip_htons (u16 (len - 8))) ++ drop 6 (ip6_hdr_octets (g_hdr g))) ++ g_data g) 6
          = IP6_NEXTH_FRAGMENT) as ->.
  { change (_nexth (g_hdr g) = IP6_NEXTH_FRAGMENT). done. }
  change (IP6_NEXTH_FRAGMENT =? IP6_NEXTH_FRAGMENT) with true. cbn [mbind option_bind].
  rewrite header_patched by done. reflexivity.
Qed.

(** ** One fragment *)

Lemma header_room g : ip6_hdr_ok (g_hdr g) -> exists p, pk_header_force IPV6_FRAG_REQROOM (pkt_of g) = Some p.
Proof.
  intros Hh. unfold pk_header_force, pk_add_header_impl, pkt_of. cbn [pk_chunks pk_room pk_contig].
  rewrite orb_true_r. cbn [andb]. rewrite (proj2 (Nat.leb_le _ _)); [by eexists|].
  rewrite length_app, (ip6_hdr_octets_length _ Hh). change (Z.to_nat IPV6_FRAG_REQROOM) with 4%nat. lia.
Qed.

Definition queued6 (d : ip6_reassdata) (gs : list piece6) (len : Z) : ip6_reassdata :=
  d <| r6_p := queue_of 0 gs |> <| r6_datagram_len := len |>.

Lemma reass6_into_append old g L c m ev d (last : bool) offset :
  let start := total_len old in
  r6_p d = queue_of 0 old -> r6_datagram_len d = 0 -> Forall (fun g => 0 < g_len g) old -> 0 < g_len g ->
  start + g_len g <= 65535 -> 0 <= c -> 0 < g_clen g -> c + g_clen g <= IP_REASS_MAX_PBUFS -> ip6_hdr_ok (g_hdr g) ->
  Z.land offset IP6_FRAG_MORE_FLAG = (if last then 0 else 1) ->
  reass6_into 0 (pkt_of g) IP6_HLEN start (g_len g) offset (g_clen g) (Reass6 (d :: L) c m ev) =
  let s := Reass6 (queued6 d (old ++ [g]) (if last then start + g_len g else 0) :: L) (c + g_clen g) m ev in
  if last then finish_datagram6 0 s else Some (s, None).
Proof.
  intros start Hp Hd Ho Hg Hle Hc Hcl Hmax Hh Hoff. unfold reass6_into. cbn [ip6_reass_pbufcount reassdatagrams6].
  rewrite (proj2 (Z.ltb_ge _ _)) by lia. cbn [mbind option_bind negb].
  destruct (header_room g Hh) as [p' ->]. cbn [mbind option_bind reassdatagrams6 ip6_reass_pbufcount]. change ((_ :: _) !! 0%nat) with (Some d).
  cbn [mbind option_bind].
  assert (0 <= start) by (apply sum_with_nonneg; eapply Forall_impl; [exact Ho|]; cbn; lia).
  rewrite (u16_id (start + g_len g)) by (unfold is_u16; lia). rewrite Hp. cbn [f6_end].
  pose proof (find_place6_append old 0 (start + g_len g) [] Ho I) as Epl. rewrite Z.add_0_l in Epl. fold start in Epl.
  rewrite Epl. cbn [mbind option_bind app].
  rewrite Hoff. cbn [setter ip6_reass_pbufcount reassdatagrams6 reass6_malloc reass6_events].
  rewrite u16_id by (unfold is_u16, IP_REASS_MAX_PBUFS in *; lia).
  assert (Eq : queue_of 0 old ++ [Frag6 start (start + g_len g) (pkt_of g) IP6_HLEN] = queue_of 0 (old ++ [g])).
  { rewrite queue_of_app. cbn [queue_of]. by rewrite Z.add_0_l. }
  rewrite Eq. cbn [f6_end no_holes6]. rewrite andb_true_r.
  assert (f6_start (hd (Frag6 start (start + g_len g) (pkt_of g) IP6_HLEN) (queue_of 0 (old ++ [g]))) = 0) as ->.
  { rewrite <- Eq. destruct old; [done|]. done. }
  cbn [Z.eqb]. destruct last.
  - change (0 =? 0) with true. cbn iota. cbn [r6_datagram_len setter andb insert list_insert].
    rewrite (proj2 (Z.eqb_neq (start + g_len g) 0)) by lia. reflexivity.
  - change (1 =? 0) with false. cbn iota. cbn [r6_datagram_len setter]. rewrite Hd. change (0 =? 0) with true. cbn [negb andb insert list_insert].
    destruct d. cbn in Hd. by subst.
Qed.

(** The clen the code counts. *)
Lemma pkt_of_clen g : g_clen g <= IP_REASS_MAX_PBUFS -> pk_clen (pkt_of g) = g_clen g.
Proof. intros H. unfold pk_clen, pkt_of, g_clen in *. cbn [pk_chunks length]. apply u16_id. unfold is_u16, IP_REASS_MAX_PBUFS in *. lia. Qed.

Lemma start_field start (last : bool) : start mod 8 = 0 -> 0 <= start < 65536 ->
  Z.land (start + (if last then 0 else 1)) IP6_FRAG_OFFSET_MASK = start /\
  Z.land (start + (if last then 0 else 1)) IP6_FRAG_MORE_FLAG = (if last then 0 else 1).
Proof.
  intros H8 Hr. set (k := if last then 0 else 1). assert (Hk : 0 <= k < 8) by (unfold k; destruct last; lia).
  assert (E : start + k = Z.lor (start / 8 * 2 ^ 3) k).
  { rewrite lor_shift_add by lia. change (2 ^ 3) with 8. Z.div_mod_to_equations. lia. }
  assert (H1 : Z.land (start / 8 * 2 ^ 3) IP6_FRAG_OFFSET_MASK = start).
  { change IP6_FRAG_OFFSET_MASK with (Z.shiftl (Z.ones 13) 3). rewrite <- Z.shiftl_mul_pow2 by lia.
    rewrite <- Z.shiftl_land, Z.land_ones, Z.shiftl_mul_pow2 by lia. change (2 ^ 13) with 8192. change (2 ^ 3) with 8.
    Z.div_mod_to_equations. lia. }
  assert (H2 : Z.land (start / 8 * 2 ^ 3) IP6_FRAG_MORE_FLAG = 0).
  { change IP6_FRAG_MORE_FLAG with (Z.ones 1). rewrite Z.land_ones by lia. change (2 ^ 1) with 2. change (2 ^ 3) with 8.
    Z.div_mod_to_equations. lia. }
  rewrite E, !Z.land_lor_distr_l, H1, H2. split; [|unfold k; by destruct last].
  assert (Z.land k IP6_FRAG_OFFSET_MASK = 0) as -> by (unfold k; by destruct last). apply Z.lor_0_r.
Qed.

(** The entry of the datagram [id] of the header [h], with the pieces [gs]. *)
Definition entry6 (h : ip6_hdr) (id nexth : Z) (src dest : ip6_addr) (gs : list piece6) (len : Z) : ip6_reassdata :=
  Ip6Reassdata (queue_of 0 gs) (ip6h_src h) (ip6h_dest h) id len nexth IPV6_REASS_MAXAGE (zone src) (zone dest).

Lemma cmp_packed_same a : ip6_addr_cmp_packed a (ip6_words a) (zone a) = true.
Proof.
  unfold ip6_addr_cmp_packed, ip6_addr_cmp_zoneless, ip6_word. cbn [ip6_words]. by rewrite !Z.eqb_refl.
Qed.

Lemma find_entry6 h id nexth src dest gs len L : ip6_words src = ip6h_src h -> ip6_words dest = ip6h_dest h ->
  find_datagram6 id src dest (entry6 h id nexth src dest gs len :: L) = Some 0%nat.
Proof.
  intros Hs Hd. unfold entry6. cbn [find_datagram6 r6_identification r6_src r6_dest r6_src_zone r6_dest_zone].
  rewrite <- Hs, <- Hd, !cmp_packed_same, Z.eqb_refl. done.
Qed.

(** The next piece of a datagram that is in the list, at its head. *)
Lemma next_piece6 h nexth id src dest old g L c m ev (last : bool) :
  let start := total_len old in
  ip6_words src = ip6h_src h -> ip6_words dest = ip6h_dest h ->
  Forall (fun g => 0 < g_len g) old -> start mod 8 = 0 -> start + g_len g <= 65535 ->
  piece_at id start last g -> 0 <= c -> c + g_clen g <= IP_REASS_MAX_PBUFS ->
  ip6_reass (g_hdr g) IP6_HLEN src dest (pkt_of g) (Reass6 (entry6 h id nexth src dest old 0 :: L) c m ev) =
  let s := Reass6 (entry6 h id nexth src dest (old ++ [g]) (if last then start + g_len g else 0) :: L) (c + g_clen g) m ev in
  if last then finish_datagram6 0 s else Some (s, None).
Proof.
  intros start Hs Hd Ho H8 Hle (Hh & Hf & Hid & Hn & Hg & Hpl & Hoff) Hc Hmax.
  assert (0 < g_clen g) by (unfold g_clen; lia).
  assert (0 <= start) by (apply sum_with_nonneg; eapply Forall_impl; [exact Ho|]; cbn; lia).
  assert (Hfh : ip6_frag_hdr_of (hd [] (pk_chunks (pkt_of g))) = g_frag g) by by apply ip6_frag_hdr_of_octets.
  assert (Hlen : 8 <= pk_len (pkt_of g)) by (unfold pk_len, pkt_of; cbn [pk_chunks hd]; rewrite length_app; cbn; lia).
  unfold ip6_reass. rewrite Hfh. unfold IP6_FRAG_HLEN at 1. rewrite (proj2 (Z.leb_le _ _)) by lia.
  rewrite Hid, Hpl, Hoff, pkt_of_clen by lia.
  change (IP6_HLEN <=? 65535) with true. change (IP6_HLEN <=? IP6_HLEN) with true. cbn iota.
  replace (IP6_HLEN - IP6_HLEN + IP6_FRAG_HLEN) with 8 by done. rewrite (proj2 (Z.ltb_ge _ 8)) by lia.
  destruct (start_field start last H8 ltac:(lia)) as [E1 E2].
  replace (g_len g + 8 - 8) with (g_len g) by lia. rewrite E1, (u16_id (g_len g)) by (unfold is_u16; lia).
  rewrite (proj2 (Z.ltb_ge _ start)) by lia. cbn [reassdatagrams6]. rewrite find_entry6 by done.
  rewrite (reass6_into_append old g L c m ev _ last) by done. reflexivity.
Qed.

(** ** The datagram *)

Definition whole6 (g : piece6) (gs : list piece6) : pkt :=
  Pkt (g_front g ++ take 8 (ip6_hdr_octets (g_hdr g)))
      ((ip6_hdr_octets (reassembled_header g (total_len (g :: gs))) ++ g_data g) :: g_rest g ++
       concat (map (fun g => g_data g :: g_rest g) gs)) (g_contig g).

Lemma concat_chunks gs : concat (concat (map (fun g => g_data g :: g_rest g) gs)) = concat (map g_octets gs).
Proof.
  induction gs as [|g gs IH]; [done|]. cbn [map concat]. rewrite concat_app, IH. cbn [concat]. unfold g_octets.
  by rewrite <- !app_assoc.
Qed.

Lemma whole6_octets g gs :
  pk_octets (whole6 g gs) = ip6_hdr_octets (reassembled_header g (total_len (g :: gs))) ++ concat (map g_octets (g :: gs)).
Proof.
  unfold pk_octets, whole6. cbn [pk_chunks concat map]. rewrite concat_app, concat_chunks. unfold g_octets at 2.
  by rewrite <- !app_assoc.
Qed.

Lemma whole6_clen g gs : total_clen (g :: gs) <= IP_REASS_MAX_PBUFS -> pk_clen (whole6 g gs) = total_clen (g :: gs).
Proof.
  intros H. assert (E : Z.of_nat (length (pk_chunks (whole6 g gs))) = total_clen (g :: gs)).
  { unfold whole6, total_clen. cbn [pk_chunks length]. rewrite sum_with_cons, length_app. unfold g_clen at 1. clear H.
    enough (Z.of_nat (length (concat (map (fun g => g_data g :: g_rest g) gs))) = sum_with g_clen gs) by lia.
    induction gs as [|x gs IH]; [done|]. cbn [map concat]. rewrite sum_with_cons, length_app. unfold g_clen at 1. cbn [length]. lia. }
  assert (0 <= total_clen (g :: gs)) by lia.
  unfold pk_clen. rewrite E. apply u16_id. unfold is_u16, IP_REASS_MAX_PBUFS in *. lia.
Qed.

Lemma chain_clen g gs p : pk_chunks p = (ip6_frag_hdr_octets (g_frag g) ++ g_data g) :: g_rest g ++ concat (map (fun g => g_data g :: g_rest g) gs) ->
  pk_clen p = pk_clen (whole6 g gs).
Proof. intros H. unfold pk_clen. rewrite H. done. Qed.

Lemma finish_datagram6_spec g gs h id src dest L c m ev :
  ip6_hdr_ok (g_hdr g) -> _nexth (g_hdr g) = IP6_NEXTH_FRAGMENT -> 0 <= c -> c + total_clen (g :: gs) <= IP_REASS_MAX_PBUFS ->
  finish_datagram6 0 (Reass6 (entry6 h id (fh_nexth (g_frag g)) src dest (g :: gs) (total_len (g :: gs)) :: L)
                        (c + total_clen (g :: gs)) m ev) =
  Some (Reass6 L c m ev, Some (whole6 g gs)).
Proof.
  intros Hh Hn Hc Hmax. unfold finish_datagram6. cbn [reassdatagrams6]. change ((_ :: _) !! 0%nat) with (Some (entry6 h id (fh_nexth (g_frag g)) src dest (g :: gs) (total_len (g :: gs)))).
  unfold entry6. cbn [mbind option_bind r6_p r6_datagram_len r6_nexth queue_of f6_pbuf].
  rewrite chain_frags6_spec. cbn [mbind option_bind]. set (p := Pkt _ _ _).
  assert (Hp : pk_chunks p = (ip6_frag_hdr_octets (g_frag g) ++ g_data g) :: g_rest g ++ concat (map (fun g => g_data g :: g_rest g) gs)) by done.
  rewrite (chain_clen _ _ _ Hp), whole6_clen by lia. rewrite (unfragment_spec g 0 _ p Hh Hn eq_refl _ Hp). cbn [mbind option_bind].
  change (delete 0%nat (_ :: L)) with L.
  cbn [setter reassdatagrams6 ip6_reass_pbufcount reass6_malloc reass6_events].
  rewrite (proj2 (Z.leb_le _ _)) by lia. replace (c + total_clen (g :: gs) - total_clen (g :: gs)) with c by lia.
  rewrite u16_id; [done|]. assert (0 <= total_clen (g :: gs)); [|unfold is_u16, IP_REASS_MAX_PBUFS in *; lia].
  apply sum_with_nonneg. apply Forall_forall. intros x _. unfold g_clen. lia.
Qed.

Lemma in_order_cons id start g gs : in_order id start (g :: gs) ->
  start mod 8 = 0 /\ 0 <= start /\ start + g_len g <= 65535 /\
  piece_at id start (match gs with [] => true | _ => false end) g /\ (gs <> [] -> in_order id (start + g_len g) gs).
Proof. destruct gs; cbn [in_order]; naive_solver. Qed.

(** What is returned for the fragments of [gs], of the datagram that begins with
    [g0]: nothing until the last one. *)
Definition answers6 (gs : list piece6) (g0 : piece6) (rest : list piece6) : list (option pkt) :=
  replicate (length gs - 1) None ++ [Some (whole6 g0 rest)].

Lemma run_rest6 gs : forall g0 old id src dest L c m ev,
  ip6_words src = ip6h_src (g_hdr g0) -> ip6_words dest = ip6h_dest (g_hdr g0) ->
  ip6_hdr_ok (g_hdr g0) -> _nexth (g_hdr g0) = IP6_NEXTH_FRAGMENT -> Forall (fun g => 0 < g_len g) (g0 :: old) ->
  0 <= c -> c + total_clen (g0 :: old ++ gs) <= IP_REASS_MAX_PBUFS -> in_order id (total_len (g0 :: old)) gs ->
  reass_run src dest gs
    (Reass6 (entry6 (g_hdr g0) id (fh_nexth (g_frag g0)) src dest (g0 :: old) 0 :: L) (c + total_clen (g0 :: old)) m ev) =
  Some (Reass6 L c m ev, answers6 gs g0 (old ++ gs)).
Proof.
  induction gs as [|g gs IH]; intros g0 old id src dest L c m ev Hs Hd Hh Hn Ho Hc Hmax Hio; [done|].
  destruct (in_order_cons _ _ _ _ Hio) as (H8 & H0 & Hle & Hp & Hrest).
  assert (Hpos : forall l, 0 <= total_clen l).
  { intros l. apply sum_with_nonneg. apply Forall_forall. intros x _. unfold g_clen. lia. }
  assert (Hsplit : total_clen (g0 :: old ++ g :: gs) = total_clen (g0 :: old) + g_clen g + total_clen gs).
  { unfold total_clen. rewrite !sum_with_cons, sum_with_app, sum_with_cons. lia. }
  pose proof (Hpos gs). pose proof (Hpos (g0 :: old)).
  cbn [reass_run].
  rewrite (next_piece6 (g_hdr g0) (fh_nexth (g_frag g0)) id src dest (g0 :: old) g L _ m ev
    (match gs with [] => true | _ => false end)) by (done || lia).
  assert (Hpg : 0 < g_len g) by apply Hp.
  change ((g0 :: old) ++ [g]) with (g0 :: (old ++ [g])).
  assert (Hcl : total_clen (g0 :: old) + g_clen g = total_clen (g0 :: old ++ [g])).
  { unfold total_clen. rewrite !sum_with_cons, sum_with_app, sum_with_cons, sum_with_nil. lia. }
  assert (Hln : total_len (g0 :: old) + g_len g = total_len (g0 :: old ++ [g])).
  { unfold total_len. rewrite !sum_with_cons, sum_with_app, sum_with_cons, sum_with_nil. lia. }
  rewrite <- Z.add_assoc, Hcl, Hln.
  destruct gs as [|g' gs].
  - cbn iota. rewrite finish_datagram6_spec by (done || lia). cbn [mbind option_bind reass_run].
    unfold answers6. done.
  - cbn iota. cbn [mbind option_bind]. rewrite IH; try done.
    + cbn [mbind option_bind]. unfold answers6. rewrite <- (app_assoc old). cbn [app length]. rewrite !Nat.sub_succ, !Nat.sub_0_r. done.
    + apply Forall_cons. apply Forall_cons in Ho as [? ?]. split; [done|]. apply Forall_app. split; [done|]. by apply Forall_singleton.
    + rewrite <- app_assoc. done.
    + rewrite <- Hln. by apply Hrest.
Qed.

Lemma first_piece6 g id src dest L c m ev (last : bool) :
  find_datagram6 id src dest L = None ->
  ip6_words src = ip6h_src (g_hdr g) -> ip6_words dest = ip6h_dest (g_hdr g) ->
  g_len g <= 65535 -> piece_at id 0 last g -> 0 <= c -> c + g_clen g <= IP_REASS_MAX_PBUFS ->
  ip6_reass (g_hdr g) IP6_HLEN src dest (pkt_of g) (Reass6 L c (true :: m) ev) =
  ip6_reass (g_hdr g) IP6_HLEN src dest (pkt_of g)
    (Reass6 (entry6 (g_hdr g) id (fh_nexth (g_frag g)) src dest [] 0 :: L) c m ev).
Proof.
  intros Hf Hs Hd Hle (Hh & Hfr & Hid & Hn & Hg & Hpl & Hoff) Hc Hmax.
  assert (Hfh : ip6_frag_hdr_of (hd [] (pk_chunks (pkt_of g))) = g_frag g) by by apply ip6_frag_hdr_of_octets.
  unfold ip6_reass. rewrite Hfh, Hid. cbn [reassdatagrams6]. rewrite Hf, find_entry6 by done.
  rewrite Hpl, Hoff. replace (IP6_HLEN - IP6_HLEN + IP6_FRAG_HLEN) with 8 by done. rewrite (proj2 (Z.ltb_ge _ 8)) by lia.
  destruct (start_field 0 last eq_refl ltac:(lia)) as [E1 _]. rewrite E1. replace (g_len g + 8 - 8) with (g_len g) by lia.
  rewrite (u16_id (g_len g)) by (unfold is_u16; lia). rewrite (proj2 (Z.ltb_ge _ 0)) by lia.
  unfold enqueue_new_datagram6, memp_malloc6. cbn [reass6_malloc mbind option_bind]. unfold entry6. cbn [queue_of].
  rewrite Hid. done.
Qed.

Lemma ip6_reass_in_order_lemma id src dest g gs L c m ev :
  find_datagram6 id src dest L = None ->
  ip6_words src = ip6h_src (g_hdr g) -> ip6_words dest = ip6h_dest (g_hdr g) ->
  in_order id 0 (g :: gs) -> 0 <= c -> c + total_clen (g :: gs) <= IP_REASS_MAX_PBUFS ->
  exists p, reass_run src dest (g :: gs) (Reass6 L c (true :: m) ev) =
      Some (Reass6 L c m ev, replicate (length gs) None ++ [Some p]) /\
    pk_octets p = ip6_hdr_octets ((g_hdr g) <| _nexth := fh_nexth (g_frag g) |>
                                            <| _plen := lwip_htons (u16 (total_len (g :: gs) - 8)) |>) ++
                  concat (map g_octets (g :: gs)).
Proof.
  intros Hf Hs Hd Hio Hc Hmax. exists (whole6 g gs). split; [|by rewrite whole6_octets].
  destruct (in_order_cons _ _ _ _ Hio) as (H8 & H0 & Hle & Hp & Hrest).
  assert (Hclg : total_clen (g :: gs) = g_clen g + total_clen gs) by done.
  assert (0 <= total_clen gs). { apply sum_with_nonneg. apply Forall_forall. intros x _. unfold g_clen. lia. }
  cbn [reass_run]. rewrite (first_piece6 g id src dest L c m ev (match gs with [] => true | _ => false end)) by (done || lia).
  pose proof (next_piece6 (g_hdr g) (fh_nexth (g_frag g)) id src dest [] g L c m ev (match gs with [] => true | _ => false end)) as E.
  cbv zeta in E. change (total_len []) with 0 in E. rewrite E by (done || lia). clear E. cbn [app].
  assert (Hh : ip6_hdr_ok (g_hdr g)) by apply Hp. assert (Hn : _nexth (g_hdr g) = IP6_NEXTH_FRAGMENT) by apply Hp.
  assert (Hpos : 0 < g_len g) by apply Hp.
  assert (Etl : 0 + g_len g = total_len [g]). { unfold total_len. rewrite sum_with_cons, sum_with_nil. lia. }
  assert (Etc : g_clen g = total_clen [g]). { unfold total_clen. rewrite sum_with_cons, sum_with_nil. lia. }
  rewrite Etl, Etc. destruct gs as [|g' gs].
  - cbn iota. rewrite finish_datagram6_spec by (try done; lia). done.
  - cbn iota. cbn [mbind option_bind]. rewrite (run_rest6 (g' :: gs) g []); try done.
    + cbn [mbind option_bind]. unfold answers6. cbn [length app]. by rewrite Nat.sub_succ, Nat.sub_0_r.
    + by repeat constructor.
    + rewrite <- Etl. by apply Hrest.
Qed.

(** ** Properties *)

(** C27: the fragments of an IPv6 datagram that arrive in order, in packets cut into pbufs
    in any way, are kept until the last one; then the datagram is returned: the
    header of the first fragment with the next header of the fragment header,
    followed by the data of all fragments.  Nothing of it stays behind and other
    datagrams are not touched.  (The length field that is written is
    eight less than the length of the data.) *)
Theorem ip6_reass_in_order id src dest g gs L c m ev :
  find_datagram6 id src dest L = None ->
  ip6_words src = ip6h_src (g_hdr g) -> ip6_words dest = ip6h_dest (g_hdr g) ->
  in_order id 0 (g :: gs) -> 0 <= c -> c + total_clen (g :: gs) <= IP_REASS_MAX_PBUFS ->
  exists p, reass_run src dest (g :: gs) (Reass6 L c (true :: m) ev) =
      Some (Reass6 L c m ev, replicate (length gs) None ++ [Some p]) /\
    pk_octets p = ip6_hdr_octets ((g_hdr g) <| _nexth := fh_nexth (g_frag g) |>
                                            <| _plen := lwip_htons (u16 (total_len (g :: gs) - 8)) |>) ++
                  concat (map g_octets (g :: gs)).
Proof. apply ip6_reass_in_order_lemma. Qed.

(** ** Concrete fragments *)

Definition frag_src : ip6_addr := Ip6Addr [lwip_htonl 536939960; 0; 0; lwip_htonl 1] 0.
Definition frag_dest : ip6_addr := Ip6Addr [lwip_htonl 536939960; 0; 0; lwip_htonl 2] 0.

Definition example_piece (start : Z) (last : bool) (data : list Z) (rest : list (list Z)) : piece6 :=
  Piece6 [] (ip6_header frag_src frag_dest 64 0 IP6_NEXTH_FRAGMENT (Z.of_nat (length (data ++ concat rest)) + 8))
    (Ip6FragHdr IP6_NEXTH_UDP 0 (lwip_htons (start + if last then 0 else 1)) 7) data rest true.

Definition no_reass6 : reass6 := Reass6 [] 0 (repeat true 8) [].

(** The octets [ip6_reass] returns for fragments in the given order. *)
Definition reass_octets (gs : list piece6) : option (list (option (list Z))) :=
  '(_, rs) ← reass_run frag_src frag_dest gs no_reass6; Some (map (option_map pk_octets) rs).

Lemma ip6_reass_in_order_witness :
  let g := example_piece 0 false (repeat 1 8) [] in let gs := [example_piece 8 true [2; 2] [[3]]] in
  exists p, reass_run frag_src frag_dest (g :: gs) (Reass6 [] 0 (true :: []) []) =
      Some (Reass6 [] 0 [] [], replicate 1 None ++ [Some p]) /\
    pk_octets p = ip6_hdr_octets ((g_hdr g) <| _nexth := IP6_NEXTH_UDP |>
                                            <| _plen := lwip_htons (u16 (total_len (g :: gs) - 8)) |>) ++
                  concat (map g_octets (g :: gs)).
Proof.
  apply (ip6_reass_in_order 7 frag_src frag_dest (example_piece 0 false (repeat 1 8) []) [example_piece 8 true [2; 2] [[3]]]);
    [done|done|done| |done|by vm_compute].
  assert (Hh : forall n, is_u16 (lwip_htons n) -> ip6_hdr_ok (ip6_header frag_src frag_dest 64 0 IP6_NEXTH_FRAGMENT n)).
  { intros n Hn. unfold ip6_hdr_ok, words_ok. cbn [ip6_header _v_tc_fl _plen _nexth _hoplim ip6h_src ip6h_dest].
    split_and!; try done; decide_now. }
  cbn [in_order]. split_and!; try done; unfold piece_at; split_and!; try done; try (apply Hh; decide_now);
    unfold ip6_frag_hdr_ok; split_and!; decide_now.
Defined.

(** Fragments 0-8 and 24-32, then 16-24: the datagram is taken to be complete, without
    the octets from 8 to 16. *)
Example ip6_reass_hole :
  reass_octets [example_piece 0 false (repeat 1 8) []; example_piece 24 true (repeat 4 8) []; example_piece 16 false (repeat 3 8) []] =
  Some [None; None;
        Some (ip6_hdr_octets (ip6_header frag_src frag_dest 64 0 IP6_NEXTH_UDP 24) ++ repeat 1 8 ++ repeat 3 8 ++ repeat 4 8)].
Proof. by vm_compute. Qed.

Fixpoint reass6_ticks (n : nat) (s : reass6) : option reass6 :=
  match n with O => Some s | S n => s ← ip6_reass_tmr s; reass6_ticks n s end.

(** A fragment in eleven pbufs is dropped; its entry stays, and the timer reads through
    its null pointer a minute later. *)
Example ip6_reass_empty_entry :
  let s := reass_run frag_src frag_dest [example_piece 0 false [1; 1] (repeat [1; 1] 10 )] no_reass6 in
  exists s' , s = Some (s', [None]) /\ map r6_p (reassdatagrams6 s') = [[]] /\
    (exists s'', reass6_ticks 60 s' = Some s'') /\ reass6_ticks 61 s' = None.
Proof. cbv zeta. eexists. split; [by vm_compute|]. split; [done|]. split; [eexists|]; by vm_compute. Qed.

(** The quote of an ICMP message: the identification 7 was replaced by the start and the
    end of the fragment. *)
Example ip6_reass_quote :
  ('(s, _) ← reass_run frag_src frag_dest [example_piece 0 false (repeat 1 8) []] no_reass6;
   s ← reass6_ticks 61 s;
   Some (map (fun e => match e with Time_exceeded6 p _ _ => take 56 (pk_octets p) | Free6 _ => [] end) (reass6_events s))) =
  Some [ip6_hdr_octets (ip6_header frag_src frag_dest 64 0 IP6_NEXTH_FRAGMENT 16) ++
        [IP6_NEXTH_UDP; 0; 0; 1] ++ [0; 0; 8; 0] ++ repeat 1 8; []].
Proof. by vm_compute. Qed.
