(* ===== verification/Ip6FragOut.v ===== *)
(** * What [ip6_frag] sends

    A packet is cut into fragments that carry its payload in order, none larger than
    the MTU; the fragments, received in order, give the packet back.  With an MTU
    below 56 there is no progress, and with a short pbuf in the chain the assertion
    inside of the loop can fail: both are shown. *)

From S2P Require Import Prelude Err Def IpAddr NetifDefs Ip6Addr Packet IpHdr Ip6Hdr Ip4Frag Ip4FragSpec Ip4FragOut Ip6Frag Nd6Defs Net Nd6Cache Ip6 Ip6FragSpec.

(** ** The pieces of one fragment *)

Lemma frag6_pieces_spec cs : forall i left ans,
  0 < left < 65536 -> left <= Z.of_nat (length (concat cs)) -> enough ans left ->
  exists pieces j n c k, frag6_pieces cs i left ans = Some (Some (pieces, (i + j)%nat, n), drop k ans) /\
    Z.of_nat k <= left /\ concat pieces = take (Z.to_nat left) (concat cs) /\
    cs !! j = Some c /\ 0 < n <= Z.of_nat (length c) /\
    drop (Z.to_nat n) c ++ concat (drop (S j) cs) = drop (Z.to_nat left) (concat cs) /\
    (j = 0%nat -> n = left).
Proof.
  induction cs as [|c r IH]; intros i left ans Hl Hlen Hans; [cbn in Hlen; lia|].
  cbn [frag6_pieces concat] in *. rewrite length_app in Hlen.
  set (n := if left <? Z.of_nat (length c) then left else Z.of_nat (length c)).
  assert (Hn : n = Z.min left (Z.of_nat (length c))) by (unfold n; destruct (Z.ltb_spec left (Z.of_nat (length c))); lia).
  clearbody n. destruct (Z.eqb_spec n 0) as [E|E].
  { assert (c = []) as -> by (destruct c; [done|cbn [length] in Hn; lia]).
    destruct (IH (S i) left ans) as (pieces & j & m & c' & k & Hrun & Hk & Hc & Hj & Hm & Hd & H0); [done|cbn in Hlen; lia|done|].
    exists pieces, (S j), m, c', k. rewrite Hrun. replace (S i + j)%nat with (i + S j)%nat by lia.
    split_and!; try done; lia. }
  destruct ans as [|a ans]; [destruct Hans as [_ H]; cbn in H; lia|].
  assert (a = true) as -> by (destruct Hans as [H _]; by apply Forall_cons in H as [<- _]). cbn [next_answer].
  rewrite u16_id by (unfold is_u16; lia). destruct (Z.eqb_spec (left - n) 0) as [E0|E0].
  - assert (n = left) as Enl by lia. exists [take (Z.to_nat n) c], 0%nat, n, c, 1%nat. rewrite Nat.add_0_r.
    split_and!; try done; try lia.
    + cbn [concat]. rewrite app_nil_r, take_app_le by lia. by rewrite Enl.
    + cbn [drop skipn]. rewrite drop_app_le by lia. by rewrite Enl.
  - assert (n = Z.of_nat (length c)) as Hnc by lia.
    destruct (IH (S i) (left - n) ans) as (pieces & j & m & c' & k & Hrun & Hk & Hc & Hj & Hm & Hd & H0); [lia|lia| |].
    { destruct Hans as [H1 H2]. apply Forall_cons in H1 as [_ H1]. split; [done|]. cbn [length] in H2. lia. }
    rewrite Hrun. cbn [mbind option_bind]. exists (take (Z.to_nat n) c :: pieces), (S j), m, c', (S k).
    replace (S i + j)%nat with (i + S j)%nat by lia. split_and!; try done; try lia.
    + cbn [concat]. rewrite Hc. rewrite (take_ge c) by lia. rewrite take_app_ge by lia. do 2 f_equal. lia.
    + cbn [drop skipn]. change (skipn (S j) r) with (drop (S j) r). rewrite Hd. rewrite drop_app_ge by lia. f_equal. lia.
Qed.

(** ** The fragments *)

(** [outs] carry [D], from the offset [fo] on. *)
Fixpoint sends6 (h : ip6_hdr) (id nfb fo : Z) (D : list Z) (outs : list pkt) : Prop :=
  match outs with
  | [] => D = []
  | o :: outs =>
      let len := Z.of_nat (length D) in
      let last := len <=? nfb in
      let cop := if last then len else nfb in
      D <> [] /\ pk_octets o = frag6_header h last fo cop id ++ take (Z.to_nat cop) D /\
      sends6 h id nfb (fo + cop) (drop (Z.to_nat cop) D) outs
  end.

Lemma concat_lookup {A} (cs : list (list A)) i c : cs !! i = Some c -> concat (drop i cs) = c ++ concat (drop (S i) cs).
Proof. intros H. by rewrite (drop_S _ _ _ H). Qed.

Lemma frag6_loop_spec h id nfb fuel : forall p i poff npl c left fo ans,
  40 <= nfb < 65536 -> pk_chunks p !! i = Some c -> 0 <= poff <= Z.of_nat (length c) -> 40 <= Z.of_nat (length c) ->
  Forall (fun c => 40 <= Z.of_nat (length c)) (drop (S i) (pk_chunks p)) ->
  let D := drop (Z.to_nat poff) c ++ concat (drop (S i) (pk_chunks p)) in
  Z.of_nat (length D) = left -> 0 <= fo -> fo + left < 65536 -> enough ans (2 * left) -> (length ans < fuel)%nat ->
  exists outs ans' p', frag6_loop fuel h id nfb p i poff npl left fo ans = Some (ERR_OK, outs, ans', p') /\
    sends6 h id nfb fo D outs.
Proof.
  induction fuel as [|fuel IH]; intros p i poff npl c left fo ans Hnfb Hc Hpo Hc40 Hrest D HD Hfo Hmax Hans Hfuel; [lia|].
  cbn [frag6_loop]. destruct (Z.eqb_spec left 0) as [E|E].
  { exists [], ans, p. split; [done|]. cbn. destruct D; [done|cbn [length] in HD; lia]. }
  set (last := left <=? nfb). set (cop := if last then left else nfb).
  assert (Hcop : 0 < cop <= left) by (unfold cop, last; destruct (Z.leb_spec left nfb); lia).
  destruct ans as [|a ans]; [destruct Hans as [_ H]; cbn in H; lia|].
  assert (a = true) as -> by (destruct Hans as [H _]; by apply Forall_cons in H as [<- _]). cbn [next_answer negb].
  rewrite Hc. cbn [mbind option_bind]. rewrite (proj2 (Z.leb_le _ _)) by (unfold IP6_HLEN; lia).
  unfold pbuf_advance. rewrite Hc. cbn [mbind option_bind]. rewrite (proj2 (Z.leb_le _ _)) by lia. cbn [mbind option_bind].
  set (p1 := Pkt _ _ _). assert (Hil : (i < length (pk_chunks p))%nat) by (apply lookup_lt_Some in Hc; done).
  assert (Hp1 : drop i (pk_chunks p1) = drop (Z.to_nat poff) c :: drop (S i) (pk_chunks p)).
  { unfold p1. cbn [pk_chunks]. rewrite (drop_S _ (drop (Z.to_nat poff) c)) by (by apply list_lookup_insert_eq).
    by rewrite drop_insert_lt by lia. }
  rewrite (proj2 (Z.eqb_neq cop 0)) by lia. rewrite Hp1.
  destruct (frag6_pieces_spec (drop (Z.to_nat poff) c :: drop (S i) (pk_chunks p)) i cop ans) as
    (pieces & j & n & c' & k & Hrun & Hk & Hpc & Hj & Hn & Hd & H0); [lia|cbn [concat]; fold D; lia| |].
  { destruct Hans as [H1 H2]. apply Forall_cons in H1 as [_ H1]. split; [done|]. cbn [length] in H2. lia. }
  rewrite Hrun. cbn [mbind option_bind]. cbn [concat] in Hpc, Hd. fold D in Hpc, Hd.
  set (out := Pkt _ _ _). rewrite (u16_id (left - cop)), (u16_id (fo + cop)) by (unfold is_u16; lia).
  assert (Hlk : pk_chunks p1 !! (i + j)%nat = Some c').
  { rewrite <- lookup_drop, Hp1. done. }
  assert (Hdr : drop (S (i + j)) (pk_chunks p1) = drop (S j) (drop (Z.to_nat poff) c :: drop (S i) (pk_chunks p))).
  { rewrite <- Hp1, drop_drop. f_equal. lia. }
  assert (Hout : pk_octets out = frag6_header h last fo cop id ++ take (Z.to_nat cop) D).
  { unfold pk_octets, out. cbn [pk_chunks concat]. by rewrite Hpc. }
  assert (Hnext : forall outs, sends6 h id nfb (fo + cop) (drop (Z.to_nat cop) D) outs -> sends6 h id nfb fo D (out :: outs)).
  { intros outs Hs. cbn [sends6]. rewrite HD. fold last. fold cop. split; [intros ->; cbn in HD; lia|done]. }
  destruct (Z.leb_spec left nfb) as [Hlast|Hmore].
  - assert (cop = left) as Ecop by reflexivity.
    rewrite Ecop, Z.sub_diag. exists [out], (drop k ans), p1. split; [by destruct fuel|]. apply Hnext. rewrite Ecop. cbn.
    apply drop_ge. lia.
  - assert (cop = nfb) as Ecop by reflexivity.
    destruct (IH p1 (i + j)%nat n n c' (left - cop) (fo + cop) (drop k ans)) as (outs & ans' & p' & Hloop & Hs); try done; try lia.
    + destruct j as [|j]; [rewrite (H0 eq_refl) in Hn; lia|]. cbn [lookup list_lookup] in Hj.
      apply (proj1 (Forall_forall _ _) Hrest). by eapply list_elem_of_lookup_2.
    + rewrite Hdr. cbn [drop skipn]. by apply Forall_drop.
    + rewrite Hdr, Hd, length_drop. lia.
    + destruct Hans as [H1 H2]. apply Forall_cons in H1 as [_ H1]. split; [by apply Forall_drop|].
      rewrite length_drop. cbn [length] in H2. lia.
    + rewrite length_drop. cbn [length] in Hfuel. lia.
    + rewrite Hdr, Hd in Hs. rewrite Hloop. cbn [mbind option_bind]. exists (out :: outs), ans', p'. split; [done|]. by apply Hnext.
Qed.

(** ** Received *)

(** [g] is the packet [o], as it arrives somewhere. *)
Definition arrives_as (o : pkt) (g : piece6) : Prop :=
  pk_octets o = ip6_hdr_octets (g_hdr g) ++ pk_octets (pkt_of g) /\ ip6_hdr_ok (g_hdr g) /\ ip6_frag_hdr_ok (g_frag g).

Definition out_hdr (h : ip6_hdr) (cop : Z) : ip6_hdr :=
  h <| _nexth := IP6_NEXTH_FRAGMENT |> <| _plen := lwip_htons (u16 (cop + IP6_FRAG_HLEN)) |>.
Definition out_frag (h : ip6_hdr) (last : bool) (fo id : Z) : ip6_frag_hdr :=
  Ip6FragHdr (_nexth h) 0 (lwip_htons (fo + if last then 0 else 1)) (lwip_htonl id).

Lemma offset_word fo (last : bool) : fo mod 8 = 0 -> 0 <= fo < 65536 ->
  u16 (Z.lor (Z.land fo IP6_FRAG_OFFSET_MASK) (if last then 0 else IP6_FRAG_MORE_FLAG)) = fo + (if last then 0 else 1).
Proof.
  intros H8 Hr. pose proof (proj1 (start_field fo true H8 Hr)) as E. cbn iota in E. rewrite Z.add_0_r in E. rewrite E.
  destruct last; [rewrite Z.lor_0_r, Z.add_0_r; by apply u16_id|].
  replace fo with (fo / 8 * 2 ^ 3) at 1 by (change (2 ^ 3) with 8; Z.div_mod_to_equations; lia).
  rewrite lor_shift_add by (unfold IP6_FRAG_MORE_FLAG; lia). replace (fo / 8 * 2 ^ 3) with fo by (change (2 ^ 3) with 8; Z.div_mod_to_equations; lia).
  apply u16_id. unfold is_u16, IP6_FRAG_MORE_FLAG. Z.div_mod_to_equations. lia.
Qed.

Lemma htonl_u32 x : is_u32 x -> is_u32 (lwip_htonl x).
Proof.
  intros Hx. destruct (u32_octets x Hx) as [E Ho]. rewrite E. rewrite lwip_htonl_octets by word_lia. word_lia.
Qed.

Lemma out_headers_ok h cop last fo id : ip6_hdr_ok h -> is_u32 id ->
  ip6_hdr_ok (out_hdr h cop) /\ ip6_frag_hdr_ok (out_frag h last fo id).
Proof.
  intros (Hv & Hp & Hn & Hh & Hs & Hd) Hid. split.
  - unfold ip6_hdr_ok, out_hdr. cbn. split_and!; try done; try apply lwip_htons_u16; try apply Hs; apply Hd.
  - unfold ip6_frag_hdr_ok, out_frag. cbn. split_and!; try done; try apply Hn; [apply lwip_htons_u16..|]; by apply htonl_u32.
Qed.

Lemma arrives_fields o g h last fo cop id d : ip6_hdr_ok h -> is_u32 id -> fo mod 8 = 0 -> 0 <= fo < 65536 ->
  arrives_as o g -> pk_octets o = frag6_header h last fo cop id ++ d ->
  g_hdr g = out_hdr h cop /\ g_frag g = out_frag h last fo id /\ g_octets g = d.
Proof.
  intros Hh Hid H8 Hfo (Ho & Hg & Hf) E. destruct (out_headers_ok h cop last fo id Hh Hid) as [Hoh Hof].
  unfold frag6_header in E. rewrite offset_word in E by done. fold (out_hdr h cop) in E. fold (out_frag h last fo id) in E.
  rewrite E, <- app_assoc in Ho. assert (Hlen : length (ip6_hdr_octets (out_hdr h cop)) = length (ip6_hdr_octets (g_hdr g))).
  { by rewrite !ip6_hdr_octets_length. }
  destruct (app_inj_1 _ _ _ _ Hlen Ho) as [E1 E2].
  assert (Eg : g_hdr g = out_hdr h cop).
  { rewrite <- (ip6_hdr_of_octets (g_hdr g) []), <- E1 by done. by apply ip6_hdr_of_octets. }
  assert (Ep : pk_octets (pkt_of g) = ip6_frag_hdr_octets (g_frag g) ++ g_octets g).
  { unfold pk_octets, pkt_of, g_octets. cbn [pk_chunks concat]. by rewrite <- app_assoc. }
  rewrite Ep in E2. assert (Hlf : length (ip6_frag_hdr_octets (out_frag h last fo id)) = length (ip6_frag_hdr_octets (g_frag g))) by reflexivity.
  destruct (app_inj_1 _ _ _ _ Hlf E2) as [E3 E4]. split; [done|]. split; [|done].
  rewrite <- (ip6_frag_hdr_of_octets (g_frag g) []), <- E3 by done. by apply ip6_frag_hdr_of_octets.
Qed.

Lemma sends6_in_order h id nfb outs : forall fo D gs,
  ip6_hdr_ok h -> is_u32 id -> 0 < nfb -> nfb mod 8 = 0 -> fo mod 8 = 0 -> 0 <= fo -> fo + Z.of_nat (length D) <= 65535 - 8 -> D <> [] ->
  sends6 h id nfb fo D outs -> Forall2 arrives_as outs gs ->
  in_order (lwip_htonl id) fo gs /\ concat (map g_octets gs) = D /\
  match gs with g :: _ => exists cop, g_hdr g = out_hdr h cop /\ fh_nexth (g_frag g) = _nexth h | [] => False end.
Proof.
  induction outs as [|o outs IH]; intros fo D gs Hh Hid Hnfb Hn8 H8 Hfo Hlen Hne Hs Ha; [by cbn in Hs|].
  cbn [sends6] in Hs. destruct Hs as (_ & Ho & Hs). apply Forall2_cons_inv_l in Ha as (g & gs' & Hg & Hgs & ->).
  set (last := Z.of_nat (length D) <=? nfb) in *. set (cop := if last then Z.of_nat (length D) else nfb) in *.
  assert (HD : 0 < Z.of_nat (length D)) by (destruct D; [done|cbn [length]; lia]).
  assert (Hcop : 0 < cop <= Z.of_nat (length D)).
  { unfold cop, last. destruct (Z.leb_spec (Z.of_nat (length D)) nfb); lia. }
  destruct (arrives_fields o g h last fo cop id _ Hh Hid H8 ltac:(lia) Hg Ho) as (E1 & E2 & E3).
  destruct (out_headers_ok h cop last fo id Hh Hid) as [Hoh Hof].
  assert (Hgl : g_len g = cop) by (unfold g_len; rewrite E3, length_take; lia).
  assert (Hp : piece_at (lwip_htonl id) fo last g).
  { unfold piece_at. rewrite E1, E2, Hgl. split_and!; try done; try lia.
    - change (_plen (out_hdr h cop)) with (lwip_htons (u16 (cop + 8))).
      rewrite (u16_id (cop + 8)) by (unfold is_u16; lia). apply lwip_htons_invol. unfold is_u16. lia.
    - unfold out_frag. cbn [_fragment_offset]. apply lwip_htons_invol. unfold is_u16. destruct last; lia. }
  assert (Hhead : exists cop, g_hdr g = out_hdr h cop /\ fh_nexth (g_frag g) = _nexth h).
  { exists cop. split; [done|]. by rewrite E2. }
  destruct (Z.leb_spec (Z.of_nat (length D)) nfb) as [Hl|Hl].
  - assert (Elast : last = true) by reflexivity. assert (Ecop : cop = Z.of_nat (length D)) by reflexivity.
    rewrite drop_ge in Hs by lia. destruct outs as [|o' outs]; [|by destruct Hs].
    apply Forall2_nil_inv_l in Hgs as ->. split; [|split; [|done]].
    + cbn [in_order]. rewrite Hgl. rewrite Elast in Hp. split_and!; try done; lia.
    + cbn [map concat]. rewrite app_nil_r, E3. apply take_ge. lia.
  - assert (Elast : last = false) by reflexivity. assert (Ecop : cop = nfb) by reflexivity.
    assert (Hne' : drop (Z.to_nat cop) D <> []).
    { intros E. apply (f_equal length) in E. rewrite length_drop in E. cbn in E. lia. }
    destruct (IH (fo + cop) (drop (Z.to_nat cop) D) gs') as (I1 & I2 & I3); try done; try lia.
    { rewrite Ecop. Z.div_mod_to_equations. lia. }
    { rewrite length_drop. lia. }
    split; [|split; [|done]].
    + destruct gs' as [|g' gs']; [done|]. change (fo mod 8 = 0 /\ 0 <= fo /\ fo + g_len g <= 65535 /\
        piece_at (lwip_htonl id) fo false g /\ in_order (lwip_htonl id) (fo + g_len g) (g' :: gs')).
      rewrite Hgl. rewrite Elast in Hp. split_and!; try done; lia.
    + cbn [map concat]. rewrite E3, I2. apply take_drop.
Qed.

Lemma sends6_sizes h id nfb outs : forall fo D, ip6_hdr_ok h -> is_u32 id -> 0 < nfb -> nfb + 48 <= 65535 -> fo mod 8 = 0 -> nfb mod 8 = 0 ->
  0 <= fo -> fo + Z.of_nat (length D) <= 65535 ->
  sends6 h id nfb fo D outs -> Forall (fun o => pk_tot_len o <= nfb + 48) outs.
Proof.
  induction outs as [|o outs IH]; intros fo D Hh Hid Hn Hmax H8 Hn8 Hfo Hlen Hs; [done|]. cbn [sends6] in Hs. destruct Hs as (Hne & Ho & Hs).
  set (last := Z.of_nat (length D) <=? nfb) in *. set (cop := if last then Z.of_nat (length D) else nfb) in *.
  assert (HD : 0 < Z.of_nat (length D)) by (destruct D; [done|cbn [length]; lia]).
  assert (Hcop : 0 < cop <= Z.of_nat (length D) /\ cop <= nfb /\ (cop = nfb \/ cop = Z.of_nat (length D))).
  { unfold cop, last. destruct (Z.leb_spec (Z.of_nat (length D)) nfb); lia. }
  destruct (out_headers_ok h cop last fo id Hh Hid) as [Hoh Hof]. constructor.
  - unfold pk_tot_len. rewrite Ho. unfold frag6_header. rewrite offset_word by (try done; lia).
    fold (out_hdr h cop). fold (out_frag h last fo id). rewrite !length_app, ip6_hdr_octets_length, length_take by done.
    change (length (ip6_frag_hdr_octets _)) with 8%nat. rewrite u16_id by (unfold is_u16; lia). lia.
  - destruct outs as [|o' outs]; [done|]. apply (IH (fo + cop) (drop (Z.to_nat cop) D)); try done; try lia.
    + destruct Hcop as (_ & _ & [E|E]); [rewrite E; Z.div_mod_to_equations; lia|].
      rewrite drop_ge in Hs by lia. by destruct Hs.
    + rewrite length_drop. lia.
Qed.

Lemma frag6_nfb_spec mtu : 56 <= mtu <= 65535 ->
  0 < frag6_nfb mtu /\ frag6_nfb mtu mod 8 = 0 /\ frag6_nfb mtu + 48 <= mtu /\ mtu < frag6_nfb mtu + 56.
Proof.
  intros Hm. unfold frag6_nfb. rewrite (u16_id mtu) by (unfold is_u16; lia). unfold IP6_HLEN, IP6_FRAG_HLEN.
  change IP6_FRAG_OFFSET_MASK with (Z.shiftl (Z.ones 13) 3). set (x := mtu - (40 + 8)).
  assert (E : Z.land x (Z.shiftl (Z.ones 13) 3) = x / 8 * 8).
  { replace (Z.land x (Z.shiftl (Z.ones 13) 3)) with (Z.shiftl (Z.land (Z.shiftr x 3) (Z.ones 13)) 3).
    - rewrite Z.land_ones, Z.shiftl_mul_pow2, Z.shiftr_div_pow2 by lia. change (2 ^ 3) with 8. change (2 ^ 13) with 8192.
      rewrite (Z.mod_small (x / 8)); [done|]. unfold x. Z.div_mod_to_equations. lia.
    - apply Z.bits_inj'. intros n Hn. rewrite Z.land_spec. destruct (Z.lt_ge_cases n 3).
      + by rewrite !Z.shiftl_spec_low, andb_false_r by lia.
      + rewrite !Z.shiftl_spec, Z.land_spec, Z.shiftr_spec by lia. by replace (n - 3 + 3) with n by lia. }
  rewrite E. rewrite u16_id by (unfold is_u16, x; Z.div_mod_to_equations; lia). unfold x. Z.div_mod_to_equations. lia.
Qed.

(** ** Properties *)



(** With an MTU from 48 to 55 a fragment has no room for data, and the loop makes no
    progress: as long as there is memory it sends empty fragments. *)
Lemma frag6_no_progress h id p c left : pk_chunks p !! 0%nat = Some c -> 40 <= Z.of_nat (length c) -> 0 < left < 65536 ->
  forall n fuel fo, (n < fuel)%nat -> 0 <= fo < 65536 ->
  exists outs, frag6_loop fuel h id 0 p 0 0 0 left fo (repeat true n) = Some (ERR_MEM, outs, [], p) /\
    length outs = n /\ Forall (fun o => pk_octets o = frag6_header h false fo 0 id) outs.
Proof.
  intros Hc Hl Hleft. induction n as [|n IH]; intros fuel fo Hf Hfo; (destruct fuel as [|fuel]; [lia|]); cbn [frag6_loop repeat next_answer negb].
  - rewrite (proj2 (Z.eqb_neq left 0)) by lia. by exists [].
  - rewrite (proj2 (Z.eqb_neq left 0)), (proj2 (Z.leb_gt left 0)) by lia. rewrite Hc. cbn [mbind option_bind].
    rewrite (proj2 (Z.leb_le _ _)) by (unfold IP6_HLEN; lia). unfold pbuf_advance. rewrite Hc. cbn [mbind option_bind].
    rewrite (proj2 (Z.leb_le 0 _)) by lia. change (0 =? 0) with true. cbn [mbind option_bind].
    assert (Pkt (pk_room p ++ take (Z.to_nat 0) c) (<[0%nat := drop (Z.to_nat 0) c]> (pk_chunks p)) (pk_contig p) = p) as ->.
    { change (Z.to_nat 0) with 0%nat. rewrite take_0, drop_0, app_nil_r, list_insert_id by done. by destruct p. }
    rewrite Z.sub_0_r, Z.add_0_r, (u16_id left), (u16_id fo) by (unfold is_u16; lia).
    destruct (IH fuel fo ltac:(lia) Hfo) as (outs & -> & Hlen & Hall). cbn [mbind option_bind].
    eexists. split; [reflexivity|]. cbn [length]. split; [by rewrite Hlen|]. constructor; [|done].
    apply app_nil_r.
Qed.

(** C39: the boundary of the MTU for [ip6_frag]: with 48 to 55 octets there is no
    progress; a packet whose first pbuf has the IPv6 header and at least 40 octets of
    payload behind it makes it send one empty fragment for every buffer the allocator
    has, and fail when there are none left. *)
Theorem ip6_frag_small_mtu p h c0 r mtu id n :
  pk_chunks p = (ip6_hdr_octets h ++ c0) :: r -> ip6_hdr_ok h -> 48 <= mtu <= 55 ->
  0 < Z.of_nat (length (c0 ++ concat r)) <= 65535 - 40 -> 40 <= Z.of_nat (length c0) ->
  exists outs p', frag6_packets p mtu id (repeat true n) = Some (ERR_MEM, outs, [], p') /\
    length outs = n /\ Forall (fun o => pk_octets o = frag6_header h false 0 0 id) outs.
Proof.
  intros Hp Hh Hm Hlen Hc0. pose proof (ip6_hdr_octets_length h Hh) as H40.
  assert (Hnfb : frag6_nfb mtu = 0).
  { assert (Hx : forall k, (k < 8)%nat -> frag6_nfb (48 + Z.of_nat k) = 0) by (intros k Hk; do 8 (destruct k as [|k]; [done|]); lia).
    replace mtu with (48 + Z.of_nat (Z.to_nat (mtu - 48))) by lia. apply Hx. lia. }
  unfold frag6_packets. rewrite Hp. cbn [hd]. rewrite ip6_hdr_of_octets by done.
  assert (Htot : pk_tot_len p = 40 + Z.of_nat (length (c0 ++ concat r))).
  { unfold pk_tot_len, pk_octets. rewrite Hp. cbn [concat]. rewrite <- app_assoc, length_app, H40. rewrite u16_id by (unfold is_u16; lia). lia. }
  rewrite Htot, Hnfb. unfold IP6_HLEN. rewrite (proj2 (Z.leb_le _ _)) by lia.
  set (left := Z.of_nat _) in *. replace (40 + left - 40) with left by lia. rewrite (u16_id left) by (unfold is_u16; lia).
  rewrite repeat_length. cbn [frag6_loop]. rewrite (proj2 (Z.eqb_neq left 0)), (proj2 (Z.leb_gt left 0)) by lia.
  destruct n as [|n]; cbn [repeat next_answer negb]; [by exists [], p|].
  rewrite Hp. change ((?x :: _) !! 0%nat) with (Some x). cbn [mbind option_bind].
  rewrite (proj2 (Z.leb_le _ _)) by (unfold IP6_HLEN; rewrite length_app; lia).
  unfold pbuf_advance. rewrite Hp. change ((?x :: _) !! 0%nat) with (Some x). cbn [mbind option_bind].
  rewrite (proj2 (Z.leb_le 40 _)) by (rewrite length_app; lia). change (0 =? 0) with true. cbn [mbind option_bind].
  change (Z.to_nat 40) with 40%nat. rewrite (drop_app_length' _ _ 40), (take_app_length' _ _ 40) by done.
  rewrite Z.sub_0_r, (u16_id left) by (unfold is_u16; lia). change (u16 (0 + 0)) with 0.
  set (p1 := Pkt (pk_room p ++ _) _ _).
  destruct (frag6_no_progress h id p1 c0 left ltac:(done) ltac:(lia) ltac:(unfold left; lia) n (S n) 0 ltac:(lia) ltac:(lia))
    as (outs & -> & Hl & Hall).
  cbn [mbind option_bind]. eexists _, p1. split; [reflexivity|]. cbn [length]. split; [by rewrite Hl|]. constructor; [|done].
  apply app_nil_r.
Qed.

(** A short pbuf where a fragment ends: the assertion about the first pbuf of the packet
    is made about the pbuf the loop has come to. *)
Example ip6_frag_short_pbuf :
  let h := ip6_header frag_src frag_dest 64 0 IP6_NEXTH_UDP 150 in
  frag6_packets (Pkt [] [ip6_hdr_octets h ++ repeat 1 40; repeat 2 30; repeat 3 80] true) 100 7 (repeat true 20) = None.
Proof. by vm_compute. Qed.

Lemma ip6_frag_small_mtu_witness :
  let h := ip6_header frag_src frag_dest 64 0 IP6_NEXTH_UDP 50 in
  exists outs p', frag6_packets (Pkt [] [ip6_hdr_octets h ++ repeat 1 50] true) 50 7 (repeat true 9) = Some (ERR_MEM, outs, [], p') /\
    length outs = 9%nat /\ Forall (fun o => pk_octets o = frag6_header h false 0 0 7) outs.
Proof.
  apply (ip6_frag_small_mtu (Pkt [] [ip6_hdr_octets (ip6_header frag_src frag_dest 64 0 IP6_NEXTH_UDP 50) ++ repeat 1 50] true)
    (ip6_header frag_src frag_dest 64 0 IP6_NEXTH_UDP 50) (repeat 1 50) [] 50 7 9); [done| |lia|by vm_compute|by vm_compute].
  unfold ip6_hdr_ok, words_ok. split_and!; try done; decide_now.
Defined.
