(* ===== verification/Ip4.v ===== *)
(** * IPv4 output (core/c/core/ipv4/ip4.c)

    [ip4_output], [ip4_output_if], [ip4_output_if_src] build the header in front
    of the payload, with the header checksum summed up field by field, and pass
    the packet to loopback, to fragmentation or to the driver.  With
    [TUN2SOCKS] every packet goes to the first interface.  A source that is
    [NULL], and the destination [LWIP_IP_HDRINCL] (also [NULL]: the packet
    has its header already), are [None]. *)

From S2P Require Import Prelude Err Def IpAddr NetifDefs Chksum Pbuf Packet IpHdr Ip4Frag Net.

Section output.
Context `{driver : netif_driver}.

Definition netif_output (n : netif) (p : pkt) (dest : Z) (s : net) : net * Z :=
  (log [Netif_output n p dest] s, driver_output n p dest).

(** The end of [ip4_output_if_src], common to both kinds of packet. *)
Definition ip4_transmit (p : pkt) (dest : Z) (n : netif) (s : net) : option (net * Z) :=
  if ip4_addr_cmp dest (netif_ip4_addr n) then netif_loop_output n p s
  else if negb (nif_mtu n =? 0) && (nif_mtu n <? pk_tot_len p) then
    let answers := map (fun a : option (nat -> Z) => if a then true else false) (net_malloc s) in
    '(err, outs, rest) ← ip4_frag p (nif_mtu n) answers;
    let s := s <| net_malloc := drop (length answers - length rest) (net_malloc s) |> in
    Some (log (map (fun q => Netif_output n q dest) outs) s, err)
  else Some (netif_output n p dest s).

(** [chk_sum += ...] *)
Definition chk (chk_sum x : Z) : Z := u32 (chk_sum + x).

(** The checksum computed along with the header ([CHECKSUM_GEN_IP_INLINE]). *)
Definition inline_chksum (ttl proto tos _v_hl len id dest src : Z) : Z :=
  let chk_sum := chk 0 (lwip_htons (u16 (Z.lor proto (Z.shiftl ttl 8)))) in
  let chk_sum := chk chk_sum (Z.land dest 65535) in
  let chk_sum := chk chk_sum (Z.shiftr dest 16) in
  let chk_sum := chk chk_sum (lwip_htons (u16 (Z.lor tos (Z.shiftl _v_hl 8)))) in
  let chk_sum := chk chk_sum len in
  let chk_sum := chk chk_sum id in
  let chk_sum := chk chk_sum (Z.land src 65535) in
  let chk_sum := chk chk_sum (Z.shiftr src 16) in
  let chk_sum := u32 (Z.shiftr chk_sum 16 + Z.land chk_sum 65535) in
  let chk_sum := u32 (Z.shiftr chk_sum 16 + chk_sum) in
  u16 (Z.lnot chk_sum).

(** The header [ip4_output_if_src] writes. *)
Definition ip4_header (src dest ttl tos proto tot_len id : Z) : ip_hdr :=
  let _v_hl := IPH_VHL 4 (IP_HLEN / 4) in
  let len := lwip_htons tot_len in
  let id := lwip_htons id in
  IpHdr _v_hl tos len id 0 ttl proto
    (inline_chksum ttl proto tos _v_hl len id dest src) src dest.

(** The result is the state, the packet as the caller finds it afterwards, and
    the error code. *)
Definition ip4_output_if_src (p : pkt) (src dest : option Z) (ttl tos proto : Z) (n : netif)
    (s : net) : option (net * pkt * Z) :=
  match dest with
  | Some dest =>
      match pk_add_header IP_HLEN p with
      | None => Some (s, p, ERR_BUF)
      | Some p =>
          lwip_assert (IP_HLEN <=? pk_len p);
          let src := default IPADDR_ANY src in
          let iphdr := ip4_header src dest ttl tos proto (pk_tot_len p) (ip_id s) in
          p ← pk_write 0 (ip_hdr_octets iphdr) p;
          let s := s <| ip_id := u16 (ip_id s + 1) |> in
          '(s, err) ← ip4_transmit p dest n s;
          Some (s, p, err)
      end
  | None =>
      if pk_len p <? IP_HLEN then Some (s, p, ERR_BUF)
      else
        '(s, err) ← ip4_transmit p (iph_dest (ip_hdr_of (hd [] (pk_chunks p)))) n s;
        Some (s, p, err)
  end.

(** [ip4_addr_isany]: the null pointer counts as "any". *)
Definition ip4_addr_isany (a : option Z) : bool :=
  match a with None => true | Some a => a =? IPADDR_ANY end.

Definition ip4_output_if (p : pkt) (src dest : option Z) (ttl tos proto : Z) (n : netif)
    (s : net) : option (net * pkt * Z) :=
  let src_used :=
    match dest with
    | Some _ => if ip4_addr_isany src then Some (netif_ip4_addr n) else src
    | None => src
    end in
  ip4_output_if_src p src_used dest ttl tos proto n s.

Definition ip4_output (p : pkt) (src : option Z) (dest : Z) (ttl tos proto : Z) (s : net)
  : option (net * pkt * Z) :=
  match ip4_route_src (default IPADDR_ANY src) dest s with
  | None => Some (s, p, ERR_RTE)
  | Some n => ip4_output_if p src (Some dest) ttl tos proto n s
  end.

Context `{ip6 : ip6_layer}.

(** [ip_output_if_src], [ip_output_if] and [ip_output_if_hdrincl] of ip.h. *)
Definition ip_output_if_src (p : pkt) (src dest : ip_addr) (ttl tos proto : Z) (n : netif)
    (s : net) : option (net * pkt * Z) :=
  if IP_IS_V6_VAL dest
  then ip6_output_if_src p (ip_2_ip6 src) (Some (ip_2_ip6 dest)) ttl tos proto n s
  else ip4_output_if_src p (Some (ip_2_ip4 src)) (Some (ip_2_ip4 dest)) ttl tos proto n s.

Definition ip_output_if (p : pkt) (src dest : ip_addr) (ttl tos proto : Z) (n : netif)
    (s : net) : option (net * pkt * Z) :=
  if IP_IS_V6_VAL dest
  then ip6_output_if p (ip_2_ip6 src) (Some (ip_2_ip6 dest)) ttl tos proto n s
  else ip4_output_if p (Some (ip_2_ip4 src)) (Some (ip_2_ip4 dest)) ttl tos proto n s.

Definition ip_output_if_hdrincl (p : pkt) (src dest : ip_addr) (n : netif) (s : net)
  : option (net * pkt * Z) :=
  if IP_IS_V6_VAL dest then ip6_output_if p (ip_2_ip6 src) None 0 0 0 n s
  else ip4_output_if p (Some (ip_2_ip4 src)) None 0 0 0 n s.

End output.
