(* ===== verification/Icmp.v ===== *)
(** * ICMP (core/c/core/ipv4/icmp.c)

    Echo requests are answered in place when there is room in front of the packet
    for the headers of the link, in a copy otherwise; the checksum is adjusted
    for the changed type.  Error messages quote the header and eight octets of the
    packet they answer.

    The quote is copied from memory without regard to the length of the packet:
    [octets_behind] is what memory holds behind the first pbuf's octets. *)

From S2P Require Import Prelude Err Def IpAddr NetifDefs Ip4Addr Chksum Pbuf Packet IpHdr Ip4Frag Net Ip4.

Definition ICMP_ER : Z := 0.
Definition ICMP_DUR : Z := 3.
Definition ICMP_ECHO : Z := 8.
Definition ICMP_TE : Z := 11.
Definition ICMP_DUR_PROTO : Z := 2.
Definition ICMP_DUR_PORT : Z := 3.
Definition ICMP_TTL : Z := 64.
Definition ICMP_DEST_UNREACH_DATASIZE : Z := 8.
Definition ICMP_HLEN : Z := 8.                  (* sizeof(struct icmp_echo_hdr) *)

Record icmp_echo_hdr := IcmpEchoHdr {
  icmp_type : Z; icmp_code : Z; icmp_chksum : Z; icmp_id : Z; icmp_seqno : Z
}.

#[export] Instance eta_icmp_echo_hdr : EtaRecord icmp_echo_hdr := fun h =>
  IcmpEchoHdr (icmp_type h) (icmp_code h) (icmp_chksum h) (icmp_id h) (icmp_seqno h).

Definition icmp_hdr_octets (h : icmp_echo_hdr) : list Z :=
  [icmp_type h; icmp_code h] ++ st16 (icmp_chksum h) ++ st16 (icmp_id h) ++ st16 (icmp_seqno h).

(** Memory behind the octets of the first pbuf. *)
Class memory := octets_behind : pkt -> list Z.

Section icmp.
Context `{driver : netif_driver} `{mem : memory}.

(** [icmp_send_response]: [p] stays with the caller. *)
Definition icmp_send_response (p : pkt) (type code : Z) (s : net) : option net :=
  let '(q, s) := pbuf_alloc_ram PBUF_IP (ICMP_HLEN + IP_HLEN + ICMP_DEST_UNREACH_DATASIZE) s in
  match q with
  | None => Some s
  | Some q =>
      lwip_assert (ICMP_HLEN + IP_HLEN + ICMP_DEST_UNREACH_DATASIZE <=? pk_len q);
      let payload := hd [] (pk_chunks p) ++ octets_behind p in
      let iphdr := ip_hdr_of payload in
      let quote := take (Z.to_nat (IP_HLEN + ICMP_DEST_UNREACH_DATASIZE)) payload in
      lwip_assert (length quote =? 28)%nat;              (* outside of the memory block *)
      let iphdr_src := iph_src iphdr in
      let icmphdr := IcmpEchoHdr type code 0 0 0 in
      q ← pk_write 0 (icmp_hdr_octets icmphdr ++ quote) q;
      match ip4_route iphdr_src s with
      | Some n =>
          let chksum := inet_chksum false (hd [] (pk_chunks q)) in
          q ← pk_write 0 (icmp_hdr_octets (icmphdr <| icmp_chksum := chksum |>)) q;
          '(s, q, _) ← ip4_output_if q None (Some iphdr_src) ICMP_TTL 0 IP_PROTO_ICMP n s;
          Some (free_packet q s)
      | None => Some (free_packet q s)
      end
  end.

Definition icmp_dest_unreach (p : pkt) (t : Z) (s : net) : option net :=
  icmp_send_response p ICMP_DUR t s.

Definition icmp_time_exceeded (p : pkt) (t : Z) (s : net) : option net :=
  icmp_send_response p ICMP_TE t s.

(** Adjusting the checksum of an echo request for the type of the reply. *)
Definition echo_reply_chksum (chksum : Z) : Z :=
  if lwip_htons (u16 (65535 - Z.shiftl ICMP_ECHO 8)) <? chksum
  then u16 (chksum + lwip_htons (u16 (Z.shiftl ICMP_ECHO 8)) + 1)
  else u16 (chksum + lwip_htons (u16 (Z.shiftl ICMP_ECHO 8))).

(** A packet with room in front for the headers of the link: [p] itself or a
    copy.  [None] inside is the label [icmperr]. *)
Definition echo_make_room (p : pkt) (iphdr_in : list Z) (hlen : Z) (s : net)
  : option (net * option pkt) :=
  match pk_add_header (hlen + PBUF_LINK) p with
  | None =>
      let alloc_len := u16 (pk_tot_len p + hlen) in
      if alloc_len <? pk_tot_len p then Some (s, None)
      else
        let '(r, s) := pbuf_alloc_ram PBUF_LINK alloc_len s in
        match r with
        | None => Some (s, None)
        | Some r =>
            if pk_len r <? hlen + ICMP_HLEN then Some (free_packet r s, None)
            else
              r ← pk_write 0 iphdr_in r;
              r ← pk_remove_header hlen r;               (* "moving r->payload failed" *)
              r ← pk_copy r p;
              Some (free_packet p s, Some r)
        end
  | Some p =>
      p ← pk_remove_header (hlen + PBUF_LINK) p;         (* "restoring p->payload failed" *)
      Some (s, Some p)
  end.

(** The reply: the headers of [p] changed in place, and sent. *)
Definition echo_reply (p : pkt) (hlen src dest : Z) (inp : netif) (s : net)
  : option (net * pkt) :=
  match pk_add_header hlen p with
  | None => Some (s, p)
  | Some p =>
      let payload := hd [] (pk_chunks p) in
      let iecho := Z.to_nat hlen in
      lwip_assert (iecho + 4 <=? length payload)%nat;
      let iphdr := (ip_hdr_of payload) <| iph_src := src |> <| iph_dest := dest |> in
      let chksum := echo_reply_chksum (ld16 payload (iecho + 2)) in
      p ← pk_write iecho [ICMP_ER] p;
      p ← pk_write (iecho + 2) (st16 chksum) p;
      let iphdr := iphdr <| _ttl := ICMP_TTL |> <| _chksum := 0 |> in
      p ← pk_write 0 (ip_hdr_octets iphdr) p;
      let chksum := inet_chksum false (take iecho (hd [] (pk_chunks p))) in
      p ← pk_write 0 (ip_hdr_octets (iphdr <| _chksum := chksum |>)) p;
      '(s, p, _) ← ip4_output_if p (Some src) None ICMP_TTL 0 IP_PROTO_ICMP inp s;
      Some (s, p)
  end.

(** [icmp_input] gives up the packet on every path. *)
Definition icmp_input (p : pkt) (inp : netif) (s : net) : option net :=
  let g := ip_data s in
  iphdr_in ← current_ip4_header g;
  let hlen := IPH_HL_BYTES (ip_hdr_of iphdr_in) in
  if hlen <? IP_HLEN then Some (free_packet p s)
  else if pk_len p <? 4 then Some (free_packet p s)
  else
    let type := ld8 (hd [] (pk_chunks p)) 0 in
    if type =? ICMP_ECHO then
      let src := ip_2_ip4 (current_iphdr_dest g) in
      if ip4_addr_ismulticast src then Some (free_packet p s)
      else
        netif ← current_netif g;
        if ip4_addr_isbroadcast_u32 src netif then Some (free_packet p s)
        else if pk_tot_len p <? ICMP_HLEN then Some (free_packet p s)
        else
          '(s, r) ← echo_make_room p iphdr_in hlen s;
          match r with
          | None => Some (free_packet p s)
          | Some p =>
              '(s, p) ← echo_reply p hlen src (ip_2_ip4 (current_iphdr_src g)) inp s;
              Some (free_packet p s)
          end
    else Some (free_packet p s).

End icmp.
