(* ===== verification/Nd6.v ===== *)
(** * Neighbor discovery: messages and timer (core/c/core/ipv6/nd6.c)

    The messages that are sent, [nd6_input] for those that come in, [nd6_tmr], the
    next hop of a packet and the packets that wait for it.

    An interface given as a [netif] is the struct as it is at the call.  What
    [nd6_input] reads behind the end of a packet is [octets_behind]. *)

From S2P Require Import Prelude Err Def IpAddr NetifDefs Ip6Addr Chksum Pbuf Packet Ip6Hdr Icmp6Hdr Nd6Defs Net Nd6Cache Netif Ip6 Icmp.

(** [memp_malloc]: whether there is memory. *)
Definition memp_malloc_any (s : net) : bool * net :=
  match net_malloc s with
  | a :: r => (if a then true else false, s <| net_malloc := r |>)
  | [] => (false, s)
  end.

Section nd6.
Context `{driver : netif_driver6} `{mem : memory} `{users : address_users}.

(** ** Sending *)

(** The option with the hardware address of the interface behind a header of [hlen]
    octets; the octets of the option behind the address are not written. *)
Definition put_lladdr (hlen : nat) (type lladdr_opt_len : Z) (n : netif) (p : pkt) : option pkt :=
  p ← pk_write hlen [type; u8 lladdr_opt_len] p;
  lwip_assert (Z.to_nat (nif_hwaddr_len n) <=? length (nif_hwaddr n))%nat;
  pk_write (hlen + 2) (take (Z.to_nat (nif_hwaddr_len n)) (nif_hwaddr n)) p.

(** The checksum is stored and the message is sent. *)
Definition nd6_transmit (p : pkt) (src : option ip6_addr) (dest : ip6_addr) (n : netif) (s : net) : option (net * Z) :=
  let chksum := ip6_chksum_pseudo (pk_view p) IP6_NEXTH_ICMP6 (pk_len p)
                  (ip6_words (default ip6_addr_any src)) (ip6_words dest) in
  p ← pk_write 2 (st16 chksum) p;
  '(s, p, err) ← ip6_output_if p src (Some dest) ND6_HOPLIM 0 IP6_NEXTH_ICMP6 n s;
  Some (free_packet p s, err).

Definition solicited_node (target_addr : ip6_addr) (n : netif) : ip6_addr :=
  ip6_addr_assign_zone (ip6_addr_solicitednode (ip6_word target_addr 3)) IP6_MULTICAST (netif_get_index n).

Definition lladdr_len (n : netif) : Z :=
  Z.shiftr (nif_hwaddr_len n + 2) 3 + (if Z.land (nif_hwaddr_len n + 2) 7 =? 0 then 0 else 1).

(** The address of slot 0 if it is valid. *)
Definition first_valid (n : netif) : option ip6_addr :=
  match nif_ip6_addr_state n, nif_ip6_addr n with
  | st :: _, a :: _ => if ip6_addr_isvalid st then Some (ip_2_ip6 a) else None
  | _, _ => None
  end.

Definition nd6_send_ns (n : netif) (target_addr : ip6_addr) (flags : Z) (s : net) : option net :=
  let src := if flagset flags ND6_SEND_FLAG_ANY_SRC then None else first_valid n in
  let lladdr_opt_len := match src with Some _ => Z.shiftr (nif_hwaddr_len n + 2 + 7) 3 | None => 0 end in
  let '(p, s) := pbuf_alloc_ram PBUF_IP (NS_HLEN + Z.shiftl lladdr_opt_len 3) s in
  match p with
  | None => Some s
  | Some p =>
      p ← pk_write 0 ([ICMP6_TYPE_NS; 0] ++ st16 0 ++ st32 0 ++ words_octets (ip6_words target_addr)) p;
      p ← (if lladdr_opt_len =? 0 then Some p
           else put_lladdr 24 ND6_OPTION_TYPE_SOURCE_LLADDR lladdr_opt_len n p);
      let dest := if flagset flags ND6_SEND_FLAG_MULTICAST_DEST then solicited_node target_addr n else target_addr in
      '(s, _) ← nd6_transmit p src dest n s; Some s
  end.

Definition nd6_send_na (n : netif) (target_addr : ip6_addr) (flags : Z) (s : net) : option net :=
  let '(p, s) := pbuf_alloc_ram PBUF_IP (NA_HLEN + Z.shiftl (lladdr_len n) 3) s in
  match p with
  | None => Some s
  | Some p =>
      p ← pk_write 0 ([ICMP6_TYPE_NA; 0] ++ st16 0 ++ [Z.land flags 240; 0; 0; 0] ++ words_octets (ip6_words target_addr)) p;
      p ← put_lladdr 24 ND6_OPTION_TYPE_TARGET_LLADDR (lladdr_len n) n p;
      let dest :=
        if flagset flags ND6_SEND_FLAG_MULTICAST_DEST then solicited_node target_addr n
        else if flagset flags ND6_SEND_FLAG_ALLNODES_DEST
        then ip6_addr_assign_zone ip6_addr_allnodes_linklocal IP6_MULTICAST (netif_get_index n)
        else ip_2_ip6 (current_iphdr_src (ip_data s)) in
      '(s, _) ← nd6_transmit p (Some target_addr) dest n s; Some s
  end.

Definition nd6_send_rs (n : netif) (s : net) : option (net * Z) :=
  let src := first_valid n in
  let lladdr_opt_len := match src with Some _ => lladdr_len n | None => 0 end in
  let dest := ip6_addr_assign_zone ip6_addr_allrouters_linklocal IP6_MULTICAST (netif_get_index n) in
  let '(p, s) := pbuf_alloc_ram PBUF_IP (RS_HLEN + Z.shiftl lladdr_opt_len 3) s in
  match p with
  | None => Some (s, ERR_BUF)
  | Some p =>
      p ← pk_write 0 ([ICMP6_TYPE_RS; 0] ++ st16 0 ++ st32 0) p;
      p ← match src with
          | Some _ => put_lladdr 8 ND6_OPTION_TYPE_SOURCE_LLADDR lladdr_opt_len n p
          | None => Some p
          end;
      nd6_transmit p src dest n s
  end.

(** [nd6_send_neighbor_cache_probe] for entry [i]. *)
Definition nd6_send_neighbor_cache_probe (i : nat) (flags : Z) (s : net) : option net :=
  e ← neighbor_cache (nd6 s) !! i;
  ptr ← nc_netif e;
  n ← netif_at ptr s;
  nd6_send_ns n (nc_next_hop_address e) flags s.

(** [nd6_send_q]: the packets that waited for neighbor [i] go to the driver. *)
Fixpoint send_queued (n : netif) (q : list pkt) (s : net) : option net :=
  match q with
  | [] => Some s
  | p :: q =>
      lwip_assert (IP6_HLEN <=? pk_len p);
      let dest := ip6_addr_assign_zone (from_packed (ip6h_dest (ip6_hdr_of (hd [] (pk_chunks p))))) IP6_UNKNOWN (netif_get_index n) in
      send_queued n q (free_packet p (log [Netif_output_ip6 n p dest] s))
  end.

Definition nd6_send_q (i : nat) (s : net) : option net :=
  match neighbor_cache (nd6 s) !! i with
  | None => Some s
  | Some e =>
      match nc_q e with
      | [] => Some s
      | q =>
          ptr ← nc_netif e;
          n ← netif_at ptr s;
          s ← send_queued n q s;
          Some (set_neighbor i (fun e => e <| nc_q := [] |>) s)
      end
  end.

(** ** Addresses of the interface *)

(** The loop over slots 1 and 2 when the link-local address is a duplicate. *)
Fixpoint duplicate_others (ptr : Z) (idxs : list nat) (s : net) : option net :=
  match idxs with
  | [] => Some s
  | i :: idxs =>
      n ← netif_at ptr s;
      st ← nif_ip6_addr_state n !! i;
      s ← (if negb (ip6_addr_isinvalid st) && negb (netif_ip6_addr_isstatic n i)
           then netif_ip6_addr_set_state ptr i IP6_ADDR_DUPLICATED s else Some s);
      duplicate_others ptr idxs s
  end.

Definition nd6_duplicate_addr_detected (ptr : Z) (addr_idx : nat) (s : net) : option net :=
  s ← netif_ip6_addr_set_state ptr addr_idx IP6_ADDR_DUPLICATED s;
  if (addr_idx =? 0)%nat then duplicate_others ptr [1; 2]%nat s else Some s.

Definition set_valid_life (ptr : Z) (i : nat) (secs : Z) (s : net) : net :=
  netif_update ptr (fun n => n <| nif_ip6_addr_valid_life := <[i := secs]> (nif_ip6_addr_valid_life n) |>) s.
Definition set_pref_life (ptr : Z) (i : nat) (secs : Z) (s : net) : net :=
  netif_update ptr (fun n => n <| nif_ip6_addr_pref_life := <[i := secs]> (nif_ip6_addr_pref_life n) |>) s.

Definition valid_life (n : netif) (i : nat) : Z := nth i (nif_ip6_addr_valid_life n) 0.

(** The slot with an autoconfigured address of the prefix. *)
Definition autoconf_slot (prefix_addr : ip6_addr) (n : netif) : option nat :=
  i ← find_entry (fun '(i, (a, st)) => negb (ip6_addr_isinvalid st) && negb (netif_ip6_addr_isstatic n i)
                                       && ip6_addr_netcmp prefix_addr (ip_2_ip6 a)) (drop 1 (ip6_slots n));
  Some (S i).

(** Slot [i] has an address of the prefix: its lifetimes. *)
Definition autoconf_refresh (ptr : Z) (i : nat) (valid pref : Z) (s : net) : option net :=
  n ← netif_at ptr s;
  addr_state ← nif_ip6_addr_state n !! i;
  let remaining_life := valid_life n i in
  let s := if (ND6_2HRS <? valid) || (remaining_life <? valid) then set_valid_life ptr i valid s
           else if ND6_2HRS <? remaining_life then set_valid_life ptr i ND6_2HRS s else s in
  n ← netif_at ptr s;
  lwip_assert (negb (netif_ip6_addr_isstatic n i));
  s ← (if (0 <? pref) && (addr_state =? IP6_ADDR_DEPRECATED)
       then netif_ip6_addr_set_state ptr i IP6_ADDR_PREFERRED s else Some s);
  Some (set_pref_life ptr i pref s).

(** A new address of the prefix, with the interface identifier of slot 0. *)
Definition autoconf_new (ptr : Z) (valid pref : Z) (prefix_addr : ip6_addr) (s : net) : option net :=
  n ← netif_at ptr s;
  addr_state ← nif_ip6_addr_state n !! 0%nat;
  a0 ← nif_ip6_addr n !! 0%nat;
  if negb (nif_ip6_autoconfig_enabled n) || (valid =? IP6_ADDR_LIFE_STATIC) || ip6_addr_isinvalid addr_state
     || (addr_state =? IP6_ADDR_DUPLICATED)
  then Some s
  else
    let ip6addr := ip6_addr_assign_zone
                     (Ip6Addr [ip6_word prefix_addr 0; ip6_word prefix_addr 1; ip6_word (ip_2_ip6 a0) 2; ip6_word (ip_2_ip6 a0) 3] 0)
                     IP6_UNICAST (netif_get_index n) in
    if existsb (fun '(_, (a, st)) => negb (ip6_addr_isinvalid st) && ip6_addr_cmp ip6addr (ip_2_ip6 a)) (drop 1 (ip6_slots n))
    then Some s
    else
      match find_entry (fun '(_, (_, st)) => ip6_addr_isinvalid st) (drop 1 (ip6_slots n)) with
      | None => Some s
      | Some i =>
          let s := set_ip6_addr ptr (S i) (IpAddr ip6addr IPADDR_TYPE_V6) s in
          netif_ip6_addr_set_state ptr (S i) IP6_ADDR_TENTATIVE (set_pref_life ptr (S i) pref (set_valid_life ptr (S i) valid s))
      end.

(** [opt]: the octets of the prefix option. *)
Definition nd6_process_autoconfig_prefix (ptr : Z) (opt : list Z) (prefix_addr : ip6_addr) (s : net) : option net :=
  let valid := lwip_htonl (ld32 opt 4) in
  let pref := lwip_htonl (ld32 opt 8) in
  if (valid <? pref) || negb (ld8 opt 2 =? 64) then Some s
  else
    n ← netif_at ptr s;
    match autoconf_slot prefix_addr n with
    | Some i => autoconf_refresh ptr i valid pref s
    | None => autoconf_new ptr valid pref prefix_addr s
    end.

(** ** Routers *)

(** The loop of [nd6_new_router] from the last entry down: [inl]: the neighbor is
    there already; [inr]: the lowest free entry. *)
Fixpoint router_slot (k : nat) (idxs : list nat) (free_router_index : option nat) (s : net) : nat + option nat :=
  match idxs with
  | [] => inr free_router_index
  | i :: idxs =>
      match default_router_list (nd6 s) !! i with
      | Some r =>
          match dr_neighbor_entry r with
          | Some k' => if (k =? k')%nat then inl i else router_slot k idxs free_router_index s
          | None => router_slot k idxs (Some i) s
          end
      | None => router_slot k idxs free_router_index s
      end
  end.

(** The neighbor cache entry of a new router, which is probed if it is new. *)
Definition router_neighbor (router_addr : ip6_addr) (ptr : Z) (s : net) : option (option nat * net) :=
  match nd6_find_neighbor_cache_entry router_addr s with
  | Some k => Some (Some k, s)
  | None =>
      let '(k, s) := nd6_new_neighbor_cache_entry s in
      match k with
      | None => Some (None, s)
      | Some k =>
          let s := set_neighbor k (fun e => e <| nc_next_hop_address := router_addr |> <| nc_netif := Some ptr |>
                                             <| nc_q := [] |> <| nc_state := ND6_INCOMPLETE |> <| nc_counter := 1 |>) s in
          s ← nd6_send_neighbor_cache_probe k ND6_SEND_FLAG_MULTICAST_DEST s;
          Some (Some k, s)
      end
  end.

Definition nd6_new_router (router_addr : ip6_addr) (ptr : Z) (s : net) : option (option nat * net) :=
  '(k, s) ← router_neighbor router_addr ptr s;
  match k with
  | None => Some (None, s)
  | Some k =>
      let s := set_neighbor k (fun e => e <| nc_isrouter := true |>) s in
      match router_slot k [2; 1; 0]%nat None s with
      | inl i => Some (Some i, s)
      | inr (Some i) => Some (Some i, set_router i (fun r => r <| dr_neighbor_entry := Some k |>) s)
      | inr None => Some (None, set_neighbor k (fun e => e <| nc_isrouter := false |>) s)
      end
  end.

(** ** Input *)

(** [MEMCPY] of a hardware address into entry [i]. *)
Definition store_lladdr (n : netif) (src : list Z) (i : nat) (s : net) : option net :=
  lwip_assert (nif_hwaddr_len n <=? NETIF_MAX_HWADDR_LEN);
  let k := Z.to_nat (nif_hwaddr_len n) in
  lwip_assert (k <=? length src)%nat;
  Some (set_neighbor i (fun e => e <| nc_lladdr := take k src ++ drop k (nc_lladdr e) |>) s).

Definition to_delay (e : nd6_neighbor_cache_entry) : nd6_neighbor_cache_entry :=
  e <| nc_state := ND6_DELAY |> <| nc_counter := Z.quot LWIP_ND6_DELAY_FIRST_PROBE_TIME ND6_TMR_INTERVAL |>.

(** What memory holds from the message on. *)
Definition message_memory (p : pkt) : list Z := hd [] (pk_chunks p) ++ octets_behind p.

(** The hop limit of the current packet. *)
Definition current_hoplim (s : net) : Z := match current_ip6_header (ip_data s) with Some h => ld8 h 7 | None => 0 end.
Definition current_src (s : net) : ip6_addr := ip_2_ip6 (current_iphdr_src (ip_data s)).
Definition current_dest (s : net) : ip6_addr := ip_2_ip6 (current_iphdr_dest (ip_data s)).

(** The address in the message at offset [o], with the zone of the interface. *)
Definition address_at (m : list Z) (o : nat) (type : scope_type) (n : netif) : ip6_addr :=
  ip6_addr_assign_zone (from_packed (ld_words m o)) type (netif_get_index n).

(** Whether an option at [hlen] is there and inside of the first pbuf: its length octet
    is behind its first. *)
Definition option_fits (m : list Z) (len hlen : Z) : bool :=
  (hlen + 2 <=? len) && (hlen + Z.shiftl (ld8 m (Z.to_nat hlen + 1)) 3 <=? len).

(** The slot of [n] whose address is in conflict with an unsolicited advertisement. *)
Definition conflict_slot (target : ip6_addr) (n : netif) : option nat :=
  find_entry (fun '(_, (a, st)) => negb (ip6_addr_isinvalid st) && negb (st =? IP6_ADDR_DUPLICATED)
                                   && ip6_addr_cmp target (ip_2_ip6 a)) (ip6_slots n).

(** The cases of [nd6_input], up to the [pbuf_free] at every end of them. *)
Definition nd6_input_na (p : pkt) (ptr : Z) (s : net) : option net :=
  let m := message_memory p in
  n ← netif_at ptr s;
  if pk_len p <? NA_HLEN then Some s
  else
    let target := address_at m 8 IP6_UNICAST n in
    if negb (current_hoplim s =? ND6_HOPLIM) || negb (ld8 m 1 =? 0) || ip6_addr_ismulticast target then Some s
    else if ip6_addr_ismulticast (current_dest s) then
      match conflict_slot target n with
      | Some i => nd6_duplicate_addr_detected ptr i s
      | None =>
          if negb (option_fits m (pk_len p) NA_HLEN) then Some s
          else
            match nd6_find_neighbor_cache_entry target s with
            | Some i => if flagset (ld8 m 4) ND6_FLAG_OVERRIDE then store_lladdr n (drop 26 m) i s else Some s
            | None => Some s
            end
      end
    else
      match nd6_find_neighbor_cache_entry target s with
      | None => Some s
      | Some i =>
          e ← neighbor_cache (nd6 s) !! i;
          let update := flagset (ld8 m 4) ND6_FLAG_OVERRIDE || in_state ND6_INCOMPLETE e in
          if update && negb (option_fits m (pk_len p) NA_HLEN) then Some s
          else
            s ← (if update then store_lladdr n (drop 26 m) i s else Some s);
            let s := set_neighbor i (fun e => e <| nc_netif := Some ptr |> <| nc_state := ND6_REACHABLE |>
                                              <| nc_counter := reachable_time (nd6 s) |>) s in
            nd6_send_q i s
      end.

(** A solicitation from the unspecified address, slot by slot: somebody else wants
    to have the address. *)
Fixpoint answer_dad (ptr : Z) (target : ip6_addr) (idxs : list nat) (s : net) : option net :=
  match idxs with
  | [] => Some s
  | i :: idxs =>
      n ← netif_at ptr s;
      st ← nif_ip6_addr_state n !! i;
      a ← nif_ip6_addr n !! i;
      s ← (if negb (ip6_addr_isinvalid st) && ip6_addr_cmp target (ip_2_ip6 a) then
             s ← nd6_send_na n (ip_2_ip6 a) (Z.lor ND6_FLAG_OVERRIDE ND6_SEND_FLAG_ALLNODES_DEST) s;
             if ip6_addr_istentative st then nd6_duplicate_addr_detected ptr i s else Some s
           else Some s);
      answer_dad ptr target idxs s
  end.

(** Whether a solicitation is for an address of the interface. *)
Definition ns_accepted (target : ip6_addr) (any_src : bool) (n : netif) : bool :=
  existsb (fun '(a, st) => (ip6_addr_isvalid st || (ip6_addr_istentative st && any_src))
                           && ip6_addr_cmp target (ip_2_ip6 a))
    (combine (nif_ip6_addr n) (nif_ip6_addr_state n)).

(** The entry of the sender of a solicitation; [false]: the cache is full. *)
Definition learn_neighbor (n : netif) (lladdr : list Z) (s : net) : option (net * bool) :=
  match nd6_find_neighbor_cache_entry (current_src s) s with
  | Some i =>
      e ← neighbor_cache (nd6 s) !! i;
      if in_state ND6_INCOMPLETE e then
        s ← store_lladdr n lladdr i (set_neighbor i (fun e => e <| nc_netif := Some (nif_ptr n) |>) s);
        Some (set_neighbor i to_delay s, true)
      else Some (s, true)
  | None =>
      let '(i, s) := nd6_new_neighbor_cache_entry s in
      match i with
      | None => Some (s, false)
      | Some i =>
          s ← store_lladdr n lladdr i (set_neighbor i (fun e => e <| nc_netif := Some (nif_ptr n) |>) s);
          Some (set_neighbor i (fun e => to_delay (e <| nc_next_hop_address := current_src s |>)) s, true)
      end
  end.

Definition nd6_input_ns (p : pkt) (ptr : Z) (s : net) : option net :=
  let m := message_memory p in
  n ← netif_at ptr s;
  if pk_len p <? NS_HLEN then Some s
  else
    let target := address_at m 8 IP6_UNICAST n in
    if negb (current_hoplim s =? ND6_HOPLIM) || negb (ld8 m 1 =? 0) || ip6_addr_ismulticast target then Some s
    else
      let any_src := ip6_addr_isany (current_src s) in
      if negb (ns_accepted target any_src n) then Some s
      else if any_src then answer_dad ptr target [0; 1; 2]%nat s
      else if negb (option_fits m (pk_len p) NS_HLEN) then Some s
      else
        '(s, ok) ← learn_neighbor n (drop 26 m) s;
        if ok : bool then nd6_send_na n target (Z.lor ND6_FLAG_SOLICITED ND6_FLAG_OVERRIDE) s else Some s.

(** *** Router advertisements *)

(** One option, [o] its octets; [i] the entry of the router. *)
Definition ra_option (i : nat) (o : list Z) (ptr : Z) (s : net) : option net :=
  n ← netif_at ptr s;
  let type := ld8 o 0 in
  if type =? ND6_OPTION_TYPE_SOURCE_LLADDR then
    r ← default_router_list (nd6 s) !! i;
    match dr_neighbor_entry r with
    | None => Some s
    | Some k =>
        e ← neighbor_cache (nd6 s) !! k;
        if in_state ND6_INCOMPLETE e then
          s ← store_lladdr n (drop 2 o) k s;
          Some (set_neighbor k (fun e => e <| nc_state := ND6_REACHABLE |> <| nc_counter := reachable_time (nd6 s) |>) s)
        else Some s
    end
  else if type =? ND6_OPTION_TYPE_MTU then
    let mtu32 := lwip_htonl (ld32 o 4) in
    Some (if (1280 <=? mtu32) && (mtu32 <=? 65535)
          then netif_update ptr (fun n => n <| nif_mtu6 := (if nif_mtu n =? 0 then mtu32 else Z.min (nif_mtu n) mtu32) |>) s
          else s)
  else if type =? ND6_OPTION_TYPE_PREFIX_INFO then
    let prefix_addr := address_at o 16 IP6_UNICAST n in
    if ip6_addr_islinklocal prefix_addr then Some s
    else
      let valid := lwip_htonl (ld32 o 4) in
      let s :=
        if flagset (ld8 o 3) ND6_PREFIX_FLAG_ON_LINK && (ld8 o 2 =? 64) then
          let '(prefix, s) :=
            match nd6_get_onlink_prefix prefix_addr ptr s with
            | Some k => (Some k, s)
            | None => if 0 <? valid then nd6_new_onlink_prefix prefix_addr ptr s else (None, s)
            end in
          match prefix with
          | Some k => set_prefix k (fun e => e <| pl_invalidation_timer := valid |>) s
          | None => s
          end
        else s in
      if flagset (ld8 o 3) ND6_PREFIX_FLAG_AUTONOMOUS then nd6_process_autoconfig_prefix ptr o prefix_addr s
      else Some s
  else Some s.

(** The length an option must have at least. *)
Definition ra_option_min (type : Z) : Z :=
  if type =? ND6_OPTION_TYPE_SOURCE_LLADDR then LLADDR_OPTION_LEN
  else if type =? ND6_OPTION_TYPE_MTU then MTU_OPTION_LEN
  else if type =? ND6_OPTION_TYPE_PREFIX_INFO then PREFIX_OPTION_LEN
  else 0.

(** [while ((p->tot_len - offset) >= 2)], on what is left of the octets of the
    message; [single]: the message is in one pbuf.  An option that does not
    fit ends the loop. *)
Fixpoint ra_options (fuel : nat) (single : bool) (i : nat) (rest : list Z) (ptr : Z) (s : net) : option net :=
  if (length rest <? 2)%nat then Some s
  else
    match fuel with
    | O => None
    | S fuel =>
        let option_len8 := ld8 rest 1 in
        if option_len8 <=? 0 then Some s
        else
          let option_len := Z.shiftl option_len8 3 in
          if Z.of_nat (length rest) <? option_len then Some s
          else if negb single && (RA_BUFFER_LEN <? option_len) && negb (ld8 rest 0 =? ND6_OPTION_TYPE_RDNSS) then Some s
          else
            let copied := if negb single && (RA_BUFFER_LEN <? option_len) then RA_BUFFER_LEN else option_len in
            if copied <? ra_option_min (ld8 rest 0) then Some s
            else
              s ← ra_option i (take (Z.to_nat copied) rest) ptr s;
              ra_options fuel single i (drop (Z.to_nat (8 * option_len8)) rest) ptr s
    end.

(** [rs_count] when an advertisement comes in. *)
Definition ra_rs_count (ptr : Z) (s : net) : option net :=
  n ← netif_at ptr s;
  if nif_rs_count n <? LWIP_ND6_MAX_MULTICAST_SOLICIT
  then Some (netif_update ptr (fun n => n <| nif_rs_count := 0 |>) s)
  else
    '(s, err) ← nd6_send_rs n s;
    Some (netif_update ptr (fun n => n <| nif_rs_count := (if err =? ERR_OK then 0 else 1) |>) s).

Definition nd6_input_ra (p : pkt) (ptr : Z) (s : net) : option net :=
  let m := message_memory p in
  if pk_len p <? RA_HLEN then Some s
  else if negb (ip6_addr_islinklocal (current_src s)) || negb (current_hoplim s =? ND6_HOPLIM) || negb (ld8 m 1 =? 0)
  then Some s
  else
    s ← ra_rs_count ptr s;
    '(i, s) ← match nd6_get_router (current_src s) ptr s with
              | Some i => Some (Some i, s)
              | None => nd6_new_router (current_src s) ptr s
              end;
    match i with
    | None => Some s
    | Some i =>
        let s := set_router i (fun r => r <| dr_invalidation_timer := lwip_htons (ld16 m 6) |>) s in
        let s := if 0 <? ld32 m 12 then s <| nd6 := (nd6 s) <| retrans_timer := lwip_htonl (ld32 m 12) |> |> else s in
        let s := if 0 <? ld32 m 8 then s <| nd6 := (nd6 s) <| reachable_time := lwip_htonl (ld32 m 8) |> |> else s in
        let s := set_router i (fun r => r <| dr_flags := ld8 m 5 |>) s in
        let rest := drop (Z.to_nat RA_HLEN) (pk_octets p) in
        ra_options (length rest) (pk_len p =? pk_tot_len p) i rest ptr s
    end.

(** *** Redirects and Packet Too Big *)

(** The entry of the new next hop, when its hardware address is in the message. *)
Definition redirect_neighbor (n : netif) (target : ip6_addr) (lladdr : list Z) (s : net) : option net :=
  '(i, s) ← match nd6_find_neighbor_cache_entry target s with
            | Some i => Some (Some i, s)
            | None =>
                let '(i, s) := nd6_new_neighbor_cache_entry s in
                match i with
                | None => Some (None, s)
                | Some i =>
                    s ← store_lladdr n lladdr i (set_neighbor i (fun e => e <| nc_netif := Some (nif_ptr n) |>) s);
                    Some (Some i, set_neighbor i (fun e => to_delay (e <| nc_next_hop_address := target |>)) s)
                end
            end;
  match i with
  | None => Some s
  | Some i =>
      e ← neighbor_cache (nd6 s) !! i;
      if in_state ND6_INCOMPLETE e then s ← store_lladdr n lladdr i s; Some (set_neighbor i to_delay s) else Some s
  end.

Definition nd6_input_rd (p : pkt) (ptr : Z) (s : net) : option net :=
  let m := message_memory p in
  n ← netif_at ptr s;
  if pk_len p <? RD_HLEN then Some s
  else
    let destination := address_at m 24 IP6_UNICAST n in
    if negb (ip6_addr_islinklocal (current_src s)) || negb (current_hoplim s =? ND6_HOPLIM) || negb (ld8 m 1 =? 0)
       || ip6_addr_ismulticast destination
    then Some s
    else
      match nd6_find_destination_cache_entry destination s with
      | None => Some s
      | Some dest_idx =>
          let target := address_at m 8 IP6_UNICAST n in
          let s := set_destination dest_idx (fun e => e <| dc_next_hop_addr := target |>) s in
          if option_fits m (pk_len p) RD_HLEN && (ld8 m 40 =? ND6_OPTION_TYPE_TARGET_LLADDR)
          then redirect_neighbor n target (drop 42 m) s
          else Some s
      end.

Definition nd6_input_ptb (p : pkt) (ptr : Z) (s : net) : option net :=
  let m := message_memory p in
  n ← netif_at ptr s;
  if pk_len p <? ICMP6_HLEN + IP6_HLEN then Some s
  else
    match nd6_find_destination_cache_entry (address_at m 32 IP6_UNKNOWN n) s with
    | None => Some s
    | Some dest_idx =>
        Some (set_destination dest_idx (fun e => e <| dc_pmtu := Z.min (lwip_htonl (ld32 m 4)) 65535 |>) s)
    end.

(** [nd6_input] *)
Definition nd6_input (p : pkt) (inp : netif) (s : net) : option net :=
  let ptr := nif_ptr inp in
  msg_type ← message_memory p !! 0%nat;
  s ← (if msg_type =? ICMP6_TYPE_NA then nd6_input_na p ptr s
       else if msg_type =? ICMP6_TYPE_NS then nd6_input_ns p ptr s
       else if msg_type =? ICMP6_TYPE_RA then nd6_input_ra p ptr s
       else if msg_type =? ICMP6_TYPE_RD then nd6_input_rd p ptr s
       else if msg_type =? ICMP6_TYPE_PTB then nd6_input_ptb p ptr s
       else Some s);
  Some (free_packet p s).

(** ** Timer *)

(** The turn of the loop over the neighbors for entry [i]. *)
Definition tmr_neighbor (i : nat) (s : net) : option net :=
  e ← neighbor_cache (nd6 s) !! i;
  let probe flags :=
    if (LWIP_ND6_MAX_MULTICAST_SOLICIT <=? nc_counter e) && negb (nc_isrouter e)
    then Some (nd6_free_neighbor_cache_entry i s)
    else nd6_send_neighbor_cache_probe i flags (set_neighbor i (fun e => e <| nc_counter := u32 (nc_counter e + 1) |>) s) in
  match nc_state e with
  | ND6_INCOMPLETE => probe ND6_SEND_FLAG_MULTICAST_DEST
  | ND6_REACHABLE =>
      s ← nd6_send_q i s;
      Some (set_neighbor i (fun e =>
        if nc_counter e <=? ND6_TMR_INTERVAL then e <| nc_state := ND6_STALE |> <| nc_counter := 0 |>
        else e <| nc_counter := nc_counter e - ND6_TMR_INTERVAL |>) s)
  | ND6_STALE => Some (set_neighbor i (fun e => e <| nc_counter := u32 (nc_counter e + 1) |>) s)
  | ND6_DELAY =>
      Some (set_neighbor i (fun e =>
        if nc_counter e <=? 1 then e <| nc_state := ND6_PROBE |> <| nc_counter := 0 |>
        else e <| nc_counter := nc_counter e - 1 |>) s)
  | ND6_PROBE => probe 0
  | ND6_NO_ENTRY => Some s
  end.

Definition tmr_router (i : nat) (s : net) : option net :=
  r ← default_router_list (nd6 s) !! i;
  match dr_neighbor_entry r with
  | None => Some s
  | Some k =>
      if dr_invalidation_timer r <=? Z.quot ND6_TMR_INTERVAL 1000 then
        e ← neighbor_cache (nd6 s) !! k;
        let s := s <| nd6 := (nd6 s) <| destination_cache :=
                   map (fun d => if ip6_addr_cmp (dc_next_hop_addr d) (nc_next_hop_address e)
                                 then d <| dc_destination_addr := ip6_addr_any |> else d)
                     (destination_cache (nd6 s)) |> |> in
        let s := set_neighbor k (fun e => e <| nc_isrouter := false |>) s in
        Some (set_router i (fun _ => Router None 0 0) s)
      else Some (set_router i (fun r => r <| dr_invalidation_timer := dr_invalidation_timer r - Z.quot ND6_TMR_INTERVAL 1000 |>) s)
  end.

Definition tmr_prefix (e : nd6_prefix_list_entry) : nd6_prefix_list_entry :=
  match pl_netif e with
  | None => e
  | Some _ =>
      if pl_invalidation_timer e <=? Z.quot ND6_TMR_INTERVAL 1000
      then e <| pl_invalidation_timer := 0 |> <| pl_netif := None |>
      else e <| pl_invalidation_timer := pl_invalidation_timer e - Z.quot ND6_TMR_INTERVAL 1000 |>
  end.

(** The lifetimes of slot [i]. *)
Definition tmr_lifetimes (ptr : Z) (i : nat) (s : net) : option net :=
  n ← netif_at ptr s;
  addr_state ← nif_ip6_addr_state n !! i;
  if ip6_addr_isinvalid addr_state || netif_ip6_addr_isstatic n i then Some s
  else
    let life := valid_life n i in
    if life <=? Z.quot ND6_TMR_INTERVAL 1000 then
      netif_ip6_addr_set_state ptr i IP6_ADDR_INVALID (set_pref_life ptr i 0 (set_valid_life ptr i 0 s))
    else
      let s := if life =? IP6_ADDR_LIFE_INFINITE then s
               else set_valid_life ptr i (life - Z.quot ND6_TMR_INTERVAL 1000) s in
      let pref := nth i (nif_ip6_addr_pref_life n) 0 in
      if pref <=? Z.quot ND6_TMR_INTERVAL 1000 then
        let s := set_pref_life ptr i 0 s in
        if addr_state =? IP6_ADDR_PREFERRED then netif_ip6_addr_set_state ptr i IP6_ADDR_DEPRECATED s else Some s
      else if pref =? IP6_ADDR_LIFE_INFINITE then Some s
      else Some (set_pref_life ptr i (pref - Z.quot ND6_TMR_INTERVAL 1000) s).

(** Duplicate address detection for slot [i]. *)
Definition tmr_dad (ptr : Z) (i : nat) (s : net) : option net :=
  n ← netif_at ptr s;
  addr_state ← nif_ip6_addr_state n !! i;
  if negb (ip6_addr_istentative addr_state) then Some s
  else if LWIP_IPV6_DUP_DETECT_ATTEMPTS <=? Z.land addr_state IP6_ADDR_TENTATIVE_COUNT_MASK then
    let addr_state := if negb (netif_ip6_addr_isstatic n i) && (nth i (nif_ip6_addr_pref_life n) 0 =? 0)
                      then IP6_ADDR_DEPRECATED else IP6_ADDR_PREFERRED in
    netif_ip6_addr_set_state ptr i addr_state s
  else if netif_is_up n && netif_is_link_up n then
    s ← netif_ip6_addr_set_state ptr i (u8 (addr_state + 1)) s;
    n ← netif_at ptr s;
    a ← nif_ip6_addr n !! i;
    nd6_send_ns n (ip_2_ip6 a) (Z.lor ND6_SEND_FLAG_MULTICAST_DEST ND6_SEND_FLAG_ANY_SRC) s
  else Some s.

(** [f] for every element, from the first. *)
Fixpoint each {A} (f : A -> net -> option net) (l : list A) (s : net) : option net :=
  match l with
  | [] => Some s
  | a :: l => s ← f a s; each f l s
  end.

Definition tmr_netif (ptr : Z) (s : net) : option net :=
  each (fun i s => s ← tmr_lifetimes ptr i s; tmr_dad ptr i s) [0; 1; 2]%nat s.

(** Router solicitations. *)
Definition tmr_rs (ptr : Z) (s : net) : option net :=
  n ← netif_at ptr s;
  st ← nif_ip6_addr_state n !! 0%nat;
  if (0 <? nif_rs_count n) && netif_is_up n && netif_is_link_up n
     && negb (ip6_addr_isinvalid st) && negb (st =? IP6_ADDR_DUPLICATED)
  then
    '(s, err) ← nd6_send_rs n s;
    Some (if err =? ERR_OK then netif_update ptr (fun n => n <| nif_rs_count := nif_rs_count n - 1 |>) s else s)
  else Some s.

Definition nd6_tmr (s : net) : option net :=
  s ← each tmr_neighbor (seq 0 LWIP_ND6_NUM_NEIGHBORS) s;
  let s := s <| nd6 := (nd6 s) <| destination_cache :=
             map (fun d => d <| dc_age := u32 (dc_age d + 1) |>) (destination_cache (nd6 s)) |> |> in
  s ← each tmr_router (seq 0 LWIP_ND6_NUM_ROUTERS) s;
  let s := s <| nd6 := (nd6 s) <| prefix_list := map tmr_prefix (prefix_list (nd6 s)) |> |> in
  s ← each tmr_netif (map nif_ptr (netif_list s)) s;
  if nd6_tmr_rs_reduction (nd6 s) =? 0 then
    each tmr_rs (map nif_ptr (netif_list s))
      (s <| nd6 := (nd6 s) <| nd6_tmr_rs_reduction := Z.quot ND6_RTR_SOLICITATION_INTERVAL ND6_TMR_INTERVAL - 1 |> |>)
  else Some (s <| nd6 := (nd6 s) <| nd6_tmr_rs_reduction := nd6_tmr_rs_reduction (nd6 s) - 1 |> |>).

(** ** The next hop of a packet *)

(** The destination cache entry, [nd6_cached_destination_index] afterwards;
    [Some err]: no route. *)
Definition next_hop_destination (ip6addr : ip6_addr) (n : netif) (s : net) : option (net * option Z) :=
  c ← destination_cache (nd6 s) !! nd6_cached_destination_index (nd6 s);
  let use i s := s <| nd6 := (nd6 s) <| nd6_cached_destination_index := i |> |> in
  if ip6_addr_cmp ip6addr (dc_destination_addr c) then Some (s, None)
  else
    match nd6_find_destination_cache_entry ip6addr s with
    | Some i => Some (use i s, None)
    | None =>
        let i := nd6_new_destination_cache_entry s in
        let s := set_destination i (fun e => e <| dc_destination_addr := ip6addr |>) (use i s) in
        if ip6_addr_islinklocal ip6addr || nd6_is_prefix_in_netif ip6addr n s then
          Some (set_destination i (fun e => e <| dc_pmtu := nif_mtu6 n |> <| dc_next_hop_addr := ip6addr |>) s, None)
        else
          '(r, s) ← nd6_select_router (Some (nif_ptr n)) s;
          match r with
          | None => Some (set_destination i (fun e => e <| dc_destination_addr := ip6_addr_any |>) s, Some ERR_RTE)
          | Some r =>
              r ← default_router_list (nd6 s) !! r;
              k ← dr_neighbor_entry r;
              e ← neighbor_cache (nd6 s) !! k;
              Some (set_destination i (fun d => d <| dc_pmtu := nif_mtu6 n |>
                                                  <| dc_next_hop_addr := nc_next_hop_address e |>) s, None)
          end
    end.

(** [nd6_get_next_hop_entry]: [inl]: the index in the neighbor cache, [inr]: an
    error. *)
Definition nd6_get_next_hop_entry (ip6addr : ip6_addr) (n : netif) (s : net) : option (net * (nat + Z)) :=
  '(s, err) ← next_hop_destination ip6addr n s;
  match err with
  | Some err => Some (s, inr err)
  | None =>
      d ← destination_cache (nd6 s) !! nd6_cached_destination_index (nd6 s);
      m ← neighbor_cache (nd6 s) !! nd6_cached_neighbor_index (nd6 s);
      let use i s := s <| nd6 := (nd6 s) <| nd6_cached_neighbor_index := i |> |> in
      '(s, err) ←
        (if ip6_addr_cmp (dc_next_hop_addr d) (nc_next_hop_address m) then Some (s, None)
         else
           match nd6_find_neighbor_cache_entry (dc_next_hop_addr d) s with
           | Some i => Some (use i s, None)
           | None =>
               let '(i, s) := nd6_new_neighbor_cache_entry s in
               match i with
               | None => Some (s, Some ERR_MEM)
               | Some i =>
                   let s := set_neighbor i (fun e => e <| nc_next_hop_address := dc_next_hop_addr d |>
                              <| nc_isrouter := false |> <| nc_netif := Some (nif_ptr n) |>
                              <| nc_state := ND6_INCOMPLETE |> <| nc_counter := 1 |>) (use i s) in
                   s ← nd6_send_neighbor_cache_probe i ND6_SEND_FLAG_MULTICAST_DEST s;
                   Some (s, None)
               end
           end);
      match err with
      | Some err => Some (s, inr err)
      | None =>
          let s := set_destination (nd6_cached_destination_index (nd6 s)) (fun e => e <| dc_age := 0 |>) s in
          Some (s, inl (nd6_cached_neighbor_index (nd6 s)))
      end
  end.

(** [pbuf_clone(PBUF_LINK, PBUF_RAM, q)] *)
Definition clone_packet (q : pkt) (s : net) : option (option pkt * net) :=
  let '(r, s) := pbuf_alloc_ram PBUF_LINK (pk_tot_len q) s in
  match r with
  | None => Some (None, s)
  | Some r => r ← pk_copy r q; Some (Some r, s)
  end.

(** The oldest packet that waits for neighbor [i] is freed. *)
Definition drop_oldest (i : nat) (s : net) : net :=
  match neighbor_cache (nd6 s) !! i with
  | Some e =>
      match nc_q e with
      | r :: q => free_packet r (set_neighbor i (fun e => e <| nc_q := q |>) s)
      | [] => s
      end
  | None => s
  end.

Definition waiting (i : nat) (s : net) : list pkt :=
  match neighbor_cache (nd6 s) !! i with Some e => nc_q e | None => [] end.

(** [while ((p == NULL) && (neighbor_cache[neighbor_index].q != NULL))] *)
Fixpoint clone_making_room (fuel i : nat) (q : pkt) (s : net) : option (option pkt * net) :=
  '(p, s) ← clone_packet q s;
  match p with
  | Some p => Some (Some p, s)
  | None =>
      match waiting i s, fuel with
      | [], _ => Some (None, s)
      | _, O => None
      | _, S fuel => clone_making_room fuel i q (drop_oldest i s)
      end
  end.

(** [nd6_queue_packet]; [copy_needed]: some pbuf of the packet holds memory that can
    change ([PBUF_NEEDS_COPY]); otherwise the packet itself waits. *)
Definition nd6_queue_packet (i : nat) (q : pkt) (copy_needed : bool) (s : net) : option (net * Z) :=
  if (LWIP_ND6_NUM_NEIGHBORS <=? i)%nat then Some (s, ERR_ARG)
  else
    '(p, s) ← (if copy_needed then clone_making_room (length (waiting i s)) i q s else Some (Some q, s));
    match p with
    | None => Some (s, ERR_MEM)
    | Some p =>
        let '(ok, s) := memp_malloc_any s in
        let '(ok, s) := match ok, waiting i s with
                        | false, _ :: _ => memp_malloc_any (drop_oldest i s)
                        | _, _ => (ok, s)
                        end in
        if ok : bool then Some (set_neighbor i (fun e => e <| nc_q := nc_q e ++ [p] |>) s, ERR_OK)
        else Some (free_packet p s, ERR_MEM)
    end.

(** [nd6_get_next_hop_addr_or_queue]: the hardware address, [None] for NULL. *)
Definition nd6_get_next_hop_addr_or_queue (n : netif) (q : pkt) (copy_needed : bool) (ip6addr : ip6_addr) (s : net)
  : option (net * Z * option (list Z)) :=
  '(s, i) ← nd6_get_next_hop_entry ip6addr n s;
  match i with
  | inr err => Some (s, err, None)
  | inl i =>
      e ← neighbor_cache (nd6 s) !! i;
      let s := if in_state ND6_STALE e then set_neighbor i to_delay s else s in
      e ← neighbor_cache (nd6 s) !! i;
      if in_state ND6_REACHABLE e || in_state ND6_DELAY e || in_state ND6_PROBE e
      then Some (s, ERR_OK, Some (nc_lladdr e))
      else '(s, err) ← nd6_queue_packet i q copy_needed s; Some (s, err, None)
  end.

End nd6.
