(* ===== verification/Icmp6.v ===== *)
(** * ICMPv6 (core/c/core/ipv6/icmp6.c)

    Echo requests are answered in a copy; messages of neighbor discovery are handed
    on.  Error messages quote 48 octets from the payload of the packet on, without
    regard to its length: [octets_behind] is what memory holds behind the first
    pbuf's octets.  An error message for a packet that is being received goes to
    its source, on the interface it came in on. *)

From S2P Require Import Prelude Err Def IpAddr NetifDefs Ip6Addr Chksum Pbuf Packet Ip6Hdr Icmp6Hdr Nd6Defs Net Nd6Cache Netif Ip6 Icmp Nd6.

Section icmp6.
Context `{driver : netif_driver6} `{mem : memory} `{users : address_users}.

(** ** Error messages *)

Definition icmp6_send_response_with_addrs_and_netif (p : pkt) (code data type : Z)
    (reply_src reply_dest : ip6_addr) (n : netif) (s : net) : option net :=
  let '(q, s) := pbuf_alloc_ram PBUF_IP (ICMP6_HLEN + IP6_HLEN + LWIP_ICMP6_DATASIZE) s in
  match q with
  | None => Some s
  | Some q =>
      lwip_assert (ICMP6_HLEN + IP6_HLEN + LWIP_ICMP6_DATASIZE <=? pk_len q);
      let payload := hd [] (pk_chunks p) ++ octets_behind p in
      let quote := take (Z.to_nat (IP6_HLEN + LWIP_ICMP6_DATASIZE)) payload in
      lwip_assert (length quote =? 48)%nat;              (* outside of the memory block *)
      q ← pk_write 0 (icmp6_hdr_octets (Icmp6Hdr type code 0 (lwip_htonl data)) ++ quote) q;
      let chksum := ip6_chksum_pseudo (pk_view q) IP6_NEXTH_ICMP6 (pk_tot_len q)
                      (ip6_words reply_src) (ip6_words reply_dest) in
      q ← pk_write 2 (st16 chksum) q;
      '(s, q, _) ← ip6_output_if q (Some reply_src) (Some reply_dest) LWIP_ICMP6_HL 0 IP6_NEXTH_ICMP6 n s;
      Some (free_packet q s)
  end.

Definition icmp6_send_response (p : pkt) (code data type : Z) (s : net) : option net :=
  n ← current_netif (ip_data s);                         (* "not a direct response" *)
  let reply_dest := ip_2_ip6 (current_iphdr_src (ip_data s)) in
  match ip6_select_source_address n reply_dest with
  | None => Some s
  | Some reply_src =>
      icmp6_send_response_with_addrs_and_netif p code data type (ip_2_ip6 reply_src) reply_dest n s
  end.

Definition icmp6_send_response_with_addrs (p : pkt) (code data type : Z) (src_addr dest_addr : ip6_addr)
    (s : net) : option net :=
  let reply_dest := src_addr in
  let reply_src := dest_addr in
  match ip6_route reply_src reply_dest s with
  | None => Some s
  | Some n => icmp6_send_response_with_addrs_and_netif p code data type reply_src reply_dest n s
  end.

Definition icmp6_dest_unreach (p : pkt) (c : Z) (s : net) : option net :=
  icmp6_send_response p c 0 ICMP6_TYPE_DUR s.
Definition icmp6_packet_too_big (p : pkt) (mtu : Z) (s : net) : option net :=
  icmp6_send_response p 0 mtu ICMP6_TYPE_PTB s.
Definition icmp6_time_exceeded (p : pkt) (c : Z) (s : net) : option net :=
  icmp6_send_response p c 0 ICMP6_TYPE_TE s.
Definition icmp6_time_exceeded_with_addrs (p : pkt) (c : Z) (src_addr dest_addr : ip6_addr) (s : net)
  : option net :=
  icmp6_send_response_with_addrs p c 0 ICMP6_TYPE_TE src_addr dest_addr s.

(** [pointer]: its distance from [ip6_current_header()]. *)
Definition icmp6_param_problem (p : pkt) (c pointer : Z) (s : net) : option net :=
  icmp6_send_response p c (u32 pointer) ICMP6_TYPE_PP s.

(** ** Input *)

(** The case [ICMP6_TYPE_EREQ]. *)
Definition icmp6_echo (p : pkt) (inp : netif) (s : net) : option net :=
  let reply_src := ip_2_ip6 (current_iphdr_dest (ip_data s)) in
  let peer := ip_2_ip6 (current_iphdr_src (ip_data s)) in
  if ip6_addr_ismulticast reply_src then Some (free_packet p s)
  else
    let '(r, s) := pbuf_alloc_ram PBUF_IP (pk_tot_len p) s in
    match r with
    | None => Some (free_packet p s)
    | Some r =>
        r ← pk_copy r p;
        r ← pk_write 0 [ICMP6_TYPE_EREP] r;
        r ← pk_write 2 (st16 0) r;
        let chksum := ip6_chksum_pseudo (pk_view r) IP6_NEXTH_ICMP6 (pk_tot_len r) (ip6_words reply_src) (ip6_words peer) in
        r ← pk_write 2 (st16 chksum) r;
        '(s, r, _) ← ip6_output_if r (Some reply_src) (Some peer) LWIP_ICMP6_HL 0 IP6_NEXTH_ICMP6 inp s;
        Some (free_packet p (free_packet r s))
    end.

Definition for_nd6 (type : Z) : bool :=
  (type =? ICMP6_TYPE_NA) || (type =? ICMP6_TYPE_NS) || (type =? ICMP6_TYPE_RA)
  || (type =? ICMP6_TYPE_RD) || (type =? ICMP6_TYPE_PTB).

(** [icmp6_input] gives up the packet on every path. *)
Definition icmp6_input (p : pkt) (inp : netif) (s : net) : option net :=
  if pk_len p <? ICMP6_HLEN then Some (free_packet p s)
  else
    let type := ld8 (hd [] (pk_chunks p)) 0 in
    if for_nd6 type then nd6_input p inp s
    else if type =? ICMP6_TYPE_EREQ then icmp6_echo p inp s
    else Some (free_packet p s).

End icmp6.
