(* ===== verification/Ip4In.v ===== *)
(** * IPv4 input (core/c/core/ipv4/ip4.c, ip.c)

    [ip4_input] checks a packet and hands it to raw IP and to the protocol it
    carries.  With [TUN2SOCKS] every destination is accepted; fragments go
    through reassembly.  The protocols above are an interface
    ([upper_layers]) over a state of their own.  A header field read outside of
    the first pbuf is a read of memory the packet does not own: no result. *)

From S2P Require Import Prelude Err Def IpAddr NetifDefs Ip4Addr Chksum Pbuf Packet IpHdr Ip4Frag Ip6Frag Net Ip4 Icmp.

Inductive raw_input_state_t := RAW_INPUT_NONE | RAW_INPUT_EATEN | RAW_INPUT_DELIVERED.

(** What IP calls above it.  A packet that raw IP did not eat, and the packet of
    [udp_input] and [tcp_input], belongs to nobody else. *)
Class upper_layers (U : Type) := {
  raw_input : pkt -> netif -> net -> U -> option (net * U * raw_input_state_t);
  udp_input : pkt -> netif -> net -> U -> option (net * U);
  tcp_input : pkt -> netif -> net -> U -> option (net * U)
}.

Record stack (U : Type) := Stack { st_net : net; st_reass : reass; st_reass6 : reass6; st_upper : U }.
Arguments Stack {U} _ _ _ _.
Arguments st_net {U} _.
Arguments st_reass {U} _.
Arguments st_reass6 {U} _.
Arguments st_upper {U} _.

Section input.
Context `{driver : netif_driver} `{mem : memory} `{layers : upper_layers U}.

Definition ip4_input_accept (n : netif) : bool := true.

Definition with_net (f : net -> net) (s : stack U) : stack U :=
  Stack (f (st_net s)) (st_reass s) (st_reass6 s) (st_upper s).

(** [pbuf_free(p); return ERR_OK;] *)
Definition ip4_drop (p : pkt) (s : stack U) : option (stack U * Z) :=
  Some (with_net (free_packet p) s, ERR_OK).

(** The calls reassembly makes. *)
Definition reass_event (e : event) (s : net) : option net :=
  match e with
  | Free p => Some (free_packet p s)
  | Time_exceeded p code => icmp_time_exceeded p code s
  end.

Fixpoint reass_events_run (es : list event) (s : net) : option net :=
  match es with
  | [] => Some s
  | e :: es => s ← reass_event e s; reass_events_run es s
  end.

(** [ip4_reass] in place: the calls it makes are made. *)
Definition ip4_reass_call (p : pkt) (s : stack U) : option (stack U * option pkt) :=
  '(r, p) ← ip4_reass p ((st_reass s) <| reass_events := [] |>);
  n ← reass_events_run (reass_events r) (st_net s);
  Some (Stack n r (st_reass6 s) (st_upper s), p).

(** The [switch] over the protocol; [p] points to the payload. *)
Definition ip4_dispatch (p : pkt) (proto iphdr_hlen : Z) (raw_status : raw_input_state_t)
    (n inp : netif) (s : stack U) : option (stack U) :=
  if proto =? IP_PROTO_UDP then
    '(m, u) ← udp_input p inp (st_net s) (st_upper s); Some (Stack m (st_reass s) (st_reass6 s) u)
  else if proto =? IP_PROTO_TCP then
    '(m, u) ← tcp_input p inp (st_net s) (st_upper s); Some (Stack m (st_reass s) (st_reass6 s) u)
  else if proto =? IP_PROTO_ICMP then
    m ← icmp_input p inp (st_net s); Some (Stack m (st_reass s) (st_reass6 s) (st_upper s))
  else
    match raw_status with
    | RAW_INPUT_DELIVERED => Some (with_net (free_packet p) s)
    | _ =>
        let dest := ip_2_ip4 (current_iphdr_dest (ip_data (st_net s))) in
        if negb (ip4_addr_isbroadcast_u32 dest n) && negb (ip4_addr_ismulticast dest) then
          let p := default p (pk_header_force (s16 iphdr_hlen) p) in
          m ← icmp_dest_unreach p ICMP_DUR_PROTO (st_net s);
          Some (with_net (free_packet p) (Stack m (st_reass s) (st_reass6 s) (st_upper s)))
        else Some (with_net (free_packet p) s)
    end.

(** The end of [ip4_input]: the description of the packet is forgotten. *)
Definition ip_data_clear (g : ip_globals) : ip_globals :=
  g <| current_netif := None |> <| current_input_netif := None |>
    <| current_ip4_header := None |> <| current_ip_header_tot_len := 0 |>
    <| current_iphdr_src := ip4_part_set_any (current_iphdr_src g) |>
    <| current_iphdr_dest := ip4_part_set_any (current_iphdr_dest g) |>.

(** "send to upper layers" *)
Definition ip4_deliver (p : pkt) (iphdr_hlen : Z) (n inp : netif) (s : stack U)
  : option (stack U * Z) :=
  let payload := hd [] (pk_chunks p) in
  let iphdr := ip_hdr_of payload in
  let hl := IPH_HL_BYTES iphdr in
  let s := with_net (fun m =>
    m <| ip_data := (ip_data m) <| current_netif := Some n |>
           <| current_input_netif := Some inp |>
           <| current_ip4_header := Some (take (Z.to_nat hl) payload) |>
           <| current_ip_header_tot_len := hl |> |>) s in
  '(m, u, raw_status) ← raw_input p inp (st_net s) (st_upper s);
  let s := Stack m (st_reass s) (st_reass6 s) u in
  s ← (match raw_status with
       | RAW_INPUT_EATEN => Some s
       | _ =>
           p ← pk_remove_header iphdr_hlen p;
           ip4_dispatch p (_proto iphdr) iphdr_hlen raw_status n inp s
       end);
  Some (with_net (fun m => m <| ip_data := ip_data_clear (ip_data m) |>) s, ERR_OK).

Definition ip4_input (p : pkt) (inp : netif) (s : stack U) : option (stack U * Z) :=
  lwip_assert (1 <=? pk_len p);
  if negb (IPH_V (ip_hdr_of (hd [] (pk_chunks p))) =? 4) then ip4_drop p s
  else
    lwip_assert (4 <=? pk_len p);
    let iphdr := ip_hdr_of (hd [] (pk_chunks p)) in
    let iphdr_hlen := IPH_HL_BYTES iphdr in
    let iphdr_len := lwip_htons (_len iphdr) in
    let p := if iphdr_len <? pk_tot_len p then pk_realloc iphdr_len p else p in
    if (pk_len p <? iphdr_hlen) || (pk_tot_len p <? iphdr_len) || (iphdr_hlen <? IP_HLEN)
    then ip4_drop p s
    else
      let iphdr := ip_hdr_of (hd [] (pk_chunks p)) in
      let dest := iph_dest iphdr in
      let src := iph_src iphdr in
      let s := with_net (fun m =>
        m <| ip_data := (ip_data m) <| current_iphdr_dest := IPADDR4_INIT dest |>
                                    <| current_iphdr_src := IPADDR4_INIT src |> |>) s in
      let netif :=
        if ip4_addr_ismulticast dest then
          if netif_is_up inp && negb (netif_ip4_addr inp =? IPADDR_ANY) then Some inp else None
        else if ip4_input_accept inp then Some inp else None in
      if ip4_addr_isbroadcast_u32 src inp || ip4_addr_ismulticast src then ip4_drop p s
      else
        match netif with
        | None => ip4_drop p s
        | Some n =>
            if negb (Z.land (_offset iphdr) (lwip_htons (u16 (Z.lor IP_OFFMASK IP_MF))) =? 0)
            then
              '(s, r) ← ip4_reass_call p s;
              match r with
              | None => Some (s, ERR_OK)
              | Some p => ip4_deliver p iphdr_hlen n inp s
              end
            else ip4_deliver p iphdr_hlen n inp s
        end.

(** [ip_input]: the version field of the first octet decides. *)
Class ip6_input_layer := ip6_input : pkt -> netif -> stack U -> option (stack U * Z).

Definition ip_input `{ip6_input_layer} (p : pkt) (inp : netif) (s : stack U)
  : option (stack U * Z) :=
  lwip_assert (1 <=? pk_len p);
  if Z.shiftr (ld8 (hd [] (pk_chunks p)) 0) 4 =? 6 then ip6_input p inp s
  else ip4_input p inp s.

End input.
