(* ===== verification/Ip6In.v ===== *)
(** * IPv6 input (core/c/core/ipv6/ip6.c)

    [ip6_input] checks a packet, walks over its extension headers, through
    reassembly if it is a fragment, and hands it to raw IP and to the protocol it
    carries.  A pointer into the headers is its distance from
    [ip6_current_header()].

    Octets are read up to one behind the end of a header, before or without
    regard to the length of the packet: from the memory behind it
    ([octets_behind]).  After reassembly [ip6_current_header()] still points to the
    packet of the last fragment: distances from there are [pointer_gap], and
    a fragment header inside of a reassembled datagram, where reassembly would
    take its pointers from the old header, has no result. *)

From S2P Require Import Prelude Err Def IpAddr NetifDefs Ip6Addr Chksum Pbuf Packet IpHdr Ip6Hdr Ip4Frag Ip6Frag Net Ip6 Icmp Netif Icmp6Hdr Icmp6 Ip4In.

(** The difference of a pointer into a packet, at the given octet of the payload, and
    the pointer to the header of another one. *)
Class stale_pointers := pointer_gap : pkt -> Z -> Z.

(** ** Options of the hop-by-hop and destination headers *)

Inductive opts_result :=
| Opts_ok
| Opts_discard                              (* action 1 *)
| Opts_problem (always : bool) (offset : Z).   (* actions 2 and 3: icmp6_param_problem *)

Definition known_option (dest_header : bool) (type : Z) : bool :=
  (type =? IP6_PADN_OPTION) || (type =? IP6_ROUTER_ALERT_OPTION) || (type =? IP6_JUMBO_OPTION)
  || (dest_header && (type =? IP6_HOME_ADDRESS_OPTION)).

(** [while (opt_offset < hlen)], on what memory holds from the header on. *)
Fixpoint opt_loop (fuel : nat) (dest_header : bool) (mem : list Z) (hlen opt_offset : Z) : option opts_result :=
  if hlen <=? opt_offset then Some Opts_ok
  else
    match fuel with
    | O => None
    | S fuel =>
        type ← mem !! Z.to_nat opt_offset;
        if type =? IP6_PAD1_OPTION then opt_loop fuel dest_header mem hlen (opt_offset + IP6_OPT_HLEN - 1)
        else if known_option dest_header type || (IP6_OPT_TYPE_ACTION type =? 0) then
          dlen ← mem !! Z.to_nat (opt_offset + 1);
          opt_loop fuel dest_header mem hlen (opt_offset + IP6_OPT_HLEN + dlen)
        else if IP6_OPT_TYPE_ACTION type =? 1 then Some Opts_discard
        else Some (Opts_problem (IP6_OPT_TYPE_ACTION type =? 2) opt_offset)
    end.

(** ** Extension headers *)

(** What the walk over the headers has: the packet, the value of the next header
    field, where it is, and [hlen_tot]. *)
Record walk := Walk { w_p : pkt; w_nexth : Z; w_nexth_ptr : Z; w_hlen_tot : Z }.

#[export] Instance eta_walk : EtaRecord walk := fun w =>
  Walk (w_p w) (w_nexth w) (w_nexth_ptr w) (w_hlen_tot w).

Inductive ext_result :=
| Ext_done (w : walk) (s : net)
| Ext_drop (s : net)                        (* the packet is freed, goto ip6_input_cleanup *)
| Ext_fragment (w : walk) (s : net).        (* ip6_reass *)

Section input.
Context `{driver : netif_driver6} `{mem : memory} `{users : address_users} `{stale : stale_pointers}.
Context `{layers : upper_layers U}.

(** What memory holds from [p->payload] on. *)
Definition memory_at (p : pkt) : list Z := hd [] (pk_chunks p) ++ octets_behind p.

Definition dest_is_multicast (s : net) : bool := ip6_addr_ismulticast (ip_2_ip6 (current_iphdr_dest (ip_data s))).

(** [icmp6_param_problem] and [pbuf_free]. *)
Definition param_problem_drop (p : pkt) (c pointer : Z) (s : net) : option ext_result :=
  s ← icmp6_param_problem p c pointer s; Some (Ext_drop (free_packet p s)).

(** The length of an extension header, [None] inside: the packet is too short. *)
Definition ext_hlen (p : pkt) : option (option Z) :=
  l ← memory_at p !! 1%nat;
  let hlen := u16 (8 * (1 + l)) in
  Some (if (pk_len p <? 8) || (pk_len p <? hlen) then None else Some hlen).

(** The distance of octet [k] of the payload from the current header. *)
Definition distance (moved : bool) (w : walk) (k : Z) : Z :=
  if moved then pointer_gap (w_p w) k else w_hlen_tot w + k.

(** The next header behind one of [hlen] octets. *)
Definition ext_next (moved : bool) (w : walk) (hlen : Z) : option walk :=
  p ← pk_remove_header hlen (w_p w);
  Some (Walk p (ld8 (hd [] (pk_chunks (w_p w))) 0) (distance moved w 0) (u16 (w_hlen_tot w + hlen))).

(** The cases [IP6_NEXTH_HOPBYHOP] and [IP6_NEXTH_DESTOPTS]; [inl]: the walk
    goes on. *)
Definition options_header (dest_header moved : bool) (w : walk) (s : net) : option (walk + ext_result) :=
  let p := w_p w in
  hl ← ext_hlen p;
  match hl with
  | None => Some (inr (Ext_drop (free_packet p s)))
  | Some hlen =>
      r ← opt_loop (Z.to_nat hlen) dest_header (memory_at p) hlen (if dest_header then IP6_DEST_HLEN else IP6_HBH_HLEN);
      match r with
      | Opts_ok => w ← ext_next moved w hlen; Some (inl w)
      | Opts_discard => Some (inr (Ext_drop (free_packet p s)))
      | Opts_problem always offset =>
          if always || negb (dest_is_multicast s)
          then r ← param_problem_drop p ICMP6_PP_OPTION (distance moved w offset) s; Some (inr r)
          else Some (inr (Ext_drop (free_packet p s)))
      end
  end.

(** The case [IP6_NEXTH_ROUTING]. *)
Definition routing_header (moved : bool) (w : walk) (s : net) : option (walk + ext_result) :=
  let p := w_p w in
  let payload := hd [] (pk_chunks p) in
  hl ← ext_hlen p;
  match hl with
  | None => Some (inr (Ext_drop (free_packet p s)))
  | Some hlen =>
      if negb (ld8 payload 3 =? 0) && Z.odd (ld8 payload 1)
      then r ← param_problem_drop p ICMP6_PP_FIELD (distance moved w 1) s; Some (inr r)
      else if negb (ld8 payload 3 =? 0) && negb ((ld8 payload 2 =? IP6_ROUT_TYPE2) || (ld8 payload 2 =? IP6_ROUT_RPL))
      then r ← param_problem_drop p ICMP6_PP_FIELD (distance moved w 2) s; Some (inr r)
      else w ← ext_next moved w hlen; Some (inl w)
  end.

(** The case [IP6_NEXTH_FRAGMENT], up to the call of [ip6_reass]; [plen_ptr] is
    where the payload length is. *)
Definition fragment_header (moved : bool) (plen plen_ptr : Z) (w : walk) (s : net) : option (walk + ext_result) :=
  let p := w_p w in
  if pk_len p <? IP6_FRAG_HLEN then Some (inr (Ext_drop (free_packet p s)))
  else
    let fh := ip6_frag_hdr_of (hd [] (pk_chunks p)) in
    if negb (IP6_FRAG_MBIT fh =? 0) && negb (Z.land plen 7 =? 0)
    then r ← param_problem_drop p ICMP6_PP_FIELD plen_ptr s; Some (inr r)
    else if Z.land (_fragment_offset fh) (lwip_htons (Z.lor IP6_FRAG_OFFSET_MASK IP6_FRAG_MORE_FLAG)) =? 0
    then w ← ext_next moved w IP6_FRAG_HLEN; Some (inl w)
    else if moved then None
    else Some (inr (Ext_fragment (w <| w_hlen_tot := u16 (w_hlen_tot w + IP6_FRAG_HLEN) |>) s)).

(** One turn of the loop over the headers; none to walk over: the label
    [options_done]. *)
Definition ext_header (moved : bool) (plen plen_ptr : Z) (w : walk) (s : net) : option (walk + ext_result) :=
  if w_nexth w =? IP6_NEXTH_NONE then Some (inr (Ext_done w s))
  else if w_nexth w =? IP6_NEXTH_HOPBYHOP then options_header false moved w s
  else if w_nexth w =? IP6_NEXTH_DESTOPTS then options_header true moved w s
  else if w_nexth w =? IP6_NEXTH_ROUTING then routing_header moved w s
  else if w_nexth w =? IP6_NEXTH_FRAGMENT then fragment_header moved plen plen_ptr w s
  else Some (inr (Ext_done w s)).

(** Behind a header no hop-by-hop header may follow. *)
Fixpoint ext_loop (fuel : nat) (moved : bool) (plen plen_ptr : Z) (w : walk) (s : net) : option ext_result :=
  match fuel with
  | O => None
  | S fuel =>
      r ← ext_header moved plen plen_ptr w s;
      match r with
      | inr r => Some r
      | inl w =>
          if w_nexth w =? IP6_NEXTH_HOPBYHOP
          then param_problem_drop (w_p w) ICMP6_PP_HEADER (w_nexth_ptr w) s
          else ext_loop fuel moved plen plen_ptr w s
      end
  end.

(** The headers of the packet [p], which begins with its IPv6 header.  When it is
    reassembled, the turn of the loop that did so ends with the test for a
    hop-by-hop header, which drops it also where it is the first header. *)
Definition walk_headers (moved : bool) (p : pkt) (s : net) : option ext_result :=
  let ip6hdr := ip6_hdr_of (hd [] (pk_chunks p)) in
  let nexth_ptr := if moved then pointer_gap p 6 else 6 in
  let plen_ptr := if moved then pointer_gap p 4 else 4 in
  q ← pk_remove_header IP6_HLEN p;
  if moved && (_nexth ip6hdr =? IP6_NEXTH_HOPBYHOP) then param_problem_drop q ICMP6_PP_HEADER nexth_ptr s
  else
    ext_loop (S (length (hd [] (pk_chunks q)))) moved (IP6H_PLEN ip6hdr) plen_ptr
      (Walk q (_nexth ip6hdr) nexth_ptr IP6_HLEN) s.

(** ** Delivery *)

(** The [switch] over the protocol; [ip6hdr_nexth] is the field of the IPv6 header. *)
Definition ip6_dispatch (w : walk) (ip6hdr_nexth : Z) (raw_status : raw_input_state_t) (inp : netif)
    (s : stack U) : option (stack U) :=
  let p := w_p w in
  if w_nexth w =? IP6_NEXTH_NONE then Some (with_net (free_packet p) s)
  else if w_nexth w =? IP6_NEXTH_UDP then
    '(m, u) ← udp_input p inp (st_net s) (st_upper s); Some (Stack m (st_reass s) (st_reass6 s) u)
  else if w_nexth w =? IP6_NEXTH_TCP then
    '(m, u) ← tcp_input p inp (st_net s) (st_upper s); Some (Stack m (st_reass s) (st_reass6 s) u)
  else if w_nexth w =? IP6_NEXTH_ICMP6 then
    m ← icmp6_input p inp (st_net s); Some (with_net (fun _ => m) s)
  else
    match raw_status with
    | RAW_INPUT_DELIVERED => Some (with_net (free_packet p) s)
    | _ =>
        let p := default p (pk_header_force (w_hlen_tot w) p) in
        if negb (dest_is_multicast (st_net s)) && negb (ip6hdr_nexth =? IP6_NEXTH_ICMP6) then
          m ← icmp6_param_problem p ICMP6_PP_HEADER (w_nexth_ptr w) (st_net s);
          Some (with_net (free_packet p) (with_net (fun _ => m) s))
        else Some (with_net (free_packet p) s)
    end.

(** [options_done]. *)
Definition ip6_deliver (w : walk) (ip6hdr_nexth : Z) (inp : netif) (s : stack U) : option (stack U) :=
  let s := with_net (fun m => m <| ip_data := (ip_data m) <| current_ip_header_tot_len := w_hlen_tot w |> |>) s in
  let p := default (w_p w) (pk_header_force (w_hlen_tot w) (w_p w)) in
  '(m, u, raw_status) ← raw_input p inp (st_net s) (st_upper s);
  let s := Stack m (st_reass s) (st_reass6 s) u in
  match raw_status with
  | RAW_INPUT_EATEN => Some s
  | _ =>
      p ← pk_remove_header (w_hlen_tot w) p;
      ip6_dispatch (w <| w_p := p |>) ip6hdr_nexth raw_status inp s
  end.

(** ** Reassembly in place: the calls it makes are made *)

Definition reass6_event (e : event6) (s : net) : option net :=
  match e with
  | Free6 p => Some (free_packet p s)
  | Time_exceeded6 p src dest => icmp6_time_exceeded_with_addrs p ICMP6_TE_FRAG src dest s
  end.

Fixpoint reass6_events_run (es : list event6) (s : net) : option net :=
  match es with
  | [] => Some s
  | e :: es => s ← reass6_event e s; reass6_events_run es s
  end.

Definition ip6_reass_call (iphdr : ip6_hdr) (w : walk) (s : stack U) : option (stack U * option pkt) :=
  let s := with_net (fun m => m <| ip_data := (ip_data m) <| current_ip_header_tot_len := w_hlen_tot w |> |>) s in
  let g := ip_data (st_net s) in
  '(r, p) ← ip6_reass iphdr (w_hlen_tot w - IP6_FRAG_HLEN) (ip_2_ip6 (current_iphdr_src g)) (ip_2_ip6 (current_iphdr_dest g))
              (w_p w) ((st_reass6 s) <| reass6_events := [] |>);
  n ← reass6_events_run (reass6_events r) (st_net s);
  Some (Stack n (st_reass s) r (st_upper s), p).

(** The timer of reassembly, with its calls. *)
Definition ip6_reass_tmr_call (s : stack U) : option (stack U) :=
  r ← ip6_reass_tmr ((st_reass6 s) <| reass6_events := [] |>);
  n ← reass6_events_run (reass6_events r) (st_net s);
  Some (Stack n (st_reass s) r (st_upper s)).

(** ** Input *)

Definition ip6_input_accept (n : netif) : bool := true.

(** Whether the packet is for this host. *)
Definition ip6_netif_for (dest : ip6_addr) (inp : netif) : option netif :=
  if ip6_addr_ismulticast dest then
    if ip6_addr_isallnodes_iflocal dest || ip6_addr_isallnodes_linklocal dest then Some inp
    else if ip6_addr_issolicitednode dest then
      if existsb (fun '(a, state) => ip6_addr_isvalid state && ip6_addr_cmp_solicitednode dest (ip_2_ip6 a))
           (combine (nif_ip6_addr inp) (nif_ip6_addr_state inp))
      then Some inp else None
    else None
  else if ip6_input_accept inp then Some inp else None.

(** [ip6_input_cleanup] *)
Definition ip6_data_clear (g : ip_globals) : ip_globals :=
  g <| current_netif := None |> <| current_input_netif := None |>
    <| current_ip6_header := None |> <| current_ip_header_tot_len := 0 |>
    <| current_iphdr_src := IpAddr ip6_addr_zero (ip_type (current_iphdr_src g)) |>
    <| current_iphdr_dest := IpAddr ip6_addr_zero (ip_type (current_iphdr_dest g)) |>.

Definition ip6_cleanup (s : stack U) : option (stack U * Z) :=
  Some (with_net (fun m => m <| ip_data := ip6_data_clear (ip_data m) |>) s, ERR_OK).

(** Behind the checks: [p] begins with the IPv6 header. *)
Definition ip6_receive (p : pkt) (inp : netif) (s : stack U) : option (stack U * Z) :=
  let iphdr := ip6_hdr_of (hd [] (pk_chunks p)) in
  r ← walk_headers false p (st_net s);
  match r with
  | Ext_drop m => ip6_cleanup (with_net (fun _ => m) s)
  | Ext_done w m => s ← ip6_deliver w (_nexth iphdr) inp (with_net (fun _ => m) s); ip6_cleanup s
  | Ext_fragment w m =>
      '(s, q) ← ip6_reass_call iphdr w (with_net (fun _ => m) s);
      match q with
      | None => ip6_cleanup s
      | Some q =>
          r ← walk_headers true q (st_net s);
          match r with
          | Ext_drop m => ip6_cleanup (with_net (fun _ => m) s)
          | Ext_done w m =>
              s ← ip6_deliver w (_nexth (ip6_hdr_of (hd [] (pk_chunks q)))) inp (with_net (fun _ => m) s);
              ip6_cleanup s
          | Ext_fragment _ _ => None
          end
      end
  end.

Definition ip6_input (p : pkt) (inp : netif) (s : stack U) : option (stack U * Z) :=
  lwip_assert (4 <=? pk_len p);
  if negb (IP6H_V (ip6_hdr_of (hd [] (pk_chunks p))) =? 6) then ip4_drop p s
  else if (pk_len p <? IP6_HLEN) || (pk_tot_len p - IP6_HLEN <? IP6H_PLEN (ip6_hdr_of (hd [] (pk_chunks p))))
  then ip4_drop p s
  else
    let iphdr := ip6_hdr_of (hd [] (pk_chunks p)) in
    let p := pk_realloc (u16 (IP6_HLEN + IP6H_PLEN iphdr)) p in
    let dest := from_packed (ip6h_dest iphdr) in
    let src := from_packed (ip6h_src iphdr) in
    let set_addrs src dest := with_net (fun m =>
      m <| ip_data := (ip_data m) <| current_iphdr_dest := IpAddr dest IPADDR_TYPE_V6 |>
                                  <| current_iphdr_src := IpAddr src IPADDR_TYPE_V6 |> |>) in
    if ip6_addr_isipv4mappedipv6 dest || ip6_addr_isipv4mappedipv6 src || ip6_addr_ismulticast src
    then ip4_drop p (set_addrs src dest s)
    else
      let dest := ip6_addr_assign_zone dest IP6_UNKNOWN (netif_get_index inp) in
      let src := ip6_addr_assign_zone src IP6_UNICAST (netif_get_index inp) in
      let s := with_net (fun m => m <| ip_data := (ip_data m)
                 <| current_ip6_header := Some (take 40 (hd [] (pk_chunks p))) |>
                 <| current_netif := Some inp |> <| current_input_netif := Some inp |> |>) (set_addrs src dest s) in
      if ip6_addr_isany src && negb (ip6_addr_issolicitednode dest)
      then ip6_cleanup (with_net (free_packet p) s)
      else
        match ip6_netif_for dest inp with
        | None => ip6_cleanup (with_net (free_packet p) s)
        | Some n =>
            ip6_receive p inp (with_net (fun m => m <| ip_data := (ip_data m) <| current_netif := Some n |> |>) s)
        end.

End input.
