(* ===== verification/NetExamples.v ===== *)
(** * A small network to evaluate the models on

    One interface 10.0.0.1/8 with an MTU of 1500, no IPv6, a driver that takes every
    packet, memory with zeros behind every packet, and upper layers that write
    down what they are given. *)

From S2P Require Import Prelude Err Def IpAddr NetifDefs Nd6Defs Packet IpHdr Ip4Frag Ip6Frag Net Ip4 Icmp Ip4In.

Definition addr4 (a b c d : Z) : Z := lwip_htonl (((a * 256 + b) * 256 + c) * 256 + d).

Definition example_netif : netif :=
  Netif 4096 (IPADDR4_INIT (addr4 10 0 0 1)) (IPADDR4_INIT (addr4 255 0 0 0)) ip_addr_any
    [] [] [] [] 1500 1500 [] 0 (NETIF_FLAG_UP + NETIF_FLAG_LINK_UP) [] 0 false 0.

Definition example_net : net :=
  Net [example_netif] None 0 7 0 nd6_initial (IpGlobals None None None None 0 ip_addr_any ip_addr_any) [] [].

Definition example_driver : netif_driver := fun _ _ _ => ERR_OK.
Definition example_memory : memory := fun _ => repeat 0 8.

Definition no_ip6 : ip6_layer := {|
  ip6_output_if_src p src dest ttl tos proto n s := None;
  ip6_output_if p src dest ttl tos proto n s := None;
  icmp6_dest_unreach p code s := None;
  ip6_select_source_address n dest s := None;
  nd6_get_destination_mtu dest n s := match n with Some n => nif_mtu6 n | None => 1280 end
|}.

Definition recording : upper_layers (list (Z * list Z)) := {|
  raw_input q inp m u := Some (m, u, RAW_INPUT_NONE);
  udp_input q inp m u := Some (m, u ++ [(IP_PROTO_UDP, pk_octets q)]);
  tcp_input q inp m u := Some (m, u ++ [(IP_PROTO_TCP, pk_octets q)])
|}.

Definition example_stack : stack (list (Z * list Z)) := Stack example_net (Reass [] 0 [] []) (Reass6 [] 0 [] []) [].

(** A payload with room for the headers in front. *)
Definition payload_packet (l : list Z) : pkt := Pkt (repeat 0 54) [l] true.
