(* ===== verification/NetifLoop.v ===== *)
(** * The loopback queue (core/c/core/netif.c)

    [netif_loop_output] (Net) appends a copy of a packet to the queue of its
    interface; [netif_poll] hands the queue to [ip_input], packet by packet, with what
    comes in behind meanwhile.  The queue of an interface is what the log says was
    queued on it, less the packets that were taken already, which are counted. *)

From S2P Require Import Prelude Err Def IpAddr NetifDefs Ip6Addr Pbuf Packet IpHdr Ip4Frag Ip6Frag Nd6Defs Net Ip4 Icmp Ip4In NetExamples.

(** The packets queued on an interface so far. *)
Fixpoint queued_on (ptr : Z) (l : list net_event) : list pkt :=
  match l with
  | [] => []
  | Loop_queued n r :: l => if nif_ptr n =? ptr then r :: queued_on ptr l else queued_on ptr l
  | _ :: l => queued_on ptr l
  end.

(** [loop_first] to [loop_last], when [taken] packets were taken. *)
Definition loop_queue (ptr : Z) (taken : nat) (s : net) : list pkt := drop taken (queued_on ptr (net_log s)).

Definition netif_loop_output_ipv4 (n : netif) (p : pkt) (addr : Z) (s : net) : option (net * Z) := netif_loop_output n p s.
Definition netif_loop_output_ipv6 (n : netif) (p : pkt) (addr : ip6_addr) (s : net) : option (net * Z) := netif_loop_output n p s.

(** The outputs of an interface before its init function sets others. *)
Definition netif_null_output_ip4 (n : netif) (p : pkt) (ipaddr : Z) : Z := ERR_IF.
Definition netif_null_output_ip6 (n : netif) (p : pkt) (ipaddr : ip6_addr) : Z := ERR_IF.

Section poll.
Context `{driver : netif_driver} `{mem : memory} `{layers : upper_layers U} `{input6 : @ip6_input_layer U}.

(** [netif_input], without Ethernet. *)
Definition netif_input (p : pkt) (inp : netif) (s : stack U) : option (stack U * Z) := ip_input p inp s.

(** [netif_poll]; the number of packets taken afterwards.  [fuel] bounds the packets
    one call takes: input can queue more of them. *)
Fixpoint netif_poll (fuel : nat) (ptr : Z) (taken : nat) (s : stack U) : option (stack U * nat) :=
  match loop_queue ptr taken (st_net s), fuel with
  | [], _ => Some (s, taken)
  | _, O => None
  | p :: _, S fuel =>
      n ← netif_at ptr (st_net s);
      '(s, err) ← ip_input p n s;
      let s := if negb (err =? ERR_OK) then with_net (free_packet p) s else s in
      netif_poll fuel ptr (S taken) s
  end.

(** [netif_poll_all]; [taken] per interface. *)
Fixpoint poll_list (fuel : nat) (ptrs : list Z) (taken : Z -> nat) (s : stack U) : option (stack U * (Z -> nat)) :=
  match ptrs with
  | [] => Some (s, taken)
  | ptr :: ptrs =>
      '(s, t) ← netif_poll fuel ptr (taken ptr) s;
      poll_list fuel ptrs (fun q => if q =? ptr then t else taken q) s
  end.
Definition netif_poll_all (fuel : nat) (taken : Z -> nat) (s : stack U) : option (stack U * (Z -> nat)) :=
  poll_list fuel (map nif_ptr (netif_list (st_net s))) taken s.

(** After [netif_poll] the queue is empty. *)
Lemma netif_poll_empties fuel ptr taken s s' taken' : netif_poll fuel ptr taken s = Some (s', taken') ->
  loop_queue ptr taken' (st_net s') = [].
Proof.
  revert taken s. induction fuel as [|fuel IH]; intros taken s; cbn [netif_poll];
    destruct (loop_queue ptr taken (st_net s)) as [|p q] eqn:E; try done; try by intros [= <- <-].
  destruct (netif_at ptr (st_net s)) as [n|]; [|done]. cbn [mbind option_bind].
  destruct (ip_input p n s) as [[s1 err]|]; [|done]. cbn [mbind option_bind]. apply IH.
Qed.

(** More fuel does not change the result. *)
Lemma netif_poll_more fuel more ptr taken s r : netif_poll fuel ptr taken s = Some r -> netif_poll (fuel + more) ptr taken s = Some r.
Proof.
  revert taken s. induction fuel as [|fuel IH]; intros taken s; cbn [netif_poll Nat.add].
  - destruct (loop_queue ptr taken (st_net s)) as [|p q] eqn:E; [|done]. intros [= <-].
    destruct more; cbn [netif_poll]; by rewrite E.
  - destruct (loop_queue ptr taken (st_net s)) as [|p q]; [done|]. destruct (netif_at ptr (st_net s)) as [n|]; [|done].
    cbn [mbind option_bind]. destruct (ip_input p n s) as [[s1 err]|]; [|done]. cbn [mbind option_bind]. apply IH.
Qed.

End poll.

(** A datagram to the own address goes through the queue and up again. *)
Definition no_input6 {U} : @ip6_input_layer U := fun _ _ _ => None.

Definition to_self (s : stack (list (Z * list Z))) : option (stack (list (Z * list Z)) * nat) :=
  '(m, _, _) ← @ip4_output_if_src example_driver (payload_packet [1; 2; 3; 4; 5; 6; 7; 8]) (Some (addr4 10 0 0 1)) (Some (addr4 10 0 0 1))
                 64 0 IP_PROTO_UDP example_netif (st_net s);
  @netif_poll example_driver example_memory _ recording no_input6 2 (nif_ptr example_netif) 0 (with_net (fun _ => m) s).

Example loopback :
  option_map (fun '(s, t) => (st_upper s, t)) (to_self (with_net (fun m => m <| net_malloc := [Some (fun _ => 9)] |>) example_stack))
  = Some ([(IP_PROTO_UDP, [1; 2; 3; 4; 5; 6; 7; 8])], 1%nat).
Proof. vm_compute. reflexivity. Qed.
