(* ===== verification/Ip6Layer.v ===== *)
(** * The IPv6 layer in its place

    ip6.c and icmp6.c as what the layers above and IP input call: the interfaces
    [ip6_layer] and [ip6_input_layer] are discharged, and with them the
    theorems about UDP, raw IP and TCP speak about a stack with IPv6.  What is left
    as an interface are the driver, and the users of the addresses of an interface.

    Then a small IPv6 network to evaluate the models on. *)

From S2P Require Import Prelude Err Def IpAddr NetifDefs Ip6Addr Chksum Pbuf Packet Ip6Hdr Ip4Frag Ip6Frag Nd6Defs Net Nd6Cache Ip6 Icmp Netif Icmp6Hdr Icmp6 Ip4In Ip6In NetExamples.

#[export] Instance ip6_stack_layer `{driver : netif_driver6} `{mem : memory} `{users : address_users} : ip6_layer := {|
  Net.ip6_output_if_src p src dest hl tc nexth n s := ip6_output_if_src p (Some src) dest hl tc nexth n s;
  Net.ip6_output_if p src dest hl tc nexth n s := ip6_output_if p (Some src) dest hl tc nexth n s;
  Net.icmp6_dest_unreach p c s := icmp6_dest_unreach p c s;
  Net.ip6_select_source_address n dest s := ip6_select_source_address n dest;
  Net.nd6_get_destination_mtu dest n s := nd6_get_destination_mtu dest n s
|}.

#[export] Instance ip6_stack_input `{driver : netif_driver6} `{mem : memory} `{users : address_users} `{stale : stale_pointers}
    `{layers : upper_layers U} : ip6_input_layer :=
  fun p inp s => ip6_input p inp s.

(** ** An interface with the address 2001:db8::1, preferred, and fe80::1 *)

Definition addr6 (a b c d : Z) : ip6_addr := Ip6Addr [lwip_htonl a; lwip_htonl b; lwip_htonl c; lwip_htonl d] 0.
Definition ip6_of (a : ip6_addr) : ip_addr := IpAddr a IPADDR_TYPE_V6.

Definition me6 : ip6_addr := addr6 536939960 0 0 1.
Definition peer6 : ip6_addr := addr6 536939960 0 0 2.

Definition example_netif6 : netif :=
  example_netif <| nif_ip6_addr := [ip6_of (addr6 4269801472 0 0 1); ip6_of me6; ip6_of (addr6 0 0 0 0)] |>
                <| nif_ip6_addr_state := [IP6_ADDR_PREFERRED; IP6_ADDR_PREFERRED; IP6_ADDR_INVALID] |>.

Definition example_net6 : net := example_net <| netif_list := [example_netif6] |>.
Definition example_driver6 : netif_driver6 := fun _ _ _ => ERR_OK.

(** Nobody uses the addresses of the interface. *)
Definition no_users : address_users := fun _ _ s => Some s.
Definition no_gap : stale_pointers := fun _ _ => 0.
Definition example_memory6 : memory := fun _ => repeat 0 48.

Definition example_stack6 : stack (list (Z * list Z)) :=
  Stack example_net6 (Reass [] 0 [] []) (Reass6 [] 0 (repeat true 8) []) [].

Definition input6 (p : pkt) (s : stack (list (Z * list Z))) : option (stack (list (Z * list Z)) * Z) :=
  @ip6_input example_driver6 example_memory6 no_users no_gap _ recording p example_netif6 s.

(** A UDP datagram of the peer behind a hop-by-hop header that holds a PadN option. *)
Definition example_header6 (nexth plen : Z) : ip6_hdr := ip6_header peer6 me6 64 0 nexth plen.

Example input6_hop_by_hop :
  exists s, input6 (Pkt [] [ip6_hdr_octets (example_header6 IP6_NEXTH_HOPBYHOP 11) ++
                       [IP6_NEXTH_UDP; 0; 1; 4; 0; 0; 0; 0] ++ [1; 2; 3]] true) example_stack6 = Some (s, ERR_OK) /\
    st_upper s = [(17, [1; 2; 3])] /\ net_log (st_net s) = [].
Proof. eexists. split; [by vm_compute|]. by vm_compute. Qed.

(** An echo request: the reply goes to the driver. *)
Definition example_ping6 : pkt :=
  Pkt [] [ip6_hdr_octets (example_header6 IP6_NEXTH_ICMP6 12) ++ [128; 0; 0; 0; 0; 7; 0; 1; 1; 2; 3; 4]] true.

Definition echo_answer (p : pkt) : option (ip6_addr * Z * list Z) :=
  '(s, _) ← input6 p (with_net (fun m => m <| net_malloc := [Some (fun _ => 9)] |>) example_stack6);
  match net_log (st_net s) with
  | [Netif_output_ip6 _ q d; Pbuf_free _; Pbuf_free _] =>
      Some (d, ip6_chksum_pseudo (map (Chunk false) [drop 40 (pk_octets q)]) IP6_NEXTH_ICMP6 12 (ip6_words me6) (ip6_words peer6),
            drop 44 (pk_octets q))
  | _ => None
  end.

Example input6_echo : echo_answer example_ping6 = Some (peer6, 0, [0; 7; 0; 1; 1; 2; 3; 4]).
Proof. by vm_compute. Qed.

(** A datagram in two fragments behind a hop-by-hop header, which every fragment has.
    When it is complete, its first header is taken for a hop-by-hop header out of
    place: the sender gets a parameter problem (type 4, code 1), the upper layer
    nothing. *)
Definition hop_fragment (offset : Z) (data : list Z) : pkt :=
  Pkt (repeat 0 16)
    [ip6_hdr_octets (example_header6 IP6_NEXTH_HOPBYHOP (16 + Z.of_nat (length data))) ++
     [IP6_NEXTH_FRAGMENT; 0; 1; 4; 0; 0; 0; 0] ++
     ip6_frag_hdr_octets (Ip6FragHdr IP6_NEXTH_UDP 0 (lwip_htons offset) (lwip_htonl 7)) ++ data] true.

Definition reassemble_hop : option (stack (list (Z * list Z))) :=
  '(s, _) ← input6 (hop_fragment 1 [1; 2; 3; 4; 5; 6; 7; 8])
              (with_net (fun m => m <| net_malloc := repeat (Some (fun _ => 9)) 4 |>) example_stack6);
  '(s, _) ← input6 (hop_fragment 8 [9; 10; 11]) s; Some s.

Example reassembled_hop_by_hop_dropped :
  exists s q d f, reassemble_hop = Some s /\ st_upper s = [] /\
    net_log (st_net s) = [Netif_output_ip6 example_netif6 q d; Pbuf_free q; Pbuf_free f] /\
    d = peer6 /\ take 2 (drop 40 (pk_octets q)) = [ICMP6_TYPE_PP; ICMP6_PP_HEADER].
Proof. do 4 eexists. split_and!; [by vm_compute|by vm_compute|by vm_compute|by vm_compute|by vm_compute]. Qed.
