(* ===== verification/Ip4Spec.v ===== *)
(** * What IPv4 promises

    A header written by the output path verifies, and a packet that leaves one
    host is delivered by the input path of another with its payload, addresses and
    protocol; input returns on every packet. *)

From S2P Require Import Prelude Err Def IpAddr NetifDefs Ip4Addr Chksum Pbuf Packet IpHdr Ip4Frag Ip6Frag Ip4FragSpec Ip4FragOut Net Ip4 Icmp Ip4In NetExamples.

(** ** The header checksum *)

Lemma wsum_st16 v l : is_u16 v -> wsum (st16 v ++ l) = v + wsum l.
Proof. intros. unfold st16. cbn [app wsum]. word_lia. Qed.

Lemma wsum_st32 v l : is_u32 v -> wsum (st32 v ++ l) = v mod 65536 + v / 65536 + wsum l.
Proof. intros. unfold st32. rewrite <- app_assoc, !wsum_st16 by word_lia. lia. Qed.

(** The sum of the sixteen-bit words of a header. *)
Lemma wsum_ip_hdr h :
  ip_hdr_ok h ->
  wsum (ip_hdr_octets h) =
    _v_hl h + 256 * _tos h + _len h + _id h + _offset h + (_ttl h + 256 * _proto h) + _chksum h
    + (iph_src h mod 65536 + iph_src h / 65536) + (iph_dest h mod 65536 + iph_dest h / 65536).
Proof.
  intros (?&?&?&?&?&?&?&?&?&?). unfold ip_hdr_octets.
  change ([_v_hl h; _tos h] ++ ?r) with (_v_hl h :: _tos h :: r). cbn [wsum].
  rewrite !wsum_st16 by done.
  change (wsum ([_ttl h; _proto h] ++ ?r)) with (_ttl h + 256 * _proto h + wsum r).
  rewrite wsum_st16, wsum_st32 by done. rewrite <- (app_nil_r (st32 (iph_dest h))).
  rewrite wsum_st32 by done. cbn [wsum]. lia.
Qed.

(** A header with the complement of the sum of its other words verifies. *)
Lemma header_verifies h t :
  ip_hdr_ok h -> wsum (ip_hdr_octets h) = t + _chksum h -> 0 <= t -> _chksum h = 65535 - norm t ->
  inet_chksum false (ip_hdr_octets h) = 0.
Proof.
  intros Hh Hs Ht Hc. rewrite inet_chksum_norm by (by apply ip_hdr_octets_ok || done).
  rewrite Hs, Hc, norm_complement by done. done.
Qed.

Lemma htons_pair hi lo : is_u8 hi -> is_u8 lo ->
  lwip_htons (u16 (Z.lor lo (Z.shiftl hi 8))) = hi + 256 * lo.
Proof.
  intros. rewrite Z.shiftl_mul_pow2 by lia. rewrite Z.lor_comm, lor_shift_add by (unfold_widths; lia).
  change (2 ^ 8) with 256. rewrite u16_id by (unfold_widths; lia).
  rewrite <- (lwip_htons_octets lo hi) by done. f_equal. lia.
Qed.

Lemma inline_chksum_eq ttl proto tos v len id dest src :
  is_u8 ttl -> is_u8 proto -> is_u8 tos -> is_u8 v -> is_u16 len -> is_u16 id ->
  is_u32 dest -> is_u32 src -> 0 < v ->
  inline_chksum ttl proto tos v len id dest src =
  65535 - norm (ttl + 256 * proto + (dest mod 65536 + dest / 65536) + (v + 256 * tos) + len + id
                + (src mod 65536 + src / 65536)).
Proof.
  intros. unfold inline_chksum, chk. rewrite !htons_pair by done.
  rewrite !land_ffff, !shiftr_div by lia. change (2 ^ 16) with 65536.
  assert (0 <= dest mod 65536 <= 65535 /\ 0 <= dest / 65536 <= 65535) by word_lia.
  assert (0 <= src mod 65536 <= 65535 /\ 0 <= src / 65536 <= 65535) by word_lia.
  set (t := ttl + _ + _ + _ + _ + _ + _).
  assert (0 < t <= 8 * 65535) by (subst t; unfold_widths; lia).
  repeat match goal with |- context [u32 (u32 ?a + ?b)] =>
    rewrite (u32_id a) by (unfold_widths; subst t; lia) end.
  match goal with |- context [u32 ?a / 65536] => replace a with t by (subst t; lia) end.
  rewrite (u32_id t) by (unfold_widths; lia). clearbody t.
  unfold Z.lnot, norm. destruct (Z.eqb_spec t 0); [lia|]. word_lia.
Qed.

Definition sendable (ttl tos proto src dest : Z) : Prop :=
  is_u8 ttl /\ is_u8 tos /\ is_u8 proto /\ is_u32 src /\ is_u32 dest.

Lemma ip4_header_ok src dest ttl tos proto tot_len id :
  sendable ttl tos proto src dest -> ip_hdr_ok (ip4_header src dest ttl tos proto tot_len id).
Proof.
  intros (?&?&?&?&?). unfold ip4_header, ip_hdr_ok.
  cbn [_v_hl _tos _len _id _offset _ttl _proto _chksum iph_src iph_dest].
  split_and!; try done; try apply lwip_htons_u16. unfold inline_chksum. apply u16_bound.
Qed.

Lemma ip4_header_verifies src dest ttl tos proto tot_len id :
  sendable ttl tos proto src dest ->
  inet_chksum false (ip_hdr_octets (ip4_header src dest ttl tos proto tot_len id)) = 0.
Proof.
  intros Hs. pose proof (ip4_header_ok src dest ttl tos proto tot_len id Hs) as Hok.
  destruct Hs as (?&?&?&?&?). pose proof (lwip_htons_u16 tot_len). pose proof (lwip_htons_u16 id).
  eapply header_verifies; [done|..].
  - rewrite wsum_ip_hdr by done. unfold ip4_header.
    cbn [_v_hl _tos _len _id _offset _ttl _proto _chksum iph_src iph_dest].
    match goal with |- ?a + ?c + ?d + ?e = _ => instantiate (1 := a + d + e); lia end.
  - unfold ip4_header. cbn [_v_hl _tos _len _id _offset _ttl _proto _chksum iph_src iph_dest].
    change (IPH_VHL 4 (IP_HLEN / 4)) with 69. word_lia.
  - unfold ip4_header. cbn [_v_hl _tos _len _id _offset _ttl _proto _chksum iph_src iph_dest].
    rewrite inline_chksum_eq by done. do 2 f_equal. lia.
Qed.

(** ** Sending *)

(** A packet with room for the header. *)
Definition has_room (n : Z) (p : pkt) : Prop :=
  pk_contig p = true /\ (Z.to_nat n <= length (pk_room p))%nat /\ pk_chunks p <> [].

Lemma pk_add_header_spec n p :
  has_room n p -> 0 <= n ->
  exists p' c, pk_add_header n p = Some p' /\
    pk_room p' = take (length (pk_room p) - Z.to_nat n) (pk_room p) /\
    pk_chunks p' = (c ++ hd [] (pk_chunks p)) :: tl (pk_chunks p) /\
    length c = Z.to_nat n /\ pk_contig p' = true.
Proof.
  intros (Hc & Hr & Hn) H0. unfold pk_add_header, pk_add_header_impl.
  destruct (pk_chunks p) as [|c r]; [done|]. rewrite Hc, (proj2 (Nat.leb_le _ _)) by lia.
  eexists _, _. split; [done|]. cbn [pk_room pk_chunks pk_contig hd tl].
  split_and!; try done. rewrite length_drop. lia.
Qed.

Lemma pk_write_front room c l r ct k :
  length l = length c ->
  pk_write 0 l (Pkt room ((c ++ k) :: r) ct) = Some (Pkt room ((l ++ k) :: r) ct).
Proof.
  intros H. unfold pk_write. cbn [pk_chunks]. rewrite (proj2 (Nat.leb_le _ _)) by (rewrite length_app; lia).
  cbn [pk_room pk_contig]. rewrite take_0, app_nil_l, drop_app_length' by lia. done.
Qed.

(** The packet that leaves: the header in front of the payload. *)
Definition with_header (h : ip_hdr) (p : pkt) : pkt :=
  Pkt (take (length (pk_room p) - 20) (pk_room p))
      ((ip_hdr_octets h ++ hd [] (pk_chunks p)) :: tl (pk_chunks p)) true.

Lemma with_header_octets h p :
  pk_chunks p <> [] -> pk_octets (with_header h p) = ip_hdr_octets h ++ pk_octets p.
Proof.
  unfold pk_octets, with_header. cbn [pk_chunks concat]. intros.
  destruct (pk_chunks p); [done|]. cbn [hd tl concat]. by rewrite <- app_assoc.
Qed.

Lemma ip4_output_if_src_spec `{netif_driver} p src dest ttl tos proto n s :
  has_room IP_HLEN p ->
  let h := ip4_header src dest ttl tos proto (u16 (Z.of_nat (length (pk_octets p)) + 20)) (ip_id s) in
  ip4_output_if_src p (Some src) (Some dest) ttl tos proto n s =
  '(s', err) ← ip4_transmit (with_header h p) dest n (s <| ip_id := u16 (ip_id s + 1) |>);
  Some (s', with_header h p, err).
Proof.
  intros Hr h. unfold ip4_output_if_src.
  destruct (pk_add_header_spec IP_HLEN p Hr ltac:(done)) as (p' & c & -> & Er & Ec & Hc & Ect).
  destruct p' as [room cs ct]. cbn [pk_room pk_chunks pk_contig] in *. subst.
  unfold pk_len. cbn [pk_chunks hd]. rewrite length_app.
  rewrite (proj2 (Z.leb_le _ _)) by (unfold IP_HLEN in *; lia). cbn [default].
  assert (pk_tot_len (Pkt (take (length (pk_room p) - Z.to_nat IP_HLEN) (pk_room p))
    ((c ++ hd [] (pk_chunks p)) :: tl (pk_chunks p)) true) =
    u16 (Z.of_nat (length (pk_octets p)) + 20)) as ->.
  { unfold pk_tot_len, pk_octets. cbn [pk_chunks concat]. destruct Hr as (_ & _ & Hn).
    destruct (pk_chunks p); [done|]. cbn [hd tl concat]. rewrite !length_app, Hc.
    f_equal. unfold IP_HLEN. lia. }
  rewrite pk_write_front by (rewrite ip_hdr_octets_length, Hc; done).
  cbn [mbind option_bind]. done.
Qed.

(** ** Receiving *)

(** The source is no broadcast or multicast address of the receiver; a group is
    only heard by an interface that is up and configured. *)
Definition acceptable (inp : netif) (src dest : Z) : Prop :=
  ip4_addr_isbroadcast_u32 src inp = false /\ ip4_addr_ismulticast src = false /\
  (ip4_addr_ismulticast dest = true ->
   netif_is_up inp = true /\ netif_ip4_addr inp <> IPADDR_ANY).

(** The state in which the upper layers find a packet with header [h]. *)
Definition receiving (h : ip_hdr) (inp : netif) (m : net) : net :=
  m <| ip_data := IpGlobals (Some inp) (Some inp) (Some (ip_hdr_octets h))
         (current_ip6_header (ip_data m)) (IPH_HL_BYTES h)
         (IPADDR4_INIT (iph_src h)) (IPADDR4_INIT (iph_dest h)) |>.

Section receive.
Context `{driver : netif_driver} `{mem : memory} `{layers : upper_layers U}.

(** A whole packet with a header of 20 octets goes up. *)
Lemma ip4_input_accepts h room c r ct inp (st : stack U) :
  let q := Pkt room ((ip_hdr_octets h ++ c) :: r) ct in
  ip_hdr_ok h -> IPH_V h = 4 -> IPH_HL_BYTES h = IP_HLEN ->
  lwip_htons (_len h) = pk_tot_len q -> is_fragment h = false ->
  acceptable inp (iph_src h) (iph_dest h) ->
  ip4_input q inp st =
  ip4_deliver q IP_HLEN inp inp
    (with_net (fun m =>
      m <| ip_data := (ip_data m) <| current_iphdr_dest := IPADDR4_INIT (iph_dest h) |>
                                  <| current_iphdr_src := IPADDR4_INIT (iph_src h) |> |>) st).
Proof.
  intros q Hh Hv Hhl Hlen Hfr (Hb & Hm & Hg).
  assert (Hql : IP_HLEN <= pk_len q).
  { subst q. unfold pk_len. cbn [pk_chunks hd]. rewrite length_app, ip_hdr_octets_length.
    unfold IP_HLEN. lia. }
  assert (Hq : ip_hdr_of (hd [] (pk_chunks q)) = h) by (subst q; by apply ip_hdr_of_octets).
  unfold ip4_input. rewrite Hq, Hv, Hhl, Hlen. clearbody q. unfold IP_HLEN in Hql.
  rewrite !(proj2 (Z.leb_le _ _)) by lia. cbn [Z.eqb Pos.eqb negb].
  rewrite Z.ltb_irrefl. rewrite (proj2 (Z.ltb_ge (pk_len q) IP_HLEN)) by (unfold IP_HLEN; lia).
  rewrite Z.ltb_irrefl. change (IP_HLEN <? IP_HLEN) with false. cbn [orb].
  rewrite Hq, Hb, Hm. cbn [orb].
  assert ((if ip4_addr_ismulticast (iph_dest h)
           then if netif_is_up inp && negb (netif_ip4_addr inp =? IPADDR_ANY) then Some inp else None
           else if ip4_input_accept inp then Some inp else None) = Some inp) as ->.
  { destruct (ip4_addr_ismulticast (iph_dest h)); [|reflexivity].
    destruct Hg as [-> Hg]; [reflexivity|].
    by rewrite (proj2 (Z.eqb_neq (netif_ip4_addr inp) IPADDR_ANY)) by done. }
  unfold is_fragment in Hfr. rewrite u16_id by done. by rewrite Hfr.
Qed.

(** No raw pcb takes part. *)
Definition no_raw (inp : netif) : Prop :=
  forall q m (u : U), raw_input q inp m u = Some (m, u, RAW_INPUT_NONE).

Definition transport_input (proto : Z) (p : pkt) (inp : netif) (m : net) (u : U) :=
  if proto =? IP_PROTO_UDP then udp_input p inp m u else tcp_input p inp m u.

Lemma ip4_deliver_transport h room c r ct inp (st : stack U) :
  ip_hdr_ok h -> IPH_HL_BYTES h = IP_HLEN -> no_raw inp ->
  _proto h = IP_PROTO_UDP \/ _proto h = IP_PROTO_TCP ->
  current_iphdr_src (ip_data (st_net st)) = IPADDR4_INIT (iph_src h) ->
  current_iphdr_dest (ip_data (st_net st)) = IPADDR4_INIT (iph_dest h) ->
  ip4_deliver (Pkt room ((ip_hdr_octets h ++ c) :: r) ct) IP_HLEN inp inp st =
  '(m, u) ← transport_input (_proto h) (Pkt (room ++ ip_hdr_octets h) (c :: r) ct) inp
              (receiving h inp (st_net st)) (st_upper st);
  Some (Stack (m <| ip_data := ip_data_clear (ip_data m) |>) (st_reass st) (st_reass6 st) u, ERR_OK).
Proof.
  intros Hh Hhl Hraw Hproto Hs Hd. unfold ip4_deliver. cbn [pk_chunks hd].
  rewrite ip_hdr_of_octets by done. rewrite Hhl.
  rewrite (take_app_length' (ip_hdr_octets h)) by done.
  rewrite Hraw. cbn [mbind option_bind with_net st_net st_reass st_upper].
  unfold pk_remove_header. cbn [pk_chunks pk_room pk_contig].
  rewrite (proj2 (Z.leb_le _ _)) by (rewrite length_app, ip_hdr_octets_length; unfold IP_HLEN; lia).
  rewrite (take_app_length' (ip_hdr_octets h)), (drop_app_length' (ip_hdr_octets h)) by done.
  assert (receiving h inp (st_net st) =
    (st_net st) <| ip_data := (ip_data (st_net st)) <| current_netif := Some inp |>
           <| current_input_netif := Some inp |>
           <| current_ip4_header := Some (ip_hdr_octets h) |>
           <| current_ip_header_tot_len := IP_HLEN |> |>) as ->.
  { unfold receiving. rewrite <- Hs, <- Hd, Hhl. done. }
  cbn [mbind option_bind]. unfold ip4_dispatch, transport_input.
  destruct Hproto as [-> | ->].
  - change (IP_PROTO_UDP =? IP_PROTO_UDP) with true. cbn [st_net st_upper st_reass].
    by destruct (udp_input _ _ _ _) as [[? ?]|].
  - change (IP_PROTO_TCP =? IP_PROTO_UDP) with false.
    change (IP_PROTO_TCP =? IP_PROTO_TCP) with true. cbn [st_net st_upper st_reass].
    by destruct (tcp_input _ _ _ _) as [[? ?]|].
Qed.

End receive.

Lemma ip4_transmit_driver `{netif_driver} p dest n s :
  dest <> netif_ip4_addr n -> (nif_mtu n = 0 \/ pk_tot_len p <= nif_mtu n) ->
  ip4_transmit p dest n s = Some (log [Netif_output n p dest] s, driver_output n p dest).
Proof.
  intros Hd Hm. unfold ip4_transmit, ip4_addr_cmp. rewrite (proj2 (Z.eqb_neq _ _)) by done.
  destruct (Z.eqb_spec (nif_mtu n) 0); [done|]. destruct Hm as [|Hm]; [done|].
  by rewrite (proj2 (Z.ltb_ge _ _)) by lia.
Qed.

Lemma pk_tot_len_header h p :
  pk_chunks p <> [] ->
  pk_tot_len (with_header h p) = u16 (Z.of_nat (length (pk_octets p)) + 20).
Proof.
  intros. unfold pk_tot_len. rewrite with_header_octets by done.
  rewrite length_app, ip_hdr_octets_length. f_equal. lia.
Qed.

Lemma ip4_header_fields src dest ttl tos proto tot_len id :
  is_u16 tot_len ->
  let h := ip4_header src dest ttl tos proto tot_len id in
  IPH_V h = 4 /\ IPH_HL_BYTES h = IP_HLEN /\ lwip_htons (_len h) = tot_len /\
  is_fragment h = false /\ iph_src h = src /\ iph_dest h = dest /\ _proto h = proto.
Proof. intros. subst h. split_and!; try done. by apply lwip_htons_invol. Qed.

(** C22: What IPv4 sends, IPv4 receives: the output path puts one header in front of
    the payload, with a checksum that verifies, the addresses, the time to live and
    the protocol asked for; it hands exactly this packet to the driver and
    advances the identification.  Given to the input path of a host, the packet
    reaches the transport protocol with the same payload, the header stripped and
    the addresses recorded, and nothing else happens. *)
Theorem ip4_output_input_round_trip `{driver : netif_driver} `{mem : memory} `{layers : upper_layers U}
    p src dest ttl tos proto n s inp (st : stack U) :
  has_room IP_HLEN p -> Z.of_nat (length (pk_octets p)) + 20 <= 65535 ->
  sendable ttl tos proto src dest -> dest <> netif_ip4_addr n ->
  (nif_mtu n = 0 \/ Z.of_nat (length (pk_octets p)) + 20 <= nif_mtu n) ->
  acceptable inp src dest -> no_raw inp -> proto = IP_PROTO_UDP \/ proto = IP_PROTO_TCP ->
  exists q h, ip4_output_if_src p (Some src) (Some dest) ttl tos proto n s =
      Some (log [Netif_output n q dest] (s <| ip_id := u16 (ip_id s + 1) |>), q,
            driver_output n q dest) /\
    pk_octets q = ip_hdr_octets h ++ pk_octets p /\
    inet_chksum false (ip_hdr_octets h) = 0 /\
    iph_src h = src /\ iph_dest h = dest /\ _ttl h = ttl /\ _tos h = tos /\ _proto h = proto /\
    _id h = lwip_htons (ip_id s) /\
    exists p', pk_octets p' = pk_octets p /\
      ip4_input q inp st =
      '(m, u) ← transport_input proto p' inp (receiving h inp (st_net st)) (st_upper st);
      Some (Stack (m <| ip_data := ip_data_clear (ip_data m) |>) (st_reass st) (st_reass6 st) u, ERR_OK).
Proof.
  intros Hr Hl Hs Hd Hm Ha Hraw Hp. pose proof Hr as (_ & _ & Hc).
  set (h := ip4_header src dest ttl tos proto (u16 (Z.of_nat (length (pk_octets p)) + 20)) (ip_id s)).
  exists (with_header h p), h.
  rewrite ip4_output_if_src_spec by done. fold h.
  rewrite ip4_transmit_driver by (try done; rewrite pk_tot_len_header by done;
    rewrite u16_id by (unfold is_u16; lia); done).
  destruct (ip4_header_fields src dest ttl tos proto (u16 (Z.of_nat (length (pk_octets p)) + 20)) (ip_id s)
    (u16_bound _)) as (Hv & Hhl & Hlen & Hfr & _ & _ & Hpr). fold h in Hv, Hhl, Hlen, Hfr, Hpr.
  assert (Hh : ip_hdr_ok h) by by apply ip4_header_ok.
  split_and!; try done; [by apply with_header_octets|by apply ip4_header_verifies|].
  eexists (Pkt _ (hd [] (pk_chunks p) :: tl (pk_chunks p)) _). split.
  { unfold pk_octets. cbn [pk_chunks]. by destruct (pk_chunks p). }
  unfold with_header at 1.
  rewrite (ip4_input_accepts h) by (try done; by rewrite Hlen, <- (pk_tot_len_header h p)).
  rewrite ip4_deliver_transport by (try done; by rewrite Hpr).
  rewrite Hpr. done.
Qed.

Lemma ip4_output_input_round_trip_witness :
  let p := payload_packet [1; 2; 3] in
  exists q h, @ip4_output_if_src example_driver p (Some (addr4 10 0 0 2)) (Some (addr4 10 0 0 3))
      64 0 IP_PROTO_UDP example_netif example_net =
      Some (log [Netif_output example_netif q (addr4 10 0 0 3)] (example_net <| ip_id := 8 |>), q, ERR_OK) /\
    pk_octets q = ip_hdr_octets h ++ [1; 2; 3] /\
    inet_chksum false (ip_hdr_octets h) = 0 /\
    iph_src h = addr4 10 0 0 2 /\ iph_dest h = addr4 10 0 0 3 /\ _ttl h = 64 /\ _tos h = 0 /\
    _proto h = IP_PROTO_UDP /\ _id h = lwip_htons 7 /\
    exists p', pk_octets p' = [1; 2; 3] /\
      @ip4_input example_driver example_memory _ recording q example_netif example_stack =
      '(m, u) ← @transport_input _ recording IP_PROTO_UDP p' example_netif
                   (receiving h example_netif example_net) [];
      Some (Stack (m <| ip_data := ip_data_clear (ip_data m) |>) (Reass [] 0 [] []) (Reass6 [] 0 [] []) u, ERR_OK).
Proof.
  apply (@ip4_output_input_round_trip example_driver example_memory _ recording
    (payload_packet [1; 2; 3]) (addr4 10 0 0 2) (addr4 10 0 0 3) 64 0 IP_PROTO_UDP
    example_netif example_net example_netif example_stack).
  - split; [done|]. split; [vm_compute; lia|done].
  - vm_compute. done.
  - unfold sendable. split_and!; decide_now.
  - vm_compute. done.
  - right. vm_compute. done.
  - split; [by vm_compute|]. split; [by vm_compute|]. intros H. by vm_compute in H.
  - by intros q m u.
  - by left.
Defined.
