(* ===== verification/Nd6Spec.v ===== *)
(** * Neighbor discovery: its messages are sent (core/c/core/ipv6/nd6.c)

    On a well-formed interface the three functions that send a message return and
    leave the tables as they are.  In this build no link layer asks nd6.c for next
    hops, so nothing is put into the destination cache ([no_destinations]). *)

From S2P Require Import Prelude Err Def IpAddr NetifDefs Ip6Addr Chksum Pbuf Packet IpHdr Ip6Hdr Icmp6Hdr Ip4Frag Ip4FragSpec Nd6Defs Net Nd6Cache Netif Ip6 Icmp Nd6 Ip4Spec.

(** ** What sending a message changes *)

(** Everything but the log and the answers of the allocator is the same. *)
Definition same_tables (s s' : net) : Prop :=
  netif_list s' = netif_list s /\ nd6 s' = nd6 s /\ ip_data s' = ip_data s /\
  netif_default s' = netif_default s /\ netif_num s' = netif_num s.

#[export] Instance same_tables_preorder : PreOrder same_tables.
Proof.
  split; [by intros ?|]. intros s1 s2 s3 (?&?&?&?&?) (?&?&?&?&?). split_and!; congruence.
Qed.

Lemma same_tables_log es s : same_tables s (log es s).
Proof. by destruct s. Qed.

Lemma same_tables_alloc layer n s r s' : pbuf_alloc_ram layer n s = (r, s') -> same_tables s s'.
Proof.
  unfold pbuf_alloc_ram. destruct (_ <? _); [by intros [= <- <-]|]. destruct s as [? ? ? ? ? ? ? [|[]] ?]; by intros [= <- <-].
Qed.

(** A message in a fresh pbuf. *)
Definition message (room c : list Z) : pkt := Pkt room [c] true.

Lemma pk_len_message room c : pk_len (message room c) = Z.of_nat (length c).
Proof. done. Qed.

Lemma pk_write_message off l room c :
  (off + length l <= length c)%nat -> exists c', pk_write off l (message room c) = Some (message room c') /\ length c' = length c.
Proof.
  intros H. unfold pk_write, message. cbn [pk_chunks pk_room pk_contig]. rewrite (proj2 (Nat.leb_le _ _)) by done.
  eexists. split; [done|]. rewrite !length_app, length_take, length_drop. lia.
Qed.

Lemma alloc_message n s r s' : 0 <= n <= 1000 -> pbuf_alloc_ram PBUF_IP n s = (Some r, s') ->
  exists room c, r = message room c /\ length room = 54%nat /\ length c = Z.to_nat n.
Proof.
  intros Hn E. apply pbuf_alloc_ram_spec in E as (room & c & -> & Hr & Hc & _); [|unfold PBUF_IP; lia..]. by exists room, c.
Qed.

Definition words4 (a : ip6_addr) : Prop := length (ip6_words a) = 4%nat.

Lemma header_length src dest hl tc nexth plen : words4 src -> words4 dest ->
  length (ip6_hdr_octets (ip6_header src dest hl tc nexth plen)) = 40%nat.
Proof.
  intros Hs Hd. unfold ip6_hdr_octets, ip6_header. cbn [_v_tc_fl _plen _nexth _hoplim ip6h_src ip6h_dest].
  rewrite !length_app, !words_octets_length, Hs, Hd. done.
Qed.

Lemma netif_loop_output_returns n p s : 0 <= pk_tot_len p <= 1280 ->
  exists s' err, netif_loop_output n p s = Some (s', err) /\ same_tables s s'.
Proof.
  intros Hp. unfold netif_loop_output. destruct (pbuf_alloc_ram _ _ _) as [[r|] s1] eqn:E; [|eauto using same_tables_alloc].
  pose proof (same_tables_alloc _ _ _ _ _ E) as H1.
  apply pbuf_alloc_ram_spec in E as (room & c & -> & Hr & Hc & _); [|unfold PBUF_LINK; lia..].
  unfold pk_copy. assert (pk_tot_len (Pkt room [c] true) = pk_tot_len p) as ->.
  { unfold pk_tot_len at 1, pk_octets. cbn [pk_chunks concat]. rewrite app_nil_r, Hc. rewrite Z2Nat.id by lia. apply u16_id. unfold is_u16. lia. }
  rewrite (proj2 (Z.leb_le _ _)) by lia. cbn [mbind option_bind]. do 2 eexists. split; [done|]. by etrans; [|apply same_tables_log].
Qed.

(** ** Sending a message *)

Section send.
Context `{driver : netif_driver6}.

(** The paths out of the interface take messages of 1280 octets. *)
Definition mtu_fits (n : netif) (s : net) : Prop :=
  nif_mtu6 n = 0 \/ forall dest, ip6_addr_isany dest = false -> 1280 <= nd6_get_destination_mtu dest (Some n) s.

Lemma ip6_transmit_message room c dest n s :
  (length c <= 1280)%nat -> mtu_fits n s -> ip6_addr_isany dest = false ->
  exists s' p' err, ip6_transmit (message room c) dest n s = Some (s', p', err) /\ same_tables s s'.
Proof.
  intros Hc Hm Hd. unfold ip6_transmit.
  assert (0 <= pk_tot_len (message room c) <= 1280) as Ht.
  { unfold pk_tot_len, pk_octets, message. cbn [pk_chunks concat]. rewrite app_nil_r, u16_id by (unfold is_u16; lia). lia. }
  destruct (is_own_addr n dest).
  { destruct (netif_loop_output_returns n (message room c) s Ht) as (s' & err & -> & Hs). cbn [mbind option_bind]. eauto. }
  assert (negb (nif_mtu6 n =? 0) && (nd6_get_destination_mtu dest (Some n) s <? pk_tot_len (message room c)) = false) as ->.
  { destruct (Z.eqb_spec (nif_mtu6 n) 0); [done|]. destruct Hm as [|Hm]; [done|]. specialize (Hm dest Hd).
    cbn [negb andb]. apply Z.ltb_ge. lia. }
  do 3 eexists. split; [done|apply same_tables_log].
Qed.

Lemma ip6_output_message room c src dest hl tc nexth n s :
  length room = 54%nat -> (length c <= 1240)%nat -> words4 (default ip6_addr_any src) -> words4 dest -> mtu_fits n s ->
  ip6_addr_isany dest = false ->
  (forall a, In a (nif_ip6_addr n) -> words4 (ip_2_ip6 a)) ->
  exists s' p' err, ip6_output_if (message room c) src (Some dest) hl tc nexth n s = Some (s', p', err) /\ same_tables s s'.
Proof.
  intros Hr Hc Hsrc Hdest Hm Hany Hn.
  assert (forall src, words4 (default ip6_addr_any src) ->
    exists s' p' err, ip6_output_if_src (message room c) src (Some dest) hl tc nexth n s = Some (s', p', err) /\ same_tables s s') as Hout.
  { clear src Hsrc. intros src Hsrc. unfold ip6_output_if_src.
    set (d := if ip6_addr_lacks_zone dest IP6_UNKNOWN then _ else _).
    assert (words4 d) by (unfold d; by destruct (ip6_addr_lacks_zone _ _)).
    assert (ip6_addr_isany d = false) by (unfold d; by destruct (ip6_addr_lacks_zone _ _)).
    unfold pk_add_header, pk_add_header_impl, message. cbn [pk_chunks pk_contig pk_room orb andb].
    rewrite (proj2 (Nat.leb_le _ _)) by (unfold IP6_HLEN; lia).
    set (q := Pkt _ _ _). change q with (message (take (length room - Z.to_nat IP6_HLEN) room) (drop (length room - Z.to_nat IP6_HLEN) room ++ c)).
    clear q. rewrite pk_len_message, length_app, length_drop. unfold IP6_HLEN.
    rewrite (proj2 (Z.leb_le _ _)) by lia.
    edestruct pk_write_message as (c' & -> & Hc'); [|cbn [mbind option_bind];
      destruct (ip6_transmit_message (take (length room - Z.to_nat 40) room) c' d n s) as (s' & p' & err & -> & Hs);
        [rewrite Hc', length_app, length_drop; lia|done|done|]; eauto].
    rewrite length_app, length_drop. rewrite header_length by done. lia. }
  unfold ip6_output_if. destruct src as [sr|]; [|by apply Hout].
  destruct (ip6_addr_isany sr); [|by apply Hout].
  destruct (ip6_select_source_address n dest) as [a|] eqn:Ea; [|do 3 eexists; by split].
  destruct (ip6_addr_isany (ip_2_ip6 a)); [do 3 eexists; by split|]. apply Hout. cbn [default].
  apply Hn. unfold ip6_select_source_address in Ea. revert Ea.
  assert (forall l best, select_loop dest l best = Some a -> (exists b, best = Some b /\ c_addr b = a) \/ In a (map fst l)) as Hin.
  { clear. induction l as [|[a' st] l IH]; cbn [select_loop map fst]; intros best.
    - destruct best as [b|]; [|done]. cbn [option_map]. intros [= <-]. left. eauto.
    - destruct (negb _); [intros ?%IH; naive_solver|]. destruct (_ && _); [intros [= ->]; right; by left|].
      intros [(b & Hb & <-)|]%IH; [|naive_solver]. destruct best as [b'|]; [|injection Hb as <-; right; by left].
      destruct (better _ _ _); injection Hb as <-; [right; by left|left; eauto]. }
  intros [(b & ? & _)|Hi]%Hin; [done|]. apply in_map_iff in Hi as ([a' st] & <- & Hi%in_combine_l). done.
Qed.


(** ** Well-formed interfaces *)

Record nif_good (n : netif) : Prop := {
  ng_hw : 0 <= nif_hwaddr_len n <= 6 /\ length (nif_hwaddr n) = 6%nat;
  ng_addrs : length (nif_ip6_addr n) = 3%nat /\ forall a, In a (nif_ip6_addr n) -> words4 (ip_2_ip6 a);
  ng_states : length (nif_ip6_addr_state n) = 3%nat;
  ng_lives : length (nif_ip6_addr_valid_life n) = 3%nat /\ Forall (Z.le 0) (nif_ip6_addr_valid_life n);
  ng_mtu : nif_mtu n = 0 \/ 1280 <= nif_mtu n;
  ng_mtu6 : nif_mtu6 n = 0 \/ 1280 <= nif_mtu6 n
}.

Definition no_destinations (s : net) : Prop :=
  Forall (fun d => ip6_addr_isany (dc_destination_addr d) = true) (destination_cache (nd6 s)).

Lemma find_entry_Some {A} (f : A -> bool) l i : find_entry f l = Some i -> exists e, l !! i = Some e /\ f e = true.
Proof.
  revert i. induction l as [|e l IH]; intros i; [done|]. cbn [find_entry]. destruct (f e) eqn:E; [intros [= <-]; eauto|].
  destruct (find_entry f l) as [j|]; [|done]. cbn. intros [= <-]. by apply IH.
Qed.

Lemma find_entry_None {A} (f : A -> bool) l : find_entry f l = None -> forall e, In e l -> f e = false.
Proof.
  induction l as [|e l IH]; [done|]. cbn [find_entry In]. destruct (f e) eqn:E; [done|].
  destruct (find_entry f l) as [j|]; [done|]. intros _ e' [<-|]; auto.
Qed.

Lemma isany_cmp a b : ip6_addr_cmp a b = true -> ip6_addr_isany a = ip6_addr_isany b.
Proof.
  unfold ip6_addr_cmp, ip6_addr_cmp_zoneless, ip6_addr_isany. rewrite !andb_true_iff, !Z.eqb_eq.
  intros [(((-> & ->) & ->) & ->) _]. done.
Qed.

Lemma mtu_fits_good n s : nif_good n -> no_destinations s -> mtu_fits n s.
Proof.
  intros Hn Hd. destruct (ng_mtu6 n Hn) as [|Hm]; [by left|right]. intros dest Hany. unfold nd6_get_destination_mtu.
  destruct (nd6_find_destination_cache_entry dest s) as [i|] eqn:Ei; [|done]. exfalso.
  apply find_entry_Some in Ei as (e & Hi & E). apply isany_cmp in E. unfold no_destinations in Hd.
  rewrite Forall_lookup in Hd. rewrite (Hd i e Hi) in E. congruence.
Qed.

Lemma multicast_dest words type i : words4 (Ip6Addr words 0) -> nth 0 words 0 <> 0 ->
  ip6_addr_isany (ip6_addr_assign_zone (Ip6Addr words 0) type i) = false.
Proof.
  intros _ H. unfold ip6_addr_isany, ip6_addr_assign_zone, ip6_word. cbn [ip6_words].
  by rewrite (proj2 (Z.eqb_neq _ _)).
Qed.

(** ** The three messages *)

Lemma nd6_transmit_returns room c src dest n s :
  length room = 54%nat -> (4 <= length c <= 1000)%nat -> words4 (default ip6_addr_any src) -> words4 dest ->
  nif_good n -> no_destinations s -> ip6_addr_isany dest = false ->
  exists s' err, nd6_transmit (message room c) src dest n s = Some (s', err) /\ same_tables s s'.
Proof.
  intros Hr Hc Hs Hd Hn Hds Hany. unfold nd6_transmit.
  edestruct (pk_write_message 2 (st16 (ip6_chksum_pseudo (pk_view (message room c)) IP6_NEXTH_ICMP6 (pk_len (message room c))
    (ip6_words (default ip6_addr_any src)) (ip6_words dest))) room c) as (c' & -> & Hc'); [cbn; lia|]. cbn [mbind option_bind].
  destruct (ip6_output_message room c' src dest ND6_HOPLIM 0 IP6_NEXTH_ICMP6 n s) as (s' & p' & err & -> & Hst);
    [done|lia|done|done|by apply mtu_fits_good|done|apply (ng_addrs n Hn)|]. cbn [mbind option_bind].
  do 2 eexists. split; [done|]. by etrans; [|apply same_tables_log].
Qed.

Lemma put_lladdr_returns hlen type len n room c :
  nif_good n -> (hlen + 8 <= length c)%nat ->
  exists c', put_lladdr hlen type len n (message room c) = Some (message room c') /\ length c' = length c.
Proof.
  intros Hn Hl. destruct (ng_hw n Hn) as [Hh Hw]. unfold put_lladdr.
  edestruct (pk_write_message hlen [type; u8 len] room c) as (c1 & -> & H1); [cbn; lia|]. cbn [mbind option_bind].
  rewrite (proj2 (Nat.leb_le _ _)) by lia.
  edestruct (pk_write_message (hlen + 2) (take (Z.to_nat (nif_hwaddr_len n)) (nif_hwaddr n)) room c1) as (c2 & -> & H2);
    [rewrite length_take; lia|]. exists c2. split; [done|lia].
Qed.

Lemma hw_cases n : nif_good n -> In (nif_hwaddr_len n) [0; 1; 2; 3; 4; 5; 6].
Proof.
  intros Hn. destruct (ng_hw n Hn) as [H _]. cbn [In]. set (h := nif_hwaddr_len n) in *. clearbody h. clear -H.
  assert (h = 0 \/ h = 1 \/ h = 2 \/ h = 3 \/ h = 4 \/ h = 5 \/ h = 6) by lia. intuition.
Qed.

Lemma lladdr_len_good n : nif_good n -> lladdr_len n = 1 /\ Z.shiftr (nif_hwaddr_len n + 2 + 7) 3 = 1.
Proof. intros H%hw_cases. unfold lladdr_len. cbn [In] in H. by destruct H as [<-|[<-|[<-|[<-|[<-|[<-|[<-|[]]]]]]]]. Qed.

Lemma first_valid_words n a : nif_good n -> first_valid n = Some a -> words4 a.
Proof.
  intros Hn. unfold first_valid. destruct (nif_ip6_addr_state n); [done|]. destruct (nif_ip6_addr n) eqn:E; [done|].
  destruct (ip6_addr_isvalid _); [|done]. intros [= <-]. apply (ng_addrs n Hn). rewrite E. by left.
Qed.

Lemma message_put_words room c h a : words4 a -> (length h + 16 <= length c)%nat ->
  exists c', pk_write 0 (h ++ words_octets (ip6_words a)) (message room c) = Some (message room c') /\ length c' = length c.
Proof. intros Ha Hl. apply pk_write_message. rewrite length_app, words_octets_length, Ha. lia. Qed.

Lemma shiftl_3 l : Z.shiftl l 3 = 8 * l.
Proof. rewrite Z.shiftl_mul_pow2 by lia. lia. Qed.

Lemma nd6_send_ns_returns n target flags s :
  nif_good n -> no_destinations s -> words4 target ->
  flagset flags ND6_SEND_FLAG_MULTICAST_DEST = true \/ ip6_addr_isany target = false ->
  exists s', nd6_send_ns n target flags s = Some s' /\ same_tables s s'.
Proof.
  intros Hn Hd Ht Hf. unfold nd6_send_ns. destruct (lladdr_len_good n Hn) as [_ ->].
  set (src := if flagset flags _ then _ else _).
  assert (Hsrc : words4 (default ip6_addr_any src)).
  { unfold src. destruct (flagset flags ND6_SEND_FLAG_ANY_SRC); [done|].
    destruct (first_valid n) eqn:E; [by eapply first_valid_words|done]. }
  set (len := match src with Some _ => 1 | None => 0 end).
  assert (Hlen : len = 0 \/ len = 1) by (unfold len; destruct src; lia). clearbody len.
  destruct (pbuf_alloc_ram PBUF_IP (NS_HLEN + Z.shiftl len 3) s) as [[p|] s1] eqn:E; [|eauto using same_tables_alloc].
  pose proof (same_tables_alloc _ _ _ _ _ E) as H1.
  assert (no_destinations s1) as Hd1 by (destruct H1 as (_ & H1 & _); unfold no_destinations; by rewrite H1).
  rewrite shiftl_3 in E. apply alloc_message in E as (room & c & -> & Hr & Hc); [|unfold NS_HLEN; lia]. unfold NS_HLEN in Hc.
  change ([ICMP6_TYPE_NS; 0] ++ st16 0 ++ st32 0 ++ words_octets (ip6_words target))
    with (([ICMP6_TYPE_NS; 0] ++ st16 0 ++ st32 0) ++ words_octets (ip6_words target)).
  destruct (message_put_words room c ([ICMP6_TYPE_NS; 0] ++ st16 0 ++ st32 0) target Ht) as (c1 & -> & Hc1);
    [cbn; lia|]. cbn [mbind option_bind].
  assert (exists c2, (if len =? 0 then Some (message room c1)
     else put_lladdr 24 ND6_OPTION_TYPE_SOURCE_LLADDR len n (message room c1)) = Some (message room c2) /\ length c2 = length c1)
    as (c2 & -> & Hc2).
  { destruct (Z.eqb_spec len 0); [eauto|]. apply put_lladdr_returns; [done|lia]. }
  cbn [mbind option_bind].
  set (dest := if flagset flags ND6_SEND_FLAG_MULTICAST_DEST then _ else _).
  assert (words4 dest /\ ip6_addr_isany dest = false) as [Hw Ha].
  { unfold dest. destruct (flagset flags ND6_SEND_FLAG_MULTICAST_DEST); [|split; [done|by destruct Hf]].
    split; [done|]. by apply multicast_dest. }
  destruct (nd6_transmit_returns room c2 src dest n s1) as (s' & err & -> & Hs);
    [done|lia|done|done|done|done|done|cbn [mbind option_bind]; eexists; split; [done|by etrans]].
Qed.

Lemma nd6_send_na_returns n target flags s :
  nif_good n -> no_destinations s -> words4 target -> words4 (current_src s) ->
  flagset flags ND6_SEND_FLAG_MULTICAST_DEST = true \/ flagset flags ND6_SEND_FLAG_ALLNODES_DEST = true \/
    ip6_addr_isany (current_src s) = false ->
  exists s', nd6_send_na n target flags s = Some s' /\ same_tables s s'.
Proof.
  intros Hn Hd Ht Hcur Hf. unfold nd6_send_na. destruct (lladdr_len_good n Hn) as [-> _].
  rewrite shiftl_3. destruct (pbuf_alloc_ram PBUF_IP (NA_HLEN + 8 * 1) s) as [[p|] s1] eqn:E; [|eauto using same_tables_alloc].
  pose proof (same_tables_alloc _ _ _ _ _ E) as H1.
  assert (no_destinations s1) as Hd1 by (destruct H1 as (_ & H1 & _); unfold no_destinations; by rewrite H1).
  apply alloc_message in E as (room & c & -> & Hr & Hc); [|unfold NA_HLEN; lia]. unfold NA_HLEN in Hc.
  change ([ICMP6_TYPE_NA; 0] ++ st16 0 ++ [Z.land flags 240; 0; 0; 0] ++ words_octets (ip6_words target))
    with (([ICMP6_TYPE_NA; 0] ++ st16 0 ++ [Z.land flags 240; 0; 0; 0]) ++ words_octets (ip6_words target)).
  destruct (message_put_words room c ([ICMP6_TYPE_NA; 0] ++ st16 0 ++ [Z.land flags 240; 0; 0; 0]) target Ht) as (c1 & -> & Hc1);
    [cbn; lia|]. cbn [mbind option_bind].
  destruct (put_lladdr_returns 24 ND6_OPTION_TYPE_TARGET_LLADDR 1 n room c1 Hn) as (c2 & -> & Hc2); [lia|].
  cbn [mbind option_bind].
  set (dest := if flagset flags ND6_SEND_FLAG_MULTICAST_DEST then _ else _).
  assert (words4 dest /\ ip6_addr_isany dest = false) as [Hw Ha].
  { unfold dest. change (ip_2_ip6 (current_iphdr_src (ip_data s1))) with (current_src s1).
    assert (current_src s1 = current_src s) as -> by (destruct H1 as (_ & _ & H1 & _); unfold current_src; by rewrite H1).
    destruct (flagset flags ND6_SEND_FLAG_MULTICAST_DEST); [split; [done|by apply multicast_dest]|].
    destruct (flagset flags ND6_SEND_FLAG_ALLNODES_DEST); [split; [done|by apply multicast_dest]|].
    split; [done|]. destruct Hf as [|[|]]; done. }
  destruct (nd6_transmit_returns room c2 (Some target) dest n s1) as (s' & err & -> & Hs);
    [done|lia|done|done|done|done|done|]. cbn [mbind option_bind]. eexists. split; [done|by etrans].
Qed.

Lemma nd6_send_rs_returns n s :
  nif_good n -> no_destinations s -> exists s' err, nd6_send_rs n s = Some (s', err) /\ same_tables s s'.
Proof.
  intros Hn Hd. unfold nd6_send_rs. destruct (lladdr_len_good n Hn) as [-> _].
  assert (Hsrc : words4 (default ip6_addr_any (first_valid n)))
    by (destruct (first_valid n) eqn:E; [by eapply first_valid_words|done]).
  set (len := match first_valid n with Some _ => 1 | None => 0 end). rewrite shiftl_3.
  assert (Hlen : len = 0 /\ first_valid n = None \/ len = 1) by (unfold len; destruct (first_valid n); auto).
  destruct (pbuf_alloc_ram PBUF_IP (RS_HLEN + 8 * len) s) as [[p|] s1] eqn:E; [|eauto using same_tables_alloc].
  pose proof (same_tables_alloc _ _ _ _ _ E) as H1.
  assert (no_destinations s1) as Hd1 by (destruct H1 as (_ & H1 & _); unfold no_destinations; by rewrite H1).
  clearbody len. apply alloc_message in E as (room & c & -> & Hr & Hc); [|unfold RS_HLEN; lia]. unfold RS_HLEN in Hc.
  destruct (pk_write_message 0 ([ICMP6_TYPE_RS; 0] ++ st16 0 ++ st32 0) room c) as (c1 & -> & Hc1);
    [cbn; lia|]. cbn [mbind option_bind].
  assert (exists c2, match first_valid n with
     | Some _ => put_lladdr 8 ND6_OPTION_TYPE_SOURCE_LLADDR len n (message room c1)
     | None => Some (message room c1) end = Some (message room c2) /\ length c2 = length c1) as (c2 & -> & Hc2).
  { destruct (first_valid n); [|eauto]. apply put_lladdr_returns; [done|]. destruct Hlen as [[_ ?]|]; [done|lia]. }
  cbn [mbind option_bind].
  destruct (nd6_transmit_returns room c2 (first_valid n)
    (ip6_addr_assign_zone ip6_addr_allrouters_linklocal IP6_MULTICAST (netif_get_index n)) n s1) as (s' & err & -> & Hs);
    [done|lia|done|done|done|done|by apply multicast_dest|].
  do 2 eexists. split; [done|by etrans].
Qed.

End send.
