(* ===== verification/Nd6Safe.v ===== *)
(** * Neighbor discovery is safe (core/c/core/ipv6/nd6.c)

    The invariant [nd6_ok] of the tables: no entry that is in use names an interface
    that is gone, the routers of the list are entries of the neighbor cache that
    are marked as routers, each once, and an entry that is probed has an address.
    Messages, the timer, lookups and the coming and going of interfaces
    return and keep it.  [nd6_get_next_hop_addr_or_queue], which fills the
    destination cache and the queues, is called by ethip6.c only, which
    this build leaves out (no ARP, no Ethernet): both stay empty, and the invariant
    says so. *)

From S2P Require Import Prelude Err Def IpAddr NetifDefs Ip6Addr Chksum Pbuf Packet IpHdr Ip6Hdr Icmp6Hdr Nd6Defs Net Nd6Cache Netif Ip6 Icmp Nd6 Nd6Spec.

(** ** The invariant *)

Record neighbor_ok (ptrs : list Z) (e : nd6_neighbor_cache_entry) : Prop := {
  ne_netif : nc_state e <> ND6_NO_ENTRY -> exists ptr, nc_netif e = Some ptr /\ In ptr ptrs;
  ne_free : nc_state e = ND6_NO_ENTRY -> nc_isrouter e = false /\ ip6_addr_isany (nc_next_hop_address e) = true;
  ne_probed : nc_state e = ND6_DELAY \/ nc_state e = ND6_PROBE -> ip6_addr_isany (nc_next_hop_address e) = false;
  ne_words : words4 (nc_next_hop_address e);
  ne_lladdr : length (nc_lladdr e) = 6%nat;
  ne_q : nc_q e = []
}.

(** The router entry [i] names neighbor [k]. *)
Definition names (d : nd6_data) (i k : nat) : Prop :=
  exists r, default_router_list d !! i = Some r /\ dr_neighbor_entry r = Some k.

Record tables_ok (ptrs : list Z) (d : nd6_data) : Prop := {
  to_lengths : length (neighbor_cache d) = LWIP_ND6_NUM_NEIGHBORS /\
               length (destination_cache d) = LWIP_ND6_NUM_DESTINATIONS /\
               length (default_router_list d) = LWIP_ND6_NUM_ROUTERS;
  to_cached : (nd6_cached_neighbor_index d < LWIP_ND6_NUM_NEIGHBORS)%nat /\
              (nd6_cached_destination_index d < LWIP_ND6_NUM_DESTINATIONS)%nat /\
              (last_router d < LWIP_ND6_NUM_ROUTERS)%nat;
  to_neighbors : forall i e, neighbor_cache d !! i = Some e -> neighbor_ok ptrs e;
  to_destinations : Forall (fun c => ip6_addr_isany (dc_destination_addr c) = true) (destination_cache d);
  to_routers : forall i k, names d i k -> exists e, neighbor_cache d !! k = Some e /\ nc_isrouter e = true;
  to_once : forall i j k, names d i k -> names d j k -> i = j;
  to_prefixes : forall i e ptr, prefix_list d !! i = Some e -> pl_netif e = Some ptr -> In ptr ptrs
}.

Definition ptrs (s : net) : list Z := map nif_ptr (netif_list s).

Record nd6_ok (s : net) : Prop := {
  no_netifs : Forall nif_good (netif_list s);
  no_tables : tables_ok (ptrs s) (nd6 s)
}.

(** What no step here changes. *)
Definition kept (s s' : net) : Prop := ptrs s' = ptrs s /\ ip_data s' = ip_data s.

#[export] Instance kept_preorder : PreOrder kept.
Proof. split; [by intros ?|]. intros s1 s2 s3 [??] [??]. split; congruence. Qed.

(** A step from [s] returns and keeps the invariant; [st]: the state in the
    result. *)
Definition keeps {A} (st : A -> net) (s : net) (m : option A) : Prop :=
  exists a, m = Some a /\ nd6_ok (st a) /\ kept s (st a).
Abbreviation ok_step := (keeps (fun s' => s')).

Lemma keeps_Some {A} (st : A -> net) s a : nd6_ok (st a) -> kept s (st a) -> keeps st s (Some a).
Proof. unfold keeps. eauto. Qed.

Lemma keeps_here s : nd6_ok s -> ok_step s (Some s).
Proof. intros. by apply keeps_Some. Qed.

Lemma keeps_from {A} (st : A -> net) s s1 m : kept s s1 -> keeps st s1 m -> keeps st s m.
Proof. intros H (a & -> & ? & ?). apply keeps_Some; [done|by etrans]. Qed.

Lemma keeps_bind {A B} (st : A -> net) (st' : B -> net) s m (f : A -> option B) :
  keeps st s m -> (forall a, nd6_ok (st a) -> kept s (st a) -> keeps st' (st a) (f a)) -> keeps st' s (m ≫= f).
Proof. intros (a & -> & Ha & Hk) Hf. cbn [mbind option_bind]. eapply keeps_from; [done|]. by apply Hf. Qed.

Lemma then_ok {B} (st : B -> net) s m (f : net -> option B) :
  ok_step s m -> (forall s', nd6_ok s' -> kept s s' -> keeps st s' (f s')) -> keeps st s (m ≫= f).
Proof. apply keeps_bind. Qed.

Lemma then_pure {B} (st : B -> net) s s1 (m : option B) :
  ok_step s (Some s1) -> (nd6_ok s1 -> kept s s1 -> keeps st s1 m) -> keeps st s m.
Proof. intros (s' & [= <-] & H1 & H2) Hm. eapply keeps_from; [done|]. by apply Hm. Qed.

(** ** Steps that touch the tables little *)

Lemma nd6_ok_same s s' : same_tables s s' -> nd6_ok s -> nd6_ok s'.
Proof. intros (El & En & _) [H1 H2]. split; unfold ptrs in *; by rewrite El, ?En. Qed.

Lemma kept_same s s' : same_tables s s' -> kept s s'.
Proof. intros (El & _ & Ed & _). by split; [unfold ptrs; rewrite El|]. Qed.

Lemma keeps_same s m : nd6_ok s -> (exists s', m = Some s' /\ same_tables s s') -> ok_step s m.
Proof. intros Hs (s' & -> & H). apply keeps_Some; [by eapply nd6_ok_same|by apply kept_same]. Qed.

Lemma nd6_ok_no_destinations s : nd6_ok s -> no_destinations s.
Proof. intros [_ H]. apply (to_destinations _ _ H). Qed.

Lemma netif_at_good s ptr : nd6_ok s -> In ptr (ptrs s) -> exists n, netif_at ptr s = Some n /\ nif_good n /\ nif_ptr n = ptr.
Proof.
  intros [Hs _] Hin. unfold ptrs, netif_at in *. induction (netif_list s) as [|n l IH]; [done|].
  inversion Hs; subst. cbn [List.find]. destruct (Z.eqb_spec (nif_ptr n) ptr); [eauto|].
  destruct Hin as [|Hin]; [done|]. auto.
Qed.

Lemma ptrs_update ptr f s : (forall n, nif_ptr (f n) = nif_ptr n) -> ptrs (netif_update ptr f s) = ptrs s.
Proof.
  intros Hf. unfold ptrs, netif_update. cbn. rewrite map_map. apply map_ext.
  intros n. destruct (_ =? _); [apply Hf|done].
Qed.

Lemma netif_update_ok ptr f s : nd6_ok s -> (forall n, nif_ptr (f n) = nif_ptr n) ->
  (forall n, netif_at ptr s = Some n \/ In n (netif_list s) -> nif_good n -> nif_good (f n)) -> nd6_ok (netif_update ptr f s).
Proof.
  intros [H1 H2] Hp Hf. split; [|by rewrite ptrs_update].
  unfold netif_update. cbn. rewrite Forall_forall in *. intros n' Hin. apply list_elem_of_In, in_map_iff in Hin as (n & <- & Hin).
  destruct (_ =? _); [apply Hf; [by right|]|]; apply H1; by apply list_elem_of_In.
Qed.

Lemma netif_update_keeps ptr f s : nd6_ok s -> (forall n, nif_ptr (f n) = nif_ptr n) ->
  (forall n, nif_good n -> nif_good (f n)) -> ok_step s (Some (netif_update ptr f s)).
Proof. intros Hs Hp Hf. apply keeps_Some; [apply netif_update_ok; auto|split; [by apply ptrs_update|done]]. Qed.

(** *** The neighbor cache *)

(** No router entry names [k]. *)
Definition unnamed (k : nat) (s : net) : Prop := forall i, ~ names (nd6 s) i k.

Lemma set_neighbor_ok i f s : nd6_ok s ->
  (forall e, neighbor_cache (nd6 s) !! i = Some e -> neighbor_ok (ptrs s) e -> neighbor_ok (ptrs s) (f e)) ->
  (forall e, neighbor_cache (nd6 s) !! i = Some e -> nc_isrouter e = true -> nc_isrouter (f e) = true \/ unnamed i s) ->
  nd6_ok (set_neighbor i f s).
Proof.
  intros [Hn H] Hf Hr. split; [done|]. destruct H. constructor; cbn; try done.
  - by rewrite length_alter.
  - intros j e He. destruct (decide (j = i)) as [-> |].
    + rewrite list_lookup_alter_eq in He. apply fmap_Some in He as (e0 & He0 & ->). eauto.
    + rewrite list_lookup_alter_ne in He by done. eauto.
  - intros j k Hk. destruct (to_routers0 j k Hk) as (e & He & Hir). destruct (decide (k = i)) as [-> |].
    + exists (f e). rewrite list_lookup_alter_eq, He. split; [done|]. destruct (Hr e He Hir) as [|U]; [done|].
      destruct (U j Hk).
    + exists e. by rewrite list_lookup_alter_ne.
Qed.

Lemma kept_set_neighbor i f s : kept s (set_neighbor i f s).
Proof. done. Qed.
Lemma kept_set_router i f s : kept s (set_router i f s).
Proof. done. Qed.

Lemma neighbor_at s i : nd6_ok s -> (i < LWIP_ND6_NUM_NEIGHBORS)%nat ->
  exists e, neighbor_cache (nd6 s) !! i = Some e /\ neighbor_ok (ptrs s) e.
Proof.
  intros Hs Hi. destruct (to_lengths _ _ (no_tables s Hs)) as [Hl _]. rewrite <- Hl in Hi.
  destruct (lookup_lt_is_Some_2 _ _ Hi) as [e He]. exists e. split; [done|]. by apply (to_neighbors _ _ (no_tables s Hs) i).
Qed.

Lemma neighbor_lt s i e : nd6_ok s -> neighbor_cache (nd6 s) !! i = Some e -> (i < LWIP_ND6_NUM_NEIGHBORS)%nat.
Proof. intros Hs He%lookup_lt_Some. destruct (to_lengths _ _ (no_tables s Hs)) as [Hl _]. by rewrite Hl in He. Qed.

Lemma find_neighbor a s i : nd6_find_neighbor_cache_entry a s = Some i ->
  exists e, neighbor_cache (nd6 s) !! i = Some e /\ ip6_addr_isany a = ip6_addr_isany (nc_next_hop_address e).
Proof. intros (e & He & Hc%isany_cmp)%find_entry_Some. eauto. Qed.

(** Only entries marked as routers are named. *)
Lemma unnamed_entry s i e : nd6_ok s -> neighbor_cache (nd6 s) !! i = Some e -> nc_isrouter e = false -> unnamed i s.
Proof. intros Hs He Hr j Hj. destruct (to_routers _ _ (no_tables s Hs) j i Hj) as (e' & He' & Hr'). congruence. Qed.

Lemma neighbor_free_ok ps e : neighbor_ok ps e ->
  neighbor_ok ps (e <| nc_q := [] |> <| nc_state := ND6_NO_ENTRY |> <| nc_isrouter := false |> <| nc_netif := None |>
                    <| nc_counter := 0 |> <| nc_next_hop_address := ip6_addr_zero |>).
Proof. intros []. constructor; cbn; try done. by intros []. Qed.

Lemma nd6_free_ok i s : nd6_ok s -> nd6_ok (nd6_free_neighbor_cache_entry i s).
Proof.
  intros Hs. unfold nd6_free_neighbor_cache_entry. destruct (neighbor_cache (nd6 s) !! i) as [e|] eqn:He; [|done].
  destruct (nc_isrouter e) eqn:Hr; [done|].
  assert (nd6_ok (nd6_free_q (nc_q e) s)) as Hs1 by (eapply nd6_ok_same; [apply same_tables_log|done]).
  apply set_neighbor_ok; [done|by intros; apply neighbor_free_ok|]. intros e' He' Hr'.
  change (neighbor_cache (nd6 s) !! i = Some e') in He'. congruence.
Qed.

Lemma nd6_free_kept i s : kept s (nd6_free_neighbor_cache_entry i s).
Proof.
  unfold nd6_free_neighbor_cache_entry. destruct (_ !! i) as [e|]; [|done]. by destruct (nc_isrouter e).
Qed.

Lemma find_entry_evictable l st i : find_entry (evictable st) l = Some i ->
  exists e, l !! i = Some e /\ nc_isrouter e = false.
Proof.
  intros (e & He & Hev)%find_entry_Some. exists e. split; [done|]. unfold evictable in Hev.
  apply andb_true_iff in Hev as [_ Hr]. by destruct (nc_isrouter e).
Qed.

Lemma pick_entry_ok ok beats l i time j k : (forall e, ok e = true -> nc_isrouter e = false) ->
  pick_entry ok beats l i time j = Some k -> j = Some k \/ exists e, (i <= k)%nat /\ l !! (k - i)%nat = Some e /\ nc_isrouter e = false.
Proof.
  intros Hok. revert i time j. induction l as [|e l IH]; intros i time j; cbn [pick_entry]; [by left|].
  assert (forall e', l !! (k - S i)%nat = Some e' -> (S i <= k)%nat -> (e :: l) !! (k - i)%nat = Some e') as Hs.
  { intros e' He Hle. replace (k - i)%nat with (S (k - S i)) by lia. done. }
  destruct (ok e && _) eqn:E.
  - apply andb_true_iff in E as [E _]. intros [[= <-]|(e' & Hle & He & Hr)]%IH; right.
    + exists e. rewrite Nat.sub_diag. auto.
    + exists e'. split_and!; [lia|auto|done].
  - intros [->|(e' & Hle & He & Hr)]%IH; [by left|right]. exists e'. split_and!; [lia|auto|done].
Qed.

(** The entry that is given up exists and is not a router's. *)
Lemma victim_not_router l i : victim l = Some i -> exists e, l !! i = Some e /\ nc_isrouter e = false.
Proof.
  unfold victim.
  destruct (find_entry (evictable ND6_STALE) l) eqn:?; [intros [= <-]; by eapply find_entry_evictable|].
  destruct (find_entry (evictable ND6_PROBE) l) eqn:?; [intros [= <-]; by eapply find_entry_evictable|].
  destruct (find_entry (evictable ND6_DELAY) l) eqn:?; [intros [= <-]; by eapply find_entry_evictable|].
  assert (forall st e, evictable st e = true -> nc_isrouter e = false) as Hev.
  { intros st e [_ H]%andb_true_iff. by destruct (nc_isrouter e). }
  assert (forall ok beats t k, (forall e, ok e = true -> nc_isrouter e = false) -> pick_entry ok beats l 0 t None = Some k ->
    exists e, l !! k = Some e /\ nc_isrouter e = false) as Hp.
  { intros ok beats t k Hok [|(e & _ & He & Hr)]%pick_entry_ok; [done| |done]. rewrite Nat.sub_0_r in He. eauto. }
  destruct (pick_entry _ Z.ltb l 0 _ None) eqn:E1; [intros [= <-]; eapply Hp, E1; apply Hev|].
  destruct (pick_entry _ Z.geb l 0 0 None) eqn:E2; [intros [= <-]; eapply Hp, E2|intros E3; eapply Hp, E3; apply Hev].
  intros e. cbn beta. destruct (nc_q e); [apply Hev|done].
Qed.

(** A new entry is free, and everything is in order. *)
Lemma nd6_new_neighbor_ok s i s' : nd6_ok s -> nd6_new_neighbor_cache_entry s = (i, s') ->
  nd6_ok s' /\ kept s s' /\ forall k, i = Some k -> exists e, neighbor_cache (nd6 s') !! k = Some e /\ nc_state e = ND6_NO_ENTRY.
Proof.
  intros Hs. unfold nd6_new_neighbor_cache_entry.
  destruct (find_entry (in_state ND6_NO_ENTRY) _) as [k|] eqn:E.
  { intros [= <- <-]. split_and!; [done..|]. intros k' [= <-]. apply find_entry_Some in E as (e & He & Hst).
    exists e. split; [done|]. by apply bool_decide_eq_true in Hst. }
  destruct (victim _) as [k|] eqn:Ev; intros [= <- <-]; [|split_and!; done].
  split_and!; [by apply nd6_free_ok|by apply nd6_free_kept|]. intros k' [= <-].
  apply victim_not_router in Ev as (e & He & Hr). unfold nd6_free_neighbor_cache_entry. rewrite He, Hr.
  eexists. cbn. rewrite list_lookup_alter_eq, He. split; done.
Qed.

(** *** Changes of one entry *)

Lemma set_neighbor_set i f g s : set_neighbor i f (set_neighbor i g s) = set_neighbor i (f ∘ g) s.
Proof. unfold set_neighbor. cbn. rewrite list_alter_alter_eq. done. Qed.

Lemma set_neighbor_keeps i f s : nd6_ok s ->
  (forall e, neighbor_cache (nd6 s) !! i = Some e -> neighbor_ok (ptrs s) e ->
             neighbor_ok (ptrs s) (f e) /\ (nc_isrouter e = true -> nc_isrouter (f e) = true)) ->
  ok_step s (Some (set_neighbor i f s)).
Proof.
  intros Hs Hf. apply keeps_Some; [|done].
  apply set_neighbor_ok; [done|intros e He Hok; by destruct (Hf e He Hok)|].
  intros e He. left. by destruct (Hf e He (to_neighbors _ _ (no_tables s Hs) i e He)) as [_ Hr]; auto.
Qed.

(** An entry gets an interface, an address and a state it may be used in. *)
Lemma neighbor_used ps e a ptr l st c : neighbor_ok ps e -> In ptr ps -> words4 a -> length l = 6%nat ->
  st <> ND6_NO_ENTRY -> (st = ND6_DELAY \/ st = ND6_PROBE -> ip6_addr_isany a = false) ->
  neighbor_ok ps (Neighbor a (Some ptr) l [] st (nc_isrouter e) c).
Proof. intros [] Hp Ha Hl Hst Hany. constructor; cbn; eauto; try done. Qed.

Section steps.
Context `{driver : netif_driver6} `{mem : memory} `{users : address_users}.
Hypothesis users_keep : forall a b s, exists s', netif_do_ip_addr_changed a b s = Some s' /\ same_tables s s'.
Hypothesis memory_behind : forall p, (48 <= length (octets_behind p))%nat.

Lemma nd6_send_ns_ok n target flags s : nd6_ok s -> nif_good n -> words4 target ->
  flagset flags ND6_SEND_FLAG_MULTICAST_DEST = true \/ ip6_addr_isany target = false ->
  ok_step s (nd6_send_ns n target flags s).
Proof. intros. apply keeps_same; [done|]. apply nd6_send_ns_returns; auto using nd6_ok_no_destinations. Qed.

Lemma nd6_send_na_ok n target flags s : nd6_ok s -> nif_good n -> words4 target -> words4 (current_src s) ->
  flagset flags ND6_SEND_FLAG_ALLNODES_DEST = true \/ ip6_addr_isany (current_src s) = false ->
  ok_step s (nd6_send_na n target flags s).
Proof. intros. apply keeps_same; [done|]. apply nd6_send_na_returns; auto using nd6_ok_no_destinations. Qed.

Lemma nd6_send_rs_ok n s : nd6_ok s -> nif_good n -> keeps fst s (nd6_send_rs n s).
Proof.
  intros Hs Hn. destruct (nd6_send_rs_returns n s Hn (nd6_ok_no_destinations s Hs)) as (s' & err & -> & H).
  apply keeps_Some; [by eapply nd6_ok_same|by apply kept_same].
Qed.

Lemma probe_same i flags s e : nd6_ok s -> neighbor_cache (nd6 s) !! i = Some e -> nc_state e <> ND6_NO_ENTRY ->
  flagset flags ND6_SEND_FLAG_MULTICAST_DEST = true \/ ip6_addr_isany (nc_next_hop_address e) = false ->
  exists s', nd6_send_neighbor_cache_probe i flags s = Some s' /\ same_tables s s'.
Proof.
  intros Hs He Hst Hf. unfold nd6_send_neighbor_cache_probe. rewrite He. cbn [mbind option_bind].
  pose proof (to_neighbors _ _ (no_tables s Hs) i e He) as Hok.
  destruct (ne_netif _ _ Hok Hst) as (ptr & -> & Hin). cbn [mbind option_bind].
  destruct (netif_at_good s ptr Hs Hin) as (n & -> & Hn & _). cbn [mbind option_bind].
  apply nd6_send_ns_returns; auto using nd6_ok_no_destinations. apply (ne_words _ _ Hok).
Qed.

Lemma probe_ok i flags s e : nd6_ok s -> neighbor_cache (nd6 s) !! i = Some e -> nc_state e <> ND6_NO_ENTRY ->
  flagset flags ND6_SEND_FLAG_MULTICAST_DEST = true \/ ip6_addr_isany (nc_next_hop_address e) = false ->
  ok_step s (nd6_send_neighbor_cache_probe i flags s).
Proof. intros. apply keeps_same; [done|]. by eapply probe_same. Qed.

Lemma nd6_send_q_ok i s : nd6_ok s -> nd6_send_q i s = Some s.
Proof.
  intros Hs. unfold nd6_send_q. destruct (_ !! i) as [e|] eqn:He; [|done].
  by rewrite (ne_q _ _ (to_neighbors _ _ (no_tables s Hs) i e He)).
Qed.

(** ** Addresses *)

Ltac at_ptr s ptr n := destruct (netif_at_good s ptr) as (n & -> & ? & ?); [done|done|]; cbn [mbind option_bind].

(** Lists of one length: a slot. *)
Lemma slot_at {A} (l : list A) i : length l = 3%nat -> (i < 3)%nat -> exists a, l !! i = Some a.
Proof. intros Hl Hi. rewrite <- Hl in Hi. by apply lookup_lt_is_Some_2 in Hi. Qed.

Lemma set_state_ok ptr i st s : nd6_ok s -> In ptr (ptrs s) -> (i < 3)%nat -> ok_step s (netif_ip6_addr_set_state ptr i st s).
Proof.
  intros Hs Hp Hi. unfold netif_ip6_addr_set_state. at_ptr s ptr n.
  destruct (slot_at (nif_ip6_addr_state n) i) as (old & ->); [by apply ng_states|done|]. cbn [mbind option_bind].
  destruct (old =? st); [by apply keeps_here|].
  eapply then_ok; [|intros s1 Hs1 _; apply netif_update_keeps; [done|done|]].
  - destruct (_ && _); [|by apply keeps_here].
    destruct (slot_at (nif_ip6_addr n) i) as (a & ->); [by apply ng_addrs|done|]. cbn [mbind option_bind].
    apply keeps_same; [done|apply users_keep].
  - intros m []. constructor; cbn; try done. by rewrite length_insert.
Qed.

Lemma set_valid_life_ok ptr i v s : nd6_ok s -> 0 <= v -> nd6_ok (set_valid_life ptr i v s).
Proof.
  intros. apply netif_update_ok; [done..|]. intros n _ []. constructor; cbn; try done.
  destruct ng_lives as [Hl Hf]. split; [by rewrite length_insert|apply Forall_insert; by destruct_and?].
Qed.
Lemma set_pref_life_ok ptr i v s : nd6_ok s -> nd6_ok (set_pref_life ptr i v s).
Proof. intros. apply netif_update_ok; [done..|]. intros n _ []. by constructor. Qed.
Lemma set_valid_life_kept ptr i v s : kept s (set_valid_life ptr i v s).
Proof. split; [by apply ptrs_update|done]. Qed.
Lemma set_pref_life_kept ptr i v s : kept s (set_pref_life ptr i v s).
Proof. split; [by apply ptrs_update|done]. Qed.

Lemma duplicate_others_ok ptr idxs s : nd6_ok s -> In ptr (ptrs s) -> Forall (fun i => (i < 3)%nat) idxs ->
  ok_step s (duplicate_others ptr idxs s).
Proof.
  intros Hs Hp Hi. revert s Hs Hp. induction Hi as [|i idxs Hi _ IH]; intros s Hs Hp; cbn [duplicate_others]; [by apply keeps_here|].
  at_ptr s ptr n. destruct (slot_at (nif_ip6_addr_state n) i) as (st & ->); [by apply ng_states|done|]. cbn [mbind option_bind].
  eapply then_ok; [|intros s1 Hs1 [Hk _]; apply IH; [done|by rewrite Hk]].
  destruct (_ && _); [by apply set_state_ok|by apply keeps_here].
Qed.

Lemma nd6_duplicate_ok ptr i s : nd6_ok s -> In ptr (ptrs s) -> (i < 3)%nat -> ok_step s (nd6_duplicate_addr_detected ptr i s).
Proof.
  intros Hs Hp Hi. unfold nd6_duplicate_addr_detected. eapply then_ok; [by apply set_state_ok|].
  intros s1 Hs1 [Hk _]. destruct (_ =? _)%nat; [|by apply keeps_here].
  apply duplicate_others_ok; [done|by rewrite Hk|]. repeat constructor; lia.
Qed.

Lemma ip6_slots_lt n i p : nif_good n -> In (i, p) (ip6_slots n) -> (i < 3)%nat.
Proof.
  intros Hn Hin%in_combine_l%in_seq. destruct (ng_addrs n Hn) as [Hl _]. lia.
Qed.

Lemma find_slot_lt {A} (f : A -> bool) l i k : (length l <= k)%nat -> find_entry f l = Some i -> (i < k)%nat.
Proof. intros Hl (e & He%lookup_lt_Some & _)%find_entry_Some. lia. Qed.

Lemma ip6_slots_length n : nif_good n -> length (ip6_slots n) = 3%nat.
Proof.
  intros Hn. unfold ip6_slots. rewrite !length_combine, length_seq.
  destruct (ng_addrs n Hn) as [-> _]. by rewrite (ng_states n Hn).
Qed.

Lemma autoconf_slot_lt a n i : nif_good n -> autoconf_slot a n = Some i -> (i < 3)%nat.
Proof.
  intros Hn. unfold autoconf_slot. destruct (find_entry _ _) as [k|] eqn:E; [|done]. intros [= <-].
  apply find_slot_lt with (k := 2%nat) in E; [lia|]. by rewrite length_drop, ip6_slots_length.
Qed.

Lemma netif_at_update ptr f s n : (forall n, nif_ptr (f n) = nif_ptr n) -> netif_at ptr s = Some n ->
  netif_at ptr (netif_update ptr f s) = Some (f n).
Proof.
  intros Hf. unfold netif_at, netif_update. cbn. induction (netif_list s) as [|m l IH]; [done|]. cbn [List.find map].
  destruct (Z.eqb_spec (nif_ptr m) ptr) as [E|E].
  - intros [= <-]. by rewrite Hf, (proj2 (Z.eqb_eq _ _) E).
  - intros H. by rewrite (proj2 (Z.eqb_neq _ _) E), IH.
Qed.

Lemma htonl_nonneg w : 0 <= lwip_htonl w.
Proof.
  unfold lwip_htonl. rewrite !Z.lor_nonneg, !Z.shiftr_nonneg, !Z.land_nonneg. unfold u32.
  pose proof (Z.mod_pos_bound (Z.shiftl (Z.land w 255) 24) 4294967296).
  pose proof (Z.mod_pos_bound (Z.shiftl (Z.land w 65280) 8) 4294967296). lia.
Qed.

Lemma life_nonneg n i : nif_good n -> 0 <= valid_life n i.
Proof.
  intros Hn. destruct (ng_lives n Hn) as [_ H]. unfold valid_life.
  destruct (nth_in_or_default i (nif_ip6_addr_valid_life n) 0) as [Hin| ->]; [|done].
  rewrite Forall_forall in H. apply H. by apply list_elem_of_In.
Qed.

(** An address that is not static keeps a lifetime, whatever the prefix says. *)
Lemma autoconf_refresh_ok ptr i valid pref s : nd6_ok s -> In ptr (ptrs s) -> (i < 3)%nat ->
  (forall n, netif_at ptr s = Some n -> netif_ip6_addr_isstatic n i = false) ->
  ok_step s (autoconf_refresh ptr i valid pref s).
Proof.
  intros Hs Hp Hi Hst. unfold autoconf_refresh. destruct (netif_at_good s ptr Hs Hp) as (n & En & Hn & _).
  rewrite En. cbn [mbind option_bind]. specialize (Hst n En). pose proof (life_nonneg n i Hn) as Hl.
  destruct (slot_at (nif_ip6_addr_state n) i) as (st & ->); [by apply ng_states|done|]. cbn [mbind option_bind].
  set (s1 := if _ || _ then _ else _).
  assert (nd6_ok s1 /\ kept s s1 /\ exists n1, netif_at ptr s1 = Some n1 /\ netif_ip6_addr_isstatic n1 i = false) as (Hs1 & Hk & n1 & -> & H1).
  { assert (forall v, 0 < v -> nd6_ok (set_valid_life ptr i v s) /\ kept s (set_valid_life ptr i v s) /\
      exists n1, netif_at ptr (set_valid_life ptr i v s) = Some n1 /\ netif_ip6_addr_isstatic n1 i = false) as Hset.
    { intros v Hv. split_and!; [apply set_valid_life_ok; [done|lia]|by apply set_valid_life_kept|].
      eexists. split; [by apply netif_at_update|]. unfold netif_ip6_addr_isstatic. cbn.
      rewrite nth_lookup, list_lookup_insert_eq by (destruct (ng_lives n Hn) as [-> _]; done). cbn.
      apply Z.eqb_neq. unfold IP6_ADDR_LIFE_STATIC. lia. }
    unfold s1. match goal with |- context [if ?b then set_valid_life ptr i valid s else _] => destruct b eqn:E end.
    { apply Hset. apply orb_true_iff in E. unfold ND6_2HRS in E. rewrite !Z.ltb_lt in E. lia. }
    destruct (ND6_2HRS <? valid_life n i); [by apply Hset|]. split_and!; [done|done|eauto]. }
  cbn [mbind option_bind]. rewrite H1. cbn [negb]. eapply keeps_from; [done|].
  eapply then_ok; [|intros s2 Hs2 Hk2; apply keeps_Some; [by apply set_pref_life_ok|apply set_pref_life_kept]].
  destruct (_ && _); [apply set_state_ok; [done|by destruct Hk as [-> _]|done]|by apply keeps_here].
Qed.

Lemma autoconf_new_ok ptr valid pref prefix s : nd6_ok s -> In ptr (ptrs s) -> 0 <= valid ->
  ok_step s (autoconf_new ptr valid pref prefix s).
Proof.
  intros Hs Hp Hv. unfold autoconf_new. at_ptr s ptr n.
  destruct (slot_at (nif_ip6_addr_state n) 0) as (st & ->); [by apply ng_states|lia|]. cbn [mbind option_bind].
  destruct (slot_at (nif_ip6_addr n) 0) as (a & ->); [by apply ng_addrs|lia|]. cbn [mbind option_bind].
  destruct (_ || _ || _); [by apply keeps_here|]. destruct (existsb _ _); [by apply keeps_here|].
  destruct (find_entry _ _) as [i|] eqn:E; [|by apply keeps_here].
  apply find_slot_lt with (k := 2%nat) in E; [|by rewrite length_drop, ip6_slots_length].
  set (b := IpAddr _ _). assert (nd6_ok (set_ip6_addr ptr (S i) b s) /\ kept s (set_ip6_addr ptr (S i) b s)) as [H1 H2].
  { split; [|split; [by apply ptrs_update|done]]. apply netif_update_ok; [done..|]. intros m _ []. constructor; cbn; try done.
    destruct ng_addrs as [Hl Hw]. split; [by rewrite length_insert|]. intros c Hc. apply list_elem_of_In in Hc.
    apply list_elem_of_lookup in Hc as [k Hk]. apply list_lookup_insert_Some in Hk as [(_ & <- & _)|[_ Hk]]; [done|].
    apply Hw, list_elem_of_In. by eapply list_elem_of_lookup_2. }
  eapply keeps_from; [exact H2|]. eapply keeps_from; [apply set_valid_life_kept|]. eapply keeps_from; [apply set_pref_life_kept|].
  apply set_state_ok; [by apply set_pref_life_ok, set_valid_life_ok| |lia].
  destruct (set_pref_life_kept ptr (S i) pref (set_valid_life ptr (S i) valid (set_ip6_addr ptr (S i) b s))) as [-> _].
  destruct (set_valid_life_kept ptr (S i) valid (set_ip6_addr ptr (S i) b s)) as [-> _]. by destruct H2 as [-> _].
Qed.

Lemma seq_slot {A} (l : list A) b m k j p : combine (seq b m) l !! k = Some (j, p) -> j = (b + k)%nat.
Proof.
  revert b l k. induction m as [|m IH]; intros b [|x l] [|k]; cbn; try done; [intros [= <- _]; lia|].
  intros ->%IH. lia.
Qed.

Lemma nd6_process_ok ptr o prefix s : nd6_ok s -> In ptr (ptrs s) -> ok_step s (nd6_process_autoconfig_prefix ptr o prefix s).
Proof.
  intros Hs Hp. unfold nd6_process_autoconfig_prefix. destruct (_ || _); [by apply keeps_here|].
  destruct (netif_at_good s ptr Hs Hp) as (n & En & Hn & _). rewrite En. cbn [mbind option_bind].
  destruct (autoconf_slot prefix n) as [i|] eqn:E; [|apply autoconf_new_ok; [done|done|apply htonl_nonneg]].
  apply autoconf_refresh_ok; [done|done|by eapply autoconf_slot_lt|]. intros n' En'. assert (n' = n) as -> by congruence.
  unfold autoconf_slot in E. destruct (find_entry _ _) as [k|] eqn:Ek; [|done]. injection E as <-.
  apply find_entry_Some in Ek as ([j [a st]] & Hj & E). rewrite lookup_drop in Hj. cbn in Hj.
  apply seq_slot in Hj. subst j.
  apply andb_true_iff in E as [[_ E]%andb_true_iff _]. by apply negb_true_iff in E.
Qed.

(** ** Incoming messages *)

Lemma message_memory_length p k : (k <= 48)%nat -> (48 - k <= length (drop k (message_memory p)))%nat.
Proof. intros Hk. unfold message_memory. rewrite length_drop, length_app. specialize (memory_behind p). lia. Qed.

Definition with_lladdr (n : netif) (src : list Z) (e : nd6_neighbor_cache_entry) : nd6_neighbor_cache_entry :=
  let k := Z.to_nat (nif_hwaddr_len n) in e <| nc_lladdr := take k src ++ drop k (nc_lladdr e) |>.

Lemma store_lladdr_eq n src i s : nif_good n -> (6 <= length src)%nat ->
  store_lladdr n src i s = Some (set_neighbor i (with_lladdr n src) s).
Proof.
  intros Hn Hl. destruct (ng_hw n Hn) as [Hh _]. unfold store_lladdr, NETIF_MAX_HWADDR_LEN.
  rewrite (proj2 (Z.leb_le _ _)) by lia. by rewrite (proj2 (Nat.leb_le _ _)) by lia.
Qed.

Lemma with_lladdr_length n src e : nif_good n -> (6 <= length src)%nat -> length (nc_lladdr e) = 6%nat ->
  length (nc_lladdr (with_lladdr n src e)) = 6%nat.
Proof. intros Hn Hl He. destruct (ng_hw n Hn) as [Hh _]. cbn. rewrite length_app, length_take, length_drop. lia. Qed.

Lemma with_lladdr_ok ps n src e : nif_good n -> (6 <= length src)%nat -> neighbor_ok ps e -> neighbor_ok ps (with_lladdr n src e).
Proof. intros Hn Hl []. constructor; try done. by apply with_lladdr_length. Qed.

Lemma store_lladdr_ok n src i s : nd6_ok s -> nif_good n -> (6 <= length src)%nat -> ok_step s (store_lladdr n src i s).
Proof.
  intros Hs Hn Hl. rewrite store_lladdr_eq by done. apply set_neighbor_keeps; [done|].
  intros e _ He. split; [by apply with_lladdr_ok|done].
Qed.

(** An entry gets an interface, a state and a counter; its address is not touched. *)
Lemma neighbor_state_ok ps e ptr st c : neighbor_ok ps e -> In ptr ps -> st <> ND6_NO_ENTRY ->
  (st = ND6_DELAY \/ st = ND6_PROBE -> ip6_addr_isany (nc_next_hop_address e) = false) ->
  neighbor_ok ps (e <| nc_netif := Some ptr |> <| nc_state := st |> <| nc_counter := c |>).
Proof. intros [] Hp Hst Hany. constructor; cbn; eauto; try done. Qed.

Lemma nd6_input_na_ok p ptr s : nd6_ok s -> In ptr (ptrs s) -> ok_step s (nd6_input_na p ptr s).
Proof.
  intros Hs Hp. unfold nd6_input_na. at_ptr s ptr n. destruct (pk_len p <? NA_HLEN); [by apply keeps_here|].
  destruct (negb _ || _ || _); [by apply keeps_here|].
  pose proof (message_memory_length p 26 ltac:(lia)) as Hm.
  destruct (ip6_addr_ismulticast (current_dest s)).
  - destruct (conflict_slot _ n) as [i|] eqn:E.
    { apply nd6_duplicate_ok; [done|done|]. eapply find_slot_lt; [|done]. by rewrite ip6_slots_length. }
    destruct (negb _); [by apply keeps_here|]. destruct (nd6_find_neighbor_cache_entry _ s); [|by apply keeps_here].
    destruct (flagset _ _); [apply store_lladdr_ok; [done|done|lia]|by apply keeps_here].
  - destruct (nd6_find_neighbor_cache_entry _ s) as [i|] eqn:E; [|by apply keeps_here].
    apply find_neighbor in E as (e & He & _). rewrite He. cbn [mbind option_bind].
    destruct (_ && _); [by apply keeps_here|]. eapply then_ok.
    { destruct (_ || _); [apply store_lladdr_ok; [done|done|lia]|by apply keeps_here]. }
    intros s1 Hs1 [Hk _]. eapply then_pure; [|intros Hs2 _; rewrite nd6_send_q_ok by done; by apply keeps_here].
    apply set_neighbor_keeps; [done|]. intros e' _ He'. split; [|done].
    apply neighbor_state_ok; [done|by rewrite Hk|done|by intros []].
Qed.

Lemma answer_dad_ok ptr target idxs s : nd6_ok s -> In ptr (ptrs s) -> words4 (current_src s) ->
  Forall (fun i => (i < 3)%nat) idxs -> ok_step s (answer_dad ptr target idxs s).
Proof.
  intros Hs Hp Hc Hi. revert s Hs Hp Hc. induction Hi as [|i idxs Hi _ IH]; intros s Hs Hp Hc; cbn [answer_dad]; [by apply keeps_here|].
  at_ptr s ptr n. destruct (slot_at (nif_ip6_addr_state n) i) as (st & ->); [by apply ng_states|done|]. cbn [mbind option_bind].
  destruct (slot_at (nif_ip6_addr n) i) as (a & Ea); [by apply ng_addrs|done|]. rewrite Ea. cbn [mbind option_bind].
  eapply then_ok; [|intros s1 Hs1 [Hk Hd]; apply IH; [done|by rewrite Hk|unfold current_src; by rewrite Hd]].
  destruct (_ && _); [|by apply keeps_here].
  eapply then_ok.
  { apply nd6_send_na_ok; [done|done| |done|by left]. apply (ng_addrs n). done. apply list_elem_of_In. by eapply list_elem_of_lookup_2. }
  intros s1 Hs1 [Hk _]. destruct (ip6_addr_istentative st); [|by apply keeps_here].
  apply nd6_duplicate_ok; [done|by rewrite Hk|done].
Qed.

(** The final form of a new entry. *)
Lemma new_neighbor_ok ps n src a e : nif_good n -> (6 <= length src)%nat -> neighbor_ok ps e -> In (nif_ptr n) ps ->
  words4 a -> ip6_addr_isany a = false ->
  neighbor_ok ps (to_delay (with_lladdr n src (e <| nc_netif := Some (nif_ptr n) |>) <| nc_next_hop_address := a |>)).
Proof.
  intros Hn Hl [] Hp Ha Hany. constructor; cbn; eauto; try done.
  by apply (with_lladdr_length n src e).
Qed.

Lemma learn_neighbor_ok n src s : nd6_ok s -> nif_good n -> In (nif_ptr n) (ptrs s) -> (6 <= length src)%nat ->
  words4 (current_src s) -> ip6_addr_isany (current_src s) = false -> keeps fst s (learn_neighbor n src s).
Proof.
  intros Hs Hn Hp Hl Hw Hany. unfold learn_neighbor.
  destruct (nd6_find_neighbor_cache_entry (current_src s) s) as [i|] eqn:E.
  - apply find_neighbor in E as (e & He & Ha). rewrite He. cbn [mbind option_bind].
    destruct (in_state ND6_INCOMPLETE e); [|by apply keeps_Some].
    rewrite store_lladdr_eq, !set_neighbor_set by done. cbn [mbind option_bind]. rewrite set_neighbor_set.
    destruct (set_neighbor_keeps i (to_delay ∘ (with_lladdr n src ∘ (fun e => e <| nc_netif := Some (nif_ptr n) |>))) s) as (s' & [= <-] & ? & ?);
      [done| |by apply keeps_Some].
    intros e' He' [] . split; [|done]. assert (e' = e) as -> by congruence. constructor; cbn; eauto; try done; try congruence.
    by apply (with_lladdr_length n src e).
  - destruct (nd6_new_neighbor_cache_entry s) as [[i|] s1] eqn:En; apply nd6_new_neighbor_ok in En as (Hs1 & Hk & _); try done;
      [|by apply keeps_Some].
    rewrite store_lladdr_eq, !set_neighbor_set by done. cbn [mbind option_bind]. rewrite set_neighbor_set.
    destruct Hk as [Hk Hd]. eapply (keeps_from fst s s1); [done|].
    match goal with |- keeps _ _ (Some (set_neighbor i ?f s1, _)) => destruct (set_neighbor_keeps i f s1) as (s' & [= <-] & ? & ?) end;
      [done| |by apply keeps_Some].
    intros e' He' Hok. split; [|done]. apply (new_neighbor_ok (ptrs s1) n src (current_src s1) e'); try done; [by rewrite Hk|..]; unfold current_src in *; by rewrite Hd.
Qed.

Lemma nd6_input_ns_ok p ptr s : nd6_ok s -> In ptr (ptrs s) -> words4 (current_src s) -> ok_step s (nd6_input_ns p ptr s).
Proof.
  intros Hs Hp Hw. unfold nd6_input_ns. at_ptr s ptr n. destruct (pk_len p <? NS_HLEN); [by apply keeps_here|].
  destruct (negb _ || _ || _); [by apply keeps_here|]. destruct (negb _); [by apply keeps_here|].
  destruct (ip6_addr_isany (current_src s)) eqn:Hany; [apply answer_dad_ok; try done; repeat constructor; lia|].
  destruct (negb _); [by apply keeps_here|]. pose proof (message_memory_length p 26 ltac:(lia)) as Hm.
  eapply (keeps_bind fst); [apply learn_neighbor_ok; [done|done|congruence|lia|done|done]|].
  intros [s1 ok] Hs1 [Hk Hd]. cbn [fst] in *. destruct ok; [|by apply keeps_here].
  apply nd6_send_na_ok; [done|done|done|..]; unfold current_src in *; rewrite Hd; auto.
Qed.

(** ** Routers *)

Lemma names_set_router d i f j k : (forall r, dr_neighbor_entry (f r) = dr_neighbor_entry r) ->
  names (d <| default_router_list := alter f i (default_router_list d) |>) j k -> names d j k.
Proof.
  intros Hf (r & Hr & Hk). cbn in Hr. rewrite list_lookup_alter in Hr. destruct (decide (i = j)) as [-> |]; [|by exists r].
  apply fmap_Some in Hr as (r0 & Hr0 & ->). exists r0. by rewrite Hf in Hk.
Qed.

Lemma set_router_ok i f s : nd6_ok s ->
  (forall j k, names (nd6 (set_router i f s)) j k -> names (nd6 s) j k \/
     (j = i /\ unnamed k s /\ exists e, neighbor_cache (nd6 s) !! k = Some e /\ nc_isrouter e = true)) ->
  nd6_ok (set_router i f s).
Proof.
  intros [Hn H] Hf. split; [done|]. change (nd6 (set_router i f s)) with ((nd6 s) <| default_router_list := alter f i (default_router_list (nd6 s)) |>) in *.
  destruct H. constructor; try done.
  - cbn. by rewrite length_alter.
  - intros j k [Hj|(_ & _ & He)]%Hf; eauto.
  - intros j j' k [Hj|(-> & U & _)]%Hf [Hj'|(-> & U' & _)]%Hf; [eauto|by destruct (U' j)|by destruct (U j')|done].
Qed.

Lemma set_router_keeps i f s : nd6_ok s -> (forall r, dr_neighbor_entry (f r) = dr_neighbor_entry r) ->
  ok_step s (Some (set_router i f s)).
Proof. intros Hs Hf. apply keeps_Some; [|done]. apply set_router_ok; [done|]. intros j k Hjk%names_set_router; auto. Qed.

Lemma router_slot_spec k idxs free s :
  match router_slot k idxs free s with
  | inl i => In i idxs /\ names (nd6 s) i k
  | inr f => (forall i, In i idxs -> ~ names (nd6 s) i k) /\ (f = free \/ exists i, f = Some i /\ In i idxs)
  end.
Proof.
  revert free. induction idxs as [|i idxs IH]; intros free; cbn [router_slot]; [auto|].
  assert (forall free', (free' = free \/ free' = Some i) -> ~ names (nd6 s) i k ->
    match router_slot k idxs free' s with
    | inl j => In j (i :: idxs) /\ names (nd6 s) j k
    | inr f => (forall j, In j (i :: idxs) -> ~ names (nd6 s) j k) /\ (f = free \/ exists j, f = Some j /\ In j (i :: idxs))
    end) as Hrest.
  { intros free' Hfree Hi. specialize (IH free'). destruct (router_slot k idxs free' s) as [j|f].
    - destruct IH as [? ?]. split; [by right|done].
    - destruct IH as [IH [->|(j & -> & Hj)]]; (split; [intros j' [<-|]; auto|]); [destruct Hfree as [->| ->]; [by left|]|];
        right; eexists; (split; [done|]); [by left|by right]. }
  destruct (default_router_list (nd6 s) !! i) as [r|] eqn:Er.
  - destruct (dr_neighbor_entry r) as [k'|] eqn:Ek.
    + destruct (Nat.eqb_spec k k') as [<- |]; [split; [by left|by exists r]|].
      apply Hrest; [by left|]. intros (r' & Hr' & Hk'). congruence.
    + apply Hrest; [by right|]. intros (r' & Hr' & Hk'). congruence.
  - apply Hrest; [by left|]. intros (r' & Hr' & Hk'). congruence.
Qed.

Lemma router_lt s i k : nd6_ok s -> names (nd6 s) i k -> (i < LWIP_ND6_NUM_ROUTERS)%nat.
Proof.
  intros Hs (r & Hr%lookup_lt_Some & _). destruct (to_lengths _ _ (no_tables s Hs)) as (_ & _ & Hl). by rewrite Hl in Hr.
Qed.

(** The neighbor of a new router is in use. *)
Lemma router_neighbor_ok a ptr s : nd6_ok s -> In ptr (ptrs s) -> words4 a -> ip6_addr_isany a = false ->
  exists k s', router_neighbor a ptr s = Some (k, s') /\ nd6_ok s' /\ kept s s' /\
    forall j, k = Some j -> exists e, neighbor_cache (nd6 s') !! j = Some e /\ nc_state e <> ND6_NO_ENTRY.
Proof.
  intros Hs Hp Ha Hany. unfold router_neighbor. destruct (nd6_find_neighbor_cache_entry a s) as [k|] eqn:E.
  { apply find_neighbor in E as (e & He & Hc). do 2 eexists. split_and!; [done..|]. intros j [= <-]. exists e. split; [done|].
    intros Hst. destruct (ne_free _ _ (to_neighbors _ _ (no_tables s Hs) k e He) Hst) as [_ Hf]. congruence. }
  destruct (nd6_new_neighbor_cache_entry s) as [[k|] s1] eqn:En; apply nd6_new_neighbor_ok in En as (Hs1 & Hk & Hf); try done;
    [|do 2 eexists; split_and!; [done|done|done|by intros]].
  match goal with |- context [set_neighbor k ?g s1] => set (f := g) end. destruct (Hf k eq_refl) as (e & He & Hst).
  assert (nd6_ok (set_neighbor k f s1)) as Hs2.
  { apply set_neighbor_ok; [done| |by left]. intros e' _ [].
    destruct Hk as [Hk _]. constructor; cbn; try done; try by intros []. exists ptr. by rewrite Hk. }
  assert (neighbor_cache (nd6 (set_neighbor k f s1)) !! k = Some (f e)) as Hfe by (cbn; by rewrite list_lookup_alter_eq, He).
  destruct (probe_same k ND6_SEND_FLAG_MULTICAST_DEST (set_neighbor k f s1) (f e)) as (s3 & -> & Hst3); try done; [by left|].
  cbn [mbind option_bind]. do 2 eexists. split; [done|]. split_and!; [by eapply nd6_ok_same|transitivity (set_neighbor k f s1); [exact Hk|by apply kept_same]|].
  intros j [= <-]. destruct Hst3 as (_ & -> & _). by exists (f e).
Qed.

Lemma link_local_not_any a : ip6_addr_islinklocal a = true -> ip6_addr_isany a = false.
Proof.
  unfold ip6_addr_islinklocal, ip6_addr_isany. intros H.
  destruct (Z.eqb_spec (ip6_word a 0) 0) as [E|]; [|done]. rewrite E in H. done.
Qed.

Lemma nd6_new_router_ok a ptr s : nd6_ok s -> In ptr (ptrs s) -> words4 a -> ip6_addr_isany a = false ->
  exists i s', nd6_new_router a ptr s = Some (i, s') /\ nd6_ok s' /\ kept s s' /\
    forall j, i = Some j -> (j < LWIP_ND6_NUM_ROUTERS)%nat.
Proof.
  intros Hs Hp Ha Hany. unfold nd6_new_router.
  destruct (router_neighbor_ok a ptr s Hs Hp Ha Hany) as ([k|] & s1 & -> & Hs1 & Hk & Huse); cbn [mbind option_bind];
    [|do 2 eexists; by split_and!].
  destruct (Huse k eq_refl) as (e & He & Hst).
  set (f := fun e : nd6_neighbor_cache_entry => e <| nc_isrouter := true |>). set (s2 := set_neighbor k f s1).
  assert (nd6_ok s2) as Hs2.
  { apply set_neighbor_ok; [done| |by left]. intros e' He' []. constructor; cbn; try done. intros Hst'.
    assert (e' = e) as -> by congruence. done. }
  assert (neighbor_cache (nd6 s2) !! k = Some (f e)) as Hfe by (cbn; by rewrite list_lookup_alter_eq, He).
  pose proof (router_slot_spec k [2; 1; 0]%nat None s2) as Hsl.
  destruct (router_slot k [2; 1; 0]%nat None s2) as [i|[i|]].
  - do 2 eexists. split_and!; [done|done|exact Hk|]. intros j [= <-]. eapply router_lt; [exact Hs2|apply Hsl].
  - destruct Hsl as [Hun [|(i' & [= <-] & Hi)]]; [done|].
    do 2 eexists. split_and!; [done| |exact Hk|]; [|intros j [= <-]; unfold LWIP_ND6_NUM_ROUTERS; cbn in Hi; lia].
    apply set_router_ok; [done|]. intros j k' (r & Hr & Hk'). cbn in Hr. rewrite list_lookup_alter in Hr.
    destruct (decide (i = j)) as [<- |]; [|left; by exists r].
    apply fmap_Some in Hr as (r0 & Hr0 & ->). injection Hk' as <-. right. split_and!; [done| |by exists (f e)].
    intros j Hj. pose proof (router_lt s2 j k Hs2 Hj) as Hlt. unfold LWIP_ND6_NUM_ROUTERS in Hlt. apply (Hun j); [cbn; lia|done].
  - do 2 eexists. split_and!; [done| |exact Hk|by intros]. apply set_neighbor_ok; [done|..].
    + intros e' He' []. constructor; try done. cbn. intros Hst'. destruct (ne_free0 Hst') as [_ H]. done.
    + intros e' He' _. right. intros j Hj. pose proof (router_lt s2 j k Hs2 Hj) as Hlt. unfold LWIP_ND6_NUM_ROUTERS in Hlt.
      destruct Hsl as [Hun _]. apply (Hun j); [cbn; lia|done].
Qed.

(** ** Router advertisements *)

Lemma set_prefix_keeps i f s ptr : nd6_ok s -> In ptr (ptrs s) ->
  (forall e, pl_netif (f e) = pl_netif e \/ pl_netif (f e) = Some ptr \/ pl_netif (f e) = None) -> ok_step s (Some (set_prefix i f s)).
Proof.
  intros [Hn H] Hp Hf. apply keeps_Some; [|done]. split; [done|]. destruct H. constructor; try done.
  intros j e q Hj Hq. cbn in Hj. rewrite list_lookup_alter in Hj. destruct (decide (i = j)) as [<- |]; [|eauto].
  apply fmap_Some in Hj as (e0 & He0 & ->). change (ptrs (set_prefix i f s)) with (ptrs s).
  destruct (Hf e0) as [E|[E|E]]; rewrite E in Hq; [eauto|by injection Hq as <-|done].
Qed.

Lemma ra_option_ok i o ptr s : nd6_ok s -> In ptr (ptrs s) -> (i < LWIP_ND6_NUM_ROUTERS)%nat -> (8 <= length o)%nat ->
  ok_step s (ra_option i o ptr s).
Proof.
  intros Hs Hp Hi Ho. unfold ra_option. at_ptr s ptr n. destruct (_ =? ND6_OPTION_TYPE_SOURCE_LLADDR).
  - destruct (to_lengths _ _ (no_tables s Hs)) as (_ & _ & Hl). rewrite <- Hl in Hi.
    destruct (lookup_lt_is_Some_2 _ _ Hi) as [r Hr]. rewrite Hr. cbn [mbind option_bind].
    destruct (dr_neighbor_entry r) as [k|] eqn:Ek; [|by apply keeps_here].
    destruct (to_routers _ _ (no_tables s Hs) i k) as (e & He & Hir); [by exists r|]. rewrite He. cbn [mbind option_bind].
    destruct (in_state ND6_INCOMPLETE e) eqn:Est; [|by apply keeps_here]. apply bool_decide_eq_true in Est.
    rewrite store_lladdr_eq by (try done; rewrite length_drop; lia). cbn [mbind option_bind]. rewrite set_neighbor_set.
    apply set_neighbor_keeps; [done|]. intros e' He' []. split; [|done]. assert (e' = e) as -> by congruence.
    destruct (ne_netif0 ltac:(congruence)) as (p & Hp1 & Hp2).
    constructor; cbn; eauto; try done; [by intros []|]. apply (with_lladdr_length n (drop 2 o) e); [done|rewrite length_drop; lia|done].
  - destruct (_ =? ND6_OPTION_TYPE_MTU).
    { destruct (_ && _) eqn:E; [|by apply keeps_here]. apply andb_true_iff in E as [E%Z.leb_le _].
      apply netif_update_keeps; [done|done|]. intros m []. constructor; cbn; try done.
      destruct (Z.eqb_spec (nif_mtu m) 0); [lia|]. right. destruct ng_mtu; [done|lia]. }
    destruct (_ =? ND6_OPTION_TYPE_PREFIX_INFO); [|by apply keeps_here].
    destruct (ip6_addr_islinklocal _); [by apply keeps_here|].
    set (s1 := if flagset (ld8 o 3) ND6_PREFIX_FLAG_ON_LINK && (ld8 o 2 =? 64) then _ else _).
    apply (then_pure _ s s1). 2: { clearbody s1. intros Hs1 [Hk _]. destruct (flagset _ _); [|by apply keeps_here]. apply nd6_process_ok; [done|by rewrite Hk]. }
    unfold s1. clear s1. destruct (_ && _); [|by apply keeps_here].
    assert (forall q s1, ok_step s (Some s1) -> ok_step s (Some
      match q with Some k => set_prefix k (fun e => e <| pl_invalidation_timer := lwip_htonl (ld32 o 4) |>) s1 | None => s1 end)) as Hset.
    { intros [k|] s1 H1; [|done]. eapply then_pure; [done|]. intros Hs1 [Hk _]. apply (set_prefix_keeps _ _ _ ptr); [done|by rewrite Hk|]. auto. }
    destruct (nd6_get_onlink_prefix _ ptr s) as [k|]; [apply (Hset (Some k)); by apply keeps_here|].
    destruct (0 <? _); [|apply (Hset None); by apply keeps_here].
    unfold nd6_new_onlink_prefix. destruct (find_entry _ _) as [k|]; [apply (Hset (Some k))|apply (Hset None); by apply keeps_here].
    apply (set_prefix_keeps _ _ _ ptr); [done|done|]. auto.
Qed.

Lemma ra_options_ok fuel single i rest ptr s : nd6_ok s -> In ptr (ptrs s) -> (i < LWIP_ND6_NUM_ROUTERS)%nat ->
  (length rest <= fuel)%nat -> ok_step s (ra_options fuel single i rest ptr s).
Proof.
  revert rest s. induction fuel as [|fuel IH]; intros rest s Hs Hp Hi Hf; cbn [ra_options].
  { rewrite (proj2 (Nat.ltb_lt _ _)) by lia. by apply keeps_here. }
  destruct (Nat.ltb_spec (length rest) 2); [by apply keeps_here|].
  destruct (Z.leb_spec (ld8 rest 1) 0) as [|Hpos]; [by apply keeps_here|]. rewrite shiftl_3.
  destruct (Z.ltb_spec (Z.of_nat (length rest)) (8 * ld8 rest 1)); [by apply keeps_here|].
  destruct (_ && _ && _); [by apply keeps_here|]. set (copied := if negb single && (RA_BUFFER_LEN <? _) then RA_BUFFER_LEN else _).
  assert (8 <= copied <= Z.of_nat (length rest)) as Hc.
  { unfold copied, RA_BUFFER_LEN. destruct (negb single && (32 <? 8 * ld8 rest 1)) eqn:E; [|lia].
    apply andb_true_iff in E as [_ E%Z.ltb_lt]. lia. }
  destruct (copied <? _); [by apply keeps_here|].
  eapply then_ok; [apply ra_option_ok; try done; rewrite length_take; lia|].
  intros s1 Hs1 [Hk _]. apply IH; [done|by rewrite Hk|done|]. rewrite length_drop. lia.
Qed.

Lemma ra_rs_count_ok ptr s : nd6_ok s -> In ptr (ptrs s) -> ok_step s (ra_rs_count ptr s).
Proof.
  intros Hs Hp. unfold ra_rs_count. at_ptr s ptr n.
  assert (forall v s', nd6_ok s' -> ok_step s' (Some (netif_update ptr (fun n => n <| nif_rs_count := v |>) s'))) as Hset.
  { intros v s' Hs'. apply netif_update_keeps; [done|done|]. intros m []. by constructor. }
  destruct (_ <? _); [by apply Hset|]. eapply (keeps_bind fst); [by apply nd6_send_rs_ok|].
  intros [s1 err] Hs1 _. by apply Hset.
Qed.

Lemma nd6_data_keeps s f : nd6_ok s -> tables_ok (ptrs s) (f (nd6 s)) -> ok_step s (Some (s <| nd6 := f (nd6 s) |>)).
Proof. intros [Hn _] H. apply keeps_Some; [by split|done]. Qed.

Lemma nd6_input_ra_ok p ptr s : nd6_ok s -> In ptr (ptrs s) -> words4 (current_src s) -> ok_step s (nd6_input_ra p ptr s).
Proof.
  intros Hs Hp Hw. unfold nd6_input_ra. destruct (_ <? _); [by apply keeps_here|].
  destruct (negb _ || _ || _) eqn:E; [by apply keeps_here|].
  apply orb_false_iff in E as [[E%negb_false_iff _]%orb_false_iff _]. apply link_local_not_any in E.
  eapply then_ok; [by apply ra_rs_count_ok|]. intros s1 Hs1 [Hk1 Hd1].
  assert (current_src s1 = current_src s) as Ec by (unfold current_src; by rewrite Hd1).
  assert (exists i s2, match nd6_get_router (current_src s1) ptr s1 with
     | Some i => Some (Some i, s1) | None => nd6_new_router (current_src s1) ptr s1 end = Some (i, s2) /\
     nd6_ok s2 /\ kept s1 s2 /\ forall j, i = Some j -> (j < LWIP_ND6_NUM_ROUTERS)%nat) as (i & s2 & -> & Hs2 & [Hk2 Hd2] & Hi).
  { destruct (nd6_get_router _ _ _) as [i|] eqn:Eg.
    - do 2 eexists. split_and!; [done|done|done|]. intros j [= <-].
      destruct (to_lengths _ _ (no_tables s1 Hs1)) as (_ & _ & Hl). rewrite <- Hl. eapply find_slot_lt; [|exact Eg]. done.
    - apply nd6_new_router_ok; [done|by rewrite Hk1|by rewrite Ec|by rewrite Ec]. }
  cbn [mbind option_bind]. apply (keeps_from _ _ s2); [by split|].
  destruct i as [i|]; [|by apply keeps_here]. specialize (Hi i eq_refl).
  set (s3 := set_router i _ s2). assert (nd6_ok s3) as Hs3.
  { by destruct (set_router_keeps i (fun r => r <| dr_invalidation_timer := lwip_htons (ld16 (message_memory p) 6) |>) s2 Hs2) as (? & [= <-] & ? & _). }
  assert (forall v s', nd6_ok s' -> nd6_ok (s' <| nd6 := (nd6 s') <| retrans_timer := v |> |>)) as Hrt.
  { intros v s' [? []]. split; [done|by constructor]. }
  assert (forall v s', nd6_ok s' -> nd6_ok (s' <| nd6 := (nd6 s') <| reachable_time := v |> |>)) as Hre.
  { intros v s' [? []]. split; [done|by constructor]. }
  set (s4 := if 0 <? ld32 _ 12 then _ else s3). assert (nd6_ok s4 /\ kept s2 s4) as [Hs4 Hk4].
  { unfold s4. destruct (0 <? ld32 _ 12); [split; [by apply Hrt|done]|by split]. }
  set (s5 := if 0 <? ld32 _ 8 then _ else s4). assert (nd6_ok s5 /\ kept s2 s5) as [Hs5 Hk5].
  { unfold s5. destruct (0 <? ld32 _ 8); [split; [by apply Hre|exact Hk4]|by split]. }
  apply (keeps_from _ _ s5); [done|].
  apply (then_pure _ s5 (set_router i (fun r => r <| dr_flags := ld8 (message_memory p) 5 |>) s5)); [by apply set_router_keeps|]. intros Hs6 [Hk6 _].
  apply ra_options_ok; [done| |done|done]. rewrite Hk6. destruct Hk5 as [-> _]. by rewrite Hk2, Hk1.
Qed.

(** ** Redirects, Packet Too Big, and all messages *)

Lemma set_destination_keeps i f s : nd6_ok s -> (forall e, dc_destination_addr (f e) = dc_destination_addr e) ->
  ok_step s (Some (set_destination i f s)).
Proof.
  intros [Hn H] Hf. apply keeps_Some; [|done]. split; [done|]. destruct H. constructor; try done; cbn.
  - by rewrite length_alter.
  - rewrite Forall_lookup in *. intros j c Hj. rewrite list_lookup_alter in Hj. destruct (decide (i = j)) as [<- |]; [|eauto].
    apply fmap_Some in Hj as (c0 & Hc & ->). rewrite Hf. eauto.
Qed.

Lemma redirect_neighbor_ok n target src s : nd6_ok s -> nif_good n -> In (nif_ptr n) (ptrs s) -> (6 <= length src)%nat ->
  words4 target -> ip6_addr_isany target = false -> ok_step s (redirect_neighbor n target src s).
Proof.
  intros Hs Hn Hp Hl Hw Hany. unfold redirect_neighbor.
  match goal with |- keeps _ _ (?m ≫= _) => assert (exists i s1, m = Some (i, s1) /\ nd6_ok s1 /\ kept s s1 /\
    forall k, i = Some k -> exists e, neighbor_cache (nd6 s1) !! k = Some e /\ ip6_addr_isany (nc_next_hop_address e) = false)
    as (i & s1 & -> & Hs1 & Hk & Hi) end.
  { destruct (nd6_find_neighbor_cache_entry target s) as [i|] eqn:E.
    { apply find_neighbor in E as (e & He & Ha). do 2 eexists. split_and!; [done..|]. intros k [= <-]. exists e. by rewrite <- Ha. }
    destruct (nd6_new_neighbor_cache_entry s) as [[i|] s1] eqn:En; apply nd6_new_neighbor_ok in En as (Hs1 & Hk & Hf); try done;
      [|do 2 eexists; split_and!; [done|done|done|by intros]].
    rewrite store_lladdr_eq, !set_neighbor_set by done. cbn [mbind option_bind]. rewrite set_neighbor_set.
    destruct (Hf i eq_refl) as (e & He & _).
    do 2 eexists. split; [done|]. split_and!; [|exact Hk|].
    - apply set_neighbor_ok; [done| |by left]. intros e' He' Hok. destruct Hk as [Hk _].
      apply (new_neighbor_ok (ptrs s1) n src target e'); try done. by rewrite Hk.
    - intros k [= <-]. eexists. split; [cbn; by rewrite list_lookup_alter_eq, He|done]. }
  cbn [mbind option_bind]. apply (keeps_from _ _ s1); [done|]. destruct i as [i|]; [|by apply keeps_here].
  destruct (Hi i eq_refl) as (e & He & Ha). rewrite He. cbn [mbind option_bind].
  destruct (in_state ND6_INCOMPLETE e) eqn:Est; [|by apply keeps_here]. apply bool_decide_eq_true in Est.
  rewrite store_lladdr_eq by done. cbn [mbind option_bind]. rewrite set_neighbor_set.
  apply set_neighbor_keeps; [done|]. intros e' He' []. split; [|done]. assert (e' = e) as -> by congruence.
  destruct (ne_netif0 ltac:(congruence)) as (q & Hq1 & Hq2). constructor; cbn; eauto; try done.
  by apply (with_lladdr_length n src e).
Qed.

Lemma nd6_input_rd_ok p ptr s : nd6_ok s -> In ptr (ptrs s) -> 
  (forall n, ip6_addr_isany (address_at (message_memory p) 8 IP6_UNICAST n) = false) -> ok_step s (nd6_input_rd p ptr s).
Proof.
  intros Hs Hp Ht. unfold nd6_input_rd. at_ptr s ptr n. destruct (_ <? _); [by apply keeps_here|].
  destruct (negb _ || _ || _ || _); [by apply keeps_here|]. destruct (nd6_find_destination_cache_entry _ s) as [i|]; [|by apply keeps_here].
  apply (then_pure _ s (set_destination i (fun e => e <| dc_next_hop_addr := address_at (message_memory p) 8 IP6_UNICAST n |>) s));
    [by apply set_destination_keeps|].
  intros Hs1 [Hk _]. destruct (_ && _); [|by apply keeps_here].
  pose proof (message_memory_length p 42 ltac:(lia)) as Hm. apply redirect_neighbor_ok; try done; try congruence; lia.
Qed.

Lemma nd6_input_ptb_ok p ptr s : nd6_ok s -> In ptr (ptrs s) -> ok_step s (nd6_input_ptb p ptr s).
Proof.
  intros Hs Hp. unfold nd6_input_ptb. at_ptr s ptr n. destruct (_ <? _); [by apply keeps_here|].
  destruct (nd6_find_destination_cache_entry _ s) as [i|]; [|by apply keeps_here]. by apply set_destination_keeps.
Qed.

Lemma nd6_input_ok p n s : nd6_ok s -> In (nif_ptr n) (ptrs s) -> words4 (current_src s) -> message_memory p <> [] ->
  (message_memory p !! 0%nat = Some ICMP6_TYPE_RD ->
    forall n, ip6_addr_isany (address_at (message_memory p) 8 IP6_UNICAST n) = false) ->
  ok_step s (nd6_input p n s).
Proof.
  intros Hs Hp Hw Hm Ht. unfold nd6_input. destruct (message_memory p) as [|ty m] eqn:Em; [done|]. cbn [lookup list_lookup mbind option_bind].
  eapply then_ok; [|intros s1 Hs1 _; apply keeps_Some; [eapply nd6_ok_same; [apply same_tables_log|done]|done]].
  destruct (_ =? _); [by apply nd6_input_na_ok|]. destruct (_ =? _); [by apply nd6_input_ns_ok|].
  destruct (_ =? _); [by apply nd6_input_ra_ok|]. destruct (Z.eqb_spec ty ICMP6_TYPE_RD) as [-> |].
  { apply nd6_input_rd_ok; [done|done|]. rewrite Em. by apply Ht. }
  destruct (_ =? _); [by apply nd6_input_ptb_ok|by apply keeps_here].
Qed.

(** ** The timer *)

Lemma each_ok {A} (f : A -> net -> option net) l s : nd6_ok s ->
  (forall a s', In a l -> nd6_ok s' -> kept s s' -> ok_step s' (f a s')) -> ok_step s (each f l s).
Proof.
  revert s. induction l as [|a l IH]; intros s Hs Hf; cbn [each]; [by apply keeps_here|].
  eapply then_ok; [apply Hf; [by left|done|done]|]. intros s1 Hs1 Hk. apply IH; [done|].
  intros b s2 Hb Hs2 Hk2. apply Hf; [by right|done|by etrans].
Qed.

Lemma tmr_neighbor_ok i s : nd6_ok s -> (i < LWIP_ND6_NUM_NEIGHBORS)%nat -> ok_step s (tmr_neighbor i s).
Proof.
  intros Hs Hi. destruct (neighbor_at s i Hs Hi) as (e & He & Hok). unfold tmr_neighbor. rewrite He. cbn [mbind option_bind].
  assert (forall flags, nc_state e <> ND6_NO_ENTRY ->
    flagset flags ND6_SEND_FLAG_MULTICAST_DEST = true \/ ip6_addr_isany (nc_next_hop_address e) = false ->
    ok_step s (if (LWIP_ND6_MAX_MULTICAST_SOLICIT <=? nc_counter e) && negb (nc_isrouter e)
      then Some (nd6_free_neighbor_cache_entry i s)
      else nd6_send_neighbor_cache_probe i flags (set_neighbor i (fun e => e <| nc_counter := u32 (nc_counter e + 1) |>) s))) as Hprobe.
  { intros flags Hst Hf. destruct (_ && _); [apply keeps_Some; [by apply nd6_free_ok|by apply nd6_free_kept]|].
    set (f := fun e : nd6_neighbor_cache_entry => e <| nc_counter := u32 (nc_counter e + 1) |>).
    apply (then_pure _ s (set_neighbor i f s)).
    - apply set_neighbor_keeps; [done|]. intros e' _ []. split; [|done]. by constructor.
    - intros Hs1 _. apply (probe_ok i flags _ (f e)); [done| |done|done]. cbn. by rewrite list_lookup_alter_eq, He. }
  assert (forall f, (forall e', e' = e -> neighbor_ok (ptrs s) e' -> neighbor_ok (ptrs s) (f e') /\ nc_isrouter (f e') = nc_isrouter e') ->
    ok_step s (Some (set_neighbor i f s))) as Hset.
  { intros f Hf. apply set_neighbor_keeps; [done|]. intros e' He' Hok'. destruct (Hf e' ltac:(congruence) Hok') as [? ->]. done. }
  destruct (nc_state e) eqn:Est.
  - by apply keeps_here.
  - apply Hprobe; [done|by left].
  - rewrite nd6_send_q_ok by done. cbn [mbind option_bind]. apply Hset. intros e' -> []. clear Hprobe Hset. cbn beta. destruct (_ <=? _); (split; [|done]);
      constructor; cbn; try done; try (by intros []); intros; apply ne_netif0; congruence.
  - apply Hset. intros e' -> []. split; [|done]. by constructor.
  - apply Hset. intros e' -> []. clear Hprobe Hset. cbn beta. destruct (_ <=? _); (split; [|done]); constructor; cbn; try done;
      intros; try apply ne_netif0; try apply ne_probed0; auto; congruence.
  - apply Hprobe; [done|right]. apply (ne_probed _ _ Hok). auto.
Qed.

(** A router entry is emptied together with the mark of its neighbor. *)
Lemma drop_router_ok i k f s : nd6_ok s -> names (nd6 s) i k -> (forall r, dr_neighbor_entry (f r) = None) ->
  nd6_ok (set_router i f (set_neighbor k (fun e => e <| nc_isrouter := false |>) s)).
Proof.
  intros Hs Hi Hf. change (nd6_ok (set_neighbor k (fun e => e <| nc_isrouter := false |>) (set_router i f s))).
  assert (forall j k', names (nd6 (set_router i f s)) j k' -> j <> i /\ names (nd6 s) j k') as Hnames.
  { intros j k' (r & Hr & Hk). cbn in Hr. rewrite list_lookup_alter in Hr. destruct (decide (i = j)) as [<- |]; [|split; [congruence|by exists r]].
    apply fmap_Some in Hr as (r0 & _ & ->). by rewrite Hf in Hk. }
  apply set_neighbor_ok.
  - apply set_router_ok; [done|]. intros j k' [_ ?]%Hnames. by left.
  - intros e _ []. constructor; cbn; try done. intros Hst. by destruct (ne_free0 Hst).
  - intros e _ _. right. intros j [Hne Hj]%Hnames. destruct Hne. by eapply (to_once _ _ (no_tables s Hs)).
Qed.

Lemma no_destinations_map g s : nd6_ok s -> (forall c, ip6_addr_isany (dc_destination_addr c) = true ->
  ip6_addr_isany (dc_destination_addr (g c)) = true) -> nd6_ok (s <| nd6 := (nd6 s) <| destination_cache := map g (destination_cache (nd6 s)) |> |>).
Proof.
  intros [Hn []] Hg. split; [done|]. constructor; try done; cbn; [by rewrite length_map|].
  rewrite Forall_forall in *. intros c Hc. apply list_elem_of_In, in_map_iff in Hc as (c0 & <- & Hc). apply Hg, to_destinations0.
  by apply list_elem_of_In.
Qed.

Lemma tmr_router_ok i s : nd6_ok s -> (i < LWIP_ND6_NUM_ROUTERS)%nat -> ok_step s (tmr_router i s).
Proof.
  intros Hs Hi. unfold tmr_router. destruct (to_lengths _ _ (no_tables s Hs)) as (_ & _ & Hl). rewrite <- Hl in Hi.
  destruct (lookup_lt_is_Some_2 _ _ Hi) as [r Hr]. rewrite Hr. cbn [mbind option_bind].
  destruct (dr_neighbor_entry r) as [k|] eqn:Ek; [|by apply keeps_here].
  assert (names (nd6 s) i k) as Hik by (by exists r).
  destruct (_ <=? _); [|by apply set_router_keeps].
  destruct (to_routers _ _ (no_tables s Hs) i k Hik) as (e & He & _). rewrite He. cbn [mbind option_bind].
  apply keeps_Some; [|done].
  set (g := fun d : nd6_destination_cache_entry => if ip6_addr_cmp (dc_next_hop_addr d) (nc_next_hop_address e) then _ else d).
  set (s1 := s <| nd6 := _ |>). assert (nd6_ok s1) as Hs1.
  { apply (no_destinations_map g); [done|]. intros c Hc. unfold g. by destruct (ip6_addr_cmp _ _). }
  by apply drop_router_ok.
Qed.

Lemma tmr_prefix_ok s : nd6_ok s -> nd6_ok (s <| nd6 := (nd6 s) <| prefix_list := map tmr_prefix (prefix_list (nd6 s)) |> |>).
Proof.
  intros [Hn []]. split; [done|]. constructor; try done. intros i e ptr He Hp. cbn in He.
  rewrite list_lookup_fmap in He. apply fmap_Some in He as (e0 & He0 & ->). apply (to_prefixes0 i e0 ptr He0).
  unfold tmr_prefix in Hp. destruct (pl_netif e0) eqn:E; [|congruence]. destruct (_ <=? _); [done|]. cbn in Hp. congruence.
Qed.

Lemma tmr_lifetimes_ok ptr i s : nd6_ok s -> In ptr (ptrs s) -> (i < 3)%nat -> ok_step s (tmr_lifetimes ptr i s).
Proof.
  intros Hs Hp Hi. unfold tmr_lifetimes. at_ptr s ptr n.
  destruct (slot_at (nif_ip6_addr_state n) i) as (st & ->); [by apply ng_states|done|]. cbn [mbind option_bind].
  destruct (_ || _); [by apply keeps_here|]. pose proof (life_nonneg n i ltac:(done)) as Hl.
  assert (forall v s', nd6_ok s' -> kept s s' -> ok_step s (Some (set_pref_life ptr i v s'))) as Hpref.
  { intros v s' Hs' Hk'. apply keeps_Some; [by apply set_pref_life_ok|]. etrans; [done|apply set_pref_life_kept]. }
  assert (forall v st s', nd6_ok s' -> kept s s' -> ok_step s (netif_ip6_addr_set_state ptr i st (set_pref_life ptr i v s'))) as Hst.
  { intros v st' s' Hs' Hk'. eapply keeps_from; [exact Hk'|]. eapply keeps_from; [apply set_pref_life_kept|].
    apply set_state_ok; [by apply set_pref_life_ok| |done]. destruct (set_pref_life_kept ptr i v s') as [-> _]. by destruct Hk' as [-> _]. }
  change (Z.quot ND6_TMR_INTERVAL 1000) with 1. destruct (Z.leb_spec (valid_life n i) 1).
  { apply Hst; [by apply set_valid_life_ok|apply set_valid_life_kept]. }
  set (s1 := if valid_life n i =? IP6_ADDR_LIFE_INFINITE then s else _).
  assert (nd6_ok s1 /\ kept s s1) as [Hs1 Hk1].
  { unfold s1. destruct (_ =? IP6_ADDR_LIFE_INFINITE); [by split|]. split; [apply set_valid_life_ok; [done|lia]|apply set_valid_life_kept]. }
  clearbody s1. destruct (_ <=? 1).
  { destruct (_ =? _); [by apply Hst|by apply Hpref]. }
  destruct (_ =? _); [by apply keeps_Some|by apply Hpref].
Qed.

Lemma tmr_dad_ok ptr i s : nd6_ok s -> In ptr (ptrs s) -> (i < 3)%nat -> ok_step s (tmr_dad ptr i s).
Proof.
  intros Hs Hp Hi. unfold tmr_dad. at_ptr s ptr n.
  destruct (slot_at (nif_ip6_addr_state n) i) as (st & ->); [by apply ng_states|done|]. cbn [mbind option_bind].
  destruct (negb _); [by apply keeps_here|]. destruct (_ <=? _); [by apply set_state_ok|].
  destruct (_ && _); [|by apply keeps_here]. eapply then_ok; [by apply set_state_ok|].
  intros s1 Hs1 [Hk _]. rewrite <- Hk in Hp. destruct (netif_at_good s1 ptr Hs1 Hp) as (n1 & -> & Hn1 & _). cbn [mbind option_bind].
  destruct (slot_at (nif_ip6_addr n1) i) as (a & Ha); [by apply ng_addrs|done|]. rewrite Ha. cbn [mbind option_bind].
  apply nd6_send_ns_ok; [done|done| |by left]. apply (ng_addrs n1); [done|]. apply list_elem_of_In. by eapply list_elem_of_lookup_2.
Qed.

Lemma tmr_netif_ok ptr s : nd6_ok s -> In ptr (ptrs s) -> ok_step s (tmr_netif ptr s).
Proof.
  intros Hs Hp. apply each_ok; [done|]. intros i s1 Hi Hs1 [Hk _]. rewrite <- Hk in Hp.
  assert (i < 3)%nat as Hi3 by (cbn in Hi; lia). eapply then_ok; [by apply tmr_lifetimes_ok|].
  intros s2 Hs2 [Hk2 _]. rewrite <- Hk2 in Hp. by apply tmr_dad_ok.
Qed.

Lemma tmr_rs_ok ptr s : nd6_ok s -> In ptr (ptrs s) -> ok_step s (tmr_rs ptr s).
Proof.
  intros Hs Hp. unfold tmr_rs. at_ptr s ptr n.
  destruct (slot_at (nif_ip6_addr_state n) 0) as (st & ->); [by apply ng_states|lia|]. cbn [mbind option_bind].
  destruct (_ && _ && _ && _ && _); [|by apply keeps_here]. eapply (keeps_bind fst); [by apply nd6_send_rs_ok|].
  intros [s1 err] Hs1 _. cbn [fst] in *. destruct (_ =? _); [|by apply keeps_here].
  apply netif_update_keeps; [done|done|]. intros m []. by constructor.
Qed.

Lemma nd6_tmr_ok s : nd6_ok s -> ok_step s (nd6_tmr s).
Proof.
  intros Hs. unfold nd6_tmr. eapply then_ok.
  { apply each_ok; [done|]. intros i s' Hi%in_seq Hs' _. apply tmr_neighbor_ok; [done|lia]. }
  intros s1 Hs1 Hk1. eapply (then_pure _ s1 (s1 <| nd6 := _ |>)).
  { apply keeps_Some; [by apply (no_destinations_map (fun d => d <| dc_age := u32 (dc_age d + 1) |>))|done]. }
  intros Hs2 _. eapply then_ok.
  { apply each_ok; [done|]. intros i s' Hi%in_seq Hs' _. apply tmr_router_ok; [done|lia]. }
  intros s3 Hs3 _. eapply then_pure; [apply keeps_Some; [by apply tmr_prefix_ok|done]|].
  intros Hs4 _. eapply then_ok.
  { apply each_ok; [done|]. intros ptr s' Hp Hs' [Hk' _]. apply tmr_netif_ok; [done|]. by rewrite Hk'. }
  intros s5 Hs5 _. assert (forall v, nd6_ok (s5 <| nd6 := (nd6 s5) <| nd6_tmr_rs_reduction := v |> |>)) as Hred.
  { intros v. destruct Hs5 as [? []]. split; [done|by constructor]. }
  destruct (_ =? 0); [|by apply keeps_Some]. eapply then_pure; [apply keeps_Some; [apply Hred|done]|]. intros Hs6 _.
  apply each_ok; [done|]. intros ptr s' Hp Hs' [Hk' _]. apply tmr_rs_ok; [done|]. by rewrite Hk'.
Qed.

(** ** Interfaces *)

Lemma netif_set_up_ok ptr s : nd6_ok s -> In ptr (ptrs s) -> ok_step s (netif_set_up ptr s).
Proof.
  intros Hs Hp. unfold netif_set_up. at_ptr s ptr n. destruct (netif_is_up n); [by apply keeps_here|].
  eapply then_pure; [apply (netif_update_keeps ptr (netif_set_flags NETIF_FLAG_UP)); [done|done|]|].
  { intros m []. by constructor. }
  intros Hs1 _. apply netif_update_keeps; [done|done|]. intros m []. by constructor.
Qed.

(** No entry, no prefix and no router of the first [k] neighbors is of the interface. *)
Definition cleaned (ptr : Z) (k : nat) (s : net) : Prop :=
  (forall i e, (i < k)%nat -> neighbor_cache (nd6 s) !! i = Some e -> nc_netif e <> Some ptr) /\
  (forall i e, prefix_list (nd6 s) !! i = Some e -> pl_netif e <> Some ptr).

Lemma ptr_eqb_eq a ptr : ptr_eqb a ptr = true <-> a = Some ptr.
Proof. destruct a as [a|]; [|done]. cbn. rewrite Z.eqb_eq. split; congruence. Qed.

Lemma unname_routers s i : nd6_ok s ->
  let s1 := s <| nd6 := (nd6 s) <| default_router_list :=
     map (fun r => if bool_decide (dr_neighbor_entry r = Some i) then r <| dr_neighbor_entry := None |> <| dr_flags := 0 |> else r)
       (default_router_list (nd6 s)) |> |> in
  nd6_ok s1 /\ unnamed i s1.
Proof.
  intros Hs s1.
  assert (forall j k, names (nd6 s1) j k -> k <> i /\ names (nd6 s) j k) as Hn.
  { intros j k (r & Hr & Hk). unfold s1 in Hr. cbn in Hr. rewrite list_lookup_fmap in Hr.
    apply fmap_Some in Hr as (r0 & Hr0 & ->). case_bool_decide; [done|]. split; [congruence|by exists r0]. }
  destruct Hs as [Hg []]. split; [|intros j [Hne _]%Hn; done]. split; [done|]. constructor; try done.
  - unfold s1. cbn. by rewrite length_map.
  - intros j k [_ Hj]%Hn. eauto.
  - intros j j' k [_ Hj]%Hn [_ Hj']%Hn. eauto.
Qed.

Lemma cleanup_neighbor_ok ptr s i : nd6_ok s -> cleaned ptr i s ->
  nd6_ok (cleanup_neighbor ptr s i) /\ kept s (cleanup_neighbor ptr s i) /\ cleaned ptr (S i) (cleanup_neighbor ptr s i).
Proof.
  intros Hs [Hc Hpf]. unfold cleanup_neighbor. destruct (neighbor_cache (nd6 s) !! i) as [e|] eqn:He.
  2: { split_and!; [done|done|]. split; [|done]. intros j e' Hj He'. destruct (decide (j = i)) as [-> |]; [congruence|]. apply (Hc j); [lia|done]. }
  destruct (ptr_eqb (nc_netif e) ptr) eqn:Ep.
  - destruct (unname_routers s i Hs) as [Hs1 Hun]. set (s1 := s <| nd6 := _ |>) in *.
    set (s2 := set_neighbor i _ s1). assert (nd6_ok s2) as Hs2.
    { apply set_neighbor_ok; [done| |auto]. intros e' He' []. constructor; cbn; try done. intros Hst. by destruct (ne_free0 Hst). }
    split_and!; [by apply nd6_free_ok|apply (nd6_free_kept i s2)|].
    unfold nd6_free_neighbor_cache_entry. assert (neighbor_cache (nd6 s2) !! i = Some (e <| nc_isrouter := false |>)) as E2.
    { unfold s2. cbn. by rewrite list_lookup_alter_eq, He. }
    rewrite E2. cbn [nc_isrouter]. split; [|exact Hpf]. intros j e' Hj. cbn. destruct (decide (i = j)) as [<- |].
    + rewrite !list_lookup_alter_eq, He. by intros [= <-].
    + rewrite !list_lookup_alter_ne by done. apply Hc. lia.
  - split_and!; [done|done|]. split; [|done]. intros j e' Hj He'. destruct (decide (j = i)) as [-> |]; [|apply (Hc j); [lia|done]].
    rewrite He in He'. injection He' as <-. intros E%ptr_eqb_eq. congruence.
Qed.

Lemma cleanup_neighbors_ok ptr k s : nd6_ok s -> cleaned ptr 0 s ->
  let s' := foldl (cleanup_neighbor ptr) s (seq 0 k) in nd6_ok s' /\ kept s s' /\ cleaned ptr k s'.
Proof.
  intros Hs Hc. induction k as [|k IH]; [done|]. rewrite seq_S, foldl_app. cbn [foldl] in *.
  destruct IH as (H1 & H2 & H3). destruct (cleanup_neighbor_ok ptr _ k H1 H3) as (? & ? & ?).
  split_and!; [done|by etrans|done].
Qed.

Lemma nd6_clear_ok ptr k s0 s : nd6_ok s -> kept s0 s -> cleaned ptr k s ->
  nd6_ok (nd6_clear_destination_cache s) /\ kept s0 (nd6_clear_destination_cache s) /\ cleaned ptr k (nd6_clear_destination_cache s).
Proof.
  intros Hs Hk Hc. split_and!; [|done|done].
  by apply (no_destinations_map (fun e => e <| dc_destination_addr := ip6_addr_zero |>)).
Qed.

(** Nothing of the interface is left. *)
Lemma nd6_cleanup_ok ptr s : nd6_ok s ->
  nd6_ok (nd6_cleanup_netif ptr s) /\ kept s (nd6_cleanup_netif ptr s) /\ cleaned ptr LWIP_ND6_NUM_NEIGHBORS (nd6_cleanup_netif ptr s).
Proof.
  intros Hs. unfold nd6_cleanup_netif.
  set (s1 := s <| nd6 := (nd6 s) <| prefix_list := _ |> |>). assert (nd6_ok s1 /\ cleaned ptr 0 s1) as [Hs1 Hc1].
  { destruct Hs as [Hg []]. split; [split; [done|constructor; try done]|split; [intros; lia|]]; intros i e; unfold s1; cbn;
      rewrite list_lookup_fmap; [intros q|]; intros (e0 & He0 & ->)%fmap_Some; destruct (ptr_eqb (pl_netif e0) ptr) eqn:E; try done.
    - intros Hq. eauto.
    - intros E'%ptr_eqb_eq. congruence. }
  assert (kept s s1) as Hk1 by done. clearbody s1.
  pose proof (cleanup_neighbors_ok ptr LWIP_ND6_NUM_NEIGHBORS s1 Hs1 Hc1) as H. revert H.
  generalize (foldl (cleanup_neighbor ptr) s1 (seq 0 LWIP_ND6_NUM_NEIGHBORS)). intros s2 (Hs2 & Hk2 & Hc2).
  apply nd6_clear_ok; [done|by etrans|done].
Qed.

(** An interface that is up goes down, and leaves nothing. *)
Lemma netif_set_down_cleans ptr n s : nd6_ok s -> netif_at ptr s = Some n -> netif_is_up n = true ->
  exists s', netif_set_down ptr s = Some s' /\ nd6_ok s' /\ kept s s' /\ cleaned ptr LWIP_ND6_NUM_NEIGHBORS s'.
Proof.
  intros Hs En Hup. unfold netif_set_down. rewrite En. cbn [mbind option_bind]. rewrite Hup. eexists. split; [reflexivity|].
  assert (nd6_ok (netif_update ptr (netif_clear_flags NETIF_FLAG_UP) s)) as Hs1.
  { apply netif_update_ok; [done|done|]. intros m _ []. by constructor. }
  assert (kept s (netif_update ptr (netif_clear_flags NETIF_FLAG_UP) s)) as Hk1 by (split; [by apply ptrs_update|reflexivity]).
  revert Hs1 Hk1. generalize (netif_update ptr (netif_clear_flags NETIF_FLAG_UP) s). intros s1 Hs1 Hk1.
  destruct (nd6_cleanup_ok ptr s1 Hs1) as (H1 & H2 & H3). split; [exact H1|]. split; [|exact H3].
  etrans; [exact Hk1|exact H2].
Qed.

Lemma netif_set_down_ok ptr s : nd6_ok s -> In ptr (ptrs s) -> ok_step s (netif_set_down ptr s).
Proof.
  intros Hs Hp. destruct (netif_at_good s ptr Hs Hp) as (n & En & _). destruct (netif_is_up n) eqn:Hup.
  - destruct (netif_set_down_cleans ptr n s Hs En Hup) as (s' & -> & H1 & H2 & _). by apply keeps_Some.
  - unfold netif_set_down. rewrite En. cbn [mbind option_bind]. rewrite Hup. by apply keeps_here.
Qed.

Lemma addresses_gone_same l s : exists s', addresses_gone l s = Some s' /\ same_tables s s'.
Proof.
  revert s. induction l as [|[a st] l IH]; intros s; cbn [addresses_gone]; [by exists s|].
  destruct (ip6_addr_isvalid st); [|cbn [mbind option_bind]; apply IH].
  destruct (users_keep a None s) as (s1 & -> & H1). cbn [mbind option_bind].
  destruct (IH s1) as (s2 & -> & H2). exists s2. split; [done|by etrans].
Qed.

Definition without (ptr : Z) (l : list Z) : list Z := List.filter (fun q => negb (q =? ptr)) l.

Lemma ptrs_without ptr l :
  map nif_ptr (List.filter (fun m => negb (nif_ptr m =? ptr)) l) = without ptr (map nif_ptr l).
Proof.
  unfold without. induction l as [|m l IH]; [done|]. cbn [List.filter map]. destruct (nif_ptr m =? ptr); cbn [negb map]; [done|by rewrite IH].
Qed.

Lemma in_without ptr q l : In q l -> q <> ptr -> In q (without ptr l).
Proof. intros Hq Hne. apply List.filter_In. split; [done|]. by rewrite (proj2 (Z.eqb_neq _ _) Hne). Qed.

Lemma tables_without ptr ps d : tables_ok ps d ->
  (forall i e, (i < LWIP_ND6_NUM_NEIGHBORS)%nat -> neighbor_cache d !! i = Some e -> nc_netif e <> Some ptr) ->
  (forall i e, prefix_list d !! i = Some e -> pl_netif e <> Some ptr) -> tables_ok (without ptr ps) d.
Proof.
  intros [] Hc Hpf. constructor; try done.
  - intros i e He. destruct (to_neighbors0 i e He). constructor; try done. intros Hst. destruct (ne_netif0 Hst) as (q & Hq & Hq').
    exists q. split; [done|]. apply in_without; [done|]. intros ->. apply (Hc i e); [|done|done].
    apply lookup_lt_Some in He. by destruct to_lengths0 as [<- _].
  - intros i e q He Hq. apply in_without; [eauto|]. intros ->. by apply (Hpf i e).
Qed.

(** The rest of [netif_remove]. *)
Lemma drop_netif_ok ptr s : nd6_ok s -> cleaned ptr LWIP_ND6_NUM_NEIGHBORS s ->
  let s1 := if ptr_eqb (netif_default s) ptr then netif_set_default None s else s in
  let s' := s1 <| netif_list := List.filter (fun m => negb (nif_ptr m =? ptr)) (netif_list s1) |> in
  nd6_ok s' /\ ip_data s' = ip_data s /\ ptrs s' = without ptr (ptrs s).
Proof.
  intros [Hg Ht] [Hc Hpf] s1.
  assert (netif_list s1 = netif_list s /\ nd6 s1 = nd6 s /\ ip_data s1 = ip_data s) as (E1 & E2 & E3) by (unfold s1; by destruct (ptr_eqb _ _)).
  clearbody s1. intros s'. assert (ptrs s' = without ptr (ptrs s)) as Hp by (unfold ptrs, s'; cbn; by rewrite ptrs_without, E1).
  split_and!; [|exact E3|exact Hp]. split.
  - unfold s'. cbn. rewrite E1. rewrite Forall_forall in *. intros m [Hm _]%list_elem_of_In%List.filter_In. by apply Hg, list_elem_of_In.
  - rewrite Hp. change (nd6 s') with (nd6 s1). rewrite E2. by apply tables_without.
Qed.

(** An interface that is up can go. *)
Lemma netif_remove_ok ptr n s : nd6_ok s -> netif_at ptr s = Some n -> netif_is_up n = true ->
  exists s', netif_remove ptr s = Some s' /\ nd6_ok s' /\ ip_data s' = ip_data s /\ ptrs s' = without ptr (ptrs s).
Proof.
  intros Hs En Hup. unfold netif_remove. rewrite En. cbn [mbind option_bind].
  assert (exists s1, (if negb (netif_ip4_addr n =? IPADDR_ANY) then netif_do_ip_addr_changed (nif_ip_addr n) None s else Some s) = Some s1 /\
    same_tables s s1) as (s1 & -> & H1) by (destruct (negb _); [apply users_keep|by exists s]).
  cbn [mbind option_bind]. destruct (addresses_gone_same (combine (nif_ip6_addr n) (nif_ip6_addr_state n)) s1) as (s2 & -> & H2).
  cbn [mbind option_bind]. rewrite Hup. assert (same_tables s s2) as H by by etrans.
  assert (netif_at ptr s2 = Some n) as En2 by (destruct H as [El _]; unfold netif_at; by rewrite El).
  destruct (netif_set_down_cleans ptr n s2) as (s3 & -> & Hs3 & Hk3 & Hc3); [by eapply nd6_ok_same|done|done|].
  cbn [mbind option_bind]. eexists. split; [reflexivity|].
  destruct (drop_netif_ok ptr s3 Hs3 Hc3) as (G1 & G2 & G3). apply kept_same in H. destruct H as [P1 D1], Hk3 as [P2 D2].
  split; [exact G1|]. split; [rewrite G2; congruence|]. rewrite G3. congruence.
Qed.

(** ** Lookups *)

Lemma usable_router_returns q i r s : nd6_ok s -> default_router_list (nd6 s) !! i = Some r ->
  exists u, usable_router q r s = Some u.
Proof.
  intros Hs Hr. unfold usable_router. destruct (dr_neighbor_entry r) as [k|] eqn:Ek; [|eauto].
  destruct (to_routers _ _ (no_tables s Hs) i k) as (e & He & Hir); [by exists r|]. rewrite He. cbn [mbind option_bind].
  pose proof (to_neighbors _ _ (no_tables s Hs) k e He) as Hok.
  assert (nc_state e <> ND6_NO_ENTRY) as Hst by (intros Hst; destruct (ne_free _ _ Hok Hst); congruence).
  destruct (ne_netif _ _ Hok Hst) as (ptr & -> & Hin). destruct q as [q|]; cbn [mbind option_bind]; [eauto|].
  destruct (netif_at_good s ptr Hs Hin) as (n & -> & _). cbn [mbind option_bind]. eauto.
Qed.

Lemma reachable_router_returns q l i v s : nd6_ok s ->
  (forall j r, l !! j = Some r -> default_router_list (nd6 s) !! (i + j)%nat = Some r) ->
  exists x, reachable_router q l i v s = Some x.
Proof.
  intros Hs. revert i v. induction l as [|r l IH]; intros i v Hl; cbn [reachable_router]; [eauto|].
  destruct (usable_router_returns q i r s Hs) as [u ->]; [specialize (Hl O r eq_refl); by rewrite Nat.add_0_r in Hl|].
  assert (forall v, exists x, reachable_router q l (S i) v s = Some x) as Hrest.
  { intros v'. apply IH. intros j r' Hj. rewrite <- (Hl (S j) r' Hj). f_equal. lia. }
  cbn [mbind option_bind]. destruct u as [e|]; [|apply Hrest]. destruct (in_state ND6_INCOMPLETE e); [apply Hrest|].
  destruct (in_state ND6_REACHABLE e); [eauto|apply Hrest].
Qed.

Lemma any_router_returns q j i s : nd6_ok s -> (i < LWIP_ND6_NUM_ROUTERS)%nat -> exists x, any_router q j i s = Some x.
Proof.
  intros Hs. revert i. induction j as [|j IH]; intros i Hi; cbn [any_router]; [eauto|].
  destruct (to_lengths _ _ (no_tables s Hs)) as (_ & _ & Hl). pose proof Hi as Hi'. rewrite <- Hl in Hi'.
  destruct (lookup_lt_is_Some_2 _ _ Hi') as [r Hr]. rewrite Hr. cbn [mbind option_bind].
  destruct (usable_router_returns q i r s Hs Hr) as [[e|] ->]; cbn [mbind option_bind]; [eauto|].
  apply IH. unfold LWIP_ND6_NUM_ROUTERS in *. destruct (Nat.leb_spec 3 (S i)); lia.
Qed.

(** An index a lookup may give: a router of the list, in use. *)
Lemma usable_named q r s e : usable_router q r s = Some (Some e) -> exists k, dr_neighbor_entry r = Some k.
Proof. unfold usable_router. destruct (dr_neighbor_entry r); [eauto|done]. Qed.

Lemma reachable_router_named q l i v s x : reachable_router q l i v s = Some x ->
  (forall j, (x = inl j \/ x = inr (Some j)) -> (exists k r d, j = (i + k)%nat /\ l !! k = Some r /\ dr_neighbor_entry r = Some d) \/ v = Some j).
Proof.
  revert i v. induction l as [|r l IH]; intros i v; cbn [reachable_router].
  { intros [= <-] j [|[= ->]]; [done|by right]. }
  destruct (usable_router q r s) as [[e|]|] eqn:Eu; [| |done]; cbn [mbind option_bind].
  - apply usable_named in Eu as [d Hd].
    assert (forall w, (forall j, w = Some j -> j = i \/ v = Some j) -> reachable_router q l (S i) w s = Some x ->
      forall j, (x = inl j \/ x = inr (Some j)) -> (exists k r' d, j = (i + k)%nat /\ (r :: l) !! k = Some r' /\ dr_neighbor_entry r' = Some d) \/ v = Some j) as Hrest.
    { intros w Hw H j Hj. destruct (IH _ _ H j Hj) as [(k & r' & d' & -> & Hk & Hd')|Hwj].
      - left. exists (S k), r', d'. split_and!; [lia|done|done].
      - destruct (Hw j Hwj) as [-> |]; [left|by right]. exists O, r, d. split_and!; [lia|done|done]. }
    destruct (in_state ND6_INCOMPLETE e); [apply Hrest; auto|].
    destruct (in_state ND6_REACHABLE e).
    + intros [= <-] j [[= <-]|]; [|done]. left. exists O, r, d. split_and!; [lia|done|done].
    + apply Hrest. intros j. destruct v as [v|]; [auto|]. intros [= <-]. auto.
  - intros H j Hj. destruct (IH _ _ H j Hj) as [(k & r' & d' & -> & Hk & Hd')|]; [left|by right].
    exists (S k), r', d'. split_and!; [lia|done|done].
Qed.

Lemma any_router_named q j i s k : any_router q j i s = Some (Some k) -> exists d, names (nd6 s) k d.
Proof.
  revert i. induction j as [|j IH]; intros i; cbn [any_router]; [done|].
  destruct (default_router_list (nd6 s) !! i) as [r|] eqn:Er; [|done]. cbn [mbind option_bind].
  destruct (usable_router q r s) as [[e|]|] eqn:Eu; [| |done]; cbn [mbind option_bind]; [|apply IH].
  intros [= <-]. apply usable_named in Eu as [d Hd]. by exists d, r.
Qed.

Lemma last_router_ok v s : nd6_ok s -> (v < LWIP_ND6_NUM_ROUTERS)%nat -> nd6_ok (s <| nd6 := (nd6 s) <| last_router := v |> |>).
Proof. intros [? []] Hv. split; [done|]. constructor; try done. by destruct_and! to_cached0. Qed.

(** The choice of a router: one that is in the list. *)
Lemma nd6_select_router_ok q s : nd6_ok s ->
  exists i s', nd6_select_router q s = Some (i, s') /\ nd6_ok s' /\ kept s s' /\ forall j, i = Some j -> exists k, names (nd6 s') j k.
Proof.
  intros Hs. unfold nd6_select_router.
  destruct (reachable_router_returns q (default_router_list (nd6 s)) 0 None s Hs) as [x Ex]; [done|]. rewrite Ex. cbn [mbind option_bind].
  pose proof (reachable_router_named _ _ _ _ _ _ Ex) as Hx.
  assert (forall j, (x = inl j \/ x = inr (Some j)) -> exists k, names (nd6 s) j k) as Hn.
  { intros j Hj. destruct (Hx j Hj) as [(k & r & d & -> & Hk & Hd)|]; [|done]. by exists d, r. }
  destruct x as [j|[j|]].
  1, 2: do 2 eexists; split_and!; [done|done|done|intros j' [= <-]; auto].
  set (v := match q with Some _ => _ | None => _ end).
  assert (v < LWIP_ND6_NUM_ROUTERS)%nat as Hv.
  { destruct (to_cached _ _ (no_tables s Hs)) as (_ & _ & Hl). unfold v. destruct q; [done|].
    destruct (Nat.leb_spec LWIP_ND6_NUM_ROUTERS (S (last_router (nd6 s)))); [unfold LWIP_ND6_NUM_ROUTERS|]; lia. }
  pose proof (last_router_ok v s Hs Hv) as Hs1. set (s1 := s <| nd6 := _ |>) in *.
  destruct (any_router_returns q LWIP_ND6_NUM_ROUTERS v s1 Hs1 Hv) as [y Ey]. rewrite Ey. cbn [mbind option_bind].
  do 2 eexists. split_and!; [done|done|done|]. intros j ->. by eapply any_router_named.
Qed.

Lemma prefix_route_returns a l s : nd6_ok s -> (forall e ptr, In e l -> pl_netif e = Some ptr -> In ptr (ptrs s)) ->
  exists p, prefix_route a l s = Some p /\ forall ptr, p = Some ptr -> In ptr (ptrs s).
Proof.
  intros Hs. induction l as [|e l IH]; intros Hl; cbn [prefix_route]; [by exists None|].
  assert (exists p, prefix_route a l s = Some p /\ forall ptr, p = Some ptr -> In ptr (ptrs s)) as Hrest
    by (apply IH; intros; eapply Hl; [by right|done]).
  destruct (pl_netif e) as [ptr|] eqn:Ep; [|done]. destruct (ip6_addr_netcmp _ _); [|done].
  pose proof (Hl e ptr (or_introl eq_refl) Ep) as Hin.
  destruct (netif_at_good s ptr Hs Hin) as (n & -> & _). cbn [mbind option_bind]. destruct (_ && _); [|done].
  exists (Some ptr). split; [done|]. by intros ? [= <-].
Qed.

(** A route is an interface that is there. *)
Lemma nd6_find_route_ok a s : nd6_ok s ->
  exists r s', nd6_find_route a s = Some (r, s') /\ nd6_ok s' /\ kept s s' /\ forall ptr, r = Some ptr -> In ptr (ptrs s').
Proof.
  intros Hs. unfold nd6_find_route.
  destruct (prefix_route_returns a (prefix_list (nd6 s)) s Hs) as ([ptr|] & -> & Hp).
  { intros e ptr [i Hi]%list_elem_of_In%list_elem_of_lookup. by apply (to_prefixes _ _ (no_tables s Hs) i). }
  { cbn [mbind option_bind]. do 2 eexists. split_and!; [done|done|done|]. intros p [= <-]. auto. }
  cbn [mbind option_bind]. destruct (nd6_select_router_ok None s Hs) as ([i|] & s1 & -> & Hs1 & Hk & Hn); cbn [mbind option_bind];
    [|do 2 eexists; by split_and!].
  destruct (Hn i eq_refl) as (k & r & Hr & Hd). rewrite Hr. cbn [mbind option_bind]. rewrite Hd. cbn [mbind option_bind].
  destruct (to_routers _ _ (no_tables s1 Hs1) i k) as (e & He & Hir); [by exists r|]. rewrite He. cbn [mbind option_bind].
  do 2 eexists. split_and!; [done|done|done|]. intros ptr Hptr. pose proof (to_neighbors _ _ (no_tables s1 Hs1) k e He) as Hok.
  assert (nc_state e <> ND6_NO_ENTRY) as Hst by (intros Hst; destruct (ne_free _ _ Hok Hst); congruence).
  destruct (ne_netif _ _ Hok Hst) as (q & Hq & Hin). congruence.
Qed.

Lemma nd6_reachability_hint_ok a s : nd6_ok s -> ok_step s (nd6_reachability_hint a s).
Proof.
  intros Hs. unfold nd6_reachability_hint. destruct (to_lengths _ _ (no_tables s Hs)) as (L1 & L2 & _).
  destruct (to_cached _ _ (no_tables s Hs)) as (C1 & C2 & _). rewrite <- L1 in C1. rewrite <- L2 in C2.
  destruct (lookup_lt_is_Some_2 _ _ C1) as [m Hm]. destruct (lookup_lt_is_Some_2 _ _ C2) as [c Hc].
  rewrite Hc, Hm. cbn [mbind option_bind].
  match goal with |- keeps _ _ match ?o with _ => _ end => assert (forall i, o = Some i -> (i < length (destination_cache (nd6 s)))%nat) as Ho end.
  { intros i. destruct (ip6_addr_cmp _ _); [by intros [= <-]|]. intros (e & He & _)%find_entry_Some. by apply lookup_lt_Some in He. }
  match goal with |- keeps _ _ match ?o with _ => _ end => destruct o as [i|] end; [|by apply keeps_here].
  destruct (lookup_lt_is_Some_2 _ _ (Ho i eq_refl)) as [d Hd]. rewrite Hd. cbn [mbind option_bind].
  match goal with |- keeps _ _ match ?o with _ => _ end => assert (forall i, o = Some i -> (i < length (neighbor_cache (nd6 s)))%nat) as Hn end.
  { intros k. destruct (ip6_addr_cmp _ _); [by intros [= <-]|]. intros (e & He & _)%find_entry_Some. by apply lookup_lt_Some in He. }
  match goal with |- keeps _ _ match ?o with _ => _ end => destruct o as [k|] end; [|by apply keeps_here].
  destruct (lookup_lt_is_Some_2 _ _ (Hn k eq_refl)) as [e He]. rewrite He. cbn [mbind option_bind].
  destruct (_ || _) eqn:E; [by apply keeps_here|]. apply orb_false_iff in E as [_ E]. apply bool_decide_eq_false in E.
  apply set_neighbor_keeps; [done|]. intros e' He' []. assert (e' = e) as -> by congruence. split; [|done].
  constructor; cbn; try done; [auto|by intros []].
Qed.

(** ** Runs *)

(** The calls of the rest of the stack: a message with the description of the packet
    it came in, the timer, an interface that goes up, down or away, lookups. *)
Inductive nd6_call :=
| Message (g : ip_globals) (p : pkt) (inp : netif)
| Tick
| Up (ptr : Z)
| Down (ptr : Z)
| Remove (ptr : Z)
| Route (dest : ip6_addr)
| Hint (dest : ip6_addr).

Definition nd6_run_call (c : nd6_call) (s : net) : option net :=
  match c with
  | Message g p inp => nd6_input p inp (s <| ip_data := g |>)
  | Tick => nd6_tmr s
  | Up ptr => netif_set_up ptr s
  | Down ptr => netif_set_down ptr s
  | Remove ptr => netif_remove ptr s
  | Route dest => '(_, s) ← nd6_find_route dest s; Some s
  | Hint dest => nd6_reachability_hint dest s
  end.

(** The calls a caller may make: a message of one octet at least, from a packet with an
    address, on an interface of the list; a redirect to the unspecified
    address is left out (it makes an entry for that address, which is probed).
    An interface that goes away is up. *)
Definition nd6_call_ok (c : nd6_call) (s : net) : bool :=
  match c with
  | Message g p inp =>
      bool_decide (nif_ptr inp ∈ ptrs s) && (length (ip6_words (ip_2_ip6 (current_iphdr_src g))) =? 4)%nat
      && negb (length (hd [] (pk_chunks p)) =? 0)%nat
      && negb ((ld8 (message_memory p) 0 =? ICMP6_TYPE_RD) && ip6_addr_isany (from_packed (ld_words (message_memory p) 8)))
  | Up ptr | Down ptr => bool_decide (ptr ∈ ptrs s)
  | Remove ptr => match netif_at ptr s with Some n => netif_is_up n | None => false end
  | _ => true
  end.

Lemma nd6_run_call_ok c s : nd6_ok s -> nd6_call_ok c s = true -> exists s', nd6_run_call c s = Some s' /\ nd6_ok s'.
Proof.
  intros Hs Hc. destruct c as [g p inp| |ptr|ptr|ptr|dest|dest]; cbn [nd6_run_call nd6_call_ok] in *.
  - rewrite !andb_true_iff, Nat.eqb_eq in Hc. destruct Hc as (((Hp%bool_decide_eq_true%list_elem_of_In & Hw) & Hm) & Ht).
    assert (nd6_ok (s <| ip_data := g |>)) as Hs1 by (by destruct Hs).
    destruct (nd6_input_ok p inp (s <| ip_data := g |>)) as (s' & -> & ? & _); [done|done|done| | |eauto].
    + unfold message_memory. by destruct (hd [] (pk_chunks p)).
    + intros H0 n. unfold address_at, ip6_addr_assign_zone. unfold ld8 at 1 in Ht. rewrite nth_lookup, H0 in Ht.
      by apply negb_true_iff in Ht.
  - destruct (nd6_tmr_ok s Hs) as (s' & -> & ? & _). eauto.
  - apply bool_decide_eq_true, list_elem_of_In in Hc. destruct (netif_set_up_ok ptr s Hs Hc) as (s' & -> & ? & _). eauto.
  - apply bool_decide_eq_true, list_elem_of_In in Hc. destruct (netif_set_down_ok ptr s Hs Hc) as (s' & -> & ? & _). eauto.
  - destruct (netif_at ptr s) as [n|] eqn:En; [|done]. destruct (netif_remove_ok ptr n s Hs En Hc) as (s' & -> & ? & _). eauto.
  - destruct (nd6_find_route_ok dest s Hs) as (r & s' & -> & ? & _). cbn. eauto.
  - destruct (nd6_reachability_hint_ok dest s Hs) as (s' & -> & ? & _). eauto.
Qed.

(** One call after the other, and whether each may be made in the state it finds. *)
Fixpoint nd6_run (cs : list nd6_call) (s : net) : option net :=
  match cs with
  | [] => Some s
  | c :: cs => s ← nd6_run_call c s; nd6_run cs s
  end.

Fixpoint nd6_calls_ok (cs : list nd6_call) (s : net) : bool :=
  match cs with
  | [] => true
  | c :: cs => nd6_call_ok c s && match nd6_run_call c s with Some s => nd6_calls_ok cs s | None => true end
  end.

End steps.
