(* ===== verification/Nd6Runs.v ===== *)
(** * Neighbor discovery: whole runs (core/c/core/ipv6/nd6.c, netif.c)

    The safety of neighbor discovery over any sequence of calls, a small network
    to evaluate it on, and a run the invariant excludes: an interface that is down
    is removed. *)

From S2P Require Import Prelude Err Def IpAddr NetifDefs Ip6Addr Chksum Pbuf Packet Ip6Hdr Icmp6Hdr Nd6Defs Net Nd6Cache Netif Ip6 Icmp Nd6 NetExamples Ip6Layer Nd6Spec Nd6Safe.

(** The tables are empty at the start. *)
Lemma nd6_initial_ok s : Forall nif_good (netif_list s) -> nd6 s = nd6_initial -> nd6_ok s.
Proof.
  intros Hn E. split; [done|]. rewrite E. constructor.
  - done.
  - cbn. unfold LWIP_ND6_NUM_NEIGHBORS, LWIP_ND6_NUM_DESTINATIONS, LWIP_ND6_NUM_ROUTERS. lia.
  - intros i e He. apply list_elem_of_lookup_2 in He. cbn in He. assert (e = no_neighbor) as -> by set_solver.
    constructor; try done. by intros [].
  - by repeat constructor.
  - intros i k (r & Hr & Hk). apply list_elem_of_lookup_2 in Hr. cbn in Hr. assert (r = Router None 0 0) as -> by set_solver. done.
  - intros i j k (r & Hr & Hk). apply list_elem_of_lookup_2 in Hr. cbn in Hr. assert (r = Router None 0 0) as -> by set_solver. done.
  - intros i e ptr He Hp. apply list_elem_of_lookup_2 in He. cbn in He. assert (e = Prefix ip6_addr_zero None 0) as -> by set_solver. done.
Qed.

(** An interface with a hardware address that is up, and its network. *)
Definition lan_netif : netif :=
  example_netif6 <| nif_hwaddr := [2; 0; 0; 0; 0; 1] |> <| nif_hwaddr_len := 6 |> <| nif_mtu := 1500 |> <| nif_mtu6 := 1500 |>
                 <| nif_ip6_addr_valid_life := [0; 0; 0] |> <| nif_ip6_addr_pref_life := [0; 0; 0] |>
                 <| nif_flags := Z.lor NETIF_FLAG_UP NETIF_FLAG_LINK_UP |> <| nif_ip6_autoconfig_enabled := true |>.
Definition lan : net := example_net6 <| netif_list := [lan_netif] |> <| net_malloc := repeat (Some (fun _ => 0)) 40 |>.

(** The router fe80::ff says hello: a message of type [ty] from it to all nodes. *)
Definition router_ll : ip6_addr := addr6 4269801472 0 0 255.
Definition from_router (dest : ip6_addr) : ip_globals :=
  IpGlobals (Some lan_netif) (Some lan_netif) None (Some (ip6_hdr_octets (ip6_header router_ll dest 255 0 IP6_NEXTH_ICMP6 64))) 40
    (ip6_of router_ll) (ip6_of dest).

(** An advertisement with the hardware address of the router and the prefix
    2001:db8:0:1::/64, valid and preferred for an hour. *)
Definition advertisement : pkt :=
  Pkt [] [[134; 0; 0; 0; 64; 0; 7; 8] ++ st32 0 ++ st32 0 ++ [1; 1; 2; 0; 0; 0; 0; 255] ++
          [3; 4; 64; 192] ++ st32 (lwip_htonl 3600) ++ st32 (lwip_htonl 3600) ++ st32 0 ++ words_octets (ip6_words (addr6 536939960 1 0 0))] true.

(** Its solicitation for the address of the interface. *)
Definition solicitation : pkt :=
  Pkt [] [[135; 0; 0; 0; 0; 0; 0; 0] ++ words_octets (ip6_words me6) ++ [1; 1; 2; 0; 0; 0; 0; 255]] true.

Definition lan_calls : list nd6_call :=
  [Message (from_router ip6_addr_any) advertisement lan_netif; Tick; Message (from_router me6) solicitation lan_netif;
   Route (addr6 536939960 1 0 7); Route peer6; Tick; Hint peer6; Down (nif_ptr lan_netif); Up (nif_ptr lan_netif); Tick;
   Remove (nif_ptr lan_netif); Tick].

Definition lan_run (cs : list nd6_call) : option net := @nd6_run example_driver6 example_memory6 no_users cs lan.

(** The states of the addresses, the third address, the interfaces of the prefixes,
    the router of every router entry and the states of the neighbors. *)
Definition lan_summary (s : option net) :=
  s ← s; n ← netif_at (nif_ptr lan_netif) s;
  Some (nif_ip6_addr_state n, nth 2 (nif_ip6_addr n) (ip6_of me6), map pl_netif (prefix_list (nd6 s)),
        map dr_neighbor_entry (default_router_list (nd6 s)), map nc_state (take 2 (neighbor_cache (nd6 s)))).

(** The advertisement: an address of the prefix with the identifier of fe80::1, the
    prefix is on the link, the router is the first neighbor. *)
Example lan_advertised :
  lan_summary (lan_run [Message (from_router ip6_addr_any) advertisement lan_netif])
  = Some ([IP6_ADDR_PREFERRED; IP6_ADDR_PREFERRED; IP6_ADDR_TENTATIVE], ip6_of (addr6 536939960 1 0 1),
          [Some (nif_ptr lan_netif); None; None; None; None], [Some 0%nat; None; None], [ND6_REACHABLE; ND6_NO_ENTRY]).
Proof. vm_compute. reflexivity. Qed.

(** C24: Neighbor discovery returns from any sequence of messages, timer calls, changes of
    interfaces, lookups and hints in which the conditions of [nd6_calls_ok] hold, and
    keeps the tables in order: no entry in use names an interface that is gone, and the
    routers of the list are entries of the neighbor cache marked so.  The conditions: an
    interface is in the list when it is brought up or down or receives a message, and it
    is removed only while it is up ([lan_remove_down]: removing one that is down can
    leave entries behind, and the next tick fails); a message has an octet in its first
    pbuf and a source address, and a redirect does not name :: as its target.  Memory
    goes on for 48 octets behind a packet (headers and options are read without a check
    of the length), and the users of addresses ([netif_do_ip_addr_changed], outside of
    nd6.c) return and leave these tables alone. *)
Theorem nd6_safe `{driver : netif_driver6} `{mem : memory} `{users : address_users} cs s
  (Hu : forall a b s, exists s', netif_do_ip_addr_changed a b s = Some s' /\ same_tables s s')
  (Hm : forall p, (48 <= length (octets_behind p))%nat) (Hs : nd6_ok s) (Hc : nd6_calls_ok cs s = true) :
  exists s', nd6_run cs s = Some s' /\ nd6_ok s'.
Proof.
  revert s Hs Hc. induction cs as [|c cs IH]; intros s Hs Hc; cbn [nd6_run nd6_calls_ok] in *; [eauto|].
  apply andb_true_iff in Hc as [Hc Hcs]. destruct (nd6_run_call_ok Hu Hm c s Hs Hc) as (s1 & E & Hs1).
  rewrite E in *. cbn [mbind option_bind]. auto.
Qed.

Lemma lan_ok : nd6_ok lan.
Proof.
  apply nd6_initial_ok; [|done]. apply Forall_singleton. constructor.
  - cbn. split; [lia|done].
  - split; [done|]. intros a [<-|[<-|[<-|[]]]]; done.
  - done.
  - split; [done|]. by repeat constructor.
  - right. cbn. lia.
  - right. cbn. lia.
Qed.

Lemma nd6_safe_witness : exists s', @nd6_run example_driver6 example_memory6 no_users lan_calls lan = Some s' /\ nd6_ok s'.
Proof.
  refine (@nd6_safe example_driver6 example_memory6 no_users lan_calls lan _ _ lan_ok _).
  - intros a b s. exists s. split; [reflexivity|]. repeat split.
  - intros p. apply le_n.
  - vm_compute. reflexivity.
Defined.

(** ** Outside of the invariant

    [netif_remove] cleans the tables up only when it takes the interface down itself.
    Messages are taken in on an interface that is down, and what they leave in the
    tables outlives it: the router here is incomplete, and the next tick
    follows a pointer to the interface that is gone. *)
Definition hello : pkt := Pkt [] [[134; 0; 0; 0; 64; 0; 7; 8] ++ st32 0 ++ st32 0] true.

Example lan_remove_down :
  let ptr := nif_ptr lan_netif in
  let s := lan_run [Down ptr; Message (from_router ip6_addr_any) hello lan_netif; Remove ptr] in
  option_map (fun s => map nc_netif (take 1 (neighbor_cache (nd6 s)))) s = Some [Some ptr] /\
  option_map netif_list s = Some [] /\
  lan_run [Down ptr; Message (from_router ip6_addr_any) hello lan_netif; Remove ptr; Tick] = None /\
  @nd6_calls_ok example_driver6 example_memory6 no_users [Down ptr; Message (from_router ip6_addr_any) hello lan_netif; Remove ptr] lan = false.
Proof. vm_compute. repeat split. Qed.
