(* ===== verification/Nd6Timer.v ===== *)
(** * Neighbor discovery: what the timer does to a neighbor (core/c/core/ipv6/nd6.c)

    [nd6_tmr] takes every neighbor that is not a router through one step of its state
    machine, and touches it in no other way; a neighbor that stays silent is
    given up. *)

From S2P Require Import Prelude Err Def IpAddr NetifDefs Ip6Addr Chksum Pbuf Packet Ip6Hdr Icmp6Hdr Nd6Defs Net Nd6Cache Netif Ip6 Icmp Nd6 NetExamples Ip6Layer Nd6Spec Nd6Safe Nd6Runs.

(** ** The state machine of one entry *)

Definition given_up (e : nd6_neighbor_cache_entry) : nd6_neighbor_cache_entry :=
  e <| nc_q := [] |> <| nc_state := ND6_NO_ENTRY |> <| nc_isrouter := false |> <| nc_netif := None |>
    <| nc_counter := 0 |> <| nc_next_hop_address := ip6_addr_zero |>.

Definition probed (e : nd6_neighbor_cache_entry) : nd6_neighbor_cache_entry :=
  if LWIP_ND6_MAX_MULTICAST_SOLICIT <=? nc_counter e then given_up e else e <| nc_counter := u32 (nc_counter e + 1) |>.

Definition tick (e : nd6_neighbor_cache_entry) : nd6_neighbor_cache_entry :=
  match nc_state e with
  | ND6_NO_ENTRY => e
  | ND6_INCOMPLETE | ND6_PROBE => probed e
  | ND6_REACHABLE =>
      if nc_counter e <=? ND6_TMR_INTERVAL then e <| nc_state := ND6_STALE |> <| nc_counter := 0 |>
      else e <| nc_counter := nc_counter e - ND6_TMR_INTERVAL |>
  | ND6_STALE => e <| nc_counter := u32 (nc_counter e + 1) |>
  | ND6_DELAY =>
      if nc_counter e <=? 1 then e <| nc_state := ND6_PROBE |> <| nc_counter := 0 |>
      else e <| nc_counter := nc_counter e - 1 |>
  end.

Lemma tick_not_router e : nc_isrouter e = false -> nc_isrouter (tick e) = false.
Proof.
  intros H. unfold tick, probed. destruct (nc_state e); try done.
  1, 4: by destruct (LWIP_ND6_MAX_MULTICAST_SOLICIT <=? _). all: by destruct (_ <=? _).
Qed.

(** Ticks until a silent neighbor is given up. *)
Definition ticks_left (e : nd6_neighbor_cache_entry) : nat :=
  match nc_state e with
  | ND6_DELAY => Z.to_nat (Z.max 1 (nc_counter e)) + 4
  | _ => S (Z.to_nat (LWIP_ND6_MAX_MULTICAST_SOLICIT - nc_counter e))
  end.

Definition waits (e : nd6_neighbor_cache_entry) : Prop :=
  nc_state e = ND6_INCOMPLETE \/ nc_state e = ND6_PROBE \/ nc_state e = ND6_DELAY.

Lemma probe_ticks k e : nc_state e = ND6_INCOMPLETE \/ nc_state e = ND6_PROBE -> 0 <= nc_counter e ->
  k = Z.to_nat (LWIP_ND6_MAX_MULTICAST_SOLICIT - nc_counter e) -> nc_state (Nat.iter (S k) tick e) = ND6_NO_ENTRY.
Proof.
  revert e. induction k as [|k IH]; intros e Hst Hc Hk; unfold LWIP_ND6_MAX_MULTICAST_SOLICIT in Hk; rewrite Nat.iter_succ_r;
    assert (tick e = probed e) as -> by (unfold tick; by destruct Hst as [-> | ->]); unfold probed, LWIP_ND6_MAX_MULTICAST_SOLICIT.
  - rewrite (proj2 (Z.leb_le 3 (nc_counter e))) by lia. done.
  - destruct (Z.leb_spec 3 (nc_counter e)); [lia|]. rewrite u32_id by (unfold is_u32; lia).
    apply IH; cbn; [done|lia|unfold LWIP_ND6_MAX_MULTICAST_SOLICIT; lia].
Qed.

Lemma delay_ticks k e : nc_state e = ND6_DELAY -> k = Z.to_nat (Z.max 1 (nc_counter e)) ->
  nc_state (Nat.iter (k + 4) tick e) = ND6_NO_ENTRY.
Proof.
  revert e. induction k as [|k IH]; intros e Hst Hk; [lia|]. change (S k + 4)%nat with (S (k + 4)). rewrite Nat.iter_succ_r.
  unfold tick at 2. rewrite Hst. destruct (Z.leb_spec (nc_counter e) 1).
  - assert (k = O) as -> by lia. apply (probe_ticks 3); [by right|done|done].
  - apply IH; [done|]. cbn. lia.
Qed.

Lemma waits_ticks e : waits e -> 0 <= nc_counter e -> nc_state (Nat.iter (ticks_left e) tick e) = ND6_NO_ENTRY.
Proof.
  intros Hw Hc. unfold ticks_left. destruct Hw as [E|[E|E]]; rewrite E.
  1, 2: apply probe_ticks; auto. by apply delay_ticks.
Qed.

(** ** The timer *)

Section timer.
Context `{driver : netif_driver6} `{mem : memory} `{users : address_users}.
Hypothesis users_keep : forall a b s, exists s', netif_do_ip_addr_changed a b s = Some s' /\ same_tables s s'.

Definition neighbor_is (i : nat) (e : nd6_neighbor_cache_entry) (s : net) : Prop := neighbor_cache (nd6 s) !! i = Some e.

(** What comes out of a step that is known to return and to keep the invariant. *)
Lemma step_of {A} (st : A -> net) s m a : keeps st s m -> m = Some a -> nd6_ok (st a) /\ kept s (st a).
Proof. intros (b & -> & ? & ?) [= <-]. done. Qed.

Lemma tmr_neighbor_tick i s s' j e : nd6_ok s -> (i < LWIP_ND6_NUM_NEIGHBORS)%nat -> tmr_neighbor i s = Some s' ->
  neighbor_is j e s -> nc_isrouter e = false -> neighbor_is j (if (j =? i)%nat then tick e else e) s'.
Proof.
  intros Hs Hi E Hj Hr. unfold neighbor_is in *. destruct (neighbor_at s i Hs Hi) as (e0 & He0 & Hok).
  unfold tmr_neighbor in E. rewrite He0 in E. cbn [mbind option_bind] in E.
  assert (forall f s1, (j = i -> f e = tick e) -> nd6 s1 = nd6 (set_neighbor i f s) ->
    neighbor_cache (nd6 s1) !! j = Some (if (j =? i)%nat then tick e else e)) as Hset.
  { intros f s1 Hf ->. cbn. destruct (Nat.eqb_spec j i) as [-> |]; [by rewrite list_lookup_alter_eq, Hj, <- Hf|].
    by rewrite list_lookup_alter_ne. }
  assert (forall flags, (j = i -> tick e = probed e) -> nc_state e0 <> ND6_NO_ENTRY ->
    flagset flags ND6_SEND_FLAG_MULTICAST_DEST = true \/ ip6_addr_isany (nc_next_hop_address e0) = false ->
    (if (LWIP_ND6_MAX_MULTICAST_SOLICIT <=? nc_counter e0) && negb (nc_isrouter e0)
     then Some (nd6_free_neighbor_cache_entry i s)
     else nd6_send_neighbor_cache_probe i flags (set_neighbor i (fun e => e <| nc_counter := u32 (nc_counter e + 1) |>) s)) = Some s' ->
    neighbor_cache (nd6 s') !! j = Some (if (j =? i)%nat then tick e else e)) as Hprobe.
  { intros flags Ht Hst Hf. destruct ((LWIP_ND6_MAX_MULTICAST_SOLICIT <=? nc_counter e0) && negb (nc_isrouter e0)) eqn:Ec.
    - intros [= <-]. apply andb_true_iff in Ec as [Ec Hr0%negb_true_iff]. unfold nd6_free_neighbor_cache_entry. rewrite He0, Hr0.
      apply (Hset given_up); [|done]. intros ->. rewrite (Ht eq_refl). unfold probed.
      assert (e = e0) as -> by congruence. by rewrite Ec.
    - intros Es. set (f := fun e : nd6_neighbor_cache_entry => e <| nc_counter := u32 (nc_counter e + 1) |>) in *.
      destruct (set_neighbor_keeps i f s Hs) as (? & [= <-] & Hs1 & _).
      { intros e' _ []. split; [|done]. by constructor. }
      destruct (probe_same i flags (set_neighbor i f s) (f e0)) as (s2 & E2 & Hsame); [done| |done|done|].
      { cbn. by rewrite list_lookup_alter_eq, He0. }
      assert (s2 = s') as -> by congruence. destruct Hsame as (_ & Hn & _). apply (Hset f); [|exact Hn].
      intros ->. rewrite (Ht eq_refl). unfold probed. assert (e = e0) as -> by congruence. rewrite Hr in Ec.
      destruct (LWIP_ND6_MAX_MULTICAST_SOLICIT <=? nc_counter e0); [done|]. done. }
  assert (j = i -> e = e0) as Heq by (intros ->; congruence).
  destruct (nc_state e0) eqn:Est.
  - injection E as <-. destruct (Nat.eqb_spec j i) as [-> |]; [|done]. rewrite Hj. f_equal. rewrite (Heq eq_refl). unfold tick. by rewrite Est.
  - apply (Hprobe ND6_SEND_FLAG_MULTICAST_DEST ltac:(intros Hji; rewrite (Heq Hji); unfold tick; by rewrite Est) ltac:(congruence) ltac:(by left) E).
  - rewrite nd6_send_q_ok in E by done. cbn [mbind option_bind] in E. injection E as <-. eapply Hset; [|done].
    intros Hji. rewrite (Heq Hji). unfold tick. by rewrite Est.
  - injection E as <-. eapply Hset; [|done]. intros Hji. rewrite (Heq Hji). unfold tick. by rewrite Est.
  - injection E as <-. eapply Hset; [|done]. intros Hji. rewrite (Heq Hji). unfold tick. by rewrite Est.
  - apply (Hprobe 0 ltac:(intros Hji; rewrite (Heq Hji); unfold tick; by rewrite Est) ltac:(congruence)
      ltac:(right; apply (ne_probed _ _ Hok); auto) E).
Qed.

Lemma each_app {A} (f : A -> net -> option net) l1 l2 s : each f (l1 ++ l2) s = s1 ← each f l1 s; each f l2 s1.
Proof.
  revert s. induction l1 as [|a l1 IH]; intros s; [done|]. cbn [each app]. destruct (f a s) as [s1|]; [|done]. cbn. apply IH.
Qed.

Lemma neighbors_tick k s s' j e : nd6_ok s -> (k <= LWIP_ND6_NUM_NEIGHBORS)%nat -> each tmr_neighbor (seq 0 k) s = Some s' ->
  neighbor_is j e s -> nc_isrouter e = false -> nd6_ok s' /\ neighbor_is j (if (j <? k)%nat then tick e else e) s'.
Proof.
  revert s'. induction k as [|k IH]; intros s' Hs Hk E Hj Hr; [by injection E as <-|].
  rewrite seq_S, each_app in E. destruct (each tmr_neighbor (seq 0 k) s) as [s1|] eqn:E1; [|done]. cbn [mbind option_bind each] in E.
  destruct (IH s1 Hs ltac:(lia) eq_refl Hj Hr) as [Hs1 H1].
  destruct (tmr_neighbor (0 + k) s1) as [s2|] eqn:E2; [|done]. cbn in E. injection E as <-.
  split; [by eapply (step_of (fun s => s)); [apply (tmr_neighbor_ok k); [exact Hs1|lia]|exact E2]|].
  assert (nc_isrouter (if (j <? k)%nat then tick e else e) = false) as Hr1 by (destruct (_ <? _)%nat; [by apply tick_not_router|done]).
  pose proof (tmr_neighbor_tick k s1 s2 j _ Hs1 ltac:(lia) E2 H1 Hr1) as H2.
  destruct (Nat.eqb_spec j k) as [-> |].
  - rewrite Nat.ltb_irrefl in H2. by rewrite (proj2 (Nat.ltb_lt k (S k)) ltac:(lia)).
  - destruct (Nat.ltb_spec j k); destruct (Nat.ltb_spec j (S k)); try lia; done.
Qed.

Lemma tmr_router_neighbor i s s' j e : nd6_ok s -> tmr_router i s = Some s' -> neighbor_is j e s -> nc_isrouter e = false ->
  neighbor_is j e s'.
Proof.
  intros Hs E Hj Hr. unfold neighbor_is in *. unfold tmr_router in E. destruct (default_router_list (nd6 s) !! i) as [r|] eqn:Er; [|done].
  cbn [mbind option_bind] in E. destruct (dr_neighbor_entry r) as [k|] eqn:Ek; [|by injection E as <-].
  destruct (to_routers _ _ (no_tables s Hs) i k) as (e' & He' & Hr'); [by exists r|]. assert (k <> j) as Hne by (intros ->; congruence).
  destruct (_ <=? _); [|by injection E as <-]. rewrite He' in E. cbn [mbind option_bind] in E. injection E as <-. cbn.
  by rewrite list_lookup_alter_ne.
Qed.

Lemma routers_neighbor l s s' j e : nd6_ok s -> Forall (fun i => (i < LWIP_ND6_NUM_ROUTERS)%nat) l -> each tmr_router l s = Some s' ->
  neighbor_is j e s -> nc_isrouter e = false -> nd6_ok s' /\ neighbor_is j e s'.
Proof.
  intros Hs Hl. revert s Hs. induction Hl as [|i l Hi _ IH]; intros s Hs E Hj Hr; cbn [each] in E; [by injection E as <-|].
  destruct (tmr_router i s) as [s1|] eqn:E1; [|done]. cbn [mbind option_bind] in E.
  destruct (step_of (fun s => s) s _ s1 (tmr_router_ok i s Hs Hi) E1) as [Hs1 _].
  apply (IH s1 Hs1 E); [|done]. by apply (tmr_router_neighbor i s).
Qed.

(** *** The interfaces do not touch the tables *)

Lemma set_state_nd6 ptr i st s s' : netif_ip6_addr_set_state ptr i st s = Some s' -> nd6 s' = nd6 s.
Proof.
  unfold netif_ip6_addr_set_state. destruct (netif_at ptr s) as [n|]; [|done]. cbn [mbind option_bind].
  destruct (nif_ip6_addr_state n !! i) as [old|]; [|done]. cbn [mbind option_bind]. destruct (_ =? _); [by intros [= <-]|].
  destruct (_ && _); cbn [mbind option_bind]; [|by intros [= <-]].
  destruct (nif_ip6_addr n !! i) as [a|]; [|done]. cbn [mbind option_bind]. destruct (users_keep a None s) as (s1 & -> & _ & Hn & _).
  cbn [mbind option_bind]. intros [= <-]. exact Hn.
Qed.

Lemma tmr_lifetimes_nd6 ptr i s s' : tmr_lifetimes ptr i s = Some s' -> nd6 s' = nd6 s.
Proof.
  unfold tmr_lifetimes. destruct (netif_at ptr s) as [n|]; [|done]. cbn [mbind option_bind].
  destruct (nif_ip6_addr_state n !! i) as [st|]; [|done]. cbn [mbind option_bind]. destruct (_ || _); [by intros [= <-]|].
  destruct (valid_life n i <=? _); [by intros ?%set_state_nd6|]. set (s1 := if _ =? IP6_ADDR_LIFE_INFINITE then s else _).
  assert (nd6 s1 = nd6 s) as <- by (unfold s1; by destruct (_ =? IP6_ADDR_LIFE_INFINITE)). clearbody s1.
  destruct (_ <=? _); [destruct (_ =? _); [by intros ?%set_state_nd6|by intros [= <-]]|].
  destruct (_ =? _); by intros [= <-].
Qed.

Lemma tmr_dad_nd6 ptr i s s' : nd6_ok s -> In ptr (ptrs s) -> (i < 3)%nat -> tmr_dad ptr i s = Some s' -> nd6 s' = nd6 s.
Proof.
  intros Hs Hp Hi. unfold tmr_dad. destruct (netif_at ptr s) as [n|]; [|done]. cbn [mbind option_bind].
  destruct (nif_ip6_addr_state n !! i) as [st|]; [|done]. cbn [mbind option_bind]. destruct (negb _); [by intros [= <-]|].
  destruct (_ <=? _); [by intros ?%set_state_nd6|]. destruct (_ && _); [|by intros [= <-]].
  destruct (netif_ip6_addr_set_state ptr i _ s) as [s1|] eqn:E1; [|done]. cbn [mbind option_bind].
  destruct (step_of (fun s => s) s _ s1 (set_state_ok users_keep ptr i _ s Hs Hp Hi) E1) as [Hs1 [Hk _]].
  apply set_state_nd6 in E1. rewrite <- Hk in Hp. destruct (netif_at_good s1 ptr Hs1 Hp) as (n1 & -> & Hn1 & _). cbn [mbind option_bind].
  destruct (nif_ip6_addr n1 !! i) as [a|] eqn:Ha; [|done]. cbn [mbind option_bind].
  destruct (nd6_send_ns_returns n1 (ip_2_ip6 a) (Z.lor ND6_SEND_FLAG_MULTICAST_DEST ND6_SEND_FLAG_ANY_SRC) s1) as (s2 & -> & _ & Hn2 & _);
    [done|by apply nd6_ok_no_destinations| |by left|intros [= <-]; congruence].
  apply (ng_addrs n1); [done|]. apply list_elem_of_In. by eapply list_elem_of_lookup_2.
Qed.

Lemma each_nd6 {A} (f : A -> net -> option net) l s s' : nd6_ok s ->
  (forall a s1, In a l -> nd6_ok s1 -> kept s s1 -> ok_step s1 (f a s1) /\ forall s2, f a s1 = Some s2 -> nd6 s2 = nd6 s1) ->
  each f l s = Some s' -> nd6 s' = nd6 s.
Proof.
  revert s. induction l as [|a l IH]; intros s Hs Hf E; cbn [each] in E; [by injection E as <-|].
  destruct (Hf a s ltac:(by left) Hs ltac:(done)) as [Hok Hn]. destruct (f a s) as [s1|] eqn:E1; [|done]. cbn [mbind option_bind] in E.
  destruct (step_of (fun s => s) s _ s1 Hok eq_refl) as [Hs1 Hk]. rewrite <- (Hn s1 eq_refl). apply (IH s1); [done| |done].
  intros b s2 Hb Hs2 Hk2. apply Hf; [by right|done|by etrans].
Qed.

Lemma tmr_netif_nd6 ptr s s' : nd6_ok s -> In ptr (ptrs s) -> tmr_netif ptr s = Some s' -> nd6 s' = nd6 s.
Proof.
  intros Hs Hp. apply each_nd6; [done|]. intros i s1 Hi Hs1 [Hk _]. rewrite <- Hk in Hp.
  assert (i < 3)%nat as Hi3 by (cbn in Hi; lia). pose proof (tmr_lifetimes_ok users_keep ptr i s1 Hs1 Hp Hi3) as Hl. split.
  - eapply then_ok; [exact Hl|]. intros s2 Hs2 [Hk2 _]. apply tmr_dad_ok; [exact users_keep|done|by rewrite Hk2|done].
  - intros s3. destruct (tmr_lifetimes ptr i s1) as [s2|] eqn:E; [|done]. cbn [mbind option_bind].
    destruct (step_of (fun s => s) s1 _ s2 Hl eq_refl) as [Hs2 [Hk2 _]]. apply tmr_lifetimes_nd6 in E.
    intros E3. rewrite <- E. apply (tmr_dad_nd6 ptr i s2 s3); [done|by rewrite Hk2|done|done].
Qed.

Lemma tmr_rs_nd6 ptr s s' : nd6_ok s -> In ptr (ptrs s) -> tmr_rs ptr s = Some s' -> nd6 s' = nd6 s.
Proof.
  intros Hs Hp. unfold tmr_rs. destruct (netif_at_good s ptr Hs Hp) as (n & -> & Hn & _). cbn [mbind option_bind].
  destruct (nif_ip6_addr_state n !! 0%nat); [|done]. cbn [mbind option_bind]. destruct (_ && _ && _ && _ && _); [|by intros [= <-]].
  destruct (nd6_send_rs_returns n s Hn (nd6_ok_no_destinations s Hs)) as (s1 & err & -> & _ & Hn1 & _). cbn [mbind option_bind].
  destruct (_ =? _); by intros [= <-].
Qed.

Lemma nd6_tmr_neighbor s s' i e : nd6_ok s -> nd6_tmr s = Some s' -> neighbor_is i e s -> nc_isrouter e = false ->
  neighbor_is i (tick e) s'.
Proof.
  intros Hs E Hi Hr. unfold nd6_tmr in E. destruct (each tmr_neighbor _ s) as [s1|] eqn:E1; [|done]. cbn [mbind option_bind] in E.
  destruct (neighbors_tick _ s s1 i e Hs ltac:(done) E1 Hi Hr) as [Hs1 H1].
  pose proof (neighbor_lt s i e Hs Hi) as Hlt. rewrite (proj2 (Nat.ltb_lt _ _) Hlt) in H1.
  set (s2 := s1 <| nd6 := _ |>) in E. assert (nd6_ok s2) as Hs2 by (by apply (no_destinations_map (fun d => d <| dc_age := u32 (dc_age d + 1) |>))).
  assert (neighbor_is i (tick e) s2) as H2 by exact H1. clearbody s2.
  destruct (each tmr_router _ s2) as [s3|] eqn:E3; [|done]. cbn [mbind option_bind] in E.
  destruct (routers_neighbor (seq 0 LWIP_ND6_NUM_ROUTERS) s2 s3 i (tick e) Hs2) as [Hs3 H3]; [|done|done|by apply tick_not_router|].
  { apply Forall_forall. intros j Hj%list_elem_of_In%in_seq. lia. }
  set (s4 := s3 <| nd6 := _ |>) in E. assert (nd6_ok s4) as Hs4 by by apply tmr_prefix_ok.
  assert (neighbor_is i (tick e) s4) as H4 by exact H3. clearbody s4.
  assert (forall ptr, In ptr (map nif_ptr (netif_list s4)) -> forall s1, nd6_ok s1 -> kept s4 s1 -> In ptr (ptrs s1)) as Hin.
  { intros ptr Hp sx _ [-> _]. exact Hp. }
  destruct (each tmr_netif _ s4) as [s5|] eqn:E5; [|done]. cbn [mbind option_bind] in E.
  assert (ok_step s4 (each tmr_netif (map nif_ptr (netif_list s4)) s4)) as Hok5.
  { apply each_ok; [done|]. intros ptr sx Hp Hs' Hk'. apply (tmr_netif_ok users_keep); [done|by eapply Hin]. }
  destruct (step_of (fun s => s) s4 _ s5 Hok5 E5) as [Hs5 _].
  assert (nd6 s5 = nd6 s4) as E6.
  { eapply each_nd6; [exact Hs4| |exact E5]. intros ptr sx Hp Hs' Hk'. split; [apply (tmr_netif_ok users_keep); [done|by eapply Hin]|].
    intros sy. apply tmr_netif_nd6; [done|by eapply Hin]. }
  unfold neighbor_is in *. rewrite <- E6 in H4. destruct (_ =? 0); [|by injection E as <-].
  set (s6 := s5 <| nd6 := _ |>) in E. assert (nd6_ok s6) as Hs6 by (destruct Hs5 as [? []]; split; [done|by constructor]).
  apply each_nd6 in E; [rewrite E; exact H4|done|]. intros ptr sx Hp Hs' [Hk' _]. change (In ptr (ptrs s6)) in Hp. rewrite <- Hk' in Hp.
  split; [by apply tmr_rs_ok|]. intros sy. by apply tmr_rs_nd6.
Qed.

Lemma ticks_neighbor k s i e : nd6_ok s -> neighbor_is i e s -> nc_isrouter e = false ->
  exists s', nd6_run (repeat Tick k) s = Some s' /\ nd6_ok s' /\ neighbor_is i (Nat.iter k tick e) s'.
Proof.
  revert s e. induction k as [|k IH]; intros s e Hs Hi Hr; [by exists s|]. cbn [repeat nd6_run nd6_run_call].
  destruct (nd6_tmr_ok users_keep s Hs) as (s1 & E & Hs1 & _). rewrite E. cbn [mbind option_bind].
  rewrite Nat.iter_succ_r. apply IH; [done|by apply (nd6_tmr_neighbor s)|by apply tick_not_router].
Qed.

End timer.

(** C25: A neighbor that is not marked as a router and does not answer is given up after a
    known number of ticks: three probes, and before them the time it may stay
    unconfirmed.  (A neighbor that is a router is probed on: the code gives up
    only when the router flag is not set.) *)
Theorem silent_neighbor_given_up `{driver : netif_driver6} `{mem : memory} `{users : address_users} s i e
  (Hu : forall a b s, exists s', netif_do_ip_addr_changed a b s = Some s' /\ same_tables s s')
  (Hs : nd6_ok s) (Hi : neighbor_cache (nd6 s) !! i = Some e) (Hr : nc_isrouter e = false) (Hw : waits e) (Hc : 0 <= nc_counter e) :
  exists s', nd6_run (repeat Tick (ticks_left e)) s = Some s' /\
    exists e', neighbor_cache (nd6 s') !! i = Some e' /\ nc_state e' = ND6_NO_ENTRY.
Proof.
  destruct (ticks_neighbor Hu (ticks_left e) s i e Hs Hi Hr) as (s' & E & _ & H). exists s'. split; [exact E|].
  eexists. split; [exact H|]. by apply waits_ticks.
Qed.

(** A neighbor that was just used and says nothing: nine ticks. *)
Definition used_neighbor : nd6_neighbor_cache_entry :=
  Neighbor peer6 (Some (nif_ptr lan_netif)) [2; 0; 0; 0; 0; 2] [] ND6_DELAY false 5.
Definition lan_used : net := set_neighbor 0 (fun _ => used_neighbor) lan.

Lemma lan_used_ok : nd6_ok lan_used.
Proof.
  apply set_neighbor_ok; [exact lan_ok|..].
  - intros e _ _. constructor; try done. intros _. exists (nif_ptr lan_netif). split; [done|by left].
  - intros e He Hr. apply list_elem_of_lookup_2 in He. cbn in He. assert (e = no_neighbor) as -> by set_solver. done.
Qed.

Lemma silent_neighbor_given_up_witness :
  ticks_left used_neighbor = 9%nat /\
  exists s', @nd6_run example_driver6 example_memory6 no_users (repeat Tick (ticks_left used_neighbor)) lan_used = Some s' /\
    exists e', neighbor_cache (nd6 s') !! 0%nat = Some e' /\ nc_state e' = ND6_NO_ENTRY.
Proof.
  split; [reflexivity|]. refine (@silent_neighbor_given_up example_driver6 example_memory6 no_users lan_used 0%nat used_neighbor _ lan_used_ok _ _ _ _).
  - intros a b s. exists s. split; [reflexivity|]. repeat split.
  - reflexivity.
  - reflexivity.
  - right. right. reflexivity.
  - cbn. lia.
Defined.
