(* ===== verification/NetifSpec.v ===== *)
(** * Interfaces have numbers and names of their own (core/c/core/netif.c)

    [netif_add] gives an interface a number no other has, as long as there are fewer
    than 255 of them; with 255 its loop does not end.  The name made of an
    index leads back to the index. *)

From S2P Require Import Prelude Err Def IpAddr NetifDefs Ip4Addr Ip6Addr Chksum Pbuf Packet Nd6Defs Net Nd6Cache Netif NetExamples Ip6Layer.

Definition nums (l : list netif) : list Z := map nif_num l.

(** Numbers are in [0..254] and different. *)
Definition numbered (l : list netif) : Prop := NoDup (nums l) /\ Forall (fun k => 0 <= k <= 254) (nums l).

(** ** The loop that looks for a number *)

Lemma num_scan_eq num k l : 0 <= k -> k + Z.of_nat (length l) <= 255 ->
  num_scan num k l = Some (if bool_decide (num ∈ nums l) then inl (u8 (num + 1)) else inr num).
Proof.
  revert k. induction l as [|n l IH]; intros k Hk Hl; cbn [num_scan nums map length] in *.
  { by rewrite bool_decide_eq_false_2 by set_solver. }
  rewrite (proj2 (Z.leb_le _ _)) by lia. destruct (Z.eqb_spec (nif_num n) num) as [E|E].
  - rewrite bool_decide_eq_true_2 by set_solver. done.
  - rewrite IH by lia. do 2 f_equal. fold (nums l). by rewrite (bool_decide_ext (num ∈ nif_num n :: nums l) (num ∈ nums l)) by set_solver.
Qed.

(** The number that is tried: 255 is taken for 0. *)
Definition tried (num : Z) : Z := if num =? 255 then 0 else num.

Lemma num_turn_eq num l : Z.of_nat (length l) <= 255 ->
  num_turn num l = Some (if bool_decide (tried num ∈ nums l) then inl (u8 (tried num + 1)) else inr (tried num)).
Proof. intros Hl. unfold num_turn. by rewrite num_scan_eq by lia. Qed.

Lemma tried_next num : is_u8 num -> tried (u8 (tried num + 1)) = (tried num + 1) mod 255.
Proof.
  unfold is_u8, u8, tried. intros H. destruct (Z.eqb_spec num 255); [done|]. rewrite Z.mod_small by lia.
  destruct (Z.eqb_spec (num + 1) 255) as [E|]; [by rewrite E|]. rewrite Z.mod_small by lia. lia.
Qed.

(** [v] is free and [d] numbers ahead: the loop ends within [d] turns. *)
Lemma pick_num_ends d num l v : Z.of_nat (length l) <= 255 -> is_u8 num -> v ∉ nums l -> 0 <= v <= 254 ->
  Z.of_nat d = (v - tried num) mod 255 -> exists k, pick_num (S d) num l = Some k /\ k ∉ nums l /\ 0 <= k <= 254.
Proof.
  intros Hl Hnum Hv Hr. revert num Hnum. induction d as [|d IH]; intros num Hnum Hd; cbn [pick_num];
    rewrite num_turn_eq by done; cbn [mbind option_bind];
    assert (0 <= tried num <= 254) as Ht by (unfold tried; unfold is_u8 in Hnum; destruct (Z.eqb_spec num 255); lia).
  - assert (v = tried num) as -> by (Z.div_mod_to_equations; lia). rewrite bool_decide_eq_false_2 by done. eauto.
  - case_bool_decide as E; [|eauto]. apply IH; [by apply u8_bound|]. rewrite tried_next by done.
    rewrite Nat2Z.inj_succ in Hd. Z.div_mod_to_equations. lia.
Qed.

Lemma free_number l : numbered l -> (length l < 255)%nat -> exists v, 0 <= v <= 254 /\ v ∉ nums l.
Proof.
  intros [Hnd Hr] Hl. destruct (decide (Exists (fun v => v ∉ nums l) (map Z.of_nat (seq 0 255)))) as [He|He].
  - apply Exists_exists in He as (v & Hv & Hn). exists v. split; [|done].
    apply list_elem_of_In, in_map_iff in Hv as (k & <- & Hk%in_seq). lia.
  - exfalso. assert (map Z.of_nat (seq 0 255) ⊆ nums l) as Hsub.
    { intros v Hv. destruct (decide (v ∈ nums l)); [done|]. destruct He. apply Exists_exists. eauto. }
    apply NoDup_submseteq in Hsub; [|apply NoDup_fmap_2; [apply _|apply NoDup_seq]].
    apply submseteq_length in Hsub. rewrite length_map, length_seq in Hsub. unfold nums in Hsub. rewrite length_map in Hsub. lia.
Qed.

Lemma pick_num_free num l : numbered l -> (length l < 255)%nat -> is_u8 num ->
  exists k, pick_num 256 num l = Some k /\ k ∉ nums l /\ 0 <= k <= 254.
Proof.
  intros Hn Hl Hnum. destruct (free_number l Hn Hl) as (v & Hv & Hfree).
  assert (0 <= (v - tried num) mod 255 < 255) as Hd by (apply Z.mod_pos_bound; lia).
  destruct (pick_num_ends (Z.to_nat ((v - tried num) mod 255)) num l v) as (k & E & Hk); [lia|done..|lia|].
  exists k. split; [|done]. revert E. clear -Hd.
  assert (forall f g n j, (f <= g)%nat -> pick_num f n l = Some j -> pick_num g n l = Some j) as Hmono.
  { induction f as [|f IH]; intros [|g] n j Hle; cbn [pick_num]; try done; [lia|].
    destruct (num_turn n l) as [[n'|k']|]; [|done..]. cbn [mbind option_bind]. apply IH. lia. }
  apply Hmono. lia.
Qed.

(** All numbers are taken: every turn asks for another. *)
Lemma pick_num_full num l : (length l <= 255)%nat -> is_u8 num -> (forall v, 0 <= v <= 254 -> v ∈ nums l) ->
  exists num', num_turn num l = Some (inl num') /\ is_u8 num'.
Proof.
  intros Hl Hnum Hall. rewrite num_turn_eq by lia. rewrite bool_decide_eq_true_2; [eauto using u8_bound|].
  apply Hall. unfold tried. unfold is_u8 in Hnum. destruct (Z.eqb_spec num 255); lia.
Qed.

(** ** Adding *)

(** A function that sets an interface up as [netif_add] asks: the pointer stays. *)
Definition good_init (init : netif -> netif * Z) : Prop :=
  forall n, nif_ptr (init n).1 = nif_ptr n /\ (nif_num (init n).1 = nif_num n) /\ (init n).2 = ERR_OK.

Section add.
Context `{users : address_users}.
Hypothesis users_keep : forall a b s, exists s', netif_do_ip_addr_changed a b s = Some s' /\ netif_list s' = netif_list s /\ netif_num s' = netif_num s.

Lemma set_ipaddr_returns a n s : exists n' s', netif_do_set_ipaddr a n s = Some (n', s') /\ nif_ptr n' = nif_ptr n /\
  nif_num n' = nif_num n /\ netif_list s' = netif_list s /\ netif_num s' = netif_num s.
Proof.
  unfold netif_do_set_ipaddr. destruct (ip4_addr_cmp _ _); [by do 2 eexists|].
  destruct (users_keep (nif_ip_addr n) (Some (IPADDR4_INIT a)) s) as (s' & -> & ? & ?). cbn [mbind option_bind]. by do 2 eexists.
Qed.

Lemma set_rest_same netmask gw n :
  nif_ptr (netif_do_set_gw gw (netif_do_set_netmask netmask n)) = nif_ptr n /\
  nif_num (netif_do_set_gw gw (netif_do_set_netmask netmask n)) = nif_num n.
Proof.
  unfold netif_do_set_gw, netif_do_set_netmask. destruct (ip4_addr_cmp netmask _), (ip4_addr_cmp gw _); done.
Qed.

Lemma set_addr_returns a m g n s : exists n' s', netif_do_set_addr a m g n s = Some (n', s') /\ nif_ptr n' = nif_ptr n /\
  nif_num n' = nif_num n /\ netif_list s' = netif_list s /\ netif_num s' = netif_num s.
Proof.
  unfold netif_do_set_addr. destruct (default IPADDR_ANY a =? IPADDR_ANY).
  - destruct (set_ipaddr_returns (default IPADDR_ANY a) n s) as (n1 & s1 & -> & E1 & E2 & E3 & E4). cbn [mbind option_bind].
    destruct (set_rest_same (default IPADDR_ANY m) (default IPADDR_ANY g) n1) as [H1 H2].
    do 2 eexists. split; [done|]. rewrite H1, H2. done.
  - cbn [mbind option_bind]. destruct (set_rest_same (default IPADDR_ANY m) (default IPADDR_ANY g) n) as [H1 H2].
    destruct (set_ipaddr_returns (default IPADDR_ANY a) (netif_do_set_gw (default IPADDR_ANY g) (netif_do_set_netmask (default IPADDR_ANY m) n)) s)
      as (n1 & s1 & -> & E1 & E2 & E3 & E4). do 2 eexists. split; [done|]. rewrite E1, E2, H1, H2. done.
Qed.

Lemma netif_add_lemma n a m g init s : numbered (netif_list s) -> (length (netif_list s) < 255)%nat -> is_u8 (netif_num s) ->
  good_init init -> nif_ptr n ∉ map nif_ptr (netif_list s) ->
  exists s' n', netif_add n a m g init s = Some (s', n', true) /\ netif_list s' = n' :: netif_list s /\
    nif_ptr n' = nif_ptr n /\ numbered (netif_list s') /\ is_u8 (netif_num s').
Proof.
  intros Hn Hl Hnum Hi Hp. unfold netif_add.
  destruct (set_addr_returns a m g (netif_reset n (netif_num s)) s) as (n1 & s1 & -> & E1 & E2 & E3 & E4). cbn [mbind option_bind].
  destruct (Hi n1) as (I1 & I2 & I3). destruct (init n1) as [n2 err]. cbn in I1, I2, I3. rewrite I3. cbn [negb Z.eqb ERR_OK].
  assert (forallb (fun m => negb (nif_ptr m =? nif_ptr (n2 <| nif_mtu6 := nif_mtu n2 |>))) (netif_list s1) = true) as ->.
  { apply forallb_forall. intros m' Hm'. apply negb_true_iff, Z.eqb_neq. cbn. rewrite I1, E1. cbn. intros E. apply Hp. rewrite <- E.
    apply list_elem_of_In, in_map. by rewrite <- E3. }
  change (nif_num (n2 <| nif_mtu6 := nif_mtu n2 |>)) with (nif_num n2). rewrite E3, I2, E2. cbn [netif_reset nif_num].
  change (nif_num (netif_reset n (netif_num s))) with (netif_num s).
  destruct (pick_num_free (netif_num s) (netif_list s) Hn Hl Hnum) as (k & -> & Hk & Hr). cbn [mbind option_bind].
  do 2 eexists. split; [reflexivity|]. cbn. split; [done|]. split; [by rewrite I1, E1|]. split.
  - destruct Hn as [Hnd Hfa]. split; cbn; [by constructor|by constructor].
  - destruct (k =? 254); [unfold is_u8; lia|apply u8_bound].
Qed.

End add.

(** C31: With fewer than 255 interfaces [netif_add] returns, and the new interface has a
    number no other has; a name with its number is its own. *)
Theorem netif_add_numbers `{users : address_users} n a m g init s
  (Hu : forall a b s, exists s', netif_do_ip_addr_changed a b s = Some s' /\ netif_list s' = netif_list s /\ netif_num s' = netif_num s)
  (Hn : numbered (netif_list s)) (Hl : (length (netif_list s) < 255)%nat) (Hnum : is_u8 (netif_num s)) (Hi : good_init init)
  (Hp : nif_ptr n ∉ map nif_ptr (netif_list s)) :
  exists s' n', netif_add n a m g init s = Some (s', n', true) /\ netif_list s' = n' :: netif_list s /\ numbered (netif_list s').
Proof.
  destruct (netif_add_lemma Hu n a m g init s Hn Hl Hnum Hi Hp) as (s' & n' & E & H1 & _ & H2 & _). eauto.
Qed.

(** With 255 the loop does not end: after any number of turns it asks for another. *)
Theorem netif_add_full_spins turns num l (Hl : length l = 255%nat) (Hn : numbered l) (Hnum : is_u8 num) :
  pick_num turns num l = None /\ exists num', num_turn num l = Some (inl num').
Proof.
  assert (forall v, 0 <= v <= 254 -> v ∈ nums l) as Hall.
  { destruct Hn as [Hnd Hr]. intros v Hv. assert (nums l ⊆ map Z.of_nat (seq 0 255)) as Hsub.
    { intros w Hw. rewrite Forall_forall in Hr. specialize (Hr w Hw). apply list_elem_of_In, in_map_iff.
      exists (Z.to_nat w). split; [lia|]. apply in_seq. lia. }
    apply NoDup_submseteq in Hsub; [|done]. apply submseteq_length_Permutation in Hsub.
    - rewrite Hsub. apply list_elem_of_In, in_map_iff. exists (Z.to_nat v). split; [lia|]. apply in_seq. lia.
    - unfold nums. rewrite !length_map, length_seq. lia. }
  split; [|destruct (pick_num_full num l) as (num' & ? & _); [lia|done|done|eauto]].
  revert num Hnum. induction turns as [|turns IH]; intros num Hnum; [done|]. cbn [pick_num].
  destruct (pick_num_full num l) as (num' & -> & Hnum'); [lia|done|done|]. cbn [mbind option_bind]. auto.
Qed.

(** Interfaces for the witnesses: [k] of them with the numbers below [k]. *)
Definition many (k : nat) : list netif :=
  map (fun i => example_netif <| nif_ptr := 8192 + 512 * Z.of_nat i |> <| nif_num := Z.of_nat i |>) (seq 0 k).

Lemma many_numbered k : (k <= 255)%nat -> numbered (many k).
Proof.
  intros Hk. unfold numbered, nums, many. rewrite map_map. split.
  - change (NoDup (Z.of_nat <$> seq 0 k)). apply NoDup_fmap_2; [apply _|apply NoDup_seq].
  - apply Forall_forall. intros v Hv. apply list_elem_of_In, in_map_iff in Hv as (i & <- & Hi%in_seq). cbn. lia.
Qed.

Lemma netif_add_numbers_witness : exists s' n',
  @netif_add no_users example_netif None None None netif_loopif_init (example_net <| netif_list := many 254 |> <| netif_num := 7 |>)
  = Some (s', n', true) /\ netif_list s' = n' :: many 254 /\ numbered (netif_list s').
Proof.
  refine (@netif_add_numbers no_users example_netif None None None netif_loopif_init
    (example_net <| netif_list := many 254 |> <| netif_num := 7 |>) _ _ _ _ _ _).
  - intros a b s. exists s. split; [reflexivity|]. split; reflexivity.
  - apply many_numbered. lia.
  - cbn. lia.
  - cbn. unfold is_u8. lia.
  - intros n. split; [reflexivity|]. split; reflexivity.
  - apply (bool_decide_unpack _). vm_compute. exact I.
Defined.

Lemma netif_add_full_spins_witness : pick_num 1000 0 (many 255) = None /\ exists num', num_turn 0 (many 255) = Some (inl num').
Proof.
  refine (netif_add_full_spins 1000 0 (many 255) _ _ _).
  - reflexivity.
  - apply many_numbered. lia.
  - unfold is_u8. lia.
Defined.

(** ** Names *)

(** What [lwip_itoa] makes of a number in the four octets behind the two letters. *)
Definition reads_back (a b c d num : Z) : bool :=
  match lwip_itoa [a; b; c; d] (NETIF_NAMESIZE - 2) num with
  | Some r => match atoi r with Some v => v =? num | None => false end
  | None => false
  end.

Lemma itoa_atoi a b c d num : 0 <= num <= 254 ->
  exists r, lwip_itoa [a; b; c; d] (NETIF_NAMESIZE - 2) num = Some r /\ atoi r = Some num.
Proof.
  intros Hn. assert (forallb (reads_back a b c d) (map Z.of_nat (seq 0 255)) = true) as H by (vm_compute; reflexivity).
  rewrite forallb_forall in H. assert (reads_back a b c d num = true) as R.
  { apply H, in_map_iff. exists (Z.to_nat num). split; [lia|]. apply in_seq. lia. }
  clear H. unfold reads_back in R. destruct (lwip_itoa _ _ num) as [r|]; [|done]. exists r. split; [done|].
  destruct (atoi r) as [v|]; [|done]. f_equal. by apply Z.eqb_eq.
Qed.

Lemma numbered_head n l : numbered (n :: l) -> nif_num n ∉ nums l /\ 0 <= nif_num n <= 254 /\ numbered l.
Proof.
  unfold numbered, nums. cbn [map]. rewrite NoDup_cons, Forall_cons. tauto.
Qed.

Lemma num_in m l : m ∈ l -> nif_num m ∈ nums l.
Proof. intros Hm. apply list_elem_of_In, in_map. by apply list_elem_of_In. Qed.

Lemma same_number n m l : numbered l -> n ∈ l -> m ∈ l -> nif_num n = nif_num m -> n = m.
Proof.
  intros Hn. induction l as [|k l IH]; [set_solver|]. apply numbered_head in Hn as (Hk & _ & Hl).
  rewrite !elem_of_cons. intros [-> |Hn'] [-> |Hm'] E; auto; destruct Hk; [rewrite E|rewrite <- E]; by apply num_in.
Qed.

Lemma find_index_numbered n l : numbered l -> n ∈ l -> find_index (netif_get_index n) l = Some n.
Proof.
  intros Hn Hin. assert (forall m, m ∈ l -> netif_get_index m = nif_num m + 1) as Hix.
  { intros m Hm. destruct Hn as [_ Hr]. rewrite Forall_forall in Hr. assert (0 <= nif_num m <= 254) as H.
    { apply Hr. by apply num_in. }
    unfold netif_get_index, u8. rewrite Z.mod_small by lia. done. }
  assert (forall m, m ∈ l -> netif_get_index n = netif_get_index m -> n = m) as Huniq.
  { intros m Hm E. apply (same_number n m l); [done..|]. rewrite !Hix in E by done. lia. }
  clear Hn Hix. induction l as [|m l IH]; [set_solver|]. cbn [find_index]. destruct (Z.eqb_spec (netif_get_index n) (netif_get_index m)) as [E|E].
  - f_equal. symmetry. apply Huniq; [set_solver|done].
  - apply IH; [set_solver|]. intros m' Hm'. apply Huniq. set_solver.
Qed.

Lemma find_named_numbered n l : numbered l -> n ∈ l -> find_named (nif_num n) (nth 0 (nif_name n) 0) (nth 1 (nif_name n) 0) l = Some n.
Proof.
  intros Hn Hin. assert (forall m, m ∈ l -> nif_num n = nif_num m -> n = m) as Huniq by (intros; by apply (same_number n m l)).
  clear Hn. induction l as [|m l IH]; [set_solver|]. cbn [find_named]. destruct (Z.eqb_spec (nif_num n) (nif_num m)) as [E|E].
  - rewrite <- (Huniq m) by (try done; set_solver). by rewrite !Z.eqb_refl.
  - cbn [andb]. apply IH; [set_solver|]. intros m' Hm'. apply Huniq. set_solver.
Qed.

(** C32: The name that is made of the index of an interface leads back to the index. *)
Theorem netif_name_round_trip n buf s (Hn : numbered (netif_list s)) (Hin : n ∈ netif_list s) (Hb : length buf = Z.to_nat NETIF_NAMESIZE) :
  exists name, netif_index_to_name (netif_get_index n) buf s = Some (Some name) /\
    netif_name_to_index name s = Some (netif_get_index n).
Proof.
  destruct buf as [|b0 [|b1 [|b2 [|b3 [|b4 [|b5 [|]]]]]]]; try discriminate Hb.
  assert (0 <= nif_num n <= 254) as Hr.
  { destruct Hn as [_ Hr]. rewrite Forall_forall in Hr. apply Hr. by apply num_in. }
  assert (netif_get_index n = nif_num n + 1) as Hix by (unfold netif_get_index, u8; rewrite Z.mod_small; lia).
  unfold netif_index_to_name, netif_get_by_index, netif_index_to_num.
  assert (netif_get_index n =? NETIF_NO_INDEX = false) as -> by (apply Z.eqb_neq; unfold NETIF_NO_INDEX; lia). cbn [negb].
  rewrite find_index_numbered by done. cbn [length Nat.leb drop]. rewrite Hix. replace (nif_num n + 1 - 1) with (nif_num n) by lia.
  destruct (itoa_atoi b2 b3 b4 b5 (nif_num n) Hr) as (r & -> & Ha). cbn [mbind option_bind]. eexists. split; [reflexivity|].
  unfold netif_name_to_index, netif_find. rewrite Ha. cbn [mbind option_bind]. rewrite u8_id by (unfold is_u8; lia).
  rewrite find_named_numbered by done. cbn [mbind option_bind]. by rewrite Hix.
Qed.

Lemma netif_name_round_trip_witness :
  let s := example_net <| netif_list := many 3 |> in
  exists name, netif_index_to_name 3 (repeat 0 6) s = Some (Some name) /\ netif_name_to_index name s = Some 3.
Proof.
  refine (netif_name_round_trip (nth 2 (many 3) example_netif) (repeat 0 6) (example_net <| netif_list := many 3 |>) _ _ _).
  - apply many_numbered. lia.
  - apply list_elem_of_In. right. right. left. reflexivity.
  - reflexivity.
Defined.
