(* ===== verification/Ip4InSpec.v ===== *)
(** * What becomes of a packet in IPv4 input

    Reassembly, ICMP answers and their output (loopback, fragmentation or the
    driver) have a result for every packet.  The layers above are an interface
    here: raw IP and UDP return ([layers_promise]), of TCP nothing is
    assumed but what it leaves alone.  Ip4Stack puts raw.c and udp.c in. *)

From S2P Require Import Prelude Err Def IpAddr NetifDefs Ip4Addr Chksum Pbuf Packet IpHdr Ip4Frag Ip6Frag Ip4FragSpec Ip4FragOut Net Ip4 Icmp Ip4In NetExamples Ip4Spec.

(** ** Packets in reassembly keep their shape *)

Definition event_fits (e : event) : Prop :=
  match e with
  | Free p => True
  | Time_exceeded p _ => IP_HLEN <= pk_len p
  end.

Definition frags_fit (fs : list frag) : Prop := Forall (fun f => pk_fits (fr_pbuf f)) fs.

(** Only fragments without options are queued. *)
Definition datagram_fits (d : ip_reassdata) : Prop :=
  frags_fit (rd_p d) /\ IPH_HL_BYTES (rd_iphdr d) = IP_HLEN.

Definition reass_fits (s : reass) : Prop :=
  Forall datagram_fits (reassdatagrams s) /\ Forall event_fits (reass_events s).

(** A packet reassembly hands on. *)
Definition whole (p : pkt) : Prop :=
  pk_fits p /\ IP_HLEN <= pk_len p /\ IPH_HL_BYTES (pkt_hdr p) = IP_HLEN.

Lemma free_frags_fit fs : forall n es m, free_frags fs n = Some (es, m) -> Forall event_fits es.
Proof.
  induction fs as [|f fs IH]; intros n es m; cbn [free_frags]; [by intros [= <- _]|].
  destruct (_ <=? _); [|done].
  destruct (free_frags fs _) as [[es' m']|] eqn:E; [|done]. cbn. intros [= <- _].
  constructor; [done|]. by eapply IH.
Qed.

Lemma put_header_len h p p' : put_header h p = Some p' -> IP_HLEN <= pk_len p'.
Proof.
  unfold put_header, pk_write, pk_len. destruct (pk_chunks p) as [|c r]; [done|].
  rewrite ip_hdr_octets_length. destruct (Nat.leb_spec (0 + 20) (length c)); [|done].
  intros [= <-]. cbn [pk_chunks hd].
  cbn [length]. unfold IP_HLEN. lia.
Qed.

Lemma put_header_hl h p p' : put_header h p = Some p' -> IPH_HL_BYTES (pkt_hdr p') = IPH_HL_BYTES h.
Proof.
  unfold put_header, pk_write. destruct (pk_chunks p) as [|c r]; [done|].
  destruct (_ <=? _)%nat; [|done]. by intros [= <-].
Qed.

Lemma free_complete_fits i s s' n :
  ip_reass_free_complete_datagram i s = Some (s', n) -> reass_fits s -> reass_fits s'.
Proof.
  intros H [Hd He]. unfold ip_reass_free_complete_datagram in H.
  destruct (reassdatagrams s !! i) as [d|]; [|done]. cbn [mbind option_bind] in H.
  destruct (rd_p d) as [|f fs]; [done|].
  match type of H with (mbind _ ?x = _) => destruct x as [[[es k] q]|] eqn:E; [|done] end.
  cbn [mbind option_bind] in H.
  destruct (free_frags q k) as [[es' k']|] eqn:E'; [|done]. cbn [mbind option_bind] in H.
  destruct (_ <=? _); [|done]. injection H as <- _.
  split; cbn [reassdatagrams reass_events setter emit]; [by apply Forall_delete|].
  rewrite !Forall_app. split; [done|]. split; [|by eapply free_frags_fit].
  destruct (_ =? _); [|by injection E as <- _ _].
  destruct (put_header _ _) as [p|] eqn:Ep; [|done]. cbn [mbind option_bind] in E.
  destruct (_ <=? _); [|done]. injection E as <- _ _.
  repeat constructor. by eapply put_header_len.
Qed.

Lemma remove_oldest_fits fuel : forall h a b s s' n,
  remove_oldest_loop fuel h a b s = Some (s', n) -> reass_fits s -> reass_fits s'.
Proof.
  induction fuel as [|fuel IH]; intros h a b s s' n; cbn [remove_oldest_loop]; [done|].
  destruct (find_oldest _ _ _ _ _) as [oldest others]. intros H Hs.
  match type of H with (mbind _ ?x = _) => destruct x as [[s1 b1]|] eqn:E; [|done] end.
  cbn [mbind option_bind] in H.
  assert (reass_fits s1).
  { destruct oldest as [[i t]|]; [|by injection E as <- _].
    destruct (ip_reass_free_complete_datagram i s) as [[s2 m]|] eqn:E2; [|done].
    injection E as <- _. by eapply free_complete_fits. }
  destruct (_ && _); [by eapply IH|by injection H as <- _].
Qed.

Lemma memp_malloc_fits s : reass_fits s -> reass_fits (snd (memp_malloc s)).
Proof. intros. unfold memp_malloc. by destruct (reass_malloc s). Qed.

Lemma enqueue_fits h n s s' b :
  ip_reass_enqueue_new_datagram h n s = Some (s', b) -> IPH_HL_BYTES h = IP_HLEN ->
  reass_fits s -> reass_fits s'.
Proof.
  intros H Hh Hs. unfold ip_reass_enqueue_new_datagram in H.
  apply memp_malloc_fits in Hs. destruct (memp_malloc s) as [ok s1]. cbn [snd] in Hs.
  match type of H with (mbind _ ?x = _) => destruct x as [[s2 b2]|] eqn:E; [|done] end.
  cbn [mbind option_bind] in H.
  assert (Hs2 : reass_fits s2).
  { destruct ok; [by injection E as <- _|].
    destruct (ip_reass_remove_oldest_datagram h n s1) as [[s3 m]|] eqn:E3; [|done].
    apply remove_oldest_fits in E3; [|done]. cbn [mbind option_bind] in E.
    destruct (n <=? m); [|by injection E as <- _].
    apply memp_malloc_fits in E3. destruct (memp_malloc s3). by injection E as <- _. }
  destruct b2; injection H as <- _; [|done]. destruct Hs2.
  split; cbn [reassdatagrams reass_events setter]; [|done].
  constructor; [|done]. split; [by constructor|done].
Qed.

Lemma find_place_frags new q : forall pre v pre' post v',
  find_place new pre q v = Some (Placed pre' post v') -> pre' ++ post = pre ++ q.
Proof.
  induction q as [|f q IH]; intros pre v pre' post v'; cbn [find_place].
  - destruct (last pre); [destruct (_ <=? _); [|done]|]; by intros [= <- <- _].
  - destruct (_ <? fr_start f).
    { destruct (last pre); [destruct (_ || _)|destruct (_ <? _)]; try done; by intros [= <- <- _]. }
    destruct (_ =? _); [done|]. destruct (_ <? _); [done|].
    intros H%IH. by rewrite H, <- app_assoc.
Qed.

Lemma chain_frag_fits d p b d' v :
  chain_frag_and_validate d p b = Some (d', v) -> pk_fits p -> datagram_fits d ->
  datagram_fits d'.
Proof.
  unfold chain_frag_and_validate. intros H Hp [Hd Hh].
  destruct (_ <? _); [by injection H as <- _|].
  destruct (_ <? _); [by injection H as <- _|].
  destruct (find_place _ _ _ _) as [[|pre post valid]|] eqn:E; try done; cbn [mbind option_bind] in H.
  { by injection H as <- _. }
  apply find_place_frags in E. rewrite app_nil_l in E.
  match type of H with ?e = _ => assert (exists v', e = None \/
    e = Some (d <| rd_p := pre ++ Frag (IPH_OFFSET_BYTES (pkt_hdr p)) (u16 (IPH_OFFSET_BYTES (pkt_hdr p) +
      u16 (lwip_htons (_len (pkt_hdr p)) - IPH_HL_BYTES (pkt_hdr p)))) p :: post |>, v')) as (v' & [He|He]) end.
  - repeat match goal with |- context [if ?b then _ else _] => destruct b end;
      first [by exists PBUF_QUEUED; left | by eexists; right].
  - congruence.
  - rewrite He in H. injection H as <- _. split; [|exact Hh]. cbn [rd_p setter].
    unfold frags_fit in *. rewrite <- E, !Forall_app in Hd. destruct Hd.
    apply Forall_app. split; [done|]. by constructor.
Qed.

Lemma chain_frags_fit r : forall p p',
  chain_frags p r = Some p' -> frags_fit r -> whole p -> whole p'.
Proof.
  induction r as [|f r IH]; intros p p' H Hr (Hp & Hl & Hh); cbn [chain_frags] in H;
    [by injection H as <-|].
  apply Forall_cons in Hr as [Hf Hr].
  destruct (pk_remove_header _ _) as [q|] eqn:E; [|done]. cbn [mbind option_bind] in H.
  eapply IH; [exact H|done|]. split; [by eauto with lwip|].
  unfold pk_len, pkt_hdr, pk_cat in *. destruct Hp as (Hp & _). by destruct p as [? [|? ?] ?].
Qed.

Lemma finish_fits i s s' r :
  finish_datagram i s = Some (s', r) -> reass_fits s ->
  reass_fits s' /\ forall p, r = Some p -> whole p.
Proof.
  unfold finish_datagram. intros H [Hd He].
  destruct (reassdatagrams s !! i) as [d|] eqn:Ed; [|done]. cbn [mbind option_bind] in H.
  assert (datagram_fits d) as [Hf Hh] by (rewrite Forall_lookup in Hd; by eapply Hd).
  destruct (rd_p d) as [|f fs]; [done|]. apply Forall_cons in Hf as [Hf Hfs].
  destruct (put_header _ _) as [p|] eqn:Ep; [|done]. cbn [mbind option_bind] in H.
  destruct (chain_frags p fs) as [p'|] eqn:Ec; [|done]. cbn [mbind option_bind] in H.
  destruct (_ <=? _); [|done]. injection H as <- <-.
  split; [split; [by apply Forall_delete|done]|]. intros ? [= <-].
  eapply chain_frags_fit; [exact Ec|done|]. split; [unfold put_header in Ep; by eauto with lwip|].
  split; [by eapply put_header_len|]. by rewrite (put_header_hl _ _ _ Ep).
Qed.

Definition result_fits (res : reass * option pkt) : Prop :=
  reass_fits (fst res) /\ forall p, snd res = Some p -> whole p.

Lemma nullreturn_fits p s res : nullreturn p s = Some res -> reass_fits s -> result_fits res.
Proof.
  unfold nullreturn. intros [= <-] [Hd He]. split; [|done]. split; [done|].
  apply Forall_app. by repeat constructor.
Qed.

Lemma nullreturn_ipr_fits i p s res :
  nullreturn_ipr i p s = Some res -> reass_fits s -> result_fits res.
Proof.
  unfold nullreturn_ipr. intros H [Hd He].
  destruct (reassdatagrams s !! i) as [d|]; [|done]. cbn [mbind option_bind] in H.
  destruct (rd_p d); [|by eapply nullreturn_fits].
  destruct (i =? 0)%nat; [|done]. eapply nullreturn_fits; [exact H|].
  split; [by apply Forall_delete|done].
Qed.

Lemma reass_into_fits i p h o l n s res :
  reass_into i p h o l n s = Some res -> pk_fits p -> reass_fits s -> result_fits res.
Proof.
  intros H Hp Hs. unfold reass_into in H.
  destruct (_ && _); [by eapply nullreturn_ipr_fits|].
  destruct (reassdatagrams s !! i) as [d|] eqn:Ed; [|done]. cbn [mbind option_bind] in H.
  destruct (chain_frag_and_validate d p _) as [[d' v]|] eqn:Ec; [|done].
  cbn [mbind option_bind] in H.
  apply chain_frag_fits in Ec; [|done|destruct Hs as [Hd _]; rewrite Forall_lookup in Hd; by eapply Hd].
  assert (forall k d2, rd_p d2 = rd_p d' -> rd_iphdr d2 = rd_iphdr d' -> reass_fits
    (s <| ip_reass_pbufcount := k |> <| reassdatagrams := <[i := d2]> (reassdatagrams s) |>)) as Hs2.
  { intros k d2 E E'. destruct Hs as [Hd He]. split; [|done]. cbn [reassdatagrams setter].
    apply Forall_insert; [done|]. unfold datagram_fits. by rewrite E, E'. }
  destruct v; [|injection H as <-; split; [|done]|by eapply nullreturn_ipr_fits].
  - destruct res as [s3 r]. eapply finish_fits; [exact H|]. apply Hs2; by destruct (_ =? 0).
  - apply Hs2; by destruct (_ =? 0).
Qed.

Lemma ip4_reass_fits p s res :
  ip4_reass p s = Some res -> pk_fits p -> reass_fits s -> result_fits res.
Proof.
  intros H Hp Hs. unfold ip4_reass in H.
  destruct (Z.eqb_spec (IPH_HL_BYTES (ip_hdr_of (hd [] (pk_chunks p)))) IP_HLEN) as [Hhl|];
    cbn [negb] in H; [|by eapply nullreturn_fits].
  destruct (_ <? _); [by eapply nullreturn_fits|].
  match type of H with (mbind _ ?x = _) => destruct x as [[s1 room]|] eqn:E; [|done] end.
  cbn [mbind option_bind] in H.
  assert (Hs1 : reass_fits s1).
  { destruct (_ <? _); [|by injection E as <- _].
    destruct (ip_reass_remove_oldest_datagram _ _ s) as [[s2 m]|] eqn:E2; [|done].
    injection E as <- _. by eapply remove_oldest_fits. }
  destruct (negb room); [by eapply nullreturn_fits|].
  destruct (find_datagram _ _) as [i|].
  - destruct (reassdatagrams s1 !! i) as [d|] eqn:Ed; [|done]. cbn [mbind option_bind] in H.
    eapply reass_into_fits; [exact H|done|]. destruct Hs1 as [Hd He]. split; [|done].
    cbn [reassdatagrams setter]. apply Forall_insert; [done|].
    rewrite Forall_lookup in Hd. apply Hd in Ed as [? ?]. by destruct (_ && _).
  - destruct (ip_reass_enqueue_new_datagram _ _ s1) as [[s2 ok]|] eqn:E2; [|done].
    cbn [mbind option_bind] in H. apply enqueue_fits in E2; [|done|done].
    destruct ok; [by eapply reass_into_fits|by eapply nullreturn_fits].
Qed.

(** ** Output returns *)

Lemma hd_concat_length {A} (p : list (list A)) : (length (hd [] p) <= length (concat p))%nat.
Proof. destruct p; [done|]. cbn [hd concat]. rewrite length_app. lia. Qed.

(** Every round of [frag_loop] takes octets off, as long as a fragment can hold
    eight of them. *)
Lemma frag_loop_total fuel : forall h mtu nfb mf p poff left ofo ans,
  0 < u16 (nfb * 8) -> 0 <= left <= 65535 -> left <= Z.of_nat fuel ->
  0 <= poff <= Z.of_nat (length (hd [] p)) -> Forall small p ->
  left <= Z.of_nat (length (concat p)) - poff ->
  exists res, frag_loop fuel h mtu nfb mf p poff left ofo ans = Some res.
Proof.
  induction fuel as [|fuel IH]; intros h mtu nfb mf p poff left ofo ans Hn Hl Hf Hpo Hsm Hlen;
    cbn [frag_loop].
  { rewrite (proj2 (Z.eqb_eq _ _)) by lia. eauto. }
  destruct (Z.eqb_spec left 0); [eauto|].
  destruct (next_answer ans) as [[] ans1]; cbn [negb]; [|eauto].
  pose proof (u16_bound (nfb * 8)) as Hb. unfold is_u16 in Hb.
  set (size := Z.min left (u16 (nfb * 8))). assert (0 < size <= left) as Hsz by (subst size; lia). clearbody size.
  rewrite (proj2 (Z.eqb_neq size 0)) by lia.
  destruct (frag_pieces_spec p poff size ans1 Hpo) as (res & ans2 & -> & _ & Hres);
    [lia|lia|done|]. cbn [mbind option_bind].
  destruct res as [[[pieces p'] poff']|]; [|eauto]. destruct Hres as (_ & _ & Hs' & Hpo' & Hd).
  rewrite (u16_id (left - size)) by (unfold is_u16; lia).
  edestruct (IH h mtu nfb mf p' poff' (left - size)) as ([[err outs] ans3] & ->);
    [done|lia|lia|done|done| |cbn [mbind option_bind]; eauto].
  apply (f_equal length) in Hd. rewrite !length_drop in Hd.
  pose proof (hd_concat_length p). pose proof (hd_concat_length p'). lia.
Qed.

Definition mtu_ok (n : netif) : Prop := nif_mtu n = 0 \/ 28 <= nif_mtu n <= 65535.

Lemma ip4_frag_total p mtu ans :
  pk_fits p -> IP_HLEN <= pk_len p -> 28 <= mtu <= 65535 ->
  exists res, ip4_frag p mtu ans = Some res.
Proof.
  intros (Hn & _ & Hc) Hl Hm. unfold ip4_frag. destruct (negb _); [eauto|].
  rewrite (proj2 (Z.leb_le _ _)) by done. unfold IP_HLEN in *.
  assert (20 <= Z.of_nat (length (pk_octets p))).
  { unfold pk_len, pk_octets in *. destruct (pk_chunks p); [done|]. cbn [hd concat] in *.
    rewrite length_app. lia. }
  pose proof (u16_bound (pk_tot_len p - 20)) as Hb.
  apply frag_loop_total.
  - rewrite Z.quot_div_nonneg by lia. rewrite (u16_id (_ / 8)) by word_lia. word_lia.
  - unfold is_u16 in Hb. lia.
  - unfold is_u16 in Hb. lia.
  - unfold pk_len in Hl. lia.
  - exact Hc.
  - unfold pk_tot_len, pk_octets in *. word_lia.
Qed.

Section returns.
Context `{driver : netif_driver} `{mem : memory}.
(** Memory goes on behind every packet for as long as a quote needs. *)
Context (Hmem : forall p, (8 <= length (octets_behind p))%nat).

(** The call has a result and leaves the interfaces alone. *)
Definition returns (s : net) (r : option net) : Prop :=
  exists s', r = Some s' /\ netif_list s' = netif_list s /\ ip_data s' = ip_data s.

Lemma netif_loop_output_total n p s :
  exists s' e, netif_loop_output n p s = Some (s', e) /\
    netif_list s' = netif_list s /\ ip_data s' = ip_data s.
Proof.
  unfold netif_loop_output, pbuf_alloc_ram. pose proof (u16_bound (Z.of_nat (length (pk_octets p)))) as Hb.
  fold (pk_tot_len p) in Hb. unfold is_u16 in Hb.
  destruct (Z.ltb_spec (u16 (PBUF_LINK + pk_tot_len p)) (pk_tot_len p)) as [|Hlt]; [eauto 6|].
  destruct (net_malloc s) as [|[junk|] m]; [eauto 6| |eauto 6].
  assert (u16 (PBUF_LINK + pk_tot_len p) = PBUF_LINK + pk_tot_len p) as E
    by (unfold PBUF_LINK in *; word_lia).
  unfold pk_copy. rewrite E.
  match goal with |- context [pk_tot_len p <=? ?x] => assert (x = pk_tot_len p) as -> end.
  { unfold pk_tot_len at 1. unfold pk_octets. cbn [pk_chunks concat].
    rewrite app_nil_r, length_drop, junk_block_length by (unfold PBUF_LINK; lia).
    unfold PBUF_LINK. rewrite u16_id; [lia|]. unfold is_u16. lia. }
  rewrite Z.leb_refl. cbn [mbind option_bind]. eauto 6.
Qed.

Lemma ip4_transmit_total p dest n s :
  mtu_ok n -> pk_fits p -> IP_HLEN <= pk_len p ->
  exists s' e, ip4_transmit p dest n s = Some (s', e) /\
    netif_list s' = netif_list s /\ ip_data s' = ip_data s.
Proof.
  intros Hm Hp Hl. unfold ip4_transmit. destruct (ip4_addr_cmp _ _); [apply netif_loop_output_total|].
  destruct (Z.eqb_spec (nif_mtu n) 0); [eexists _, _; eauto|]. cbn [negb andb].
  destruct (_ <? _); [|eexists _, _; eauto].
  destruct (ip4_frag_total p (nif_mtu n) (map (fun a => if a : option (nat -> Z) then true else false) (net_malloc s)) Hp Hl)
    as ([[err outs] rest] & ->); [destruct Hm; lia|].
  cbn [mbind option_bind]. eexists _, _. split; [done|]. done.
Qed.

(** Both kinds of packets: a header is added, or it is there. *)
Lemma ip4_output_if_total p src dest ttl tos proto n s :
  mtu_ok n -> pk_fits p ->
  (dest <> None \/ IP_HLEN <= pk_len p) ->
  exists s' p' e, ip4_output_if p src dest ttl tos proto n s = Some (s', p', e) /\
    netif_list s' = netif_list s /\ ip_data s' = ip_data s.
Proof.
  intros Hm Hp Hd. unfold ip4_output_if, ip4_output_if_src. destruct dest as [dest|].
  - destruct (pk_add_header IP_HLEN p) as [p1|] eqn:E; [|eexists _, _, _; eauto].
    assert (pk_fits p1 /\ IP_HLEN <= pk_len p1) as [Hp1 Hl1].
    { split; [by eapply pk_add_header_fits|]. destruct Hp as (Hn & _).
      unfold pk_add_header, pk_add_header_impl in E. unfold pk_len.
      destruct (pk_chunks p); [done|]. destruct (_ && _) eqn:E1; [|done].
      apply andb_true_iff in E1 as [_ E1%Nat.leb_le]. injection E as <-. cbn [pk_chunks hd].
      rewrite length_app, length_drop. unfold IP_HLEN in *. lia. }
    rewrite (proj2 (Z.leb_le _ _)) by done.
    match goal with |- context [pk_write 0 ?l p1] => destruct (pk_write 0 l p1) as [p2|] eqn:E2 end.
    2:{ exfalso. unfold pk_write in E2. destruct Hp1 as (Hn1 & _). unfold pk_len in Hl1.
        destruct (pk_chunks p1); [done|]. rewrite ip_hdr_octets_length in E2. cbn [hd] in Hl1.
        unfold IP_HLEN in Hl1. destruct (Nat.leb_spec (0 + 20) (length l)); [done|lia]. }
    cbn [mbind option_bind].
    edestruct (ip4_transmit_total p2 dest n) as (s' & e & -> & H1 & H2); [done|by eapply pk_write_fits| |].
    { eapply put_header_len. exact E2. }
    cbn [mbind option_bind]. eexists _, _, _. by split.
  - destruct Hd as [|Hl]; [done|]. rewrite (proj2 (Z.ltb_ge _ _)) by done.
    edestruct (ip4_transmit_total p) as (s' & e & -> & H1 & H2); [done..|].
    cbn [mbind option_bind]. eexists _, _, _. by split.
Qed.

Definition kept (s s' : net) : Prop := netif_list s' = netif_list s /\ ip_data s' = ip_data s.

Lemma kept_trans s1 s2 s3 : kept s1 s2 -> kept s2 s3 -> kept s1 s3.
Proof. intros [? ?] [? ?]. split; congruence. Qed.

Lemma pbuf_alloc_ram_kept l n s : kept s (snd (pbuf_alloc_ram l n s)).
Proof.
  unfold pbuf_alloc_ram. destruct (_ <? _); [done|]. by destruct (net_malloc s) as [|[?|] ?].
Qed.

Lemma head_mtu s n dest : Forall mtu_ok (netif_list s) -> ip4_route dest s = Some n -> mtu_ok n.
Proof. unfold ip4_route. intros H. destruct (netif_list s); [done|]. intros [= <-]. by apply Forall_inv in H. Qed.

Lemma pk_write_total off l room c r ct :
  (off + length l <= length c)%nat ->
  exists c', pk_write off l (Pkt room (c :: r) ct) = Some (Pkt room (c' :: r) ct) /\
    length c' = length c.
Proof.
  intros H. unfold pk_write. cbn [pk_chunks pk_room pk_contig].
  rewrite (proj2 (Nat.leb_le _ _)) by lia. eexists. split; [done|].
  rewrite !length_app, length_take, length_drop. lia.
Qed.

Lemma icmp_send_response_total p t c s :
  IP_HLEN <= pk_len p -> Forall mtu_ok (netif_list s) ->
  exists s', icmp_send_response p t c s = Some s' /\ kept s s'.
Proof.
  intros Hl Hs. unfold icmp_send_response.
  pose proof (pbuf_alloc_ram_kept PBUF_IP (ICMP_HLEN + IP_HLEN + ICMP_DEST_UNREACH_DATASIZE) s) as Hk.
  destruct (pbuf_alloc_ram _ _ s) as [[q|] s1] eqn:Eq; cbn [snd] in Hk; [|eauto].
  apply pbuf_alloc_ram_spec in Eq as (room & c1 & -> & Hroom & Hc1 & _); [|by unfold PBUF_IP..].
  unfold PBUF_IP, ICMP_HLEN, IP_HLEN, ICMP_DEST_UNREACH_DATASIZE in *.
  unfold pk_len at 1. cbn [pk_chunks hd]. rewrite (proj2 (Z.leb_le _ _)) by lia.
  set (payload := hd [] (pk_chunks p) ++ octets_behind p).
  assert (length (take (Z.to_nat (20 + 8)) payload) = 28%nat) as Hq.
  { subst payload. rewrite length_take, length_app. pose proof (Hmem p). unfold pk_len in Hl. lia. }
  rewrite Hq. cbn [Nat.eqb].
  match goal with |- context [pk_write 0 ?l _] =>
    destruct (pk_write_total 0 l room c1 [] true) as (c2 & -> & Hc2);
      [rewrite length_app, Hq; cbn [icmp_hdr_octets st16 app length]; lia|] end.
  cbn [mbind option_bind].
  destruct (ip4_route _ s1) as [n|] eqn:En; [|eexists; split; [done|exact Hk]].
  match goal with |- context [pk_write 0 ?l _] =>
    destruct (pk_write_total 0 l room c2 [] true) as (c3 & -> & Hc3);
      [cbn [icmp_hdr_octets st16 app length]; lia|] end.
  cbn [mbind option_bind].
  edestruct (ip4_output_if_total (Pkt room [c3] true)) as (s2 & p2 & e & -> & H1 & H2).
  - eapply head_mtu; [|exact En]. by rewrite (proj1 Hk).
  - split; [done|]. cbn [pk_room pk_chunks hd]. split; [lia|]. constructor; [lia|done].
  - by left.
  - cbn [mbind option_bind]. eexists. split; [done|]. eapply kept_trans; [exact Hk|by split].
Qed.

Lemma reass_events_run_total es : forall s,
  Forall event_fits es -> Forall mtu_ok (netif_list s) ->
  exists s', reass_events_run es s = Some s' /\ kept s s'.
Proof.
  induction es as [|e es IH]; intros s He Hs; [by eexists|].
  apply Forall_cons in He as [He Hes]. cbn [reass_events_run].
  assert (exists s1, reass_event e s = Some s1 /\ kept s s1) as (s1 & -> & Hk).
  { destruct e; [by eexists|]. by apply icmp_send_response_total. }
  cbn [mbind option_bind]. destruct (IH s1 Hes) as (s2 & -> & Hk2); [by rewrite (proj1 Hk)|].
  eexists. split; [done|]. by eapply kept_trans.
Qed.

(** ** ICMP returns *)

Definition icmp_ready (p : pkt) (iphdr_in : list Z) : Prop :=
  pk_fits p /\ Z.of_nat (length iphdr_in) <= IPH_HL_BYTES (ip_hdr_of iphdr_in) /\
  IP_HLEN <= IPH_HL_BYTES (ip_hdr_of iphdr_in) /\ 4 <= pk_len p.

Lemma IPH_HL_BYTES_le h : 0 <= IPH_HL_BYTES h <= 60.
Proof.
  unfold IPH_HL_BYTES, IPH_HL. change 15 with (Z.ones 4). rewrite Z.land_ones by lia.
  change (2 ^ 4) with 16. word_lia.
Qed.

Lemma echo_make_room_total p iphdr_in s :
  let hlen := IPH_HL_BYTES (ip_hdr_of iphdr_in) in
  icmp_ready p iphdr_in -> ICMP_HLEN <= pk_tot_len p ->
  exists s' r, echo_make_room p iphdr_in hlen s = Some (s', r) /\ kept s s' /\
    forall q, r = Some q -> pk_fits q /\ 4 <= pk_len q.
Proof.
  intros hlen (Hp & Hh & H20 & H4) H8. fold hlen in Hh, H20. unfold echo_make_room.
  pose proof (IPH_HL_BYTES_le (ip_hdr_of iphdr_in)) as H60. fold hlen in H60. clearbody hlen.
  unfold IP_HLEN, ICMP_HLEN, PBUF_LINK in *.
  destruct (pk_add_header (hlen + 14) p) as [p1|] eqn:E.
  - assert (exists p2, pk_remove_header (hlen + 14) p1 = Some p2) as (p2 & E2).
    { apply pk_remove_header_total; unfold pk_add_header, pk_add_header_impl in E; unfold pk_len;
        destruct (pk_chunks p); try done; destruct (_ && _) eqn:E1; try done; injection E as <-; [done|].
      cbn [pk_chunks hd]. apply andb_true_iff in E1 as [_ E1%Nat.leb_le].
      rewrite length_app, length_drop. lia. }
    rewrite E2. cbn [mbind option_bind]. eexists _, _. split; [done|]. split; [done|].
    intros ? [= <-]. split; [by eauto using pk_remove_header_fits, pk_add_header_fits|].
    unfold pk_add_header, pk_add_header_impl in E. unfold pk_remove_header in E2. unfold pk_len in *.
    destruct (pk_chunks p); [done|]. destruct (_ && _) eqn:E1; [|done]. injection E as <-.
    apply andb_true_iff in E1 as [_ E1%Nat.leb_le]. cbn [pk_chunks] in E2.
    destruct (_ <=? _); [|done]. injection E2 as <-. cbn [pk_chunks hd] in *.
    rewrite length_drop, length_app, length_drop. lia.
  - destruct (Z.ltb_spec (u16 (pk_tot_len p + hlen)) (pk_tot_len p)) as [|Hlt]; [eexists _, _; by eauto|].
    pose proof (u16_bound (Z.of_nat (length (pk_octets p)))) as Hb. fold (pk_tot_len p) in Hb.
    assert (u16 (pk_tot_len p + hlen) = pk_tot_len p + hlen) as Ea by word_lia. rewrite Ea in *.
    pose proof (pbuf_alloc_ram_kept 14 (pk_tot_len p + hlen) s) as Hk.
    destruct (pbuf_alloc_ram _ _ s) as [[r|] s1] eqn:Er; cbn [snd] in Hk; [|eexists _, _; by eauto].
    assert (14 + (pk_tot_len p + hlen) <= 65535).
    { unfold pbuf_alloc_ram in Er. destruct (Z.ltb_spec (u16 (14 + (pk_tot_len p + hlen))) (pk_tot_len p + hlen));
        [done|]. word_lia. }
    apply pbuf_alloc_ram_spec in Er as (room & c & -> & Hroom & Hc & _); [|lia..].
    unfold pk_len at 1. cbn [pk_chunks hd]. rewrite (proj2 (Z.ltb_ge _ _)) by lia.
    destruct (pk_write_total 0 iphdr_in room c [] true) as (c2 & -> & Hc2); [lia|].
    cbn [mbind option_bind]. unfold pk_remove_header. cbn [pk_chunks pk_room pk_contig].
    rewrite (proj2 (Z.leb_le _ _)) by lia. cbn [mbind option_bind]. unfold pk_copy.
    match goal with |- context [_ <=? pk_tot_len ?q] => assert (pk_tot_len q = pk_tot_len p) as -> end.
    { unfold pk_tot_len at 1, pk_octets. cbn [pk_chunks concat]. rewrite app_nil_r, length_drop.
      rewrite u16_id; [lia|]. unfold is_u16. lia. }
    rewrite Z.leb_refl. cbn [mbind option_bind]. eexists _, _. split; [done|].
    split; [by destruct Hk|]. intros ? [= <-]. unfold pk_fits, pk_len.
    cbn [pk_chunks pk_room fill_chunks hd].
    match goal with |- context [length (take ?a ?b ++ drop ?d ?e)] =>
      assert (length (take a b ++ drop d e) = Z.to_nat (pk_tot_len p)) as Hl end.
    { rewrite length_app, length_take, !length_drop.
      assert (length (pk_octets p) >= Z.to_nat (pk_tot_len p))%nat by (unfold pk_tot_len; word_lia). lia. }
    rewrite Hl, length_app, length_take. split; [|lia]. split; [done|]. split; [lia|].
    constructor; [lia|done].
Qed.

Lemma echo_reply_total p hlen src dest inp s :
  pk_fits p -> 4 <= pk_len p -> IP_HLEN <= hlen -> mtu_ok inp ->
  exists s' p', echo_reply p hlen src dest inp s = Some (s', p') /\ kept s s'.
Proof.
  intros Hp H4 Hh Hm. unfold echo_reply. unfold IP_HLEN in *.
  destruct (pk_add_header hlen p) as [p1|] eqn:E; [|eexists _, _; by eauto].
  pose proof (pk_add_header_fits _ _ _ _ Hp E) as (Hn1 & Hr1 & Hc1).
  assert (hlen + 4 <= pk_len p1) as Hl1.
  { unfold pk_add_header, pk_add_header_impl, pk_len in *. destruct (pk_chunks p); [done|].
    destruct (_ && _) eqn:E1; [|done]. injection E as <-. apply andb_true_iff in E1 as [_ E1%Nat.leb_le].
    cbn [pk_chunks hd] in *. rewrite length_app, length_drop. lia. }
  destruct p1 as [room [|c r] ct]; [done|]. unfold pk_len in Hl1. cbn [pk_chunks pk_room hd] in *.
  apply Forall_cons in Hc1 as [Hc1 Hcr].
  rewrite (proj2 (Nat.leb_le _ _)) by lia.
  destruct (pk_write_total (Z.to_nat hlen) [ICMP_ER] room c r ct) as (c1 & -> & Hl2); [cbn [length]; lia|].
  cbn [mbind option_bind].
  match goal with |- context [pk_write ?o (st16 ?x) _] =>
    destruct (pk_write_total o (st16 x) room c1 r ct) as (c2 & -> & Hl3); [cbn [st16 length]; lia|] end.
  cbn [mbind option_bind].
  match goal with |- context [pk_write 0 ?l _] =>
    destruct (pk_write_total 0 l room c2 r ct) as (c3 & -> & Hl4);
      [rewrite ip_hdr_octets_length; lia|] end.
  cbn [mbind option_bind].
  match goal with |- context [pk_write 0 ?l _] =>
    destruct (pk_write_total 0 l room c3 r ct) as (c4 & -> & Hl5);
      [rewrite ip_hdr_octets_length; lia|] end.
  cbn [mbind option_bind].
  edestruct (ip4_output_if_total (Pkt room (c4 :: r) ct)) as (s2 & p2 & e & -> & H1 & H2); [exact Hm| | |].
  - split; [done|]. cbn [pk_room pk_chunks hd]. split; [lia|]. constructor; [lia|done].
  - right. unfold pk_len, IP_HLEN. cbn [pk_chunks hd]. lia.
  - cbn [mbind option_bind]. eexists _, _. split; [done|]. by split.
Qed.

Lemma icmp_input_total p inp iphdr_in n s :
  pk_fits p -> mtu_ok inp ->
  current_ip4_header (ip_data s) = Some iphdr_in -> current_netif (ip_data s) = Some n ->
  Z.of_nat (length iphdr_in) <= IPH_HL_BYTES (ip_hdr_of iphdr_in) ->
  exists s', icmp_input p inp s = Some s' /\ kept s s'.
Proof.
  intros Hp Hm Hi Hn Hl. unfold icmp_input. rewrite Hi, Hn. cbn [mbind option_bind].
  assert (forall s', kept s s' -> exists s'', Some (free_packet p s') = Some s'' /\ kept s s'')
    as Hfree by (intros s' Hk; eexists; split; [done|exact Hk]).
  assert (kept s s) as H0 by done.
  destruct (Z.ltb_spec (IPH_HL_BYTES (ip_hdr_of iphdr_in)) IP_HLEN); [by apply Hfree|].
  destruct (Z.ltb_spec (pk_len p) 4); [by apply Hfree|].
  destruct (_ =? ICMP_ECHO); [|by apply Hfree].
  destruct (ip4_addr_ismulticast _); [by apply Hfree|].
  destruct (ip4_addr_isbroadcast_u32 _ _); [by apply Hfree|].
  destruct (Z.ltb_spec (pk_tot_len p) ICMP_HLEN); [by apply Hfree|].
  destruct (echo_make_room_total p iphdr_in s) as (s1 & r & -> & Hk & Hr); [by repeat split; try apply Hp|done|].
  cbn [mbind option_bind]. destruct r as [q|]; [|by apply Hfree].
  destruct (Hr q eq_refl) as [Hq H4].
  edestruct (echo_reply_total q (IPH_HL_BYTES (ip_hdr_of iphdr_in))) as (s2 & p2 & -> & Hk2); [done..|].
  cbn [mbind option_bind]. eexists. split; [done|]. eapply kept_trans; [exact Hk|]. exact Hk2.
Qed.

(** ** Input returns *)

(** What IP guarantees the upper layers. *)
Definition described (inp : netif) (m : net) : Prop :=
  mtu_ok inp /\ Forall mtu_ok (netif_list m) /\ current_input_netif (ip_data m) = Some inp /\
  current_ip6_header (ip_data m) = None /\
  exists n h, current_netif (ip_data m) = Some n /\ current_ip4_header (ip_data m) = Some h /\
    Z.of_nat (length h) <= IPH_HL_BYTES (ip_hdr_of h).

(** [p] is the payload of the datagram [p0] that IP describes. *)
Definition handed (p0 p : pkt) (inp : netif) (m : net) : Prop :=
  pk_fits p0 /\ IP_HLEN <= pk_len p0 /\ described inp m /\
  0 <= current_ip_header_tot_len (ip_data m) <= 60 /\
  pk_remove_header (current_ip_header_tot_len (ip_data m)) p0 = Some p.

(** What it relies on: raw IP and UDP return, and nobody changes the interfaces
    or the description of the packet; [ok] is the invariant of their state.
    TCP need not return. *)
Record layers_promise `{layers : upper_layers U} (ok : U -> Prop) : Prop := {
  raw_returns p inp m u : described inp m -> ok u ->
    exists m' u' r, raw_input p inp m u = Some (m', u', r) /\ kept m m' /\ ok u';
  udp_returns p0 p inp m u : handed p0 p inp m -> ok u ->
    exists m' u', udp_input p inp m u = Some (m', u') /\ kept m m' /\ ok u';
  tcp_keeps p inp m u m' u' : ok u -> tcp_input p inp m u = Some (m', u') ->
    kept m m' /\ ok u'
}.

Context `{layers : upper_layers U} (ok : U -> Prop) (Hlayers : layers_promise ok).

Lemma described_kept inp m m' : described inp m -> kept m m' -> described inp m'.
Proof. intros (H1 & H2 & H3 & H4) [E1 E2]. unfold described. by rewrite E1, E2. Qed.

(** [tcp_input] has no result on the datagram [p0]; [u] is what raw IP made of the
    state of the upper layers. *)
Definition tcp_stuck (p0 : pkt) (inp : netif) (u0 : U) : Prop :=
  _proto (pkt_hdr p0) = IP_PROTO_TCP /\
  exists m0 m u st q, raw_input p0 inp m0 u0 = Some (m, u, st) /\ st <> RAW_INPUT_EATEN /\
    handed p0 q inp m /\ tcp_input q inp m u = None.

Lemma ip4_dispatch_total p0 p proto st n inp (s : stack U) :
  let hlen := current_ip_header_tot_len (ip_data (st_net s)) in
  handed p0 p inp (st_net s) -> ok (st_upper s) ->
  (exists s', ip4_dispatch p proto hlen st n inp s = Some s' /\
     kept (st_net s) (st_net s') /\ st_reass s' = st_reass s /\ ok (st_upper s')) \/
  (proto = IP_PROTO_TCP /\ tcp_input p inp (st_net s) (st_upper s) = None).
Proof.
  intros hlen Hh Hok. unfold ip4_dispatch. subst hlen. set (hlen := current_ip_header_tot_len _).
  pose proof Hh as (Hp0 & Hl & Hd & Hhl & E). fold hlen in E, Hhl.
  assert (pk_fits p) as Hp by by eapply pk_remove_header_fits.
  destruct (proto =? IP_PROTO_UDP).
  { destruct (udp_returns _ Hlayers p0 p inp (st_net s) (st_upper s) Hh Hok) as (m & u & -> & Hk & Hu).
    left. eexists. split; [done|]. by split. }
  destruct (Z.eqb_spec proto IP_PROTO_TCP) as [Ep|].
  { destruct (tcp_input p inp (st_net s) (st_upper s)) as [[m u]|] eqn:Et; [left|by right].
    destruct (tcp_keeps _ Hlayers _ _ _ _ _ _ Hok Et) as [Hk Hu].
    eexists. split; [done|]. by split. }
  left. pose proof Hd as (Hm & Hms & _ & _ & n' & h & Hn & Hc & Hlh).
  destruct (proto =? IP_PROTO_ICMP).
  { destruct (icmp_input_total p inp h n' (st_net s) Hp Hm Hc Hn Hlh) as (m & -> & Hk).
    eexists. split; [done|]. by split. }
  assert (exists s', Some (with_net (free_packet p) s) = Some s' /\ kept (st_net s) (st_net s') /\
    st_reass s' = st_reass s /\ ok (st_upper s')) as Hfree by (eexists; split; [done|]; by split).
  assert (default p (pk_header_force (s16 hlen) p) = p0) as Hback.
  { replace (s16 hlen) with hlen by (unfold s16; Z.div_mod_to_equations; lia).
    rewrite (pk_header_round_trip hlen p0 p); [done|lia|done]. }
  destruct (icmp_send_response_total p0 ICMP_DUR ICMP_DUR_PROTO (st_net s) Hl Hms) as (m & E1 & Hk).
  destruct st; try done; destruct (_ && _); try done;
    rewrite Hback; unfold icmp_dest_unreach; rewrite E1;
    (eexists; split; [done|]; by split).
Qed.

(** The invariant of the stack; between packets none is described as IPv6. *)
Definition stack_ok (s : stack U) : Prop :=
  reass_ok (st_reass s) /\ reass_fits (st_reass s) /\ Forall mtu_ok (netif_list (st_net s)) /\
  current_ip6_header (ip_data (st_net s)) = None /\ ok (st_upper s).

Lemma described_deliver (p : pkt) n inp (s : stack U) :
  pk_fits p -> IP_HLEN <= pk_len p -> mtu_ok inp -> stack_ok s ->
  let h := take (Z.to_nat (IPH_HL_BYTES (pkt_hdr p))) (hd [] (pk_chunks p)) in
  described inp ((st_net s) <| ip_data := (ip_data (st_net s)) <| current_netif := Some n |>
    <| current_input_netif := Some inp |> <| current_ip4_header := Some h |>
    <| current_ip_header_tot_len := IPH_HL_BYTES (pkt_hdr p) |> |>).
Proof.
  intros Hp Hl Hm (_ & _ & Hn & H6 & _) h. do 4 (split; [done|]). exists n, h.
  split; [done|]. split; [done|].
  assert (IPH_HL_BYTES (ip_hdr_of h) = IPH_HL_BYTES (pkt_hdr p) \/ h = []) as [E|E].
  { unfold h, pkt_hdr. unfold pk_len, IP_HLEN in Hl.
    destruct (hd [] (pk_chunks p)) as [|b c]; [by right|].
    destruct (Z.to_nat (IPH_HL_BYTES (ip_hdr_of (b :: c)))); [by right|by left]. }
  - rewrite E. unfold h. rewrite length_take. pose proof (IPH_HL_BYTES_le (pkt_hdr p)). lia.
  - rewrite E. done.
Qed.

Lemma ip4_deliver_outcome p n inp (s : stack U) :
  let hlen := IPH_HL_BYTES (pkt_hdr p) in
  pk_fits p -> IP_HLEN <= pk_len p -> hlen <= pk_len p -> mtu_ok inp -> stack_ok s ->
  (exists s', ip4_deliver p hlen n inp s = Some (s', ERR_OK) /\ stack_ok s') \/
  tcp_stuck p inp (st_upper s).
Proof.
  intros hlen Hp Hl Hhl Hm Hs. unfold ip4_deliver. cbv zeta. fold (pkt_hdr p).
  pose proof (described_deliver p n inp s Hp Hl Hm Hs) as Hd.
  cbv zeta in Hd. set (m1 := (st_net s) <| ip_data := _ |>) in *.
  destruct Hs as (Hr & Hf & Hn & H6 & Hok). cbn [st_net st_upper st_reass st_reass6 with_net].
  fold m1. destruct (raw_returns _ Hlayers p inp m1 (st_upper s) Hd Hok) as (m & u & st & Eraw & Hk & Hu).
  rewrite Eraw. cbn [mbind option_bind].
  set (s2 := Stack m (st_reass s) (st_reass6 s) u).
  assert (current_ip_header_tot_len (ip_data m) = hlen) as Etot by (by rewrite (proj2 Hk)).
  destruct (pk_remove_header_total hlen p (proj1 Hp) Hhl) as (q & Eq).
  assert (handed p q inp (st_net s2)) as Hh.
  { split; [done|]. split; [done|]. split; [by eapply described_kept|].
    cbn [st_net s2]. rewrite Etot. split; [apply IPH_HL_BYTES_le|done]. }
  assert (forall s3, kept m (st_net s3) -> st_reass s3 = st_reass s -> ok (st_upper s3) ->
    stack_ok (with_net (fun m => m <| ip_data := ip_data_clear (ip_data m) |>) s3)) as Hend.
  { intros s3 [E1 E2] E3 H3. unfold stack_ok. cbn [st_reass st_net st_upper with_net netif_list setter].
    rewrite E3, E1, (proj1 Hk). do 3 (split; [done|]). split; [|done].
    cbn [ip_data setter ip_data_clear current_ip6_header]. by rewrite E2, (proj2 Hk). }
  pose proof (ip4_dispatch_total p q (_proto (pkt_hdr p)) st n inp s2 Hh Hu) as Ho.
  cbn [st_net s2] in Ho. rewrite Etot in Ho.
  destruct st; [ |left; cbn [mbind option_bind]; eexists; split; [done|]; by apply Hend| ];
    rewrite Eq; cbn [mbind option_bind];
    (destruct Ho as [(s3 & E3 & Hk3 & Hr3 & Hu3)|[Ep Et]];
      [left; rewrite E3; cbn [mbind option_bind]; eexists; split; [done|]; by apply Hend
      |right; split; [done|]; by exists m1, m, u; eexists _, q]).
Qed.

(** A packet as the tunnel hands it over. *)
Definition arriving (p : pkt) : Prop :=
  pk_fits p /\ 4 <= pk_len p /\ bytes_ok (hd [] (pk_chunks p)) /\
  Z.of_nat (length (pk_chunks p)) < 65536.

Lemma pk_realloc_head n p :
  bytes_ok (hd [] (pk_chunks p)) -> Z.of_nat (length (pk_chunks p)) < 65536 ->
  bytes_ok (hd [] (pk_chunks (pk_realloc n p))) /\
  Z.of_nat (length (pk_chunks (pk_realloc n p))) < 65536.
Proof.
  intros Hb Hl. unfold pk_realloc. destruct (_ <=? _); [done|]. cbn [pk_chunks].
  assert (forall cs m, length (trunc_chunks m cs) <= length cs)%nat as Ht.
  { induction cs as [|c cs IH]; intros m; [done|]. cbn [trunc_chunks].
    destruct (_ <? _); cbn [length]; [|lia]. pose proof (IH (m - Z.of_nat (length c))). lia. }
  split; [|pose proof (Ht (pk_chunks p) n); lia].
  destruct (pk_chunks p) as [|c cs]; [done|]. cbn [trunc_chunks]. destruct (_ <? _); [done|].
  by apply Forall_take.
Qed.

(** The header length is in the first octet, which no trimming takes. *)
Lemma pk_realloc_hl n p :
  1 <= pk_len (pk_realloc n p) ->
  IPH_HL_BYTES (pkt_hdr (pk_realloc n p)) = IPH_HL_BYTES (pkt_hdr p).
Proof.
  unfold pk_realloc, pkt_hdr, pk_len. destruct (_ <=? _); [done|]. cbn [pk_chunks].
  destruct (pk_chunks p) as [|c cs]; [done|]. cbn [trunc_chunks]. destruct (_ <? _); [done|].
  cbn [hd]. destruct c as [|b c]; [by rewrite take_nil|]. destruct (Z.to_nat n); [done|]. done.
Qed.

(** Only fragments without options are reassembled. *)
Lemma ip4_reass_hl p s s' q :
  ip4_reass p s = Some (s', Some q) -> IPH_HL_BYTES (pkt_hdr p) = IP_HLEN.
Proof.
  unfold ip4_reass. fold (pkt_hdr p). destruct (Z.eqb_spec (IPH_HL_BYTES (pkt_hdr p)) IP_HLEN); [done|].
  by intros [= _ ?].
Qed.

(** Reassembly in place, with the messages it sends. *)
Lemma ip4_reass_call_total p (s : stack U) :
  stack_ok s -> pkt_ok p -> pk_fits p -> is_fragment (pkt_hdr p) = true ->
  exists s' r, ip4_reass_call p s = Some (s', r) /\ stack_ok s' /\
    st_upper s' = st_upper s /\
    forall q, r = Some q -> whole q /\ IPH_HL_BYTES (pkt_hdr p) = IP_HLEN /\
      exists r1, ip4_reass p ((st_reass s) <| reass_events := [] |>) = Some (r1, Some q).
Proof.
  intros (Hr & [Hf He] & Hm & H6 & Hu) Hp Hfit Hfr. unfold ip4_reass_call.
  set (r0 := (st_reass s) <| reass_events := [] |>).
  assert (reass_ok r0) as Hr0 by done.
  assert (reass_fits r0) as Hf0 by (split; [exact Hf|constructor]).
  destruct (ip4_reass_safe_lemma r0 p Hr0 Hp Hfr) as (r1 & o & es & E & Hok & _).
  rewrite E. cbn [mbind option_bind].
  destruct (ip4_reass_fits p r0 _ E Hfit Hf0) as [Hf1 Hq]. cbn [fst snd] in *.
  destruct (reass_events_run_total (reass_events r1) (st_net s) (proj2 Hf1) Hm) as (m & -> & Hk).
  cbn [mbind option_bind]. eexists _, o. split; [done|]. split.
  { do 2 (split; [done|]). cbn [st_net st_upper]. by rewrite (proj1 Hk), (proj2 Hk). }
  split; [done|]. intros q ->. split; [by apply Hq|]. split; [by eapply ip4_reass_hl|by eexists].
Qed.

Lemma ip4_drop_ok p (s : stack U) :
  stack_ok s -> exists s', ip4_drop p s = Some (s', ERR_OK) /\ stack_ok s'.
Proof. intros H. eexists. split; [done|exact H]. Qed.

(** The packet without what is behind the length of its header. *)
Definition trimmed (p : pkt) : pkt :=
  let len := lwip_htons (_len (pkt_hdr p)) in
  if len <? pk_tot_len p then pk_realloc len p else p.

(** The datagram that goes up: the packet, or what reassembly makes of it. *)
Definition goes_up (p : pkt) (s : stack U) (p0 : pkt) : Prop :=
  if is_fragment (pkt_hdr (trimmed p)) then
    exists r, ip4_reass (trimmed p) ((st_reass s) <| reass_events := [] |>) = Some (r, Some p0)
  else p0 = trimmed p.

Lemma ip4_input_outcome p inp (s : stack U) :
  arriving p -> mtu_ok inp -> stack_ok s ->
  (exists s', ip4_input p inp s = Some (s', ERR_OK) /\ stack_ok s') \/
  (exists p0, goes_up p s p0 /\ tcp_stuck p0 inp (st_upper s)).
Proof.
  intros (Hfit & H4 & Hb & Hc) Hm Hs. unfold ip4_input. cbv zeta.
  pose proof (IPH_HL_BYTES_le (pkt_hdr p)) as Hhl.
  rewrite !(proj2 (Z.leb_le _ _)) by lia.
  assert (forall (s1 : stack U) q, stack_ok s1 ->
    (exists s', ip4_drop q s1 = Some (s', ERR_OK) /\ stack_ok s') \/
    exists p0, goes_up p s p0 /\ tcp_stuck p0 inp (st_upper s)) as Hdrop
    by (intros; left; by apply ip4_drop_ok).
  destruct (negb _); [by apply Hdrop|].
  pose proof (eq_refl (trimmed p)) as Et. unfold trimmed at 2 in Et. cbv zeta in Et.
  fold (pkt_hdr p). rewrite <- Et. set (p1 := trimmed p) in *.
  assert (pk_fits p1 /\ bytes_ok (hd [] (pk_chunks p1)) /\ Z.of_nat (length (pk_chunks p1)) < 65536)
    as (Hfit1 & Hb1 & Hc1).
  { rewrite Et. destruct (_ <? _); [|done]. split; [by apply pk_realloc_fits|by apply pk_realloc_head]. }
  assert (1 <= pk_len p1 -> IPH_HL_BYTES (pkt_hdr p1) = IPH_HL_BYTES (pkt_hdr p)) as Hhl1.
  { rewrite Et. destruct (_ <? _); [apply pk_realloc_hl|done]. }
  clear Et. set (hlen := IPH_HL_BYTES (pkt_hdr p)) in *.
  destruct (Z.ltb_spec (pk_len p1) hlen); [by apply Hdrop|].
  destruct (_ <? lwip_htons _); [by apply Hdrop|].
  destruct (Z.ltb_spec hlen IP_HLEN); [by apply Hdrop|]. cbn [orb].
  set (s1 := with_net _ s). assert (stack_ok s1) as Hs1 by exact Hs.
  destruct (_ || _); [by apply Hdrop|].
  destruct (if ip4_addr_ismulticast _ then _ else _) as [n|]; [|by apply Hdrop].
  match goal with |- context [if ?b then _ else _] => change b with (is_fragment (pkt_hdr p1)) end.
  unfold IP_HLEN in *. unfold goes_up. fold p1.
  destruct (is_fragment (pkt_hdr p1)) eqn:Hfr.
  - assert (pkt_ok p1) as Hp1 by (repeat split; try done; [apply Hfit1|unfold IP_HLEN; lia]).
    destruct (ip4_reass_call_total p1 s1 Hs1 Hp1 Hfit1 Hfr) as (s2 & r & -> & Hs2 & Hu & Hr).
    cbn [mbind option_bind]. destruct r as [q|]; [|by left; eexists].
    destruct (Hr q eq_refl) as ((Hq1 & Hq2 & Hq3) & Hq4 & Hq5). unfold IP_HLEN in *.
    assert (hlen = IPH_HL_BYTES (pkt_hdr q)) as -> by (rewrite <- Hhl1 by lia; lia).
    destruct (ip4_deliver_outcome q n inp s2) as [?|Hstuck];
      [done|unfold IP_HLEN; lia|lia|done|done|by left|right].
    exists q. split; [exact Hq5|]. by rewrite Hu in Hstuck.
  - assert (hlen = IPH_HL_BYTES (pkt_hdr p1)) as Eh by (rewrite Hhl1 by lia; done).
    rewrite Eh. destruct (ip4_deliver_outcome p1 n inp s1) as [?|Hstuck];
      [done|unfold IP_HLEN; lia|lia|done|done|by left|].
    right. by exists p1.
Qed.

End returns.
