(* ===== verification/IcmpSpec.v ===== *)
(** * What an echo reply looks like

    The reply carries the octets of the request behind the type and the
    checksum, goes back to the sender, and both of its checksums verify if that
    of the request did.  An error message quotes the packet it answers, and more
    than the packet if that is short. *)

From S2P Require Import Prelude Err Def IpAddr NetifDefs Ip4Addr Chksum Pbuf Packet IpHdr Ip4Frag Ip6Frag Ip4FragSpec Ip4FragOut Net Ip4 Icmp Ip4In NetExamples Ip4Spec.

(** ** The checksum of the message *)

Lemma wsum_pair a b l : wsum (a :: b :: l) = a + 256 * b + wsum l.
Proof. done. Qed.

Lemma echo_reply_chksum_spec c :
  is_u16 c -> exists k, echo_reply_chksum c = c + 8 - 65535 * k /\ 0 < echo_reply_chksum c < 65536.
Proof.
  intros Hc. unfold echo_reply_chksum.
  change (lwip_htons (u16 (65535 - Z.shiftl ICMP_ECHO 8))) with 65527.
  change (lwip_htons (u16 (Z.shiftl ICMP_ECHO 8))) with 8.
  destruct (Z.ltb_spec 65527 c); [exists 1|exists 0]; word_lia.
Qed.

Lemma verifies_iff l : bytes_ok l -> Z.of_nat (length l) <= max_chksum_len ->
  inet_chksum false l = 0 <-> norm (wsum l) = 65535.
Proof. intros. rewrite inet_chksum_norm by done. lia. Qed.

(** Replacing the type and adjusting the checksum keeps a correct message
    correct. *)
Lemma echo_message_verifies code c rest :
  is_u8 code -> is_u16 c -> bytes_ok rest -> Z.of_nat (length rest) <= 65535 ->
  inet_chksum false ([ICMP_ECHO; code] ++ st16 c ++ rest) = 0 ->
  inet_chksum false ([ICMP_ER; code] ++ st16 (echo_reply_chksum c) ++ rest) = 0.
Proof.
  intros Hcode Hc Hr Hl. destruct (echo_reply_chksum_spec c Hc) as (k & E & Hb).
  assert (forall t x, is_u8 t -> is_u16 x -> bytes_ok ([t; code] ++ st16 x ++ rest)) as Hok.
  { intros t x Ht Hx. rewrite !Forall_app. split_and!; [by rewrite !Forall_cons|apply st16_ok|done]. }
  assert (forall t x, Z.of_nat (length ([t; code] ++ st16 x ++ rest)) <= max_chksum_len) as Hlen
    by (intros; rewrite !length_app; unfold st16; cbn [length]; lia).
  rewrite !verifies_iff by (first [apply Hlen|apply Hok; unfold is_u16; done || lia]).
  cbn [app]. change ([?a; ?b] ++ ?l) with (a :: b :: l). rewrite !wsum_pair, !wsum_st16 by done.
  rewrite wsum_st16 by (unfold is_u16; lia). pose proof (wsum_nonneg rest Hr).
  unfold is_u8, is_u16, ICMP_ECHO, ICMP_ER in *. intros H1.
  rewrite <- H1. apply norm_congr; [lia|lia| |lia]. rewrite E.
  replace (0 + 256 * code + (c + 8 - 65535 * k + wsum rest)) with
    (8 + 256 * code + (c + wsum rest) + (- k) * 65535) by lia. apply Z_mod_plus_full.
Qed.

(** ** A header with options *)

Lemma ip_hdr_ok_set_chksum h c : ip_hdr_ok h -> is_u16 c -> ip_hdr_ok (h <| _chksum := c |>).
Proof. intros (?&?&?&?&?&?&?&?&?&?) ?. unfold ip_hdr_ok. by split_and!. Qed.

Lemma options_header_verifies h opts :
  ip_hdr_ok h -> _chksum h = 0 -> bytes_ok opts -> Z.of_nat (length opts) <= 65535 ->
  let c := inet_chksum false (ip_hdr_octets h ++ opts) in
  inet_chksum false (ip_hdr_octets (h <| _chksum := c |>) ++ opts) = 0.
Proof.
  intros Hh H0 Ho Hl c.
  assert (bytes_ok (ip_hdr_octets h ++ opts)) as Hok
    by (apply Forall_app; split; [by apply ip_hdr_octets_ok|done]).
  assert (c = 65535 - norm (wsum (ip_hdr_octets h ++ opts))) as Ec.
  { apply inet_chksum_norm; [done|]. rewrite length_app, ip_hdr_octets_length. lia. }
  assert (is_u16 c) as Hc by apply inet_chksum_u16. clearbody c.
  pose proof (ip_hdr_ok_set_chksum h c Hh Hc) as Hh'.
  rewrite verifies_iff.
  - rewrite wsum_app_even by done. rewrite wsum_ip_hdr by done.
    cbn [_v_hl _tos _len _id _offset _ttl _proto _chksum iph_src iph_dest setter].
    pose proof (wsum_nonneg _ Hok) as Hn. rewrite <- (norm_complement _ Hn), <- Ec. f_equal.
    rewrite wsum_app_even by done. rewrite wsum_ip_hdr, H0 by done. lia.
  - apply Forall_app. split; [by apply ip_hdr_octets_ok|done].
  - rewrite length_app, ip_hdr_octets_length. lia.
Qed.

(** ** Making room *)

Lemma pk_add_remove n p p1 :
  0 <= n -> pk_add_header n p = Some p1 -> pk_remove_header n p1 = Some p.
Proof.
  intros Hn. unfold pk_add_header, pk_add_header_impl, pk_remove_header.
  destruct p as [room [|c r] ct]; [done|]. cbn [pk_room pk_chunks pk_contig].
  destruct (_ && _) eqn:E; [|done]. apply andb_true_iff in E as [_ E%Nat.leb_le].
  intros [= <-]. cbn [pk_room pk_chunks pk_contig].
  rewrite (proj2 (Z.leb_le _ _)) by (rewrite length_app, length_drop; lia).
  rewrite take_app_length', drop_app_length' by (rewrite length_drop; lia).
  by rewrite take_drop.
Qed.

(** The IP header lies right in front of the message. *)
Definition header_in_front (p : pkt) (iphdr_in : list Z) : Prop :=
  exists pre, pk_room p = pre ++ iphdr_in.

Definition echo_ready (p : pkt) (iphdr_in : list Z) (s : net) : Prop :=
  let hlen := Z.of_nat (length iphdr_in) in
  pk_chunks p <> [] /\ 4 <= pk_len p /\ 8 <= Z.of_nat (length (pk_octets p)) /\
  hlen + Z.of_nat (length (pk_octets p)) <= 65521 /\ IP_HLEN <= hlen /\
  header_in_front p iphdr_in /\
  (pk_contig p = true /\ (length iphdr_in + 14 <= length (pk_room p))%nat \/
   exists junk m, net_malloc s = Some junk :: m).

(** The request that is answered has the octets of the request that came, and room
    for its header. *)
Lemma echo_make_room_spec p iphdr_in s :
  echo_ready p iphdr_in s ->
  exists s' q, echo_make_room p iphdr_in (Z.of_nat (length iphdr_in)) s = Some (s', Some q) /\
    (s' = s \/ exists m, s' = free_packet p (s <| net_malloc := m |>)) /\
    pk_octets q = pk_octets p /\ pk_contig q = true /\ header_in_front q iphdr_in /\
    pk_chunks q <> [] /\ 4 <= pk_len q.
Proof.
  intros (Hn & H4 & H8 & Hmax & H20 & Hfront & Hroom). unfold echo_make_room.
  set (hlen := Z.of_nat (length iphdr_in)) in *.
  assert (hlen = Z.of_nat (length iphdr_in)) as Hh by done. clearbody hlen.
  unfold IP_HLEN, PBUF_LINK, ICMP_HLEN in *.
  destruct (pk_add_header (hlen + 14) p) as [p1|] eqn:E.
  { rewrite (pk_add_remove (hlen + 14) p p1 ltac:(lia) E). cbn [mbind option_bind].
    exists s, p. split_and!; try done; [by left|].
    unfold pk_add_header, pk_add_header_impl in E. destruct (pk_chunks p); [done|].
    rewrite orb_false_r in E. by destruct (pk_contig p). }
  destruct Hroom as [[Hct Hr]|(junk & m & Hm)].
  { exfalso. unfold pk_add_header, pk_add_header_impl in E. destruct (pk_chunks p); [done|].
    rewrite Hct, (proj2 (Nat.leb_le _ _)) in E by lia. done. }
  assert (pk_tot_len p = Z.of_nat (length (pk_octets p))) as Ht
    by (unfold pk_tot_len; apply u16_id; unfold is_u16; lia).
  rewrite (u16_id (pk_tot_len p + hlen)) by (unfold is_u16; lia).
  rewrite (proj2 (Z.ltb_ge _ _)) by lia.
  destruct (pbuf_alloc_ram 14 (pk_tot_len p + hlen) s) as [[r|] s1] eqn:Er.
  2:{ exfalso. unfold pbuf_alloc_ram in Er. rewrite u16_id in Er by (unfold is_u16; lia).
      rewrite (proj2 (Z.ltb_ge _ _)) in Er by lia. by rewrite Hm in Er. }
  apply pbuf_alloc_ram_spec in Er as (room & c & -> & Hro & Hc & _ & _ & _ & _ & ->); [|lia..].
  unfold pk_len at 1. cbn [pk_chunks hd]. rewrite (proj2 (Z.ltb_ge _ _)) by lia.
  rewrite <- (take_drop (length iphdr_in) c).
  rewrite pk_write_front by (rewrite length_take; lia). cbn [mbind option_bind].
  unfold pk_remove_header. cbn [pk_chunks pk_room pk_contig].
  rewrite (proj2 (Z.leb_le _ _)) by (rewrite length_app; lia). cbn [mbind option_bind].
  rewrite take_app_length', drop_app_length' by lia.
  unfold pk_copy. set (c' := drop (length iphdr_in) c).
  assert (length c' = length (pk_octets p)) as Hc' by (subst c'; rewrite length_drop; lia).
  assert (pk_tot_len (Pkt (room ++ iphdr_in) [c'] true) = pk_tot_len p) as ->.
  { unfold pk_tot_len, pk_octets at 1. cbn [pk_chunks concat]. by rewrite app_nil_r, Hc'. }
  rewrite Z.leb_refl. cbn [mbind option_bind pk_room pk_chunks pk_contig fill_chunks].
  rewrite Hc', take_ge, drop_ge, app_nil_r by lia.
  eexists _, _. split; [done|]. split; [right; by eexists|].
  unfold pk_octets at 1, pk_len. cbn [pk_chunks concat pk_contig hd]. rewrite app_nil_r.
  split; [done|]. split; [done|]. split; [by exists room|]. split; [done|]. lia.
Qed.

(** ** The reply *)

Lemma pk_write_mid room a b c l r ct :
  length l = length b ->
  pk_write (length a) l (Pkt room ((a ++ b ++ c) :: r) ct) = Some (Pkt room ((a ++ l ++ c) :: r) ct).
Proof.
  intros H. unfold pk_write. cbn [pk_chunks pk_room pk_contig].
  rewrite (proj2 (Nat.leb_le _ _)) by (rewrite !length_app; lia).
  rewrite take_app_length. do 4 f_equal. rewrite app_assoc, drop_app_length'; [done|].
  rewrite length_app. lia.
Qed.

(** The first four octets of a message whose first pbuf holds them. *)
Lemma split_message p t code c rest :
  is_u16 c -> pk_octets p = [t; code] ++ st16 c ++ rest -> 4 <= pk_len p ->
  exists d r, pk_chunks p = ([t; code] ++ st16 c ++ d) :: r /\ rest = d ++ concat r.
Proof.
  unfold pk_octets, pk_len. intros Hc H H4. destruct (pk_chunks p) as [|k r]; [simpl in H4; lia|].
  cbn [hd concat] in *. exists (drop 4 k), r.
  assert (take 4 k = [t; code] ++ st16 c) as Ht.
  { apply (f_equal (take 4)) in H. rewrite take_app_le in H by lia. by rewrite H. }
  apply (f_equal (drop 4)) in H. rewrite drop_app_le in H by lia. split; [|by rewrite H].
  f_equal. rewrite <- (take_drop 4 k) at 1. by rewrite Ht, <- app_assoc.
Qed.

(** The header of the reply. *)
Definition echo_header (iphdr_in : list Z) (src dest : Z) : ip_hdr :=
  let h := (ip_hdr_of iphdr_in) <| iph_src := src |> <| iph_dest := dest |>
             <| _ttl := ICMP_TTL |> <| _chksum := 0 |> in
  h <| _chksum := inet_chksum false (ip_hdr_octets h ++ drop 20 iphdr_in) |>.

Lemma echo_header_ok iphdr_in src dest :
  bytes_ok iphdr_in -> is_u32 src -> is_u32 dest -> ip_hdr_ok (echo_header iphdr_in src dest).
Proof.
  intros Hb Hs Hd. apply ip_hdr_ok_set_chksum; [|apply inet_chksum_u16].
  destruct (ip_hdr_of_ok iphdr_in Hb) as (?&?&?&?&?&?&?&?&?&?). unfold ip_hdr_ok. by split_and!.
Qed.

Lemma echo_header_verifies iphdr_in src dest :
  bytes_ok iphdr_in -> is_u32 src -> is_u32 dest -> Z.of_nat (length iphdr_in) <= 65535 ->
  inet_chksum false (ip_hdr_octets (echo_header iphdr_in src dest) ++ drop 20 iphdr_in) = 0.
Proof.
  intros Hb Hs Hd Hl. unfold echo_header. apply options_header_verifies.
  - destruct (ip_hdr_of_ok iphdr_in Hb) as (?&?&?&?&?&?&?&?&?&?). unfold ip_hdr_ok. by split_and!.
  - done.
  - by apply Forall_drop.
  - rewrite length_drop. lia.
Qed.

(** The message and the front of the header, written piece by piece. *)
Lemma echo_writes room iphdr_in code c d r k l :
  (20 <= length iphdr_in)%nat -> length l = 20%nat ->
  ((pk_write (length iphdr_in) [ICMP_ER]
      (Pkt room ((iphdr_in ++ [ICMP_ECHO; code] ++ st16 c ++ d) :: r) true)
    ≫= pk_write (length iphdr_in + 2) (st16 k)) ≫= pk_write 0 l) =
  Some (Pkt room ((l ++ drop 20 iphdr_in ++ [ICMP_ER; code] ++ st16 k ++ d) :: r) true).
Proof.
  intros Hl Hl'. change ([ICMP_ECHO; code] ++ st16 c ++ d) with ([ICMP_ECHO] ++ [code] ++ st16 c ++ d).
  rewrite pk_write_mid by done. cbn [mbind option_bind].
  replace (iphdr_in ++ [ICMP_ER] ++ [code] ++ st16 c ++ d) with
    ((iphdr_in ++ [ICMP_ER; code]) ++ st16 c ++ d) by (by rewrite <- app_assoc).
  replace (length iphdr_in + 2)%nat with (length (iphdr_in ++ [ICMP_ER; code]))
    by (rewrite length_app; cbn [length]; lia).
  rewrite pk_write_mid by done. cbn [mbind option_bind].
  replace ((iphdr_in ++ [ICMP_ER; code]) ++ st16 k ++ d) with
    (take 20 iphdr_in ++ (drop 20 iphdr_in ++ [ICMP_ER; code] ++ st16 k ++ d))
    by (rewrite (app_assoc (take _ _)), take_drop; by rewrite <- app_assoc).
  by rewrite pk_write_front by (rewrite length_take; lia).
Qed.

Lemma option_bind_assoc {A B C} (m : option A) (f : A -> option B) (g : B -> option C) :
  ((m ≫= f) ≫= g) = (m ≫= (fun x => f x ≫= g)).
Proof. by destruct m. Qed.

#[local] Opaque inet_chksum ip_hdr_of echo_reply_chksum.

(** A packet that has its header goes where the header says. *)
Lemma output_included `{netif_driver} q src ttl tos proto n s :
  IP_HLEN <= pk_len q ->
  ip4_output_if q src None ttl tos proto n s =
  '(s', err) ← ip4_transmit q (iph_dest (ip_hdr_of (hd [] (pk_chunks q)))) n s; Some (s', q, err).
Proof.
  intros Hl. unfold ip4_output_if, ip4_output_if_src. by rewrite (proj2 (Z.ltb_ge _ _)) by done.
Qed.

Lemma echo_reply_spec `{netif_driver} q iphdr_in code c rest src dest inp s :
  pk_octets q = [ICMP_ECHO; code] ++ st16 c ++ rest -> is_u16 c -> 4 <= pk_len q ->
  pk_contig q = true -> header_in_front q iphdr_in -> (20 <= length iphdr_in)%nat ->
  bytes_ok iphdr_in -> is_u32 src -> is_u32 dest ->
  exists q', echo_reply q (Z.of_nat (length iphdr_in)) src dest inp s =
    ('(s', err) ← ip4_transmit q' dest inp s; Some (s', q')) /\
    pk_octets q' = ip_hdr_octets (echo_header iphdr_in src dest) ++ drop 20 iphdr_in ++
                   [ICMP_ER; code] ++ st16 (echo_reply_chksum c) ++ rest.
Proof.
  intros Ho Hc H4 Hct (pre & Hroom) Hl Hb Hs Hd.
  destruct (split_message _ _ _ _ _ Hc Ho H4) as (d & r & Hch & ->).
  destruct q as [room cs ct]. cbn [pk_room pk_chunks pk_contig] in *. subst. clear Ho H4.
  unfold echo_reply, pk_add_header, pk_add_header_impl. cbn [pk_room pk_chunks pk_contig].
  rewrite Nat2Z.id, length_app, (proj2 (Nat.leb_le _ _)) by lia. cbn [orb andb].
  replace (length pre + length iphdr_in - length iphdr_in)%nat with (length pre) by lia.
  rewrite take_app_length, drop_app_length. cbn [hd pk_chunks].
  rewrite (proj2 (Nat.leb_le _ _)) by (rewrite length_app; unfold st16; cbn [app length]; lia).
  rewrite ip_hdr_of_app by lia.
  assert (ld16 (iphdr_in ++ [ICMP_ECHO; code] ++ st16 c ++ d) (length iphdr_in + 2) = c) as ->.
  { unfold ld16, ld8. rewrite !(app_nth2 iphdr_in) by lia.
    replace (length iphdr_in + 2 - length iphdr_in)%nat with 2%nat by lia.
    replace (length iphdr_in + 2 + 1 - length iphdr_in)%nat with 3%nat by lia.
    unfold st16. cbn [app nth]. word_lia. }
  rewrite <- !option_bind_assoc. rewrite echo_writes by done. cbn [mbind option_bind hd pk_chunks].
  rewrite (app_assoc (ip_hdr_octets _)), take_app_length'
    by (rewrite length_app, ip_hdr_octets_length, length_drop; lia).
  rewrite <- app_assoc, pk_write_front by (rewrite !ip_hdr_octets_length; done).
  cbn [mbind option_bind]. fold (echo_header iphdr_in src dest).
  pose proof (echo_header_ok iphdr_in src dest Hb Hs Hd) as Hh.
  assert (iph_dest (echo_header iphdr_in src dest) = dest) as Hdest by done.
  generalize dependent (echo_header iphdr_in src dest). intros h Hh Hdest.
  match goal with |- context [ip4_output_if ?q' _ _ _ _ _ _ _] => exists q' end. split.
  - rewrite output_included; cbn [pk_chunks hd].
    + rewrite ip_hdr_of_octets, Hdest by done. by destruct (ip4_transmit _ _ _ _) as [[? ?]|].
    + unfold pk_len, IP_HLEN. cbn [pk_chunks hd]. rewrite length_app, ip_hdr_octets_length. lia.
  - unfold pk_octets. cbn [pk_chunks concat]. by rewrite <- !app_assoc.
Qed.

Lemma transmit_log `{netif_driver} q dest n s :
  dest <> netif_ip4_addr n ->
  (nif_mtu n = 0 \/ Z.of_nat (length (pk_octets q)) <= Z.min 65535 (nif_mtu n)) ->
  ip4_transmit q dest n s = Some (log [Netif_output n q dest] s, driver_output n q dest).
Proof.
  intros Hd Hm. apply ip4_transmit_driver; [done|]. destruct Hm as [|Hm]; [by left|right].
  unfold pk_tot_len. rewrite u16_id by (unfold is_u16; lia). lia.
Qed.

(** C34: An echo request is answered with an echo reply: type 0, the same code,
    identifier, sequence number and data, sent from the address that was asked to
    the one that asked, with time to live 64, the options of the request and a
    header checksum that verifies; the ICMP checksum of the reply verifies if that
    of the request does.  This holds whether the request is changed in place or
    copied, the request is given up, and nothing else is sent. *)
Theorem icmp_echo_reply `{driver : netif_driver}
    p code c rest iphdr_in inp n s :
  let me := ip_2_ip4 (current_iphdr_dest (ip_data s)) in
  let peer := ip_2_ip4 (current_iphdr_src (ip_data s)) in
  pk_octets p = [ICMP_ECHO; code] ++ st16 c ++ rest ->
  is_u8 code -> is_u16 c -> bytes_ok rest -> bytes_ok iphdr_in -> is_u32 me -> is_u32 peer ->
  echo_ready p iphdr_in s ->
  current_ip4_header (ip_data s) = Some iphdr_in -> current_netif (ip_data s) = Some n ->
  IPH_HL_BYTES (ip_hdr_of iphdr_in) = Z.of_nat (length iphdr_in) ->
  ip4_addr_ismulticast me = false -> ip4_addr_isbroadcast_u32 me n = false ->
  peer <> netif_ip4_addr inp ->
  (nif_mtu inp = 0 \/ Z.of_nat (length (iphdr_in ++ pk_octets p)) <= nif_mtu inp) ->
  exists s' q h pre, icmp_input p inp s = Some s' /\
    net_log s' = net_log s ++ pre ++ [Netif_output inp q peer; Pbuf_free q] /\
    (pre = [] \/ pre = [Pbuf_free p]) /\
    let msg := [ICMP_ER; code] ++ st16 (echo_reply_chksum c) ++ rest in
    pk_octets q = ip_hdr_octets h ++ drop 20 iphdr_in ++ msg /\
    iph_src h = me /\ iph_dest h = peer /\ _ttl h = ICMP_TTL /\
    _len h = _len (ip_hdr_of iphdr_in) /\ _proto h = _proto (ip_hdr_of iphdr_in) /\
    inet_chksum false (ip_hdr_octets h ++ drop 20 iphdr_in) = 0 /\
    (inet_chksum false (pk_octets p) = 0 -> inet_chksum false msg = 0).
Proof.
  intros me peer Ho Hcode Hc Hrest Hin Hme Hpeer Hready Hi Hn Hhl Hmc Hbc Hne Hmtu.
  destruct (echo_make_room_spec p iphdr_in s Hready) as (s1 & q & Eroom & Hs1 & Hq & Hct & Hf & Hn1 & H41).
  destruct Hready as (Hnil & H4 & H8 & Hmax & H20 & _ & _).
  unfold icmp_input. rewrite Hi, Hn. cbn [mbind option_bind]. rewrite Hhl.
  rewrite (proj2 (Z.ltb_ge _ IP_HLEN)), (proj2 (Z.ltb_ge _ 4)) by done.
  assert (ld8 (hd [] (pk_chunks p)) 0 = ICMP_ECHO) as ->.
  { destruct (split_message _ _ _ _ _ Hc Ho H4) as (d & r & -> & _). done. }
  fold me peer. rewrite Z.eqb_refl, Hmc, Hbc. unfold pk_tot_len at 1.
  rewrite u16_id by (unfold is_u16; unfold IP_HLEN in *; lia).
  rewrite (proj2 (Z.ltb_ge _ ICMP_HLEN)) by done. rewrite Eroom. cbn [mbind option_bind].
  destruct (echo_reply_spec q iphdr_in code c rest me peer inp s1) as (q' & -> & Hq'); try done;
    [by rewrite Hq|unfold IP_HLEN in *; lia|].
  rewrite transmit_log; [|done|].
  2:{ destruct Hmtu as [|Hmtu]; [by left|right]. rewrite Ho in Hmtu, Hmax. rewrite Hq'.
      revert Hmtu Hmax. rewrite !length_app, length_drop, ip_hdr_octets_length.
      unfold st16. cbn [length]. unfold IP_HLEN in *. lia. }
  cbn [mbind option_bind].
  exists (free_packet q' (log [Netif_output inp q' peer] s1)), q', (echo_header iphdr_in me peer).
  assert (exists pre, net_log s1 = net_log s ++ pre /\ (pre = [] \/ pre = [Pbuf_free p])) as (pre & Hlog & Hpre).
  { destruct Hs1 as [->|(m & ->)]; [exists []|by eexists; split; [|right]].
    rewrite app_nil_r. by split; [|left]. }
  exists pre. split; [done|]. split; [|split; [done|]].
  - cbn [net_log free_packet log setter]. by rewrite Hlog, <- !app_assoc.
  - split; [exact Hq'|]. split_and!; try done.
    + apply echo_header_verifies; try done. unfold IP_HLEN in *. lia.
    + rewrite Ho. apply echo_message_verifies; try done.
      rewrite Ho in Hmax. revert Hmax. rewrite !length_app. unfold IP_HLEN in *. lia.
Qed.

(** A ping from 10.0.0.2, in a buffer without room for the link: it is copied. *)
Definition ping_header : list Z :=
  ip_hdr_octets (ip4_header (addr4 10 0 0 2) (addr4 10 0 0 1) 63 0 IP_PROTO_ICMP 30 5).
Definition ping : pkt :=
  Pkt ping_header [[ICMP_ECHO; 0] ++ st16 39574 ++ [0; 1]; [0; 2; 97; 98]] true.
Definition ping_net : net :=
  example_net <| ip_data := IpGlobals (Some example_netif) (Some example_netif) (Some ping_header)
                   None 20 (IPADDR4_INIT (addr4 10 0 0 2)) (IPADDR4_INIT (addr4 10 0 0 1)) |>
              <| net_malloc := [Some (fun _ => 7)] |>.

Lemma icmp_echo_reply_witness :
  exists s' q h pre, @icmp_input example_driver ping example_netif ping_net = Some s' /\
    net_log s' = net_log ping_net ++ pre ++ [Netif_output example_netif q (addr4 10 0 0 2); Pbuf_free q] /\
    (pre = [] \/ pre = [Pbuf_free ping]) /\
    let msg := [ICMP_ER; 0] ++ st16 (echo_reply_chksum 39574) ++ [0; 1; 0; 2; 97; 98] in
    pk_octets q = ip_hdr_octets h ++ drop 20 ping_header ++ msg /\
    iph_src h = addr4 10 0 0 1 /\ iph_dest h = addr4 10 0 0 2 /\ _ttl h = ICMP_TTL /\
    _len h = _len (ip_hdr_of ping_header) /\ _proto h = _proto (ip_hdr_of ping_header) /\
    inet_chksum false (ip_hdr_octets h ++ drop 20 ping_header) = 0 /\
    (inet_chksum false (pk_octets ping) = 0 -> inet_chksum false msg = 0).
Proof.
  apply (@icmp_echo_reply example_driver ping 0 39574 [0; 1; 0; 2; 97; 98] ping_header
    example_netif example_netif ping_net); try done; try decide_now.
  - split_and!; try done; try (vm_compute; done); [by exists []|].
    right. by eexists _, _.
Defined.

(** ** Error messages

    What an ICMP error message quotes: 28 octets from the start of the packet on,
    wherever the packet ends. *)
Lemma icmp_send_response_sends `{driver : netif_driver} `{mem : memory} p type code junk m n rest s :
  net_malloc s = Some junk :: m -> netif_list s = n :: rest ->
  let payload := hd [] (pk_chunks p) ++ octets_behind p in
  let src := iph_src (ip_hdr_of payload) in
  (28 <= length payload)%nat -> src <> netif_ip4_addr n -> (nif_mtu n = 0 \/ 56 <= nif_mtu n) ->
  exists q pre s', icmp_send_response p type code s = Some s' /\
    net_log s' = net_log s ++ [Netif_output n q src; Pbuf_free q] /\
    pk_octets q = pre ++ take 28 payload /\ length pre = 28%nat.
Proof.
  intros Hm Hn payload src Hlen Hsrc Hmtu. unfold icmp_send_response. fold payload. fold src.
  destruct (pbuf_alloc_ram _ _ s) as [[q|] s1] eqn:Eq.
  2:{ exfalso. unfold pbuf_alloc_ram in Eq. rewrite Hm in Eq. by destruct (_ <? _) eqn:E in Eq. }
  apply pbuf_alloc_ram_spec in Eq as (room & c & -> & Hroom & Hc & _ & _ & a & Ea & ->); [|by unfold PBUF_IP..].
  unfold PBUF_IP, ICMP_HLEN, IP_HLEN, ICMP_DEST_UNREACH_DATASIZE in *. change (Z.to_nat (20 + 8)) with 28%nat.
  change (Z.to_nat (8 + 20 + 8)) with 36%nat in Hc.
  set (quote := take 28 payload). assert (length quote = 28%nat) as Hq by (unfold quote; rewrite length_take; lia).
  unfold pk_len at 1. cbn [pk_chunks hd]. rewrite (proj2 (Z.leb_le _ _)), Hq by lia. cbn [Nat.eqb].
  assert (forall h c, length c = 36%nat -> length (icmp_hdr_octets h) = 8%nat ->
    pk_write 0 (icmp_hdr_octets h ++ quote) (Pkt room [c] true) = Some (Pkt room [icmp_hdr_octets h ++ quote] true)) as Hw1.
  { intros h d Hd Hh. unfold pk_write. cbn [pk_chunks pk_room pk_contig]. rewrite length_app, Hh, Hq.
    rewrite (proj2 (Nat.leb_le _ _)) by lia. rewrite take_0, (drop_ge d) by lia. by rewrite app_nil_r. }
  assert (forall h h', length (icmp_hdr_octets h) = 8%nat -> length (icmp_hdr_octets h') = 8%nat ->
    pk_write 0 (icmp_hdr_octets h') (Pkt room [icmp_hdr_octets h ++ quote] true) =
    Some (Pkt room [icmp_hdr_octets h' ++ quote] true)) as Hw2.
  { intros h h' Hh Hh'. unfold pk_write. cbn [pk_chunks pk_room pk_contig]. rewrite length_app, Hh, Hh', Hq.
    rewrite (proj2 (Nat.leb_le _ _)) by lia. rewrite take_0. cbn [app Nat.add]. by rewrite drop_app_length' by lia. }
  rewrite Hw1 by done. cbn [mbind option_bind]. unfold ip4_route. cbn [netif_list setter]. rewrite Hn. cbn [head].
  rewrite Hw2 by done. cbn [mbind option_bind]. set (hdr := icmp_hdr_octets _).
  unfold ip4_output_if. change (ip4_addr_isany None) with true. cbn iota.
  rewrite ip4_output_if_src_spec by (split; [done|split; [cbn [pk_room]; unfold IP_HLEN; lia|done]]).
  set (h := ip4_header _ _ _ _ _ _ _).
  assert (pk_octets (Pkt room [hdr ++ quote] true) = hdr ++ quote) as Eo by (unfold pk_octets; cbn; by rewrite app_nil_r).
  assert (length (hdr ++ quote) = 36%nat) as Hl by (by rewrite length_app, Hq).
  rewrite ip4_transmit_driver.
  2:{ done. }
  2:{ rewrite pk_tot_len_header, Eo, Hl by done. destruct Hmtu as [|Hmtu]; [by left|right]. change (u16 _) with 56. done. }
  cbn [mbind option_bind]. eexists _, (ip_hdr_octets h ++ hdr), _. split; [reflexivity|]. split.
  { unfold free_packet, log. cbn. by rewrite <- app_assoc. }
  split; [|by rewrite length_app, ip_hdr_octets_length].
  etrans; [by apply with_header_octets|]. rewrite <- app_assoc. apply (f_equal (app _)). exact Eo.
Qed.

(** C38: An error message about a packet that is only an IP header quotes memory
    behind the packet: a header of 20 octets that names a protocol nobody here
    speaks is answered with a message to its sender that ends with the header and
    the eight octets that lie behind it, whatever they are. *)
Theorem icmp_quotes_memory_behind `{driver : netif_driver} `{mem : memory} `{layers : upper_layers U}
    h room ct junk m n rest inp (st : stack U) :
  let p := Pkt room [ip_hdr_octets h] ct in
  ip_hdr_ok h -> IPH_V h = 4 -> IPH_HL_BYTES h = IP_HLEN -> lwip_htons (_len h) = 20 -> is_fragment h = false ->
  _proto h <> IP_PROTO_UDP -> _proto h <> IP_PROTO_TCP -> _proto h <> IP_PROTO_ICMP -> no_raw inp ->
  acceptable inp (iph_src h) (iph_dest h) -> ip4_addr_ismulticast (iph_dest h) = false ->
  ip4_addr_isbroadcast_u32 (iph_dest h) inp = false ->
  net_malloc (st_net st) = Some junk :: m -> netif_list (st_net st) = n :: rest ->
  iph_src h <> netif_ip4_addr n -> (nif_mtu n = 0 \/ 56 <= nif_mtu n) -> (8 <= length (octets_behind p))%nat ->
  exists q pre st', ip4_input p inp st = Some (st', ERR_OK) /\
    net_log (st_net st') = net_log (st_net st) ++ [Netif_output n q (iph_src h); Pbuf_free q; Pbuf_free p] /\
    pk_octets q = pre ++ ip_hdr_octets h ++ take 8 (octets_behind p) /\ length pre = 28%nat.
Proof.
  intros p Hh Hv Hhl Hlen Hfr Hu Ht Hi Hraw Ha Hmc Hbc Hm Hn Hsrc Hmtu Hmem.
  pose proof (ip_hdr_octets_length h) as H20.
  assert (p = Pkt room ((ip_hdr_octets h ++ []) :: []) ct) as Ep by (by rewrite app_nil_r). rewrite Ep.
  rewrite (ip4_input_accepts h) by (try done; rewrite Hlen; unfold pk_tot_len, pk_octets; cbn [pk_chunks concat];
    by rewrite !app_nil_r, H20).
  rewrite <- Ep. assert (hd [] (pk_chunks p) = ip_hdr_octets h) as Ehd by done.
  assert (ip_hdr_of (ip_hdr_octets h) = h) as Ehh by (rewrite <- (app_nil_r (ip_hdr_octets h)); by apply ip_hdr_of_octets).
  unfold ip4_deliver. rewrite !Ehd, !Ehh, Hhl.
  rewrite Hraw. cbn [mbind option_bind with_net st_net st_reass st_reass6 st_upper].
  assert (pk_remove_header IP_HLEN p = Some (Pkt (room ++ ip_hdr_octets h) [[]] ct)) as Er.
  { unfold pk_remove_header, p. cbn [pk_chunks pk_room pk_contig]. rewrite H20.
    change (Z.to_nat IP_HLEN) with 20%nat. by rewrite take_ge, drop_ge by lia. }
  rewrite Er. cbn [mbind option_bind]. unfold ip4_dispatch.
  rewrite !(proj2 (Z.eqb_neq _ _)) by done. cbn [st_net ip_data setter current_iphdr_dest ip_2_ip4 IPADDR4_INIT].
  change (ip_2_ip4 (IPADDR4_INIT (iph_dest h))) with (iph_dest h). rewrite Hbc, Hmc. cbn [negb andb].
  change (s16 IP_HLEN) with IP_HLEN. rewrite (pk_header_round_trip IP_HLEN p _ ltac:(done) Er). cbn [default]. change (id p) with p.
  unfold icmp_dest_unreach. set (s1 := _ <| ip_data := _ |>).
  destruct (icmp_send_response_sends p ICMP_DUR ICMP_DUR_PROTO junk m n rest s1) as (q & pre & s2 & E & El & Eo & Hpre);
    try done; rewrite ?Ehd, ?ip_hdr_of_octets by done; try done; [rewrite length_app; lia|].
  rewrite E. cbn [mbind option_bind]. rewrite Ehd in *. rewrite ip_hdr_of_octets in El by done.
  eexists q, pre, _. split; [reflexivity|]. split.
  { unfold free_packet, log. cbn. rewrite El. unfold s1. cbn. by rewrite <- app_assoc. }
  split; [|done]. rewrite Eo, take_app_ge by lia. by rewrite H20.
Qed.

(** Somebody else's octets behind a header of the protocol 99. *)
Definition secret_memory : memory := fun _ => [83; 69; 67; 82; 69; 84; 33; 33].

Lemma icmp_quotes_memory_behind_witness :
  let h := ip4_header (addr4 10 0 0 2) (addr4 10 0 0 9) 64 0 99 20 5 in
  let p := Pkt [] [ip_hdr_octets h] false in
  let st := Stack (example_net <| net_malloc := [Some (fun _ => 7)] |>) (Reass [] 0 [] []) (Reass6 [] 0 [] []) [] in
  exists q pre st', @ip4_input example_driver secret_memory _ recording p example_netif st = Some (st', ERR_OK) /\
    net_log (st_net st') = [Netif_output example_netif q (addr4 10 0 0 2); Pbuf_free q; Pbuf_free p] /\
    pk_octets q = pre ++ ip_hdr_octets h ++ [83; 69; 67; 82; 69; 84; 33; 33] /\ length pre = 28%nat.
Proof.
  apply (@icmp_quotes_memory_behind example_driver secret_memory _ recording
    (ip4_header (addr4 10 0 0 2) (addr4 10 0 0 9) 64 0 99 20 5) [] false (fun _ => 7) [] example_netif []); try done.
  right. by vm_compute.
Defined.
