(* ===== verification/Ip6Spec.v ===== *)
(** * What IPv6 promises

    The source address chosen is one that no other address of the interface beats;
    a packet that leaves one host is delivered by the input path of another with its
    payload, addresses and protocol. *)

From S2P Require Import Prelude Err Def IpAddr NetifDefs Ip6Addr Ip6AddrSpec Chksum Pbuf Packet IpHdr Ip6Hdr Ip4Frag Ip6Frag Ip4FragOut Nd6Defs Net Nd6Cache Ip6 Icmp Netif Icmp6Hdr Icmp6 Ip4In Ip6In NetExamples Ip6Layer Ip4Spec.

(** ** The source address *)

(** A scope as wide as the destination's is better the smaller it is, and better than
    one that is not; among those, the wider the better. *)
Definition scope_rank (dscope scope : Z) : Z := if dscope <=? scope then 100 - scope else scope - 100.
Definition rank (dscope : Z) (c : candidate) : Z :=
  scope_rank dscope (c_scope c) * 4 + b2z (c_pref c) * 2 + b2z (c_bits c).

Lemma better_rank d a b : 0 <= c_scope a <= 15 -> 0 <= c_scope b <= 15 ->
  better d a b = (rank d b <? rank d a).
Proof.
  intros Ha Hb. unfold better, rank, scope_rank, b2z.
  destruct (Z.leb_spec d (c_scope a)), (Z.leb_spec d (c_scope b)), (c_pref a), (c_pref b), (c_bits a), (c_bits b); lia.
Qed.

Lemma cand_scope_range a : 0 <= cand_scope a <= 15.
Proof. unfold cand_scope. repeat destruct (_ : bool); by vm_compute. Qed.

(** What the loop chooses from: the addresses that are valid. *)
Definition valid_cands (dest : ip6_addr) (l : list (ip_addr * Z)) : list candidate :=
  map (fun '(a, st) => candidate_of dest a st) (filter (fun '(a, st) => ip6_addr_isvalid st = true) l).

Definition exact_match (dest : ip6_addr) (c : candidate) : bool :=
  c_bits c && ip6_addr_nethostcmp (ip_2_ip6 (c_addr c)) dest.

(** [c] is the best of [cs]. *)
Definition best_of (dest : ip6_addr) (cs : list candidate) (c : candidate) : Prop :=
  c ∈ cs /\ Forall (fun c' => better (dest_scope dest) c' c = false) cs.

Lemma best_of_snoc dest cs b c : Forall (fun x => 0 <= c_scope x <= 15) (cs ++ [c]) -> best_of dest cs b ->
  best_of dest (cs ++ [c]) (if better (dest_scope dest) c b then c else b).
Proof.
  intros Hr [Hb Hm]. rewrite Forall_app, Forall_singleton in Hr. destruct Hr as [Hr Hc].
  pose proof (proj1 (Forall_forall _ _) Hr b Hb) as Hbr. cbn in Hbr.
  destruct (better (dest_scope dest) c b) eqn:E.
  - split; [apply elem_of_app; right; by apply list_elem_of_singleton|]. apply Forall_app. split.
    + apply Forall_forall. intros x Hx.
      pose proof (proj1 (Forall_forall _ _) Hr x Hx) as Hxr. pose proof (proj1 (Forall_forall _ _) Hm x Hx) as Hxm.
      cbn in Hxr, Hxm. rewrite better_rank in * by done. lia.
    + apply Forall_singleton. rewrite better_rank by done. lia.
  - split; [apply elem_of_app; by left|]. apply Forall_app. split; [done|]. by apply Forall_singleton.
Qed.

Lemma select_loop_spec dest l : forall seen best,
  Forall (fun c => 0 <= c_scope c <= 15) seen -> Forall (fun c => exact_match dest c = false) seen ->
  match best with Some b => best_of dest seen b | None => seen = [] end ->
  match select_loop dest l best with
  | None => seen ++ valid_cands dest l = []
  | Some a => exists c, c_addr c = a /\ c ∈ seen ++ valid_cands dest l /\
      (exact_match dest c = true \/
       Forall (fun c => exact_match dest c = false) (seen ++ valid_cands dest l) /\ best_of dest (seen ++ valid_cands dest l) c)
  end.
Proof.
  induction l as [|[a st] l IH]; intros seen best Hs He Hb.
  - cbn. rewrite app_nil_r. destruct best as [b|]; [|done]. exists b. split; [done|]. split; [apply Hb|]. by right.
  - cbn [select_loop]. unfold valid_cands. destruct (ip6_addr_isvalid st) eqn:Ev; cbn [negb].
    2:{ rewrite filter_cons_False by (by rewrite Ev). by apply IH. }
    rewrite filter_cons_True by done. cbn [map]. fold (valid_cands dest l). set (c := candidate_of dest a st).
    change (c_bits c && ip6_addr_nethostcmp (ip_2_ip6 a) dest) with (exact_match dest c).
    destruct (exact_match dest c) eqn:Ee.
    { exists c. split; [done|]. split; [|by left]. apply elem_of_app. right. by apply list_elem_of_here. }
    change (c :: valid_cands dest l) with ([c] ++ valid_cands dest l). rewrite app_assoc.
    assert (Hs' : Forall (fun c => 0 <= c_scope c <= 15) (seen ++ [c])).
    { apply Forall_app. split; [done|]. apply Forall_singleton. apply cand_scope_range. }
    apply IH; [done|apply Forall_app; split; [done|by apply Forall_singleton]|].
    destruct best as [b|].
    + pose proof (best_of_snoc dest seen b c Hs' Hb) as H. by destruct (better _ _ _).
    + subst seen. split; [by apply list_elem_of_singleton|]. apply Forall_singleton. rewrite better_rank by apply cand_scope_range. lia.
Qed.

(** ** RFC 6724 *)

Definition addr_octet (a : ip6_addr) (k : nat) : Z := ip6_word a (k / 4) / 256 ^ Z.of_nat (k mod 4) mod 256.

Inductive prefix := Global | LinkLocal | SiteLocal | UniqueLocal | Multicast | OtherPrefix.

(** The kind of an address, by its first octets. *)
Definition prefix_of (a : ip6_addr) : prefix :=
  let b0 := addr_octet a 0 in
  let b1 := addr_octet a 1 in
  if (32 <=? b0) && (b0 <? 64) then Global                             (* 2000::/3 *)
  else if (b0 =? 254) && (128 <=? b1) && (b1 <? 192) then LinkLocal    (* fe80::/10 *)
  else if (b0 =? 254) && (192 <=? b1) then SiteLocal                   (* fec0::/10 *)
  else if (b0 =? 252) || (b0 =? 253) then UniqueLocal                  (* fc00::/7 *)
  else if b0 =? 255 then Multicast                                     (* ff00::/8 *)
  else OtherPrefix.

Definition same_words (k : nat) (a b : ip6_addr) : Prop := forall i, (i < k)%nat -> ip6_word a i = ip6_word b i.

Definition source_scope (a : ip6_addr) : Z :=
  match prefix_of a with
  | Global => 14 | LinkLocal => 2 | SiteLocal => 5 | UniqueLocal => 8 | Multicast | OtherPrefix => 15
  end.

Definition destination_scope (a : ip6_addr) : Z :=
  match prefix_of a with
  | Global => 14 | LinkLocal => 2 | SiteLocal => 5 | UniqueLocal => 8
  | Multicast => addr_octet a 1 mod 16
  | OtherPrefix => if ip6_addr_isloopback a then 2 else 14
  end.

(** An address of the interface with its state. *)
Definition usable (c : ip_addr * Z) : Prop := Z.testbit c.2 4 = true.
Definition is_preferred (c : ip_addr * Z) : Prop := c.2 = 48.
Definition is_dest (dest : ip6_addr) (c : ip_addr * Z) : Prop := same_words 4 (ip_2_ip6 c.1) dest.
Definition shares_net (dest : ip6_addr) (c : ip_addr * Z) : Prop := same_words 2 (ip_2_ip6 c.1) dest.
Definition scope_of (c : ip_addr * Z) : Z := source_scope (ip_2_ip6 c.1).

(** [a] is preferred to [b] as the source for [dest]. *)
Inductive preferred_to (dest : ip6_addr) (a b : ip_addr * Z) : Prop :=
  | rule_1 : is_dest dest a -> ~ is_dest dest b -> preferred_to dest a b
  | rule_2_smaller : ~ is_dest dest a -> ~ is_dest dest b ->
      scope_of a < scope_of b -> destination_scope dest <= scope_of a -> preferred_to dest a b
  | rule_2_larger : ~ is_dest dest a -> ~ is_dest dest b ->
      scope_of b < scope_of a -> scope_of b < destination_scope dest -> preferred_to dest a b
  | rule_3 : ~ is_dest dest a -> ~ is_dest dest b -> scope_of a = scope_of b ->
      is_preferred a -> ~ is_preferred b -> preferred_to dest a b
  | rule_8 : ~ is_dest dest a -> ~ is_dest dest b -> scope_of a = scope_of b ->
      (is_preferred a <-> is_preferred b) -> shares_net dest a -> ~ shares_net dest b -> preferred_to dest a b.

(** The masks of the code look at the first two octets. *)
Lemma land_low16 w m : 0 <= m < 65536 -> Z.land w m = Z.land (w mod 65536) m.
Proof.
  intros Hm. rewrite <- land_ffff, <- Z.land_assoc. f_equal. rewrite Z.land_comm, land_ffff. by rewrite Z.mod_small.
Qed.

Lemma masks_check : u16_forallb (fun w =>
  let b0 := w mod 256 in let b1 := (w / 256) mod 256 in
  Bool.eqb (Z.land w (lwip_htonl 3758096384) =? lwip_htonl 536870912) ((32 <=? b0) && (b0 <? 64)) &&
  Bool.eqb (Z.land w (lwip_htonl 4290772992) =? lwip_htonl 4269801472) ((b0 =? 254) && (128 <=? b1) && (b1 <? 192)) &&
  Bool.eqb (Z.land w (lwip_htonl 4290772992) =? lwip_htonl 4273995776) ((b0 =? 254) && (192 <=? b1)) &&
  Bool.eqb (Z.land w (lwip_htonl 4261412864) =? lwip_htonl 4227858432) ((b0 =? 252) || (b0 =? 253)) &&
  Bool.eqb (Z.land w (lwip_htonl 4278190080) =? lwip_htonl 4278190080) (b0 =? 255)) = true.
Proof. by vm_compute. Qed.

Lemma prefix_masks a : let b0 := addr_octet a 0 in let b1 := addr_octet a 1 in
  ip6_addr_isglobal a = (32 <=? b0) && (b0 <? 64) /\
  ip6_addr_islinklocal a = (b0 =? 254) && (128 <=? b1) && (b1 <? 192) /\
  ip6_addr_issitelocal a = (b0 =? 254) && (192 <=? b1) /\
  ip6_addr_isuniquelocal a = (b0 =? 252) || (b0 =? 253) /\
  ip6_addr_ismulticast a = (b0 =? 255).
Proof.
  cbv zeta. unfold addr_octet, ip6_addr_isglobal, ip6_addr_islinklocal, ip6_addr_issitelocal, ip6_addr_isuniquelocal, ip6_addr_ismulticast.
  change (ip6_word a (0 / 4)) with (ip6_word a 0). change (ip6_word a (1 / 4)) with (ip6_word a 0).
  change (256 ^ Z.of_nat (0 mod 4)) with 1. change (256 ^ Z.of_nat (1 mod 4)) with 256.
  set (w := ip6_word a 0). rewrite Z.div_1_r.
  rewrite !(land_low16 w (lwip_htonl _)) by (vm_compute; done).
  assert (E0 : w mod 256 = (w mod 65536) mod 256) by (clearbody w; Z.to_euclidean_division_equations; lia).
  assert (E1 : w / 256 mod 256 = (w mod 65536) / 256 mod 256) by (clearbody w; Z.to_euclidean_division_equations; lia).
  rewrite E0, E1. pose proof (Z.mod_pos_bound w 65536 ltac:(lia)).
  pose proof (u16_forall _ (w mod 65536) masks_check ltac:(unfold is_u16; lia)) as H'. cbv beta zeta in H'.
  rewrite !andb_true_iff, !Bool.eqb_true_iff in H'. tauto.
Qed.

Lemma multicast_scope_octet a : ip6_addr_multicast_scope a = addr_octet a 1 mod 16.
Proof.
  unfold ip6_addr_multicast_scope, addr_octet. change (ip6_word a (1 / 4)) with (ip6_word a 0).
  change (256 ^ Z.of_nat (1 mod 4)) with 256. set (w := ip6_word a 0). clearbody w.
  rewrite <- land_ff. change 256 with (2 ^ 8). rewrite <- Z.shiftr_div_pow2 by lia.
  change 16 with (2 ^ 4) at 2. rewrite <- (Z.land_ones _ 4) by lia. apply Z.bits_inj'. intros k Hk.
  destruct (Z.leb_spec 4 k).
  { change 15 with (Z.ones 4). by rewrite !Z.land_spec, !Z.ones_spec_high, !andb_false_r by lia. }
  assert (Hcase : k = 0 \/ k = 1 \/ k = 2 \/ k = 3) by lia. unfold lwip_htonl, u32. change 4294967296 with (2 ^ 32).
  destruct Hcase as [->|[->|[->| ->]]];
    rewrite !Z.land_spec, !Z.shiftr_spec, !Z.lor_spec, !Z.mod_pow2_bits_low, !Z.shiftl_spec, !Z.shiftr_spec, !Z.land_spec by lia;
    rewrite (Z.testbit_neg_r w (_ - 24)) by lia; cbn; by rewrite ?andb_false_r, ?andb_true_r, ?orb_false_r.
Qed.

(** The scopes of the code are those of the prefixes. *)
Lemma cand_scope_spec a : cand_scope a = source_scope a.
Proof.
  unfold cand_scope, source_scope, prefix_of. destruct (prefix_masks a) as (-> & -> & -> & -> & _). cbv zeta.
  set (b0 := addr_octet a 0). set (b1 := addr_octet a 1). repeat case_match; try done; lia.
Qed.

Lemma dest_scope_spec a : dest_scope a = destination_scope a.
Proof.
  unfold dest_scope, destination_scope, prefix_of. rewrite multicast_scope_octet.
  assert (Hl : ip6_addr_isloopback a = true -> addr_octet a 0 = 0).
  { unfold ip6_addr_isloopback, addr_octet. rewrite !andb_true_iff, !Z.eqb_eq. intros [[[H _] _] _].
    change (ip6_word a (0 / 4)) with (ip6_word a 0). by rewrite H. }
  destruct (prefix_masks a) as (-> & -> & -> & -> & ->). cbv zeta.
  set (b0 := addr_octet a 0) in *. set (b1 := addr_octet a 1).
  destruct (ip6_addr_isloopback a); [rewrite Hl by done|]; repeat case_match; try done; lia.
Qed.

(** The rules in terms of the comparison that the code makes. *)
Lemma usable_valid (c : ip_addr * Z) : usable c <-> ip6_addr_isvalid c.2 = true.
Proof.
  unfold usable, ip6_addr_isvalid, flagset, IP6_ADDR_VALID. rewrite negb_true_iff, Z.eqb_neq.
  split.
  - intros H E. apply (f_equal (fun z => Z.testbit z 4)) in E. rewrite Z.land_spec, H in E. done.
  - intros H. destruct (Z.testbit c.2 4) eqn:Eb; [done|]. destruct H. apply Z.bits_inj'. intros k Hk.
    rewrite Z.land_spec, Z.bits_0. change 16 with (2 ^ 4). destruct (decide (k = 4)) as [->|].
    + by rewrite Eb.
    + rewrite Z.pow2_bits_false by lia. by rewrite andb_false_r.
Qed.

Lemma elem_of_valid_cands dest l c :
  c ∈ valid_cands dest l <-> exists a st, (a, st) ∈ l /\ usable (a, st) /\ c = candidate_of dest a st.
Proof.
  unfold valid_cands. rewrite list_elem_of_fmap. split.
  - intros ([a st] & -> & [Hv Hin]%list_elem_of_filter). exists a, st. split_and!; try done. by apply usable_valid.
  - intros (a & st & Hin & Hu%usable_valid & ->). exists (a, st). split; [done|]. by apply list_elem_of_filter.
Qed.

Lemma same_words_2 a b : same_words 2 a b <-> ip6_addr_netcmp_zoneless a b = true.
Proof.
  unfold same_words, ip6_addr_netcmp_zoneless. rewrite andb_true_iff, !Z.eqb_eq. split.
  - intros H. split; apply H; lia.
  - intros [H0 H1] i Hi. destruct i as [|[|i]]; [done|done|lia].
Qed.

Lemma is_dest_exact dest a st : is_dest dest (a, st) <-> exact_match dest (candidate_of dest a st) = true.
Proof.
  unfold exact_match, is_dest, same_words. cbn. unfold ip6_addr_netcmp_zoneless, ip6_addr_nethostcmp.
  rewrite !andb_true_iff, !Z.eqb_eq. split.
  - intros H. split_and!; apply H; lia.
  - intros [[H0 H1] [H2 H3]] i Hi. destruct i as [|[|[|[|i]]]]; done || lia.
Qed.

Lemma preferred_to_better dest a sa b sb :
  let x := candidate_of dest a sa in let y := candidate_of dest b sb in
  preferred_to dest (a, sa) (b, sb) <->
  negb (exact_match dest y) && (exact_match dest x || better (dest_scope dest) x y) = true.
Proof.
  cbv zeta. set (x := candidate_of dest a sa). set (y := candidate_of dest b sb).
  assert (Dx := is_dest_exact dest a sa). assert (Dy := is_dest_exact dest b sb). fold x in Dx. fold y in Dy.
  assert (Nx : shares_net dest (a, sa) <-> c_bits x = true) by apply same_words_2.
  assert (Ny : shares_net dest (b, sb) <-> c_bits y = true) by apply same_words_2.
  assert (Px : is_preferred (a, sa) <-> c_pref x = true) by (symmetry; apply Z.eqb_eq).
  assert (Py : is_preferred (b, sb) <-> c_pref y = true) by (symmetry; apply Z.eqb_eq).
  assert (Sx : scope_of (a, sa) = c_scope x) by (symmetry; apply cand_scope_spec).
  assert (Sy : scope_of (b, sb) = c_scope y) by (symmetry; apply cand_scope_spec).
  set (d := dest_scope dest).
  assert (Ed : destination_scope dest = d) by (symmetry; apply dest_scope_spec).
  unfold better. rewrite andb_true_iff, negb_true_iff, !orb_true_iff, !andb_true_iff, !orb_true_iff, !andb_true_iff.
  rewrite !Z.ltb_lt, !Z.leb_le, !Z.eqb_eq. split.
  - intros [H1 H2|H1 H2 H3 H4|H1 H2 H3 H4|H1 H2 H3 H4 H5|H1 H2 H3 H4 H5 H6];
      rewrite ?Dx, ?Dy, ?Nx, ?Ny, ?Px, ?Py, ?Sx, ?Sy, ?Ed, ?not_true_iff_false in *; (split; [done|]).
    + by left.
    + right. left. left. lia.
    + right. left. right. lia.
    + right. right. split; [done|]. left. by rewrite H4, H5.
    + right. right. split; [done|]. right. rewrite H5, H6. split; [|done].
      by destruct (c_pref x), (c_pref y); naive_solver.
  - intros [H1 H]. assert (Hy : ~ is_dest dest (b, sb)) by (by rewrite Dy, not_true_iff_false).
    destruct (exact_match dest x) eqn:Ex; [by apply rule_1; [apply Dx|]|]. destruct H as [|H]; [done|].
    assert (Hx : ~ is_dest dest (a, sa)) by (by rewrite Dx).
    destruct H as [[H|H]|[H3 [H|H]]].
    + apply rule_2_smaller; rewrite ?Sx, ?Sy, ?Ed; done || lia.
    + apply rule_2_larger; rewrite ?Sx, ?Sy, ?Ed; done || lia.
    + apply rule_3; rewrite ?Sx, ?Sy, ?Px, ?Py; try done; destruct (c_pref x), (c_pref y); done.
    + apply rule_8; rewrite ?Sx, ?Sy, ?Px, ?Py, ?Nx, ?Ny; try done; destruct H, (c_pref x), (c_pref y), (c_bits x), (c_bits y); done.
Qed.

(** ** Sending *)

(** The header in front of the payload. *)
Definition with_header6 (h : ip6_hdr) (p : pkt) : pkt :=
  Pkt (take (length (pk_room p) - 40) (pk_room p))
      ((ip6_hdr_octets h ++ hd [] (pk_chunks p)) :: tl (pk_chunks p)) true.

Lemma with_header6_octets h p :
  pk_chunks p <> [] -> pk_octets (with_header6 h p) = ip6_hdr_octets h ++ pk_octets p.
Proof.
  unfold pk_octets, with_header6. cbn [pk_chunks concat]. intros.
  destruct (pk_chunks p); [done|]. cbn [hd tl concat]. by rewrite <- app_assoc.
Qed.

Definition sendable6 (src dest : ip6_addr) (hl tc nexth : Z) : Prop :=
  ip6_ok src /\ ip6_ok dest /\ is_u8 hl /\ is_u8 tc /\ is_u8 nexth.

Lemma ip6_header_ok src dest hl tc nexth plen :
  sendable6 src dest hl tc nexth -> ip6_hdr_ok (ip6_header src dest hl tc nexth plen).
Proof.
  intros (Hs & Hd & Hh & Ht & Hn). unfold ip6_hdr_ok, ip6_header. cbn [_v_tc_fl _plen _nexth _hoplim ip6h_src ip6h_dest].
  split_and!; try done; [|apply lwip_htons_u16|apply u8_bound].
  apply (IP6H_VTCFL_fields (lwip_htons plen) nexth (u8 hl) [] [] tc 0 Ht). lia.
Qed.

(** The zone the destination gets. *)
Definition zoned (n : netif) (dest : ip6_addr) : ip6_addr :=
  if ip6_addr_lacks_zone dest IP6_UNKNOWN then ip6_addr_assign_zone dest IP6_UNKNOWN (netif_get_index n) else dest.

Lemma zoned_words n dest : ip6_words (zoned n dest) = ip6_words dest.
Proof. unfold zoned. by destruct (ip6_addr_lacks_zone _ _). Qed.

Lemma ip6_output_if_src_spec `{driver : netif_driver6} p src dest hl tc nexth n s :
  has_room IP6_HLEN p -> Z.of_nat (length (pk_octets p)) + 40 <= 65535 -> sendable6 src dest hl tc nexth ->
  let h := ip6_header src dest hl tc nexth (Z.of_nat (length (pk_octets p))) in
  ip6_output_if_src p (Some src) (Some dest) hl tc nexth n s = ip6_transmit (with_header6 h p) (zoned n dest) n s.
Proof.
  intros Hr Hl Hs h. unfold ip6_output_if_src. fold (zoned n dest).
  destruct (pk_add_header_spec IP6_HLEN p Hr ltac:(done)) as (p' & c & -> & Er & Ec & Hc & Ect).
  destruct p' as [room cs ct]. cbn [pk_room pk_chunks pk_contig] in *. subst.
  unfold pk_len. cbn [pk_chunks hd]. rewrite length_app.
  rewrite (proj2 (Z.leb_le _ _)) by (unfold IP6_HLEN in *; lia). cbn [default].
  assert (pk_tot_len (Pkt (take (length (pk_room p) - Z.to_nat IP6_HLEN) (pk_room p))
    ((c ++ hd [] (pk_chunks p)) :: tl (pk_chunks p)) true) = Z.of_nat (length (pk_octets p)) + 40) as ->.
  { unfold pk_tot_len, pk_octets in *. cbn [pk_chunks concat]. destruct Hr as (_ & _ & Hn).
    destruct (pk_chunks p); [done|]. cbn [hd tl concat] in *. rewrite !length_app in *. rewrite Hc.
    rewrite u16_id by (unfold is_u16, IP6_HLEN; lia). unfold IP6_HLEN. lia. }
  unfold IP6_HLEN. replace (Z.of_nat (length (pk_octets p)) + 40 - 40) with (Z.of_nat (length (pk_octets p))) by lia.
  rewrite (u16_id (Z.of_nat _)) by (unfold is_u16; lia).
  assert (Eh : ip6_header src (zoned n dest) hl tc nexth (Z.of_nat (length (pk_octets p))) = h).
  { unfold h, ip6_header. by rewrite zoned_words. }
  change (id src) with src. rewrite Eh. rewrite pk_write_front by (rewrite ip6_hdr_octets_length by (by apply ip6_header_ok); rewrite Hc; done).
  cbn [mbind option_bind]. done.
Qed.

Lemma ip6_transmit_driver `{driver : netif_driver6} p dest n s :
  is_own_addr n dest = false -> (nif_mtu6 n = 0 \/ pk_tot_len p <= nd6_get_destination_mtu dest (Some n) s) ->
  ip6_transmit p dest n s = Some (log [Netif_output_ip6 n p dest] s, p, driver_output_ip6 n p dest).
Proof.
  intros Ho Hm. unfold ip6_transmit. rewrite Ho. destruct (Z.eqb_spec (nif_mtu6 n) 0); [done|].
  destruct Hm as [|Hm]; [done|]. by rewrite (proj2 (Z.ltb_ge _ _)) by lia.
Qed.

(** ** Receiving *)

(** The addresses a packet is accepted with. *)
Definition acceptable6 (inp : netif) (src dest : ip6_addr) : Prop :=
  ip6_addr_isipv4mappedipv6 dest = false /\ ip6_addr_isipv4mappedipv6 src = false /\
  ip6_addr_ismulticast src = false /\ ip6_addr_isany src = false /\ ip6_netif_for dest inp = Some inp.

(** The state in which the upper layers find a packet with header [h]. *)
Definition receiving6 (h : ip6_hdr) (inp : netif) (m : net) : net :=
  m <| ip_data := IpGlobals (Some inp) (Some inp) (current_ip4_header (ip_data m)) (Some (ip6_hdr_octets h)) IP6_HLEN
         (IpAddr (ip6_addr_assign_zone (from_packed (ip6h_src h)) IP6_UNICAST (netif_get_index inp)) IPADDR_TYPE_V6)
         (IpAddr (ip6_addr_assign_zone (from_packed (ip6h_dest h)) IP6_UNKNOWN (netif_get_index inp)) IPADDR_TYPE_V6) |>.

Section receive.
Context `{driver : netif_driver6} `{mem : memory} `{users : address_users} `{stale : stale_pointers}.
Context `{layers : upper_layers U}.

Definition transport_input6 (nexth : Z) (p : pkt) (inp : netif) (m : net) (u : U) :=
  if nexth =? IP6_NEXTH_UDP then udp_input p inp m u else tcp_input p inp m u.

(** No extension header. *)
Lemma walk_transport h room c r ct (m : net) :
  ip6_hdr_ok h -> _nexth h = IP6_NEXTH_UDP \/ _nexth h = IP6_NEXTH_TCP ->
  walk_headers false (Pkt room ((ip6_hdr_octets h ++ c) :: r) ct) m =
  Some (Ext_done (Walk (Pkt (room ++ ip6_hdr_octets h) (c :: r) ct) (_nexth h) 6 IP6_HLEN) m).
Proof.
  intros Hh Hn. pose proof (ip6_hdr_octets_length h Hh) as H40. unfold walk_headers, pk_remove_header. cbn [pk_chunks hd].
  rewrite ip6_hdr_of_octets by done. rewrite (proj2 (Z.leb_le _ _)) by (rewrite length_app; unfold IP6_HLEN; lia).
  change (Z.to_nat IP6_HLEN) with 40%nat. rewrite (take_app_length' _ _ 40), (drop_app_length' _ _ 40) by done.
  cbn [mbind option_bind pk_chunks hd pk_room pk_contig ext_loop]. unfold ext_header. cbn [w_nexth].
  by destruct Hn as [-> | ->].
Qed.

Lemma ip6_deliver_transport h room c r ct inp (st : stack U) :
  length (ip6_hdr_octets h) = 40%nat -> no_raw inp -> _nexth h = IP6_NEXTH_UDP \/ _nexth h = IP6_NEXTH_TCP ->
  let p := Pkt (room ++ ip6_hdr_octets h) (c :: r) ct in
  ip6_deliver (Walk p (_nexth h) 6 IP6_HLEN) (_nexth h) inp st =
  '(m, u) ← transport_input6 (_nexth h) p inp
              ((st_net st) <| ip_data := (ip_data (st_net st)) <| current_ip_header_tot_len := IP6_HLEN |> |>) (st_upper st);
  Some (Stack m (st_reass st) (st_reass6 st) u).
Proof.
  intros H40 Hraw Hn p. set (q := Pkt room ((ip6_hdr_octets h ++ c) :: r) ct).
  assert (Hrem : pk_remove_header IP6_HLEN q = Some p).
  { unfold pk_remove_header, q, p. cbn [pk_chunks pk_room pk_contig].
    rewrite (proj2 (Z.leb_le _ _)) by (rewrite length_app; unfold IP6_HLEN; lia). change (Z.to_nat IP6_HLEN) with 40%nat.
    by rewrite (take_app_length' _ _ 40), (drop_app_length' _ _ 40). }
  unfold ip6_deliver. cbn [w_p w_nexth w_hlen_tot]. rewrite (pk_header_round_trip IP6_HLEN q p ltac:(done) Hrem). cbn [default].
  change (id q) with q. rewrite Hraw. cbn [mbind option_bind st_net st_upper st_reass st_reass6 with_net]. rewrite Hrem.
  cbn [mbind option_bind]. unfold ip6_dispatch, transport_input6. clearbody q p.
  destruct Hn as [-> | ->].
  - change (IP6_NEXTH_UDP =? IP6_NEXTH_UDP) with true. change (IP6_NEXTH_UDP =? IP6_NEXTH_NONE) with false.
    cbn [w_p w_nexth w_hlen_tot setter st_net st_upper st_reass st_reass6]. by destruct (udp_input _ _ _ _) as [[? ?]|].
  - change (IP6_NEXTH_TCP =? IP6_NEXTH_UDP) with false. change (IP6_NEXTH_TCP =? IP6_NEXTH_NONE) with false.
    change (IP6_NEXTH_TCP =? IP6_NEXTH_TCP) with true.
    cbn [w_p w_nexth w_hlen_tot setter st_net st_upper st_reass st_reass6]. by destruct (tcp_input _ _ _ _) as [[? ?]|].
Qed.

Lemma ip6_input_transport h room c r ct inp (st : stack U) :
  let q := Pkt room ((ip6_hdr_octets h ++ c) :: r) ct in
  ip6_hdr_ok h -> IP6H_V h = 6 -> Z.of_nat (length (c ++ concat r)) = IP6H_PLEN h -> IP6H_PLEN h + 40 <= 65535 ->
  acceptable6 inp (from_packed (ip6h_src h)) (from_packed (ip6h_dest h)) -> no_raw inp ->
  _nexth h = IP6_NEXTH_UDP \/ _nexth h = IP6_NEXTH_TCP ->
  ip6_input q inp st =
  '(m, u) ← transport_input6 (_nexth h) (Pkt (room ++ ip6_hdr_octets h) (c :: r) ct) inp
              (receiving6 h inp (st_net st)) (st_upper st);
  Some (Stack (m <| ip_data := ip6_data_clear (ip_data m) |>) (st_reass st) (st_reass6 st) u, ERR_OK).
Proof.
  intros q Hh Hv Hlen Hle (Hmd & Hms & Hmc & Hany & Hfor) Hraw Hn.
  pose proof (ip6_hdr_octets_length h Hh) as H40.
  assert (Hq : ip6_hdr_of (hd [] (pk_chunks q)) = h) by by apply ip6_hdr_of_octets.
  assert (Hql : 40 <= pk_len q).
  { subst q. unfold pk_len. cbn [pk_chunks hd]. rewrite length_app. lia. }
  assert (Hqt : pk_tot_len q = 40 + IP6H_PLEN h).
  { subst q. unfold pk_tot_len, pk_octets. cbn [pk_chunks concat]. rewrite <- app_assoc, length_app, H40, <- Hlen.
    rewrite u16_id by (unfold is_u16; lia). lia. }
  assert (0 <= IP6H_PLEN h) by lia.
  unfold ip6_input. rewrite Hq, Hv. rewrite (proj2 (Z.leb_le _ _)) by lia. cbn [Z.eqb Pos.eqb negb].
  unfold IP6_HLEN. rewrite (proj2 (Z.ltb_ge (pk_len q) 40)), (proj2 (Z.ltb_ge (pk_tot_len q - 40) _)) by lia. cbn [orb].
  rewrite (u16_id (40 + _)) by (unfold is_u16; lia).
  assert (pk_realloc (40 + IP6H_PLEN h) q = q) as ->.
  { unfold pk_realloc. by rewrite Hqt, Z.leb_refl. }
  rewrite Hmd, Hms, Hmc. cbn [orb].
  change (ip6_addr_isany (ip6_addr_assign_zone (from_packed (ip6h_src h)) IP6_UNICAST (netif_get_index inp)))
    with (ip6_addr_isany (from_packed (ip6h_src h))). rewrite Hany. cbn [andb].
  change (ip6_netif_for (ip6_addr_assign_zone ?d _ _) inp) with (ip6_netif_for d inp). rewrite Hfor.
  unfold ip6_receive. rewrite Hq. unfold q. rewrite walk_transport by done. cbn [mbind option_bind pk_chunks hd].
  rewrite (take_app_length' _ _ 40) by done. 
  rewrite ip6_deliver_transport by done. cbn [with_net st_net st_upper st_reass st_reass6]. fold (receiving6 h inp (st_net st)).
  by destruct (transport_input6 _ _ _ _ _) as [[m u]|].
Qed.

End receive.

(** ** Properties *)

(** C29: the source address chosen for a destination is, by the rules of RFC 6724
    that lwIP has (1, 2, 3 and 8, in this order), one that no other valid address of
    the interface is preferred to; none is chosen only if none is valid.  The rules
    are stated on their own: the scopes by the prefixes of the addresses (2000::/3
    global, fe80::/10 link-local, fc00::/7 organization-local, fec0::/10 site-local,
    ff00::/8 as the address says, ::1 link-local; another destination counts as
    global, another source as wider than global), a valid address by bit 4 of its
    state, a preferred one by the state 48, the network by the first two words. *)
Theorem ip6_select_source_best n dest :
  let addrs := combine (nif_ip6_addr n) (nif_ip6_addr_state n) in
  match ip6_select_source_address n dest with
  | None => forall c, c ∈ addrs -> ~ usable c
  | Some a => exists st, (a, st) ∈ addrs /\ usable (a, st) /\
      forall c, c ∈ addrs -> usable c -> ~ preferred_to dest c (a, st)
  end.
Proof.
  intros addrs. unfold ip6_select_source_address. fold addrs.
  pose proof (select_loop_spec dest addrs [] None) as H. cbn [app] in H.
  specialize (H (Forall_nil_2 _) (Forall_nil_2 _) eq_refl). destruct (select_loop _ _ _) as [a|].
  - destruct H as (c & Hc & Hin & H). apply elem_of_valid_cands in Hin as (b & st & Hin & Hu & ->). cbn in Hc. subst b.
    exists st. split; [done|]. split; [done|]. intros [b sb] Hb Hub Hp. apply preferred_to_better in Hp.
    destruct H as [H|[H1 [_ H2]]]; [by rewrite H in Hp|].
    assert (Hin' : candidate_of dest b sb ∈ valid_cands dest addrs) by (apply elem_of_valid_cands; by exists b, sb).
    rewrite Forall_forall in H1, H2. rewrite (H1 _ Hin'), (H2 _ Hin') in Hp. by destruct (exact_match _ _).
  - intros [b sb] Hb Hub. assert (Hin' : candidate_of dest b sb ∈ valid_cands dest addrs) by (apply elem_of_valid_cands; by exists b, sb).
    rewrite H in Hin'. by apply not_elem_of_nil in Hin'.
Qed.

(** C28: what IPv6 sends, IPv6 receives: one header in front of the payload, with
    the version, traffic class, length, next header, hop limit and addresses asked
    for, goes to the driver, and nothing else happens.  Given to the input path of a
    host that accepts the addresses, the packet reaches the transport protocol with
    the same payload, the header stripped and the addresses recorded with their
    zones, and the description of the packet is cleared afterwards. *)
Theorem ip6_output_input_round_trip `{driver : netif_driver6} `{mem : memory} `{users : address_users}
    `{stale : stale_pointers} `{layers : upper_layers U} p src dest hl tc nexth n s inp (st : stack U) :
  has_room IP6_HLEN p -> Z.of_nat (length (pk_octets p)) + 40 <= 65535 ->
  sendable6 src dest hl tc nexth -> is_own_addr n (zoned n dest) = false ->
  (nif_mtu6 n = 0 \/ Z.of_nat (length (pk_octets p)) + 40 <= nd6_get_destination_mtu (zoned n dest) (Some n) s) ->
  acceptable6 inp (from_packed (ip6_words src)) (from_packed (ip6_words dest)) -> no_raw inp ->
  nexth = IP6_NEXTH_UDP \/ nexth = IP6_NEXTH_TCP ->
  exists q h, ip6_output_if p (Some src) (Some dest) hl tc nexth n s =
      Some (log [Netif_output_ip6 n q (zoned n dest)] s, q, driver_output_ip6 n q (zoned n dest)) /\
    pk_octets q = ip6_hdr_octets h ++ pk_octets p /\
    IP6H_V h = 6 /\ IP6H_TC h = tc /\ IP6H_FL h = 0 /\ IP6H_PLEN h = Z.of_nat (length (pk_octets p)) /\
    _nexth h = nexth /\ _hoplim h = hl /\ ip6h_src h = ip6_words src /\ ip6h_dest h = ip6_words dest /\
    exists p', pk_octets p' = pk_octets p /\
      ip6_input q inp st =
      '(m, u) ← transport_input6 nexth p' inp (receiving6 h inp (st_net st)) (st_upper st);
      Some (Stack (m <| ip_data := ip6_data_clear (ip_data m) |>) (st_reass st) (st_reass6 st) u, ERR_OK).
Proof.
  intros Hr Hl Hs Ho Hm Ha Hraw Hn. pose proof Hr as (_ & _ & Hc).
  set (h := ip6_header src dest hl tc nexth (Z.of_nat (length (pk_octets p)))).
  assert (Hh : ip6_hdr_ok h) by by apply ip6_header_ok.
  assert (Hq : pk_octets (with_header6 h p) = ip6_hdr_octets h ++ pk_octets p) by by apply with_header6_octets.
  assert (Hlen : IP6H_PLEN h = Z.of_nat (length (pk_octets p))).
  { unfold IP6H_PLEN, h, ip6_header. cbn [_plen]. apply lwip_htons_invol. unfold is_u16. lia. }
  exists (with_header6 h p), h. split.
  { destruct Ha as (_ & _ & _ & Hany & _). change (ip6_addr_isany (from_packed (ip6_words src))) with (ip6_addr_isany src) in Hany.
    unfold ip6_output_if. rewrite Hany. rewrite ip6_output_if_src_spec by done. fold h. apply ip6_transmit_driver; [done|].
    unfold pk_tot_len. rewrite Hq, length_app, (ip6_hdr_octets_length h Hh). rewrite u16_id by (unfold is_u16; lia).
    destruct Hm as [Hm|Hm]; [by left|right; lia]. }
  pose proof Hs as (_ & _ & Hhl & Htc & _).
  destruct (IP6H_VTCFL_fields (lwip_htons (Z.of_nat (length (pk_octets p)))) nexth (u8 hl) (ip6_words src) (ip6_words dest) tc 0 Htc
    ltac:(lia)) as (Hv & Ht & Hf & _).
  split_and!; try done; [by apply u8_id|].
  eexists (Pkt _ (hd [] (pk_chunks p) :: tl (pk_chunks p)) _). split.
  { unfold pk_octets. cbn [pk_chunks]. by destruct (pk_chunks p). }
  assert (Hoct : length (hd [] (pk_chunks p) ++ concat (tl (pk_chunks p))) = length (pk_octets p)).
  { unfold pk_octets. by destruct (pk_chunks p). }
  unfold with_header6 at 1. rewrite (ip6_input_transport h) by (try done; rewrite ?Hlen, ?Hoct; done). done.
Qed.

Lemma ip6_output_input_round_trip_witness :
  let p := payload_packet [1; 2; 3] in
  exists q h, @ip6_output_if example_driver6 p (Some peer6) (Some me6) 64 3 IP6_NEXTH_UDP example_netif example_net =
      Some (log [Netif_output_ip6 example_netif q me6] example_net, q, ERR_OK) /\
    pk_octets q = ip6_hdr_octets h ++ [1; 2; 3] /\
    IP6H_V h = 6 /\ IP6H_TC h = 3 /\ IP6H_FL h = 0 /\ IP6H_PLEN h = 3 /\
    _nexth h = IP6_NEXTH_UDP /\ _hoplim h = 64 /\ ip6h_src h = ip6_words peer6 /\ ip6h_dest h = ip6_words me6 /\
    exists p', pk_octets p' = [1; 2; 3] /\
      input6 q example_stack6 =
      '(m, u) ← @transport_input6 _ recording IP6_NEXTH_UDP p' example_netif6 (receiving6 h example_netif6 example_net6) [];
      Some (Stack (m <| ip_data := ip6_data_clear (ip_data m) |>) (Reass [] 0 [] []) (Reass6 [] 0 (repeat true 8) []) u, ERR_OK).
Proof.
  apply (@ip6_output_input_round_trip example_driver6 example_memory6 no_users no_gap _ recording
    (payload_packet [1; 2; 3]) peer6 me6 64 3 IP6_NEXTH_UDP example_netif example_net example_netif6 example_stack6).
  - split; [done|]. split; [vm_compute; lia|done].
  - vm_compute. done.
  - assert (Hw : forall a, ip6_ok (addr6 536939960 0 0 a) <-> is_u32 (lwip_htonl a)).
    { intros a. unfold ip6_ok, addr6. cbn [ip6_words]. rewrite !Forall_cons.
      split; [naive_solver|]. intros. split; [done|]. split_and!; try done; decide_now. }
    split_and!; try decide_now; apply Hw; decide_now.
  - by vm_compute.
  - right. by vm_compute.
  - by split_and!; vm_compute.
  - by intros q m u.
  - by left.
Defined.
