(* ===== verification/Udp.v ===== *)
(** * UDP (core/c/core/udp.c)

    Pcbs live in memory ([udp_mem]) and the active ones are on a list; a
    pointer is a key of the map, and the use of a freed pcb has no result.  With
    [TUN2SOCKS] every datagram that arrives goes to the first pcb of the list,
    with its original source and destination, and the sender names source and
    destination itself.  The receive callback is the last thing [udp_input]
    does, so that what the application does in it can be seen as the next
    calls: the model writes the callback down as an event.

    The body of the search loop in [udp_input] behind the first [break] is not
    compiled in this configuration; neither are UDP-Lite, multicast options and
    [SO_REUSE]. *)

From S2P Require Import Prelude Err Def IpAddr NetifDefs Ip4Addr Chksum Pbuf Packet IpHdr Net Ip4 Icmp.

Definition UDP_HLEN : Z := 8.
Definition UDP_TTL : Z := 64.
Definition UDP_FLAGS_NOCHKSUM : Z := 1.
Definition UDP_FLAGS_CONNECTED : Z := 4.
Definition UDP_LOCAL_PORT_RANGE_START : Z := 49152.
Definition UDP_LOCAL_PORT_RANGE_END : Z := 65535.

Record udp_hdr := UdpHdr { uh_src : Z; uh_dest : Z; uh_len : Z; uh_chksum : Z }.

#[export] Instance eta_udp_hdr : EtaRecord udp_hdr := fun h =>
  UdpHdr (uh_src h) (uh_dest h) (uh_len h) (uh_chksum h).

Definition udp_hdr_of (l : list Z) : udp_hdr := UdpHdr (ld16 l 0) (ld16 l 2) (ld16 l 4) (ld16 l 6).
Definition udp_hdr_octets (h : udp_hdr) : list Z :=
  st16 (uh_src h) ++ st16 (uh_dest h) ++ st16 (uh_len h) ++ st16 (uh_chksum h).

(** [struct udp_pcb]; a callback is the function and its argument. *)
Record udp_pcb := UdpPcb {
  up_local_ip : ip_addr; up_remote_ip : ip_addr; up_netif_idx : Z; up_so_options : Z;
  up_tos : Z; up_ttl : Z; up_flags : Z; up_local_port : Z; up_remote_port : Z;
  up_recv : option (Z * Z)
}.

#[export] Instance eta_udp_pcb : EtaRecord udp_pcb := fun b =>
  UdpPcb (up_local_ip b) (up_remote_ip b) (up_netif_idx b) (up_so_options b) (up_tos b)
    (up_ttl b) (up_flags b) (up_local_port b) (up_remote_port b) (up_recv b).

Inductive udp_event :=
| Recv (recv : Z * Z) (pcb : nat) (p : pkt) (addr : ip_addr) (port : Z)
       (dest_addr : ip_addr) (dest_port : Z).

Record udp := Udp {
  udp_pcbs : list nat;                 (* the active pcbs, first one first *)
  udp_mem : gmap nat udp_pcb;          (* all pcbs *)
  udp_port : Z;
  udp_events : list udp_event
}.

#[export] Instance eta_udp : EtaRecord udp := fun u =>
  Udp (udp_pcbs u) (udp_mem u) (udp_port u) (udp_events u).

Definition set_pcb (i : nat) (b : udp_pcb) (u : udp) : udp :=
  u <| udp_mem := <[i := b]> (udp_mem u) |>.

(** The pcbs of the list, followed from the head. *)
Definition active (u : udp) : option (list udp_pcb) := mapM (fun i => udp_mem u !! i) (udp_pcbs u).

(** [UDP_ENSURE_LOCAL_PORT_RANGE(LWIP_RAND())] *)
Definition udp_init (rand : Z) (u : udp) : udp :=
  u <| udp_port := u16 (Z.land rand (u16 (Z.lnot UDP_LOCAL_PORT_RANGE_START))
                        + UDP_LOCAL_PORT_RANGE_START) |>.

(** ** Ports *)

(** The rounds of [udp_new_port], from the label [again]: the port found, or 0,
    and the counter [udp_port].  Every round but the last runs into the port of
    another pcb of the list. *)
Fixpoint udp_new_port_loop (fuel : nat) (ports : list Z) (udp_port n : Z) : option (Z * Z) :=
  match fuel with
  | O => None
  | S f =>
      let udp_port :=
        if udp_port =? UDP_LOCAL_PORT_RANGE_END then UDP_LOCAL_PORT_RANGE_START
        else u16 (udp_port + 1) in
      if existsb (fun local_port => local_port =? udp_port) ports then
        let n := u16 (n + 1) in
        if UDP_LOCAL_PORT_RANGE_END - UDP_LOCAL_PORT_RANGE_START <? n then Some (0, udp_port)
        else udp_new_port_loop f ports udp_port n
      else Some (udp_port, udp_port)
  end.

Definition udp_new_port (u : udp) : option (Z * udp) :=
  bs ← active u;
  '(port, next) ← udp_new_port_loop (S (length bs)) (map up_local_port bs) (udp_port u) 0;
  Some (port, u <| udp_port := next |>).

(** Another pcb with this port, on an overlapping address. *)
Definition port_in_use (ipaddr : ip_addr) (port : Z) (b : udp_pcb) : bool :=
  (up_local_port b =? port)
  && (ip_addr_cmp (up_local_ip b) ipaddr || ip_addr_isany_val ipaddr
      || ip_addr_isany_val (up_local_ip b)).

(** The second loop of [udp_bind]. *)
Fixpoint bind_conflict (pcb : nat) (ipaddr : ip_addr) (port : Z) (l : list nat) (u : udp)
  : option bool :=
  match l with
  | [] => Some false
  | i :: l' =>
      b ← udp_mem u !! i;
      if negb (pcb =? i)%nat && port_in_use ipaddr port b then Some true
      else bind_conflict pcb ipaddr port l' u
  end.

(** [udp_bind]; the null address is [None]. *)
Definition udp_bind (pcb : nat) (ipaddr : option ip_addr) (port : Z) (s : net) (u : udp)
  : option (udp * Z) :=
  let ipaddr := default ip_addr_any ipaddr in
  let rebind := existsb (fun i => (pcb =? i)%nat) (udp_pcbs u) in
  let ipaddr := give_zone ipaddr (ip_2_ip6 ipaddr) s in
  '(port, u, free) ←
    (if port =? 0 then
       '(port, u) ← udp_new_port u; Some (port, u, negb (port =? 0))
     else
       c ← bind_conflict pcb ipaddr port (udp_pcbs u) u; Some (port, u, negb c));
  if negb free then Some (u, ERR_USE)
  else
    b ← udp_mem u !! pcb;
    let u := set_pcb pcb (b <| up_local_ip := ip_addr_set ipaddr |> <| up_local_port := port |>) u in
    Some (if rebind then u else u <| udp_pcbs := pcb :: udp_pcbs u |>, ERR_OK).

Definition udp_bind_netif (pcb : nat) (n : option netif) (u : udp) : option udp :=
  b ← udp_mem u !! pcb;
  Some (set_pcb pcb (b <| up_netif_idx := match n with Some n => netif_get_index n
                                          | None => NETIF_NO_INDEX end |>) u).

Definition udp_connect (pcb : nat) (ipaddr : ip_addr) (port : Z) (s : net) (u : udp)
  : option (udp * Z) :=
  b ← udp_mem u !! pcb;
  '(u, err) ← (if up_local_port b =? 0 then udp_bind pcb (Some (up_local_ip b)) 0 s u
               else Some (u, ERR_OK));
  if negb (err =? ERR_OK) then Some (u, err)
  else
    b ← udp_mem u !! pcb;
    let remote := give_zone (ip_addr_set ipaddr) (ip_2_ip6 (up_local_ip b)) s in
    let u := set_pcb pcb (b <| up_remote_ip := remote |> <| up_remote_port := port |>
                            <| up_flags := u8 (Z.lor (up_flags b) UDP_FLAGS_CONNECTED) |>) u in
    Some (if existsb (fun i => (pcb =? i)%nat) (udp_pcbs u) then u
          else u <| udp_pcbs := pcb :: udp_pcbs u |>, ERR_OK).

Definition udp_disconnect (pcb : nat) (u : udp) : option udp :=
  b ← udp_mem u !! pcb;
  let remote :=
    if IP_IS_ANY_TYPE_VAL (up_local_ip b) then ip_addr_any_type
    else ip_addr_set_any (IP_IS_V6_VAL (up_remote_ip b)) in
  Some (set_pcb pcb (b <| up_remote_ip := remote |> <| up_remote_port := 0 |>
                       <| up_netif_idx := NETIF_NO_INDEX |>
                       <| up_flags := Z.land (up_flags b) (u8 (Z.lnot UDP_FLAGS_CONNECTED)) |>) u).

Definition udp_recv (pcb : nat) (recv : option (Z * Z)) (u : udp) : option udp :=
  b ← udp_mem u !! pcb; Some (set_pcb pcb (b <| up_recv := recv |>) u).

(** The second branch of [udp_remove]: the first pcb whose [next] is [pcb]. *)
Fixpoint unlink (pcb : nat) (l : list nat) : list nat :=
  match l with
  | i :: ((j :: r) as l') => if (j =? pcb)%nat then i :: r else i :: unlink pcb l'
  | _ => l
  end.

Definition udp_remove (pcb : nat) (u : udp) : option udp :=
  b ← udp_mem u !! pcb;                            (* pcb->next *)
  let l :=
    match udp_pcbs u with
    | i :: r => if (i =? pcb)%nat then r else unlink pcb (udp_pcbs u)
    | [] => []
    end in
  Some (u <| udp_pcbs := l |> <| udp_mem := delete pcb (udp_mem u) |>).

(** [udp_new] and [udp_new_ip_type]: the pcb, or [NULL]. *)
Definition udp_new_ip_type (type : Z) (s : net) (u : udp) : option nat * net * udp :=
  match net_malloc s with
  | Some _ :: r =>
      let pcb := fresh (dom (udp_mem u)) in
      let zero := IpAddr (Ip6Addr [0; 0; 0; 0] 0) type in
      (Some pcb, s <| net_malloc := r |>,
       set_pcb pcb (UdpPcb zero zero 0 0 0 UDP_TTL 0 0 0 None) u)
  | None :: r => (None, s <| net_malloc := r |>, u)
  | [] => (None, s, u)
  end.

Definition udp_new (s : net) (u : udp) : option nat * net * udp :=
  udp_new_ip_type IPADDR_TYPE_V4 s u.

(** Pcbs bound to the old address of an interface follow it. *)
Fixpoint udp_addr_changed_loop (old_addr new_addr : ip_addr) (l : list nat) (u : udp) : option udp :=
  match l with
  | [] => Some u
  | i :: l' =>
      b ← udp_mem u !! i;
      let u := if ip_addr_cmp (up_local_ip b) old_addr
               then set_pcb i (b <| up_local_ip := ip_addr_set new_addr |>) u else u in
      udp_addr_changed_loop old_addr new_addr l' u
  end.

Definition udp_netif_ip_addr_changed (old_addr new_addr : ip_addr) (u : udp) : option udp :=
  if negb (ip_addr_isany_val old_addr) && negb (ip_addr_isany_val new_addr)
  then udp_addr_changed_loop old_addr new_addr (udp_pcbs u) u
  else Some u.

(** ** Input *)

Section udp.
Context `{driver : netif_driver} `{mem : memory} `{ip6 : ip6_layer}.

(** Whether the datagram is for this host, without a pcb. *)
Definition udp_for_us (g : ip_globals) (inp : netif) : bool :=
  if ip_current_is_v6 g then 0 <=? netif_get_ip6_addr_match inp (ip_2_ip6 (current_iphdr_dest g))
  else ip4_addr_cmp (netif_ip4_addr inp) (ip_2_ip4 (current_iphdr_dest g)).

Definition icmp_port_unreach (is_v6 : bool) (p : pkt) (s : net) : option net :=
  if is_v6 then icmp6_dest_unreach p 4 s else icmp_dest_unreach p ICMP_DUR_PORT s.

Definition udp_input (p : pkt) (inp : netif) (s : net) (u : udp) : option (net * udp) :=
  if pk_len p <? UDP_HLEN then Some (free_packet p s, u)
  else
    let g := ip_data s in
    n ← current_netif g;
    let udphdr := udp_hdr_of (hd [] (pk_chunks p)) in
    let broadcast := ip_addr_isbroadcast (current_iphdr_dest g) n in
    let src := lwip_htons (uh_src udphdr) in
    let dest := lwip_htons (uh_dest udphdr) in
    match udp_pcbs u with
    | pcb :: _ =>                                    (* "take the first one" *)
        b ← udp_mem u !! pcb;
        p ← pk_remove_header UDP_HLEN p;
        match up_recv b with
        | Some recv =>
            Some (s, u <| udp_events := udp_events u ++
              [Recv recv pcb p (current_iphdr_src g) src (current_iphdr_dest g) dest] |>)
        | None => Some (free_packet p s, u)
        end
    | [] =>
        if udp_for_us g inp then
          p ← pk_remove_header UDP_HLEN p;
          s ← (if negb broadcast && negb (ip_addr_ismulticast (current_iphdr_dest g)) then
                 let p := default p (pk_header_force (s16 (current_ip_header_tot_len g + UDP_HLEN)) p) in
                 s ← icmp_port_unreach (ip_current_is_v6 g) p s; Some (free_packet p s)
               else Some (free_packet p s));
          Some (s, u)
        else Some (free_packet p s, u)
    end.

(** ** Output *)

(** [LWIP_ERROR] aborts on null pointers; the model has none. *)
Definition udp_send (pcb : nat) (p : pkt) (u : udp) : option Z :=
  b ← udp_mem u !! pcb;
  if IP_IS_ANY_TYPE_VAL (up_remote_ip b) then Some ERR_VAL
  else Some ERR_OK.                   (* "tun2socks should never use udp_send()" *)

Definition udp_send_chksum (pcb : nat) (p : pkt) (have_chksum : bool) (chksum : Z) (u : udp)
  : option Z :=
  b ← udp_mem u !! pcb;
  if IP_IS_ANY_TYPE_VAL (up_remote_ip b) then Some ERR_VAL else Some ERR_OK.

(** The value of the checksum field; zero stands for "no checksum". *)
Definition udp_chksum (q : pkt) (have_chksum : bool) (chksum : Z) (src_ip dst_ip : ip_addr)
  : option Z :=
  udpchksum ←
    (if have_chksum then
       c ← ip_chksum_pseudo_partial (pk_view q) IP_PROTO_UDP (pk_tot_len q) UDP_HLEN src_ip dst_ip;
       let acc := u32 (c + u16 (Z.lnot chksum)) in
       Some (u16 (FOLD_U32T acc))
     else Some (ip_chksum_pseudo (pk_view q) IP_PROTO_UDP (pk_tot_len q) src_ip dst_ip));
  Some (if udpchksum =? 0 then 65535 else udpchksum).

(** The packet that goes down: [p] with the header in front, or a header of its own
    chained in front of [p]; [false] says which. *)
Definition udp_header_room (p : pkt) (s : net) : option (pkt * bool) * net :=
  match pk_add_header UDP_HLEN p with
  | Some q => (Some (q, true), s)
  | None =>
      let '(q, s) := pbuf_alloc_ram PBUF_IP UDP_HLEN s in
      match q with
      | None => (None, s)
      | Some q => (Some (if negb (pk_tot_len p =? 0) then pk_cat q p else q, false), s)
      end
  end.

(** The result: state, pcbs, the packet as the caller finds it, error code. *)
Definition udp_sendto_if_src_chksum (pcb : nat) (p : pkt) (dst_ip : ip_addr) (dst_port : Z)
    (n : netif) (have_chksum : bool) (chksum : Z) (src_ip : ip_addr) (src_port : Z)
    (s : net) (u : udp) : option (net * udp * pkt * Z) :=
  b ← udp_mem u !! pcb;
  if negb (IP_ADDR_PCB_VERSION_MATCH (up_local_ip b) src_ip) || negb (IP_ADDR_PCB_VERSION_MATCH (up_local_ip b) dst_ip)
  then Some (s, u, p, ERR_VAL)
  else
    '(u, err) ← (if up_local_port b =? 0
                 then udp_bind pcb (Some (up_local_ip b)) (up_local_port b) s u
                 else Some (u, ERR_OK));
    if negb (err =? ERR_OK) then Some (s, u, p, err)
    else if u16 (pk_tot_len p + UDP_HLEN) <? pk_tot_len p then Some (s, u, p, ERR_MEM)
    else
      let '(q, s) := udp_header_room p s in
      match q with
      | None => Some (s, u, p, ERR_MEM)
      | Some (q, in_place) =>
          lwip_assert (UDP_HLEN <=? pk_len q);
          let udphdr := UdpHdr (lwip_htons src_port) (lwip_htons dst_port)
                          (lwip_htons (pk_tot_len q)) 0 in
          q ← pk_write 0 (udp_hdr_octets udphdr) q;
          b ← udp_mem u !! pcb;
          q ← (if IP_IS_V6_VAL dst_ip || negb (flagset (up_flags b) UDP_FLAGS_NOCHKSUM) then
                 c ← udp_chksum q have_chksum chksum src_ip dst_ip;
                 pk_write 0 (udp_hdr_octets (udphdr <| uh_chksum := c |>)) q
               else Some q);
          '(s, q, err) ← ip_output_if_src q src_ip dst_ip (up_ttl b) (up_tos b) IP_PROTO_UDP n s;
          Some (s, u, if (in_place : bool) then q else p, err)
      end.

Definition udp_sendto_if_chksum (pcb : nat) (p : pkt) (dst_ip : ip_addr) (dst_port : Z)
    (n : netif) (have_chksum : bool) (chksum : Z) (src_ip : ip_addr) (src_port : Z)
    (s : net) (u : udp) : option (net * udp * pkt * Z) :=
  b ← udp_mem u !! pcb;
  if negb (IP_ADDR_PCB_VERSION_MATCH (up_local_ip b) dst_ip) then Some (s, u, p, ERR_VAL)
  else udp_sendto_if_src_chksum pcb p dst_ip dst_port n have_chksum chksum src_ip src_port s u.

Definition udp_sendto_chksum (pcb : nat) (p : pkt) (dst_ip : ip_addr) (dst_port : Z)
    (have_chksum : bool) (chksum : Z) (src_ip : ip_addr) (src_port : Z) (s : net) (u : udp)
  : option (net * udp * pkt * Z) :=
  b ← udp_mem u !! pcb;
  if negb (IP_ADDR_PCB_VERSION_MATCH (up_local_ip b) dst_ip) then Some (s, u, p, ERR_VAL)
  else
    let n := if negb (up_netif_idx b =? NETIF_NO_INDEX) then netif_get_by_index (up_netif_idx b) s
             else ip_route (up_local_ip b) dst_ip s in
    match n with
    | None => Some (s, u, p, ERR_RTE)
    | Some n =>
        udp_sendto_if_chksum pcb p dst_ip dst_port n have_chksum chksum src_ip src_port s u
    end.

Definition udp_sendto (pcb : nat) (p : pkt) (dst_ip : ip_addr) (dst_port : Z)
    (src_ip : ip_addr) (src_port : Z) (s : net) (u : udp) : option (net * udp * pkt * Z) :=
  udp_sendto_chksum pcb p dst_ip dst_port false 0 src_ip src_port s u.

Definition udp_sendto_if (pcb : nat) (p : pkt) (dst_ip : ip_addr) (dst_port : Z) (n : netif)
    (src_ip : ip_addr) (src_port : Z) (s : net) (u : udp) : option (net * udp * pkt * Z) :=
  udp_sendto_if_chksum pcb p dst_ip dst_port n false 0 src_ip src_port s u.

Definition udp_sendto_if_src (pcb : nat) (p : pkt) (dst_ip : ip_addr) (dst_port : Z) (n : netif)
    (src_ip : ip_addr) (src_port : Z) (s : net) (u : udp) : option (net * udp * pkt * Z) :=
  udp_sendto_if_src_chksum pcb p dst_ip dst_port n false 0 src_ip src_port s u.

End udp.
