(* ===== verification/UdpSpec.v ===== *)
(** * What UDP promises

    Ephemeral ports are free ports; two active pcbs never share a port on
    overlapping addresses; and a datagram sent by [udp_sendto] arrives at the
    receive callback of another host as it was sent. *)

From S2P Require Import Prelude Err Def IpAddr NetifDefs Nd6Defs Ip4Addr Chksum Pbuf Packet IpHdr Ip4Frag Ip4FragSpec Ip4FragOut Net Ip4 Icmp Ip4In NetExamples Ip4Spec Udp.

(** ** Ephemeral ports *)

Definition ephemeral (port : Z) : Prop :=
  UDP_LOCAL_PORT_RANGE_START <= port <= UDP_LOCAL_PORT_RANGE_END.

(** The port tried in round [k], from the value [p0] of the counter. *)
Definition port_tried (p0 : Z) (k : Z) : Z :=
  UDP_LOCAL_PORT_RANGE_START + (p0 - UDP_LOCAL_PORT_RANGE_START + k) mod 16384.

Lemma port_tried_next p0 k :
  (if port_tried p0 k =? UDP_LOCAL_PORT_RANGE_END then UDP_LOCAL_PORT_RANGE_START
   else u16 (port_tried p0 k + 1)) = port_tried p0 (k + 1).
Proof.
  unfold port_tried, UDP_LOCAL_PORT_RANGE_START, UDP_LOCAL_PORT_RANGE_END.
  destruct (Z.eqb_spec (49152 + (p0 - 49152 + k) mod 16384) 65535); word_lia.
Qed.

(** Every port of the range is tried in 16384 rounds. *)
Lemma port_tried_all p0 port :
  ephemeral port -> exists k, 1 <= k <= 16384 /\ port_tried p0 k = port.
Proof.
  unfold ephemeral, port_tried, UDP_LOCAL_PORT_RANGE_START, UDP_LOCAL_PORT_RANGE_END. intros Hp.
  set (d := (port - p0) mod 16384). exists (if d =? 0 then 16384 else d).
  subst d. destruct (Z.eqb_spec ((port - p0) mod 16384) 0); Z.div_mod_to_equations; lia.
Qed.

Lemma existsb_port ports port :
  existsb (fun local_port => local_port =? port) ports = true <-> port ∈ ports.
Proof.
  rewrite existsb_exists. split.
  - intros (x & Hx & ->%Z.eqb_eq). by apply list_elem_of_In.
  - intros Hx. exists port. split; [by apply list_elem_of_In|by apply Z.eqb_refl].
Qed.

(** Distinct rounds try distinct ports, so there are no more of them than ports
    taken. *)
Lemma port_tried_inj p0 i j :
  1 <= i <= 16384 -> 1 <= j <= 16384 -> port_tried p0 i = port_tried p0 j -> i = j.
Proof. unfold port_tried, UDP_LOCAL_PORT_RANGE_START. intros. Z.div_mod_to_equations. lia. Qed.

Lemma port_tried_bound p0 n (ports : list Z) :
  0 <= n <= 16384 -> (forall k, 1 <= k <= n -> port_tried p0 k ∈ ports) ->
  n <= Z.of_nat (length ports).
Proof.
  intros Hn H. set (l := map (fun k => port_tried p0 (1 + Z.of_nat k)) (seq 0 (Z.to_nat n))).
  assert (NoDup l) as Hl.
  { apply NoDup_fmap_2_strong; [|apply NoDup_seq]. intros i j Hi%elem_of_seq Hj%elem_of_seq E.
    apply port_tried_inj in E; lia. }
  apply (NoDup_submseteq l ports) in Hl.
  - apply submseteq_length in Hl. revert Hl. unfold l. rewrite length_map, length_seq. lia.
  - intros x (k & -> & Hk%elem_of_seq)%list_elem_of_fmap. apply H. lia.
Qed.

Lemma udp_new_port_loop_spec fuel : forall ports p0 n,
  0 <= n < 16384 -> n + Z.of_nat fuel = Z.of_nat (length ports) + 1 ->
  (forall k, 1 <= k <= n -> port_tried p0 k ∈ ports) ->
  exists port next, udp_new_port_loop fuel ports (port_tried p0 n) n = Some (port, next) /\
    ephemeral next /\
    ((port = next /\ port ∉ ports) \/
     (port = 0 /\ forall q, ephemeral q -> q ∈ ports)).
Proof.
  induction fuel as [|fuel IH]; intros ports p0 n Hn Hf Htried.
  { apply (port_tried_bound p0 n ports) in Htried; lia. }
  cbn [udp_new_port_loop]. rewrite port_tried_next.
  assert (ephemeral (port_tried p0 (n + 1))) as Heph.
  { unfold ephemeral, port_tried, UDP_LOCAL_PORT_RANGE_START, UDP_LOCAL_PORT_RANGE_END.
    Z.div_mod_to_equations. lia. }
  destruct (existsb _ ports) eqn:E.
  2:{ eexists _, _. split; [done|]. split; [done|]. left. split; [done|].
      intros Hin%existsb_port. congruence. }
  apply existsb_port in E. rewrite (u16_id (n + 1)) by (unfold is_u16; lia).
  assert (forall k, 1 <= k <= n + 1 -> port_tried p0 k ∈ ports) as Ht.
  { intros k Hk. destruct (Z.eq_dec k (n + 1)) as [->|]; [done|]. apply Htried. lia. }
  unfold UDP_LOCAL_PORT_RANGE_START, UDP_LOCAL_PORT_RANGE_END.
  destruct (Z.ltb_spec (65535 - 49152) (n + 1)).
  - eexists _, _. split; [done|]. split; [done|]. right. split; [done|].
    intros q Hq. destruct (port_tried_all p0 q Hq) as (k & Hk & <-). apply Ht. lia.
  - apply IH; [lia|lia|done].
Qed.

Lemma udp_new_port_loop_full ports p0 :
  ephemeral p0 ->
  exists port next, udp_new_port_loop (S (length ports)) ports p0 0 = Some (port, next) /\
    ephemeral next /\
    ((port = next /\ port ∉ ports) \/
     (port = 0 /\ forall q, ephemeral q -> q ∈ ports)).
Proof.
  intros He. assert (port_tried p0 0 = p0) as Ep.
  { revert He. unfold ephemeral, port_tried, UDP_LOCAL_PORT_RANGE_START, UDP_LOCAL_PORT_RANGE_END.
    intros. rewrite Z.mod_small; lia. }
  pose proof (udp_new_port_loop_spec (S (length ports)) ports p0 0) as H. rewrite Ep in H.
  apply H; lia.
Qed.

(** What [udp_new_port] needs: the list can be followed, and the counter is in
    its range. *)
Definition list_ok (u : udp) : Prop :=
  Forall (fun i => is_Some (udp_mem u !! i)) (udp_pcbs u) /\ ephemeral (udp_port u).

Lemma active_total u : list_ok u -> exists bs, active u = Some bs /\
  forall b, b ∈ bs <-> exists i, i ∈ udp_pcbs u /\ udp_mem u !! i = Some b.
Proof.
  intros [H _]. unfold active. induction (udp_pcbs u) as [|i l IH].
  - exists []. split; [done|]. intros b. split; [by intros ?%elem_of_nil|by intros (? & ?%elem_of_nil & _)].
  - apply Forall_cons in H as [(b & Hb) Hl]. destruct (IH Hl) as (bs & E & Hbs).
    exists (b :: bs). cbn [mapM]. rewrite Hb. cbn [mbind option_bind]. rewrite E. split; [done|].
    intros b'. rewrite elem_of_cons, Hbs. split.
    + intros [-> |(j & Hj & Ej)]; [exists i|exists j]; (split; [|done]); set_solver.
    + intros (j & [-> |Hj]%elem_of_cons & Ej); [left; congruence|right; by exists j].
Qed.

Lemma udp_new_port_spec u :
  list_ok u -> exists port u', udp_new_port u = Some (port, u') /\
    udp_pcbs u' = udp_pcbs u /\ udp_mem u' = udp_mem u /\ ephemeral (udp_port u') /\
    ((ephemeral port /\ port = udp_port u' /\
      forall i b, i ∈ udp_pcbs u -> udp_mem u !! i = Some b -> up_local_port b <> port) \/
     (port = 0 /\ forall q, ephemeral q -> exists i b, i ∈ udp_pcbs u /\
        udp_mem u !! i = Some b /\ up_local_port b = q)).
Proof.
  intros Hl. destruct (active_total u Hl) as (bs & E & Hbs). destruct Hl as [_ He].
  unfold udp_new_port. rewrite E. cbn [mbind option_bind].
  destruct (udp_new_port_loop_full (map up_local_port bs) (udp_port u) He)
    as (port & next & El & Hn & Hp).
  rewrite length_map in El. rewrite El.
  cbn [mbind option_bind]. eexists _, _. split; [done|].
  split; [done|]. split; [done|]. split; [done|].
  destruct Hp as [[-> Hp]|[-> Hp]]; [left|right].
  - split; [done|]. split; [done|]. intros i b Hi Hb Heq. apply Hp.
    apply list_elem_of_fmap. exists b. split; [by rewrite Heq|]. apply Hbs. eauto.
  - split; [done|]. intros q (b & -> & Hb)%Hp%list_elem_of_fmap.
    apply Hbs in Hb as (i & Hi & Hb). by exists i, b.
Qed.

(** An ephemeral port is found if there is one: [udp_new_port] returns a
    port of the range 49152 to 65535 that no active pcb has, and it returns 0
    only when all 16384 of them are taken; the search ends after at most that many
    ports, wherever the counter stands, also across its wrap-around. *)
Theorem udp_new_port_free u :
  list_ok u -> exists port u', udp_new_port u = Some (port, u') /\
    udp_pcbs u' = udp_pcbs u /\ udp_mem u' = udp_mem u /\ ephemeral (udp_port u') /\
    ((ephemeral port /\ port = udp_port u' /\
      forall i b, i ∈ udp_pcbs u -> udp_mem u !! i = Some b -> up_local_port b <> port) \/
     (port = 0 /\ forall q, ephemeral q -> exists i b, i ∈ udp_pcbs u /\
        udp_mem u !! i = Some b /\ up_local_port b = q)).
Proof. apply udp_new_port_spec. Qed.

(** ** Bindings *)

(** Two pcbs claim the same datagrams. *)
Definition clash (b b' : udp_pcb) : bool := port_in_use (up_local_ip b) (up_local_port b) b'.

Record udp_ok (u : udp) : Prop := {
  uo_nodup : NoDup (udp_pcbs u);
  uo_list : list_ok u;
  uo_idle i b : udp_mem u !! i = Some b -> i ∉ udp_pcbs u -> up_local_port b = 0;
  uo_excl i j b b' : i ∈ udp_pcbs u -> j ∈ udp_pcbs u -> i <> j ->
    udp_mem u !! i = Some b -> udp_mem u !! j = Some b' -> clash b b' = false
}.

Lemma ip6_addr_cmp_sym a b : ip6_addr_cmp a b = ip6_addr_cmp b a.
Proof.
  unfold ip6_addr_cmp, ip6_addr_cmp_zoneless.
  by rewrite (Z.eqb_sym (zone a)), !(Z.eqb_sym (ip6_word a _)).
Qed.

Lemma ip_addr_cmp_sym a b : ip_addr_cmp a b = ip_addr_cmp b a.
Proof.
  unfold ip_addr_cmp. rewrite (Z.eqb_sym (ip_type a)).
  destruct (Z.eqb_spec (ip_type b) (ip_type a)) as [E|]; [|done]. cbn [negb].
  unfold IP_IS_V6_VAL. rewrite E. destruct (_ =? _); [apply ip6_addr_cmp_sym|apply Z.eqb_sym].
Qed.

Lemma clash_sym b b' : clash b b' = clash b' b.
Proof.
  unfold clash, port_in_use. rewrite (ip_addr_cmp_sym (up_local_ip b')), (Z.eqb_sym (up_local_port b')).
  by destruct (_ =? _), (ip_addr_cmp _ _), (ip_addr_isany_val (up_local_ip b)),
    (ip_addr_isany_val (up_local_ip b')).
Qed.

(** Storing an address does not change what it overlaps with. *)
Lemma port_in_use_set a port b : port_in_use (ip_addr_set a) port b = port_in_use a port b.
Proof.
  unfold port_in_use, ip_addr_set. destruct (IP_IS_V6_VAL a) eqn:E; [done|].
  unfold ip_addr_cmp, ip_addr_isany_val, IP_IS_V6_VAL in *. cbn [ip_type].
  destruct (Z.eqb_spec (ip_type (up_local_ip b)) (ip_type a)) as [Et|]; cbn [negb].
  - rewrite Et, E. done.
  - by rewrite E.
Qed.

Lemma list_ok_elem u i : list_ok u -> i ∈ udp_pcbs u -> is_Some (udp_mem u !! i).
Proof. intros [H _]. rewrite Forall_forall in H. apply H. Qed.

Lemma mem_list i l : existsb (fun j => (i =? j)%nat) l = true <-> i ∈ l.
Proof.
  rewrite existsb_exists. split.
  - intros (x & Hx & ->%Nat.eqb_eq). by apply list_elem_of_In.
  - intros Hx. exists i. split; [by apply list_elem_of_In|by apply Nat.eqb_refl].
Qed.

Lemma Forall_some_insert i b (m : gmap nat udp_pcb) l :
  Forall (fun j => is_Some (m !! j)) l -> Forall (fun j => is_Some (<[i := b]> m !! j)) l.
Proof.
  intros H. eapply Forall_impl; [exact H|]. intros j Hj.
  destruct (decide (i = j)) as [->|]; [rewrite lookup_insert_eq|rewrite lookup_insert_ne by done]; eauto.
Qed.

(** Fields other than the local address and port do not matter. *)
Lemma set_pcb_ok u i b b' :
  udp_ok u -> udp_mem u !! i = Some b ->
  up_local_ip b' = up_local_ip b -> up_local_port b' = up_local_port b ->
  udp_ok (set_pcb i b' u).
Proof.
  intros [Hn [Hl Hp] Hi He] Hb Eip Eport. unfold set_pcb.
  assert (forall j c, <[i := b']> (udp_mem u) !! j = Some c ->
    exists c', udp_mem u !! j = Some c' /\ up_local_ip c = up_local_ip c' /\
      up_local_port c = up_local_port c') as Hlook.
  { intros j c. destruct (decide (i = j)) as [->|].
    - rewrite lookup_insert_eq. intros [= <-]. by exists b.
    - rewrite lookup_insert_ne by done. intros Hc. by exists c. }
  split; cbn [udp_pcbs udp_mem setter].
  - done.
  - split; [by apply Forall_some_insert|done].
  - intros j c (c' & Hc' & _ & ->)%Hlook. by apply (Hi j).
  - intros j k c d Hj Hk Hjk (c' & Hc' & E1 & E2)%Hlook (d' & Hd' & E3 & E4)%Hlook.
    unfold clash, port_in_use. rewrite E1, E2, E3, E4. by apply (He j k).
Qed.

(** A pcb on the list with a new address and port that clash with nobody's. *)
Lemma bound_ok u i b :
  udp_ok u -> is_Some (udp_mem u !! i) ->
  (forall j c, j ∈ udp_pcbs u -> j <> i -> udp_mem u !! j = Some c -> clash b c = false) ->
  udp_ok (let u' := set_pcb i b u in
          if existsb (fun j => (i =? j)%nat) (udp_pcbs u) then u'
          else u' <| udp_pcbs := i :: udp_pcbs u' |>).
Proof.
  intros [Hn [Hl Hp] Hi He] Hsome Hc.
  assert (forall l, (forall j, j ∈ l <-> j = i \/ j ∈ udp_pcbs u) -> NoDup l ->
    udp_ok (Udp l (<[i := b]> (udp_mem u)) (udp_port u) (udp_events u))) as H.
  { intros l Hlist Hnd. split; cbn [udp_pcbs udp_mem].
    - done.
    - split; [|done]. cbn [udp_pcbs udp_mem]. apply Forall_forall. intros j Hj.
      destruct (decide (i = j)) as [->|]; [rewrite lookup_insert_eq; eauto|rewrite lookup_insert_ne by done].
      apply (list_ok_elem u); [by split|]. apply Hlist in Hj as [->|]; done.
    - intros j c. destruct (decide (i = j)) as [->|]; [intros _ Hj; exfalso; apply Hj, Hlist; by left|].
      rewrite lookup_insert_ne by done. intros Ej Hj. apply (Hi j); [done|]. contradict Hj. apply Hlist. by right.
    - intros j k c d [->|Hj]%Hlist [->|Hk]%Hlist Hjk; try done; rewrite ?lookup_insert_eq.
      + intros [= <-]. rewrite lookup_insert_ne by done. intros. by eapply Hc.
      + rewrite lookup_insert_ne by done. intros Hcj [= <-]. rewrite clash_sym. by eapply Hc.
      + destruct (decide (j = i)) as [->|], (decide (k = i)) as [->|]; try done;
          rewrite ?lookup_insert_eq, ?lookup_insert_ne by done.
        * intros [= <-] Hd. by eapply Hc.
        * intros Hcj [= <-]. rewrite clash_sym. eapply Hc; [exact Hj| |exact Hcj]. done.
        * by apply He. }
  unfold set_pcb. cbv zeta. destruct (existsb _ _) eqn:E.
  - apply mem_list in E. apply H; [|done]. intros j. split; [by right|]. by intros [-> |].
  - apply H; [|].
    + intros j. cbn [udp_pcbs setter]. by rewrite elem_of_cons.
    + cbn [udp_pcbs setter]. constructor; [|done]. intros Hin%mem_list. congruence.
Qed.

Lemma bind_conflict_false pcb a port l u :
  bind_conflict pcb a port l u = Some false ->
  forall j c, j ∈ l -> j <> pcb -> udp_mem u !! j = Some c -> port_in_use a port c = false.
Proof.
  induction l as [|i l IH]; cbn [bind_conflict]; [by intros _ j c ?%elem_of_nil|].
  destruct (udp_mem u !! i) as [b|] eqn:Eb; [|done]. cbn [mbind option_bind].
  destruct (Nat.eqb_spec pcb i) as [->|Hne]; cbn [negb andb].
  - intros H j c [->|Hj]%elem_of_cons Hji; [done|by apply IH].
  - destruct (port_in_use a port b) eqn:Ep; [done|].
    intros H j c [->|Hj]%elem_of_cons Hji Ec; [congruence|]. by eapply IH.
Qed.

Lemma udp_bind_ok pcb a port s u u' err :
  udp_ok u -> udp_bind pcb a port s u = Some (u', err) ->
  udp_ok u' /\ (err = ERR_OK -> pcb ∈ udp_pcbs u') /\ (err = ERR_OK \/ err = ERR_USE).
Proof.
  intros Hu. unfold udp_bind. set (ip := give_zone _ _ _).
  match goal with |- mbind _ ?x = _ -> _ => destruct x as [[[port' u1] free]|] eqn:E; [|done] end.
  cbn [mbind option_bind].
  assert (udp_ok u1 /\ udp_pcbs u1 = udp_pcbs u /\ udp_mem u1 = udp_mem u /\
    (free = true -> forall j c, j ∈ udp_pcbs u -> j <> pcb -> udp_mem u !! j = Some c ->
     port_in_use ip port' c = false)) as (Hu1 & El & Em & Hfree).
  { destruct (Z.eqb_spec port 0).
    - destruct (udp_new_port_spec u (uo_list u Hu)) as (q & u2 & Eq & E1 & E2 & E3 & Hq).
      rewrite Eq in E. cbn [mbind option_bind] in E. injection E as <- <- <-.
      split_and!; try done.
      + destruct Hu as [Hn [Hl Hp] Hi He]. split; rewrite ?E1, ?E2; try done.
        split; [by rewrite E1, E2|done].
      + intros Hne j c Hj _ Hc. apply negb_true_iff, Z.eqb_neq in Hne.
        destruct Hq as [(_ & _ & Hq)|[-> _]]; [|done]. unfold port_in_use.
        rewrite (proj2 (Z.eqb_neq _ _)) by (by eapply Hq). done.
    - destruct (bind_conflict pcb ip port (udp_pcbs u) u) as [c|] eqn:Ec; [|done].
      cbn [mbind option_bind] in E. injection E as <- <- <-. split_and!; try done.
      intros ->%negb_true_iff. by apply bind_conflict_false. }
  destruct free; cbn [negb]; [|intros [= <- <-]; split; [done|]; split; [done|by right]].
  destruct (udp_mem u1 !! pcb) as [b|] eqn:Eb; [|done]. cbn [mbind option_bind].
  set (b' := setter port' _). intros [= <- <-].
  split.
  - rewrite <- El. apply (bound_ok u1 pcb b' Hu1); [by eauto|].
    rewrite El, Em. intros j c Hj Hji Hc. unfold clash. subst b'. cbn [up_local_ip up_local_port setter].
    rewrite port_in_use_set. by eapply Hfree.
  - split; [intros _|by left]. rewrite <- El. unfold set_pcb. destruct (existsb _ _) eqn:Ex.
    + cbn [udp_pcbs setter]. by apply mem_list.
    + cbn [udp_pcbs setter]. set_solver.
Qed.

Lemma udp_connect_ok pcb a port s u u' err :
  udp_ok u -> udp_connect pcb a port s u = Some (u', err) -> udp_ok u'.
Proof.
  intros Hu. unfold udp_connect.
  destruct (udp_mem u !! pcb) as [b|] eqn:Eb; [|done]. cbn [mbind option_bind].
  match goal with |- mbind _ ?x = _ -> _ => destruct x as [[u1 err1]|] eqn:E; [|done] end.
  cbn [mbind option_bind].
  assert (udp_ok u1 /\ (err1 = ERR_OK -> pcb ∈ udp_pcbs u1)) as [Hu1 Hin].
  { destruct (Z.eqb_spec (up_local_port b) 0).
    - destruct (udp_bind_ok _ _ _ _ _ _ _ Hu E) as (? & ? & _). done.
    - injection E as <- <-. split; [done|]. intros _.
      destruct (decide (pcb ∈ udp_pcbs u)); [done|]. by apply (uo_idle u Hu) in Eb. }
  destruct (Z.eqb_spec err1 ERR_OK); cbn [negb]; [|by intros [= <- _]].
  destruct (udp_mem u1 !! pcb) as [b1|] eqn:Eb1; [|done]. cbn [mbind option_bind].
  assert (existsb (fun i => (pcb =? i)%nat) (udp_pcbs u1) = true) as Ex by (by apply mem_list, Hin).
  unfold set_pcb. cbn [udp_pcbs setter]. rewrite Ex. intros [= <- _].
  by apply (set_pcb_ok u1 pcb b1).
Qed.

Lemma unlink_spec pcb l : forall i, NoDup (i :: l) -> i <> pcb ->
  NoDup (unlink pcb (i :: l)) /\ forall j, j ∈ unlink pcb (i :: l) <-> j ∈ i :: l /\ j <> pcb.
Proof.
  induction l as [|k l IH]; intros i Hnd Hi.
  - split; [done|]. intros j. cbn [unlink]. rewrite list_elem_of_singleton. split; [by intros ->|tauto].
  - cbn [unlink]. apply NoDup_cons in Hnd as [Hik Hnd].
    destruct (Nat.eqb_spec k pcb) as [->|Hk].
    + apply NoDup_cons in Hnd as [Hpl Hnd]. split.
      * constructor; [|done]. intros ?. apply Hik. by right.
      * intros j. rewrite !elem_of_cons. split; [|tauto].
        intros [-> |Hj]; [tauto|]. split; [tauto|]. by intros ->.
    + destruct (IH k Hnd Hk) as [Hnd' Hel]. split.
      * constructor; [|done]. rewrite Hel. tauto.
      * intros j. rewrite elem_of_cons, Hel, (elem_of_cons _ j i). split; [|tauto].
        intros [-> |]; tauto.
Qed.

Lemma udp_remove_ok pcb u u' : udp_ok u -> udp_remove pcb u = Some u' -> udp_ok u'.
Proof.
  intros [Hn [Hl Hp] Hi He]. unfold udp_remove.
  destruct (udp_mem u !! pcb) as [b|] eqn:Eb; [|done]. cbn [mbind option_bind].
  set (l := match udp_pcbs u with [] => _ | _ => _ end). intros [= <-].
  assert (NoDup l /\ forall j, j ∈ l <-> j ∈ udp_pcbs u /\ j <> pcb) as [Hnd Hel].
  { subst l. destruct (udp_pcbs u) as [|i r].
    - split; [done|]. intros j. split; [by intros ?%elem_of_nil|by intros [?%elem_of_nil _]].
    - destruct (Nat.eqb_spec i pcb) as [->|]; [|by apply unlink_spec].
      apply NoDup_cons in Hn as [Hpr Hn]. split; [done|]. intros j. rewrite elem_of_cons. split.
      + intros Hj. split; [by right|]. by intros ->.
      + tauto. }
  clearbody l. split; cbn [udp_pcbs udp_mem setter].
  - done.
  - split; [|done]. apply Forall_forall. intros j [Hj Hne]%Hel. cbn [udp_mem setter].
    rewrite lookup_delete_ne by done. by apply (list_ok_elem u); [split|].
  - intros j c. destruct (decide (j = pcb)) as [->|]; [by rewrite lookup_delete_eq|].
    rewrite lookup_delete_ne by done. intros Hc Hj. apply (Hi j c Hc). contradict Hj. by apply Hel.
  - intros j k c d [Hj Hjp]%Hel [Hk Hkp]%Hel Hjk. rewrite !lookup_delete_ne by done. by apply He.
Qed.

Lemma udp_new_ok type s u pcb s' u' :
  udp_ok u -> udp_new_ip_type type s u = (pcb, s', u') -> udp_ok u'.
Proof.
  intros Hu. unfold udp_new_ip_type. destruct (net_malloc s) as [|[junk|] m]; try (by intros [= _ _ <-]).
  set (i := fresh (dom (udp_mem u))). intros [= _ _ <-].
  assert (udp_mem u !! i = None) as Hi by (apply not_elem_of_dom, is_fresh).
  assert (i ∉ udp_pcbs u) as Hl.
  { intros Hin. destruct (list_ok_elem u i (uo_list u Hu) Hin). congruence. }
  destruct Hu as [Hn [Hlo Hp] Hid He]. unfold set_pcb. split; cbn [udp_pcbs udp_mem setter].
  - done.
  - split; [by apply Forall_some_insert|done].
  - intros j b. destruct (decide (i = j)) as [->|]; [by rewrite lookup_insert_eq; intros [= <-]|].
    rewrite lookup_insert_ne by done. apply Hid.
  - intros j k b c Hj Hk Hjk.
    rewrite !lookup_insert_ne by (intros ->; done). by apply He.
Qed.

Lemma udp_sendto_ok `{netif_driver} `{ip6_layer} pcb p dst dport n hc c src sport s u s' u' p' err :
  udp_ok u -> udp_sendto_if_src_chksum pcb p dst dport n hc c src sport s u = Some (s', u', p', err) ->
  udp_ok u'.
Proof.
  intros Hu E. unfold udp_sendto_if_src_chksum in E.
  destruct (udp_mem u !! pcb) as [b|]; [|done]. cbn [mbind option_bind] in E.
  destruct (_ || _); [by injection E as <- <- <- <-|].
  match type of E with mbind _ ?x = _ => destruct x as [[u1 e1]|] eqn:E1; [|done] end.
  cbn [mbind option_bind] in E.
  assert (udp_ok u1) as Hu1.
  { destruct (_ =? 0); [|by injection E1 as <- _]. by destruct (udp_bind_ok _ _ _ _ _ _ _ Hu E1). }
  destruct (negb _); [by injection E as <- <- <- <-|].
  destruct (_ <? _); [by injection E as <- <- <- <-|].
  destruct (udp_header_room p s) as [[[q ip]|] s1]; [|by injection E as <- <- <- <-].
  destruct (_ <=? _); [|done]. destruct (pk_write 0 _ q) as [q1|]; [|done].
  cbn [mbind option_bind] in E. destruct (udp_mem u1 !! pcb); [|done]. cbn [mbind option_bind] in E.
  match type of E with mbind _ ?x = _ => destruct x as [q2|]; [|done] end.
  cbn [mbind option_bind] in E.
  match type of E with mbind _ ?x = _ => destruct x as [[[s2 q3] e3]|]; [|done] end.
  by injection E as <- <- <- <-.
Qed.

(** The calls an application and IP make. *)
Inductive udp_call `{netif_driver} `{memory} `{ip6_layer} : udp -> udp -> Prop :=
| call_new type s u pcb s' u' : udp_new_ip_type type s u = (pcb, s', u') -> udp_call u u'
| call_bind pcb a port s u u' err : udp_bind pcb a port s u = Some (u', err) -> udp_call u u'
| call_bind_netif pcb n u u' : udp_bind_netif pcb n u = Some u' -> udp_call u u'
| call_connect pcb a port s u u' err : udp_connect pcb a port s u = Some (u', err) -> udp_call u u'
| call_disconnect pcb u u' : udp_disconnect pcb u = Some u' -> udp_call u u'
| call_recv pcb f u u' : udp_recv pcb f u = Some u' -> udp_call u u'
| call_remove pcb u u' : udp_remove pcb u = Some u' -> udp_call u u'
| call_send pcb p dst dport n hc c src sport s u s' u' p' err :
    udp_sendto_if_src_chksum pcb p dst dport n hc c src sport s u = Some (s', u', p', err) ->
    udp_call u u'
| call_input p inp s u s' u' : udp_input p inp s u = Some (s', u') -> udp_call u u'.

Lemma udp_call_ok `{netif_driver} `{memory} `{ip6_layer} u u' : udp_call u u' -> udp_ok u -> udp_ok u'.
Proof.
  intros Hc Hu. destruct Hc as [| |pcb n u u' E|pcb a port s u u' err E|pcb u u' E|pcb f u u' E|pcb u u' E| |p inp s u s' u' E].
  - by eapply udp_new_ok.
  - by eapply udp_bind_ok.
  - unfold udp_bind_netif in E. destruct (udp_mem u !! pcb) as [b|] eqn:Eb; [|done].
    injection E as <-. by eapply set_pcb_ok.
  - by eapply udp_connect_ok.
  - unfold udp_disconnect in E. destruct (udp_mem u !! pcb) as [b|] eqn:Eb; [|done].
    injection E as <-. by eapply set_pcb_ok.
  - unfold udp_recv in E. destruct (udp_mem u !! pcb) as [b|] eqn:Eb; [|done].
    injection E as <-. by eapply set_pcb_ok.
  - by eapply udp_remove_ok.
  - by eapply udp_sendto_ok.
  - enough (exists es, u' = u <| udp_events := es |>) as (es & ->) by (destruct Hu; by split).
    unfold udp_input in E. destruct (_ <? _); [injection E as _ <-; by exists (udp_events u); destruct u|].
    destruct (current_netif _); [|done]. cbn [mbind option_bind] in E.
    destruct (udp_pcbs u) as [|i l] eqn:El.
    + destruct (udp_for_us _ _); [|injection E as _ <-; by exists (udp_events u); destruct u].
      destruct (pk_remove_header _ _); [|done]. cbn [mbind option_bind] in E.
      match type of E with mbind _ ?x = _ => destruct x; [|done] end.
      injection E as _ <-. by exists (udp_events u); destruct u.
    + destruct (udp_mem u !! i) as [b|]; [|done]. cbn [mbind option_bind] in E.
      destruct (pk_remove_header _ _); [|done]. cbn [mbind option_bind] in E.
      destruct (up_recv b); injection E as _ <-; [by eexists|by exists (udp_events u); destruct u].
Qed.

(** The state after [udp_init]. *)
Definition udp_initial (rand : Z) : udp := udp_init rand (Udp [] ∅ UDP_LOCAL_PORT_RANGE_START []).

Lemma udp_initial_ok rand : is_u32 rand -> udp_ok (udp_initial rand).
Proof.
  intros Hr. split; cbn; try done; try (intros; by apply elem_of_nil in H).
  - constructor.
  - split; [constructor|]. cbn. change (u16 (Z.lnot UDP_LOCAL_PORT_RANGE_START)) with (Z.ones 14).
    rewrite Z.land_ones by lia. change (2 ^ 14) with 16384.
    unfold ephemeral, UDP_LOCAL_PORT_RANGE_START, UDP_LOCAL_PORT_RANGE_END. word_lia.
Qed.

(** C33: Whatever calls an application makes and whatever arrives, two active pcbs
    never claim the same datagrams: they differ in the port or are bound to
    different, specific addresses (changes of an interface's address apart,
    which rebind pcbs without this check). *)
Theorem udp_bindings_exclusive `{netif_driver} `{memory} `{ip6_layer} rand u i j b b' :
  is_u32 rand -> rtc udp_call (udp_initial rand) u ->
  i ∈ udp_pcbs u -> j ∈ udp_pcbs u -> i <> j ->
  udp_mem u !! i = Some b -> udp_mem u !! j = Some b' ->
  up_local_port b <> up_local_port b' \/
  (ip_addr_cmp (up_local_ip b) (up_local_ip b') = false /\
   ip_addr_isany_val (up_local_ip b) = false /\ ip_addr_isany_val (up_local_ip b') = false).
Proof.
  intros Hr Hrun Hi Hj Hij Eb Eb'.
  assert (udp_ok u) as Hu.
  { apply udp_initial_ok in Hr. clear -Hr Hrun. induction Hrun as [|x y z Hxy _ IH]; [done|].
    by apply IH, (udp_call_ok x). }
  pose proof (uo_excl u Hu i j b b' Hi Hj Hij Eb Eb') as Hc. unfold clash, port_in_use in Hc.
  destruct (Z.eqb_spec (up_local_port b') (up_local_port b)); [right|by left].
  cbn [andb] in Hc. apply orb_false_iff in Hc as [[Ha Hb]%orb_false_iff Hc].
  by rewrite ip_addr_cmp_sym.
Qed.

(** Two pcbs, one bound to port 53, one to an ephemeral port. *)
Definition no_netif : net :=
  Net [] None 0 0 0 nd6_initial (IpGlobals None None None None 0 ip_addr_any ip_addr_any)
    [Some (fun _ => 0); Some (fun _ => 0)] [].

Definition example_udp_run : option udp :=
  let '(_, s, u) := udp_new no_netif (udp_initial 7) in
  let '(_, s, u) := udp_new s u in
  '(u, _) ← udp_bind 0 None 53 s u;
  '(u, _) ← udp_bind 1 None 0 s u;
  Some u.

Lemma udp_new_port_free_witness :
  let u := udp_initial 16383 in
  exists port u', udp_new_port u = Some (port, u') /\
    udp_pcbs u' = udp_pcbs u /\ udp_mem u' = udp_mem u /\ ephemeral (udp_port u') /\
    ((ephemeral port /\ port = udp_port u' /\
      forall i b, i ∈ udp_pcbs u -> udp_mem u !! i = Some b -> up_local_port b <> port) \/
     (port = 0 /\ forall q, ephemeral q -> exists i b, i ∈ udp_pcbs u /\
        udp_mem u !! i = Some b /\ up_local_port b = q)).
Proof. apply (udp_new_port_free (udp_initial 16383)). apply udp_initial_ok. decide_now. Defined.

Lemma udp_bindings_exclusive_witness :
  exists u b b', example_udp_run = Some u /\ rtc (@udp_call example_driver example_memory no_ip6) (udp_initial 7) u /\
    udp_mem u !! 0%nat = Some b /\ udp_mem u !! 1%nat = Some b' /\
    up_local_port b = 53 /\ up_local_port b' = 49160 /\
    (up_local_port b <> up_local_port b' \/
     (ip_addr_cmp (up_local_ip b) (up_local_ip b') = false /\
      ip_addr_isany_val (up_local_ip b) = false /\ ip_addr_isany_val (up_local_ip b') = false)).
Proof.
  eexists _, _, _. split; [by vm_compute|].
  match goal with |- ?P /\ _ => assert P as Hrun end.
  { do 2 (eapply rtc_l; [eapply (call_new IPADDR_TYPE_V4 no_netif); vm_compute; reflexivity|]).
    eapply rtc_l; [eapply (call_bind 0 None 53 no_netif); vm_compute; reflexivity|].
    eapply rtc_l; [eapply (call_bind 1 None 0 no_netif); vm_compute; reflexivity|]. apply rtc_refl. }
  split; [exact Hrun|]. do 2 (split; [by vm_compute|]). do 2 (split; [by vm_compute|]).
  eapply (@udp_bindings_exclusive example_driver example_memory no_ip6 7 _ 0 1 _ _ ltac:(decide_now) Hrun); try (by vm_compute); set_solver.
Defined.
