(* ===== verification/UdpPath.v ===== *)
(** * A datagram from one host to another

    [udp_sendto] through IPv4 output on one side, IPv4 input and [udp_input] on
    the other: the layers composed as the code composes them. *)

From S2P Require Import Prelude Err Def IpAddr NetifDefs Ip4Addr Chksum Pbuf Packet IpHdr Ip4Frag Ip6Frag Ip4FragSpec Ip4FragOut Net Ip4 Icmp Ip4In NetExamples Ip4Spec Udp UdpSpec.

(** UDP as a layer above IPv4, without raw pcbs. *)
Definition udp_alone `{netif_driver} `{memory} `{ip6_layer}
    (tcp : pkt -> netif -> net -> udp -> option (net * udp)) : upper_layers udp := {|
  raw_input p inp m u := Some (m, u, RAW_INPUT_NONE);
  Ip4In.udp_input := Udp.udp_input;
  tcp_input := tcp
|}.

Definition udp_hdr_ok (h : udp_hdr) : Prop :=
  is_u16 (uh_src h) /\ is_u16 (uh_dest h) /\ is_u16 (uh_len h) /\ is_u16 (uh_chksum h).

Lemma udp_hdr_of_octets h r : udp_hdr_ok h -> udp_hdr_of (udp_hdr_octets h ++ r) = h.
Proof.
  intros (?&?&?&?). destruct h as [a b c d]. unfold udp_hdr_of, udp_hdr_octets, st16, ld16, ld8.
  cbn [app nth Nat.add] in *. cbn [uh_src uh_dest uh_len uh_chksum] in *. f_equal; word_lia.
Qed.

Lemma udp_hdr_octets_ok h : bytes_ok (udp_hdr_octets h).
Proof. unfold udp_hdr_octets. rewrite !Forall_app. split_and!; apply st16_ok. Qed.

(** ** The checksum *)

Lemma chain_octets_view p : chain_octets (pk_view p) = pk_octets p.
Proof.
  unfold pk_view, pk_octets. induction (pk_chunks p) as [|c r IH]; [done|].
  cbn [map concat]. by rewrite chain_octets_cons, IH.
Qed.

Definition pk_bytes_ok (p : pkt) : Prop := Forall bytes_ok (pk_chunks p).

Lemma chunks_length_le l (cs : list (list Z)) : l ∈ cs -> (length l <= length (concat cs))%nat.
Proof.
  induction cs as [|c cs IH]; [by intros ?%elem_of_nil|]. cbn [concat]. rewrite length_app.
  intros [-> |H]%elem_of_cons; [lia|]. apply IH in H. lia.
Qed.

Lemma pk_view_ok p : pk_bytes_ok p -> Z.of_nat (length (pk_octets p)) <= 65535 ->
  Forall chunk_ok (pk_view p).
Proof.
  unfold pk_bytes_ok, pk_octets, pk_view. intros H Hl. apply Forall_map, Forall_forall.
  intros c Hc. split; [rewrite Forall_forall in H; by apply H|].
  apply chunks_length_le in Hc. unfold chunk_len. cbn [octets]. unfold is_u16. lia.
Qed.

(** The header with the checksum written into it verifies, also when the computed
    checksum is zero and 0xffff is sent instead. *)
Lemma udp_header_verifies h rest v v' src dest :
  udp_hdr_ok h -> bytes_ok rest -> ip_ok src -> ip_ok dest ->
  let n := 8 + Z.of_nat (length rest) in
  n <= 65535 -> Forall chunk_ok v -> Forall chunk_ok v' ->
  chain_octets v = udp_hdr_octets (h <| uh_chksum := 0 |>) ++ rest ->
  let c := ip_chksum_pseudo v IP_PROTO_UDP n src dest in
  chain_octets v' = udp_hdr_octets (h <| uh_chksum := if c =? 0 then 65535 else c |>) ++ rest ->
  ip_chksum_pseudo v' IP_PROTO_UDP n src dest = 0.
Proof.
  intros (H1 & H2 & H3 & _) Hr Hs Hd n Hn Hv Hv' E c E'.
  assert (is_u16 n) as Hn16 by (unfold is_u16, n; lia).
  assert (is_u8 IP_PROTO_UDP) as Hpr by done.
  pose proof (ip_chksum_pseudo_norm v IP_PROTO_UDP n src dest Hv Hpr Hn16 Hs Hd) as Ec.
  fold c in Ec. rewrite (ip_chksum_pseudo_norm v') by done.
  pose proof (odd_length_pseudo_header IP_PROTO_UDP n src dest) as Ho.
  pose proof (wsum_nonneg _ (pseudo_header_ok IP_PROTO_UDP n src dest Hpr Hn16)) as Hps.
  rewrite wsum_app_even in Ec |- * by done. rewrite E in Ec. rewrite E'.
  unfold udp_hdr_octets in *. cbn [uh_src uh_dest uh_len uh_chksum setter] in *.
  rewrite <- !app_assoc in *. pose proof (wsum_nonneg rest Hr) as Hrest.
  rewrite !wsum_st16 in Ec by (done || unfold is_u16; lia).
  set (t := wsum (pseudo_header IP_PROTO_UDP n src dest) + (uh_src h + (uh_dest h + (uh_len h + wsum rest)))).
  unfold is_u16 in H1, H2, H3. assert (0 <= t) as Ht by (subst t; lia).
  rewrite Z.add_0_l in Ec. fold t in Ec.
  pose proof (norm_bound t Ht). pose proof (norm_complement t Ht) as Hc. rewrite <- Ec in Hc.
  rewrite !wsum_st16 by (unfold is_u16; destruct (c =? 0); lia).
  match goal with |- 65535 - norm ?x = 0 =>
    replace x with (t + (if c =? 0 then 65535 else c)) by (subst t; lia) end.
  destruct (Z.eqb_spec c 0) as [Ez|]; [|lia].
  rewrite Ez, Z.add_0_r in Hc. rewrite <- norm_add_l, Hc by lia. done.
Qed.

Lemma ip_chksum_pseudo_u16 v proto n src dest : is_u16 (ip_chksum_pseudo v proto n src dest).
Proof.
  unfold ip_chksum_pseudo, ip6_chksum_pseudo, inet_chksum_pseudo, inet_cksum_pseudo_base, pseudo_tail.
  destruct IP_IS_V6_VAL; destruct (chain_loop _ _ _) as [? ?]; apply u16_bound.
Qed.

Lemma ip_ok_v4 a : is_u32 a -> ip_ok (IPADDR4_INIT a).
Proof. intros. split; [done|]. cbn [u_ip6 ip6_words IPADDR4_INIT].
  rewrite !Forall_cons, Forall_nil. by split_and!. Qed.

(** ** Sending *)

(** The datagram: the header in front of the payload. *)
Definition datagram (h : udp_hdr) (p : pkt) : pkt :=
  Pkt (take (length (pk_room p) - 8) (pk_room p))
      ((udp_hdr_octets h ++ hd [] (pk_chunks p)) :: tl (pk_chunks p)) true.

Lemma datagram_octets h p :
  pk_chunks p <> [] -> pk_octets (datagram h p) = udp_hdr_octets h ++ pk_octets p.
Proof.
  unfold pk_octets, datagram. cbn [pk_chunks concat]. destruct (pk_chunks p); [done|].
  cbn [hd tl concat]. by rewrite <- app_assoc.
Qed.

Lemma datagram_length h p :
  pk_chunks p <> [] -> length (pk_octets (datagram h p)) = (8 + length (pk_octets p))%nat.
Proof. intros. rewrite datagram_octets by done. by rewrite length_app. Qed.

Lemma datagram_bytes h p : pk_bytes_ok p -> pk_bytes_ok (datagram h p).
Proof.
  unfold pk_bytes_ok, datagram. cbn [pk_chunks]. intros H. constructor.
  - apply Forall_app. split; [apply udp_hdr_octets_ok|]. destruct (pk_chunks p); [constructor|].
    by apply Forall_cons in H as [? _].
  - destruct (pk_chunks p); [done|]. by apply Forall_cons in H as [_ ?].
Qed.

Lemma datagram_room h p k :
  has_room (8 + k) p -> 0 <= k -> has_room k (datagram h p).
Proof.
  intros (Hc & Hr & Hn) Hk. split; [done|]. cbn [pk_room pk_chunks datagram]. split; [|done].
  rewrite length_take. lia.
Qed.

(** A pcb that can send from its port to IPv4 addresses. *)
Record ready_to_send (u : udp) (pcb : nat) (b : udp_pcb) : Prop := {
  rs_pcb : udp_mem u !! pcb = Some b;
  rs_port : up_local_port b <> 0;
  rs_v4 : IP_IS_ANY_TYPE_VAL (up_local_ip b) = true \/ ip_type (up_local_ip b) = IPADDR_TYPE_V4;
  rs_chksum : flagset (up_flags b) UDP_FLAGS_NOCHKSUM = false
}.

Lemma version_match b a :
  IP_IS_ANY_TYPE_VAL (up_local_ip b) = true \/ ip_type (up_local_ip b) = IPADDR_TYPE_V4 ->
  IP_ADDR_PCB_VERSION_MATCH (up_local_ip b) (IPADDR4_INIT a) = true.
Proof. unfold IP_ADDR_PCB_VERSION_MATCH, IP_ADDR_PCB_VERSION_MATCH_EXACT. intros [-> | ->]; [done|]. apply orb_true_r. Qed.

Section send.
Context `{driver : netif_driver} `{mem : memory} `{ip6 : ip6_layer}.

(** What [udp_sendto_if_src] hands to IP. *)
Lemma udp_sendto_if_src_spec pcb b p dst dport n src sport s u :
  ready_to_send u pcb b -> has_room UDP_HLEN p -> Z.of_nat (length (pk_octets p)) + 8 <= 65535 ->
  let len := 8 + Z.of_nat (length (pk_octets p)) in
  let h := UdpHdr (lwip_htons sport) (lwip_htons dport) (lwip_htons len) 0 in
  let c := ip_chksum_pseudo (pk_view (datagram h p)) IP_PROTO_UDP len (IPADDR4_INIT src) (IPADDR4_INIT dst) in
  udp_sendto_if_src_chksum pcb p (IPADDR4_INIT dst) dport n false 0 (IPADDR4_INIT src) sport s u =
  '(s', q, err) ← ip4_output_if_src (datagram (h <| uh_chksum := if c =? 0 then 65535 else c |>) p)
                    (Some src) (Some dst) (up_ttl b) (up_tos b) IP_PROTO_UDP n s;
  Some (s', u, q, err).
Proof.
  intros [Hb Hport Hv4 Hck] Hroom Hlen len h c. unfold udp_sendto_if_src_chksum. rewrite Hb.
  cbn [mbind option_bind]. rewrite !version_match by done. cbn [negb orb].
  rewrite (proj2 (Z.eqb_neq (up_local_port b) 0)) by done. cbn [mbind option_bind].
  change (ERR_OK =? ERR_OK) with true. cbn [negb].
  assert (pk_tot_len p = Z.of_nat (length (pk_octets p))) as Ht
    by (unfold pk_tot_len; apply u16_id; unfold is_u16; lia).
  unfold UDP_HLEN in *. rewrite Ht, (u16_id (_ + 8)) by (unfold is_u16; lia).
  rewrite (proj2 (Z.ltb_ge _ _)) by lia. unfold udp_header_room, UDP_HLEN.
  destruct (pk_add_header_spec 8 p Hroom ltac:(done)) as (p' & c0 & -> & Er & Ec & Hc0 & Ect).
  destruct p' as [room cs ct]. cbn [pk_room pk_chunks pk_contig] in *. subst room cs ct.
  unfold pk_len. cbn [pk_chunks hd]. rewrite length_app.
  rewrite (proj2 (Z.leb_le _ _)) by lia.
  destruct Hroom as (_ & _ & Hn).
  assert (pk_tot_len (Pkt (take (length (pk_room p) - Z.to_nat 8) (pk_room p))
    ((c0 ++ hd [] (pk_chunks p)) :: tl (pk_chunks p)) true) = len) as ->.
  { pose proof (datagram_length h p Hn) as Hd. subst len. unfold pk_tot_len.
    rewrite <- (u16_id (8 + _)) by (unfold is_u16; lia). f_equal. revert Hd. unfold pk_octets at 1 3. cbn [pk_chunks concat datagram].
    rewrite !length_app, Hc0. change (length (udp_hdr_octets h)) with 8%nat. lia. }
  fold h. rewrite pk_write_front by (rewrite Hc0; done). cbn [mbind option_bind]. rewrite Hb.
  cbn [mbind option_bind]. change (IP_IS_V6_VAL (IPADDR4_INIT dst)) with false. rewrite Hck. cbn [orb negb].
  change (Z.to_nat 8) with 8%nat. fold (datagram h p).
  assert (pk_tot_len (datagram h p) = len) as Hq.
  { unfold pk_tot_len. rewrite datagram_length by done. subst len.
    rewrite u16_id by (unfold is_u16; lia). lia. }
  unfold udp_chksum. rewrite Hq. cbn [mbind option_bind]. fold c.
  unfold datagram at 1. rewrite pk_write_front by done. cbn [mbind option_bind].
  fold (datagram (h <| uh_chksum := if c =? 0 then 65535 else c |>) p).
  unfold ip_output_if_src. change (IP_IS_V6_VAL (IPADDR4_INIT dst)) with false. done.
Qed.

Lemma udp_sendto_spec pcb b p dst dport n rest src sport s u :
  ready_to_send u pcb b -> up_netif_idx b = NETIF_NO_INDEX -> netif_list s = n :: rest ->
  udp_sendto pcb p (IPADDR4_INIT dst) dport (IPADDR4_INIT src) sport s u =
  udp_sendto_if_src_chksum pcb p (IPADDR4_INIT dst) dport n false 0 (IPADDR4_INIT src) sport s u.
Proof.
  intros Hr Hi Hn. pose proof (version_match b dst (rs_v4 _ _ _ Hr)) as Hv.
  unfold udp_sendto, udp_sendto_chksum. rewrite (rs_pcb _ _ _ Hr). cbn [mbind option_bind].
  rewrite Hv, Hi. change (NETIF_NO_INDEX =? NETIF_NO_INDEX) with true. cbn [negb].
  unfold ip_route. change (IP_IS_V6_VAL (IPADDR4_INIT dst)) with false.
  unfold ip4_route_src, ip4_route. rewrite Hn. cbn [head].
  unfold udp_sendto_if_chksum. rewrite (rs_pcb _ _ _ Hr). cbn [mbind option_bind]. by rewrite Hv.
Qed.

(** What [udp_input] makes of a datagram: the first pcb's callback gets it. *)
Lemma udp_input_datagram h room c r ct inp n m v i l b f :
  udp_hdr_ok h -> current_netif (ip_data m) = Some n ->
  udp_pcbs v = i :: l -> udp_mem v !! i = Some b -> up_recv b = Some f ->
  Udp.udp_input (Pkt room ((udp_hdr_octets h ++ c) :: r) ct) inp m v =
  Some (m, v <| udp_events := udp_events v ++
    [Recv f i (Pkt (room ++ udp_hdr_octets h) (c :: r) ct)
       (current_iphdr_src (ip_data m)) (lwip_htons (uh_src h))
       (current_iphdr_dest (ip_data m)) (lwip_htons (uh_dest h))] |>).
Proof.
  intros Hh Hn Hl Hb Hf. unfold Udp.udp_input, pk_len, UDP_HLEN. cbn [pk_chunks hd].
  rewrite length_app. change (length (udp_hdr_octets h)) with 8%nat.
  rewrite (proj2 (Z.ltb_ge _ _)) by lia. rewrite Hn. cbn [mbind option_bind].
  rewrite Hl, Hb. cbn [mbind option_bind]. unfold pk_remove_header. cbn [pk_chunks pk_room pk_contig].
  rewrite length_app. change (length (udp_hdr_octets h)) with 8%nat.
  rewrite (proj2 (Z.leb_le _ _)) by lia. cbn [mbind option_bind]. rewrite Hf.
  rewrite udp_hdr_of_octets, (take_app_length' (udp_hdr_octets h)), (drop_app_length' (udp_hdr_octets h)) by done.
  done.
Qed.

(** IPv4 and UDP input of a packet with both headers. *)
Lemma ip4_input_datagram tcp ih h room c r ct inp st i l b f :
  ip_hdr_ok ih -> IPH_V ih = 4 -> IPH_HL_BYTES ih = IP_HLEN -> is_fragment ih = false ->
  _proto ih = IP_PROTO_UDP -> udp_hdr_ok h ->
  lwip_htons (_len ih) = pk_tot_len (Pkt room ((ip_hdr_octets ih ++ udp_hdr_octets h ++ c) :: r) ct) ->
  acceptable inp (iph_src ih) (iph_dest ih) ->
  udp_pcbs (st_upper st) = i :: l -> udp_mem (st_upper st) !! i = Some b -> up_recv b = Some f ->
  exists m, @ip4_input _ _ _ (udp_alone tcp)
      (Pkt room ((ip_hdr_octets ih ++ udp_hdr_octets h ++ c) :: r) ct) inp st =
    Some (Stack ((st_net st) <| ip_data := ip_data_clear m |>) (st_reass st) (st_reass6 st)
            ((st_upper st) <| udp_events := udp_events (st_upper st) ++
               [Recv f i (Pkt ((room ++ ip_hdr_octets ih) ++ udp_hdr_octets h) (c :: r) ct)
                  (IPADDR4_INIT (iph_src ih)) (lwip_htons (uh_src h))
                  (IPADDR4_INIT (iph_dest ih)) (lwip_htons (uh_dest h))] |>), ERR_OK).
Proof.
  intros Hih Hv Hhl Hfr Hpr Hh Hlen Hacc Hl Hb Hf. eexists.
  rewrite (ip4_input_accepts ih) by done.
  rewrite ip4_deliver_transport by (done || by left). rewrite Hpr. unfold transport_input.
  change (IP_PROTO_UDP =? IP_PROTO_UDP) with true. cbn [Ip4In.udp_input udp_alone].
  rewrite (udp_input_datagram h _ c r ct inp inp _ _ i l b f) by done. done.
Qed.

End send.

(** The header [udp_sendto_if_src] writes in front of the octets of [p], with the checksum
    it computes. *)
Definition sent_header (src dst sport dport : Z) (p : pkt) : udp_hdr :=
  let len := 8 + Z.of_nat (length (pk_octets p)) in
  let h0 := UdpHdr (lwip_htons sport) (lwip_htons dport) (lwip_htons len) 0 in
  let c := ip_chksum_pseudo (pk_view (datagram h0 p)) IP_PROTO_UDP len (IPADDR4_INIT src) (IPADDR4_INIT dst) in
  h0 <| uh_chksum := if c =? 0 then 65535 else c |>.

Lemma sent_header_ok src dst sport dport p : udp_hdr_ok (sent_header src dst sport dport p).
Proof.
  unfold sent_header, udp_hdr_ok. cbn [uh_src uh_dest uh_len uh_chksum setter].
  split_and!; try apply lwip_htons_u16. destruct (_ =? 0); [done|apply ip_chksum_pseudo_u16].
Qed.

Lemma sent_header_ports src dst sport dport p : is_u16 sport -> is_u16 dport ->
  lwip_htons (uh_src (sent_header src dst sport dport p)) = sport /\
  lwip_htons (uh_dest (sent_header src dst sport dport p)) = dport.
Proof. intros. unfold sent_header. cbn [uh_src uh_dest setter]. by rewrite !lwip_htons_invol. Qed.

Lemma sent_header_verifies src dst sport dport p :
  is_u32 src -> is_u32 dst -> pk_bytes_ok p -> pk_chunks p <> [] -> Z.of_nat (length (pk_octets p)) + 28 <= 65535 ->
  ip_chksum_pseudo [Chunk false (udp_hdr_octets (sent_header src dst sport dport p) ++ pk_octets p)] IP_PROTO_UDP
    (Z.of_nat (length (pk_octets p)) + 8) (IPADDR4_INIT src) (IPADDR4_INIT dst) = 0.
Proof.
  intros Hsrc Hdst Hbytes Hne Hlen. rewrite Z.add_comm.
  pose proof (sent_header_ok src dst sport dport p) as Hh. unfold sent_header in *. cbv zeta in *.
  set (len := 8 + _) in *. set (h0 := UdpHdr _ _ _ _) in *.
  assert (bytes_ok (pk_octets p)) as Hob by (by apply Forall_concat).
  eapply (udp_header_verifies h0 (pk_octets p) (pk_view (datagram h0 p))); try done.
  - unfold h0, udp_hdr_ok. cbn [uh_src uh_dest uh_len uh_chksum]. split_and!; try apply lwip_htons_u16. done.
  - by apply ip_ok_v4.
  - by apply ip_ok_v4.
  - lia.
  - apply pk_view_ok; [by apply datagram_bytes|]. rewrite datagram_length by done. lia.
  - constructor; [|done]. split; [apply Forall_app; split; [apply udp_hdr_octets_ok|done]|].
    unfold chunk_len. cbn [octets]. rewrite length_app. unfold is_u16, udp_hdr_octets. cbn. lia.
  - rewrite chain_octets_view, datagram_octets by done. done.
  - rewrite chain_octets_cons. cbn [octets chain_octets]. by rewrite app_nil_r.
Qed.

(** C21: A datagram arrives as it was sent: [udp_sendto] hands one packet to the
    driver of the first interface, whose UDP checksum verifies at the receiver (also
    when it had to be sent as 0xffff); given that packet, IPv4 and UDP input
    of a host call the receive callback of its first pcb with exactly the payload,
    the addresses and the ports the sender named, and change nothing else. *)
Theorem udp_sendto_input_round_trip `{driver : netif_driver} `{mem : memory} `{ip6 : ip6_layer} tcp
    pcb b p dst dport n rest src sport s u inp st i l b' f :
  ready_to_send u pcb b -> up_netif_idx b = NETIF_NO_INDEX -> netif_list s = n :: rest ->
  has_room (UDP_HLEN + IP_HLEN) p -> pk_bytes_ok p ->
  Z.of_nat (length (pk_octets p)) + 28 <= 65535 ->
  (nif_mtu n = 0 \/ Z.of_nat (length (pk_octets p)) + 28 <= nif_mtu n) ->
  sendable (up_ttl b) (up_tos b) IP_PROTO_UDP src dst -> is_u16 sport -> is_u16 dport ->
  dst <> netif_ip4_addr n -> acceptable inp src dst ->
  udp_pcbs (st_upper st) = i :: l -> udp_mem (st_upper st) !! i = Some b' -> up_recv b' = Some f ->
  exists q p', udp_sendto pcb p (IPADDR4_INIT dst) dport (IPADDR4_INIT src) sport s u =
      Some (log [Netif_output n q dst] (s <| ip_id := u16 (ip_id s + 1) |>), u, q,
            driver_output n q dst) /\
    ip_chksum_pseudo [Chunk false (drop 20 (pk_octets q))] IP_PROTO_UDP
      (Z.of_nat (length (pk_octets p)) + 8) (IPADDR4_INIT src) (IPADDR4_INIT dst) = 0 /\
    pk_octets p' = pk_octets p /\
    exists m, @ip4_input _ _ _ (udp_alone tcp) q inp st =
      Some (Stack ((st_net st) <| ip_data := ip_data_clear m |>) (st_reass st) (st_reass6 st)
              ((st_upper st) <| udp_events := udp_events (st_upper st) ++
                 [Recv f i p' (IPADDR4_INIT src) sport (IPADDR4_INIT dst) dport] |>), ERR_OK).
Proof.
  intros Hr Hidx Hn Hroom Hbytes Hlen Hmtu Hs Hsp Hdp Hd Hacc Hl Hb' Hf.
  rewrite (udp_sendto_spec pcb b p dst dport n rest) by done.
  assert (has_room UDP_HLEN p) as Hroom8.
  { destruct Hroom as (? & Hx & ?). split; [done|]. split; [|done]. revert Hx. unfold UDP_HLEN, IP_HLEN. lia. }
  rewrite (udp_sendto_if_src_spec pcb b) by (done || lia).
  set (len := 8 + Z.of_nat (length (pk_octets p))).
  set (h0 := UdpHdr _ _ _ _). set (c := ip_chksum_pseudo _ _ _ _ _).
  change (h0 <| uh_chksum := _ |>) with (sent_header src dst sport dport p).
  clear h0 c. set (h := sent_header src dst sport dport p).
  pose proof (datagram_room h p IP_HLEN Hroom ltac:(done)) as Hroom20.
  destruct Hroom as (Hct & _ & Hne).
  pose proof (sent_header_ok src dst sport dport p) as Hh. fold h in Hh.
  assert (Z.of_nat (length (pk_octets (datagram h p))) = len) as Hdl
    by (rewrite datagram_length by done; subst len; lia).
  rewrite ip4_output_if_src_spec by done. rewrite Hdl. rewrite (u16_id (len + 20)) by (unfold is_u16, len; lia).
  set (ih := ip4_header src dst _ _ _ _ _).
  destruct (ip4_header_fields src dst (up_ttl b) (up_tos b) IP_PROTO_UDP (len + 20) (ip_id s)) as
    (Hv & Hhl & Hhlen & Hfr & Es & Ed & Hpr); [unfold is_u16, len; lia|]. fold ih in Hv, Hhl, Hhlen, Hfr, Es, Ed, Hpr.
  assert (ip_hdr_ok ih) as Hih by (by apply ip4_header_ok). clearbody ih.
  assert (pk_tot_len (with_header ih (datagram h p)) = len + 20) as Htot.
  { rewrite pk_tot_len_header, Hdl by done. apply u16_id. unfold is_u16, len. lia. }
  rewrite ip4_transmit_driver by (done || rewrite Htot; unfold len; lia).
  cbn [mbind option_bind]. eexists _, (Pkt _ (hd [] (pk_chunks p) :: tl (pk_chunks p)) _).
  split; [done|]. split; [|split].
  - rewrite with_header_octets, drop_app_length', datagram_octets by done.
    pose proof Hs as (_ & _ & _ & Hsrc & Hdst). by apply sent_header_verifies.
  - unfold pk_octets. cbn [pk_chunks]. by destruct (pk_chunks p).
  - edestruct (ip4_input_datagram tcp ih h) as (m & Hm); try done; try (by rewrite ?Es, ?Ed);
      [|exists m; rewrite <- Es, <- Ed; etrans; [exact Hm|]].
    + by rewrite Hhlen, <- Htot.
    + destruct (sent_header_ports src dst sport dport p Hsp Hdp) as [E1 E2]. fold h in E1, E2. by rewrite E1, E2.
Qed.

Definition example_udp : udp :=
  Udp [3%nat] {[ 3%nat := UdpPcb ip_addr_any ip_addr_any 0 0 0 64 0 53 0 (Some (1, 2)) ]} 50000 [].

Definition no_tcp (p : pkt) (inp : netif) (m : net) (u : udp) : option (net * udp) := None.


Lemma udp_sendto_input_round_trip_witness :
  let st := Stack example_net (Reass [] 0 [] []) (Reass6 [] 0 [] []) example_udp in
  exists q p', @udp_sendto example_driver no_ip6 3 (payload_packet [1; 2; 3])
      (IPADDR4_INIT (addr4 10 0 0 3)) 53 (IPADDR4_INIT (addr4 10 0 0 2)) 4000 example_net example_udp =
      Some (log [Netif_output example_netif q (addr4 10 0 0 3)] (example_net <| ip_id := 8 |>),
            example_udp, q, ERR_OK) /\
    ip_chksum_pseudo [Chunk false (drop 20 (pk_octets q))] IP_PROTO_UDP 11
      (IPADDR4_INIT (addr4 10 0 0 2)) (IPADDR4_INIT (addr4 10 0 0 3)) = 0 /\
    pk_octets p' = [1; 2; 3] /\
    exists m, @ip4_input example_driver example_memory _
        (@udp_alone example_driver example_memory no_ip6 no_tcp) q example_netif st =
      Some (Stack (example_net <| ip_data := ip_data_clear m |>) (Reass [] 0 [] []) (Reass6 [] 0 [] [])
              (example_udp <| udp_events := [Recv (1, 2) 3 p' (IPADDR4_INIT (addr4 10 0 0 2)) 4000
                                               (IPADDR4_INIT (addr4 10 0 0 3)) 53] |>), ERR_OK).
Proof.
  apply (@udp_sendto_input_round_trip example_driver example_memory no_ip6 no_tcp 3
    (UdpPcb ip_addr_any ip_addr_any 0 0 0 64 0 53 0 (Some (1, 2))) (payload_packet [1; 2; 3])
    (addr4 10 0 0 3) 53 example_netif [] (addr4 10 0 0 2) 4000 example_net example_udp example_netif
    (Stack example_net (Reass [] 0 [] []) (Reass6 [] 0 [] []) example_udp) 3 []
    (UdpPcb ip_addr_any ip_addr_any 0 0 0 64 0 53 0 (Some (1, 2))) (1, 2));
    try reflexivity.
  - by split; [|by vm_compute|by right|].
  - split; [done|]. split; [vm_compute; lia|done].
  - unfold pk_bytes_ok. cbn [pk_chunks payload_packet]. by rewrite !Forall_cons, !Forall_nil.
  - by vm_compute.
  - right. by vm_compute.
  - unfold sendable. split_and!; decide_now.
  - by vm_compute.
  - by vm_compute.
  - by vm_compute.
  - split; [by vm_compute|]. split; [by vm_compute|]. intros H. by vm_compute in H.
Defined.
