(* ===== verification/Raw.v ===== *)
(** * Raw IP (core/c/core/raw.c)

    Every incoming packet is offered to the raw pcbs of its protocol before the
    transport protocols see it, until a receive callback eats it; the pcb
    that ate moves to the front of the list.  The callbacks are the
    application's ([raw_application]): the model asks them whether they eat the
    packet and writes the call down.  A callback that calls back into raw.c while
    the list is being walked is outside the model, and so is one that changes
    the packet without eating it (an assertion of the code).

    [IP_SOF_BROADCAST] and multicast options are not compiled. *)

From S2P Require Import Prelude Err Def IpAddr NetifDefs Ip4Addr Chksum Pbuf Packet Ip6Hdr IpHdr Net Ip4 Icmp Ip4In Udp.

Definition RAW_FLAGS_CONNECTED : Z := 1.
Definition RAW_FLAGS_HDRINCL : Z := 2.
Definition RAW_TTL : Z := 64.

(** [struct raw_pcb]; a callback is the function and its argument. *)
Record raw_pcb := RawPcb {
  rp_local_ip : ip_addr; rp_remote_ip : ip_addr; rp_netif_idx : Z; rp_so_options : Z;
  rp_tos : Z; rp_ttl : Z; rp_protocol : Z; rp_flags : Z; rp_recv : option (Z * Z);
  rp_chksum_offset : Z; rp_chksum_reqd : Z
}.

#[export] Instance eta_raw_pcb : EtaRecord raw_pcb := fun b =>
  RawPcb (rp_local_ip b) (rp_remote_ip b) (rp_netif_idx b) (rp_so_options b) (rp_tos b)
    (rp_ttl b) (rp_protocol b) (rp_flags b) (rp_recv b) (rp_chksum_offset b) (rp_chksum_reqd b).

Inductive raw_event := Raw_recv (recv : Z * Z) (pcb : nat) (p : pkt) (addr : ip_addr).

Record raw := Raw {
  raw_pcbs : list nat;                 (* first one first *)
  raw_mem : gmap nat raw_pcb;
  raw_events : list raw_event
}.

#[export] Instance eta_raw : EtaRecord raw := fun r => Raw (raw_pcbs r) (raw_mem r) (raw_events r).

Definition set_raw (i : nat) (b : raw_pcb) (r : raw) : raw :=
  r <| raw_mem := <[i := b]> (raw_mem r) |>.

(** Whether the callback eats the packet. *)
Class raw_application := eats : raw_event -> bool.

(** ** Input *)

Definition raw_input_local_match (b : raw_pcb) (broadcast : bool) (g : ip_globals) : option bool :=
  elsewhere ← (if negb (rp_netif_idx b =? NETIF_NO_INDEX) then
                 n ← current_input_netif g;
                 Some (negb (rp_netif_idx b =? netif_get_index n))
               else Some false);
  if (elsewhere : bool) then Some false
  else if IP_IS_ANY_TYPE_VAL (rp_local_ip b) then Some true
  else if IP_ADDR_PCB_VERSION_MATCH_EXACT (rp_local_ip b) (current_iphdr_dest g) then
    if broadcast then Some (ip_2_ip4 (rp_local_ip b) =? IPADDR_ANY)
    else Some (ip_addr_isany_val (rp_local_ip b)
               || ip_addr_cmp (rp_local_ip b) (current_iphdr_dest g))
  else Some false.

(** The condition of the loop in [raw_input]. *)
Definition raw_match (b : raw_pcb) (proto : Z) (broadcast : bool) (g : ip_globals) : option bool :=
  if rp_protocol b =? proto then
    m ← raw_input_local_match b broadcast g;
    Some (m && (negb (flagset (rp_flags b) RAW_FLAGS_CONNECTED)
                || ip_addr_cmp (rp_remote_ip b) (current_iphdr_src g)))
  else Some false.

Section raw.
Context `{driver : netif_driver} `{ip6 : ip6_layer} `{application : raw_application}.

(** The loop; [before] is the part of the list already passed. *)
Fixpoint raw_input_loop (p : pkt) (proto : Z) (broadcast : bool) (g : ip_globals)
    (before l : list nat) (ret : raw_input_state_t) (r : raw) : option (raw * raw_input_state_t) :=
  match l with
  | [] => Some (r, ret)
  | i :: next =>
      b ← raw_mem r !! i;
      m ← raw_match b proto broadcast g;
      match m, rp_recv b with
      | true, Some recv =>
          let e := Raw_recv recv i p (current_iphdr_src g) in
          let r := r <| raw_events := raw_events r ++ [e] |> in
          if eats e then
            let l := match before with
                     | [] => raw_pcbs r
                     | _ => i :: before ++ next       (* moved to the front *)
                     end in
            Some (r <| raw_pcbs := l |>, RAW_INPUT_EATEN)
          else raw_input_loop p proto broadcast g (before ++ [i]) next RAW_INPUT_DELIVERED r
      | _, _ => raw_input_loop p proto broadcast g (before ++ [i]) next ret r
      end
  end.

(** The protocol of the packet, by the version in its first octet. *)
Definition raw_proto (p : pkt) : Z :=
  let payload := hd [] (pk_chunks p) in
  if Z.shiftr (ld8 payload 0) 4 =? 6 then ld8 payload 6 else ld8 payload 9.

Definition raw_input (p : pkt) (inp : netif) (s : net) (r : raw)
  : option (net * raw * raw_input_state_t) :=
  let g := ip_data s in
  n ← current_netif g;
  let broadcast := ip_addr_isbroadcast (current_iphdr_dest g) n in
  '(r, ret) ← raw_input_loop p (raw_proto p) broadcast g [] (raw_pcbs r) RAW_INPUT_NONE r;
  Some (s, r, ret).

(** ** Pcbs *)

Definition raw_bind (pcb : nat) (ipaddr : option ip_addr) (s : net) (r : raw)
  : option (raw * Z) :=
  match ipaddr with
  | None => Some (r, ERR_VAL)
  | Some ipaddr =>
      b ← raw_mem r !! pcb;
      let local := ip_addr_set ipaddr in
      Some (set_raw pcb (b <| rp_local_ip := give_zone local (ip_2_ip6 local) s |>) r, ERR_OK)
  end.

Definition raw_bind_netif (pcb : nat) (n : option netif) (r : raw) : option raw :=
  b ← raw_mem r !! pcb;
  Some (set_raw pcb (b <| rp_netif_idx := match n with Some n => netif_get_index n
                                          | None => NETIF_NO_INDEX end |>) r).

Definition raw_connect (pcb : nat) (ipaddr : option ip_addr) (s : net) (r : raw)
  : option (raw * Z) :=
  match ipaddr with
  | None => Some (r, ERR_VAL)
  | Some ipaddr =>
      b ← raw_mem r !! pcb;
      let remote := give_zone (ip_addr_set ipaddr) (ip_2_ip6 (rp_local_ip b)) s in
      Some (set_raw pcb (b <| rp_remote_ip := remote |>
                           <| rp_flags := u8 (Z.lor (rp_flags b) RAW_FLAGS_CONNECTED) |>) r, ERR_OK)
  end.

Definition raw_disconnect (pcb : nat) (r : raw) : option raw :=
  b ← raw_mem r !! pcb;
  let remote :=
    if IP_IS_ANY_TYPE_VAL (rp_local_ip b) then ip_addr_any_type
    else ip_addr_set_any (IP_IS_V6_VAL (rp_remote_ip b)) in
  Some (set_raw pcb (b <| rp_remote_ip := remote |> <| rp_netif_idx := NETIF_NO_INDEX |>
                       <| rp_flags := Z.land (rp_flags b) (u8 (Z.lnot RAW_FLAGS_CONNECTED)) |>) r).

Definition raw_recv (pcb : nat) (recv : option (Z * Z)) (r : raw) : option raw :=
  b ← raw_mem r !! pcb; Some (set_raw pcb (b <| rp_recv := recv |>) r).

Definition raw_remove (pcb : nat) (r : raw) : option raw :=
  b ← raw_mem r !! pcb;                            (* pcb->next *)
  let l :=
    match raw_pcbs r with
    | i :: rest => if (i =? pcb)%nat then rest else unlink pcb (raw_pcbs r)
    | [] => []
    end in
  Some (r <| raw_pcbs := l |> <| raw_mem := delete pcb (raw_mem r) |>).

(** [raw_new] and [raw_new_ip_type]: the pcb, or [NULL]. *)
Definition raw_new_ip_type (type proto : Z) (s : net) (r : raw) : option nat * net * raw :=
  match net_malloc s with
  | Some _ :: rest =>
      let pcb := fresh (dom (raw_mem r)) in
      let zero := IpAddr (Ip6Addr [0; 0; 0; 0] 0) type in
      let r := set_raw pcb (RawPcb zero zero 0 0 0 RAW_TTL proto 0 None 0 0) r in
      (Some pcb, s <| net_malloc := rest |>, r <| raw_pcbs := pcb :: raw_pcbs r |>)
  | None :: rest => (None, s <| net_malloc := rest |>, r)
  | [] => (None, s, r)
  end.

Definition raw_new (proto : Z) (s : net) (r : raw) : option nat * net * raw :=
  raw_new_ip_type IPADDR_TYPE_V4 proto s r.

(** Pcbs bound to the old address of an interface follow it. *)
Fixpoint raw_addr_changed_loop (old_addr new_addr : ip_addr) (l : list nat) (r : raw) : option raw :=
  match l with
  | [] => Some r
  | i :: l' =>
      b ← raw_mem r !! i;
      let r := if ip_addr_cmp (rp_local_ip b) old_addr
               then set_raw i (b <| rp_local_ip := ip_addr_set new_addr |>) r else r in
      raw_addr_changed_loop old_addr new_addr l' r
  end.

Definition raw_netif_ip_addr_changed (old_addr new_addr : ip_addr) (r : raw) : option raw :=
  if negb (ip_addr_isany_val old_addr) && negb (ip_addr_isany_val new_addr)
  then raw_addr_changed_loop old_addr new_addr (raw_pcbs r) r
  else Some r.

(** ** Output *)

(** The checksum of an IPv6 payload, when the application asked for it, stored at
    the offset it named. *)
Definition raw_chksum (b : raw_pcb) (src_ip dst_ip : ip_addr) (p : pkt) : option pkt :=
  if IP_IS_V6_VAL dst_ip && negb (rp_chksum_reqd b =? 0) then
    let chksum := ip6_chksum_pseudo (pk_view p) (rp_protocol b) (pk_tot_len p)
                    (ip6_words (ip_2_ip6 src_ip)) (ip6_words (ip_2_ip6 dst_ip)) in
    pk_write (Z.to_nat (rp_chksum_offset b)) (st16 chksum) p
  else Some p.

(** The result: state, the packet as the caller finds it, error code.  A packet
    without room gets an empty pbuf in front, with the room of its own. *)
Definition raw_sendto_if_src (pcb : nat) (p : pkt) (dst_ip : ip_addr) (n : netif)
    (src_ip : ip_addr) (s : net) (r : raw) : option (net * pkt * Z) :=
  b ← raw_mem r !! pcb;
  if negb (IP_ADDR_PCB_VERSION_MATCH (rp_local_ip b) src_ip)
     || negb (IP_ADDR_PCB_VERSION_MATCH (rp_local_ip b) dst_ip) then Some (s, p, ERR_VAL)
  else
    let header_size := if IP_IS_V6_VAL dst_ip then IP6_HLEN else IP_HLEN in
    if flagset (rp_flags b) RAW_FLAGS_HDRINCL then
      if pk_len p <? header_size then Some (s, p, ERR_VAL)
      else ip_output_if_hdrincl p src_ip dst_ip n s
    else if u16 (pk_tot_len p + header_size) <? pk_tot_len p then Some (s, p, ERR_MEM)
    else
      match pk_add_header header_size p with
      | Some q =>
          p ← pk_remove_header header_size q;
          p ← raw_chksum b src_ip dst_ip p;
          ip_output_if p src_ip dst_ip (rp_ttl b) (rp_tos b) (rp_protocol b) n s
      | None =>
          let '(q, s) := pbuf_alloc_ram PBUF_IP 0 s in
          match q with
          | None => Some (s, p, ERR_MEM)
          | Some q =>
              let chained := negb (pk_tot_len p =? 0) in
              p ← raw_chksum b src_ip dst_ip p;
              let q := if chained then pk_cat q p else q in
              '(s, q, err) ← ip_output_if q src_ip dst_ip (rp_ttl b) (rp_tos b) (rp_protocol b) n s;
              Some (s, p, err)
          end
      end.

Definition raw_sendto (pcb : nat) (p : pkt) (ipaddr : option ip_addr) (s : net) (r : raw)
  : option (net * pkt * Z) :=
  match ipaddr with
  | None => Some (s, p, ERR_VAL)
  | Some ipaddr =>
      b ← raw_mem r !! pcb;
      if negb (IP_ADDR_PCB_VERSION_MATCH (rp_local_ip b) ipaddr) then Some (s, p, ERR_VAL)
      else
        let n := if negb (rp_netif_idx b =? NETIF_NO_INDEX) then netif_get_by_index (rp_netif_idx b) s
                 else ip_route (rp_local_ip b) ipaddr s in
        match n with
        | None => Some (s, p, ERR_RTE)
        | Some n =>
            let src_ip :=
              if ip_addr_isany_val (rp_local_ip b) || ip_addr_ismulticast (rp_local_ip b)
              then ip_netif_get_local_ip n ipaddr s else Some (rp_local_ip b) in
            match src_ip with
            | None => Some (s, p, ERR_RTE)
            | Some src_ip => raw_sendto_if_src pcb p ipaddr n src_ip s r
            end
        end
  end.

Definition raw_send (pcb : nat) (p : pkt) (s : net) (r : raw) : option (net * pkt * Z) :=
  b ← raw_mem r !! pcb;
  raw_sendto pcb p (Some (rp_remote_ip b)) s r.

End raw.
