(* ===== verification/RawSpec.v ===== *)
(** * What raw IP promises

    The raw pcbs a packet is offered to, in which order, and what becomes of the
    list. *)

From S2P Require Import Prelude Err Def IpAddr NetifDefs Ip4Addr Packet IpHdr Net Ip4 Icmp Ip4In NetExamples Udp UdpSpec Raw.

(** The list can be followed and names no pcb twice. *)
Record raw_ok (r : raw) : Prop := {
  ro_nodup : NoDup (raw_pcbs r);
  ro_list : Forall (fun i => is_Some (raw_mem r !! i)) (raw_pcbs r)
}.

(** The packet's description is complete, as IP input leaves it. *)
Definition described (g : ip_globals) : Prop :=
  is_Some (current_netif g) /\ is_Some (current_input_netif g).

Section spec.
Context `{application : raw_application}.
Variables (p : pkt) (g : ip_globals) (proto : Z) (broadcast : bool).

(** A pcb that takes the packet: it matches and has a callback. *)
Definition takes (m : gmap nat raw_pcb) (i : nat) : bool :=
  match m !! i with
  | Some b => match raw_match b proto broadcast g, rp_recv b with
              | Some true, Some _ => true
              | _, _ => false
              end
  | None => false
  end.

(** The call its callback gets. *)
Definition offer (m : gmap nat raw_pcb) (i : nat) : raw_event :=
  Raw_recv (default (0, 0) (b ← m !! i; rp_recv b)) i p (current_iphdr_src g).

(** The calls of the loop over [l], and who ate. *)
Fixpoint offers (m : gmap nat raw_pcb) (l : list nat) : list nat * option nat :=
  match l with
  | [] => ([], None)
  | i :: l' =>
      if takes m i then
        if eats (offer m i) then ([i], Some i)
        else let '(o, e) := offers m l' in (i :: o, e)
      else offers m l'
  end.

Lemma raw_match_total b : described g -> is_Some (raw_match b proto broadcast g).
Proof.
  intros [_ [n Hn]]. unfold raw_match, raw_input_local_match. rewrite Hn.
  repeat (case_match; simplify_eq/=; try by eexists).
Qed.

Lemma filter_absent i l : i ∉ l -> List.filter (fun j => negb (j =? i)%nat) l = l.
Proof.
  induction l as [|j l IH]; [done|]. intros Hi. cbn [List.filter].
  destruct (Nat.eqb_spec j i) as [->|]; [exfalso; apply Hi; by left|]. cbn [negb].
  f_equal. apply IH. intros ?. apply Hi. by right.
Qed.

(** What the list is after a walk in which [e] ate. *)
Definition reordered (e : option nat) (l : list nat) : list nat :=
  match e with Some i => i :: List.filter (fun j => negb (j =? i)%nat) l | None => l end.

Lemma raw_input_loop_spec l : forall before ret r,
  described g -> Forall (fun i => is_Some (raw_mem r !! i)) l -> raw_pcbs r = before ++ l ->
  NoDup (raw_pcbs r) ->
  let '(o, e) := offers (raw_mem r) l in
  raw_input_loop p proto broadcast g before l ret r =
    Some (Raw (reordered e (raw_pcbs r)) (raw_mem r) (raw_events r ++ map (offer (raw_mem r)) o),
          match e with Some _ => RAW_INPUT_EATEN
          | None => match o with [] => ret | _ => RAW_INPUT_DELIVERED end end).
Proof.
  induction l as [|i l IH]; intros before ret r Hg Hl Hb Hn; cbn [offers raw_input_loop].
  { rewrite app_nil_r. by destruct r. }
  apply Forall_cons in Hl as [[b Eb] Hl]. unfold takes at 1. rewrite Eb. cbn [mbind option_bind].
  destruct (raw_match_total b Hg) as [m Em]. rewrite Em. cbn [mbind option_bind].
  assert (forall ret es, raw_input_loop p proto broadcast g (before ++ [i]) l ret (r <| raw_events := es |>) =
    let '(o, e) := offers (raw_mem r) l in
    Some (Raw (reordered e (raw_pcbs r)) (raw_mem r) (es ++ map (offer (raw_mem r)) o),
          match e with Some _ => RAW_INPUT_EATEN
          | None => match o with [] => ret | _ => RAW_INPUT_DELIVERED end end)) as Hnext.
  { intros ret' es. set (r' := r <| raw_events := es |>).
    pose proof (IH (before ++ [i]) ret' r' Hg Hl) as H.
    change (raw_mem r') with (raw_mem r) in H. destruct (offers (raw_mem r) l).
    apply H; [by rewrite <- app_assoc|done]. }
  pose proof (Hnext ret (raw_events r)) as Hsame.
  replace (r <| raw_events := raw_events r |>) with r in Hsame by (by destruct r).
  destruct m, (rp_recv b) as [f|] eqn:Ef;
    try (rewrite Hsame; by destruct (offers (raw_mem r) l)).
  assert (Raw_recv f i p (current_iphdr_src g) = offer (raw_mem r) i) as ->
    by (unfold offer; rewrite Eb; cbn [mbind option_bind]; by rewrite Ef).
  destruct (eats _).
  - cbn [raw_pcbs raw_mem raw_events setter map reordered]. do 3 f_equal.
    rewrite Hb in *. rewrite List.filter_app. cbn [List.filter]. rewrite Nat.eqb_refl. cbn [negb].
    apply NoDup_app in Hn as (_ & Hbi & Hn). apply NoDup_cons in Hn as [Hil _].
    rewrite !filter_absent; [|done|by intros Hi; apply (Hbi i Hi); left]. by destruct before.
  - rewrite Hnext. destruct (offers (raw_mem r) l) as [o e]. cbn [map].
    rewrite <- app_assoc. cbn [app]. do 2 f_equal. by destruct e, o.
Qed.

(** Who is called: everybody who takes the packet, in order, up to the first who
    eats it. *)
Lemma offers_spec m l :
  let '(o, e) := offers m l in
  match e with
  | None => o = List.filter (takes m) l /\ Forall (fun i => eats (offer m i) = false) o
  | Some i => exists before after, o = before ++ [i] /\ List.filter (takes m) l = o ++ after /\
      eats (offer m i) = true /\ Forall (fun j => eats (offer m j) = false) before
  end.
Proof.
  induction l as [|i l IH]; cbn [offers List.filter]; [done|].
  destruct (takes m i); [|done]. destruct (eats (offer m i)) eqn:E.
  - by exists [], (List.filter (takes m) l).
  - destruct (offers m l) as [o [j|]].
    + destruct IH as (before & after & -> & -> & Hj & Hb). exists (i :: before), after.
      split_and!; try done. by constructor.
    + destruct IH as [-> Ho]. split; [done|]. by constructor.
Qed.

Lemma reordered_perm i l : NoDup l -> i ∈ l -> reordered (Some i) l ≡ₚ l.
Proof.
  intros Hn (l1 & l2 & ->)%list_elem_of_split. cbn [reordered]. rewrite List.filter_app. cbn [List.filter].
  rewrite Nat.eqb_refl. cbn [negb]. apply NoDup_app in Hn as (_ & H1 & Hn).
  apply NoDup_cons in Hn as [H2 _]. rewrite !filter_absent; [|done|by intros Hi; apply (H1 i Hi); left].
  apply Permutation_middle.
Qed.
End spec.

(** Who gets a raw packet: [raw_input] returns for every packet, calls the
    callbacks of the pcbs that match it in list order up to the first that eats
    it and no others, each with the packet and the sender, and reports whether it was
    eaten, delivered or not taken.  It leaves pcbs alone; a pcb that ate is the
    first of the list afterwards and the others keep their order, so that the
    list still holds each pcb once. *)
Theorem raw_input_delivers `{application : raw_application} p inp s r n :
  raw_ok r -> current_netif (ip_data s) = Some n -> is_Some (current_input_netif (ip_data s)) ->
  let g := ip_data s in
  let takers := List.filter (takes g (raw_proto p) (ip_addr_isbroadcast (current_iphdr_dest g) n) (raw_mem r)) (raw_pcbs r) in
  exists r' ret called, raw_input p inp s r = Some (s, r', ret) /\
    raw_mem r' = raw_mem r /\ raw_ok r' /\
    raw_events r' = raw_events r ++ map (offer p g (raw_mem r)) called /\
    match ret with
    | RAW_INPUT_EATEN => exists before i after, called = before ++ [i] /\ takers = called ++ after /\
        eats (offer p g (raw_mem r) i) = true /\
        Forall (fun j => eats (offer p g (raw_mem r) j) = false) before /\
        raw_pcbs r' = i :: List.filter (fun j => negb (j =? i)%nat) (raw_pcbs r)
    | _ => called = takers /\ Forall (fun j => eats (offer p g (raw_mem r) j) = false) called /\
        raw_pcbs r' = raw_pcbs r /\ (ret = RAW_INPUT_NONE <-> takers = [])
    end.
Proof.
  intros [Hn Hl] Hcur Hinp g takers. unfold raw_input. fold g. subst g. rewrite Hcur. cbn [mbind option_bind].
  set (g := ip_data s) in *. set (bc := ip_addr_isbroadcast _ _) in *.
  pose proof (raw_input_loop_spec p g (raw_proto p) bc (raw_pcbs r) [] RAW_INPUT_NONE r) as H.
  pose proof (offers_spec p g (raw_proto p) bc (raw_mem r) (raw_pcbs r)) as Ho.
  destruct (offers _ _ _ _ _ _) as [o e]. fold takers in Ho.
  rewrite H by (done || split; by rewrite ?Hcur). cbn [mbind option_bind].
  eexists _, _, o. split; [done|]. cbn [raw_mem raw_events raw_pcbs]. split; [done|].
  destruct e as [i|].
  - destruct Ho as (before & after & -> & Et & He & Hb).
    assert (i ∈ raw_pcbs r) as Hi.
    { assert (i ∈ takers) as Hin by (rewrite Et; set_solver).
      apply list_elem_of_In, filter_In in Hin as [Hin _]. by apply list_elem_of_In. }
    pose proof (reordered_perm i _ Hn Hi) as Hp. split.
    + split; cbn [raw_pcbs raw_mem]; [by rewrite Hp|]. rewrite Forall_forall. intros j Hj.
      rewrite Hp in Hj. rewrite Forall_forall in Hl. by apply Hl.
    + split; [done|]. by exists before, i, after.
  - destruct Ho as [-> Hb]. split; [by split|]. split; [done|].
    destruct takers; (split_and!; try done).
Qed.

(** Three pcbs for protocol 47; the last one eats. *)
Definition example_raw_pcb (proto recv : Z) : raw_pcb :=
  RawPcb ip_addr_any ip_addr_any 0 0 0 64 proto 0 (Some (recv, 0)) 0 0.

Definition example_raw : raw :=
  Raw [1%nat; 2%nat; 3%nat; 4%nat]
    (<[1%nat := example_raw_pcb 47 100]> (<[2%nat := example_raw_pcb 6 101]>
      (<[3%nat := example_raw_pcb 47 102]> {[ 4%nat := example_raw_pcb 47 103 ]}))) [].

Definition third_eats : raw_application := fun e => let 'Raw_recv _ i _ _ := e in (i =? 3)%nat.

Definition gre_packet : pkt := Pkt [] [[69; 0; 0; 20; 0; 0; 0; 0; 64; 47; 0; 0; 10; 0; 0; 2; 10; 0; 0; 1]] true.

Definition gre_net : net :=
  example_net <| ip_data := IpGlobals (Some example_netif) (Some example_netif) None None 20
    (IPADDR4_INIT (addr4 10 0 0 2)) (IPADDR4_INIT (addr4 10 0 0 1)) |>.

Lemma raw_input_delivers_witness :
  let offer := offer gre_packet (ip_data gre_net) (raw_mem example_raw) in
  let takers := List.filter (takes (ip_data gre_net) 47 false (raw_mem example_raw)) [1%nat; 2%nat; 3%nat; 4%nat] in
  @raw_input third_eats gre_packet example_netif gre_net example_raw =
    Some (gre_net, Raw [3%nat; 1%nat; 2%nat; 4%nat] (raw_mem example_raw) [offer 1%nat; offer 3%nat],
          RAW_INPUT_EATEN) /\
  exists r' ret called, @raw_input third_eats gre_packet example_netif gre_net example_raw = Some (gre_net, r', ret) /\
    raw_mem r' = raw_mem example_raw /\ raw_ok r' /\ raw_events r' = map offer called /\
    match ret with
    | RAW_INPUT_EATEN => exists before i after, called = before ++ [i] /\ takers = called ++ after /\
        third_eats (offer i) = true /\ Forall (fun j => third_eats (offer j) = false) before /\
        raw_pcbs r' = i :: List.filter (fun j => negb (j =? i)%nat) [1%nat; 2%nat; 3%nat; 4%nat]
    | _ => called = takers /\ Forall (fun j => third_eats (offer j) = false) called /\
        raw_pcbs r' = [1%nat; 2%nat; 3%nat; 4%nat] /\ (ret = RAW_INPUT_NONE <-> takers = [])
    end.
Proof.
  intros offer takers. split; [by vm_compute|].
  apply (@raw_input_delivers third_eats gre_packet example_netif gre_net example_raw example_netif).
  - split; [decide_now|]. cbn [raw_pcbs example_raw]. rewrite !Forall_cons, Forall_nil.
    split_and!; by eexists.
  - done.
  - by eexists.
Defined.
