(* ===== verification/Ip4Stack.v ===== *)
(** * IPv4 input with the layers above it

    raw.c and udp.c under [ip4_input], composed as the code composes them, over a
    state that holds the pcbs of both and the state of TCP.  [tcp_input] is a
    parameter: TcpIn models it over a state of its own, in which it can
    abort.  [ip4_input_returns] is the theorem of this file. *)

From S2P Require Import Prelude Err Def IpAddr NetifDefs Ip4Addr Pbuf Packet IpHdr Ip4Frag Ip6Frag Ip4FragSpec Net Ip4 Icmp Ip4In NetExamples Ip4Spec Ip4InSpec Udp UdpSpec Raw RawSpec.

(** The state above IP; [T] is that of TCP. *)
Record above (T : Type) := Above { ab_raw : raw; ab_udp : udp; ab_tcp : T }.
Arguments Above {T} _ _ _.
Arguments ab_raw {T} _.
Arguments ab_udp {T} _.
Arguments ab_tcp {T} _.

Abbreviation tcp_layer T := (pkt -> netif -> net -> T -> option (net * T)).

(** raw.c, udp.c and TCP as what [ip4_input] calls. *)
Definition transports `{driver : netif_driver} `{mem : memory} `{ip6 : ip6_layer}
    `{application : raw_application} {T} (tcp : tcp_layer T) : upper_layers (above T) := {|
  Ip4In.raw_input p inp m a :=
    '(m, r, st) ← Raw.raw_input p inp m (ab_raw a); Some (m, Above r (ab_udp a) (ab_tcp a), st);
  Ip4In.udp_input p inp m a :=
    '(m, u) ← Udp.udp_input p inp m (ab_udp a); Some (m, Above (ab_raw a) u (ab_tcp a));
  Ip4In.tcp_input p inp m a :=
    '(m, t) ← tcp p inp m (ab_tcp a); Some (m, Above (ab_raw a) (ab_udp a) t)
|}.

(** The invariants of the pcb lists. *)
Definition above_ok {T} (a : above T) : Prop := raw_ok (ab_raw a) /\ udp_ok (ab_udp a).

(** Hiding a header behind a header. *)
Lemma pk_remove_header_twice a b p q r :
  0 <= a -> 0 <= b -> pk_remove_header a p = Some q -> pk_remove_header b q = Some r ->
  pk_remove_header (a + b) p = Some r.
Proof.
  intros Ha Hb. unfold pk_remove_header. destruct (pk_chunks p) as [|c l]; [done|].
  destruct (Z.leb_spec a (Z.of_nat (length c))); [|done]. intros [= <-]. cbn [pk_chunks pk_room pk_contig].
  rewrite length_drop. destruct (Z.leb_spec b (Z.of_nat (length c - Z.to_nat a))); [|done].
  intros [= <-]. rewrite (proj2 (Z.leb_le _ _)) by lia.
  rewrite <- app_assoc, drop_drop, Z2Nat.inj_add by done. do 3 f_equal. by rewrite take_take_drop.
Qed.

Section stack.
Context `{driver : netif_driver} `{mem : memory} `{ip6 : ip6_layer} `{application : raw_application}.
Context (Hmem : forall p, (8 <= length (octets_behind p))%nat).

Lemma raw_input_returns p inp m r :
  Ip4InSpec.described inp m -> raw_ok r ->
  exists r' st, Raw.raw_input p inp m r = Some (m, r', st) /\ raw_ok r'.
Proof.
  intros (_ & _ & Hi & _ & n & _ & Hn & _) Hr.
  destruct (raw_input_delivers p inp m r n Hr Hn) as (r' & st & l & E & _ & Hok & _);
    [by eexists|by eauto].
Qed.

(** The answer to a datagram for a closed port quotes it from its IP header on. *)
Lemma port_unreach_returns p0 p q inp m :
  handed p0 p inp m -> pk_remove_header UDP_HLEN p = Some q ->
  exists m', icmp_port_unreach (ip_current_is_v6 (ip_data m))
    (default q (pk_header_force (s16 (current_ip_header_tot_len (ip_data m) + UDP_HLEN)) q)) m =
    Some m' /\ kept m m'.
Proof.
  intros (Hp & Hl & Hd & Hh & E) Eq. pose proof Hd as (_ & Hm & _ & H6 & _).
  unfold ip_current_is_v6. rewrite H6. set (hlen := current_ip_header_tot_len _) in *.
  assert (0 <= UDP_HLEN) as H8 by done.
  pose proof (pk_remove_header_twice _ _ _ _ _ (proj1 Hh) H8 E Eq) as E2. unfold UDP_HLEN in *.
  replace (s16 (hlen + 8)) with (hlen + 8) by (unfold s16; Z.div_mod_to_equations; lia).
  rewrite (pk_header_round_trip _ p0 q); [|lia|done]. cbn [default].
  unfold icmp_port_unreach, icmp_dest_unreach. by apply icmp_send_response_total.
Qed.

Lemma udp_input_returns p0 p inp m u :
  handed p0 p inp m -> udp_ok u ->
  exists m' u', Udp.udp_input p inp m u = Some (m', u') /\ kept m m' /\ udp_ok u'.
Proof.
  intros Hh Hu. enough (exists m' u', Udp.udp_input p inp m u = Some (m', u') /\ kept m m')
    as (m' & u' & E & Hk).
  { exists m', u'. split; [done|]. split; [done|]. eapply udp_call_ok; [by eapply call_input|done]. }
  pose proof Hh as (Hp0 & _ & (_ & _ & _ & _ & n & _ & Hn & _) & _ & E).
  assert (pk_fits p) as Hp by by eapply pk_remove_header_fits.
  unfold Udp.udp_input. destruct (Z.ltb_spec (pk_len p) UDP_HLEN); [by eexists _, _|].
  rewrite Hn. cbn [mbind option_bind].
  destruct (pk_remove_header_total UDP_HLEN p (proj1 Hp)) as [q Eq]; [done|]. rewrite Eq.
  destruct (udp_pcbs u) as [|i l] eqn:El.
  - destruct (udp_for_us _ _); [|by eexists _, _]. cbn [mbind option_bind].
    destruct (_ && _); [|by eexists _, _].
    destruct (port_unreach_returns p0 p q inp m Hh Eq) as (m' & -> & Hk). by eexists _, _.
  - destruct (list_ok_elem u i (uo_list u Hu)) as [b Eb]; [rewrite El; by left|].
    rewrite Eb. cbn [mbind option_bind]. destruct (up_recv b); by eexists _, _.
Qed.

Context {T : Type} (tcp : tcp_layer T).
Context (tcp_kept : forall p inp m t m' t', tcp p inp m t = Some (m', t') -> kept m m').

Lemma transports_promise : layers_promise (layers := transports tcp) above_ok.
Proof.
  split.
  - intros p inp m [r u t] Hd [Hr Hu]. cbn.
    destruct (raw_input_returns p inp m r Hd Hr) as (r' & st & -> & Hr').
    eexists _, _, _. split; [done|]. by split.
  - intros p0 p inp m [r u t] Hh [Hr Hu]. cbn.
    destruct (udp_input_returns p0 p inp m u Hh Hu) as (m' & u' & -> & Hk & Hu').
    eexists _, _. split; [done|]. by split.
  - intros p inp m [r u t] m' a' [Hr Hu] E. cbn in E.
    destruct (tcp p inp m t) as [[m1 t1]|] eqn:Et; [|done]. injection E as <- <-.
    split; [by eapply tcp_kept|done].
Qed.

(** C23: Whatever arrives, IPv4 input comes back with [ERR_OK] and with the
    invariants of reassembly and of the raw and UDP pcb lists kept, through
    reassembly, raw.c, udp.c, icmp.c and their answers, unless [tcp_input] (a
    parameter, which TcpIn shows can abort) has no result on a TCP datagram:
    no length in a header, no sequence of fragments, no option, no address, no
    other protocol and no shortage of memory leads to an abort, an access outside
    of the packet or an endless loop.  Conditions: memory goes on for 8 octets behind a
    packet (an ICMP answer quotes them), no interface has an MTU of 1 to 27, and TCP,
    when it returns, leaves the interfaces and the description of the packet
    alone; a callback of the application counts as a call that returns. *)
Theorem ip4_input_returns p inp (s : stack (above T)) :
  arriving p -> mtu_ok inp -> stack_ok above_ok s ->
  (exists s', ip4_input (layers := transports tcp) p inp s = Some (s', ERR_OK) /\
     stack_ok above_ok s') \/
  (exists p0 q m, goes_up p s p0 /\ _proto (pkt_hdr p0) = IP_PROTO_TCP /\
     handed p0 q inp m /\ tcp q inp m (ab_tcp (st_upper s)) = None).
Proof.
  intros Hp Hm Hs.
  destruct (ip4_input_outcome (layers := transports tcp) Hmem above_ok transports_promise p inp s Hp Hm Hs)
    as [?|(p0 & Hup & Hproto & m0 & m & a & st & q & Eraw & _ & Hh & Et)]; [by left|right].
  exists p0, q, m. do 3 (split; [done|]). cbn in Eraw, Et.
  destruct (Raw.raw_input _ _ _ _) as [[[m1 r] st1]|]; [|done]. injection Eraw as -> <- _.
  cbn [ab_tcp ab_raw ab_udp mbind option_bind] in Et. by destruct (tcp q inp m _) as [[? ?]|].
Qed.

End stack.

(** A host with raw pcbs, no UDP pcb and a TCP that takes every segment but the
    empty one. *)
Definition example_tcp : tcp_layer (list (list Z)) := fun p inp m t =>
  match pk_octets p with [] => None | l => Some (m, t ++ [l]) end.

Definition example_host : stack (above (list (list Z))) :=
  Stack (example_net <| net_malloc := [Some (fun _ => 0)] |>) (Reass [] 0 [] []) (Reass6 [] 0 [] [])
    (Above example_raw (udp_initial 7) []).

Lemma example_raw_ok : raw_ok example_raw.
Proof.
  split; [decide_now|]. cbn [raw_pcbs example_raw]. rewrite !Forall_cons, Forall_nil.
  split_and!; by eexists.
Qed.

Lemma example_host_ok : stack_ok above_ok example_host.
Proof.
  split_and!.
  - split; [constructor|]. by split.
  - split; constructor.
  - constructor; [|constructor]. right. by vm_compute.
  - done.
  - split; [apply example_raw_ok|by apply udp_initial_ok].
Qed.

(** A datagram for a port nobody has: it is answered with an ICMP message. *)
Definition closed_port : pkt :=
  Pkt [] [[69; 0; 0; 28; 0; 0; 0; 0; 64; 17; 0; 0; 10; 0; 0; 2; 10; 0; 0; 1; 0; 7; 0; 9; 0; 8; 0; 0]] false.

Lemma ip4_input_returns_witness :
  exists s', @ip4_input example_driver example_memory _
      (@transports example_driver example_memory no_ip6 third_eats _ example_tcp)
      closed_port example_netif example_host = Some (s', ERR_OK) /\
    stack_ok above_ok s' /\ goes_up closed_port example_host closed_port.
Proof.
  destruct (@ip4_input_returns example_driver example_memory no_ip6 third_eats
    ltac:(intros p; vm_compute; lia) _ example_tcp) with (p := closed_port) (inp := example_netif)
    (s := example_host) as [(s' & E & Hs)|(p0 & q & m & Hup & Hproto & _)].
  - intros p inp m t m' t'. unfold example_tcp. by destruct (pk_octets p); intros [= <- _].
  - repeat split; try done; try decide_now; vm_compute; done.
  - right. vm_compute. done.
  - apply example_host_ok.
  - exists s'. by split.
  - exfalso. cbv [goes_up] in Hup. revert Hup. vm_compute is_fragment. intros ->. by vm_compute in Hproto.
Defined.
