(* ===== verification/Timeouts.v ===== *)
(** * Timers (core/c/core/timeouts.c, core/c/include/lwip/timeouts.h)

    The list of pending timeouts, kept sorted by a 32-bit millisecond clock
    that wraps around, and the functions that fill, run and query it.  The
    clock, the allocator and the code the timers call belong to other parts of
    the system: they are the operations of the class [timer_env]. *)

From stdpp Require Import sorting.
From S2P Require Import Prelude.

(** ** Data *)

(** A [sys_timeout_handler]: the two of timeouts.c itself, any other one by a
    number, or [NULL]. *)
Inductive handler := LwipCyclicTimer | TcpipTcpTimer | OtherHandler (n : Z) | NullHandler.

#[export] Instance handler_eq_dec : EqDecision handler.
Proof. solve_decision. Defined.

(** [struct sys_timeo]; the list links are the order of a list. *)
Record sys_timeo := SysTimeo { time : Z; h : handler; arg : Z }.

(** The static variables of timeouts.c, and the rest of the program. *)
Record sys (W : Type) := Sys {
  next_timeout : list sys_timeo;
  current_timeout_due_time : Z;
  tcpip_tcp_timer_active : bool;
  world : W
}.
Arguments Sys {W}.
Arguments next_timeout {W}.
Arguments current_timeout_due_time {W}.
Arguments tcpip_tcp_timer_active {W}.
Arguments world {W}.

(** [lwip_cyclic_timers]: [tcp_tmr], [ip_reass_tmr], [nd6_tmr], [ip6_reass_tmr];
    ARP, DHCP, AutoIP, IGMP, DNS, MLD and DHCPv6 are not built. *)
Definition TCP_TMR_INTERVAL : Z := 250.
Definition lwip_cyclic_timers : list Z := [TCP_TMR_INTERVAL; 1000; 1000; 1000].

Definition LWIP_MAX_TIMEOUT : Z := 2147483647.
Definition SYS_TIMEOUTS_SLEEPTIME_INFINITE : Z := 4294967295.

(** The code the timers call. *)
Inductive callee :=
  | CyclicHandler (i : nat)      (* [lwip_cyclic_timers[i].handler] *)
  | UserHandler (n arg : Z)
  | FreeOoseq.                   (* [PBUF_CHECK_FREE_OOSEQ] *)

Class timer_env (W : Type) := {
  sys_now : W -> W * Z;
  memp_malloc_ok : W -> W * bool;          (* a [MEMP_SYS_TIMEOUT] element *)
  tcp_pcbs : W -> bool;                    (* [tcp_active_pcbs || tcp_tw_pcbs] *)
  call : callee -> sys W -> option (sys W)
}.

Definition TIME_LESS_THAN (t compare_to : Z) : bool :=
  LWIP_MAX_TIMEOUT <? u32 (t - compare_to).

Section timeouts.
Context {W : Type} `{!timer_env W}.

Definition set_timeouts (l : list sys_timeo) (s : sys W) : sys W :=
  Sys l (current_timeout_due_time s) (tcpip_tcp_timer_active s) (world s).
Definition set_world (w : W) (s : sys W) : sys W :=
  Sys (next_timeout s) (current_timeout_due_time s) (tcpip_tcp_timer_active s) w.
Definition set_active (a : bool) (s : sys W) : sys W :=
  Sys (next_timeout s) (current_timeout_due_time s) a (world s).

Definition now (s : sys W) : sys W * Z :=
  let '(w, t) := sys_now (world s) in (set_world w s, u32 t).

(** ** Adding and removing *)

(** The [for] loop of [sys_timeout_abs], from the element [t] on. *)
Fixpoint insert_after (timeout t : sys_timeo) (rest : list sys_timeo) : list sys_timeo :=
  match rest with
  | [] => [t; timeout]
  | n :: rest' =>
      if TIME_LESS_THAN (time timeout) (time n) then t :: timeout :: rest
      else t :: insert_after timeout n rest'
  end.

Definition insert_timeout (timeout : sys_timeo) (l : list sys_timeo) : list sys_timeo :=
  match l with
  | [] => [timeout]
  | t :: rest =>
      if TIME_LESS_THAN (time timeout) (time t) then timeout :: l
      else insert_after timeout t rest
  end.

Definition sys_timeout_abs (abs_time : Z) (hd : handler) (a : Z) (s : sys W) : option (sys W) :=
  let '(w, ok) := memp_malloc_ok (world s) in
  let s := set_world w s in
  lwip_assert ok;
  Some (set_timeouts (insert_timeout (SysTimeo abs_time hd a) (next_timeout s)) s).

Definition sys_timeout (msecs : Z) (hd : handler) (a : Z) (s : sys W) : option (sys W) :=
  lwip_assert (msecs <=? 4294967295 / 4);
  let '(s, t) := now s in
  sys_timeout_abs (u32 (t + msecs)) hd a s.

Fixpoint untimeout (hd : handler) (a : Z) (l : list sys_timeo) : list sys_timeo :=
  match l with
  | [] => []
  | t :: rest => if decide (h t = hd /\ arg t = a) then rest else t :: untimeout hd a rest
  end.

Definition sys_untimeout (hd : handler) (a : Z) (s : sys W) : sys W :=
  set_timeouts (untimeout hd a (next_timeout s)) s.

(** ** Handlers *)

(** The argument of a cyclic timer points into [lwip_cyclic_timers]. *)
Definition lwip_cyclic_timer (a : Z) (s : sys W) : option (sys W) :=
  interval_ms ← lwip_cyclic_timers !! Z.to_nat a;
  s ← call (CyclicHandler (Z.to_nat a)) s;
  let '(s, t) := now s in
  let next_timeout_time := u32 (current_timeout_due_time s + interval_ms) in
  if TIME_LESS_THAN next_timeout_time t
  then sys_timeout_abs (u32 (t + interval_ms)) LwipCyclicTimer a s
  else sys_timeout_abs next_timeout_time LwipCyclicTimer a s.

Definition tcpip_tcp_timer (s : sys W) : option (sys W) :=
  s ← call (CyclicHandler 0) s;
  if tcp_pcbs (world s) then sys_timeout TCP_TMR_INTERVAL TcpipTcpTimer 0 s
  else Some (set_active false s).

Definition tcp_timer_needed (s : sys W) : option (sys W) :=
  if negb (tcpip_tcp_timer_active s) && tcp_pcbs (world s)
  then sys_timeout TCP_TMR_INTERVAL TcpipTcpTimer 0 (set_active true s)
  else Some s.

Definition run_handler (hd : handler) (a : Z) (s : sys W) : option (sys W) :=
  match hd with
  | LwipCyclicTimer => lwip_cyclic_timer a s
  | TcpipTcpTimer => tcpip_tcp_timer s
  | OtherHandler n => call (UserHandler n a) s
  | NullHandler => Some s
  end.

(** [sys_timeouts_init]: from index 1, [tcp_tmr] is started on demand. *)
Fixpoint init_from (i : nat) (l : list Z) (s : sys W) : option (sys W) :=
  match l with
  | [] => Some s
  | interval :: rest =>
      s ← sys_timeout interval LwipCyclicTimer (Z.of_nat i) s;
      init_from (S i) rest s
  end.

Definition sys_timeouts_init (s : sys W) : option (sys W) :=
  init_from 1 (tail lwip_cyclic_timers) s.

(** ** Running the timers *)

(** A timeout that is due: it is unlinked before its handler runs. *)
Definition fire (t : sys_timeo) (rest : list sys_timeo) (s : sys W) : option (sys W) :=
  run_handler (h t) (arg t) (Sys rest (time t) (tcpip_tcp_timer_active s) (world s)).

Fixpoint check_timeouts_loop (fuel : nat) (nw : Z) (s : sys W) : option (sys W) :=
  match fuel with
  | O => None
  | S f =>
      s ← call FreeOoseq s;
      match next_timeout s with
      | [] => Some s
      | t :: rest =>
          if TIME_LESS_THAN nw (time t) then Some s
          else
            s ← fire t rest s;
            check_timeouts_loop f nw s
      end
  end.

(** The loop ends when no expired timeout is left; [fuel] bounds the handlers
    that may run. *)
Definition sys_check_timeouts (fuel : nat) (s : sys W) : option (sys W) :=
  let '(s, nw) := now s in check_timeouts_loop fuel nw s.

Definition sys_restart_timeouts (s : sys W) : sys W :=
  match next_timeout s with
  | [] => s
  | t0 :: _ =>
      let '(s, nw) := now s in
      let base := time t0 in
      set_timeouts (map (fun t => SysTimeo (u32 (u32 (time t - base) + nw)) (h t) (arg t))
                        (next_timeout s)) s
  end.

Definition sys_timeouts_sleeptime (s : sys W) : option (sys W * Z) :=
  match next_timeout s with
  | [] => Some (s, SYS_TIMEOUTS_SLEEPTIME_INFINITE)
  | t :: _ =>
      let '(s, nw) := now s in
      if TIME_LESS_THAN (time t) nw then Some (s, 0)
      else
        let ret := u32 (time t - nw) in
        lwip_assert (ret <=? LWIP_MAX_TIMEOUT);
        Some (s, ret)
  end.

End timeouts.

(** ** Lemmas *)

(** The order of the list is the order of the distances from a base time, as
    long as they all lie in one half of the clock's range. *)
Definition dist (base t : Z) : Z := u32 (t - base).
Definition in_window (base t : Z) : Prop := dist base t <= LWIP_MAX_TIMEOUT.

Lemma time_less_than_dist base t t' :
  in_window base t -> in_window base t' ->
  TIME_LESS_THAN t t' = (dist base t <? dist base t').
Proof.
  unfold in_window, dist, TIME_LESS_THAN, LWIP_MAX_TIMEOUT. intros H1 H2.
  assert (u32 (t - t') = u32 (u32 (t - base) - u32 (t' - base))) as ->.
  { unfold u32. rewrite <- Zminus_mod. f_equal. lia. }
  pose proof (u32_bound (t - base)) as Hb1. pose proof (u32_bound (t' - base)) as Hb2.
  set (a := u32 (t - base)) in *. set (b := u32 (t' - base)) in *.
  destruct (Z.ltb_spec a b); [apply Z.ltb_lt|apply Z.ltb_ge]; word_lia.
Qed.

Definition sorted_from (base : Z) (l : list sys_timeo) : Prop :=
  Forall (fun t => in_window base (time t)) l /\
  StronglySorted (fun t t' => dist base (time t) <= dist base (time t')) l.

(** Insertion behind every timeout that is due no later. *)
Fixpoint insert_spec (base : Z) (x : sys_timeo) (l : list sys_timeo) : list sys_timeo :=
  match l with
  | [] => [x]
  | t :: r => if dist base (time x) <? dist base (time t) then x :: l else t :: insert_spec base x r
  end.

Lemma insert_after_spec base x : forall l t,
  Forall (fun t => in_window base (time t)) (x :: l) ->
  insert_after x t l = t :: insert_spec base x l.
Proof.
  induction l as [|n l IH]; intros t Hw; simpl; [done|].
  apply Forall_cons in Hw as [Hx Hl]. apply Forall_cons in Hl as [Hn Hl].
  rewrite (time_less_than_dist base) by done.
  destruct (Z.ltb_spec (dist base (time x)) (dist base (time n))); [done|].
  rewrite IH; [done|]. by constructor.
Qed.

Lemma insert_timeout_spec base x l :
  Forall (fun t => in_window base (time t)) (x :: l) ->
  insert_timeout x l = insert_spec base x l.
Proof.
  intros Hw. destruct l as [|t l]; [done|]. simpl.
  pose proof Hw as [Hx Hl]%Forall_cons. apply Forall_cons in Hl as [Ht Hl].
  rewrite (time_less_than_dist base) by done.
  destruct (Z.ltb_spec (dist base (time x)) (dist base (time t))); [done|].
  apply insert_after_spec. by constructor.
Qed.

Lemma insert_spec_app base x l :
  sorted_from base l ->
  exists l1 l2, l = l1 ++ l2 /\ insert_spec base x l = l1 ++ x :: l2 /\
    Forall (fun t => dist base (time t) <= dist base (time x)) l1 /\
    Forall (fun t => dist base (time x) < dist base (time t)) l2.
Proof.
  intros [_ Hs]. induction l as [|t l IH]; simpl; [by exists [], []|].
  apply StronglySorted_inv in Hs as [Hs Ht].
  destruct (Z.ltb_spec (dist base (time x)) (dist base (time t))) as [Hlt|Hge].
  - exists [], (t :: l). split_and!; try done. constructor; [done|].
    eapply Forall_impl; [exact Ht|]. simpl. lia.
  - destruct (IH Hs) as (l1 & l2 & -> & -> & H1 & H2). exists (t :: l1), l2.
    split_and!; try done. by constructor.
Qed.

Lemma insert_spec_sorted base x l :
  sorted_from base l -> in_window base (time x) -> sorted_from base (insert_spec base x l).
Proof.
  intros Hs Hx. pose proof Hs as [Hw Hso].
  destruct (insert_spec_app base x l Hs) as (l1 & l2 & El & -> & H1 & H2).
  rewrite El in Hw, Hso. apply Forall_app in Hw as [Hw1 Hw2].
  apply StronglySorted_app in Hso as (H12 & Hs1 & Hs2).
  rewrite Forall_forall in H1, H2. split.
  - apply Forall_app. split; [done|]. by constructor.
  - apply StronglySorted_app_2; [|done|].
    + intros y z Hy [->|Hz]%elem_of_cons; [by apply H1|by apply H12].
    + constructor; [done|]. apply Forall_forall. intros y Hy. apply Z.lt_le_incl. by apply H2.
Qed.

Lemma untimeout_spec hd a l :
  (untimeout hd a l = l /\ Forall (fun t => ~ (h t = hd /\ arg t = a)) l) \/
  exists l1 t l2, l = l1 ++ t :: l2 /\ untimeout hd a l = l1 ++ l2 /\ h t = hd /\ arg t = a /\
    Forall (fun t => ~ (h t = hd /\ arg t = a)) l1.
Proof.
  induction l as [|t l IH]; simpl; [by left|].
  destruct (decide (h t = hd /\ arg t = a)) as [[Hh Ha]|Hne].
  - right. by exists [], t, l.
  - destruct IH as [[-> H]|(l1 & t' & l2 & -> & -> & Hh & Ha & H)].
    + left. split; [done|]. by constructor.
    + right. exists (t :: l1), t', l2. split_and!; try done. by constructor.
Qed.

Lemma sorted_remove base l1 t l2 : sorted_from base (l1 ++ t :: l2) -> sorted_from base (l1 ++ l2).
Proof.
  intros [Hw Hs]. apply Forall_app in Hw as [Hw1 Hw2]. apply Forall_cons in Hw2 as [_ Hw2].
  apply StronglySorted_app in Hs as (H12 & Hs1 & Hs2). apply StronglySorted_inv in Hs2 as [Hs2 _].
  split; [by apply Forall_app|]. apply StronglySorted_app_2; [|done..].
  intros x y ? ?. apply H12; [done|by right].
Qed.

Lemma dist_add base t m :
  0 <= m -> dist base t + m <= 4294967295 -> dist base (u32 (t + m)) = dist base t + m.
Proof. unfold dist. intros. word_lia. Qed.

(** ** Properties *)

Section properties.
Context {W : Type} `{!timer_env W}.

(** [sys_timeout] keeps the list sorted by due time across wrap-around of
    the clock, whenever the timeouts already listed and the current time lie
    within 2^30 ms (12 days) after some base time: the new timeout is queued at
    [now + msecs] (mod 2^32), behind every timeout due no later and before
    every timeout due later; nothing else changes. *)
Theorem sys_timeout_keeps_order base msecs hd a (s : sys W) w1 w2 t :
  sorted_from base (next_timeout s) -> 0 <= msecs <= 4294967295 / 4 ->
  sys_now (world s) = (w1, t) -> memp_malloc_ok w1 = (w2, true) -> dist base t <= 2 ^ 30 ->
  exists s' l1 l2, sys_timeout msecs hd a s = Some s' /\ next_timeout s = l1 ++ l2 /\
    next_timeout s' = l1 ++ SysTimeo (u32 (t + msecs)) hd a :: l2 /\
    sorted_from base (next_timeout s') /\
    Forall (fun x => dist base (time x) <= dist base t + msecs) l1 /\
    Forall (fun x => dist base t + msecs < dist base (time x)) l2 /\ world s' = w2 /\
    current_timeout_due_time s' = current_timeout_due_time s /\
    tcpip_tcp_timer_active s' = tcpip_tcp_timer_active s.
Proof.
  intros Hs Hm En Em Hd. change (2 ^ 30) with 1073741824 in Hd.
  change (4294967295 / 4) with 1073741823 in Hm.
  unfold sys_timeout. change (4294967295 / 4) with 1073741823.
  destruct (Z.leb_spec msecs 1073741823); [|lia].
  unfold now, sys_timeout_abs. rewrite En. cbn [set_world world]. rewrite Em.
  cbn [set_timeouts next_timeout set_world].
  assert (u32 (u32 t + msecs) = u32 (t + msecs)) as -> by word_lia.
  set (x := SysTimeo (u32 (t + msecs)) hd a).
  assert (Hx : dist base (time x) = dist base t + msecs) by (apply dist_add; lia).
  assert (in_window base (time x)) by (unfold in_window, LWIP_MAX_TIMEOUT; lia).
  rewrite (insert_timeout_spec base) by (constructor; [done|apply Hs]).
  pose proof (insert_spec_sorted base x _ Hs ltac:(done)) as Hs'.
  destruct (insert_spec_app base x _ Hs) as (l1 & l2 & El & E & H1 & H2).
  eexists _, l1, l2. split; [done|]. cbn [next_timeout]. rewrite Hx in H1, H2.
  split_and!; try done.
Qed.

(** [sys_untimeout] removes the first timeout with that handler and
    argument, and only it; without one nothing changes.  A sorted list stays
    sorted. *)
Theorem sys_untimeout_removes_first base hd a (s : sys W) :
  sorted_from base (next_timeout s) ->
  sorted_from base (next_timeout (sys_untimeout hd a s)) /\
  ((sys_untimeout hd a s = s /\ Forall (fun t => ~ (h t = hd /\ arg t = a)) (next_timeout s)) \/
   exists l1 t l2, next_timeout s = l1 ++ t :: l2 /\ h t = hd /\ arg t = a /\
     next_timeout (sys_untimeout hd a s) = l1 ++ l2 /\
     Forall (fun t => ~ (h t = hd /\ arg t = a)) l1).
Proof.
  intros Hs. unfold sys_untimeout. simpl.
  destruct (untimeout_spec hd a (next_timeout s)) as [[E H]|(l1 & t & l2 & El & E & Hh & Ha & H)]; rewrite E.
  - split; [done|]. left. split; [by destruct s|done].
  - split; [|right; by exists l1, t, l2]. rewrite El in Hs. by eapply sorted_remove.
Qed.

(** [sys_timeouts_sleeptime] never aborts: it answers 0 if the first
    timeout is overdue, otherwise the exact distance (mod 2^32) to it, and the
    infinite value if there is none. *)
Theorem sys_timeouts_sleeptime_exact (s : sys W) w nw :
  sys_now (world s) = (w, nw) -> is_u32 nw ->
  exists s' r, sys_timeouts_sleeptime s = Some (s', r) /\ next_timeout s' = next_timeout s /\
    match next_timeout s with
    | [] => r = SYS_TIMEOUTS_SLEEPTIME_INFINITE
    | t :: _ => if TIME_LESS_THAN (time t) nw then r = 0
                else 0 <= r <= LWIP_MAX_TIMEOUT /\ u32 (nw + r) = u32 (time t)
    end.
Proof.
  intros En Hn. unfold sys_timeouts_sleeptime. destruct (next_timeout s) as [|t r] eqn:El.
  - eexists s, _. done.
  - unfold now. rewrite En, (u32_id nw) by done.
    destruct (TIME_LESS_THAN (time t) nw) eqn:E.
    + eexists _, _. by split.
    + unfold TIME_LESS_THAN in E. apply Z.ltb_ge in E.
      destruct (Z.leb_spec (u32 (time t - nw)) LWIP_MAX_TIMEOUT); [|lia].
      eexists _, _. split; [done|]. split; [done|]. split; [pose proof (u32_bound (time t - nw)); unfold is_u32 in *; lia|].
      word_lia.
Qed.

(** [sys_restart_timeouts] makes the first timeout due now and keeps the
    handlers, their order and the time between any two timeouts. *)
Theorem sys_restart_timeouts_rebases base (s : sys W) w nw t0 l :
  sorted_from base (next_timeout s) -> next_timeout s = t0 :: l ->
  sys_now (world s) = (w, nw) ->
  let l' := next_timeout (sys_restart_timeouts s) in
  sorted_from nw l' /\ (time <$> head l') = Some (u32 nw) /\
  map (fun t => (h t, arg t)) l' = map (fun t => (h t, arg t)) (next_timeout s) /\
  map (fun t => dist nw (time t)) l' = map (fun t => dist (time t0) (time t)) (next_timeout s).
Proof.
  intros [Hw Hs] El En. unfold sys_restart_timeouts. rewrite El. unfold now. rewrite En.
  cbn [set_timeouts next_timeout set_world].
  set (f := fun t => SysTimeo _ _ _).
  assert (Hf : forall t, dist nw (time (f t)) = dist (time t0) (time t))
    by (intros t; unfold f, dist; simpl; word_lia).
  assert (Hh : forall t, (h (f t), arg (f t)) = (h t, arg t)) by done.
  assert (Ht0 : time (f t0) = u32 nw) by (unfold f; simpl; word_lia).
  clearbody f. rewrite El in *.
  assert (Hd : forall t, t ∈ t0 :: l -> dist (time t0) (time t) = dist base (time t) - dist base (time t0)).
  { intros t Ht. apply StronglySorted_inv in Hs as [_ Hs].
    assert (dist base (time t0) <= dist base (time t)) as Hle.
    { apply elem_of_cons in Ht as [->|Ht]; [lia|]. rewrite Forall_forall in Hs. by apply Hs. }
    revert Hle. unfold dist. word_lia. }
  split_and!.
  - split.
    + apply Forall_fmap, Forall_forall. intros t Ht. unfold in_window. simpl. rewrite Hf, Hd by done.
      rewrite Forall_forall in Hw. specialize (Hw t Ht). unfold in_window in Hw.
      pose proof (u32_bound (time t0 - base)) as Hb. unfold is_u32, dist in *. lia.
    + assert (forall k, (forall t, t ∈ k -> t ∈ t0 :: l) ->
        StronglySorted (fun t t' => dist base (time t) <= dist base (time t')) k ->
        StronglySorted (fun t t' => dist nw (time t) <= dist nw (time t')) (map f k)) as Hmap.
      { induction k as [|t k IH]; intros Hk Hks; simpl; [by constructor|].
        apply StronglySorted_inv in Hks as [Hks Ht]. constructor.
        - apply IH; [|done]. intros ? ?. apply Hk. by right.
        - apply Forall_fmap, Forall_forall. intros t' Ht'. simpl. rewrite !Hf, !Hd by (apply Hk; set_solver).
          rewrite Forall_forall in Ht. specialize (Ht t' Ht'). lia. }
      by apply Hmap.
  - simpl. by f_equal.
  - rewrite map_map. by apply map_ext.
  - rewrite map_map. apply map_ext. apply Hf.
Qed.

(** a cyclic timer reschedules itself exactly once, on the grid of its
    interval: at the previous due time plus the interval, or, when that is
    already past, at the current time plus the interval, never in the past. *)
Theorem lwip_cyclic_timer_reschedules i interval (s s1 : sys W) w1 w2 nw :
  lwip_cyclic_timers !! i = Some interval ->
  call (CyclicHandler i) s = Some s1 -> sys_now (world s1) = (w1, nw) -> is_u32 nw ->
  memp_malloc_ok w1 = (w2, true) ->
  exists s' next, lwip_cyclic_timer (Z.of_nat i) s = Some s' /\
    next_timeout s' = insert_timeout (SysTimeo next LwipCyclicTimer (Z.of_nat i)) (next_timeout s1) /\
    dist nw next <= LWIP_MAX_TIMEOUT /\
    (next = u32 (current_timeout_due_time s1 + interval) \/
     TIME_LESS_THAN (u32 (current_timeout_due_time s1 + interval)) nw = true /\
     dist nw next = interval).
Proof.
  intros Hi Hc En Hn Em. unfold lwip_cyclic_timer. rewrite Nat2Z.id, Hi. cbn [mbind option_bind].
  rewrite Hc. cbn [mbind option_bind]. unfold now. rewrite En, (u32_id nw) by done.
  cbn [current_timeout_due_time set_world].
  assert (0 < interval <= 1000) as Hiv.
  { apply list_elem_of_lookup_2 in Hi. unfold lwip_cyclic_timers, TCP_TMR_INTERVAL in Hi.
    rewrite !elem_of_cons, elem_of_nil in Hi. lia. }
  unfold sys_timeout_abs. cbn [world set_world].
  destruct (TIME_LESS_THAN _ nw) eqn:E; rewrite Em; eexists _, _; (split; [done|]); (split; [done|]).
  - assert (dist nw (u32 (nw + interval)) = interval) as -> by (unfold dist; unfold_widths; word_lia).
    split; [unfold LWIP_MAX_TIMEOUT; lia|]. by right.
  - split; [|by left]. unfold TIME_LESS_THAN in E. apply Z.ltb_ge in E. done.
Qed.

(** *** Running the expired timeouts *)

Definition expired (base nw : Z) (t : sys_timeo) : Prop := dist base (time t) <= dist base nw.
Definition pending (base nw : Z) (t : sys_timeo) : Prop := dist base nw < dist base (time t).

(** A piece of code that leaves the expired timeouts of the list alone and
    queues new ones only after [nw]. *)
Definition adds_later (base nw : Z) (f : sys W -> option (sys W)) : Prop :=
  forall s e p, next_timeout s = e ++ p -> sorted_from base (e ++ p) ->
    Forall (expired base nw) e -> Forall (pending base nw) p ->
    exists s' p', f s = Some s' /\ next_timeout s' = e ++ p' /\ sorted_from base (e ++ p') /\
      Forall (pending base nw) p'.

(** Every timeout of [l] runs once, in order, unlinked before it runs. *)
Fixpoint run_all (l : list sys_timeo) (s : sys W) : option (sys W) :=
  match l with
  | [] => call FreeOoseq s
  | t :: r =>
      s ← call FreeOoseq s;
      s ← fire t (tail (next_timeout s)) s;
      run_all r s
  end.

(** Starting a timer of at least 1 ms is such a piece of code. *)
Lemma sys_timeout_adds_later base nw msecs hd a :
  (forall w, exists w' t, sys_now w = (w', t) /\ dist base nw <= dist base t <= 2 ^ 30) ->
  (forall w, exists w', memp_malloc_ok w = (w', true)) -> 0 < msecs <= 4294967295 / 4 ->
  adds_later base nw (sys_timeout msecs hd a).
Proof.
  intros Hnow Hmal Hms s e p El Hs He Hp.
  change (2 ^ 30) with 1073741824 in Hnow. change (4294967295 / 4) with 1073741823 in Hms.
  unfold sys_timeout. change (4294967295 / 4) with 1073741823.
  destruct (Z.leb_spec msecs 1073741823); [|lia].
  destruct (Hnow (world s)) as (w1 & t & En & Ht). destruct (Hmal w1) as [w2 Em].
  unfold now, sys_timeout_abs. rewrite En. cbn [set_world world]. rewrite Em.
  assert (u32 (u32 t + msecs) = u32 (t + msecs)) as -> by word_lia.
  set (x := SysTimeo (u32 (t + msecs)) hd a).
  assert (Hx : dist base (time x) = dist base t + msecs) by (apply dist_add; lia).
  assert (in_window base (time x)) as Hxw by (unfold in_window, LWIP_MAX_TIMEOUT; lia).
  cbn [set_timeouts next_timeout set_world]. rewrite El.
  assert (insert_spec base x (e ++ p) = e ++ insert_spec base x p) as E.
  { clear -He Hx Ht Hms. clearbody x. induction He as [|y e Hy He IH]; simpl; [done|].
    unfold expired in Hy. destruct (Z.ltb_spec (dist base (time x)) (dist base (time y))); [lia|].
    by rewrite IH. }
  eexists _, (insert_spec base x p). split; [done|]. cbn [next_timeout set_timeouts].
  rewrite (insert_timeout_spec base), E by (constructor; [done|apply Hs]).
  split; [done|]. split; [rewrite <- E; by apply insert_spec_sorted|].
  destruct Hs as [Hw Hso]. apply Forall_app in Hw as [_ Hw]. apply StronglySorted_app in Hso as (_ & _ & Hso).
  destruct (insert_spec_app base x p) as (l1 & l2 & -> & -> & _ & _); [done|].
  apply Forall_app in Hp as [Hp1 Hp2]. apply Forall_app. split; [done|]. constructor; [|done].
  unfold pending. lia.
Qed.

Lemma check_timeouts_loop_spec base nw : forall e s p fuel,
  next_timeout s = e ++ p -> sorted_from base (e ++ p) -> in_window base nw ->
  Forall (expired base nw) e -> Forall (pending base nw) p ->
  adds_later base nw (call FreeOoseq) ->
  Forall (fun t => adds_later base nw (run_handler (h t) (arg t))) e -> (length e < fuel)%nat ->
  exists s', check_timeouts_loop fuel nw s = Some s' /\ run_all e s = Some s' /\
    sorted_from base (next_timeout s') /\ Forall (pending base nw) (next_timeout s').
Proof.
  induction e as [|t e IH]; intros s p fuel El Hs Hnw He Hp Hfree Hh Hf;
    (destruct fuel as [|fuel]; simpl in Hf; [lia|]); cbn [check_timeouts_loop run_all].
  - destruct (Hfree s [] p) as (s1 & p1 & -> & El1 & Hs1 & Hp1); [done..|].
    cbn [mbind option_bind]. exists s1. rewrite El1. simpl in *.
    destruct p1 as [|t p1]; [done|].
    apply Forall_cons in Hp1 as [Ht Hp1'].
    rewrite (time_less_than_dist base); [|done|by destruct Hs1 as [[? ?]%Forall_cons _]].
    unfold pending in Ht. destruct (Z.ltb_spec (dist base nw) (dist base (time t))); [|lia].
    split_and!; try done. by constructor.
  - destruct (Hfree s (t :: e) p) as (s1 & p1 & -> & El1 & Hs1 & Hp1); [done..|].
    cbn [mbind option_bind]. rewrite El1. cbn [app tail].
    apply Forall_cons in He as [Ht He]. apply Forall_cons in Hh as [Hht Hh].
    rewrite (time_less_than_dist base); [|done|by destruct Hs1 as [[? ?]%Forall_cons _]].
    unfold expired in Ht. destruct (Z.ltb_spec (dist base nw) (dist base (time t))); [lia|].
    destruct (Hht (Sys (e ++ p1) (time t) (tcpip_tcp_timer_active s1) (world s1)) e p1)
      as (s2 & p2 & E2 & El2 & Hs2 & Hp2); [done| |done..|].
    { destruct Hs1 as [Hw1 Hso1]. apply Forall_cons in Hw1 as [_ Hw1].
      by apply StronglySorted_inv in Hso1 as [Hso1 _]. }
    unfold fire. rewrite E2. cbn [mbind option_bind].
    apply (IH s2 p2 fuel); try done. lia.
Qed.

(** C37: [sys_check_timeouts] terminates and runs exactly the timeouts that
    are due, each once, in the order of their due times (earlier-queued first
    among equals), as long as the handlers queue new timeouts only for later;
    what is left in the list is not yet due. *)
Theorem sys_check_timeouts_runs_expired base nw w e p (s : sys W) fuel :
  sys_now (world s) = (w, nw) -> is_u32 nw -> in_window base nw ->
  next_timeout s = e ++ p -> sorted_from base (e ++ p) ->
  Forall (expired base nw) e -> Forall (pending base nw) p ->
  adds_later base nw (call FreeOoseq) ->
  Forall (fun t => adds_later base nw (run_handler (h t) (arg t))) e -> (length e < fuel)%nat ->
  exists s', sys_check_timeouts fuel s = Some s' /\ run_all e (set_world w s) = Some s' /\
    sorted_from base (next_timeout s') /\ Forall (pending base nw) (next_timeout s').
Proof.
  intros En Hn Hnw El Hs He Hp Hfree Hh Hf. unfold sys_check_timeouts, now.
  rewrite En, (u32_id nw) by done.
  by apply (check_timeouts_loop_spec base nw e (set_world w s) p).
Qed.

End properties.

(** ** Concrete runs

    A clock that stands at 1000, and handlers that log their number and start
    a timer of 5 ms again. *)
Definition log_env : timer_env (list Z) := {|
  sys_now := fun w => (w, 1000);
  memp_malloc_ok := fun w => (w, true);
  tcp_pcbs := fun _ => true;
  call := fun c s => Some s
|}.

Definition ex_list : list sys_timeo :=
  [SysTimeo 990 (OtherHandler 1) 0; SysTimeo 1000 (OtherHandler 2) 7; SysTimeo 1010 (OtherHandler 3) 0].
Definition ex_sys : sys (list Z) := Sys ex_list 0 false [].

Lemma ex_sorted : sorted_from 900 ex_list.
Proof.
  split; [repeat constructor; vm_compute; congruence|].
  repeat constructor; vm_compute; congruence.
Defined.

Lemma sys_timeout_keeps_order_witness :
  let r := @sys_timeout _ log_env 5 (OtherHandler 9) 1 ex_sys in
  (next_timeout <$> r) = Some [SysTimeo 990 (OtherHandler 1) 0; SysTimeo 1000 (OtherHandler 2) 7;
    SysTimeo 1005 (OtherHandler 9) 1; SysTimeo 1010 (OtherHandler 3) 0] /\
  exists s', r = Some s' /\ sorted_from 900 (next_timeout s').
Proof.
  intros r. split; [vm_compute; reflexivity|].
  destruct (@sys_timeout_keeps_order _ log_env 900 5 (OtherHandler 9) 1 ex_sys [] [] 1000)
    as (s' & l1 & l2 & E & _ & _ & Hs & _).
  - apply ex_sorted.
  - vm_compute. split; congruence.
  - reflexivity.
  - reflexivity.
  - vm_compute. congruence.
  - exists s'. split; [exact E|exact Hs].
Defined.

Lemma sys_untimeout_removes_first_witness :
  sorted_from 900 (next_timeout (sys_untimeout (OtherHandler 2) 7 ex_sys)).
Proof. exact (proj1 (sys_untimeout_removes_first 900 (OtherHandler 2) 7 ex_sys ex_sorted)). Defined.

Lemma sys_timeouts_sleeptime_exact_witness :
  exists s', @sys_timeouts_sleeptime _ log_env ex_sys = Some (s', 0).
Proof.
  destruct (@sys_timeouts_sleeptime_exact _ log_env ex_sys [] 1000) as (s' & r & E & _ & Hr).
  - reflexivity.
  - vm_compute. split; congruence.
  - exists s'. vm_compute in Hr. rewrite Hr in E. exact E.
Defined.

Lemma sys_restart_timeouts_rebases_witness :
  (time <$> head (next_timeout (@sys_restart_timeouts _ log_env ex_sys))) = Some 1000.
Proof.
  pose proof (@sys_restart_timeouts_rebases _ log_env 900 ex_sys [] 1000 _ _ ex_sorted eq_refl eq_refl) as H.
  cbv zeta in H. destruct H as (_ & H & _). exact H.
Defined.

Lemma lwip_cyclic_timer_reschedules_witness :
  exists s' next, @lwip_cyclic_timer _ log_env 2 ex_sys = Some s' /\
    next_timeout s' = insert_timeout (SysTimeo next LwipCyclicTimer 2) ex_list.
Proof.
  destruct (@lwip_cyclic_timer_reschedules _ log_env 2 1000 ex_sys ex_sys [] [] 1000)
    as (s' & next & E & El & _).
  - reflexivity.
  - reflexivity.
  - reflexivity.
  - vm_compute. split; congruence.
  - reflexivity.
  - exists s', next. split; [exact E|exact El].
Defined.

(** The two due timeouts start 5 ms timers again; both run once. *)
Definition rearm_env : timer_env (list Z) := {|
  sys_now := fun w => (w, 1000);
  memp_malloc_ok := fun w => (w, true);
  tcp_pcbs := fun _ => true;
  call := fun c s =>
    match c with
    | UserHandler n a => @sys_timeout _ log_env 5 (OtherHandler n) a (Sys (next_timeout s)
        (current_timeout_due_time s) (tcpip_tcp_timer_active s) (world s ++ [n]))
    | _ => Some s
    end
|}.

Lemma sys_check_timeouts_runs_expired_witness :
  exists s', @sys_check_timeouts _ rearm_env 3 ex_sys = Some s' /\ world s' = [1; 2] /\
    Forall (pending 900 1000) (next_timeout s').
Proof.
  destruct (@sys_check_timeouts_runs_expired _ rearm_env 900 1000 [] (take 2 ex_list) (drop 2 ex_list)
    ex_sys 3) as (s' & E & Er & _ & Hp).
  - reflexivity.
  - vm_compute. split; congruence.
  - vm_compute. congruence.
  - reflexivity.
  - apply ex_sorted.
  - repeat constructor; vm_compute; congruence.
  - repeat constructor; vm_compute; congruence.
  - intros s e p El Hs He Hp. exists s, p. split; [reflexivity|]. split; [exact El|]. split; [exact Hs|exact Hp].
  - assert (forall n a, @adds_later _ 900 1000 (@run_handler _ rearm_env (OtherHandler n) a)) as Hh.
    { intros n a s e p El Hs He Hp. cbn [run_handler call rearm_env].
      refine (@sys_timeout_adds_later _ log_env 900 1000 5 (OtherHandler n) a _ _ _
        (Sys (next_timeout s) _ _ _) e p El Hs He Hp).
      - intros w. exists w, 1000. vm_compute. repeat split; congruence.
      - intros w. exists w. reflexivity.
      - vm_compute. split; congruence. }
    repeat constructor; apply Hh.
  - simpl. lia.
  - exists s'. split; [exact E|]. split; [|exact Hp]. vm_compute in E. injection E as <-. reflexivity.
Defined.
