(* ===== verification/TcpDefs.v ===== *)
(** * Data of the TCP component

    core/c/include/lwip/priv/tcp_priv.h, core/c/include/lwip/tcp.h,
    core/c/include/lwip/prot/tcp.h: sequence-number arithmetic, flags, segments
    and the protocol control block.

    The payload of a segment ([seg->p] behind the headers) is the octet string
    the pbuf chain holds: PbufSpec.v shows that the pbuf operations TCP applies
    to it ([pbuf_realloc], [pbuf_cat], [pbuf_remove_header], copying) act on
    that string as [take], [++] and [drop]. *)

From S2P Require Import Prelude Err IpAddr.

(** ** Sequence numbers *)

Definition TCP_SEQ_LT (a b : Z) : bool := s32 (a - b) <? 0.
Definition TCP_SEQ_LEQ (a b : Z) : bool := s32 (a - b) <=? 0.
Definition TCP_SEQ_GT (a b : Z) : bool := 0 <? s32 (a - b).
Definition TCP_SEQ_GEQ (a b : Z) : bool := 0 <=? s32 (a - b).
(** is b<=a<=c? *)
Definition TCP_SEQ_BETWEEN (a b c : Z) : bool := TCP_SEQ_GEQ a b && TCP_SEQ_LEQ a c.

(** Add to a [tcpwnd_size_t] ([u16_t]), holding at the maximum value. *)
Definition TCP_WND_INC (wnd inc : Z) : Z :=
  if wnd <=? u16 (wnd + inc) then u16 (wnd + inc) else 65535.

(** ** Constants of the build *)

Definition TCP_MSS : Z := 1460.
Definition TCP_WND : Z := 32768.
Definition TCP_HLEN : Z := 20.
Definition TCP_SYNMAXRTX : Z := 6.
Definition TCP_MAXRTX : Z := 12.
Definition LWIP_TCP_CALC_INITIAL_CWND (mss : Z) : Z :=
  u16 (Z.min (4 * mss) (Z.max (2 * mss) 4380)).

(** Header flags. *)
Definition TCP_FIN : Z := 1.
Definition TCP_SYN : Z := 2.
Definition TCP_RST : Z := 4.
Definition TCP_PSH : Z := 8.
Definition TCP_ACK : Z := 16.

(** Flags on input processing. *)
Definition TF_RESET : Z := 8.
Definition TF_CLOSED : Z := 16.
Definition TF_GOT_FIN : Z := 32.

(** [pcb->flags]. *)
Definition TF_ACK_DELAY : Z := 1.
Definition TF_ACK_NOW : Z := 2.
Definition TF_INFR : Z := 4.
Definition TF_CLOSEPEND : Z := 8.
Definition TF_RXCLOSED : Z := 16.
Definition TF_FIN : Z := 32.
Definition TF_NODELAY : Z := 64.
Definition TF_NAGLEMEMERR : Z := 128.
Definition TF_RTO : Z := 2048.


(** ** The header on the wire *)

Record tcp_hdr := TcpHdr {
  h_src : Z; h_dest : Z; h_seqno : Z; h_ackno : Z; h_flags : Z; h_wnd : Z; h_chksum : Z; h_urgp : Z;
  h_opts : list Z
}.

Definition octets2 (v : Z) : list Z := [v / 256; v mod 256].
Definition octets4 (v : Z) : list Z := octets2 (v / 65536) ++ octets2 (v mod 65536).
Definition h_len (h : tcp_hdr) : Z := 20 + Z.of_nat (length (h_opts h)).

Definition encode_header (h : tcp_hdr) : list Z :=
  octets2 (h_src h) ++ octets2 (h_dest h) ++ octets4 (h_seqno h) ++ octets4 (h_ackno h) ++
  [h_len h / 4 * 16; h_flags h] ++ octets2 (h_wnd h) ++ octets2 (h_chksum h) ++ octets2 (h_urgp h) ++
  h_opts h.

(** ** Segments *)

(** One pbuf of an outgoing segment: the address and the number of the octets
    of data in it, and whether it is of type [PBUF_ROM]. *)
Record part := Part { pt_payload : Z; pt_len : Z; pt_rom : bool }.

#[export] Instance eta_part : EtaRecord part := fun q => Part (pt_payload q) (pt_len q) (pt_rom q).

(** What tcp_out.c keeps with a segment it has made: the ports in the header,
    [flags] (the options to be put into the header), the pbufs, and with
    [TCP_OVERSIZE_DBGCHECK] and [TCP_CHECKSUM_ON_COPY] the room behind the last
    one and the checksum of the data. *)
Record snd_seg := SndSeg {
  ss_src : Z; ss_dest : Z; ss_flags : Z; ss_parts : list part;
  ss_oversize_left : Z; ss_chksum : Z; ss_chksum_swapped : bool
}.

#[export] Instance eta_snd_seg : EtaRecord snd_seg := fun s =>
  SndSeg (ss_src s) (ss_dest s) (ss_flags s) (ss_parts s) (ss_oversize_left s) (ss_chksum s)
    (ss_chksum_swapped s).

(** A segment that came in has none of it. *)
Definition no_snd : snd_seg := SndSeg 0 0 0 [] 0 0 false.

(** [struct tcp_seg] with the fields of its header that are used (in host
    order), its payload, and the reference count of the pbuf at its head. *)
Record tcp_seg := TcpSeg {
  seg_seqno : Z;            (* tcphdr->seqno *)
  seg_flags : Z;            (* TCPH_FLAGS(tcphdr) *)
  seg_len : Z;              (* len *)
  seg_p : option (list Z);  (* p, NULL once handed on *)
  seg_ref : Z;              (* p->ref *)
  seg_snd : snd_seg
}.

#[export] Instance eta_tcp_seg : EtaRecord tcp_seg := fun s =>
  TcpSeg (seg_seqno s) (seg_flags s) (seg_len s) (seg_p s) (seg_ref s) (seg_snd s).

(** [pbuf_clen(seg->p)], used of outgoing segments only. *)
Definition seg_clen (s : tcp_seg) : Z := Z.of_nat (length (ss_parts (seg_snd s))).

Definition TCP_TCPLEN (seg : tcp_seg) : Z :=
  seg_len seg + if flagset (seg_flags seg) (Z.lor TCP_FIN TCP_SYN) then 1 else 0.

(** [p->tot_len] and [pbuf_realloc(p, n)] on the payload. *)
Definition p_tot_len (d : list Z) : Z := Z.of_nat (length d).
Definition p_realloc (n : Z) (d : list Z) : list Z := take (Z.to_nat n) d.

(** ** Protocol control blocks *)

Inductive tcp_state :=
  CLOSED | LISTEN | SYN_SENT | SYN_RCVD | ESTABLISHED | FIN_WAIT_1 | FIN_WAIT_2 |
  CLOSE_WAIT | CLOSING | LAST_ACK | TIME_WAIT.

#[export] Instance tcp_state_eq_dec : EqDecision tcp_state.
Proof. solve_decision. Defined.

(** The values of the enumeration, for comparisons such as
    [pcb->state < CLOSE_WAIT]. *)
Definition state_val (s : tcp_state) : Z :=
  match s with
  | CLOSED => 0 | LISTEN => 1 | SYN_SENT => 2 | SYN_RCVD => 3 | ESTABLISHED => 4
  | FIN_WAIT_1 => 5 | FIN_WAIT_2 => 6 | CLOSE_WAIT => 7 | CLOSING => 8
  | LAST_ACK => 9 | TIME_WAIT => 10
  end.

(** [struct tcp_pcb]: the fields the build has.  The list link is the order of
    the pcb lists; the callbacks are in the interface to the application. *)
Record tcp_pcb := TcpPcb {
  local_ip : ip_addr; remote_ip : ip_addr; netif_idx : Z; so_options : Z;
  tos : Z; ttl : Z;
  callback_arg : Z; state : tcp_state; prio : Z; local_port : Z; remote_port : Z;
  flags : Z;
  polltmr : Z; pollinterval : Z; last_timer : Z; tmr : Z;
  rcv_nxt : Z; rcv_wnd : Z; rcv_ann_wnd : Z; rcv_ann_right_edge : Z;
  rtime : Z; mss : Z;
  rttest : Z; rtseq : Z; sa : Z; sv : Z; rto : Z; nrtx : Z;
  dupacks : Z; lastack : Z; cwnd : Z; ssthresh : Z; rto_end : Z;
  snd_nxt : Z; snd_wl1 : Z; snd_wl2 : Z; snd_lbb : Z; snd_wnd : Z; snd_wnd_max : Z;
  snd_buf : Z; snd_queuelen : Z; unsent_oversize : Z; bytes_acked : Z;
  unsent : list tcp_seg; unacked : list tcp_seg; ooseq : list tcp_seg;
  refused_data : option (list Z); refused_fin : bool;   (* its PBUF_FLAG_TCP_FIN *)
  listener : option positive; errf : bool;              (* errf != NULL *)
  keep_idle : Z; persist_cnt : Z; persist_backoff : Z; persist_probe : Z; keep_cnt_sent : Z
}.

#[export] Instance eta_tcp_pcb : EtaRecord tcp_pcb := fun p =>
  TcpPcb (local_ip p) (remote_ip p) (netif_idx p) (so_options p) (tos p) (ttl p)
    (callback_arg p) (state p) (prio p) (local_port p) (remote_port p)
    (flags p)
    (polltmr p) (pollinterval p) (last_timer p) (tmr p)
    (rcv_nxt p) (rcv_wnd p) (rcv_ann_wnd p) (rcv_ann_right_edge p)
    (rtime p) (mss p)
    (rttest p) (rtseq p) (sa p) (sv p) (rto p) (nrtx p)
    (dupacks p) (lastack p) (cwnd p) (ssthresh p) (rto_end p)
    (snd_nxt p) (snd_wl1 p) (snd_wl2 p) (snd_lbb p) (snd_wnd p) (snd_wnd_max p)
    (snd_buf p) (snd_queuelen p) (unsent_oversize p) (bytes_acked p)
    (unsent p) (unacked p) (ooseq p)
    (refused_data p) (refused_fin p)
    (listener p) (errf p)
    (keep_idle p) (persist_cnt p) (persist_backoff p) (persist_probe p) (keep_cnt_sent p).

Definition tcp_set_flags (f : Z) (p : tcp_pcb) : tcp_pcb := p <| flags := Z.lor (flags p) f |>.
Definition tcp_clear_flags (f : Z) (p : tcp_pcb) : tcp_pcb :=
  p <| flags := Z.land (flags p) (65535 - f) |>.
Definition tcp_is_flag_set (f : Z) (p : tcp_pcb) : bool := flagset (flags p) f.

Definition tcp_ack_now (p : tcp_pcb) : tcp_pcb := tcp_set_flags TF_ACK_NOW p.
Definition tcp_ack (p : tcp_pcb) : tcp_pcb :=
  if tcp_is_flag_set TF_ACK_DELAY p then tcp_ack_now (tcp_clear_flags TF_ACK_DELAY p)
  else tcp_set_flags TF_ACK_DELAY p.

(** ** core/c/core/tcp.c: the segment size for a path *)

(** [tcp_eff_send_mss_netif]; [mtu] is that of the path, [None] when there is no
    interface. *)
Definition tcp_eff_send_mss_netif (sendmss : Z) (mtu : option Z) (dest : ip_addr) : Z :=
  match mtu with
  | None => sendmss
  | Some mtu =>
      if mtu =? 0 then sendmss
      else
        let offset := if IP_IS_V6_VAL dest then 40 + TCP_HLEN else 20 + TCP_HLEN in
        let mss_s := if offset <? mtu then u16 (mtu - offset) else 0 in
        Z.min sendmss mss_s
  end.

(** ** Headers that are well-formed *)

Lemma length_encode_header h : Z.of_nat (length (encode_header h)) = h_len h.
Proof. unfold encode_header, octets4, octets2, h_len. simpl. lia. Qed.

(** Header fields in their range. *)
Record hdr_ok (h : tcp_hdr) : Prop := {
  hk_src : is_u16 (h_src h); hk_dest : is_u16 (h_dest h); hk_wnd : is_u16 (h_wnd h);
  hk_seqno : is_u32 (h_seqno h); hk_ackno : is_u32 (h_ackno h); hk_flags : 0 <= h_flags h < 64;
  hk_opts : Z.of_nat (length (h_opts h)) mod 4 = 0 /\ (length (h_opts h) <= 40)%nat
}.

(** ** Sequence arithmetic on unwrapped numbers

    A 32-bit sequence number stands for the integers congruent to it; the
    comparisons are those of any representatives less than 2^31 apart. *)

Lemma s32_small z : -2147483648 <= z < 2147483648 -> s32 z = z.
Proof. word_lia. Qed.

Lemma s32_u32_sub A B : s32 (u32 A - u32 B) = s32 (A - B).
Proof. word_lia. Qed.

Definition near (A B : Z) : Prop := -2147483648 < A - B < 2147483648.

Section unwrapped.
Context (a b A B : Z) (Ha : u32 a = u32 A) (Hb : u32 b = u32 B) (Hn : near A B).

Lemma s32_sub_unwrap : s32 (a - b) = A - B.
Proof.
  rewrite <- s32_u32_sub, Ha, Hb, s32_u32_sub. apply s32_small. unfold near in Hn. lia.
Qed.

Lemma seq_lt_unwrap : TCP_SEQ_LT a b = (A <? B).
Proof. unfold TCP_SEQ_LT. rewrite s32_sub_unwrap. destruct (Z.ltb_spec (A - B) 0), (Z.ltb_spec A B); lia. Qed.
Lemma seq_leq_unwrap : TCP_SEQ_LEQ a b = (A <=? B).
Proof. unfold TCP_SEQ_LEQ. rewrite s32_sub_unwrap. destruct (Z.leb_spec (A - B) 0), (Z.leb_spec A B); lia. Qed.
Lemma seq_gt_unwrap : TCP_SEQ_GT a b = (B <? A).
Proof. unfold TCP_SEQ_GT. rewrite s32_sub_unwrap. destruct (Z.ltb_spec 0 (A - B)), (Z.ltb_spec B A); lia. Qed.
Lemma seq_geq_unwrap : TCP_SEQ_GEQ a b = (B <=? A).
Proof. unfold TCP_SEQ_GEQ. rewrite s32_sub_unwrap. destruct (Z.leb_spec 0 (A - B)), (Z.leb_spec B A); lia. Qed.

Lemma u32_eq_unwrap : u32 a = a -> u32 b = b -> (a =? b) = (A =? B).
Proof.
  intros Ea Eb. rewrite Ha in Ea. rewrite Hb in Eb. unfold near in Hn.
  destruct (Z.eqb_spec a b), (Z.eqb_spec A B); try done; word_lia.
Qed.
End unwrapped.

Lemma seq_between_unwrap a b c A B C :
  u32 a = u32 A -> u32 b = u32 B -> u32 c = u32 C -> near A B -> near A C ->
  TCP_SEQ_BETWEEN a b c = (B <=? A) && (A <=? C).
Proof.
  intros. unfold TCP_SEQ_BETWEEN. by rewrite (seq_geq_unwrap a b A B), (seq_leq_unwrap a c A C).
Qed.
