(* ===== verification/TcpIn.v ===== *)
(** * TCP input processing (core/c/core/tcp_in.c)

    The processing of one segment for the connection it belongs to: options,
    the state machine of [tcp_process], acknowledgements, window and
    congestion control, round-trip estimation, and the reassembly of the
    octet stream.  [None] is an abort ([LWIP_ASSERT]). *)

From S2P Require Import Prelude Err IpAddr TcpDefs.

(** ** The static variables of tcp_in.c *)

Record input := Input {
  inseg : tcp_seg;                 (* inseg, its header and pbuf *)
  in_src : Z; in_dest : Z;         (* tcphdr->src, dest *)
  in_src_ip : ip_addr; in_dest_ip : ip_addr;   (* ip_current_src/dest_addr *)
  in_wnd : Z;                      (* tcphdr->wnd *)
  in_optlen : Z;                   (* tcphdr_optlen *)
  in_opt : Z -> Z;                 (* the option octets, in both parts, by index,
                                      and whatever memory holds behind them *)
  in_seqno : Z; in_ackno : Z;
  in_recv_acked : Z;
  in_tcplen : Z;
  in_flags : Z;
  in_recv_flags : Z;
  in_recv_data : option (list Z);
  tcp_ticks : Z                    (* of tcp.c *)
}.

#[export] Instance eta_input : EtaRecord input := fun i =>
  Input (inseg i) (in_src i) (in_dest i) (in_src_ip i) (in_dest_ip i) (in_wnd i) (in_optlen i) (in_opt i)
    (in_seqno i) (in_ackno i) (in_recv_acked i) (in_tcplen i) (in_flags i) (in_recv_flags i)
    (in_recv_data i) (tcp_ticks i).

Definition ip_current_is_v6 (i : input) : bool := ip_type (in_src_ip i) =? IPADDR_TYPE_V6.

(** ** What leaves the component

    Control segments go to IP; [answers] are the results of sending them
    ([None] when [pbuf_alloc] fails; [ERR_RTE] when there is no route or next
    hop, and then nothing leaves), [seg_mem] those of
    [memp_malloc(MEMP_TCP_SEG)], [pbuf_mem] those of [pbuf_alloc] for data
    (the address of the payload).  Segments go to IP as octets. *)

Inductive out_event :=
  | EmptyAck (seqno ackno wnd : Z)
  | Rst (seqno ackno : Z) (local remote : ip_addr) (local_port remote_port : Z)
  | Nd6Hint (src : ip_addr)
  | Packet (octets : list Z) (src dest : ip_addr) (ttl tos : Z).

Record net := Net {
  trace : list out_event;
  answers : list (option Z);
  seg_mem : list bool;
  pbuf_mem : list (option Z)
}.

#[export] Instance eta_net : EtaRecord net := fun n => Net (trace n) (answers n) (seg_mem n) (pbuf_mem n).

Definition emit (e : out_event) (n : net) : net := n <| trace := trace n ++ [e] |>.

Definition next_answer (n : net) : net * option Z :=
  match answers n with
  | a :: r => (n <| answers := r |>, a)
  | [] => (n, None)
  end.

(** ** core/c/core/tcp_out.c: control segments *)

(** [tcp_output_control_segment], the part with an effect here: without a route
    the segment goes nowhere.  TcpOut.v has the octets. *)
Definition control_sent (err : Z) (e : out_event) (n : net) : net :=
  if err =? ERR_RTE then n else emit e n.

Definition tcp_send_empty_ack (p : tcp_pcb) (n : net) : tcp_pcb * net :=
  match next_answer n with
  | (n, None) => (tcp_set_flags (Z.lor TF_ACK_DELAY TF_ACK_NOW) p, n)
  | (n, Some err) =>
      let p := p <| rcv_ann_right_edge := u32 (rcv_nxt p + rcv_ann_wnd p) |> in
      let n := control_sent err (EmptyAck (snd_nxt p) (rcv_nxt p) (rcv_ann_wnd p)) n in
      if negb (err =? ERR_OK) then (tcp_set_flags (Z.lor TF_ACK_DELAY TF_ACK_NOW) p, n)
      else (tcp_clear_flags (Z.lor TF_ACK_DELAY TF_ACK_NOW) p, n)
  end.

(** [tcp_rst]: its result is not used; without memory or a route nothing is sent. *)
Definition tcp_rst (seqno ackno : Z) (local remote : ip_addr) (local_port remote_port : Z)
  (n : net) : net :=
  match next_answer n with
  | (n, None) => n
  | (n, Some err) => control_sent err (Rst (u32 seqno) (u32 ackno) local remote local_port remote_port) n
  end.

(** The reset that answers the segment being processed. *)
Definition rst_reply (i : input) (n : net) : net :=
  tcp_rst (in_ackno i) (in_seqno i + in_tcplen i) (in_dest_ip i) (in_src_ip i)
          (in_dest i) (in_src i) n.

(** ** core/c/core/tcp_out.c: retransmission queues *)

(** The netif still refers to the pbuf of the segment. *)
Definition tcp_output_segment_busy (s : tcp_seg) : bool := negb (seg_ref s =? 1).

(** Requeue all unacked segments; [tcp_output], called next by
    [tcp_rexmit_rto_commit], returns at once for the pcb whose input is being
    processed. *)
Definition tcp_rexmit_rto_prepare (p : tcp_pcb) : tcp_pcb * Z :=
  match last (unacked p) with
  | None => (p, ERR_VAL)
  | Some seg =>
      if existsb tcp_output_segment_busy (unacked p) then (p, ERR_VAL)
      else
        let p := match unsent p with
                 | [] => p <| unsent_oversize := ss_oversize_left (seg_snd seg) |>
                 | _ => p
                 end in
        let p := p <| unsent := unacked p ++ unsent p |> <| unacked := [] |> in
        let p := tcp_set_flags TF_RTO p in
        let p := p <| rto_end := u32 (seg_seqno seg + TCP_TCPLEN seg) |> in
        (p <| rttest := 0 |>, ERR_OK)
  end.

Definition tcp_rexmit_rto_commit (p : tcp_pcb) : tcp_pcb :=
  if nrtx p <? 255 then p <| nrtx := nrtx p + 1 |> else p.

Definition tcp_rexmit_rto (p : tcp_pcb) : tcp_pcb :=
  let '(p, err) := tcp_rexmit_rto_prepare p in
  if err =? ERR_OK then tcp_rexmit_rto_commit p else p.

(** Sorted insertion into the unsent queue. *)
Fixpoint unsent_insert (seg : tcp_seg) (l : list tcp_seg) : list tcp_seg :=
  match l with
  | [] => [seg]
  | c :: r => if TCP_SEQ_LT (seg_seqno c) (seg_seqno seg) then c :: unsent_insert seg r else seg :: l
  end.

Definition tcp_rexmit (p : tcp_pcb) : tcp_pcb * Z :=
  match unacked p with
  | [] => (p, ERR_VAL)
  | seg :: rest =>
      if tcp_output_segment_busy seg then (p, ERR_VAL)
      else
        let p := p <| unacked := rest |> in
        let is_last := forallb (fun c => TCP_SEQ_LT (seg_seqno c) (seg_seqno seg)) (unsent p) in
        let p := p <| unsent := unsent_insert seg (unsent p) |> in
        let p := if is_last then p <| unsent_oversize := 0 |> else p in
        let p := if nrtx p <? 255 then p <| nrtx := nrtx p + 1 |> else p in
        (p <| rttest := 0 |>, ERR_OK)
  end.

Definition tcp_rexmit_fast (p : tcp_pcb) : tcp_pcb :=
  match unacked p with
  | [] => p
  | _ =>
      if tcp_is_flag_set TF_INFR p then p
      else
        let '(p, err) := tcp_rexmit p in
        if err =? ERR_OK then
          let p := p <| ssthresh := Z.min (cwnd p) (snd_wnd p) / 2 |> in
          let p := if ssthresh p <? 2 * mss p then p <| ssthresh := u16 (2 * mss p) |> else p in
          let p := p <| cwnd := u16 (ssthresh p + 3 * mss p) |> in
          let p := tcp_set_flags TF_INFR p in
          p <| rtime := 0 |>
        else p
  end.

(** ** core/c/core/tcp.c: the window to announce *)

Definition tcp_update_rcv_ann_wnd (p : tcp_pcb) : option (tcp_pcb * Z) :=
  let new_right_edge := u32 (rcv_nxt p + rcv_wnd p) in
  if TCP_SEQ_GEQ new_right_edge (rcv_ann_right_edge p + Z.min (TCP_WND / 2) (mss p))
  then Some (p <| rcv_ann_wnd := rcv_wnd p |>, u32 (new_right_edge - rcv_ann_right_edge p))
  else if TCP_SEQ_GT (rcv_nxt p) (rcv_ann_right_edge p) then Some (p <| rcv_ann_wnd := 0 |>, 0)
  else
    let new_rcv_ann_wnd := u32 (rcv_ann_right_edge p - rcv_nxt p) in
    lwip_assert (new_rcv_ann_wnd <=? 65535);
    Some (p <| rcv_ann_wnd := new_rcv_ann_wnd |>, 0).

(** ** The queue of out-of-sequence segments *)

Definition seg_fin (s : tcp_seg) : bool := flagset (seg_flags s) TCP_FIN.
Definition seg_syn (s : tcp_seg) : bool := flagset (seg_flags s) TCP_SYN.

(** Cut a segment and its pbuf to [n] octets. *)
Definition seg_cut (n : Z) (s : tcp_seg) : tcp_seg :=
  s <| seg_len := n |> <| seg_p := p_realloc n <$> seg_p s |>.

(** The [while] loop of [tcp_oos_insert_segment]: delete the segments the new
    one covers, keeping a FIN. *)
Fixpoint oos_delete_covered (seqno : Z) (cseg : tcp_seg) (next : list tcp_seg)
  : tcp_seg * list tcp_seg :=
  match next with
  | [] => (cseg, [])
  | n :: r =>
      if TCP_SEQ_GEQ (seqno + seg_len cseg) (seg_seqno n + seg_len n) then
        oos_delete_covered seqno
          (if seg_fin n then cseg <| seg_flags := Z.lor (seg_flags cseg) TCP_FIN |> else cseg) r
      else (cseg, next)
  end.

(** The result is the queue from [cseg] on. *)
Definition tcp_oos_insert_segment (seqno : Z) (cseg : tcp_seg) (next : list tcp_seg)
  : list tcp_seg :=
  if seg_fin cseg then [cseg]
  else
    match oos_delete_covered seqno cseg next with
    | (cseg, []) => [cseg]
    | (cseg, n :: r) =>
        if TCP_SEQ_GT (seqno + seg_len cseg) (seg_seqno n)
        then seg_cut (u16 (seg_seqno n - seqno)) cseg :: n :: r
        else cseg :: n :: r
    end.

(** Cut a queued segment where the new one begins. *)
Definition oos_trim_prev (seqno : Z) (prev : tcp_seg) : tcp_seg :=
  if TCP_SEQ_GT (seg_seqno prev + seg_len prev) seqno
  then seg_cut (u16 (seqno - seg_seqno prev)) prev else prev.

Section oos_insert.
(** The pcb, the statics (the segment is [inseg i]), and whether
    [tcp_seg_copy] gets memory. *)
Context (p : tcp_pcb) (i : input) (mem : bool).

(** The last queued segment is before the new one: append.  The new segment is
    cut to the window. *)
Definition oos_append (l : tcp_seg) : option (list tcp_seg) :=
  if seg_fin l then Some [l]
  else if mem then
    let l := oos_trim_prev (in_seqno i) l in
    let c := inseg i in
    if TCP_SEQ_GT (in_tcplen i + in_seqno i) (rcv_nxt p + rcv_wnd p) then
      let c := if seg_fin c then c <| seg_flags := Z.land (seg_flags c) 62 |> else c in
      let c := seg_cut (u16 (rcv_nxt p + rcv_wnd p - in_seqno i)) c in
      lwip_assert (u32 (in_seqno i + TCP_TCPLEN c) =? u32 (rcv_nxt p + rcv_wnd p));
      Some [l; c]
    else Some [l; c]
  else Some [l].

(** The [for] loop once [prev] is set: the queue from [prev] on. *)
Fixpoint oos_insert_after (prev : tcp_seg) (rest : list tcp_seg) : option (list tcp_seg) :=
  match rest with
  | [] => Some [prev]
  | next :: rest' =>
      if in_seqno i =? seg_seqno next then
        if (seg_len next <? seg_len (inseg i)) && mem
        then Some (prev :: tcp_oos_insert_segment (in_seqno i) (inseg i) rest)
        else Some (prev :: rest)
      else if TCP_SEQ_BETWEEN (in_seqno i) (seg_seqno prev + 1) (seg_seqno next - 1) then
        if mem
        then Some (oos_trim_prev (in_seqno i) prev ::
                   tcp_oos_insert_segment (in_seqno i) (inseg i) rest)
        else Some (prev :: rest)
      else
        match rest' with
        | [] => if TCP_SEQ_GT (in_seqno i) (seg_seqno next)
                then r ← oos_append next; Some (prev :: r)
                else Some (prev :: rest)
        | _ => r ← oos_insert_after next rest'; Some (prev :: r)
        end
  end.

(** The whole loop. *)
Definition oos_insert (q : list tcp_seg) : option (list tcp_seg) :=
  match q with
  | [] => Some (if mem then [inseg i] else [])
  | next :: rest' =>
      if in_seqno i =? seg_seqno next then
        if (seg_len next <? seg_len (inseg i)) && mem
        then Some (tcp_oos_insert_segment (in_seqno i) (inseg i) q)
        else Some q
      else if TCP_SEQ_LT (in_seqno i) (seg_seqno next) then
        if mem then Some (tcp_oos_insert_segment (in_seqno i) (inseg i) q) else Some q
      else
        match rest' with
        | [] => if TCP_SEQ_GT (in_seqno i) (seg_seqno next) then oos_append next else Some q
        | _ => oos_insert_after next rest'
        end
  end.

End oos_insert.

(** ** In-sequence data *)

(** Trim the first edge: the octets before [rcv_nxt] were received before. *)
Definition trim_front (p : tcp_pcb) (i : input) : option input :=
  d ← seg_p (inseg i);
  let off := u32 (rcv_nxt p - in_seqno i) in
  lwip_assert (off <? 65535);
  lwip_assert (off <=? p_tot_len d);
  let s := (inseg i) <| seg_len := u16 (seg_len (inseg i) - off) |>
                   <| seg_p := Some (drop (Z.to_nat off) d) |>
                   <| seg_seqno := rcv_nxt p |> in
  Some (i <| inseg := s |> <| in_seqno := rcv_nxt p |>).

(** Trim the end to the receive window. *)
Definition trim_to_window (p : tcp_pcb) (i : input) : option input :=
  let i := i <| in_tcplen := u16 (TCP_TCPLEN (inseg i)) |> in
  if rcv_wnd p <? in_tcplen i then
    let s := inseg i in
    let s := if seg_fin s then s <| seg_flags := Z.land (seg_flags s) 62 |> else s in
    let len := if seg_syn s then u16 (rcv_wnd p - 1) else rcv_wnd p in
    let s := seg_cut len s in
    let i := i <| inseg := s |> <| in_tcplen := u16 (TCP_TCPLEN s) |> in
    lwip_assert (u32 (in_seqno i + in_tcplen i) =? u32 (rcv_nxt p + rcv_wnd p));
    Some i
  else Some i.

(** Delete the queued segments the new one covers, keeping a FIN. *)
Fixpoint inseq_delete_covered (seqno : Z) (s : tcp_seg) (tcplen : Z) (next : list tcp_seg)
  : tcp_seg * Z * list tcp_seg :=
  match next with
  | [] => (s, tcplen, [])
  | n :: r =>
      if TCP_SEQ_GEQ (seqno + tcplen) (seg_seqno n + seg_len n) then
        if seg_fin n && negb (seg_syn s) then
          let s := s <| seg_flags := Z.lor (seg_flags s) TCP_FIN |> in
          inseq_delete_covered seqno s (u16 (TCP_TCPLEN s)) r
        else inseq_delete_covered seqno s tcplen r
      else (s, tcplen, next)
  end.

(** Adjust the queue to the in-sequence segment, and the segment to the queue. *)
Definition adjust_ooseq (p : tcp_pcb) (i : input) : option (tcp_pcb * input) :=
  match ooseq p with
  | [] => Some (p, i)
  | q =>
      if seg_fin (inseg i) then Some (p <| ooseq := [] |>, i)
      else
        let '(s, tcplen, next) := inseq_delete_covered (in_seqno i) (inseg i) (in_tcplen i) q in
        let p := p <| ooseq := next |> in
        let i := i <| inseg := s |> <| in_tcplen := tcplen |> in
        match next with
        | n :: _ =>
            if TCP_SEQ_GT (in_seqno i + in_tcplen i) (seg_seqno n) then
              let len := u16 (seg_seqno n - in_seqno i) in
              let len := if seg_syn s then u16 (len - 1) else len in
              let s := seg_cut len s in
              let i := i <| inseg := s |> <| in_tcplen := u16 (TCP_TCPLEN s) |> in
              lwip_assert (u32 (in_seqno i + in_tcplen i) =? u32 (seg_seqno n));
              Some (p, i)
            else Some (p, i)
        | [] => Some (p, i)
        end
  end.

(** Account for [len] octets of sequence space. *)
Definition advance_rcv_nxt (len : Z) (p : tcp_pcb) : option tcp_pcb :=
  let p := p <| rcv_nxt := u32 (rcv_nxt p + len) |> in
  lwip_assert (len <=? rcv_wnd p);
  let p := p <| rcv_wnd := rcv_wnd p - len |> in
  '(p, _) ← tcp_update_rcv_ann_wnd p;
  Some p.

(** The [while] loop over the queued segments that are now in sequence. *)
Fixpoint dequeue_ooseq (q : list tcp_seg) (p : tcp_pcb) (i : input) : option (tcp_pcb * input) :=
  match q with
  | [] => Some (p <| ooseq := [] |>, i)
  | c :: r =>
      if seg_seqno c =? rcv_nxt p then
        let i := i <| in_seqno := seg_seqno c |> in
        p ← advance_rcv_nxt (TCP_TCPLEN c) p;
        d ← seg_p c;
        let i :=
          if 0 <? p_tot_len d then
            i <| in_recv_data :=
                 Some (match in_recv_data i with Some rd => rd ++ d | None => d end) |>
          else i in
        let '(p, i) :=
          if seg_fin c then
            ((if decide (state p = ESTABLISHED) then p <| state := CLOSE_WAIT |> else p),
             i <| in_recv_flags := Z.lor (in_recv_flags i) TF_GOT_FIN |>)
          else (p, i) in
        dequeue_ooseq r p i
      else Some (p <| ooseq := q |>, i)
  end.

Definition receive_in_sequence (p : tcp_pcb) (i : input) (n : net)
  : option (tcp_pcb * input * net) :=
  i ← trim_to_window p i;
  '(p, i) ← adjust_ooseq p i;
  p ← advance_rcv_nxt (in_tcplen i) (p <| rcv_nxt := in_seqno i |>);
  d ← seg_p (inseg i);
  let i :=
    if 0 <? p_tot_len d
    then i <| in_recv_data := Some d |> <| inseg := (inseg i) <| seg_p := None |> |>
    else i in
  let i := if seg_fin (inseg i)
           then i <| in_recv_flags := Z.lor (in_recv_flags i) TF_GOT_FIN |> else i in
  '(p, i) ← dequeue_ooseq (ooseq p) p i;
  let p := tcp_ack p in
  let n := if ip_current_is_v6 i then emit (Nd6Hint (in_src_ip i)) n else n in
  Some (p, i, n).

(** Out of sequence: queue the segment and acknowledge at once. *)
Definition receive_out_of_sequence (p : tcp_pcb) (i : input) (n : net)
  : option (tcp_pcb * input * net) :=
  let '(mem, r) := match seg_mem n with m :: r => (m, r) | [] => (false, []) end in
  q ← oos_insert p i mem (ooseq p);
  let p := p <| ooseq := q |> in
  let '(p, n) := tcp_send_empty_ack p (n <| seg_mem := r |>) in
  Some (p, i, n).

(** The data part of [tcp_receive]. *)
Definition receive_data (p : tcp_pcb) (i : input) (n : net) : option (tcp_pcb * input * net) :=
  if (0 <? in_tcplen i) && (state_val (state p) <? state_val CLOSE_WAIT) then
    '(p, i) ←
      (if TCP_SEQ_BETWEEN (rcv_nxt p) (in_seqno i + 1) (in_seqno i + in_tcplen i - 1)
       then i ← trim_front p i; Some (p, i)
       else if TCP_SEQ_LT (in_seqno i) (rcv_nxt p) then Some (tcp_ack_now p, i)
       else Some (p, i));
    if TCP_SEQ_BETWEEN (in_seqno i) (rcv_nxt p) (rcv_nxt p + rcv_wnd p - 1) then
      if rcv_nxt p =? in_seqno i then receive_in_sequence p i n
      else receive_out_of_sequence p i n
    else let '(p, n) := tcp_send_empty_ack p n in Some (p, i, n)
  else if negb (TCP_SEQ_BETWEEN (in_seqno i) (rcv_nxt p) (rcv_nxt p + rcv_wnd p - 1))
  then Some (tcp_ack_now p, i, n)
  else Some (p, i, n).

(** ** Acknowledgements *)

(** The loop of [tcp_free_acked_segments]: the remaining segments,
    [snd_queuelen] and [recv_acked]. *)
Fixpoint tcp_free_acked_segments (ackno : Z) (seg_list other : list tcp_seg)
  (queuelen acked : Z) : option (list tcp_seg * Z * Z) :=
  match seg_list with
  | [] => Some ([], queuelen, acked)
  | s :: rest =>
      if TCP_SEQ_LEQ (seg_seqno s + TCP_TCPLEN s) ackno then
        lwip_assert (seg_clen s <=? queuelen);
        let queuelen := u16 (queuelen - seg_clen s) in
        let acked := u16 (acked + seg_len s) in
        lwip_assert (queuelen =? 0) || negb (match rest, other with [], [] => true | _, _ => false end);
        tcp_free_acked_segments ackno rest other queuelen acked
      else Some (seg_list, queuelen, acked)
  end.

(** The window update of [tcp_receive]. *)
Definition update_snd_wnd (p : tcp_pcb) (i : input) : tcp_pcb :=
  if TCP_SEQ_LT (snd_wl1 p) (in_seqno i) ||
     ((snd_wl1 p =? in_seqno i) && TCP_SEQ_LT (snd_wl2 p) (in_ackno i)) ||
     ((snd_wl2 p =? in_ackno i) && (snd_wnd p <? in_wnd i))
  then
    let p := p <| snd_wnd := in_wnd i |> in
    let p := if snd_wnd_max p <? snd_wnd p then p <| snd_wnd_max := snd_wnd p |> else p in
    p <| snd_wl1 := in_seqno i |> <| snd_wl2 := in_ackno i |>
  else p.

(** Clauses 2-5 of the duplicate-ACK test. *)
Definition is_dupack (right_wnd_edge : Z) (p : tcp_pcb) (i : input) : bool :=
  (in_tcplen i =? 0) && (u32 (snd_wl2 p + snd_wnd p) =? right_wnd_edge) &&
  (0 <=? rtime p) && (lastack p =? in_ackno i).

Definition receive_dupack (right_wnd_edge : Z) (p : tcp_pcb) (i : input) : tcp_pcb :=
  if is_dupack right_wnd_edge p i then
    let p := if dupacks p <? u8 (dupacks p + 1) then p <| dupacks := u8 (dupacks p + 1) |> else p in
    let p := if 3 <? dupacks p then p <| cwnd := TCP_WND_INC (cwnd p) (mss p) |> else p in
    if 3 <=? dupacks p then tcp_rexmit_fast p else p
  else p <| dupacks := 0 |>.

(** Slow start and congestion avoidance. *)
Definition update_cwnd (acked : Z) (p : tcp_pcb) : tcp_pcb :=
  if cwnd p <? ssthresh p then
    let num_seg := if tcp_is_flag_set TF_RTO p then 1 else 2 in
    let increase := Z.min acked (u16 (num_seg * mss p)) in
    p <| cwnd := TCP_WND_INC (cwnd p) increase |>
  else
    let p := p <| bytes_acked := TCP_WND_INC (bytes_acked p) acked |> in
    if cwnd p <=? bytes_acked p then
      let p := p <| bytes_acked := u16 (bytes_acked p - cwnd p) |> in
      p <| cwnd := TCP_WND_INC (cwnd p) (mss p) |>
    else p.

(** Does the ACK end the retransmission of in-flight data? *)
Definition rto_done (p : tcp_pcb) : bool :=
  match unacked p with
  | [] => match unsent p with
          | [] => true
          | s :: _ => TCP_SEQ_LEQ (rto_end p) (seg_seqno s)
          end
  | s :: _ => TCP_SEQ_LEQ (rto_end p) (seg_seqno s)
  end.

(** An ACK for new data. *)
Definition receive_new_ack (p : tcp_pcb) (i : input) (n : net)
  : option (tcp_pcb * input * net) :=
  let p := if tcp_is_flag_set TF_INFR p
           then (tcp_clear_flags TF_INFR p) <| cwnd := ssthresh p |> <| bytes_acked := 0 |>
           else p in
  let p := p <| nrtx := 0 |> <| rto := s16 (Z.shiftr (sa p) 3 + sv p) |> in
  let acked := u16 (in_ackno i - lastack p) in
  let p := p <| dupacks := 0 |> <| lastack := in_ackno i |> in
  let p := if state_val ESTABLISHED <=? state_val (state p) then update_cwnd acked p else p in
  '(l, ql, ra) ← tcp_free_acked_segments (in_ackno i) (unacked p) (unsent p)
                   (snd_queuelen p) (in_recv_acked i);
  let p := p <| unacked := l |> <| snd_queuelen := ql |> in
  '(l, ql, ra) ← tcp_free_acked_segments (in_ackno i) (unsent p) (unacked p) (snd_queuelen p) ra;
  let p := p <| unsent := l |> <| snd_queuelen := ql |> in
  let i := i <| in_recv_acked := ra |> in
  let p := p <| rtime := match unacked p with [] => -1 | _ => 0 end |> <| polltmr := 0 |> in
  let p := match unsent p with [] => p <| unsent_oversize := 0 |> | _ => p end in
  let n := if ip_current_is_v6 i then emit (Nd6Hint (in_src_ip i)) n else n in
  let p := p <| snd_buf := u16 (snd_buf p + in_recv_acked i) |> in
  let p := if tcp_is_flag_set TF_RTO p && rto_done p then tcp_clear_flags TF_RTO p else p in
  Some (p, i, n).

(** Round-trip estimation (Van Jacobson); all variables are [s16_t]. *)
Definition update_rtt (p : tcp_pcb) (i : input) : tcp_pcb :=
  if negb (rttest p =? 0) && TCP_SEQ_LT (rtseq p) (in_ackno i) then
    let m := s16 (tcp_ticks i - rttest p) in
    let m := s16 (m - Z.shiftr (sa p) 3) in
    let p := p <| sa := s16 (sa p + m) |> in
    let m := if m <? 0 then s16 (- m) else m in
    let m := s16 (m - Z.shiftr (sv p) 2) in
    let p := p <| sv := s16 (sv p + m) |> in
    p <| rto := s16 (Z.shiftr (sa p) 3 + sv p) |> <| rttest := 0 |>
  else p.

(** The ACK part of [tcp_receive]. *)
Definition receive_ack (p : tcp_pcb) (i : input) (n : net) : option (tcp_pcb * input * net) :=
  if flagset (in_flags i) TCP_ACK then
    let right_wnd_edge := u32 (snd_wnd p + snd_wl2 p) in
    let p := update_snd_wnd p i in
    '(p, i, n) ←
      (if TCP_SEQ_LEQ (in_ackno i) (lastack p) then Some (receive_dupack right_wnd_edge p i, i, n)
       else if TCP_SEQ_BETWEEN (in_ackno i) (lastack p + 1) (snd_nxt p) then receive_new_ack p i n
       else let '(p, n) := tcp_send_empty_ack p n in Some (p, i, n));
    Some (update_rtt p i, i, n)
  else Some (p, i, n).

Definition tcp_receive (p : tcp_pcb) (i : input) (n : net) : option (tcp_pcb * input * net) :=
  lwip_assert (state_val ESTABLISHED <=? state_val (state p));
  '(p, i, n) ← receive_ack p i n;
  receive_data p i n.

(** ** Options *)

(** The loop of [tcp_parseopt] from option index [idx]; only the MSS option
    counts. *)
Fixpoint tcp_parseopt_loop (fuel : nat) (optlen : Z) (opt : Z -> Z) (idx : Z) (mss : Z) : Z :=
  match fuel with
  | O => mss
  | S f =>
      if idx <? optlen then
        let o := opt idx in
        let idx := idx + 1 in
        if o =? 0 then mss
        else if o =? 1 then tcp_parseopt_loop f optlen opt idx mss
        else if o =? 2 then
          let l := opt idx in
          let idx := idx + 1 in
          if negb (l =? 4) || (optlen <? idx - 2 + 4) then mss
          else
            let m := Z.lor (u16 (opt idx * 256)) (opt (idx + 1)) in
            tcp_parseopt_loop f optlen opt (idx + 2)
              (if (TCP_MSS <? m) || (m =? 0) then TCP_MSS else m)
        else
          let data := opt idx in
          let idx := idx + 1 in
          if data <? 2 then mss
          else tcp_parseopt_loop f optlen opt (idx + (data - 2)) mss
      else mss
  end.

(** Every round reads at least one octet. *)
Definition tcp_parseopt (i : input) (p : tcp_pcb) : tcp_pcb :=
  p <| mss := tcp_parseopt_loop (S (Z.to_nat (in_optlen i))) (in_optlen i) (in_opt i) 0 (mss p) |>.
