(* ===== verification/TcpExamples.v ===== *)
(** * Concrete connections and segments

    Inputs at which the theorems about TCP are applied. *)

From S2P Require Import Prelude Err IpAddr TcpDefs TcpIn.

Definition octets (S : Z -> Z) (A : Z) (len : nat) : list Z :=
  (fun k => S (A + Z.of_nat k)) <$> seq 0 len.

(** An incoming segment with [len] octets of the stream from [A] on. *)
Definition slice (S : Z -> Z) (A : Z) (len : nat) (fin : bool) : input :=
  let fl := if fin then 17 else 16 in
  Input (TcpSeg (u32 A) fl (Z.of_nat len) (Some (octets S A len)) 1 no_snd)
    80 1234 (IPADDR4_INIT 0) (IPADDR4_INIT 0) 1000 0 (fun _ => 0)
    (u32 A) 0 0 (Z.of_nat len + Z.b2z fin) fl 0 None 0.

(** A connection that expects position [N]. *)
Definition example_pcb (N wnd : Z) : tcp_pcb :=
  TcpPcb (IPADDR4_INIT 0) (IPADDR4_INIT 0) 0 0 0 64 0 ESTABLISHED 64 1234 80 0
    0 0 0 0
    (u32 N) wnd wnd (u32 (N + wnd))
    (-1) 1460 0 0 0 12 12 0 0 5000 2920 32768 0
    5000 999 5000 5000 1000 1000 32768 0 0 0 [] [] [] None false None true
    7200000 0 0 0 0.

Definition octet_stream (x : Z) : Z := x mod 256.
Definition no_memory_trouble : net := Net [] [Some ERR_OK; Some ERR_OK; Some ERR_OK] [true; true; true] [].
