(* ===== verification/TcpProcess.v ===== *)
(** * The TCP state machine (core/c/core/tcp_in.c, core/c/core/tcp.c)

    [tcp_process] and the functions [tcp_input] chooses between: which states a
    segment leads to, which resets are sent, when a connection is handed to
    the application, closed, reset or moved to TIME-WAIT. *)

From S2P Require Import Prelude Err IpAddr TcpDefs TcpIn.

(** ** The state of the stack around one connection *)

(** [struct tcp_pcb_listen]: a listening pcb. *)
Record tcp_pcb_listen := TcpPcbListen {
  l_local_ip : ip_addr; l_local_port : Z; l_netif_idx : Z; l_prio : Z;
  l_so_options : Z; l_callback_arg : Z
}.

(** The pcb lists of tcp.c, the pcbs themselves, what was sent, and the rest of
    the program ([A]: the application, the network interfaces, the timers). *)
Record stack (A : Type) := Stack {
  rest : A;
  s_net : net;
  pcbs : gmap positive tcp_pcb;
  listeners : gmap positive tcp_pcb_listen;
  tcp_active_pcbs : list positive;
  tcp_tw_pcbs : list positive;
  tcp_listen_pcbs : list positive;
  tcp_active_pcbs_changed : bool;
  close_triggered : bool      (* TF_CLOSED set by tcp_trigger_input_pcb_close *)
}.
Arguments Stack {A}. Arguments rest {A}. Arguments s_net {A}. Arguments pcbs {A}.
Arguments listeners {A}. Arguments tcp_active_pcbs {A}. Arguments tcp_tw_pcbs {A}.
Arguments tcp_listen_pcbs {A}. Arguments tcp_active_pcbs_changed {A}.
Arguments close_triggered {A}.

#[export] Instance eta_stack A : EtaRecord (stack A) := fun s =>
  Stack (rest s) (s_net s) (pcbs s) (listeners s) (tcp_active_pcbs s) (tcp_tw_pcbs s)
    (tcp_listen_pcbs s) (tcp_active_pcbs_changed s) (close_triggered s).

(** What TCP calls outside its own files: the callbacks of the application (they
    may change the pcb and the stack; the poll callback is given the stack only)
    and the timers. *)
Class tcp_env (A : Type) := {
  event_accept : stack A -> tcp_pcb -> option (stack A * tcp_pcb * Z);
  event_accept_failed : stack A -> tcp_pcb_listen -> option (stack A);
  event_connected : stack A -> tcp_pcb -> option (stack A * tcp_pcb * Z);
  event_sent : Z -> stack A -> tcp_pcb -> option (stack A * tcp_pcb * Z);
  event_recv : option (list Z) -> stack A -> tcp_pcb -> option (stack A * tcp_pcb * Z);
  event_err : Z -> Z -> stack A -> option (stack A);
  event_poll : positive -> stack A -> option (stack A * Z);
  tcp_timer_needed : stack A -> option (stack A)
}.

(** What TCP input calls outside tcp_in.c besides: the output engine (TcpOut.v),
    the allocator of pcbs (TcpControl.v) and the routing table. *)
Class tcp_world (A : Type) := {
  #[global] world_env :: tcp_env A;
  tcp_output : stack A -> tcp_pcb -> option (stack A * tcp_pcb);
  tcp_enqueue_flags : Z -> stack A -> tcp_pcb -> option (stack A * tcp_pcb * Z);
  tcp_alloc : Z -> stack A -> option (stack A * option (positive * tcp_pcb));
  tcp_next_iss : stack A -> stack A * Z;
  path_mtu : stack A -> ip_addr -> ip_addr -> option Z   (* [None]: no interface *)
}.

Section pcbs.
Context {A : Type} `{!tcp_env A}.

(** ** core/c/core/tcp.c: purging and removing a pcb *)

Definition tcp_pcb_purge (p : tcp_pcb) : tcp_pcb :=
  if decide (state p = CLOSED) then p
  else if decide (state p = TIME_WAIT) then p
  else if decide (state p = LISTEN) then p
  else
    p <| refused_data := None |> <| refused_fin := false |> <| ooseq := [] |> <| rtime := -1 |>
      <| unsent := [] |> <| unacked := [] |> <| unsent_oversize := 0 |>.

(** [TCP_RMV]. *)
Fixpoint tcp_rmv (l : positive) (pcblist : list positive) : list positive :=
  match pcblist with
  | [] => []
  | x :: r => if decide (x = l) then r else x :: tcp_rmv l r
  end.

(** [tcp_pcb_remove(&tcp_active_pcbs, pcb)].  [busy]: [tcp_input_pcb] is this
    pcb, so that [tcp_output] returns at once; otherwise it finds nothing unsent
    and sends an empty ACK. *)
Definition tcp_pcb_remove_active (busy : bool) (l : positive) (p : tcp_pcb) (s : stack A)
  : stack A * tcp_pcb :=
  let s := s <| tcp_active_pcbs := tcp_rmv l (tcp_active_pcbs s) |> in
  let p := tcp_pcb_purge p in
  let '(s, p) :=
    if negb (bool_decide (state p = TIME_WAIT)) && negb (bool_decide (state p = LISTEN)) &&
       tcp_is_flag_set TF_ACK_DELAY p
    then let p := tcp_ack_now p in
         if busy then (s, p)
         else let '(p, n) := tcp_send_empty_ack p (s_net s) in (s <| s_net := n |>, p)
    else (s, p) in
  (s, p <| state := CLOSED |> <| local_port := 0 |>).

(** [tcp_free]. *)
Definition tcp_free (l : positive) (s : stack A) : stack A := s <| pcbs := delete l (pcbs s) |>.

Definition TCP_EVENT_ERR (has_errf : bool) (arg err : Z) (s : stack A) : option (stack A) :=
  if has_errf then event_err arg err s else Some s.

(** [tcp_abandon] of an active pcb. *)
Definition tcp_abandon (busy reset : bool) (l : positive) (p : tcp_pcb) (s : stack A)
  : option (stack A) :=
  let seqno := snd_nxt p in
  let ackno := rcv_nxt p in
  let errf_arg := callback_arg p in
  let has_errf := errf p in
  let lport := local_port p in
  let '(s, _) := tcp_pcb_remove_active busy l p s in
  let s := s <| tcp_active_pcbs_changed := true |> in
  let s := if reset
           then s <| s_net := tcp_rst seqno ackno (local_ip p) (remote_ip p) lport (remote_port p) (s_net s) |>
           else s in
  let s := tcp_free l s in
  TCP_EVENT_ERR has_errf errf_arg ERR_ABRT s.

Definition tcp_abort := tcp_abandon true true.

(** [TCP_REG(&tcp_tw_pcbs, pcb)] after [TCP_RMV_ACTIVE]. *)
Definition enter_time_wait (l : positive) (p : tcp_pcb) (s : stack A)
  : option (stack A * tcp_pcb) :=
  let p := tcp_pcb_purge p in
  let s := s <| tcp_active_pcbs := tcp_rmv l (tcp_active_pcbs s) |>
             <| tcp_active_pcbs_changed := true |> in
  let p := p <| state := TIME_WAIT |> in
  let s := s <| tcp_tw_pcbs := l :: tcp_tw_pcbs s |> <| pcbs := <[l := p]> (pcbs s) |> in
  s ← tcp_timer_needed s;
  Some (s, p).

(** [tcp_process_refused_data]: offer the refused data again. *)
Definition tcp_process_refused_data (p : tcp_pcb) (s : stack A)
  : option (stack A * tcp_pcb * Z) :=
  let fin := refused_fin p in
  let d := refused_data p in
  '(s, p, err) ← event_recv d s (p <| refused_data := None |> <| refused_fin := false |>);
  if err =? ERR_OK then
    if fin then
      let p := if negb (rcv_wnd p =? TCP_WND) then p <| rcv_wnd := u16 (rcv_wnd p + 1) |> else p in
      '(s, p, err) ← event_recv None s p;
      if err =? ERR_ABRT then Some (s, p, ERR_ABRT) else Some (s, p, ERR_OK)
    else Some (s, p, ERR_OK)
  else if err =? ERR_ABRT then Some (s, p, ERR_ABRT)
  else Some (s, p <| refused_data := d |> <| refused_fin := fin |>, ERR_INPROGRESS).

End pcbs.

Section process.
Context {A : Type} `{!tcp_world A}.

(** [tcp_eff_send_mss]. *)
Definition tcp_eff_send_mss (sendmss : Z) (s : stack A) (src dest : ip_addr) : Z :=
  tcp_eff_send_mss_netif sendmss (path_mtu s src dest) dest.

(** ** [tcp_process] *)

(** Is the reset acceptable? *)
Definition rst_acceptable (p : tcp_pcb) (i : input) : bool :=
  if decide (state p = SYN_SENT) then in_ackno i =? snd_nxt p
  else in_seqno i =? rcv_nxt p.

Definition process_rst (p : tcp_pcb) (i : input) : option (tcp_pcb * input * Z) :=
  if rst_acceptable p i then
    lwip_assert negb (bool_decide (state p = CLOSED));
    Some (tcp_clear_flags TF_ACK_DELAY p,
          i <| in_recv_flags := Z.lor (in_recv_flags i) TF_RESET |>, ERR_RST)
  else if negb (bool_decide (state p = SYN_SENT)) &&
          TCP_SEQ_BETWEEN (in_seqno i) (rcv_nxt p) (rcv_nxt p + rcv_wnd p)
  then Some (tcp_ack_now p, i, ERR_OK)       (* challenge ACK, RFC 5961 *)
  else Some (p, i, ERR_OK).

Definition has_flag (i : input) (f : Z) : bool := flagset (in_flags i) f.

(** Our FIN is acknowledged: [ackno == snd_nxt] and nothing is left to send. *)
Definition fin_acked (p : tcp_pcb) (i : input) : bool :=
  has_flag i TCP_ACK && (in_ackno i =? snd_nxt p) &&
  match unsent p with [] => true | _ => false end.

Definition got_fin (i : input) : bool := flagset (in_recv_flags i) TF_GOT_FIN.

Definition process_syn_sent (p : tcp_pcb) (i : input) (s : stack A)
  : option (stack A * tcp_pcb * input * Z) :=
  if has_flag i TCP_ACK && has_flag i TCP_SYN && (in_ackno i =? u32 (lastack p + 1)) then
    let p := p <| rcv_nxt := u32 (in_seqno i + 1) |> in
    let p := p <| rcv_ann_right_edge := rcv_nxt p |> <| lastack := in_ackno i |>
               <| snd_wnd := in_wnd i |> <| snd_wnd_max := in_wnd i |>
               <| snd_wl1 := u32 (in_seqno i - 1) |> <| state := ESTABLISHED |> in
    let p := p <| mss := tcp_eff_send_mss (mss p) s (local_ip p) (remote_ip p) |> in
    let p := p <| cwnd := LWIP_TCP_CALC_INITIAL_CWND (mss p) |> in
    lwip_assert (0 <? snd_queuelen p);
    let p := p <| snd_queuelen := snd_queuelen p - 1 |> in
    p ← match unacked p with
        | _ :: r => Some (p <| unacked := r |>)
        | [] => match unsent p with
                | _ :: r => Some (p <| unsent := r |>)
                | [] => None
                end
        end;
    let p := match unacked p with
             | [] => p <| rtime := -1 |>
             | _ => p <| rtime := 0 |> <| nrtx := 0 |>
             end in
    '(s, p, err) ← event_connected s p;
    if err =? ERR_ABRT then Some (s, p, i, ERR_ABRT)
    else Some (s, tcp_ack_now p, i, ERR_OK)
  else if has_flag i TCP_ACK then
    let s := s <| s_net := rst_reply i (s_net s) |> in
    let p := if nrtx p <? TCP_SYNMAXRTX then tcp_rexmit_rto (p <| rtime := 0 |>) else p in
    Some (s, p, i, ERR_OK)
  else Some (s, p, i, ERR_OK).

(** [tcp_receive] on the stack. *)
Definition receive (p : tcp_pcb) (i : input) (s : stack A) : option (stack A * tcp_pcb * input) :=
  '(p, i, n) ← tcp_receive p i (s_net s);
  Some (s <| s_net := n |>, p, i).

Definition process_syn_rcvd (l : positive) (p : tcp_pcb) (i : input) (s : stack A)
  : option (stack A * tcp_pcb * input * Z) :=
  if has_flag i TCP_ACK then
    if TCP_SEQ_BETWEEN (in_ackno i) (lastack p + 1) (snd_nxt p) then
      let p := p <| state := ESTABLISHED |> in
      '(s, p, err) ←
        match listener p with
        | None => Some (s, p, ERR_VAL)
        | Some _ => event_accept s p
        end;
      if negb (err =? ERR_OK) then
        s ← (if negb (err =? ERR_ABRT) then tcp_abort l p s else Some s);
        Some (s, p, i, ERR_ABRT)
      else
        '(s, p, i) ← receive p i s;
        let i := if negb (in_recv_acked i =? 0)
                 then i <| in_recv_acked := in_recv_acked i - 1 |> else i in
        let p := p <| cwnd := LWIP_TCP_CALC_INITIAL_CWND (mss p) |> in
        let p := if got_fin i then (tcp_ack_now p) <| state := CLOSE_WAIT |> else p in
        Some (s, p, i, ERR_OK)
    else Some (s <| s_net := rst_reply i (s_net s) |>, p, i, ERR_OK)
  else if has_flag i TCP_SYN && (in_seqno i =? u32 (rcv_nxt p - 1)) then
    Some (s, fst (tcp_rexmit p), i, ERR_OK)
  else Some (s, p, i, ERR_OK).

Definition process_established (p : tcp_pcb) (i : input) (s : stack A)
  : option (stack A * tcp_pcb * input * Z) :=
  '(s, p, i) ← receive p i s;
  let p := if got_fin i then (tcp_ack_now p) <| state := CLOSE_WAIT |> else p in
  Some (s, p, i, ERR_OK).

Definition process_fin_wait_1 (l : positive) (p : tcp_pcb) (i : input) (s : stack A)
  : option (stack A * tcp_pcb * input * Z) :=
  '(s, p, i) ← receive p i s;
  if got_fin i then
    if fin_acked p i then
      '(s, p) ← enter_time_wait l (tcp_ack_now p) s;
      Some (s, p, i, ERR_OK)
    else Some (s, (tcp_ack_now p) <| state := CLOSING |>, i, ERR_OK)
  else if fin_acked p i then Some (s, p <| state := FIN_WAIT_2 |>, i, ERR_OK)
  else Some (s, p, i, ERR_OK).

Definition process_fin_wait_2 (l : positive) (p : tcp_pcb) (i : input) (s : stack A)
  : option (stack A * tcp_pcb * input * Z) :=
  '(s, p, i) ← receive p i s;
  if got_fin i then
    '(s, p) ← enter_time_wait l (tcp_ack_now p) s;
    Some (s, p, i, ERR_OK)
  else Some (s, p, i, ERR_OK).

Definition process_closing (l : positive) (p : tcp_pcb) (i : input) (s : stack A)
  : option (stack A * tcp_pcb * input * Z) :=
  '(s, p, i) ← receive p i s;
  if fin_acked p i then
    '(s, p) ← enter_time_wait l p s;
    Some (s, p, i, ERR_OK)
  else Some (s, p, i, ERR_OK).

Definition process_last_ack (p : tcp_pcb) (i : input) (s : stack A)
  : option (stack A * tcp_pcb * input * Z) :=
  '(s, p, i) ← receive p i s;
  let i := if fin_acked p i
           then i <| in_recv_flags := Z.lor (in_recv_flags i) TF_CLOSED |> else i in
  Some (s, p, i, ERR_OK).

Definition tcp_process (l : positive) (p : tcp_pcb) (i : input) (s : stack A)
  : option (stack A * tcp_pcb * input * Z) :=
  if has_flag i TCP_RST then
    '(p, i, err) ← process_rst p i;
    Some (s, p, i, err)
  else if has_flag i TCP_SYN && negb (bool_decide (state p = SYN_SENT)) &&
          negb (bool_decide (state p = SYN_RCVD))
  then Some (s, tcp_ack_now p, i, ERR_OK)
  else
    let p := if negb (tcp_is_flag_set TF_RXCLOSED p) then p <| tmr := tcp_ticks i |> else p in
    let p := p <| keep_cnt_sent := 0 |> <| persist_probe := 0 |> in
    let p := tcp_parseopt i p in
    match state p with
    | SYN_SENT => process_syn_sent p i s
    | SYN_RCVD => process_syn_rcvd l p i s
    | CLOSE_WAIT | ESTABLISHED => process_established p i s
    | FIN_WAIT_1 => process_fin_wait_1 l p i s
    | FIN_WAIT_2 => process_fin_wait_2 l p i s
    | CLOSING => process_closing l p i s
    | LAST_ACK => process_last_ack p i s
    | CLOSED | LISTEN | TIME_WAIT => Some (s, p, i, ERR_OK)
    end.

(** ** Segments for other pcbs *)

(** [tcp_timewait_input]. *)
Definition tcp_timewait_input (p : tcp_pcb) (i : input) (s : stack A)
  : option (stack A * tcp_pcb) :=
  if has_flag i TCP_RST then Some (s, p)
  else if has_flag i TCP_SYN &&
          TCP_SEQ_BETWEEN (in_seqno i) (rcv_nxt p) (rcv_nxt p + rcv_wnd p)
  then Some (s <| s_net := rst_reply i (s_net s) |>, p)
  else
    let p := if negb (has_flag i TCP_SYN) && has_flag i TCP_FIN
             then p <| tmr := tcp_ticks i |> else p in
    if 0 <? in_tcplen i then tcp_output s (tcp_ack_now p) else Some (s, p).

(** The new connection of [tcp_listen_input], from the fresh pcb [np]. *)
Definition init_passive (lp : tcp_pcb_listen) (lid : positive) (iss : Z) (i : input) (np : tcp_pcb)
  : tcp_pcb :=
  let np := np <| local_ip := in_dest_ip i |> <| remote_ip := in_src_ip i |>
               <| local_port := in_dest i |> (* go-tun2socks: not the listener's port *)
               <| remote_port := in_src i |> <| state := SYN_RCVD |>
               <| rcv_nxt := u32 (in_seqno i + 1) |> in
  np <| rcv_ann_right_edge := rcv_nxt np |> <| snd_wl2 := iss |> <| snd_nxt := iss |>
     <| lastack := iss |> <| snd_lbb := iss |> <| snd_wl1 := u32 (in_seqno i - 1) |>
     <| callback_arg := l_callback_arg lp |> <| listener := Some lid |>
     <| so_options := Z.land (l_so_options lp) 12 |> (* SOF_INHERITED *)
     <| netif_idx := l_netif_idx lp |>.

(** [tcp_listen_input]. *)
Definition tcp_listen_input (lid : positive) (lp : tcp_pcb_listen) (i : input) (s : stack A)
  : option (stack A) :=
  if has_flag i TCP_RST then Some s
  else if has_flag i TCP_ACK then Some (s <| s_net := rst_reply i (s_net s) |>)
  else if has_flag i TCP_SYN then
    '(s, new) ← tcp_alloc (l_prio lp) s;
    match new with
    | None => event_accept_failed s lp
    | Some (id, np) =>
        let '(s, iss) := tcp_next_iss s in
        let np := init_passive lp lid iss i np in
        let s := s <| tcp_active_pcbs := id :: tcp_active_pcbs s |> <| pcbs := <[id := np]> (pcbs s) |> in
        s ← tcp_timer_needed s;
        let s := s <| tcp_active_pcbs_changed := true |> in
        let np := tcp_parseopt i np in
        let np := np <| snd_wnd := in_wnd i |> <| snd_wnd_max := in_wnd i |> in
        let np := np <| mss := tcp_eff_send_mss (mss np) s (local_ip np) (remote_ip np) |> in
        '(s, np, rc) ← tcp_enqueue_flags (Z.lor TCP_SYN TCP_ACK) s np;
        if negb (rc =? ERR_OK) then tcp_abandon false false id np s
        else
          '(s, np) ← tcp_output s np;
          Some (s <| pcbs := <[id := np]> (pcbs s) |>)
    end
  else Some s.

(** ** [tcp_input] *)

(** [tcp_input_delayed_close]: [true] if the pcb has been deallocated. *)
Definition tcp_input_delayed_close (busy : bool) (l : positive) (p : tcp_pcb) (i : input) (s : stack A)
  : option (stack A * bool) :=
  if flagset (in_recv_flags i) TF_CLOSED || close_triggered s then
    s ← (if negb (tcp_is_flag_set TF_RXCLOSED p)
         then TCP_EVENT_ERR (errf p) (callback_arg p) ERR_CLSD s else Some s);
    let '(s, _) := tcp_pcb_remove_active busy l p s in
    Some (tcp_free l s, true)
  else Some (s, false).

(** What [tcp_input] does with the result of [tcp_process]: the callbacks, in
    their order, and [tcp_output] at the end.  The pcb is written back unless it
    has been deallocated. *)
Definition deliver_data (l : positive) (p : tcp_pcb) (i : input) (s : stack A)
  : option (stack A * option tcp_pcb) :=
  match in_recv_data i with
  | None => Some (s, Some p)
  | Some d =>
      lwip_assert (match refused_data p with None => true | Some _ => false end);
      if tcp_is_flag_set TF_RXCLOSED p then
        s ← tcp_abort l p s;
        Some (s, None)
      else
        '(s, p, err) ← event_recv (Some d) s p;
        if err =? ERR_ABRT then Some (s, None)
        else if negb (err =? ERR_OK) then Some (s, Some (p <| refused_data := Some d |>))
        else Some (s, Some p)
  end.

Definition deliver_fin (p : tcp_pcb) (i : input) (s : stack A)
  : option (stack A * option tcp_pcb) :=
  if got_fin i then
    match refused_data p with
    | Some _ => Some (s, Some (p <| refused_fin := true |>))
    | None =>
        let p := if negb (rcv_wnd p =? TCP_WND) then p <| rcv_wnd := u16 (rcv_wnd p + 1) |> else p in
        '(s, p, err) ← event_recv None s p;
        if err =? ERR_ABRT then Some (s, None) else Some (s, Some p)
    end
  else Some (s, Some p).

Definition deliver_sent (p : tcp_pcb) (i : input) (s : stack A)
  : option (stack A * option tcp_pcb) :=
  if 0 <? in_recv_acked i then
    '(s, p, err) ← event_sent (in_recv_acked i) s p;
    if err =? ERR_ABRT then Some (s, None) else Some (s, Some p)
  else Some (s, Some p).

Definition after_process (l : positive) (p : tcp_pcb) (i : input) (s : stack A)
  : option (stack A) :=
  if flagset (in_recv_flags i) TF_RESET then
    s ← TCP_EVENT_ERR (errf p) (callback_arg p) ERR_RST s;
    let '(s, _) := tcp_pcb_remove_active true l p s in
    Some (tcp_free l s)
  else
    '(s, p) ← deliver_sent p i s;
    match p with None => Some s | Some p =>
    '(s, closed) ← tcp_input_delayed_close true l p i s;
    if closed : bool then Some s else
    '(s, p) ← deliver_data l p i s;
    match p with None => Some s | Some p =>
    '(s, p) ← deliver_fin p i s;
    match p with None => Some s | Some p =>
    '(s, closed) ← tcp_input_delayed_close false l p i s;
    if closed : bool then Some s else
    '(s, p) ← tcp_output s p;
    Some (s <| pcbs := <[l := p]> (pcbs s) |>)
    end end end.

(** A segment for an active connection. *)
Definition tcp_input_active (l : positive) (i : input) (s : stack A) : option (stack A) :=
  p ← pcbs s !! l;
  let i := i <| in_recv_data := None |> <| in_recv_flags := 0 |> <| in_recv_acked := 0 |> in
  let s := s <| close_triggered := false |> in
  '(s, p, go) ←
    match refused_data p with
    | None => Some (s, p, true)
    | Some _ =>
        '(s, p, err) ← tcp_process_refused_data p s;
        if err =? ERR_ABRT then
          (* "if (pcb->rcv_ann_wnd == 0)": the pcb has been freed *)
          None
        else
          match refused_data p with
          | Some _ =>
              if 0 <? in_tcplen i then
                let '(p, n) := if rcv_ann_wnd p =? 0 then tcp_send_empty_ack p (s_net s)
                               else (p, s_net s) in
                Some (s <| s_net := n |>, p, false)
              else Some (s, p, true)
          | None => Some (s, p, true)
          end
    end;
  if go : bool then
    '(s, p, i, err) ← tcp_process l p i s;
    if negb (err =? ERR_ABRT) then after_process l p i s else Some s
  else Some (s <| pcbs := <[l := p]> (pcbs s) |>).

(** The pcb of a connection: netif, ports and addresses match. *)
Definition pcb_matches (netif : Z) (i : input) (p : tcp_pcb) : bool :=
  ((netif_idx p =? 0) || (netif_idx p =? netif)) &&
  (remote_port p =? in_src i) && (local_port p =? in_dest i) &&
  ip_addr_cmp (remote_ip p) (in_src_ip i) && ip_addr_cmp (local_ip p) (in_dest_ip i).

(** The first matching pcb of a list, and the list without it; [ok] is asserted
    of every pcb on the way. *)
Fixpoint find_pcb (ok f : tcp_pcb -> bool) (m : gmap positive tcp_pcb) (pcblist : list positive)
  : option (option (positive * list positive)) :=
  match pcblist with
  | [] => Some None
  | l :: r =>
      p ← m !! l;
      lwip_assert ok p;
      if f p then Some (Some (l, r))
      else x ← find_pcb ok f m r; Some ('(l', r') ← x; Some (l', l :: r'))
  end.

Definition active_state (p : tcp_pcb) : bool :=
  negb (bool_decide (state p = CLOSED)) && negb (bool_decide (state p = TIME_WAIT)) &&
  negb (bool_decide (state p = LISTEN)).

(** [tcp_input] after the header has been read: find the pcb, moving the one
    that is found to the front of the active list; TIME-WAIT and LISTEN come
    next (go-tun2socks: the first listening pcb takes everything); otherwise a
    reset. *)
Definition tcp_demux (netif : Z) (i : input) (s : stack A) : option (stack A) :=
  found ← find_pcb active_state (pcb_matches netif i) (pcbs s) (tcp_active_pcbs s);
  match found with
  | Some (l, r) =>
      let s := s <| tcp_active_pcbs := l :: r |> in
      tcp_input_active l i s
  | None =>
      found ← find_pcb (fun p => bool_decide (state p = TIME_WAIT)) (pcb_matches netif i)
                (pcbs s) (tcp_tw_pcbs s);
      match found with
      | Some (l, _) =>
          p ← pcbs s !! l;
          '(s, p) ← tcp_timewait_input p i s;
          Some (s <| pcbs := <[l := p]> (pcbs s) |>)
      | None =>
          match tcp_listen_pcbs s with
          | lid :: _ => lp ← listeners s !! lid; tcp_listen_input lid lp i s
          | [] =>
              if negb (has_flag i TCP_RST)
              then Some (s <| s_net := rst_reply i (s_net s) |>)
              else Some s
          end
      end
  end.

(** *** The header

    The packet is given by the payloads of its pbufs; [mem] is what memory
    holds behind them.  [None]: an assertion; [Some None]: the packet is
    dropped. *)

Definition be16 (d : list Z) (o : nat) : Z := nth o d 0 * 256 + nth (o + 1) d 0.
Definition be32 (d : list Z) (o : nat) : Z := be16 d o * 65536 + be16 d (o + 2).

(** Where the options and the data are: [tcphdr_opt1len], [tcphdr_opt2], data. *)
Definition split_header (hdrlen : Z) (d1 : list Z) (ds : list (list Z))
  : option (option (Z * option (list Z) * list (list Z))) :=
  let optlen := hdrlen - TCP_HLEN in
  if hdrlen <=? p_tot_len d1
  then Some (Some (optlen, None, drop (Z.to_nat hdrlen) d1 :: ds))
  else
    match ds with
    | [] => None                                  (* "p->next != NULL" *)
    | d2 :: ds' =>
        let opt1len := p_tot_len d1 - TCP_HLEN in
        let opt2len := optlen - opt1len in
        if p_tot_len d2 <? opt2len then Some None
        else Some (Some (opt1len, Some d2, drop (Z.to_nat opt2len) d2 :: ds'))
    end.

(** [tcp_get_next_optbyte] at index [k]. *)
Definition opt_byte (mem : Z -> Z) (d1 : list Z) (opt1len : Z) (opt2 : option (list Z)) (k : Z) : Z :=
  match opt2 with
  | Some d2 =>
      if k <? opt1len then nth (Z.to_nat (TCP_HLEN + k)) d1 (mem k)
      else nth (Z.to_nat (u8 (k - opt1len))) d2 (mem k)
  | None => nth (Z.to_nat (TCP_HLEN + k)) d1 (mem k)
  end.

Definition tcp_read_header (is_broadcast : ip_addr -> bool) (mem : Z -> Z) (ticks : Z)
  (src dest : ip_addr) (pkt : list (list Z)) : option (option input) :=
  match pkt with
  | [] => None                                    (* "tcp_input: invalid pbuf" *)
  | d1 :: ds =>
      if p_tot_len d1 <? TCP_HLEN then Some None
      else if is_broadcast dest || ip_addr_ismulticast dest then Some None
      else
        let hdrlen_bytes := u8 (nth 12 d1 0 / 16 * 4) in
        if (hdrlen_bytes <? TCP_HLEN) || (p_tot_len (concat pkt) <? hdrlen_bytes) then Some None
        else
          x ← split_header hdrlen_bytes d1 ds;
          match x with
          | None => Some None
          | Some (opt1len, opt2, data) =>
              let fl := Z.land (nth 13 d1 0) 63 in
              let data := concat data in
              let len := p_tot_len data in
              let tcplen := if flagset fl (Z.lor TCP_FIN TCP_SYN) then u16 (len + 1) else len in
              if tcplen <? len then Some None
              else
                Some (Some (Input
                  (TcpSeg (be32 d1 4) fl len (Some data) 1 no_snd)
                  (be16 d1 0) (be16 d1 2) src dest (be16 d1 14)
                  (hdrlen_bytes - TCP_HLEN) (opt_byte mem d1 opt1len opt2)
                  (be32 d1 4) (be32 d1 8) 0 tcplen fl 0 None ticks))
          end
  end.

(** [tcp_input]. *)
Definition tcp_input (is_broadcast : ip_addr -> bool) (mem : Z -> Z) (ticks : Z) (netif : Z)
  (src dest : ip_addr) (pkt : list (list Z)) (s : stack A) : option (stack A) :=
  x ← tcp_read_header is_broadcast mem ticks src dest pkt;
  match x with
  | None => Some s
  | Some i => tcp_demux netif i s
  end.

End process.
