(* ===== verification/TcpReassembly.v ===== *)
(** * Reassembly of the octet stream

    The receive path of tcp_in.c ([tcp_receive], [tcp_oos_insert_segment])
    against an abstract view: the peer sends the octets [S] of one stream that
    ends at position [E], sequence numbers are positions modulo 2^32, and the
    out-of-sequence queue is a sorted list of disjoint pieces of that stream. *)

From S2P Require Import Prelude Err IpAddr TcpDefs TcpIn TcpExamples.

(** ** Header flags *)

Lemma flagset_1 x : flagset x 1 = Z.testbit x 0.
Proof.
  unfold flagset. change 1 with (Z.ones 1). rewrite Z.land_ones by lia.
  change (2 ^ 1) with 2. rewrite Z.bit0_odd, Zmod_odd. by destruct (Z.odd x).
Qed.

Lemma flagset_2 x : flagset x 2 = Z.testbit x 1.
Proof.
  unfold flagset. destruct (Z.testbit x 1) eqn:E.
  - destruct (Z.eqb_spec (Z.land x 2) 0) as [H|]; [|done].
    apply (f_equal (fun z => Z.testbit z 1)) in H. rewrite Z.land_spec, E in H. done.
  - replace (Z.land x 2) with 0; [done|]. symmetry. apply Z.bits_inj'. intros k Hk.
    rewrite Z.land_spec, Z.bits_0. destruct (decide (k = 1)) as [->|]; [by rewrite E|].
    change 2 with (2 ^ 1). rewrite Z.pow2_bits_false by lia. by rewrite andb_false_r.
Qed.

Lemma flagset_3 x : flagset x (Z.lor TCP_FIN TCP_SYN) = flagset x TCP_FIN || flagset x TCP_SYN.
Proof.
  unfold flagset, TCP_FIN, TCP_SYN. rewrite Z.land_lor_distr_r.
  destruct (Z.eqb_spec (Z.land x 1) 0) as [->|H1]; simpl; [by rewrite Z.lor_0_l|].
  destruct (Z.eqb_spec (Z.lor (Z.land x 1) (Z.land x 2)) 0) as [H|]; [|done].
  by apply Z.lor_eq_0_iff in H as [? _].
Qed.

Lemma seg_fin_set s : seg_fin (s <| seg_flags := Z.lor (seg_flags s) TCP_FIN |>) = true.
Proof. unfold seg_fin, TCP_FIN. rewrite flagset_1. cbn -[Z.testbit Z.lor]. by rewrite Z.lor_spec, orb_true_r. Qed.

Lemma seg_syn_set s : seg_syn (s <| seg_flags := Z.lor (seg_flags s) TCP_FIN |>) = seg_syn s.
Proof.
  unfold seg_syn, TCP_SYN, TCP_FIN. rewrite !flagset_2. cbn -[Z.testbit Z.lor]. by rewrite Z.lor_spec, orb_false_r.
Qed.

Lemma tcplen_alt s : seg_syn s = false -> TCP_TCPLEN s = seg_len s + if seg_fin s then 1 else 0.
Proof.
  intros Hs. unfold TCP_TCPLEN. rewrite flagset_3. unfold seg_syn in Hs. rewrite Hs, orb_false_r.
  done.
Qed.

Section stream.
(** The octet at each position, and the end of the stream. *)
Context (S : Z -> Z) (E : Z).

(** [d] is what the stream holds from position [A] on. *)
Definition stream_at (A : Z) (d : list Z) : Prop :=
  forall k x, d !! k = Some x -> x = S (A + Z.of_nat k).

Lemma stream_at_app A d1 d2 :
  stream_at A d1 -> stream_at (A + Z.of_nat (length d1)) d2 -> stream_at A (d1 ++ d2).
Proof.
  intros H1 H2 k x. rewrite lookup_app_Some. intros [Hk|[Hk Hx]]; [by apply H1|].
  apply H2 in Hx. rewrite Hx. f_equal. lia.
Qed.

Lemma stream_at_take A n d : stream_at A d -> stream_at A (take n d).
Proof. intros H k x. rewrite lookup_take_Some. intros [? _]. by apply H. Qed.

Lemma stream_at_drop A n d : stream_at A d -> stream_at (A + Z.of_nat n) (drop n d).
Proof. intros H k x Hx. rewrite lookup_drop in Hx. apply H in Hx. rewrite Hx. f_equal. lia. Qed.

(** A segment that carries the octets at [A], with the FIN only at the end. *)
Record seg_ok (A : Z) (s : tcp_seg) : Prop := {
  so_seqno : seg_seqno s = u32 A;
  so_syn : seg_syn s = false;
  so_data : exists d, seg_p s = Some d /\ seg_len s = Z.of_nat (length d) /\ stream_at A d;
  so_len : 0 <= seg_len s <= 65535;
  so_end : A + seg_len s <= E;
  so_fin : seg_fin s = true -> A + seg_len s = E
}.

(** The queue with its positions: sorted, disjoint, a FIN only at the end,
    between [lo] and the right edge [R] of the window. *)
Fixpoint queue_ok (lo R : Z) (qs : list (Z * tcp_seg)) : Prop :=
  match qs with
  | [] => True
  | (A, s) :: r =>
      lo <= A /\ seg_ok A s /\ (seg_fin s = false -> 0 < seg_len s) /\
      A + TCP_TCPLEN s <= R /\ (seg_fin s = true -> r = []) /\
      queue_ok (A + seg_len s) R r
  end.

(** The positions a queue covers. *)
Definition covered (qs : list (Z * tcp_seg)) (x : Z) : Prop :=
  exists A s, (A, s) ∈ qs /\ A <= x < A + seg_len s.

Definition has_fin (qs : list (Z * tcp_seg)) : Prop := exists A s, (A, s) ∈ qs /\ seg_fin s = true.

Lemma covered_nil x : ~ covered [] x.
Proof. intros (A & s & H & _). by apply elem_of_nil in H. Qed.

Lemma covered_cons A s qs x : covered ((A, s) :: qs) x <-> A <= x < A + seg_len s \/ covered qs x.
Proof.
  split.
  - intros (B & t & [[= -> ->]|H]%elem_of_cons & Hx); [by left|right; by exists B, t].
  - intros [Hx|(B & t & H & Hx)]; [exists A, s|exists B, t]; (split; [|done]); [by left|by right].
Qed.

Lemma has_fin_nil : ~ has_fin [].
Proof. intros (A & s & H & _). by apply elem_of_nil in H. Qed.

Lemma has_fin_cons A s qs : has_fin ((A, s) :: qs) <-> seg_fin s = true \/ has_fin qs.
Proof.
  split.
  - intros (B & t & [[= -> ->]|H]%elem_of_cons & Hf); [by left|right; by exists B, t].
  - intros [Hf|(B & t & H & Hf)]; [exists A, s|exists B, t]; (split; [|done]); [by left|by right].
Qed.

Lemma queue_ok_weaken lo lo' R qs : queue_ok lo R qs -> lo' <= lo -> queue_ok lo' R qs.
Proof. destruct qs as [|[A s] qs]; simpl; [done|]. intros (? & H) ?. split; [lia|done]. Qed.

Lemma queue_ok_elem lo R qs A s :
  queue_ok lo R qs -> (A, s) ∈ qs -> lo <= A /\ seg_ok A s /\ A + TCP_TCPLEN s <= R.
Proof.
  revert lo. induction qs as [|[B t] qs IH]; intros lo; simpl; [intros _ H; by apply elem_of_nil in H|].
  intros (Hlo & Ht & _ & HR & _ & Hq) [[= -> ->]|H]%elem_of_cons; [done|].
  destruct (IH _ Hq H) as (? & ? & ?). pose proof (so_len _ _ Ht). split_and!; try done. lia.
Qed.

Lemma tcplen_bounds s A : seg_ok A s -> seg_len s <= TCP_TCPLEN s <= seg_len s + 1.
Proof. intros H. rewrite tcplen_alt by apply H. destruct (seg_fin s); lia. Qed.

(** Cutting a segment. *)
Lemma seg_cut_ok A s n :
  seg_ok A s -> seg_fin s = false -> 0 <= n <= seg_len s ->
  seg_ok A (seg_cut n s) /\ seg_fin (seg_cut n s) = false /\ seg_len (seg_cut n s) = n.
Proof.
  intros Hs Hf Hn. pose proof Hs as [H1 H2 (d & Hd & Hl & Hst) H4 H5 H6].
  split_and!; [|exact Hf|done]. split; try done; simpl; try lia.
  - exists (p_realloc n d). rewrite Hd. split_and!; [done| |].
    + unfold p_realloc. rewrite length_take. lia.
    + by apply stream_at_take.
  - unfold seg_fin in *. simpl. by rewrite Hf.
Qed.

(** ** The queue operations *)

Section window.
Context (N R : Z) (HNR : 0 <= R - N <= 65535).

Lemma near_in x y : N - 65536 <= x <= R + 65536 -> N - 65536 <= y <= R + 65536 -> near x y.
Proof. unfold near. lia. Qed.

(** Deleting what the new segment covers. *)
Lemma oos_delete_covered_spec A qs : forall lo s,
  queue_ok lo R qs -> N <= A -> N <= lo -> seg_ok A s -> A + TCP_TCPLEN s <= R ->
  exists s' qs', oos_delete_covered (u32 A) s qs.*2 = (s', qs'.*2) /\
    seg_ok A s' /\ seg_len s' = seg_len s /\ A + TCP_TCPLEN s' <= Z.max R (E + 1) /\
    (seg_fin s' = seg_fin s \/ seg_fin s' = true /\ qs' = [] /\ has_fin qs /\ E + 1 <= R) /\
    queue_ok lo R qs' /\
    (exists pre, qs = pre ++ qs' /\ Forall (fun x => x.1 + seg_len x.2 <= A + seg_len s) pre) /\
    match qs' with (B, t) :: _ => A + seg_len s < B + seg_len t | [] => True end /\
    (seg_fin s = true \/ has_fin qs <-> seg_fin s' = true \/ has_fin qs').
Proof.
  induction qs as [|[B t] qs IH]; intros lo s Hq HA Hlo Hs HR.
  - exists s, []. cbn [fmap list_fmap oos_delete_covered]. split_and!; try done; [lia|by left|by exists []].
  - cbn [fmap list_fmap oos_delete_covered snd]. destruct Hq as (HB & Ht & Htl & HtR & Htf & Hq).
    pose proof (tcplen_bounds _ _ Ht). pose proof (tcplen_bounds _ _ Hs).
    pose proof (so_len _ _ Ht). pose proof (so_len _ _ Hs).
    rewrite (seq_geq_unwrap _ _ (A + seg_len s) (B + seg_len t));
      [|word_lia|rewrite (so_seqno _ _ Ht); word_lia|apply near_in; lia].
    destruct (Z.leb_spec (B + seg_len t) (A + seg_len s)).
    + destruct (seg_fin t) eqn:Eft.
      * pose proof (so_fin _ _ Ht Eft). pose proof (so_end _ _ Hs). rewrite Htf by done.
        set (s1 := s <| seg_flags := Z.lor (seg_flags s) TCP_FIN |>).
        assert (Hs1 : seg_ok A s1).
        { destruct Hs as [H1' H2' H3' H4' H5' H6']. split; try done; [|simpl; lia].
          unfold s1. by rewrite seg_syn_set. }
        assert (Hf1 : seg_fin s1 = true) by apply seg_fin_set.
        assert (Hl1 : seg_len s1 = seg_len s) by done.
        clearbody s1. exists s1, []. cbn [fmap list_fmap oos_delete_covered]. split_and!; try done.
        -- rewrite tcplen_alt, Hf1 by apply Hs1. lia.
        -- right. split_and!; [done|done|by exists B, t; split; [left|]|].
           rewrite tcplen_alt, Eft in HtR by apply Ht. lia.
        -- exists [(B, t)]. rewrite app_nil_r. split; [done|]. by repeat constructor.
        -- rewrite has_fin_cons. naive_solver.
      * destruct (IH (B + seg_len t) s) as (s' & qs' & -> & ? & ? & ? & Hfin & ? & (pre & -> & Hpre) & ? & Hff);
          try done; try lia.
        exists s', qs'. split_and!; try done.
        -- destruct Hfin as [?|(? & ? & (A' & s'' & ? & ?) & ?)]; [by left|right]. split_and!; try done.
           exists A', s''. split; [by right|done].
        -- eapply queue_ok_weaken; [done|lia].
        -- exists ((B, t) :: pre). split; [done|]. by constructor.
        -- rewrite has_fin_cons, <- Hff, Eft. naive_solver.
    + exists s, ((B, t) :: qs). split_and!; try done; try lia; [by left|].
      by exists [].
Qed.

(** Inserting a segment in front of the part of the queue that starts after it. *)
Lemma oos_insert_segment_spec A qs lo s :
  queue_ok lo R qs -> N <= A -> A <= lo -> seg_ok A s -> A + TCP_TCPLEN s <= R ->
  0 < TCP_TCPLEN s ->
  (forall B t r, qs = (B, t) :: r -> A < B \/ seg_len t < seg_len s) ->
  exists qs', tcp_oos_insert_segment (u32 A) s qs.*2 = qs'.*2 /\ queue_ok A R qs' /\
    (forall x, covered qs' x <-> A <= x < A + seg_len s \/ covered qs x) /\
    (exists s' r, qs' = (A, s') :: r) /\ (has_fin qs' <-> seg_fin s = true \/ has_fin qs).
Proof.
  intros Hq HA Hlo Hs HR Hpos Hhd. unfold tcp_oos_insert_segment.
  destruct (seg_fin s) eqn:Ef.
  - exists [(A, s)]. split; [done|]. split.
    { cbn [queue_ok]. split_and!; try done; try lia. by rewrite Ef. }
    split; [|split; [by eexists _, _|rewrite has_fin_cons; naive_solver]].
    intros x. rewrite covered_cons. split; [intros [?|[]%covered_nil]; by left|].
    intros [?|(B & t & Hin & Hx)]; [by left|left].
    destruct (queue_ok_elem _ _ _ _ _ Hq Hin) as (? & Ht & _).
    pose proof (so_end _ _ Ht). pose proof (so_fin _ _ Hs Ef). lia.
  - destruct (oos_delete_covered_spec A qs lo s) as
      (s' & qs' & -> & Hs' & Hlen & HR' & Hfin & Hq' & (pre & Epre & Hpre) & Hhd' & Hff); try done; try lia.
    rewrite Ef in Hff.
    assert (Hcov : forall x, A <= x < A + seg_len s \/ covered qs x <->
                             A <= x < A + seg_len s \/ covered qs' x).
    { intros x. split; (intros [?|(B & t & Hin & Hx)]; [by left|]).
      - rewrite Epre, elem_of_app in Hin. destruct Hin as [Hin|Hin]; [left|right; by exists B, t].
        rewrite Forall_forall in Hpre. specialize (Hpre _ Hin). simpl in Hpre.
        destruct (queue_ok_elem _ _ _ B t Hq) as (? & _); [rewrite Epre; apply elem_of_app; by left|]. lia.
      - right. exists B, t. rewrite Epre. split; [apply elem_of_app; by right|done]. }
    assert (Hlens : 0 < seg_len s) by (rewrite tcplen_alt, Ef in Hpos by apply Hs; lia).
    destruct qs' as [|[B t] qs']; cbn [fmap list_fmap snd].
    + exists [(A, s')]. split; [done|]. split.
      { cbn [queue_ok]. split_and!; try done; [lia|].
        destruct Hfin as [E1|(E1 & _ & _ & ?)]; rewrite tcplen_alt, E1, Hlen by apply Hs'.
        - rewrite Ef. pose proof (tcplen_bounds _ _ Hs). lia.
        - pose proof (so_fin _ _ Hs' E1). lia. }
      split; [|split; [by eexists _, _|by rewrite has_fin_cons]].
      intros x. rewrite Hcov, covered_cons, Hlen. done.
    + destruct Hfin as [Ef'|(_ & ? & _)]; [|done]. rewrite Ef in Ef'.
      destruct Hq' as (HB & Ht & Htl & HtR & Htf & Hq'). rewrite Hlen.
      pose proof (so_len _ _ Ht). pose proof (so_len _ _ Hs). pose proof (tcplen_bounds _ _ Ht).
      pose proof (tcplen_bounds _ _ Hs).
      assert (HAB : A < B).
      { destruct pre as [|[B0 t0] pre].
        - destruct (Hhd _ _ _ Epre) as [?|?]; lia.
        - rewrite Epre in Hq. cbn [queue_ok app] in Hq. destruct Hq as (? & Ht0 & Hl0 & _ & Hf0 & Hq0).
          destruct (queue_ok_elem _ _ _ B t Hq0) as (? & _); [apply elem_of_app; right; by left|].
          destruct (seg_fin t0); [specialize (Hf0 eq_refl); by destruct pre|].
          specialize (Hl0 eq_refl). lia. }
      rewrite (seq_gt_unwrap _ _ (A + seg_len s) B);
        [|word_lia|rewrite (so_seqno _ _ Ht); word_lia|apply near_in; lia].
      destruct (Z.ltb_spec B (A + seg_len s)).
      * assert (Ecut : u16 (seg_seqno t - u32 A) = B - A).
        { rewrite (so_seqno _ _ Ht). word_lia. }
        rewrite Ecut.
        destruct (seg_cut_ok A s' (B - A)) as (Hc & Hcf & Hcl); [done|done|lia|].
        exists ((A, seg_cut (B - A) s') :: (B, t) :: qs'). split; [done|]. split.
        { cbn [queue_ok]. rewrite Hcl. split_and!; try done; try lia; [|by rewrite Hcf].
          rewrite tcplen_alt, Hcf, Hcl by apply Hc. lia. }
        split; [|split; [by eexists _, _|rewrite has_fin_cons, Hcf; rewrite Ef' in Hff; by symmetry]].
        intros x. rewrite Hcov, !covered_cons, Hcl. split; [|lia || idtac].
        -- intros [?|?]; [left; lia|by right].
        -- intros [?|?]; [|by right]. destruct (decide (x < B)); [left; lia|right; left; lia].
      * exists ((A, s') :: (B, t) :: qs'). split; [done|]. split.
        { cbn [queue_ok]. rewrite Hlen. split_and!; try done; try lia; [|by rewrite Ef'].
          rewrite tcplen_alt, Ef', Hlen by apply Hs'. lia. }
        split; [|split; [by eexists _, _|rewrite has_fin_cons; by symmetry]].
        intros x. rewrite Hcov, covered_cons, Hlen. done.
Qed.

(** The incoming segment, at position [A] in the window. *)
Section insert.
Context (p : tcp_pcb) (i : input) (mem : bool) (A : Z).
Context (HA : N <= A) (Hseq : in_seqno i = u32 A) (Hs : seg_ok A (inseg i)).
Context (Htl : in_tcplen i = TCP_TCPLEN (inseg i)) (Hpos : 0 < TCP_TCPLEN (inseg i)).
Context (HR : A + TCP_TCPLEN (inseg i) <= R).
Context (Hedge : u32 (rcv_nxt p + rcv_wnd p) = u32 R).

Definition in_new (x : Z) : Prop := A <= x < A + seg_len (inseg i).

(** A queue [qs'] that comes out of inserting into [qs]. *)
Definition inserted (lo : Z) (qs qs' : list (Z * tcp_seg)) : Prop :=
  queue_ok lo R qs' /\
  (forall x, covered qs' x -> covered qs x \/ in_new x) /\
  (mem = true -> forall x, in_new x -> covered qs' x) /\
  (mem = false -> qs' = qs) /\
  (has_fin qs -> has_fin qs') /\ (has_fin qs' -> has_fin qs \/ seg_fin (inseg i) = true) /\
  (mem = true -> seg_fin (inseg i) = true ->
     has_fin qs' \/ exists t, (A, t) ∈ qs /\ seg_len (inseg i) <= seg_len t).

(** The segment is not stored: there is no memory, or it holds nothing new. *)
Lemma inserted_keep lo qs : queue_ok lo R qs ->
  (mem = true -> (forall x, in_new x -> covered qs x) /\
     (seg_fin (inseg i) = true -> has_fin qs \/ exists t, (A, t) ∈ qs /\ seg_len (inseg i) <= seg_len t)) ->
  inserted lo qs qs.
Proof. intros Hq H. split_and!; try done; [by left|naive_solver|by left|naive_solver]. Qed.

Lemma inserted_cons lo B t qs qs' :
  lo <= B -> seg_ok B t -> (seg_fin t = false -> 0 < seg_len t) -> B + TCP_TCPLEN t <= R ->
  seg_fin t = false -> inserted (B + seg_len t) qs qs' -> inserted lo ((B, t) :: qs) ((B, t) :: qs').
Proof.
  intros HB Ht Hl HtR Hf (Hq & H1 & H2 & H3 & H4 & H5 & H6). split_and!.
  - cbn [queue_ok]. split_and!; try done. by rewrite Hf.
  - intros x. rewrite !covered_cons. intros [?|Hx%H1]; [left; by left|].
    destruct Hx; [left; by right|by right].
  - intros Hm x Hx. rewrite covered_cons. right. by apply H2.
  - intros Hm. by rewrite H3.
  - rewrite !has_fin_cons. naive_solver.
  - rewrite !has_fin_cons. naive_solver.
  - rewrite !has_fin_cons. intros Hm Hn. destruct (H6 Hm Hn) as [?|(u & ? & ?)]; [by left; right|right].
    exists u. split; [by right|done].
Qed.

(** The new segment, or what replaces it, starts the queue. *)
Lemma insert_front lo qs :
  mem = true -> lo <= A -> queue_ok A R qs ->
  (forall B t r, qs = (B, t) :: r -> A < B \/ seg_len t < seg_len (inseg i)) ->
  exists qs', tcp_oos_insert_segment (in_seqno i) (inseg i) qs.*2 = qs'.*2 /\ inserted lo qs qs'.
Proof.
  intros Hm Hlo Hq Hhd. rewrite Hseq.
  destruct (oos_insert_segment_spec A qs A (inseg i)) as (qs' & -> & Hq' & Hcov & _ & Hff); try done.
  exists qs'. split; [done|]. split_and!.
  - by eapply queue_ok_weaken.
  - intros x Hx%Hcov. destruct Hx; [by right|by left].
  - intros _ x Hx. apply Hcov. by left.
  - by rewrite Hm.
  - rewrite Hff. by right.
  - rewrite Hff. naive_solver.
  - rewrite Hff. by left; left.
Qed.

(** Cutting the segment in front of the new one. *)
Lemma trim_prev_spec B t :
  B < A -> seg_ok B t -> seg_fin t = false -> 0 < seg_len t -> N <= B -> B + seg_len t <= R ->
  let t' := oos_trim_prev (u32 A) t in
  seg_ok B t' /\ seg_fin t' = false /\ seg_len t' = Z.min (seg_len t) (A - B).
Proof.
  intros HB Ht Hf Hl HN HBR. unfold oos_trim_prev. pose proof (so_len _ _ Ht).
  pose proof (tcplen_bounds _ _ Hs). pose proof (so_len _ _ Hs).
  rewrite (seq_gt_unwrap _ _ (B + seg_len t) A);
    [|rewrite (so_seqno _ _ Ht); word_lia|word_lia|apply near_in; lia].
  destruct (Z.ltb_spec A (B + seg_len t)).
  - rewrite (so_seqno _ _ Ht). replace (u16 (u32 A - u32 B)) with (A - B) by word_lia.
    destruct (seg_cut_ok B t (A - B)) as (? & ? & ->); try done; [lia|].
    split_and!; try done. lia.
  - split_and!; try done. lia.
Qed.

Lemma append_spec lo B t :
  lo <= B -> N <= lo -> B < A -> seg_ok B t -> (seg_fin t = false -> 0 < seg_len t) ->
  B + TCP_TCPLEN t <= R ->
  exists qs', oos_append p i mem t = Some qs'.*2 /\ inserted lo [(B, t)] qs'.
Proof.
  intros HB HN HBA Ht Hl HtR. unfold oos_append.
  pose proof (tcplen_bounds _ _ Ht). pose proof (tcplen_bounds _ _ Hs).
  pose proof (so_len _ _ Ht). pose proof (so_len _ _ Hs).
  destruct (seg_fin t) eqn:Ef.
  - exists [(B, t)]. split; [done|]. apply inserted_keep; [|intros _; split].
    + cbn [queue_ok]. split_and!; try done. by rewrite Ef.
    + intros x Hx. apply covered_cons. left. unfold in_new in Hx.
      pose proof (so_fin _ _ Ht Ef). pose proof (so_end _ _ Hs). lia.
    + intros _. left. apply has_fin_cons. by left.
  - specialize (Hl eq_refl). destruct mem eqn:Em.
    + rewrite Hseq. destruct (trim_prev_spec B t) as (Ht' & Ef' & Hl'); try done; [lia|lia|].
      rewrite Htl. rewrite (seq_gt_unwrap _ _ (A + TCP_TCPLEN (inseg i)) R);
        [|word_lia|done|apply near_in; lia].
      destruct (Z.ltb_spec R (A + TCP_TCPLEN (inseg i))); [lia|].
      exists [(B, oos_trim_prev (u32 A) t); (A, inseg i)]. split; [done|].
      split_and!; [| | |intros; congruence|..].
      * cbn [queue_ok]. rewrite Hl', tcplen_alt, Ef' by apply Ht'. split_and!; try done; try lia.
        rewrite tcplen_alt in Hpos by apply Hs. intros Hf. rewrite Hf in Hpos. lia.
      * intros x. rewrite !covered_cons, Hl'. intros [?|[?|[]%covered_nil]]; [left; left; lia|by right].
      * intros _ x Hx. rewrite !covered_cons. right. by left.
      * rewrite !has_fin_cons, Ef. by intros [?|?%has_fin_nil].
      * rewrite !has_fin_cons, Ef'. intros [?|[?|?%has_fin_nil]]; [done|by right|done].
      * intros _ ?. left. apply has_fin_cons. right. apply has_fin_cons. by left.
    + exists [(B, t)]. split; [done|]. apply inserted_keep; [|intros; congruence].
      cbn [queue_ok]. split_and!; try done.
Qed.

(** The loop behind the head of the queue. *)
Lemma oos_insert_after_spec rest : forall lo B t,
  lo <= B -> N <= lo -> B < A -> seg_ok B t -> (seg_fin t = false -> 0 < seg_len t) ->
  B + TCP_TCPLEN t <= R -> (seg_fin t = true -> rest = []) ->
  queue_ok (B + seg_len t) R rest -> rest <> [] ->
  exists qs', oos_insert_after p i mem t rest.*2 = Some qs'.*2 /\ inserted lo ((B, t) :: rest) qs'.
Proof.
  induction rest as [|[C u] rest IH]; intros lo B t HB HN HBA Ht Hl HtR Htf Hq Hne; [done|].
  destruct (seg_fin t) eqn:Ef; [by specialize (Htf eq_refl)|]. specialize (Hl eq_refl).
  cbn [fmap list_fmap snd oos_insert_after].
  pose proof Hq as (HC & Hu & Hul & HuR & Huf & Hq').
  pose proof (tcplen_bounds _ _ Ht). pose proof (tcplen_bounds _ _ Hs). pose proof (tcplen_bounds _ _ Hu).
  pose proof (so_len _ _ Ht). pose proof (so_len _ _ Hs). pose proof (so_len _ _ Hu).
  assert (Hkeep : inserted lo ((B, t) :: (C, u) :: rest) ((B, t) :: (C, u) :: rest) ->
    exists qs', Some (t :: u :: rest.*2) = Some qs'.*2 /\ inserted lo ((B, t) :: (C, u) :: rest) qs')
    by (intros H'; by exists ((B, t) :: (C, u) :: rest)).
  assert (Hkeepq : queue_ok lo R ((B, t) :: (C, u) :: rest)).
  { cbn [queue_ok]. split_and!; try done. by rewrite Ef. }
  rewrite (u32_eq_unwrap _ _ A C);
    [|rewrite Hseq; word_lia|rewrite (so_seqno _ _ Hu); word_lia|apply near_in; lia
     |rewrite Hseq; word_lia|rewrite (so_seqno _ _ Hu); word_lia].
  destruct (Z.eqb_spec A C) as [EAC|HAC].
  - destruct (Z.ltb_spec (seg_len u) (seg_len (inseg i))) as [Hlt|Hge]; cbn [andb].
    + destruct mem eqn:Em; [|apply Hkeep, inserted_keep; [done|intros; congruence]].
      destruct (insert_front C ((C, u) :: rest)) as (qs' & E1 & Hi); try done; [lia|..].
      { cbn [queue_ok]. split_and!; try done. lia. }
      { intros ? ? ? [= <- <- <-]. by right. }
      cbn [fmap list_fmap snd] in E1. rewrite E1. exists ((B, t) :: qs'). split; [done|].
      apply inserted_cons; try done. destruct Hi as (Hi1 & Hi2).
      split; [|done]. eapply queue_ok_weaken; [exact Hi1|lia].
    + apply Hkeep, inserted_keep; [done|]. intros _. split.
      * intros x Hx. unfold in_new in Hx. rewrite !covered_cons. right. left. lia.
      * intros _. right. exists u. split; [rewrite EAC; right; by left|lia].
  - rewrite (seq_between_unwrap _ _ _ A (B + 1) (C - 1));
      [|rewrite Hseq; word_lia|rewrite (so_seqno _ _ Ht); word_lia|rewrite (so_seqno _ _ Hu); word_lia
       |apply near_in; lia..].
    destruct ((B + 1 <=? A) && (A <=? C - 1)) eqn:Ebw.
    + destruct mem eqn:Em; [|apply Hkeep, inserted_keep; [done|intros; congruence]].
      rewrite Hseq. destruct (trim_prev_spec B t) as (Ht' & Ef' & Hl'); try done; [lia|lia|].
      destruct (insert_front A ((C, u) :: rest)) as (qs' & E1 & Hi1 & Hi2 & Hi3 & _ & Hi4 & Hi5 & Hi6); try done.
      { cbn [queue_ok]. split_and!; try done. lia. }
      { intros ? ? ? [= <- <- <-]. left. lia. }
      cbn [fmap list_fmap snd] in E1. rewrite Hseq in E1. rewrite E1.
      exists ((B, oos_trim_prev (u32 A) t) :: qs'). split; [done|]. split_and!; [| | |intros; congruence|..].
      * cbn [queue_ok]. rewrite Hl', tcplen_alt, Ef', Hl' by apply Ht'.
        split_and!; try done; try lia. eapply queue_ok_weaken; [exact Hi1|lia].
      * intros x. rewrite (covered_cons _ _ qs'), Hl'. intros [?|Hx%Hi2]; [left; apply covered_cons; left; lia|].
        destruct Hx as [Hx|]; [left; apply covered_cons; by right|by right].
      * intros Hm x Hx. apply covered_cons. right. by apply Hi3.
      * rewrite has_fin_cons, Ef. intros [?|Hh]; [done|]. apply has_fin_cons. right. by apply Hi4.
      * rewrite !(has_fin_cons B), Ef, Ef'. naive_solver.
      * rewrite has_fin_cons, Ef'. intros Hm Hn. destruct (Hi6 Hm Hn) as [?|(v & ? & ?)]; [left; by right|right].
        exists v. split; [by right|done].
    + destruct rest as [|[D v] rest].
      * cbn [fmap list_fmap]. rewrite Hseq.
        rewrite (seq_gt_unwrap _ _ A C); [|word_lia|rewrite (so_seqno _ _ Hu); word_lia|apply near_in; lia].
        destruct (Z.ltb_spec C A); [|lia].
        destruct (append_spec (B + seg_len t) C u) as (qs' & -> & Hi); try done; [lia|].
        cbn [mbind option_bind]. exists ((B, t) :: qs'). split; [done|]. by apply inserted_cons.
      * cbn [fmap list_fmap snd] in IH |- *.
        destruct (IH (B + seg_len t) C u) as (qs' & -> & Hi); try done; try lia.
        cbn [mbind option_bind]. exists ((B, t) :: qs'). split; [done|]. by apply inserted_cons.
Qed.

(** The whole loop keeps the queue well formed; it invents no data; the new
    segment is stored if there is memory. *)
Lemma oos_insert_spec lo qs :
  queue_ok lo R qs -> N <= lo -> lo <= A ->
  exists qs', oos_insert p i mem qs.*2 = Some qs'.*2 /\ inserted lo qs qs'.
Proof.
  intros Hq HN HloA. pose proof (tcplen_bounds _ _ Hs). pose proof (so_len _ _ Hs).
  destruct qs as [|[C u] rest].
  - cbn [fmap list_fmap oos_insert]. destruct mem eqn:Em.
    + exists [(A, inseg i)]. split; [done|]. split_and!; [| | |intros; congruence|..].
      * cbn [queue_ok]. split_and!; try done.
        rewrite tcplen_alt in Hpos by apply Hs. intros Hf. rewrite Hf in Hpos. lia.
      * intros x. rewrite covered_cons. intros [?|?]; [by right|by left].
      * intros _ x Hx. apply covered_cons. by left.
      * by intros ?%has_fin_nil.
      * rewrite has_fin_cons. naive_solver.
      * intros _ ?. left. apply has_fin_cons. by left.
    + exists []. split; [done|]. apply inserted_keep; [done|intros; congruence].
  - cbn [fmap list_fmap snd oos_insert]. pose proof Hq as (HC & Hu & Hul & HuR & Huf & Hq').
    pose proof (tcplen_bounds _ _ Hu). pose proof (so_len _ _ Hu).
    assert (Hkeep : inserted lo ((C, u) :: rest) ((C, u) :: rest) ->
      exists qs', Some (u :: rest.*2) = Some qs'.*2 /\ inserted lo ((C, u) :: rest) qs')
      by (intros H'; by exists ((C, u) :: rest)).
      rewrite (u32_eq_unwrap _ _ A C);
    [|rewrite Hseq; word_lia|rewrite (so_seqno _ _ Hu); word_lia|apply near_in; lia
     |rewrite Hseq; word_lia|rewrite (so_seqno _ _ Hu); word_lia].
    destruct (Z.eqb_spec A C) as [EAC|HAC].
    + destruct (Z.ltb_spec (seg_len u) (seg_len (inseg i))) as [Hlt|Hge]; cbn [andb].
      * destruct mem eqn:Em; [|apply Hkeep, inserted_keep; [done|intros; congruence]].
        destruct (insert_front lo ((C, u) :: rest)) as (qs' & E1 & Hi); try done.
        { cbn [queue_ok]. split_and!; try done. lia. }
        { intros ? ? ? [= <- <- <-]. by right. }
        cbn [fmap list_fmap snd] in E1. rewrite E1. by exists qs'.
      * apply Hkeep, inserted_keep; [done|]. intros _. split.
        -- intros x Hx. unfold in_new in Hx. rewrite !covered_cons. left. lia.
        -- intros _. right. exists u. split; [rewrite EAC; by left|lia].
    + rewrite (seq_lt_unwrap _ _ A C);
        [|rewrite Hseq; word_lia|rewrite (so_seqno _ _ Hu); word_lia|apply near_in; lia].
      destruct (Z.ltb_spec A C).
      * destruct mem eqn:Em; [|apply Hkeep, inserted_keep; [done|intros; congruence]].
        destruct (insert_front lo ((C, u) :: rest)) as (qs' & E1 & Hi); try done.
        { cbn [queue_ok]. split_and!; try done. lia. }
        { intros ? ? ? [= <- <- <-]. left. lia. }
        cbn [fmap list_fmap snd] in E1. rewrite E1. by exists qs'.
      * destruct rest as [|[D v] rest].
        -- cbn [fmap list_fmap]. rewrite Hseq.
           rewrite (seq_gt_unwrap _ _ A C); [|word_lia|rewrite (so_seqno _ _ Hu); word_lia|apply near_in; lia].
           destruct (Z.ltb_spec C A); [|lia]. by apply append_spec; try lia.
        -- cbn [fmap list_fmap snd]. by apply (oos_insert_after_spec ((D, v) :: rest) lo C u); try lia.
Qed.
End insert.

(** ** In-sequence data *)

Lemma inseq_delete_covered_spec qs : forall lo s,
  queue_ok lo R qs -> N <= lo -> seg_ok N s -> seg_fin s = false -> N + seg_len s <= R ->
  exists s' qs', inseq_delete_covered (u32 N) s (TCP_TCPLEN s) qs.*2 = (s', TCP_TCPLEN s', qs'.*2) /\
    seg_ok N s' /\ seg_len s' = seg_len s /\ N + TCP_TCPLEN s' <= R /\
    (seg_fin s' = true -> qs' = []) /\ queue_ok lo R qs' /\
    (exists pre, qs = pre ++ qs' /\ Forall (fun x => x.1 + seg_len x.2 <= N + seg_len s) pre) /\
    match qs' with (B, t) :: _ => N + seg_len s < B + seg_len t | [] => True end /\
    (has_fin qs <-> seg_fin s' = true \/ has_fin qs').
Proof.
  induction qs as [|[B t] qs IH]; intros lo s Hq Hlo Hs Hf HR.
  - exists s, []. cbn [fmap list_fmap inseq_delete_covered]. split_and!; try done; [|by exists []|].
    + rewrite tcplen_alt, Hf by apply Hs. lia.
    + rewrite Hf. pose proof has_fin_nil. naive_solver.
  - cbn [fmap list_fmap inseq_delete_covered snd]. destruct Hq as (HB & Ht & Htl & HtR & Htf & Hq).
    pose proof (tcplen_bounds _ _ Ht). pose proof (so_len _ _ Ht). pose proof (so_len _ _ Hs).
    assert (Es : TCP_TCPLEN s = seg_len s) by (rewrite tcplen_alt, Hf by apply Hs; lia).
    rewrite (seq_geq_unwrap _ _ (N + seg_len s) (B + seg_len t));
      [|rewrite Es; word_lia|rewrite (so_seqno _ _ Ht); word_lia|apply near_in; lia].
    destruct (Z.leb_spec (B + seg_len t) (N + seg_len s)).
    + rewrite (so_syn _ _ Hs). cbn [negb]. rewrite andb_true_r. destruct (seg_fin t) eqn:Eft.
      * pose proof (so_fin _ _ Ht Eft). pose proof (so_end _ _ Hs). rewrite Htf by done.
        set (s1 := s <| seg_flags := Z.lor (seg_flags s) TCP_FIN |>).
        assert (Hs1 : seg_ok N s1).
        { destruct Hs as [H1' H2' H3' H4' H5' H6']. split; try done; [|simpl; lia].
          unfold s1. by rewrite seg_syn_set. }
        assert (Hf1 : seg_fin s1 = true) by apply seg_fin_set.
        assert (Hl1 : seg_len s1 = seg_len s) by done.
        rewrite tcplen_alt, Eft in HtR by apply Ht.
        assert (E1 : TCP_TCPLEN s1 = seg_len s + 1) by (rewrite tcplen_alt, Hf1 by apply Hs1; lia).
        exists s1, []. cbn [fmap list_fmap inseq_delete_covered].
        rewrite E1, u16_id by (unfold is_u16; lia). split_and!; try done; [lia| |].
        -- exists [(B, t)]. rewrite app_nil_r. split; [done|]. by repeat constructor.
        -- rewrite has_fin_cons. naive_solver.
      * destruct (IH (B + seg_len t) s) as (s' & qs' & -> & ? & ? & ? & ? & ? & (pre & -> & Hpre) & ? & Hff);
          try done; try lia.
        exists s', qs'. split_and!; try done; [eapply queue_ok_weaken; [done|lia]| |].
        -- exists ((B, t) :: pre). split; [done|]. by constructor.
        -- rewrite has_fin_cons, <- Hff, Eft. naive_solver.
    + exists s, ((B, t) :: qs). split_and!; try done; [lia|by rewrite Hf|by exists []|].
      rewrite Hf. naive_solver.
Qed.

(** The receive variables at position [n]: the window ends at [R], the edge
    announced last lies at most 2^30 before it, and no more than the window is
    announced. *)
Record rcv_at (n : Z) (p : tcp_pcb) : Prop := {
  ra_nxt : rcv_nxt p = u32 n;
  ra_wnd : rcv_wnd p = R - n;
  ra_edge : exists RE, rcv_ann_right_edge p = u32 RE /\ R - 1073741824 <= RE <= R;
  ra_mss : is_u16 (mss p);
  ra_ann : 0 <= rcv_ann_wnd p <= R - n
}.

Lemma update_rcv_ann_wnd_spec n p :
  N <= n <= R -> rcv_nxt p = u32 n -> rcv_wnd p = R - n ->
  (exists RE, rcv_ann_right_edge p = u32 RE /\ R - 1073741824 <= RE <= R) -> is_u16 (mss p) ->
  exists w x, tcp_update_rcv_ann_wnd p = Some (p <| rcv_ann_wnd := w |>, x) /\ 0 <= w <= R - n.
Proof.
  intros Hn H1 H2 (RE & H3 & HRE) H4. unfold tcp_update_rcv_ann_wnd, is_u16, TCP_WND in *.
  change (32768 / 2) with 16384.
  rewrite (seq_geq_unwrap _ _ R (RE + Z.min 16384 (mss p)));
    [|rewrite H1, H2; word_lia|rewrite H3; word_lia|unfold near; lia].
  destruct (Z.leb_spec (RE + Z.min 16384 (mss p)) R).
  - eexists _, _. split; [done|]. lia.
  - rewrite (seq_gt_unwrap _ _ n RE); [|rewrite H1; word_lia|rewrite H3; word_lia|unfold near; lia].
    destruct (Z.ltb_spec RE n).
    + eexists _, _. split; [done|]. lia.
    + assert (u32 (rcv_ann_right_edge p - rcv_nxt p) = RE - n) as -> by (rewrite H1, H3; word_lia).
      destruct (Z.leb_spec (RE - n) 65535); [|lia]. eexists _, _. split; [done|]. lia.
Qed.

Lemma advance_rcv_nxt_spec n len p :
  N <= n -> 0 <= len -> n + len <= R -> rcv_at n p ->
  exists w, advance_rcv_nxt len p =
      Some (p <| rcv_nxt := u32 (n + len) |> <| rcv_wnd := R - (n + len) |> <| rcv_ann_wnd := w |>) /\
    0 <= w <= R - (n + len).
Proof.
  intros Hn Hl HR Hp. pose proof Hp as [H1 H2 H3 H4 H5]. unfold advance_rcv_nxt.
  cbn [rcv_wnd setter]. rewrite H2. destruct (Z.leb_spec len (R - n)); [|lia].
  rewrite H1. replace (u32 (u32 n + len)) with (u32 (n + len)) by word_lia.
  destruct (update_rcv_ann_wnd_spec (n + len)
    (p <| rcv_nxt := u32 (n + len) |> <| rcv_wnd := R - n - len |>)) as (w & x & E1 & Hw).
  { lia. }
  { done. }
  { cbn. lia. }
  { done. }
  { done. }
  rewrite E1. cbn [mbind option_bind]. exists w. split; [|done].
  replace (R - n - len) with (R - (n + len)) by lia. done.
Qed.

(** What [recv_data] holds: the stream from [N0] to [M]. *)
Definition delivered (N0 M : Z) (o : option (list Z)) : Prop :=
  match o with
  | None => M = N0
  | Some d => N0 < M /\ Z.of_nat (length d) = M - N0 /\ stream_at N0 d
  end.

Lemma delivered_app N0 M o d :
  N0 <= M -> delivered N0 M o -> stream_at M d ->
  delivered N0 (M + Z.of_nat (length d))
    (if 0 <? p_tot_len d then Some (match o with Some rd => rd ++ d | None => d end) else o).
Proof.
  intros HM Ho Hd. unfold p_tot_len. destruct (Z.ltb_spec 0 (Z.of_nat (length d))).
  - destruct o as [rd|]; simpl in *.
    + destruct Ho as (? & Hl & Hs). split_and!; [lia|rewrite length_app; lia|].
      apply stream_at_app; [done|]. by replace (N0 + Z.of_nat (length rd)) with M by lia.
    + subst M. split_and!; [lia|lia|done].
  - by replace (M + Z.of_nat (length d)) with M by lia.
Qed.

(** The loop over the queue: everything that is now in sequence is delivered,
    and the loop stops in front of the first missing octet. *)
Lemma dequeue_spec N0 qs : forall M p i,
  queue_ok M R qs -> N0 <= M -> N <= M <= R -> rcv_at M p -> delivered N0 M (in_recv_data i) ->
  exists p' i' M' (fin : bool) qs',
    dequeue_ooseq qs.*2 p i = Some (p', i') /\ M <= M' /\
    rcv_at (M' + Z.b2z fin) p' /\ ooseq p' = qs'.*2 /\ queue_ok (M' + 1) R qs' /\
    delivered N0 M' (in_recv_data i') /\
    in_recv_flags i' = (if fin then Z.lor (in_recv_flags i) TF_GOT_FIN else in_recv_flags i) /\
    (fin = true -> M' = E /\ qs' = []) /\
    (forall x, M <= x < M' -> covered qs x) /\ (forall x, covered qs' x <-> covered qs x /\ M' <= x) /\
    in_src_ip i' = in_src_ip i /\ M' + Z.b2z fin <= R /\ (fin = false -> state p' = state p) /\
    (has_fin qs <-> fin = true \/ has_fin qs').
Proof.
  induction qs as [|[A c] qs IH]; intros M p i Hq HN0 HM Hp Hd.
  - exists (p <| ooseq := [] |>), i, M, false, []. cbn [Z.b2z]. rewrite !Z.add_0_r.
    split_and!; try done; try lia.
    + by destruct Hp.
    + intros x. split; [by intros ?%covered_nil|by intros [?%covered_nil _]].
    + naive_solver.
  - destruct Hq as (HA & Hc & Hcl & HcR & Hcf & Hq). pose proof (so_len _ _ Hc).
    pose proof (tcplen_bounds _ _ Hc). cbn [fmap list_fmap snd dequeue_ooseq].
    rewrite (u32_eq_unwrap _ _ A M); [|rewrite (so_seqno _ _ Hc); word_lia|rewrite (ra_nxt _ _ Hp); word_lia
      |apply near_in; lia|rewrite (so_seqno _ _ Hc); word_lia|rewrite (ra_nxt _ _ Hp); word_lia].
    destruct (Z.eqb_spec A M) as [->|Hne].
    + destruct (advance_rcv_nxt_spec M (TCP_TCPLEN c) p) as (w & -> & Hw); [lia|lia|lia|done|].
      cbn [mbind option_bind]. destruct (so_data _ _ Hc) as (d & -> & Hdl & Hds).
      cbn [mbind option_bind].
      set (p1 := p <| rcv_nxt := _ |> <| rcv_wnd := _ |> <| rcv_ann_wnd := w |>).
      assert (Hp1 : rcv_at (M + TCP_TCPLEN c) p1) by (destruct Hp; by split).
      assert (Hst1 : state p1 = state p) by done.
      set (rd := if 0 <? p_tot_len d then
        Some (match in_recv_data i with Some rd => rd ++ d | None => d end) else in_recv_data i).
      assert (Hrd : delivered N0 (M + seg_len c) rd) by (rewrite Hdl; by apply delivered_app).
      set (i1 := if 0 <? p_tot_len d then _ else _).
      assert (Hi1 : in_recv_data i1 = rd /\ in_recv_flags i1 = in_recv_flags i /\
                    in_src_ip i1 = in_src_ip i) by (unfold i1, rd; by destruct (0 <? p_tot_len d)).
      destruct Hi1 as (Hi1 & Hi2 & Hi3). clearbody i1 p1 rd.
      rewrite tcplen_alt in Hp1, HcR by apply Hc.
      destruct (seg_fin c) eqn:Ef.
      * rewrite (Hcf eq_refl). cbn [fmap list_fmap dequeue_ooseq].
        pose proof (so_fin _ _ Hc Ef).
        eexists _, _, (M + seg_len c), true, []. split; [done|]. cbn [Z.b2z].
        split_and!; try done; try lia.
        -- destruct Hp1 as [? ? ? ? ?].
           replace (M + seg_len c + 1) with (M + (seg_len c + 1)) by lia.
           destruct (decide (state p1 = ESTABLISHED)); split; done.
        -- simpl. by rewrite Hi1.
        -- simpl. by rewrite Hi2.
        -- intros x Hx. apply covered_cons. left. lia.
        -- intros x. split; [by intros ?%covered_nil|]. intros [Hx Hx'].
           apply covered_cons in Hx as [?|[]%covered_nil]. lia.
        -- rewrite has_fin_cons. naive_solver.
      * rewrite Z.add_0_r in Hp1, HcR.
        destruct (IH (M + seg_len c) p1 i1) as
          (p' & i' & M' & fin & qs' & -> & HM' & Hp' & Eq & Hq' & Hd' & Hfl & Hfin & Hc1 & Hc2 & Hsrc & HR' & Hst' & Hff);
          [done|lia|lia|done|by rewrite Hi1|].
        exists p', i', M', fin, qs'. split_and!; try done; try lia.
        -- by rewrite Hfl, Hi2.
        -- intros x Hx. apply covered_cons.
           destruct (decide (x < M + seg_len c)); [left; lia|right; apply Hc1; lia].
        -- intros x. rewrite Hc2, covered_cons. split; [intros [? ?]; by split; [right|]|].
           intros [[?|?] ?]; [lia|done].
        -- by rewrite Hsrc.
        -- intros Hf. by rewrite Hst'.
        -- rewrite has_fin_cons, <- Hff, Ef. naive_solver.
    + eexists _, i, M, false, ((A, c) :: qs). split; [done|]. cbn [Z.b2z]. rewrite !Z.add_0_r.
      split_and!; try done; try lia.
      * by destruct Hp.
      * cbn [queue_ok]. split_and!; try done. lia.
      * intros x. split; [|by intros [? _]]. intros Hx. split; [done|].
        destruct Hx as (B & t & Hin & Hx).
        destruct (queue_ok_elem A R ((A, c) :: qs) B t) as (? & _); [|done|lia].
        cbn [queue_ok]. split_and!; try done.
      * naive_solver.
Qed.

(** The incoming segment, at [N], made to fit in front of the queue. *)
Lemma adjust_ooseq_spec p i lo qs :
  rcv_at N p -> ooseq p = qs.*2 -> queue_ok lo R qs -> N < lo -> in_seqno i = u32 N ->
  seg_ok N (inseg i) -> in_tcplen i = TCP_TCPLEN (inseg i) -> 0 < in_tcplen i ->
  N + in_tcplen i <= R ->
  exists p' s' qs', adjust_ooseq p i = Some (p', i <| inseg := s' |> <| in_tcplen := TCP_TCPLEN s' |>) /\
    rcv_at N p' /\ ooseq p' = qs'.*2 /\ state p' = state p /\ queue_ok (N + seg_len s') R qs' /\
    seg_ok N s' /\ N + TCP_TCPLEN s' <= R /\ 0 < TCP_TCPLEN s' /\ (seg_fin s' = true -> qs' = []) /\
    seg_len s' <= seg_len (inseg i) /\
    (forall x, N <= x < N + seg_len (inseg i) \/ covered qs x <-> N <= x < N + seg_len s' \/ covered qs' x) /\
    (seg_fin (inseg i) = true \/ has_fin qs <-> seg_fin s' = true \/ has_fin qs').
Proof.
  intros Hp Eq Hq Hlo Hseq Hs Htl Hpos HR. pose proof (tcplen_bounds _ _ Hs). pose proof (so_len _ _ Hs).
  unfold adjust_ooseq. rewrite Eq. destruct qs as [|[B t] qs0]; cbn [fmap list_fmap snd].
  { exists p, (inseg i), []. split_and!; try done; try lia. rewrite <- Htl. by destruct i. }
  remember ((B, t) :: qs0) as qs eqn:Eqs. change (t :: qs0.*2) with (((B, t) :: qs0).*2). rewrite <- Eqs.
  destruct (seg_fin (inseg i)) eqn:Ef.
  - exists (p <| ooseq := [] |>), (inseg i), []. pose proof (so_fin _ _ Hs Ef).
    split_and!; try done; try lia; [rewrite <- Htl; by destruct i|by destruct Hp| |].
    + intros x. split; [|intros [?|[]%covered_nil]; by left]. intros [?|(C & u & Hin & Hx)]; [by left|left].
      destruct (queue_ok_elem _ _ _ _ _ Hq Hin) as (? & Hu & _). pose proof (so_end _ _ Hu). lia.
    + rewrite Ef. naive_solver.
  - rewrite Hseq, Htl. rewrite Htl in HR, Hpos.
    destruct (inseq_delete_covered_spec qs lo (inseg i)) as
      (s' & qs' & -> & Hs' & Hlen & HR' & Hfin & Hq' & (pre & Epre & Hpre) & Hhd & Hff); try done; try lia.
    assert (Hff' : false = true \/ has_fin qs <-> seg_fin s' = true \/ has_fin qs') by (rewrite <- Hff; naive_solver).
    clear Hff. assert (Hcov : forall x, N <= x < N + seg_len (inseg i) \/ covered qs x <->
                             N <= x < N + seg_len (inseg i) \/ covered qs' x).
    { intros x. split; (intros [?|(C & u & Hin & Hx)]; [by left|]).
      - rewrite Epre, elem_of_app in Hin. destruct Hin as [Hin|Hin]; [left|right; by exists C, u].
        rewrite Forall_forall in Hpre. specialize (Hpre _ Hin). simpl in Hpre.
        destruct (queue_ok_elem _ _ _ C u Hq) as (? & _); [rewrite Epre; apply elem_of_app; by left|]. lia.
      - right. exists C, u. rewrite Epre. split; [apply elem_of_app; by right|done]. }
    assert (Hlens : 0 < seg_len (inseg i)) by (rewrite tcplen_alt, Ef in Hpos by apply Hs; lia).
    pose proof (tcplen_bounds _ _ Hs'). rewrite <- Hlen in Hcov |- *.
    destruct qs' as [|[C u] qs']; cbn [fmap list_fmap snd].
    + exists (p <| ooseq := [] |>), s', []. split_and!; try done; try lia. by destruct Hp.
    + assert (Ef' : seg_fin s' = false) by (destruct (seg_fin s'); [by specialize (Hfin eq_refl)|done]).
      assert (Es' : TCP_TCPLEN s' = seg_len s') by (rewrite tcplen_alt, Ef' by apply Hs'; lia).
      destruct Hq' as (HC & Hu & Hul & HuR & Huf & Hq').
      pose proof (so_len _ _ Hu). pose proof (tcplen_bounds _ _ Hu).
      cbn [in_seqno in_tcplen inseg setter]. rewrite Hseq, Es'.
      rewrite (seq_gt_unwrap _ _ (N + seg_len s') C);
        [|word_lia|rewrite (so_seqno _ _ Hu); word_lia|apply near_in; lia].
      destruct (Z.ltb_spec C (N + seg_len s')).
      * rewrite (so_syn _ _ Hs').
        replace (u16 (seg_seqno u - u32 N)) with (C - N) by (rewrite (so_seqno _ _ Hu); word_lia).
        destruct (seg_cut_ok N s' (C - N)) as (Hc & Hcf & Hcl); [done|done|lia|].
        assert (Ec : TCP_TCPLEN (seg_cut (C - N) s') = C - N)
          by (rewrite tcplen_alt, Hcf, Hcl by apply Hc; lia).
        rewrite Ec, (u16_id (C - N)) by (unfold is_u16; lia).
        destruct (Z.eqb_spec (u32 (u32 N + (C - N))) (u32 (seg_seqno u))) as [_|Hne];
          [|exfalso; apply Hne; rewrite (so_seqno _ _ Hu); word_lia].
        exists (p <| ooseq := u :: qs'.*2 |>), (seg_cut (C - N) s'), ((C, u) :: qs').
        rewrite Ec, Hcl, Hcf. rewrite Ef' in Hff'. split_and!; try done; try lia.
        -- by destruct Hp.
        -- cbn [queue_ok]. split_and!; try done. lia.
        -- intros x. rewrite Hcov, covered_cons. split; (intros [?|?]; [|by right]); [|left; lia].
           destruct (decide (x < C)); [left; lia|right; left; lia].
      * exists (p <| ooseq := u :: qs'.*2 |>), s', ((C, u) :: qs').
        rewrite Es'. split_and!; try done; try lia. by destruct Hp.
Qed.

Lemma tcp_ack_rcv_at n p : rcv_at n p -> rcv_at n (tcp_ack p).
Proof. intros []. unfold tcp_ack. destruct (tcp_is_flag_set _ _); by split. Qed.

(** What a step of the receive path leads to: [M] is the first position that is
    missing now. *)
Definition received (N0 : Z) (qs : list (Z * tcp_seg)) (new : Z -> Prop)
    (p : tcp_pcb) (p' : tcp_pcb) (i' : input) (M : Z) (fin : bool) (qs' : list (Z * tcp_seg)) : Prop :=
  N0 <= M /\ M + Z.b2z fin <= R /\ rcv_at (M + Z.b2z fin) p' /\ ooseq p' = qs'.*2 /\
  queue_ok (M + 1) R qs' /\ delivered N0 M (in_recv_data i') /\
  in_recv_flags i' = (if fin then TF_GOT_FIN else 0) /\
  (fin = true -> M = E) /\ (fin = false -> state p' = state p) /\
  (forall x, N0 <= x < M -> new x \/ covered qs x) /\
  (forall x, covered qs' x -> new x \/ covered qs x).

Lemma receive_in_sequence_spec p i n qs :
  rcv_at N p -> ooseq p = qs.*2 -> queue_ok (N + 1) R qs -> in_seqno i = u32 N ->
  seg_ok N (inseg i) -> 0 < TCP_TCPLEN (inseg i) -> N + TCP_TCPLEN (inseg i) <= R ->
  in_recv_data i = None -> in_recv_flags i = 0 ->
  exists p' i' n' M fin qs', receive_in_sequence p i n = Some (p', i', n') /\
    received N qs (fun x => N <= x < N + seg_len (inseg i)) p p' i' M fin qs' /\
    (forall x, N <= x < N + seg_len (inseg i) \/ covered qs x <-> N <= x < M \/ covered qs' x) /\
    (seg_fin (inseg i) = true \/ has_fin qs <-> fin = true \/ has_fin qs').
Proof.
  intros Hp Eq Hq Hseq Hs Hpos HR Hd Hfl. unfold receive_in_sequence, trim_to_window.
  pose proof (tcplen_bounds _ _ Hs). pose proof (so_len _ _ Hs).
  rewrite (u16_id (TCP_TCPLEN (inseg i))) by (unfold is_u16; lia).
  cbn [in_tcplen setter]. rewrite (ra_wnd _ _ Hp).
  destruct (Z.ltb_spec (R - N) (TCP_TCPLEN (inseg i))); [lia|]. cbn [mbind option_bind].
  destruct (adjust_ooseq_spec p (i <| in_tcplen := TCP_TCPLEN (inseg i) |>) (N + 1) qs) as
    (p1 & s1 & qs1 & -> & Hp1 & Eq1 & Hst1 & Hq1 & Hs1 & HR1 & Hpos1 & Hfin1 & Hle1 & Hcov1 & Hff1); try done; try lia.
  cbn [inseg setter] in Hcov1, Hle1, Hff1. cbn [mbind option_bind].
  cbn [in_seqno in_tcplen inseg setter]. rewrite Hseq.
  assert (E1 : p1 <| rcv_nxt := u32 N |> = p1) by (rewrite <- (ra_nxt _ _ Hp1); by destruct p1).
  rewrite E1. destruct (advance_rcv_nxt_spec N (TCP_TCPLEN s1) p1) as (w & -> & Hw); [lia..|done|].
  cbn [mbind option_bind]. destruct (so_data _ _ Hs1) as (d & -> & Hdl & Hds).
  pose proof (tcplen_bounds _ _ Hs1). pose proof (so_len _ _ Hs1).
  cbn [mbind option_bind].
  set (p2 := p1 <| rcv_nxt := _ |> <| rcv_wnd := _ |> <| rcv_ann_wnd := w |>).
  assert (Hp2 : rcv_at (N + TCP_TCPLEN s1) p2 /\ ooseq p2 = qs1.*2 /\ state p2 = state p)
    by (destruct Hp1; by split_and!).
  destruct Hp2 as (Hp2 & Eq2 & Hst2). clearbody p2. rewrite Eq2.
  set (i1 := if 0 <? p_tot_len d then _ else _).
  assert (Hi1 : delivered N (N + seg_len s1) (in_recv_data i1) /\ seg_fin (inseg i1) = seg_fin s1 /\
                in_recv_flags i1 = 0).
  { unfold i1. rewrite Hdl. pose proof (delivered_app N N None d ltac:(lia) ltac:(done) Hds) as Hda.
    destruct (0 <? p_tot_len d); cbn -[delivered]; [by split_and!|by rewrite Hd]. }
  destruct Hi1 as (Hd1 & -> & Hfl1). clearbody i1.
  rewrite tcplen_alt in Hp2, HR1, Hpos1 by apply Hs1.
  destruct (seg_fin s1) eqn:Ef.
  - rewrite (Hfin1 eq_refl). cbn [fmap list_fmap dequeue_ooseq mbind option_bind].
    pose proof (so_fin _ _ Hs1 Ef).
    eexists _, _, _, (N + seg_len s1), true, []. split; [done|]. cbn [Z.b2z].
    rewrite (Hfin1 eq_refl) in Hcov1, Hff1. split; [|split; [done|exact Hff1]].
    + split_and!; try done; try lia.
      * cbn [Z.b2z]. lia.
      * cbn [Z.b2z]. apply tcp_ack_rcv_at. replace (N + seg_len s1 + 1) with (N + (seg_len s1 + 1)) by lia.
        by destruct Hp2.
      * unfold tcp_ack. by destruct (tcp_is_flag_set _ _).
      * cbn. by rewrite Hfl1.
      * by intros x ?%covered_nil.
  - rewrite Z.add_0_r in Hp2, HR1, Hpos1.
    destruct (dequeue_spec N qs1 (N + seg_len s1) p2 i1) as
      (p' & i' & M & fin & qs' & -> & HM & Hp' & Eq' & Hq' & Hd' & Hfl' & Hfin' & Hc1 & Hc2 & _ & HR' & Hst' & Hff);
      try done; try lia.
    cbn [mbind option_bind]. eexists _, _, _, M, fin, qs'. split; [done|].
    assert (Hold : forall x, covered qs1 x -> N <= x < N + seg_len (inseg i) \/ covered qs x)
      by (intros x ?; apply Hcov1; by right).
    split; [|split; [|rewrite Hff1, <- Hff; naive_solver]].
    + split_and!; try done; try lia.
      * by apply tcp_ack_rcv_at.
      * unfold tcp_ack. by destruct (tcp_is_flag_set _ _).
      * rewrite Hfl', Hfl1. by destruct fin.
      * intros ?. by apply Hfin'.
      * intros Hf. rewrite <- Hst2, <- Hst' by done. unfold tcp_ack. by destruct (tcp_is_flag_set _ _).
      * intros x Hx. destruct (decide (x < N + seg_len s1)); [left; lia|]. apply Hold, Hc1. lia.
      * intros x Hx. apply Hold. by apply Hc2 in Hx as [? _].
    + intros x. rewrite Hcov1. split.
      * intros [?|Hx]; [left; lia|]. destruct (decide (x < M)).
        -- left. destruct Hx as (A & t & Hin & Hx). destruct (queue_ok_elem _ _ _ _ _ Hq1 Hin). lia.
        -- right. apply Hc2. split; [done|lia].
      * intros [?|Hx%Hc2]; [|right; by destruct Hx].
        destruct (decide (x < N + seg_len s1)); [left; lia|]. right. apply Hc1. lia.
Qed.

(** An acknowledgement leaves the receive variables in place. *)
Lemma send_empty_ack_spec p n :
  rcv_at N p -> exists p' n', tcp_send_empty_ack p n = (p', n') /\
    rcv_at N p' /\ ooseq p' = ooseq p /\ state p' = state p.
Proof.
  intros [H1 H2 (RE & H3 & H4) H5 H6]. unfold tcp_send_empty_ack.
  destruct (next_answer n) as [n1 [err|]].
  - set (p1 := p <| rcv_ann_right_edge := _ |>).
    assert (rcv_at N p1 /\ ooseq p1 = ooseq p /\ state p1 = state p) as (Hp1 & Ho & Hst).
    { split_and!; try done. split; try done. exists (N + rcv_ann_wnd p).
      cbn. rewrite H1. split; [|lia]. word_lia. }
    clearbody p1. destruct Hp1. destruct (negb (err =? ERR_OK)); eexists _, _; (split; [done|]); by split_and!.
  - eexists _, _. split; [done|]. split_and!; try done. split; try done. by exists RE.
Qed.

(** A segment in front of the window changes nothing. *)
Lemma received_nothing (new : Z -> Prop) p p' i' qs :
  N <= R -> rcv_at N p' -> ooseq p' = qs.*2 -> state p' = state p -> queue_ok (N + 1) R qs ->
  in_recv_data i' = None -> in_recv_flags i' = 0 ->
  received N qs new p p' i' N false qs.
Proof.
  intros HR Hp Eq Hst Hq Hd Hfl. unfold received. cbn [Z.b2z]. rewrite Z.add_0_r, Hd, Hfl.
  split_and!; try done; try lia. by right.
Qed.

Lemma receive_out_of_sequence_spec p i n A qs :
  rcv_at N p -> ooseq p = qs.*2 -> queue_ok (N + 1) R qs -> in_seqno i = u32 A -> N < A ->
  seg_ok A (inseg i) -> in_tcplen i = TCP_TCPLEN (inseg i) -> 0 < in_tcplen i -> A + in_tcplen i <= R ->
  in_recv_data i = None -> in_recv_flags i = 0 ->
  exists p' n' qs', receive_out_of_sequence p i n = Some (p', i, n') /\
    received N qs (in_new i A) p p' i N false qs' /\
    (head (seg_mem n) = Some true -> forall x, in_new i A x -> covered qs' x) /\
    (has_fin qs -> has_fin qs') /\ (has_fin qs' -> has_fin qs \/ seg_fin (inseg i) = true) /\
    (head (seg_mem n) = Some true -> seg_fin (inseg i) = true ->
       has_fin qs' \/ exists t, (A, t) ∈ qs /\ seg_len (inseg i) <= seg_len t).
Proof.
  intros Hp Eq Hq Hseq HA Hs Htl Hpos HR Hd Hfl. unfold receive_out_of_sequence.
  destruct (match seg_mem n with m :: r => (m, r) | [] => (false, []) end) as [m r] eqn:Em.
  assert (Hm : head (seg_mem n) = Some true -> m = true)
    by (destruct (seg_mem n); simpl in *; congruence).
  rewrite Eq. rewrite Htl in HR, Hpos.
  destruct (oos_insert_spec p i m A) with (lo := N + 1) (qs := qs) as (qs' & -> & Hi1 & Hi2 & Hi3 & _ & Hi4 & Hi5 & Hi6);
    try done; try lia.
  { rewrite (ra_nxt _ _ Hp), (ra_wnd _ _ Hp). word_lia. }
  cbn [mbind option_bind].
  destruct (send_empty_ack_spec (p <| ooseq := qs'.*2 |>) (n <| seg_mem := r |>)) as
    (p' & n' & -> & Hp' & Eq' & Hst'); [by destruct Hp|].
  eexists _, _, qs'. split; [done|]. split; [|split_and!; auto; intros ?; apply Hi3; auto].
  unfold received. cbn [Z.b2z]. rewrite Z.add_0_r, Hd, Hfl. split_and!; try done; try lia.
  intros x Hx%Hi2. tauto.
Qed.

(** Cutting off what was received before. *)
Lemma trim_front_spec p i A :
  rcv_at N p -> in_seqno i = u32 A -> seg_ok A (inseg i) -> A < N < A + TCP_TCPLEN (inseg i) ->
  N - A < 65535 ->
  exists s', trim_front p i = Some (i <| inseg := s' |> <| in_seqno := u32 N |>) /\
    seg_ok N s' /\ seg_len s' = seg_len (inseg i) - (N - A) /\
    TCP_TCPLEN s' = TCP_TCPLEN (inseg i) - (N - A) /\ seg_fin s' = seg_fin (inseg i).
Proof.
  intros Hp Hseq Hs HN Hoff. pose proof (tcplen_bounds _ _ Hs). pose proof (so_len _ _ Hs).
  pose proof Hs as [S1 S2 (d & Hd & Hl & Hst) S4 S5 S6]. unfold trim_front. rewrite Hd.
  cbn [mbind option_bind]. rewrite (ra_nxt _ _ Hp), Hseq.
  replace (u32 (u32 N - u32 A)) with (N - A) by word_lia. unfold p_tot_len.
  destruct (Z.ltb_spec (N - A) 65535); [|lia].
  destruct (Z.leb_spec (N - A) (Z.of_nat (length d))); [|lia].
  rewrite u16_id by (unfold is_u16; lia).
  set (s' := (inseg i) <| seg_len := _ |> <| seg_p := _ |> <| seg_seqno := u32 N |>).
  assert (Hs' : seg_ok N s').
  { split; cbn; try done; try lia; [|intros ?%S6; lia].
    eexists. split; [done|]. rewrite length_drop. split; [lia|].
    replace N with (A + Z.of_nat (Z.to_nat (N - A))) by lia. replace (A + _ - A) with (N - A) by lia.
    by apply stream_at_drop. }
  exists s'. split; [done|]. split; [done|]. split; [done|]. split; [|done].
  rewrite !tcplen_alt by (apply Hs || apply Hs'). unfold s'. cbn -[Z.testbit]. unfold seg_fin. cbn. lia.
Qed.
End window.
End stream.

(** ** The receive path as a whole *)

(** The connection expects position [N], its window ends at [R], and [qs] is
    queued. *)
Record receiving (S : Z -> Z) (E N R : Z) (qs : list (Z * tcp_seg)) (p : tcp_pcb) : Prop := {
  rc_wnd : 0 <= R - N <= 65535;
  rc_at : rcv_at R N p;
  rc_ooseq : ooseq p = qs.*2;
  rc_queue : queue_ok S E (N + 1) R qs
}.

(** The segment being processed carries the peer's octets from position [A]. *)
Record peer_segment (S : Z -> Z) (E A : Z) (i : input) : Prop := {
  ps_seg : seg_ok S E A (inseg i);
  ps_seqno : in_seqno i = u32 A;
  ps_tcplen : in_tcplen i = TCP_TCPLEN (inseg i);
  ps_data : in_recv_data i = None;
  ps_flags : in_recv_flags i = 0
}.

Section receive_data.
Context (S : Z -> Z) (E N R A : Z) (p : tcp_pcb) (i : input) (n : net) (qs : list (Z * tcp_seg)).
Context (Hr : receiving S E N R qs p) (Hi : peer_segment S E A i).
Context (Hst : state_val (state p) < state_val CLOSE_WAIT) (Hpos : 0 < in_tcplen i).
Context (HA : N - 65534 <= A) (HR : A + in_tcplen i <= R).

Lemma receive_data_old :
  A + in_tcplen i <= N ->
  exists p' i' n', receive_data p i n = Some (p', i', n') /\
    received S E R N qs (in_new i A) p p' i' N false qs.
Proof.
  intros Hold. destruct Hr as [Hw Hp Eq Hq], Hi as [Hs Hseq Htl Hd Hfl].
  pose proof (tcplen_bounds _ _ _ _ Hs). pose proof (so_len _ _ _ _ Hs).
  unfold receive_data. destruct (Z.ltb_spec 0 (in_tcplen i)); [|lia].
  destruct (Z.ltb_spec (state_val (state p)) (state_val CLOSE_WAIT)); [|lia]. cbn [andb].
  rewrite (seq_between_unwrap _ _ _ N (A + 1) (A + in_tcplen i - 1));
    [|rewrite (ra_nxt _ _ _ Hp); word_lia|rewrite Hseq; word_lia|rewrite Hseq; word_lia|unfold near; lia..].
  destruct (Z.leb_spec N (A + in_tcplen i - 1)); [lia|]. rewrite andb_false_r.
  rewrite (seq_lt_unwrap _ _ A N); [|rewrite Hseq; word_lia|rewrite (ra_nxt _ _ _ Hp); word_lia|unfold near; lia].
  destruct (Z.ltb_spec A N); [|lia]. cbn [mbind option_bind].
  set (p1 := tcp_ack_now p). assert (Hp1 : rcv_at R N p1) by (destruct Hp; by split).
  assert (ooseq p1 = ooseq p /\ state p1 = state p) as [Eq1 Hst1] by done. clearbody p1.
  rewrite (seq_between_unwrap _ _ _ A N (R - 1));
    [|rewrite Hseq; word_lia|rewrite (ra_nxt _ _ _ Hp1); word_lia
     |rewrite (ra_nxt _ _ _ Hp1), (ra_wnd _ _ _ Hp1); word_lia|unfold near; lia..].
  destruct (Z.leb_spec N A); [lia|]. cbn [andb].
  destruct (send_empty_ack_spec S N R Hw p1 n Hp1) as (p' & n' & -> & Hp' & Eq' & Hst').
  eexists _, _, _. split; [done|]. apply received_nothing; try done; [lia|congruence|congruence].
Qed.

Lemma receive_data_front :
  A <= N < A + in_tcplen i ->
  exists p' i' n' M fin qs', receive_data p i n = Some (p', i', n') /\
    received S E R N qs (in_new i A) p p' i' M fin qs' /\
    (forall x, N <= x -> in_new i A x \/ covered qs x -> x < M \/ covered qs' x) /\
    (seg_fin (inseg i) = true \/ has_fin qs <-> fin = true \/ has_fin qs').
Proof.
  intros HAN. destruct Hr as [Hw Hp Eq Hq], Hi as [Hs Hseq Htl Hd Hfl].
  pose proof (tcplen_bounds _ _ _ _ Hs). pose proof (so_len _ _ _ _ Hs).
  unfold receive_data. destruct (Z.ltb_spec 0 (in_tcplen i)); [|lia].
  destruct (Z.ltb_spec (state_val (state p)) (state_val CLOSE_WAIT)); [|lia]. cbn [andb].
  rewrite (seq_between_unwrap _ _ _ N (A + 1) (A + in_tcplen i - 1));
    [|rewrite (ra_nxt _ _ _ Hp); word_lia|rewrite Hseq; word_lia|rewrite Hseq; word_lia|unfold near; lia..].
  destruct (Z.leb_spec N (A + in_tcplen i - 1)); [|lia]. rewrite andb_true_r.
  assert (Hi1 : exists s', seg_ok S E N s' /\ seg_len s' = seg_len (inseg i) - (N - A) /\
    TCP_TCPLEN s' = TCP_TCPLEN (inseg i) - (N - A) /\ seg_fin s' = seg_fin (inseg i) /\
    (if A + 1 <=? N then i ← trim_front p i; Some (p, i)
     else if TCP_SEQ_LT (in_seqno i) (rcv_nxt p) then Some (tcp_ack_now p, i) else Some (p, i)) =
    Some (p, i <| inseg := s' |> <| in_seqno := u32 N |>)).
  { destruct (Z.leb_spec (A + 1) N).
    - destruct (trim_front_spec S E N R p i A) as (s' & -> & ? & ? & ? & ?); try done; try lia.
      by exists s'.
    - assert (N = A) as -> by lia. exists (inseg i). split_and!; try done; try lia.
      rewrite (seq_lt_unwrap _ _ A A); [|rewrite Hseq; word_lia|rewrite (ra_nxt _ _ _ Hp); word_lia|unfold near; lia].
      rewrite Z.ltb_irrefl, <- Hseq. by destruct i. }
  destruct Hi1 as (s' & Hs' & Hl' & Htl' & Hf' & ->). cbn [mbind option_bind]. cbn [in_seqno setter].
  rewrite (seq_between_unwrap _ _ _ N N (R - 1));
    [|word_lia|rewrite (ra_nxt _ _ _ Hp); word_lia
     |rewrite (ra_nxt _ _ _ Hp), (ra_wnd _ _ _ Hp); word_lia|unfold near; lia..].
  destruct (Z.leb_spec N N), (Z.leb_spec N (R - 1)); try lia. cbn [andb].
  rewrite (ra_nxt _ _ _ Hp), Z.eqb_refl.
  destruct (receive_in_sequence_spec S E N R Hw p (i <| inseg := s' |> <| in_seqno := u32 N |>) n qs) as
    (p' & i' & n' & M & fin & qs' & -> & Hrcv & Hcov & Hff); try done; cbn [inseg setter]; try lia.
  cbn [inseg setter] in Hcov, Hrcv, Hff. rewrite Hf' in Hff.
  exists p', i', n', M, fin, qs'. split; [done|]. split; [|split; [|done]].
  - destruct Hrcv as (? & ? & ? & ? & ? & ? & ? & ? & ? & Hr1 & Hr2). unfold received, in_new.
    split_and!; try done.
    + intros x Hx. destruct (Hr1 x Hx); [left; lia|by right].
    + intros x Hx. destruct (Hr2 x Hx); [left; lia|by right].
  - intros x Hx Hn. destruct (proj1 (Hcov x)) as [?|?]; [|by left; lia|by right].
    destruct Hn as [Hn|]; [left; unfold in_new in Hn; lia|by right].
Qed.

Lemma receive_data_ahead :
  N < A ->
  exists p' i' n' qs', receive_data p i n = Some (p', i', n') /\
    received S E R N qs (in_new i A) p p' i' N false qs' /\
    (head (seg_mem n) = Some true -> forall x, in_new i A x -> covered qs' x) /\
    (has_fin qs -> has_fin qs') /\ (has_fin qs' -> has_fin qs \/ seg_fin (inseg i) = true) /\
    (head (seg_mem n) = Some true -> seg_fin (inseg i) = true ->
       has_fin qs' \/ exists t, (A, t) ∈ qs /\ seg_len (inseg i) <= seg_len t).
Proof.
  intros HAN. destruct Hr as [Hw Hp Eq Hq], Hi as [Hs Hseq Htl Hd Hfl].
  pose proof (tcplen_bounds _ _ _ _ Hs). pose proof (so_len _ _ _ _ Hs).
  unfold receive_data. destruct (Z.ltb_spec 0 (in_tcplen i)); [|lia].
  destruct (Z.ltb_spec (state_val (state p)) (state_val CLOSE_WAIT)); [|lia]. cbn [andb].
  rewrite (seq_between_unwrap _ _ _ N (A + 1) (A + in_tcplen i - 1));
    [|rewrite (ra_nxt _ _ _ Hp); word_lia|rewrite Hseq; word_lia|rewrite Hseq; word_lia|unfold near; lia..].
  destruct (Z.leb_spec (A + 1) N); [lia|]. cbn [andb].
  rewrite (seq_lt_unwrap _ _ A N); [|rewrite Hseq; word_lia|rewrite (ra_nxt _ _ _ Hp); word_lia|unfold near; lia].
  destruct (Z.ltb_spec A N); [lia|]. cbn [mbind option_bind].
  rewrite (seq_between_unwrap _ _ _ A N (R - 1));
    [|rewrite Hseq; word_lia|rewrite (ra_nxt _ _ _ Hp); word_lia
     |rewrite (ra_nxt _ _ _ Hp), (ra_wnd _ _ _ Hp); word_lia|unfold near; lia..].
  destruct (Z.leb_spec N A), (Z.leb_spec A (R - 1)); try lia. cbn [andb].
  rewrite (u32_eq_unwrap _ _ N A); [|rewrite (ra_nxt _ _ _ Hp); word_lia|rewrite Hseq; word_lia
    |unfold near; lia|rewrite (ra_nxt _ _ _ Hp); word_lia|rewrite Hseq; word_lia].
  destruct (Z.eqb_spec N A); [lia|].
  destruct (receive_out_of_sequence_spec S E N R Hw p i n A qs) as (p' & n' & qs' & -> & Hr1 & Hr2 & Hr3 & Hr4 & Hr5); try done.
  eexists _, _, _, _. by split_and!.
Qed.
End receive_data.

Lemma queue_past_end S E lo R qs : queue_ok S E lo R qs -> E < lo -> qs = [].
Proof.
  destruct qs as [|[A s] qs]; [done|]. intros (HA & Hs & _) ?.
  pose proof (so_end _ _ _ _ Hs). pose proof (so_len _ _ _ _ Hs). lia.
Qed.

Lemma received_receiving S E R N qs new p p' i' M fin qs' :
  0 <= R - N <= 65535 -> received S E R N qs new p p' i' M fin qs' ->
  receiving S E (M + Z.b2z fin) R qs' p'.
Proof.
  intros Hw (? & ? & Hp & Hq & Hqs & _ & _ & Hfin & _). split; try done.
  - destruct fin; simpl in *; lia.
  - destruct fin; simpl; [|by rewrite Z.add_0_r].
    rewrite (queue_past_end _ _ _ _ _ Hqs); [done|]. specialize (Hfin eq_refl). lia.
Qed.

(** A FIN in the queue is at the end of the stream, ahead of what is missing. *)
Lemma fin_ahead S E lo R qs : queue_ok S E lo R qs -> has_fin qs -> lo <= E.
Proof.
  intros Hq (A & s & Hin & Hf). destruct (queue_ok_elem _ _ _ _ _ _ _ Hq Hin) as (? & Hs & _).
  pose proof (so_fin _ _ _ _ Hs Hf). pose proof (so_len _ _ _ _ Hs). lia.
Qed.

(** Any segment of the peer inside the window. *)
Lemma receive_data_any S E N R A p i n qs :
  receiving S E N R qs p -> peer_segment S E A i -> state_val (state p) < state_val CLOSE_WAIT ->
  0 < in_tcplen i -> N - 65534 <= A -> A + in_tcplen i <= R ->
  exists p' i' n' M fin qs', receive_data p i n = Some (p', i', n') /\
    received S E R N qs (in_new i A) p p' i' M fin qs' /\
    (A <= N -> forall x, N <= x -> in_new i A x \/ covered qs x -> x < M \/ covered qs' x) /\
    (N < A -> head (seg_mem n) = Some true -> forall x, in_new i A x -> covered qs' x) /\
    (fin = true <-> M = E /\ (seg_fin (inseg i) = true \/ has_fin qs)) /\
    (has_fin qs -> fin = true \/ has_fin qs') /\ (has_fin qs' -> has_fin qs \/ seg_fin (inseg i) = true) /\
    (N < A -> head (seg_mem n) = Some true -> seg_fin (inseg i) = true ->
       has_fin qs' \/ exists s, (A, s) ∈ qs /\ seg_len (inseg i) <= seg_len s).
Proof.
  intros Hr Hi Hst Hpos HA HR. pose proof (ps_seg _ _ _ _ Hi) as Hs.
  pose proof (tcplen_bounds _ _ _ _ Hs) as Hb. pose proof (ps_tcplen _ _ _ _ Hi) as Htl.
  pose proof (so_fin _ _ _ _ Hs) as Hsf. pose proof (so_end _ _ _ _ Hs) as Hse.
  pose proof (tcplen_alt _ (so_syn _ _ _ _ Hs)) as Hta.
  pose proof (fin_ahead _ _ _ _ _ (rc_queue _ _ _ _ _ _ Hr)) as Hah.
  destruct (decide (A + in_tcplen i <= N)) as [Hold|];
    [|destruct (decide (A <= N)) as [HAN|HAN]].
  - edestruct receive_data_old as (p' & i' & n' & E1 & H1); [done..|].
    exists p', i', n', N, false, qs. split_and!; try done; [|lia|..|by right|by left|lia].
    + intros _ x Hx [Hn|]; [|by right]. unfold in_new in Hn. lia.
    + split; [done|]. intros [-> [Hf|?%Hah]]; [|lia]. specialize (Hsf Hf). rewrite Hf in Hta. lia.
  - edestruct receive_data_front as (p' & i' & n' & M & fin & qs' & E1 & H1 & H2 & H3); [done..|lia|].
    exists p', i', n', M, fin, qs'. split; [exact E1|].
    assert (Hq' : queue_ok S E (M + 1) R qs') by apply H1. assert (Hf' : fin = true -> M = E) by apply H1.
    pose proof (fin_ahead _ _ _ _ _ Hq') as Hq2. split_and!; try done; [lia| |naive_solver|naive_solver|lia].
    split; [naive_solver|]. intros [-> Hf%H3]. destruct Hf as [?|?%Hq2]; [done|lia].
  - edestruct receive_data_ahead as (p' & i' & n' & qs' & E1 & H1 & H2 & H3 & H4 & H5); [done..|lia|].
    exists p', i', n', N, false, qs'. split_and!; try done; [|by right; apply H3].
    split; [done|]. intros [-> _]. lia.
Qed.

(** C2: whatever part of its stream the peer sends, in whatever order, as long
    as it lies in the window: the receive path does not fail, hands on exactly
    the octets of the stream from [rcv_nxt] to the first missing position, in order
    and each once, and reports the FIN exactly when these octets reach the end of
    the stream and the segment or one in the queue carries it.  [rcv_nxt], the
    window and the queue are those of the new position.  Nothing queued is lost,
    when the segment is not ahead of [rcv_nxt], nor ever a FIN in the queue, and
    none is made up.  A segment ahead of [rcv_nxt] is kept, if there is memory;
    only its FIN is not when a segment that starts at the same position and is
    not shorter is in the queue already. *)
Theorem receive_data_reassembles S E N R A p i n qs
  (Hr : receiving S E N R qs p) (Hi : peer_segment S E A i)
  (Hst : state_val (state p) < state_val CLOSE_WAIT)
  (Hpos : 0 < in_tcplen i) (HA : N - 65534 <= A) (HR : A + in_tcplen i <= R) :
  exists p' i' n' M (fin : bool) qs',
    receive_data p i n = Some (p', i', n') /\ N <= M /\
    receiving S E (M + Z.b2z fin) R qs' p' /\
    delivered S N M (in_recv_data i') /\
    in_recv_flags i' = (if fin then TF_GOT_FIN else 0) /\
    (fin = true <-> M = E /\ (seg_fin (inseg i) = true \/ has_fin qs)) /\
    (has_fin qs -> fin = true \/ has_fin qs') /\ (has_fin qs' -> has_fin qs \/ seg_fin (inseg i) = true) /\
    (forall x, N <= x < M -> in_new i A x \/ covered qs x) /\ ~ covered qs' M /\
    (forall x, covered qs' x -> in_new i A x \/ covered qs x) /\
    (A <= N -> forall x, N <= x -> in_new i A x \/ covered qs x -> x < M \/ covered qs' x) /\
    (N < A -> head (seg_mem n) = Some true -> forall x, in_new i A x -> covered qs' x) /\
    (N < A -> head (seg_mem n) = Some true -> seg_fin (inseg i) = true ->
       has_fin qs' \/ exists s, (A, s) ∈ qs /\ seg_len (inseg i) <= seg_len s).
Proof.
  destruct (receive_data_any S E N R A p i n qs) as
    (p' & i' & n' & M & fin & qs' & E1 & Hrcv & H1 & H2 & H3 & H4 & H5 & H6); try done.
  pose proof (received_receiving _ _ _ _ _ _ _ _ _ _ _ _ (rc_wnd _ _ _ _ _ _ Hr) Hrcv).
  destruct Hrcv as (? & ? & ? & ? & Hq & ? & ? & ? & ? & ? & ?).
  exists p', i', n', M, fin, qs'. split_and!; try done; try by apply H3.
  intros (B & s & Hin & Hx). destruct (queue_ok_elem _ _ _ _ _ _ _ Hq Hin). lia.
Qed.

(** A segment without sequence space, or after the FIN, changes nothing. *)
Lemma receive_data_idle S E N R p i n qs :
  receiving S E N R qs p -> in_tcplen i <= 0 \/ state_val CLOSE_WAIT <= state_val (state p) ->
  in_recv_data i = None ->
  exists p', receive_data p i n = Some (p', i, n) /\ receiving S E N R qs p'.
Proof.
  intros [Hw Hp Eq Hq] Hc Hd. unfold receive_data.
  replace ((0 <? in_tcplen i) && _) with false.
  - destruct (negb _); eexists; (split; [done|]); [|done]. split; try done. by destruct Hp.
  - symmetry. destruct (Z.ltb_spec 0 (in_tcplen i)), (Z.ltb_spec (state_val (state p)) (state_val CLOSE_WAIT)); lia || done.
Qed.

(** A run of the receive path over segments in the order of their arrival, and
    what it hands to the application. *)
Fixpoint receive_all (l : list input) (p : tcp_pcb) (n : net) : option (tcp_pcb * net * list Z) :=
  match l with
  | [] => Some (p, n, [])
  | i :: l =>
      '(p, i, n) ← receive_data p i n;
      '(p, n, out) ← receive_all l p n;
      Some (p, n, default [] (in_recv_data i) ++ out)
  end.

Lemma delivered_default S N M o :
  delivered S N M o -> Z.of_nat (length (default [] o)) = M - N /\ stream_at S N (default [] o).
Proof.
  destruct o as [d|]; simpl; [by intros (? & ? & ?)|]. intros ->. split; [simpl; lia|].
  by intros k x [=].
Qed.

Lemma covered_before_end S E lo R qs x : queue_ok S E lo R qs -> covered qs x -> x < E.
Proof.
  intros Hq (A & s & Hin & Hx). destruct (queue_ok_elem _ _ _ _ _ _ _ Hq Hin) as (_ & Hs & _).
  pose proof (so_end _ _ _ _ Hs). lia.
Qed.

Lemma receive_all_spec S E N R qs p n l
  (Hr : receiving S E N R qs p)
  (Hl : Forall (fun i => exists A, peer_segment S E A i /\ R - 65534 <= A /\ A + in_tcplen i <= R) l) :
  exists p' n' out M (fin : bool) qs',
    receive_all l p n = Some (p', n', out) /\ N <= M /\
    receiving S E (M + Z.b2z fin) R qs' p' /\
    Z.of_nat (length out) = M - N /\ stream_at S N out /\
    (M <= Z.max N E) /\ (fin = true -> M = E).
Proof.
  revert N p n qs Hr. induction Hl as [|i l (A & Hi & HA & HAR) _ IH]; intros N p n qs Hr.
  - exists p, n, [], N, false, qs. simpl. rewrite Z.add_0_r. split_and!; try done; lia.
  - pose proof (rc_wnd _ _ _ _ _ _ Hr) as Hw. cbn [receive_all].
    destruct (decide (in_tcplen i <= 0 \/ state_val CLOSE_WAIT <= state_val (state p))) as [Hidle|].
    + destruct (receive_data_idle _ _ _ _ _ i n _ Hr Hidle (ps_data _ _ _ _ Hi)) as (p' & -> & Hr').
      cbn [mbind option_bind]. destruct (IH N p' n qs Hr') as (p2 & n2 & out & M & fin & qs2 & -> & ?).
      cbn [mbind option_bind]. rewrite (ps_data _ _ _ _ Hi). by exists p2, n2, out, M, fin, qs2.
    + destruct (receive_data_any S E N R A p i n qs) as
        (p' & i' & n' & M & fin & qs' & -> & Hrcv & _); try done; try lia.
      cbn [mbind option_bind].
      pose proof (received_receiving _ _ _ _ _ _ _ _ _ _ _ _ Hw Hrcv) as Hr'.
      destruct Hrcv as (HM & _ & _ & _ & Hq' & Hd & _ & Hfin & _ & Hnew & _).
      destruct (delivered_default _ _ _ _ Hd) as [Hlen Hstr].
      assert (HME : M <= Z.max N E).
      { destruct (decide (N < M)); [|lia]. destruct (Hnew (M - 1)) as [Hx|Hx]; [lia| |].
        - pose proof (so_end _ _ _ _ (ps_seg _ _ _ _ Hi)). unfold in_new in Hx. lia.
        - pose proof (covered_before_end _ _ _ _ _ _ (rc_queue _ _ _ _ _ _ Hr) Hx). lia. }
      destruct (IH _ p' n' qs' Hr') as (p2 & n2 & out & M2 & fin2 & qs2 & -> & HM2 & Hr2 & Hl2 & Hs2 & HE2 & Hf2).
      cbn [mbind option_bind]. destruct fin; cbn [Z.b2z] in *.
      * specialize (Hfin eq_refl). assert (M2 = M + 1) by lia. subst M2.
        destruct fin2; [specialize (Hf2 eq_refl); lia|].
        assert (out = []) as -> by (destruct out; simpl in *; [done|lia]).
        exists p2, n2, (default [] (in_recv_data i')), M, true, qs2.
        rewrite app_nil_r. cbn [Z.b2z] in *. rewrite Z.add_0_r in Hr2. split_and!; done || lia.
      * rewrite Z.add_0_r in *. exists p2, n2, (default [] (in_recv_data i') ++ out), M2, fin2, qs2.
        rewrite length_app. split_and!; try done; try lia.
        apply stream_at_app; [done|]. rewrite Hlen. by replace (N + (M - N)) with M by lia.
Qed.

(** over any sequence of segments of the peer's stream that lie in the
    window, in any order, overlapping, repeated or cut up differently each
    time, the receive path never fails and what it delivers is a prefix of the
    stream: no octet is missing, repeated, out of place or changed. *)
Theorem receive_all_in_order S E N R qs p n l
  (Hr : receiving S E N R qs p)
  (Hl : Forall (fun i => exists A, peer_segment S E A i /\ R - 65534 <= A /\ A + in_tcplen i <= R) l) :
  exists p' n' out M (fin : bool) qs',
    receive_all l p n = Some (p', n', out) /\ N <= M /\
    receiving S E (M + Z.b2z fin) R qs' p' /\
    Z.of_nat (length out) = M - N /\ stream_at S N out /\
    (M <= Z.max N E) /\ (fin = true -> M = E).
Proof. by apply (receive_all_spec S E N R qs). Qed.

(** ** Concrete runs *)

Lemma slice_peer_segment S E A len fin :
  (Z.of_nat len <= 65535)%Z -> A + Z.of_nat len <= E -> (fin = true -> A + Z.of_nat len = E) ->
  peer_segment S E A (slice S A len fin).
Proof.
  intros Hl HE Hf. split; [|done|by destruct fin|done|done].
  split; cbn; [done|by destruct fin| |lia|done|destruct fin; [by intros; apply Hf|done]].
  eexists. split; [done|]. unfold octets. rewrite length_fmap, length_seq. split; [done|].
  intros k x Hk. rewrite list_lookup_fmap_Some in Hk. destruct Hk as (j & -> & [-> ?]%lookup_seq).
  done.
Qed.

Lemma example_receiving S E N wnd :
  0 <= wnd <= 65535 -> receiving S E N (N + wnd) [] (example_pcb N wnd).
Proof.
  intros Hw. split; try done; [lia|]. split; cbn; try done; try lia.
  - exists (N + wnd). split; [done|lia].
Qed.

(** An overlapping segment fills the gap in front of a queued one that carries
    the FIN. *)
Lemma receive_data_reassembles_witness :
  exists p i qs, receiving octet_stream 1020 1000 33768 qs p /\ qs <> [] /\
    peer_segment octet_stream 1020 995 i /\
    exists p' i' n' M (fin : bool) qs',
    receive_data p i no_memory_trouble = Some (p', i', n') /\ 1000 <= M /\
    receiving octet_stream 1020 (M + Z.b2z fin) 33768 qs' p' /\
    delivered octet_stream 1000 M (in_recv_data i') /\
    in_recv_flags i' = (if fin then TF_GOT_FIN else 0) /\
    (fin = true <-> M = 1020 /\ (seg_fin (inseg i) = true \/ has_fin qs)) /\
    (has_fin qs -> fin = true \/ has_fin qs') /\ (has_fin qs' -> has_fin qs \/ seg_fin (inseg i) = true) /\
    (forall x, 1000 <= x < M -> in_new i 995 x \/ covered qs x) /\ ~ covered qs' M /\
    (forall x, covered qs' x -> in_new i 995 x \/ covered qs x) /\
    (995 <= 1000 -> forall x, 1000 <= x -> in_new i 995 x \/ covered qs x -> x < M \/ covered qs' x) /\
    (1000 < 995 -> head (seg_mem no_memory_trouble) = Some true ->
       forall x, in_new i 995 x -> covered qs' x) /\
    (1000 < 995 -> head (seg_mem no_memory_trouble) = Some true -> seg_fin (inseg i) = true ->
       has_fin qs' \/ exists s, (995, s) ∈ qs /\ seg_len (inseg i) <= seg_len s).
Proof.
  set (q := inseg (slice octet_stream 1010 10 true)).
  assert (Hq : seg_ok octet_stream 1020 1010 q)
    by (apply (ps_seg _ _ _ (slice octet_stream 1010 10 true)); apply slice_peer_segment; done).
  assert (Hr : receiving octet_stream 1020 1000 33768 [(1010, q)]
    ((example_pcb 1000 32768) <| ooseq := [q] |>)).
  { split; [lia| |done|].
    - destruct (rc_at _ _ _ _ _ _ (example_receiving octet_stream 1020 1000 32768 ltac:(lia))); by split.
    - cbn [queue_ok]. split_and!; done. }
  assert (Hi : peer_segment octet_stream 1020 995 (slice octet_stream 995 15 false))
    by (apply slice_peer_segment; done).
  exists ((example_pcb 1000 32768) <| ooseq := [q] |>), (slice octet_stream 995 15 false), [(1010, q)].
  split; [exact Hr|]. split; [done|]. split; [exact Hi|].
  apply (receive_data_reassembles octet_stream 1020 1000 33768 995); [exact Hr|exact Hi|done..].
Defined.

(** Three segments in the wrong order, the first two overlapping. *)
Lemma receive_all_in_order_witness :
  exists p' n' out M (fin : bool) qs',
    receive_all [slice octet_stream 1010 10 true; slice octet_stream 1005 8 false;
                 slice octet_stream 1000 6 false] (example_pcb 1000 32768) no_memory_trouble =
      Some (p', n', out) /\ 1000 <= M /\
    receiving octet_stream 1020 (M + Z.b2z fin) 33768 qs' p' /\
    Z.of_nat (length out) = M - 1000 /\ stream_at octet_stream 1000 out /\
    (M <= Z.max 1000 1020) /\ (fin = true -> M = 1020).
Proof.
  apply (receive_all_in_order octet_stream 1020 1000 33768 []).
  - apply (example_receiving octet_stream 1020 1000 32768). lia.
  - repeat apply List.Forall_cons; [exists 1010|exists 1005|exists 1000|done];
      (split; [by apply slice_peer_segment|done]).
Defined.

Example receive_all_run :
  (fun x => x.2) <$> receive_all [slice octet_stream 1010 10 true; slice octet_stream 1005 8 false;
    slice octet_stream 1000 6 false] (example_pcb 1000 32768) no_memory_trouble =
  Some (octets octet_stream 1000 20).
Proof. by vm_compute. Qed.

(** a segment that reaches beyond the window is cut when it is appended
    behind a queued one, but not when it is the first to be queued: with a
    window of 100 octets at position 1000, 100 octets at 1050 are queued whole,
    and the 50 octets at 1000 then trip the assertion
    "tcp_receive: ooseq tcplen > rcv_wnd". *)
Theorem receive_data_aborts_beyond_window :
  receiving octet_stream 1150 1000 1100 [] (example_pcb 1000 100) /\
  exists first, receive_data (example_pcb 1000 100) (slice octet_stream 1050 100 false)
    no_memory_trouble = Some first /\
    receive_data first.1.1 (slice octet_stream 1000 50 false) first.2 = None.
Proof.
  split; [apply (example_receiving octet_stream 1150 1000 100); lia|].
  destruct (receive_data (example_pcb 1000 100) (slice octet_stream 1050 100 false)
              no_memory_trouble) as [r|] eqn:E; [|vm_compute in E; discriminate].
  exists r. split; [done|]. vm_compute in E. injection E as <-. by vm_compute.
Qed.
