(* ===== verification/TcpAck.v ===== *)
(** * Acknowledgements, retransmission and congestion control

    The sending half of tcp_in.c and the retransmission functions of tcp_out.c:
    the queues [unacked] and [unsent] hold pieces of the sequence space, and an
    acknowledgement removes exactly those that end at or before it, whatever
    else it triggers. *)

From Stdlib Require Import Sorting.Sorted.
From S2P Require Import Prelude Err IpAddr TcpDefs TcpIn TcpExamples.

(** ** Segments with their positions *)

Abbreviation placed := (Z * tcp_seg)%type.

Definition seg_end (x : placed) : Z := x.1 + TCP_TCPLEN x.2.

(** A segment that is not acknowledged when [L] is the acknowledged position; it
    ends at most 2^30 behind it. *)
Definition placed_ok (L : Z) (x : placed) : Prop :=
  seg_seqno x.2 = u32 x.1 /\ 0 < TCP_TCPLEN x.2 <= 65536 /\ 0 <= seg_len x.2 /\ 0 <= seg_clen x.2 /\
  L < seg_end x < L + 1073741824.

(** [x] comes before [y] and does not overlap it. *)
Definition before (x y : placed) : Prop := seg_end x <= y.1.
Definition apart (x y : placed) : Prop := before x y \/ before y x.

Definition sum_len (l : list placed) : Z := foldr (fun x a => seg_len x.2 + a) 0 l.
Definition sum_clen (l : list placed) : Z := foldr (fun x a => seg_clen x.2 + a) 0 l.

Lemma sum_len_app l k : sum_len (l ++ k) = sum_len l + sum_len k.
Proof. induction l as [|x l IH]; simpl; [done|]. rewrite IH. lia. Qed.

Lemma sum_clen_app l k : sum_clen (l ++ k) = sum_clen l + sum_clen k.
Proof. induction l as [|x l IH]; simpl; [done|]. rewrite IH. lia. Qed.

Lemma sum_len_perm l k : l ≡ₚ k -> sum_len l = sum_len k.
Proof. induction 1; simpl; lia. Qed.

Lemma sum_clen_perm l k : l ≡ₚ k -> sum_clen l = sum_clen k.
Proof. induction 1; simpl; lia. Qed.

Lemma sum_nonneg L l : Forall (placed_ok L) l -> 0 <= sum_len l /\ 0 <= sum_clen l.
Proof. induction 1 as [|x l (? & ? & ? & ? & ? & ?) _ [IH1 IH2]]; simpl; lia. Qed.

(** What the acknowledgement of position [K] leaves. *)
Definition unacknowledged (K : Z) (l : list placed) : list placed := filter (fun x => K < seg_end x) l.

Lemma unacknowledged_all K l : Forall (fun x => K < seg_end x) l -> unacknowledged K l = l.
Proof. induction 1; unfold unacknowledged in *; [done|]. rewrite filter_cons_True by done. by f_equal. Qed.

Lemma unacknowledged_sorted K l :
  StronglySorted before l -> StronglySorted before (unacknowledged K l).
Proof.
  induction 1 as [|x l _ IH Hx]; unfold unacknowledged in *; [constructor|].
  rewrite filter_cons. case_decide; [|done]. constructor; [done|].
  rewrite Forall_forall in Hx |- *. intros y Hy. apply Hx. by apply list_elem_of_filter in Hy as [_ ?].
Qed.

(** In a sorted list everything behind an unacknowledged segment is
    unacknowledged. *)
Lemma unacknowledged_tail L K x l :
  StronglySorted before (x :: l) -> Forall (placed_ok L) (x :: l) -> K < seg_end x ->
  unacknowledged K (x :: l) = x :: l.
Proof.
  intros Hs Hok HK. apply unacknowledged_all. constructor; [done|].
  inversion_clear Hs as [|? ? _ Hx]. inversion_clear Hok as [|? ? _ Hl].
  rewrite Forall_forall in *. intros y Hy. specialize (Hx y Hy). specialize (Hl y Hy).
  unfold before, placed_ok, seg_end in *. lia.
Qed.

(** ** [tcp_free_acked_segments] *)

Section free.
Context (L K : Z) (HK : L <= K < L + 1073741824).

Lemma free_acked_spec (l : list placed) (other : list placed) : forall ql acked,
  StronglySorted before l -> Forall (placed_ok L) l -> Forall (placed_ok L) other ->
  ql = sum_clen l + sum_clen other -> is_u16 ql -> 0 <= acked -> acked + sum_len l < 65536 ->
  tcp_free_acked_segments (u32 K) l.*2 other.*2 ql acked =
  Some ((unacknowledged K l).*2, sum_clen (unacknowledged K l) + sum_clen other,
        acked + (sum_len l - sum_len (unacknowledged K l))).
Proof.
  induction l as [|x l IH]; intros ql acked Hs Hok Hoo Hql Hu Hac Hlen.
  - cbn. rewrite Hql. cbn. by rewrite Z.add_0_r.
  - pose proof (sum_nonneg _ _ Hok). pose proof (sum_nonneg _ _ Hoo).
    inversion Hok as [|? ? (Hsq & Hp & Hl0 & Hc0 & Hlo & Hhi) Hok']; subst.
    inversion Hs as [|? ? Hs' Hx]; subst. pose proof (sum_nonneg _ _ Hok').
    cbn [fmap list_fmap tcp_free_acked_segments].
    rewrite (seq_leq_unwrap _ _ (seg_end x) K);
      [|unfold seg_end; rewrite Hsq; word_lia|word_lia|unfold near, seg_end in *; lia].
    destruct (Z.leb_spec (seg_end x) K) as [Hle|Hgt].
    + cbn [sum_clen sum_len foldr] in *. fold (sum_clen l) (sum_len l) in *.
      rewrite (proj2 (Z.leb_le _ _)) by lia.
      rewrite u16_id by (unfold is_u16 in *; lia).
      rewrite (u16_id (acked + _)) by (unfold is_u16 in *; lia).
      match goal with |- context [if ?b then _ else _] => assert (b = true) as -> end.
      { destruct l, other; cbn; rewrite ?orb_true_r; try done.
        rewrite orb_false_r. apply Z.eqb_eq. cbn. lia. }
      rewrite IH; try done; try lia; [|unfold is_u16 in *; lia].
      unfold unacknowledged. rewrite filter_cons_False by lia. do 2 f_equal. lia.
    + rewrite (unacknowledged_tail L K) by done. cbn [fmap list_fmap]. do 2 f_equal. lia.
Qed.
End free.

(** ** Sorted insertion into the unsent queue *)

Fixpoint placed_insert (x : placed) (l : list placed) : list placed :=
  match l with
  | [] => [x]
  | c :: r => if c.1 <? x.1 then c :: placed_insert x r else x :: l
  end.

Lemma placed_insert_perm x l : placed_insert x l ≡ₚ x :: l.
Proof.
  induction l as [|c r IH]; simpl; [done|]. destruct (c.1 <? x.1); [|done].
  rewrite IH. apply Permutation_swap.
Qed.

Lemma unsent_insert_spec L x l :
  placed_ok L x -> Forall (placed_ok L) l -> unsent_insert x.2 l.*2 = (placed_insert x l).*2.
Proof.
  intros (Hsx & ? & ? & ? & ? & ?). unfold seg_end in *.
  induction 1 as [|c r (Hsc & ? & ? & ? & ? & ?) _ IH]; [done|].
  unfold seg_end in *. cbn [fmap list_fmap unsent_insert placed_insert].
  rewrite (seq_lt_unwrap _ _ c.1 x.1); [|rewrite Hsc; word_lia|rewrite Hsx; word_lia|unfold near; lia].
  destruct (c.1 <? x.1); [|done]. cbn [fmap list_fmap]. f_equal. apply IH.
Qed.

Lemma placed_insert_sorted L x l :
  placed_ok L x -> Forall (placed_ok L) l -> Forall (apart x) l -> StronglySorted before l ->
  StronglySorted before (placed_insert x l).
Proof.
  intros (_ & Hx & _) Hok Ha Hs. induction Hs as [|c r Hs IH Hc]; simpl.
  - by repeat constructor.
  - inversion Hok as [|? ? (_ & Hcp & _) Hok']; subst. inversion Ha as [|? ? Hxc Ha']; subst.
    destruct (Z.ltb_spec c.1 x.1).
    + constructor; [by apply IH|]. rewrite placed_insert_perm. constructor; [|done].
      unfold apart, before, seg_end in *. lia.
    + assert (before x c) by (unfold apart, before, seg_end in *; lia).
      constructor; [by constructor|]. constructor; [done|].
      rewrite Forall_forall in Hc |- *. intros y Hy. specialize (Hc y Hy).
      unfold before, seg_end in *. lia.
Qed.

(** ** The sending side of a connection *)

Definition TCP_SND_BUF : Z := TCP_WND.

(** [L] is acknowledged, [NX] is the next position to send; the queues hold
    disjoint pending segments, each queue in order, and account for
    [snd_queuelen] and for the buffer space in use. *)
Record sending (L NX : Z) (us ws : list placed) (p : tcp_pcb) : Prop := {
  sd_unacked : unacked p = us.*2;
  sd_unsent : unsent p = ws.*2;
  sd_lastack : lastack p = u32 L;
  sd_nxt : snd_nxt p = u32 NX;
  sd_window : L <= NX < L + 1073741824;
  sd_us : Forall (placed_ok L) us;
  sd_ws : Forall (placed_ok L) ws;
  sd_us_sorted : StronglySorted before us;
  sd_ws_sorted : StronglySorted before ws;
  sd_apart : forall x y, x ∈ us -> y ∈ ws -> apart x y;
  sd_queuelen : snd_queuelen p = sum_clen us + sum_clen ws;
  sd_queuelen_u16 : is_u16 (snd_queuelen p);
  sd_buf : snd_buf p + sum_len us + sum_len ws = TCP_SND_BUF;
  sd_buf_pos : 0 <= snd_buf p
}.

(** Only these fields count. *)
Lemma sending_ext L NX us ws p p' :
  sending L NX us ws p ->
  unacked p' = unacked p -> unsent p' = unsent p -> lastack p' = lastack p ->
  snd_nxt p' = snd_nxt p -> snd_queuelen p' = snd_queuelen p -> snd_buf p' = snd_buf p ->
  sending L NX us ws p'.
Proof. intros [] E1 E2 E3 E4 E5 E6. split; try done; congruence. Qed.

Lemma sending_update_snd_wnd L NX us ws p i :
  sending L NX us ws p -> sending L NX us ws (update_snd_wnd p i).
Proof.
  intros H. unfold update_snd_wnd. destruct (_ || _); [|done]. cbn [setter].
  destruct (_ <? _); by eapply sending_ext.
Qed.

Lemma sending_update_rtt L NX us ws p i :
  sending L NX us ws p -> sending L NX us ws (update_rtt p i).
Proof. intros H. unfold update_rtt. destruct (_ && _); [|done]. by eapply sending_ext. Qed.

(** Congestion control only writes [cwnd] and [bytes_acked]. *)
Lemma update_cwnd_frame acked p :
  exists c b, update_cwnd acked p = p <| bytes_acked := b |> <| cwnd := c |>.
Proof.
  unfold update_cwnd. destruct (_ <? _); [|destruct (_ <=? _)].
  - exists (TCP_WND_INC (cwnd p) (Z.min acked (u16 ((if tcp_is_flag_set TF_RTO p then 1 else 2) * mss p)))),
      (bytes_acked p). by destruct p.
  - by eexists _, _.
  - exists (cwnd p), (TCP_WND_INC (bytes_acked p) acked). by destruct p.
Qed.

Lemma sending_empty_ack L NX us ws p n :
  sending L NX us ws p -> sending L NX us ws (tcp_send_empty_ack p n).1.
Proof.
  intros H. unfold tcp_send_empty_ack. destruct (next_answer n) as [n' [err|]]; [|by eapply sending_ext].
  destruct (negb _); by eapply sending_ext.
Qed.

(** Retransmission moves the first unacknowledged segment to its place in the
    unsent queue. *)
Lemma sending_rexmit L NX us ws p :
  sending L NX us ws p ->
  exists us' ws', sending L NX us' ws' (tcp_rexmit p).1 /\ us' ++ ws' ≡ₚ us ++ ws.
Proof.
  intros H. pose proof H as [H1 H2 H3 H4 H5 H6 H7 H8 H9 H10 H11 H12 H13 H14]. unfold tcp_rexmit.
  rewrite H1. destruct us as [|x us]; cbn [fmap list_fmap]; [by exists [], ws|].
  destruct (tcp_output_segment_busy x.2); [by exists (x :: us), ws|].
  inversion H6 as [|? ? Hx H6']; subst. inversion H8 as [|? ? H8' Hbx]; subst.
  exists us, (placed_insert x ws). pose proof (placed_insert_perm x ws) as Hp. split.
  - set (p1 := p <| unacked := us.*2 |> <| unsent := unsent_insert x.2 (unsent p) |>).
    apply (sending_ext _ _ _ _ p1); [|destruct (forallb _ _); destruct (_ <? 255); done..].
    split; cbn [p1 unacked unsent lastack snd_nxt snd_queuelen snd_buf setter]; try done.
    + by rewrite H2, (unsent_insert_spec L).
    + rewrite Hp. by constructor.
    + apply (placed_insert_sorted L); try done. rewrite Forall_forall. intros y Hy. apply H10; [by left|done].
    + intros a b Ha Hb. rewrite Hp in Hb. apply elem_of_cons in Hb as [->|Hb].
      * right. rewrite Forall_forall in Hbx. by apply Hbx.
      * apply H10; [by right|done].
    + change (snd_queuelen p = sum_clen us + sum_clen (placed_insert x ws)).
      rewrite H11, (sum_clen_perm _ _ Hp). simpl. lia.
    + change (snd_buf p + sum_len us + sum_len (placed_insert x ws) = TCP_SND_BUF).
      rewrite <- H13, (sum_len_perm _ _ Hp). simpl. lia.
  - rewrite Hp. simpl. by rewrite Permutation_middle.
Qed.

Lemma sending_rexmit_fast L NX us ws p :
  sending L NX us ws p ->
  exists us' ws', sending L NX us' ws' (tcp_rexmit_fast p) /\ us' ++ ws' ≡ₚ us ++ ws.
Proof.
  intros H. unfold tcp_rexmit_fast. destruct (unacked p) eqn:E; [by exists us, ws|].
  destruct (tcp_is_flag_set TF_INFR p); [by exists us, ws|].
  destruct (sending_rexmit L NX us ws p H) as (us' & ws' & H' & Hp).
  destruct (tcp_rexmit p) as [p1 err]. simpl in H'.
  destruct (err =? ERR_OK); [|by exists us', ws'].
  exists us', ws'. split; [|done]. cbn [setter]. destruct (_ <? _); by eapply sending_ext.
Qed.

Lemma sending_dupack L NX us ws edge p i :
  sending L NX us ws p ->
  exists us' ws', sending L NX us' ws' (receive_dupack edge p i) /\ us' ++ ws' ≡ₚ us ++ ws.
Proof.
  intros H. unfold receive_dupack.
  destruct (is_dupack edge p i); [|exists us, ws; split; [by eapply sending_ext|done]].
  set (p1 := if dupacks p <? u8 (dupacks p + 1) then p <| dupacks := u8 (dupacks p + 1) |> else p).
  assert (H1 : sending L NX us ws p1) by (unfold p1; destruct (_ <? _); [by eapply sending_ext|done]).
  clearbody p1. set (p2 := if 3 <? dupacks p1 then p1 <| cwnd := TCP_WND_INC (cwnd p1) (mss p1) |> else p1).
  assert (H2 : sending L NX us ws p2) by (unfold p2; destruct (_ <? _); [by eapply sending_ext|done]).
  clearbody p2. cbn zeta. destruct (3 <=? dupacks p2); [by apply sending_rexmit_fast|by exists us, ws].
Qed.

Lemma placed_ok_advance L K l :
  L <= K -> Forall (placed_ok L) l -> Forall (placed_ok K) (unacknowledged K l).
Proof.
  intros HK Hl. rewrite Forall_forall in *. intros x [Hx1 Hx2]%list_elem_of_filter.
  specialize (Hl x Hx2). unfold placed_ok in *. lia.
Qed.


Lemma unacknowledged_Forall (P : placed -> Prop) K l : Forall P l -> Forall P (unacknowledged K l).
Proof.
  rewrite !Forall_forall. intros H x Hx. apply H. by apply list_elem_of_filter in Hx as [_ ?].
Qed.

Lemma sums_unacknowledged L K l :
  Forall (placed_ok L) l ->
  0 <= sum_len (unacknowledged K l) <= sum_len l /\ 0 <= sum_clen (unacknowledged K l) <= sum_clen l.
Proof.
  induction 1 as [|x l (? & ? & ? & ? & ?) _ IH]; [done|].
  unfold unacknowledged in *. rewrite filter_cons. case_decide; simpl; lia.
Qed.

(** An acknowledgement of new positions. *)
Lemma sending_new_ack L NX K us ws p i n :
  sending L NX us ws p -> L < K <= NX -> in_ackno i = u32 K -> in_recv_acked i = 0 ->
  exists p' i' n', receive_new_ack p i n = Some (p', i', n') /\
    sending K NX (unacknowledged K us) (unacknowledged K ws) p' /\
    in_recv_acked i' =
      sum_len us + sum_len ws - sum_len (unacknowledged K us) - sum_len (unacknowledged K ws).
Proof.
  intros H HK Hack Hra. pose proof H as [H1 H2 H3 H4 H5 H6 H7 H8 H9 H10 H11 H12 H13 H14].
  pose proof (sum_nonneg _ _ H6). pose proof (sum_nonneg _ _ H7).
  pose proof (sums_unacknowledged L K us H6). pose proof (sums_unacknowledged L K ws H7).
  unfold TCP_SND_BUF, TCP_WND in *. unfold receive_new_ack.
  set (p1 := if tcp_is_flag_set TF_INFR p then _ else p).
  assert (Hp1 : sending L NX us ws p1)
    by (unfold p1; destruct (tcp_is_flag_set TF_INFR p); [by eapply sending_ext|done]).
  clearbody p1. cbn zeta.
  match goal with |- context [if ?c then update_cwnd ?a ?x else ?x] =>
    set (p2 := if c then update_cwnd a x else x);
    assert (Hp2 : unacked p2 = us.*2 /\ unsent p2 = ws.*2 /\ snd_nxt p2 = u32 NX /\
      snd_queuelen p2 = sum_clen us + sum_clen ws /\ lastack p2 = u32 K /\ snd_buf p2 = snd_buf p)
  end.
  { unfold p2. destruct Hp1. rewrite <- Hack. destruct (_ <=? _).
    - match goal with |- context [update_cwnd ?a ?x] => destruct (update_cwnd_frame a x) as (c & b & ->) end.
      cbn. split_and!; try done. unfold TCP_SND_BUF, TCP_WND in *. lia.
    - cbn. split_and!; try done. unfold TCP_SND_BUF, TCP_WND in *. lia. }
  destruct Hp2 as (E1 & E2 & E3 & E4 & E5 & E6). clearbody p2.
  rewrite Hack, E1, E2, E4, Hra, (free_acked_spec L K); try done; try lia;
    [|unfold is_u16 in *; lia].
  cbn [mbind option_bind unsent unacked snd_queuelen setter].
  rewrite E2, (free_acked_spec L K); try done; try lia;
    [|by apply unacknowledged_Forall|unfold is_u16 in *; lia].
  cbn [mbind option_bind unsent unacked snd_queuelen setter].
  eexists _, _, _. split; [done|]. split; [|cbn; lia].
  set (i2 := i <| in_recv_acked := _ |>).
  assert (Ei : in_recv_acked i2 = sum_len us + sum_len ws - sum_len (unacknowledged K us)
                                  - sum_len (unacknowledged K ws)) by (cbn; lia).
  clearbody i2.
  match goal with |- sending _ _ _ _ (if ?c then tcp_clear_flags _ ?x else _) =>
    apply (sending_ext _ _ _ _ x); [|by destruct c..] end.
  match goal with |- sending _ _ _ _ (?x <| snd_buf := _ |>) => set (p3 := x) end.
  assert (Hp3 : unacked p3 = (unacknowledged K us).*2 /\ unsent p3 = (unacknowledged K ws).*2 /\
    lastack p3 = u32 K /\ snd_nxt p3 = u32 NX /\ snd_buf p3 = snd_buf p /\
    snd_queuelen p3 = sum_clen (unacknowledged K ws) + sum_clen (unacknowledged K us)).
  { unfold p3. destruct ((unacknowledged K ws).*2); by split_and!. }
  destruct Hp3 as (F1 & F2 & F3 & F4 & F5 & F6). clearbody p3.
  unfold is_u16, TCP_SND_BUF, TCP_WND in *.
  assert (Eb : u16 (snd_buf p3 + in_recv_acked i2) = snd_buf p3 + in_recv_acked i2)
    by (apply u16_id; unfold is_u16; lia).
  split; cbn [unacked unsent lastack snd_nxt snd_queuelen snd_buf setter];
    unfold is_u16, TCP_SND_BUF, TCP_WND; try done; try lia.
  - by apply (placed_ok_advance L); [lia|].
  - by apply (placed_ok_advance L); [lia|].
  - by apply unacknowledged_sorted.
  - by apply unacknowledged_sorted.
  - intros x y Hx Hy. unfold unacknowledged in *.
    apply list_elem_of_filter in Hx as [_ Hx]. apply list_elem_of_filter in Hy as [_ Hy]. by apply H10.
Qed.

Lemma unacknowledged_app K l k : unacknowledged K (l ++ k) = unacknowledged K l ++ unacknowledged K k.
Proof. apply filter_app. Qed.

Lemma unacknowledged_pending L NX us ws p :
  sending L NX us ws p -> unacknowledged L (us ++ ws) = us ++ ws.
Proof.
  intros []. apply unacknowledged_all. apply Forall_app. split.
  - eapply Forall_impl; [done|]. unfold placed_ok. intros x ?. lia.
  - eapply Forall_impl; [done|]. unfold placed_ok. intros x ?. lia.
Qed.

(** Whatever is acknowledged. *)
Lemma receive_ack_spec L NX K us ws p i n
  (Hs : sending L NX us ws p) (Hf : flagset (in_flags i) TCP_ACK = true)
  (HK : in_ackno i = u32 K) (HKr : L - 1073741824 < K < NX + 1073741824)
  (Hra : in_recv_acked i = 0) :
  exists p' i' n' us' ws',
    receive_ack p i n = Some (p', i', n') /\
    let L' := if (L <? K) && (K <=? NX) then K else L in
    sending L' NX us' ws' p' /\ us' ++ ws' ≡ₚ unacknowledged L' (us ++ ws) /\
    in_recv_acked i' = sum_len (us ++ ws) - sum_len (us' ++ ws').
Proof.
  unfold receive_ack. rewrite Hf.
  pose proof (sending_update_snd_wnd L NX us ws p i Hs) as H1.
  set (edge := u32 _). set (p1 := update_snd_wnd p i) in *. clearbody p1. clearbody edge.
  pose proof (unacknowledged_pending _ _ _ _ _ H1) as Hall.
  pose proof (sd_window _ _ _ _ _ H1).
  cbn zeta. rewrite (seq_leq_unwrap _ _ K L);
    [|rewrite HK; word_lia|rewrite (sd_lastack _ _ _ _ _ H1); word_lia|unfold near; lia].
  destruct (Z.leb_spec K L).
  { destruct (Z.ltb_spec L K); [lia|]. cbn [andb mbind option_bind].
    destruct (sending_dupack L NX us ws edge p1 i H1) as (us' & ws' & Hn & Hp).
    eexists _, _, _, us', ws'. split; [done|]. rewrite Hall, (sum_len_perm _ _ Hp), Hra.
    split_and!; [by apply sending_update_rtt|done|lia]. }
  rewrite (seq_between_unwrap _ _ _ K (L + 1) NX);
    [|rewrite HK; word_lia|rewrite (sd_lastack _ _ _ _ _ H1); word_lia
     |rewrite (sd_nxt _ _ _ _ _ H1); word_lia|unfold near; lia..].
  destruct (Z.ltb_spec L K); [|lia]. destruct (Z.leb_spec (L + 1) K); [|lia]. cbn [andb].
  destruct (Z.leb_spec K NX).
  - destruct (sending_new_ack L NX K us ws p1 i n) as (p' & i' & n' & -> & Hn & E); try done.
    cbn [mbind option_bind]. eexists _, _, _, _, _. split; [done|].
    split; [by apply sending_update_rtt|]. rewrite unacknowledged_app, !sum_len_app. split; [done|lia].
  - pose proof (sending_empty_ack L NX us ws p1 n H1) as Hn.
    destruct (tcp_send_empty_ack p1 n) as [p2 n2]. simpl in Hn. cbn [mbind option_bind].
    eexists _, _, _, us, ws. split; [done|]. rewrite Hall, Hra.
    split_and!; [by apply sending_update_rtt|done|lia].
Qed.

(** C4: an acknowledgement, whatever it acknowledges: the processing succeeds;
    if it acknowledges new positions that have been sent, exactly the segments
    that end at or before it leave the queues and their octets are reported to
    the application and given back to the send buffer; otherwise (old,
    duplicate, or of data never sent) nothing leaves the queues, even when it
    triggers a retransmission.  The queues stay in order and the counters
    exact. *)
Theorem receive_ack_conserves L NX K us ws p i n
  (Hs : sending L NX us ws p) (Hf : flagset (in_flags i) TCP_ACK = true)
  (HK : in_ackno i = u32 K) (HKr : L - 1073741824 < K < NX + 1073741824)
  (Hra : in_recv_acked i = 0) :
  exists p' i' n' us' ws',
    receive_ack p i n = Some (p', i', n') /\
    let L' := if (L <? K) && (K <=? NX) then K else L in
    sending L' NX us' ws' p' /\ us' ++ ws' ≡ₚ unacknowledged L' (us ++ ws) /\
    in_recv_acked i' = sum_len (us ++ ws) - sum_len (us' ++ ws').
Proof. by apply receive_ack_spec. Qed.

(** Two segments of 500 octets in flight, one waiting; the first is
    acknowledged. *)
Definition example_seg (A : Z) : tcp_seg := TcpSeg A 24 500 (Some (octets octet_stream A 500)) 1
  (SndSeg 1234 80 0 [Part 4096 500 false] 0 0 false).

Definition example_sender : tcp_pcb :=
  (example_pcb 1000 32768) <| unacked := [example_seg 5000; example_seg 5500] |>
    <| unsent := [example_seg 6000] |> <| snd_nxt := 6000 |> <| snd_queuelen := 3 |>
    <| snd_buf := 31268 |>.

Definition example_ack (K : Z) : input := (slice octet_stream 1000 0 false) <| in_ackno := K |>.

Lemma example_sending :
  sending 5000 6000 [(5000, example_seg 5000); (5500, example_seg 5500)] [(6000, example_seg 6000)]
    example_sender.
Proof.
  split; try done.
  - repeat (apply List.Forall_cons; [by vm_compute|]). done.
  - repeat (apply List.Forall_cons; [by vm_compute|]). done.
  - repeat (constructor || apply List.Forall_cons || by vm_compute).
  - repeat (constructor || apply List.Forall_cons || by vm_compute).
  - intros x y Hx Hy. apply list_elem_of_singleton in Hy as ->.
    apply elem_of_cons in Hx as [->|Hx]; [left; by vm_compute|].
    apply list_elem_of_singleton in Hx as ->. left. by vm_compute.
Qed.

Lemma receive_ack_conserves_witness :
  exists p' i' n' us' ws',
    receive_ack example_sender (example_ack 5500) no_memory_trouble = Some (p', i', n') /\
    sending 5500 6000 us' ws' p' /\
    us' ++ ws' ≡ₚ unacknowledged 5500 ([(5000, example_seg 5000); (5500, example_seg 5500)] ++
                                      [(6000, example_seg 6000)]) /\
    in_recv_acked i' = 1500 - sum_len (us' ++ ws').
Proof.
  apply (receive_ack_conserves 5000 6000 5500 [(5000, example_seg 5000); (5500, example_seg 5500)]
           [(6000, example_seg 6000)]); [apply example_sending|done..].
Defined.

(** ** Congestion control *)

Lemma TCP_WND_INC_sat wnd inc :
  is_u16 wnd -> 0 <= inc <= 65535 -> TCP_WND_INC wnd inc = Z.min 65535 (wnd + inc).
Proof.
  intros Hw Hi. unfold TCP_WND_INC, is_u16 in *. destruct (Z.leb_spec wnd (u16 (wnd + inc))); word_lia.
Qed.

(** the congestion window: below [ssthresh] it grows by the octets
    acknowledged, but at most two segments (one while retransmitted data is
    outstanding); from [ssthresh] on by one segment for each [cwnd]
    octets acknowledged; it never shrinks and never leaves its 16 bits. *)
Theorem update_cwnd_growth acked p
  (Hc : is_u16 (cwnd p)) (Hb : is_u16 (bytes_acked p)) (Ha : is_u16 acked)
  (Hm : 0 <= mss p <= TCP_MSS) :
  let p' := update_cwnd acked p in
  cwnd p <= cwnd p' <= 65535 /\ is_u16 (bytes_acked p') /\
  (cwnd p < ssthresh p ->
     cwnd p' = Z.min 65535 (cwnd p + Z.min acked ((if tcp_is_flag_set TF_RTO p then 1 else 2) * mss p)) /\
     bytes_acked p' = bytes_acked p) /\
  (ssthresh p <= cwnd p ->
     let b := Z.min 65535 (bytes_acked p + acked) in
     if cwnd p <=? b
     then cwnd p' = Z.min 65535 (cwnd p + mss p) /\ bytes_acked p' = b - cwnd p
     else cwnd p' = cwnd p /\ bytes_acked p' = b).
Proof.
  unfold TCP_MSS, is_u16 in *. cbn zeta. unfold update_cwnd.
  set (k := if tcp_is_flag_set TF_RTO p then 1 else 2).
  assert (Hk : 1 <= k <= 2) by (unfold k; destruct (tcp_is_flag_set _ _); lia). clearbody k.
  rewrite (u16_id (k * mss p)) by (unfold is_u16; nia).
  rewrite !TCP_WND_INC_sat by (unfold is_u16; lia || nia).
  destruct (Z.ltb_spec (cwnd p) (ssthresh p)).
  - cbn [cwnd bytes_acked setter]. split_and!; try done; try lia; nia.
  - cbn [cwnd bytes_acked setter]. destruct (Z.leb_spec (cwnd p) (Z.min 65535 (bytes_acked p + acked))).
    + cbn [cwnd bytes_acked setter mss]. rewrite TCP_WND_INC_sat by (unfold is_u16; cbn; lia).
      rewrite u16_id by (unfold is_u16; lia). split_and!; try done; try lia.
      all: cbn; lia.
    + cbn [cwnd bytes_acked setter]. split_and!; try done; lia.
Qed.

Lemma update_cwnd_growth_witness :
  let p := (example_pcb 1000 32768) <| cwnd := 4380 |> in
  let p' := update_cwnd 1000 p in
  cwnd p <= cwnd p' <= 65535 /\ is_u16 (bytes_acked p') /\
  (cwnd p < ssthresh p ->
     cwnd p' = Z.min 65535 (cwnd p + Z.min 1000 ((if tcp_is_flag_set TF_RTO p then 1 else 2) * mss p)) /\
     bytes_acked p' = bytes_acked p) /\
  (ssthresh p <= cwnd p ->
     let b := Z.min 65535 (bytes_acked p + 1000) in
     if cwnd p <=? b
     then cwnd p' = Z.min 65535 (cwnd p + mss p) /\ bytes_acked p' = b - cwnd p
     else cwnd p' = cwnd p /\ bytes_acked p' = b).
Proof. intros p p'. apply (update_cwnd_growth 1000 p); by vm_compute. Defined.

(** duplicate acknowledgements: the first two are only counted; the third
    starts fast recovery: the first unacknowledged segment goes back to the
    unsent queue, [ssthresh] becomes half of the flight but at least two
    segments, [cwnd] that plus three; each further one inflates [cwnd] by a
    segment.  The count holds at 255. *)
Theorem receive_dupack_recovery edge p i
  (Hd : is_dupack edge p i = true) (Hn : is_u8 (dupacks p))
  (Hc : is_u16 (cwnd p)) (Hw : is_u16 (snd_wnd p)) (Hm : 0 < mss p <= TCP_MSS) :
  let p' := receive_dupack edge p i in
  dupacks p' = Z.min 255 (dupacks p + 1) /\
  (dupacks p < 2 -> p' = p <| dupacks := dupacks p + 1 |>) /\
  (dupacks p = 2 -> forall s rest, unacked p = s :: rest -> seg_ref s = 1 ->
     tcp_is_flag_set TF_INFR p = false ->
     unacked p' = rest /\ unsent p' = unsent_insert s (unsent p) /\
     ssthresh p' = Z.max (Z.min (cwnd p) (snd_wnd p) / 2) (2 * mss p) /\
     cwnd p' = u16 (ssthresh p' + 3 * mss p) /\ tcp_is_flag_set TF_INFR p' = true /\ rtime p' = 0) /\
  (2 < dupacks p -> tcp_is_flag_set TF_INFR p = true ->
     p' = p <| dupacks := Z.min 255 (dupacks p + 1) |> <| cwnd := Z.min 65535 (cwnd p + mss p) |>).
Proof.
  unfold TCP_MSS, is_u8 in *. cbn zeta. unfold receive_dupack. rewrite Hd.
  set (d := Z.min 255 (dupacks p + 1)).
  assert (E1 : (if dupacks p <? u8 (dupacks p + 1) then p <| dupacks := u8 (dupacks p + 1) |> else p) =
               p <| dupacks := d |>).
  { destruct (Z.ltb_spec (dupacks p) (u8 (dupacks p + 1))).
    - f_equal. unfold d. word_lia.
    - assert (dupacks p = d) as <- by (unfold d; word_lia). by destruct p. }
  rewrite E1. cbn zeta. cbn [dupacks setter cwnd mss].
  assert (Hmono : forall q : tcp_pcb, dupacks (tcp_rexmit_fast q) = dupacks q).
  { intros q. unfold tcp_rexmit_fast, tcp_rexmit. destruct (unacked q); [done|].
    destruct (tcp_is_flag_set TF_INFR q); [done|]. destruct (tcp_output_segment_busy t); [done|].
    cbn zeta. by repeat match goal with |- context [if ?c then _ else _] => destruct c end. }
  split_and!.
  - destruct (Z.ltb_spec 3 d); cbn [dupacks setter]; destruct (Z.leb_spec 3 d); try lia; by rewrite ?Hmono.
  - intros. assert (Ed : d = dupacks p + 1) by lia. rewrite Ed.
    destruct (Z.ltb_spec 3 (dupacks p + 1)); [lia|]. cbn [dupacks setter].
    destruct (Z.leb_spec 3 (dupacks p + 1)); [lia|done].
  - intros Hd2 s rest Hu Hr Hf. assert (Ed : d = 3) by lia. rewrite Ed.
    change (3 <? 3) with false. change (3 <=? 3) with true. cbn iota. cbn [dupacks setter].
    set (p1 := p <| dupacks := 3 |>).
    assert (Hp1 : unacked p1 = unacked p /\ flags p1 = flags p /\ cwnd p1 = cwnd p /\
      snd_wnd p1 = snd_wnd p /\ mss p1 = mss p /\ unsent p1 = unsent p) by done.
    destruct Hp1 as (F1 & F2 & F3 & F4 & F5 & F6). clearbody p1.
    unfold tcp_rexmit_fast, tcp_rexmit, tcp_output_segment_busy. rewrite F1, Hu.
    unfold tcp_is_flag_set in *. rewrite F2, Hf, Hr. cbn [negb Z.eqb Pos.eqb].
    cbn zeta. change (ERR_OK =? ERR_OK) with true. cbn iota.
    set (p2 := (if nrtx _ <? 255 then _ else _) <| rttest := 0 |>).
    assert (Hp2 : unacked p2 = rest /\ unsent p2 = unsent_insert s (unsent p) /\ cwnd p2 = cwnd p /\
      snd_wnd p2 = snd_wnd p /\ mss p2 = mss p).
    { unfold p2. destruct (_ <? 255), (forallb _ _); cbn; rewrite ?F6; split_and!; congruence. }
    destruct Hp2 as (G1 & G2 & G3 & G4 & G5). clearbody p2. cbn [ssthresh mss setter].
    rewrite G3, G4, G5. unfold is_u16 in *.
    assert (Hhalf : 0 <= Z.min (cwnd p) (snd_wnd p) / 2 < 65536) by (Z.div_mod_to_equations; lia).
    rewrite (u16_id (2 * mss p)) by (unfold is_u16; lia).
    assert (Hflag : forall z, flagset (Z.lor z TF_INFR) TF_INFR = true).
    { intros z. unfold flagset, TF_INFR. rewrite Z.land_lor_distr_l. change (Z.land 4 4) with 4.
      destruct (Z.eqb_spec (Z.lor (Z.land z 4) 4) 0) as [E|]; [|done].
      apply Z.lor_eq_0_iff in E as [_ ?]. lia. }
    destruct (Z.ltb_spec (Z.min (cwnd p) (snd_wnd p) / 2) (2 * mss p));
      cbn -[Z.lor Z.land flagset Z.div]; rewrite ?G1, ?G2, ?G5; split_and!; try done; lia.
  - intros Hd3 Hf. assert (Hd' : 3 < d) by lia.
    destruct (Z.ltb_spec 3 d); [|lia]. cbn iota. cbn [dupacks setter].
    destruct (Z.leb_spec 3 d); [|lia]. rewrite TCP_WND_INC_sat by (unfold is_u16 in *; lia).
    unfold tcp_rexmit_fast. destruct (unacked _); [done|].
    unfold tcp_is_flag_set in *. cbn [flags setter]. by rewrite Hf.
Qed.

Lemma receive_dupack_recovery_witness :
  let p := example_sender <| dupacks := 2 |> <| rtime := 0 |> <| cwnd := 8760 |> in
  let p' := receive_dupack 6000 p (example_ack 5000) in
  dupacks p' = Z.min 255 (dupacks p + 1) /\
  (dupacks p < 2 -> p' = p <| dupacks := dupacks p + 1 |>) /\
  (dupacks p = 2 -> forall s rest, unacked p = s :: rest -> seg_ref s = 1 ->
     tcp_is_flag_set TF_INFR p = false ->
     unacked p' = rest /\ unsent p' = unsent_insert s (unsent p) /\
     ssthresh p' = Z.max (Z.min (cwnd p) (snd_wnd p) / 2) (2 * mss p) /\
     cwnd p' = u16 (ssthresh p' + 3 * mss p) /\ tcp_is_flag_set TF_INFR p' = true /\ rtime p' = 0) /\
  (2 < dupacks p -> tcp_is_flag_set TF_INFR p = true ->
     p' = p <| dupacks := Z.min 255 (dupacks p + 1) |> <| cwnd := Z.min 65535 (cwnd p + mss p) |>).
Proof. intros p p'. apply (receive_dupack_recovery 6000 p (example_ack 5000)); by vm_compute. Defined.

(** ** Round-trip estimation *)

(** while every measured round trip takes at most [B] ticks, the smoothed
    estimate and its deviation stay within [B], no 16-bit operation overflows,
    and the retransmission timeout is Jacobson's [srtt + 4 * rttvar], between 0
    and [5 * B]. *)
Theorem update_rtt_bounded B p i
  (HB : 0 <= B <= 4095) (Hsa : 0 <= sa p <= 8 * B) (Hsv : 0 <= sv p <= 4 * B)
  (Ht : 0 <= tcp_ticks i - rttest p <= B) :
  let p' := update_rtt p i in
  0 <= sa p' <= 8 * B /\ 0 <= sv p' <= 4 * B /\
  (rttest p <> 0 -> TCP_SEQ_LT (rtseq p) (in_ackno i) = true ->
     let err := tcp_ticks i - rttest p - sa p / 8 in
     sa p' = sa p + err /\ sv p' = sv p + (Z.abs err - sv p / 4) /\
     rto p' = sa p' / 8 + sv p' /\ 0 <= rto p' <= 5 * B /\ rttest p' = 0).
Proof.
  cbn zeta. unfold update_rtt.
  destruct (Z.eqb_spec (rttest p) 0); cbn [negb andb]; [split_and!; lia || done|].
  destruct (TCP_SEQ_LT (rtseq p) (in_ackno i)); [|split_and!; lia || done]. cbn zeta.
  rewrite !Z.shiftr_div_pow2 by lia. change (2 ^ 3) with 8. change (2 ^ 2) with 4.
  cbn [sa sv setter].
  assert (Hs16 : forall z, -32768 <= z < 32768 -> s16 z = z) by (intros; word_lia).
  set (q8 := sa p / 8). assert (H8 : 8 * q8 <= sa p < 8 * q8 + 8) by (unfold q8; Z.div_mod_to_equations; lia).
  set (q4 := sv p / 4). assert (H4 : 4 * q4 <= sv p < 4 * q4 + 4) by (unfold q4; Z.div_mod_to_equations; lia).
  rewrite (Hs16 (tcp_ticks i - rttest p)) by lia. rewrite (Hs16 (tcp_ticks i - rttest p - q8)) by lia.
  set (err := tcp_ticks i - rttest p - q8). assert (He : - q8 <= err <= B - q8) by (unfold err; lia).
  assert (Ha : (if err <? 0 then s16 (- err) else err) = Z.abs err)
    by (destruct (Z.ltb_spec err 0); [rewrite Hs16 by lia|]; lia).
  rewrite Ha. clearbody err q8 q4.
  rewrite (Hs16 (sa p + err)) by lia. rewrite (Hs16 (Z.abs err - q4)) by lia.
  rewrite (Hs16 (sv p + _)) by lia.
  assert (H8' : 0 <= (sa p + err) / 8 <= B)
    by (split; [apply Z.div_pos|apply Z.div_le_upper_bound]; lia).
  rewrite Hs16 by lia. cbn [sa sv rto rttest setter]. split_and!; done || lia.
Qed.

Lemma update_rtt_bounded_witness :
  let p := example_sender <| rttest := 7 |> <| rtseq := 5000 |> <| sa := 16 |> in
  let i := (example_ack 5500) <| tcp_ticks := 12 |> in
  let p' := update_rtt p i in
  0 <= sa p' <= 8 * 100 /\ 0 <= sv p' <= 4 * 100 /\
  (rttest p <> 0 -> TCP_SEQ_LT (rtseq p) (in_ackno i) = true ->
     let err := tcp_ticks i - rttest p - sa p / 8 in
     sa p' = sa p + err /\ sv p' = sv p + (Z.abs err - sv p / 4) /\
     rto p' = sa p' / 8 + sv p' /\ 0 <= rto p' <= 5 * 100 /\ rttest p' = 0).
Proof. intros p i p'. apply (update_rtt_bounded 100 p i); by vm_compute. Defined.

(** ** The announced window *)

(** the right edge of the window announced to the peer never moves to the
    left and never passes what there is room for; it moves only by at least
    a segment or half of the window (silly window avoidance), and the result
    tells by how much. *)
Theorem announced_edge_never_retreats N R RE p
  (HN : rcv_nxt p = u32 N) (HR : rcv_wnd p = R - N) (HW : 0 <= R - N <= 65535)
  (HE : rcv_ann_right_edge p = u32 RE) (HRE : R - 1073741824 <= RE <= R)
  (Hm : 0 < mss p <= TCP_MSS) :
  exists p' inc, tcp_update_rcv_ann_wnd p = Some (p', inc) /\
    p' = p <| rcv_ann_wnd := rcv_ann_wnd p' |> /\
    let edge := N + rcv_ann_wnd p' in
    RE <= edge <= R /\ 0 <= rcv_ann_wnd p' <= 65535 /\
    (if R <? RE + mss p then edge = Z.max N RE /\ inc = 0 else edge = R /\ inc = R - RE).
Proof.
  unfold tcp_update_rcv_ann_wnd, TCP_WND, TCP_MSS in *. change (32768 / 2) with 16384.
  rewrite Z.min_r by lia.
  rewrite (seq_geq_unwrap _ _ R (RE + mss p));
    [|rewrite HN, HR; word_lia|rewrite HE; word_lia|unfold near; lia].
  destruct (Z.leb_spec (RE + mss p) R), (Z.ltb_spec R (RE + mss p)); try lia.
  - eexists _, _. split; [done|]. split; [done|]. cbn. split_and!; try lia.
    rewrite HN, HR, HE. word_lia.
  - rewrite (seq_gt_unwrap _ _ N RE); [|rewrite HN; word_lia|rewrite HE; word_lia|unfold near; lia].
    destruct (Z.ltb_spec RE N).
    + eexists _, _. split; [done|]. split; [done|]. cbn. lia.
    + assert (u32 (rcv_ann_right_edge p - rcv_nxt p) = RE - N) as -> by (rewrite HE, HN; word_lia).
      destruct (Z.leb_spec (RE - N) 65535); [|lia].
      eexists _, _. split; [done|]. split; [done|]. cbn. lia.
Qed.

Lemma announced_edge_never_retreats_witness :
  let p := (example_pcb 1000 32768) <| rcv_ann_right_edge := 33000 |> in
  exists p' inc, tcp_update_rcv_ann_wnd p = Some (p', inc) /\
    p' = p <| rcv_ann_wnd := rcv_ann_wnd p' |> /\
    let edge := 1000 + rcv_ann_wnd p' in
    33000 <= edge <= 33768 /\ 0 <= rcv_ann_wnd p' <= 65535 /\
    (if 33768 <? 33000 + mss p then edge = Z.max 1000 33000 /\ inc = 0
     else edge = 33768 /\ inc = 33768 - 33000).
Proof. intros p. apply (announced_edge_never_retreats 1000 33768 33000 p); by vm_compute. Defined.
