(* ===== verification/TcpOptions.v ===== *)
(** * TCP options and the TCP header

    [tcp_parseopt] against the option format of RFC 793, and the reading of the
    header in [tcp_input] against the wire format. *)

From S2P Require Import Prelude IpAddr TcpDefs TcpIn TcpProcess TcpExamples.

(** ** Options on the wire *)

Inductive tcp_opt := OptNop | OptMss (m : Z) | OptOther (kind : Z) (data : list Z).

Definition opt_ok (o : tcp_opt) : Prop :=
  match o with
  | OptNop => True
  | OptMss m => is_u16 m
  | OptOther k d => 3 <= k <= 255 /\ (length d <= 253)%nat
  end.

Definition encode_opt (o : tcp_opt) : list Z :=
  match o with
  | OptNop => [1]
  | OptMss m => [2; 4; m / 256; m mod 256]
  | OptOther k d => k :: Z.of_nat (length d) + 2 :: d
  end.

Definition encode_opts (l : list tcp_opt) : list Z := concat (map encode_opt l).

(** The segment size a list of options asks for: the last one counts, limited
    to the size configured; 0 stands for that size. *)
Definition mss_of (l : list tcp_opt) (mss : Z) : Z :=
  fold_left (fun m o => match o with
                        | OptMss v => if (TCP_MSS <? v) || (v =? 0) then TCP_MSS else v
                        | _ => m
                        end) l mss.

Lemma be_octets m : is_u16 m -> Z.lor (u16 (m / 256 * 256)) (m mod 256) = m.
Proof.
  intros Hm. unfold is_u16 in Hm.
  rewrite u16_id by (unfold is_u16; Z.div_mod_to_equations; lia).
  change 256 with (2 ^ 8) at 2. rewrite lor_shift_add; [|lia|change (2 ^ 8) with 256; Z.div_mod_to_equations; lia].
  change (2 ^ 8) with 256. Z.div_mod_to_equations; lia.
Qed.

(** What follows the options that were written: nothing, or the end of the list. *)
Definition pad_ok (pad : list Z) : Prop := match pad with [] => True | b :: _ => b = 0 end.

Lemma parse_end fuel optlen opt idx mss pad :
  pad_ok pad -> idx + Z.of_nat (length pad) = optlen -> 
  (forall k x, pad !! k = Some x -> opt (idx + Z.of_nat k) = x) ->
  tcp_parseopt_loop (S fuel) optlen opt idx mss = mss.
Proof.
  intros Hp Hl Ho. cbn [tcp_parseopt_loop]. destruct (Z.ltb_spec idx optlen); [|done].
  destruct pad as [|b pad]; simpl in Hl; [lia|]. simpl in Hp. subst b.
  specialize (Ho 0%nat 0 eq_refl). rewrite Z.add_0_r in Ho. by rewrite Ho.
Qed.

Lemma parse_opts l : forall fuel optlen opt idx mss pad,
  Forall opt_ok l -> pad_ok pad -> 0 <= idx ->
  idx + Z.of_nat (length (encode_opts l ++ pad)) = optlen ->
  (forall k x, (encode_opts l ++ pad) !! k = Some x -> opt (idx + Z.of_nat k) = x) ->
  (length (encode_opts l ++ pad) < fuel)%nat ->
  tcp_parseopt_loop fuel optlen opt idx mss = mss_of l mss.
Proof.
  induction l as [|o l IH]; intros fuel optlen opt idx mss pad Hok Hp Hidx Hl Ho Hf.
  - destruct fuel; [simpl in Hf; lia|]. by apply (parse_end _ _ _ _ _ pad).
  - inversion Hok as [|? ? Ho1 Hok']; subst. destruct fuel as [|fuel]; [simpl in Hf; lia|].
    change (encode_opts (o :: l)) with (encode_opt o ++ encode_opts l) in *.
    rewrite <- app_assoc in *. rewrite !length_app in *.
    assert (Htail : forall k x, (encode_opts l ++ pad) !! k = Some x ->
      opt (idx + Z.of_nat (length (encode_opt o)) + Z.of_nat k) = x).
    { intros k x Hk. rewrite <- (Ho (length (encode_opt o) + k)%nat x); [f_equal; lia|].
      rewrite lookup_app_r by lia. by replace (_ + k - _)%nat with k by lia. }
    assert (Hhead : forall k x, encode_opt o !! k = Some x -> opt (idx + Z.of_nat k) = x).
    { intros k x Hk. apply Ho. apply lookup_app_l_Some. done. }
    assert (Hrec : forall m f, (length (encode_opts l ++ pad) < f)%nat ->
      tcp_parseopt_loop f (idx + Z.of_nat (length (encode_opt o) + (length (encode_opts l) + length pad)))
        opt (idx + Z.of_nat (length (encode_opt o))) m = mss_of l m).
    { intros m f Hf'. apply (IH f _ _ _ _ pad); try done; [lia|]. rewrite length_app. lia. }
    rewrite length_app in Hrec.
    cbn [tcp_parseopt_loop].
    rewrite (proj2 (Z.ltb_lt _ _)) by (destruct o; simpl; lia).
    pose proof (Hhead 0%nat) as Hb0. pose proof (Hhead 1%nat) as Hb1.
    rewrite Z.add_0_r in Hb0. change (Z.of_nat 1) with 1 in Hb1.
    destruct o as [|m|k d]; cbn [encode_opt length] in *.
    + rewrite (Hb0 1 eq_refl). cbn -[tcp_parseopt_loop]. apply Hrec. lia.
    + rewrite (Hb0 2 eq_refl). cbn -[tcp_parseopt_loop Z.add].
      rewrite (Hb1 4 eq_refl).
      rewrite (proj2 (Z.ltb_ge _ _)) by lia. cbn -[tcp_parseopt_loop Z.add Z.mul TCP_MSS Z.lor u16].
      replace (idx + 1 + 1) with (idx + Z.of_nat 2) by lia.
      rewrite (Hhead 2%nat _ eq_refl).
      replace (idx + Z.of_nat 2 + 1) with (idx + Z.of_nat 3) by lia.
      rewrite (Hhead 3%nat _ eq_refl).
      replace (idx + Z.of_nat 2 + 2) with (idx + Z.of_nat 4) by lia.
      rewrite be_octets by done. apply Hrec. lia.
    + destruct Ho1 as [Hk Hd]. rewrite (Hb0 k eq_refl), (Hb1 _ eq_refl).
      destruct (Z.eqb_spec k 0), (Z.eqb_spec k 1), (Z.eqb_spec k 2); try lia.
      rewrite (proj2 (Z.ltb_ge _ _)) by lia.
      replace (idx + 1 + 1 + (Z.of_nat (length d) + 2 - 2)) with
        (idx + Z.of_nat (S (S (length d)))) by lia.
      apply Hrec. lia.
Qed.

(** Any octets at all: the size stays in range. *)
Lemma parse_range fuel : forall optlen opt idx mss,
  (forall k, is_u8 (opt k)) ->
  let m := tcp_parseopt_loop fuel optlen opt idx mss in m = mss \/ 1 <= m <= TCP_MSS.
Proof.
  unfold TCP_MSS. induction fuel as [|f IH]; intros optlen opt idx mss Ho; cbn [tcp_parseopt_loop]; [by left|].
  destruct (idx <? optlen); [|by left]. cbn zeta.
  destruct (opt idx =? 0); [by left|]. destruct (opt idx =? 1); [by apply IH|].
  destruct (opt idx =? 2).
  - destruct (_ || _); [by left|].
    set (v := Z.lor _ _).
    assert (Hv : 0 <= v).
    { unfold v. apply Z.lor_nonneg. split; [apply u16_bound|apply Ho]. }
    destruct (IH optlen opt (idx + 1 + 1 + 2) (if (TCP_MSS <? v) || (v =? 0) then TCP_MSS else v) Ho)
      as [->|?]; [|by right].
    right. unfold TCP_MSS. destruct (Z.ltb_spec 1460 v), (Z.eqb_spec v 0); cbn [orb]; lia.
  - destruct (_ <? 2); [by left|]. by apply IH.
Qed.

(** Only the octets below [optlen] count, and the fuel is enough. *)
Lemma parse_reads f1 : forall f2 optlen o1 o2 idx mss,
  (forall k, 0 <= k < optlen -> o1 k = o2 k) -> (forall k, is_u8 (o1 k)) -> (forall k, is_u8 (o2 k)) ->
  0 <= idx -> optlen - idx < Z.of_nat f1 -> optlen - idx < Z.of_nat f2 ->
  tcp_parseopt_loop f1 optlen o1 idx mss = tcp_parseopt_loop f2 optlen o2 idx mss.
Proof.
  induction f1 as [|f1 IH]; intros f2 optlen o1 o2 idx mss Ho H1 H2 Hi Hf1 Hf2.
  - destruct f2; cbn [tcp_parseopt_loop]; [done|]. destruct (Z.ltb_spec idx optlen); [lia|done].
  - destruct f2 as [|f2]; cbn [tcp_parseopt_loop]; (destruct (Z.ltb_spec idx optlen); [|done]); [lia|].
    cbn zeta. rewrite (Ho idx) by lia.
    destruct (o2 idx =? 0); [done|]. destruct (o2 idx =? 1); [apply IH; try done; lia|].
    pose proof (H1 (idx + 1)) as Hu1. pose proof (H2 (idx + 1)) as Hu2. unfold is_u8 in Hu1, Hu2.
    destruct (o2 idx =? 2).
    + destruct (Z.leb_spec (idx + 4) optlen).
      * rewrite (Ho (idx + 1)), (Ho (idx + 1 + 1)), (Ho (idx + 1 + 1 + 1)) by lia.
        destruct (_ || _); [done|]. apply IH; try done; lia.
      * rewrite (proj2 (Z.ltb_lt optlen (idx + 1 + 1 - 2 + 4))) by lia. by rewrite !orb_true_r.
    + destruct (Z.ltb_spec (idx + 1) optlen).
      * rewrite (Ho (idx + 1)) by lia. destruct (Z.ltb_spec (o2 (idx + 1)) 2); [done|].
        apply IH; try done; lia.
      * destruct f1, f2; try lia; destruct (Z.ltb_spec (o1 (idx + 1)) 2), (Z.ltb_spec (o2 (idx + 1)) 2);
          try done; cbn [tcp_parseopt_loop]; rewrite ?(proj2 (Z.ltb_ge _ _)) by lia; done.
Qed.

(** the options of a segment, written as RFC 793 writes them and followed
    by nothing or by the end-of-list octet and anything, are read back: the
    segment size is the one the last size option asks for, at most the
    configured one, and every other option is skipped by its length. *)
Theorem tcp_parseopt_decodes l pad i p
  (Hl : Forall opt_ok l) (Hp : pad_ok pad)
  (Hlen : in_optlen i = Z.of_nat (length (encode_opts l ++ pad)))
  (Ho : forall k x, (encode_opts l ++ pad) !! k = Some x -> in_opt i (Z.of_nat k) = x) :
  tcp_parseopt i p = p <| mss := mss_of l (mss p) |>.
Proof.
  unfold tcp_parseopt. f_equal. apply (parse_opts l _ _ _ _ _ pad); try done; lia.
Qed.

Definition example_options (l : list Z) : input :=
  (slice octet_stream 1000 0 false) <| in_optlen := Z.of_nat (length l) |>
    <| in_opt := fun k => nth (Z.to_nat k) l 0 |>.

Lemma tcp_parseopt_decodes_witness :
  let l := [OptNop; OptOther 8 [1; 2; 3; 4; 5; 6; 7; 8]; OptMss 536] in
  tcp_parseopt (example_options (encode_opts l ++ [0; 77])) (example_pcb 1000 32768) =
  (example_pcb 1000 32768) <| mss := 536 |>.
Proof.
  intros l. apply (tcp_parseopt_decodes l [0; 77] (example_options (encode_opts l ++ [0; 77])));
    [repeat apply List.Forall_cons; [done|cbn; lia|done|done]|done|done|].
  intros k x Hk. unfold example_options. cbn [in_opt setter]. rewrite Nat2Z.id.
  by apply nth_lookup_Some.
Defined.

(** whatever the option octets are: parsing ends after at most one round
    for each octet, depends on no octet behind the options, changes nothing but
    the segment size, and leaves that unchanged or between 1 and the configured
    size. *)
Theorem tcp_parseopt_robust i p opt' (fuel : nat)
  (H8 : forall k, is_u8 (in_opt i k)) (H8' : forall k, is_u8 (opt' k))
  (Hagree : forall k, 0 <= k < in_optlen i -> opt' k = in_opt i k)
  (Hfuel : in_optlen i < Z.of_nat fuel) :
  exists m, tcp_parseopt i p = p <| mss := m |> /\ (m = mss p \/ 1 <= m <= TCP_MSS) /\
    tcp_parseopt_loop fuel (in_optlen i) opt' 0 (mss p) = m.
Proof.
  eexists. split; [done|]. split; [by apply parse_range|].
  apply parse_reads; try done; lia.
Qed.

Lemma tcp_parseopt_robust_witness :
  exists m, tcp_parseopt (example_options [2; 3; 0; 0]) (example_pcb 1000 32768) =
      (example_pcb 1000 32768) <| mss := m |> /\ (m = 1460 \/ 1 <= m <= TCP_MSS) /\
    tcp_parseopt_loop 5 4 (fun k => nth (Z.to_nat k) [2; 3; 0; 0; 9; 9] 0) 0 1460 = m.
Proof.
  assert (H : forall l k, Forall is_u8 l -> is_u8 (nth (Z.to_nat k) l 0)).
  { intros l k Hl. destruct (nth_in_or_default (Z.to_nat k) l 0) as [Hin| ->]; [|done].
    rewrite Forall_forall in Hl. apply Hl. by apply list_elem_of_In. }
  apply (tcp_parseopt_robust (example_options [2; 3; 0; 0]) (example_pcb 1000 32768)).
  - intros k. apply H. repeat apply List.Forall_cons; done.
  - intros k. apply H. repeat apply List.Forall_cons; done.
  - intros k Hk. cbn in Hk. assert (k = 0 \/ k = 1 \/ k = 2 \/ k = 3) as Hc by lia.
    by destruct Hc as [-> |[-> |[-> | ->]]].
  - done.
Defined.

(** ** The header on the wire *)

(** The packet [wire] in pbufs: the fixed header in the first, the options in
    the first two. *)
Definition split_ok (hlen : Z) (pkt : list (list Z)) : Prop :=
  match pkt with
  | [] => False
  | d1 :: ds => TCP_HLEN <= p_tot_len d1 /\
      (hlen <= p_tot_len d1 \/ exists d2 ds', ds = d2 :: ds' /\ hlen <= p_tot_len d1 + p_tot_len d2)
  end.

Lemma nth_first d1 ds wire k :
  d1 ++ ds = wire -> (k < length d1)%nat -> nth k d1 0 = nth k wire 0.
Proof. intros <- Hk. by rewrite app_nth1. Qed.

Lemma u8_header_len h : hdr_ok h -> u8 (h_len h / 4 * 16 / 16 * 4) = h_len h.
Proof.
  intros Hh. destruct (hk_opts _ Hh). unfold h_len in *. rewrite Z.div_mul by lia.
  rewrite u8_id; [|unfold is_u8]; Z.div_mod_to_equations; lia.
Qed.

Lemma drop_concat_cons n (d2 : list Z) ds :
  (n <= length d2)%nat -> concat (drop n d2 :: ds) = drop n (d2 ++ concat ds).
Proof. intros Hn. simpl. by rewrite drop_app_le. Qed.

(** The data and the place of the options. *)
Lemma split_header_spec h d1 ds data :
  hdr_ok h -> d1 ++ concat ds = encode_header h ++ data -> split_ok (h_len h) (d1 :: ds) ->
  exists opt1len opt2 rest, split_header (h_len h) d1 ds = Some (Some (opt1len, opt2, rest)) /\
    concat rest = data /\
    forall mem k x, h_opts h !! k = Some x -> opt_byte mem d1 opt1len opt2 (Z.of_nat k) = x.
Proof.
  intros Hh Hw (Hd1 & Hsp). unfold split_header, p_tot_len, TCP_HLEN in *.
  pose proof (length_encode_header h) as Hlen. destruct (hk_opts _ Hh) as [_ H40].
  assert (Hopt : forall k x, h_opts h !! k = Some x -> (encode_header h ++ data) !! (20 + k)%nat = Some x).
  { intros k x Hk. rewrite lookup_app_l by (apply lookup_lt_Some in Hk; unfold h_len in Hlen; lia). done. }
  assert (Hdata : drop (Z.to_nat (h_len h)) (d1 ++ concat ds) = data).
  { rewrite Hw, drop_app_length'; [done|lia]. }
  destruct (Z.leb_spec (h_len h) (Z.of_nat (length d1))) as [Hin|Hout].
  - eexists _, None, _. split; [done|]. split.
    + rewrite drop_concat_cons by lia. done.
    + intros mem k x Hk. unfold opt_byte, TCP_HLEN.
      replace (Z.to_nat (20 + Z.of_nat k)) with (20 + k)%nat by lia.
      apply nth_lookup_Some. specialize (Hopt k x Hk). rewrite <- Hw in Hopt.
      rewrite lookup_app_l in Hopt; [done|]. apply lookup_lt_Some in Hk. unfold h_len in *. lia.
  - destruct Hsp as [?|(d2 & ds' & -> & Hd2)]; [lia|].
    destruct (Z.ltb_spec (Z.of_nat (length d2)) (h_len h - 20 - (Z.of_nat (length d1) - 20))); [lia|].
    eexists _, _, _. split; [done|]. split.
    + rewrite drop_concat_cons by lia. rewrite <- Hdata, (drop_app_ge d1) by lia. cbn [concat]. f_equal. lia.
    + intros mem k x Hk. unfold opt_byte, TCP_HLEN. specialize (Hopt k x Hk). rewrite <- Hw in Hopt.
      assert (Hk' := Hk). apply lookup_lt_Some in Hk'. cbn [concat] in Hopt.
      destruct (Z.ltb_spec (Z.of_nat k) (Z.of_nat (length d1) - 20)).
      * replace (Z.to_nat (20 + Z.of_nat k)) with (20 + k)%nat by lia.
        apply nth_lookup_Some. by rewrite lookup_app_l in Hopt by lia.
      * rewrite u8_id by (unfold is_u8, h_len in *; lia). apply nth_lookup_Some.
        rewrite lookup_app_r, lookup_app_l in Hopt by (unfold h_len in *; lia).
        by replace (Z.to_nat _) with (20 + k - length d1)%nat by lia.
Qed.

Lemma read_header_spec is_broadcast mem ticks src dest h data pkt
  (Hh : hdr_ok h) (Hw : concat pkt = encode_header h ++ data) (Hsp : split_ok (h_len h) pkt)
  (Hdata : Z.of_nat (length data) < 65535)
  (Hdest : is_broadcast dest = false /\ ip_addr_ismulticast dest = false) :
  exists i, tcp_read_header is_broadcast mem ticks src dest pkt = Some (Some i) /\
    in_src i = h_src h /\ in_dest i = h_dest h /\ in_seqno i = h_seqno h /\ in_ackno i = h_ackno h /\
    in_flags i = h_flags h /\ in_wnd i = h_wnd h /\ in_src_ip i = src /\ in_dest_ip i = dest /\
    in_optlen i = Z.of_nat (length (h_opts h)) /\
    (forall k x, h_opts h !! k = Some x -> in_opt i (Z.of_nat k) = x) /\
    inseg i = TcpSeg (h_seqno h) (h_flags h) (Z.of_nat (length data)) (Some data) 1 no_snd /\
    in_tcplen i = TCP_TCPLEN (inseg i) /\
    in_recv_data i = None /\ in_recv_flags i = 0.
Proof.
  destruct pkt as [|d1 ds]; [done|]. pose proof Hsp as [Hd1 _]. cbn [concat] in Hw.
  unfold tcp_read_header. destruct Hdest as [-> ->].
  assert (Hn : forall k, (k < 20)%nat -> nth k d1 0 = nth k (encode_header h ++ data) 0).
  { intros k Hk. eapply nth_first; [exact Hw|]. unfold p_tot_len, TCP_HLEN in Hd1. lia. }
  destruct (Z.ltb_spec (p_tot_len d1) TCP_HLEN); [lia|]. cbn [orb].
  rewrite (Hn 12%nat), (Hn 13%nat) by lia.
  change (nth 12 (encode_header h ++ data) 0) with (h_len h / 4 * 16).
  change (nth 13 (encode_header h ++ data) 0) with (h_flags h).
  rewrite u8_header_len by done. cbn zeta.
  pose proof (length_encode_header h) as Hlen.
  assert (Htot : p_tot_len (concat (d1 :: ds)) = h_len h + Z.of_nat (length data))
    by (cbn [concat]; rewrite Hw; unfold p_tot_len; rewrite length_app; lia).
  rewrite Htot. unfold TCP_HLEN.
  rewrite (proj2 (Z.ltb_ge (h_len h) 20)) by (unfold h_len; lia).
  rewrite (proj2 (Z.ltb_ge (h_len h + _) _)) by lia. cbn [orb].
  destruct (split_header_spec h d1 ds data Hh Hw Hsp) as (o1 & o2 & rest & -> & Hrest & Hopts).
  cbn [mbind option_bind]. rewrite Hrest. unfold p_tot_len.
  assert (Hfl : Z.land (h_flags h) 63 = h_flags h).
  { change 63 with (Z.ones 6). rewrite Z.land_ones by lia. apply Z.mod_small. apply (hk_flags _ Hh). }
  rewrite Hfl.
  destruct Hh as [H1 H2 H3 H4 H5 H6 H7]. unfold is_u16, is_u32 in *.
  assert (Htcp : (if flagset (h_flags h) (Z.lor TCP_FIN TCP_SYN) then u16 (Z.of_nat (length data) + 1)
                  else Z.of_nat (length data)) =
                 Z.of_nat (length data) + if flagset (h_flags h) (Z.lor TCP_FIN TCP_SYN) then 1 else 0).
  { destruct (flagset _ _); [rewrite u16_id by (unfold is_u16; lia)|]; lia. }
  rewrite Htcp.
  rewrite (proj2 (Z.ltb_ge _ _)) by (destruct (flagset _ _); lia).
  unfold be32, be16. cbn [Nat.add]. rewrite !Hn by lia.
  eexists. split; [done|]. cbn [in_src in_dest in_seqno in_ackno in_flags in_wnd in_src_ip in_dest_ip
    in_optlen in_opt inseg in_tcplen in_recv_data in_recv_flags].
  unfold encode_header, octets4, octets2. cbn [app nth].
  assert (E32 : forall v, 0 <= v < 4294967296 -> (v / 65536 / 256 * 256 + (v / 65536) mod 256) * 65536 +
    (v mod 65536 / 256 * 256 + (v mod 65536) mod 256) = v) by (intros; Z.div_mod_to_equations; lia).
  assert (E16 : forall v, v / 256 * 256 + v mod 256 = v) by (intros; Z.div_mod_to_equations; lia).
  rewrite !E32, !E16 by done. unfold h_len. split_and!; try done; try lia.
  intros k x Hk. by apply Hopts.
Qed.

(** C19: a segment in wire format, in any pbufs that the check lets pass, is
    read back: ports, numbers, flags, window, options and data, and the length
    in sequence space. *)
Theorem tcp_read_header_decodes is_broadcast mem ticks src dest h data pkt
  (Hh : hdr_ok h) (Hw : concat pkt = encode_header h ++ data) (Hsp : split_ok (h_len h) pkt)
  (Hdata : Z.of_nat (length data) < 65535)
  (Hdest : is_broadcast dest = false /\ ip_addr_ismulticast dest = false) :
  exists i, tcp_read_header is_broadcast mem ticks src dest pkt = Some (Some i) /\
    in_src i = h_src h /\ in_dest i = h_dest h /\ in_seqno i = h_seqno h /\ in_ackno i = h_ackno h /\
    in_flags i = h_flags h /\ in_wnd i = h_wnd h /\ in_src_ip i = src /\ in_dest_ip i = dest /\
    in_optlen i = Z.of_nat (length (h_opts h)) /\
    (forall k x, h_opts h !! k = Some x -> in_opt i (Z.of_nat k) = x) /\
    inseg i = TcpSeg (h_seqno h) (h_flags h) (Z.of_nat (length data)) (Some data) 1 no_snd /\
    in_tcplen i = TCP_TCPLEN (inseg i).
Proof.
  destruct (read_header_spec is_broadcast mem ticks src dest h data pkt Hh Hw Hsp Hdata Hdest)
    as (i & E & H). exists i. split; [done|]. tauto.
Qed.

(** A SYN-ACK whose options straddle two pbufs. *)
Definition example_header : tcp_hdr := TcpHdr 443 51000 4000000000 1234567890 18 65535 7 0 [2; 4; 5; 180].
Definition example_wire : list Z := encode_header example_header ++ [71; 69; 84].

Lemma tcp_read_header_decodes_witness :
  let pkt := [take 22 example_wire; drop 22 example_wire] in
  let h := example_header in let data := [71; 69; 84] in
  exists i, tcp_read_header (fun _ => false) (fun _ => 0) 5 (IPADDR4_INIT 1) (IPADDR4_INIT 2) pkt =
      Some (Some i) /\
    in_src i = h_src h /\ in_dest i = h_dest h /\ in_seqno i = h_seqno h /\ in_ackno i = h_ackno h /\
    in_flags i = h_flags h /\ in_wnd i = h_wnd h /\ in_src_ip i = IPADDR4_INIT 1 /\
    in_dest_ip i = IPADDR4_INIT 2 /\
    in_optlen i = Z.of_nat (length (h_opts h)) /\
    (forall k x, h_opts h !! k = Some x -> in_opt i (Z.of_nat k) = x) /\
    inseg i = TcpSeg (h_seqno h) (h_flags h) (Z.of_nat (length data)) (Some data) 1 no_snd /\
    in_tcplen i = TCP_TCPLEN (inseg i).
Proof.
  intros pkt h data. apply tcp_read_header_decodes; try by vm_compute.
  - split; try by vm_compute. split; [done|cbn; lia].
  - split; [by vm_compute|]. right. eexists _, []. split; [done|by vm_compute].
Defined.
