(* ===== verification/TcpStates.v ===== *)
(** * The connection states (tcp_in.c, tcp.c)

    Which states a segment leads to, which resets and SYNs are believed, which
    connection a segment belongs to; built on the theorems about the receive
    path (TcpReassembly.v) and about acknowledgements (TcpAck.v). *)

From S2P Require Import Prelude Err IpAddr TcpDefs TcpIn TcpProcess TcpExamples.
From S2P Require Import TcpReassembly TcpAck TcpOptions.

(** ** What [tcp_receive] leaves alone *)

(** The fields of the sending side, the header of the segment; the state, except
    that a FIN found in the queue closes an established connection. *)
Definition same_sender (x x' : tcp_pcb * input) : Prop :=
  let '(p, i) := x in let '(p', i') := x' in
  unacked p' = unacked p /\ unsent p' = unsent p /\ lastack p' = lastack p /\
  snd_nxt p' = snd_nxt p /\ snd_queuelen p' = snd_queuelen p /\ snd_buf p' = snd_buf p /\
  in_flags i' = in_flags i /\ in_ackno i' = in_ackno i /\ in_recv_acked i' = in_recv_acked i /\
  (state p' = state p \/ state p = ESTABLISHED /\ state p' = CLOSE_WAIT).

(** The fields of the receiving side; an acknowledgement sent on the way moves
    the announced edge to where the announced window ends. *)
Definition same_receiver (p p' : tcp_pcb) : Prop :=
  rcv_nxt p' = rcv_nxt p /\ rcv_wnd p' = rcv_wnd p /\ rcv_ann_wnd p' = rcv_ann_wnd p /\
  mss p' = mss p /\ ooseq p' = ooseq p /\ state p' = state p /\
  (rcv_ann_right_edge p' = rcv_ann_right_edge p \/
   rcv_ann_right_edge p' = u32 (rcv_nxt p + rcv_ann_wnd p)).

#[export] Instance same_sender_preorder : PreOrder same_sender.
Proof.
  split; [intros [p i]; split_and!; try done; by left|].
  intros [p i] [q j] [r k] (?&?&?&?&?&?&?&?&?&Ha) (?&?&?&?&?&?&?&?&?&Hb). split_and!; try congruence.
  destruct Ha as [Ha|[Ha1 Ha2]], Hb as [Hb|[Hb1 Hb2]]; [left|right|right|]; split || idtac; congruence.
Qed.

#[export] Instance same_receiver_preorder : PreOrder same_receiver.
Proof.
  split; [intros p; split_and!; try done; by left|].
  intros p q r (?&?&?&?&?&?&Ha) (?&?&?&?&?&?&Hb). split_and!; try congruence.
  destruct Hb as [Hb|Hb]; [by rewrite Hb|right; congruence].
Qed.

(** Split the conditionals of a step and compare the fields. *)
Ltac frame :=
  repeat match goal with |- context [if ?c then _ else _] => destruct c end;
  split_and!; try done; by left.

Lemma send_empty_ack_same_sender p i n : same_sender (p, i) ((tcp_send_empty_ack p n).1, i).
Proof. unfold tcp_send_empty_ack. destruct (next_answer n) as [n' [err|]]; frame. Qed.

Lemma send_empty_ack_same_receiver p n : same_receiver p (tcp_send_empty_ack p n).1.
Proof.
  unfold tcp_send_empty_ack. destruct (next_answer n) as [n' [err|]]; [destruct (negb _)|];
    split_and!; try done; (by left) || by right.
Qed.

Lemma tcp_ack_same_sender p i : same_sender (p, i) (tcp_ack p, i).
Proof. unfold tcp_ack. frame. Qed.

Lemma advance_rcv_nxt_same_sender len p p' i :
  advance_rcv_nxt len p = Some p' -> same_sender (p, i) (p', i).
Proof.
  unfold advance_rcv_nxt, tcp_update_rcv_ann_wnd. intros H.
  repeat case_match; simplify_option_eq; frame.
Qed.

Lemma dequeue_same_sender q : forall p i p' i',
  dequeue_ooseq q p i = Some (p', i') -> same_sender (p, i) (p', i').
Proof.
  induction q as [|c r IH]; intros p i p' i'; cbn [dequeue_ooseq]; [intros [= <- <-]; frame|].
  destruct (_ =? _); [|intros [= <- <-]; frame].
  destruct (advance_rcv_nxt _ p) as [p1|] eqn:E; [|done]. cbn [mbind option_bind].
  destruct (seg_p c) as [d|]; [|done]. cbn [mbind option_bind].
  intros H. transitivity (p1, i); [by eapply advance_rcv_nxt_same_sender|].
  destruct (0 <? p_tot_len d); destruct (seg_fin c); [destruct (decide (state p1 = ESTABLISHED))| |
    destruct (decide (state p1 = ESTABLISHED))|]; apply IH in H; (etransitivity; [|exact H]);
    split_and!; try done; (by left) || by right.
Qed.

Lemma adjust_ooseq_same_sender p i p' i' :
  adjust_ooseq p i = Some (p', i') -> same_sender (p, i) (p', i').
Proof.
  unfold adjust_ooseq. destruct (ooseq p) as [|q qs]; [intros [= <- <-]; frame|].
  destruct (seg_fin _); [intros [= <- <-]; frame|].
  destruct (inseq_delete_covered _ _ _ _) as [[s tl] [|c r]]; [intros [= <- <-]; frame|].
  cbn zeta. destruct (TCP_SEQ_GT _ _); [destruct (_ =? _); [|done]|]; intros [= <- <-]; frame.
Qed.

Lemma trim_same_sender p i i' :
  trim_front p i = Some i' \/ trim_to_window p i = Some i' -> same_sender (p, i) (p, i').
Proof.
  unfold trim_front, trim_to_window. intros [H|H].
  - destruct (seg_p (inseg i)) as [d|]; [|done]. cbn [mbind option_bind] in H. cbn zeta in H.
    destruct (_ <? 65535); [|done]. destruct (_ <=? _); [|done]. injection H as <-. frame.
  - cbn zeta in H. destruct (_ <? _); [|injection H as <-; frame].
    destruct (_ =? _); [|done]. injection H as <-. frame.
Qed.

Lemma receive_in_sequence_same_sender p i n p' i' n' :
  receive_in_sequence p i n = Some (p', i', n') -> same_sender (p, i) (p', i').
Proof.
  unfold receive_in_sequence. destruct (trim_to_window p i) as [i1|] eqn:E0; [|done].
  cbn [mbind option_bind].
  destruct (adjust_ooseq p i1) as [[p1 i2]|] eqn:E1; [|done]. cbn [mbind option_bind].
  destruct (advance_rcv_nxt _ _) as [p2|] eqn:E2; [|done]. cbn [mbind option_bind].
  destruct (seg_p _) as [d|]; [|done]. cbn [mbind option_bind].
  destruct (dequeue_ooseq _ _ _) as [[p3 i3]|] eqn:E3; [|done]. cbn [mbind option_bind].
  intros [= <- <- <-]. apply adjust_ooseq_same_sender in E1.
  apply (advance_rcv_nxt_same_sender _ _ _ i2) in E2. apply dequeue_same_sender in E3.
  transitivity (p, i1); [apply trim_same_sender; by right|]. transitivity (p1, i2); [done|].
  transitivity (p2, i2); [etransitivity; [|exact E2]; frame|].
  transitivity (p3, i3); [|apply tcp_ack_same_sender].
  etransitivity; [|exact E3]. destruct (0 <? p_tot_len d); frame.
Qed.

(** The data part of [tcp_receive] does not touch the sending side. *)
Lemma receive_data_same_sender p i n p' i' n' :
  receive_data p i n = Some (p', i', n') -> same_sender (p, i) (p', i').
Proof.
  unfold receive_data. destruct ((0 <? in_tcplen i) && _).
  2: { destruct (negb _); intros [= <- <- <-]; frame. }
  set (front := if TCP_SEQ_BETWEEN (rcv_nxt p) _ _ then _ else _).
  destruct front as [[p0 i0]|] eqn:E0; [|done]. cbn [mbind option_bind].
  assert (H0 : same_sender (p, i) (p0, i0)).
  { unfold front in E0. destruct (TCP_SEQ_BETWEEN _ _ _).
    - destruct (trim_front p i) eqn:Et; simplify_eq/=. apply trim_same_sender. by left.
    - destruct (TCP_SEQ_LT _ _); simplify_eq/=; frame. }
  clearbody front. intros H. transitivity (p0, i0); [done|]. clear H0 E0.
  destruct (TCP_SEQ_BETWEEN _ _ _).
  2: { pose proof (send_empty_ack_same_sender p0 i0 n).
       destruct (tcp_send_empty_ack p0 n) as [p1 n1]. by injection H as <- <- <-. }
  destruct (rcv_nxt p0 =? in_seqno i0); [by eapply receive_in_sequence_same_sender|].
  unfold receive_out_of_sequence in H.
  destruct (match seg_mem n with m :: r => _ | [] => _ end) as [m r].
  destruct (oos_insert _ _ _ _) as [q|]; [|done]. cbn [mbind option_bind] in H.
  pose proof (send_empty_ack_same_sender (p0 <| ooseq := q |>) i0 (n <| seg_mem := r |>)) as Hq.
  destruct (tcp_send_empty_ack _ _) as [p1 n1]. injection H as <- <- <-.
  etransitivity; [|exact Hq]. frame.
Qed.

Lemma tcp_rexmit_same_receiver p : same_receiver p (tcp_rexmit p).1.
Proof.
  unfold tcp_rexmit. destruct (unacked p) as [|s r]; [frame|]. destruct (tcp_output_segment_busy s); [frame|].
  cbn zeta. frame.
Qed.

Lemma tcp_rexmit_fast_same_receiver p : same_receiver p (tcp_rexmit_fast p).
Proof.
  unfold tcp_rexmit_fast. destruct (unacked p) eqn:E; [frame|]. destruct (tcp_is_flag_set _ _); [frame|].
  pose proof (tcp_rexmit_same_receiver p) as H. destruct (tcp_rexmit p) as [p1 err]. simpl in H.
  destruct (err =? ERR_OK); [|done]. transitivity p1; [done|]. cbn zeta. frame.
Qed.

Lemma receive_dupack_same_receiver edge p i : same_receiver p (receive_dupack edge p i).
Proof.
  unfold receive_dupack. destruct (is_dupack edge p i); [|frame].
  set (p1 := if dupacks p <? u8 (dupacks p + 1) then p <| dupacks := u8 (dupacks p + 1) |> else p).
  assert (H1 : same_receiver p p1) by (unfold p1; frame).
  clearbody p1. set (p2 := if 3 <? dupacks p1 then p1 <| cwnd := TCP_WND_INC (cwnd p1) (mss p1) |> else p1).
  assert (H2 : same_receiver p1 p2) by (unfold p2; frame).
  clearbody p2. cbn zeta. transitivity p1; [done|]. transitivity p2; [done|].
  destruct (3 <=? dupacks p2); [apply tcp_rexmit_fast_same_receiver|done].
Qed.

Lemma update_cwnd_same_receiver acked p : same_receiver p (update_cwnd acked p).
Proof. destruct (update_cwnd_frame acked p) as (c & b & ->). frame. Qed.

(** [tcp_receive] and its parts read the segment; acknowledgements only count
    octets. *)
Definition same_segment (i i' : input) : Prop := exists n, i' = i <| in_recv_acked := n |>.

Lemma same_segment_refl i : same_segment i i.
Proof. exists (in_recv_acked i). by destruct i. Qed.

Lemma receive_new_ack_same_receiver p i n p' i' n' :
  receive_new_ack p i n = Some (p', i', n') -> same_receiver p p' /\ same_segment i i'.
Proof.
  unfold receive_new_ack. cbn zeta.
  match goal with |- context [if ?c then update_cwnd ?a ?x else ?x] =>
    set (p1 := if c then update_cwnd a x else x);
    assert (H1 : same_receiver p p1)
  end.
  { unfold p1. match goal with |- context [if ?c then update_cwnd ?a ?x else ?x] =>
      transitivity x; [frame|]; destruct c; [apply update_cwnd_same_receiver|frame] end. }
  clearbody p1.
  destruct (tcp_free_acked_segments _ _ _ _ _) as [[[l ql] ra]|]; [|done]. cbn [mbind option_bind].
  destruct (tcp_free_acked_segments _ _ _ _ ra) as [[[l' ql'] ra']|]; [|done]. cbn [mbind option_bind].
  intros [= <- <- <-]. split; [|by exists ra']. transitivity p1; [done|].
  destruct l'; frame.
Qed.

Lemma receive_ack_same_receiver p i n p' i' n' :
  receive_ack p i n = Some (p', i', n') -> same_receiver p p' /\ same_segment i i'.
Proof.
  unfold receive_ack. destruct (flagset _ _); [|intros [= <- <- <-]; split; [done|apply same_segment_refl]].
  cbn zeta. set (p0 := update_snd_wnd p i).
  assert (H0 : same_receiver p p0) by (unfold p0, update_snd_wnd; cbn zeta; frame).
  clearbody p0.
  assert (Hrtt : forall q j, same_receiver q (update_rtt q j)) by (intros; unfold update_rtt; cbn zeta; frame).
  destruct (TCP_SEQ_LEQ _ _); [|destruct (TCP_SEQ_BETWEEN _ _ _)].
  - cbn [mbind option_bind]. intros [= <- <- <-]. split; [|apply same_segment_refl].
    transitivity p0; [done|]. etransitivity; [apply receive_dupack_same_receiver|apply Hrtt].
  - destruct (receive_new_ack p0 i n) as [[[p1 i1] n1]|] eqn:E; [|done]. cbn [mbind option_bind].
    apply receive_new_ack_same_receiver in E as [E1 E2]. intros [= <- <- <-]. split; [|done].
    transitivity p0; [done|]. by transitivity p1.
  - pose proof (send_empty_ack_same_receiver p0 n). destruct (tcp_send_empty_ack p0 n) as [p1 n1].
    cbn [mbind option_bind]. intros [= <- <- <-]. split; [|apply same_segment_refl].
    transitivity p0; [done|]. by transitivity p1.
Qed.

Lemma receiving_same_receiver S E N R qs p p' :
  receiving S E N R qs p -> same_receiver p p' -> receiving S E N R qs p'.
Proof.
  intros [Hw [H1 H2 (RE & H3 & H4) H5 H6] Hq Hqs] (E1 & E2 & E3 & E4 & E5 & E6 & E7). split; try done.
  - split; try congruence.
    destruct E7 as [E7|E7]; [exists RE; split; [congruence|done]|].
    exists (N + rcv_ann_wnd p). rewrite E7, H1. split; [word_lia|lia].
  - congruence.
Qed.

Lemma peer_segment_same S E A i i' :
  peer_segment S E A i -> same_segment i i' -> peer_segment S E A i'.
Proof. intros [] [n ->]. by split. Qed.

(** ** [tcp_receive] as a whole *)

(** Both directions of a synchronized connection. *)
Record connection (S : Z -> Z) (E N R L NX : Z) (qs us ws : list (Z * tcp_seg)) (p : tcp_pcb) : Prop := {
  cn_rcv : receiving S E N R qs p;
  cn_snd : sending L NX us ws p
}.

(** A segment of the peer that carries octets from [A] and acknowledges [K]. *)
Record acceptable (S : Z -> Z) (E N R A L NX K : Z) (i : input) : Prop := {
  ac_seg : peer_segment S E A i;
  ac_in_window : 0 < in_tcplen i -> N - 65534 <= A /\ A + in_tcplen i <= R;
  ac_ackno : in_ackno i = u32 K;
  ac_ack_range : L - 1073741824 < K < NX + 1073741824;
  ac_acked : in_recv_acked i = 0
}.

Lemma same_sender_sending L NX us ws p p' i i' :
  same_sender (p, i) (p', i') -> sending L NX us ws p -> sending L NX us ws p'.
Proof. intros (?&?&?&?&?&?&_) Hs. by eapply sending_ext. Qed.

Lemma got_fin_flags i (fin : bool) :
  in_recv_flags i = (if fin then TF_GOT_FIN else 0) -> got_fin i = fin.
Proof. unfold got_fin. intros ->. by destruct fin. Qed.

(** The acknowledgement part, of a segment with or without ACK. *)
Lemma receive_ack_ok S E N R L NX K qs us ws p i n :
  connection S E N R L NX qs us ws p -> in_ackno i = u32 K ->
  L - 1073741824 < K < NX + 1073741824 -> in_recv_acked i = 0 ->
  exists p' i' n' L' us' ws', receive_ack p i n = Some (p', i', n') /\
    connection S E N R L' NX qs us' ws' p' /\ same_segment i i' /\ state p' = state p /\
    L' = (if flagset (in_flags i) TCP_ACK && (L <? K) && (K <=? NX) then K else L).
Proof.
  intros [Hr Hs] Hack HK Hra. destruct (flagset (in_flags i) TCP_ACK) eqn:Ef.
  - destruct (receive_ack_spec L NX K us ws p i n) as
      (p' & i' & n' & us' & ws' & E1 & Hs' & _); try done.
    destruct (receive_ack_same_receiver p i n p' i' n' E1) as [Hr1 Hr2].
    exists p', i', n', (if (L <? K) && (K <=? NX) then K else L), us', ws'.
    split_and!; try done; [|by apply Hr1]. split; [by eapply receiving_same_receiver|done].
  - exists p, i, n, L, us, ws. unfold receive_ack. rewrite Ef. split_and!; try done. apply same_segment_refl.
Qed.

Lemma tcp_receive_ok S E N R A L NX K qs us ws p i n :
  connection S E N R L NX qs us ws p -> acceptable S E N R A L NX K i ->
  state_val ESTABLISHED <= state_val (state p) ->
  exists p' i' n' M (fin : bool) qs' us' ws' L',
    tcp_receive p i n = Some (p', i', n') /\
    connection S E (M + Z.b2z fin) R L' NX qs' us' ws' p' /\
    N <= M /\ delivered S N M (in_recv_data i') /\ got_fin i' = fin /\ (fin = true -> M = E) /\
    in_flags i' = in_flags i /\ in_ackno i' = in_ackno i /\
    in_recv_flags i' = (if fin then TF_GOT_FIN else 0) /\
    (state p' = state p \/ state p = ESTABLISHED /\ state p' = CLOSE_WAIT /\ fin = true) /\
    L' = (if flagset (in_flags i) TCP_ACK && (L <? K) && (K <=? NX) then K else L) /\
    (state_val CLOSE_WAIT <= state_val (state p) -> fin = false /\ M = N).
Proof.
  intros Hc [Hi Hw HK HKr Hra] Hst. unfold tcp_receive.
  destruct (Z.leb_spec (state_val ESTABLISHED) (state_val (state p))); [|lia].
  destruct (receive_ack_ok S E N R L NX K qs us ws p i n) as
    (p1 & i1 & n1 & L1 & us1 & ws1 & -> & [Hr1 Hs1] & Hseg & Hst1 & HL1); try done.
  cbn [mbind option_bind]. pose proof (peer_segment_same _ _ _ _ _ Hi Hseg) as Hi1.
  assert (Hh : in_flags i1 = in_flags i /\ in_ackno i1 = in_ackno i /\ in_tcplen i1 = in_tcplen i)
    by (destruct Hseg as [m ->]; done).
  destruct Hh as (Hh1 & Hh2 & Hh3).
  destruct (decide (in_tcplen i1 <= 0 \/ state_val CLOSE_WAIT <= state_val (state p1))) as [Hidle|Hact].
  - destruct (receive_data_idle _ _ _ _ _ i1 n1 _ Hr1 Hidle (ps_data _ _ _ _ Hi1)) as (p' & E1 & Hr').
    rewrite E1. pose proof (receive_data_same_sender _ _ _ _ _ _ E1) as Hss.
    pose proof (same_sender_sending _ _ _ _ _ _ _ _ Hss Hs1).
    exists p', i1, n1, N, false, qs, us1, ws1, L1. cbn [Z.b2z]. rewrite Z.add_0_r.
    rewrite (ps_data _ _ _ _ Hi1), (ps_flags _ _ _ _ Hi1). split_and!; try done; try lia.
    + apply got_fin_flags. apply Hi1.
    + left. rewrite <- Hst1. unfold receive_data in E1. destruct ((0 <? in_tcplen i1) && _) eqn:Eb.
      * apply andb_prop in Eb as [Eb1 Eb2]. apply Z.ltb_lt in Eb1, Eb2. lia.
      * destruct (negb _); by injection E1 as <-.
  - rewrite Hh3 in Hact. destruct (receive_data_any S E N R A p1 i1 n1 qs) as
      (p' & i' & n' & M & fin & qs' & E1 & Hrcv & _); rewrite ?Hh3; try done; try lia.
    rewrite E1. pose proof (receive_data_same_sender _ _ _ _ _ _ E1) as Hss.
    pose proof (same_sender_sending _ _ _ _ _ _ _ _ Hss Hs1).
    pose proof (received_receiving _ _ _ _ _ _ _ _ _ _ _ _ (rc_wnd _ _ _ _ _ _ Hr1) Hrcv).
    destruct Hrcv as (? & ? & ? & ? & ? & ? & Hfl & ? & Hstf & _).
    destruct Hss as (?&?&?&?&?&?&Hf1&Hf2&_&Hst').
    exists p', i', n', M, fin, qs', us1, ws1, L1. split_and!; try done; try congruence.
    + by apply got_fin_flags.
    + rewrite <- Hst1. destruct fin; [|left; by apply Hstf]. destruct Hst' as [?|[? ?]]; [by left|by right].
    + intros. exfalso. apply Hact. right. by rewrite Hst1.
Qed.

(** ** The transitions of a synchronized connection *)

(** RFC 793, figure 6, from ESTABLISHED on: [fin]: the stream of the peer is
    complete; [acked]: our FIN (everything we sent) is acknowledged.  LAST-ACK
    ends with the connection being closed, not with another state. *)
Definition next_state (st : tcp_state) (fin acked : bool) : tcp_state :=
  match st with
  | ESTABLISHED => if fin then CLOSE_WAIT else ESTABLISHED
  | FIN_WAIT_1 => if fin then if acked then TIME_WAIT else CLOSING
                  else if acked then FIN_WAIT_2 else FIN_WAIT_1
  | FIN_WAIT_2 => if fin then TIME_WAIT else FIN_WAIT_2
  | CLOSING => if acked then TIME_WAIT else CLOSING
  | _ => st
  end.

Definition synchronized (st : tcp_state) : Prop :=
  state_val ESTABLISHED <= state_val st < state_val TIME_WAIT.

(** The pcb as [tcp_process] hands it to [tcp_receive]. *)
Definition segment_start (p : tcp_pcb) (i : input) : tcp_pcb :=
  let p := if negb (tcp_is_flag_set TF_RXCLOSED p) then p <| tmr := tcp_ticks i |> else p in
  tcp_parseopt i (p <| keep_cnt_sent := 0 |> <| persist_probe := 0 |>).

Lemma connection_start S E N R L NX qs us ws p i :
  (forall k, is_u8 (in_opt i k)) -> connection S E N R L NX qs us ws p ->
  connection S E N R L NX qs us ws (segment_start p i) /\ state (segment_start p i) = state p.
Proof.
  intros Ho [Hr Hs]. unfold segment_start. cbn zeta.
  set (p0 := if negb _ then _ else p).
  assert (Hp0 : connection S E N R L NX qs us ws p0 /\ state p0 = state p).
  { unfold p0. destruct (negb _); [|done]. split; [|done]. split; [|by eapply sending_ext].
    eapply receiving_same_receiver; [done|]. frame. }
  destruct Hp0 as [[[Hw [H1 H2 H3 H4 H5] Hq Hqs] Hs0] Hst]. clearbody p0.
  split; [|done]. split; [|by eapply sending_ext]. split; try done. split; try done.
  unfold tcp_parseopt. cbn [mss setter].
  destruct (parse_range (Datatypes.S (Z.to_nat (in_optlen i))) (in_optlen i) (in_opt i) 0 (mss p0) Ho) as [E1|E1];
    cbn [mss setter]; [by rewrite E1|]. unfold is_u16, TCP_MSS in *. lia.
Qed.

Lemma fin_acked_unwrap S E N R L NX qs us ws p i K :
  connection S E N R L NX qs us ws p -> in_ackno i = u32 K -> near K NX ->
  fin_acked p i = has_flag i TCP_ACK && (K =? NX) && match unsent p with [] => true | _ => false end.
Proof.
  intros [_ Hs] Hack Hn. unfold fin_acked. f_equal. f_equal.
  apply (u32_eq_unwrap _ _ K NX); try done; rewrite ?Hack, ?(sd_nxt _ _ _ _ _ Hs); word_lia.
Qed.

Section transitions.
Context {A : Type} `{!tcp_world A}.

Lemma connection_state S E N R L NX qs us ws p st :
  connection S E N R L NX qs us ws p -> connection S E N R L NX qs us ws (p <| state := st |>).
Proof.
  intros [[Hw [] Hq Hqs] Hs]. split; [|by eapply sending_ext]. by split.
Qed.

Lemma connection_ack_now S E N R L NX qs us ws p :
  connection S E N R L NX qs us ws p -> connection S E N R L NX qs us ws (tcp_ack_now p).
Proof.
  intros [[Hw [] Hq Hqs] Hs]. split; [|by eapply sending_ext]. by split.
Qed.

(** What TIME-WAIT does to the lists. *)
Lemma enter_time_wait_spec l p s :
  (forall s', is_Some (tcp_timer_needed (A := A) s')) ->
  exists s1 s' p', enter_time_wait l p s = Some (s', p') /\ state p' = TIME_WAIT /\
    tcp_timer_needed s1 = Some s' /\ tcp_tw_pcbs s1 = l :: tcp_tw_pcbs s /\
    tcp_active_pcbs s1 = tcp_rmv l (tcp_active_pcbs s) /\ pcbs s1 !! l = Some p' /\
    s_net s1 = s_net s.
Proof.
  intros Ht. unfold enter_time_wait.
  match goal with |- context [tcp_timer_needed ?x] => set (s1 := x); destruct (Ht s1) as [s' E1] end.
  rewrite E1. cbn [mbind option_bind]. exists s1, s'. eexists. split; [done|].
  split_and!; try done. unfold s1. cbn. by rewrite lookup_insert_eq.
Qed.

(** The result of [tcp_process] from that of [tcp_receive]. *)
Definition settle (st : tcp_state) (fin acked : bool) (p1 : tcp_pcb) : tcp_pcb :=
  let p := if fin then tcp_ack_now p1 else p1 in p <| state := next_state st fin acked |>.

Lemma process_no_time_wait l p i (s : stack A) p1 i1 n1 fin :
  synchronized (state p) -> has_flag i TCP_RST = false -> has_flag i TCP_SYN = false ->
  tcp_receive (segment_start p i) i (s_net s) = Some (p1, i1, n1) -> got_fin i1 = fin ->
  (state p1 = state p \/ state p = ESTABLISHED /\ state p1 = CLOSE_WAIT /\ fin = true) ->
  (state_val CLOSE_WAIT <= state_val (state p) -> fin = false) ->
  next_state (state p) fin (fin_acked p1 i1) <> TIME_WAIT ->
  tcp_process l p i s =
  Some (s <| s_net := n1 |>, settle (state p) fin (fin_acked p1 i1) p1,
        (if bool_decide (state p = LAST_ACK) && fin_acked p1 i1
         then i1 <| in_recv_flags := Z.lor (in_recv_flags i1) TF_CLOSED |> else i1), ERR_OK).
Proof.
  intros Hsy Hrst Hsyn Hrcv Hfin Hst1 Hcw Hntw. unfold tcp_process. rewrite Hrst, Hsyn. cbn [andb].
  assert (Hst : state (segment_start p i) = state p)
    by (unfold segment_start; cbn zeta; by destruct (negb _)).
  unfold settle. unfold segment_start in Hrcv, Hst. cbn zeta in *.
  set (p0 := tcp_parseopt i _) in *. clearbody p0. rewrite Hst.
  assert (Hrec : receive p0 i s = Some (s <| s_net := n1 |>, p1, i1)) by (unfold receive; by rewrite Hrcv).
  unfold synchronized in Hsy.
  assert (Hid : forall q : tcp_pcb, q <| state := state q |> = q) by (by intros []).
  destruct (state p) eqn:Ep; simpl in Hsy; try lia;
    unfold process_established, process_fin_wait_1, process_fin_wait_2, process_closing, process_last_ack;
    rewrite Hrec; cbn [mbind option_bind]; rewrite ?Hfin; cbn [next_state] in *; cbn zeta;
    destruct fin, (fin_acked p1 i1); try (specialize (Hcw ltac:(simpl; lia)); done); try done;
    destruct Hst1 as [Hs1|(Hs0 & Hs1 & Hf1)]; try done; cbn [bool_decide decide_rel andb];
    repeat f_equal; rewrite <- (Hid p1) at 1; by rewrite Hs1.
Qed.

Lemma process_time_wait l p i (s : stack A) p1 i1 n1 fin :
  synchronized (state p) -> has_flag i TCP_RST = false -> has_flag i TCP_SYN = false ->
  tcp_receive (segment_start p i) i (s_net s) = Some (p1, i1, n1) -> got_fin i1 = fin ->
  next_state (state p) fin (fin_acked p1 i1) = TIME_WAIT ->
  exists p2, (p2 = p1 \/ p2 = tcp_ack_now p1) /\
    tcp_process l p i s =
    ('(s, p) ← enter_time_wait l p2 (s <| s_net := n1 |>); Some (s, p, i1, ERR_OK)).
Proof.
  intros Hsy Hrst Hsyn Hrcv Hfin Htw. unfold tcp_process. rewrite Hrst, Hsyn. cbn [andb].
  assert (Hst : state (segment_start p i) = state p)
    by (unfold segment_start; cbn zeta; by destruct (negb _)).
  unfold segment_start in Hrcv, Hst. cbn zeta in *.
  set (p0 := tcp_parseopt i _) in *. clearbody p0. rewrite Hst.
  assert (Hrec : receive p0 i s = Some (s <| s_net := n1 |>, p1, i1)) by (unfold receive; by rewrite Hrcv).
  unfold synchronized in Hsy.
  destruct (state p) eqn:Ep; simpl in Hsy; try lia;
    unfold process_established, process_fin_wait_1, process_fin_wait_2, process_closing, process_last_ack;
    rewrite Hrec; cbn [mbind option_bind]; rewrite ?Hfin; cbn [next_state] in *;
    destruct fin, (fin_acked p1 i1); try done;
    (exists (tcp_ack_now p1); split; [by right|done]) || (exists p1; split; [by left|done]).
Qed.

(** C3: a segment without RST and SYN on a synchronized connection (any state
    from ESTABLISHED to LAST-ACK), from a peer that keeps to the window:
    processing succeeds, hands on the next octets of the stream in order, and
    the state becomes the one RFC 793 asks for, given whether the stream of the
    peer is now complete and whether everything we sent, our FIN included, is
    acknowledged.  TIME-WAIT moves the connection from the active list to its
    own list; LAST-ACK asks for the connection to be closed; otherwise
    nothing but the connection changes. *)
Theorem tcp_process_synchronized S E N R B L NX K qs us ws l p i (s : stack A)
  (Hc : connection S E N R L NX qs us ws p) (Ha : acceptable S E N R B L NX K i)
  (Hsy : synchronized (state p))
  (Hrst : has_flag i TCP_RST = false) (Hsyn : has_flag i TCP_SYN = false)
  (Ho : forall k, is_u8 (in_opt i k)) (Ht : forall s', is_Some (tcp_timer_needed (A := A) s')) :
  exists s' p' i' p1 i1 n1 M (fin acked : bool),
    tcp_receive (segment_start p i) i (s_net s) = Some (p1, i1, n1) /\
    tcp_process l p i s = Some (s', p', i', ERR_OK) /\
    N <= M /\ delivered S N M (in_recv_data i') /\ got_fin i' = fin /\ (fin = true -> M = E) /\
    acked = has_flag i TCP_ACK && (K =? NX) && match unsent p1 with [] => true | _ => false end /\
    state p' = next_state (state p) fin acked /\
    flagset (in_recv_flags i') TF_CLOSED = bool_decide (state p = LAST_ACK) && acked /\
    (state p' <> TIME_WAIT -> s' = s <| s_net := n1 |> /\
       exists L' qs' us' ws', connection S E (M + Z.b2z fin) R L' NX qs' us' ws' p') /\
    (state p' = TIME_WAIT -> exists s1, tcp_timer_needed s1 = Some s' /\
       tcp_tw_pcbs s1 = l :: tcp_tw_pcbs s /\
       tcp_active_pcbs s1 = tcp_rmv l (tcp_active_pcbs s) /\ pcbs s1 !! l = Some p').
Proof.
  destruct (connection_start S E N R L NX qs us ws p i Ho Hc) as [Hc0 Hst0].
  destruct (tcp_receive_ok S E N R B L NX K qs us ws (segment_start p i) i (s_net s) Hc0 Ha)
    as (p1 & i1 & n1 & M & fin & qs' & us' & ws' & L' & Hrcv & Hc1 & HM & Hd & Hfin & HfE & Hf1 & Hf2
        & Hfl & Hst & HL & Hcw); [rewrite Hst0; apply Hsy|].
  rewrite Hst0 in Hst, Hcw.
  assert (Hacked : fin_acked p1 i1 =
    has_flag i TCP_ACK && (K =? NX) && match unsent p1 with [] => true | _ => false end).
  { rewrite (fin_acked_unwrap _ _ _ _ _ _ _ _ _ _ _ K Hc1).
    - unfold has_flag. by rewrite Hf1.
    - rewrite Hf2. apply Ha.
    - pose proof (ac_ack_range _ _ _ _ _ _ _ _ _ Ha).
      pose proof (sd_window _ _ _ _ _ (cn_snd _ _ _ _ _ _ _ _ _ _ Hc)). unfold near. lia. }
  destruct (decide (next_state (state p) fin (fin_acked p1 i1) = TIME_WAIT)) as [Htw|Hntw].
  - destruct (process_time_wait l p i s p1 i1 n1 fin) as (p2 & _ & Eproc); try done.
    destruct (enter_time_wait_spec l p2 (s <| s_net := n1 |>) Ht) as
      (s1 & s' & p' & Etw & Est & Et & El1 & El2 & Ep' & _).
    rewrite Etw in Eproc. cbn [mbind option_bind] in Eproc.
    exists s', p', i1, p1, i1, n1, M, fin, (fin_acked p1 i1). rewrite Htw. split_and!; try done.
    + rewrite Hfl. destruct (bool_decide _) eqn:El; [|by destruct fin].
      apply bool_decide_eq_true in El. by rewrite El in Htw.
    + intros _. by exists s1.
  - eexists _, _, _, p1, i1, n1, M, fin, (fin_acked p1 i1). split; [done|].
    split; [apply (process_no_time_wait l p i s p1 i1 n1 fin); try done; intros Hge; by destruct (Hcw Hge)|].
    set (closing := bool_decide _ && _).
    split_and!; try done.
    + by destruct closing.
    + unfold got_fin. destruct closing; [|done]. cbn -[Z.lor flagset]. rewrite Hfl.
      by destruct fin.
    + destruct closing; cbn -[Z.lor flagset]; rewrite Hfl; by destruct fin.
    + intros _. split; [done|]. exists L', qs', us', ws'. unfold settle. apply connection_state.
      destruct fin; [by apply connection_ack_now|done].
Qed.
End transitions.

(** An application that accepts everything, an output engine that sends nothing. *)
#[export] Instance example_env : tcp_env unit := {
  event_accept s p := Some (s, p, ERR_OK);
  event_accept_failed s _ := Some s;
  event_connected s p := Some (s, p, ERR_OK);
  event_sent _ s p := Some (s, p, ERR_OK);
  event_recv _ s p := Some (s, p, ERR_OK);
  event_err _ _ s := Some s;
  event_poll _ s := Some (s, ERR_OK);
  tcp_timer_needed s := Some s
}.
#[export] Instance example_world : tcp_world unit := {
  tcp_output s p := Some (s, p);
  tcp_enqueue_flags _ s p := Some (s, p, ERR_OK);
  tcp_alloc _ s := Some (s, Some (8%positive, example_pcb 0 32768));
  tcp_next_iss s := (s, 6510);
  path_mtu _ _ _ := Some 1500
}.

(** We have closed; the peer acknowledges our FIN and sends its last octets and
    its FIN. *)
Definition example_fin : tcp_seg := TcpSeg 5000 17 0 (Some []) 1 (SndSeg 1234 80 0 [Part 4096 0 false] 0 0 false).
Definition example_closing : tcp_pcb :=
  (example_pcb 1000 32768) <| state := FIN_WAIT_1 |> <| unacked := [example_fin] |>
    <| snd_nxt := 5001 |> <| snd_queuelen := 1 |> <| snd_buf := 32768 |>.
Definition example_last : input := (slice octet_stream 1000 3 true) <| in_ackno := 5001 |>.
Definition example_stack : stack unit :=
  Stack tt no_memory_trouble {[ 7%positive := example_closing ]} ∅ [7%positive] [] [] false false.

Lemma tcp_process_synchronized_witness :
  exists s' p' i' p1 i1 n1 M (fin acked : bool),
    tcp_receive (segment_start example_closing example_last) example_last no_memory_trouble =
      Some (p1, i1, n1) /\
    tcp_process 7 example_closing example_last example_stack = Some (s', p', i', ERR_OK) /\
    1000 <= M /\ delivered octet_stream 1000 M (in_recv_data i') /\ got_fin i' = fin /\
    (fin = true -> M = 1003) /\
    acked = has_flag example_last TCP_ACK && (5001 =? 5001) &&
            match unsent p1 with [] => true | _ => false end /\
    state p' = next_state (state example_closing) fin acked /\
    flagset (in_recv_flags i') TF_CLOSED = bool_decide (state example_closing = LAST_ACK) && acked /\
    (state p' <> TIME_WAIT -> s' = example_stack <| s_net := n1 |> /\
       exists L' qs' us' ws', connection octet_stream 1003 (M + Z.b2z fin) 33768 L' 5001 qs' us' ws' p') /\
    (state p' = TIME_WAIT -> exists s1, tcp_timer_needed s1 = Some s' /\
       tcp_tw_pcbs s1 = 7%positive :: tcp_tw_pcbs example_stack /\
       tcp_active_pcbs s1 = tcp_rmv 7 (tcp_active_pcbs example_stack) /\
       pcbs s1 !! 7%positive = Some p').
Proof.
  change example_env with (@world_env unit example_world).
  apply (tcp_process_synchronized octet_stream 1003 1000 33768 1000 5000 5001 5001 []
           [(5000, example_fin)] [] 7 example_closing example_last example_stack).
  - split.
    + eapply receiving_same_receiver with
        (p := (example_pcb 1000 32768) <| state := FIN_WAIT_1 |>); [|frame].
      destruct (example_receiving octet_stream 1003 1000 32768 ltac:(lia)) as [? [] ? ?]. by split.
    + split; try done.
      * apply List.Forall_cons; [by vm_compute|done].
      * repeat (constructor || apply List.Forall_cons).
      * by constructor.
      * by intros x y _ ?%elem_of_nil.
  - split; try done. destruct (slice_peer_segment octet_stream 1003 1000 3 true); try done.
  - by vm_compute.
  - done.
  - done.
  - done.
  - by intros s'.
Defined.

(** ** Resets and SYNs that nobody expects *)

Section blind.
Context {A : Type} `{!tcp_world A}.

Lemma flagset_0 m : flagset 0 m = false.
Proof. done. Qed.

(** [tcp_input] with a segment that only left its mark on the pcb. *)
Lemma after_process_plain l p i (s : stack A) :
  in_recv_data i = None -> in_recv_flags i = 0 -> in_recv_acked i = 0 -> close_triggered s = false ->
  after_process l p i s = ('(s, p) ← tcp_output s p; Some (s <| pcbs := <[l := p]> (pcbs s) |>)).
Proof.
  intros H1 H2 H3 H4. unfold after_process, deliver_sent, tcp_input_delayed_close, deliver_data, deliver_fin, got_fin.
  rewrite H1, H2, H3. cbn [Z.ltb Z.compare mbind option_bind]. rewrite !flagset_0, H4. cbn.
  by rewrite H4.
Qed.

(** C35: a RST ends the connection only if its sequence number is exactly the
    one expected (in SYN-SENT: if it acknowledges our SYN); any other RST, and a
    SYN on a connection that is beyond SYN-RCVD, leave the connection as it is,
    apart from an acknowledgement that is due when the number lies in the window
    or a SYN came. *)
Theorem blind_segments_rejected l p i (s : stack A)
  (Hp : pcbs s !! l = Some p) (Href : refused_data p = None) (Hcl : state p <> CLOSED)
  (Herr : forall a e s', is_Some (event_err (A := A) a e s')) :
  let exact := if decide (state p = SYN_SENT) then in_ackno i = snd_nxt p else in_seqno i = rcv_nxt p in
  let unharmed p1 := tcp_input_active l i s =
    ('(s, p2) ← tcp_output (s <| close_triggered := false |>) p1;
     Some (s <| pcbs := <[l := p2]> (pcbs s) |>)) in
  (has_flag i TCP_RST = true -> exact ->
     exists s', tcp_input_active l i s = Some s' /\ pcbs s' !! l = None) /\
  (has_flag i TCP_RST = true -> ~ exact ->
     unharmed (if negb (bool_decide (state p = SYN_SENT)) &&
                  TCP_SEQ_BETWEEN (in_seqno i) (rcv_nxt p) (rcv_nxt p + rcv_wnd p)
               then tcp_ack_now p else p)) /\
  (has_flag i TCP_RST = false -> has_flag i TCP_SYN = true -> state p <> SYN_SENT -> state p <> SYN_RCVD ->
     unharmed (tcp_ack_now p)).
Proof.
  cbn zeta. unfold tcp_input_active. rewrite Hp. cbn [mbind option_bind]. rewrite Href.
  cbn [mbind option_bind]. set (i0 := _ <| in_recv_acked := 0 |>).
  assert (Hi0 : in_flags i0 = in_flags i /\ in_seqno i0 = in_seqno i /\ in_ackno i0 = in_ackno i /\
    in_recv_data i0 = None /\ in_recv_flags i0 = 0 /\ in_recv_acked i0 = 0) by done.
  destruct Hi0 as (F1 & F2 & F3 & F4 & F5 & F6). clearbody i0.
  assert (Hacc : rst_acceptable p i0 = true <->
    if decide (state p = SYN_SENT) then in_ackno i = snd_nxt p else in_seqno i = rcv_nxt p).
  { unfold rst_acceptable. rewrite F2, F3. destruct (decide (state p = SYN_SENT)); apply Z.eqb_eq. }
  unfold tcp_process, process_rst, has_flag. rewrite F1. split_and!.
  - intros -> Hex. rewrite (proj2 Hacc Hex). rewrite bool_decide_false by done. cbn [negb mbind option_bind].
    rewrite F5. unfold after_process. cbn -[tcp_pcb_remove_active tcp_free tcp_clear_flags].
    set (p1 := tcp_clear_flags TF_ACK_DELAY p).
    assert (Hev : is_Some (TCP_EVENT_ERR (errf p1) (callback_arg p1) ERR_RST (s <| close_triggered := false |>)))
      by (unfold TCP_EVENT_ERR; destruct (errf p1); [apply Herr|done]).
    destruct Hev as [s1 ->]. cbn [mbind option_bind].
    destruct (tcp_pcb_remove_active true l p1 s1) as [s2 p2]. eexists. split; [done|].
    unfold tcp_free. cbn. apply lookup_delete_eq.
  - intros -> Hex. destruct (rst_acceptable p i0); [by destruct Hex; apply Hacc|].
    rewrite F2. destruct (_ && _); cbn [mbind option_bind]; by rewrite after_process_plain.
  - intros -> -> H1 H2. rewrite !bool_decide_false by done. cbn [negb andb mbind option_bind].
    by rewrite after_process_plain.
Qed.

(** ** Which connection a segment belongs to *)

Section demux.
Context (netif : Z) (i : input) (s : stack A).

Definition belongs (l : positive) : Prop := exists p, pcbs s !! l = Some p /\ pcb_matches netif i p = true.
Definition present (ok : tcp_pcb -> bool) (l : positive) : Prop := exists p, pcbs s !! l = Some p /\ ok p = true.

Lemma find_pcb_first ok pre l post :
  Forall (present ok) (pre ++ l :: post) -> Forall (fun x => ~ belongs x) pre -> belongs l ->
  find_pcb ok (pcb_matches netif i) (pcbs s) (pre ++ l :: post) = Some (Some (l, pre ++ post)).
Proof.
  intros Hok Hpre (p & Hl & Hm). induction pre as [|x pre IH]; cbn [app find_pcb].
  - inversion Hok as [|? ? (q & Hq & Hokq) _]; subst. rewrite Hl in *. simplify_eq.
    cbn [mbind option_bind]. by rewrite Hokq, Hm.
  - inversion Hok as [|? ? (q & Hq & Hokq) Hok']; subst. inversion Hpre as [|? ? Hx Hpre']; subst.
    rewrite Hq. cbn [mbind option_bind]. rewrite Hokq.
    destruct (pcb_matches netif i q) eqn:E; [destruct Hx; by exists q|]. by rewrite IH.
Qed.

Lemma find_pcb_none ok ls :
  Forall (present ok) ls -> Forall (fun x => ~ belongs x) ls ->
  find_pcb ok (pcb_matches netif i) (pcbs s) ls = Some None.
Proof.
  induction ls as [|x ls IH]; cbn [find_pcb]; [done|]. intros Hok Hno.
  inversion Hok as [|? ? (q & Hq & Hokq) Hok']; subst. inversion Hno as [|? ? Hx Hno']; subst.
  rewrite Hq. cbn [mbind option_bind]. rewrite Hokq.
  destruct (pcb_matches netif i q) eqn:E; [destruct Hx; by exists q|]. by rewrite IH.
Qed.

(** a segment goes to the active connection with its addresses and ports,
    which moves to the front of the list; else to the one in TIME-WAIT; else to
    the first listening pcb, whatever its port (all connections go into the
    tunnel); if nothing listens it is answered by a reset that the sender
    will accept, unless it is a reset itself. *)
Theorem tcp_demux_dispatch
  (Hact : Forall (present active_state) (tcp_active_pcbs s))
  (Htw : Forall (present (fun p => bool_decide (state p = TIME_WAIT))) (tcp_tw_pcbs s)) :
  (forall pre l post, tcp_active_pcbs s = pre ++ l :: post -> Forall (fun x => ~ belongs x) pre -> belongs l ->
     tcp_demux netif i s = tcp_input_active l i (s <| tcp_active_pcbs := l :: pre ++ post |>)) /\
  (Forall (fun x => ~ belongs x) (tcp_active_pcbs s) ->
     (forall pre l post p, tcp_tw_pcbs s = pre ++ l :: post -> Forall (fun x => ~ belongs x) pre -> belongs l ->
        pcbs s !! l = Some p ->
        tcp_demux netif i s =
        ('(s, p) ← tcp_timewait_input p i s; Some (s <| pcbs := <[l := p]> (pcbs s) |>))) /\
     (Forall (fun x => ~ belongs x) (tcp_tw_pcbs s) ->
        (forall lid rest lp, tcp_listen_pcbs s = lid :: rest -> listeners s !! lid = Some lp ->
           tcp_demux netif i s = tcp_listen_input lid lp i s) /\
        (tcp_listen_pcbs s = [] ->
           tcp_demux netif i s =
           Some (if has_flag i TCP_RST then s
                 else s <| s_net := tcp_rst (in_ackno i) (in_seqno i + in_tcplen i) (in_dest_ip i)
                                      (in_src_ip i) (in_dest i) (in_src i) (s_net s) |>)))).
Proof.
  unfold tcp_demux. split.
  { intros pre l post E Hpre Hl. rewrite E in *. by rewrite find_pcb_first. }
  intros Hno. rewrite (find_pcb_none active_state) by done. cbn [mbind option_bind]. split.
  { intros pre l post p E Hpre Hl Hp. rewrite E in *. rewrite find_pcb_first by done.
    cbn [mbind option_bind]. by rewrite Hp. }
  intros Hno'. rewrite find_pcb_none by done. cbn [mbind option_bind]. split.
  - intros lid rest lp -> Hlp. by rewrite Hlp.
  - intros ->. by destruct (has_flag i TCP_RST).
Qed.
End demux.
End blind.

(** Segments for the connection of [example_stack], and for none. *)
Definition example_rst (seqno : Z) : input :=
  (slice octet_stream seqno 0 false) <| in_flags := 4 |>.

Lemma blind_segments_rejected_witness :
  let s := example_stack in let p := example_closing in let i := example_rst 1500 in
  let exact := if decide (state p = SYN_SENT) then in_ackno i = snd_nxt p else in_seqno i = rcv_nxt p in
  let unharmed p1 := tcp_input_active 7 i s =
    ('(s, p2) ← tcp_output (s <| close_triggered := false |>) p1;
     Some (s <| pcbs := <[7%positive := p2]> (pcbs s) |>)) in
  (has_flag i TCP_RST = true -> exact ->
     exists s', tcp_input_active 7 i s = Some s' /\ pcbs s' !! 7%positive = None) /\
  (has_flag i TCP_RST = true -> ~ exact ->
     unharmed (if negb (bool_decide (state p = SYN_SENT)) &&
                  TCP_SEQ_BETWEEN (in_seqno i) (rcv_nxt p) (rcv_nxt p + rcv_wnd p)
               then tcp_ack_now p else p)) /\
  (has_flag i TCP_RST = false -> has_flag i TCP_SYN = true -> state p <> SYN_SENT -> state p <> SYN_RCVD ->
     unharmed (tcp_ack_now p)).
Proof. intros s p i. apply (blind_segments_rejected 7 p i s); done. Defined.

Lemma tcp_demux_dispatch_witness :
  let s := example_stack in let i := example_rst 1500 in
  (forall pre l post, tcp_active_pcbs s = pre ++ l :: post -> Forall (fun x => ~ belongs 1 i s x) pre ->
     belongs 1 i s l ->
     tcp_demux 1 i s = tcp_input_active l i (s <| tcp_active_pcbs := l :: pre ++ post |>)) /\
  (Forall (fun x => ~ belongs 1 i s x) (tcp_active_pcbs s) ->
     (forall pre l post p, tcp_tw_pcbs s = pre ++ l :: post -> Forall (fun x => ~ belongs 1 i s x) pre ->
        belongs 1 i s l -> pcbs s !! l = Some p ->
        tcp_demux 1 i s =
        ('(s, p) ← tcp_timewait_input p i s; Some (s <| pcbs := <[l := p]> (pcbs s) |>))) /\
     (Forall (fun x => ~ belongs 1 i s x) (tcp_tw_pcbs s) ->
        (forall lid rest lp, tcp_listen_pcbs s = lid :: rest -> listeners s !! lid = Some lp ->
           tcp_demux 1 i s = tcp_listen_input lid lp i s) /\
        (tcp_listen_pcbs s = [] ->
           tcp_demux 1 i s =
           Some (if has_flag i TCP_RST then s
                 else s <| s_net := tcp_rst (in_ackno i) (in_seqno i + in_tcplen i) (in_dest_ip i)
                                      (in_src_ip i) (in_dest i) (in_src i) (s_net s) |>)))).
Proof.
  intros s i. apply (tcp_demux_dispatch 1 i s); [|done].
  apply List.Forall_cons; [|done]. exists example_closing. split; [|done]. apply lookup_singleton_eq.
Defined.

(** ** Passive open *)

Section listen.
Context {A : Type} `{!tcp_world A}.

(** C20: a listening pcb: a RST is ignored, an ACK answered by a reset; a SYN
    makes a new connection in SYN-RCVD, first in the active list, whose local
    end is the destination of the packet (any address and port: the tunnel
    takes all), which expects the octet after the SYN and has nothing
    acknowledged yet; its SYN-ACK is queued.  Without memory the application is
    told; if the SYN-ACK cannot be queued the connection is abandoned
    without a reset. *)
Theorem tcp_listen_input_opens lid lp i (s : stack A)
  (Ht : forall s', is_Some (tcp_timer_needed (A := A) s')) :
  (has_flag i TCP_RST = true -> tcp_listen_input lid lp i s = Some s) /\
  (has_flag i TCP_RST = false -> has_flag i TCP_ACK = true ->
     tcp_listen_input lid lp i s = Some (s <| s_net := rst_reply i (s_net s) |>)) /\
  (has_flag i TCP_RST = false -> has_flag i TCP_ACK = false -> has_flag i TCP_SYN = true ->
     forall s1 id np0 s2 iss,
     tcp_alloc (l_prio lp) s = Some (s1, Some (id, np0)) -> tcp_next_iss s1 = (s2, iss) ->
     exists s3 s4 np, tcp_timer_needed s3 = Some s4 /\
       tcp_active_pcbs s3 = id :: tcp_active_pcbs s2 /\ is_Some (pcbs s3 !! id) /\
       state np = SYN_RCVD /\ local_ip np = in_dest_ip i /\ local_port np = in_dest i /\
       remote_ip np = in_src_ip i /\ remote_port np = in_src i /\
       rcv_nxt np = u32 (in_seqno i + 1) /\ lastack np = iss /\ snd_nxt np = iss /\
       snd_wnd np = in_wnd i /\ TCP_SEQ_LT (snd_wl1 np) (in_seqno i) = true /\
       listener np = Some lid /\ callback_arg np = l_callback_arg lp /\
       tcp_listen_input lid lp i s =
       ('(s, np, rc) ← tcp_enqueue_flags (Z.lor TCP_SYN TCP_ACK) (s4 <| tcp_active_pcbs_changed := true |>) np;
        if negb (rc =? ERR_OK) then tcp_abandon false false id np s
        else '(s, np) ← tcp_output s np; Some (s <| pcbs := <[id := np]> (pcbs s) |>))) /\
  (has_flag i TCP_RST = false -> has_flag i TCP_ACK = false -> has_flag i TCP_SYN = true ->
     forall s1, tcp_alloc (l_prio lp) s = Some (s1, None) -> tcp_listen_input lid lp i s = event_accept_failed s1 lp).
Proof.
  unfold tcp_listen_input. split_and!; [by intros ->|by intros -> ->| |].
  - intros -> -> -> s1 id np0 s2 iss -> Eiss. cbn [mbind option_bind]. rewrite Eiss.
    match goal with |- context [tcp_timer_needed ?x] => set (s3 := x); destruct (Ht s3) as [s4 E4] end.
    rewrite E4. cbn [mbind option_bind].
    match goal with |- context [tcp_enqueue_flags _ _ ?x] => set (np := x) end.
    exists s3, s4, np. split_and!; try done.
    + unfold s3. cbn. by rewrite lookup_insert_eq.
    + cbn -[TCP_SEQ_LT]. unfold TCP_SEQ_LT. rewrite <- s32_u32_sub.
      apply Z.ltb_lt. word_lia.
  - intros -> -> -> s1 ->. done.
Qed.
End listen.

Definition example_syn : input :=
  (slice octet_stream 999 0 false) <| in_flags := 2 |> <| in_tcplen := 1 |>.
Definition example_listener : tcp_pcb_listen := TcpPcbListen (IPADDR4_INIT 0) 0 0 64 0 3.

Lemma tcp_listen_input_opens_witness :
  let s := example_stack in let i := example_syn in let lp := example_listener in
  (has_flag i TCP_RST = true -> tcp_listen_input 9 lp i s = Some s) /\
  (has_flag i TCP_RST = false -> has_flag i TCP_ACK = true ->
     tcp_listen_input 9 lp i s = Some (s <| s_net := rst_reply i (s_net s) |>)) /\
  (has_flag i TCP_RST = false -> has_flag i TCP_ACK = false -> has_flag i TCP_SYN = true ->
     forall s1 id np0 s2 iss,
     tcp_alloc (l_prio lp) s = Some (s1, Some (id, np0)) -> tcp_next_iss s1 = (s2, iss) ->
     exists s3 s4 np, tcp_timer_needed s3 = Some s4 /\
       tcp_active_pcbs s3 = id :: tcp_active_pcbs s2 /\ is_Some (pcbs s3 !! id) /\
       state np = SYN_RCVD /\ local_ip np = in_dest_ip i /\ local_port np = in_dest i /\
       remote_ip np = in_src_ip i /\ remote_port np = in_src i /\
       rcv_nxt np = u32 (in_seqno i + 1) /\ lastack np = iss /\ snd_nxt np = iss /\
       snd_wnd np = in_wnd i /\ TCP_SEQ_LT (snd_wl1 np) (in_seqno i) = true /\
       listener np = Some 9%positive /\ callback_arg np = l_callback_arg lp /\
       tcp_listen_input 9 lp i s =
       ('(s, np, rc) ← tcp_enqueue_flags (Z.lor TCP_SYN TCP_ACK) (s4 <| tcp_active_pcbs_changed := true |>) np;
        if negb (rc =? ERR_OK) then tcp_abandon false false id np s
        else '(s, np) ← tcp_output s np; Some (s <| pcbs := <[id := np]> (pcbs s) |>))) /\
  (has_flag i TCP_RST = false -> has_flag i TCP_ACK = false -> has_flag i TCP_SYN = true ->
     forall s1, tcp_alloc (l_prio lp) s = Some (s1, None) -> tcp_listen_input 9 lp i s = event_accept_failed s1 lp).
Proof.
  intros s i lp. change example_env with (@world_env unit example_world).
  apply (tcp_listen_input_opens 9 lp i s). by intros s'. Defined.
