(* ===== verification/TcpOut.v ===== *)
(** * TCP output (core/c/core/tcp_out.c)

    The queue of segments to be sent: [tcp_write] fills it in three phases
    (the room behind the last pbuf, a pbuf chained to the last segment, new
    segments), [tcp_split_unsent_seg] cuts its head, [tcp_enqueue_flags] adds
    SYN or FIN, and [tcp_output] sends what the windows and Nagle's algorithm
    allow.  The data is checksummed while it is copied
    ([TCP_CHECKSUM_ON_COPY]); a segment goes to IP as octets.

    [None] is an assertion that fails.  The functions run with the network [s]
    as it is: the interfaces and their addresses. *)

From S2P Require Import Prelude Err Def IpAddr NetifDefs Chksum Pbuf IpHdr Net TcpDefs TcpIn.

(** ** Macros of core/c/include/lwip/priv/tcp_priv.h and tcp.h *)

Definition TCP_WRITE_FLAG_COPY : Z := 1.
Definition TCP_WRITE_FLAG_MORE : Z := 2.
Definition TF_SEG_OPTS_MSS : Z := 1.
Definition TF_SEG_DATA_CHECKSUMMED : Z := 4.
Definition TCP_OVERSIZE : Z := TCP_MSS.
Definition TCP_SND_QUEUELEN : Z := 90.
Definition TCP_SNDQUEUELEN_OVERFLOW : Z := 65532.
Definition TCP_TTL : Z := 64.

Definition LWIP_TCP_OPT_LENGTH (flags : Z) : Z :=
  if flagset flags TF_SEG_OPTS_MSS then 4 else 0.

(** [TCP_BUILD_MSS_OPTION], as it lies in memory. *)
Definition TCP_BUILD_MSS_OPTION (mss : Z) : list Z :=
  octets4 (Z.lor 33816576 (Z.land mss 65535)).

(** Nagle's algorithm: may the head of [unsent] be sent now? *)
Definition tcp_do_output_nagle (p : tcp_pcb) : bool :=
  match unacked p with [] => true | _ => false end
  || flagset (flags p) (Z.lor TF_NODELAY TF_INFR)
  || match unsent p with
     | seg :: _ :: _ => true
     | [seg] => mss p <=? seg_len seg
     | [] => false
     end
  || (snd_buf p =? 0) || (TCP_SND_QUEUELEN <=? snd_queuelen p).

(** ** Memory *)

(** [memp_malloc(MEMP_TCP_SEG)] *)
Definition next_seg (n : net) : net * bool :=
  match seg_mem n with
  | b :: r => (n <| seg_mem := r |>, b)
  | [] => (n, false)
  end.

(** [pbuf_alloc(layer, length, PBUF_ROM)] and, for [PBUF_RAM], what follows the
    computation of the size: the address of the payload. *)
Definition next_pbuf (n : net) : net * option Z :=
  match pbuf_mem n with
  | a :: r => (n <| pbuf_mem := r |>, a)
  | [] => (n, None)
  end.

Definition pbuf_alloc_ram (layer length : Z) (n : net) : net * option Z :=
  if u16 (layer + length) <? length then (n, None) else next_pbuf n.

(** ** Segments *)

(** The checksum of a segment is that of its octets so far, with the octets of
    every word swapped when their number is odd. *)
Definition tcp_seg_add_chksum (chksum len seg_chksum : Z) (seg_chksum_swapped : bool) : Z * bool :=
  let helper := u32 (chksum + seg_chksum) in
  let chksum := u16 (FOLD_U32T helper) in
  if negb (Z.land len 1 =? 0) then (SWAP_BYTES_IN_WORD chksum, negb seg_chksum_swapped)
  else (chksum, seg_chksum_swapped).

Definition seg_data (s : tcp_seg) : list Z := default [] (seg_p s).
Definition seg_parts (s : tcp_seg) : list part := ss_parts (seg_snd s).
Definition seg_optlen (s : tcp_seg) : Z := LWIP_TCP_OPT_LENGTH (ss_flags (seg_snd s)).

(** Changes of a segment: the pbufs with their data, the checksum, and the
    room behind the data. *)
Definition set_data (parts : list part) (d : list Z) (s : tcp_seg) : tcp_seg :=
  s <| seg_p := Some d |> <| seg_snd := (seg_snd s) <| ss_parts := parts |> |>.

(** Also sets [TF_SEG_DATA_CHECKSUMMED]. *)
Definition set_chksum (c : Z * bool) (s : tcp_seg) : tcp_seg :=
  s <| seg_snd := (seg_snd s) <| ss_chksum := c.1 |> <| ss_chksum_swapped := c.2 |>
         <| ss_flags := Z.lor (ss_flags (seg_snd s)) TF_SEG_DATA_CHECKSUMMED |> |>.

Definition add_chksum (chksum len : Z) (s : tcp_seg) : tcp_seg :=
  set_chksum (tcp_seg_add_chksum chksum len (ss_chksum (seg_snd s)) (ss_chksum_swapped (seg_snd s))) s.

Definition set_oversize_left (o : Z) (s : tcp_seg) : tcp_seg :=
  s <| seg_snd := (seg_snd s) <| ss_oversize_left := o |> |>.

Definition or_flags (f : Z) (s : tcp_seg) : tcp_seg := s <| seg_flags := Z.lor (seg_flags s) f |>.

(** [tcp_create_segment] for a pbuf chain that holds [optlen] octets for options
    and the octets [d] in [parts].  There is room for the header: the chain was
    allocated for [PBUF_TRANSPORT]. *)
Definition tcp_create_segment (p : tcp_pcb) (parts : list part) (d : list Z)
    (hdrflags seqno optflags : Z) (n : net) : option (net * option tcp_seg) :=
  let optlen := LWIP_TCP_OPT_LENGTH optflags in
  match next_seg n with
  | (n, false) => Some (n, None)
  | (n, true) =>
      let tot_len := u16 (optlen + p_tot_len d) in
      lwip_assert (optlen <=? tot_len);
      lwip_assert (negb (flagset optflags TF_SEG_DATA_CHECKSUMMED));
      Some (n, Some (TcpSeg (u32 seqno) (Z.land hdrflags 63) (u16 (tot_len - optlen)) (Some d) 1
        (SndSeg (local_port p) (remote_port p) optflags parts 0 0 false)))
  end.

(** [tcp_pbuf_prealloc]: the address of the payload and [*oversize]. *)
Definition tcp_pbuf_prealloc (layer length max_length : Z) (p : tcp_pcb) (apiflags : Z)
    (first_seg : bool) (n : net) : net * option (Z * Z) :=
  let alloc :=
    if (length <? max_length)
       && (flagset apiflags TCP_WRITE_FLAG_MORE
           || (negb (flagset (flags p) TF_NODELAY)
               && (negb first_seg
                   || match unsent p with [] => false | _ => true end
                   || match unacked p with [] => false | _ => true end)))
    then u16 (Z.min max_length (length + TCP_OVERSIZE)) else length in
  match pbuf_alloc_ram layer alloc n with
  | (n, None) => (n, None)
  | (n, Some a) => (n, Some (a, u16 (alloc - length)))
  end.

(** ** [tcp_write] *)

(** One of the queues holds something. *)
Definition queued (p : tcp_pcb) : bool :=
  match unacked p, unsent p with [], [] => false | _, _ => true end.

Definition queuelen_ok (p : tcp_pcb) : bool := (snd_queuelen p =? 0) || queued p.

Definition tcp_write_checks (p : tcp_pcb) (len : Z) : option (tcp_pcb * Z) :=
  if negb (bool_decide (state p = ESTABLISHED)) && negb (bool_decide (state p = CLOSE_WAIT)) &&
     negb (bool_decide (state p = SYN_SENT)) && negb (bool_decide (state p = SYN_RCVD))
  then Some (p, ERR_CONN)
  else if len =? 0 then Some (p, ERR_OK)
  else if snd_buf p <? len then Some (tcp_set_flags TF_NAGLEMEMERR p, ERR_MEM)
  else if Z.min TCP_SND_QUEUELEN (TCP_SNDQUEUELEN_OVERFLOW + 1) <=? snd_queuelen p
  then Some (tcp_set_flags TF_NAGLEMEMERR p, ERR_MEM)
  else
    lwip_assert (if negb (snd_queuelen p =? 0) then queued p else negb (queued p));
    Some (p, ERR_OK).

(** The local variables of [tcp_write]; [w_tampered]: [seg == last_unsent]. *)
Record wr := Wr {
  w_pos : Z; w_queuelen : Z; w_oversize : Z; w_oversize_used : Z; w_oversize_add : Z;
  w_space : Z; w_extendlen : Z; w_concat_p : option part;
  w_concat_chksum : Z * bool; w_concat_chksummed : Z; w_tampered : bool
}.

#[export] Instance eta_wr : EtaRecord wr := fun w =>
  Wr (w_pos w) (w_queuelen w) (w_oversize w) (w_oversize_used w) (w_oversize_add w)
    (w_space w) (w_extendlen w) (w_concat_p w) (w_concat_chksum w) (w_concat_chksummed w)
    (w_tampered w).

Section write.
(** The pcb, the address and the octets of the data, and the flags. *)
Context (p : tcp_pcb) (addr : Z) (arg : list Z) (apiflags : Z).

Definition w_len : Z := Z.of_nat (length arg).
Definition copying : bool := flagset apiflags TCP_WRITE_FLAG_COPY.

(** [len] octets of the data from [pos] on. *)
Definition arg_at (pos len : Z) : list Z := take (Z.to_nat len) (drop (Z.to_nat pos) arg).

Definition mss_local : Z :=
  let m := Z.min (mss p) (Z.min (snd_wnd_max p / 2) 65535) in
  if m =? 0 then mss p else m.

Definition wr_init : wr := Wr 0 (snd_queuelen p) 0 0 0 0 0 None (0, false) 0 false.

(** Phase 1: the room behind the last pbuf. *)
Definition write_phase1 (l : tcp_seg) : option wr :=
  let used := seg_len l + seg_optlen l in
  lwip_assert (used <=? mss_local);
  let space := u16 (mss_local - used) in
  lwip_assert (unsent_oversize p =? ss_oversize_left (seg_snd l));
  let oversize := unsent_oversize p in
  let w := wr_init <| w_oversize := oversize |> <| w_space := space |> in
  w ← (if 0 <? oversize then
         lwip_assert (oversize <=? space);
         let u := Z.min space (Z.min oversize w_len) in
         Some (w <| w_tampered := true |> <| w_oversize_used := u |> <| w_pos := u |>
                 <| w_oversize := oversize - u |> <| w_space := space - u |>)
       else Some w);
  lwip_assert ((w_oversize w =? 0) || (w_pos w =? w_len));
  Some w.

(** Phase 2: a pbuf that will be chained to the last segment, or a longer
    reference when the data follows what its last pbuf refers to.  The inner
    [None] is [goto memerr]. *)
Definition write_phase2 (l : tcp_seg) (w : wr) (n : net) : option (net * option wr) :=
  if (w_pos w <? w_len) && (0 <? w_space w) && (0 <? seg_len l) then
    let seglen := Z.min (w_space w) (w_len - w_pos w) in
    let d := arg_at (w_pos w) seglen in
    let add x w :=
      w <| w_concat_chksum := tcp_seg_add_chksum x seglen (w_concat_chksum w).1 (w_concat_chksum w).2 |>
        <| w_concat_chksummed := u16 (w_concat_chksummed w + seglen) |>
        <| w_pos := u16 (w_pos w + seglen) |> <| w_tampered := true |> in
    let chain q w := w <| w_concat_p := Some q |> <| w_queuelen := u16 (w_queuelen w + 1) |> in
    if copying then
      match tcp_pbuf_prealloc PBUF_RAW seglen (w_space w) p apiflags true n with
      | (n, None) => Some (n, None)
      | (n, Some (a, oversize)) =>
          Some (n, Some (add (LWIP_CHKSUM (Z.odd a) d)
            (chain (Part a seglen false) (w <| w_oversize := oversize |> <| w_oversize_add := oversize |>))))
      end
    else
      let a := addr + w_pos w in
      let x := u16 (Z.lnot (inet_chksum (Z.odd a) d)) in
      q ← last (seg_parts l);
      if pt_rom q && (pt_payload q + pt_len q =? addr) then
        lwip_assert (w_pos w =? 0);
        Some (n, Some (add x (w <| w_extendlen := seglen |>)))
      else
        match next_pbuf n with
        | (n, None) => Some (n, None)
        | (n, Some _) => Some (n, Some (add x (chain (Part a seglen true) w)))
        end
  else Some (n, Some w).

(** Phase 3: the loop that makes new segments ([queue], oldest first).  Every
    round adds a pbuf and ends the loop when there are more than
    [TCP_SND_QUEUELEN] of them. *)
Fixpoint write_phase3 (fuel : nat) (w : wr) (queue : list tcp_seg) (n : net)
  : option (net * option (wr * list tcp_seg)) :=
  if w_pos w <? w_len then
    match fuel with
    | O => None
    | S f =>
        let optlen := LWIP_TCP_OPT_LENGTH 0 in
        let left := u16 (w_len - w_pos w) in
        let max_len := u16 (mss_local - optlen) in
        let seglen := Z.min left max_len in
        let d := arg_at (w_pos w) seglen in
        '(n, chain) ←
          (if copying then
             match tcp_pbuf_prealloc PBUF_TRANSPORT (u16 (seglen + optlen)) mss_local p apiflags
                     match queue with [] => true | _ => false end n with
             | (n, None) => Some (n, None)
             | (n, Some (a, oversize)) =>
                 let a := a + optlen in
                 Some (n, Some ([Part a seglen false], oversize,
                                tcp_seg_add_chksum (LWIP_CHKSUM (Z.odd a) d) seglen 0 false))
             end
           else
             lwip_assert (w_oversize w =? 0);
             match next_pbuf n with
             | (n, None) => Some (n, None)
             | (n, Some _) =>
                 let a := addr + w_pos w in
                 let chksum := u16 (Z.lnot (inet_chksum (Z.odd a) d)) in
                 let c := if negb (Z.land seglen 1 =? 0) then (SWAP_BYTES_IN_WORD chksum, true)
                          else (chksum, false) in
                 match pbuf_alloc_ram PBUF_TRANSPORT optlen n with
                 | (n, None) => Some (n, None)
                 | (n, Some h) => Some (n, Some ([Part (h + optlen) 0 false; Part a seglen true], 0, c))
                 end
             end);
        match chain with
        | None => Some (n, None)
        | Some (parts, oversize, c) =>
            let w := w <| w_oversize := oversize |>
                       <| w_queuelen := u16 (w_queuelen w + Z.of_nat (length parts)) |> in
            if Z.min TCP_SND_QUEUELEN TCP_SNDQUEUELEN_OVERFLOW <? w_queuelen w then Some (n, None)
            else
              '(n, seg) ← tcp_create_segment p parts d 0 (snd_lbb p + w_pos w) 0 n;
              match seg with
              | None => Some (n, None)
              | Some seg =>
                  let seg := set_chksum c (set_oversize_left oversize seg) in
                  write_phase3 f (w <| w_pos := u16 (w_pos w + seglen) |>) (queue ++ [seg]) n
              end
        end
    end
  else Some (n, Some (w, queue)).

(** The commit: the changes of the last segment of the queue. *)
Definition grow_last_part (k : Z) (parts : list part) : list part :=
  match last parts with
  | Some q => removelast parts ++ [q <| pt_len := pt_len q + k |>]
  | None => parts
  end.

Definition commit_oversize (w : wr) (l : tcp_seg) : option tcp_seg :=
  let l := if negb (w_oversize_add w =? 0)
           then set_oversize_left (u16 (ss_oversize_left (seg_snd l) + w_oversize_add w)) l else l in
  if 0 <? w_oversize_used w then
    let u := w_oversize_used w in
    let d := arg_at 0 u in
    let odd := match last (seg_parts l) with
               | Some q => Z.odd (pt_payload q + pt_len q)
               | None => false
               end in
    let l := set_data (grow_last_part u (seg_parts l)) (seg_data l ++ d) l in
    let l := add_chksum (LWIP_CHKSUM odd d) u l in
    let l := l <| seg_len := u16 (seg_len l + u) |> in
    lwip_assert (u <=? ss_oversize_left (seg_snd l));
    Some (set_oversize_left (ss_oversize_left (seg_snd l) - u) l)
  else Some l.

Definition commit_concat (w : wr) (l : tcp_seg) : option tcp_seg :=
  let at_ := w_oversize_used w in     (* where the data of phase 2 begins *)
  let l :=
    match w_concat_p w with
    | Some q =>
        set_data (seg_parts l ++ [q]) (seg_data l ++ arg_at at_ (pt_len q)) l
          <| seg_len := u16 (seg_len l + pt_len q) |>
    | None =>
        if 0 <? w_extendlen w then
          set_data (grow_last_part (w_extendlen w) (seg_parts l))
                   (seg_data l ++ arg_at at_ (w_extendlen w)) l
            <| seg_len := u16 (seg_len l + w_extendlen w) |>
        else l
    end in
  if negb (w_concat_chksummed w =? 0) then
    lwip_assert (match w_concat_p w with Some _ => true | None => 0 <? w_extendlen w end);
    let '(c, swapped) := w_concat_chksum w in
    let c := if swapped : bool then SWAP_BYTES_IN_WORD c else c in
    Some (add_chksum c (w_concat_chksummed w) l)
  else Some l.

(** [TCPH_SET_FLAG] on the last segment tampered with. *)
Definition push_last (q : list tcp_seg) : list tcp_seg :=
  match last q with
  | Some s => removelast q ++ [or_flags TCP_PSH s]
  | None => q
  end.

Definition tcp_write (n : net) : option (tcp_pcb * net * Z) :=
  '(p0, err) ← tcp_write_checks p w_len;
  if negb (err =? ERR_OK) then Some (p0, n, err)
  else
    '(n, r) ←
      match last (unsent p) with
      | Some l => w ← write_phase1 l; write_phase2 l w n
      | None => lwip_assert (unsent_oversize p =? 0); Some (n, Some wr_init)
      end;
    '(n, r) ← match r with
              | None => Some (n, None)
              | Some w => write_phase3 (Z.to_nat (TCP_SND_QUEUELEN + 1)) w [] n
              end;
    match r with
    | None => lwip_assert queuelen_ok p; Some (tcp_set_flags TF_NAGLEMEMERR p, n, ERR_MEM)
    | Some (w, queue) =>
        head ← match last (unsent p) with
               | Some l => l ← commit_oversize w l; l ← commit_concat w l;
                           Some (removelast (unsent p) ++ [l])
               | None => lwip_assert (match w_concat_p w with None => true | Some _ => false end);
                         Some []
               end;
        let q := head ++ queue in
        let q := if match queue with [] => w_tampered w | _ => true end
                    && negb (flagset apiflags TCP_WRITE_FLAG_MORE)
                 then push_last q else q in
        let p := p <| unsent := q |> <| unsent_oversize := w_oversize w |>
                   <| snd_lbb := u32 (snd_lbb p + w_len) |> <| snd_buf := u16 (snd_buf p - w_len) |>
                   <| snd_queuelen := w_queuelen w |> in
        lwip_assert queuelen_ok p;
        Some (p, n, ERR_OK)
    end.

End write.

(** ** [tcp_split_unsent_seg] *)

(** [pbuf_realloc] of the chain, in octets of data. *)
Fixpoint parts_realloc (n : Z) (parts : list part) : list part :=
  match parts with
  | [] => []
  | q :: r => if pt_len q <? n then q :: parts_realloc (n - pt_len q) r else [q <| pt_len := n |>]
  end.

(** The checksum over a chain, pbuf by pbuf. *)
Fixpoint chksum_parts (parts : list part) (d : list Z) (c : Z * bool) : Z * bool :=
  match parts with
  | [] => c
  | q :: r =>
      let x := u16 (Z.lnot (inet_chksum (Z.odd (pt_payload q)) (take (Z.to_nat (pt_len q)) d))) in
      chksum_parts r (drop (Z.to_nat (pt_len q)) d) (tcp_seg_add_chksum x (pt_len q) c.1 c.2)
  end.

(** The flags that move to the remainder. *)
Definition remainder_flags (hdrflags : Z) : Z :=
  Z.lor (Z.land hdrflags TCP_PSH) (Z.land hdrflags TCP_FIN).

(** The head after the split.  [TCPH_SET_FLAG] only adds flags: those that are
    cleared in [split_flags] stay. *)
Definition split_head (split : Z) (useg : tcp_seg) : tcp_seg :=
  let split_flags := Z.land (seg_flags useg) (Z.lnot (Z.lor TCP_PSH TCP_FIN)) in
  let d := p_realloc split (seg_data useg) in
  let parts := parts_realloc split (seg_parts useg) in
  let useg := or_flags split_flags (set_oversize_left 0 (set_data parts d useg <| seg_len := split |>)) in
  let '(c, swapped) := chksum_parts parts d (0, false) in
  useg <| seg_snd := (seg_snd useg) <| ss_chksum := c |> <| ss_chksum_swapped := swapped |> |>.

Definition tcp_split_unsent_seg (p : tcp_pcb) (split : Z) (n : net) : option (tcp_pcb * net * Z) :=
  match unsent p with
  | [] => Some (p, n, ERR_MEM)
  | useg :: rest =>
      lwip_assert (negb (split =? 0));
      if seg_len useg <=? split then Some (p, n, ERR_OK)
      else
        lwip_assert (split <=? mss p);
        let optflags := Z.land (ss_flags (seg_snd useg)) (Z.lnot TF_SEG_DATA_CHECKSUMMED) in
        let optlen := LWIP_TCP_OPT_LENGTH optflags in
        let remainder := seg_len useg - split in
        match pbuf_alloc_ram PBUF_TRANSPORT (u16 (remainder + optlen)) n with
        | (n, None) => Some (p, n, ERR_MEM)
        | (n, Some a) =>
            (* [pbuf_copy_partial] *)
            let d := take (Z.to_nat remainder) (drop (Z.to_nat split) (seg_data useg)) in
            if negb (p_tot_len d =? remainder) then Some (p, n, ERR_MEM)
            else
              let c := tcp_seg_add_chksum (u16 (Z.lnot (inet_chksum (Z.odd (a + optlen)) d))) remainder 0 false in
              '(n, seg) ← tcp_create_segment p [Part (a + optlen) remainder false] d
                            (remainder_flags (seg_flags useg)) (seg_seqno useg + split) optflags n;
              match seg with
              | None => None          (* the pbuf is freed, and then freed again *)
              | Some seg =>
                  let seg := set_chksum c seg in
                  let useg' := split_head split useg in
                  let p := p <| snd_queuelen :=
                             u16 (snd_queuelen p - seg_clen useg + seg_clen useg' + seg_clen seg) |>
                             <| unsent := useg' :: seg :: rest |> in
                  Some (match rest with [] => p <| unsent_oversize := 0 |> | _ => p end, n, ERR_OK)
              end
        end
  end.

(** ** SYN and FIN *)

Definition tcp_enqueue_flags (p : tcp_pcb) (fl : Z) (n : net) : option (tcp_pcb * net * Z) :=
  lwip_assert (flagset fl (Z.lor TCP_SYN TCP_FIN));
  let optflags := if flagset fl TCP_SYN then TF_SEG_OPTS_MSS else 0 in
  let optlen := LWIP_TCP_OPT_LENGTH optflags in
  let nomem n := Some (tcp_set_flags TF_NAGLEMEMERR p, n, ERR_MEM) in
  match pbuf_alloc_ram PBUF_TRANSPORT optlen n with
  | (n, None) => nomem n
  | (n, Some a) =>
      '(n, seg) ← tcp_create_segment p [Part (a + optlen) 0 false] [] fl (snd_lbb p) optflags n;
      match seg with
      | None => nomem n
      | Some seg =>
          lwip_assert (seg_len seg =? 0);
          let p := p <| unsent := unsent p ++ [seg] |> <| unsent_oversize := 0 |>
                     <| snd_lbb := u32 (snd_lbb p + 1) |> in
          let p := if flagset fl TCP_FIN then tcp_set_flags TF_FIN p else p in
          let p := p <| snd_queuelen := u16 (snd_queuelen p + seg_clen seg) |> in
          lwip_assert queuelen_ok p;
          Some (p, n, ERR_OK)
      end
  end.

Definition tcp_send_fin (p : tcp_pcb) (n : net) : option (tcp_pcb * net * Z) :=
  match last (unsent p) with
  | Some l =>
      if negb (flagset (seg_flags l) (Z.lor (Z.lor TCP_SYN TCP_FIN) TCP_RST))
      then Some (tcp_set_flags TF_FIN (p <| unsent := removelast (unsent p) ++ [or_flags TCP_FIN l] |>), n, ERR_OK)
      else tcp_enqueue_flags p TCP_FIN n
  | None => tcp_enqueue_flags p TCP_FIN n
  end.

(** ** [tcp_output] *)

Section output.
Context `{ip6 : ip6_layer} (s : Net.net) (tcp_ticks : Z).

Definition tcp_route (p : option tcp_pcb) (src dst : ip_addr) : option netif :=
  match p with
  | Some p => if negb (netif_idx p =? NETIF_NO_INDEX) then netif_get_by_index (netif_idx p) s
              else ip_route src dst s
  | None => ip_route src dst s
  end.

(** The MTU [tcp_eff_send_mss_netif] looks up. *)
Definition netif_path_mtu (outif : netif) (dest : ip_addr) : Z :=
  if IP_IS_V6_VAL dest then nd6_get_destination_mtu (ip_2_ip6 dest) (Some outif) s else nif_mtu outif.

(** The pbufs of a segment as the checksum code sees them: the header is in
    front of the data of the first one. *)
Fixpoint data_chunks (parts : list part) (d : list Z) : list chunk :=
  match parts with
  | [] => []
  | q :: r => Chunk (Z.odd (pt_payload q)) (take (Z.to_nat (pt_len q)) d)
              :: data_chunks r (drop (Z.to_nat (pt_len q)) d)
  end.

Definition seg_chunks (hdr : list Z) (seg : tcp_seg) : list chunk :=
  match data_chunks (seg_parts seg) (seg_data seg) with
  | c :: r => Chunk (xorb (odd_addr c) (Z.odd (Z.of_nat (length hdr)))) (hdr ++ octets c) :: r
  | [] => []
  end.

(** The header of a segment: [ackno], [wnd] and the options are those of the
    moment; the checksum is zero. *)
Definition segment_header (seg : tcp_seg) (p : tcp_pcb) (outif : netif) : tcp_hdr :=
  TcpHdr (ss_src (seg_snd seg)) (ss_dest (seg_snd seg)) (seg_seqno seg) (rcv_nxt p) (seg_flags seg)
    (Z.min (rcv_ann_wnd p) 65535) 0 0
    (if flagset (ss_flags (seg_snd seg)) TF_SEG_OPTS_MSS
     then TCP_BUILD_MSS_OPTION
            (tcp_eff_send_mss_netif TCP_MSS (Some (netif_path_mtu outif (remote_ip p))) (remote_ip p))
     else []).

(** The checksum: the header afresh, the data as it was when it was copied. *)
Definition segment_chksum (seg : tcp_seg) (p : tcp_pcb) (hdr : tcp_hdr) : option Z :=
  let tot_len := u16 (h_len hdr + p_tot_len (seg_data seg)) in
  lwip_assert (flagset (ss_flags (seg_snd seg)) TF_SEG_DATA_CHECKSUMMED || (tot_len =? h_len hdr));
  acc ← ip_chksum_pseudo_partial (seg_chunks (encode_header hdr) seg) IP_PROTO_TCP tot_len (h_len hdr)
          (local_ip p) (remote_ip p);
  let c := ss_chksum (seg_snd seg) in
  let c := if ss_chksum_swapped (seg_snd seg) then SWAP_BYTES_IN_WORD c else c in
  let acc := u32 (u16 (Z.lnot acc) + c) in
  Some (u16 (Z.lnot (FOLD_U32T acc))).

(** A header with its checksum. *)
Definition with_chksum (c : Z) (h : tcp_hdr) : tcp_hdr :=
  TcpHdr (h_src h) (h_dest h) (h_seqno h) (h_ackno h) (h_flags h) (h_wnd h) (lwip_htons c) (h_urgp h)
    (h_opts h).

(** The error code [ip_output_if] returns for a segment. *)
Definition ip_answer (n : net) : net * Z :=
  let '(n, a) := next_answer n in (n, default ERR_MEM a).

(** [tcp_output_segment]; what it does to the segment (the swapped checksum) it
    undoes. *)
Definition tcp_output_segment (seg : tcp_seg) (p : tcp_pcb) (outif : netif) (n : net)
  : option (tcp_pcb * net * Z) :=
  if tcp_output_segment_busy seg then Some (p, n, ERR_OK)
  else
    let hdr := segment_header seg p outif in
    let p := p <| rcv_ann_right_edge := u32 (rcv_nxt p + rcv_ann_wnd p) |> in
    let p := if rtime p <? 0 then p <| rtime := 0 |> else p in
    let p := if rttest p =? 0 then p <| rttest := tcp_ticks |> <| rtseq := seg_seqno seg |> else p in
    chksum ← segment_chksum seg p hdr;
    let packet := encode_header (with_chksum chksum hdr) ++ seg_data seg in
    let n := emit (Packet packet (local_ip p) (remote_ip p) (ttl p) (tos p)) n in
    let '(n, err) := ip_answer n in
    Some (p, n, err).

(** A segment that has been sent joins the [unacked] queue: at the end, or in
    order if it was retransmitted. *)
Definition unacked_add (seg : tcp_seg) (q : list tcp_seg) : list tcp_seg :=
  match last q with
  | None => [seg]
  | Some useg => if TCP_SEQ_LT (seg_seqno seg) (seg_seqno useg) then unsent_insert seg q else q ++ [seg]
  end.

Definition fits (wnd : Z) (p : tcp_pcb) (seg : tcp_seg) : bool :=
  u32 (seg_seqno seg - lastack p + seg_len seg) <=? wnd.

(** What happens to the pcb when its first unsent segment [seg] has been sent;
    [rest] are the others. *)
Definition segment_sent (seg : tcp_seg) (rest : list tcp_seg) (p : tcp_pcb) : tcp_pcb :=
  let seg := set_oversize_left 0 seg in
  let p := p <| unsent := rest |> in
  let p := if negb (bool_decide (state p = SYN_SENT))
           then tcp_clear_flags (Z.lor TF_ACK_DELAY TF_ACK_NOW) p else p in
  let nxt := u32 (seg_seqno seg + TCP_TCPLEN seg) in
  let p := if TCP_SEQ_LT (snd_nxt p) nxt then p <| snd_nxt := nxt |> else p in
  if 0 <? TCP_TCPLEN seg then p <| unacked := unacked_add seg (unacked p) |> else p.

(** The [while] loop, on the unsent segments.  [Some err]: [return err]. *)
Fixpoint output_loop (wnd : Z) (outif : netif) (segs : list tcp_seg) (p : tcp_pcb) (n : net)
  : option (tcp_pcb * net * option Z) :=
  match segs with
  | [] => Some (p, n, None)
  | seg :: rest =>
      if fits wnd p seg then
        lwip_assert (negb (flagset (seg_flags seg) TCP_RST));
        if negb (tcp_do_output_nagle p) && negb (flagset (flags p) (Z.lor TF_NAGLEMEMERR TF_FIN))
        then Some (p, n, None)
        else
          let seg := if negb (bool_decide (state p = SYN_SENT)) then or_flags TCP_ACK seg else seg in
          let p := p <| unsent := seg :: rest |> in
          '(p, n, err) ← tcp_output_segment seg p outif n;
          if negb (err =? ERR_OK) then Some (tcp_set_flags TF_NAGLEMEMERR p, n, Some err)
          else output_loop wnd outif rest (segment_sent seg rest p) n
      else Some (p, n, None)
  end.

Definition output_done (p : tcp_pcb) : tcp_pcb := tcp_clear_flags TF_NAGLEMEMERR p.

(** The empty ACK that [tcp_output] sends when it has been asked for one and
    sends no data. *)
Definition output_ack (p : tcp_pcb) (n : net) : tcp_pcb * net * Z :=
  match next_answer n with
  | (_, None) => (tcp_send_empty_ack p n, ERR_BUF)
  | (_, Some err) => (tcp_send_empty_ack p n, err)
  end.

Definition ack_or_done (p : tcp_pcb) (n : net) : tcp_pcb * net * Z :=
  if tcp_is_flag_set TF_ACK_NOW p then output_ack p n else (output_done p, n, ERR_OK).

(** Start the persist timer: the window of the peer is too small for the next
    segment and nothing is in flight. *)
Definition start_persist (wnd : Z) (p : tcp_pcb) : tcp_pcb :=
  if (wnd =? snd_wnd p) && match unacked p with [] => true | _ => false end && (persist_backoff p =? 0)
  then p <| persist_cnt := 0 |> <| persist_backoff := 1 |> <| persist_probe := 0 |>
  else p.

(** [tcp_output]; [busy]: [tcp_input_pcb] is this pcb. *)
Definition tcp_output (busy : bool) (p : tcp_pcb) (n : net) : option (tcp_pcb * net * Z) :=
  lwip_assert (negb (bool_decide (state p = LISTEN)));
  if busy then Some (p, n, ERR_OK)
  else
    let wnd := Z.min (snd_wnd p) (cwnd p) in
    match unsent p with
    | [] => Some (ack_or_done p n)
    | seg :: _ =>
        match tcp_route (Some p) (local_ip p) (remote_ip p) with
        | None => Some (p, n, ERR_RTE)
        | Some outif =>
            match (if ip_addr_isany_val (local_ip p) then ip_netif_get_local_ip outif (remote_ip p) s
                   else Some (local_ip p)) with
            | None => Some (p, n, ERR_RTE)
            | Some local =>
                let p := p <| local_ip := local |> in
                if negb (fits wnd p seg) then Some (ack_or_done (start_persist wnd p) n)
                else
                  let p := p <| persist_backoff := 0 |> in
                  '(p, n, err) ← output_loop wnd outif (unsent p) p n;
                  match err with
                  | Some err => Some (p, n, err)
                  | None =>
                      let p := match unsent p with [] => p <| unsent_oversize := 0 |> | _ => p end in
                      Some (output_done p, n, ERR_OK)
                  end
            end
        end
    end.

(** ** Control segments *)

(** [tcp_output_alloc_header_common]: the header it writes. *)
Definition control_header (ackno seqno src_port dst_port fl wnd : Z) : tcp_hdr :=
  TcpHdr src_port dst_port (u32 seqno) (u32 ackno) (Z.land fl 63) wnd 0 0 [].

(** [tcp_output_control_segment]: the octets that go to IP. *)
Definition control_octets (odd : bool) (h : tcp_hdr) (d : list Z) (src dst : ip_addr) : list Z :=
  let packet := encode_header h ++ d in
  let c := ip_chksum_pseudo [Chunk odd packet] IP_PROTO_TCP (u16 (Z.of_nat (length packet))) src dst in
  encode_header (with_chksum c h) ++ d.

Definition tcp_output_control_segment (p : option tcp_pcb) (odd : bool) (h : tcp_hdr) (d : list Z)
    (src dst : ip_addr) (n : net) : net * Z :=
  match tcp_route p src dst with
  | None => (n, ERR_RTE)
  | Some _ =>
      let '(ttl, tos) := match p with Some p => (ttl p, tos p) | None => (TCP_TTL, 0) end in
      ip_answer (emit (Packet (control_octets odd h d src dst) src dst ttl tos) n)
  end.

(** The packets that [tcp_send_empty_ack] and [tcp_rst] of TcpIn.v stand for.
    The window of a reset is converted to network order twice. *)
Definition empty_ack_header (p : tcp_pcb) : tcp_hdr :=
  control_header (rcv_nxt p) (snd_nxt p) (local_port p) (remote_port p) TCP_ACK (Z.min (rcv_ann_wnd p) 65535).

Definition rst_header (seqno ackno local_port remote_port : Z) : tcp_hdr :=
  control_header ackno seqno local_port remote_port (Z.lor TCP_RST TCP_ACK) (lwip_htons TCP_WND).

(** [tcp_output_alloc_header]: the address of the packet, and the pcb. *)
Definition tcp_output_alloc_header (datalen : Z) (p : tcp_pcb) (n : net) : tcp_pcb * net * option Z :=
  match pbuf_alloc_ram PBUF_IP (u16 (TCP_HLEN + datalen)) n with
  | (n, None) => (p, n, None)
  | (n, Some a) => (p <| rcv_ann_right_edge := u32 (rcv_nxt p + rcv_ann_wnd p) |>, n, Some a)
  end.

Definition tcp_keepalive (p : tcp_pcb) (n : net) : tcp_pcb * net * Z :=
  match tcp_output_alloc_header 0 p n with
  | (p, n, None) => (p, n, ERR_MEM)
  | (p, n, Some a) =>
      let h := control_header (rcv_nxt p) (snd_nxt p - 1) (local_port p) (remote_port p) TCP_ACK
                 (Z.min (rcv_ann_wnd p) 65535) in
      let '(n, err) := tcp_output_control_segment (Some p) (Z.odd a) h [] (local_ip p) (remote_ip p) n in
      (p, n, err)
  end.

(** [tcp_zero_window_probe]: the first octet of the head of [unsent], or its
    FIN.  No result: a head that is neither data nor FIN, whose probe would
    carry an octet nobody wrote. *)
Definition tcp_zero_window_probe (p : tcp_pcb) (n : net) : option (tcp_pcb * net * Z) :=
  match unsent p with
  | [] => Some (p, n, ERR_OK)
  | seg :: _ =>
      let p := if persist_probe p <? 255 then p <| persist_probe := persist_probe p + 1 |> else p in
      let is_fin := flagset (seg_flags seg) TCP_FIN && (seg_len seg =? 0) in
      let len := if is_fin then 0 else 1 in
      match tcp_output_alloc_header len p n with
      | (p, n, None) => Some (p, n, ERR_MEM)
      | (p, n, Some a) =>
          let h := control_header (rcv_nxt p) (seg_seqno seg) (local_port p) (remote_port p)
                     (if is_fin then Z.lor TCP_ACK TCP_FIN else TCP_ACK) (Z.min (rcv_ann_wnd p) 65535) in
          d ← if is_fin then Some [] else (fun b => [b]) <$> head (seg_data seg);
          let nxt := u32 (seg_seqno seg + 1) in
          let p := if TCP_SEQ_LT (snd_nxt p) nxt then p <| snd_nxt := nxt |> else p in
          let '(n, err) := tcp_output_control_segment (Some p) (Z.odd a) h d (local_ip p) (remote_ip p) n in
          Some (p, n, err)
      end
  end.

End output.
