(* ===== verification/TcpControl.v ===== *)
(** * Opening, closing and allocating connections (core/c/core/tcp.c)

    The calls an application makes on a pcb (new, bind, listen, connect, recved,
    shutdown, close, abort, arg, err, poll, setprio), the allocation of pcbs with
    the connections it kills when memory is short, the choice of local ports and
    initial sequence numbers, and what a change of the address of an interface
    does.  The pcbs live in the store of TcpProcess.v: a name that is not in it
    has been freed, and the code that still uses it has no result.  The bound pcbs
    are a list and the [next] pointer of its last element, [None] unless a pcb was
    registered twice. *)

From S2P Require Import Prelude Err IpAddr NetifDefs Net TcpDefs TcpIn TcpOut TcpProcess.

(** ** The static variables of tcp.c *)

(** What the stack of TcpProcess.v calls the rest of the program: the variables
    of tcp.c that TCP input does not use, [tcp_input_pcb], the IP layer, the
    answers of [memp_malloc(MEMP_TCP_PCB)] and [memp_malloc(MEMP_TCP_PCB_LISTEN)]
    to come, and the application.  The list of bound pcbs ends with [NULL] ([None])
    unless a pcb has been bound twice, which leads it back to that pcb. *)
Record ctl (A : Type) := Ctl {
  ctl_app : A;
  ctl_ip : Net.net;
  ctl_ticks : Z;                      (* tcp_ticks *)
  ctl_timer : Z;                      (* tcp_timer *)
  ctl_timer_ctr : Z;                  (* tcp_timer_ctr *)
  ctl_port : Z;                       (* tcp_port *)
  ctl_iss : Z;                        (* iss of tcp_next_iss *)
  tcp_bound_pcbs : list positive;
  tcp_bound_next : option positive;   (* the [next] of the last of them *)
  tcp_input_pcb : option positive;
  pcb_mem : list bool
}.
Arguments Ctl {A}. Arguments ctl_app {A}. Arguments ctl_ip {A}. Arguments ctl_ticks {A}.
Arguments ctl_timer {A}. Arguments ctl_timer_ctr {A}. Arguments ctl_port {A}. Arguments ctl_iss {A}.
Arguments tcp_bound_pcbs {A}. Arguments tcp_bound_next {A}. Arguments tcp_input_pcb {A}. Arguments pcb_mem {A}.

#[export] Instance eta_ctl A : EtaRecord (ctl A) := fun c =>
  Ctl (ctl_app c) (ctl_ip c) (ctl_ticks c) (ctl_timer c) (ctl_timer_ctr c) (ctl_port c) (ctl_iss c)
    (tcp_bound_pcbs c) (tcp_bound_next c) (tcp_input_pcb c) (pcb_mem c).

Definition TCP_SND_BUF : Z := TCP_WND.
Definition TCP_LOCAL_PORT_RANGE_START : Z := 49152.
Definition TCP_LOCAL_PORT_RANGE_END : Z := 65535.
Definition TCP_PRIO_NORMAL : Z := 64.
Definition TCP_PRIO_MAX : Z := 127.
Definition INITIAL_MSS : Z := 536.
Definition TCP_SLOW_INTERVAL : Z := 500.
Definition TCP_KEEPIDLE_DEFAULT : Z := 7200000.
Definition TCP_WND_UPDATE_THRESHOLD : Z := Z.min (TCP_WND / 4) (TCP_MSS * 4).

(** A [struct tcp_pcb *] of the application: a connection or a listener. *)
Inductive handle := Conn (l : positive) | Lstn (l : positive).

Section control.
Context {A : Type} `{!tcp_env (ctl A)} `{!ip6_layer}.
Notation st := (stack (ctl A)).

Definition on_ctl (f : ctl A -> ctl A) (s : st) : st := s <| rest := f (rest s) |>.
Definition put (l : positive) (p : tcp_pcb) (s : st) : st := s <| pcbs := <[l := p]> (pcbs s) |>.
Definition put_listener (l : positive) (p : tcp_pcb_listen) (s : st) : st :=
  s <| listeners := <[l := p]> (listeners s) |>.

(** Is this the pcb [tcp_input] is working on? *)
Definition input_busy (l : positive) (s : st) : bool := bool_decide (tcp_input_pcb (rest s) = Some l).

Definition bound_without (l : positive) (s : st) : st :=
  on_ctl (fun c => c <| tcp_bound_pcbs := tcp_rmv l (tcp_bound_pcbs c) |>) s.

(** [TCP_RMV(&tcp_bound_pcbs, pcb)].  In a circular list it looks for ever for a pcb
    that is not there: no result.  The pcb that the list leads back to stays in the
    list, and its caller frees it or hangs it into another list: the model ends
    there, without a result too. *)
Definition bound_rmv (l : positive) (s : st) : option st :=
  match tcp_bound_next (rest s) with
  | None => Some (bound_without l s)
  | Some x =>
      lwip_assert (bool_decide (l ∈ tcp_bound_pcbs (rest s)) && negb (bool_decide (x = l)));
      Some (bound_without l s)
  end.

(** A pcb with the local port [port] leaves the bound ones. *)
Definition unbind (port : Z) (l : positive) (s : st) : option st :=
  if negb (port =? 0) then bound_rmv l s else Some s.

(** [TCP_RMV_ACTIVE], [TCP_PCB_REMOVE_ACTIVE] and [TCP_REG_ACTIVE]. *)
Definition rmv_active (l : positive) (s : st) : st :=
  s <| tcp_active_pcbs := tcp_rmv l (tcp_active_pcbs s) |> <| tcp_active_pcbs_changed := true |>.
Definition pcb_remove_active (l : positive) (p : tcp_pcb) (s : st) : st :=
  (tcp_pcb_remove_active (input_busy l s) l p s).1 <| tcp_active_pcbs_changed := true |>.
Definition reg_active (l : positive) (s : st) : option st :=
  s ← tcp_timer_needed (s <| tcp_active_pcbs := l :: tcp_active_pcbs s |>);
  Some (s <| tcp_active_pcbs_changed := true |>).

(** [tcp_output(pcb)] of a pcb in the store. *)
Definition output (l : positive) (s : st) : option (st * Z) :=
  p ← pcbs s !! l;
  '(p, n, err) ← TcpOut.tcp_output (ctl_ip (rest s)) (ctl_ticks (rest s)) (input_busy l s) p (s_net s);
  Some (put l p (s <| s_net := n |>), err).

(** [tcp_write(pcb, arg, len, apiflags)] of a pcb in the store; [addr]: where the
    data is. *)
Definition write (l : positive) (addr : Z) (arg : list Z) (apiflags : Z) (s : st) : option (st * Z) :=
  p ← pcbs s !! l;
  '(p, n, err) ← tcp_write p addr arg apiflags (s_net s);
  Some (put l p (s <| s_net := n |>), err).

(** ** Closing *)

(** [tcp_close_shutdown_fin]: where a FIN leads. *)
Definition after_fin (from : tcp_state) : option tcp_state :=
  match from with
  | SYN_RCVD | ESTABLISHED => Some FIN_WAIT_1
  | CLOSE_WAIT => Some LAST_ACK
  | _ => None
  end.

Definition tcp_close_shutdown_fin (l : positive) (s : st) : option (st * Z) :=
  p ← pcbs s !! l;
  match after_fin (state p) with
  | None => Some (s, ERR_OK)
  | Some st' =>
      '(p, n, err) ← tcp_send_fin p (s_net s);
      let s := s <| s_net := n |> in
      if err =? ERR_OK then
        '(s, _) ← output l (put l (p <| state := st' |>) s);
        Some (s, ERR_OK)
      else if err =? ERR_MEM then Some (put l (tcp_set_flags TF_CLOSEPEND p) s, ERR_OK)
      else Some (put l p s, err)
  end.

(** Data the application has not taken. *)
Definition unread (p : tcp_pcb) : bool :=
  match refused_data p with Some _ => true | None => negb (rcv_wnd p =? TCP_WND) end.

Definition tcp_close_shutdown (l : positive) (rst_on_unacked_data : bool) (s : st) : option (st * Z) :=
  p ← pcbs s !! l;
  if rst_on_unacked_data && bool_decide (state p = ESTABLISHED \/ state p = CLOSE_WAIT) && unread p then
    lwip_assert (tcp_is_flag_set TF_RXCLOSED p);
    let s := s <| s_net := tcp_rst (snd_nxt p) (rcv_nxt p) (local_ip p) (remote_ip p) (local_port p)
                             (remote_port p) (s_net s) |> in
    let s := rmv_active l (put l (tcp_pcb_purge p) s) in
    Some (if input_busy l s then s <| close_triggered := true |> else tcp_free l s, ERR_OK)
  else
    match state p with
    | CLOSED =>
        s ← unbind (local_port p) l s;
        Some (tcp_free l s, ERR_OK)
    | LISTEN => None                    (* a listener is not in this store *)
    | SYN_SENT => Some (tcp_free l (pcb_remove_active l p s), ERR_OK)
    | _ => tcp_close_shutdown_fin l s
    end.

(** [tcp_remove_listener] on the list [pcblist].  A walk over all the bound pcbs
    does not end when the list is circular. *)
Definition bound_walk (s : st) : option (list positive) :=
  match tcp_bound_next (rest s) with None => Some (tcp_bound_pcbs (rest s)) | Some _ => None end.

Fixpoint tcp_remove_listener (pcblist : list positive) (lid : positive) (s : st) : option st :=
  match pcblist with
  | [] => Some s
  | l :: r =>
      p ← pcbs s !! l;
      tcp_remove_listener r lid
        (if decide (listener p = Some lid) then put l (p <| listener := None |>) s else s)
  end.

Definition tcp_listen_closed (lid : positive) (s : st) : option st :=
  bound ← bound_walk s;
  s ← tcp_remove_listener bound lid s;
  s ← tcp_remove_listener (tcp_active_pcbs s) lid s;
  tcp_remove_listener (tcp_tw_pcbs s) lid s.

(** [tcp_close_shutdown] of a listener. *)
Definition close_listener (lid : positive) (s : st) : option (st * Z) :=
  lp ← listeners s !! lid;
  s ← tcp_listen_closed lid s;
  Some (s <| tcp_listen_pcbs := tcp_rmv lid (tcp_listen_pcbs s) |>
          <| listeners := delete lid (listeners s) |>, ERR_OK).

Definition tcp_close (h : handle) (s : st) : option (st * Z) :=
  match h with
  | Lstn lid => close_listener lid s
  | Conn l =>
      p ← pcbs s !! l;
      tcp_close_shutdown l true (put l (tcp_set_flags TF_RXCLOSED p) s)
  end.

Definition tcp_shutdown (h : handle) (shut_rx shut_tx : bool) (s : st) : option (st * Z) :=
  match h with
  | Lstn lid => lp ← listeners s !! lid; Some (s, ERR_CONN)
  | Conn l =>
      p ← pcbs s !! l;
      let s := if shut_rx then put l (tcp_set_flags TF_RXCLOSED p) s else s in
      if shut_rx && shut_tx then tcp_close_shutdown l true s
      else
        p ← pcbs s !! l;
        let s := if shut_rx then put l (p <| refused_data := None |> <| refused_fin := false |>) s else s in
        if shut_tx then
          match state p with
          | SYN_RCVD | ESTABLISHED | CLOSE_WAIT => tcp_close_shutdown l shut_rx s
          | _ => Some (s, ERR_CONN)
          end
        else Some (s, ERR_OK)
  end.

(** [tcp_abandon] in every state; TcpProcess.v has that of an active pcb. *)
Definition tcp_abandon (l : positive) (reset : bool) (s : st) : option st :=
  p ← pcbs s !! l;
  match state p with
  | LISTEN => None
  | TIME_WAIT => Some (tcp_free l (s <| tcp_tw_pcbs := tcp_rmv l (tcp_tw_pcbs s) |>))
  | CLOSED =>
      s ← unbind (local_port p) l s;
      TCP_EVENT_ERR (errf p) (callback_arg p) ERR_ABRT (tcp_free l s)
  | _ => TcpProcess.tcp_abandon (input_busy l s) reset l p s
  end.

Definition tcp_abort (l : positive) (s : st) : option st := tcp_abandon l true s.

(** [tcp_accept_null], the callback of a listener that was given none. *)
Definition tcp_accept_null (l : positive) (s : st) : option (st * Z) :=
  s ← tcp_abort l s; Some (s, ERR_ABRT).

(** ** Local ports *)

Definition conn_ends (pcblist : list positive) (s : st) : option (list (ip_addr * Z)) :=
  mapM (fun l => (fun p => (local_ip p, local_port p)) <$> pcbs s !! l) pcblist.

Definition listener_ends (s : st) : option (list (ip_addr * Z)) :=
  mapM (fun l => (fun p => (l_local_ip p, l_local_port p)) <$> listeners s !! l) (tcp_listen_pcbs s).

(** The local ends of all pcbs, in the order of [tcp_pcb_lists], as far as a walk
    gets: not beyond the bound pcbs when their list is circular. *)
Definition ends_met (s : st) : option (list (ip_addr * Z)) :=
  a ← listener_ends s;
  b ← conn_ends (tcp_bound_pcbs (rest s)) s;
  match tcp_bound_next (rest s) with
  | Some _ => Some (a ++ b)
  | None =>
      c ← conn_ends (tcp_active_pcbs s) s;
      d ← conn_ends (tcp_tw_pcbs s) s;
      Some (a ++ b ++ c ++ d)
  end.

(** The loops over all lists that leave when they find what they look for: in a
    circular list they look for ever for what is not there. *)
Definition find_end (f : ip_addr * Z -> bool) (s : st) : option bool :=
  ends ← ends_met s;
  if existsb f ends then Some true
  else match tcp_bound_next (rest s) with Some _ => None | None => Some false end.

Definition next_port (port : Z) : Z :=
  let port := u16 (port + 1) in
  if port =? TCP_LOCAL_PORT_RANGE_END then TCP_LOCAL_PORT_RANGE_START else port.

(** [tcp_new_port] from the label [again]: the new [tcp_port] and the result.
    Every turn but the last counts [n] up, which the code limits. *)
Fixpoint new_port (fuel : nat) (used : Z -> option bool) (n port : Z) : option (Z * Z) :=
  match fuel with
  | O => None
  | Datatypes.S fuel =>
      let port := next_port port in
      taken ← used port;
      if taken : bool then
        let n := u16 (n + 1) in
        if TCP_LOCAL_PORT_RANGE_END - TCP_LOCAL_PORT_RANGE_START <? n then Some (port, 0)
        else new_port fuel used n port
      else Some (port, port)
  end.

Definition tcp_new_port_fueled (fuel : nat) (s : st) : option (st * Z) :=
  '(port, r) ← new_port fuel (fun port => find_end (fun e => e.2 =? port) s) 0 (ctl_port (rest s));
  Some (on_ctl (fun c => c <| ctl_port := port |>) s, r).

Definition tcp_new_port (s : st) : option (st * Z) := tcp_new_port_fueled (Z.to_nat 16384) s.

(** [tcp_init]; [rand]: what [LWIP_RAND()] gives. *)
Definition TCP_ENSURE_LOCAL_PORT_RANGE (port : Z) : Z :=
  u16 (Z.land port (65535 - TCP_LOCAL_PORT_RANGE_START) + TCP_LOCAL_PORT_RANGE_START).
Definition tcp_init (rand : Z) (s : st) : st :=
  on_ctl (fun c => c <| ctl_port := TCP_ENSURE_LOCAL_PORT_RANGE rand |>) s.

(** ** Binding and listening *)

(** The conflict test of [tcp_bind]. *)
Definition bind_conflict (ipaddr : ip_addr) (port : Z) (e : ip_addr * Z) : bool :=
  (e.2 =? port) && Bool.eqb (IP_IS_V6_VAL ipaddr) (IP_IS_V6_VAL e.1) &&
  (ip_addr_isany_val e.1 || ip_addr_isany_val ipaddr || ip_addr_cmp e.1 ipaddr).

Definition bind_zone (ipaddr : ip_addr) (s : st) : ip_addr :=
  if IP_IS_V6_VAL ipaddr && ip6_addr_lacks_zone (ip_2_ip6 ipaddr) IP6_UNICAST
  then IpAddr (ip6_addr_select_zone (ip_2_ip6 ipaddr) (ip_2_ip6 ipaddr) (ctl_ip (rest s))) (ip_type ipaddr)
  else ipaddr.

(** What is in front of a pcb in a list. *)
Fixpoint in_front_of (l : positive) (pcblist : list positive) : list positive :=
  match pcblist with
  | [] => []
  | x :: r => if decide (x = l) then [] else x :: in_front_of l r
  end.

(** [TCP_REG(&tcp_bound_pcbs, pcb)].  When the pcb is in the list already, what was
    in front of it follows it now and leads back to it; what was behind is lost. *)
Definition reg_bound (l : positive) (s : st) : option st :=
  let r := tcp_bound_pcbs (rest s) in
  tcp_timer_needed
    (on_ctl (fun c =>
       if bool_decide (l ∈ r)
       then c <| tcp_bound_pcbs := l :: in_front_of l r |> <| tcp_bound_next := Some l |>
       else c <| tcp_bound_pcbs := l :: r |>) s).

(** [tcp_bind]; the null address is [None]. *)
Definition tcp_bind (l : positive) (ipaddr : option ip_addr) (port : Z) (s : st) : option (st * Z) :=
  let ipaddr := default ip_addr_any ipaddr in
  p ← pcbs s !! l;
  lwip_assert (bool_decide (state p = CLOSED));
  let ipaddr := bind_zone ipaddr s in
  '(s, port, err) ←
    (if port =? 0 then
       '(s, port) ← tcp_new_port s;
       Some (s, port, if port =? 0 then ERR_BUF else ERR_OK)
     else
       conflict ← find_end (bind_conflict ipaddr port) s;
       Some (s, port, if conflict : bool then ERR_USE else ERR_OK));
  if negb (err =? ERR_OK) then Some (s, err)
  else
    let p := if negb (ip_addr_isany_val ipaddr) || negb (ip_type ipaddr =? ip_type (local_ip p))
             then p <| local_ip := ip_addr_set ipaddr |> else p in
    s ← reg_bound l (put l (p <| local_port := port |>) s);
    Some (s, ERR_OK).

Definition tcp_bind_netif (l : positive) (n : option netif) (s : st) : option st :=
  p ← pcbs s !! l;
  Some (put l (p <| netif_idx := match n with Some n => netif_get_index n | None => NETIF_NO_INDEX end |>) s).

(** A name for a new block of memory. *)
Definition new_name {B} (m : gmap positive B) : positive :=
  Pos.succ (map_fold (fun k _ acc => Pos.max k acc) 1%positive m).

Definition next_pcb_mem (s : st) : st * bool :=
  match pcb_mem (rest s) with
  | b :: r => (on_ctl (fun c => c <| pcb_mem := r |>) s, b)
  | [] => (s, false)
  end.

(** [tcp_listen_with_backlog_and_err]: the listener or [NULL], and the error. *)
Definition tcp_listen_with_backlog_and_err (l : positive) (s : st)
  : option (st * option positive * Z) :=
  p ← pcbs s !! l;
  lwip_assert (bool_decide (state p = CLOSED));
  match next_pcb_mem s with
  | (s, false) => Some (s, None, ERR_MEM)
  | (s, true) =>
      let lid := new_name (listeners s) in
      let lp := TcpPcbListen (local_ip p) (local_port p) NETIF_NO_INDEX (prio p) (so_options p)
                  (callback_arg p) in
      s ← unbind (local_port p) l s;
      let s := put_listener lid lp (tcp_free l s) in
      s ← tcp_timer_needed (s <| tcp_listen_pcbs := lid :: tcp_listen_pcbs s |>);
      Some (s, Some lid, ERR_OK)
  end.

Definition tcp_listen_with_backlog (l : positive) (s : st) : option (st * option positive) :=
  '(s, lid, _) ← tcp_listen_with_backlog_and_err l s; Some (s, lid).

(** ** The receive window *)

Definition recved_wnd (p : tcp_pcb) (len : Z) : Z :=
  let wnd := u16 (rcv_wnd p + len) in
  if (TCP_WND <? wnd) || (wnd <? rcv_wnd p) then TCP_WND else wnd.

Definition tcp_recved (l : positive) (len : Z) (s : st) : option st :=
  p ← pcbs s !! l;
  lwip_assert (negb (bool_decide (state p = LISTEN)));
  '(p, wnd_inflation) ← tcp_update_rcv_ann_wnd (p <| rcv_wnd := recved_wnd p len |>);
  if TCP_WND_UPDATE_THRESHOLD <=? wnd_inflation then
    '(s, _) ← output l (put l (tcp_ack_now p) s);
    Some s
  else Some (put l p s).

(** [tcp_recv_null], the callback of a connection that was given none: [None] is
    the end of the stream. *)
Definition tcp_recv_null (l : positive) (d : option (list Z)) (err : Z) (s : st) : option (st * Z) :=
  match d with
  | Some d => s ← tcp_recved l (u16 (p_tot_len d)) s; Some (s, ERR_OK)
  | None => if err =? ERR_OK then tcp_close (Conn l) s else Some (s, ERR_OK)
  end.

(** ** Connecting *)

Definition tcp_next_iss (s : st) : st * Z :=
  let iss := u32 (ctl_iss (rest s) + ctl_ticks (rest s)) in
  (on_ctl (fun c => c <| ctl_iss := iss |>) s, iss).

Definition connect_netif (p : tcp_pcb) (s : st) : option netif :=
  if negb (netif_idx p =? NETIF_NO_INDEX) then netif_get_by_index (netif_idx p) (ctl_ip (rest s))
  else ip_route (local_ip p) (remote_ip p) (ctl_ip (rest s)).

(** The pcb [tcp_connect] sends the SYN from. *)
Definition init_active (iss : Z) (n : netif) (s : st) (p : tcp_pcb) : tcp_pcb :=
  let p := p <| rcv_nxt := 0 |> <| snd_nxt := iss |> <| lastack := u32 (iss - 1) |>
             <| snd_wl2 := u32 (iss - 1) |> <| snd_lbb := u32 (iss - 1) |>
             <| rcv_wnd := TCP_WND |> <| rcv_ann_wnd := TCP_WND |> <| rcv_ann_right_edge := 0 |>
             <| snd_wnd := TCP_WND |> <| cwnd := 1 |> in
  p <| mss := tcp_eff_send_mss_netif INITIAL_MSS
                (Some (netif_path_mtu (ctl_ip (rest s)) n (remote_ip p))) (remote_ip p) |>.

Definition tcp_connect (l : positive) (ipaddr : ip_addr) (port : Z) (s : st) : option (st * Z) :=
  p ← pcbs s !! l;
  lwip_assert (bool_decide (state p = CLOSED));
  let p := p <| remote_ip := ip_addr_set ipaddr |> <| remote_port := port |> in
  match connect_netif p s with
  | None => Some (put l p s, ERR_RTE)
  | Some n =>
      match (if ip_addr_isany_val (local_ip p) then ip_netif_get_local_ip n ipaddr (ctl_ip (rest s))
             else Some (local_ip p)) with
      | None => Some (put l p s, ERR_RTE)
      | Some local =>
          let r := remote_ip p in
          let r := if IP_IS_V6_VAL r && ip6_addr_lacks_zone (ip_2_ip6 r) IP6_UNICAST
                   then IpAddr (ip6_addr_assign_zone (ip_2_ip6 r) IP6_UNICAST (netif_get_index n)) (ip_type r)
                   else r in
          let p := p <| local_ip := local |> <| remote_ip := r |> in
          let old_local_port := local_port p in
          '(s, lport) ← (if old_local_port =? 0 then tcp_new_port (put l p s)
                         else Some (put l p s, old_local_port));
          let p := p <| local_port := lport |> in
          if lport =? 0 then Some (put l p s, ERR_BUF)
          else
            let '(s, iss) := tcp_next_iss s in
            let p := init_active iss n s p in
            '(p, n, ret) ← TcpOut.tcp_enqueue_flags p TCP_SYN (s_net s);
            let s := s <| s_net := n |> in
            if ret =? ERR_OK then
              let s := put l (p <| state := SYN_SENT |>) s in
              s ← unbind old_local_port l s;
              s ← reg_active l s;
              '(s, _) ← output l s;
              Some (s, ret)
            else Some (put l p s, ret)
      end
  end.

(** ** Allocating a pcb *)

(** [(u32_t)(tcp_ticks - pcb->tmr)] *)
Definition inactivity (p : tcp_pcb) (s : st) : Z := u32 (ctl_ticks (rest s) - tmr p).

(** The last of the longest inactive pcbs that satisfy [f]: the loops of
    [tcp_kill_state] and [tcp_kill_timewait]. *)
Fixpoint oldest (f : tcp_pcb -> bool) (pcblist : list positive) (longest : Z) (found : option positive)
    (s : st) : option (option positive) :=
  match pcblist with
  | [] => Some found
  | l :: r =>
      p ← pcbs s !! l;
      if f p && (longest <=? inactivity p s) then oldest f r (inactivity p s) (Some l) s
      else oldest f r longest found s
  end.

(** The loop of [tcp_kill_prio]. *)
Fixpoint least_prio (pcblist : list positive) (mprio longest : Z) (found : option positive) (s : st)
  : option (option positive) :=
  match pcblist with
  | [] => Some found
  | l :: r =>
      p ← pcbs s !! l;
      if (prio p <? mprio) || (prio p =? mprio) && (longest <=? inactivity p s)
      then least_prio r (prio p) (inactivity p s) (Some l) s
      else least_prio r mprio longest found s
  end.

Definition abandon_found (found : option positive) (reset : bool) (s : st) : option st :=
  match found with Some l => tcp_abandon l reset s | None => Some s end.

Definition tcp_kill_prio (prio : Z) (s : st) : option st :=
  let mprio := Z.min TCP_PRIO_MAX prio in
  if mprio =? 0 then Some s
  else
    found ← least_prio (tcp_active_pcbs s) (mprio - 1) 0 None s;
    abandon_found found true s.

Definition tcp_kill_state (which : tcp_state) (s : st) : option st :=
  lwip_assert (bool_decide (which = CLOSING \/ which = LAST_ACK));
  found ← oldest (fun p => bool_decide (state p = which)) (tcp_active_pcbs s) 0 None s;
  abandon_found found false s.

Definition tcp_kill_timewait (s : st) : option st :=
  found ← oldest (fun _ => true) (tcp_tw_pcbs s) 0 None s;
  abandon_found found true s.

(** Send the FIN of a pcb that could not send it before. *)
Definition send_pending_fin (l : positive) (s : st) : option st :=
  p ← pcbs s !! l;
  if tcp_is_flag_set TF_CLOSEPEND p then
    '(s, _) ← tcp_close_shutdown_fin l (put l (tcp_clear_flags TF_CLOSEPEND p) s);
    Some s
  else Some s.

Fixpoint closepend_loop (pcblist : list positive) (s : st) : option st :=
  match pcblist with
  | [] => Some s
  | l :: r => s ← send_pending_fin l s; closepend_loop r s
  end.
Definition tcp_handle_closepend (s : st) : option st := closepend_loop (tcp_active_pcbs s) s.

(** A pcb after [memset] and the initialisations of [tcp_alloc]. *)
Definition zero_addr : ip_addr := IPADDR4_INIT 0.
Definition init_pcb (prio : Z) (s : st) : tcp_pcb :=
  {| local_ip := zero_addr; remote_ip := zero_addr; netif_idx := 0; so_options := 0;
     tos := 0; ttl := TCP_TTL; callback_arg := 0; state := CLOSED; prio := prio; local_port := 0;
     remote_port := 0; flags := 0; polltmr := 0; pollinterval := 0;
     last_timer := ctl_timer_ctr (rest s); tmr := ctl_ticks (rest s);
     rcv_nxt := 0; rcv_wnd := TCP_WND; rcv_ann_wnd := TCP_WND; rcv_ann_right_edge := 0;
     rtime := -1; mss := INITIAL_MSS; rttest := 0; rtseq := 0; sa := 0;
     sv := 3000 / TCP_SLOW_INTERVAL; rto := 3000 / TCP_SLOW_INTERVAL; nrtx := 0; dupacks := 0;
     lastack := 0; cwnd := 1; ssthresh := TCP_SND_BUF; rto_end := 0; snd_nxt := 0; snd_wl1 := 0;
     snd_wl2 := 0; snd_lbb := 0; snd_wnd := 0; snd_wnd_max := 0; snd_buf := TCP_SND_BUF;
     snd_queuelen := 0; unsent_oversize := 0; bytes_acked := 0; unsent := []; unacked := [];
     ooseq := []; refused_data := None; refused_fin := false; listener := None; errf := false;
     keep_idle := TCP_KEEPIDLE_DEFAULT; persist_cnt := 0; persist_backoff := 0; persist_probe := 0;
     keep_cnt_sent := 0 |}.

(** The attempts of [tcp_alloc]: memory, and what is done before the next try. *)
Fixpoint alloc_tries (kills : list (st -> option st)) (s : st) : option (st * bool) :=
  match next_pcb_mem s with
  | (s, true) => Some (s, true)
  | (s, false) =>
      match kills with
      | [] => Some (s, false)
      | kill :: kills => s ← kill s; alloc_tries kills s
      end
  end.

Definition tcp_alloc (prio : Z) (s : st) : option (st * option (positive * tcp_pcb)) :=
  '(s, ok) ← alloc_tries
    [fun s => s ← tcp_handle_closepend s; tcp_kill_timewait s;
     tcp_kill_state LAST_ACK; tcp_kill_state CLOSING; tcp_kill_prio prio] s;
  if ok : bool then
    let l := new_name (pcbs s) in
    let p := init_pcb prio s in
    Some (put l p s, Some (l, p))
  else Some (s, None).

Definition tcp_new (s : st) : option (st * option positive) :=
  '(s, r) ← tcp_alloc TCP_PRIO_NORMAL s; Some (s, match r with Some (l, _) => Some l | None => None end).

Definition tcp_new_ip_type (type : Z) (s : st) : option (st * option positive) :=
  '(s, r) ← tcp_alloc TCP_PRIO_NORMAL s;
  match r with
  | None => Some (s, None)
  | Some (l, p) =>
      let typed a := IpAddr (u_ip6 a) type in
      Some (put l (p <| local_ip := typed (local_ip p) |> <| remote_ip := typed (remote_ip p) |>) s, Some l)
  end.

(** ** Settings *)

Definition tcp_arg (h : handle) (arg : Z) (s : st) : option st :=
  match h with
  | Conn l => p ← pcbs s !! l; Some (put l (p <| callback_arg := arg |>) s)
  | Lstn l =>
      lp ← listeners s !! l;
      Some (put_listener l (TcpPcbListen (l_local_ip lp) (l_local_port lp) (l_netif_idx lp) (l_prio lp)
                              (l_so_options lp) arg) s)
  end.

(** [tcp_err]; of the callback the model keeps whether there is one. *)
Definition tcp_err (l : positive) (has_errf : bool) (s : st) : option st :=
  p ← pcbs s !! l; lwip_assert (negb (bool_decide (state p = LISTEN))); Some (put l (p <| errf := has_errf |>) s).

Definition tcp_poll (l : positive) (interval : Z) (s : st) : option st :=
  p ← pcbs s !! l; lwip_assert (negb (bool_decide (state p = LISTEN)));
  Some (put l (p <| pollinterval := interval |>) s).

Definition tcp_setprio (h : handle) (new_prio : Z) (s : st) : option st :=
  match h with
  | Conn l => p ← pcbs s !! l; Some (put l (p <| prio := new_prio |>) s)
  | Lstn l =>
      lp ← listeners s !! l;
      Some (put_listener l (TcpPcbListen (l_local_ip lp) (l_local_port lp) (l_netif_idx lp) new_prio
                              (l_so_options lp) (l_callback_arg lp)) s)
  end.

(** [tcp_tcp_get_tcp_addrinfo] *)
Definition tcp_tcp_get_tcp_addrinfo (l : positive) (local : bool) (s : st) : option (ip_addr * Z) :=
  p ← pcbs s !! l;
  Some (if local then (local_ip p, local_port p) else (remote_ip p, remote_port p)).

(** ** A change of the address of an interface *)

(** [pcb->next] of a pcb in a list that ends; [TCP_RMV] leaves [NULL]. *)
Fixpoint next_in (l : positive) (pcblist : list positive) : option positive :=
  match pcblist with
  | [] => None
  | x :: r => if decide (x = l) then head r else next_in l r
  end.

(** [pcb->next] of an active and of a bound pcb. *)
Definition next_active (l : positive) (s : st) : option positive := next_in l (tcp_active_pcbs s).
Definition next_bound (l : positive) (s : st) : option positive :=
  if bool_decide (last (tcp_bound_pcbs (rest s)) = Some l) then tcp_bound_next (rest s)
  else next_in l (tcp_bound_pcbs (rest s)).

(** The cursor of [tcp_netif_ip_addr_changed_pcblist]: [pcb->next] is read before the
    pcb is aborted.  [next]: the list.  It has no pcb more than there were at the
    start; a circular list uses up the fuel. *)
Fixpoint ip_addr_changed_loop (fuel : nat) (next : positive -> st -> option positive) (old_addr : ip_addr)
    (pcb : option positive) (s : st) : option st :=
  match pcb with
  | None => Some s
  | Some l =>
      match fuel with
      | O => None
      | Datatypes.S fuel =>
          p ← pcbs s !! l;
          let pcb := next l s in
          s ← (if ip_addr_cmp (local_ip p) old_addr then tcp_abort l s else Some s);
          ip_addr_changed_loop fuel next old_addr pcb s
      end
  end.

Definition tcp_netif_ip_addr_changed_pcblist (pcblist : list positive)
    (next : positive -> st -> option positive) (old_addr : ip_addr) (s : st) : option st :=
  ip_addr_changed_loop (length pcblist) next old_addr (head pcblist) s.

(** The listeners on the old address. *)
Fixpoint move_listeners (pcblist : list positive) (old_addr new_addr : ip_addr) (s : st) : option st :=
  match pcblist with
  | [] => Some s
  | l :: r =>
      lp ← listeners s !! l;
      move_listeners r old_addr new_addr
        (if ip_addr_cmp (l_local_ip lp) old_addr
         then put_listener l (TcpPcbListen new_addr (l_local_port lp) (l_netif_idx lp) (l_prio lp)
                                (l_so_options lp) (l_callback_arg lp)) s
         else s)
  end.

(** [tcp_netif_ip_addr_changed]; [new_addr] is [None] when the interface is
    removed. *)
Definition tcp_netif_ip_addr_changed (old_addr : ip_addr) (new_addr : option ip_addr) (s : st) : option st :=
  if ip_addr_isany_val old_addr then Some s
  else
    s ← tcp_netif_ip_addr_changed_pcblist (tcp_active_pcbs s) next_active old_addr s;
    s ← tcp_netif_ip_addr_changed_pcblist (tcp_bound_pcbs (rest s)) next_bound old_addr s;
    match new_addr with
    | Some new_addr => if ip_addr_isany_val new_addr then Some s
                       else move_listeners (tcp_listen_pcbs s) old_addr new_addr s
    | None => Some s
    end.
End control.

(** ** What TCP input calls *)

#[export] Instance ctl_world {A} `{!tcp_env (ctl A)} `{!ip6_layer} : tcp_world (ctl A) := {
  tcp_output s p :=
    '(p, n, _) ← TcpOut.tcp_output (ctl_ip (rest s)) (ctl_ticks (rest s)) false p (s_net s);
    Some (s <| s_net := n |>, p);
  tcp_enqueue_flags fl s p :=
    '(p, n, err) ← TcpOut.tcp_enqueue_flags p fl (s_net s);
    Some (s <| s_net := n |>, p, err);
  tcp_alloc := tcp_alloc;
  tcp_next_iss := tcp_next_iss;
  path_mtu s src dest :=
    match ip_route src dest (ctl_ip (rest s)) with
    | Some n => Some (netif_path_mtu (ctl_ip (rest s)) n dest)
    | None => if IP_IS_V6_VAL dest
              then Some (nd6_get_destination_mtu (ip_2_ip6 dest) None (ctl_ip (rest s)))
              else None
    end
}.
