(* ===== verification/TcpTimers.v ===== *)
(** * The TCP timers (core/c/core/tcp.c)

    [tcp_tmr] and what it calls: the fast timer (delayed acknowledgements, pending
    FINs, refused data), the slow timer (retransmission, persist timer, keepalive,
    the time limits of the states, polling) and [tcp_txnow].  The timers walk the
    list of active pcbs while callbacks of the application may change it: they
    start again when it has changed, and skip the pcbs marked with the number of
    this run. *)

From S2P Require Import Prelude Err IpAddr NetifDefs Net TcpDefs TcpIn TcpOut TcpProcess TcpControl.

Definition tcp_backoff : list Z := [1; 2; 3; 4; 5; 6; 7; 7; 7; 7; 7; 7; 7].
Definition tcp_persist_backoff : list Z := [3; 6; 12; 24; 48; 96; 120].

Definition TCP_FIN_WAIT_TIMEOUT : Z := 20000.
Definition TCP_SYN_RCVD_TIMEOUT : Z := 20000.
Definition TCP_OOSEQ_TIMEOUT : Z := 6.
Definition TCP_MSL : Z := 60000.
Definition TCP_KEEPINTVL_DEFAULT : Z := 75000.
Definition TCP_KEEPCNT_DEFAULT : Z := 9.
Definition TCP_MAXIDLE : Z := TCP_KEEPCNT_DEFAULT * TCP_KEEPINTVL_DEFAULT.
Definition SOF_KEEPALIVE : Z := 8.

(** ** Walking the list

    A cursor: the pcb before ([prev] of the slow timer) and the pcb.  One turn of
    a loop moves it, or puts it back to the head of the list.  No result: no fuel
    is left; an inner [None]: an assertion failed or freed memory was used. *)
Definition cursor : Type := option positive * option positive.

Fixpoint run_loop {S : Type} (turn : option positive -> positive -> S -> option (cursor * S))
    (fuel : nat) (c : cursor) (s : S) : option (option S) :=
  match c.2 with
  | None => Some (Some s)
  | Some l =>
      match fuel with
      | O => None
      | Datatypes.S fuel =>
          match turn c.1 l s with
          | None => Some None
          | Some (c, s) => run_loop turn fuel c s
          end
      end
  end.

Section timers.
Context {A : Type} `{!tcp_env (ctl A)} `{!ip6_layer}.
Notation st := (stack (ctl A)).

Definition first_active (s : st) : cursor := (None, head (tcp_active_pcbs s)).
Definition set_changed (b : bool) (s : st) : st := s <| tcp_active_pcbs_changed := b |>.

(** Start a turn of a loop: [None] if the pcb has been seen in this run. *)
Definition mark (l : positive) (p : tcp_pcb) (s : st) : option st :=
  if last_timer p =? ctl_timer_ctr (rest s) then None
  else Some (put l (p <| last_timer := ctl_timer_ctr (rest s) |>) s).

Definition next_timer_ctr (s : st) : st :=
  on_ctl (fun c => c <| ctl_timer_ctr := u8 (ctl_timer_ctr c + 1) |>) s.

(** ** The fast timer *)

Definition send_delayed_ack (l : positive) (s : st) : option st :=
  p ← pcbs s !! l;
  if tcp_is_flag_set TF_ACK_DELAY p then
    '(s, _) ← output l (put l (tcp_ack_now p) s);
    p ← pcbs s !! l;
    Some (put l (tcp_clear_flags (Z.lor TF_ACK_DELAY TF_ACK_NOW) p) s)
  else Some s.

(** Offer refused data again; the pcb is gone if the callback says so. *)
Definition offer_refused_data (l : positive) (s : st) : option st :=
  p ← pcbs s !! l;
  '(s, p, err) ← tcp_process_refused_data p s;
  Some (if err =? ERR_ABRT then s else put l p s).

Definition fast_turn (prev : option positive) (l : positive) (s : st) : option (cursor * st) :=
  p ← pcbs s !! l;
  match mark l p s with
  | None => Some ((None, next_in l (tcp_active_pcbs s)), s)
  | Some s =>
      s ← send_delayed_ack l s;
      s ← send_pending_fin l s;
      p ← pcbs s !! l;
      let next := next_in l (tcp_active_pcbs s) in
      match refused_data p with
      | None => Some ((None, next), s)
      | Some _ =>
          s ← offer_refused_data l (set_changed false s);
          Some (if tcp_active_pcbs_changed s then first_active s else (None, next), s)
      end
  end.

Definition tcp_fasttmr (fuel : nat) (s : st) : option (option st) :=
  let s := next_timer_ctr s in
  run_loop fast_turn fuel (first_active s) s.

(** ** The slow timer: retransmission *)

(** The persist timer of a pcb: the window of the peer is too small for what is
    next, and nothing is in flight.  The flag: the limit of probes is reached. *)
Definition persist_due (p : tcp_pcb) (s : st) : option (tcp_pcb * net * bool) :=
  if snd_wnd p =? 0 then
    '(p, n, err) ← tcp_zero_window_probe (ctl_ip (rest s)) p (s_net s);
    Some (p, n, err =? ERR_OK)
  else
    '(p, n, err) ← tcp_split_unsent_seg p (u16 (snd_wnd p)) (s_net s);
    if err =? ERR_OK then
      '(p, n, err) ← TcpOut.tcp_output (ctl_ip (rest s)) (ctl_ticks (rest s)) false p n;
      Some (p, n, negb (err =? ERR_OK))
    else Some (p, n, true).

Definition next_persist_slot (p : tcp_pcb) : tcp_pcb :=
  let p := p <| persist_cnt := 0 |> in
  if persist_backoff p <? 7 then p <| persist_backoff := persist_backoff p + 1 |> else p.

Definition slow_persist (l : positive) (p : tcp_pcb) (s : st) : option (st * bool) :=
  lwip_assert (match unacked p with [] => true | _ => false end);
  lwip_assert (match unsent p with [] => false | _ => true end);
  if TCP_MAXRTX <=? persist_probe p then Some (s, true)
  else
    backoff_cnt ← tcp_persist_backoff !! Z.to_nat (persist_backoff p - 1);
    let p := if persist_cnt p <? backoff_cnt then p <| persist_cnt := persist_cnt p + 1 |> else p in
    if backoff_cnt <=? persist_cnt p then
      '(p, n, next_slot) ← persist_due p s;
      Some (put l (if next_slot : bool then next_persist_slot p else p) (s <| s_net := n |>), false)
    else Some (put l p s, false).

(** The new time-out and the congestion window after a time-out. *)
Definition backoff_rto (p : tcp_pcb) : tcp_pcb :=
  if bool_decide (state p = SYN_SENT) then p
  else
    let k := nth (Z.to_nat (Z.min (nrtx p) 12)) tcp_backoff 0 in
    let calc_rto := Z.shiftl (Z.shiftr (sa p) 3 + sv p) k in
    p <| rto := s16 (Z.min calc_rto 32767) |>.

Definition timeout_window (p : tcp_pcb) : tcp_pcb :=
  let p := p <| rtime := 0 |> in
  let eff_wnd := Z.min (cwnd p) (snd_wnd p) in
  let twice := u16 (Z.shiftl (mss p) 1) in
  let th := Z.shiftr eff_wnd 1 in
  p <| ssthresh := if th <? twice then twice else th |> <| cwnd := mss p |> <| bytes_acked := 0 |>.

Definition slow_rto (l : positive) (p : tcp_pcb) (s : st) : option st :=
  let p := if (0 <=? rtime p) && (rtime p <? 32767) then p <| rtime := rtime p + 1 |> else p in
  if rto p <=? rtime p then
    let '(p, err) := tcp_rexmit_rto_prepare p in
    if (err =? ERR_OK) ||
       match unacked p, unsent p with [], _ :: _ => true | _, _ => false end
    then
      let p := tcp_rexmit_rto_commit (timeout_window (backoff_rto p)) in
      '(s, _) ← output l (put l p s);
      Some s
    else Some (put l p s)
  else Some (put l p s).

(** The first half of the body of the loop; the flag: remove the pcb. *)
Definition slow_retransmit (l : positive) (s : st) : option (st * bool) :=
  p ← pcbs s !! l;
  if bool_decide (state p = SYN_SENT) && (TCP_SYNMAXRTX <=? nrtx p) then Some (s, true)
  else if TCP_MAXRTX <=? nrtx p then Some (s, true)
  else if 0 <? persist_backoff p then slow_persist l p s
  else s ← slow_rto l p s; Some (s, false).

(** ** The slow timer: time limits *)

Definition stuck_in_fin_wait_2 (p : tcp_pcb) (s : st) : bool :=
  bool_decide (state p = FIN_WAIT_2) && tcp_is_flag_set TF_RXCLOSED p &&
  (TCP_FIN_WAIT_TIMEOUT / TCP_SLOW_INTERVAL <? inactivity p s).

Definition stuck_in_syn_rcvd (p : tcp_pcb) (s : st) : bool :=
  bool_decide (state p = SYN_RCVD) && (TCP_SYN_RCVD_TIMEOUT / TCP_SLOW_INTERVAL <? inactivity p s).

Definition stuck_in_last_ack (p : tcp_pcb) (s : st) : bool :=
  bool_decide (state p = LAST_ACK) && (2 * TCP_MSL / TCP_SLOW_INTERVAL <? inactivity p s).

Definition kept_alive (p : tcp_pcb) : bool :=
  flagset (so_options p) SOF_KEEPALIVE && bool_decide (state p = ESTABLISHED \/ state p = CLOSE_WAIT).

Definition keepalive_timeout (p : tcp_pcb) (s : st) : bool :=
  kept_alive p && ((keep_idle p + TCP_MAXIDLE) / TCP_SLOW_INTERVAL <? inactivity p s).

Definition slow_keepalive (l : positive) (p : tcp_pcb) (s : st) : st :=
  if kept_alive p && negb (keepalive_timeout p s) &&
     ((keep_idle p + keep_cnt_sent p * TCP_KEEPINTVL_DEFAULT) / TCP_SLOW_INTERVAL <? inactivity p s)
  then
    let '(p, n, err) := tcp_keepalive (ctl_ip (rest s)) p (s_net s) in
    let p := if err =? ERR_OK then p <| keep_cnt_sent := u8 (keep_cnt_sent p + 1) |> else p in
    put l p (s <| s_net := n |>)
  else s.

Definition tcp_free_ooseq (p : tcp_pcb) : tcp_pcb := p <| ooseq := [] |>.

Definition drop_stale_ooseq (p : tcp_pcb) (s : st) : tcp_pcb :=
  match ooseq p with
  | [] => p
  | _ => if u32 (u32 (rto p) * TCP_OOSEQ_TIMEOUT) <=? inactivity p s then tcp_free_ooseq p else p
  end.

(** What the slow timer does to one pcb: should it be removed, with a reset? *)
Definition slow_pcb (l : positive) (s : st) : option (st * bool * bool) :=
  '(s, failed) ← slow_retransmit l s;
  p ← pcbs s !! l;
  let stuck := stuck_in_fin_wait_2 p s in
  let dead := keepalive_timeout p s in
  let s := slow_keepalive l p s in
  p ← pcbs s !! l;
  let p := drop_stale_ooseq p s in
  Some (put l p s, failed || stuck || dead || stuck_in_syn_rcvd p s || stuck_in_last_ack p s, dead).

(** ** The slow timer: removal and polling *)

Definition slow_remove (prev : option positive) (l : positive) (reset : bool) (s : st)
  : option (cursor * st) :=
  p ← pcbs s !! l;
  let p := tcp_pcb_purge p in
  let next := next_in l (tcp_active_pcbs s) in
  lwip_assert (Bool.eqb (bool_decide (prev = None)) (bool_decide (head (tcp_active_pcbs s) = Some l)));
  let s := s <| tcp_active_pcbs := tcp_rmv l (tcp_active_pcbs s) |> in
  let s := if reset
           then s <| s_net := tcp_rst (snd_nxt p) (rcv_nxt p) (local_ip p) (remote_ip p) (local_port p)
                                (remote_port p) (s_net s) |>
           else s in
  s ← TCP_EVENT_ERR (errf p) (callback_arg p) ERR_ABRT (set_changed false (tcp_free l s));
  Some (if tcp_active_pcbs_changed s then first_active s else (prev, next), s).

Definition slow_poll (l : positive) (s : st) : option (cursor * st) :=
  p ← pcbs s !! l;
  let next := next_in l (tcp_active_pcbs s) in
  let p := p <| polltmr := u8 (polltmr p + 1) |> in
  if pollinterval p <=? polltmr p then
    '(s, err) ← event_poll l (set_changed false (put l (p <| polltmr := 0 |>) s));
    if tcp_active_pcbs_changed s then Some (first_active s, s)
    else if err =? ERR_OK then '(s, _) ← output l s; Some ((Some l, next), s)
    else Some ((Some l, next), s)
  else Some ((Some l, next), put l p s).

Definition active_state (p : tcp_pcb) : bool :=
  negb (bool_decide (state p = CLOSED)) && negb (bool_decide (state p = LISTEN)) &&
  negb (bool_decide (state p = TIME_WAIT)).

Definition slow_turn (prev : option positive) (l : positive) (s : st) : option (cursor * st) :=
  p ← pcbs s !! l;
  lwip_assert (active_state p);
  match mark l p s with
  | None => Some ((Some l, next_in l (tcp_active_pcbs s)), s)
  | Some s =>
      '(s, remove, reset) ← slow_pcb l s;
      if remove : bool then slow_remove prev l reset s else slow_poll l s
  end.

(** The pcbs in TIME-WAIT. *)
Definition stuck_in_time_wait (p : tcp_pcb) (s : st) : bool :=
  2 * TCP_MSL / TCP_SLOW_INTERVAL <? inactivity p s.

Fixpoint tw_loop (pcblist : list positive) (s : st) : option st :=
  match pcblist with
  | [] => Some s
  | l :: r =>
      p ← pcbs s !! l;
      lwip_assert (bool_decide (state p = TIME_WAIT));
      tw_loop r (if stuck_in_time_wait p s
                 then tcp_free l (s <| tcp_tw_pcbs := tcp_rmv l (tcp_tw_pcbs s) |>) else s)
  end.

Definition next_tick (s : st) : st :=
  on_ctl (fun c => c <| ctl_ticks := u32 (ctl_ticks c + 1) |>) (next_timer_ctr s).

Definition tcp_slowtmr (fuel : nat) (s : st) : option (option st) :=
  let s := next_tick s in
  r ← run_loop slow_turn fuel (first_active s) s;
  Some (s ← r; tw_loop (tcp_tw_pcbs s) s).

(** ** [tcp_tmr] and [tcp_txnow] *)

Definition tcp_tmr (fuel : nat) (s : st) : option (option st) :=
  r ← tcp_fasttmr fuel s;
  match r with
  | None => Some None
  | Some s =>
      let s := on_ctl (fun c => c <| ctl_timer := u8 (ctl_timer c + 1) |>) s in
      if Z.odd (ctl_timer (rest s)) then tcp_slowtmr fuel s else Some (Some s)
  end.

Fixpoint txnow_loop (pcblist : list positive) (s : st) : option st :=
  match pcblist with
  | [] => Some s
  | l :: r =>
      p ← pcbs s !! l;
      s ← (if tcp_is_flag_set TF_NAGLEMEMERR p then '(s, _) ← output l s; Some s else Some s);
      txnow_loop r s
  end.
Definition tcp_txnow (s : st) : option st := txnow_loop (tcp_active_pcbs s) s.
End timers.
