(* ===== verification/TcpPcbs.v ===== *)
(** * The lists of pcbs

    tcp_priv.h states four axioms about the lists of pcbs: every pcb that is not
    CLOSED is in one of them, in only one, the listeners are in state LISTEN and
    the pcbs of [tcp_tw_pcbs] in TIME-WAIT.  Here they are an invariant of the
    calls of the application and of the timers, unless a pcb is bound twice:
    [tcp_bind_twice] shows what the second call does to the list. *)

From S2P Require Import Prelude Err IpAddr NetifDefs Net NetExamples TcpDefs TcpIn TcpOut TcpProcess TcpControl TcpTimers.

(** ** What the output engine leaves alone *)

(** The fields of a pcb that say what it is, as opposed to what it has sent. *)
Definition core (p : tcp_pcb) :=
  (state p, last_timer p, tmr p, local_port p, so_options p, keep_idle p, tcp_is_flag_set TF_RXCLOSED p).
Definition ident (p : tcp_pcb) :=
  (core p, (remote_port p, prio p, listener p, errf p), (nrtx p, cwnd p, ssthresh p, rto p, sa p, sv p)).

(** The output engine does not touch the flag [TF_RXCLOSED]. *)
Lemma rxclosed_lor a f : Z.land f TF_RXCLOSED = 0 -> flagset (Z.lor a f) TF_RXCLOSED = flagset a TF_RXCLOSED.
Proof. intros E. unfold flagset. by rewrite Z.land_lor_distr_l, E, Z.lor_0_r. Qed.

Lemma rxclosed_land a m : Z.land m TF_RXCLOSED = TF_RXCLOSED ->
  flagset (Z.land a m) TF_RXCLOSED = flagset a TF_RXCLOSED.
Proof. intros E. unfold flagset. by rewrite <- Z.land_assoc, E. Qed.

Ltac same_ident :=
  first
    [ done
    | unfold ident, core, tcp_is_flag_set, tcp_set_flags, tcp_clear_flags; cbn -[Z.lor Z.land flagset];
      rewrite ?rxclosed_lor, ?rxclosed_land by reflexivity; done ].

Ltac invert_binds :=
  repeat match goal with
  | H : mbind _ ?x = Some _ |- _ =>
      let y := fresh "y" in destruct x as [y|] eqn:?; cbn [mbind option_bind] in H; [|discriminate H]
  | y : _ * _ |- _ => destruct y
  | H : Some _ = Some _ |- _ => simplify_eq H; clear H; intros
  | H : context [match ?x with _ => _ end] |- _ => destruct x eqn:?; try discriminate H
  end; subst.

Lemma send_empty_ack_ident p n : ident (tcp_send_empty_ack p n).1 = ident p.
Proof. unfold tcp_send_empty_ack. destruct (next_answer n) as [n' [err|]]; [|same_ident]. cbn. destruct (negb _); same_ident. Qed.

Section output.
Context `{!ip6_layer} (s : Net.net) (t : Z).

Lemma output_segment_ident seg p outif n p' n' err :
  tcp_output_segment s t seg p outif n = Some (p', n', err) -> ident p' = ident p.
Proof.
  unfold tcp_output_segment. destruct (tcp_output_segment_busy seg); [by intros [= <- <- <-]|].
  set (p1 := p <| rcv_ann_right_edge := _ |>).
  set (p2 := if rtime p1 <? 0 then _ else _). set (p3 := if rttest p2 =? 0 then _ else _).
  assert (E3 : ident p3 = ident p) by (unfold p3, p2; repeat case_match; done).
  clearbody p3. destruct (segment_chksum _ _ _) as [c|]; [|done]. cbn [mbind option_bind].
  destruct (ip_answer _). by intros [= <- <- <-].
Qed.

Lemma segment_sent_ident seg rest p : ident (segment_sent seg rest p) = ident p.
Proof. unfold segment_sent. repeat case_match; same_ident. Qed.

Lemma output_loop_ident wnd outif segs : forall p n p' n' err,
  output_loop s t wnd outif segs p n = Some (p', n', err) -> ident p' = ident p.
Proof.
  induction segs as [|seg rest IH]; intros p n p' n' err; cbn [output_loop]; [by intros [= <- <- <-]|].
  destruct (fits wnd p seg); [|by intros [= <- <- <-]].
  destruct (negb (flagset (seg_flags seg) TCP_RST)); [|done].
  destruct (_ && _); [by intros [= <- <- <-]|].
  set (seg' := if negb _ then _ else _). set (p1 := p <| unsent := _ |>).
  destruct (tcp_output_segment s t seg' p1 outif n) as [[[p2 n2] e2]|] eqn:E2; [|done].
  cbn [mbind option_bind]. apply output_segment_ident in E2.
  destruct (negb (e2 =? ERR_OK)); [intros [= <- <- <-]; transitivity (ident p2); [same_ident|exact E2]|].
  intros E%IH. rewrite E. by rewrite segment_sent_ident.
Qed.

Lemma ack_or_done_ident p n : ident (ack_or_done p n).1.1 = ident p.
Proof.
  unfold ack_or_done, output_ack. destruct (tcp_is_flag_set TF_ACK_NOW p); [|same_ident].
  pose proof (send_empty_ack_ident p n) as E. destruct (tcp_send_empty_ack p n) as [p' n'].
  by destruct (next_answer n) as [? [?|]].
Qed.

Lemma output_ident busy p n p' n' err :
  TcpOut.tcp_output s t busy p n = Some (p', n', err) -> ident p' = ident p.
Proof.
  unfold TcpOut.tcp_output. destruct (negb _); [|done]. destruct busy; [by intros [= <- <- <-]|].
  assert (Hack : forall q, Some (ack_or_done q n) = Some (p', n', err) -> ident p' = ident q).
  { intros q E. pose proof (ack_or_done_ident q n) as Hq. destruct (ack_or_done q n) as [[? ?] ?].
    by injection E as <- <- <-. }
  destruct (unsent p) as [|seg rest]; [apply Hack|].
  destruct (tcp_route s _ _ _) as [outif|]; [|by intros [= <- <- <-]].
  destruct (if ip_addr_isany_val _ then _ else _) as [loc|]; [|by intros [= <- <- <-]].
  destruct (negb (fits _ _ _)).
  - intros E%Hack. rewrite E. unfold start_persist. by destruct (_ && _).
  - destruct (output_loop _ _ _ _ _ _) as [[[p1 n1] [e1|]]|] eqn:E1; [| |done]; cbn [mbind option_bind].
    + intros [= <- <- <-]. by apply output_loop_ident in E1.
    + intros [= <- <- <-]. apply output_loop_ident in E1. change (ident p1 = ident p) in E1. rewrite <- E1.
      destruct (unsent p1); same_ident.
Qed.

Lemma alloc_header_ident len p n : ident (tcp_output_alloc_header len p n).1.1 = ident p.
Proof. unfold tcp_output_alloc_header. by destruct (pbuf_alloc_ram _ _ n) as [? [?|]]. Qed.

Lemma keepalive_ident p n : ident (tcp_keepalive s p n).1.1 = ident p.
Proof.
  unfold tcp_keepalive. pose proof (alloc_header_ident 0 p n) as E.
  destruct (tcp_output_alloc_header 0 p n) as [[p1 n1] [a|]]; [|done].
  by destruct (tcp_output_control_segment _ _ _ _ _ _ _ _).
Qed.

Lemma zero_window_probe_ident p n p' n' err :
  tcp_zero_window_probe s p n = Some (p', n', err) -> ident p' = ident p.
Proof.
  unfold tcp_zero_window_probe. destruct (unsent p) as [|seg rest]; [by intros [= <- <- <-]|].
  set (p1 := if persist_probe p <? 255 then _ else _).
  assert (E1 : ident p1 = ident p) by (unfold p1; by case_match). clearbody p1.
  set (len := if _ && _ then _ else _). pose proof (alloc_header_ident len p1 n) as E2.
  destruct (tcp_output_alloc_header len p1 n) as [[p2 n2] [a|]]; [|intros [= <- <- <-]; cbn in E2; congruence].
  destruct (if _ && _ then Some [] else _) as [d|]; [|done]. cbn [mbind option_bind].
  set (p3 := if TCP_SEQ_LT _ _ then _ else _).
  assert (E3 : ident p3 = ident p2) by (unfold p3; by case_match). clearbody p3.
  destruct (tcp_output_control_segment _ _ _ _ _ _ _ _). intros [= <- <- <-]. cbn in E2. congruence.
Qed.
End output.

Lemma split_ident p split n p' n' err :
  tcp_split_unsent_seg p split n = Some (p', n', err) -> ident p' = ident p.
Proof. unfold tcp_split_unsent_seg. intros. invert_binds; done. Qed.

Lemma enqueue_flags_ident p fl n p' n' err :
  TcpOut.tcp_enqueue_flags p fl n = Some (p', n', err) -> ident p' = ident p.
Proof. unfold TcpOut.tcp_enqueue_flags. intros. invert_binds; same_ident. Qed.

Lemma send_fin_ident p n p' n' err : tcp_send_fin p n = Some (p', n', err) -> ident p' = ident p.
Proof.
  unfold tcp_send_fin. intros.
  destruct (last (unsent p)) as [l|]; [destruct (negb _)|]; try by eapply enqueue_flags_ident.
  invert_binds; same_ident.
Qed.

Lemma update_ann_wnd_ident p p' w : tcp_update_rcv_ann_wnd p = Some (p', w) -> ident p' = ident p.
Proof. unfold tcp_update_rcv_ann_wnd. intros. invert_binds; done. Qed.

Lemma rto_prepare_ident p : ident (tcp_rexmit_rto_prepare p).1 = ident p.
Proof. unfold tcp_rexmit_rto_prepare. repeat case_match; same_ident. Qed.

(** ** The shape of the lists *)

(** What the lists depend on: a pcb is free, free with a local port, active or in
    TIME-WAIT; LISTEN is not a state of a connection. *)
Inductive kind := Kclosed (bound : bool) | Kactive | Ktw | Klisten.

Definition kind_of (p : tcp_pcb) : kind :=
  match state p with
  | CLOSED => Kclosed (negb (local_port p =? 0))
  | TIME_WAIT => Ktw
  | LISTEN => Klisten
  | _ => Kactive
  end.

Record shape := Shape {
  sh_kinds : gmap positive kind;
  sh_act : list positive; sh_tw : list positive; sh_bound : list positive; sh_listen : list positive;
  sh_names : gset positive;            (* the listeners in memory *)
  sh_input : option positive;          (* tcp_input_pcb *)
  sh_marks : gmap positive Z;          (* last_timer *)
  sh_ctr : Z;                          (* tcp_timer_ctr *)
  sh_next : option positive            (* tcp_bound_next *)
}.

#[export] Instance eta_shape : EtaRecord shape := fun h =>
  Shape (sh_kinds h) (sh_act h) (sh_tw h) (sh_bound h) (sh_listen h) (sh_names h) (sh_input h)
    (sh_marks h) (sh_ctr h) (sh_next h).

(** A list that holds each of its pcbs once, and those are of kind [K]. *)
Definition holds (h : shape) (l : list positive) (K : kind) : Prop :=
  NoDup l /\ forall x, x ∈ l -> sh_kinds h !! x = Some K.

(** The axioms of tcp_priv.h.  A pcb whose input is being processed may have left
    the list of active pcbs already. *)
Record sane (h : shape) : Prop := {
  sn_act : holds h (sh_act h) Kactive;
  sn_tw : holds h (sh_tw h) Ktw;
  sn_bound : holds h (sh_bound h) (Kclosed true);
  sn_listen : NoDup (sh_listen h) /\ forall x, x ∈ sh_listen h <-> x ∈ sh_names h;
  sn_all_act x : sh_kinds h !! x = Some Kactive -> x ∈ sh_act h \/ sh_input h = Some x;
  sn_all_tw x : sh_kinds h !! x = Some Ktw -> x ∈ sh_tw h;
  sn_conn x : sh_kinds h !! x <> Some Klisten;
  sn_ends : sh_next h = None
}.

(** The marks of the timers do not matter. *)
Definition unmarked (h : shape) : shape := h <| sh_marks := ∅ |> <| sh_ctr := 0 |>.
Lemma sane_unmarked h h' : sane h -> unmarked h' = unmarked h -> sane h'.
Proof.
  destruct h, h'. intros [] E. unfold unmarked in E. injection E as -> -> -> -> -> -> -> ->. by split.
Qed.

Lemma elem_of_tcp_rmv x l pcblist : NoDup pcblist -> x ∈ tcp_rmv l pcblist <-> x ∈ pcblist /\ x <> l.
Proof.
  induction pcblist as [|y r IH]; intros Hn; cbn [tcp_rmv]; [set_solver|].
  apply NoDup_cons in Hn as [Hy Hn]. destruct (decide (y = l)) as [->|]; [set_solver|].
  rewrite !elem_of_cons, IH by done. naive_solver.
Qed.

Lemma NoDup_tcp_rmv l pcblist : NoDup pcblist -> NoDup (tcp_rmv l pcblist).
Proof.
  induction pcblist as [|y r IH]; intros Hn; cbn [tcp_rmv]; [done|].
  pose proof Hn as [Hy Hr]%NoDup_cons. destruct (decide (y = l)); [done|].
  apply NoDup_cons. split; [|by apply IH]. intros Hin. by apply elem_of_tcp_rmv in Hin as [? _].
Qed.

Lemma tcp_rmv_notin l pcblist : l ∉ pcblist -> tcp_rmv l pcblist = pcblist.
Proof.
  induction pcblist as [|y r IH]; intros Hn; cbn [tcp_rmv]; [done|].
  destruct (decide (y = l)); [set_solver|]. rewrite IH; set_solver.
Qed.

(** Freeing a pcb of kind [K] after it has been taken off its lists. *)
Definition drop (x : positive) (h : shape) : shape :=
  h <| sh_kinds := delete x (sh_kinds h) |> <| sh_marks := delete x (sh_marks h) |>
    <| sh_act := tcp_rmv x (sh_act h) |> <| sh_tw := tcp_rmv x (sh_tw h) |> <| sh_bound := tcp_rmv x (sh_bound h) |>.

Lemma holds_drop x h l K : holds h l K -> holds (drop x h) (tcp_rmv x l) K.
Proof.
  intros [Hn Hk]. split; [by apply NoDup_tcp_rmv|]. intros y [Hy Hx]%elem_of_tcp_rmv; [|done].
  cbn. rewrite lookup_delete_ne by done. by apply Hk.
Qed.

Lemma sane_drop x h : sane h -> sane (drop x h).
Proof.
  intros [Ha Ht Hb Hl Haa Hat Hc Hnx]. split; try by apply holds_drop.
  - done.
  - intros y. cbn. intros [Hx Hk]%lookup_delete_Some. rewrite elem_of_tcp_rmv by apply Ha. naive_solver.
  - intros y. cbn. intros [Hx Hk]%lookup_delete_Some. rewrite elem_of_tcp_rmv by apply Ht. naive_solver.
  - intros y. cbn. intros [Hx Hk]%lookup_delete_Some. by apply (Hc y).
  - done.
Qed.

(** A pcb is only in the list of its kind. *)
Lemma sane_not_in x h K : sane h -> sh_kinds h !! x = Some K ->
  (K <> Kactive -> x ∉ sh_act h) /\ (K <> Ktw -> x ∉ sh_tw h) /\ (K <> Kclosed true -> x ∉ sh_bound h).
Proof.
  intros [[_ Ha] [_ Ht] [_ Hb] _ _ _ _ _] Hk.
  split_and!; intros HK Hin; [apply Ha in Hin|apply Ht in Hin|apply Hb in Hin]; congruence.
Qed.

(** The lists a pcb of kind [K] is taken off when it is freed. *)
Lemma drop_active x h : sane h -> sh_kinds h !! x = Some Kactive ->
  drop x h = h <| sh_kinds := delete x (sh_kinds h) |> <| sh_marks := delete x (sh_marks h) |> <| sh_act := tcp_rmv x (sh_act h) |>.
Proof.
  intros Hs Hk. destruct (sane_not_in x h _ Hs Hk) as (_ & Ht & Hb).
  unfold drop. cbn. by rewrite (tcp_rmv_notin x (sh_tw h)), (tcp_rmv_notin x (sh_bound h)) by (by auto).
Qed.

Lemma drop_tw x h : sane h -> sh_kinds h !! x = Some Ktw ->
  drop x h = h <| sh_kinds := delete x (sh_kinds h) |> <| sh_marks := delete x (sh_marks h) |> <| sh_tw := tcp_rmv x (sh_tw h) |>.
Proof.
  intros Hs Hk. destruct (sane_not_in x h _ Hs Hk) as (Ha & _ & Hb).
  unfold drop. cbn. by rewrite (tcp_rmv_notin x (sh_act h)), (tcp_rmv_notin x (sh_bound h)) by (by auto).
Qed.

Lemma drop_closed x h b : sane h -> sh_kinds h !! x = Some (Kclosed b) ->
  drop x h = h <| sh_kinds := delete x (sh_kinds h) |> <| sh_marks := delete x (sh_marks h) |>
               <| sh_bound := if b then tcp_rmv x (sh_bound h) else sh_bound h |>.
Proof.
  intros Hs Hk. destruct (sane_not_in x h _ Hs Hk) as (Ha & Ht & Hb).
  unfold drop. cbn. rewrite (tcp_rmv_notin x (sh_act h)), (tcp_rmv_notin x (sh_tw h)) by (by auto).
  destruct b; [done|]. by rewrite (tcp_rmv_notin x (sh_bound h)) by (by apply Hb).
Qed.

(** A new pcb, a pcb that is bound, a pcb that becomes active. *)
Lemma sane_new x h : sane h -> sh_kinds h !! x = None ->
  sane (h <| sh_kinds := <[x := Kclosed false]> (sh_kinds h) |>).
Proof.
  intros [Ha Ht Hb Hl Haa Hat Hc Hnx] Hx.
  assert (Hh : forall l K, holds h l K -> holds (h <| sh_kinds := <[x := Kclosed false]> (sh_kinds h) |>) l K).
  { intros l K [Hn Hk]. split; [done|]. intros y Hy. cbn. rewrite lookup_insert_ne; [by apply Hk|].
    intros ->. apply Hk in Hy. congruence. }
  split; try by apply Hh.
  - done.
  - intros y. cbn. intros [[_ [=]]|[_ Hk]]%lookup_insert_Some. by apply Haa.
  - intros y. cbn. intros [[_ [=]]|[_ Hk]]%lookup_insert_Some. by apply Hat.
  - intros y. cbn. intros [[_ [=]]|[_ Hk]]%lookup_insert_Some. by apply (Hc y).
  - done.
Qed.

Lemma sane_bind x b h : sane h -> sh_kinds h !! x = Some (Kclosed b) -> x ∉ sh_bound h ->
  sane (h <| sh_kinds := <[x := Kclosed true]> (sh_kinds h) |> <| sh_bound := x :: sh_bound h |>).
Proof.
  intros Hs Hx Hnb. destruct (sane_not_in x h _ Hs Hx) as (Hna & Hnt & _).
  destruct Hs as [[Hna1 Ha] [Hnt1 Ht] [Hnb1 Hb] Hl Haa Hat Hc Hnx]. split; cbn.
  - split; [done|]. intros y Hy. cbn. rewrite lookup_insert_ne; [by apply Ha|]. intros ->. by apply Hna.
  - split; [done|]. intros y Hy. cbn. rewrite lookup_insert_ne; [by apply Ht|]. intros ->. by apply Hnt.
  - split; [by constructor|]. intros y. cbn. rewrite elem_of_cons. intros [->|Hy]; [by rewrite lookup_insert_eq|].
    rewrite lookup_insert_ne; [by apply Hb|]. by intros ->.
  - done.
  - intros y. intros [[_ [=]]|[_ Hk]]%lookup_insert_Some. by apply Haa.
  - intros y. intros [[_ [=]]|[_ Hk]]%lookup_insert_Some. by apply Hat.
  - intros y. intros [[_ [=]]|[_ Hk]]%lookup_insert_Some. by apply (Hc y).
  - done.
Qed.

Lemma sane_connect x b h : sane h -> sh_kinds h !! x = Some (Kclosed b) ->
  sane (h <| sh_kinds := <[x := Kactive]> (sh_kinds h) |> <| sh_act := x :: sh_act h |>
          <| sh_bound := if b then tcp_rmv x (sh_bound h) else sh_bound h |>).
Proof.
  intros Hs Hx. destruct (sane_not_in x h _ Hs Hx) as (Hna & Hnt & Hnb).
  assert (Eb : (if b then tcp_rmv x (sh_bound h) else sh_bound h) = tcp_rmv x (sh_bound h)).
  { destruct b; [done|]. rewrite tcp_rmv_notin; [done|]. by apply Hnb. }
  rewrite Eb. destruct Hs as [[Hna1 Ha] [Hnt1 Ht] [Hnb1 Hb] Hl Haa Hat Hc Hnx]. split; cbn.
  - split; [constructor; [by apply Hna|done]|]. intros y. cbn. rewrite elem_of_cons.
    intros [->|Hy]; [by rewrite lookup_insert_eq|]. rewrite lookup_insert_ne; [by apply Ha|].
    intros ->. by apply Hna.
  - split; [done|]. intros y Hy. cbn. rewrite lookup_insert_ne; [by apply Ht|]. intros ->. by apply Hnt.
  - split; [by apply NoDup_tcp_rmv|]. intros y [Hy Hyx]%elem_of_tcp_rmv; [|done]. cbn.
    rewrite lookup_insert_ne by done. by apply Hb.
  - done.
  - intros y. rewrite elem_of_cons. intros [[-> _]|[_ Hk]]%lookup_insert_Some; [by left; left|].
    destruct (Haa y Hk); [by left; right|by right].
  - intros y. intros [[_ [=]]|[_ Hk]]%lookup_insert_Some. by apply Hat.
  - intros y. intros [[_ [=]]|[_ Hk]]%lookup_insert_Some. by apply (Hc y).
  - done.
Qed.

Section lists.
Context {A : Type} `{!tcp_env (ctl A)} `{!ip6_layer}.
Notation st := (stack (ctl A)).

Definition shape_of (s : st) : shape :=
  Shape (kind_of <$> pcbs s) (tcp_active_pcbs s) (tcp_tw_pcbs s) (tcp_bound_pcbs (rest s))
    (tcp_listen_pcbs s) (dom (listeners s)) (tcp_input_pcb (rest s))
    (last_timer <$> pcbs s) (ctl_timer_ctr (rest s)) (tcp_bound_next (rest s)).

Lemma kinds_lookup (s : st) l p : pcbs s !! l = Some p -> sh_kinds (shape_of s) !! l = Some (kind_of p).
Proof. intros E. cbn. by rewrite lookup_fmap, E. Qed.

(** What a pcb is for the lists and the timers. *)
Definition role (p : tcp_pcb) : kind * Z := (kind_of p, last_timer p).

(** A pcb that stays what it is. *)
Lemma shape_put l p p' (s : st) :
  pcbs s !! l = Some p -> role p' = role p -> shape_of (put l p' s) = shape_of s.
Proof.
  intros Hp [= Hk Hm]. unfold shape_of, put. cbn. f_equal; rewrite fmap_insert, ?Hk, ?Hm;
    apply insert_id; by rewrite lookup_fmap, Hp.
Qed.

Lemma core_role p p' : core p' = core p -> role p' = role p.
Proof.
  intros E. unfold role, kind_of. unfold core in E. injection E as Es Em _ Ep _ _ _. by rewrite Es, Em, Ep.
Qed.

Lemma ident_core p p' : ident p' = ident p -> core p' = core p.
Proof. intros E. exact (f_equal (fun x => x.1.1) E). Qed.

Lemma ident_role p p' : ident p' = ident p -> role p' = role p.
Proof. intros E. by apply core_role, ident_core. Qed.

Lemma role_kind p p' : role p' = role p -> kind_of p' = kind_of p.
Proof. by intros [=]. Qed.

Lemma output_shape l (s s' : st) err : output l s = Some (s', err) -> shape_of s' = shape_of s.
Proof.
  unfold output. destruct (pcbs s !! l) as [p|] eqn:Ep; [|done]. cbn [mbind option_bind].
  destruct (TcpOut.tcp_output _ _ _ _ _) as [[[p' n] e]|] eqn:Eo; [|done]. cbn [mbind option_bind].
  intros [= <- <-]. apply output_ident, ident_role in Eo. exact (shape_put l p p' s Ep Eo).
Qed.

Lemma output_lookup l (s s' : st) err p : output l s = Some (s', err) -> pcbs s !! l = Some p ->
  exists p', pcbs s' !! l = Some p' /\ ident p' = ident p.
Proof.
  unfold output. intros E Ep. rewrite Ep in E. cbn [mbind option_bind] in E.
  destruct (TcpOut.tcp_output _ _ _ _ _) as [[[p' n] e]|] eqn:Eo; [|done]. cbn [mbind option_bind] in E.
  injection E as <- <-. exists p'. cbn. rewrite lookup_insert_eq. split; [done|by eapply output_ident].
Qed.

Lemma rmv_active_shape l (s : st) :
  shape_of (rmv_active l s) = (shape_of s) <| sh_act := tcp_rmv l (tcp_active_pcbs s) |>.
Proof. done. Qed.

Lemma bound_without_shape l (s : st) :
  shape_of (bound_without l s) = (shape_of s) <| sh_bound := tcp_rmv l (tcp_bound_pcbs (rest s)) |>.
Proof. done. Qed.

(** The list of bound pcbs has an end, so a pcb can leave it. *)
Lemma unbind_spec port l (s : st) : sane (shape_of s) ->
  unbind port l s = Some (if negb (port =? 0) then bound_without l s else s).
Proof. intros Hs. unfold unbind, bound_rmv. rewrite (sn_ends _ Hs : tcp_bound_next _ = None). by destruct (negb _). Qed.

Lemma unbind_inv port l (s s' : st) : unbind port l s = Some s' -> s' = s \/ s' = bound_without l s.
Proof.
  unfold unbind, bound_rmv. destruct (negb _); [|intros [= <-]; by left].
  destruct (tcp_bound_next _); [destruct (_ && _); [|done]|]; intros [= <-]; by right.
Qed.

Lemma free_shape l (s : st) :
  shape_of (tcp_free l s) = (shape_of s) <| sh_kinds := delete l (sh_kinds (shape_of s)) |>
                              <| sh_marks := delete l (sh_marks (shape_of s)) |>.
Proof. unfold shape_of, tcp_free. cbn. by rewrite !fmap_delete. Qed.

Lemma insert_shape l p (s : st) :
  shape_of (put l p s) = (shape_of s) <| sh_kinds := <[l := kind_of p]> (sh_kinds (shape_of s)) |>
                           <| sh_marks := <[l := last_timer p]> (sh_marks (shape_of s)) |>.
Proof. unfold shape_of, put. cbn. by rewrite !fmap_insert. Qed.

Lemma sane_put l p p' (s : st) :
  pcbs s !! l = Some p -> kind_of p' = kind_of p -> sane (shape_of s) -> sane (shape_of (put l p' s)).
Proof.
  intros Hp Hk Hs. apply (sane_unmarked _ _ Hs). rewrite insert_shape, Hk. unfold unmarked. cbn.
  rewrite (insert_id (kind_of <$> pcbs s)); [done|]. by rewrite lookup_fmap, Hp.
Qed.

Lemma pcb_remove_active_shape l p (s : st) :
  shape_of (pcb_remove_active l p s) = shape_of (rmv_active l s).
Proof.
  unfold pcb_remove_active, tcp_pcb_remove_active. set (p1 := tcp_pcb_purge p).
  destruct (negb _ && negb _ && _); [|done]. destruct (input_busy l s); [done|].
  cbn zeta. by destruct (tcp_send_empty_ack _ _).
Qed.

(** Freeing a pcb after it has been taken off its list. *)
Lemma sane_free_active l p (s s' : st) :
  sane (shape_of s) -> pcbs s !! l = Some p -> kind_of p = Kactive ->
  shape_of s' = shape_of (rmv_active l s) -> sane (shape_of (tcp_free l s')).
Proof.
  intros Hs Hp Hk E. rewrite free_shape, E, rmv_active_shape.
  pose proof (drop_active l _ Hs ltac:(by rewrite (kinds_lookup s l p), Hk)) as Ed.
  apply (sane_drop l) in Hs. rewrite Ed in Hs. exact Hs.
Qed.

Lemma sane_free_closed l p (s : st) :
  sane (shape_of s) -> pcbs s !! l = Some p -> state p = CLOSED ->
  sane (shape_of (tcp_free l (if negb (local_port p =? 0) then bound_without l s else s))).
Proof.
  intros Hs Hp Hst. assert (Hk : kind_of p = Kclosed (negb (local_port p =? 0))) by (unfold kind_of; by rewrite Hst).
  pose proof (drop_closed l _ _ Hs ltac:(by rewrite (kinds_lookup s l p), Hk)) as Ed.
  apply (sane_drop l) in Hs. rewrite Ed in Hs. rewrite free_shape. by destruct (negb _).
Qed.

Lemma state_kind p : kind_of p = Kactive <-> state p <> CLOSED /\ state p <> LISTEN /\ state p <> TIME_WAIT.
Proof. unfold kind_of. destruct (state p); naive_solver. Qed.

Lemma close_fin_shape l (s s' : st) err :
  tcp_close_shutdown_fin l s = Some (s', err) -> shape_of s' = shape_of s.
Proof.
  unfold tcp_close_shutdown_fin. destruct (pcbs s !! l) as [p|] eqn:Ep; [|done]. cbn [mbind option_bind].
  destruct (after_fin (state p)) as [to|] eqn:Eto; [|by intros [= <- _]].
  destruct (tcp_send_fin p (s_net s)) as [[[p1 n1] e1]|] eqn:Ef; [|done]. cbn [mbind option_bind].
  assert (Hk : kind_of p = Kactive) by (unfold kind_of; by destruct (state p)).
  apply send_fin_ident, ident_role in Ef.
  assert (Hput : forall q, role q = role p1 -> shape_of (put l q (s <| s_net := n1 |>)) = shape_of s).
  { intros q Hq. apply (shape_put l p q s Ep). congruence. }
  destruct (e1 =? ERR_OK).
  - destruct (output l _) as [[s2 e2]|] eqn:Eo; [|done]. cbn [mbind option_bind]. intros [= <- _].
    rewrite (output_shape _ _ _ _ Eo). apply Hput. unfold role. f_equal. rewrite (role_kind _ _ Ef), Hk.
    unfold kind_of. cbn. by destruct (state p); simplify_eq Eto; intros <-.
  - destruct (e1 =? ERR_MEM); intros [= <- _]; by apply Hput.
Qed.

Lemma purge_role p : role (tcp_pcb_purge p) = role p.
Proof. unfold tcp_pcb_purge. by repeat case_decide. Qed.

Lemma close_shutdown_sane l rst (s s' : st) err :
  tcp_close_shutdown l rst s = Some (s', err) -> sane (shape_of s) -> sane (shape_of s').
Proof.
  unfold tcp_close_shutdown. destruct (pcbs s !! l) as [p|] eqn:Ep; [|done]. cbn [mbind option_bind].
  destruct (rst && _ && _) eqn:Er.
  - destruct (tcp_is_flag_set TF_RXCLOSED p); [|done].
    assert (Hk : kind_of p = Kactive).
    { apply andb_prop in Er as [Er _]. apply andb_prop in Er as [_ Er].
      apply bool_decide_eq_true in Er. apply state_kind. destruct Er as [-> | ->]; done. }
    set (s1 := s <| s_net := _ |>). assert (Hs1 : shape_of s1 = shape_of s) by done.
    assert (Ep1 : pcbs s1 !! l = Some p) by done. clearbody s1. rewrite <- Hs1.
    intros [= <- _] Hs. set (s2 := put l (tcp_pcb_purge p) s1).
    assert (E2 : shape_of s2 = shape_of s1) by (apply (shape_put l p); [done|apply purge_role]).
    assert (Ep2 : pcbs s2 !! l = Some (tcp_pcb_purge p)) by (unfold s2; cbn; by rewrite lookup_insert_eq).
    rewrite <- E2 in Hs. destruct (input_busy l (rmv_active l s2)) eqn:Eb.
    + (* the pcb of the input: off the list, but still there *)
      change (sane (shape_of (rmv_active l s2))). rewrite rmv_active_shape.
      apply bool_decide_eq_true in Eb. destruct Hs as [[Hn Ha] Ht Hb Hl Haa Hat Hc Hnx]. split; try done.
      * split; [by apply NoDup_tcp_rmv|]. cbn. intros x [Hx _]%elem_of_tcp_rmv; [|done]. by apply Ha.
      * cbn. intros x Hx. destruct (decide (x = l)) as [->|]; [by right|].
        destruct (Haa x Hx); [left; by apply elem_of_tcp_rmv|by right].
    + apply (sane_free_active l (tcp_pcb_purge p) s2); try done. by rewrite (role_kind _ _ (purge_role p)).
  - destruct (state p) eqn:Est; try (intros E Hs; by rewrite (close_fin_shape _ _ _ _ E)).
    + intros E Hs. rewrite unbind_spec in E by done. injection E as <- _. by apply sane_free_closed.
    + done.
    + intros [= <- _] Hs. apply (sane_free_active l p s); try done; [apply state_kind; by rewrite Est|].
      apply pcb_remove_active_shape.
Qed.

Lemma set_rxclosed_shape l p (s : st) : pcbs s !! l = Some p ->
  shape_of (put l (tcp_set_flags TF_RXCLOSED p) s) = shape_of s.
Proof. intros Ep. by apply (shape_put l p). Qed.

Lemma remove_listener_shape pcblist lid : forall (s s' : st),
  tcp_remove_listener pcblist lid s = Some s' ->
  shape_of s' = shape_of s /\ listeners s' = listeners s.
Proof.
  induction pcblist as [|l r IH]; intros s s'; cbn [tcp_remove_listener]; [by intros [= <-]|].
  destruct (pcbs s !! l) as [p|] eqn:Ep; [|done]. cbn [mbind option_bind].
  intros [-> ->]%IH. case_decide; [|done]. split; [by apply (shape_put l p)|done].
Qed.

Lemma close_listener_sane lid (s s' : st) err :
  close_listener lid s = Some (s', err) -> sane (shape_of s) -> sane (shape_of s').
Proof.
  unfold close_listener, tcp_listen_closed. destruct (listeners s !! lid) as [lp|] eqn:El; [|done].
  cbn [mbind option_bind]. destruct (bound_walk s) as [bound|]; [|done]. cbn [mbind option_bind].
  destruct (tcp_remove_listener _ lid s) as [s1|] eqn:E1; [|done]. cbn [mbind option_bind].
  destruct (tcp_remove_listener _ lid s1) as [s2|] eqn:E2; [|done]. cbn [mbind option_bind].
  destruct (tcp_remove_listener _ lid s2) as [s3|] eqn:E3; [|done]. cbn [mbind option_bind].
  apply remove_listener_shape in E1 as [E1 F1], E2 as [E2 F2], E3 as [E3 F3]. intros [= <- _] Hs.
  rewrite <- E1, <- E2, <- E3 in Hs. destruct Hs as [Ha Ht Hb [Hn Hl] Haa Hat Hc Hnx].
  split; try done. cbn. split; [by apply NoDup_tcp_rmv|].
  intros x. rewrite dom_delete, elem_of_tcp_rmv by done. cbn in Hl. rewrite Hl. set_solver.
Qed.

Lemma close_sane h (s s' : st) err :
  tcp_close h s = Some (s', err) -> sane (shape_of s) -> sane (shape_of s').
Proof.
  unfold tcp_close. destruct h as [l|lid]; [|apply close_listener_sane].
  destruct (pcbs s !! l) as [p|] eqn:Ep; [|done]. cbn [mbind option_bind]. intros E Hs.
  apply close_shutdown_sane in E; [done|]. by rewrite (set_rxclosed_shape l p).
Qed.

Lemma shutdown_sane h rx tx (s s' : st) err :
  tcp_shutdown h rx tx s = Some (s', err) -> sane (shape_of s) -> sane (shape_of s').
Proof.
  unfold tcp_shutdown. destruct h as [l|lid].
  2:{ destruct (listeners s !! lid); [|done]. by intros [= <- _]. }
  destruct (pcbs s !! l) as [p|] eqn:Ep; [|done]. cbn [mbind option_bind]. intros E Hs.
  set (s1 := if rx then put l (tcp_set_flags TF_RXCLOSED p) s else s) in *.
  assert (E1 : shape_of s1 = shape_of s) by (unfold s1; destruct rx; [by apply set_rxclosed_shape|done]).
  rewrite <- E1 in Hs. destruct (rx && tx); [by apply close_shutdown_sane in E|].
  destruct (pcbs s1 !! l) as [p1|] eqn:Ep1; [|done]. cbn [mbind option_bind] in E.
  set (s2 := if rx then put l _ s1 else s1) in *.
  assert (E2 : shape_of s2 = shape_of s1) by (unfold s2; destruct rx; [by apply (shape_put l p1)|done]).
  rewrite <- E2 in Hs. destruct tx; [|by injection E as <- _].
  destruct (state p1); first [by injection E as <- _ | by apply close_shutdown_sane in E].
Qed.

Lemma new_port_shape (s s' : st) port : tcp_new_port s = Some (s', port) ->
  shape_of s' = shape_of s /\ pcbs s' = pcbs s.
Proof.
  unfold tcp_new_port. generalize (Z.to_nat 16384) as fuel. intros fuel. unfold tcp_new_port_fueled.
  destruct (new_port _ _ _ _) as [[? ?]|]; [|done]. cbn [mbind option_bind]. by intros [= <- _].
Qed.

Lemma recved_shape l len (s s' : st) : tcp_recved l len s = Some s' -> shape_of s' = shape_of s.
Proof.
  unfold tcp_recved. destruct (pcbs s !! l) as [p|] eqn:Ep; [|done]. cbn [mbind option_bind].
  destruct (negb _); [|done].
  destruct (tcp_update_rcv_ann_wnd _) as [[p1 w]|] eqn:Eu; [|done]. cbn [mbind option_bind].
  apply update_ann_wnd_ident, ident_role in Eu. change (role p1 = role p) in Eu.
  destruct (_ <=? _).
  - destruct (output l _) as [[s1 e1]|] eqn:Eo; [|done]. cbn [mbind option_bind]. intros [= <-].
    rewrite (output_shape _ _ _ _ Eo). by apply (shape_put l p).
  - intros [= <-]. by apply (shape_put l p).
Qed.

(** What the code TCP calls must keep: the timers, the lists; the callbacks, the
    axioms.  A receive callback is given a pcb that its caller stores afterwards,
    unless the callback says that it is gone. *)
Class env_sane : Prop := {
  timer_shape (s s' : st) : tcp_timer_needed s = Some s' -> shape_of s' = shape_of s;
  err_sane arg e (s s' : st) : event_err arg e s = Some s' -> sane (shape_of s) -> sane (shape_of s');
  poll_sane l (s s' : st) err : event_poll l s = Some (s', err) -> sane (shape_of s) -> sane (shape_of s');
  recv_sane l d (s s' : st) p p' err : event_recv d s p = Some (s', p', err) ->
    is_Some (pcbs s !! l) -> sane (shape_of (put l p s)) ->
    if err =? ERR_ABRT then sane (shape_of s')
    else is_Some (pcbs s' !! l) /\ sane (shape_of (put l p' s'))
}.

Context `{!env_sane}.

Lemma event_err_sane b arg e (s s' : st) :
  TCP_EVENT_ERR b arg e s = Some s' -> sane (shape_of s) -> sane (shape_of s').
Proof. unfold TCP_EVENT_ERR. destruct b; [apply err_sane|by intros [= <-]]. Qed.

Lemma abandon_sane l reset (s s' : st) :
  tcp_abandon l reset s = Some s' -> sane (shape_of s) -> sane (shape_of s').
Proof.
  unfold tcp_abandon. destruct (pcbs s !! l) as [p|] eqn:Ep; [|done]. cbn [mbind option_bind]. intros E Hs.
  assert (Hact : kind_of p = Kactive -> TcpProcess.tcp_abandon (input_busy l s) reset l p s = Some s' ->
                 sane (shape_of s')).
  { clear E. intros Hk. unfold TcpProcess.tcp_abandon.
    pose proof (pcb_remove_active_shape l p s) as Esh. unfold pcb_remove_active in Esh.
    destruct (tcp_pcb_remove_active _ l p s) as [s1 p1]. cbn [fst] in Esh.
    intros E. apply event_err_sane in E; [done|].
    destruct reset; by apply (sane_free_active l p s). }
  destruct (state p) eqn:Est; try (apply Hact; [apply state_kind; by rewrite Est|done]).
  - rewrite unbind_spec in E by done. cbn [mbind option_bind] in E.
    apply event_err_sane in E; [done|]. by apply sane_free_closed.
  - injection E as <-. rewrite free_shape. cbn.
    pose proof (drop_tw l _ Hs ltac:(rewrite (kinds_lookup s l p) by done; unfold kind_of; by rewrite Est)) as Ed.
    apply (sane_drop l) in Hs. by rewrite Ed in Hs.
Qed.

Lemma bind_sane l ipaddr port (s s' : st) err :
  tcp_bind l ipaddr port s = Some (s', err) -> l ∉ tcp_bound_pcbs (rest s) ->
  sane (shape_of s) -> sane (shape_of s').
Proof.
  unfold tcp_bind. destruct (pcbs s !! l) as [p|] eqn:Ep; [|done]. cbn [mbind option_bind].
  destruct (bool_decide (state p = CLOSED)) eqn:Est; [|done]. apply bool_decide_eq_true in Est.
  set (a := bind_zone _ _). intros E En Hs.
  destruct (if port =? 0 then _ else _) as [[[s1 port1] e1]|] eqn:E1; [|done]. cbn [mbind option_bind] in E.
  assert (Hp1 : shape_of s1 = shape_of s /\ pcbs s1 = pcbs s /\ (e1 = ERR_OK -> port1 <> 0)).
  { destruct (Z.eqb_spec port 0) as [->|Hp].
    - destruct (tcp_new_port s) as [[s2 p2]|] eqn:E2; [|done]. cbn [mbind option_bind] in E1.
      apply new_port_shape in E2 as [? ?]. injection E1 as <- <- <-. split_and!; try done.
      by destruct (Z.eqb_spec p2 0).
    - destruct (find_end _ s); [|done]. cbn [mbind option_bind] in E1. injection E1 as <- <- <-. done. }
  clear E1. destruct Hp1 as (E1 & Ep1 & Hport). change (tcp_bound_pcbs (rest s)) with (sh_bound (shape_of s)) in En.
  rewrite <- E1 in Hs, En. rewrite <- Ep1 in Ep.
  destruct (Z.eqb_spec e1 ERR_OK) as [Eok|]; cbn [negb] in E; [|by injection E as <- _].
  specialize (Hport Eok). set (p1 := if _ || _ then _ else _) in E.
  assert (Est1 : state p1 = CLOSED) by (unfold p1; by destruct (_ || _)). clearbody p1.
  unfold reg_bound in E. cbn [rest put setter on_ctl] in E. rewrite (bool_decide_false _ En : bool_decide _ = _) in E.
  destruct (tcp_timer_needed _) as [s2|] eqn:Et; [|done]. cbn [mbind option_bind] in E.
  injection E as <- _. rewrite (timer_shape _ _ Et).
  assert (Ek : kind_of (p1 <| local_port := port1 |>) = Kclosed true).
  { unfold kind_of. cbn. rewrite Est1. by destruct (Z.eqb_spec port1 0). }
  pose proof (sane_bind l (negb (local_port p =? 0)) (shape_of s1) Hs) as Hb.
  rewrite (kinds_lookup s1 l p Ep) in Hb. unfold kind_of in Hb at 1. rewrite Est in Hb.
  specialize (Hb eq_refl En). rewrite <- Ek in Hb.
  enough (Esh : shape_of (on_ctl (fun c => c <| tcp_bound_pcbs := l :: tcp_bound_pcbs (rest s1) |>)
                   (put l (p1 <| local_port := port1 |>) s1)) =
                (shape_of (put l (p1 <| local_port := port1 |>) s1))
                  <| sh_bound := l :: tcp_bound_pcbs (rest s1) |>) by (rewrite Esh, insert_shape; by apply (sane_unmarked _ _ Hb)).
  done.
Qed.

Lemma new_name_fresh {B} (m : gmap positive B) : m !! new_name m = None.
Proof.
  assert (Hb : forall k, is_Some (m !! k) -> (k <= map_fold (fun k _ acc => Pos.max k acc) 1 m)%positive).
  { apply (map_fold_weak_ind (fun r m => forall k, is_Some (m !! k) -> (k <= r)%positive)); [by intros k []|].
    intros i x m' r Hi IH k. rewrite lookup_insert_is_Some. intros [->|[_ Hk]]; [lia|]. specialize (IH k Hk). lia. }
  destruct (m !! new_name m) as [x|] eqn:E; [|done]. exfalso.
  specialize (Hb _ ltac:(by eexists)). unfold new_name in Hb. lia.
Qed.

Lemma next_pcb_mem_shape (s s' : st) b : next_pcb_mem s = (s', b) -> shape_of s' = shape_of s /\ pcbs s' = pcbs s.
Proof. unfold next_pcb_mem. destruct (pcb_mem (rest s)); by intros [= <- _]. Qed.

Lemma listen_sane l (s s' : st) r err :
  tcp_listen_with_backlog_and_err l s = Some (s', r, err) -> sane (shape_of s) -> sane (shape_of s').
Proof.
  unfold tcp_listen_with_backlog_and_err. destruct (pcbs s !! l) as [p|] eqn:Ep; [|done]. cbn [mbind option_bind].
  destruct (bool_decide (state p = CLOSED)) eqn:Est; [|done]. apply bool_decide_eq_true in Est.
  destruct (next_pcb_mem s) as [s0 b] eqn:E0. apply next_pcb_mem_shape in E0 as [E0 F0].
  rewrite <- E0, <- F0 in *. destruct b; [|by intros [= <- _ _]].
  set (lid := new_name (listeners s0)). set (lp := TcpPcbListen _ _ _ _ _ _).
  intros E Hs. rewrite unbind_spec in E by done. cbn [mbind option_bind] in E.
  set (s1 := if negb (local_port p =? 0) then bound_without l s0 else s0) in E.
  destruct (tcp_timer_needed _) as [s2|] eqn:Et; [|done]. cbn [mbind option_bind] in E.
  injection E as <- _ _. rewrite (timer_shape _ _ Et).
  pose proof (sane_free_closed l p s0 Hs Ep Est) as Hs1. fold s1 in Hs1.
  assert (El : listeners (tcp_free l s1) = listeners s0) by (unfold s1; by destruct (negb _)).
  destruct Hs1 as [Ha Ht Hb [Hn Hl] Haa Hat Hc Hnx]. split; try done. cbn. cbn in Hl.
  change (listeners s1) with (listeners (tcp_free l s1)) in *. rewrite El in *.
  assert (Hfresh : lid ∉ dom (listeners s0)) by (apply not_elem_of_dom, new_name_fresh).
  split.
  - constructor; [|done]. by rewrite Hl.
  - intros x. rewrite dom_insert, elem_of_cons, Hl. set_solver.
Qed.

(** A CLOSED pcb whose fields change: its kind follows its port, and it is not
    bound unless it was. *)
Lemma sane_put_closed l p p' (s : st) :
  sane (shape_of s) -> pcbs s !! l = Some p -> state p = CLOSED -> state p' = CLOSED ->
  (local_port p <> 0 -> local_port p' = local_port p) -> sane (shape_of (put l p' s)).
Proof.
  intros Hs Ep E1 E2 Hport. destruct (decide (local_port p = 0)) as [Hz|Hz].
  2:{ apply (sane_put l p); [done| |done]. unfold kind_of. rewrite E1, E2. by rewrite Hport. }
  rewrite insert_shape. assert (Ek : kind_of p = Kclosed false) by (unfold kind_of; by rewrite E1, Hz).
  pose proof (kinds_lookup s l p Ep) as Hl. rewrite Ek in Hl.
  destruct (sane_not_in l _ _ Hs Hl) as (Hna & Hnt & Hnb).
  assert (Ek' : exists b, kind_of p' = Kclosed b) by (unfold kind_of; rewrite E2; by eexists).
  destruct Ek' as [b Ek']. rewrite Ek'. clear Hl. revert Hna Hnt Hnb Hs. generalize (shape_of s) as h.
  intros h Hna Hnt Hnb [[Hn1 Ha] [Hn2 Ht] [Hn3 Hb] Hl Haa Hat Hc Hnx].
  specialize (Hna ltac:(done)). specialize (Hnt ltac:(done)). specialize (Hnb ltac:(done)).
  split; cbn.
  - split; [done|]. intros y Hy. cbn. rewrite lookup_insert_ne; [by apply Ha|]. by intros ->.
  - split; [done|]. intros y Hy. cbn. rewrite lookup_insert_ne; [by apply Ht|]. by intros ->.
  - split; [done|]. intros y Hy. cbn. rewrite lookup_insert_ne; [by apply Hb|]. by intros ->.
  - done.
  - intros y [[_ [=]]|[_ Hk]]%lookup_insert_Some. by apply Haa.
  - intros y [[_ [=]]|[_ Hk]]%lookup_insert_Some. by apply Hat.
  - intros y [[_ [=]]|[_ Hk]]%lookup_insert_Some. by apply (Hc y).
  - done.
Qed.

(** The end of [tcp_connect]: the SYN is queued, the pcb [p] of the store becomes
    [p1]. *)
Lemma connected_sane l p p1 (s s' : st) e :
  sane (shape_of s) -> pcbs s !! l = Some p -> state p = CLOSED -> state p1 = SYN_SENT ->
  (s ← unbind (local_port p) l (put l p1 s);
   s ← reg_active l s;
   '(s, _) ← output l s; Some (s, ERR_OK)) = Some (s', e) -> sane (shape_of s').
Proof.
  intros Hs Ep Est Est1 E.
  assert (Eu : unbind (local_port p) l (put l p1 s) =
    Some (if negb (local_port p =? 0) then bound_without l (put l p1 s) else put l p1 s)).
  { unfold unbind, bound_rmv. cbn [rest put setter]. rewrite (sn_ends _ Hs : tcp_bound_next _ = None). by destruct (negb _). }
  rewrite Eu in E. unfold reg_active in E. cbn [mbind option_bind] in E.
  destruct (tcp_timer_needed _) as [s2|] eqn:Et; [|done]. cbn [mbind option_bind] in E.
  destruct (output l _) as [[s3 e3]|] eqn:Eo; [|done]. cbn [mbind option_bind] in E.
  injection E as <- _. rewrite (output_shape _ _ _ _ Eo).
  apply timer_shape in Et. change (sane (shape_of s2)). rewrite Et.
  pose proof (sane_connect l (negb (local_port p =? 0)) (shape_of s) Hs) as Hc.
  rewrite (kinds_lookup s l p Ep) in Hc. unfold kind_of in Hc at 1. rewrite Est in Hc. specialize (Hc eq_refl).
  assert (Ek : kind_of p1 = Kactive) by (unfold kind_of; by rewrite Est1). rewrite <- Ek in Hc.
  pose proof (insert_shape l p1 s) as Ei. destruct (negb (local_port p =? 0)).
  - set (h := shape_of (put l p1 s)) in Ei.
    change (sane (h <| sh_act := l :: sh_act h |> <| sh_bound := tcp_rmv l (sh_bound h) |>)). rewrite Ei. by apply (sane_unmarked _ _ Hc).
  - set (h := shape_of (put l p1 s)) in Ei. change (sane (h <| sh_act := l :: sh_act h |>)). rewrite Ei. by apply (sane_unmarked _ _ Hc).
Qed.

Lemma connect_sane l ipaddr port (s s' : st) err :
  tcp_connect l ipaddr port s = Some (s', err) -> sane (shape_of s) -> sane (shape_of s').
Proof.
  unfold tcp_connect. destruct (pcbs s !! l) as [p|] eqn:Ep; [|done]. cbn [mbind option_bind].
  destruct (bool_decide (state p = CLOSED)) eqn:Est; [|done]. apply bool_decide_eq_true in Est.
  set (p1 := p <| remote_ip := _ |> <| remote_port := _ |>). intros E Hs.
  assert (Hput : forall q, ident q = ident p1 -> sane (shape_of (put l q s))).
  { intros q Hq%ident_core. unfold core in Hq. injection Hq as Eq1 _ _ Eq2 _ _ _.
    apply (sane_put_closed l p); try done. by rewrite Eq1. }
  destruct (connect_netif p1 s) as [n|]; [|injection E as <- _; by apply Hput].
  destruct (if ip_addr_isany_val _ then _ else _) as [loc|]; [|injection E as <- _; by apply Hput].
  set (r := if _ && _ then _ else _) in E. set (p2 := p1 <| local_ip := loc |> <| remote_ip := r |>) in E.
  assert (E2 : ident p2 = ident p1) by done. change (local_port p1) with (local_port p) in *.
  change (local_port p2) with (local_port p) in E. clearbody p2.
  destruct (if local_port p =? 0 then _ else _) as [[s1 lport]|] eqn:Epo; [|done]. cbn [mbind option_bind] in E.
  assert (Hs1 : shape_of s1 = shape_of (put l p2 s) /\ pcbs s1 = pcbs (put l p2 s) /\
                (local_port p <> 0 -> lport = local_port p)).
  { destruct (Z.eqb_spec (local_port p) 0).
    - by apply new_port_shape in Epo as [? ?].
    - by injection Epo as <- <-. }
  destruct Hs1 as (F1 & F2 & F3). pose proof (Hput p2 E2) as Hs1. rewrite <- F1 in Hs1.
  assert (Ep1 : pcbs s1 !! l = Some p2) by (rewrite F2; cbn; by rewrite lookup_insert_eq).
  apply ident_core in E2. unfold core in E2. injection E2 as Es2 _ _ El2 _ _ _. cbn in Es2, El2. rewrite Est in Es2.
  assert (Hput1 : forall q, state q = CLOSED -> local_port q = lport -> sane (shape_of (put l q s1))).
  { intros q H1 H2. apply (sane_put_closed l p2); try done. rewrite El2. intros H3. rewrite H2. by apply F3. }
  destruct (Z.eqb_spec lport 0); [injection E as <- _; by apply Hput1|].
  cbn [tcp_next_iss] in E. set (s3 := on_ctl _ s1) in E. set (p3 := init_active _ _ _ _) in E.
  destruct (TcpOut.tcp_enqueue_flags p3 TCP_SYN (s_net s3)) as [[[p4 n4] ret]|] eqn:Ee; [|done].
  cbn [mbind option_bind] in E. apply enqueue_flags_ident in Ee.
  assert (E4 : state p4 = CLOSED /\ local_port p4 = lport).
  { apply ident_core in Ee. unfold core in Ee. injection Ee as G1 _ _ G2 _ _ _. rewrite G1, G2. by split; [exact Es2|]. }
  destruct (Z.eqb_spec ret ERR_OK) as [Er|]; [|injection E as <- _; destruct E4; by apply (Hput1 p4)].
  set (s4 := s3 <| s_net := n4 |>) in E.
  apply (connected_sane l p2 (p4 <| state := SYN_SENT |>) s4 s' ERR_OK); try done.
  rewrite El2. cbn zeta in E. destruct (unbind _ _ _) as [s5|]; [|done]. cbn [mbind option_bind] in E |- *.
  destruct (reg_active _ _) as [s6|]; [|done]. cbn [mbind option_bind] in E |- *.
  destruct (output l s6) as [[s7 ?]|]; [|done]. cbn [mbind option_bind] in E |- *. by injection E as <- _.
Qed.

(** ** Allocation *)

Lemma abandon_found_sane found reset (s s' : st) :
  abandon_found found reset s = Some s' -> sane (shape_of s) -> sane (shape_of s').
Proof. destruct found; [apply abandon_sane|by intros [= <-]]. Qed.

Lemma kill_prio_sane pr (s s' : st) : tcp_kill_prio pr s = Some s' -> sane (shape_of s) -> sane (shape_of s').
Proof.
  unfold tcp_kill_prio. case_match; [by intros [= <-]|]. destruct (least_prio _ _ _ _ s); [|done].
  apply abandon_found_sane.
Qed.

Lemma kill_state_sane which (s s' : st) : tcp_kill_state which s = Some s' -> sane (shape_of s) -> sane (shape_of s').
Proof.
  unfold tcp_kill_state. destruct (bool_decide _); [|done]. destruct (oldest _ _ _ _ s); [|done].
  apply abandon_found_sane.
Qed.

Lemma kill_timewait_sane (s s' : st) : tcp_kill_timewait s = Some s' -> sane (shape_of s) -> sane (shape_of s').
Proof. unfold tcp_kill_timewait. destruct (oldest _ _ _ _ s); [|done]. apply abandon_found_sane. Qed.

Lemma send_pending_fin_shape l (s s' : st) : send_pending_fin l s = Some s' -> shape_of s' = shape_of s.
Proof.
  unfold send_pending_fin. destruct (pcbs s !! l) as [p|] eqn:Ep; [|done]. cbn [mbind option_bind].
  destruct (tcp_is_flag_set _ _); [|by intros [= <-]].
  destruct (tcp_close_shutdown_fin _ _) as [[s1 e1]|] eqn:E; [|done]. cbn [mbind option_bind]. intros [= <-].
  rewrite (close_fin_shape _ _ _ _ E). by apply (shape_put l p).
Qed.

Lemma closepend_shape pcblist : forall (s s' : st), closepend_loop pcblist s = Some s' -> shape_of s' = shape_of s.
Proof.
  induction pcblist as [|l r IH]; intros s s'; cbn [closepend_loop]; [by intros [= <-]|].
  destruct (send_pending_fin l s) as [s1|] eqn:E; [|done]. cbn [mbind option_bind]. intros ->%IH.
  by apply (send_pending_fin_shape l).
Qed.

Lemma alloc_tries_sane kills : forall (s s' : st) ok,
  Forall (fun kill => forall s s' : st, kill s = Some s' -> sane (shape_of s) -> sane (shape_of s')) kills ->
  alloc_tries kills s = Some (s', ok) -> sane (shape_of s) -> sane (shape_of s').
Proof.
  induction kills as [|kill kills IH]; intros s s' ok Hk; cbn [alloc_tries];
    destruct (next_pcb_mem s) as [s1 b] eqn:Em; apply next_pcb_mem_shape in Em as [Em _];
    destruct b; try (intros [= <- _] Hs; by rewrite Em).
  apply Forall_cons in Hk as [Hk1 Hk]. destruct (kill s1) as [s2|] eqn:E; [|done]. cbn [mbind option_bind].
  intros E2 Hs. rewrite <- Em in Hs. apply (IH s2 s' ok); [done..|]. by apply (Hk1 s1).
Qed.

(** The new pcb is a block that was not in use. *)
Lemma alloc_sane pr (s s' : st) r : tcp_alloc pr s = Some (s', r) -> sane (shape_of s) ->
  sane (shape_of s') /\
  match r with
  | Some (l, p) => pcbs s' !! l = Some p /\ p = init_pcb pr s' /\ last_timer p = ctl_timer_ctr (rest s')
  | None => True
  end.
Proof.
  unfold tcp_alloc. destruct (alloc_tries _ s) as [[s1 ok]|] eqn:E; [|done]. cbn [mbind option_bind].
  intros Er Hs. assert (Hs1 : sane (shape_of s1)).
  { eapply alloc_tries_sane; [|exact E|done].
    repeat (apply List.Forall_cons; [intros x y|]); [|apply kill_state_sane..|apply kill_prio_sane|apply List.Forall_nil].
    destruct (tcp_handle_closepend x) as [z|] eqn:Ez; [|done]. cbn [mbind option_bind].
    apply closepend_shape in Ez. rewrite <- Ez. apply kill_timewait_sane. }
  destruct ok; injection Er as <- <-; [|done]. set (l := new_name (pcbs s1)).
  assert (Hl : pcbs s1 !! l = None) by apply new_name_fresh. split; [|by split; [cbn; rewrite lookup_insert_eq|]].
  rewrite insert_shape. change (kind_of (init_pcb pr s1)) with (Kclosed false).
  eapply sane_unmarked; [apply (sane_new l _ Hs1); cbn; by rewrite lookup_fmap, Hl|done].
Qed.

Lemma new_sane (s s' : st) r : tcp_new s = Some (s', r) -> sane (shape_of s) -> sane (shape_of s').
Proof.
  unfold tcp_new. destruct (tcp_alloc _ s) as [[s1 r1]|] eqn:E; [|done]. cbn [mbind option_bind].
  intros [= <- _] Hs. by apply (alloc_sane _ _ _ _ E).
Qed.

Lemma new_ip_type_sane type (s s' : st) r :
  tcp_new_ip_type type s = Some (s', r) -> sane (shape_of s) -> sane (shape_of s').
Proof.
  unfold tcp_new_ip_type. destruct (tcp_alloc _ s) as [[s1 [[l p]|]]|] eqn:E; cbn [mbind option_bind]; [| |done].
  - intros [= <- _] Hs. destruct (alloc_sane _ _ _ _ E Hs) as (H1 & H2 & _). by rewrite (shape_put l p).
  - intros [= <- _] Hs. by apply (alloc_sane _ _ _ _ E Hs).
Qed.

(** ** A change of address *)

Lemma addr_changed_sane fuel next old : forall cur (s s' : st),
  ip_addr_changed_loop fuel next old cur s = Some s' -> sane (shape_of s) -> sane (shape_of s').
Proof.
  induction fuel as [|fuel IH]; intros cur s s'; cbn [ip_addr_changed_loop];
    (destruct cur as [l|]; [|by intros [= <-]]); [done|].
  destruct (pcbs s !! l) as [p|]; [|done]. cbn [mbind option_bind].
  destruct (if ip_addr_cmp _ _ then _ else _) as [s1|] eqn:E; [|done]. cbn [mbind option_bind].
  intros E1 Hs. apply (IH _ _ _ E1). destruct (ip_addr_cmp _ _); [by apply (abandon_sane l true s)|by injection E as <-].
Qed.

Lemma move_listeners_shape pcblist old new : forall (s s' : st),
  move_listeners pcblist old new s = Some s' -> shape_of s' = shape_of s.
Proof.
  induction pcblist as [|l r IH]; intros s s'; cbn [move_listeners]; [by intros [= <-]|].
  destruct (listeners s !! l) as [lp|] eqn:El; [|done]. cbn [mbind option_bind]. intros ->%IH.
  destruct (ip_addr_cmp _ _); [|done]. unfold shape_of, put_listener. cbn. f_equal.
  apply dom_insert_lookup_L. by eexists.
Qed.

Lemma netif_changed_sane old new (s s' : st) :
  tcp_netif_ip_addr_changed old new s = Some s' -> sane (shape_of s) -> sane (shape_of s').
Proof.
  unfold tcp_netif_ip_addr_changed, tcp_netif_ip_addr_changed_pcblist. intros E Hs.
  destruct (ip_addr_isany_val old); [by injection E as <-|].
  destruct (ip_addr_changed_loop _ _ old _ s) as [s1|] eqn:E1; [|done]. cbn [mbind option_bind] in E.
  destruct (ip_addr_changed_loop _ _ old _ s1) as [s2|] eqn:E2; [|done]. cbn [mbind option_bind] in E.
  apply addr_changed_sane in E1; [|done]. apply addr_changed_sane in E2; [|done].
  destruct new as [a|]; [|by injection E as <-]. destruct (ip_addr_isany_val a); [by injection E as <-|].
  by rewrite (move_listeners_shape _ _ _ _ _ E).
Qed.

(** ** The timers *)

Lemma put_kind l p q (s : st) : kind_of p = kind_of q ->
  sane (shape_of (put l q s)) -> sane (shape_of (put l p s)).
Proof. intros E Hs. apply (sane_unmarked _ _ Hs). by rewrite !insert_shape, E. Qed.

Lemma offer_refused_data_sane l (s s' : st) :
  offer_refused_data l s = Some s' -> sane (shape_of s) -> sane (shape_of s').
Proof.
  unfold offer_refused_data, tcp_process_refused_data.
  destruct (pcbs s !! l) as [p|] eqn:Ep; [|done]. cbn [mbind option_bind]. intros E Hs.
  set (p0 := p <| refused_data := None |> <| refused_fin := false |>) in E.
  destruct (event_recv (refused_data p) s p0) as [[[s1 p1] e1]|] eqn:Er; [|done]. cbn [mbind option_bind] in E.
  apply (recv_sane l) in Er; [|by eexists|by rewrite (shape_put l p)].
  destruct (Z.eqb_spec e1 ERR_OK) as [Eok|Hne].
  - rewrite Eok in Er. change (ERR_OK =? ERR_ABRT) with false in Er. destruct Er as [Hl1 Hs1].
    destruct (refused_fin p); [|by injection E as <-].
    set (p2 := if negb _ then _ else p1) in E.
    apply (put_kind l p2 p1) in Hs1; [|unfold p2; by destruct (negb _)].
    destruct (event_recv None s1 p2) as [[[s3 p3] e3]|] eqn:Er3; [|done]. cbn [mbind option_bind] in E.
    apply (recv_sane l) in Er3; [|done..]. destruct (e3 =? ERR_ABRT); injection E as <-; [done|].
    by destruct Er3.
  - destruct (e1 =? ERR_ABRT); injection E as <-; [done|]. destruct Er as [_ Hs1].
    change (sane (shape_of (put l (p1 <| refused_data := refused_data p |> <| refused_fin := refused_fin p |>) s1))).
    by apply (put_kind l _ p1).
Qed.

Lemma mark_sane l p (s s' : st) : pcbs s !! l = Some p -> mark l p s = Some s' ->
  sane (shape_of s) -> sane (shape_of s').
Proof. unfold mark. intros Ep. case_match; [done|]. intros [= <-]. by apply (sane_put l p). Qed.

Lemma send_delayed_ack_shape l (s s' : st) : send_delayed_ack l s = Some s' -> shape_of s' = shape_of s.
Proof.
  unfold send_delayed_ack. destruct (pcbs s !! l) as [p|] eqn:Ep; [|done]. cbn [mbind option_bind].
  destruct (tcp_is_flag_set _ _); [|by intros [= <-]].
  destruct (output l _) as [[s2 e2]|] eqn:Eo; [|done]. cbn [mbind option_bind].
  destruct (pcbs s2 !! l) as [p2|] eqn:Ep2; [|done]. cbn [mbind option_bind]. intros [= <-].
  rewrite (shape_put l p2) by done. rewrite (output_shape _ _ _ _ Eo). by apply (shape_put l p).
Qed.

Lemma fast_turn_sane prev l (s s' : st) c :
  fast_turn prev l s = Some (c, s') -> sane (shape_of s) -> sane (shape_of s').
Proof.
  unfold fast_turn. destruct (pcbs s !! l) as [p|] eqn:Ep; [|done]. cbn [mbind option_bind].
  destruct (mark l p s) as [s0|] eqn:Em; [|by intros [= _ <-]]. intros E Hs. apply (mark_sane l p) in Em; [|done..]. clear Hs. rename Em into Hs.
  destruct (send_delayed_ack l s0) as [s1|] eqn:E1; [|done]. cbn [mbind option_bind] in E.
  apply send_delayed_ack_shape in E1 as F1.
  destruct (send_pending_fin l s1) as [s2|] eqn:E2; [|done]. cbn [mbind option_bind] in E.
  apply send_pending_fin_shape in E2. rewrite <- F1, <- E2 in Hs.
  destruct (pcbs s2 !! l) as [p2|]; [|done]. cbn [mbind option_bind] in E.
  destruct (refused_data p2); [|by injection E as _ <-].
  destruct (offer_refused_data l _) as [s3|] eqn:E3; [|done]. cbn [mbind option_bind] in E. injection E as _ <-.
  by apply (offer_refused_data_sane l (set_changed false s2)).
Qed.

Lemma run_loop_sane turn fuel : forall c (s s' : st),
  (forall prev l (s s' : st) c, turn prev l s = Some (c, s') -> sane (shape_of s) -> sane (shape_of s')) ->
  run_loop turn fuel c s = Some (Some s') -> sane (shape_of s) -> sane (shape_of s').
Proof.
  induction fuel as [|fuel IH]; intros [prev cur] s s' Ht; cbn [run_loop snd];
    (destruct cur as [l|]; [|by intros [= <-]]); [done|]. cbn [fst].
  destruct (turn prev l s) as [[c1 s1]|] eqn:E; [|done]. intros E1 Hs.
  apply (IH c1 s1); [done..|]. by apply (Ht prev l s s1 c1).
Qed.

(** ** What the slow timer does to a pcb but removing it *)

(** The pcb [p] at [l] has become another one that is still what it was, and
    packets have been sent. *)
Definition touched (l : positive) (p : tcp_pcb) (s s' : st) : Prop :=
  exists p' n, s' = put l p' (s <| s_net := n |>) /\ core p' = core p.

Lemma touched_put l p p' n (s : st) : core p' = core p -> touched l p s (put l p' (s <| s_net := n |>)).
Proof. intros E. by exists p', n. Qed.

Lemma touched_put' l p p' (s : st) : core p' = core p -> touched l p s (put l p' s).
Proof. intros E. exists p', (s_net s). split; [|done]. by destruct s. Qed.

Lemma touched_refl l p (s : st) : pcbs s !! l = Some p -> touched l p s s.
Proof.
  intros Ep. exists p, (s_net s). split; [|done]. unfold put. destruct s. cbn in *. f_equal. by rewrite insert_id.
Qed.

Lemma touched_trans l p p1 (s s1 s2 : st) :
  touched l p s s1 -> pcbs s1 !! l = Some p1 -> touched l p1 s1 s2 -> touched l p s s2.
Proof.
  intros (q1 & n1 & -> & E1) Hq (q2 & n2 & -> & E2). cbn in Hq. rewrite lookup_insert_eq in Hq. injection Hq as ->.
  exists q2, n2. split; [|congruence]. unfold put. cbn. by rewrite insert_insert_eq.
Qed.

Lemma touched_lookup l p (s s' : st) : touched l p s s' -> exists p', pcbs s' !! l = Some p' /\ core p' = core p.
Proof. intros (p' & n & -> & E). exists p'. cbn. by rewrite lookup_insert_eq. Qed.

Lemma touched_shape l p (s s' : st) : pcbs s !! l = Some p -> touched l p s s' -> shape_of s' = shape_of s.
Proof. intros Ep (p' & n & -> & E%core_role). exact (shape_put l p p' s Ep E). Qed.

Lemma touched_rest l p (s s' : st) : touched l p s s' -> rest s' = rest s.
Proof. by intros (p' & n & -> & _). Qed.

Lemma output_touched l p p1 (s s' : st) err :
  output l (put l p1 s) = Some (s', err) -> core p1 = core p -> touched l p s s'.
Proof.
  unfold output. cbn [put pcbs setter]. change (pcbs (put l p1 s)) with (<[l := p1]> (pcbs s)).
  rewrite lookup_insert_eq. cbn [mbind option_bind]. intros E Ei.
  destruct (TcpOut.tcp_output _ _ _ _ _) as [[[p' n] e]|] eqn:Eo; [|done]. cbn [mbind option_bind] in E.
  injection E as <- _. apply output_ident, ident_core in Eo. exists p', n. split; [|congruence].
  unfold put. cbn. by rewrite insert_insert_eq.
Qed.

(** The limits of retransmission. *)
Definition given_up (p : tcp_pcb) : bool :=
  bool_decide (state p = SYN_SENT) && (TCP_SYNMAXRTX <=? nrtx p) || (TCP_MAXRTX <=? nrtx p) ||
  (0 <? persist_backoff p) && (TCP_MAXRTX <=? persist_probe p).

Lemma persist_due_core p (s : st) p' n slot : persist_due p s = Some (p', n, slot) -> core p' = core p.
Proof.
  unfold persist_due. destruct (snd_wnd p =? 0).
  - destruct (tcp_zero_window_probe _ _ _) as [[[p3 n3] e3]|] eqn:E3; [|done]. cbn.
    intros [= <- <- _]. by eapply ident_core, zero_window_probe_ident.
  - destruct (tcp_split_unsent_seg _ _ _) as [[[p3 n3] e3]|] eqn:E3; [|done]. cbn [mbind option_bind].
    apply split_ident, ident_core in E3. destruct (e3 =? ERR_OK); [|by intros [= <- <- _]].
    destruct (TcpOut.tcp_output _ _ _ _ _) as [[[p4 n4] e4]|] eqn:E4; [|done]. cbn.
    intros [= <- <- _]. apply output_ident, ident_core in E4. congruence.
Qed.

Lemma slow_persist_touched l p (s s' : st) b : pcbs s !! l = Some p ->
  slow_persist l p s = Some (s', b) -> touched l p s s' /\ b = (TCP_MAXRTX <=? persist_probe p).
Proof.
  intros Ep. unfold slow_persist. destruct (match unacked p with [] => true | _ => false end); [|done].
  destruct (match unsent p with [] => false | _ => true end); [|done].
  destruct (TCP_MAXRTX <=? _); [intros [= <- <-]; split; [by apply touched_refl|done]|].
  destruct (tcp_persist_backoff !! _) as [bc|]; [|done]. cbn [mbind option_bind].
  set (p1 := if _ <? _ then _ else _).
  assert (Ei : core p1 = core p) by (unfold p1; by destruct (_ <? _)). clearbody p1.
  destruct (_ <=? _); [|intros [= <- <-]; split; [by apply touched_put'|done]].
  destruct (persist_due p1 s) as [[[p2 n2] slot]|] eqn:E2; [|done]. cbn [mbind option_bind].
  intros [= <- <-]. split; [|done]. apply touched_put. apply persist_due_core in E2. rewrite <- Ei, <- E2.
  destruct slot; [|done]. unfold next_persist_slot. by destruct (_ <? _).
Qed.

Lemma timed_out_core p : core (tcp_rexmit_rto_commit (timeout_window (backoff_rto p))) = core p.
Proof. unfold tcp_rexmit_rto_commit, backoff_rto. by destruct (bool_decide _), (_ <? _). Qed.

Lemma slow_rto_touched l p (s s' : st) : slow_rto l p s = Some s' -> touched l p s s'.
Proof.
  unfold slow_rto. set (p1 := if _ && _ then _ else p).
  assert (Ei : core p1 = core p) by (unfold p1; by destruct (_ && _)). clearbody p1.
  destruct (rto p1 <=? rtime p1); [|intros [= <-]; by apply touched_put'].
  pose proof (ident_core _ _ (rto_prepare_ident p1)) as Ei2. destruct (tcp_rexmit_rto_prepare p1) as [p2 e2]. cbn [fst] in Ei2.
  destruct (_ || _); [|intros [= <-]; apply touched_put'; congruence].
  destruct (output l _) as [[s3 e3]|] eqn:Eo; [|done]. cbn [mbind option_bind]. intros [= <-].
  apply (output_touched l p _ _ _ _ Eo). rewrite timed_out_core. congruence.
Qed.

Lemma slow_retransmit_touched l p (s s' : st) b : pcbs s !! l = Some p ->
  slow_retransmit l s = Some (s', b) -> touched l p s s' /\ b = given_up p.
Proof.
  intros Ep. unfold slow_retransmit, given_up. rewrite Ep. cbn [mbind option_bind].
  destruct (_ && _); [intros [= <- <-]; split; [by apply touched_refl|done]|].
  destruct (TCP_MAXRTX <=? nrtx p); [intros [= <- <-]; split; [by apply touched_refl|done]|].
  destruct (0 <? _).
  - intros E. by apply slow_persist_touched in E as [? ->].
  - destruct (slow_rto l p s) as [s2|] eqn:E2; [|done]. cbn [mbind option_bind]. intros [= <- <-].
    split; [by apply slow_rto_touched|done].
Qed.

Lemma slow_keepalive_touched l p (s : st) : pcbs s !! l = Some p -> touched l p s (slow_keepalive l p s).
Proof.
  intros Ep. unfold slow_keepalive. destruct (_ && _ && _); [|by apply touched_refl].
  pose proof (ident_core _ _ (keepalive_ident (ctl_ip (rest s)) p (s_net s))) as Ei.
  destruct (tcp_keepalive _ _ _) as [[p2 n2] e2]. apply touched_put. cbn [fst] in Ei. rewrite <- Ei.
  by destruct (e2 =? ERR_OK).
Qed.

(** When the slow timer removes a pcb, in terms of the pcb as it finds it. *)
Definition expired (p : tcp_pcb) (s : st) : bool :=
  given_up p || stuck_in_fin_wait_2 p s || keepalive_timeout p s || stuck_in_syn_rcvd p s || stuck_in_last_ack p s.

Lemma slow_pcb_touched l p (s s' : st) remove reset : pcbs s !! l = Some p ->
  slow_pcb l s = Some (s', remove, reset) ->
  touched l p s s' /\ remove = expired p s /\ reset = keepalive_timeout p s.
Proof.
  intros Ep. unfold slow_pcb, expired.
  destruct (slow_retransmit l s) as [[s1 b1]|] eqn:E1; [|done]. cbn [mbind option_bind].
  apply (slow_retransmit_touched l p) in E1 as [T1 ->]; [|done].
  destruct (touched_lookup _ _ _ _ T1) as (p1 & Ep1 & Ei1). rewrite Ep1. cbn [mbind option_bind].
  pose proof (slow_keepalive_touched l p1 s1 Ep1) as T2. set (s2 := slow_keepalive l p1 s1) in *.
  destruct (touched_lookup _ _ _ _ T2) as (p2 & Ep2 & Ei2). rewrite Ep2. cbn [mbind option_bind].
  set (p3 := drop_stale_ooseq p2 s2).
  assert (Ei3 : core p3 = core p2) by (unfold p3, drop_stale_ooseq; destruct (ooseq p2); [done|]; by destruct (_ <=? _)).
  intros [= <- <- <-]. split.
  { apply (touched_trans l p p1 s s1); [done..|]. apply (touched_trans l p1 p2 s1 s2); [done..|]. by apply touched_put'. }
  assert (Hin : forall q (sq : st), core q = core p -> rest sq = rest s ->
            stuck_in_fin_wait_2 q sq = stuck_in_fin_wait_2 p s /\ keepalive_timeout q sq = keepalive_timeout p s /\
            stuck_in_syn_rcvd q sq = stuck_in_syn_rcvd p s /\ stuck_in_last_ack q sq = stuck_in_last_ack p s).
  { intros q sq Eq Er. unfold core in Eq. injection Eq as G1 _ G2 _ G3 G4 G5.
    unfold stuck_in_fin_wait_2, keepalive_timeout, stuck_in_syn_rcvd, stuck_in_last_ack, kept_alive, inactivity.
    by rewrite G1, G2, G3, G4, G5, Er. }
  pose proof (touched_rest _ _ _ _ T1) as R1. pose proof (touched_rest _ _ _ _ T2) as R2.
  destruct (Hin p1 s1 Ei1 R1) as (-> & -> & _ & _).
  destruct (Hin p3 s2) as (_ & _ & -> & ->); [by rewrite Ei3, Ei2, Ei1|by rewrite R2, R1|]. done.
Qed.

Lemma slow_pcb_shape l (s s' : st) failed reset :
  slow_pcb l s = Some (s', failed, reset) -> shape_of s' = shape_of s.
Proof.
  intros E. destruct (pcbs s !! l) as [p|] eqn:Ep.
  - destruct (slow_pcb_touched l p s s' failed reset Ep E) as [HT _]. by apply (touched_shape l p).
  - unfold slow_pcb, slow_retransmit in E. by rewrite Ep in E.
Qed.

Lemma slow_turn_sane prev l (s s' : st) c :
  slow_turn prev l s = Some (c, s') -> sane (shape_of s) -> sane (shape_of s').
Proof.
  unfold slow_turn. destruct (pcbs s !! l) as [p|] eqn:Ep; [|done]. cbn [mbind option_bind].
  destruct (active_state p) eqn:Eact; [|done].
  destruct (mark l p s) as [s0|] eqn:Em; [|by intros [= _ <-]]. intros E Hs. pose proof (mark_sane l p s s0 Ep Em Hs) as Hs0.
  assert (Ep0 : exists p0, pcbs s0 !! l = Some p0 /\ kind_of p0 = kind_of p).
  { unfold mark in Em. destruct (_ =? _); [done|]. injection Em as <-. eexists. cbn. by rewrite lookup_insert_eq. }
  destruct Ep0 as (p0 & Ep0 & Ek0). destruct (slow_pcb l s0) as [[[s1 remove] reset]|] eqn:E1; [|done]. cbn [mbind option_bind] in E.
  apply slow_pcb_shape in E1. rewrite <- E1 in Hs0. clear Hs. rename Hs0 into Hs.
  assert (Ek : sh_kinds (shape_of s1) !! l = Some Kactive).
  { rewrite E1, (kinds_lookup s0 l p0), Ek0 by done. f_equal. apply state_kind. unfold active_state in Eact.
    repeat case_bool_decide; naive_solver. }
  clear E1 Ek0 Em Ep0 p0 s0 Ep Eact. destruct remove.
  - unfold slow_remove in E. destruct (pcbs s1 !! l) as [p1|] eqn:Ep1; [|done]. cbn [mbind option_bind] in E.
    destruct (Bool.eqb _ _); [|done]. set (s2 := s1 <| tcp_active_pcbs := _ |>) in E.
    set (s3 := if reset then _ else s2) in E.
    assert (E3 : shape_of s3 = shape_of (rmv_active l s1)) by (unfold s3; by destruct reset).
    destruct (TCP_EVENT_ERR _ _ _ _) as [s4|] eqn:E4; [|done]. cbn [mbind option_bind] in E. injection E as _ <-.
    apply event_err_sane in E4; [done|]. change (sane (shape_of (tcp_free l s3))).
    apply (sane_free_active l p1 s1); try done. rewrite (kinds_lookup s1 l p1) in Ek by done. by injection Ek.
  - unfold slow_poll in E. destruct (pcbs s1 !! l) as [p1|] eqn:Ep1; [|done]. cbn [mbind option_bind] in E.
    destruct (_ <=? _); [|injection E as _ <-; by rewrite (shape_put l p1)].
    destruct (event_poll l _) as [[s2 e2]|] eqn:E2; [|done]. cbn [mbind option_bind] in E.
    apply poll_sane in E2; [|change (sane (shape_of (put l (p1 <| polltmr := 0 |>) s1))); by rewrite (shape_put l p1)].
    destruct (tcp_active_pcbs_changed s2); [by injection E as _ <-|].
    destruct (e2 =? ERR_OK); [|by injection E as _ <-].
    destruct (output l s2) as [[s3 e3]|] eqn:Eo; [|done]. cbn [mbind option_bind] in E. injection E as _ <-.
    by rewrite (output_shape _ _ _ _ Eo).
Qed.

Lemma tw_loop_sane pcblist : forall (s s' : st),
  tw_loop pcblist s = Some s' -> sane (shape_of s) -> sane (shape_of s').
Proof.
  induction pcblist as [|l r IH]; intros s s'; cbn [tw_loop]; [by intros [= <-]|].
  destruct (pcbs s !! l) as [p|] eqn:Ep; [|done]. cbn [mbind option_bind].
  destruct (bool_decide (state p = TIME_WAIT)) eqn:Est; [|done]. apply bool_decide_eq_true in Est.
  intros E Hs. apply (IH _ _ E). destruct (stuck_in_time_wait p s); [|done]. rewrite free_shape. cbn.
  pose proof (drop_tw l _ Hs ltac:(rewrite (kinds_lookup s l p) by done; unfold kind_of; by rewrite Est)) as Ed.
  apply (sane_drop l) in Hs. by rewrite Ed in Hs.
Qed.

Lemma fasttmr_sane fuel (s s' : st) :
  tcp_fasttmr fuel s = Some (Some s') -> sane (shape_of s) -> sane (shape_of s').
Proof. intros E Hs. eapply (run_loop_sane fast_turn fuel); [apply fast_turn_sane|exact E|by apply (sane_unmarked _ _ Hs)]. Qed.

Lemma slowtmr_sane fuel (s s' : st) :
  tcp_slowtmr fuel s = Some (Some s') -> sane (shape_of s) -> sane (shape_of s').
Proof.
  unfold tcp_slowtmr. destruct (run_loop _ _ _ _) as [[s1|]|] eqn:E; cbn [mbind option_bind]; [|done..].
  intros [= E1] Hs. apply (tw_loop_sane _ _ _ E1).
  eapply (run_loop_sane slow_turn fuel); [apply slow_turn_sane|exact E|by apply (sane_unmarked _ _ Hs)].
Qed.

(** ** Any sequence of calls *)

Lemma write_ident p addr arg fl n p' n' err :
  tcp_write p addr arg fl n = Some (p', n', err) -> ident p' = ident p.
Proof.
  unfold tcp_write.
  destruct (tcp_write_checks p _) as [[p0 e0]|] eqn:E0; [|done]. cbn [mbind option_bind].
  assert (Ei : ident p0 = ident p) by (unfold tcp_write_checks in E0; invert_binds; same_ident).
  destruct (negb _); [by intros [= <- _ _]|]. clear E0 Ei.
  destruct (match last (unsent p) with Some _ => _ | None => _ end) as [[n1 r]|]; [|done]. cbn [mbind option_bind].
  destruct (match r with Some _ => _ | None => _ end) as [[n2 [[w q]|]]|]; [| |done]; cbn [mbind option_bind].
  - destruct (match last (unsent p) with Some _ => _ | None => _ end) as [hd|]; [|done]. cbn [mbind option_bind].
    destruct (queuelen_ok _); [|done]. by intros [= <- _ _].
  - destruct (queuelen_ok _); [|done]. intros [= <- _ _]. same_ident.
Qed.

Lemma write_shape l addr arg fl (s s' : st) err :
  write l addr arg fl s = Some (s', err) -> shape_of s' = shape_of s.
Proof.
  unfold write. destruct (pcbs s !! l) as [p|] eqn:Ep; [|done]. cbn [mbind option_bind].
  destruct (tcp_write _ _ _ _ _) as [[[p' n] e]|] eqn:Eo; [|done]. cbn [mbind option_bind].
  intros [= <- <-]. apply write_ident, ident_role in Eo. exact (shape_put l p p' s Ep Eo).
Qed.

(** What the application and the timers of the system can call. *)
Inductive api :=
  | ApiNew | ApiNewType (type : Z) | ApiBind (l : positive) (ipaddr : option ip_addr) (port : Z)
  | ApiBindNetif (l : positive) (n : option netif) | ApiListen (l : positive)
  | ApiConnect (l : positive) (ipaddr : ip_addr) (port : Z) | ApiRecved (l : positive) (len : Z)
  | ApiWrite (l : positive) (addr : Z) (data : list Z) (apiflags : Z) | ApiOutput (l : positive)
  | ApiClose (h : handle) | ApiShutdown (h : handle) (rx tx : bool) | ApiAbort (l : positive)
  | ApiArg (h : handle) (arg : Z) | ApiErr (l : positive) (b : bool) | ApiPoll (l : positive) (interval : Z)
  | ApiPrio (h : handle) (prio : Z) | ApiAddrChanged (old : ip_addr) (new : option ip_addr)
  | ApiTmr (fuel : nat) | ApiTxnow.

Definition api_step (c : api) (s : st) : option st :=
  let result {B} (r : option (st * B)) : option st := fst <$> r in
  match c with
  | ApiNew => result (tcp_new s)
  | ApiNewType type => result (tcp_new_ip_type type s)
  | ApiBind l ipaddr port => result (tcp_bind l ipaddr port s)
  | ApiBindNetif l n => tcp_bind_netif l n s
  | ApiListen l => result (tcp_listen_with_backlog l s)
  | ApiConnect l ipaddr port => result (tcp_connect l ipaddr port s)
  | ApiRecved l len => tcp_recved l len s
  | ApiWrite l addr data fl => result (write l addr data fl s)
  | ApiOutput l => result (output l s)
  | ApiClose h => result (tcp_close h s)
  | ApiShutdown h rx tx => result (tcp_shutdown h rx tx s)
  | ApiAbort l => tcp_abort l s
  | ApiArg h arg => tcp_arg h arg s
  | ApiErr l b => tcp_err l b s
  | ApiPoll l i => tcp_poll l i s
  | ApiPrio h p => tcp_setprio h p s
  | ApiAddrChanged old new => tcp_netif_ip_addr_changed old new s
  | ApiTmr fuel => mjoin (tcp_tmr fuel s)
  | ApiTxnow => tcp_txnow s
  end.

Fixpoint api_run (cs : list api) (s : st) : option st :=
  match cs with
  | [] => Some s
  | c :: cs => s ← api_step c s; api_run cs s
  end.

(** No call of [tcp_bind] is for a pcb that is bound already. *)
Definition binds_again (c : api) (s : st) : bool :=
  match c with ApiBind l _ _ => bool_decide (l ∈ tcp_bound_pcbs (rest s)) | _ => false end.

Fixpoint binds_once (cs : list api) (s : st) : bool :=
  match cs with
  | [] => true
  | c :: cs => negb (binds_again c s) && from_option (binds_once cs) true (api_step c s)
  end.

Lemma put_listener_shape l lp lp' (s : st) :
  listeners s !! l = Some lp -> shape_of (put_listener l lp' s) = shape_of s.
Proof.
  intros El. unfold shape_of, put_listener. cbn. f_equal. apply dom_insert_lookup_L. by eexists.
Qed.

Lemma txnow_shape pcblist : forall (s s' : st), txnow_loop pcblist s = Some s' -> shape_of s' = shape_of s.
Proof.
  induction pcblist as [|l r IH]; intros s s'; cbn [txnow_loop]; [by intros [= <-]|].
  destruct (pcbs s !! l) as [p|]; [|done]. cbn [mbind option_bind].
  destruct (tcp_is_flag_set _ _); [|apply IH].
  destruct (output l s) as [[s1 e1]|] eqn:Eo; [|done]. cbn [mbind option_bind]. intros ->%IH.
  by apply (output_shape l s s1 e1).
Qed.

Lemma tmr_sane fuel (s s' : st) :
  tcp_tmr fuel s = Some (Some s') -> sane (shape_of s) -> sane (shape_of s').
Proof.
  unfold tcp_tmr. destruct (tcp_fasttmr fuel s) as [[s1|]|] eqn:E; [|done..]. cbn [mbind option_bind].
  intros E1 Hs. apply fasttmr_sane in E; [|done]. destruct (Z.odd _); [by apply slowtmr_sane in E1|].
  by injection E1 as <-.
Qed.

Lemma api_step_sane c (s s' : st) :
  api_step c s = Some s' -> binds_again c s = false -> sane (shape_of s) -> sane (shape_of s').
Proof.
  assert (Hres : forall B (r : option (st * B)), fst <$> r = Some s' -> exists b, r = Some (s', b)).
  { intros B [[s1 b]|] E; [|done]. injection E as <-. by exists b. }
  destruct c; cbn [api_step]; intros E Hb Hs; try (apply Hres in E as [r E]).
  - by apply (new_sane s s' r).
  - by apply (new_ip_type_sane type s s' r).
  - apply (bind_sane l ipaddr port s s' r); try done. by apply bool_decide_eq_false in Hb.
  - unfold tcp_bind_netif in E. destruct (pcbs s !! l) as [p|] eqn:Ep; [|done]. cbn in E. injection E as <-.
    by rewrite (shape_put l p).
  - unfold tcp_listen_with_backlog in E. destruct (tcp_listen_with_backlog_and_err l s) as [[[s1 ?] ?]|] eqn:E1; [|done].
    cbn in E. injection E as <- _. by eapply listen_sane.
  - by apply (connect_sane l ipaddr port s s' r).
  - by rewrite (recved_shape l len s s').
  - by rewrite (write_shape _ _ _ _ _ _ _ E).
  - by rewrite (output_shape _ _ _ _ E).
  - by apply (close_sane h s s' r).
  - by apply (shutdown_sane h rx tx s s' r).
  - by apply (abandon_sane l true s).
  - unfold tcp_arg in E. destruct h as [l|l].
    + destruct (pcbs s !! l) as [p|] eqn:Ep; [|done]. cbn in E. injection E as <-. by rewrite (shape_put l p).
    + destruct (listeners s !! l) as [lp|] eqn:El; [|done]. cbn in E. injection E as <-. by rewrite (put_listener_shape l lp).
  - unfold tcp_err in E. destruct (pcbs s !! l) as [p|] eqn:Ep; [|done]. cbn [mbind option_bind] in E.
    destruct (negb _); [|done]. injection E as <-. by rewrite (shape_put l p).
  - unfold tcp_poll in E. destruct (pcbs s !! l) as [p|] eqn:Ep; [|done]. cbn [mbind option_bind] in E.
    destruct (negb _); [|done]. injection E as <-. by rewrite (shape_put l p).
  - unfold tcp_setprio in E. destruct h as [l|l].
    + destruct (pcbs s !! l) as [p|] eqn:Ep; [|done]. cbn in E. injection E as <-. by rewrite (shape_put l p).
    + destruct (listeners s !! l) as [lp|] eqn:El; [|done]. cbn in E. injection E as <-. by rewrite (put_listener_shape l lp).
  - by apply (netif_changed_sane old new s s').
  - destruct (tcp_tmr fuel s) as [[s1|]|] eqn:E1; [|done..]. injection E as <-. by apply (tmr_sane fuel s s1).
  - by rewrite (txnow_shape _ _ _ E).
Qed.

Lemma api_run_sane cs : forall (s s' : st),
  api_run cs s = Some s' -> binds_once cs s = true -> sane (shape_of s) -> sane (shape_of s').
Proof.
  induction cs as [|c cs IH]; intros s s'; cbn [api_run binds_once]; [by intros [= <-]|].
  destruct (api_step c s) as [s1|] eqn:E; [|done]. cbn [mbind option_bind from_option].
  intros E1 [Hb%negb_true_iff Hbs]%andb_true_iff Hs.
  apply (IH s1); [done..|]. by apply (api_step_sane c s).
Qed.

(** Why once: [tcp_bind] takes a pcb that is bound for one that is not, since both
    are CLOSED.  It says that all is well, and the list of bound pcbs leads back to
    the pcb: from then on no loop over all lists that looks for a port nobody has
    comes back. *)
Lemma tcp_bind_twice l p ipaddr port (s : st) :
  pcbs s !! l = Some p -> state p = CLOSED -> l ∈ tcp_bound_pcbs (rest s) -> port <> 0 ->
  find_end (bind_conflict (bind_zone (default ip_addr_any ipaddr) s) port) s = Some false ->
  (forall s : st, is_Some (tcp_timer_needed s)) ->
  exists s', tcp_bind l ipaddr port s = Some (s', ERR_OK) /\ tcp_bound_next (rest s') = Some l /\
    forall f, find_end f s' <> Some false.
Proof.
  intros Ep Est Hin Hport Hf Ht. unfold tcp_bind. rewrite Ep. cbn [mbind option_bind].
  rewrite bool_decide_true by done. rewrite (proj2 (Z.eqb_neq port 0) Hport), Hf. cbn [mbind option_bind].
  change (ERR_OK =? ERR_OK) with true. cbn [negb]. unfold reg_bound. cbn [rest put setter on_ctl].
  rewrite (bool_decide_true _ Hin).
  match goal with |- context [tcp_timer_needed ?x] => destruct (Ht x) as [s1 E1] end.
  rewrite E1. cbn [mbind option_bind]. exists s1. split; [done|].
  assert (Hn : tcp_bound_next (rest s1) = Some l).
  { change (sh_next (shape_of s1) = Some l). by rewrite (timer_shape _ _ E1). }
  split; [done|]. intros f. unfold find_end. destruct (ends_met s1); [|done]. cbn [mbind option_bind].
  rewrite Hn. by destruct (existsb f _).
Qed.

(** C9: the axioms of tcp_priv.h about the lists of pcbs, for what calls of the
    application and runs of the timers, in any order, can reach from empty lists,
    as long as tcp_bind is not called for a pcb that is bound already (it does not
    look, and the list of bound pcbs becomes circular: tcp_bind_twice) and the
    callbacks of the application keep the axioms themselves (env_sane).  No list
    has a pcb twice, no pcb is in two lists, the list of bound pcbs has an end; the
    active pcbs are neither CLOSED nor in TIME-WAIT, the pcbs of [tcp_tw_pcbs] are
    in TIME-WAIT, the bound ones CLOSED with a local port, and the list of
    listeners has exactly the listeners in memory; every pcb in memory that is not
    CLOSED is in one of the lists (or is the one whose segment is being
    processed).  So no list leads to freed memory. *)
Theorem pcb_lists_sane (cs : list api) (s s' : st)
  (Hempty : pcbs s = ∅ /\ listeners s = ∅ /\ tcp_active_pcbs s = [] /\ tcp_tw_pcbs s = [] /\
            tcp_bound_pcbs (rest s) = [] /\ tcp_listen_pcbs s = [] /\ tcp_bound_next (rest s) = None)
  (E : api_run cs s = Some s') (Honce : binds_once cs s = true) :
  NoDup (tcp_active_pcbs s' ++ tcp_tw_pcbs s' ++ tcp_bound_pcbs (rest s')) /\ NoDup (tcp_listen_pcbs s') /\
  tcp_bound_next (rest s') = None /\
  (forall l, l ∈ tcp_active_pcbs s' -> exists p, pcbs s' !! l = Some p /\ active_state p = true) /\
  (forall l, l ∈ tcp_tw_pcbs s' -> exists p, pcbs s' !! l = Some p /\ state p = TIME_WAIT) /\
  (forall l, l ∈ tcp_bound_pcbs (rest s') ->
     exists p, pcbs s' !! l = Some p /\ state p = CLOSED /\ local_port p <> 0) /\
  (forall l, l ∈ tcp_listen_pcbs s' <-> is_Some (listeners s' !! l)) /\
  (forall l p, pcbs s' !! l = Some p -> state p <> CLOSED ->
     l ∈ tcp_active_pcbs s' \/ l ∈ tcp_tw_pcbs s' \/ tcp_input_pcb (rest s') = Some l).
Proof.
  assert (H0s : sane (shape_of s)).
  { destruct Hempty as (E1 & E2 & E3 & E4 & E5 & E6 & E7). unfold shape_of. rewrite E1, E2, E3, E4, E5, E6, E7.
    split; try (by split; [constructor|set_solver]); try done; cbn; intros x; by rewrite lookup_fmap, lookup_empty. }
  destruct (api_run_sane cs s s' E Honce H0s) as [[Hn1 Ha] [Hn2 Ht] [Hn3 Hb] [Hn4 Hl] Haa Hat Hc Hnx].
  assert (Hk : forall l K, sh_kinds (shape_of s') !! l = Some K ->
                exists p, pcbs s' !! l = Some p /\ kind_of p = K).
  { intros l K. cbn. rewrite lookup_fmap, fmap_Some. intros (p & ? & ->). by exists p. }
  cbn in Hn1, Hn2, Hn3, Hn4, Hl, Haa, Hat. split_and!.
  - apply NoDup_app. split_and!; [done| |apply NoDup_app; split_and!; [done| |done]].
    + intros x Hx%Ha. rewrite elem_of_app. intros [Hy%Ht|Hy%Hb]; congruence.
    + intros x Hx%Ht Hy%Hb. congruence.
  - done.
  - exact Hnx.
  - intros l (p & Hp & Ek)%Ha%Hk. exists p. split; [done|]. apply state_kind in Ek.
    unfold active_state. by rewrite !bool_decide_false by naive_solver.
  - intros l (p & Hp & Ek)%Ht%Hk. exists p. split; [done|]. unfold kind_of in Ek. by destruct (state p).
  - intros l (p & Hp & Ek)%Hb%Hk. exists p. unfold kind_of in Ek.
    destruct (state p); try done. split_and!; [done..|]. injection Ek as Ek. by destruct (Z.eqb_spec (local_port p) 0).
  - intros l. by rewrite Hl, elem_of_dom.
  - intros l p Hp Hst. pose proof (kinds_lookup s' l p Hp) as Hkp. pose proof (Hc l) as Hcl.
    unfold kind_of in Hkp. cbn in Hkp, Hcl.
    destruct (state p) eqn:Es; try (destruct (Haa l Hkp); [by left|by right; right]); [done|done|].
    right. left. by apply Hat.
Qed.
End lists.

(** ** An application

    It closes a connection when it is polled, and is told nothing else. *)
#[export] Instance closing_env : tcp_env (ctl unit) := {
  event_accept s p := Some (s, p, ERR_OK);
  event_accept_failed s _ := Some s;
  event_connected s p := Some (s, p, ERR_OK);
  event_sent _ s p := Some (s, p, ERR_OK);
  event_recv _ s p := Some (s, p, ERR_OK);
  event_err _ _ s := Some s;
  event_poll l s := tcp_close (H := no_ip6) (Conn l) s;
  tcp_timer_needed s := Some s
}.

#[export] Instance closing_env_sane : env_sane (A := unit).
Proof.
  split.
  - by intros s s' [= <-].
  - by intros arg e s s' [= <-].
  - intros l s s' err. apply close_sane.
  - intros l d s s' p p' err [= <- <- <-]. by split.
Qed.

(** The stack at its start, with memory and answers of IP for a while. *)
Definition example_ctl : stack (ctl unit) :=
  Stack (Ctl tt example_net 0 0 0 49151 6510 [] None None (replicate 8 true))
    (TcpIn.Net [] (replicate 20 (Some ERR_OK)) (replicate 20 true) (replicate 20 (Some 4096)))
    ∅ ∅ [] [] [] false false.

(** A listener, a connection to 10.0.0.2:80, another one that is aborted, and
    the timers, by which the application is polled. *)
Definition example_calls : list api :=
  [ApiNew; ApiBind 2 None 80; ApiListen 2; ApiNew; ApiConnect 2 (IPADDR4_INIT (addr4 10 0 0 2)) 80;
   ApiNew; ApiConnect 3 (IPADDR4_INIT (addr4 10 0 0 2)) 80; ApiAbort 3; ApiTmr 5; ApiNew; ApiBind 2 None 0].

Lemma pcb_lists_sane_witness :
  exists s', api_run (H := no_ip6) example_calls example_ctl = Some s' /\
    NoDup (tcp_active_pcbs s' ++ tcp_tw_pcbs s' ++ tcp_bound_pcbs (rest s')) /\ NoDup (tcp_listen_pcbs s') /\
    tcp_bound_next (rest s') = None /\
    (forall l, l ∈ tcp_active_pcbs s' -> exists p, pcbs s' !! l = Some p /\ active_state p = true) /\
    (forall l, l ∈ tcp_tw_pcbs s' -> exists p, pcbs s' !! l = Some p /\ state p = TIME_WAIT) /\
    (forall l, l ∈ tcp_bound_pcbs (rest s') ->
       exists p, pcbs s' !! l = Some p /\ state p = CLOSED /\ local_port p <> 0) /\
    (forall l, l ∈ tcp_listen_pcbs s' <-> is_Some (listeners s' !! l)) /\
    (forall l p, pcbs s' !! l = Some p -> state p <> CLOSED ->
       l ∈ tcp_active_pcbs s' \/ l ∈ tcp_tw_pcbs s' \/ tcp_input_pcb (rest s') = Some l).
Proof.
  assert (Hrun : is_Some (api_run (H := no_ip6) example_calls example_ctl)) by (vm_compute; by eexists).
  destruct Hrun as [s' E]. exists s'. split; [exact E|].
  refine (pcb_lists_sane (H := no_ip6) example_calls example_ctl s' _ E _); [by split_and!|by vm_compute].
Defined.

(** Two calls of [tcp_bind] for one pcb, and a third one, for another pcb and a port
    that nobody has. *)
Example bound_twice :
  let calls := [ApiNew; ApiBind 2 None 80; ApiBind 2 None 81] in
  (fun s => (tcp_bound_pcbs (rest s), tcp_bound_next (rest s))) <$> api_run (H := no_ip6) calls example_ctl =
    Some ([2%positive], Some 2%positive) /\
  api_run (H := no_ip6) (calls ++ [ApiNew; ApiBind 3 None 82]) example_ctl = None.
Proof. by vm_compute. Qed.
