(* ===== verification/TcpControlSpec.v ===== *)
(** * Opening and closing connections: what the calls do

    Ports, allocation under memory pressure, closing, the receive window. *)

From S2P Require Import Prelude Err IpAddr NetifDefs Net NetExamples TcpDefs TcpIn TcpOut TcpProcess TcpControl TcpTimers TcpPcbs.

(** ** Local ports *)

Notation RANGE := 16383 (only parsing).   (* TCP_LOCAL_PORT_RANGE_END - TCP_LOCAL_PORT_RANGE_START *)

(** Where [next_port] is after [i] more turns. *)
Definition nth_port (port i : Z) : Z := TCP_LOCAL_PORT_RANGE_START + (port + 1 - TCP_LOCAL_PORT_RANGE_START + i) mod RANGE.

Definition in_port_range (port : Z) : Prop := TCP_LOCAL_PORT_RANGE_START <= port < TCP_LOCAL_PORT_RANGE_END.

Lemma next_port_nth port : TCP_LOCAL_PORT_RANGE_START - 1 <= port < TCP_LOCAL_PORT_RANGE_END ->
  next_port port = nth_port port 0.
Proof.
  unfold next_port, nth_port, TCP_LOCAL_PORT_RANGE_START, TCP_LOCAL_PORT_RANGE_END, u16. intros Hp.
  rewrite (Z.mod_small (port + 1)) by lia. destruct (Z.eqb_spec (port + 1) 65535) as [E|E].
  - replace (port + 1 - 49152 + 0) with (1 * RANGE) by lia. by rewrite Z.mod_mul.
  - rewrite Z.mod_small; lia.
Qed.

Lemma nth_port_range port i : in_port_range (nth_port port i).
Proof.
  unfold in_port_range, nth_port, TCP_LOCAL_PORT_RANGE_START, TCP_LOCAL_PORT_RANGE_END.
  pose proof (Z.mod_pos_bound (port + 1 - 49152 + i) RANGE). lia.
Qed.

Lemma nth_port_next port i : TCP_LOCAL_PORT_RANGE_START - 1 <= port < TCP_LOCAL_PORT_RANGE_END ->
  nth_port (next_port port) i = nth_port port (i + 1).
Proof.
  intros Hp. rewrite next_port_nth by done. unfold nth_port. f_equal.
  set (x := port + 1 - TCP_LOCAL_PORT_RANGE_START + 0).
  replace (_ + x mod RANGE + 1 - _ + i) with (x mod RANGE + (i + 1)) by lia.
  rewrite Zplus_mod_idemp_l. f_equal. unfold x. lia.
Qed.

(** Every port of the range comes up. *)
Lemma nth_port_all port x : in_port_range x -> exists i, 0 <= i < RANGE /\ nth_port port i = x.
Proof.
  unfold in_port_range, nth_port, TCP_LOCAL_PORT_RANGE_START, TCP_LOCAL_PORT_RANGE_END. intros Hx.
  exists ((x - 1 - port) mod RANGE). split; [by apply Z.mod_pos_bound|].
  rewrite Zplus_mod_idemp_r. replace (port + 1 - 49152 + (x - 1 - port)) with (x - 49152) by lia.
  rewrite Z.mod_small; lia.
Qed.

Lemma new_port_spec used fuel : forall n port,
  0 <= n -> n + Z.of_nat fuel = RANGE + 1 ->
  (0 < fuel)%nat -> TCP_LOCAL_PORT_RANGE_START - 1 <= port < TCP_LOCAL_PORT_RANGE_END ->
  exists q r, new_port fuel (fun x => Some (used x)) n port = Some (q, r) /\ in_port_range q /\
    (r = 0 /\ (forall i, 0 <= i < Z.of_nat fuel -> used (nth_port port i) = true) \/ r = q /\ used r = false).
Proof.
  induction fuel as [|fuel IH]; intros n port Hn Hf Hpos Hp; [lia|]. cbn [new_port mbind option_bind].
  pose proof (nth_port_range port 0) as Hr. rewrite <- next_port_nth in Hr by done.
  destruct (used (next_port port)) eqn:Eu.
  2:{ exists (next_port port), (next_port port). split_and!; try done. by right. }
  assert (Hn16 : u16 (n + 1) = n + 1) by (apply Z.mod_small; lia). rewrite Hn16.
  change (TCP_LOCAL_PORT_RANGE_END - TCP_LOCAL_PORT_RANGE_START) with RANGE.
  assert (Hall : forall m, (forall i, 0 <= i < m -> used (nth_port (next_port port) i) = true) ->
                 forall i, 0 <= i < m + 1 -> used (nth_port port i) = true).
  { intros m H i Hi. destruct (decide (i = 0)) as [->|]; [by rewrite <- next_port_nth|].
    replace i with (i - 1 + 1) by lia. rewrite <- nth_port_next by done. apply H. lia. }
  destruct (Z.ltb_spec RANGE (n + 1)).
  - exists (next_port port), 0. split_and!; try done. left. split; [done|].
    intros i Hi. apply (Hall 0); [intros j Hj; lia|lia].
  - destruct (IH (n + 1) (next_port port)) as (q & r & E & Hq & Hres); [lia|lia|lia| |].
    { unfold in_port_range in Hr. lia. }
    exists q, r. split_and!; try done. destruct Hres as [[-> Hu]|]; [|by right].
    left. split; [done|]. intros i Hi. apply (Hall (Z.of_nat fuel)); [done|lia].
Qed.

Section control.
Context {A : Type} `{!tcp_env (ctl A)} `{!ip6_layer}.
Notation st := (stack (ctl A)).

Definition port_used (ends : list (ip_addr * Z)) (port : Z) : bool := existsb (fun e => e.2 =? port) ends.

(** The local ends of all pcbs: the walk over the lists has an end. *)
Definition local_ends (s : st) : option (list (ip_addr * Z)) :=
  match tcp_bound_next (rest s) with None => ends_met s | Some _ => None end.

Lemma find_end_spec f (s : st) ends : local_ends s = Some ends -> find_end f s = Some (existsb f ends).
Proof.
  unfold local_ends, find_end. destruct (tcp_bound_next (rest s)); [done|]. intros ->. cbn [mbind option_bind].
  by destruct (existsb f ends).
Qed.

Lemma new_port_ext fuel (u v : Z -> option bool) : (forall x, u x = v x) ->
  forall n port, new_port fuel u n port = new_port fuel v n port.
Proof.
  intros Huv. induction fuel as [|fuel IH]; intros n port; cbn [new_port]; [done|]. rewrite Huv.
  destruct (v (next_port port)) as [[]|]; cbn [mbind option_bind]; by rewrite ?IH.
Qed.

(** The search of [tcp_new_port] when the lists end. *)
Lemma new_port_fueled_spec fuel (s : st) ends : local_ends s = Some ends ->
  tcp_new_port_fueled fuel s =
  '(port, r) ← new_port fuel (fun port => Some (port_used ends port)) 0 (ctl_port (rest s));
  Some (on_ctl (fun c => c <| ctl_port := port |>) s, r).
Proof.
  intros He. unfold tcp_new_port_fueled. erewrite new_port_ext; [done|]. intros x. by apply find_end_spec.
Qed.

(** C13: a local port is found if there is one: when the lists of pcbs have an end
    and the counter tcp_port is between 49151 and 65534 (where tcp_new_port leaves
    it; 65535 can only come from tcp_init, see tcp_init_port_overflow),
    tcp_new_port comes back, for all pcbs there are; the port it returns lies in
    the range 49152 to 65534 and no pcb of any list has it, it returns 0 only when
    all of them are taken, and the counter is in the range again. *)
Theorem tcp_new_port_free (s : st) ends
  (Hends : local_ends s = Some ends)
  (Hport : TCP_LOCAL_PORT_RANGE_START - 1 <= ctl_port (rest s) < TCP_LOCAL_PORT_RANGE_END) :
  exists port r, tcp_new_port s = Some (on_ctl (fun c => c <| ctl_port := port |>) s, r) /\
    in_port_range port /\
    (r <> 0 -> r = port /\ port_used ends r = false) /\
    (r = 0 <-> forall x, in_port_range x -> port_used ends x = true).
Proof.
  destruct (new_port_spec (port_used ends) (Z.to_nat 16384) 0 (ctl_port (rest s))) as (q & r & E & Hq & Hres);
    [lia..|].
  exists q, r. split.
  { unfold tcp_new_port. revert E. generalize (Z.to_nat 16384) as fuel. intros fuel E.
    rewrite (new_port_fueled_spec _ _ ends), E by done. done. }
  split; [done|]. destruct Hres as [[-> Hu]|[-> Hu]].
  - split; [done|]. split; [|done]. intros _ x Hx.
    destruct (nth_port_all (ctl_port (rest s)) x Hx) as (i & Hi & <-). apply Hu. lia.
  - split; [done|]. split.
    + intros ->. unfold in_port_range, TCP_LOCAL_PORT_RANGE_START in Hq. lia.
    + intros Hall. rewrite (Hall q Hq) in Hu. done.
Qed.

(** C40: a wrong start: TCP_ENSURE_LOCAL_PORT_RANGE gives 65535 for one random
    number in 16384, one more than tcp_new_port ever sets.  Then the counter wraps
    around: the first port is 0, the value for a failure, and the second one is 1,
    a privileged port, far from the range. *)
Theorem tcp_init_port_overflow rand (s : st) ends
  (Hrand : Z.land rand 16383 = 16383) (Hends : local_ends s = Some ends)
  (H0 : port_used ends 0 = false) (H1 : port_used ends 1 = false) :
  exists s1 s2, tcp_new_port (tcp_init rand s) = Some (s1, 0) /\ tcp_new_port s1 = Some (s2, 1).
Proof.
  set (s0 := tcp_init rand s). exists (on_ctl (fun c => c <| ctl_port := 0 |>) s0).
  exists (on_ctl (fun c => c <| ctl_port := 1 |>) s0).
  assert (E0 : ctl_port (rest s0) = 65535).
  { change (u16 (Z.land rand 16383 + TCP_LOCAL_PORT_RANGE_START) = 65535). by rewrite Hrand. }
  assert (F : exists fuel, Z.to_nat 16384 = Datatypes.S fuel) by (exists (Z.to_nat 16383); lia).
  destruct F as [fuel Ef]. unfold tcp_new_port. rewrite Ef.
  rewrite !(new_port_fueled_spec _ _ ends) by exact Hends. cbn [mbind option_bind new_port].
  rewrite E0. change (next_port 65535) with 0. rewrite H0. split; [done|].
  change (ctl_port (rest (on_ctl (fun c => c <| ctl_port := 0 |>) s0))) with 0.
  change (next_port 0) with 1. by rewrite H1.
Qed.
End control.

(** A connection that has the first port of the range. *)
Definition example_port_taken : stack (ctl unit) :=
  put 1 ((init_pcb 64 example_ctl) <| state := ESTABLISHED |> <| local_port := 49152 |>)
    (example_ctl <| tcp_active_pcbs := [1%positive] |>).

Lemma tcp_new_port_free_witness :
  exists port r,
    tcp_new_port example_port_taken = Some (on_ctl (fun c => c <| ctl_port := port |>) example_port_taken, r) /\
    in_port_range port /\
    (r <> 0 -> r = port /\ port_used [(zero_addr, 49152)] r = false) /\
    (r = 0 <-> forall x, in_port_range x -> port_used [(zero_addr, 49152)] x = true).
Proof. apply (tcp_new_port_free example_port_taken); [by vm_compute|]. by vm_compute. Defined.

Lemma tcp_init_port_overflow_witness :
  exists s1 s2, tcp_new_port (tcp_init 16383 example_ctl) = Some (s1, 0) /\ tcp_new_port s1 = Some (s2, 1).
Proof. by apply (tcp_init_port_overflow 16383 example_ctl []). Defined.
