(* ===== verification/TcpChksum.v ===== *)
(** * Checksum on copy

    The checksum a segment carries while data is copied into it is that of its
    octets, and the checksum [tcp_output_segment] puts together from it is the
    one that the slow computation over the whole packet gives, so that the
    receiver accepts it. *)

From S2P Require Import Prelude Err Def IpAddr NetifDefs Chksum Pbuf IpHdr Net TcpDefs TcpIn TcpOut.

(** ** The running checksum *)

(** [c] is the checksum (and the parity) of the octets [d]. *)
Definition chksum_of (d : list Z) (c : Z * bool) : Prop :=
  c = (norm (phase (odd_length d) (wsum d)), odd_length d).

Lemma chksum_of_nil : chksum_of [] (0, false).
Proof. done. Qed.

Lemma chksum_of_bound d c : bytes_ok d -> chksum_of d c -> 0 <= c.1 <= 65535.
Proof. intros Hd ->. apply norm_bound, phase_nonneg. by apply wsum_nonneg. Qed.

Lemma land1_odd_length (e : list Z) : negb (Z.land (Z.of_nat (length e)) 1 =? 0) = odd_length e.
Proof. unfold odd_length. change 1 with (Z.ones 1). by rewrite Z.land_ones by lia. Qed.

Lemma add_chksum_eq x e c sw :
  0 <= x -> 0 <= c <= 65535 ->
  tcp_seg_add_chksum (norm x) (Z.of_nat (length e)) c sw =
    (norm (phase (odd_length e) (c + x)), xorb sw (odd_length e)).
Proof.
  intros Hx Hc. unfold tcp_seg_add_chksum. pose proof (norm_bound x Hx).
  rewrite u32_id, fold1, norm_add_l by (unfold is_u32; lia).
  pose proof (norm_bound (x + c) ltac:(lia)).
  rewrite u16_id, land1_odd_length by (unfold is_u16; lia).
  destruct (odd_length e); simpl.
  - rewrite SWAP_norm, xorb_true_r by lia. by rewrite Z.add_comm.
  - by rewrite xorb_false_r, Z.add_comm.
Qed.

(** Adding the checksum of the octets [e] behind [d]. *)
Lemma chksum_of_app d e c :
  bytes_ok d -> bytes_ok e -> chksum_of d c ->
  chksum_of (d ++ e) (tcp_seg_add_chksum (norm (wsum e)) (Z.of_nat (length e)) c.1 c.2).
Proof.
  intros Hd He Hc. pose proof (wsum_nonneg _ Hd). pose proof (wsum_nonneg _ He).
  rewrite add_chksum_eq; [|done|by apply (chksum_of_bound d)].
  rewrite Hc. unfold chksum_of. cbn [fst snd]. rewrite odd_length_app. f_equal.
  pose proof (phase_nonneg (odd_length d) (wsum d) ltac:(done)).
  rewrite phase_norm_add by done.
  rewrite <- (Z.add_0_l (wsum (d ++ e))), phase_wsum_app by (done || lia).
  rewrite <- (phase_compose _ _ 0) by lia. done.
Qed.

Lemma unswap_chksum d c : bytes_ok d -> chksum_of d c ->
  (if c.2 : bool then SWAP_BYTES_IN_WORD c.1 else c.1) = norm (wsum d).
Proof. unfold chksum_of. intros Hd E. subst c. apply unswap. by apply wsum_nonneg. Qed.

Lemma LWIP_CHKSUM_norm odd d :
  bytes_ok d -> Z.of_nat (length d) <= max_chksum_len -> LWIP_CHKSUM odd d = norm (wsum d).
Proof. intros. by apply standard2_norm. Qed.

(** [~inet_chksum], as an argument of type [u16_t]. *)
Lemma not_inet_chksum odd d :
  bytes_ok d -> Z.of_nat (length d) <= max_chksum_len ->
  u16 (Z.lnot (inet_chksum odd d)) = norm (wsum d).
Proof.
  intros. rewrite inet_chksum_norm by done.
  pose proof (norm_bound _ (wsum_nonneg d ltac:(done))). rewrite lnot16 by lia. lia.
Qed.

(** ** Segments *)

Abbreviation parts_len := (sum_with pt_len).

(** A segment of the send queues: its length, pbufs and checksum agree with its
    data. *)
Record seg_wf (s : tcp_seg) : Prop := {
  wf_p : seg_p s = Some (seg_data s);
  wf_bytes : bytes_ok (seg_data s);
  wf_len : seg_len s = Z.of_nat (length (seg_data s));
  wf_u16 : seg_len s <= 65000;
  wf_parts : parts_len (seg_parts s) = seg_len s;
  wf_parts_pos : Forall (fun q => 0 <= pt_len q) (seg_parts s);
  wf_parts_some : seg_parts s <> [];
  wf_chksum : chksum_of (seg_data s) (ss_chksum (seg_snd s), ss_chksum_swapped (seg_snd s));
  wf_chksummed : seg_data s <> [] -> flagset (ss_flags (seg_snd s)) TF_SEG_DATA_CHECKSUMMED = true;
  wf_seqno : is_u32 (seg_seqno s);
  wf_flags : 0 <= seg_flags s < 64;
  wf_no_rst : flagset (seg_flags s) TCP_RST = false;
  wf_ports : is_u16 (ss_src (seg_snd s)) /\ is_u16 (ss_dest (seg_snd s))
}.

Lemma data_chunks_octets parts : forall d,
  Forall (fun q => 0 <= pt_len q) parts -> parts_len parts = Z.of_nat (length d) ->
  chain_octets (data_chunks parts d) = d.
Proof.
  induction parts as [|q parts IH]; intros d Hp Hl.
  - rewrite sum_with_nil in Hl. destruct d; [done|]. cbn [length] in Hl. lia.
  - apply Forall_cons in Hp as [Hq Hp]. cbn [data_chunks]. rewrite chain_octets_cons. cbn [octets].
    rewrite sum_with_cons in Hl. pose proof (sum_with_nonneg _ _ Hp).
    rewrite IH by (done || rewrite length_drop; lia). by rewrite take_drop.
Qed.

Lemma data_chunks_ok parts : forall d,
  bytes_ok d -> Z.of_nat (length d) < 65536 -> Forall chunk_ok (data_chunks parts d).
Proof.
  induction parts as [|q parts IH]; intros d Hd Hl; cbn [data_chunks]; constructor.
  - split; cbn [octets]; [by apply bytes_ok_take|].
    unfold is_u16, chunk_len. cbn [octets]. rewrite length_take. lia.
  - apply IH; [by apply Forall_drop|]. rewrite length_drop. lia.
Qed.

Lemma seg_chunks_octets hdr s : seg_wf s -> chain_octets (seg_chunks hdr s) = hdr ++ seg_data s.
Proof.
  intros W. pose proof (data_chunks_octets (seg_parts s) (seg_data s) (wf_parts_pos _ W)) as E.
  rewrite <- (wf_len _ W) in E. specialize (E (wf_parts _ W)). unfold seg_chunks.
  pose proof (wf_parts_some _ W) as Hne.
  destruct (seg_parts s) as [|q r]; [done|]. cbn [data_chunks] in E |- *. rewrite chain_octets_cons in E |- *.
  cbn [octets] in *. by rewrite <- app_assoc, E.
Qed.

Lemma seg_chunks_ok hdr s :
  seg_wf s -> bytes_ok hdr -> (length hdr <= 60)%nat -> Forall chunk_ok (seg_chunks hdr s).
Proof.
  intros W Hh Hl. unfold seg_chunks. pose proof (wf_len _ W). pose proof (wf_u16 _ W).
  pose proof (data_chunks_ok (seg_parts s) (seg_data s) (wf_bytes _ W) ltac:(lia)) as Hc.
  destruct (seg_parts s) as [|q r]; cbn [data_chunks] in *; [done|].
  apply Forall_cons in Hc as [[Hq _] Hr]. constructor; [|done]. cbn [octets] in *.
  split; cbn [octets]; [by apply Forall_app|].
  unfold is_u16, chunk_len. cbn [octets]. rewrite length_app, length_take. lia.
Qed.

Lemma octets2_ok v : is_u16 v -> bytes_ok (octets2 v).
Proof.
  unfold is_u16, octets2. intros. repeat apply List.Forall_cons; try done; unfold is_u8;
    Z.div_mod_to_equations; lia.
Qed.

Lemma octets4_ok v : is_u32 v -> bytes_ok (octets4 v).
Proof.
  unfold is_u32, octets4. intros. apply Forall_app. split; apply octets2_ok; unfold is_u16;
    Z.div_mod_to_equations; lia.
Qed.

(** A header with its checksum field: even offset 16. *)
Definition header_front (h : tcp_hdr) : list Z :=
  octets2 (h_src h) ++ octets2 (h_dest h) ++ octets4 (h_seqno h) ++ octets4 (h_ackno h) ++
  [h_len h / 4 * 16; h_flags h] ++ octets2 (h_wnd h).

Lemma encode_header_split h :
  encode_header h = header_front h ++ octets2 (h_chksum h) ++ (octets2 (h_urgp h) ++ h_opts h).
Proof. unfold encode_header, header_front. by rewrite <- !app_assoc. Qed.

Lemma encode_header_ok h :
  hdr_ok h -> is_u16 (h_chksum h) -> is_u16 (h_urgp h) -> bytes_ok (h_opts h) -> bytes_ok (encode_header h).
Proof.
  intros [? ? ? ? ? ? []] ? ? ?. unfold encode_header, h_len.
  rewrite !Forall_app.
  split_and!; try (by (apply octets2_ok || apply octets4_ok)); [|done].
  repeat apply List.Forall_cons; try done; unfold is_u8.
  all: Z.div_mod_to_equations; lia.
Qed.

(** ** The checksum of a segment *)

Lemma h_len_bounds hdr : hdr_ok hdr -> 20 <= h_len hdr <= 60.
Proof. intros [? ? ? ? ? ? []]. unfold h_len. lia. Qed.

Lemma odd_length_hdr hdr : hdr_ok hdr -> odd_length (encode_header hdr) = false.
Proof.
  intros [? ? ? ? ? ? []]. unfold odd_length. rewrite length_encode_header. unfold h_len.
  apply negb_false_iff, Z.eqb_eq. Z.div_mod_to_equations. lia.
Qed.

Section segment.
Context (seg : tcp_seg) (p : tcp_pcb) (hdr : tcp_hdr).
Context (W : seg_wf seg) (Hh : hdr_ok hdr) (Hc : h_chksum hdr = 0) (Hu : h_urgp hdr = 0).
Context (Ho : bytes_ok (h_opts hdr)) (Hl : ip_ok (local_ip p)) (Hr : ip_ok (remote_ip p)).

Let tot_len := h_len hdr + p_tot_len (seg_data seg).

Lemma tot_len_u16 : u16 tot_len = tot_len /\ is_u16 tot_len.
Proof.
  pose proof (h_len_bounds hdr Hh). pose proof (wf_len _ W). pose proof (wf_u16 _ W).
  unfold tot_len, p_tot_len. split; [apply u16_id|]; unfold is_u16; lia.
Qed.

Lemma hdr_octets_ok : bytes_ok (encode_header hdr).
Proof. apply encode_header_ok; try done; unfold is_u16; lia. Qed.

Lemma hdr_chunks_ok : Forall chunk_ok (seg_chunks (encode_header hdr) seg).
Proof.
  pose proof (h_len_bounds hdr Hh). pose proof (length_encode_header hdr).
  apply seg_chunks_ok; [done|apply hdr_octets_ok|lia].
Qed.

(** The checksum on copy is the one the slow computation gives. *)
Lemma segment_chksum_slow :
  segment_chksum seg p hdr =
    Some (ip_chksum_pseudo (seg_chunks (encode_header hdr) seg) IP_PROTO_TCP tot_len
            (local_ip p) (remote_ip p)).
Proof.
  pose proof (h_len_bounds hdr Hh) as Hb. destruct tot_len_u16 as [Et Ht].
  pose proof hdr_chunks_ok as Hck. pose proof (wf_bytes _ W) as Hd.
  unfold segment_chksum. fold tot_len. rewrite Et.
  assert (flagset (ss_flags (seg_snd seg)) TF_SEG_DATA_CHECKSUMMED || (tot_len =? h_len hdr) = true) as ->.
  { destruct (seg_data seg) eqn:E.
    - apply orb_true_iff. right. apply Z.eqb_eq. unfold tot_len, p_tot_len. simpl. lia.
    - rewrite (wf_chksummed _ W); [done|congruence]. }
  rewrite ip_chksum_pseudo_partial_norm by (done || lia). cbn [mbind option_bind].
  rewrite ip_chksum_pseudo_norm, (seg_chunks_octets _ _ W) by done.
  pose proof (length_encode_header hdr) as Hle.
  rewrite take_app_length' by lia.
  set (ph := pseudo_header _ _ _ _).
  assert (bytes_ok (ph ++ encode_header hdr)) as Hph.
  { apply Forall_app. split; [by apply pseudo_header_ok|apply hdr_octets_ok]. }
  pose proof (wsum_nonneg _ Hph) as Hn1. pose proof (wsum_nonneg _ Hd) as Hn2.
  pose proof (norm_bound _ Hn1). pose proof (norm_bound _ Hn2).
  pose proof (unswap_chksum _ _ Hd (wf_chksum _ W)) as Eu. cbn [fst snd] in Eu. rewrite Eu.
  rewrite (lnot16 (65535 - _)) by lia. replace (65535 - (65535 - _)) with (norm (wsum (ph ++ encode_header hdr))) by lia.
  rewrite u32_id, fold1, norm_add_l, norm_add_r by (unfold is_u32; lia).
  pose proof (norm_bound (wsum (ph ++ encode_header hdr) + wsum (seg_data seg)) ltac:(lia)).
  rewrite lnot16 by lia. do 3 f_equal.
  rewrite (app_assoc ph). symmetry. apply wsum_app_even.
  rewrite odd_length_app, odd_length_hdr by done. unfold ph. by rewrite odd_length_pseudo_header.
Qed.

(** The packet with the checksum in its place passes the receiver's test,
    however it is cut into pbufs. *)
Lemma segment_verifies c pkt :
  segment_chksum seg p hdr = Some c -> Forall chunk_ok pkt ->
  chain_octets pkt = encode_header (with_chksum c hdr) ++ seg_data seg ->
  ip_chksum_pseudo pkt IP_PROTO_TCP tot_len (local_ip p) (remote_ip p) = 0.
Proof.
  rewrite segment_chksum_slow. intros [= E] Hpkt Hoct. destruct tot_len_u16 as [_ Ht].
  pose proof hdr_chunks_ok as Hck.
  pose proof (ip_chksum_pseudo_norm _ IP_PROTO_TCP tot_len _ _ Hck ltac:(done) Ht Hl Hr) as Ec.
  pose proof (norm_bound _ (wsum_nonneg _ (app_chain_ok _ IP_PROTO_TCP tot_len (local_ip p) (remote_ip p) Hck ltac:(done) Ht))).
  apply (stored_chksum_verifies IP_PROTO_TCP tot_len (local_ip p) (remote_ip p)
           (seg_chunks (encode_header hdr) seg) pkt (header_front hdr)
           (octets2 (h_urgp hdr) ++ h_opts hdr ++ seg_data seg)); try done.
  - rewrite (seg_chunks_octets _ _ W), encode_header_split, Hc. by rewrite <- !app_assoc.
  - rewrite Hoct, encode_header_split, E. cbn [h_chksum h_urgp h_opts with_chksum].
    change (header_front (with_chksum c hdr)) with (header_front hdr).
    rewrite <- !app_assoc. f_equal.
    enough (octets2 (lwip_htons c) = [c mod 256; c / 256]) as -> by done.
    rewrite htons_SWAP by (unfold is_u16; lia). unfold octets2.
    f_equal; [|f_equal]; Z.div_mod_to_equations; lia.
Qed.

End segment.
