(* ===== verification/TcpWrite.v ===== *)
(** * Writing to a connection: [tcp_write] appends to the stream

    [tcp_write] either appends exactly the data it is given to the octets of
    the [unsent] queue, with every segment's length, pbufs, checksum and
    sequence number in order, or changes nothing but [TF_NAGLEMEMERR]. *)

From Stdlib Require Import Sorting.Sorted.
From S2P Require Import Prelude Err Def IpAddr NetifDefs Chksum Pbuf IpHdr Net TcpDefs TcpIn TcpExamples TcpAck TcpOut TcpChksum.

(** ** Changes of a segment keep it well-formed *)

Lemma seg_wf_ext s s' :
  seg_wf s -> seg_p s' = seg_p s -> seg_len s' = seg_len s -> seg_seqno s' = seg_seqno s ->
  0 <= seg_flags s' < 64 -> flagset (seg_flags s') TCP_RST = false -> ss_parts (seg_snd s') = ss_parts (seg_snd s) ->
  ss_flags (seg_snd s') = ss_flags (seg_snd s) -> ss_chksum (seg_snd s') = ss_chksum (seg_snd s) ->
  ss_chksum_swapped (seg_snd s') = ss_chksum_swapped (seg_snd s) ->
  ss_src (seg_snd s') = ss_src (seg_snd s) -> ss_dest (seg_snd s') = ss_dest (seg_snd s) ->
  seg_wf s'.
Proof.
  intros [] Ep El Es Hf Hr Eq Eo Ec Ew E1 E2. unfold seg_parts, seg_data in *.
  split; unfold seg_parts, seg_data; rewrite ?Ep, ?El, ?Es, ?Eq, ?Eo, ?Ec, ?Ew, ?E1, ?E2; done.
Qed.

Lemma lor_flags_bound a b : 0 <= a < 64 -> 0 <= b < 64 -> 0 <= Z.lor a b < 64.
Proof.
  intros Ha Hb. assert (H : 0 <= Z.lor a b) by (apply Z.lor_nonneg; lia). split; [done|].
  replace (Z.lor a b) with (Z.lor a b mod 2 ^ 6); [by apply Z.mod_pos_bound|].
  rewrite <- Z.land_ones by lia. rewrite Z.land_lor_distr_l, !Z.land_ones by lia.
  by rewrite !Z.mod_small by lia.
Qed.

Lemma set_oversize_left_wf o s : seg_wf s -> seg_wf (set_oversize_left o s).
Proof. intros W. eapply seg_wf_ext; try done; apply W. Qed.

Lemma flagset_lor_r x f : f <> 0 -> 0 <= f -> flagset (Z.lor x f) f = true.
Proof.
  intros Hf Hp. unfold flagset. rewrite Z.land_lor_distr_l, Z.land_diag. apply negb_true_iff, Z.eqb_neq.
  intros E. apply Z.lor_eq_0_iff in E as [_ E]. done.
Qed.

Lemma flagset_lor_other x f g : Z.land f g = 0 -> flagset (Z.lor x f) g = flagset x g.
Proof. intros H. unfold flagset. by rewrite Z.land_lor_distr_l, H, Z.lor_0_r. Qed.

Lemma or_flags_wf f s : 0 <= f < 64 -> Z.land f TCP_RST = 0 -> seg_wf s -> seg_wf (or_flags f s).
Proof.
  intros Hf Hr W. eapply seg_wf_ext; try done.
  - apply lor_flags_bound; [apply W|done].
  - unfold or_flags. cbn [seg_flags setter]. rewrite flagset_lor_other by done. apply W.
Qed.

(** More data, in pbufs that account for it, with its checksum. *)
Lemma append_wf s parts d c x :
  seg_wf s -> bytes_ok d -> seg_len s + Z.of_nat (length d) <= 65000 ->
  parts_len parts = seg_len s + Z.of_nat (length d) -> Forall (fun q => 0 <= pt_len q) parts ->
  parts <> [] -> c = Z.of_nat (length d) -> x = norm (wsum d) ->
  seg_wf (add_chksum x c (set_data parts (seg_data s ++ d) s <| seg_len := seg_len s + c |>)).
Proof.
  intros W Hd Hle Hp Hpos Hne -> ->. pose proof (wf_len _ W) as Hl.
  pose proof (chksum_of_app _ d _ (wf_bytes _ W) Hd (wf_chksum _ W)) as Hc.
  split; try done; try apply W.
  - cbn. apply Forall_app. split; [apply W|done].
  - cbn. rewrite length_app. lia.
  - cbn in Hc |- *. by rewrite <- surjective_pairing.
  - intros _. by apply flagset_lor_r.
Qed.

(** ** The pieces of the data *)

Lemma length_arg_at arg a b :
  0 <= a -> 0 <= b -> a + b <= w_len arg -> Z.of_nat (length (arg_at arg a b)) = b.
Proof. intros. unfold arg_at, w_len in *. rewrite length_take, length_drop. lia. Qed.

Lemma arg_at_app arg a b c :
  0 <= a -> 0 <= b -> 0 <= c -> arg_at arg a b ++ arg_at arg (a + b) c = arg_at arg a (b + c).
Proof.
  intros. unfold arg_at. rewrite !Z2Nat.inj_add, <- drop_drop by lia.
  generalize (drop (Z.to_nat a) arg). intros l. by rewrite take_take_drop.
Qed.

Lemma arg_at_ok arg a b : bytes_ok arg -> bytes_ok (arg_at arg a b).
Proof. intros. by apply Forall_take, Forall_drop. Qed.

Lemma arg_at_0 arg a : arg_at arg a 0 = [].
Proof. unfold arg_at. by rewrite take_0. Qed.

Lemma arg_at_all arg a : 0 <= a -> arg_at arg a (w_len arg - a) = drop (Z.to_nat a) arg.
Proof. intros. unfold arg_at, w_len. apply take_ge. rewrite length_drop. lia. Qed.

Lemma parts_len_grow k parts : parts <> [] -> parts_len (grow_last_part k parts) = parts_len parts + k.
Proof.
  intros H. unfold grow_last_part. destruct (exists_last H) as (r & q & ->).
  rewrite last_snoc, removelast_last, !sum_with_app, !sum_with_cons, !sum_with_nil. cbn. lia.
Qed.

Lemma grow_last_part_pos k parts :
  0 <= k -> Forall (fun q => 0 <= pt_len q) parts -> Forall (fun q => 0 <= pt_len q) (grow_last_part k parts).
Proof.
  intros Hk H. unfold grow_last_part. destruct (list.last parts) as [q|] eqn:E; [|done].
  apply last_Some in E as [r ->]. rewrite removelast_last. apply Forall_app in H as [? [? _]%Forall_cons].
  apply Forall_app. split; [done|]. constructor; [cbn; lia|done].
Qed.

Lemma length_grow_last_part k parts : length (grow_last_part k parts) = length parts.
Proof.
  unfold grow_last_part. destruct (list.last parts) as [q|] eqn:E; [|done].
  apply last_Some in E as [r ->]. by rewrite removelast_last, !length_app.
Qed.

Lemma grow_last_part_ne k parts : parts <> [] -> grow_last_part k parts <> [].
Proof. intros H E. apply (f_equal length) in E. rewrite length_grow_last_part in E. by destruct parts. Qed.

Lemma opt_length_bounds f : 0 <= LWIP_TCP_OPT_LENGTH f <= 4.
Proof. unfold LWIP_TCP_OPT_LENGTH. case_match; lia. Qed.

(** ** The phases *)

(** The last unsent segment can be written to: what is kept of the room behind
    it is right. *)
Record open_tail (p : tcp_pcb) (l : tcp_seg) : Prop := {
  ot_wf : seg_wf l;
  ot_oversize : unsent_oversize p = ss_oversize_left (seg_snd l);
  ot_room : 0 <= ss_oversize_left (seg_snd l);
  ot_mss : seg_len l + seg_optlen l + ss_oversize_left (seg_snd l) <= mss_local p;
  ot_rom : forall q, last (seg_parts l) = Some q -> pt_rom q = true -> ss_oversize_left (seg_snd l) = 0
}.

Section phases.
Context (p : tcp_pcb) (addr : Z) (arg : list Z) (apiflags : Z).
Context (Harg : bytes_ok arg) (Hlen : w_len arg <= 32768) (Hmss : 1 <= mss p <= TCP_MSS)
  (Hwnd : 0 <= snd_wnd_max p).
Abbreviation len := (w_len arg).
Abbreviation m := (mss_local p).
Abbreviation copy := (copying apiflags).

Lemma mss_local_bounds : 1 <= m <= 1460.
Proof.
  unfold mss_local, TCP_MSS in *. destruct (Z.eqb_spec (Z.min (mss p) (Z.min (snd_wnd_max p / 2) 65535)) 0);
    Z.div_mod_to_equations; lia.
Qed.

Lemma w_len_nonneg : 0 <= len.
Proof. unfold w_len. lia. Qed.

(** What the first two phases have decided: [u] octets for the room behind the
    last segment, [k] for a pbuf chained to it. *)
Record planned (l : tcp_seg) (w : wr) (u k : Z) : Prop := {
  pl_u : 0 <= u /\ w_oversize_used w = u /\ u <= ss_oversize_left (seg_snd l);
  pl_k : 0 <= k /\ w_concat_chksummed w = k;
  pl_pos : w_pos w = u + k /\ u + k <= len;
  pl_concat : match w_concat_p w with
              | Some q => 0 < k /\ pt_len q = k /\ w_extendlen w = 0 /\ (pt_rom q = true -> w_oversize w = 0)
              | None => w_extendlen w = k /\ w_oversize_add w = 0
              end;
  pl_chksum : chksum_of (arg_at arg u k) (w_concat_chksum w);
  pl_oversize : w_oversize w = ss_oversize_left (seg_snd l) - u + w_oversize_add w;
  pl_add : 0 <= w_oversize_add w /\ 0 <= w_oversize w;
  pl_room : seg_len l + seg_optlen l + u + k + w_oversize w <= m;
  pl_queuelen : w_queuelen w = snd_queuelen p + match w_concat_p w with Some _ => 1 | None => 0 end;
  pl_next : w_pos w < len -> w_oversize w = 0;
  pl_tampered : 0 < u + k -> w_tampered w = true;
  pl_data : 0 < k -> 0 < seg_len l
}.

Lemma phase1_spec l :
  open_tail p l ->
  exists w u, write_phase1 p arg l = Some w /\ planned l w u 0 /\ w_concat_p w = None /\
    w_oversize_add w = 0 /\ w_concat_chksum w = (0, false) /\
    w_space w = m - (seg_len l + seg_optlen l) - u.
Proof.
  intros [W Ho Hr Hm Hrom]. pose proof mss_local_bounds as Hb. pose proof w_len_nonneg as Hn.
  pose proof (wf_len _ W) as Hl.
  assert (0 <= seg_optlen l) as Hopt by apply opt_length_bounds.
  unfold write_phase1. destruct (Z.leb_spec (seg_len l + seg_optlen l) m); [|lia].
  rewrite Ho, Z.eqb_refl. cbn zeta. rewrite u16_id by (unfold is_u16; lia).
  destruct (Z.ltb_spec 0 (ss_oversize_left (seg_snd l))).
  - destruct (Z.leb_spec (ss_oversize_left (seg_snd l)) (m - (seg_len l + seg_optlen l))); [|lia].
    cbn [mbind option_bind].
    set (u := Z.min (m - (seg_len l + seg_optlen l)) (Z.min (ss_oversize_left (seg_snd l)) len)).
    cbn [w_oversize w_pos setter].
    assert ((ss_oversize_left (seg_snd l) - u =? 0) || (u =? len) = true) as ->.
    { apply orb_true_iff. rewrite !Z.eqb_eq. lia. }
    eexists _, u. split; [done|].
    split; [|by cbn [w_concat_p w_oversize_add w_concat_chksum w_space setter wr_init]].
    split; cbn; rewrite ?arg_at_0; try done; lia.
  - cbn [mbind option_bind]. cbn [w_oversize w_pos setter].
    rewrite (proj2 (Z.eqb_eq (ss_oversize_left (seg_snd l)) 0)) by lia. cbn [orb].
    eexists _, 0. split; [done|]. split; [|by cbn; split_and!; try done; lia].
    split; cbn; rewrite ?arg_at_0; try done; lia.
Qed.

(** Allocation touches nothing else. *)
Definition mem_only (n n' : net) : Prop := trace n' = trace n /\ answers n' = answers n.

Lemma mem_only_trans n1 n2 n3 : mem_only n1 n2 -> mem_only n2 n3 -> mem_only n1 n3.
Proof. intros [] []. split; congruence. Qed.

Lemma next_pbuf_mem n n' a : next_pbuf n = (n', a) -> mem_only n n'.
Proof. unfold next_pbuf. destruct (pbuf_mem n); by intros [= <- <-]. Qed.

Lemma next_seg_mem n n' b : next_seg n = (n', b) -> mem_only n n'.
Proof. unfold next_seg. destruct (seg_mem n); by intros [= <- <-]. Qed.

Lemma pbuf_alloc_ram_mem layer k n n' a : pbuf_alloc_ram layer k n = (n', a) -> mem_only n n'.
Proof. unfold pbuf_alloc_ram. destruct (_ <? _); [by intros [= <- <-]|apply next_pbuf_mem]. Qed.

(** The next [k] requests for memory, of either kind, succeed. *)
Definition plenty (k : nat) (n : net) : Prop :=
  (k <= length (pbuf_mem n))%nat /\ Forall is_Some (take k (pbuf_mem n)) /\
  (k <= length (seg_mem n))%nat /\ Forall (eq true) (take k (seg_mem n)).

Lemma plenty_le j k n : (j <= k)%nat -> plenty k n -> plenty j n.
Proof.
  intros Hj (H1 & H2 & H3 & H4).
  split_and!; try lia.
  - replace (take j (pbuf_mem n)) with (take j (take k (pbuf_mem n))) by (rewrite take_take; f_equal; lia).
    by apply Forall_take.
  - replace (take j (seg_mem n)) with (take j (take k (seg_mem n))) by (rewrite take_take; f_equal; lia).
    by apply Forall_take.
Qed.

Lemma plenty_pbuf k n n' a : next_pbuf n = (n', a) -> plenty (S k) n -> is_Some a /\ plenty k n'.
Proof.
  unfold next_pbuf. intros E (H1 & H2 & H3 & H4).
  destruct (plenty_le k (S k) n ltac:(lia) (conj H1 (conj H2 (conj H3 H4)))) as (_ & _ & K3 & K4).
  destruct (pbuf_mem n) as [|b r]; [simpl in H1; lia|]. injection E as <- <-.
  cbn [take] in H2. apply Forall_cons in H2 as [Hb H2]. split; [done|].
  split_and!; try done. cbn. simpl in H1. lia.
Qed.

Lemma plenty_seg k n n' b : next_seg n = (n', b) -> plenty (S k) n -> b = true /\ plenty k n'.
Proof.
  unfold next_seg. intros E (H1 & H2 & H3 & H4).
  destruct (plenty_le k (S k) n ltac:(lia) (conj H1 (conj H2 (conj H3 H4)))) as (K1 & K2 & _ & _).
  destruct (seg_mem n) as [|c r]; [simpl in H3; lia|]. injection E as <- <-.
  cbn [take] in H4. apply Forall_cons in H4 as [Hb H4]. split; [done|].
  split_and!; try done. cbn. simpl in H3. lia.
Qed.

Lemma plenty_ram k layer i n n' a :
  pbuf_alloc_ram layer i n = (n', a) -> 0 <= layer -> 0 <= i -> layer + i < 65536 -> plenty (S k) n ->
  is_Some a /\ plenty k n'.
Proof.
  unfold pbuf_alloc_ram. intros E ? ? ?. rewrite u16_id in E by (unfold is_u16; lia).
  rewrite (proj2 (Z.ltb_ge _ _)) in E by lia. by apply plenty_pbuf.
Qed.

Lemma prealloc_plenty j layer k maxl first n n' r :
  tcp_pbuf_prealloc layer k maxl p apiflags first n = (n', r) -> 0 <= k <= maxl -> maxl <= 1460 ->
  0 <= layer <= 100 -> plenty (S j) n -> is_Some r /\ plenty j n'.
Proof.
  unfold tcp_pbuf_prealloc. intros H Hk Hm Hl Hp. destruct (pbuf_alloc_ram _ _ n) as [n1 r1] eqn:E.
  apply (plenty_ram j) in E as [[a ->] Hj]; try done; try lia.
  { by injection H as <- <-. }
  all: destruct (_ && _); [rewrite u16_id; unfold is_u16, TCP_OVERSIZE, TCP_MSS; lia|lia].
Qed.

Lemma prealloc_spec layer k maxl first n n' r :
  tcp_pbuf_prealloc layer k maxl p apiflags first n = (n', r) -> 0 <= k <= maxl -> maxl <= 1460 ->
  mem_only n n' /\ match r with Some (a, o) => 0 <= o /\ k + o <= maxl | None => True end.
Proof.
  unfold tcp_pbuf_prealloc. intros H Hk Hm. destruct (pbuf_alloc_ram _ _ n) as [n1 r1] eqn:E.
  apply pbuf_alloc_ram_mem in E.
  destruct r1 as [a|]; [|by injection H as <- <-]. injection H as <- <-. split; [done|].
  unfold TCP_OVERSIZE, TCP_MSS in *. destruct (_ && _); rewrite ?(u16_id (Z.min _ _)), u16_id; unfold is_u16; lia.
Qed.

Lemma phase2_spec l w u n :
  open_tail p l -> planned l w u 0 -> w_concat_p w = None -> w_oversize_add w = 0 ->
  w_concat_chksum w = (0, false) -> w_space w = m - (seg_len l + seg_optlen l) - u ->
  (0 < len -> 0 <= snd_queuelen p < 65535) ->
  exists n' r, write_phase2 p addr arg apiflags l w n = Some (n', r) /\ mem_only n n' /\
    (forall j, plenty (S j) n -> is_Some r /\ plenty j n') /\
    match r with Some w' => exists k, planned l w' u k | None => True end.
Proof.
  intros [W Ho Hr Hm Hrom] P Ec Ea Ex Es Hq. pose proof mss_local_bounds as Hb. pose proof w_len_nonneg as Hn.
  pose proof (wf_len _ W) as Hl.
  assert (0 <= seg_optlen l) as Hopt by apply opt_length_bounds.
  destruct P as [(Hu0 & Hu & Hu1) [_ Hk] [Hp Hp1] Hc Hx Hos _ Hrm Hql Hnx Ht Hd].
  rewrite Ec in Hc, Hql. destruct Hc as [Hc _]. unfold write_phase2.
  destruct ((w_pos w <? len) && (0 <? w_space w) && (0 <? seg_len l)) eqn:E; [|].
  2:{ exists n, (Some w). split; [done|]. split; [done|].
      split; [intros j ?; split; [done|by apply (plenty_le j (S j)); [lia|]]|]. exists 0.
      split; rewrite ?Ec; try done; lia. }
  apply andb_true_iff in E as [[E1%Z.ltb_lt E2%Z.ltb_lt]%andb_true_iff E3%Z.ltb_lt].
  specialize (Hnx E1). specialize (Hq ltac:(lia)). assert (w_pos w = u) as Hpu by lia. rewrite Hpu.
  set (k := Z.min (w_space w) (len - u)).
  assert (Hkb : 0 < k /\ u + k <= len /\ k <= w_space w /\ (u + k < len -> k = w_space w)) by lia.
  pose proof (length_arg_at arg u k Hu0 ltac:(lia) ltac:(lia)) as Hlk.
  pose proof (arg_at_ok arg u k Harg) as Hok.
  assert (Hch : chksum_of (arg_at arg u k) (tcp_seg_add_chksum (norm (wsum (arg_at arg u k))) k 0 false)).
  { pose proof (chksum_of_app [] (arg_at arg u k) (0, false)) as H. rewrite Hlk in H.
    by apply H; [constructor|..|apply chksum_of_nil]. }
  assert (Eu : u16 (u + k) = u + k /\ u16 (0 + k) = k /\ u16 (snd_queuelen p + 0 + 1) = snd_queuelen p + 1)
    by (split_and!; [apply u16_id| apply u16_id|rewrite Z.add_0_r; apply u16_id]; unfold is_u16; lia).
  destruct Eu as (Eu & Ek & Eq).
  destruct copy.
  - destruct (tcp_pbuf_prealloc PBUF_RAW k (w_space w) p apiflags true n) as [n1 r] eqn:Er.
    assert (Hpl : forall j, plenty (S j) n -> is_Some r /\ plenty j n1)
      by (intros j Hj; eapply (prealloc_plenty j); [exact Er|unfold PBUF_RAW; lia..|done]).
    apply prealloc_spec in Er as [Hmem Hr1]; [|lia..].
    destruct r as [[a o]|]; [|exists n1, None; split_and!; [done|done|intros j Hj; destruct (Hpl j Hj) as [Hno _]; by apply is_Some_None in Hno|done]].
    eexists _, (Some _). split; [done|]. split; [done|]. split; [intros j Hj; split; [done|by apply Hpl]|]. exists k.
    rewrite LWIP_CHKSUM_norm by (done || lia).
    split; cbn; rewrite ?Ex, ?Hk, ?Hql, ?Hpu, ?Eu, ?Ek, ?Eq; try done; try lia; by split_and!; try lia.
  - assert (exists q, list.last (seg_parts l) = Some q) as [q Eql].
    { destruct (exists_last (wf_parts_some _ W)) as (r & q & ->). exists q. by rewrite last_snoc. }
    rewrite Eql. cbn [mbind option_bind]. rewrite not_inet_chksum by (done || lia).
    destruct (pt_rom q && _) eqn:Erom.
    + apply andb_true_iff in Erom as [Erom _]. specialize (Hrom q Eql Erom).
      assert (u = 0) as -> by lia. cbn [Z.eqb].
      eexists _, (Some _). split; [done|]. split; [done|].
      split; [intros j ?; split; [done|by apply (plenty_le j (S j)); [lia|]]|]. exists k.
      split; cbn; rewrite ?Ex, ?Hk, ?Hql, ?Hpu, ?Eu, ?Ek, ?Ec; try done; try lia; by split_and!; try lia.
    + destruct (next_pbuf n) as [n1 a] eqn:En.
      assert (Hpl : forall j, plenty (S j) n -> is_Some a /\ plenty j n1) by (intros j; by apply plenty_pbuf).
      apply next_pbuf_mem in En. destruct a as [a|]; [|exists n1, None; split_and!; [done|done|intros j Hj; destruct (Hpl j Hj) as [Hno _]; by apply is_Some_None in Hno|done]].
      eexists _, (Some _). split; [done|]. split; [done|]. split; [intros j Hj; split; [done|by apply Hpl]|]. exists k.
      split; cbn; rewrite ?Ex, ?Hk, ?Hql, ?Hpu, ?Eu, ?Ek, ?Eq; try done; try lia; by split_and!; try lia.
Qed.

(** Segments one behind the other from [P] on. *)
Fixpoint chained (P : Z) (q : list tcp_seg) : Prop :=
  match q with
  | [] => True
  | s :: r => seg_seqno s = u32 P /\ chained (P + seg_len s) r
  end.

(** A segment that phase 3 makes. *)
Record new_seg (s : tcp_seg) : Prop := {
  ns_wf : seg_wf s;
  ns_len : 0 < seg_len s;
  ns_flags : seg_flags s = 0;
  ns_optlen : seg_optlen s = 0;
  ns_room : 0 <= ss_oversize_left (seg_snd s) /\ seg_len s + ss_oversize_left (seg_snd s) <= m;
  ns_rom : forall q, last (seg_parts s) = Some q -> pt_rom q = true -> ss_oversize_left (seg_snd s) = 0
}.

Definition seg_octets (q : list tcp_seg) : list Z := concat (map seg_data q).

(** What phase 3 leaves alone. *)
Definition same_plan (w w' : wr) : Prop :=
  w_oversize_used w' = w_oversize_used w /\ w_oversize_add w' = w_oversize_add w /\
  w_concat_p w' = w_concat_p w /\ w_extendlen w' = w_extendlen w /\
  w_concat_chksum w' = w_concat_chksum w /\ w_concat_chksummed w' = w_concat_chksummed w /\
  w_tampered w' = w_tampered w.

Context (Hports : is_u16 (local_port p) /\ is_u16 (remote_port p)).

Lemma new_seg_ok parts d o c seqno n n' r :
  bytes_ok d -> 0 < Z.of_nat (length d) -> 0 <= o -> Z.of_nat (length d) + o <= m -> chksum_of d c ->
  parts_len parts = Z.of_nat (length d) -> Forall (fun q => 0 <= pt_len q) parts -> parts <> [] ->
  (forall q, last parts = Some q -> pt_rom q = true -> o = 0) ->
  tcp_create_segment p parts d 0 seqno 0 n = Some (n', Some r) ->
  let s := set_chksum c (set_oversize_left o r) in
  new_seg s /\ seg_data s = d /\ seg_seqno s = u32 seqno /\ seg_parts s = parts /\
  seg_len s = Z.of_nat (length d) /\ ss_oversize_left (seg_snd s) = o.
Proof.
  intros Hd Hdl Ho Hm Hc Hpl Hpos Hne Hrom. unfold tcp_create_segment. cbn zeta.
  pose proof mss_local_bounds as Hb.
  destruct (next_seg n) as [n1 [|]]; [|done]. cbn [LWIP_TCP_OPT_LENGTH].
  change (LWIP_TCP_OPT_LENGTH 0) with 0. unfold p_tot_len. rewrite Z.add_0_l, Z.sub_0_r.
  rewrite (u16_id (Z.of_nat (length d))), u16_id by (unfold is_u16; lia).
  destruct (Z.leb_spec 0 (Z.of_nat (length d))); [|lia]. cbn [flagset negb].
  change (negb (flagset 0 TF_SEG_DATA_CHECKSUMMED)) with true. cbn iota. intros [= <- <-].
  split_and!; try done. split; try done.
  split; try done; cbn; try lia.
  - by rewrite <- surjective_pairing.
  - apply u32_bound.
Qed.

Lemma create_segment_mem parts d hdrflags seqno optflags n :
  flagset optflags TF_SEG_DATA_CHECKSUMMED = false -> Z.of_nat (length d) < 65000 ->
  exists n' r, tcp_create_segment p parts d hdrflags seqno optflags n = Some (n', r) /\ mem_only n n' /\
    (forall j, plenty (S j) n -> is_Some r /\ plenty j n').
Proof.
  intros Hf Hd. unfold tcp_create_segment. destruct (next_seg n) as [n1 b] eqn:E.
  assert (Hpl : forall j, plenty (S j) n -> b = true /\ plenty j n1) by (intros j; by apply plenty_seg).
  apply next_seg_mem in E.
  destruct b; [|exists n1, None; split_and!; [done..|intros j Hj; by destruct (Hpl j Hj)]]. rewrite Hf. unfold p_tot_len.
  pose proof (opt_length_bounds optflags).
  rewrite (u16_id (_ + _)) by (unfold is_u16; lia).
  rewrite (proj2 (Z.leb_le _ _)) by lia.
  eexists n1, (Some _). split_and!; [done..|intros j Hj; by destruct (Hpl j Hj)].
Qed.

(** One round: what is allocated for the octets [d]. *)
Lemma phase3_alloc w (q : list tcp_seg) n seglen :
  let d := arg_at arg (w_pos w) seglen in
  0 < seglen -> w_pos w + seglen <= len -> 0 <= w_pos w -> seglen <= m -> w_oversize w = 0 ->
  exists n' r,
    (if copy then
       match tcp_pbuf_prealloc PBUF_TRANSPORT (u16 (seglen + 0)) m p apiflags
               match q with [] => true | _ => false end n with
       | (n, None) => Some (n, None)
       | (n, Some (a, oversize)) =>
           Some (n, Some ([Part (a + 0) seglen false], oversize,
                          tcp_seg_add_chksum (LWIP_CHKSUM (Z.odd (a + 0)) d) seglen 0 false))
       end
     else
       lwip_assert (w_oversize w =? 0);
       match next_pbuf n with
       | (n, None) => Some (n, None)
       | (n, Some _) =>
           let a := addr + w_pos w in
           let chksum := u16 (Z.lnot (inet_chksum (Z.odd a) d)) in
           let c := if negb (Z.land seglen 1 =? 0) then (SWAP_BYTES_IN_WORD chksum, true)
                    else (chksum, false) in
           match pbuf_alloc_ram PBUF_TRANSPORT 0 n with
           | (n, None) => Some (n, None)
           | (n, Some h) => Some (n, Some ([Part (h + 0) 0 false; Part a seglen true], 0, c))
           end
       end) = Some (n', r) /\ mem_only n n' /\ (forall j, plenty (2 + j) n -> is_Some r /\ plenty j n') /\
    match r with
    | None => True
    | Some (parts, o, c) => 0 <= o /\ seglen + o <= m /\ chksum_of d c /\ parts_len parts = seglen /\
        Forall (fun q => 0 <= pt_len q) parts /\ (1 <= length parts <= 2)%nat /\
        (forall q, last parts = Some q -> pt_rom q = true -> o = 0)
    end.
Proof.
  intros d Hs Hp Hp0 Hm Ho. pose proof mss_local_bounds as Hb.
  pose proof (length_arg_at arg (w_pos w) seglen Hp0 ltac:(lia) Hp) as Hl. fold d in Hl.
  pose proof (arg_at_ok arg (w_pos w) seglen Harg) as Hd. fold d in Hd.
  assert (Hch : chksum_of d (tcp_seg_add_chksum (norm (wsum d)) seglen 0 false)).
  { pose proof (chksum_of_app [] d (0, false)) as H. rewrite Hl in H.
    by apply H; [constructor|..|apply chksum_of_nil]. }
  rewrite Z.add_0_r, u16_id by (unfold is_u16; lia).
  destruct copy.
  - destruct (tcp_pbuf_prealloc _ _ _ _ _ _ n) as [n1 r] eqn:Er.
    assert (Hpl : forall j, plenty (2 + j) n -> is_Some r /\ plenty j n1).
    { intros j Hj. eapply (prealloc_plenty j); [exact Er|unfold PBUF_TRANSPORT; lia..|].
      by apply (plenty_le (S j) (2 + j)); [lia|]. }
    apply prealloc_spec in Er as [Hmem Hr]; [|lia..].
    destruct r as [[a o]|];
      [|exists n1, None; split_and!; [done|done|intros j Hj; destruct (Hpl j Hj) as [Hno _]; by apply is_Some_None in Hno|done]].
    eexists _, (Some _). split; [done|]. split; [done|]. split; [intros j Hj; split; [done|by apply Hpl]|].
    rewrite LWIP_CHKSUM_norm by (done || lia). destruct Hr.
    split_and!; try done; try (rewrite ?sum_with_cons, ?sum_with_nil; cbn; lia).
    + repeat constructor. cbn. lia.
    + by intros q' [= <-].
  - rewrite Ho. cbn [Z.eqb]. destruct (next_pbuf n) as [n1 x] eqn:E1.
    destruct x as [x|].
    2:{ exists n1, None. split; [done|]. split; [by eapply next_pbuf_mem|]. split; [|done].
        intros j Hj. destruct (plenty_pbuf (S j) _ _ _ E1 Hj) as [Hno _]. by apply is_Some_None in Hno. }
    destruct (pbuf_alloc_ram PBUF_TRANSPORT 0 n1) as [n2 h] eqn:E2.
    assert (Hpl : forall j, plenty (2 + j) n -> is_Some h /\ plenty j n2).
    { intros j Hj. destruct (plenty_pbuf (S j) _ _ _ E1 Hj) as [_ Hj1].
      eapply (plenty_ram j); [exact E2|unfold PBUF_TRANSPORT; lia..|done]. }
    apply next_pbuf_mem in E1. apply pbuf_alloc_ram_mem in E2.
    destruct h as [h|].
    2:{ exists n2, None. split; [done|]. split; [by eapply mem_only_trans|]. split; [|done].
        intros j Hj. destruct (Hpl j Hj) as [Hx _]. by apply is_Some_None in Hx. }
    eexists _, (Some _). split; [done|]. split; [by eapply mem_only_trans|].
    split; [intros j Hj; split; [done|by apply Hpl]|].
    rewrite not_inet_chksum by (done || lia).
    split_and!; try done; try (rewrite ?sum_with_cons, ?sum_with_nil; cbn; lia).
    + unfold chksum_of. pose proof (land1_odd_length d) as Eo. rewrite Hl in Eo. rewrite Eo.
      destruct (odd_length d); simpl; [|done]. by rewrite SWAP_norm by by apply wsum_nonneg.
    + repeat constructor; cbn; lia.
Qed.

Abbreviation queue_clen := (sum_with seg_clen).

(** What phase 3 has made when it comes to its end. *)
Record segmented (w w' : wr) (new : list tcp_seg) : Prop := {
  sg_new : Forall new_seg new;
  sg_chained : chained (snd_lbb p + w_pos w) new;
  sg_data : seg_octets new = drop (Z.to_nat (w_pos w)) arg;
  sg_queuelen : w_queuelen w' = w_queuelen w + queue_clen new;
  sg_bound : new <> [] -> w_queuelen w' <= TCP_SND_QUEUELEN;
  sg_plan : same_plan w w';
  sg_oversize : w_oversize w' = match last new with
                                | Some s => ss_oversize_left (seg_snd s)
                                | None => w_oversize w
                                end
}.

Lemma same_plan_refl w : same_plan w w.
Proof. done. Qed.

(** The loop comes to its end: fuel for one round more than there may be
    pbufs on the queues is enough. *)
Lemma phase3_spec fuel : forall w q n,
  0 <= w_pos w <= len -> (w_pos w < len -> w_oversize w = 0) ->
  (w_pos w < len -> 0 <= w_queuelen w <= TCP_SND_QUEUELEN /\
                    TCP_SND_QUEUELEN + 1 - w_queuelen w <= Z.of_nat fuel) ->
  exists n' r, write_phase3 p addr arg apiflags fuel w q n = Some (n', r) /\ mem_only n n' /\
    (forall R : nat, len - w_pos w <= Z.of_nat R * m -> w_queuelen w + 2 * Z.of_nat R <= TCP_SND_QUEUELEN ->
       plenty (3 * R) n -> is_Some r) /\
    match r with
    | None => True
    | Some (w', q') => exists new, q' = q ++ new /\ segmented w w' new
    end.
Proof.
  unfold TCP_SND_QUEUELEN. pose proof mss_local_bounds as Hb.
  assert (Hdone : forall w q n, 0 <= w_pos w <= len -> ~ w_pos w < len ->
    mem_only n n /\ (forall R : nat, len - w_pos w <= Z.of_nat R * m -> w_queuelen w + 2 * Z.of_nat R <= 90 ->
       plenty (3 * R) n -> is_Some (Some (w, q))) /\ exists new, q = q ++ new /\ segmented w w new).
  { intros w q n Hp Hge. split; [done|]. split; [done|]. exists []. rewrite app_nil_r. split; [done|].
    assert (drop (Z.to_nat (w_pos w)) arg = []) as Ed by (apply drop_ge; unfold w_len in *; lia).
    split; rewrite ?sum_with_nil; try done; lia. }
  induction fuel as [|fuel IH]; intros w q n Hp Ho Hq.
  { cbn [write_phase3]. destruct (Z.ltb_spec (w_pos w) len) as [Hlt|Hge]; [specialize (Hq Hlt); lia|].
    exists n, (Some (w, q)). split; [done|]. apply Hdone; [done|lia]. }
  cbn [write_phase3]. destruct (Z.ltb_spec (w_pos w) len) as [Hlt|Hge].
  2:{ exists n, (Some (w, q)). split; [done|]. apply Hdone; [done|lia]. }
  clear Hdone. destruct (Hq Hlt) as [Hq1 Hf].
  change (LWIP_TCP_OPT_LENGTH 0) with 0. rewrite Z.sub_0_r.
  rewrite (u16_id (len - w_pos w)), (u16_id m) by (unfold is_u16; lia).
  set (seglen := Z.min (len - w_pos w) m). specialize (Ho Hlt).
  assert (Hs : 0 < seglen /\ w_pos w + seglen <= len /\ seglen <= m /\
               (w_pos w + seglen < len -> seglen = m)) by lia.
  clearbody seglen. destruct Hs as (Hs1 & Hs2 & Hs3 & Hs4).
  destruct (phase3_alloc w q n seglen Hs1 Hs2 ltac:(lia) Hs3 Ho) as (n1 & r & E & Hm1 & Hpl1 & Hr).
  cbv zeta in E |- *. rewrite E. clear E. cbn [mbind option_bind].
  assert (Hround : forall R : nat, len - w_pos w <= Z.of_nat R * m -> plenty (3 * R) n ->
    exists R' : nat, R = S R' /\ is_Some r /\ plenty (S (3 * R')) n1).
  { intros [|R'] HR HpR; [lia|]. exists R'. split; [done|].
    replace (3 * S R')%nat with (2 + S (3 * R'))%nat in HpR by lia. by apply Hpl1. }
  destruct r as [[[parts o] c]|].
  2:{ exists n1, None. split_and!; try done. intros R HR _ HpR.
      destruct (Hround R HR HpR) as (R' & _ & Hno & _). by apply is_Some_None in Hno. }
  destruct Hr as (Hr1 & Hr2 & Hr3 & Hr4 & Hr5 & Hr6 & Hr7).
  cbn [w_queuelen setter]. rewrite (u16_id (w_queuelen w + _)) by (unfold is_u16; lia).
  change (Z.min TCP_SND_QUEUELEN TCP_SNDQUEUELEN_OVERFLOW) with 90.
  destruct (Z.ltb_spec 90 (w_queuelen w + Z.of_nat (length parts))).
  { exists n1, None. split_and!; try done. intros R HR HqR HpR.
    destruct (Hround R HR HpR) as (R' & -> & _). lia. }

  pose proof (length_arg_at arg (w_pos w) seglen ltac:(lia) ltac:(lia) Hs2) as Hl.
  set (d := arg_at arg (w_pos w) seglen) in *. rewrite <- Hl in Hr2, Hr4.
  destruct (create_segment_mem parts d 0 (snd_lbb p + w_pos w) 0 n1 ltac:(done) ltac:(lia))
    as (n2 & r2 & E2 & Hm2 & Hpl2).
  cbn [w_pos setter]. rewrite E2. cbn [mbind option_bind].
  destruct r2 as [s0|].
  2:{ exists n2, None. split_and!; [done|by eapply mem_only_trans| |done]. intros R HR _ HpR.
      destruct (Hround R HR HpR) as (R' & _ & _ & Hj). destruct (Hpl2 _ Hj) as [Hno _]. by apply is_Some_None in Hno. }
  apply (new_seg_ok parts d o c) in E2 as (Hns & Esd & Ess & Esp & Esl & Eso);
    try done; try lia; [|by apply arg_at_ok|by destruct parts; simpl in Hr6; [lia|]].
  set (s1 := set_chksum c (set_oversize_left o s0)) in *.
  rewrite (u16_id (w_pos w + seglen)) by (unfold is_u16; lia).
  set (w1 := w <| w_oversize := o |> <| w_queuelen := w_queuelen w + Z.of_nat (length parts) |>
               <| w_pos := w_pos w + seglen |>).
  destruct (IH w1 (q ++ [s1]) n2) as (n3 & r3 & E3 & Hm3 & Hpl3 & Hr3'); try (cbn; lia).
  exists n3, r3. split; [exact E3|]. split; [by eapply mem_only_trans, mem_only_trans|].
  split.
  { intros R HR HqR HpR. destruct (Hround R HR HpR) as (R' & -> & _ & Hj). destruct (Hpl2 _ Hj) as [_ Hj2].
    apply (Hpl3 R'); [|cbn; lia|done]. cbn. nia. }
  destruct r3 as [[w' q']|]; [|done]. destruct Hr3' as (new & -> & [G1 G2 G3 G4 G5 G6 G7]).
  assert (seg_clen s1 = Z.of_nat (length parts)) as Ecl by (unfold seg_clen; fold (seg_parts s1); by rewrite Esp).
  exists (s1 :: new). rewrite <- app_assoc. split; [done|].
  split.
  - by constructor.
  - split; [done|]. rewrite Esl, Hl. cbn in G2. by rewrite <- Z.add_assoc.
  - unfold seg_octets in *. cbn [map concat]. rewrite Esd, G3. unfold w1. cbn [w_pos setter].
    unfold d, arg_at. rewrite Z2Nat.inj_add, <- drop_drop by lia. apply take_drop.
  - rewrite G4, sum_with_cons, Ecl. cbn. lia.
  - intros _. destruct new; [|by apply G5]. rewrite G4, sum_with_nil. cbn. unfold TCP_SND_QUEUELEN. lia.
  - done.
  - rewrite G7. destruct new as [|y new]; [cbn [list.last]; by rewrite Eso|].
    rewrite last_cons_cons. destruct (list.last (y :: new)) eqn:El; [done|by apply last_None in El].
Qed.

(** ** The commit *)

(** [l'] is [l] with the octets [d] behind its own. *)
Record extends (l l' : tcp_seg) (d : list Z) : Prop := {
  ex_wf : seg_wf l';
  ex_data : seg_data l' = seg_data l ++ d;
  ex_len : seg_len l' = seg_len l + Z.of_nat (length d);
  ex_seqno : seg_seqno l' = seg_seqno l;
  ex_flags : seg_flags l' = seg_flags l;
  ex_ref : seg_ref l' = seg_ref l;
  ex_optlen : seg_optlen l' = seg_optlen l
}.

Lemma extends_nil l : seg_wf l -> extends l l [].
Proof. intros W. split; try done; [by rewrite app_nil_r|cbn; lia]. Qed.

Lemma extends_trans l1 l2 l3 d e : extends l1 l2 d -> extends l2 l3 e -> extends l1 l3 (d ++ e).
Proof.
  intros [] []. split; try done; try congruence.
  - rewrite app_assoc. congruence.
  - rewrite length_app. lia.
Qed.

Lemma extends_append l parts d x c :
  seg_wf l -> bytes_ok d -> seg_len l + Z.of_nat (length d) <= 65000 ->
  parts_len parts = seg_len l + Z.of_nat (length d) -> Forall (fun q => 0 <= pt_len q) parts ->
  parts <> [] -> c = Z.of_nat (length d) -> x = norm (wsum d) ->
  extends l (add_chksum x c (set_data parts (seg_data l ++ d) l <| seg_len := seg_len l + c |>)) d.
Proof.
  intros. split; try done; [by apply append_wf|cbn; lia|].
  unfold seg_optlen, LWIP_TCP_OPT_LENGTH. cbn. by rewrite flagset_lor_other.
Qed.

Lemma extends_oversize_left l l' d o : extends l l' d -> extends l (set_oversize_left o l') d.
Proof. intros []. split; try done. by apply set_oversize_left_wf. Qed.

Lemma commit_oversize_spec l w u k :
  open_tail p l -> planned l w u k ->
  exists l1, commit_oversize arg w l = Some l1 /\ extends l l1 (arg_at arg 0 u) /\
    ss_oversize_left (seg_snd l1) = w_oversize w /\
    (seg_parts l1 = seg_parts l \/ 0 < u /\ seg_parts l1 = grow_last_part u (seg_parts l)).
Proof.
  intros [W Ho Hr Hm Hrom] P. pose proof mss_local_bounds as Hb.
  pose proof (wf_len _ W) as Hl. assert (0 <= seg_optlen l) as Hopt by apply opt_length_bounds.
  destruct P as [(Hu0 & Hu & Hu1) [Hk0 Hk] [Hp Hp1] Hc Hx Hos [Ha0 Ha] Hrm Hql Hnx Ht Hd].
  unfold commit_oversize. rewrite Hu.
  set (l0 := if negb (w_oversize_add w =? 0) then _ else l).
  assert (extends l l0 [] /\ seg_parts l0 = seg_parts l /\ seg_data l0 = seg_data l /\ seg_len l0 = seg_len l /\
    ss_oversize_left (seg_snd l0) = ss_oversize_left (seg_snd l) + w_oversize_add w) as (X0 & E1 & E1' & E1'' & E2).
  { unfold l0. destruct (Z.eqb_spec (w_oversize_add w) 0) as [->|]; cbn [negb].
    - split_and!; try done; [by apply extends_nil|lia].
    - split_and!; try done; [by apply extends_oversize_left, extends_nil|].
      cbn. apply u16_id. unfold is_u16. lia. }
  clearbody l0. destruct (Z.ltb_spec 0 u) as [Hup|Hun].
  - pose proof (length_arg_at arg 0 u ltac:(lia) Hu0 ltac:(lia)) as Hla.
    rewrite E1, E1'. cbn [seg_len add_chksum set_chksum set_data setter]. rewrite E1''.
    rewrite u16_id by (unfold is_u16; lia). rewrite LWIP_CHKSUM_norm by (try lia; by apply arg_at_ok).
    cbn [ss_oversize_left seg_snd setter add_chksum set_chksum set_data].
    rewrite E2, (proj2 (Z.leb_le _ _)) by lia.
    eexists. split; [done|]. split; [|split; [cbn; lia|right; split; [done|by rewrite <- E1]]].
    apply extends_oversize_left.
    rewrite <- (app_nil_l (arg_at arg 0 u)). eapply extends_trans; [exact X0|].
    pose proof (extends_append l0 (grow_last_part u (seg_parts l0)) (arg_at arg 0 u)
      (norm (wsum (arg_at arg 0 u))) u (ex_wf _ _ _ X0)) as Hx'.
    rewrite E1, E1', E1'' in Hx'. apply Hx'; try done; try lia.
    + by apply arg_at_ok.
    + rewrite parts_len_grow by apply (wf_parts_some _ W). rewrite (wf_parts _ W). lia.
    + apply grow_last_part_pos; [done|apply W].
    + apply grow_last_part_ne, W.
  - assert (u = 0) as -> by lia. exists l0. rewrite arg_at_0. split_and!; try done; [lia|by left].
Qed.

Lemma seg_clen_parts s : seg_clen s = Z.of_nat (length (seg_parts s)).
Proof. done. Qed.

(** The rom flag of the last pbuf is not changed by growing it. *)
Lemma last_grow_rom n parts q :
  list.last (grow_last_part n parts) = Some q ->
  exists q0, list.last parts = Some q0 /\ pt_rom q0 = pt_rom q.
Proof.
  unfold grow_last_part. destruct (list.last parts) as [q0|] eqn:E; [|by rewrite E].
  rewrite last_snoc. intros [= <-]. by exists q0.
Qed.

Lemma commit_spec l w u k :
  open_tail p l -> planned l w u k ->
  exists l1 l', commit_oversize arg w l = Some l1 /\ commit_concat arg w l1 = Some l' /\
    extends l l' (arg_at arg 0 (u + k)) /\ ss_oversize_left (seg_snd l') = w_oversize w /\
    seg_clen l' = seg_clen l + match w_concat_p w with Some _ => 1 | None => 0 end /\
    (forall q, last (seg_parts l') = Some q -> pt_rom q = true -> w_oversize w = 0).
Proof.
  intros Hot P. destruct (commit_oversize_spec l w u k Hot P) as (l1 & E1 & X & Eo & Hparts).
  exists l1. destruct Hot as [W Ho Hr Hm Hrom]. pose proof mss_local_bounds as Hb.
  assert (0 <= seg_optlen l) as Hopt by apply opt_length_bounds. pose proof (wf_len _ W) as Hl.
  destruct P as [(Hu0 & Hu & Hu1) [Hk0 Hk] [Hp Hp1] Hc Hx Hos [Ha0 Ha] Hrm Hql Hnx Ht Hd].
  pose proof (length_arg_at arg 0 u ltac:(lia) Hu0 ltac:(lia)) as Hla.
  pose proof (length_arg_at arg u k ltac:(lia) Hk0 ltac:(lia)) as Hlb.
  pose proof (arg_at_ok arg u k Harg) as Hok.
  pose proof (ex_wf _ _ _ X) as W1. pose proof (ex_len _ _ _ X) as El1.
  pose proof (wf_parts_some _ W1) as Hne1.
  assert (Hrom1 : forall q, list.last (seg_parts l1) = Some q -> pt_rom q = true ->
    ss_oversize_left (seg_snd l) = 0).
  { intros q Hq Hq1. destruct Hparts as [Ep|[_ Ep]]; rewrite Ep in Hq; [by eapply Hrom|].
    apply last_grow_rom in Hq as (q0 & Hq0 & Eq0). eapply Hrom; [done|congruence]. }
  assert (Ecl : seg_clen l1 = seg_clen l).
  { rewrite !seg_clen_parts. destruct Hparts as [Ep|[_ Ep]]; by rewrite Ep, ?length_grow_last_part. }
  unfold commit_concat. rewrite Hu, Hk.
  pose proof (unswap_chksum _ _ Hok Hx) as Eu. destruct (w_concat_chksum w) as [c sw]. cbn [fst snd] in Eu.
  rewrite Eu. rewrite <- (arg_at_app arg 0 u k) by lia. rewrite Z.add_0_l.
  destruct (w_concat_p w) as [q|].
  - destruct Hc as (Hkp & Eq & Ee & Hq). rewrite Eq. rewrite (proj2 (Z.eqb_neq k 0)) by lia. cbn [negb].
    rewrite u16_id by (unfold is_u16; lia). eexists. split; [done|]. split; [done|].
    split; [|split_and!].
    + eapply extends_trans; [exact X|]. apply extends_append; try done; try lia.
      * rewrite sum_with_app, sum_with_cons, sum_with_nil, (wf_parts _ W1). lia.
      * apply Forall_app. split; [apply W1|]. repeat constructor. lia.
      * by intros [_ ?]%app_eq_nil.
    + done.
    + rewrite <- Ecl, !seg_clen_parts. cbn. rewrite length_app. cbn. lia.
    + intros q' Hq'. cbn in Hq'. rewrite last_snoc in Hq'. by injection Hq' as <-.
  - destruct Hc as [Hc Had]. rewrite Hc. destruct (Z.ltb_spec 0 k) as [Hkp|Hkn].
    + rewrite (proj2 (Z.eqb_neq k 0)) by lia. cbn [negb].
      rewrite u16_id by (unfold is_u16; lia). eexists. split; [done|]. split; [done|].
      split; [|split_and!].
      * eapply extends_trans; [exact X|]. apply extends_append; try done; try lia.
        -- rewrite parts_len_grow, (wf_parts _ W1) by done. lia.
        -- apply grow_last_part_pos; [done|apply W1].
        -- by apply grow_last_part_ne.
      * done.
      * rewrite <- Ecl, !seg_clen_parts. cbn. rewrite length_grow_last_part. lia.
      * intros q' Hq' Hq1. cbn in Hq'. apply last_grow_rom in Hq' as (q0 & Hq0 & Eq0).
        assert (ss_oversize_left (seg_snd l) = 0) by (eapply Hrom1; [done|congruence]).
        lia.
    + assert (k = 0) as -> by lia. cbn [Z.eqb negb]. exists l1. split; [done|]. split; [done|].
      rewrite arg_at_0, app_nil_r. split_and!; try done; [lia|].
      intros q' Hq' Hq1. assert (ss_oversize_left (seg_snd l) = 0) by (by eapply Hrom1). lia.
Qed.

(** The commit only looks at the plan. *)
Lemma commit_plan w w' l :
  same_plan w w' ->
  commit_oversize arg w' l = commit_oversize arg w l /\ commit_concat arg w' l = commit_concat arg w l.
Proof.
  intros (E1 & E2 & E3 & E4 & E5 & E6 & _). unfold commit_oversize, commit_concat.
  by rewrite E1, E2, E3, E4, E5, E6.
Qed.

(** The first two phases together. *)
Lemma phase12_spec l n :
  open_tail p l -> (0 < len -> 0 <= snd_queuelen p < 65535) ->
  exists n' r, (w ← write_phase1 p arg l; write_phase2 p addr arg apiflags l w n) = Some (n', r) /\
    mem_only n n' /\ (forall j, plenty (S j) n -> is_Some r /\ plenty j n') /\
    match r with Some w => exists u k, planned l w u k | None => True end.
Proof.
  intros Hot Hq. destruct (phase1_spec l Hot) as (w & u & E & P & Ec & Ea & Ex & Es).
  rewrite E. cbn [mbind option_bind].
  destruct (phase2_spec l w u n Hot P Ec Ea Ex Es Hq) as (n' & r & E' & Hm & Hpl & Hr).
  exists n', r. split_and!; try done. destruct r; [|done]. destruct Hr as [k Hk]. by exists u, k.
Qed.

End phases.
