(* ===== verification/TcpWriteSpec.v ===== *)
(** * The invariant of the send queue, and [tcp_write]

    [writable] extends the invariant [sending] of TcpAck.v by what [tcp_write]
    relies on: where the stream ends, well-formed segments, and the room behind
    the last one.  [tcp_write] keeps it, and appends exactly its data. *)

From Stdlib Require Import Sorting.Sorted.
From stdpp Require Import sorting.
From S2P Require Import Prelude Err Def IpAddr NetifDefs Chksum Pbuf IpHdr Net TcpDefs TcpIn TcpExamples TcpReassembly TcpAck TcpOut TcpChksum TcpWrite.

(** ** Segments with their positions *)

(** The segments of [q], the first at position [P]. *)
Fixpoint place (P : Z) (q : list tcp_seg) : list placed :=
  match q with
  | [] => []
  | s :: r => (P, s) :: place (P + seg_len s) r
  end.

Abbreviation queue_len := (sum_with seg_len).

Lemma place_snd q : forall P, (place P q).*2 = q.
Proof. induction q as [|s q IH]; intros P; [done|]. cbn. by rewrite IH. Qed.

Lemma sum_len_place q : forall P, sum_len (place P q) = queue_len q.
Proof. induction q as [|s q IH]; intros P; [done|]. rewrite sum_with_cons, <- (IH (P + seg_len s)). done. Qed.

Lemma sum_clen_place q : forall P, sum_clen (place P q) = sum_with seg_clen q.
Proof. induction q as [|s q IH]; intros P; [done|]. rewrite sum_with_cons, <- (IH (P + seg_len s)). done. Qed.

(** A segment of data: no flags, at least one octet. *)
Definition data_seg (s : tcp_seg) : Prop := seg_wf s /\ 0 < seg_len s /\ seg_flags s = 0.

Lemma data_seg_tcplen s : data_seg s -> TCP_TCPLEN s = seg_len s.
Proof.
  intros (_ & _ & Hf). unfold TCP_TCPLEN. rewrite Hf.
  change (flagset 0 (Z.lor TCP_FIN TCP_SYN)) with false. cbn iota. lia.
Qed.

Lemma queue_len_nonneg q : Forall data_seg q -> 0 <= queue_len q.
Proof. intros H. apply sum_with_nonneg. eapply Forall_impl; [exact H|]. intros s (_ & ? & _). lia. Qed.

Lemma place_spec L q : forall P,
  Forall data_seg q -> chained P q -> L <= P -> P + queue_len q < L + 1073741824 ->
  Forall (placed_ok L) (place P q) /\ StronglySorted before (place P q) /\
  Forall (fun x => P <= x.1 /\ seg_end x <= P + queue_len q) (place P q).
Proof.
  induction q as [|s q IH]; intros P Hd Hc HL Hlen; [by repeat constructor|].
  apply Forall_cons in Hd as [Hs Hd]. destruct Hc as [Hseq Hc]. rewrite sum_with_cons in *.
  pose proof (queue_len_nonneg q Hd). pose proof (data_seg_tcplen s Hs) as Et. destruct Hs as (W & Hs & _).
  pose proof (wf_u16 _ W).
  destruct (IH (P + seg_len s)) as (I1 & I2 & I3); [done|done|lia|lia|]. cbn [place].
  assert (He : seg_end (P, s) = P + seg_len s) by (unfold seg_end; cbn [fst snd]; by rewrite Et).
  split_and!; constructor; try done.
  - unfold placed_ok. rewrite He. cbn [fst snd]. rewrite Et. unfold seg_clen. split_and!; try done; lia.
  - eapply Forall_impl; [exact I3|]. intros x [? _]. unfold before. by rewrite He.
  - cbn [fst snd]. lia.
  - eapply Forall_impl; [exact I3|]. cbn. intros x []. lia.
Qed.

(** ** Growing the queue *)

Lemma sum_len_snoc w x : sum_len (w ++ [x]) = sum_len w + seg_len x.2.
Proof. rewrite sum_len_app. cbn. lia. Qed.

Lemma sum_clen_snoc w x : sum_clen (w ++ [x]) = sum_clen w + seg_clen x.2.
Proof. rewrite sum_clen_app. cbn. lia. Qed.

Section grow.
Context (L NX LB : Z) (us : list placed) (p p' : tcp_pcb).
Context (Hua : unacked p' = unacked p) (Hla : lastack p' = lastack p) (Hnx : snd_nxt p' = snd_nxt p).

(** The last segment [l] becomes [l'], longer by [e]. *)
Lemma sending_grow w0 P l l' e :
  sending L NX us (w0 ++ [(P, l)]) p ->
  Forall (fun x => seg_end x <= LB) us -> seg_end (P, l) = LB ->
  seg_seqno l' = seg_seqno l -> TCP_TCPLEN l' = TCP_TCPLEN l + e -> seg_len l' = seg_len l + e ->
  0 <= e -> TCP_TCPLEN l' <= 65536 -> LB + e < L + 1073741824 ->
  unsent p' = w0.*2 ++ [l'] -> snd_buf p' = snd_buf p - e -> 0 <= snd_buf p' ->
  snd_queuelen p' = snd_queuelen p + (seg_clen l' - seg_clen l) -> is_u16 (snd_queuelen p') ->
  sending L NX us (w0 ++ [(P, l')]) p'.
Proof.
  intros S Hend HLB Eseq Et El He Hmax Hroom Eu Eb Hb Eq Hq. destruct S.
  apply Forall_app in sd_ws as [Hw0 [Hl _]%Forall_cons].
  destruct Hl as (H1 & H2 & H3 & H4 & H5). cbn [fst snd] in *.
  assert (Hend' : seg_end (P, l') = LB + e) by (unfold seg_end in *; cbn [fst snd] in *; lia).
  assert (HP : P < LB) by (unfold seg_end in HLB; cbn [fst snd] in HLB; lia).
  rewrite sum_len_snoc in sd_buf. rewrite sum_clen_snoc in sd_queuelen. cbn [snd] in *.
  split; rewrite ?Hua, ?Hla, ?Hnx, ?sum_len_snoc, ?sum_clen_snoc; cbn [snd]; try done; try lia.
  - rewrite Eu. by rewrite fmap_app.
  - apply Forall_app. split; [done|]. constructor; [|done]. unfold placed_ok. cbn [fst snd].
    rewrite Hend'. unfold seg_clen. split_and!; lia.
  - apply StronglySorted_app in sd_ws_sorted as (Hb1 & Hb2 & _). apply StronglySorted_app.
    split_and!; [|done|by repeat constructor].
    intros x y Hx ->%list_elem_of_singleton. apply (Hb1 x (P, l) Hx). by apply list_elem_of_singleton.
  - intros x y Hx Hy. apply elem_of_app in Hy as [Hy| ->%list_elem_of_singleton].
    + apply sd_apart; [done|]. apply elem_of_app. by left.
    + left. destruct (sd_apart x (P, l) Hx) as [Hb'|Hb'].
      { apply elem_of_app. right. by apply list_elem_of_singleton. }
      * exact Hb'.
      * rewrite Forall_forall in Hend, sd_us. specialize (Hend x Hx).
        destruct (sd_us x Hx) as (_ & Hx1 & _). unfold before, seg_end in *. cbn [fst snd] in *. lia.
Qed.

(** New segments of data come behind everything. *)
Lemma sending_append ws new :
  sending L NX us ws p -> Forall (fun x => seg_end x <= LB) (us ++ ws) ->
  Forall data_seg new -> chained LB new -> L <= LB -> LB + queue_len new < L + 1073741824 ->
  unsent p' = unsent p ++ new -> snd_buf p' = snd_buf p - queue_len new -> 0 <= snd_buf p' ->
  snd_queuelen p' = snd_queuelen p + sum_with seg_clen new -> is_u16 (snd_queuelen p') ->
  sending L NX us (ws ++ place LB new) p'.
Proof.
  intros S Hend Hd Hc HL Hroom Eu Eb Hb Eq Hq.
  destruct (place_spec L new LB Hd Hc HL Hroom) as (I1 & I2 & I3). destruct S.
  apply Forall_app in Hend as [He1 He2]. rewrite Forall_forall in He1, He2, I3.
  split; rewrite ?Hua, ?Hla, ?Hnx, ?sum_len_app, ?sum_clen_app, ?sum_len_place, ?sum_clen_place; try done; try lia.
  - rewrite Eu, fmap_app, place_snd. by rewrite sd_unsent.
  - by apply Forall_app.
  - apply StronglySorted_app. split_and!; try done.
    intros x y Hx Hy. unfold before. specialize (He2 x Hx). destruct (I3 y Hy). lia.
  - intros x y Hx [Hy|Hy]%elem_of_app; [by apply sd_apart|].
    left. unfold before. specialize (He1 x Hx). destruct (I3 y Hy). lia.
Qed.

End grow.

(** ** The invariant *)

(** The last unsent segment: it ends where the stream ends, and data may be
    added to it unless it is a SYN. *)
Record tail_ok (LB : Z) (p : tcp_pcb) (x : placed) : Prop := {
  tl_open : open_tail p x.2;
  tl_end : seg_end x = LB;
  tl_fin : seg_fin x.2 = false;
  tl_syn : seg_syn x.2 = true -> seg_len x.2 = 0 /\ ss_oversize_left (seg_snd x.2) = 0
}.

(** [LB] is the position behind the last octet written. *)
Record writable (L NX LB : Z) (us ws : list placed) (p : tcp_pcb) : Prop := {
  wr_sending : sending L NX us ws p;
  wr_lbb : snd_lbb p = u32 LB;
  wr_end : Forall (fun x => seg_end x <= LB) (us ++ ws);
  wr_room : L <= LB /\ LB + snd_buf p < L + 1073741824;
  wr_segs : Forall (fun x => seg_wf x.2) (us ++ ws);
  wr_tail : match last ws with Some x => tail_ok LB p x | None => unsent_oversize p = 0 end;
  wr_mss : 1 <= mss p <= TCP_MSS;
  wr_wnd_max : 0 <= snd_wnd_max p;
  wr_ports : is_u16 (local_port p) /\ is_u16 (remote_port p)
}.

(** Fields the invariant does not look at. *)
Lemma writable_flags L NX LB us ws p f :
  writable L NX LB us ws p -> writable L NX LB us ws (p <| flags := f |>).
Proof.
  intros []. split; try done.
  - by eapply sending_ext.
  - destruct (list.last ws) as [x|]; [|done]. destruct wr_tail0 as [[] ? ? ?]. by split.
Qed.

Lemma seg_clen_pos s : seg_wf s -> 1 <= seg_clen s.
Proof.
  intros W. unfold seg_clen. pose proof (wf_parts_some _ W). unfold seg_parts in *.
  destruct (ss_parts (seg_snd s)); [done|]. cbn. lia.
Qed.

Lemma sum_clen_pos L l : Forall (placed_ok L) l -> Forall (fun x => seg_wf x.2) l ->
  0 <= sum_clen l /\ (sum_clen l = 0 <-> l = []).
Proof.
  intros Hp Hw. destruct (sum_nonneg L l Hp) as [_ H]. split; [done|].
  destruct l as [|x l]; [done|]. apply Forall_cons in Hw as [Hx _]. apply Forall_cons in Hp as [_ Hp].
  destruct (sum_nonneg L l Hp) as [_ H']. pose proof (seg_clen_pos _ Hx).
  split; [|done]. intros Hc. exfalso. change (seg_clen x.2 + sum_clen l = 0) in Hc. lia.
Qed.

(** The queue length tells whether there is a queue. *)
Lemma writable_queued L NX LB us ws p :
  writable L NX LB us ws p ->
  (if negb (snd_queuelen p =? 0) then queued p else negb (queued p)) = true /\ 0 <= snd_queuelen p.
Proof.
  intros [S _ _ _ W]. apply Forall_app in W as [W1 W2]. destruct S.
  destruct (sum_clen_pos L us) as [Hu Hu0]; [done..|]. destruct (sum_clen_pos L ws) as [Hw Hw0]; [done..|].
  split; [|lia]. unfold queued. rewrite sd_unacked, sd_unsent.
  destruct (Z.eqb_spec (snd_queuelen p) 0); cbn [negb].
  - by rewrite (proj1 Hu0), (proj1 Hw0) by lia.
  - destruct us; [destruct ws; [cbn in *; lia|done]|done].
Qed.

Lemma queuelen_ok_true p : (if negb (snd_queuelen p =? 0) then queued p else negb (queued p)) = true ->
  queuelen_ok p = true.
Proof. unfold queuelen_ok. destruct (snd_queuelen p =? 0); cbn; [done|]. by intros ->. Qed.

(** PSH on the last segment. *)
Definition push_placed (ws : list placed) : list placed :=
  match last ws with
  | Some x => removelast ws ++ [(x.1, or_flags TCP_PSH x.2)]
  | None => ws
  end.

Lemma push_placed_snd ws : (push_placed ws).*2 = push_last ws.*2.
Proof.
  unfold push_placed, push_last. destruct ws as [|y ws'] using rev_ind; [done|]. clear IHws'.
  rewrite fmap_app. cbn. by rewrite !last_snoc, !removelast_last, fmap_app.
Qed.

Lemma push_last_octets q : seg_octets (push_last q) = seg_octets q.
Proof.
  unfold push_last. destruct q as [|s q _] using rev_ind; [done|].
  rewrite last_snoc, removelast_last. unfold seg_octets. by rewrite !map_app.
Qed.

Lemma push_tcplen s : TCP_TCPLEN (or_flags TCP_PSH s) = TCP_TCPLEN s.
Proof. unfold TCP_TCPLEN, or_flags. cbn [seg_flags seg_len setter]. by rewrite flagset_lor_other. Qed.

Lemma push_seg_end x : seg_end (x.1, or_flags TCP_PSH x.2) = seg_end x.
Proof. unfold seg_end. cbn [fst snd]. by rewrite push_tcplen. Qed.

Lemma writable_push L NX LB us ws p :
  writable L NX LB us ws p -> writable L NX LB us (push_placed ws) (p <| unsent := (push_placed ws).*2 |>).
Proof.
  intros H. unfold push_placed. destruct ws as [|[P s] w0 _] using rev_ind.
  { destruct H as [S ? ? ? ? ? ? ? ?]. cbn. split; try done. destruct S. split; try done. }
  rewrite last_snoc, removelast_last. destruct H as [S Hl He Hr Hs Ht Hm Hw Hpo].
  rewrite last_snoc in Ht. destruct Ht as [[Tw To Tr Tm Trom] Te Tf Ts]. cbn [fst snd] in *.
  rewrite !Forall_app in *. destruct He as (He1 & He2 & He3), Hs as (Hs1 & Hs2 & Hs3).
  assert (Hpsh : forall g, Z.land TCP_PSH g = 0 -> flagset (seg_flags (or_flags TCP_PSH s)) g = flagset (seg_flags s) g).
  { intros g Hg. unfold or_flags. cbn [seg_flags setter]. by apply flagset_lor_other. }
  split; cbn [snd_lbb snd_buf snd_wnd_max mss local_port remote_port setter]; try done.
  - apply (sending_grow L NX LB us p) with (l := s) (e := 0); try done; try (cbn; lia).
    + rewrite push_tcplen. lia.
    + rewrite push_tcplen. destruct S. apply Forall_app in sd_ws as [_ [(_ & ? & _) _]%Forall_cons].
      cbn [snd] in *. lia.
    + destruct S. lia.
    + cbn. by rewrite fmap_app.
    + apply S.
    + cbn [snd_queuelen setter]. unfold seg_clen. cbn. lia.
    + apply S.
  - rewrite !Forall_app. split_and!; try done. constructor; [|done].
    pose proof (push_seg_end (P, s)) as E. cbn [fst snd] in E. rewrite E. lia.
  - rewrite !Forall_app. split_and!; try done. constructor; [|done]. cbn [snd]. by apply or_flags_wf.
  - rewrite last_snoc. split; cbn [fst snd].
    + split; try done. by apply or_flags_wf.
    + by rewrite <- Te, <- (push_seg_end (P, s)).
    + unfold seg_fin in *. by rewrite Hpsh.
    + unfold seg_syn in *. rewrite Hpsh by done. done.
Qed.

(** ** [tcp_write] *)

Lemma queue_len_octets q : Forall data_seg q -> queue_len q = Z.of_nat (length (seg_octets q)).
Proof.
  induction 1 as [|s q (W & _ & _) _ IH]; [done|]. rewrite sum_with_cons, IH.
  unfold seg_octets. cbn [map concat]. rewrite length_app, (wf_len _ W). lia.
Qed.

Lemma place_last q s : forall P,
  list.last q = Some s -> exists Q, list.last (place P q) = Some (Q, s) /\ Q + seg_len s = P + queue_len q.
Proof.
  induction q as [|s0 q IH]; intros P Hl; [done|]. destruct q as [|s1 q].
  - injection Hl as ->. exists P. rewrite sum_with_cons, sum_with_nil. split; [done|lia].
  - rewrite last_cons_cons in Hl. destruct (IH (P + seg_len s0) Hl) as (Q & E & EQ).
    exists Q. rewrite sum_with_cons. split; [|lia]. cbn [place] in *. by rewrite last_cons_cons.
Qed.

Lemma new_seg_data m p s : new_seg p s -> m = p -> data_seg s.
Proof. intros [] _. by split. Qed.

(** The segment carries the octets of the stream [S] from its position on, and
    nothing else. *)
Definition carried (S : Z -> Z) (x : placed) : Prop :=
  stream_at S x.1 (seg_data x.2) /\ seg_syn x.2 = false /\ seg_fin x.2 = false.

Lemma place_carried S q : forall P,
  Forall data_seg q -> stream_at S P (seg_octets q) -> Forall (carried S) (place P q).
Proof.
  induction q as [|s q IH]; intros P Hd HS; [done|]. apply Forall_cons in Hd as [(W & _ & Hf) Hd].
  change (seg_octets (s :: q)) with (seg_data s ++ seg_octets q) in HS. cbn [place]. constructor.
  - unfold carried, seg_syn, seg_fin. cbn [fst snd]. rewrite Hf. split; [|done].
    apply (stream_at_take S P (length (seg_data s))) in HS. by rewrite take_app_length in HS.
  - apply IH; [done|]. apply (stream_at_drop S P (length (seg_data s))) in HS.
    by rewrite drop_app_length, <- (wf_len _ W) in HS.
Qed.

Lemma push_carried S ws : Forall (carried S) ws -> Forall (carried S) (push_placed ws).
Proof.
  unfold push_placed. destruct ws as [|x ws _] using rev_ind; [done|].
  rewrite last_snoc, removelast_last, !Forall_app. intros [H1 H2]. split; [done|].
  apply Forall_cons in H2 as [(H2 & Hs & Hf) _]. constructor; [|done].
  unfold carried, seg_syn, seg_fin in *. cbn [fst snd]. unfold or_flags. cbn [seg_flags setter].
  by rewrite !flagset_lor_other.
Qed.

Section commit.
Context (L NX LB : Z) (us : list placed) (p : tcp_pcb) (data : list Z).
Context (Hd : bytes_ok data).
Abbreviation len := (w_len data).

(** The pcb when the new queue is in place. *)
Definition written (q : list tcp_seg) (w : wr) : tcp_pcb :=
  p <| unsent := q |> <| unsent_oversize := w_oversize w |>
    <| snd_lbb := u32 (snd_lbb p + len) |> <| snd_buf := u16 (snd_buf p - len) |>
    <| snd_queuelen := w_queuelen w |>.

(** What the last segment of [w1] offers after the first two phases, and the new
    segments of phase 3. *)
Lemma written_writable ws w1 w w' e new :
  writable L NX LB us ws p -> len <= snd_buf p ->
  0 <= e <= len ->
  sending L NX us w1 (p <| unsent := w1.*2 |> <| snd_buf := snd_buf p - e |>
                        <| snd_queuelen := w_queuelen w |>) ->
  Forall (fun x => seg_end x <= LB + e) w1 -> Forall (fun x => seg_wf x.2) w1 ->
  (new = [] -> match last w1 with
               | Some x => tail_ok (LB + e) (written w1.*2 w) x
               | None => w_oversize w = 0
               end) ->
  w_pos w = e -> is_u16 (w_queuelen w) ->
  segmented p data w w' new -> chained (LB + e) new ->
  writable L NX (LB + len) us (w1 ++ place (LB + e) new) (written (w1.*2 ++ new) w').
Proof.
  intros [S Hl He Hr Hs Ht Hm Hw Hpo] Hbuf Hen S1 He1 Hs1 Htail Hpos Hq16 G Hch.
  destruct G as [G1 _ G3 G4 G5 G6 G7].
  assert (Hds : Forall data_seg new) by (eapply Forall_impl; [exact G1|]; intros s []; by split).
  assert (Hql : queue_len new = len - e).
  { rewrite (queue_len_octets _ Hds), G3, Hpos, length_drop. unfold w_len in *. lia. }
  assert (Hbb : 0 <= snd_buf p <= 32768).
  { destruct S. destruct (sum_nonneg L us sd_us), (sum_nonneg L ws sd_ws).
    unfold TCP_SND_BUF, TCP_WND in *. lia. }
  apply Forall_app in He as [He1u He1w]. apply Forall_app in Hs as [Hsu _].
  assert (Hus : Forall (fun x => seg_end x <= LB + e) us) by (eapply Forall_impl; [exact He1u|]; cbn; lia).
  destruct (place_spec L new (LB + e) Hds Hch ltac:(lia) ltac:(lia)) as (_ & _ & I3).
  assert (Hu16 : u16 (snd_buf p - len) = snd_buf p - len) by (apply u16_id; unfold is_u16; lia).
  split; unfold written; cbn [snd_lbb snd_buf snd_wnd_max mss local_port remote_port setter]; try done.
  - apply (sending_append L NX (LB + e) us (p <| unsent := w1.*2 |> <| snd_buf := snd_buf p - e |>
                                              <| snd_queuelen := w_queuelen w |>)); try done; try lia.
    + by apply Forall_app.
    + cbn. rewrite Hu16. lia.
    + cbn. rewrite Hu16. lia.
    + cbn. destruct new as [|s new]; [rewrite G4, sum_with_nil; by rewrite Z.add_0_r|].
      assert (Hqn : 0 <= sum_with seg_clen (s :: new)).
      { apply sum_with_nonneg. eapply Forall_impl; [exact Hds|]. intros x _. unfold seg_clen. lia. }
      specialize (G5 ltac:(done)). unfold TCP_SND_QUEUELEN, is_u16 in *. lia.
  - rewrite Hl. word_lia.
  - rewrite !Forall_app. split_and!.
    + eapply Forall_impl; [exact He1u|]. cbn. lia.
    + eapply Forall_impl; [exact He1|]. cbn. lia.
    + eapply Forall_impl; [exact I3|]. cbn. lia.
  - rewrite Hu16. lia.
  - rewrite !Forall_app. split_and!; [done|done|]. clear -Hds.
    revert Hds. generalize (LB + e). induction new as [|s new IH]; intros P Hds; [done|].
    apply Forall_cons in Hds as [(W & _) Hds]. constructor; [done|by apply IH].
  - destruct new as [|s new].
    + rewrite app_nil_r. specialize (Htail eq_refl). rewrite sum_with_nil in Hql.
      replace (LB + len) with (LB + e) by lia. rewrite G7. cbn [list.last].
      destruct (list.last w1) as [x|]; [|done]. destruct Htail as [[T1 T2 T3 T4 T5] T6 T7 T8].
      by split.
    + destruct (list.last (s :: new)) as [t|] eqn:Et; [|by apply last_None in Et].
      destruct (place_last (s :: new) t (LB + e) Et) as (Q & EQ & Hend).
      assert (list.last (w1 ++ place (LB + e) (s :: new)) = Some (Q, t)) as -> by (apply last_app_Some; by left).
      rewrite Forall_forall in G1, Hds.
      assert (Hin : t ∈ s :: new) by (apply last_Some in Et as [l' ->]; apply elem_of_app; right; by apply list_elem_of_singleton).
      specialize (G1 t Hin). specialize (Hds t Hin). destruct G1 as [T1 T2 T3 T4 T5 T6].
      split; cbn [fst snd].
      * destruct T5 as [T5 T5']. split; try done. rewrite T4, Z.add_0_r. exact T5'.
      * unfold seg_end. cbn [fst snd]. rewrite (data_seg_tcplen t Hds). lia.
      * unfold seg_fin. by rewrite T3.
      * unfold seg_syn. rewrite T3. done.
Qed.

(** The last segment, with what the first two phases add to it. *)
Lemma commit_tail w0 P l l' w u k :
  writable L NX LB us (w0 ++ [(P, l)]) p -> len <= snd_buf p -> (0 < len -> snd_queuelen p < TCP_SND_QUEUELEN) ->
  planned p data l w u k -> extends l l' (arg_at data 0 (u + k)) ->
  ss_oversize_left (seg_snd l') = w_oversize w ->
  seg_clen l' = seg_clen l + match w_concat_p w with Some _ => 1 | None => 0 end ->
  (forall q, list.last (seg_parts l') = Some q -> pt_rom q = true -> w_oversize w = 0) ->
  let w1 := w0 ++ [(P, l')] in
  sending L NX us w1 (p <| unsent := w1.*2 |> <| snd_buf := snd_buf p - (u + k) |>
                        <| snd_queuelen := w_queuelen w |>) /\
  Forall (fun x => seg_end x <= LB + (u + k)) w1 /\ Forall (fun x => seg_wf x.2) w1 /\
  tail_ok (LB + (u + k)) (written w1.*2 w) (P, l') /\ is_u16 (w_queuelen w).
Proof.
  intros [S Hl He Hr Hs Ht Hm Hw Hpo] Hbuf Hql Pl X Eo Ec Hrom w1.
  rewrite last_snoc in Ht. destruct Ht as [Tot Te Tf Ts]. cbn [fst snd] in *.
  destruct X as [X1 X2 X3 X4 X5 X6 X7]. destruct Pl as [(Hu & Hu1 & Hu2) [Hk _] [Hp Hp1] Hc _ Hos [Ha0 Ha] Hrm Hqw _ _ Hdk].
  rewrite (length_arg_at data 0 (u + k)) in X3 by lia.
  rewrite !Forall_app in He, Hs. destruct He as (He1 & He2 & He3), Hs as (Hs1 & Hs2 & Hs3).
  pose proof (mss_local_bounds p Hm Hw) as Hmb. pose proof (opt_length_bounds (ss_flags (seg_snd l))).
  fold (seg_optlen l) in *. pose proof (sd_buf_pos _ _ _ _ _ S) as Hbp.
  assert (Et : TCP_TCPLEN l' = TCP_TCPLEN l + (u + k)) by (unfold TCP_TCPLEN; rewrite X5, X3; lia).
  assert (Hend : seg_end (P, l') = LB + (u + k)) by (unfold seg_end in *; cbn [fst snd] in *; lia).
  assert (Hq : is_u16 (w_queuelen w)).
  { destruct S. unfold TCP_SND_QUEUELEN, is_u16 in *.
    destruct (w_concat_p w) as [q|]; [destruct Hc as [Hkp _]; specialize (Hql ltac:(lia))|]; lia. }
  split_and!; [|apply Forall_app; split|apply Forall_app; split| |done].
  - apply (sending_grow L NX LB us p) with (l := l) (e := u + k); try done; try (cbn; lia).
    + rewrite Et. destruct S. apply Forall_app in sd_ws as [_ [(_ & ? & _) _]%Forall_cons].
      cbn [snd] in *. unfold TCP_TCPLEN in *. destruct (flagset _ _); lia.
    + unfold w1. cbn. by rewrite fmap_app.
  - eapply Forall_impl; [exact He2|]. cbn. lia.
  - constructor; [|done]. lia.
  - done.
  - by constructor.
  - split; cbn [fst snd].
    + split; rewrite ?Eo; try done.
      change (mss_local (written w1.*2 w)) with (mss_local p). rewrite X7. lia.
    + done.
    + unfold seg_fin in *. by rewrite X5.
    + unfold seg_syn in *. rewrite X5. intros Hsyn. destruct (Ts Hsyn) as [Hl0 Ho0].
      assert (k = 0) by (destruct (Z_lt_dec 0 k); [specialize (Hdk ltac:(lia)); lia|lia]).
      rewrite Eo. destruct (w_concat_p w); lia.
Qed.

End commit.

(** The states in which data may be written. *)
Definition may_write (p : tcp_pcb) : Prop :=
  state p = ESTABLISHED \/ state p = CLOSE_WAIT \/ state p = SYN_SENT \/ state p = SYN_RCVD.

Lemma write_checks_spec L NX LB us ws p len :
  writable L NX LB us ws p -> 0 <= len ->
  exists p' err, tcp_write_checks p len = Some (p', err) /\
    (err = ERR_OK /\ p' = p /\ may_write p /\ len <= snd_buf p /\ (0 < len -> snd_queuelen p < TCP_SND_QUEUELEN) \/
     err = ERR_CONN /\ p' = p /\ ~ may_write p \/
     err = ERR_MEM /\ p' = tcp_set_flags TF_NAGLEMEMERR p /\
       (snd_buf p < len \/ TCP_SND_QUEUELEN <= snd_queuelen p)).
Proof.
  intros Hw Hn. destruct (writable_queued _ _ _ _ _ _ Hw) as [Hq Hq0]. unfold tcp_write_checks.
  pose proof (sd_buf_pos _ _ _ _ _ (wr_sending _ _ _ _ _ _ Hw)) as Hb.
  destruct (_ && _) eqn:Es.
  - exists p, ERR_CONN. split; [done|]. right. left. split_and!; [done|done|].
    rewrite !andb_true_iff, !negb_true_iff, !bool_decide_eq_false in Es. unfold may_write. tauto.
  - assert (may_write p).
    { unfold may_write. rewrite !andb_false_iff, !negb_false_iff, !bool_decide_eq_true in Es. tauto. }
    destruct (Z.eqb_spec len 0) as [->|Hne].
    { exists p, ERR_OK. split; [done|]. left. by split_and!. }
    destruct (Z.ltb_spec (snd_buf p) len).
    { exists (tcp_set_flags TF_NAGLEMEMERR p), ERR_MEM. split; [done|]. right. right. split_and!; try done. by left. }
    change (Z.min TCP_SND_QUEUELEN (TCP_SNDQUEUELEN_OVERFLOW + 1)) with TCP_SND_QUEUELEN.
    destruct (Z.leb_spec TCP_SND_QUEUELEN (snd_queuelen p)).
    { exists (tcp_set_flags TF_NAGLEMEMERR p), ERR_MEM. split; [done|]. right. right. split_and!; try done. by right. }
    rewrite Hq. exists p, ERR_OK. split; [done|]. left. split_and!; try done.
Qed.

Section theorem.
Context (L NX LB : Z) (us ws : list placed) (p : tcp_pcb) (addr : Z) (data : list Z) (apiflags : Z).
Context (Hw : writable L NX LB us ws p) (Hd : bytes_ok data).
Context (Hm : may_write p) (Hbuf : w_len data <= snd_buf p)
  (Hql : 0 < w_len data -> snd_queuelen p < TCP_SND_QUEUELEN).
Abbreviation len := (w_len data).

Lemma len_bound : len <= 32768.
Proof.
  destruct Hw as [[] _ _ _ _ _ _ _ _]. destruct (sum_nonneg L us sd_us), (sum_nonneg L ws sd_ws).
  unfold TCP_SND_BUF, TCP_WND in *. lia.
Qed.

(** The phases up to the commit: the segments in front of the new ones ([w1]),
    and where the new ones begin. *)
Definition committed (w : wr) (e : Z) (w1 : list placed) : Prop :=
  0 <= e <= len /\ w_pos w = e /\ (e < len -> w_oversize w = 0) /\
  sending L NX us w1 (p <| unsent := w1.*2 |> <| snd_buf := snd_buf p - e |>
                        <| snd_queuelen := w_queuelen w |>) /\
  Forall (fun x => seg_end x <= LB + e) w1 /\ Forall (fun x => seg_wf x.2) w1 /\
  match last w1 with
  | Some x => tail_ok (LB + e) (written p data w1.*2 w) x
  | None => w_oversize w = 0
  end /\ is_u16 (w_queuelen w) /\ w_queuelen w <= snd_queuelen p + 1 /\
  seg_octets w1.*2 = seg_octets ws.*2 ++ arg_at data 0 e /\
  (forall S, Forall (carried S) ws -> stream_at S LB data -> Forall (carried S) w1) /\
  forall w', same_plan w w' ->
    match last (unsent p) with
    | Some l => l ← commit_oversize data w' l; l ← commit_concat data w' l;
                Some (removelast (unsent p) ++ [l])
    | None => lwip_assert (match w_concat_p w' with None => true | Some _ => false end); Some []
    end = Some w1.*2.

Lemma head_spec n :
  exists n' r,
    match last (unsent p) with
    | Some l => w ← write_phase1 p data l; write_phase2 p addr data apiflags l w n
    | None => lwip_assert (unsent_oversize p =? 0); Some (n, Some (wr_init p))
    end = Some (n', r) /\ mem_only n n' /\ (forall j, plenty (S j) n -> is_Some r /\ plenty j n') /\
    match r with Some w => exists e w1, committed w e w1 | None => True end.
Proof.
  pose proof len_bound as Hlen. pose proof Hw as [S Hl He Hr Hs Ht Hmss Hwnd Hpo].
  pose proof (sd_unsent _ _ _ _ _ S) as Eun.
  destruct (list.last ws) as [[P l]|] eqn:Ews.
  2:{ apply last_None in Ews. rewrite Eun, Ews. cbn [fmap list_fmap list.last] in *. rewrite Ht. cbn [Z.eqb].
    eexists n, (Some _). split; [done|]. split; [done|].
    split; [intros j ?; split; [done|by apply (plenty_le j (Datatypes.S j)); [lia|]]|].
    exists 0, []. unfold committed. pose proof (w_len_nonneg data). destruct S.
    split_and!; try done; try lia.
    + cbn. rewrite Z.sub_0_r. rewrite Ews in *. by split.
    + cbn. lia.
    + by rewrite Ews.
    + intros w' (_ & _ & -> & _). by rewrite sd_unsent, Ews. }
  apply last_Some in Ews as [w0 Ews]. destruct Ht as [Tot Te Tf Ts]. cbn [fst snd] in *.
  rewrite Eun, Ews, fmap_app. cbn [fmap list_fmap snd]. rewrite last_snoc.
    destruct (phase12_spec p addr data apiflags Hd Hmss Hwnd l n Tot) as (n' & r & E & Hmem & Hpl & Hr').
    { intros Hp. specialize (Hql Hp). unfold TCP_SND_QUEUELEN in *. destruct S. unfold is_u16 in *. lia. }
    exists n', r. split_and!; try done. destruct r as [w|]; [|done]. destruct Hr' as (u & k & Pl).
    destruct (commit_spec p data Hd Hmss Hwnd l w u k Tot Pl) as (l1 & l' & E1 & E2 & X & Eo & Ec & Hrom).
    destruct (commit_tail L NX LB us p data w0 P l l' w u k ltac:(by rewrite <- Ews) Hbuf Hql Pl X Eo Ec Hrom)
      as (C1 & C2 & C3 & C4 & C5).
    pose proof Pl as [(Hu & _) [Hk _] [Hp Hp1] _ _ _ _ _ Hqw Hnx _ _].
    exists (u + k), (w0 ++ [(P, l')]). unfold committed. rewrite last_snoc.
    split_and!; try done; try lia.
    + destruct (w_concat_p w); lia.
    + rewrite Ews. unfold seg_octets. rewrite !fmap_app, !concat_app. cbn [fmap list_fmap snd map concat].
      rewrite !app_nil_r, (ex_data _ _ _ X), app_assoc. done.
    + intros SS HS Hdata. rewrite Ews in HS. apply Forall_app in HS as [HS0 [HS1 _]%Forall_cons].
      apply Forall_app. split; [done|]. constructor; [|done]. destruct HS1 as (HS1 & Hsy & Hfi).
      unfold carried. cbn [fst snd] in *. unfold seg_syn, seg_fin in *. rewrite (ex_flags _ _ _ X).
      split; [|by split].
      rewrite (ex_data _ _ _ X). apply stream_at_app; [done|].
      replace (P + Z.of_nat (length (seg_data l))) with LB; [by apply stream_at_take|].
      destruct Tot as [Wl _ _ _ _]. rewrite <- (wf_len _ Wl), <- Te. unfold seg_end, TCP_TCPLEN. cbn [fst snd].
      rewrite flagset_3, Hsy, Hfi. cbn [orb]. lia.
    + intros w' Hsp. rewrite Eun, Ews, fmap_app. cbn [fmap list_fmap snd]. rewrite last_snoc, removelast_last.
      destruct (commit_plan data w w' l Hsp) as [-> Ecc]. rewrite E1. cbn [mbind option_bind].
      destruct (commit_plan data w w' l1 Hsp) as [_ ->]. rewrite E2. cbn [mbind option_bind].
      by rewrite fmap_app.
Qed.

Lemma chained_mod q : forall P Q, u32 P = u32 Q -> chained P q -> chained Q q.
Proof.
  induction q as [|s q IH]; intros P Q E Hc; [done|]. destruct Hc as [Hs Hc]. split; [by rewrite Hs|].
  apply (IH (P + seg_len s)); [|done]. clear -E. word_lia.
Qed.

(** The rest of [tcp_write]: it comes to an end with the data written or with
    nothing changed. *)
Lemma write_rest_spec n :
  tcp_write_checks p len = Some (p, ERR_OK) ->
  exists p' n' err, tcp_write p addr data apiflags n = Some (p', n', err) /\ mem_only n n' /\
    (err = ERR_OK /\ (exists ws', writable L NX (LB + len) us ws' p' /\
                        seg_octets ws'.*2 = seg_octets ws.*2 ++ data /\
                        forall S, Forall (carried S) ws -> stream_at S LB data -> Forall (carried S) ws') /\
       snd_buf p' = snd_buf p - len \/
     err = ERR_MEM /\ p' = tcp_set_flags TF_NAGLEMEMERR p) /\
    (forall R : nat, len <= Z.of_nat R * mss_local p -> snd_queuelen p + 1 + 2 * Z.of_nat R <= TCP_SND_QUEUELEN ->
       plenty (S (3 * R)) n -> err = ERR_OK).
Proof.
  intros Hck. pose proof len_bound as Hlen. destruct (writable_queued _ _ _ _ _ _ Hw) as [Hq Hq0].
  unfold tcp_write. rewrite Hck. cbn [mbind option_bind]. change (ERR_OK =? ERR_OK) with true. cbn iota beta.
  destruct (head_spec n) as (n1 & r & -> & Hm1 & Hpl1 & Hr). cbn [mbind option_bind].
  destruct r as [w|].
  2:{ cbn [mbind option_bind]. rewrite (queuelen_ok_true p Hq).
      eexists _, n1, ERR_MEM. split; [done|]. split; [done|]. split; [by right|].
      intros R _ _ Hp. by destruct (Hpl1 _ Hp) as [[? ?] _]. }
  destruct Hr as (e & w1 & Hen & Hpos & Hov & S1 & He1 & Hs1 & Htail & Hq16 & Hqb & Hoct & Hcar & Hcommit).
  destruct Hw as [S Hl He Hroom Hs Ht Hmss Hwnd Hports].
  destruct (phase3_spec p addr data apiflags Hd Hlen Hmss Hwnd Hports (Z.to_nat (TCP_SND_QUEUELEN + 1)) w [] n1)
    as (n2 & r & -> & Hm2 & Hpl2 & Hr); [lia|by rewrite Hpos| |].
  { intros Hlt. specialize (Hql ltac:(lia)). unfold is_u16, TCP_SND_QUEUELEN in *. lia. }
  cbn [mbind option_bind]. destruct r as [[w' new]|].
  2:{ rewrite (queuelen_ok_true p Hq). eexists _, n2, ERR_MEM. split; [done|].
      split; [by eapply mem_only_trans|]. split; [by right|].
      intros R HR1 HR2 Hp. destruct (Hpl1 _ Hp) as [_ Hp1].
      destruct (Hpl2 R) as [? ?]; [lia|lia|done|done]. }
  destruct Hr as (new' & -> & G). cbn [app]. rewrite (Hcommit w' (sg_plan _ _ _ _ _ G)). cbn [mbind option_bind].
  pose proof (sg_chained _ _ _ _ _ G) as Hch. rewrite Hpos in Hch.
  apply (chained_mod new' _ (LB + e)) in Hch; [|rewrite Hl; clear; word_lia].
  assert (W : writable L NX (LB + len) us (w1 ++ place (LB + e) new') (written p data (w1.*2 ++ new') w')).
  { apply (written_writable L NX LB us p data ws w1 w w' e new'); try done. }
  assert (Hsnd : (w1 ++ place (LB + e) new').*2 = w1.*2 ++ new') by (by rewrite fmap_app, place_snd).
  assert (Hoct' : seg_octets (w1.*2 ++ new') = seg_octets ws.*2 ++ data).
  { unfold seg_octets in *. rewrite map_app, concat_app, Hoct. rewrite <- app_assoc. f_equal.
    destruct G as [_ _ G3 _ _ _ _]. unfold seg_octets in G3. rewrite G3, Hpos. unfold arg_at.
    change (drop (Z.to_nat 0) data) with data. by rewrite take_drop. }
  assert (Hcar' : forall S, Forall (carried S) ws -> stream_at S LB data ->
                    Forall (carried S) (w1 ++ place (LB + e) new')).
  { intros SS HS Hdata. apply Forall_app. split; [by apply Hcar|]. destruct G as [G1 _ G3 _ _ _ _].
    apply place_carried; [eapply Forall_impl; [exact G1|]; by intros s []|].
    rewrite G3, Hpos. apply (stream_at_drop SS LB (Z.to_nat e)) in Hdata.
    by rewrite Z2Nat.id in Hdata by lia. }
  assert (Hbuf' : u16 (snd_buf p - len) = snd_buf p - len).
  { apply u16_id. destruct S. destruct (sum_nonneg L us sd_us), (sum_nonneg L ws sd_ws).
    pose proof (w_len_nonneg data). unfold is_u16, TCP_SND_BUF, TCP_WND in *. lia. }
  set (push := (_ && negb (flagset apiflags TCP_WRITE_FLAG_MORE))%bool).
  assert (exists ws', writable L NX (LB + len) us ws'
             (written p data (if push then push_last (w1.*2 ++ new') else w1.*2 ++ new') w') /\
           seg_octets ws'.*2 = seg_octets ws.*2 ++ data /\
           forall S, Forall (carried S) ws -> stream_at S LB data -> Forall (carried S) ws')
    as (ws' & W' & Hoct'' & Hcar'').
  { destruct push.
    - exists (push_placed (w1 ++ place (LB + e) new')). split_and!.
      + pose proof (writable_push _ _ _ _ _ _ W) as W'. rewrite push_placed_snd, Hsnd in W'. exact W'.
      + rewrite push_placed_snd, Hsnd. by rewrite push_last_octets.
      + intros. by apply push_carried, Hcar'.
    - exists (w1 ++ place (LB + e) new'). split; [done|]. by rewrite Hsnd. }
  destruct (writable_queued _ _ _ _ _ _ W') as [Hq' _]. unfold written in *.
  rewrite (queuelen_ok_true _ Hq'). eexists _, n2, ERR_OK. split; [done|].
  split; [by eapply mem_only_trans|]. split; [|done]. left. split; [done|]. split; [by exists ws'|].
  exact Hbuf'.
Qed.

End theorem.

(** Every branch of [tcp_write]. *)
Lemma tcp_write_spec L NX LB us ws p addr data apiflags n :
  writable L NX LB us ws p -> bytes_ok data ->
  exists p' n' err, tcp_write p addr data apiflags n = Some (p', n', err) /\ mem_only n n' /\
    (err = ERR_OK /\ may_write p /\
       (exists ws', writable L NX (LB + w_len data) us ws' p' /\
                    seg_octets ws'.*2 = seg_octets ws.*2 ++ data /\
                    forall S, Forall (carried S) ws -> stream_at S LB data -> Forall (carried S) ws') /\
       snd_buf p' = snd_buf p - w_len data \/
     err = ERR_CONN /\ p' = p /\ ~ may_write p \/
     err = ERR_MEM /\ p' = tcp_set_flags TF_NAGLEMEMERR p) /\
    (forall R : nat, may_write p -> w_len data <= snd_buf p -> w_len data <= Z.of_nat R * mss_local p ->
       snd_queuelen p + 1 + 2 * Z.of_nat R <= TCP_SND_QUEUELEN ->
       plenty (S (3 * R)) n -> err = ERR_OK).
Proof.
  intros Hw Hd.
  destruct (write_checks_spec L NX LB us ws p (w_len data) Hw (w_len_nonneg data))
    as (p0 & err & Hck & [(-> & -> & Hm & Hb & Hq)|[(-> & -> & Hm)|(-> & -> & Hno)]]).
  - destruct (write_rest_spec L NX LB us ws p addr data apiflags Hw Hd Hb Hq n Hck)
      as (p' & n' & err & E & Hmem & H & Hpl).
    exists p', n', err. split; [done|]. split; [done|]. split.
    + destruct H as [(-> & H & H')|(-> & ->)]; [left; by split_and!|by right; right].
    + intros R _ _. apply Hpl.
  - exists p, n, ERR_CONN. unfold tcp_write. rewrite Hck. split; [done|]. split; [done|].
    split; [by right; left|]. done.
  - exists (tcp_set_flags TF_NAGLEMEMERR p), n, ERR_MEM. unfold tcp_write. rewrite Hck.
    split; [done|]. split; [done|]. split; [by right; right|].
    intros R _ H1 _ H2. exfalso. lia.
Qed.

(** C5: [tcp_write] comes to an end on every input, asserts nothing false, and
    either appends exactly its data to the stream of octets in the unsent
    segments, keeping the invariant of the send queues (every segment well
    formed, with its checksum, numbered without a gap and not longer than the
    MSS) and taking the octets from [snd_buf], or reports an error and changes
    no segment: [ERR_CONN] in a state without a connection, [ERR_MEM]
    otherwise. *)
Theorem tcp_write_appends L NX LB us ws p addr data apiflags n :
  writable L NX LB us ws p -> bytes_ok data ->
  exists p' n' err, tcp_write p addr data apiflags n = Some (p', n', err) /\ mem_only n n' /\
    (err = ERR_OK /\ may_write p /\
       (exists ws', writable L NX (LB + w_len data) us ws' p' /\
                    seg_octets ws'.*2 = seg_octets ws.*2 ++ data /\
                    forall S, Forall (carried S) ws -> stream_at S LB data -> Forall (carried S) ws') /\
       snd_buf p' = snd_buf p - w_len data \/
     err = ERR_CONN /\ p' = p /\ ~ may_write p \/
     err = ERR_MEM /\ p' = tcp_set_flags TF_NAGLEMEMERR p).
Proof.
  intros Hw Hd. destruct (tcp_write_spec L NX LB us ws p addr data apiflags n Hw Hd)
    as (p' & n' & err & E & Hmem & H & _).
  by exists p', n', err.
Qed.

(** A pcb that has just been connected: nothing in flight, nothing to send. *)
Definition idle_pcb : tcp_pcb := (example_pcb 1000 32768) <| snd_buf := TCP_SND_BUF |>.

Lemma idle_writable : writable 5000 5000 5000 [] [] idle_pcb.
Proof.
  split; try done; try (cbn; lia).
  split; try done; try (by constructor); try (cbn; lia). intros x y Hx. by apply not_elem_of_nil in Hx.
Qed.

Definition roomy : net := Net [] [] [true; true; true; true] [Some 4096; Some 8192; Some 12288; Some 16384].

Lemma tcp_write_appends_witness :
  (exists p' n' err, tcp_write idle_pcb 4096 [72; 105] TCP_WRITE_FLAG_COPY roomy = Some (p', n', err) /\
     mem_only roomy n' /\
     (err = ERR_OK /\ may_write idle_pcb /\
        (exists ws', writable 5000 5000 (5000 + w_len [72; 105]) [] ws' p' /\
                     seg_octets ws'.*2 = seg_octets [] ++ [72; 105] /\
                     forall S, Forall (carried S) [] -> stream_at S 5000 [72; 105] -> Forall (carried S) ws') /\
        snd_buf p' = snd_buf idle_pcb - w_len [72; 105] \/
      err = ERR_CONN /\ p' = idle_pcb /\ ~ may_write idle_pcb \/
      err = ERR_MEM /\ p' = tcp_set_flags TF_NAGLEMEMERR idle_pcb)).
Proof.
  apply (tcp_write_appends 5000 5000 5000 [] []); [apply idle_writable|].
  repeat constructor; lia.
Defined.

(** [tcp_write] takes the data when the connection is open, the data fits into
    the send buffer and into [R] segments, the queue has room for two pbufs a
    segment and one more, and the memory does not run out. *)
Theorem tcp_write_accepts L NX LB us ws p addr data apiflags n R :
  writable L NX LB us ws p -> bytes_ok data -> may_write p -> w_len data <= snd_buf p ->
  w_len data <= Z.of_nat R * mss_local p ->
  snd_queuelen p + 1 + 2 * Z.of_nat R <= TCP_SND_QUEUELEN ->
  plenty (S (3 * R)) n ->
  exists p' n', tcp_write p addr data apiflags n = Some (p', n', ERR_OK).
Proof.
  intros Hw Hd Hm Hb HR Hq Hn.
  destruct (tcp_write_spec L NX LB us ws p addr data apiflags n Hw Hd) as (p' & n' & err & E & _ & _ & H).
  rewrite (H R Hm Hb HR Hq Hn) in E. by exists p', n'.
Qed.

Lemma tcp_write_accepts_witness :
  may_write idle_pcb /\
  exists p' n', tcp_write idle_pcb 4096 [72; 105] TCP_WRITE_FLAG_COPY roomy = Some (p', n', ERR_OK).
Proof.
  split; [by left|]. apply (tcp_write_accepts 5000 5000 5000 [] []) with (R := 1%nat).
  - apply idle_writable.
  - repeat constructor; lia.
  - by left.
  - by vm_compute.
  - by vm_compute.
  - by vm_compute.
  - unfold plenty. cbn. split_and!; [lia| |lia|]; repeat (apply List.Forall_cons; [done|]); apply List.Forall_nil.
Defined.
