(* ===== verification/TcpOutSpec.v ===== *)
(** * What [tcp_output] sends

    [tcp_output] takes segments off the front of the unsent queue while they fit
    the windows and Nagle's algorithm lets them go; each becomes one packet with
    the header of the moment and a checksum that the receiver accepts, and moves
    to its place among the unacknowledged segments. *)

From Stdlib Require Import Sorting.Sorted.
From stdpp Require Import sorting.
From S2P Require Import Prelude Err Def IpAddr NetifDefs Chksum Pbuf IpHdr Net NetExamples TcpDefs TcpIn TcpExamples TcpAck TcpOut TcpChksum TcpWrite TcpWriteSpec.

(** ** One segment *)

(** What the loop of [tcp_output] leaves alone. *)
Definition conn (p : tcp_pcb) :=
  (state p, local_ip p, remote_ip p, local_port p, remote_port p, ttl p, tos p, rcv_nxt p, rcv_ann_wnd p,
   mss p, snd_wnd p, snd_wnd_max p, cwnd p, snd_lbb p, snd_buf p, snd_queuelen p, lastack p).

Ltac conn_fields H :=
  unfold conn in H; injection H as ? ? ? ? ? ? ? ? ? ? ? ? ? ? ? ? ?.

(** The segment with the flags it is sent with. *)
Definition as_sent (p : tcp_pcb) (s : tcp_seg) : tcp_seg :=
  if negb (bool_decide (state p = SYN_SENT)) then or_flags TCP_ACK s else s.

Definition placed_as_sent (p : tcp_pcb) (x : placed) : placed := (x.1, as_sent p x.2).

(** The packet [e] carries the segment [s] of the pcb [p]: its header, and a
    checksum that verifies however the packet is cut into pbufs. *)
Definition carries (p : tcp_pcb) (s : tcp_seg) (e : out_event) : Prop :=
  exists h, e = Packet (encode_header h ++ seg_data s) (local_ip p) (remote_ip p) (ttl p) (tos p) /\
    hdr_ok h /\ h_src h = ss_src (seg_snd s) /\ h_dest h = ss_dest (seg_snd s) /\
    h_seqno h = seg_seqno s /\ h_ackno h = rcv_nxt p /\ h_flags h = seg_flags s /\
    h_wnd h = Z.min (rcv_ann_wnd p) 65535 /\ h_len h = 20 + seg_optlen s /\
    forall pkt, Forall chunk_ok pkt -> chain_octets pkt = encode_header h ++ seg_data s ->
      ip_chksum_pseudo pkt IP_PROTO_TCP (h_len h + seg_len s) (local_ip p) (remote_ip p) = 0.

(** A pcb that can send. *)
Record can_send (p : tcp_pcb) : Prop := {
  cs_rcv_nxt : is_u32 (rcv_nxt p);
  cs_rcv_ann_wnd : 0 <= rcv_ann_wnd p;
  cs_remote : ip_ok (remote_ip p);
  cs_local : ip_ok (local_ip p)
}.

Lemma can_send_conn p p' : conn p = conn p' -> can_send p -> can_send p'.
Proof. intros E []. conn_fields E. split; congruence. Qed.

Lemma carries_conn p p' s e : conn p = conn p' -> carries p s e -> carries p' s e.
Proof.
  intros E (h & H). conn_fields E. exists h.
  replace (local_ip p') with (local_ip p) by congruence. replace (remote_ip p') with (remote_ip p) by congruence.
  replace (ttl p') with (ttl p) by congruence. replace (tos p') with (tos p) by congruence.
  replace (rcv_nxt p') with (rcv_nxt p) by congruence.
  by replace (rcv_ann_wnd p') with (rcv_ann_wnd p) by congruence.
Qed.

Lemma as_sent_conn p p' s : conn p = conn p' -> as_sent p s = as_sent p' s.
Proof. intros E. conn_fields E. unfold as_sent. by replace (state p') with (state p) by congruence. Qed.

Lemma mss_option_bytes m : bytes_ok (TCP_BUILD_MSS_OPTION m) /\ length (TCP_BUILD_MSS_OPTION m) = 4%nat.
Proof.
  split; [|done]. apply octets4_ok. change 65535 with (Z.ones 16). rewrite Z.land_ones by lia.
  pose proof (Z.mod_pos_bound m (2 ^ 16) ltac:(lia)). set (a := m mod 2 ^ 16) in *. clearbody a.
  change 33816576 with (516 * 2 ^ 16). rewrite lor_shift_add by lia.
  unfold is_u32. lia.
Qed.

Section segment.
Context `{ip6 : ip6_layer} (s : Net.net) (tcp_ticks : Z) (outif : netif).

Lemma segment_header_ok seg p :
  seg_wf seg -> can_send p ->
  hdr_ok (segment_header s seg p outif) /\ bytes_ok (h_opts (segment_header s seg p outif)) /\
  h_len (segment_header s seg p outif) = 20 + seg_optlen seg.
Proof.
  intros W [Hn Hw _ _]. pose proof (wf_ports _ W) as [? ?].
  set (mss := tcp_eff_send_mss_netif TCP_MSS (Some (netif_path_mtu s outif (remote_ip p))) (remote_ip p)).
  pose proof (mss_option_bytes mss) as [Hb Hl].
  unfold h_len, seg_optlen, LWIP_TCP_OPT_LENGTH, segment_header. fold mss. cbn [h_opts].
  destruct (flagset (ss_flags (seg_snd seg)) TF_SEG_OPTS_MSS).
  - split_and!; [|done|by rewrite Hl]. split; cbn; try done; try apply W; [unfold is_u16; lia|].
    unfold mss, TCP_BUILD_MSS_OPTION, octets4, octets2. cbn. split; [done|lia].
  - split_and!; try done. split; cbn; try done; try apply W; [unfold is_u16; lia|split; [done|lia]].
Qed.

Lemma tcp_output_segment_spec seg p n :
  seg_wf seg -> can_send p ->
  exists p' n' err, tcp_output_segment s tcp_ticks seg p outif n = Some (p', n', err) /\ conn p' = conn p /\
    unsent p' = unsent p /\ unacked p' = unacked p /\ snd_nxt p' = snd_nxt p /\ flags p' = flags p /\
    unsent_oversize p' = unsent_oversize p /\
    if tcp_output_segment_busy seg then err = ERR_OK /\ n' = n
    else exists e, carries p seg e /\ trace n' = trace n ++ [e] /\
           answers n' = tail (answers n) /\
           err = match answers n with a :: _ => default ERR_MEM a | [] => ERR_MEM end.
Proof.
  intros W C. unfold tcp_output_segment. destruct (tcp_output_segment_busy seg).
  { by exists p, n, ERR_OK. }
  destruct (segment_header_ok seg p W C) as (Hh & Ho & Hl). set (hdr := segment_header _ _ _ _) in *.
  cbv zeta. set (p1 := p <| rcv_ann_right_edge := _ |>).
  set (p2 := if rtime p1 <? 0 then _ else p1). set (p3 := if rttest p2 =? 0 then _ else p2).
  assert (Hf : conn p3 = conn p /\ unsent p3 = unsent p /\ unacked p3 = unacked p /\ snd_nxt p3 = snd_nxt p /\
               flags p3 = flags p /\ unsent_oversize p3 = unsent_oversize p) by (unfold p3, p2; repeat case_match; done).
  clearbody p3. clear p2 p1. destruct Hf as (Hf & F1 & F2 & F3 & F4 & F5).
  pose proof (can_send_conn p p3 ltac:(by symmetry) C) as C3. destruct C3 as [_ _ Hr3 Hl3].
  pose proof (segment_chksum_slow seg p3 hdr W Hh eq_refl eq_refl Ho Hl3 Hr3) as Ec.
  set (c := ip_chksum_pseudo _ _ _ _ _) in Ec. clearbody c. rewrite Ec. cbn [mbind option_bind].
  set (e := Packet _ _ _ _ _). unfold ip_answer, next_answer. cbn [answers emit setter].
  assert (carries p3 seg e) as Hc.
  { exists (with_chksum c hdr). split; [done|]. cbn [h_src h_dest h_seqno h_ackno h_flags h_wnd with_chksum].
    split; [by destruct Hh|]. conn_fields Hf. split_and!; try done; try congruence.
    - replace (rcv_ann_wnd p3) with (rcv_ann_wnd p) by congruence. done.
    - intros pkt Hpkt Hoct. pose proof (segment_verifies seg p3 hdr W Hh ltac:(done) ltac:(done) Ho Hl3 Hr3 c pkt
        Ec Hpkt Hoct) as Hv.
      unfold p_tot_len in Hv. rewrite <- (wf_len _ W) in Hv. exact Hv. }
  eapply carries_conn in Hc; [|exact Hf].
  destruct (answers n) as [|a r] eqn:Ea.
  all: eexists _, _, _; split; [done|]; do 6 (split; [done|]); exists e; by split_and!.
Qed.

End segment.

(** ** From one queue to the other *)

Lemma flagset_ack f g : Z.land TCP_ACK g = 0 -> flagset (Z.lor f TCP_ACK) g = flagset f g.
Proof. apply flagset_lor_other. Qed.

Lemma as_sent_tcplen p s : TCP_TCPLEN (as_sent p s) = TCP_TCPLEN s.
Proof.
  unfold as_sent. destruct (negb _); [|done]. unfold TCP_TCPLEN, or_flags. cbn [seg_flags seg_len setter].
  by rewrite flagset_ack.
Qed.

Lemma as_sent_wf p s : seg_wf s -> seg_wf (as_sent p s).
Proof. intros W. unfold as_sent. destruct (negb _); [|done]. by apply or_flags_wf. Qed.

Lemma as_sent_same p s :
  seg_data (as_sent p s) = seg_data s /\ seg_len (as_sent p s) = seg_len s /\
  seg_seqno (as_sent p s) = seg_seqno s /\ seg_clen (as_sent p s) = seg_clen s /\
  tcp_output_segment_busy (as_sent p s) = tcp_output_segment_busy s.
Proof. unfold as_sent. by destruct (negb _). Qed.

(** The segment on the [unacked] queue. *)
Definition in_flight (p : tcp_pcb) (x : placed) : placed := (x.1, set_oversize_left 0 (as_sent p x.2)).

Lemma in_flight_end p x : seg_end (in_flight p x) = seg_end x.
Proof.
  unfold seg_end, in_flight. cbn [fst snd].
  change (TCP_TCPLEN (set_oversize_left 0 (as_sent p x.2))) with (TCP_TCPLEN (as_sent p x.2)).
  by rewrite as_sent_tcplen.
Qed.

Lemma placed_ok_in_flight L p x : placed_ok L x -> placed_ok L (in_flight p x).
Proof.
  pose proof (in_flight_end p x) as E. pose proof (as_sent_same p x.2) as (_ & E1 & E2 & E3 & _).
  unfold placed_ok. rewrite E. unfold in_flight. cbn [fst snd].
  change (TCP_TCPLEN (set_oversize_left 0 (as_sent p x.2))) with (TCP_TCPLEN (as_sent p x.2)).
  rewrite as_sent_tcplen. unfold seg_clen in *. cbn [seg_seqno seg_len seg_snd ss_parts set_oversize_left setter].
  by rewrite E1, E2, E3.
Qed.

(** Clearing flags does not change others. *)
Lemma flagset_clear_other f g p :
  Z.land (65535 - f) g = g -> flagset (flags (tcp_clear_flags f p)) g = flagset (flags p) g.
Proof. intros E. unfold flagset. cbn. by rewrite <- Z.land_assoc, E. Qed.

(** [unacked_add], on placed segments. *)
Definition placed_add (x : placed) (l : list placed) : list placed :=
  match last l with
  | None => [x]
  | Some y => if x.1 <? y.1 then placed_insert x l else l ++ [x]
  end.

Lemma placed_add_perm x l : placed_add x l ≡ₚ x :: l.
Proof.
  unfold placed_add. destruct (list.last l) as [y|] eqn:E.
  - destruct (_ <? _); [apply placed_insert_perm|]. rewrite Permutation_app_comm. done.
  - apply last_None in E as ->. done.
Qed.

Lemma unacked_add_spec L x l :
  placed_ok L x -> Forall (placed_ok L) l -> unacked_add x.2 l.*2 = (placed_add x l).*2.
Proof.
  intros Hx Hl. unfold unacked_add, placed_add. rewrite fmap_last.
  destruct (list.last l) as [y|] eqn:E; [|done]. cbn [fmap option_fmap option_map].
  assert (placed_ok L y) as Hy.
  { rewrite Forall_forall in Hl. apply Hl. apply last_Some in E as [l' ->].
    apply elem_of_app. right. by apply list_elem_of_singleton. }
  pose proof Hx as (Hsx & Hx1 & _ & _ & Hx2). pose proof Hy as (Hsy & Hy1 & _ & _ & Hy2). unfold seg_end in *.
  rewrite (seq_lt_unwrap _ _ x.1 y.1); [|rewrite Hsx; word_lia|rewrite Hsy; word_lia|unfold near; lia].
  destruct (_ <? _); [|by rewrite fmap_app].
  by apply (unsent_insert_spec L).
Qed.

Lemma placed_add_sorted L x l :
  placed_ok L x -> Forall (placed_ok L) l -> Forall (apart x) l -> StronglySorted before l ->
  StronglySorted before (placed_add x l).
Proof.
  intros Hx Hl Ha Hs. unfold placed_add. destruct (list.last l) as [y|] eqn:E; [|by repeat constructor].
  destruct (Z.ltb_spec x.1 y.1); [by apply (placed_insert_sorted L)|].
  apply last_Some in E as [l' ->]. apply StronglySorted_app. split_and!; [|done|by repeat constructor].
  apply Forall_app in Hl as [Hl1 [Hy _]%Forall_cons], Ha as [_ [Hay _]%Forall_cons].
  assert (before y x) as Hyx.
  { destruct Hx as (_ & ? & _), Hy as (_ & ? & _). unfold apart, before, seg_end in *. lia. }
  intros a b Hin ->%list_elem_of_singleton. apply elem_of_app in Hin as [Hin| ->%list_elem_of_singleton]; [|done].
  apply StronglySorted_app in Hs as (Hs & _ & _).
  specialize (Hs a y Hin ltac:(by apply list_elem_of_singleton)).
  destruct Hy as (_ & ? & _). unfold before, seg_end in *. lia.
Qed.

(** The first unsent segment has been sent. *)
Lemma sending_sent L NX us x ws p p' :
  sending L NX us (x :: ws) p ->
  let y := in_flight p' x in
  unacked p' = unacked p -> snd_nxt p' = snd_nxt p -> lastack p' = lastack p -> snd_queuelen p' = snd_queuelen p ->
  snd_buf p' = snd_buf p ->
  let p2 := segment_sent (as_sent p' x.2) ws.*2 p' in
  sending L (Z.max NX (seg_end x)) (placed_add y us) ws p2 /\ unsent p2 = ws.*2 /\ conn p2 = conn p' /\
  unsent_oversize p2 = unsent_oversize p' /\ flagset (flags p2) (Z.lor TF_NAGLEMEMERR TF_FIN) = flagset (flags p') (Z.lor TF_NAGLEMEMERR TF_FIN).
Proof.
  intros S y Ua Nx La Ql Bf. pose proof S as [H1 H2 H3 H4 H5 H6 H7 H8 H9 H10 H11 H12 H13 H14].
  apply Forall_cons in H7 as [Hx Hws]. pose proof (placed_ok_in_flight L p' x Hx) as Hy. fold y in Hy.
  inversion H9 as [|? ? H9' Hbx]; subst. rewrite Forall_forall in Hbx.
  pose proof (placed_add_perm y us) as Hp. pose proof (as_sent_same p' x.2) as (_ & El & Es & Ec & _).
  assert (Hap : Forall (apart y) us).
  { rewrite Forall_forall. intros u Hu. destruct (H10 u x Hu) as [Hb|Hb]; [by left| |].
    - right. exact Hb.
    - left. unfold before in *. unfold y. by rewrite in_flight_end. }
  unfold segment_sent.
  set (p1 := if negb (bool_decide (state (p' <| unsent := ws.*2 |>) = SYN_SENT)) then _ else _).
  assert (F : unacked p1 = unacked p' /\ unsent p1 = ws.*2 /\ snd_nxt p1 = snd_nxt p' /\ conn p1 = conn p' /\
    unsent_oversize p1 = unsent_oversize p' /\ flagset (flags p1) (Z.lor TF_NAGLEMEMERR TF_FIN) = flagset (flags p') (Z.lor TF_NAGLEMEMERR TF_FIN)).
  { unfold p1. destruct (negb _); [|done]. split_and!; try done. by rewrite flagset_clear_other. }
  clearbody p1. destruct F as (F1 & F2 & F3 & F4 & F6 & F5).
  change (TCP_TCPLEN (set_oversize_left 0 (as_sent p' x.2))) with (TCP_TCPLEN (as_sent p' x.2)).
  change (seg_seqno (set_oversize_left 0 (as_sent p' x.2))) with (seg_seqno (as_sent p' x.2)).
  rewrite as_sent_tcplen, Es. pose proof Hx as (Hsx & Hx1 & Hx2 & Hx3 & Hx4).
  assert (0 <? TCP_TCPLEN x.2 = true) as -> by lia. cbn zeta.
  rewrite F3, Nx, H4. rewrite (seq_lt_unwrap _ _ NX (seg_end x));
    [|word_lia|unfold seg_end; rewrite Hsx; word_lia|unfold near; lia].
  set (p2 := if NX <? seg_end x then _ else _).
  assert (G : unacked p2 = unacked p1 /\ unsent p2 = ws.*2 /\ snd_nxt p2 = u32 (Z.max NX (seg_end x)) /\
    conn p2 = conn p1 /\ flags p2 = flags p1 /\ unsent_oversize p2 = unsent_oversize p1).
  { unfold p2. destruct (Z.ltb_spec NX (seg_end x)); split_and!; try done.
    - cbn. rewrite Hsx. unfold seg_end in *. rewrite Z.max_r by lia. clear. word_lia.
    - rewrite Z.max_l by lia. congruence. }
  clearbody p2. destruct G as (G1 & G2 & G3 & G4 & G5 & G6).
  assert (Hc : conn (p2 <| unacked := unacked_add (set_oversize_left 0 (as_sent p' x.2)) (unacked p2) |>) = conn p')
    by (transitivity (conn p2); [done|congruence]).
  split; [|split_and!; [exact G2|exact Hc|cbn; congruence|by cbn; rewrite G5]].
  pose proof Hc as Hc'. conn_fields Hc'.
  split; cbn [unsent snd_nxt setter]; try done; try congruence.
  - cbn. rewrite G1, F1, Ua, H1. change (set_oversize_left 0 (as_sent p' x.2)) with (y.2).
    by apply (unacked_add_spec L).
  - cbn. congruence.
  - lia.
  - rewrite Hp. by constructor.
  - by apply (placed_add_sorted L).
  - intros a b Ha Hb. rewrite Hp in Ha. apply elem_of_cons in Ha as [->|Ha].
    + left. unfold before, y. rewrite in_flight_end. apply Hbx. done.
    + apply H10; [done|by right].
  - cbn [snd_queuelen setter]. replace (snd_queuelen p2) with (snd_queuelen p) by congruence.
    rewrite (sum_clen_perm _ _ Hp), H11.
    change (seg_clen (as_sent p' x.2) = seg_clen x.2) with (seg_clen y.2 = seg_clen x.2) in Ec.
    change (sum_clen us + (seg_clen x.2 + sum_clen ws) = seg_clen y.2 + sum_clen us + sum_clen ws). lia.
  - cbn [snd_queuelen setter]. by replace (snd_queuelen p2) with (snd_queuelen p) by congruence.
  - cbn [snd_buf setter]. replace (snd_buf p2) with (snd_buf p) by congruence.
    rewrite (sum_len_perm _ _ Hp), <- H13.
    change (seg_len (as_sent p' x.2) = seg_len x.2) with (seg_len y.2 = seg_len x.2) in El.
    change (snd_buf p + (seg_len y.2 + sum_len us) + sum_len ws = snd_buf p + sum_len us + (seg_len x.2 + sum_len ws)). lia.
  - cbn [snd_buf setter]. by replace (snd_buf p2) with (snd_buf p) by congruence.
Qed.

(** ** The loop *)

Lemma in_flight_conn p p' x : conn p = conn p' -> in_flight p x = in_flight p' x.
Proof. intros E. unfold in_flight. by rewrite (as_sent_conn p p'). Qed.

(** The flags change before the segment is sent. *)
Lemma sending_as_sent L NX us x ws p p' :
  sending L NX us (x :: ws) p -> unsent p' = as_sent p x.2 :: ws.*2 ->
  unacked p' = unacked p -> snd_nxt p' = snd_nxt p -> conn p' = conn p ->
  sending L NX us (placed_as_sent p x :: ws) p'.
Proof.
  intros [H1 H2 H3 H4 H5 H6 H7 H8 H9 H10 H11 H12 H13 H14] Un Ua Nx Hc. conn_fields Hc.
  apply Forall_cons in H7 as [Hx Hws]. pose proof (as_sent_same p x.2) as (_ & El & Es & Ec & _).
  assert (Ee : seg_end (placed_as_sent p x) = seg_end x)
    by (unfold seg_end; cbn [placed_as_sent fst snd]; by rewrite as_sent_tcplen).
  split; try done; try congruence.
  - constructor; [|done]. unfold placed_ok in *. rewrite Ee. cbn [placed_as_sent fst snd].
    by rewrite Es, El, Ec, as_sent_tcplen.
  - inversion_clear H9 as [|? ? H9' Hb]. constructor; [done|]. eapply Forall_impl; [exact Hb|].
    intros y. unfold before. by rewrite Ee.
  - intros a b Ha [->|Hb]%elem_of_cons; [|by apply H10; [|right]].
    specialize (H10 a x Ha ltac:(by left)). unfold apart, before in *. by rewrite Ee.
  - change (snd_queuelen p' = sum_clen us + (seg_clen (as_sent p x.2) + sum_clen ws)). rewrite Ec.
    replace (snd_queuelen p') with (snd_queuelen p) by congruence. exact H11.
  - change (snd_buf p' + sum_len us + (seg_len (as_sent p x.2) + sum_len ws) = TCP_SND_BUF). rewrite El.
    replace (snd_buf p') with (snd_buf p) by congruence. done.
Qed.

Lemma fits_spec L wnd p x :
  placed_ok L x -> lastack p = u32 L -> fits wnd p x.2 = (x.1 + seg_len x.2 <=? L + wnd).
Proof.
  intros (Hs & Ht & Hl & _ & He) HL. unfold fits. rewrite Hs, HL.
  assert (u32 (u32 x.1 - u32 L + seg_len x.2) = x.1 + seg_len x.2 - L) as ->.
  { rewrite <- (u32_id (x.1 + seg_len x.2 - L)); [clear; word_lia|].
    unfold seg_end, TCP_TCPLEN, is_u32 in *. destruct (flagset _ _); lia. }
  destruct (Z.leb_spec (x.1 + seg_len x.2 - L) wnd), (Z.leb_spec (x.1 + seg_len x.2) (L + wnd)); lia.
Qed.

(** The segments of [l] that nobody else refers to. *)
Definition idle (l : list placed) : list placed := filter (fun x => tcp_output_segment_busy x.2 = false) l.

Definition in_window (L wnd : Z) (x : placed) : Prop := x.1 + seg_len x.2 <= L + wnd.

(** Nagle's algorithm holds the first segment back. *)
Definition held_back (p : tcp_pcb) : Prop :=
  tcp_do_output_nagle p = false /\ flagset (flags p) (Z.lor TF_NAGLEMEMERR TF_FIN) = false.

(** What a run of the loop has done: [sent] is in flight, [failed] was refused
    by IP, [rest] was not tried; [evs] are the packets. *)
Record flushed (L wnd NX : Z) (us ws : list placed) (p : tcp_pcb) (n : net)
    (p' : tcp_pcb) (n' : net) (r : option Z)
    (NX' : Z) (us' sent failed rest : list placed) (evs : list out_event) : Prop := {
  fl_ws : ws = sent ++ failed ++ rest;
  fl_failed : match r with
              | None => failed = []
              | Some err => err <> ERR_OK /\ exists x, failed = [x]
              end;
  fl_sending : sending L NX' us' (map (placed_as_sent p) failed ++ rest) p';
  fl_us : us' ≡ₚ map (in_flight p) sent ++ us;
  fl_nxt : NX <= NX' /\ Forall (fun x => seg_end x <= NX') sent;
  fl_conn : conn p' = conn p /\ unsent_oversize p' = unsent_oversize p;
  fl_trace : trace n' = trace n ++ evs;
  fl_packets : Forall2 (fun x e => carries p (as_sent p x.2) e) (idle (sent ++ failed)) evs;
  fl_window : Forall (in_window L wnd) (sent ++ failed);
  fl_rest : r = None -> match rest with
                        | [] => True
                        | x :: _ => ~ in_window L wnd x \/ held_back p'
                        end;
  fl_progress : match ws with
                | x :: _ => in_window L wnd x -> ~ held_back p -> sent ++ failed <> []
                | [] => True
                end;
  fl_ok : Forall (eq (Some ERR_OK)) (answers n) -> (length ws <= length (answers n))%nat -> r = None
}.

Lemma segs_wf_conn (P : placed -> Prop) ws1 x ws2 :
  Forall P (ws1 ++ x :: ws2) -> P x.
Proof. rewrite Forall_app, Forall_cons. tauto. Qed.

Section loop.
Context `{ip6 : ip6_layer} (s : Net.net) (tcp_ticks : Z) (outif : netif) (L wnd : Z).

(** The loop stops in front of [ws]. *)
Lemma flushed_stop us ws p n NX :
  sending L NX us ws p ->
  match ws with [] => True | x :: _ => ~ in_window L wnd x \/ held_back p end ->
  flushed L wnd NX us ws p n p n None NX us [] [] ws [].
Proof.
  intros S H. split; try done; try (by rewrite app_nil_r).
  destruct ws as [|x ws]; [done|]. destruct H; [done|]. done.
Qed.

(** What IP answers to a segment that it takes. *)
Lemma sent_answers p (x : placed) n n2 k :
  (if tcp_output_segment_busy x.2 then ERR_OK = ERR_OK /\ n2 = n
   else exists e, carries p (as_sent p x.2) e /\ trace n2 = trace n ++ [e] /\
          answers n2 = tail (answers n) /\
          ERR_OK = match answers n with a :: _ => default ERR_MEM a | [] => ERR_MEM end) ->
  exists evs1, trace n2 = trace n ++ evs1 /\
    Forall2 (fun x e => carries p (as_sent p x.2) e) (idle [x]) evs1 /\
    (Forall (eq (Some ERR_OK)) (answers n) -> (S k <= length (answers n))%nat ->
     Forall (eq (Some ERR_OK)) (answers n2) /\ (k <= length (answers n2))%nat).
Proof.
  intros Hev. unfold idle. rewrite filter_cons, filter_nil. destruct (tcp_output_segment_busy x.2).
  - destruct Hev as [_ ->]. exists []. rewrite app_nil_r, decide_False by done. do 2 (split; [done|]). intros; split; [done|lia].
  - destruct Hev as (e & Hce & Ht & Han & _). exists [e]. rewrite decide_True by done. split; [done|].
    split; [constructor; [exact Hce|done]|]. intros HF Hl. rewrite Han.
    destruct (answers n) as [|a r]; [cbn in Hl; lia|]. apply Forall_cons in HF as [_ HF].
    split; [done|]. cbn in *. lia.
Qed.

(** A segment that goes, and what the loop does behind it. *)
Lemma flushed_cons us x ws p p2 p3 n n2 evs1 NX NX1 p' n' r NX' us' sent failed rest evs :
  flushed L wnd NX1 (placed_add (in_flight p2 x) us) ws p3 n2 p' n' r NX' us' sent failed rest evs ->
  conn p2 = conn p -> conn p3 = conn p -> unsent_oversize p3 = unsent_oversize p ->
  NX <= NX1 /\ seg_end x <= NX1 -> in_window L wnd x ->
  trace n2 = trace n ++ evs1 -> Forall2 (fun x e => carries p (as_sent p x.2) e) (idle [x]) evs1 ->
  (Forall (eq (Some ERR_OK)) (answers n) -> (S (length ws) <= length (answers n))%nat ->
   Forall (eq (Some ERR_OK)) (answers n2) /\ (length ws <= length (answers n2))%nat) ->
  flushed L wnd NX us (x :: ws) p n p' n' r NX' us' (x :: sent) failed rest (evs1 ++ evs).
Proof.
  intros [F1 F2 F3 F4 F5 F6 F7 F8 F9 F10 F11 F12] Hc Hc' Ho' [HN1 HN2] Hfit Ht1 Hp1 Ho1.
  split; try done.
  - cbn. by rewrite F1.
  - by rewrite (map_ext _ (placed_as_sent p3)) by (intros z; unfold placed_as_sent; by rewrite (as_sent_conn p p3)).
  - rewrite F4, placed_add_perm. cbn [map app]. rewrite (in_flight_conn p2 p x Hc), Permutation_middle.
    rewrite (map_ext (in_flight p3) (in_flight p)) by (intros z; by apply in_flight_conn). done.
  - destruct F5 as [F5 F5']. split; [lia|]. constructor; [lia|done].
  - destruct F6 as [F6 F6']. split; congruence.
  - by rewrite F7, Ht1, app_assoc.
  - unfold idle in *. cbn [app]. change (x :: sent ++ failed) with ([x] ++ sent ++ failed).
    rewrite filter_app. apply Forall2_app; [done|]. eapply Forall2_impl; [exact F8|].
    intros z e He. rewrite (as_sent_conn p p3) by done. by eapply carries_conn; [|exact He].
  - cbn. by constructor.
  - intros HF Hl. destruct (Ho1 HF Hl). by apply F12.
Qed.

Lemma output_loop_spec ws : forall us p n NX,
  sending L NX us ws p -> Forall (fun x => seg_wf x.2) ws -> can_send p ->
  exists p' n' r NX' us' sent failed rest evs,
    output_loop s tcp_ticks wnd outif ws.*2 p n = Some (p', n', r) /\
    flushed L wnd NX us ws p n p' n' r NX' us' sent failed rest evs.
Proof.
  induction ws as [|x ws IH]; intros us p n NX S W C.
  { exists p, n, None, NX, us, [], [], [], []. split; [done|]. by apply flushed_stop. }
  pose proof S as [_ Hun HL _ _ _ Hok _ _ _ _ _ _ _].
  apply Forall_cons in Hok as [Hx _], W as [Wx W].
  cbn [fmap list_fmap output_loop]. rewrite (fits_spec L) by done.
  destruct (Z.leb_spec (x.1 + seg_len x.2) (L + wnd)) as [Hfit|Hfit].
  2:{ exists p, n, None, NX, us, [], [], (x :: ws), []. split; [done|]. apply flushed_stop; [done|].
      left. unfold in_window. lia. }
  rewrite (wf_no_rst _ Wx). cbn [negb]. destruct (negb (tcp_do_output_nagle p) && _) eqn:En.
  { exists p, n, None, NX, us, [], [], (x :: ws), []. split; [done|]. apply flushed_stop; [done|].
    right. unfold held_back. apply andb_true_iff in En as [E1 E2].
    by apply negb_true_iff in E1, E2. }
  clear En. fold (as_sent p x.2). cbv zeta. set (p1 := p <| unsent := as_sent p x.2 :: ws.*2 |>).
  destruct (tcp_output_segment_spec s tcp_ticks outif (as_sent p x.2) p1 n) as
    (p2 & n2 & err & E & Hc & Hu2 & Ha2 & Hn2 & Hf2 & Ho2 & Hev); [by apply as_sent_wf|by apply (can_send_conn p)|].
  rewrite E. cbn [mbind option_bind]. change (conn p1) with (conn p) in Hc.
  change (unsent_oversize p1) with (unsent_oversize p) in Ho2.
  pose proof (as_sent_same p x.2) as (_ & _ & _ & _ & Eb). rewrite Eb in Hev.
  destruct (Z.eqb_spec err ERR_OK) as [->|Herr]; cbn [negb].
  - destruct (sent_answers p x n n2 (length ws) Hev) as (evs1 & Ht1 & Hp1 & Ho1).
    pose proof Hc as Hcf. conn_fields Hcf.
    destruct (sending_sent L NX us x ws p p2 S) as (S' & Hu' & Hc' & Ho' & _); [done..|].
    rewrite (as_sent_conn p2 p) in S', Hu', Hc', Ho' by done.
    set (p3 := segment_sent _ _ _) in *. clearbody p3. rewrite Hc in Hc'.
    destruct (IH (placed_add (in_flight p2 x) us) p3 n2 _ S' W (can_send_conn p p3 ltac:(done) C))
      as (p' & n' & r & NX' & us' & sent & failed & rest & evs & E' & F).
    exists p', n', r, NX', us', (x :: sent), failed, rest, (evs1 ++ evs). split; [done|].
    apply (flushed_cons _ _ _ p p2 p3 n n2 evs1 NX _ _ _ _ _ _ _ _ _ _ F); done || (split; lia) || congruence.
  - destruct (tcp_output_segment_busy x.2) eqn:Hb; [by destruct Hev as [-> _]|].
    destruct Hev as (e & Hce & Ht & Han & Ee).
    exists (tcp_set_flags TF_NAGLEMEMERR p2), n2, (Some err), NX, us, [], [x], ws, [e]. split; [done|].
    split; try done.
    + split; [done|by exists x].
    + cbn. apply (sending_ext _ _ _ _ p2); [|done..]. by apply (sending_as_sent L NX us x ws p p2).
    + unfold idle. cbn [app]. rewrite filter_cons, filter_nil, decide_True by done.
      constructor; [exact Hce|done].
    + by constructor.
    + intros HF Hl. destruct (answers n) as [|a r]; [cbn in Hl; lia|].
      apply Forall_cons in HF as [<- _]. by rewrite Ee in Herr.
Qed.
End loop.

(** ** [tcp_output] *)

(** What a call has done to the unsent segments [ws]: [sent] are in flight,
    [failed] is one that IP refused, [rest] are left. *)
Record output_ok (L : Z) (us ws : list placed) (p : tcp_pcb) (n : net) (p' : tcp_pcb) (n' : net)
    (NX' : Z) (us' sent failed rest : list placed) (packets acks : list out_event) : Prop := {
  oo_ws : ws = sent ++ failed ++ rest;
  oo_failed : (length failed <= 1)%nat;
  oo_sending : sending L NX' us' (map (placed_as_sent p') failed ++ rest) p';
  oo_us : us' ≡ₚ map (in_flight p') sent ++ us;
  oo_nxt : Forall (fun x => seg_end x <= NX') sent;
  oo_trace : trace n' = trace n ++ packets ++ acks;
  oo_packets : Forall2 (fun x e => carries p' (as_sent p' x.2) e) (idle (sent ++ failed)) packets;
  oo_acks : acks = [] \/
            sent ++ failed = [] /\ acks = [EmptyAck (snd_nxt p) (rcv_nxt p) (rcv_ann_wnd p)] /\
            tcp_is_flag_set TF_ACK_NOW p = true;
  oo_window : Forall (in_window L (Z.min (snd_wnd p) (cwnd p))) (sent ++ failed);
  oo_can_send : can_send p';
  oo_conn : conn p' = conn (p <| local_ip := local_ip p' |>);
  oo_oversize : unsent_oversize p' =
                match ws, failed ++ rest with _ :: _, [] => 0 | _, _ => unsent_oversize p end
}.

(** When there is a route and the first segment fits: it goes if nothing is in
    flight, and if IP takes every packet, the call stops only where the window
    ends or Nagle's algorithm holds a segment back. *)
Definition output_goes (L : Z) (us ws : list placed) (p : tcp_pcb) (n : net) (p' : tcp_pcb) (err : Z)
    (sent failed rest : list placed) : Prop :=
  let wnd := Z.min (snd_wnd p) (cwnd p) in
  forall x ws0, ws = x :: ws0 -> in_window L wnd x ->
    (us = [] -> sent ++ failed <> []) /\
    (Forall (eq (Some ERR_OK)) (answers n) -> (length ws <= length (answers n))%nat ->
     err = ERR_OK /\ failed = [] /\
     match rest with
     | [] => True
     | y :: _ => ~ in_window L wnd y \/ held_back p'
     end).

Lemma flagset_clear_false f g p :
  flagset (flags p) g = false -> flagset (flags (tcp_clear_flags f p)) g = false.
Proof.
  unfold flagset. cbn. rewrite !negb_false_iff, !Z.eqb_eq. intros E.
  by rewrite <- Z.land_assoc, (Z.land_comm _ g), Z.land_assoc, E.
Qed.

Lemma held_back_done p : held_back p -> held_back (output_done p).
Proof.
  intros [H1 H2]. split; [|by apply flagset_clear_false].
  unfold tcp_do_output_nagle in *. change (unacked (output_done p)) with (unacked p).
  change (unsent (output_done p)) with (unsent p). change (mss (output_done p)) with (mss p).
  change (snd_buf (output_done p)) with (snd_buf p). change (snd_queuelen (output_done p)) with (snd_queuelen p).
  unfold output_done. by rewrite flagset_clear_other.
Qed.

Lemma flushed_output L NX us ws p p2 n p3 n' r NX' us' sent failed rest evs p' err :
  flushed L (Z.min (snd_wnd p) (cwnd p)) NX us ws p2 n p3 n' r NX' us' sent failed rest evs ->
  conn p' = conn p2 -> sending L NX' us' (map (placed_as_sent p2) failed ++ rest) p' ->
  unacked p2 = us.*2 -> can_send p2 -> conn p2 = conn (p <| local_ip := local_ip p' |>) ->
  unsent_oversize p' = match ws, failed ++ rest with _ :: _, [] => 0 | _, _ => unsent_oversize p end ->
  (r = None -> err = ERR_OK) -> (r = None -> held_back p3 -> held_back p') ->
  output_ok L us ws p n p' n' NX' us' sent failed rest evs [] /\
  output_goes L us ws p n p' err sent failed rest.
Proof.
  intros [F1 F2 F3 F4 F5 F6 F7 F8 F9 F10 F11 F12] Hc S Hua Hcs Hcp Hov Herr Hhb. split.
  - split; try done.
    + destruct r; [destruct F2 as [_ [? ->]]; cbn; lia|subst; cbn; lia].
    + rewrite (map_ext _ (placed_as_sent p2)); [done|].
      intros z. unfold placed_as_sent. by rewrite (as_sent_conn p' p2).
    + rewrite F4, (map_ext (in_flight p2) (in_flight p')); [done|]. intros z. by apply in_flight_conn.
    + apply F5.
    + by rewrite app_nil_r.
    + eapply Forall2_impl; [exact F8|]. intros z e He. rewrite (as_sent_conn p' p2) by done.
      by eapply carries_conn; [|exact He].
    + by left.
    + by apply (can_send_conn p2).
    + congruence.
  - intros x ws0 -> Hin. split.
    + intros Hus. apply F11; [done|]. intros [Hb _]. unfold tcp_do_output_nagle in Hb.
      rewrite Hua, Hus in Hb. done.
    + intros HF Hl. specialize (F12 HF Hl). subst r. split; [by apply Herr|]. split; [done|].
      specialize (F10 eq_refl). destruct rest; [done|]. destruct F10; [by left|right; by apply Hhb].
Qed.

Lemma output_nothing L us ws p n p' NX :
  sending L NX us ws p' -> can_send p' -> conn p' = conn (p <| local_ip := local_ip p' |>) ->
  unsent_oversize p' = unsent_oversize p ->
  output_ok L us ws p n p' n NX us [] [] ws [] [].
Proof. intros S ? ? ?. split; try done; [cbn; lia|by rewrite app_nil_r|by left|by destruct ws]. Qed.

Section output.
Context `{ip6 : ip6_layer} (s : Net.net) (tcp_ticks : Z).

Lemma ack_or_done_spec L us ws p p0 n NX :
  sending L NX us ws p -> snd_nxt p = snd_nxt p0 -> rcv_nxt p = rcv_nxt p0 -> rcv_ann_wnd p = rcv_ann_wnd p0 ->
  flags p = flags p0 -> can_send p -> conn p = conn (p0 <| local_ip := local_ip p |>) -> unsent_oversize p = unsent_oversize p0 ->
  exists p' n' err acks, ack_or_done p n = (p', n', err) /\
    output_ok L us ws p0 n p' n' NX us [] [] ws [] acks /\ seg_mem n' = seg_mem n /\ pbuf_mem n' = pbuf_mem n.
Proof.
  intros S E1 E2 E3 E4 Cs Ec Eo. unfold ack_or_done, tcp_is_flag_set. rewrite E4.
  destruct (flagset (flags p0) TF_ACK_NOW) eqn:Ef.
  2:{ exists (output_done p), n, ERR_OK, []. split; [done|]. split; [|done]. apply output_nothing; try done;
      [by eapply sending_ext|by apply (can_send_conn p)]. }
  unfold output_ack, tcp_send_empty_ack. destruct (next_answer n) as [n1 [err|]] eqn:Ea.
  all: assert (Hn1 : trace n1 = trace n /\ seg_mem n1 = seg_mem n /\ pbuf_mem n1 = pbuf_mem n)
    by (unfold next_answer in Ea; destruct (answers n); by simplify_eq).
  - unfold control_sent.
    exists ((if negb (err =? ERR_OK) then tcp_set_flags (Z.lor TF_ACK_DELAY TF_ACK_NOW)
             else tcp_clear_flags (Z.lor TF_ACK_DELAY TF_ACK_NOW))
              (p <| rcv_ann_right_edge := u32 (rcv_nxt p + rcv_ann_wnd p) |>)).
    exists (if err =? ERR_RTE then n1 else emit (EmptyAck (snd_nxt p) (rcv_nxt p) (rcv_ann_wnd p)) n1), err.
    exists (if err =? ERR_RTE then [] else [EmptyAck (snd_nxt p0) (rcv_nxt p0) (rcv_ann_wnd p0)]).
    split; [by destruct (negb (err =? ERR_OK))|].
    split; [|by destruct (err =? ERR_RTE); cbn; destruct Hn1 as (_ & ? & ?)].
    split; try done; try (by destruct ws, (negb (err =? ERR_OK))); try (by destruct (negb (err =? ERR_OK))).
    + by destruct (negb (err =? ERR_OK)); cbn; lia.
    + by destruct (negb (err =? ERR_OK)); eapply sending_ext.
    + destruct (err =? ERR_RTE); cbn; destruct Hn1 as [-> _]; by rewrite ?E1, ?E2, ?E3, ?app_nil_r.
    + destruct (err =? ERR_RTE); [by left|by right].
    + by destruct (negb (err =? ERR_OK)); apply (can_send_conn p).
  - eexists _, n1, ERR_BUF, []. split; [done|]. split; [|by destruct Hn1 as (_ & ? & ?)].
    split; try done; [cbn; lia|by eapply sending_ext| |by left|by apply (can_send_conn p)|by destruct ws].
    by destruct Hn1 as [-> _]; rewrite app_nil_r.
Qed.

(** The route leads to an interface of the list. *)
Lemma tcp_route_elem p src dst outif : tcp_route s p src dst = Some outif -> outif ∈ netif_list s.
Proof.
  assert (Hh : head (netif_list s) = Some outif -> outif ∈ netif_list s).
  { destruct (netif_list s); [done|]. intros [= ->]. by left. }
  assert (Hr : ip_route src dst s = Some outif -> outif ∈ netif_list s).
  { unfold ip_route, ip6_route, ip4_route_src, ip4_route. by case_match. }
  unfold tcp_route. destruct p as [p|]; [|done]. case_match; [|done].
  unfold netif_get_by_index. case_match; [|done].
  clear Hh Hr. induction (netif_list s) as [|x l IH]; cbn [find_index]; [done|]. case_match.
  - intros [= ->]. by left.
  - intros E. right. by apply IH.
Qed.

(** Every call, whatever the windows, the route and the answers of IP. *)
(** Starting the persist timer touches nothing of this. *)
Lemma start_persist_spec wnd L NX us ws p : sending L NX us ws p -> can_send p ->
  let p' := start_persist wnd p in
  sending L NX us ws p' /\ can_send p' /\ snd_nxt p' = snd_nxt p /\ rcv_nxt p' = rcv_nxt p /\
  rcv_ann_wnd p' = rcv_ann_wnd p /\ flags p' = flags p /\ conn p' = conn (p <| local_ip := local_ip p' |>) /\
  unsent_oversize p' = unsent_oversize p.
Proof.
  intros S C p'. unfold p', start_persist.
  destruct (_ && _); (split; [by eapply sending_ext|split; [by apply (can_send_conn p)|by destruct p]]).
Qed.

Lemma tcp_output_spec L NX us ws busy p n :
  sending L NX us ws p -> Forall (fun x => seg_wf x.2) ws ->
  can_send p -> state p <> LISTEN ->
  (forall outif a, outif ∈ netif_list s -> ip_netif_get_local_ip outif (remote_ip p) s = Some a -> ip_ok a) ->
  exists p' n' err NX' us' sent failed rest packets acks,
    tcp_output s tcp_ticks busy p n = Some (p', n', err) /\
    output_ok L us ws p n p' n' NX' us' sent failed rest packets acks /\
    (forall outif local, busy = false ->
       tcp_route s (Some p) (local_ip p) (remote_ip p) = Some outif ->
       ip_netif_get_local_ip outif (remote_ip p) s = Some local ->
       output_goes L us ws p n p' err sent failed rest).
Proof.
  intros S W C Hst Hip. unfold tcp_output. rewrite bool_decide_eq_false_2 by done. cbn [negb].
  destruct busy.
  { exists p, n, ERR_OK, NX, us, [], [], ws, [], []. split; [done|]. split; [by apply output_nothing|done]. }
  pose proof (sd_unsent _ _ _ _ _ S) as Eu. rewrite Eu. set (wnd := Z.min (snd_wnd p) (cwnd p)).
  destruct ws as [|x ws]; cbn [fmap list_fmap].
  { destruct (ack_or_done_spec L us [] p p n NX S) as (p' & n' & err & acks & -> & O & _); [done..|].
    exists p', n', err, NX, us, [], [], [], [], acks. done. }
  destruct (tcp_route s (Some p) (local_ip p) (remote_ip p)) as [outif|] eqn:Er.
  2:{ exists p, n, ERR_RTE, NX, us, [], [], (x :: ws), [], []. split; [done|]. split; [by apply output_nothing|done]. }
  destruct (if ip_addr_isany_val (local_ip p) then ip_netif_get_local_ip outif (remote_ip p) s else Some (local_ip p))
    as [local|] eqn:El.
  2:{ exists p, n, ERR_RTE, NX, us, [], [], (x :: ws), [], []. split; [done|]. split; [by apply output_nothing|].
      intros ? a _ [= <-] Ha. revert El. destruct (ip_addr_isany_val _); congruence. }
  assert (Hlocal : ip_ok local).
  { revert El. destruct (ip_addr_isany_val (local_ip p)); [apply Hip; by eapply tcp_route_elem|]. intros [= <-]. apply C. }
  set (p1 := p <| local_ip := local |>).
  assert (S1 : sending L NX us (x :: ws) p1) by (by eapply sending_ext).
  pose proof S1 as [_ _ HL _ _ _ [Hx _]%Forall_cons _ _ _ _ _ _ _].
  assert (C1 : can_send p1) by (destruct C; by split).
  rewrite (fits_spec L) by done. destruct (Z.leb_spec (x.1 + seg_len x.2) (L + wnd)) as [Hfit|Hfit]; cbn [negb].
  2:{ destruct (start_persist_spec wnd L NX us (x :: ws) p1 S1 C1) as (S2 & C2 & F1 & F2 & F3 & F4 & F5 & F6).
      destruct (ack_or_done_spec L us (x :: ws) _ p n NX S2 F1 F2 F3 F4 C2 F5 F6)
        as (p' & n' & err & acks & -> & O & _).
      exists p', n', err, NX, us, [], [], (x :: ws), [], acks. split; [done|]. split; [done|].
      intros ? ? _ _ _ ? ? [= <- <-] Hin. unfold in_window in Hin. fold wnd in Hin. lia. }
  set (p2 := p1 <| persist_backoff := 0 |>).
  assert (S2 : sending L NX us (x :: ws) p2) by (by eapply sending_ext).
  assert (C2 : can_send p2) by (destruct C1; by split).
  change (unsent p2) with (unsent p). rewrite Eu.
  destruct (output_loop_spec s tcp_ticks outif L wnd (x :: ws) us p2 n NX S2 W C2)
    as (p3 & n' & r & NX' & us' & sent & failed & rest & evs & E & F).
  rewrite E. cbn [mbind option_bind].
  destruct (fl_conn _ _ _ _ _ _ _ _ _ _ _ _ _ _ _ _ F) as [Hc3 Ho3].
  pose proof (fl_sending _ _ _ _ _ _ _ _ _ _ _ _ _ _ _ _ F) as S3.
  pose proof (sd_unacked _ _ _ _ _ S2) as Hua.
  pose proof (fl_failed _ _ _ _ _ _ _ _ _ _ _ _ _ _ _ _ F) as Hfl.
  change (unsent_oversize p2) with (unsent_oversize p) in Ho3.
  assert (Hcp : conn p2 = conn (p <| local_ip := local_ip p3 |>)).
  { pose proof Hc3 as Hc. conn_fields Hc. replace (local_ip p3) with local by congruence. done. }
  destruct r as [err|].
  - exists p3, n', err, NX', us', sent, failed, rest, evs, []. split; [done|].
    destruct (flushed_output L NX us (x :: ws) p p2 n p3 n' (Some err) NX' us' sent failed rest evs p3 err F) as [O G];
      try done. by destruct Hfl as [_ [? ->]].
  - subst failed. set (p4 := match unsent p3 with [] => _ | _ => p3 end).
    assert (Hp4 : conn p4 = conn p3 /\ sending L NX' us' (map (placed_as_sent p2) [] ++ rest) p4 /\
                  (held_back p3 -> held_back (output_done p4)) /\
                  unsent_oversize p4 = match rest with [] => 0 | _ => unsent_oversize p end).
    { pose proof (sd_unsent _ _ _ _ _ S3) as Eu3. cbn [map app] in Eu3. unfold p4.
      destruct (unsent p3) eqn:Eu3'; (split; [done|]; split; [by eapply sending_ext|]).
      all: split; [intros H; apply held_back_done in H; exact H|by destruct rest]. }
    clearbody p4. destruct Hp4 as (Hc4 & S4 & Hb4 & Ho4).
    exists (output_done p4), n', ERR_OK, NX', us', sent, [], rest, evs, []. split; [done|].
    assert (Hl4 : local_ip (output_done p4) = local_ip p3) by (pose proof Hc4 as Hc; by conn_fields Hc).
    destruct (flushed_output L NX us (x :: ws) p p2 n p3 n' None NX' us' sent [] rest evs (output_done p4) ERR_OK F)
      as [O G]; try done.
    + change (conn (output_done p4)) with (conn p4). congruence.
    + by eapply sending_ext.
    + by rewrite Hl4.
Qed.
End output.

(** C6: [tcp_output] always returns.  It takes segments off the front of the unsent
    queue; each that has been sent is in flight at its place, none is lost,
    repeated or out of order, and the accounts of the pcb still hold; a segment
    that IP refuses stays where it is.  Each becomes one packet with the numbers,
    flags, window and options of its header and a checksum that verifies at the
    receiver, and none reaches beyond the send window or the congestion
    window.  Nothing else is sent, but for one acknowledgement when one is due
    and no segment goes.  (A segment the driver still holds, [busy], gets no packet.) *)
Theorem tcp_output_sends `{ip6 : ip6_layer} s tcp_ticks L NX us ws busy p n :
  sending L NX us ws p -> Forall (fun x => seg_wf x.2) ws -> can_send p -> state p <> LISTEN ->
  (forall outif a, outif ∈ netif_list s -> ip_netif_get_local_ip outif (remote_ip p) s = Some a -> ip_ok a) ->
  exists p' n' err NX' us' sent failed rest packets acks,
    tcp_output s tcp_ticks busy p n = Some (p', n', err) /\
    output_ok L us ws p n p' n' NX' us' sent failed rest packets acks.
Proof.
  intros S W C Hst Hip. destruct (tcp_output_spec s tcp_ticks L NX us ws busy p n S W C Hst Hip)
    as (p' & n' & err & NX' & us' & sent & failed & rest & packets & acks & E & O & _).
  by exists p', n', err, NX', us', sent, failed, rest, packets, acks.
Qed.

(** The first segment goes when nothing is in flight. *)
Lemma first_on_wire L x ws p n p' n' err NX' us' sent failed rest packets acks :
  output_ok L [] (x :: ws) p n p' n' NX' us' sent failed rest packets acks ->
  output_goes L [] (x :: ws) p n p' err sent failed rest ->
  in_window L (Z.min (snd_wnd p) (cwnd p)) x -> tcp_output_segment_busy x.2 = false ->
  Forall (eq (Some ERR_OK)) (answers n) -> (length (x :: ws) <= length (answers n))%nat ->
  err = ERR_OK /\ failed = [] /\
  (exists sent' e, sent = x :: sent' /\ carries p' (as_sent p' x.2) e /\ e ∈ packets) /\
  match rest with
  | [] => True
  | y :: _ => ~ in_window L (Z.min (snd_wnd p) (cwnd p)) y \/ held_back p'
  end.
Proof.
  intros O G Hin Hb Ha Hla. destruct (G x ws eq_refl Hin) as [G1 G2].
  destruct (G2 Ha Hla) as (-> & -> & Hrest). specialize (G1 eq_refl). rewrite app_nil_r in G1.
  destruct O as [O1 _ _ _ _ _ O7 _ _ _ _ _]. rewrite app_nil_r in O7. cbn [app] in O1.
  destruct sent as [|x' sent]; [done|]. injection O1 as <- O1.
  unfold idle in O7. rewrite filter_cons, decide_True in O7 by done.
  inversion O7 as [|? e ? packets' Hc _]; subst. split_and!; try done.
  exists sent, e. split_and!; try done. by left.
Qed.

(** The call that sends the first segment when nothing is in flight. *)
Lemma tcp_output_first `{ip6 : ip6_layer} s tcp_ticks L NX x ws p n outif local :
  sending L NX [] (x :: ws) p -> Forall (fun x => seg_wf x.2) (x :: ws) -> can_send p -> state p <> LISTEN ->
  (forall outif a, outif ∈ netif_list s -> ip_netif_get_local_ip outif (remote_ip p) s = Some a -> ip_ok a) ->
  tcp_route s (Some p) (local_ip p) (remote_ip p) = Some outif ->
  ip_netif_get_local_ip outif (remote_ip p) s = Some local ->
  in_window L (Z.min (snd_wnd p) (cwnd p)) x -> tcp_output_segment_busy x.2 = false ->
  Forall (eq (Some ERR_OK)) (answers n) -> (length (x :: ws) <= length (answers n))%nat ->
  exists p' n' e sent rest,
    tcp_output s tcp_ticks false p n = Some (p', n', ERR_OK) /\ x :: ws = x :: sent ++ rest /\
    carries p' (as_sent p' x.2) e /\ e ∈ drop (length (trace n)) (trace n') /\
    unacked p' ≡ₚ (map (in_flight p') (x :: sent)).*2 /\ unsent p' = rest.*2 /\
    match rest with
    | [] => True
    | y :: _ => ~ in_window L (Z.min (snd_wnd p) (cwnd p)) y \/ held_back p'
    end.
Proof.
  intros S W C Hst Hip Hr Hl Hin Hb Ha Hla.
  destruct (tcp_output_spec s tcp_ticks L NX [] (x :: ws) false p n S W C Hst Hip)
    as (p' & n' & err & NX' & us' & sent & failed & rest & packets & acks & E & O & G).
  destruct (first_on_wire _ _ _ _ _ _ _ _ _ _ _ _ _ _ _ O (G outif local eq_refl Hr Hl) Hin Hb Ha Hla)
    as (-> & -> & (sent' & e & -> & Hc & He) & Hrest).
  destruct O as [O1 _ O3 O4 _ O6 _ _ _ _ _ _]. cbn [app map] in O1, O3.
  exists p', n', e, sent', rest. split; [done|]. split; [done|]. split; [done|].
  split; [rewrite O6, drop_app_length; apply elem_of_app; by left|]. split; [|split; [apply (sd_unsent _ _ _ _ _ O3)|done]].
  rewrite (sd_unacked _ _ _ _ _ O3), O4. by rewrite app_nil_r.
Qed.

(** C7: A segment that may go does go: if nothing is in flight, there is a route, the
    first unsent segment fits both windows and nobody else holds its pbuf, then
    [tcp_output] sends it; and if IP takes what it is given, the call ends with
    [ERR_OK] and every segment in flight up to the first that does not fit or
    that Nagle's algorithm holds back. *)
Theorem tcp_output_progress `{ip6 : ip6_layer} s tcp_ticks L NX x ws p n outif local :
  sending L NX [] (x :: ws) p -> Forall (fun x => seg_wf x.2) (x :: ws) -> can_send p -> state p <> LISTEN ->
  (forall outif a, outif ∈ netif_list s -> ip_netif_get_local_ip outif (remote_ip p) s = Some a -> ip_ok a) ->
  tcp_route s (Some p) (local_ip p) (remote_ip p) = Some outif ->
  ip_netif_get_local_ip outif (remote_ip p) s = Some local ->
  in_window L (Z.min (snd_wnd p) (cwnd p)) x -> tcp_output_segment_busy x.2 = false ->
  Forall (eq (Some ERR_OK)) (answers n) -> (length (x :: ws) <= length (answers n))%nat ->
  exists p' n' e sent rest,
    tcp_output s tcp_ticks false p n = Some (p', n', ERR_OK) /\ x :: ws = x :: sent ++ rest /\
    carries p' (as_sent p' x.2) e /\ e ∈ drop (length (trace n)) (trace n') /\
    unacked p' ≡ₚ (map (in_flight p') (x :: sent)).*2 /\ unsent p' = rest.*2 /\
    match rest with
    | [] => True
    | y :: _ => ~ in_window L (Z.min (snd_wnd p) (cwnd p)) y \/ held_back p'
    end.
Proof. apply tcp_output_first. Qed.

(** ** The invariant of the send queues *)

Lemma placed_as_sent_end p x : seg_end (placed_as_sent p x) = seg_end x.
Proof. unfold seg_end. cbn [placed_as_sent fst snd]. by rewrite as_sent_tcplen. Qed.

Lemma tail_ok_as_sent LB p p' x :
  tail_ok LB p x -> unsent_oversize p' = unsent_oversize p -> mss p' = mss p -> snd_wnd_max p' = snd_wnd_max p ->
  tail_ok LB p' x /\ tail_ok LB p' (placed_as_sent p' x).
Proof.
  intros [[Tw To Tr Tm Trom] Te Tf Ts] Eo Em Ew.
  assert (Emss : mss_local p' = mss_local p) by (unfold mss_local; by rewrite Em, Ew).
  split.
  - split; try done. split; try done; [by rewrite Eo|by rewrite Emss].
  - assert (Hg : forall g, Z.land TCP_ACK g = 0 ->
        flagset (seg_flags (as_sent p' x.2)) g = flagset (seg_flags x.2) g).
    { intros g Hg. unfold as_sent. destruct (negb _); [|done]. by apply flagset_ack. }
    pose proof (as_sent_same p' x.2) as (_ & E1 & _).
    assert (seg_snd (as_sent p' x.2) = seg_snd x.2) as Es by (unfold as_sent; by destruct (negb _)).
    split; cbn [placed_as_sent fst snd].
    + split; rewrite ?Eo, ?Emss; unfold seg_optlen, seg_parts in *; rewrite ?Es, ?E1; try done.
      by apply as_sent_wf.
    + by rewrite placed_as_sent_end.
    + unfold seg_fin in *. by rewrite Hg.
    + unfold seg_syn in *. rewrite Hg, Es, E1 by done. done.
Qed.

Lemma output_writable L NX LB us ws p n p' n' NX' us' sent failed rest packets acks :
  writable L NX LB us ws p -> output_ok L us ws p n p' n' NX' us' sent failed rest packets acks ->
  writable L NX' LB us' (map (placed_as_sent p') failed ++ rest) p'.
Proof.
  intros [S Hl He Hr Hs Ht Hm Hw Hpo] [O1 O2 O3 O4 O5 O6 O7 O8 O9 Ocs Oc Oo].
  assert (Hc : mss p' = mss p /\ snd_wnd_max p' = snd_wnd_max p /\ local_port p' = local_port p /\
      remote_port p' = remote_port p /\ snd_lbb p' = snd_lbb p /\ snd_buf p' = snd_buf p)
    by (unfold conn in Oc; cbn in Oc; split_and!; congruence).
  clear Oc. destruct Hc as (Em & Ew & El1 & Er1 & Elb & Eb).
  assert (Hall : forall P : placed -> Prop, (forall x, P x -> P (in_flight p' x) /\ P (placed_as_sent p' x)) ->
            Forall P (us ++ ws) -> Forall P (us' ++ map (placed_as_sent p') failed ++ rest)).
  { intros P HP. rewrite O1, O4, !Forall_app, !Forall_map. intros (Hu & Hs1 & Hs2 & Hs3).
    split_and!; try done; (eapply Forall_impl; [eassumption|]); intros x Hx; by destruct (HP x Hx). }
  split; try done; try congruence.
  - apply (Hall (fun x => seg_end x <= LB)); [|done]. intros x Hx. cbn beta in *.
    by rewrite in_flight_end, placed_as_sent_end.
  - apply (Hall (fun x => seg_wf x.2)); [|done]. intros x Hx. split.
    + cbn. by apply set_oversize_left_wf, as_sent_wf.
    + by apply as_sent_wf.
  - destruct ws as [|x ws]; [symmetry in O1; apply app_eq_nil in O1 as [_ [-> ->]%app_eq_nil]; cbn in *; congruence|].
    destruct rest as [|y rest].
    + rewrite app_nil_r in *. destruct failed as [|z failed]; [done|]. destruct failed; [|cbn in *; lia].
      rewrite O1, last_snoc in Ht. cbn. by apply (tail_ok_as_sent LB p p' z).
    + assert (unsent_oversize p' = unsent_oversize p) as Eo by (destruct failed; exact Oo).
      rewrite O1, app_assoc, last_app in Ht. rewrite last_app.
      destruct (list.last (y :: rest)) as [z|] eqn:El; [|by apply last_None in El].
      by apply (tail_ok_as_sent LB p p' z).
Qed.

(** ** Concrete runs *)

Definition example_hi : tcp_seg :=
  TcpSeg 5000 TCP_PSH 2 (Some [72; 105]) 1 (SndSeg 1234 80 TF_SEG_DATA_CHECKSUMMED [Part 4096 2 false] 0 26952 false).

Definition example_output_pcb : tcp_pcb :=
  idle_pcb <| unsent := [example_hi] |> <| snd_buf := TCP_SND_BUF - 2 |> <| snd_queuelen := 1 |>
           <| snd_lbb := 5002 |> <| cwnd := 4380 |> <| snd_wnd := 5000 |>.

Definition example_answers : net := roomy <| answers := [Some ERR_OK] |>.

Lemma example_hi_wf : seg_wf example_hi.
Proof.
  assert (bytes_ok [72; 105]) by (repeat (apply List.Forall_cons; [unfold is_u8; lia|]); apply List.Forall_nil).
  split; try done; try (cbn; lia); try (by vm_compute).
  apply List.Forall_cons; [cbn; lia|apply List.Forall_nil].
Qed.

Lemma example_output_sending : sending 5000 5000 [] [(5000, example_hi)] example_output_pcb.
Proof.
  split; try done; try (by constructor); try (cbn; lia).
  - by repeat constructor.
  - intros x y Hx. by apply not_elem_of_nil in Hx.
Qed.

Lemma example_output_can_send : can_send example_output_pcb.
Proof. split; try (cbn; lia); split; try done; repeat constructor; lia. Qed.

Lemma example_output_local outif a :
  outif ∈ netif_list example_net ->
  ip_netif_get_local_ip (H := no_ip6) outif (remote_ip example_output_pcb) example_net = Some a -> ip_ok a.
Proof. intros ->%list_elem_of_singleton. cbn. intros [= <-]. split; [done|]. repeat (apply List.Forall_cons; [vm_compute; by split|]). apply List.Forall_nil. Qed.

Lemma tcp_output_sends_witness :
  exists p' n' err NX' us' sent failed rest packets acks,
    tcp_output (ip6 := no_ip6) example_net 7 false example_output_pcb example_answers = Some (p', n', err) /\
    output_ok 5000 [] [(5000, example_hi)] example_output_pcb example_answers p' n' NX' us' sent failed rest packets acks.
Proof.
  apply (tcp_output_sends (ip6 := no_ip6)) with (NX := 5000).
  - apply example_output_sending.
  - apply List.Forall_cons; [apply example_hi_wf|apply List.Forall_nil].
  - apply example_output_can_send.
  - done.
  - apply example_output_local.
Defined.

Lemma tcp_output_progress_witness :
  exists p' n' e sent rest,
    tcp_output (ip6 := no_ip6) example_net 7 false example_output_pcb example_answers = Some (p', n', ERR_OK) /\
    [(5000, example_hi)] = (5000, example_hi) :: sent ++ rest /\
    carries p' (as_sent p' example_hi) e /\ e ∈ drop (length (trace example_answers)) (trace n') /\
    unacked p' ≡ₚ (map (in_flight p') ((5000, example_hi) :: sent)).*2 /\ unsent p' = rest.*2 /\
    match rest with
    | [] => True
    | y :: _ => ~ in_window 5000 4380 y \/ held_back p'
    end.
Proof.
  apply (tcp_output_progress (ip6 := no_ip6) example_net 7 5000 5000 (5000, example_hi) []
           example_output_pcb example_answers example_netif (nif_ip_addr example_netif)).
  - apply example_output_sending.
  - apply List.Forall_cons; [apply example_hi_wf|apply List.Forall_nil].
  - apply example_output_can_send.
  - done.
  - apply example_output_local.
  - done.
  - done.
  - unfold in_window. cbn. lia.
  - done.
  - by repeat constructor.
  - cbn. lia.
Defined.

(** Two segments in flight: [ab] and [cd]. *)
Definition example_flight (seqno : Z) (d : list Z) (a c : Z) : tcp_seg :=
  TcpSeg seqno (Z.lor TCP_PSH TCP_ACK) 2 (Some d) 1 (SndSeg 1234 80 TF_SEG_DATA_CHECKSUMMED [Part a 2 false] 0 c false).

Definition example_lossy_pcb : tcp_pcb :=
  idle_pcb <| unacked := [example_flight 5000 [97; 98] 4096 25185; example_flight 5002 [99; 100] 8192 25699] |>
           <| snd_buf := TCP_SND_BUF - 4 |> <| snd_queuelen := 2 |> <| snd_nxt := 5004 |>
           <| snd_lbb := 5004 |> <| cwnd := 4380 |> <| snd_wnd := 5000 |> <| snd_wnd_max := 5000 |>.

Lemma example_lossy_sending :
  sending 5000 5004 [(5000, example_flight 5000 [97; 98] 4096 25185); (5002, example_flight 5002 [99; 100] 8192 25699)]
    [] example_lossy_pcb.
Proof.
  split; try done; try (by constructor); try (cbn; lia).
  - apply Forall_cons; split; [|apply Forall_cons; split; [|done]]; by (vm_compute; split_and!).
  - repeat constructor. by vm_compute.
  - intros x y _ Hy. by apply not_elem_of_nil in Hy.
Qed.

(** A fast retransmission puts the first segment in flight back into the unsent
    queue while the ones behind it stay in flight.  If IP refuses it then (or the
    window does not let it go), the next [tcp_write] takes it for the end of the
    stream and chains the new octets to it: they will be sent with the sequence
    numbers of octets that are in flight, and nothing will ever be sent for the
    numbers they were counted under. *)
Theorem tcp_write_after_fast_retransmit :
  sending 5000 5004 [(5000, example_flight 5000 [97; 98] 4096 25185); (5002, example_flight 5002 [99; 100] 8192 25699)]
    [] example_lossy_pcb /\
  exists p1 n1 p2 n2 s,
    tcp_output (ip6 := no_ip6) example_net 7 false (tcp_rexmit_fast example_lossy_pcb)
      (roomy <| answers := [Some ERR_MEM] |>) = Some (p1, n1, ERR_MEM) /\
    tcp_write p1 20000 [101; 102] TCP_WRITE_FLAG_COPY n1 = Some (p2, n2, ERR_OK) /\
    unsent p2 = [s] /\ seg_seqno s = 5000 /\ seg_data s = [97; 98; 101; 102] /\
    map (fun t => (seg_seqno t, seg_data t)) (unacked p2) = [(5002, [99; 100])] /\ snd_lbb p2 = 5006.
Proof.
  split.
  - apply example_lossy_sending.
  - destruct (tcp_output (ip6 := no_ip6) example_net 7 false (tcp_rexmit_fast example_lossy_pcb)
      (roomy <| answers := [Some ERR_MEM] |>)) as [[[p1 n1] e1]|] eqn:E1; [|by vm_compute in E1].
    exists p1, n1. vm_compute in E1. injection E1 as <- <- <-.
    eexists _, _, _. split; [done|]. split; [by vm_compute|]. by split_and!.
Qed.
