(* ===== verification/TcpSplit.v ===== *)
(** * [tcp_split_unsent_seg]

    The persist timer cuts the head of the unsent queue to what a small window
    takes.  The two halves carry the octets of the whole, each with its checksum,
    and the accounts of the pcb hold; but flags that belong to the end stay on
    the head as well. *)

From Stdlib Require Import Sorting.Sorted.
From stdpp Require Import sorting.
From S2P Require Import Prelude Err Def IpAddr NetifDefs Chksum Pbuf IpHdr Net NetExamples TcpDefs TcpIn TcpExamples TcpReassembly TcpAck TcpOut TcpChksum TcpWrite TcpWriteSpec TcpOutSpec.

(** ** Chains that are cut *)

Lemma parts_realloc_spec parts : forall n,
  Forall (fun q => 0 <= pt_len q) parts -> 0 < n <= parts_len parts ->
  parts_len (parts_realloc n parts) = n /\ Forall (fun q => 0 <= pt_len q) (parts_realloc n parts) /\
  parts_realloc n parts <> [] /\ (length (parts_realloc n parts) <= length parts)%nat.
Proof.
  induction parts as [|q parts IH]; intros n Hp Hn; [rewrite sum_with_nil in Hn; lia|].
  apply Forall_cons in Hp as [Hq Hp]. rewrite sum_with_cons in Hn. cbn [parts_realloc].
  destruct (Z.ltb_spec (pt_len q) n).
  - destruct (IH (n - pt_len q) Hp ltac:(lia)) as (I1 & I2 & I3 & I4). rewrite sum_with_cons. split_and!; try done; try lia.
    + by constructor.
    + cbn. lia.
  - rewrite sum_with_cons, sum_with_nil. cbn. split_and!; try done; try lia. constructor; [cbn; lia|done].
Qed.

Lemma chksum_parts_spec parts : forall d d0 c,
  Forall (fun q => 0 <= pt_len q) parts -> parts_len parts = Z.of_nat (length d) ->
  bytes_ok d0 -> bytes_ok d -> Z.of_nat (length d) <= 65000 -> chksum_of d0 c ->
  chksum_of (d0 ++ d) (chksum_parts parts d c).
Proof.
  induction parts as [|q parts IH]; intros d d0 c Hp Hl H0 Hd H6 Hc.
  { rewrite sum_with_nil in Hl. destruct d; [|cbn in Hl; lia]. by rewrite app_nil_r. }
  apply Forall_cons in Hp as [Hq Hp]. rewrite sum_with_cons in Hl. pose proof (sum_with_nonneg _ _ Hp).
  cbn [chksum_parts]. set (e := take (Z.to_nat (pt_len q)) d).
  assert (He : bytes_ok e) by by apply bytes_ok_take.
  assert (Hel : Z.of_nat (length e) = pt_len q) by (unfold e; rewrite length_take; lia).
  rewrite not_inet_chksum by (done || lia).
  rewrite <- (take_drop (Z.to_nat (pt_len q)) d) at 1. fold e. rewrite app_assoc.
  apply IH; try done.
  - rewrite length_drop. lia.
  - by apply Forall_app.
  - by apply Forall_drop.
  - rewrite length_drop. lia.
  - rewrite <- Hel. by apply chksum_of_app.
Qed.

(** ** The two halves *)

Lemma lor_land_absorb a m : Z.lor a (Z.land a m) = a.
Proof. apply Z.bits_inj'. intros k _. rewrite Z.lor_spec, Z.land_spec. by destruct (Z.testbit a k), (Z.testbit m k). Qed.

(** The head: its first octets, and all its flags. *)
Record head_of (split : Z) (s h : tcp_seg) : Prop := {
  hd_wf : seg_wf h;
  hd_data : seg_data h = take (Z.to_nat split) (seg_data s);
  hd_len : seg_len h = split;
  hd_seqno : seg_seqno h = seg_seqno s;
  hd_flags : seg_flags h = seg_flags s;
  hd_oversize : ss_oversize_left (seg_snd h) = 0;
  hd_clen : seg_clen h <= seg_clen s
}.

Lemma split_head_ok split s : seg_wf s -> 0 < split < seg_len s -> head_of split s (split_head split s).
Proof.
  intros W Hs. pose proof (wf_len _ W) as Hl. pose proof (wf_u16 _ W).
  destruct (parts_realloc_spec (seg_parts s) split (wf_parts_pos _ W) ltac:(rewrite (wf_parts _ W); lia))
    as (P1 & P2 & P3 & P4).
  set (d := take (Z.to_nat split) (seg_data s)). assert (Hd : bytes_ok d) by (apply bytes_ok_take, W).
  assert (Hdl : Z.of_nat (length d) = split) by (unfold d; rewrite length_take; lia).
  pose proof (chksum_parts_spec (parts_realloc split (seg_parts s)) d [] (0, false) P2 ltac:(lia)
    ltac:(constructor) Hd ltac:(lia) chksum_of_nil) as Hc. cbn [app] in Hc.
  unfold split_head. cbv zeta. change (p_realloc split (seg_data s)) with d.
  destruct (chksum_parts _ d _) as [c sw].
  assert (Hfl : Z.lor (seg_flags s) (Z.land (seg_flags s) (Z.lnot (Z.lor TCP_PSH TCP_FIN))) = seg_flags s)
    by apply lor_land_absorb.
  set (h := _ <| seg_snd := _ |>).
  assert (Eh : seg_data h = d /\ seg_len h = split /\ seg_seqno h = seg_seqno s /\ seg_flags h = seg_flags s /\
    seg_parts h = parts_realloc split (seg_parts s) /\ ss_flags (seg_snd h) = ss_flags (seg_snd s) /\
    ss_chksum (seg_snd h) = c /\ ss_chksum_swapped (seg_snd h) = sw /\ ss_oversize_left (seg_snd h) = 0 /\
    seg_p h = Some d /\ ss_src (seg_snd h) = ss_src (seg_snd s) /\ ss_dest (seg_snd h) = ss_dest (seg_snd s)).
  { unfold h. cbn. by rewrite Hfl. }
  clearbody h. destruct Eh as (E1 & E2 & E3 & E4 & E5 & E6 & E7 & E8 & E9 & E10 & E11 & E12).
  split; try done.
  - split; rewrite ?E1, ?E2, ?E3, ?E4, ?E5, ?E6, ?E7, ?E8, ?E11, ?E12; try done; try apply W; try lia.
    intros _. apply (wf_chksummed _ W). intros E0. rewrite E0 in Hl. cbn in Hl. lia.
  - unfold seg_clen. change (ss_parts (seg_snd h)) with (seg_parts h). rewrite E5.
    change (ss_parts (seg_snd s)) with (seg_parts s). lia.
Qed.

Lemma remainder_flagset f g : Z.land (Z.land 63 9) g = Z.land 9 g -> 
  flagset (Z.land (remainder_flags f) 63) g = flagset f (Z.land 9 g).
Proof.
  intros Hg. unfold flagset, remainder_flags. rewrite <- Z.land_lor_distr_r, <- !Z.land_assoc.
  change (Z.lor TCP_PSH TCP_FIN) with 9. f_equal. f_equal. f_equal.
  by rewrite (Z.land_assoc 9), (Z.land_comm 9 63).
Qed.

Lemma flagset_none f : flagset f 0 = false.
Proof. unfold flagset. by rewrite Z.land_0_r. Qed.

(** The remainder: the other octets, with PSH and FIN. *)
Record rest_of (split : Z) (s r : tcp_seg) : Prop := {
  rs_wf : seg_wf r;
  rs_data : seg_data r = drop (Z.to_nat split) (seg_data s);
  rs_len : seg_len r = seg_len s - split;
  rs_seqno : seg_seqno r = u32 (seg_seqno s + split);
  rs_fin : seg_fin r = seg_fin s;
  rs_syn : seg_syn r = false;
  rs_oversize : ss_oversize_left (seg_snd r) = 0;
  rs_clen : seg_clen r = 1
}.

Section split.
Context (p : tcp_pcb) (split : Z) (s : tcp_seg) (rest : list tcp_seg) (n : net).
Context (W : seg_wf s) (Hs : 0 < split < seg_len s) (Hm : split <= mss p) (Hun : unsent p = s :: rest).
Context (Hports : is_u16 (local_port p) /\ is_u16 (remote_port p)).

(** The pcb with the head split into [h] and [r]. *)
Definition split_pcb (h r : tcp_seg) : tcp_pcb :=
  let p := p <| snd_queuelen := u16 (snd_queuelen p - seg_clen s + seg_clen h + seg_clen r) |>
             <| unsent := h :: r :: rest |> in
  match rest with [] => p <| unsent_oversize := 0 |> | _ => p end.

Lemma split_spec :
  match pbuf_alloc_ram PBUF_TRANSPORT (u16 (seg_len s - split + LWIP_TCP_OPT_LENGTH
          (Z.land (ss_flags (seg_snd s)) (Z.lnot TF_SEG_DATA_CHECKSUMMED)))) n with
  | (n', None) => tcp_split_unsent_seg p split n = Some (p, n', ERR_MEM)
  | (n', Some a) =>
      match next_seg n' with
      | (_, false) => tcp_split_unsent_seg p split n = None
      | (n2, true) => exists h r, head_of split s h /\ rest_of split s r /\
                        tcp_split_unsent_seg p split n = Some (split_pcb h r, n2, ERR_OK)
      end
  end.
Proof.
  pose proof (wf_len _ W) as Hl. pose proof (wf_u16 _ W).
  unfold tcp_split_unsent_seg. rewrite Hun.
  destruct (Z.eqb_spec split 0); [lia|]. destruct (Z.leb_spec (seg_len s) split); [lia|].
  destruct (Z.leb_spec split (mss p)); [|lia]. cbn [negb]. cbv zeta.
  set (optflags := Z.land _ (Z.lnot TF_SEG_DATA_CHECKSUMMED)). set (optlen := LWIP_TCP_OPT_LENGTH optflags).
  destruct (pbuf_alloc_ram _ _ n) as [n' [a|]]; [|done].
  set (d := take (Z.to_nat (seg_len s - split)) (drop (Z.to_nat split) (seg_data s))).
  assert (Ed : d = drop (Z.to_nat split) (seg_data s)) by (apply take_ge; rewrite length_drop; lia).
  assert (Hd : bytes_ok d) by (rewrite Ed; apply Forall_drop, W).
  assert (Hdl : Z.of_nat (length d) = seg_len s - split) by (rewrite Ed, length_drop; lia).
  assert (Epl : p_tot_len d = seg_len s - split) by done. rewrite Epl, Z.eqb_refl. cbn [negb].
  unfold tcp_create_segment. fold optlen. cbv zeta. destruct (next_seg n') as [n2 [|]]; [|done].
  pose proof (opt_length_bounds optflags) as Hob. fold optlen in Hob.
  assert (Et : u16 (optlen + (seg_len s - split)) = optlen + (seg_len s - split))
    by (apply u16_id; unfold is_u16; lia).
  rewrite Epl, Et. destruct (Z.leb_spec optlen (optlen + (seg_len s - split))); [|lia].
  assert (flagset optflags TF_SEG_DATA_CHECKSUMMED = false) as ->.
  { unfold flagset, optflags. apply negb_false_iff, Z.eqb_eq.
    rewrite <- Z.land_assoc. change (Z.land (Z.lnot TF_SEG_DATA_CHECKSUMMED) TF_SEG_DATA_CHECKSUMMED) with 0.
    apply Z.land_0_r. }
  cbn [negb mbind option_bind]. rewrite Z.add_simpl_l. rewrite (u16_id (seg_len s - split)) by (unfold is_u16; lia).
  rewrite not_inet_chksum by (done || lia).
  pose proof (chksum_of_app [] d (0, false) ltac:(constructor) Hd chksum_of_nil) as Hc. cbn [app fst snd] in Hc.
  rewrite Hdl in Hc. set (c := tcp_seg_add_chksum _ _ _ _) in *.
  exists (split_head split s). set (r := set_chksum c _). exists r.
  split; [by apply split_head_ok|]. split; [|unfold split_pcb; by destruct rest].
  split; try done.
  - split; try done; cbn; try lia.
    + rewrite sum_with_cons, sum_with_nil. cbn. lia.
    + constructor; [cbn; lia|done].
    + by rewrite <- surjective_pairing.
    + intros _. by apply flagset_lor_r.
    + apply u32_bound.
    + change 63 with (Z.ones 6). rewrite Z.land_ones by lia. by apply Z.mod_pos_bound.
    + rewrite remainder_flagset by done. apply flagset_none.
  - unfold seg_fin. cbn. by rewrite remainder_flagset.
  - unfold seg_syn. cbn. rewrite remainder_flagset by done. apply flagset_none.
Qed.

End split.

(** ** The send queues *)

(** With memory for a pbuf and a segment the split succeeds. *)
Lemma split_succeeds p split s rest n :
  seg_wf s -> 0 < split < seg_len s -> split <= mss p -> unsent p = s :: rest ->
  is_u16 (local_port p) /\ is_u16 (remote_port p) -> plenty 2 n ->
  exists h r n', tcp_split_unsent_seg p split n = Some (split_pcb p s rest h r, n', ERR_OK) /\ mem_only n n' /\
    head_of split s h /\ rest_of split s r.
Proof.
  intros W Hs Hm Hun Hports Hpl. pose proof (split_spec p split s rest n W Hs Hm Hun Hports) as Hsp.
  set (optlen := LWIP_TCP_OPT_LENGTH _) in Hsp. pose proof (wf_u16 _ W).
  assert (Ho : 0 <= optlen <= 4) by apply opt_length_bounds. clearbody optlen.
  rewrite (u16_id (seg_len s - split + optlen)) in Hsp by (unfold is_u16; lia).
  destruct (pbuf_alloc_ram _ _ n) as [n1 o] eqn:E1.
  destruct (plenty_ram 1 _ _ _ _ _ E1) as [[a ->] Hpl1]; [unfold PBUF_TRANSPORT; lia|lia|unfold PBUF_TRANSPORT; lia|done|].
  destruct (next_seg n1) as [n2 b] eqn:E2. destruct (plenty_seg 0 _ _ _ E2 Hpl1) as [-> _].
  destruct Hsp as (h & r & Hh & Hr & E). exists h, r, n2. split; [done|]. split; [|done].
  eapply mem_only_trans; [by eapply pbuf_alloc_ram_mem|by eapply next_seg_mem].
Qed.

(** Neither half holds SYN or FIN: its length in sequence numbers is that of its data. *)
Lemma halves_tcplen split s h r : seg_syn s = false -> seg_fin s = false -> head_of split s h -> rest_of split s r ->
  TCP_TCPLEN s = seg_len s /\ TCP_TCPLEN h = split /\ TCP_TCPLEN r = seg_len s - split.
Proof.
  intros Hsyn Hfin Hh Hr.
  assert (Htc : forall t, seg_syn t = false -> seg_fin t = false -> TCP_TCPLEN t = seg_len t).
  { intros t Hy Hf. unfold TCP_TCPLEN. rewrite flagset_3. unfold seg_syn, seg_fin in *. rewrite Hy, Hf. cbn. lia. }
  assert (Hyh : seg_syn h = false /\ seg_fin h = false)
    by (unfold seg_syn, seg_fin in *; by rewrite (hd_flags _ _ _ Hh)).
  split; [by apply Htc|]. split; [rewrite Htc, (hd_len _ _ _ Hh); tauto|].
  rewrite Htc, (rs_len _ _ _ Hr); [done|apply Hr|by rewrite (rs_fin _ _ _ Hr)].
Qed.

(** The halves stand where the segment stood. *)
Lemma halves_placed L NX us ws P s p split h r :
  sending L NX us ((P, s) :: ws) p -> seg_syn s = false -> seg_fin s = false -> L <= P -> 0 < split < seg_len s ->
  head_of split s h -> rest_of split s r ->
  Forall (placed_ok L) ((P, h) :: (P + split, r) :: ws) /\
  StronglySorted before ((P, h) :: (P + split, r) :: ws) /\
  (forall x y, x ∈ us -> y ∈ (P, h) :: (P + split, r) :: ws -> apart x y).
Proof.
  intros S Hsyn Hfin HLP Hs Hh Hr. destruct (halves_tcplen _ _ _ _ Hsyn Hfin Hh Hr) as (Es & Eh & Er).
  pose proof (sd_ws _ _ _ _ _ S) as H7. pose proof (sd_ws_sorted _ _ _ _ _ S) as H9. pose proof (sd_apart _ _ _ _ _ S) as H10.
  apply Forall_cons in H7 as [(Hsq & Ht & Hl0 & Hc0 & HLe) H7].
  apply StronglySorted_inv in H9 as [H9' Hb]. cbn [fst snd] in *.
  pose proof (seg_clen_pos _ (hd_wf _ _ _ Hh)). pose proof (rs_clen _ _ _ Hr).
  pose proof (hd_len _ _ _ Hh). pose proof (rs_len _ _ _ Hr).
  split; [|split].
  - apply Forall_cons. split; [|apply Forall_cons; split; [|done]].
    + unfold placed_ok, seg_end in *. cbn [fst snd] in *. rewrite (hd_seqno _ _ _ Hh). split; [done|]. lia.
    + unfold placed_ok, seg_end in *. cbn [fst snd] in *. rewrite (rs_seqno _ _ _ Hr), Hsq. split; [clear; word_lia|]. lia.
  - assert (Hend : seg_end (P + split, r) = seg_end (P, s)) by (unfold seg_end; cbn [fst snd]; lia).
    constructor; [constructor; [done|]|].
    + eapply Forall_impl; [exact Hb|]. intros x. unfold before. by rewrite Hend.
    + constructor; [unfold before, seg_end; cbn [fst snd]; lia|].
      eapply Forall_impl; [exact Hb|]. intros x. unfold before, seg_end in *. cbn [fst snd] in *. lia.
  - intros x y Hx Hy. rewrite !elem_of_cons in Hy.
    assert (Hxs := H10 x (P, s) Hx ltac:(by left)). unfold apart, before, seg_end in Hxs |- *.
    destruct Hy as [->|[->|Hy]]; cbn [fst snd] in *; [lia|lia|].
    apply (H10 x y Hx). by right.
Qed.

(** The accounts with the halves in the place of the segment. *)
Lemma split_accounts L NX us ws P s p split h r :
  sending L NX us ((P, s) :: ws) p -> snd_queuelen p < 65535 -> head_of split s h -> rest_of split s r ->
  let p' := split_pcb p s ws.*2 h r in let ws' := (P, h) :: (P + split, r) :: ws in
  snd_queuelen p' = sum_clen us + sum_clen ws' /\ is_u16 (snd_queuelen p') /\
  snd_buf p' + sum_len us + sum_len ws' = TCP_SND_BUF.
Proof.
  intros S Hq Hh Hr p' ws'. pose proof S as [H1 H2 H3 H4 H5 H6 H7 H8 H9 H10 H11 H12 H13 H14].
  pose proof (hd_clen _ _ _ Hh) as Hch. pose proof (rs_clen _ _ _ Hr) as Hcr.
  pose proof (hd_len _ _ _ Hh) as Hlh. pose proof (rs_len _ _ _ Hr) as Hlr.
  pose proof (seg_clen_pos _ (hd_wf _ _ _ Hh)).
  assert (Hsum : snd_queuelen p = sum_clen us + (seg_clen s + sum_clen ws)) by exact H11.
  assert (Hsl : snd_buf p + sum_len us + (seg_len s + sum_len ws) = TCP_SND_BUF) by exact H13.
  apply Forall_cons in H7 as [_ H7]. destruct (sum_nonneg L us H6), (sum_nonneg L ws H7).
  assert (Eq : u16 (snd_queuelen p - seg_clen s + seg_clen h + seg_clen r) =
               snd_queuelen p - seg_clen s + seg_clen h + seg_clen r) by (apply u16_id; unfold is_u16 in *; lia).
  assert (Ep : snd_queuelen p' = snd_queuelen p - seg_clen s + seg_clen h + seg_clen r /\ snd_buf p' = snd_buf p).
  { rewrite <- Eq. unfold p', split_pcb. by destruct ws. }
  destruct Ep as [-> ->]. unfold ws'.
  change (sum_clen ((P, h) :: (P + split, r) :: ws)) with (seg_clen h + (seg_clen r + sum_clen ws)).
  change (sum_len ((P, h) :: (P + split, r) :: ws)) with (seg_len h + (seg_len r + sum_len ws)).
  unfold is_u16 in *. lia.
Qed.

Lemma sending_split L NX us ws P s p split h r :
  sending L NX us ((P, s) :: ws) p -> seg_syn s = false -> seg_fin s = false -> L <= P -> 0 < split < seg_len s ->
  snd_queuelen p < 65535 -> head_of split s h -> rest_of split s r ->
  sending L NX us ((P, h) :: (P + split, r) :: ws) (split_pcb p s ws.*2 h r).
Proof.
  intros S Hsyn Hfin HLP Hs Hq Hh Hr. destruct (halves_placed _ _ _ _ _ _ _ _ _ _ S Hsyn Hfin HLP Hs Hh Hr) as (Q1 & Q2 & Q3).
  destruct (split_accounts _ _ _ _ _ _ _ _ _ _ S Hq Hh Hr) as (A1 & A2 & A3).
  pose proof S as [H1 H2 H3 H4 H5 H6 H7 H8 H9 H10 H11 H12 H13 H14].
  split; try done; unfold split_pcb; by destruct ws.
Qed.

(** C8: the head of the unsent queue is cut, at a length inside it and within the
    MSS, with memory for a pbuf and a segment: the two halves stand in its place,
    with the octets of the whole between them, one behind the other, each with the
    right checksum, length and sequence number; [snd_queuelen], [snd_buf] and the
    room behind the queue are right again.  When the head carried neither SYN nor
    FIN, the queues are again what every other operation expects (sending): each
    segment at its position, disjoint and in order.  When it carried the FIN, both
    halves carry it now, where only the second one should. *)
Theorem tcp_split_unsent_seg_splits L NX us P s ws p split n :
  sending L NX us ((P, s) :: ws) p -> seg_wf s ->
  is_u16 (local_port p) /\ is_u16 (remote_port p) -> L <= P -> snd_queuelen p < 65535 ->
  0 < split < seg_len s -> split <= mss p -> plenty 2 n ->
  exists p' n' h r, tcp_split_unsent_seg p split n = Some (p', n', ERR_OK) /\ mem_only n n' /\
    let ws' := (P, h) :: (P + split, r) :: ws in
    unsent p' = ws'.*2 /\ unacked p' = unacked p /\ head_of split s h /\ rest_of split s r /\
    snd_queuelen p' = sum_clen us + sum_clen ws' /\ snd_buf p' + sum_len us + sum_len ws' = TCP_SND_BUF /\
    unsent_oversize p' = match ws with [] => 0 | _ => unsent_oversize p end /\
    (seg_syn s = false -> seg_fin s = false -> sending L NX us ws' p') /\
    (seg_fin s = true -> seg_fin h = true /\ seg_fin r = true).
Proof.
  intros S W Hports HLP Hq Hs Hm Hpl. pose proof (sd_unsent _ _ _ _ _ S) as H2.
  cbn [fmap list_fmap snd] in H2.
  destruct (split_succeeds p split s ws.*2 n W Hs Hm H2 Hports Hpl) as (h & r & n' & E & Hmem & Hh & Hr).
  destruct (split_accounts _ _ _ _ _ _ _ _ _ _ S Hq Hh Hr) as (A1 & A2 & A3).
  exists (split_pcb p s ws.*2 h r), n', h, r. split; [done|]. split; [done|]. intros ws'.
  split_and!; try done; try (unfold split_pcb; by destruct ws).
  - intros. by apply sending_split.
  - intros Hf. split; [|by rewrite (rs_fin _ _ _ Hr)]. unfold seg_fin in *. by rewrite (hd_flags _ _ _ Hh).
Qed.

(** The flags that should move to the remainder also stay on the head
    ([TCPH_SET_FLAG] clears nothing): when the segment that carries the FIN is
    split, both halves carry it, and the peer takes the end of the first half for
    the end of the stream. *)
Theorem tcp_split_unsent_seg_two_fins s rest p split n :
  seg_wf s -> seg_fin s = true -> unsent p = s :: rest ->
  is_u16 (local_port p) /\ is_u16 (remote_port p) ->
  0 < split < seg_len s -> split <= mss p -> plenty 2 n ->
  exists p' n' h r, tcp_split_unsent_seg p split n = Some (p', n', ERR_OK) /\
    unsent p' = h :: r :: rest /\ seg_seqno h = seg_seqno s /\ seg_len h = split /\ seg_fin h = true /\
    seg_seqno r = u32 (seg_seqno s + split) /\ seg_len r = seg_len s - split /\ seg_fin r = true.
Proof.
  intros W Hf Hun Hports Hs Hm Hpl.
  destruct (split_succeeds p split s rest n W Hs Hm Hun Hports Hpl) as (h & r & n' & E & _ & Hh & Hr).
  exists (split_pcb p s rest h r), n', h, r. split; [done|]. split; [unfold split_pcb; by destruct rest|].
  destruct Hh, Hr. split_and!; try done; [|congruence]. unfold seg_fin in *. congruence.
Qed.

Lemma roomy_plenty : plenty 2 roomy.
Proof.
  unfold plenty. cbn. split_and!; [lia| |lia|]; repeat (apply List.Forall_cons; [done|]); apply List.Forall_nil.
Qed.

Lemma tcp_split_unsent_seg_splits_witness :
  exists p' n' h r, tcp_split_unsent_seg example_output_pcb 1 roomy = Some (p', n', ERR_OK) /\ mem_only roomy n' /\
    let ws' := [(5000, h); (5000 + 1, r)] in
    unsent p' = ws'.*2 /\ unacked p' = [] /\ head_of 1 example_hi h /\ rest_of 1 example_hi r /\
    snd_queuelen p' = sum_clen [] + sum_clen ws' /\ snd_buf p' + sum_len [] + sum_len ws' = TCP_SND_BUF /\
    unsent_oversize p' = 0 /\
    (seg_syn example_hi = false -> seg_fin example_hi = false -> sending 5000 5000 [] ws' p') /\
    (seg_fin example_hi = true -> seg_fin h = true /\ seg_fin r = true).
Proof.
  apply (tcp_split_unsent_seg_splits 5000 5000 [] 5000 example_hi [] example_output_pcb 1 roomy).
  - apply example_output_sending.
  - apply example_hi_wf.
  - done.
  - lia.
  - cbn. lia.
  - cbn. lia.
  - cbn. lia.
  - apply roomy_plenty.
Defined.

Lemma tcp_split_unsent_seg_two_fins_witness :
  let s := or_flags TCP_FIN example_hi in
  let p := example_output_pcb <| unsent := [s] |> in
  exists p' n' h r, tcp_split_unsent_seg p 1 roomy = Some (p', n', ERR_OK) /\
    unsent p' = [h; r] /\ seg_seqno h = seg_seqno s /\ seg_len h = 1 /\ seg_fin h = true /\
    seg_seqno r = u32 (seg_seqno s + 1) /\ seg_len r = seg_len s - 1 /\ seg_fin r = true.
Proof.
  apply tcp_split_unsent_seg_two_fins.
  - apply or_flags_wf; [by vm_compute|done|apply example_hi_wf].
  - done.
  - done.
  - done.
  - cbn. lia.
  - cbn. lia.
  - apply roomy_plenty.
Defined.
