(* ===== verification/TcpStream.v ===== *)
(** * From [tcp_write] to the receiver

    What one end writes, in any number of calls, with [tcp_output] in between
    whenever and however it ends, leaves as packets that each carry a piece of
    the stream at its position; whatever subset of them arrives at the other end,
    in whatever order and however often, the other end hands on a prefix of what
    was written. *)

From S2P Require Import Prelude Err Def IpAddr NetifDefs Chksum Pbuf IpHdr Net TcpDefs TcpIn TcpProcess NetExamples TcpExamples TcpReassembly TcpAck TcpOptions TcpOut TcpChksum TcpWrite TcpWriteSpec TcpOutSpec.

(** ** Calls of the application *)

Inductive call :=
| Write (addr : Z) (data : list Z) (apiflags : Z)
| Output (s : Net.net) (ticks : Z) (busy : bool).

Section calls.
Context `{ip6 : ip6_layer}.

(** Their effect, with the octets that were accepted. *)
Fixpoint calls (l : list call) (p : tcp_pcb) (n : net) : option (tcp_pcb * net * list Z) :=
  match l with
  | [] => Some (p, n, [])
  | Write addr data apiflags :: l =>
      '(p, n, err) ← tcp_write p addr data apiflags n;
      '(p, n, out) ← calls l p n;
      Some (p, n, (if err =? ERR_OK then data else []) ++ out)
  | Output s ticks busy :: l =>
      '(p, n, _) ← tcp_output s ticks busy p n;
      calls l p n
  end.

(** What the calls may rely on: octets, and local addresses that are addresses. *)
Definition call_ok (remote : ip_addr) (c : call) : Prop :=
  match c with
  | Write _ data _ => bytes_ok data
  | Output s _ _ => forall outif a, outif ∈ netif_list s -> ip_netif_get_local_ip outif remote s = Some a -> ip_ok a
  end.

(** [tcp_write] leaves the addresses and the receiving side alone. *)
Lemma tcp_write_frame p addr data apiflags n p' n' err :
  tcp_write p addr data apiflags n = Some (p', n', err) ->
  state p' = state p /\ local_ip p' = local_ip p /\ remote_ip p' = remote_ip p /\
  rcv_nxt p' = rcv_nxt p /\ rcv_ann_wnd p' = rcv_ann_wnd p.
Proof.
  unfold tcp_write. intros H.
  assert (Hck : forall p0 e, tcp_write_checks p (w_len data) = Some (p0, e) ->
    state p0 = state p /\ local_ip p0 = local_ip p /\ remote_ip p0 = remote_ip p /\
    rcv_nxt p0 = rcv_nxt p /\ rcv_ann_wnd p0 = rcv_ann_wnd p).
  { intros p0 e. unfold tcp_write_checks. repeat case_match; intros; simplify_eq; done. }
  destruct (tcp_write_checks p (w_len data)) as [[p0 e]|] eqn:E; [|done]. specialize (Hck p0 e eq_refl).
  cbn [mbind option_bind] in H. destruct (negb _); [by simplify_eq|].
  apply bind_Some in H as ([n1 r1] & _ & H). apply bind_Some in H as ([n2 r2] & _ & H).
  destruct r2 as [[w q]|]; [|case_match; by simplify_eq].
  apply bind_Some in H as (hd & _ & H). case_match; by simplify_eq.
Qed.

(** The packet [e] carries octets of [S] at [A], before [E] and not far behind
    [L], and neither SYN nor FIN. *)
Definition packet_at (S : Z -> Z) (L E A : Z) (e : out_event) : Prop :=
  L - 65536 <= A /\
  exists h d src dst ttl tos, e = Packet (encode_header h ++ d) src dst ttl tos /\ hdr_ok h /\
    h_seqno h = u32 A /\ stream_at S A d /\ Z.of_nat (length d) <= 65000 /\ A + Z.of_nat (length d) <= E /\
    flagset (h_flags h) TCP_SYN = false /\ flagset (h_flags h) TCP_FIN = false.

(** What the calls send: pieces of the stream, and acknowledgements. *)
Definition event_ok (S : Z -> Z) (L E : Z) (e : out_event) : Prop :=
  match e with
  | Packet _ _ _ _ _ => exists A, packet_at S L E A e
  | EmptyAck _ _ _ => True
  | _ => False
  end.

Lemma packet_at_later S L E E' A e : E <= E' -> packet_at S L E A e -> packet_at S L E' A e.
Proof.
  intros HE (HL & h & d & src & dst & tt & ts & H). split; [done|]. exists h, d, src, dst, tt, ts. destruct H as (? & ? & ? & ? & ? & ? & ?).
  split_and!; try done; try tauto. lia.
Qed.

Lemma event_ok_later S L E E' e : E <= E' -> event_ok S L E e -> event_ok S L E' e.
Proof. destruct e; try done. intros HE [A H]. exists A. by eapply packet_at_later. Qed.

Lemma carried_in_flight S p x : carried S x -> carried S (in_flight p x) /\ carried S (placed_as_sent p x).
Proof.
  intros (H & Hs & Hf). unfold carried, in_flight, placed_as_sent. cbn [fst snd].
  pose proof (as_sent_same p x.2) as (Ed & _).
  assert (Hg : forall g, Z.land TCP_ACK g = 0 -> flagset (seg_flags (as_sent p x.2)) g = flagset (seg_flags x.2) g).
  { intros g Hg. unfold as_sent. destruct (negb _); [|done]. by apply flagset_ack. }
  change (seg_data (set_oversize_left 0 (as_sent p x.2))) with (seg_data (as_sent p x.2)).
  unfold seg_syn, seg_fin in *. change (seg_flags (set_oversize_left 0 (as_sent p x.2))) with (seg_flags (as_sent p x.2)).
  rewrite Ed, !Hg by done. done.
Qed.

(** A packet that carries a segment of the stream. *)
Lemma carries_packet_at S L E p x e :
  placed_ok L x -> seg_wf x.2 -> carried S x -> seg_end x <= E -> carries p (as_sent p x.2) e -> event_ok S L E e.
Proof.
  intros (Hsq & ? & ? & ? & HLE & _) W Hc He (h & -> & Hh & _ & _ & Hs & _ & Hfl & _).
  destruct (carried_in_flight S p x Hc) as [_ (Hd & Hy & Hf)]. cbn [placed_as_sent fst snd] in *.
  pose proof (as_sent_same p x.2) as (Ed & El & Es & _). pose proof (wf_len _ W). pose proof (wf_u16 _ W).
  exists x.1. split; [unfold seg_end in HLE; lia|]. eexists h, _, _, _, _, _. split; [done|]. split; [done|].
  rewrite Hs, Hfl, Es, Ed in *. split_and!; try done; try lia.
  unfold seg_end, TCP_TCPLEN in He. destruct (flagset _ _); lia.
Qed.

(** The state between the calls. *)
Record streaming (L NX LB : Z) (us ws : list placed) (p : tcp_pcb) : Prop := {
  st_writable : writable L NX LB us ws p;
  st_can_send : can_send p;
  st_state : state p <> LISTEN
}.

(** What a list of calls does, whatever the memory, the windows, the routes and
    the answers of IP are. *)
Record streamed (L LB : Z) (us ws : list placed) (p : tcp_pcb) (n : net)
    (p' : tcp_pcb) (n' : net) (out : list Z) : Prop := {
  sm_state : exists NX' us' ws', streaming L NX' (LB + w_len out) us' ws' p' /\
    exists evs, trace n' = trace n ++ evs /\
    forall S, Forall (carried S) (us ++ ws) -> stream_at S LB out ->
      Forall (carried S) (us' ++ ws') /\ Forall (event_ok S L (LB + w_len out)) evs
}.

Lemma write_streamed L NX LB us ws p n addr data apiflags :
  streaming L NX LB us ws p -> bytes_ok data ->
  exists p' n' err, tcp_write p addr data apiflags n = Some (p', n', err) /\ remote_ip p' = remote_ip p /\
    streamed L LB us ws p n p' n' (if err =? ERR_OK then data else []).
Proof.
  intros [W C St] Hd.
  destruct (tcp_write_spec L NX LB us ws p addr data apiflags n W Hd) as (p' & n' & err & E & Hm & H & _).
  destruct (tcp_write_frame _ _ _ _ _ _ _ _ E) as (F1 & F2 & F3 & F4 & F5).
  assert (C' : can_send p') by (destruct C; split; congruence).
  assert (St' : state p' <> LISTEN) by congruence.
  exists p', n', err. split; [done|]. split; [done|]. split. destruct Hm as [Ht _].
  destruct H as [(-> & _ & (ws' & W' & _ & Hcar) & _)|[(-> & -> & _)|(-> & ->)]].
  - change (ERR_OK =? ERR_OK) with true. cbn iota. exists NX, us, ws'. split; [by split|].
    exists []. rewrite app_nil_r. split; [done|]. intros S HS Hout. split; [|done].
    apply Forall_app in HS as [HS1 HS2]. apply Forall_app. split; [done|]. by apply Hcar.
  - change (ERR_CONN =? ERR_OK) with false. cbn iota. exists NX, us, ws.
    replace (LB + w_len []) with LB by (unfold w_len; cbn; lia). split; [by split|].
    exists []. rewrite app_nil_r. split; [done|]. by intros.
  - change (ERR_MEM =? ERR_OK) with false. cbn iota. exists NX, us, ws.
    replace (LB + w_len []) with LB by (unfold w_len; cbn; lia). split; [split; [by apply writable_flags|done|done]|].
    exists []. rewrite app_nil_r. split; [done|]. by intros.
Qed.

Lemma output_streamed L NX LB us ws p n s ticks busy :
  streaming L NX LB us ws p -> (forall outif a, outif ∈ netif_list s -> ip_netif_get_local_ip outif (remote_ip p) s = Some a -> ip_ok a) ->
  exists p' n' err, tcp_output s ticks busy p n = Some (p', n', err) /\ remote_ip p' = remote_ip p /\
    streamed L LB us ws p n p' n' [].
Proof.
  intros [W C St] Hip. pose proof (wr_sending _ _ _ _ _ _ W) as S.
  pose proof (wr_segs _ _ _ _ _ _ W) as Hwf. pose proof (wr_end _ _ _ _ _ _ W) as Hend.
  apply Forall_app in Hwf as [_ Hwf], Hend as [_ Hend].
  destruct (tcp_output_spec s ticks L NX us ws busy p n S Hwf C St Hip)
    as (p' & n' & err & NX' & us' & sent & failed & rest & packets & acks & E & O & _).
  exists p', n', err. split; [done|]. pose proof (oo_conn _ _ _ _ _ _ _ _ _ _ _ _ _ _ O) as Hc.
  unfold conn in Hc. cbn in Hc. split; [congruence|]. split.
  assert (Ew : LB + w_len [] = LB) by (unfold w_len; cbn; lia). rewrite Ew.
  exists NX', us', (map (placed_as_sent p') failed ++ rest). split.
  { split; [by eapply output_writable|by apply O|congruence]. }
  destruct O as [O1 O2 O3 O4 O5 O6 O7 O8 O9 _ _ _]. exists (packets ++ acks). split; [done|].
  intros S0 HS _. rewrite O1 in HS, Hwf, Hend. pose proof (sd_ws _ _ _ _ _ S) as Hok. rewrite O1 in Hok.
  rewrite O4. rewrite !Forall_app, ?Forall_map in *. destruct HS as (HS1 & HS2 & HS3 & HS4).
  split.
  - split_and!; try done; (eapply Forall_impl; [eassumption|]); intros x Hx;
      by destruct (carried_in_flight S0 p' x Hx).
  - split.
    + assert (Hin : forall x, x ∈ idle (sent ++ failed) ->
          placed_ok L x /\ seg_wf x.2 /\ carried S0 x /\ seg_end x <= LB).
      { intros x Hx. unfold idle in Hx. apply list_elem_of_filter in Hx as [_ Hx].
        destruct Hok as (K1 & K2 & _), Hwf as (W1 & W2 & _), Hend as (E1 & E2 & _).
        rewrite Forall_forall in K1, K2, W1, W2, E1, E2, HS2, HS3.
        apply elem_of_app in Hx as [Hx|Hx]; split_and!; auto. }
      clear -O7 Hin. revert packets O7 Hin. induction (idle (sent ++ failed)) as [|x l IH]; intros evs H Hin.
      { inversion H. constructor. }
      inversion H as [|? e ? evs' Hc Hl]; subst. constructor.
      * destruct (Hin x ltac:(by left)) as (? & ? & ? & ?). by eapply carries_packet_at.
      * apply IH; [done|]. intros y Hy. apply Hin. by right.
    + destruct O8 as [->|(_ & -> & _)]; [done|]. by repeat constructor.
Qed.

Lemma w_len_app a b : w_len (a ++ b) = w_len a + w_len b.
Proof. unfold w_len. rewrite length_app. lia. Qed.

Lemma calls_streamed L l : forall NX LB us ws p n,
  streaming L NX LB us ws p -> Forall (call_ok (remote_ip p)) l ->
  exists p' n' out, calls l p n = Some (p', n', out) /\ streamed L LB us ws p n p' n' out.
Proof.
  induction l as [|c l IH]; intros NX LB us ws p n W Hl.
  { exists p, n, []. split; [done|]. split. exists NX, us, ws.
    replace (LB + w_len []) with LB by (unfold w_len; cbn; lia). split; [done|].
    exists []. rewrite app_nil_r. by split; [|intros]. }
  apply Forall_cons in Hl as [Hc Hl].
  assert (exists p1 n1 o1, remote_ip p1 = remote_ip p /\ streamed L LB us ws p n p1 n1 o1 /\
            calls (c :: l) p n = ('(p2, n2, o2) ← calls l p1 n1; Some (p2, n2, o1 ++ o2)))
    as (p1 & n1 & o1 & Hr & [H1] & ->).
  { destruct c as [addr data apiflags|s ticks busy].
    - destruct (write_streamed L NX LB us ws p n addr data apiflags W Hc) as (p1 & n1 & err & E & Hr & H).
      eexists p1, n1, _. split; [done|]. split; [exact H|]. cbn [calls]. by rewrite E.
    - destruct (output_streamed L NX LB us ws p n s ticks busy W Hc) as (p1 & n1 & err & E & Hr & H).
      exists p1, n1, []. split; [done|]. split; [done|]. cbn [calls]. rewrite E. cbn [mbind option_bind].
      by destruct (calls l p1 n1) as [[[? ?] ?]|]. }
  destruct H1 as (NX1 & us1 & ws1 & W1 & evs1 & Ht1 & Hs1). rewrite <- Hr in Hl.
  destruct (IH NX1 (LB + w_len o1) us1 ws1 p1 n1 W1 Hl) as (p2 & n2 & o2 & -> & [H2]).
  destruct H2 as (NX2 & us2 & ws2 & W2 & evs2 & Ht2 & Hs2). cbn [mbind option_bind].
  exists p2, n2, (o1 ++ o2). split; [done|]. split.
  exists NX2, us2, ws2. rewrite w_len_app, Z.add_assoc. split; [done|].
  exists (evs1 ++ evs2). rewrite Ht2, Ht1, app_assoc. split; [done|]. intros S HS Hout.
  assert (Ho1 : stream_at S LB o1).
  { apply (stream_at_take S LB (length o1)) in Hout. by rewrite take_app_length in Hout. }
  assert (Ho2 : stream_at S (LB + w_len o1) o2).
  { apply (stream_at_drop S LB (length o1)) in Hout. by rewrite drop_app_length in Hout. }
  destruct (Hs1 S HS Ho1) as [HS1 He1]. destruct (Hs2 S HS1 Ho2) as [HS2 He2].
  split; [done|]. apply Forall_app. split; [|done]. eapply Forall_impl; [exact He1|].
  intros e. apply event_ok_later. unfold w_len. lia.
Qed.
End calls.

(** ** The other end *)

(** The packet [e] has arrived, cut into pbufs, and its header has been read. *)
Definition arrives (e : out_event) (i : input) : Prop :=
  exists octs src dst ttl tos pkt mem ticks,
    e = Packet octs src dst ttl tos /\ concat pkt = octs /\
    (forall h d, octs = encode_header h ++ d -> hdr_ok h -> split_ok (h_len h) pkt) /\
    ip_addr_ismulticast dst = false /\
    tcp_read_header (fun _ => false) mem ticks src dst pkt = Some (Some i).

Lemma arrives_peer_segment S L E A e i :
  packet_at S L E A e -> arrives e i -> peer_segment S E A i.
Proof.
  intros (_ & h & d & src & dst & tt & ts & -> & Hh & Hs & Hd & Hl & HE & Hsyn & Hfin)
    (octs & src' & dst' & tt' & ts' & pkt & mem & ticks & [= <- <- <- <- <-] & Hcat & Hsp & Hmc & Hr).
  specialize (Hsp h d eq_refl Hh).
  destruct (read_header_spec (fun _ => false) mem ticks src dst h d pkt Hh Hcat Hsp)
    as (i' & Er & F1 & F2 & F3 & F4 & F5 & F6 & F7 & F8 & F9 & F10 & F11 & F12 & F13 & F14); [lia|by split|].
  rewrite Hr in Er. injection Er as <-.
  split; [|by rewrite F3|done|done|done]. rewrite F11.
  split; unfold seg_syn, seg_fin; cbn [seg_seqno seg_flags seg_len seg_p].
  - done.
  - done.
  - by exists d.
  - lia.
  - done.
  - by rewrite Hfin.
Qed.

(** It lies in the window that ends at [R]. *)
Definition fits_window (R : Z) (i : input) : Prop :=
  exists A, in_seqno i = u32 A /\ R - 65534 <= A /\ A + in_tcplen i <= R.

(** C1: What is written at one end comes out at the other.  [calls] returns; and
    whatever part of the packets it sent arrives, in whatever order, cut into
    pbufs in whatever way and as often as may be: as long as each lies in the
    window, the receive path of the other end does not fail and hands on a
    prefix of the stream, each octet once and in order. *)
Theorem stream_delivered `{ip6 : ip6_layer} S L NX LB us ws p n l :
  streaming L NX LB us ws p -> Forall (carried S) (us ++ ws) -> Forall (call_ok (remote_ip p)) l ->
  exists p' n' out, calls l p n = Some (p', n', out) /\
    forall N R qs q nq arrived, stream_at S LB out ->
      receiving S (LB + w_len out) N R qs q -> near R L ->
      Forall (fun i => exists e, e ∈ drop (length (trace n)) (trace n') /\ arrives e i /\ fits_window R i) arrived ->
      exists q' nq' read M (fin : bool) qs',
        receive_all arrived q nq = Some (q', nq', read) /\ N <= M <= Z.max N (LB + w_len out) /\
        stream_at S N read /\ w_len read = M - N /\
        receiving S (LB + w_len out) (M + Z.b2z fin) R qs' q'.
Proof.
  intros W HS Hl. destruct (calls_streamed L l NX LB us ws p n W Hl) as (p' & n' & out & E & [Hst]).
  exists p', n', out. split; [done|]. intros N R qs q nq arrived Hout Hr Hnear Harr.
  destruct Hst as (NX' & us' & ws' & [W' _ _] & evs & Ht & Hev). destruct (Hev S HS Hout) as [_ Hok]. clear Hev.
  rewrite Ht, drop_app_length in Harr. pose proof (wr_room _ _ _ _ _ _ W') as Hroom.
  pose proof (sd_buf_pos _ _ _ _ _ (wr_sending _ _ _ _ _ _ W')).
  assert (Harr' : Forall (fun i => exists A, peer_segment S (LB + w_len out) A i /\
                            R - 65534 <= A /\ A + in_tcplen i <= R) arrived).
  { eapply Forall_impl; [exact Harr|]. intros i (e & He & Ha & B & HB & HB1 & HB2).
    rewrite Forall_forall in Hok. specialize (Hok e He).
    assert (exists A, packet_at S L (LB + w_len out) A e) as [A HA].
    { destruct e; try done; by destruct Ha as (? & ? & ? & ? & ? & ? & ? & ? & ? & _). }
    pose proof (arrives_peer_segment _ _ _ _ _ _ HA Ha) as Hps. exists A.
    enough (A = B) as -> by done. rewrite (ps_seqno _ _ _ _ Hps) in HB.
    destruct HA as (HA1 & h & d & src & dst & tt & ts & _ & _ & _ & _ & _ & HA2 & _).
    pose proof (ps_tcplen _ _ _ _ Hps) as Htl. pose proof (so_len _ _ _ _ (ps_seg _ _ _ _ Hps)).
    assert (0 <= in_tcplen i) by (rewrite Htl; unfold TCP_TCPLEN; destruct (flagset _ _); lia).
    unfold near in Hnear. clear -HB HB1 HB2 HA1 HA2 Hnear Hroom H H1. word_lia. }
  destruct (receive_all_spec S (LB + w_len out) N R qs q nq arrived Hr Harr')
    as (q' & nq' & read & M & fin & qs' & Er & H1 & H2 & H3 & H4 & H5 & _).
  exists q', nq', read, M, fin, qs'. by split_and!.
Qed.

(** ** A run *)

(** A sender with a window; the second [Output] is held back by Nagle's
    algorithm. *)
Definition example_sender : tcp_pcb := idle_pcb <| cwnd := 4380 |> <| snd_wnd := 5000 |>.
Definition example_calls : list call :=
  [Write 4096 [72; 105] TCP_WRITE_FLAG_COPY; Output example_net 7 false;
   Write 8192 [33] TCP_WRITE_FLAG_COPY; Output example_net 8 false].
Definition example_sent : net := roomy <| answers := [Some ERR_OK; Some ERR_OK] |>.
Definition example_text (k : Z) : Z := nth (Z.to_nat (k - 5000)) [72; 105; 33] 0.

Definition example_packet : list Z :=
  [4; 210; 0; 80; 0; 0; 19; 136; 0; 0; 3; 232; 80; 24; 128; 0; 192; 206; 0; 0; 72; 105].

(** The packet in two pbufs, the header in the first. *)
Definition example_arrived : option (option input) :=
  tcp_read_header (fun _ => false) (fun _ => 0) 9 (IPADDR4_INIT (addr4 10 0 0 1)) (IPADDR4_INIT 0)
    [take 20 example_packet; drop 20 example_packet].

Lemma example_streaming : streaming 5000 5000 5000 [] [] example_sender.
Proof.
  assert (W : writable 5000 5000 5000 [] [] example_sender).
  { destruct idle_writable as [S ? ? ? ? ? ? ? ?]. split; try done. by eapply sending_ext. }
  split; [done| |done]. split; try done; try (cbn; lia); repeat constructor; lia.
Qed.

Lemma stream_delivered_witness :
  exists p' n' out i, calls (ip6 := no_ip6) example_calls example_sender example_sent = Some (p', n', out) /\
    trace n' = [Packet example_packet (IPADDR4_INIT (addr4 10 0 0 1)) (IPADDR4_INIT 0) 64 0] /\
    example_arrived = Some (Some i) /\
    exists q' nq' read M (fin : bool) qs',
      receive_all [i; i] (example_pcb 5000 32768) no_memory_trouble = Some (q', nq', read) /\
      5000 <= M <= Z.max 5000 (5000 + w_len out) /\
      stream_at example_text 5000 read /\ w_len read = M - 5000 /\
      receiving example_text (5000 + w_len out) (M + Z.b2z fin) 37768 qs' q'.
Proof.
  destruct (stream_delivered (ip6 := no_ip6) example_text 5000 5000 5000 [] [] example_sender example_sent
              example_calls example_streaming) as (p' & n' & out & E & H).
  { constructor. }
  { assert (Ho : forall t, call_ok (ip6 := no_ip6) (remote_ip example_sender) (Output example_net t false)).
    { intros t outif a ->%list_elem_of_singleton. cbn. intros [= <-]. split; [done|].
      repeat (apply List.Forall_cons; [unfold is_u32; vm_compute; by split|]). apply List.Forall_nil. }
    repeat (apply List.Forall_cons; [first [apply Ho|solve [repeat (apply List.Forall_cons; [unfold is_u8; lia|]);
      apply List.Forall_nil]]|]). apply List.Forall_nil. }
  assert (Hseq : in_seqno <$> mjoin example_arrived = Some 5000) by by vm_compute.
  assert (Htl : in_tcplen <$> mjoin example_arrived = Some 2) by by vm_compute.
  assert (Hrun : (fun x => (trace x.1.2, x.2)) <$> calls (ip6 := no_ip6) example_calls example_sender example_sent =
    Some ([Packet example_packet (IPADDR4_INIT (addr4 10 0 0 1)) (IPADDR4_INIT 0) 64 0], [72; 105; 33])) by by vm_compute.
  rewrite E in Hrun. injection Hrun as Et ->. 
  destruct example_arrived as [[i|]|] eqn:Ei; [|done|done]. injection Hseq as Hseq. injection Htl as Htl.
  exists p', n', [72; 105; 33], i. split; [done|]. split; [done|]. split; [done|].
  assert (Hsp : forall h d, example_packet = encode_header h ++ d -> hdr_ok h ->
            split_ok (h_len h) [take 20 example_packet; drop 20 example_packet]).
  { intros h d Hoct Hh. destruct (hk_opts _ Hh) as [H4 _]. split; [done|]. left.
    pose proof (f_equal (fun l => nth 12 l 0) Hoct) as H12. cbn in H12.
    change (p_tot_len (take 20 example_packet)) with 20.
    assert (h_len h / 4 * 16 = 80) by done. unfold h_len in *. Z.div_mod_to_equations. lia. }
  apply (H 5000 37768 [] (example_pcb 5000 32768) no_memory_trouble [i; i]).
  - intros [|[|[|k]]] x Hx; try (injection Hx as <-; by vm_compute). discriminate Hx.
  - apply (example_receiving example_text 5003 5000 32768). lia.
  - unfold near. lia.
  - assert (Hi : exists e, e ∈ drop (length (trace example_sent)) (trace n') /\ arrives e i /\ fits_window 37768 i).
    { eexists. rewrite Et. split; [by left|]. split.
      - eexists example_packet, _, _, 64, 0, [take 20 example_packet; drop 20 example_packet], (fun _ => 0), 9. by split_and!.
      - exists 5000. rewrite Hseq, Htl. split; [done|lia]. }
    by repeat (apply List.Forall_cons; [exact Hi|]).
Defined.
