(* ===== verification/TcpTimersSpec.v ===== *)
(** * The TCP timers: they come to an end, and what they do

    The loops of the timers start again whenever a callback has changed the list
    of active pcbs.  They end because each turn either steps over a pcb that has
    been seen in this run or marks one that has not, and no callback can make a
    pcb unseen.  Then: when a connection is given up, and what a time-out does. *)

From S2P Require Import Prelude Err IpAddr NetifDefs Net NetExamples TcpDefs TcpIn TcpOut TcpProcess TcpControl TcpTimers TcpPcbs.

(** ** Cursors *)

(** The part of a list behind a pcb. *)
Fixpoint after (l : positive) (pcblist : list positive) : list positive :=
  match pcblist with
  | [] => []
  | x :: r => if decide (x = l) then r else after l r
  end.

Lemma next_in_after l pcblist : next_in l pcblist = head (after l pcblist).
Proof. induction pcblist as [|x r IH]; [done|]. cbn. by destruct (decide (x = l)). Qed.

Lemma after_suffix l pcblist x : x ∈ after l pcblist -> x ∈ pcblist.
Proof. induction pcblist as [|y r IH]; [done|]. cbn. destruct (decide (y = l)); set_solver. Qed.

Lemma next_in_elem l pcblist x : NoDup pcblist -> next_in l pcblist = Some x -> x ∈ pcblist /\ x <> l.
Proof.
  rewrite next_in_after. induction pcblist as [|y r IH]; [done|]. intros [Hy Hn]%NoDup_cons. cbn.
  destruct (decide (y = l)) as [->|].
  - destruct r as [|z r]; [done|]. intros [= ->]. set_solver.
  - intros E. apply IH in E; [|done]. set_solver.
Qed.

Lemma after_next l pcblist x : NoDup pcblist -> next_in l pcblist = Some x ->
  after l pcblist = x :: after x pcblist.
Proof.
  rewrite next_in_after. induction pcblist as [|y r IH]; [done|]. intros [Hy Hn]%NoDup_cons. cbn.
  destruct (decide (y = l)) as [->|].
  - destruct r as [|z r]; [done|]. intros [= ->].
    rewrite decide_False by set_solver. cbn. by rewrite decide_True.
  - intros E. rewrite decide_False; [by apply IH|]. intros ->. apply Hy.
    rewrite <- next_in_after in E. by apply next_in_elem in E as [? _].
Qed.

Section timers.
Context {A : Type} `{!tcp_env (ctl A)} `{!ip6_layer}.
Notation st := (stack (ctl A)).

(** ** Pcbs that have not been seen *)

Definition unseen (h : shape) : gset positive := dom (filter (fun kv => kv.2 <> sh_ctr h) (sh_marks h)).

Lemma elem_of_unseen (s : st) l :
  l ∈ unseen (shape_of s) <-> exists p, pcbs s !! l = Some p /\ last_timer p <> ctl_timer_ctr (rest s).
Proof.
  unfold unseen. rewrite elem_of_dom. split.
  - intros [m Hm]. apply map_lookup_filter_Some in Hm as [Hm Hne]. cbn in Hm, Hne.
    rewrite lookup_fmap, fmap_Some in Hm. destruct Hm as (p & Hp & ->). by exists p.
  - intros (p & Hp & Hne). exists (last_timer p). apply map_lookup_filter_Some. cbn.
    by rewrite lookup_fmap, Hp.
Qed.

(** What a callback may do in the middle of a run: nothing it has not seen comes
    up, and if it leaves the flag alone, it has left the list alone. *)
Record calm (s s' : st) : Prop := {
  cm_ctr : ctl_timer_ctr (rest s') = ctl_timer_ctr (rest s);
  cm_unseen : unseen (shape_of s') ⊆ unseen (shape_of s);
  cm_list : tcp_active_pcbs_changed s' = false ->
            tcp_active_pcbs_changed s = false /\ tcp_active_pcbs s' = tcp_active_pcbs s
}.

#[export] Instance calm_preorder : PreOrder calm.
Proof.
  split; [by split|]. intros s1 s2 s3 [C1 U1 L1] [C2 U2 L2]. split; [congruence|set_solver|].
  intros E. destruct (L2 E) as [E2 ->]. by apply L1.
Qed.

Class env_calm : Prop := {
  err_calm arg e (s s' : st) : event_err arg e s = Some s' -> calm s s';
  poll_calm l (s s' : st) err : event_poll l s = Some (s', err) -> calm s s';
  recv_calm l d (s s' : st) p p' err : event_recv d s p = Some (s', p', err) ->
    is_Some (pcbs s !! l) -> calm (put l p s) (if err =? ERR_ABRT then s' else put l p' s')
}.

Context `{!env_sane} `{!env_calm}.

(** Marking a pcb. *)
Lemma mark_unseen l p (s s' : st) : pcbs s !! l = Some p -> mark l p s = Some s' ->
  unseen (shape_of s') ⊂ unseen (shape_of s) /\ tcp_active_pcbs s' = tcp_active_pcbs s /\
  ctl_timer_ctr (rest s') = ctl_timer_ctr (rest s).
Proof.
  unfold mark. intros Hp. destruct (Z.eqb_spec (last_timer p) (ctl_timer_ctr (rest s))) as [|Hne]; [done|].
  intros [= <-]. split; [|done]. split.
  - intros x. rewrite !elem_of_unseen. cbn. intros (q & Hq & Hqn).
    destruct (decide (x = l)) as [->|].
    + rewrite lookup_insert_eq in Hq. injection Hq as <-. by destruct Hqn.
    + rewrite lookup_insert_ne in Hq by done. by exists q.
  - intros Hsub. assert (Hl : l ∈ unseen (shape_of s)) by (apply elem_of_unseen; by exists p).
    apply Hsub, elem_of_unseen in Hl as (q & Hq & Hqn). cbn in Hq. rewrite lookup_insert_eq in Hq.
    injection Hq as <-. by destruct Hqn.
Qed.

(** ** One turn *)

(** Where a turn may leave a loop: the cursor is in the list. *)
Definition in_list (c : cursor) (s : st) : Prop := forall l, c.2 = Some l -> l ∈ tcp_active_pcbs s.

Lemma first_active_in_list (s : st) : in_list (first_active s) s.
Proof. intros l. cbn. destruct (tcp_active_pcbs s); [done|]. intros [= ->]. by left. Qed.

(** A turn has stepped over a pcb, or there is one unseen pcb less. *)
Definition turned (c : cursor) (s : st) (c' : cursor) (s' : st) : Prop :=
  sane (shape_of s') /\ in_list c' s' /\
  (s' = s /\ c'.2 = from_option (fun l => next_in l (tcp_active_pcbs s)) None c.2 \/
   unseen (shape_of s') ⊂ unseen (shape_of s)).

Lemma put_calm l q q' (s : st) : role q' = role q -> calm (put l q s) (put l q' s).
Proof.
  intros [= Ek Em]. split; [done| |done].
  assert (Esh : shape_of (put l q' s) = shape_of (put l q s)) by (by rewrite !insert_shape, Ek, Em).
  by rewrite Esh.
Qed.

Lemma offer_refused_data_calm l (s s' : st) :
  offer_refused_data l s = Some s' -> sane (shape_of s) -> calm s s'.
Proof.
  unfold offer_refused_data, tcp_process_refused_data.
  destruct (pcbs s !! l) as [p|] eqn:Ep; [|done]. cbn [mbind option_bind]. intros E Hs.
  set (p0 := p <| refused_data := None |> <| refused_fin := false |>) in E.
  assert (H0p : calm s (put l p0 s)).
  { pose proof (shape_put l p p0 s Ep eq_refl) as Esh. split; [done|by rewrite Esh|done]. }
  destruct (event_recv (refused_data p) s p0) as [[[s1 p1] e1]|] eqn:Er; [|done]. cbn [mbind option_bind] in E.
  pose proof (recv_sane l _ _ _ _ _ _ Er ltac:(by eexists) ltac:(by apply (sane_put l p))) as Hs1.
  apply (recv_calm l) in Er; [|by eexists].
  destruct (Z.eqb_spec e1 ERR_OK) as [Eok|Hne].
  - rewrite Eok in Er, Hs1. change (ERR_OK =? ERR_ABRT) with false in Er, Hs1.
    destruct (refused_fin p); [|injection E as <-; by transitivity (put l p0 s)].
    set (p2 := if negb _ then _ else p1) in E.
    assert (H2 : calm (put l p1 s1) (put l p2 s1)) by (apply put_calm; unfold p2; by destruct (negb _)).
    destruct (event_recv None s1 p2) as [[[s3 p3] e3]|] eqn:Er3; [|done]. cbn [mbind option_bind] in E.
    apply (recv_calm l) in Er3; [|apply Hs1]. transitivity (put l p0 s); [done|].
    transitivity (put l p1 s1); [done|]. transitivity (put l p2 s1); [done|].
    destruct (e3 =? ERR_ABRT); by injection E as <-.
  - transitivity (put l p0 s); [done|]. destruct (e1 =? ERR_ABRT); injection E as <-; [done|].
    transitivity (put l p1 s1); [done|]. by apply put_calm.
Qed.

(** The end of a turn: a callback has been called with the flag cleared, and the
    loop starts again or goes on behind the pcb. *)
Lemma next_turned prev l c (s0 s1 s2 : st) next prev' :
  sane (shape_of s2) -> unseen (shape_of s1) ⊂ unseen (shape_of s0) -> calm s1 s2 ->
  (forall x, next = Some x -> x ∈ tcp_active_pcbs s1) ->
  c = (if tcp_active_pcbs_changed s2 then first_active s2 else (prev', next)) ->
  turned (prev, Some l) s0 c s2.
Proof.
  intros Hs Hu [_ Hcu Hcl] Hn ->. split; [done|]. split; [|right; set_solver].
  destruct (tcp_active_pcbs_changed s2); [apply first_active_in_list|]. destruct (Hcl eq_refl) as [_ El].
  intros x Hx. cbn in Hx. rewrite El. by apply Hn.
Qed.

Lemma stepped_turned prev l prev' (s : st) :
  sane (shape_of s) -> turned (prev, Some l) s (prev', next_in l (tcp_active_pcbs s)) s.
Proof.
  intros Hs. split; [done|]. split; [|by left]. intros x Hx. cbn in Hx.
  by destruct (next_in_elem _ _ _ (proj1 (sn_act _ Hs)) Hx).
Qed.

Lemma fast_turn_turned prev l (s s' : st) c :
  sane (shape_of s) -> fast_turn prev l s = Some (c, s') -> turned (prev, Some l) s c s'.
Proof.
  intros Hs E. pose proof (fast_turn_sane _ _ _ _ _ E Hs) as Hs'. revert E. unfold fast_turn.
  destruct (pcbs s !! l) as [p|] eqn:Ep; [|done]. cbn [mbind option_bind].
  destruct (mark l p s) as [s0|] eqn:Em; [|intros [= <- <-]; by apply stepped_turned].
  pose proof (mark_sane l p s s0 Ep Em Hs) as Hs0. apply (mark_unseen l p) in Em as (Hu & _ & _); [|done].
  intros E. destruct (send_delayed_ack l s0) as [s1|] eqn:E1; [|done]. cbn [mbind option_bind] in E.
  apply send_delayed_ack_shape in E1.
  destruct (send_pending_fin l s1) as [s2|] eqn:E2; [|done]. cbn [mbind option_bind] in E.
  apply send_pending_fin_shape in E2. rewrite <- E1, <- E2 in Hs0, Hu.
  destruct (pcbs s2 !! l) as [p2|]; [|done]. cbn [mbind option_bind] in E.
  assert (Hn : forall x, next_in l (tcp_active_pcbs s2) = Some x -> x ∈ tcp_active_pcbs s2).
  { intros x Hx. by destruct (next_in_elem _ _ _ (proj1 (sn_act _ Hs0)) Hx). }
  destruct (refused_data p2).
  - destruct (offer_refused_data l _) as [s3|] eqn:E3; [|done]. cbn [mbind option_bind] in E. injection E as <- <-.
    apply offer_refused_data_calm in E3; [|done].
    by apply (next_turned prev l _ s (set_changed false s2) s3 (next_in l (tcp_active_pcbs s2)) None).
  - injection E as <- <-. split; [done|]. split; [|by right]. intros x. apply Hn.
Qed.

Lemma slow_turn_turned prev l (s s' : st) c :
  sane (shape_of s) -> slow_turn prev l s = Some (c, s') -> turned (prev, Some l) s c s'.
Proof.
  intros Hs E. pose proof (slow_turn_sane _ _ _ _ _ E Hs) as Hs'. revert E. unfold slow_turn.
  destruct (pcbs s !! l) as [p|] eqn:Ep; [|done]. cbn [mbind option_bind].
  destruct (active_state p); [|done].
  destruct (mark l p s) as [s0|] eqn:Em; [|intros [= <- <-]; by apply stepped_turned].
  pose proof (mark_sane l p s s0 Ep Em Hs) as Hs0. apply (mark_unseen l p) in Em as (Hu & _ & _); [|done].
  intros E. destruct (slow_pcb l s0) as [[[s1 remove] reset]|] eqn:E1; [|done]. cbn [mbind option_bind] in E.
  apply slow_pcb_shape in E1. rewrite <- E1 in Hs0, Hu. clear E1.
  assert (Hn : forall x, next_in l (tcp_active_pcbs s1) = Some x -> x ∈ tcp_active_pcbs s1 /\ x <> l).
  { intros x Hx. exact (next_in_elem _ _ _ (proj1 (sn_act _ Hs0)) Hx). }
  destruct remove.
  - unfold slow_remove in E. destruct (pcbs s1 !! l) as [p1|] eqn:Ep1; [|done]. cbn [mbind option_bind] in E.
    destruct (Bool.eqb _ _); [|done]. set (s2 := s1 <| tcp_active_pcbs := _ |>) in E.
    set (s3 := if reset then _ else s2) in E.
    destruct (TCP_EVENT_ERR _ _ _ _) as [s4|] eqn:E4; [|done]. cbn [mbind option_bind] in E. injection E as <- <-.
    set (s3' := set_changed false (tcp_free l s3)) in E4.
    assert (C4 : calm s3' s4).
    { unfold TCP_EVENT_ERR in E4. destruct (errf _); [by apply err_calm in E4|by injection E4 as <-]. }
    assert (E3 : tcp_active_pcbs s3' = tcp_rmv l (tcp_active_pcbs s1) /\ pcbs s3' = delete l (pcbs s1) /\
                 ctl_timer_ctr (rest s3') = ctl_timer_ctr (rest s1)) by (unfold s3', s3; by destruct reset).
    destruct E3 as (E3a & E3p & E3c). apply (next_turned prev l _ s s3' s4 (next_in l (tcp_active_pcbs s1)) prev); try done.
    + assert (Hsub : unseen (shape_of s3') ⊆ unseen (shape_of s1)); [|set_solver].
      intros x. rewrite !elem_of_unseen, E3p, E3c.
      intros (q & [_ Hq]%lookup_delete_Some & Hm). by exists q.
    + intros x Hx. rewrite E3a. apply elem_of_tcp_rmv; [apply (sn_act _ Hs0)|by apply Hn].
  - unfold slow_poll in E. destruct (pcbs s1 !! l) as [p1|] eqn:Ep1; [|done]. cbn [mbind option_bind] in E.
    destruct (_ <=? _).
    2:{ injection E as <- <-. split; [done|]. split; [intros x Hx; by apply Hn|]. right.
        by rewrite (shape_put l p1). }
    destruct (event_poll l _) as [[s2 e2]|] eqn:E2; [|done]. cbn [mbind option_bind] in E.
    set (s1' := set_changed false _) in E2.
    assert (Esh : shape_of s1' = shape_of s1) by (by apply (shape_put l p1)).
    apply poll_calm in E2. rewrite <- Esh in Hu.
    assert (Hend : forall s3 : st, shape_of s3 = shape_of s2 -> sane (shape_of s3) ->
              tcp_active_pcbs_changed s2 = false -> turned (prev, Some l) s (Some l, next_in l (tcp_active_pcbs s1)) s3).
    { intros s3 E3 Hs3 Hch. destruct E2 as [_ Hcu Hcl]. destruct (Hcl Hch) as [_ El].
      split; [done|]. split; [|right; rewrite E3; set_solver].
      intros x Hx. change (x ∈ sh_act (shape_of s3)). rewrite E3. cbn. rewrite El. by apply Hn. }
    destruct (tcp_active_pcbs_changed s2) eqn:Hch.
    + injection E as <- <-. apply (next_turned prev l _ s s1' s2 (next_in l (tcp_active_pcbs s1)) prev); try done.
      * intros x Hx. by apply Hn.
      * by rewrite Hch.
    + destruct (e2 =? ERR_OK).
      * destruct (output l s2) as [[s3 e3]|] eqn:Eo; [|done]. cbn [mbind option_bind] in E. injection E as <- <-.
        apply Hend; [by apply (output_shape l s2 s3 e3)|done..].
      * injection E as <- <-. by apply Hend.
Qed.

(** ** The loops end *)

Definition behind (c : cursor) (s : st) : nat :=
  match c.2 with None => 0 | Some l => Datatypes.S (length (after l (tcp_active_pcbs s))) end.

Lemma loop_ends turn
  (Ht : forall prev l (s s' : st) c, sane (shape_of s) -> turn prev l s = Some (c, s') -> turned (prev, Some l) s c s') :
  forall c (s : st), sane (shape_of s) -> in_list c s -> exists fuel r, run_loop turn fuel c s = Some r.
Proof.
  intros c s. remember (size (unseen (shape_of s))) as n eqn:En. revert c s En.
  induction (lt_wf n) as [n _ IHn]. intros c s En Hs Hc.
  remember (behind c s) as m eqn:Emm. revert c Emm Hc. induction (lt_wf m) as [m _ IHm]. intros [prev cur] Emm Hc.
  destruct cur as [l|]; [|by exists 0%nat, (Some s)].
  destruct (turn prev l s) as [[c1 s1]|] eqn:E.
  2:{ exists 1%nat, None. cbn. by rewrite E. }
  enough (Hrec : exists fuel r, run_loop turn fuel c1 s1 = Some r).
  { destruct Hrec as (fuel & r & Hr). exists (Datatypes.S fuel), r. cbn. by rewrite E. }
  destruct (Ht prev l s s1 c1 Hs E) as (Hs1 & Hc1 & [[-> Hnext]|Hu]).
  - apply (IHm (behind c1 s)); [|done|done]. rewrite Emm. unfold behind. rewrite Hnext. cbn.
    destruct (next_in l (tcp_active_pcbs s)) as [x|] eqn:Ex; [|lia].
    rewrite (after_next l _ x) by (apply (sn_act _ Hs) || done). cbn. lia.
  - apply (IHn (size (unseen (shape_of s1)))); [|done..]. rewrite En. by apply subset_size.
Qed.

(** C10: the timers end: with enough fuel tcp_tmr comes back (with the new state,
    or stopped by an assertion), however long the list of pcbs is and whatever
    the callbacks do to it, as long as what they do keeps the axioms of the
    lists, brings up no pcb marked earlier than this run and tells of a change of
    the list in tcp_active_pcbs_changed. *)
Theorem tcp_tmr_terminates (s : st) (Hs : sane (shape_of s)) :
  exists fuel r, tcp_tmr fuel s = Some r.
Proof.
  assert (Hmono : forall turn (f g : nat) c (s : st) r, (f <= g)%nat ->
            run_loop turn f c s = Some r -> run_loop turn g c s = Some r).
  { intros turn f. induction f as [|f IH]; intros g [pv [l|]] s0 r Hfg; cbn; try (by destruct g).
    destruct g as [|g]; [lia|]. cbn. destruct (turn pv l s0) as [[c1 s1]|]; [|done]. apply IH. lia. }
  pose proof (loop_ends fast_turn ltac:(intros; by apply fast_turn_turned)) as Lfast.
  pose proof (loop_ends slow_turn ltac:(intros; by apply slow_turn_turned)) as Lslow.
  destruct (Lfast (first_active (next_timer_ctr s)) (next_timer_ctr s))
    as (f1 & r1 & E1); [by apply (sane_unmarked _ _ Hs)|by apply first_active_in_list|].
  destruct r1 as [s1|].
  2:{ exists f1, None. unfold tcp_tmr, tcp_fasttmr. by rewrite E1. }
  assert (Hs1 : sane (shape_of s1)) by (by apply (fasttmr_sane f1 s s1)).
  set (s2 := on_ctl (fun c => c <| ctl_timer := u8 (ctl_timer c + 1) |>) s1).
  destruct (Lslow (first_active (next_tick s2)) (next_tick s2))
    as (f2 & r2 & E2); [by apply (sane_unmarked _ _ Hs1)|apply first_active_in_list|].
  exists (Nat.max f1 f2). unfold tcp_tmr, tcp_fasttmr.
  rewrite (Hmono fast_turn f1 _ _ _ _ (Nat.le_max_l f1 f2) E1). cbn [mbind option_bind]. fold s2.
  destruct (Z.odd (ctl_timer (rest s2))); [|by eexists].
  unfold tcp_slowtmr. rewrite (Hmono slow_turn f2 _ _ _ _ (Nat.le_max_r f1 f2) E2). by eexists.
Qed.
End timers.

(** ** Closing a connection is calm *)

Section closing.
Context {A : Type} `{!ip6_layer}.
Notation st := (stack (ctl A)).

Lemma calm_shape (s s' : st) : shape_of s' = shape_of s ->
  tcp_active_pcbs_changed s' = tcp_active_pcbs_changed s -> calm s s'.
Proof.
  intros E Ec. split; [exact (f_equal sh_ctr E)|by rewrite E|]. intros Hc. rewrite Ec in Hc.
  split; [done|exact (f_equal sh_act E)].
Qed.

Lemma output_changed l (s s' : st) err : output l s = Some (s', err) ->
  tcp_active_pcbs_changed s' = tcp_active_pcbs_changed s.
Proof.
  unfold output. destruct (pcbs s !! l); [|done]. cbn [mbind option_bind].
  destruct (TcpOut.tcp_output _ _ _ _ _) as [[[? ?] ?]|]; [|done]. by intros [= <- _].
Qed.

Lemma close_fin_calm l (s s' : st) err : tcp_close_shutdown_fin l s = Some (s', err) -> calm s s'.
Proof.
  intros E. apply calm_shape; [by apply (close_fin_shape l s s' err)|]. revert E.
  unfold tcp_close_shutdown_fin. destruct (pcbs s !! l) as [p|]; [|done]. cbn [mbind option_bind].
  destruct (after_fin (state p)); [|by intros [= <- _]].
  destruct (tcp_send_fin p (s_net s)) as [[[p1 n1] e1]|]; [|done]. cbn [mbind option_bind].
  destruct (e1 =? ERR_OK); [|by destruct (e1 =? ERR_MEM); intros [= <- _]].
  destruct (output l _) as [[s2 e2]|] eqn:Eo; [|done]. cbn [mbind option_bind]. intros [= <- _].
  by rewrite (output_changed _ _ _ _ Eo).
Qed.

(** Freeing a pcb and telling of it. *)
Lemma freed_calm l (s s' : st) : pcbs s' = delete l (pcbs s) -> ctl_timer_ctr (rest s') = ctl_timer_ctr (rest s) ->
  (tcp_active_pcbs_changed s' = false ->
     tcp_active_pcbs_changed s = false /\ tcp_active_pcbs s' = tcp_active_pcbs s) -> calm s s'.
Proof.
  intros Ep Ec El. split; [done| |done]. intros x. rewrite !elem_of_unseen, Ep, Ec.
  intros (q & [_ Hq]%lookup_delete_Some & Hm). by exists q.
Qed.

Lemma close_calm l (s s' : st) err : tcp_close (Conn l) s = Some (s', err) -> calm s s'.
Proof.
  unfold tcp_close. destruct (pcbs s !! l) as [p|] eqn:Ep; [|done]. cbn [mbind option_bind]. intros E.
  set (p1 := tcp_set_flags TF_RXCLOSED p) in E. set (s1 := put l p1 s) in E.
  transitivity s1; [apply calm_shape; [by apply (shape_put l p)|done]|].
  assert (Ep1 : pcbs s1 !! l = Some p1) by (unfold s1; cbn; by rewrite lookup_insert_eq).
  unfold tcp_close_shutdown in E. rewrite Ep1 in E. cbn [mbind option_bind] in E.
  destruct (true && _ && _).
  - destruct (tcp_is_flag_set _ _); [|done]. injection E as <- _.
    set (s2 := s1 <| s_net := _ |>). set (s3 := put l (tcp_pcb_purge p1) s2).
    assert (C3 : calm s1 s3).
    { apply calm_shape; [|done]. apply (shape_put l p1 _ s2 Ep1), purge_role. }
    destruct (input_busy l _).
    + split; [apply C3|apply C3|done].
    + transitivity s3; [done|]. by apply (freed_calm l).
  - destruct (state p1); try (by apply close_fin_calm in E).
    + destruct (unbind _ l s1) as [s2|] eqn:Eu; [|done]. cbn [mbind option_bind] in E.
      injection E as <- _. by destruct (unbind_inv _ _ _ _ Eu) as [-> | ->]; apply (freed_calm l).
    + done.
    + injection E as <- _. pose proof (pcb_remove_active_shape l p1 s1) as Esh.
      split; [exact (f_equal sh_ctr Esh)| |done].
      transitivity (unseen (shape_of (pcb_remove_active l p1 s1))); [|by rewrite Esh].
      intros x. rewrite !elem_of_unseen. cbn. intros (q & [_ Hq]%lookup_delete_Some & Hm). by exists q.
Qed.
End closing.

#[export] Instance closing_env_calm : env_calm (A := unit).
Proof.
  split.
  - by intros arg e s s' [= <-].
  - intros l s s' err. apply close_calm.
  - by intros l d s s' p p' err [= <- <- <-] _.
Qed.

Lemma tcp_tmr_terminates_witness :
  exists s, api_run (H := no_ip6) (take 9 example_calls) example_ctl = Some s /\
    exists fuel r, tcp_tmr (H := no_ip6) fuel s = Some r.
Proof.
  assert (Hrun : is_Some (api_run (H := no_ip6) (take 9 example_calls) example_ctl)) by (vm_compute; by eexists).
  destruct Hrun as [s E]. exists s. split; [exact E|].
  refine (tcp_tmr_terminates (H := no_ip6) s _). refine (api_run_sane (H := no_ip6) _ _ _ E _ _); [by vm_compute|]. clear.
  split; try (by split; [constructor|set_solver]); try done; cbn; intros x; by rewrite lookup_fmap, lookup_empty.
Defined.

(** ** When a connection is given up *)

Section limits.
Context {A : Type} `{!tcp_env (ctl A)} `{!ip6_layer}.
Notation st := (stack (ctl A)).

(** C11: how long a connection may be without an answer.  A turn of the slow timer
    for a pcb it has not seen yet removes it, from the list and from memory,
    exactly if its SYN has been sent again 6 times, something else 12 times, 12
    window probes have brought nothing, it has waited more than 20 seconds for the
    end of the handshake or, closed by the application, for the FIN of the peer,
    more than two minutes for the last ACK, or, with SO_KEEPALIVE, longer than the
    idle time and 675 seconds; otherwise it is still there and in the same state.
    Two ticks are a second.  (The callbacks called leave the pcbs alone.) *)
Theorem slow_turn_gives_up prev l p (s s' : st) c
  (Hp : pcbs s !! l = Some p) (Hn : NoDup (tcp_active_pcbs s))
  (Hnew : last_timer p <> ctl_timer_ctr (rest s))
  (Herr : forall arg e (s1 s2 : st), event_err arg e s1 = Some s2 ->
     pcbs s2 = pcbs s1 /\ tcp_active_pcbs s2 = tcp_active_pcbs s1)
  (Hpoll : forall x (s1 s2 : st) e, event_poll x s1 = Some (s2, e) -> pcbs s2 = pcbs s1)
  (E : slow_turn prev l s = Some (c, s')) :
  let idle := u32 (ctl_ticks (rest s) - tmr p) in
  let limit :=
    state p = SYN_SENT /\ 6 <= nrtx p \/ 12 <= nrtx p \/
    0 < persist_backoff p /\ 12 <= persist_probe p \/
    state p = FIN_WAIT_2 /\ tcp_is_flag_set TF_RXCLOSED p = true /\ 2 * 20 < idle \/
    state p = SYN_RCVD /\ 2 * 20 < idle \/ state p = LAST_ACK /\ 2 * 120 < idle \/
    (flagset (so_options p) SOF_KEEPALIVE = true /\ (state p = ESTABLISHED \/ state p = CLOSE_WAIT) /\
     (keep_idle p + 675000) / 500 < idle) in
  (limit -> pcbs s' !! l = None /\ l ∉ tcp_active_pcbs s') /\
  (~ limit -> exists p', pcbs s' !! l = Some p' /\ state p' = state p).
Proof.
  intros idle limit. unfold slow_turn in E. rewrite Hp in E. cbn [mbind option_bind] in E.
  destruct (active_state p); [|done]. unfold mark in E.
  destruct (Z.eqb_spec (last_timer p) (ctl_timer_ctr (rest s))) as [|_]; [done|].
  set (p0 := p <| last_timer := _ |>) in E. set (s0 := put l p0 s) in E.
  destruct (slow_pcb l s0) as [[[s1 remove] reset]|] eqn:E1; [|done]. cbn [mbind option_bind] in E.
  apply (slow_pcb_touched l p0) in E1 as (T & -> & _); [|unfold s0; cbn; by rewrite lookup_insert_eq].
  destruct T as (p1 & n1 & -> & Ei1). set (s1 := put l p1 _) in E.
  assert (Ep1 : pcbs s1 !! l = Some p1) by (unfold s1; cbn; by rewrite lookup_insert_eq).
  assert (Hlim : expired p0 s0 = true <-> limit).
  { unfold expired, given_up, stuck_in_fin_wait_2, keepalive_timeout, stuck_in_syn_rcvd, stuck_in_last_ack, kept_alive.
    change (inactivity p0 s0) with idle. unfold limit, SOF_KEEPALIVE, TCP_SLOW_INTERVAL, TCP_MAXRTX, TCP_SYNMAXRTX,
      TCP_FIN_WAIT_TIMEOUT, TCP_SYN_RCVD_TIMEOUT, TCP_MSL, TCP_MAXIDLE, TCP_KEEPCNT_DEFAULT, TCP_KEEPINTVL_DEFAULT.
    change (20000 / 500) with (2 * 20). change (2 * 60000 / 500) with (2 * 120). change (9 * 75000) with 675000.
    rewrite !orb_true_iff, !andb_true_iff, !bool_decide_eq_true, !Z.leb_le, !Z.ltb_lt. cbn. tauto. }
  clearbody limit. destruct (expired p0 s0).
  - split; [intros _|tauto]. unfold slow_remove in E. rewrite Ep1 in E. cbn [mbind option_bind] in E. destruct (Bool.eqb _ _); [|done].
    set (s2 := s1 <| tcp_active_pcbs := _ |>) in E. set (s3 := if reset then _ else s2) in E.
    assert (E3 : tcp_active_pcbs s3 = tcp_rmv l (tcp_active_pcbs s)) by (unfold s3; by destruct reset).
    destruct (TCP_EVENT_ERR _ _ _ _) as [s4|] eqn:E4; [|done]. cbn [mbind option_bind] in E. injection E as <- <-.
    assert (H4 : pcbs s4 !! l = None /\ tcp_active_pcbs s4 = tcp_rmv l (tcp_active_pcbs s)).
    { unfold TCP_EVENT_ERR in E4. destruct (errf _).
      - apply Herr in E4 as [-> ->]. cbn. by rewrite lookup_delete_eq.
      - injection E4 as <-. cbn. by rewrite lookup_delete_eq. }
    destruct H4 as [-> ->]. split; [done|]. rewrite elem_of_tcp_rmv by done. tauto.
  - split; [intros Hl; by apply Hlim in Hl|intros _]. unfold slow_poll in E.
    rewrite Ep1 in E. cbn [mbind option_bind] in E.
    assert (Est : state p1 = state p) by exact (f_equal (fun x => x.1.1.1.1.1.1) Ei1).
    destruct (_ <=? _).
    2:{ injection E as _ <-. eexists. cbn. by rewrite lookup_insert_eq. }
    destruct (event_poll l _) as [[s2 e2]|] eqn:E2; [|done]. cbn [mbind option_bind] in E. apply Hpoll in E2.
    cbn in E2.
    assert (H2 : exists q, pcbs s2 !! l = Some q /\ state q = state p).
    { rewrite E2. eexists. by rewrite lookup_insert_eq. }
    destruct H2 as (q & Hq & Eq).
    destruct (tcp_active_pcbs_changed s2); [injection E as _ <-; by exists q|].
    destruct (e2 =? ERR_OK); [|injection E as _ <-; by exists q].
    destruct (output l s2) as [[s3 e3]|] eqn:Eo; [|done]. cbn [mbind option_bind] in E. injection E as _ <-.
    destruct (output_lookup l s2 s3 e3 q Eo Hq) as (q' & Hq' & Ei). exists q'. split; [done|]. rewrite <- Eq.
    exact (f_equal (fun x => x.1.1.1.1.1.1.1.1) Ei).
Qed.
End limits.

(** An application that does nothing. *)
Definition quiet_env : tcp_env (ctl unit) := {|
  event_accept s p := Some (s, p, ERR_OK);
  event_accept_failed s _ := Some s;
  event_connected s p := Some (s, p, ERR_OK);
  event_sent _ s p := Some (s, p, ERR_OK);
  event_recv _ s p := Some (s, p, ERR_OK);
  event_err _ _ s := Some s;
  event_poll l s := Some (s, ERR_OK);
  tcp_timer_needed s := Some s
|}.

(** A handshake that has waited for 41 ticks. *)
Definition example_waiting : tcp_pcb := (init_pcb 64 example_ctl) <| state := SYN_RCVD |>.
Definition example_late : stack (ctl unit) :=
  put 1 example_waiting
    (on_ctl (fun c => c <| ctl_ticks := 41 |> <| ctl_timer_ctr := 1 |>) (example_ctl <| tcp_active_pcbs := [1%positive] |>)).

Lemma slow_turn_gives_up_witness :
  exists c s', slow_turn (tcp_env0 := quiet_env) (H := no_ip6) None 1 example_late = Some (c, s') /\
    pcbs s' !! 1%positive = None /\ 1%positive ∉ tcp_active_pcbs s'.
Proof.
  assert (Hrun : is_Some (slow_turn (tcp_env0 := quiet_env) (H := no_ip6) None 1 example_late))
    by (vm_compute; by eexists).
  destruct Hrun as [[c s'] E]. exists c, s'. split; [exact E|].
  refine (proj1 (slow_turn_gives_up (tcp_env0 := quiet_env) (H := no_ip6) None 1 example_waiting example_late s' c
                   _ _ _ _ _ E) _); clear.
  - by vm_compute.
  - apply NoDup_singleton.
  - by vm_compute.
  - by intros arg e s1 s2 [= <-].
  - by intros x s1 s2 e [= <- _].
  - right. right. right. right. left. split; [reflexivity|]. by vm_compute.
Defined.
