(* ===== verification/TcpRto.v ===== *)
(** * The retransmission timer

    What the slow timer does when an acknowledgement does not come: everything in
    flight is queued again, the window shrinks to one segment, the time-out backs
    off, and the oldest segment goes out again, unless the driver still holds a
    segment that is in flight. *)

From Stdlib Require Import Sorting.Sorted.
From stdpp Require Import sorting.
From S2P Require Import Prelude Err IpAddr NetifDefs Net NetExamples TcpDefs TcpIn TcpExamples TcpAck TcpOut TcpChksum TcpWrite TcpWriteSpec TcpOutSpec TcpProcess TcpControl TcpTimers TcpPcbs.

(** [tcp_rexmit_rto_prepare] puts what is in flight in front of the unsent
    queue, if nobody else holds a pbuf of it. *)
Lemma rto_prepare_sending L NX us ws p :
  sending L NX us ws p -> us <> [] -> StronglySorted before (us ++ ws) ->
  Forall (fun y => tcp_output_segment_busy y.2 = false) us ->
  exists p1, tcp_rexmit_rto_prepare p = (p1, ERR_OK) /\ sending L NX [] (us ++ ws) p1 /\
    conn p1 = conn p /\ ident p1 = ident p /\ netif_idx p1 = netif_idx p.
Proof.
  intros [H1 H2 H3 H4 H5 H6 H7 H8 H9 H10 H11 H12 H13 H14] Hne Hso Hb. unfold tcp_rexmit_rto_prepare.
  destruct (last (unacked p)) as [seg|] eqn:El.
  2:{ rewrite H1 in El. apply last_None, fmap_nil_inv in El. by destruct Hne. }
  assert (Hbusy : existsb tcp_output_segment_busy (unacked p) = false).
  { rewrite H1. clear -Hb. induction Hb as [|y l Hy Hl IH]; [done|]. cbn. by rewrite Hy. }
  rewrite Hbusy. eexists. split; [reflexivity|]. set (p1 := match unsent p with [] => _ | _ => p end).
  assert (E1 : unacked p1 = unacked p /\ unsent p1 = unsent p /\ conn p1 = conn p /\ ident p1 = ident p /\
               snd_nxt p1 = snd_nxt p /\ netif_idx p1 = netif_idx p) by (unfold p1; by destruct (unsent p) eqn:Eu; rewrite ?Eu).
  destruct E1 as (F1 & F2 & F3 & F4 & F5 & F6). rewrite F1, F2. clearbody p1.
  pose proof F3 as Fc. conn_fields Fc. split_and!.
  - split; cbn -[u32]; try done; try congruence.
    + by rewrite H1, H2, fmap_app.
    + by apply Forall_app.
    + constructor.
    + intros x y Hx. by apply not_elem_of_nil in Hx.
    + rewrite sum_clen_app. lia.
    + rewrite sum_len_app. lia.
  - rewrite <- F3. done.
  - rewrite <- F4. same_ident.
  - rewrite <- F6. done.
Qed.

Lemma backoff_nonneg i : 0 <= nth i tcp_backoff 0.
Proof. do 13 (destruct i as [|i]; [done|]). by destruct i. Qed.

(** What the time-out changes before the queue goes out again. *)
Lemma timed_out_fields p1 :
  let p2 := tcp_rexmit_rto_commit (timeout_window (backoff_rto p1)) in
  unacked p2 = unacked p1 /\ unsent p2 = unsent p1 /\ lastack p2 = lastack p1 /\ snd_nxt p2 = snd_nxt p1 /\
    snd_queuelen p2 = snd_queuelen p1 /\ snd_buf p2 = snd_buf p1 /\ remote_ip p2 = remote_ip p1 /\
    local_ip p2 = local_ip p1 /\ rcv_nxt p2 = rcv_nxt p1 /\ rcv_ann_wnd p2 = rcv_ann_wnd p1 /\ state p2 = state p1 /\
    snd_wnd p2 = snd_wnd p1 /\ netif_idx p2 = netif_idx p1 /\ mss p2 = mss p1 /\ cwnd p2 = mss p1 /\
    nrtx p2 = (if nrtx p1 <? 255 then nrtx p1 + 1 else nrtx p1) /\
    ssthresh p2 = (if Z.shiftr (Z.min (cwnd p1) (snd_wnd p1)) 1 <? u16 (Z.shiftl (mss p1) 1)
                   then u16 (Z.shiftl (mss p1) 1) else Z.shiftr (Z.min (cwnd p1) (snd_wnd p1)) 1) /\
    (state p1 <> SYN_SENT -> rto p2 = s16 (Z.min (Z.shiftl (Z.shiftr (sa p1) 3 + sv p1)
                                (nth (Z.to_nat (Z.min (nrtx p1) 12)) tcp_backoff 0)) 32767)).
Proof.
  intros p2. unfold p2, tcp_rexmit_rto_commit, backoff_rto. clear p2.
  set (q := if bool_decide (state p1 = SYN_SENT) then p1 else _).
  assert (E : exists r, q = p1 <| rto := r |> /\
    (state p1 <> SYN_SENT -> r = s16 (Z.min (Z.shiftl (Z.shiftr (sa p1) 3 + sv p1)
                                (nth (Z.to_nat (Z.min (nrtx p1) 12)) tcp_backoff 0)) 32767))).
  { unfold q. destruct (bool_decide (state p1 = SYN_SENT)) eqn:Eb.
    - apply bool_decide_eq_true in Eb. exists (rto p1). split; [by destruct p1|done].
    - eexists. split; [reflexivity|done]. }
  destruct E as (r & -> & Hr). change (nrtx (timeout_window (p1 <| rto := r |>))) with (nrtx p1).
  destruct (nrtx p1 <? 255); split_and!; done.
Qed.

Lemma timed_out_conn p1 :
  conn (tcp_rexmit_rto_commit (timeout_window (backoff_rto p1))) = conn (p1 <| cwnd := mss p1 |>).
Proof.
  unfold tcp_rexmit_rto_commit, backoff_rto. destruct (bool_decide (state p1 = SYN_SENT));
    match goal with |- context [nrtx ?q <? 255] => by destruct (nrtx q <? 255) end.
Qed.

Section rto.
Context {A : Type} `{!ip6_layer}.
Notation st := (stack (ctl A)).

Lemma output_runs l p (s : st) p' n' err :
  pcbs s !! l = Some p -> input_busy l s = false ->
  TcpOut.tcp_output (ctl_ip (rest s)) (ctl_ticks (rest s)) false p (s_net s) = Some (p', n', err) ->
  output l s = Some (put l p' (s <| s_net := n' |>), err).
Proof. intros E1 E2 E3. unfold output. rewrite E1. cbn [mbind option_bind]. by rewrite E2, E3. Qed.

(** A segment in flight is still with the driver: the timer counts on, and that is all. *)
Lemma slow_rto_busy l p (s : st) :
  existsb tcp_output_segment_busy (unacked p) = true -> 0 <= rtime p < 32767 -> rto p <= rtime p + 1 ->
  slow_rto l p s = Some (put l (p <| rtime := rtime p + 1 |>) s).
Proof.
  intros Hb Ht Hr. unfold slow_rto. rewrite (proj2 (Z.leb_le 0 (rtime p))), (proj2 (Z.ltb_lt (rtime p) 32767)) by lia.
  cbn [andb]. set (p0 := p <| rtime := rtime p + 1 |>).
  change (rto p0) with (rto p). change (rtime p0) with (rtime p + 1). rewrite (proj2 (Z.leb_le (rto p) (rtime p + 1))) by lia.
  unfold tcp_rexmit_rto_prepare. change (unacked p0) with (unacked p). rewrite Hb.
  destruct (unacked p) as [|u us] eqn:Eu; [done|]. destruct (last (u :: us)); cbn; change (unacked p0) with (unacked p); by rewrite Eu.
Qed.

(** Otherwise the pcb that goes to [tcp_output]. *)
Lemma slow_rto_requeues L NX x us ws l p (s : st) :
  sending L NX (x :: us) ws p -> StronglySorted before ((x :: us) ++ ws) ->
  Forall (fun y => tcp_output_segment_busy y.2 = false) (x :: us) -> 0 <= rtime p < 32767 -> rto p <= rtime p + 1 ->
  exists p2, slow_rto l p s = ('(s, _) ← output l (put l p2 s); Some s) /\
    sending L NX [] ((x :: us) ++ ws) p2 /\ conn p2 = conn (p <| cwnd := mss p |>) /\ netif_idx p2 = netif_idx p /\
    nrtx p2 = (if nrtx p <? 255 then nrtx p + 1 else nrtx p) /\
    ssthresh p2 = Z.max (u16 (2 * mss p)) (Z.min (cwnd p) (snd_wnd p) / 2) /\
    (state p <> SYN_SENT ->
     rto p2 = s16 (Z.min ((sa p / 8 + sv p) * 2 ^ nth (Z.to_nat (Z.min (nrtx p) 12)) tcp_backoff 0) 32767)).
Proof.
  intros S Hso Hb Htime Hrto. unfold slow_rto.
  rewrite (proj2 (Z.leb_le 0 (rtime p))), (proj2 (Z.ltb_lt (rtime p) 32767)) by lia. cbn [andb].
  set (p0 := p <| rtime := rtime p + 1 |>).
  change (rto p0) with (rto p). change (rtime p0) with (rtime p + 1). rewrite (proj2 (Z.leb_le (rto p) (rtime p + 1))) by lia.
  destruct (rto_prepare_sending L NX (x :: us) ws p0) as (p1 & -> & S1 & Ec & Ei & En);
    [by eapply sending_ext|done..|].
  change (conn p0) with (conn p) in Ec. change (ident p0) with (ident p) in Ei. change (netif_idx p0) with (netif_idx p) in En.
  cbn [fst snd]. change (ERR_OK =? ERR_OK) with true. cbn [orb].
  pose proof Ei as Ei'. unfold ident in Ei'. injection Ei' as _ _ _ _ _ _ _ _ _ _ _ Ei1 _ _ _ Ei2 Ei3.
  pose proof (timed_out_fields p1) as F. cbv zeta in F.
  exists (tcp_rexmit_rto_commit (timeout_window (backoff_rto p1))). split; [done|].
  pose proof (timed_out_conn p1) as Fc.
  set (p2 := tcp_rexmit_rto_commit (timeout_window (backoff_rto p1))) in *.
  destruct F as (F1 & F2 & F3 & F4 & F5 & F6 & F7 & F8 & F9 & F10 & F11 & F12 & F13 & F14 & F15 & F16 & F17 & F18).
  clearbody p2. pose proof Ec as Ec'. conn_fields Ec'.
  split; [by eapply sending_ext|]. split; [|split; [congruence|]].
  { rewrite Fc. unfold conn in Ec |- *. cbn. congruence. }
  rewrite F16, F17. rewrite Z.shiftr_div_pow2, Z.shiftl_mul_pow2 by lia.
  assert (Em : mss p1 = mss p) by congruence. assert (Ew : snd_wnd p1 = snd_wnd p) by congruence.
  assert (Ecw : cwnd p1 = cwnd p) by congruence.
  change (2 ^ 1) with 2. rewrite Ei1, (Z.mul_comm (mss p1)), Em, Ew, Ecw. split; [done|]. split.
  - destruct (Z.ltb_spec (Z.min (cwnd p) (snd_wnd p) / 2) (u16 (2 * mss p))); lia.
  - intros Hs. rewrite F18 by congruence. rewrite Z.shiftr_div_pow2, Z.shiftl_mul_pow2 by (try done; apply backoff_nonneg).
    by rewrite Ei1, Ei2, Ei3.
Qed.

(** C12: a time-out: the retransmission timer of a connection with segments in
    flight expires (not in tcp_input; queues in order). When the driver still holds
    a segment in flight, the timer counts on and nothing else happens. Otherwise
    everything in flight is queued again in front of what is unsent, the congestion
    window becomes one segment, the threshold half the effective window but at least
    two segments, the time-out (but for a SYN) the smoothed round trip shifted by
    the backoff, at most 32767, and the number of retransmissions goes up;
    tcp_output then sends from the front of this queue, each packet with the octets
    of its segment and a checksum that verifies, none beyond the new window; at most
    one is refused by IP and goes back; the queues are in order again. With a route,
    a local address, an IP that takes what it is given and a first segment within
    the peer's window and one MSS, that segment is on the wire again, and what stays
    behind does not fit or is held back by Nagle. *)
Theorem slow_rto_retransmits L NX x us ws l p (s : st)
  (Hp : pcbs s !! l = Some p) (Hidle : tcp_input_pcb (rest s) <> Some l)
  (S : sending L NX (x :: us) ws p) (Hso : StronglySorted before ((x :: us) ++ ws))
  (W : Forall (fun y => seg_wf y.2) ((x :: us) ++ ws)) (C : can_send p) (Hst : state p <> LISTEN)
  (Hip : forall o a, o ∈ netif_list (ctl_ip (rest s)) ->
     ip_netif_get_local_ip o (remote_ip p) (ctl_ip (rest s)) = Some a -> ip_ok a)
  (Htime : 0 <= rtime p < 32767) (Hrto : rto p <= rtime p + 1) :
  (Exists (fun y => tcp_output_segment_busy y.2 = true) (x :: us) ->
   slow_rto l p s = Some (put l (p <| rtime := rtime p + 1 |>) s)) /\
  (Forall (fun y => tcp_output_segment_busy y.2 = false) (x :: us) ->
   let wnd := Z.min (snd_wnd p) (mss p) in
   exists s' p' NX' us' sent failed unsent' packets acks,
     slow_rto l p s = Some s' /\ pcbs s' !! l = Some p' /\
     (x :: us) ++ ws = sent ++ failed ++ unsent' /\ (length failed <= 1)%nat /\
     sending L NX' us' (map (placed_as_sent p') failed ++ unsent') p' /\ us' ≡ₚ map (in_flight p') sent /\
     trace (s_net s') = trace (s_net s) ++ packets ++ acks /\ (acks = [] \/ sent ++ failed = []) /\
     Forall2 (fun y e => carries p' (as_sent p' y.2) e) (idle (sent ++ failed)) packets /\
     Forall (in_window L wnd) (sent ++ failed) /\
     state p' = state p /\ nrtx p' = (if nrtx p <? 255 then nrtx p + 1 else nrtx p) /\ cwnd p' = mss p /\
     ssthresh p' = Z.max (u16 (2 * mss p)) (Z.min (cwnd p) (snd_wnd p) / 2) /\
     (state p <> SYN_SENT ->
      rto p' = s16 (Z.min ((sa p / 8 + sv p) * 2 ^ nth (Z.to_nat (Z.min (nrtx p) 12)) tcp_backoff 0) 32767)) /\
     forall outif loc,
       tcp_route (ctl_ip (rest s)) (Some p) (local_ip p) (remote_ip p) = Some outif ->
       ip_netif_get_local_ip outif (remote_ip p) (ctl_ip (rest s)) = Some loc ->
       Forall (eq (Some ERR_OK)) (answers (s_net s)) ->
       (length ((x :: us) ++ ws) <= length (answers (s_net s)))%nat -> in_window L wnd x ->
       failed = [] /\ (exists sent' e, sent = x :: sent' /\ carries p' (as_sent p' x.2) e /\ e ∈ packets) /\
       match unsent' with [] => True | y :: _ => ~ in_window L wnd y \/ held_back p' end).
Proof.
  split.
  { intros Hb. apply slow_rto_busy; try done. rewrite (sd_unacked _ _ _ _ _ S). clear -Hb.
    induction Hb as [y r Hy|y r Hr IH]; cbn in *; [by rewrite Hy|by rewrite IH, orb_true_r]. }
  intros Hb wnd. destruct (slow_rto_requeues L NX x us ws l p s S Hso Hb Htime Hrto)
    as (p2 & -> & S2 & Ec & En & G1 & G2 & G3). pose proof Ec as Ec'. unfold conn in Ec'. cbn in Ec'. conn_fields Ec'.
  assert (R1 : remote_ip p2 = remote_ip p) by congruence. assert (R2 : local_ip p2 = local_ip p) by congruence.
  destruct (tcp_output_spec (ctl_ip (rest s)) (ctl_ticks (rest s)) L NX [] (x :: us ++ ws) false p2 (s_net s))
    as (p' & n' & err & NX' & us' & sent & failed & unsent' & packets & acks & Eo & O & G); try done.
  { destruct C. split; congruence. }
  { congruence. }
  { by rewrite R1. }
  rewrite (output_runs l p2 (put l p2 s) p' n' err);
    [|by apply lookup_insert_eq|by apply bool_decide_eq_false_2|exact Eo].
  cbn [mbind option_bind fst]. pose proof (output_ident _ _ _ _ _ _ _ _ Eo) as Eid.
  unfold ident, core in Eid. injection Eid as Gs _ _ _ _ _ _ _ _ _ _ Gn Gc Gt Gr _ _.
  assert (Ew : Z.min (snd_wnd p2) (cwnd p2) = wnd) by (unfold wnd; congruence).
  pose proof O as [O1 O2 O3 O4 _ O6 O7 O8 O9 _ _ _]. rewrite Ew in O9. rewrite app_nil_r in O4.
  eexists _, p', NX', us', sent, failed, unsent', packets, acks. split; [reflexivity|]. split; [apply lookup_insert_eq|].
  split; [exact O1|]. split; [done|]. split; [done|]. split; [done|]. split; [exact O6|].
  split; [destruct O8 as [?|(? & _)]; [by left|by right]|]. split; [done|]. split; [done|]. split; [congruence|].
  split; [congruence|]. split; [congruence|]. split; [congruence|]. split; [intros; rewrite Gr; auto|].
  intros outif loc Hr Hl Ha Hla Hin.
  assert (R4 : tcp_route (ctl_ip (rest s)) (Some p2) (local_ip p2) (remote_ip p2) = Some outif).
  { rewrite R1, R2, <- Hr. unfold tcp_route. by rewrite En. }
  specialize (G outif loc eq_refl R4 ltac:(by rewrite R1)).
  destruct (first_on_wire _ _ _ _ _ _ _ _ _ _ _ _ _ _ _ O G) as (_ & F1 & F2 & F3);
    [by rewrite Ew|by inversion Hb|done|done|]. rewrite Ew in F3. by split.
Qed.
End rto.

(** Two segments in flight, and nothing heard for three ticks. *)
Definition example_timed_out : tcp_pcb := example_lossy_pcb <| rtime := 2 |> <| rto := 3 |>.
Definition example_lost : stack (ctl unit) := put 1 example_timed_out (example_ctl <| tcp_active_pcbs := [1%positive] |>).

Lemma example_flight_wf seqno a c d :
  bytes_ok d -> length d = 2%nat -> chksum_of d (c, false) -> is_u32 seqno -> seg_wf (example_flight seqno d a c).
Proof. intros Hd Hl Hc Hs. split; try done; try (cbn; lia). apply List.Forall_cons; [cbn; lia|apply List.Forall_nil]. Qed.

Definition example_first : placed := (5000, example_flight 5000 [97; 98] 4096 25185).
Definition example_second : placed := (5002, example_flight 5002 [99; 100] 8192 25699).

Lemma example_timed_out_sending : sending 5000 5004 [example_first; example_second] [] example_timed_out.
Proof. eapply sending_ext; [exact example_lossy_sending|by vm_compute..]. Qed.

Lemma slow_rto_retransmits_witness :
  let wnd := Z.min (snd_wnd example_timed_out) 1460 in
  exists s' p' NX' us' sent failed unsent' packets acks,
    slow_rto (H := no_ip6) 1 example_timed_out example_lost = Some s' /\ pcbs s' !! 1%positive = Some p' /\
    [example_first; example_second] = sent ++ failed ++ unsent' /\ (length failed <= 1)%nat /\
    sending 5000 NX' us' (map (placed_as_sent p') failed ++ unsent') p' /\ us' ≡ₚ map (in_flight p') sent /\
    trace (s_net s') = trace (s_net example_lost) ++ packets ++ acks /\ (acks = [] \/ sent ++ failed = []) /\
    Forall2 (fun y e => carries p' (as_sent p' y.2) e) (idle (sent ++ failed)) packets /\
    Forall (in_window 5000 wnd) (sent ++ failed) /\
    state p' = ESTABLISHED /\ nrtx p' = 1 /\ cwnd p' = 1460 /\ ssthresh p' = 2920 /\ rto p' = 24 /\
    failed = [] /\ (exists sent' e, sent = example_first :: sent' /\ carries p' (as_sent p' example_first.2) e /\ e ∈ packets) /\
    match unsent' with [] => True | y :: _ => ~ in_window 5000 wnd y \/ held_back p' end.
Proof.
  destruct (slow_rto_retransmits (H := no_ip6) 5000 5004 example_first [example_second] []
    1 example_timed_out example_lost) as [_ Hgo].
  - done.
  - done.
  - exact example_timed_out_sending.
  - repeat constructor. by vm_compute.
  - apply List.Forall_cons; [|apply List.Forall_cons; [|apply List.Forall_nil]];
      (apply example_flight_wf; [by repeat constructor|done|by vm_compute|by vm_compute]).
  - split; try (cbn; lia); split; try done; repeat constructor; lia.
  - done.
  - apply example_output_local.
  - cbn. lia.
  - cbn. lia.
  - destruct (Hgo ltac:(by repeat constructor)) as (s' & p' & NX' & us' & sent & failed & unsent' & packets & acks &
      E1 & E2 & E3 & E4 & E5 & E6 & E7 & E8 & E9 & E10 & E11 & E12 & E13 & E14 & E15 & E16).
    destruct (E16 example_netif (nif_ip_addr example_netif)) as (F1 & F2 & F3).
    { done. } { done. } { by repeat constructor. } { cbn. lia. } { unfold in_window. cbn. lia. }
    exists s', p', NX', us', sent, failed, unsent', packets, acks. specialize (E15 ltac:(done)).
    split; [exact E1|]. split; [exact E2|]. split; [exact E3|]. split; [exact E4|]. split; [exact E5|].
    split; [exact E6|]. split; [exact E7|]. split; [exact E8|]. split; [exact E9|]. split; [exact E10|].
    split; [exact E11|]. split; [exact E12|]. split; [exact E13|]. split; [exact E14|]. split; [exact E15|].
    split; [exact F1|]. split; [exact F2|exact F3].
Defined.
